(* ===== verification/_CoqProject ===== *)
-Q . S2P
Prelude.v
SdkMath.v
Sdk.v
Frames.v
TokenRegistry.v
ClpTypes.v
ClpCalc.v
ClpKeeper.v
ClpMsgServer.v
ClpGenesis.v
Json.v
Oracle.v
Ballot.v
OracleGenesis.v
EthBridge.v
Dispensation.v
Sha256.v
IbcTransfer.v
Ante.v
AppFrames.v
RegReads.v
App.v
AppExport.v
IbcDiag.v
GenesisFile.v
AppUpgrade.v
Queriers.v
TxClient.v
GoUrl.v
EbEvents.v
EbSender.v
EbRelayer.v
EbReplay.v
EbMain.v
GoNet.v
AkhgenTypes.v
AkhgenCli.v
Akhgen.v
Legacy.v
RegScript.v
