(* ===== verification/Prelude.v ===== *)
(** * A verification development for akhiranode

    Akhiranode is a Cosmos SDK chain written in Go, with a pool based exchange, a bridge
    to Ethereum decided by its validators, distributions of coins, a registry of
    denominations, IBC transfers, and a relayer program that validators run beside their
    node.  This library models those parts as executable functions and proves what makes
    them correct.

    ** How the model reads

    - A Go call is a [res]: a value, a returned [error], or a panic.  Code that changes state
      is in the monad [M S], a function from a state to a state and a [res]; its notations
      ([do!], [run!], [let!]) and combinators ([mfail_if], [mwrap], [mtry], [mfor]) are in
      this file.  A handler that fails in the middle leaves an intermediate state here; the
      SDK rolls a failed transaction back, so the step relations of the modules ([reachable],
      [bridge_step], ...) drop it.
    - A wrapped error is its root.  Log lines are dropped, and so are events, except the
      three events of the bridge that the relayer reads (EbEvents).
    - A module's [KVStore] is a record with one map per key prefix, with the byte keys the
      code writes ([KV], ordered as the store iterates).  The protobuf encoding of stored
      values is the identity; where the code stores JSON text (the tables of a prophecy, the
      content of a claim), the text is modelled, printed and parsed (Json).
    - Machine integers wrap ([i64], [u64]); [float64] is [spec_float]; [sdk.Uint],
      [sdk.Int] and [sdk.Dec] panic outside their range.
    - The order in which Go visits a map is a parameter (the class [MapOrder] of Oracle).
    - Code outside src/ (the SDK, its bank and staking modules, ibc-go, go-ethereum, a
      bidirectional map) is a class of operations with a class of the laws the program relies
      on.  Each has a reference implementation that satisfies the laws ([RefMath], [RefCoins],
      [RefAddress], [RefBank], ...), used by the witnesses and examples only.  The Go standard
      library (strings, strconv, encoding/json, crypto/sha256, big.Int) is modelled.

    ** The files

    - Prelude: the monads, Go strings and integers, key-value stores, sums over maps, and the
      lemmas, hints and tactics all files share.
    - SdkMath, Sdk: the interfaces of the SDK's numbers, coins, addresses, bank and paging.
    - Frames: what an operation of a module leaves untouched, stated once over the monad.
    - TokenRegistry: x/tokenregistry (types, keeper, message server, handler, genesis,
      migration).  It discharges the class [TokenRegistryKeeper], through which x/clp,
      x/ethbridge and x/ibctransfer read the registry.
    - ClpTypes, ClpCalc, ClpKeeper, ClpMsgServer, ClpGenesis: x/clp.  The types and checks of
      its messages; keeper/pureCalculation.go and keeper/calculations.go; the store, queries
      and the operations that move coins; the handlers of keeper/msg_server.go with the
      router of handler.go; genesis.go.
    - Json: the printing and parsing of encoding/json.
    - Oracle: x/oracle, with the JSON tables of a prophecy, the sums of voting power and the
      threshold arithmetic.  Ballot: its abstract specification, a machine on finite maps.
      OracleGenesis: its genesis.
    - EthBridge: x/ethbridge.  It uses the oracle through the class [OracleKeeper], which
      [OracleService] discharges with the model of Oracle.
    - Dispensation: x/dispensation.
    - Sha256, IbcTransfer: crypto/sha256 and x/ibctransfer, in front of the transfer module of
      ibc-go.
    - Ante: app/ante/ante.go, the chain of decorators and its fee decorator.
    - AppFrames, App: the application.  app/app.go puts the modules beside each other on one
      bank and one registry; a message of any of them is routed to its handler, a transaction
      runs behind the fee decorator, and blocks and genesis go through the module manager.
      AppFrames shows that each module's handlers leave the others' accounts alone, RegReads
      that a message acts on two registries alike when they agree on the entries it reads.
    - AppExport: app/export.go, and the part of cmd/akhiranoded/cmd/root.go that calls it.
    - GenesisFile: the default genesis file and the six commands of cmd/akhiranoded/cmd that
      edit it.
    - AppUpgrade: app/setup_handlers.go, the upgrade of a running chain, with the versions and
      migrations of the modules of the module manager.
    - IbcDiag: cmd/akhiranoded/cmd/ibc-diag.go, the listing of stuck transfers.
    - Queriers: the legacy JSON queriers of the four modules, and the query commands and GET
      routes that call them through a connection; amino JSON is a class with its round trips.
    - TxClient: the transaction commands and the POST routes of the four modules, and the
      commands that write registry files.
    - Legacy: the migration of genesis files of release 39 (the packages legacy/v39 and
      legacy/v42) and its command (cmd/akhiranoded/cmd/migrate.go); an imported file keeps all
      pools.  RegScript: scripts/ibc/tokenregistration/main.go, the migration of registry files,
      against that of the chain.
    - EbEvents, EbSender, EbRelayer, EbReplay, EbMain: cmd/ebrelayer.  The events it reads and
      the claims and messages it makes of them; the sending of a message to Ethereum with its
      retries; the loops that follow the two chains; the replays and the listing of missed
      messages; the commands of the program, and its two goroutines with their restarts, the
      wait group and the signals as a step relation.
    - GoUrl, GoNet: net/url, as far as the relayer looks at an endpoint; addresses of net and
      durations of time, as the network generator writes them.
    - AkhgenTypes, AkhgenCli, Akhgen: the network generator, tools/akhgen and cmd/akhgen.  The
      structs of its files and the reading of JSON into them; the commands it starts and the
      edits of genesis files; the building of networks and nodes.

    ** What the theorems show

    - Application.  Whatever messages of whatever modules come in whatever order, the exchange
      and the distributions stay covered by the shared bank, the registry and the prophecies
      stay well formed, and only the bridge and IBC change the supply of coins, to the coin
      ([app_invariants], [supply_exact]); genesis can be exported and read back
      ([app_genesis_roundtrip]); a denomination off the registry can no longer be pooled, swapped
      or transferred, and everything else goes on as before ([deregistered_frozen]); the genesis
      commands put in the file exactly what they name, balances included ([genesis_commands]), and an
      export starts the chain again ([export_command]).  An upgrade leaves a reachable state, with
      the registry migrated when version 1 of it is recorded ([upgrade_reachable]).
    - Exchange.  Every message keeps what the account holds above the pools
      ([message_keeps_slack]); a swap takes and pays exactly what it
      says and honours the signer's minimum ([swap_protects_signer], [swap_conserves]); what a
      withdrawal and a deposit can yield ([withdrawal_bounds], [withdraw_everything],
      [pool_units_drift]).
    - Registry.  Only the admin changes it, exactly as each message says, and it holds two
      entries for one denomination only if a table written whole did ([handler_functional],
      [registry_copies]).
    - Oracle.  Prophecies keep their two tables consistent, are never reopened, answer every
      claim as stated, depend on the order of maps only when claims tie, and refine the
      ballot machine ([prophecies_well_formed], [finalized_forever], [claim_outcome],
      [completion_order], [oracle_refines_ballot]).
    - Bridge.  An event is paid at most once, with exactly its coins, however validators spell
      it, and only what the oracle completed ([paid_once], [claim_payment], [claims_agree]); locks and burns move exactly their
      coins ([lock_and_burn_exact]).
    - Relayer.  Symbols and amounts survive the way to the other chain and back
      ([ethereum_roundtrip], [cosmos_roundtrip]); every block is read once, in order, over
      failures and restarts, and the loop that catches up ends, with every message of the
      blocks between taken to the Ethereum node, in at most five attempts of one call
      ([ethereum_blocks_once], [cosmos_catches_up]); a replay sends again exactly what it does
      not recognise ([ethereum_replay], [cosmos_replay]); the wait group of the running program
      counts the routines left, a signal lets them leave when each follows its chain, and
      panics after a restart ([relayer_supervision]).
    - Dispensation.  A run pays exactly the first ten due records, and enough runs settle a
      distribution ([run_pays], [distribution_completes]).
    - IBC and fees.  What a received packet must satisfy and is converted to
      ([recv_converts]), which transfers are listed as stuck ([stuck_transfers]), and the fee
      a transaction owes ([fee_floor]).
    - Network generator.  A network that is built has the validators, addresses, commands, peers
      and genesis files it should ([network_build]); a node of its own gets the genesis that is
      asked for, without the registry of denominations, which the edits lose
      ([standalone_genesis]).
    - Clients.  What the five GET routes of the exchange answer is what is stored
      ([clp_rest_queries]); a command hands over checked messages only, to be signed by the
      account of [--from], which six bridge commands do not compare with the one that has to
      sign; and every valid message can be typed ([tx_commands_sound], [messages_can_be_sent]).

    ** Fuel and bounds

    - [json_parse] runs with twice the length of the text plus two, more than a document of
      that length can nest; the round trips of Json show it suffices for every printed one.
    - Decimal and byte digits use the number of bits of the integer, more than its digits.
    - The retries of EbSender have the bounds of the code, 5, 5 and 60.
    - [catch_up] of EbRelayer, whose loop in the code has no bound, takes fuel and answers
      whether it was enough; [cosmos_catches_up] gives an amount that is, for every larger one.
    - [read_pages] of IbcDiag takes one page more than the packets fill, which
      [stuck_transfers] shows is enough.
    - The groups of an IPv6 address are at most eight, as in the code.
    - SHA-256 has its 48 expansion steps and 64 rounds, a run of x/dispensation its limit of 10
      records, IBC and bridge constants the values of the code.

    ** Not modelled

    - The SDK's own modules and ante decorators, cobra, viper and the HTTP servers: what the
      source calls of them is a class, or an argument of the definitions.
    - Generated code: protobuf encodings, gRPC gateways and contract bindings; simulation and
      test helpers.
    - The relayer's key ring and the signing of its messages; the generator of its bindings.
    - The node's start-up and the generator's printing of keys.  The operating system, the
      programs that are started, and the YAML and TOML codecs are classes. *)

From Stdlib Require Import ZArith Lia Ascii String.
From stdpp Require Import base list gmap strings sorting.

#[global] Open Scope string_scope.
#[global] Open Scope list_scope.
#[global] Open Scope Z_scope.

(** ** Errors and results *)

(** A Go [error]: a sentinel registered with the SDK, identified by its module
    codespace and code, or a plain [errors.New].  [Wrap] only adds text to an
    error and keeps its root, so a wrapped error is its root. *)
Inductive GoError :=
| RegisteredErr (codespace : string) (code : Z)
| PlainErr (text : string).

#[export] Instance GoError_eq_dec : EqDecision GoError.
Proof. solve_decision. Defined.

(** The outcome of a Go call: a value, a returned [error], or a panic. *)
Inductive res (A : Type) :=
| Ok (a : A)
| Err (e : GoError)
| Panic.
Arguments Ok {_} _.
Arguments Err {_} _.
Arguments Panic {_}.

Definition rbind {A B} (m : res A) (f : A -> res B) : res B :=
  match m with Ok a => f a | Err e => Err e | Panic => Panic end.

(** [panicOnErr m] is [if err != nil { panic(err) }]. *)
Definition panicOnErr {A} (m : res A) : res A :=
  match m with Ok a => Ok a | Err _ => Panic | Panic => Panic end.

Definition is_ok {A} (m : res A) : bool :=
  match m with Ok _ => true | _ => false end.

(** ** Stateful code *)

(** A Go function that reads and writes the stores reached through
    [sdk.Context].  Writes made before an error are kept: undoing them is the
    caller's (the transaction runner's) decision. *)
Definition M (S A : Type) : Type := S -> S * res A.

Definition mret {S A} (a : A) : M S A := fun s => (s, Ok a).
Definition mthrow {S A} (e : GoError) : M S A := fun s => (s, Err e).
Definition mpanic {S A} : M S A := fun s => (s, Panic).
Definition mbnd {S A B} (m : M S A) (f : A -> M S B) : M S B :=
  fun s => match m s with
           | (s', Ok a) => f a s'
           | (s', Err e) => (s', Err e)
           | (s', Panic) => (s', Panic)
           end.
Definition mlift {S A} (r : res A) : M S A := fun s => (s, r).
Definition mgets {S A} (f : S -> A) : M S A := fun s => (s, Ok (f s)).
Definition mmodify {S} (f : S -> S) : M S unit := fun s => (f s, Ok tt).

(** [mtry m]: the caller looks at the returned [err] instead of propagating it. *)
Definition mtry {S A} (m : M S A) : M S (A + GoError) :=
  fun s => match m s with
           | (s', Ok a) => (s', Ok (inl a))
           | (s', Err e) => (s', Ok (inr e))
           | (s', Panic) => (s', Panic)
           end.

(** [mwrap e m] is [if err != nil { return Wrap(e, err.Error()) }]. *)
Definition mwrap {S A} (e : GoError) (m : M S A) : M S A :=
  fun s => match m s with
           | (s', Ok a) => (s', Ok a)
           | (s', Err _) => (s', Err e)
           | (s', Panic) => (s', Panic)
           end.
Definition rwrap {A} (e : GoError) (m : res A) : res A :=
  match m with Ok a => Ok a | Err _ => Err e | Panic => Panic end.

(** [mmust m] is [if err != nil { panic(err) }]. *)
Definition mmust {S A} (m : M S A) : M S A :=
  fun s => match m s with
           | (s', Ok a) => (s', Ok a)
           | (s', _) => (s', Panic)
           end.

(** [guard c e] is [if c { return e }]. *)
Definition mfail_if {S} (c : bool) (e : GoError) : M S unit :=
  if c then mthrow e else mret tt.

Definition fail_if (c : bool) (e : GoError) : res unit := if c then Err e else Ok tt.

Declare Scope go_scope.
Delimit Scope go_scope with go.
#[global] Open Scope go_scope.

Notation "'let!' x := m 'in' k" := (rbind m (fun x => k))
  (at level 10, x name, m at level 100, k at level 200) : go_scope.
Notation "'let!' ' p := m 'in' k" := (rbind m (fun x => match x with p => k end))
  (at level 10, p pattern, m at level 100, k at level 200) : go_scope.
Notation "'do!' x <- m ; k" := (mbnd m (fun x => k))
  (at level 10, x name, m at level 100, k at level 200) : go_scope.
Notation "'do!' ' p <- m ; k" := (mbnd m (fun x => match x with p => k end))
  (at level 10, p pattern, m at level 100, k at level 200) : go_scope.
Notation "'run!' m ; k" := (mbnd m (fun _ => k))
  (at level 10, m at level 100, k at level 200) : go_scope.

(** [for _, x := range l { body }], in order, stopping at the first error. *)
Fixpoint mfor {S A} (l : list A) (body : A -> M S unit) : M S unit :=
  match l with
  | [] => mret tt
  | x :: l' => run! body x; mfor l' body
  end.

(** The same loop with loop-carried variables. *)
Fixpoint mfold {S A B} (f : B -> A -> M S B) (b : B) (l : list A) : M S B :=
  match l with
  | [] => mret b
  | x :: l' => do! b' <- f b x; mfold f b' l'
  end.

Fixpoint rmap {A B} (f : A -> res B) (l : list A) : res (list B) :=
  match l with
  | [] => Ok []
  | x :: l' => let! y := f x in let! ys := rmap f l' in Ok (y :: ys)
  end.

(** ** Machine integers *)

Definition u64 (z : Z) : Z := z mod 2^64.
Definition i64 (z : Z) : Z := (z + 2^63) mod 2^64 - 2^63.

(** ** Decimal text *)

Definition digit (d : Z) : ascii := ascii_of_nat (48 + Z.to_nat d).

Fixpoint dec_digits (fuel : nat) (n : Z) (acc : string) : string :=
  match fuel with
  | O => acc
  | S f =>
      let acc' := String (digit (n mod 10)) acc in
      if n <? 10 then acc' else dec_digits f (n / 10) acc'
  end.

(** [big.Int.String] and [strconv.FormatInt(_, 10)]: the shortest decimal text.
    The fuel bounds the number of digits by the number of bits. *)
Definition nonneg_String (n : Z) : string := dec_digits (S (Z.to_nat (Z.log2 n))) n "".
Definition big_String (z : Z) : string :=
  if z <? 0 then "-" +:+ nonneg_String (- z) else nonneg_String z.

Definition digit_val (c : ascii) : option Z :=
  let n := Z.of_nat (nat_of_ascii c) in
  if (48 <=? n) && (n <=? 57) then Some (n - 48) else None.

Fixpoint parse_digits (s : string) (acc : Z) : option Z :=
  match s with
  | EmptyString => Some acc
  | String c s' => match digit_val c with
                   | Some d => parse_digits s' (10 * acc + d)
                   | None => None
                   end
  end.

Definition parse_nonneg (s : string) : option Z :=
  match s with EmptyString => None | _ => parse_digits s 0 end.
Definition parse_int (s : string) : option Z :=
  match s with
  | String "-" s' => Z.opp <$> parse_nonneg s'
  | _ => parse_nonneg s
  end.

(** [big.Int.SetString(s, 10)]. *)
Definition big_SetString (s : string) : option Z :=
  match s with String "+" s' => parse_nonneg s' | _ => parse_int s end.

(** [strconv.Atoi] and [strconv.ParseInt(s, 10, 64)] take a sign, [strconv.ParseUint(s, 10, 64)]
    does not; a number that does not fit is an error. *)
Definition ErrNumber : GoError := PlainErr "strconv: invalid number".
Definition Atoi (s : string) : res Z :=
  match big_SetString s with
  | Some z => if (- 2 ^ 63 <=? z) && (z <? 2 ^ 63) then Ok z else Err ErrNumber
  | None => Err ErrNumber
  end.
Definition ParseUint (s : string) : res Z :=
  match parse_nonneg s with
  | Some z => if z <? 2 ^ 64 then Ok z else Err ErrNumber
  | None => Err ErrNumber
  end.

(** ** Go strings: sequences of bytes *)

Definition str_len (s : string) : Z := Z.of_nat (String.length s).

Definition to_lower_ascii (c : ascii) : ascii :=
  let n := nat_of_ascii c in
  if (65 <=? n)%nat && (n <=? 90)%nat then ascii_of_nat (n + 32) else c.

(** [strings.ToLower] on ASCII text. *)
Fixpoint ToLower (s : string) : string :=
  match s with
  | EmptyString => EmptyString
  | String c s' => String (to_lower_ascii c) (ToLower s')
  end.

(** [strings.EqualFold] on ASCII text. *)
Definition EqualFold (s t : string) : bool := String.eqb (ToLower s) (ToLower t).

Definition is_space (c : ascii) : bool :=
  let n := nat_of_ascii c in ((9 <=? n) && (n <=? 13) || (n =? 32))%nat.

Fixpoint trim_left (s : string) : string :=
  match s with
  | String c s' => if is_space c then trim_left s' else s
  | EmptyString => EmptyString
  end.

Fixpoint trim_right (s : string) : string :=
  match s with
  | EmptyString => EmptyString
  | String c s' =>
      match trim_right s' with
      | EmptyString => if is_space c then EmptyString else String c EmptyString
      | t => String c t
      end
  end.

(** [strings.TrimSpace] on ASCII text. *)
Definition TrimSpace (s : string) : string := trim_right (trim_left s).

(** [strings.Contains(s, sub)]. *)
Fixpoint Contains (s sub : string) : bool :=
  String.prefix sub s ||
  match s with EmptyString => false | String _ s' => Contains s' sub end.

Definition HasPrefix (s p : string) : bool := String.prefix p s.

(** [s[n:]] for [n <= len(s)]. *)
Fixpoint str_drop (n : nat) (s : string) : string :=
  match n, s with
  | O, _ => s
  | S n', String _ s' => str_drop n' s'
  | S _, EmptyString => EmptyString
  end.

(** A one-byte store key prefix. *)
Definition byte1 (n : nat) : string := String (ascii_of_nat n) EmptyString.

(** ** Key-value stores *)

(** A module's [KVStore]: a finite map from byte keys to values.  The protobuf
    codec is modelled as the identity on the values it stores. *)
Abbreviation KV V := (gmap string V).

Definition key_le {V} (a b : string * V) : Prop := String.leb a.1 b.1 = true.
#[export] Instance key_le_dec {V} : RelDecision (@key_le V).
Proof. intros a b. unfold key_le. apply _. Defined.

(** [sdk.KVStorePrefixIterator]: the pairs whose key has the prefix, in
    ascending byte order of the keys. *)
Definition kv_prefix {V} (p : string) (m : KV V) : list (string * V) :=
  merge_sort key_le (filter (fun kv : string * V => String.prefix p kv.1 = true) (map_to_list m)).

(** [store.Iterator(start, nil)]: the pairs with [start <= key], ascending. *)
Definition kv_from {V} (start : string) (m : KV V) : list (string * V) :=
  merge_sort key_le (filter (fun kv : string * V => String.leb start kv.1 = true) (map_to_list m)).

(** Sum of a measure of the values of a map. *)
Definition map_sum {V} (f : V -> Z) (m : KV V) : Z :=
  map_fold (fun _ v acc => f v + acc) 0 m.

(** ** Inversion of successful runs *)

Lemma rbind_ok_inv {A B} (m : res A) (f : A -> res B) b :
  rbind m f = Ok b -> exists a, m = Ok a /\ f a = Ok b.
Proof. destruct m; naive_solver. Qed.

Lemma rwrap_ok_inv {A} e (m : res A) a : rwrap e m = Ok a -> m = Ok a.
Proof. destruct m; naive_solver. Qed.

Lemma panicOnErr_ok_inv {A} (m : res A) a : panicOnErr m = Ok a -> m = Ok a.
Proof. destruct m; naive_solver. Qed.

Lemma mbnd_ok_inv {S A B} (m : M S A) (f : A -> M S B) s s' b :
  mbnd m f s = (s', Ok b) -> exists a s1, m s = (s1, Ok a) /\ f a s1 = (s', Ok b).
Proof. unfold mbnd. destruct (m s) as [s1 []]; naive_solver. Qed.

Lemma mret_ok_inv {S A} (a b : A) (s s' : S) :
  mret a s = (s', Ok b) -> s' = s /\ b = a.
Proof. unfold mret. naive_solver. Qed.

Lemma mlift_ok_inv {S A} (r : res A) (s s' : S) b :
  mlift r s = (s', Ok b) -> s' = s /\ r = Ok b.
Proof. unfold mlift. naive_solver. Qed.

Lemma mgets_ok_inv {S A} (f : S -> A) s s' b :
  mgets f s = (s', Ok b) -> s' = s /\ b = f s.
Proof. unfold mgets. naive_solver. Qed.

Lemma mmodify_ok_inv {S} (f : S -> S) s s' (b : unit) :
  mmodify f s = (s', Ok b) -> s' = f s.
Proof. unfold mmodify. naive_solver. Qed.

Lemma mwrap_ok_inv {S A} e (m : M S A) s s' b :
  mwrap e m s = (s', Ok b) -> m s = (s', Ok b).
Proof. unfold mwrap. destruct (m s) as [? []]; naive_solver. Qed.

Lemma mmust_ok_inv {S A} (m : M S A) s s' b :
  mmust m s = (s', Ok b) -> m s = (s', Ok b).
Proof. unfold mmust. destruct (m s) as [? []]; naive_solver. Qed.

Lemma mtry_ok_inv {S A} (m : M S A) s s' b :
  mtry m s = (s', Ok b) ->
  (exists a, b = inl a /\ m s = (s', Ok a)) \/ (exists e, b = inr e /\ m s = (s', Err e)).
Proof. unfold mtry. destruct (m s) as [? []]; naive_solver. Qed.

Lemma mfail_if_ok_inv {S} c e (s s' : S) u :
  mfail_if c e s = (s', Ok u) -> c = false /\ s' = s.
Proof. destruct c; unfold mfail_if, mthrow, mret; naive_solver. Qed.

(** Forward evaluation of a run whose first statement is known. *)
Lemma mbnd_run {S A B} (m : M S A) (f : A -> M S B) s s1 a : m s = (s1, Ok a) -> mbnd m f s = f a s1.
Proof. unfold mbnd. by intros ->. Qed.
Lemma mbnd_lift {S A B} (r : res A) (f : A -> M S B) s a : r = Ok a -> mbnd (mlift r) f s = f a s.
Proof. by intros ->. Qed.
Lemma mbnd_pass {S B} c e (f : unit -> M S B) s : c = false -> mbnd (mfail_if c e) f s = f tt s.
Proof. by intros ->. Qed.
Lemma mbnd_stop {S B} c e (f : unit -> M S B) s : c = true -> mbnd (mfail_if c e) f s = (s, Err e).
Proof. by intros ->. Qed.

Lemma mtry_run {S A} (m : M S A) s s1 a : m s = (s1, Ok a) -> mtry m s = (s1, Ok (inl a)).
Proof. unfold mtry. by intros ->. Qed.
Lemma run_ok {S A} (f : M S A) s a : (f s).2 = Ok a -> f s = ((f s).1, Ok a).
Proof. destruct (f s). simpl. by intros ->. Qed.

(** One inversion step on a hypothesis saying that a run succeeded. *)
Ltac go_step :=
  match goal with
  | H : rbind _ _ = Ok _ |- _ => apply rbind_ok_inv in H as (? & ? & ?)
  | H : rwrap _ _ = Ok _ |- _ => apply rwrap_ok_inv in H
  | H : panicOnErr _ = Ok _ |- _ => apply panicOnErr_ok_inv in H
  | H : mbnd _ _ _ = (_, Ok _) |- _ => apply mbnd_ok_inv in H as (? & ? & ? & ?)
  | H : mret _ _ = (_, Ok _) |- _ => apply mret_ok_inv in H as (? & ?); subst
  | H : mlift _ _ = (_, Ok _) |- _ => apply mlift_ok_inv in H as (? & ?); subst
  | H : mgets _ _ = (_, Ok _) |- _ => apply mgets_ok_inv in H as (? & ?); subst
  | H : mmodify _ _ = (_, Ok _) |- _ => apply mmodify_ok_inv in H; subst
  | H : mwrap _ _ _ = (_, Ok _) |- _ => apply mwrap_ok_inv in H
  | H : mfail_if _ _ _ = (_, Ok _) |- _ => apply mfail_if_ok_inv in H as (? & ?); subst
  | H : mthrow _ _ = (_, Ok _) |- _ => discriminate H
  | H : mpanic _ = (_, Ok _) |- _ => discriminate H
  | H : Err _ = Ok _ |- _ => discriminate H
  | H : Panic = Ok _ |- _ => discriminate H
  | H : Ok _ = Ok _ |- _ => injection H as H; subst
  end.
Ltac go_inv := repeat go_step.

(** The same, one step at a time and with names: the first statement of a run
    is a pure computation, a check, or another stateful call. *)
Tactic Notation "lift_step" hyp(H) "as" simple_intropattern(x) simple_intropattern(E) :=
  apply mbnd_ok_inv in H as (x & ? & [-> E]%mlift_ok_inv & H).
Tactic Notation "check_step" hyp(H) "as" simple_intropattern(E) :=
  apply mbnd_ok_inv in H as (? & ? & [E ->]%mfail_if_ok_inv & H).
Tactic Notation "get_step" hyp(H) :=
  apply mbnd_ok_inv in H as (? & ? & [-> ->]%mgets_ok_inv & H); try unfold id in H.
Tactic Notation "run_step" hyp(H) "as" simple_intropattern(x) simple_intropattern(s) simple_intropattern(E) :=
  apply mbnd_ok_inv in H as (x & s & E & H).

(** Case analysis on the condition or scrutinee that blocks the next step. *)
Ltac go_case :=
  match goal with
  | H : (if ?c then _ else _) = Ok _ |- _ => destruct c eqn:?
  | H : (if ?c then _ else _) _ = (_, Ok _) |- _ => destruct c eqn:?
  | H : match ?x with _ => _ end = Ok _ |- _ => destruct x eqn:?
  | H : match ?x with _ => _ end _ = (_, Ok _) |- _ => destruct x eqn:?
  end.
Ltac go_all := repeat (go_step || go_case).

(** ** Runs that fail without effect *)

(** A run that never changes the state, and one that changes it only if it succeeds. *)
Definition readonly {S A} (m : M S A) : Prop := forall s, (m s).1 = s.
Definition atomic {S A} (m : M S A) : Prop :=
  forall s s' r, m s = (s', r) -> is_ok r = false -> s' = s.

Lemma readonly_mret {S A} (a : A) : readonly (S := S) (mret a).
Proof. done. Qed.
Lemma readonly_mthrow {S A} e : readonly (S := S) (A := A) (mthrow e).
Proof. done. Qed.
Lemma readonly_mpanic {S A} : readonly (S := S) (A := A) mpanic.
Proof. done. Qed.
Lemma readonly_mlift {S A} (r : res A) : readonly (S := S) (mlift r).
Proof. done. Qed.
Lemma readonly_mgets {S A} (f : S -> A) : readonly (mgets f).
Proof. done. Qed.
Lemma readonly_mfail_if {S} c e : readonly (S := S) (mfail_if c e).
Proof. by destruct c. Qed.
Lemma readonly_mwrap {S A} e (m : M S A) : readonly m -> readonly (mwrap e m).
Proof. intros Hm s. specialize (Hm s). unfold mwrap. by destruct (m s) as [? []]. Qed.
Lemma readonly_mbnd {S A B} (m : M S A) (f : A -> M S B) :
  readonly m -> (forall a, readonly (f a)) -> readonly (mbnd m f).
Proof.
  intros Hm Hf s. specialize (Hm s). unfold mbnd. destruct (m s) as [s1 [a| |]]; simpl in *; subst; [apply Hf|done..].
Qed.

Lemma atomic_readonly {S A} (m : M S A) : readonly m -> atomic m.
Proof. intros Hm s s' r Hr _. specialize (Hm s). by rewrite Hr in Hm. Qed.
Lemma atomic_mmodify {S} (f : S -> S) : atomic (mmodify f).
Proof. by intros s s' r [= <- <-]. Qed.
Lemma atomic_mwrap {S A} e (m : M S A) : atomic m -> atomic (mwrap e m).
Proof.
  intros Hm s s' r Hr Hk. unfold mwrap in Hr. destruct (m s) as [s1 [a|e1|]] eqn:E; injection Hr as <- <-;
    [done|eapply Hm; eauto..].
Qed.
Lemma atomic_mbnd {S A B} (m : M S A) (f : A -> M S B) :
  readonly m -> (forall a, atomic (f a)) -> atomic (mbnd m f).
Proof.
  intros Hm Hf s s' r Hr Hk. specialize (Hm s). unfold mbnd in Hr.
  destruct (m s) as [s1 [a| |]]; simpl in *; subst; [by eapply Hf|by injection Hr as <- <-..].
Qed.
(** A last write whose continuation cannot fail. *)
Lemma atomic_mbnd_last {S A B} (m : M S A) (f : A -> M S B) :
  atomic m -> (forall a s, is_ok (f a s).2 = true) -> atomic (mbnd m f).
Proof.
  intros Hm Hf s s' r Hr Hk. unfold mbnd in Hr. destruct (m s) as [s1 [a|e|]] eqn:E.
  - specialize (Hf a s1). rewrite Hr in Hf. simpl in Hf. congruence.
  - injection Hr as <- <-. by eapply Hm.
  - injection Hr as <- <-. by eapply Hm.
Qed.

Create HintDb atomic.
#[export] Hint Resolve readonly_mret readonly_mthrow readonly_mpanic readonly_mlift readonly_mgets readonly_mfail_if
  readonly_mwrap readonly_mbnd : atomic.
#[export] Hint Resolve atomic_mmodify atomic_mwrap atomic_mbnd | 2 : atomic.
#[export] Hint Resolve atomic_readonly | 5 : atomic.
Ltac solve_atomic := repeat (intros; first [progress case_match | progress eauto with atomic]).

(** ** Loops *)

(** A loop keeps every property that its body keeps. *)
Lemma mfor_inv {S A} (P : S -> Prop) (body : A -> M S unit) l s s' u :
  (forall x s s' u, x ∈ l -> P s -> body x s = (s', Ok u) -> P s') ->
  P s -> mfor l body s = (s', Ok u) -> P s'.
Proof.
  revert s; induction l as [|x l IH]; intros s Hb HP Hr; simpl in Hr; go_inv; [done|].
  eapply IH; [|eapply Hb; [by left| |]; eauto|eauto].
  intros; eapply Hb; eauto; by right.
Qed.

Lemma mfor_app {St X} (l1 l2 : list X) (f : X -> M St unit) s :
  mfor (l1 ++ l2) f s = mbnd (mfor l1 f) (fun _ => mfor l2 f) s.
Proof.
  revert s. induction l1 as [|x l1 IH]; intros s; [done|]. cbn [mfor app]. unfold mbnd. destruct (f x s) as [s' [u|e|]]; [|done..].
  rewrite IH. done.
Qed.

Lemma mfor_ext {St X} (l : list X) (f g : X -> M St unit) s : Forall (fun x => f x = g x) l -> mfor l f s = mfor l g s.
Proof.
  intros Hl. revert s. induction Hl as [|x l Hx _ IH]; intros s; [done|]. cbn [mfor]. rewrite Hx. unfold mbnd.
  destruct (g x s) as [s' [u|e|]]; [apply IH|done..].
Qed.

(** ** Sums over a map *)

Section MapSum.
Context {V : Type} (f : V -> Z).

Lemma map_sum_empty : map_sum f ∅ = 0.
Proof. unfold map_sum. by rewrite map_fold_empty. Qed.

Lemma map_sum_insert_None m k v :
  m !! k = None -> map_sum f (<[k:=v]> m) = f v + map_sum f m.
Proof.
  intros Hk. unfold map_sum. rewrite map_fold_insert_L; [done| |done].
  intros; lia.
Qed.

Lemma map_sum_lookup m k v :
  m !! k = Some v -> map_sum f m = f v + map_sum f (delete k m).
Proof.
  intros Hk. rewrite <- (insert_delete_id m k v Hk) at 1.
  by rewrite map_sum_insert_None by apply lookup_delete_eq.
Qed.

(** Total after writing a key: the old contribution of the key is replaced. *)
Lemma map_sum_insert m k v :
  map_sum f (<[k:=v]> m) = f v + map_sum f m - from_option f 0 (m !! k).
Proof.
  destruct (m !! k) as [w|] eqn:Hk; simpl.
  - rewrite (map_sum_lookup (<[k:=v]> m) k v) by apply lookup_insert_eq.
    rewrite (map_sum_lookup m k w Hk), delete_insert_eq. lia.
  - rewrite map_sum_insert_None by done. lia.
Qed.

Lemma map_sum_delete m k :
  map_sum f (delete k m) = map_sum f m - from_option f 0 (m !! k).
Proof.
  destruct (m !! k) as [w|] eqn:Hk; simpl.
  - rewrite (map_sum_lookup m k w Hk). lia.
  - rewrite delete_id by done. lia.
Qed.

(** The same sum over any listing of the entries. *)
Lemma map_sum_list m l : l ≡ₚ map_to_list m -> foldr (fun kv acc => f kv.2 + acc) 0 l = map_sum f m.
Proof.
  intros Hl. assert (forall l1 l2 : list (string * V), l1 ≡ₚ l2 ->
    foldr (fun kv acc => f kv.2 + acc) 0 l1 = foldr (fun kv acc => f kv.2 + acc) 0 l2) as Hp.
  { induction 1; simpl; lia. }
  rewrite (Hp _ _ Hl). clear Hl l. induction m as [|k v m Hk IH] using map_ind.
  - by rewrite map_to_list_empty, map_sum_empty.
  - rewrite map_sum_insert_None, <- IH by done. by rewrite (Hp _ _ (map_to_list_insert m k v Hk)).
Qed.

Lemma map_sum_nonneg m : (forall k v, m !! k = Some v -> 0 <= f v) -> 0 <= map_sum f m.
Proof.
  induction m as [|k v m Hk IH] using map_ind; intros Hf.
  - by rewrite map_sum_empty.
  - rewrite map_sum_insert_None by done.
    pose proof (Hf k v ltac:(apply lookup_insert_eq)).
    enough (0 <= map_sum f m) by lia. apply IH. intros k' v' Hk'.
    apply (Hf k'). rewrite lookup_insert_ne; [done|naive_solver].
Qed.

Lemma map_sum_subset m ks :
  (forall k v, m !! k = Some v -> 0 <= f v) -> NoDup ks ->
  0 <= foldr (fun k acc => from_option f 0 (m !! k) + acc) 0 ks <= map_sum f m.
Proof.
  revert m; induction ks as [|k ks IH]; intros m Hf Hnd; simpl.
  - pose proof (map_sum_nonneg m Hf). lia.
  - apply NoDup_cons in Hnd as [Hk Hnd].
    assert (foldr (fun k acc => from_option f 0 (m !! k) + acc) 0 ks
      = foldr (fun j acc => from_option f 0 (delete k m !! j) + acc) 0 ks) as ->.
    { clear IH Hnd. induction ks as [|j ks IHk]; simpl; [done|]. apply not_elem_of_cons in Hk as [? ?].
      rewrite lookup_delete_ne, IHk by done. done. }
    destruct (IH (delete k m)) as [H1 H2]; [|done|].
    + intros j v [_ ?]%lookup_delete_Some. eauto.
    + rewrite map_sum_delete in H2. destruct (m !! k) as [v|] eqn:E; simpl in *; [|lia].
      specialize (Hf _ _ E). lia.
Qed.

Lemma map_sum_ge m k v :
  (forall k v, m !! k = Some v -> 0 <= f v) -> m !! k = Some v -> f v <= map_sum f m.
Proof.
  intros Hf Hk. rewrite (map_sum_lookup m k v Hk).
  enough (0 <= map_sum f (delete k m)) by lia.
  apply map_sum_nonneg. intros k' v' [? Hd]%lookup_delete_Some. eauto.
Qed.
End MapSum.

Create Rewrite HintDb mapsum.
#[export] Hint Rewrite @map_sum_empty @map_sum_insert @map_sum_delete : mapsum.

(** ** Iteration over a store *)

Section Iteration.
Context {V : Type}.

Lemma elem_of_kv_prefix p (m : KV V) k v :
  (k, v) ∈ kv_prefix p m <-> m !! k = Some v /\ String.prefix p k = true.
Proof.
  unfold kv_prefix. rewrite merge_sort_Permutation, list_elem_of_filter, elem_of_map_to_list.
  simpl. naive_solver.
Qed.

Lemma kv_prefix_NoDup p (m : KV V) : NoDup (kv_prefix p m).*1.
Proof.
  unfold kv_prefix. rewrite merge_sort_Permutation.
  eapply sublist_NoDup; [apply (NoDup_fst_map_to_list m)|].
  apply fmap_sublist, sublist_filter.
Qed.

Lemma kv_prefix_Forall (P : string -> V -> Prop) p (m : KV V) :
  map_Forall P m -> Forall (fun kv => P kv.1 kv.2) (kv_prefix p m).
Proof. intros Hm. apply Forall_forall. intros [k v] [Hk _]%elem_of_kv_prefix. by apply Hm. Qed.

Lemma kv_prefix_length p (m : KV V) : (length (kv_prefix p m) <= size m)%nat.
Proof.
  rewrite <- length_map_to_list. unfold kv_prefix. rewrite merge_sort_Permutation. apply length_filter.
Qed.

(** Inserting the entries of any listing of a store rebuilds it. *)
Lemma insert_listing (l : list (string * V)) (m : KV V) :
  NoDup l.*1 -> (forall k v, (k, v) ∈ l <-> m !! k = Some v) ->
  fold_left (fun acc kv => <[kv.1 := kv.2]> acc) l ∅ = m.
Proof.
  intros Hnd Hm. assert (forall l (acc : KV V), NoDup l.*1 ->
    fold_left (fun acc kv => <[kv.1 := kv.2]> acc) l acc = list_to_map l ∪ acc) as Hl.
  { clear. induction l as [|[k v] l IH]; intros acc Hnd; simpl; [by rewrite (left_id_L ∅ (∪))|].
    apply NoDup_cons in Hnd as [Hk Hnd]. rewrite IH by done.
    rewrite <- insert_union_r; [by rewrite insert_union_l|].
    by apply not_elem_of_list_to_map_1. }
  rewrite Hl by done. rewrite (right_id_L ∅ (∪)). apply map_eq. intros k.
  apply option_eq. intros v. by rewrite <- elem_of_list_to_map, Hm.
Qed.

Lemma insert_kv_prefix p (m : KV V) :
  map_Forall (fun k _ => String.prefix p k = true) m ->
  fold_left (fun acc kv => <[kv.1 := kv.2]> acc) (kv_prefix p m) ∅ = m.
Proof.
  intros Hm. apply insert_listing; [apply kv_prefix_NoDup|]. intros k v. rewrite elem_of_kv_prefix.
  split; [by intros [? _]|]. intros Hk. split; [done|]. by apply (Hm _ _ Hk).
Qed.

(** A loop over the values of a listing whose body writes each value under its key. *)
Lemma mfor_entries {St X} (g : V -> X) (body : X -> M St unit) (upd : (KV V -> KV V) -> St -> St)
    (wf : string -> V -> Prop) l s :
  (forall k v s, wf k v -> body (g v) s = (upd <[k := v]> s, Ok tt)) ->
  (forall f h s, upd f (upd h s) = upd (fun m => f (h m)) s) -> (forall s, upd (fun m => m) s = s) ->
  Forall (fun kv => wf kv.1 kv.2) l ->
  mfor (g <$> l.*2) body s = (upd (fun m => fold_left (fun acc kv => <[kv.1 := kv.2]> acc) l m) s, Ok tt).
Proof.
  intros Hb Hu Hid Hl. revert s. induction Hl as [|[k v] l Hk Hl IH]; intros s; simpl; [by rewrite Hid|].
  unfold mbnd. rewrite (Hb k) by done. rewrite IH. by rewrite Hu.
Qed.

Lemma elem_of_kv_from p (m : KV V) k v :
  (k, v) ∈ kv_from p m <-> m !! k = Some v /\ String.leb p k = true.
Proof.
  unfold kv_from. rewrite merge_sort_Permutation, list_elem_of_filter, elem_of_map_to_list.
  simpl. naive_solver.
Qed.

Lemma kv_from_NoDup p (m : KV V) : NoDup (kv_from p m).*1.
Proof.
  unfold kv_from. rewrite merge_sort_Permutation. eapply sublist_NoDup; [apply (NoDup_fst_map_to_list m)|].
  apply fmap_sublist, sublist_filter.
Qed.
End Iteration.

(** ** Concatenation *)

Lemma u64_small z : 0 <= z < 2 ^ 64 -> u64 z = z.
Proof. apply Z.mod_small. Qed.
Lemma i64_small z : - 2 ^ 63 <= z < 2 ^ 63 -> i64 z = z.
Proof. intros Hz. unfold i64. rewrite Z.mod_small by lia. lia. Qed.

Lemma string_length_app s t : String.length (s +:+ t) = (String.length s + String.length t)%nat.
Proof. induction s as [|c s IH]; simpl; [done|]. by rewrite IH. Qed.

Lemma app_inv_tail_string a b s : a +:+ s = b +:+ s -> a = b.
Proof.
  revert b; induction a as [|c a IH]; intros [|c' b] E; [done|..].
  - exfalso. apply (f_equal String.length) in E. rewrite !string_length_app in E. simpl in E. lia.
  - exfalso. apply (f_equal String.length) in E. rewrite !string_length_app in E. simpl in E. lia.
  - injection E as -> E. f_equal. auto.
Qed.

(** ** Decimal text: length and round trip *)

Lemma digit_val_digit d : 0 <= d < 10 -> digit_val (digit d) = Some d.
Proof.
  intros Hd. assert (d = 0 \/ d = 1 \/ d = 2 \/ d = 3 \/ d = 4 \/ d = 5 \/ d = 6 \/ d = 7
    \/ d = 8 \/ d = 9) as Hc by lia.
  by repeat destruct Hc as [->|Hc]; subst.
Qed.

(** The digits of [n] in front of [acc]: how many there are, and what they read as. *)
Lemma dec_digits_spec fuel n acc :
  0 <= n < 2 ^ Z.of_nat fuel ->
  exists k, (1 <= fuel -> 1 <= k)%nat
    /\ String.length (dec_digits fuel n acc) = (k + String.length acc)%nat
    /\ n < 10 ^ Z.of_nat k
    /\ (n = 0 \/ 10 ^ (Z.of_nat k - 1) <= n)
    /\ forall a, parse_digits (dec_digits fuel n acc) a
                 = parse_digits acc (10 ^ Z.of_nat k * a + n).
Proof.
  revert n acc; induction fuel as [|fuel IH]; intros n acc Hn.
  - exists 0%nat. rewrite Nat2Z.inj_0 in Hn. change (2 ^ 0) with 1 in Hn.
    split_and!; [lia|done|change (10 ^ Z.of_nat 0) with 1; lia|lia|].
    intros a. simpl dec_digits. f_equal. change (10 ^ Z.of_nat 0) with 1. lia.
  - cbn [dec_digits]. pose proof (Z.mod_pos_bound n 10 ltac:(lia)) as Hm.
    pose proof (Z.div_mod n 10 ltac:(lia)) as Hdm.
    destruct (Z.ltb_spec n 10).
    + exists 1%nat. split_and!; [lia|done|change (10 ^ Z.of_nat 1) with 10; lia| |].
      * change (10 ^ (Z.of_nat 1 - 1)) with 1. lia.
      * intros a. cbn [parse_digits]. rewrite digit_val_digit by done.
        change (10 ^ Z.of_nat 1) with 10. rewrite Z.mod_small by lia. done.
    + destruct (IH (n / 10) (String (digit (n mod 10)) acc)) as (k & Hk & Hl & Hu & Hlo & Hp).
      { rewrite Nat2Z.inj_succ, Z.pow_succ_r in Hn by lia. split; [apply Z.div_pos; lia|].
        apply Z.div_lt_upper_bound; lia. }
      assert (1 <= n / 10) by (apply Z.div_le_lower_bound; lia).
      exists (S k). rewrite Nat2Z.inj_succ.
      assert (10 ^ Z.succ (Z.of_nat k) = 10 * 10 ^ Z.of_nat k) as Hpow by (apply Z.pow_succ_r; lia).
      assert (1 <= k)%nat as Hk1.
      { destruct k; [|lia]. change (10 ^ Z.of_nat 0) with 1 in Hu. lia. }
      split_and!; [lia|rewrite Hl; simpl; lia|lia| |].
      * right. replace (Z.succ (Z.of_nat k) - 1) with (Z.succ (Z.of_nat k - 1)) by lia.
        rewrite Z.pow_succ_r by lia. lia.
      * intros a. rewrite Hp. cbn [parse_digits]. rewrite digit_val_digit by done.
        f_equal. rewrite Hpow. lia.
Qed.

Lemma nonneg_fuel n : 0 <= n -> 0 <= n < 2 ^ Z.of_nat (S (Z.to_nat (Z.log2 n))).
Proof.
  intros Hn. split; [done|]. rewrite Nat2Z.inj_succ, Z2Nat.id by apply Z.log2_nonneg.
  destruct (decide (n = 0)) as [->|]; [done|]. apply Z.log2_spec; lia.
Qed.

(** [len(n.String())] is the number of decimal digits of [n]. *)
Lemma big_String_length n :
  0 <= n -> exists k, str_len (big_String n) = k /\ 1 <= k /\ n < 10 ^ k
    /\ (n = 0 \/ 10 ^ (k - 1) <= n).
Proof.
  intros Hn. unfold big_String. rewrite (proj2 (Z.ltb_ge n 0)) by lia. unfold nonneg_String.
  destruct (dec_digits_spec _ n "" (nonneg_fuel n Hn)) as (k & Hk & Hl & Hu & Hlo & _).
  exists (Z.of_nat k). unfold str_len. rewrite Hl. simpl String.length. split_and!; [lia..|done|done].
Qed.

Lemma parse_nonneg_String n : 0 <= n -> parse_nonneg (nonneg_String n) = Some n.
Proof.
  intros Hn. unfold nonneg_String.
  destruct (dec_digits_spec _ n "" (nonneg_fuel n Hn)) as (k & Hk & Hl & _ & _ & Hp).
  unfold parse_nonneg. specialize (Hp 0). destruct (dec_digits _ _ _) eqn:E.
  - simpl in Hl. lia.
  - rewrite Hp. simpl. f_equal. lia.
Qed.

Lemma nonneg_String_head n : exists c s, nonneg_String n = String c s.
Proof.
  unfold nonneg_String. cbn [dec_digits].
  assert (forall f m a, exists c s, dec_digits f m (String a EmptyString) = String c s) as Haux.
  { assert (forall f m acc, acc <> EmptyString -> exists c s, dec_digits f m acc = String c s) as Hg;
      [|intros; by apply Hg].
    induction f as [|f IH]; intros m acc Ha; simpl.
    - destruct acc; [done|eauto].
    - destruct (m <? 10); [eauto|]. by apply IH. }
  destruct (n <? 10); eauto.
Qed.

(** Parsing undoes printing. *)
Lemma parse_big_String z : parse_int (big_String z) = Some z.
Proof.
  unfold big_String. destruct (Z.ltb_spec z 0).
  - change (Z.opp <$> parse_nonneg (nonneg_String (- z)) = Some z).
    rewrite parse_nonneg_String by lia. simpl. f_equal. lia.
  - pose proof (parse_nonneg_String z ltac:(lia)) as Hp.
    destruct (nonneg_String_head z) as (c & s & E). rewrite E in *.
    unfold parse_int. destruct c as [[][][][][][][][]]; try done.
Qed.

Lemma big_String_inj z1 z2 : big_String z1 = big_String z2 -> z1 = z2.
Proof.
  intros E. apply (f_equal parse_int) in E. rewrite !parse_big_String in E. congruence.
Qed.

(** A separator that the second part cannot contain splits a text in one way only. *)
Definition free_of (c : ascii) (s : string) : Prop := forall u v, s <> u +:+ String c v.

Lemma separated_inj c a b x y :
  free_of c x -> free_of c y -> a +:+ String c x = b +:+ String c y -> a = b /\ x = y.
Proof.
  intros Hx Hy. revert b. induction a as [|a0 a IH]; intros [|b0 b] E; simpl in E.
  - by injection E as ->.
  - injection E as <- E. by apply Hx in E.
  - injection E as -> E. symmetry in E. by apply Hy in E.
  - injection E as -> E. apply IH in E as [-> ->]. done.
Qed.

Lemma parse_digits_stop c u v acc : digit_val c = None -> parse_digits (u +:+ String c v) acc = None.
Proof.
  intros Hc. revert acc. induction u as [|a u IH]; intros acc; simpl; [by rewrite Hc|]. destruct (digit_val a); [apply IH|done].
Qed.

Lemma big_String_free z : free_of "_" (big_String z).
Proof.
  intros u v E. pose proof (parse_big_String z) as Hp. rewrite E in Hp.
  assert (forall u, parse_nonneg (u +:+ String "_" v) = None) as Hn.
  { intros u'. unfold parse_nonneg. rewrite parse_digits_stop by done. by destruct u'. }
  assert (parse_int (u +:+ String "_" v) = None \/ exists u', u = String "-" u') as [Hi|[u' ->]]; [|congruence|].
  - destruct u as [|[[] [] [] [] [] [] [] []] u]; try (by left; apply (Hn _)). right; eauto.
  - simpl in Hp. by rewrite Hn in Hp.
Qed.

Lemma TrimSpace_nonblank c s : is_space c = false -> str_len (TrimSpace (String c s)) <> 0.
Proof.
  intros Hc. unfold TrimSpace. cbn [trim_left]. rewrite Hc. cbn [trim_right].
  destruct (trim_right s); [rewrite Hc|]; unfold str_len; cbn [String.length]; lia.
Qed.
