(* ===== verification/SdkMath.v ===== *)
(** * The SDK's number types as an interface

    [sdk.Uint], [sdk.Int] and [sdk.Dec] come from the Cosmos SDK, which is not
    part of this repository.  The code that uses them is modelled against the
    class [SdkMath] of their operations, and theorems assume [SdkMathLaws]: the
    documented behaviour (256-bit unsigned range, panics on overflow, 18-decimal
    fixed point with rounding).  A [Uint] or an [Int] is the integer it denotes,
    and its comparisons are those of the integers; a [Dec] is the integer
    value x 10^18.  [RefMath] is one implementation that satisfies the laws, so
    that concrete runs can be evaluated. *)

From Stdlib Require Import ZArith Lia Ascii String.
From stdpp Require Import base list gmap strings.
From S2P Require Import Prelude.

(** One, as a [Dec]. *)
Definition prec : Z := 10 ^ 18.

Class SdkMath := {
  Uint_Add : Z -> Z -> res Z;
  Uint_Sub : Z -> Z -> res Z;
  Uint_Mul : Z -> Z -> res Z;
  Uint_Quo : Z -> Z -> res Z;
  NewUintFromBigInt : Z -> res Z;
  NewUintFromString : string -> res Z;
  Int_Add : Z -> Z -> res Z;
  Int_Sub : Z -> Z -> res Z;
  NewIntFromBigInt : Z -> res Z;
  NewIntFromString : string -> option Z;
  NewDecFromBigInt : Z -> Z;
  NewDecFromStr : string -> res Z;
  Dec_Add : Z -> Z -> res Z;
  Dec_Sub : Z -> Z -> res Z;
  Dec_Mul : Z -> Z -> res Z;
  Dec_Quo : Z -> Z -> res Z;
  Dec_MulTruncate : Z -> Z -> res Z;
  Dec_QuoTruncate : Z -> Z -> res Z;
  Dec_Power : Z -> Z -> res Z;
  Dec_RoundInt : Z -> Z;
  Dec_TruncateInt : Z -> Z;
}.

(** [sdk.NewDec] takes an [int64]; [sdk.NewDecFromInt] an [Int]. *)
Definition NewDec `{SdkMath} (i : Z) : Z := NewDecFromBigInt i.

(** What the SDK documents.  Every operation that can overflow panics when the
    result does not fit, so a result, when there is one, is the exact value
    ([Uint], [Int], [Dec] sums), the product rounded to the nearest unit in the
    last place, or the quotient rounded after 36 decimals. *)
Class SdkMathLaws `{SdkMath} : Prop := {
  Uint_Add_ok a b c : Uint_Add a b = Ok c -> c = a + b /\ c < 2 ^ 256;
  Uint_Add_total a b : 0 <= a -> 0 <= b -> a + b < 2 ^ 256 -> Uint_Add a b = Ok (a + b);
  Uint_Sub_ok a b c : Uint_Sub a b = Ok c -> c = a - b /\ 0 <= c;
  Uint_Sub_total a b : 0 <= b <= a -> a < 2 ^ 256 -> Uint_Sub a b = Ok (a - b);
  Uint_Mul_ok a b c : Uint_Mul a b = Ok c -> c = a * b /\ c < 2 ^ 256;
  Uint_Mul_total a b : 0 <= a -> 0 <= b -> a * b < 2 ^ 256 -> Uint_Mul a b = Ok (a * b);
  Uint_Quo_ok a b c : Uint_Quo a b = Ok c -> b <> 0 /\ c = a / b;
  Uint_Quo_total a b : 0 <= a < 2 ^ 256 -> 0 < b -> Uint_Quo a b = Ok (a / b);
  NewUintFromBigInt_ok z c : NewUintFromBigInt z = Ok c -> c = z /\ 0 <= z < 2 ^ 256;
  NewUintFromBigInt_total z : 0 <= z < 2 ^ 256 -> NewUintFromBigInt z = Ok z;
  NewUintFromString_eq z : 0 <= z < 2 ^ 256 -> NewUintFromString (big_String z) = Ok z;
  Int_Add_ok a b c : Int_Add a b = Ok c -> c = a + b;
  Int_Add_total a b : Z.abs (a + b) < 2 ^ 255 -> Int_Add a b = Ok (a + b);
  Int_Sub_ok a b c : Int_Sub a b = Ok c -> c = a - b;
  Int_Sub_total a b : Z.abs (a - b) < 2 ^ 255 -> Int_Sub a b = Ok (a - b);
  NewIntFromBigInt_ok z c : NewIntFromBigInt z = Ok c -> c = z;
  NewIntFromBigInt_total z : Z.abs z < 2 ^ 255 -> NewIntFromBigInt z = Ok z;
  NewIntFromString_ok z c : NewIntFromString (big_String z) = Some c -> c = z;
  NewIntFromString_total z : Z.abs z < 2 ^ 255 -> NewIntFromString (big_String z) = Some z;
  NewDecFromBigInt_eq z : NewDecFromBigInt z = z * prec;
  NewDecFromStr_ok z d : NewDecFromStr (big_String z) = Ok d -> d = z * prec;
  NewDecFromStr_total z : Z.abs (z * prec) < 2 ^ 255 -> NewDecFromStr (big_String z) = Ok (z * prec);
  Dec_Add_ok x y z : Dec_Add x y = Ok z -> z = x + y;
  Dec_Add_total x y : Z.abs (x + y) < 2 ^ 255 -> Dec_Add x y = Ok (x + y);
  Dec_Sub_ok x y z : Dec_Sub x y = Ok z -> z = x - y;
  Dec_Sub_total x y : Z.abs (x - y) < 2 ^ 255 -> Dec_Sub x y = Ok (x - y);
  Dec_Mul_ok x y z : Dec_Mul x y = Ok z -> 2 * Z.abs (z * prec - x * y) <= prec;
  Dec_Mul_total x y : Z.abs (x * y) < prec * 2 ^ 254 -> is_ok (Dec_Mul x y) = true;
  Dec_Quo_ok x y z : Dec_Quo x y = Ok z ->
    y <> 0 /\ 2 * prec * Z.abs (z * y - x * prec) <= Z.abs y * (prec + 2);
  Dec_Quo_mono x1 y1 z1 x2 y2 z2 : 0 <= x1 -> 0 < y1 -> 0 <= x2 -> 0 < y2 ->
    x1 * y2 <= x2 * y1 -> Dec_Quo x1 y1 = Ok z1 -> Dec_Quo x2 y2 = Ok z2 -> z1 <= z2;
  Dec_Quo_total x y : y <> 0 -> Z.abs (x * prec) < Z.abs y * 2 ^ 254 -> is_ok (Dec_Quo x y) = true;
  Dec_MulTruncate_ok x y z : 0 <= x -> 0 <= y -> Dec_MulTruncate x y = Ok z -> z = x * y / prec;
  Dec_QuoTruncate_ok x y z : 0 <= x -> 0 < y -> Dec_QuoTruncate x y = Ok z -> z = x * prec / y;
  Dec_Power_ok n d : 0 <= n -> Dec_Power (10 * prec) n = Ok d -> d = 10 ^ n * prec;
  Dec_Power_total n : 0 <= n -> 10 ^ n * prec < 2 ^ 255 -> is_ok (Dec_Power (10 * prec) n) = true;
  Dec_RoundInt_bound d : 2 * Z.abs (Dec_RoundInt d * prec - d) <= prec;
  Dec_RoundInt_mono d1 d2 : d1 <= d2 -> Dec_RoundInt d1 <= Dec_RoundInt d2;
  Dec_TruncateInt_eq d : 0 <= d -> Dec_TruncateInt d = d / prec;
}.

Lemma prec_pos : 0 < prec.
Proof. done. Qed.

(** ** A reference implementation *)

Definition in_uint (z : Z) : res Z := if (0 <=? z) && (z <? 2 ^ 256) then Ok z else Panic.
Definition in_int (z : Z) : res Z := if Z.abs z <? 2 ^ 255 then Ok z else Panic.

(** Round [n / prec] to the nearest integer, ties to even. *)
Definition chop_nonneg (n : Z) : Z :=
  let q := n / prec in
  let r := n mod prec in
  if 2 * r <? prec then q
  else if prec <? 2 * r then q + 1
  else if Z.even q then q else q + 1.
Definition chop (n : Z) : Z := if n <? 0 then - chop_nonneg (- n) else chop_nonneg n.

Fixpoint dec_power (x : Z) (n : nat) : res Z :=
  match n with
  | O => Ok prec
  | S n' => let! y := dec_power x n' in in_int (chop (y * x))
  end.

(** A decimal with a point and at most 18 digits after it. *)
Definition parse_point (s : string) : option Z :=
  match String.index 0 "." s with
  | Some i =>
      let frac := substring (S i) (String.length s - S i) s in
      if (String.length frac <=? 18)%nat
      then parse_int (substring 0 i s +:+ frac +:+ string_of_list_ascii (repeat "0"%char (18 - String.length frac)))
      else None
  | None => None
  end.

Definition RefMath : SdkMath := {|
  Uint_Add a b := in_uint (a + b);
  Uint_Sub a b := in_uint (a - b);
  Uint_Mul a b := in_uint (a * b);
  Uint_Quo a b := if b =? 0 then Panic else in_uint (a / b);
  NewUintFromBigInt := in_uint;
  NewUintFromString s := match parse_int s with Some z => in_uint z | None => Panic end;
  Int_Add a b := in_int (a + b);
  Int_Sub a b := in_int (a - b);
  NewIntFromBigInt := in_int;
  NewIntFromString s := match parse_int s with
                        | Some z => if Z.abs z <? 2 ^ 255 then Some z else None
                        | None => None end;
  NewDecFromBigInt z := z * prec;
  NewDecFromStr s := match parse_int s with
                     | Some z => if Z.abs (z * prec) <? 2 ^ 255 then Ok (z * prec)
                                 else Err (RegisteredErr "sdk" 1)
                     | None => match parse_point s with Some z => in_int z | None => Err (RegisteredErr "sdk" 1) end end;
  Dec_Add x y := in_int (x + y);
  Dec_Sub x y := in_int (x - y);
  Dec_Mul x y := in_int (chop (x * y));
  Dec_Quo x y := if y =? 0 then Panic else in_int (chop (Z.quot (x * prec * prec) y));
  Dec_MulTruncate x y := in_int (Z.quot (x * y) prec);
  Dec_QuoTruncate x y :=
    if y =? 0 then Panic else in_int (Z.quot (Z.quot (x * prec * prec) y) prec);
  Dec_Power x n := dec_power x (Z.to_nat n);
  Dec_RoundInt := chop;
  Dec_TruncateInt d := Z.quot d prec;
|}.

Lemma chop_nonneg_bound n : 0 <= n -> 2 * Z.abs (chop_nonneg n * prec - n) <= prec.
Proof.
  intros Hn. unfold chop_nonneg. pose proof prec_pos.
  pose proof (Z.mod_pos_bound n prec ltac:(done)). pose proof (Z.div_mod n prec ltac:(done)).
  destruct (Z.ltb_spec (2 * (n mod prec)) prec); [nia|].
  destruct (Z.ltb_spec prec (2 * (n mod prec))); [nia|].
  destruct (Z.even _); nia.
Qed.

Lemma chop_bound n : 2 * Z.abs (chop n * prec - n) <= prec.
Proof.
  unfold chop. destruct (Z.ltb_spec n 0).
  - pose proof (chop_nonneg_bound (- n) ltac:(lia)). lia.
  - by apply chop_nonneg_bound.
Qed.

Lemma chop_mono n m : n <= m -> chop n <= chop m.
Proof.
  intros Hnm. destruct (decide (n = m)) as [->|]; [done|].
  pose proof (chop_bound n). pose proof (chop_bound m). pose proof prec_pos. nia.
Qed.

Lemma chop_exact k : chop (k * prec) = k.
Proof. pose proof (chop_bound (k * prec)). pose proof prec_pos. nia. Qed.

Lemma chop_small n b : Z.abs n < prec * b -> Z.abs (chop n) <= b.
Proof. pose proof (chop_bound n). pose proof prec_pos. nia. Qed.

Lemma in_uint_ok z c : in_uint z = Ok c <-> c = z /\ 0 <= z < 2 ^ 256.
Proof. unfold in_uint. destruct (Z.leb_spec 0 z), (Z.ltb_spec z (2 ^ 256)); simpl; naive_solver lia. Qed.

Lemma in_int_ok z c : in_int z = Ok c <-> c = z /\ Z.abs z < 2 ^ 255.
Proof. unfold in_int. destruct (Z.ltb_spec (Z.abs z) (2 ^ 255)); naive_solver lia. Qed.

Lemma is_ok_true {A} (m : res A) : is_ok m = true <-> exists a, m = Ok a.
Proof. destruct m; naive_solver. Qed.

Lemma dec_power_10 n d : dec_power (10 * prec) n = Ok d -> d = 10 ^ Z.of_nat n * prec.
Proof.
  revert d; induction n as [|n IH]; intros d Hd; cbn [dec_power] in Hd; go_inv.
  - change (10 ^ Z.of_nat 0) with 1. lia.
  - apply in_int_ok in H0 as [-> _]. rewrite (IH _ H).
    replace (10 ^ Z.of_nat n * prec * (10 * prec)) with (10 ^ Z.of_nat (S n) * prec * prec);
      [apply chop_exact|]. rewrite Nat2Z.inj_succ, Z.pow_succ_r by lia. ring.
Qed.

Lemma dec_power_10_total n :
  10 ^ Z.of_nat n * prec < 2 ^ 255 -> exists d, dec_power (10 * prec) n = Ok d.
Proof.
  induction n as [|n IH]; intros Hn; cbn [dec_power]; [by eauto|].
  rewrite Nat2Z.inj_succ, Z.pow_succ_r in Hn by lia.
  assert (0 < 10 ^ Z.of_nat n) by (apply Z.pow_pos_nonneg; lia). pose proof prec_pos.
  destruct IH as [d Hd]; [nia|]. rewrite Hd. simpl rbind. rewrite (dec_power_10 _ _ Hd).
  replace (10 ^ Z.of_nat n * prec * (10 * prec)) with (10 * 10 ^ Z.of_nat n * prec * prec) by ring.
  rewrite chop_exact. exists (10 * 10 ^ Z.of_nat n * prec). apply in_int_ok. split; [done|].
  rewrite Z.abs_eq by nia. lia.
Qed.

Lemma quot_close a b : b <> 0 -> Z.abs (Z.quot a b * b - a) <= Z.abs b.
Proof.
  intros Hb. pose proof (Z.quot_rem a b Hb). pose proof (Z.rem_bound_abs a b Hb). lia.
Qed.

Lemma div_mono_cross a b c d : 0 < b -> 0 < d -> a * d <= c * b -> a / b <= c / d.
Proof.
  intros Hb Hd Hc. apply Z.div_le_lower_bound; [done|].
  pose proof (Z.mul_div_le a b Hb). nia.
Qed.

Lemma ref_quo_close x y z :
  y <> 0 -> z = chop (Z.quot (x * prec * prec) y) ->
  2 * prec * Z.abs (z * y - x * prec) <= Z.abs y * (prec + 2).
Proof.
  intros Hy ->. set (q := Z.quot (x * prec * prec) y).
  pose proof (chop_bound q). pose proof (quot_close (x * prec * prec) y Hy) as Hq. fold q in Hq.
  pose proof prec_pos. set (z := chop q) in *.
  assert (prec * (z * y - x * prec) = (z * prec - q) * y + (q * y - x * prec * prec)) as E by ring.
  rewrite <- (Z.abs_eq prec) at 1 by lia. rewrite <- Z.mul_assoc, <- Z.abs_mul, E.
  pose proof (Z.abs_triangle ((z * prec - q) * y) (q * y - x * prec * prec)) as Ht.
  rewrite Z.abs_mul in Ht. nia.
Qed.

Lemma ref_quo_mono x1 y1 x2 y2 :
  0 <= x1 -> 0 < y1 -> 0 <= x2 -> 0 < y2 -> x1 * y2 <= x2 * y1 ->
  chop (Z.quot (x1 * prec * prec) y1) <= chop (Z.quot (x2 * prec * prec) y2).
Proof.
  intros. pose proof prec_pos. apply chop_mono.
  rewrite !Z.quot_div_nonneg by nia. apply div_mono_cross; [done|done|].
  replace (x1 * prec * prec * y2) with (x1 * y2 * (prec * prec)) by ring.
  replace (x2 * prec * prec * y1) with (x2 * y1 * (prec * prec)) by ring. nia.
Qed.

Lemma ref_quo_small x y :
  y <> 0 -> Z.abs (x * prec) < Z.abs y * 2 ^ 254 ->
  Z.abs (chop (Z.quot (x * prec * prec) y)) < 2 ^ 255.
Proof.
  intros Hy Hx. pose proof prec_pos.
  assert (Z.abs (Z.quot (x * prec * prec) y) < prec * 2 ^ 254) as Hq.
  { rewrite <- Z.quot_abs by done. rewrite Z.quot_div_nonneg by lia.
    apply Z.div_lt_upper_bound; [lia|]. rewrite !Z.abs_mul in *. rewrite (Z.abs_eq prec) in * by lia. nia. }
  apply chop_small in Hq. lia.
Qed.

Lemma RefMath_laws : @SdkMathLaws RefMath.
Proof.
  pose proof prec_pos. split; cbn -[Z.pow prec in_uint in_int chop Z.quot Z.div big_String parse_int].
  - intros a b c [-> ?]%in_uint_ok. lia.
  - intros. apply in_uint_ok. lia.
  - intros a b c [-> ?]%in_uint_ok. lia.
  - intros. apply in_uint_ok. lia.
  - intros a b c [-> ?]%in_uint_ok. lia.
  - intros. apply in_uint_ok. nia.
  - intros a b c. destruct (Z.eqb_spec b 0); [done|]. intros [-> ?]%in_uint_ok. done.
  - intros a b ? ?. destruct (Z.eqb_spec b 0); [lia|]. apply in_uint_ok. split; [done|].
    split; [apply Z.div_pos; lia|]. apply Z.div_lt_upper_bound; nia.
  - intros z c [-> ?]%in_uint_ok. lia.
  - intros. apply in_uint_ok. lia.
  - intros. rewrite parse_big_String. apply in_uint_ok. lia.
  - intros a b c [-> ?]%in_int_ok. lia.
  - intros. apply in_int_ok. lia.
  - intros a b c [-> ?]%in_int_ok. lia.
  - intros. apply in_int_ok. lia.
  - intros z c [-> ?]%in_int_ok. lia.
  - intros. apply in_int_ok. lia.
  - intros z c. rewrite parse_big_String. case_match; naive_solver.
  - intros z Hz. rewrite parse_big_String. by rewrite (proj2 (Z.ltb_lt _ _) Hz).
  - done.
  - intros z d. rewrite parse_big_String. case_match; naive_solver.
  - intros z Hz. rewrite parse_big_String. by rewrite (proj2 (Z.ltb_lt _ _) Hz).
  - intros x y z [-> ?]%in_int_ok. lia.
  - intros. apply in_int_ok. lia.
  - intros x y z [-> ?]%in_int_ok. lia.
  - intros. apply in_int_ok. lia.
  - intros x y z [-> ?]%in_int_ok. apply chop_bound.
  - intros x y Hxy%chop_small. apply is_ok_true. eexists. apply in_int_ok. split; [done|]. lia.
  - intros x y z. destruct (Z.eqb_spec y 0); [done|]. intros [-> ?]%in_int_ok.
    split; [done|]. by apply ref_quo_close.
  - intros x1 y1 z1 x2 y2 z2 ?????. destruct (Z.eqb_spec y1 0); [lia|].
    destruct (Z.eqb_spec y2 0); [lia|]. intros [-> _]%in_int_ok [-> _]%in_int_ok.
    by apply ref_quo_mono.
  - intros x y Hy Hx. destruct (Z.eqb_spec y 0); [done|]. apply is_ok_true. eexists.
    apply in_int_ok. split; [done|]. by apply ref_quo_small.
  - intros x y z ?? [-> _]%in_int_ok. apply Z.quot_div_nonneg; nia.
  - intros x y z ??. destruct (Z.eqb_spec y 0); [done|]. intros [-> _]%in_int_ok.
    rewrite (Z.quot_div_nonneg (x * prec * prec)) by nia.
    rewrite Z.quot_div_nonneg; [|apply Z.div_pos; nia|done].
    rewrite Z.div_div by lia. by rewrite Z.div_mul_cancel_r by lia.
  - intros n d Hn Hd%dec_power_10. by rewrite Z2Nat.id in Hd.
  - intros n Hn Hb. apply is_ok_true, dec_power_10_total. by rewrite Z2Nat.id.
  - intros. apply chop_bound.
  - intros. by apply chop_mono.
  - intros. by apply Z.quot_div_nonneg.
Qed.
