(* ===== verification/Sdk.v ===== *)
(** * The SDK services the modules call, as interfaces

    Coins, addresses, the bank keeper and store pagination belong to the Cosmos
    SDK.  Each is a class of operations with a class of laws (what the SDK
    documents and the modules rely on) and one reference implementation that
    satisfies the laws, used to evaluate concrete runs. *)

From Stdlib Require Import ZArith Lia Ascii String.
From stdpp Require Import base list gmap strings sorting.
From S2P Require Import Prelude SdkMath.

(** ** Coins *)

Record Coin := mkCoin { Coin_Denom : string; Coin_Amount : Z }.

#[export] Instance Coin_eq_dec : EqDecision Coin.
Proof. solve_decision. Defined.

(** The amount of a denomination in a list of coins. *)
Fixpoint AmountOf (cs : list Coin) (d : string) : Z :=
  match cs with
  | [] => 0
  | c :: cs' => (if String.eqb (Coin_Denom c) d then Coin_Amount c else 0) + AmountOf cs' d
  end.

Class SdkCoins := {
  ValidDenom : string -> bool;
  Coin_IsValid : Coin -> bool;
  NewCoin : string -> Z -> res Coin;
  Coin_Add : Coin -> Coin -> res Coin;
  Coin_Sub : Coin -> Coin -> res Coin;
  NewCoins : list Coin -> res (list Coin);
  Coins_Add : list Coin -> list Coin -> res (list Coin);
  Coins_IsValid : list Coin -> bool;
  Coins_IsAllPositive : list Coin -> bool;
  Coins_Sort : list Coin -> list Coin;
}.

Class SdkCoinsLaws `{SdkCoins} : Prop := {
  Coin_IsValid_eq c : Coin_IsValid c = ValidDenom (Coin_Denom c) && (0 <=? Coin_Amount c);
  NewCoin_ok d a c : NewCoin d a = Ok c -> c = mkCoin d a /\ 0 <= a /\ ValidDenom d = true;
  NewCoin_total d a : ValidDenom d = true -> 0 <= a -> NewCoin d a = Ok (mkCoin d a);
  Coin_Add_ok c1 c2 c : Coin_Add c1 c2 = Ok c ->
    Coin_Denom c1 = Coin_Denom c2 /\ c = mkCoin (Coin_Denom c1) (Coin_Amount c1 + Coin_Amount c2);
  Coin_Sub_ok c1 c2 c : Coin_Sub c1 c2 = Ok c ->
    Coin_Denom c1 = Coin_Denom c2 /\ Coin_Amount c2 <= Coin_Amount c1
    /\ c = mkCoin (Coin_Denom c1) (Coin_Amount c1 - Coin_Amount c2);
  NewCoins_ok cs r : NewCoins cs = Ok r ->
    (forall d, AmountOf r d = AmountOf cs d) /\ Forall (fun c => 0 < Coin_Amount c) r;
  Coins_Add_ok a b r : Coins_Add a b = Ok r -> forall d, AmountOf r d = AmountOf a d + AmountOf b d;
  Coins_Sort_perm cs : Coins_Sort cs ≡ₚ cs;
  Coins_IsValid_pos cs : Coins_IsValid cs = true -> Forall (fun c => 0 < Coin_Amount c) cs;
}.

Lemma AmountOf_nonneg cs d : Forall (fun c => 0 < Coin_Amount c) cs -> 0 <= AmountOf cs d.
Proof. induction 1; simpl; [done|]. case_match; lia. Qed.

Definition coin_le (a b : Coin) : Prop := String.leb (Coin_Denom a) (Coin_Denom b) = true.
#[export] Instance coin_le_dec : RelDecision coin_le.
Proof. intros a b. unfold coin_le. apply _. Defined.

(** A reference implementation: lists sorted by denomination without zeros. *)
Fixpoint insert_coin (c : Coin) (cs : list Coin) : list Coin :=
  match cs with
  | [] => if Coin_Amount c =? 0 then [] else [c]
  | c' :: cs' =>
      match String.compare (Coin_Denom c) (Coin_Denom c') with
      | Lt => if Coin_Amount c =? 0 then c' :: cs' else c :: c' :: cs'
      | Eq => let a := Coin_Amount c + Coin_Amount c' in
              if a =? 0 then cs' else mkCoin (Coin_Denom c') a :: cs'
      | Gt => c' :: insert_coin c cs'
      end
  end.

Definition ref_valid_denom (d : string) : bool := (2 <? str_len d) && (str_len d <? 129).
Definition ref_coins_positive (cs : list Coin) : bool := forallb (fun c => 0 <? Coin_Amount c) cs.
Definition ref_newcoin (d : string) (a : Z) : res Coin :=
  if ref_valid_denom d && (0 <=? a) then Ok (mkCoin d a) else Panic.

Definition RefCoins : SdkCoins := {|
  ValidDenom := ref_valid_denom;
  Coin_IsValid c := ref_valid_denom (Coin_Denom c) && (0 <=? Coin_Amount c);
  NewCoin := ref_newcoin;
  Coin_Add c1 c2 :=
    if String.eqb (Coin_Denom c1) (Coin_Denom c2)
    then Ok (mkCoin (Coin_Denom c1) (Coin_Amount c1 + Coin_Amount c2)) else Panic;
  Coin_Sub c1 c2 :=
    if String.eqb (Coin_Denom c1) (Coin_Denom c2) && (Coin_Amount c2 <=? Coin_Amount c1)
    then Ok (mkCoin (Coin_Denom c1) (Coin_Amount c1 - Coin_Amount c2)) else Panic;
  NewCoins cs :=
    let r := foldr insert_coin [] cs in
    if ref_coins_positive r && bool_decide (NoDup (Coin_Denom <$> cs)) then Ok r else Panic;
  Coins_Add a b := Ok (foldr insert_coin a b);
  Coins_IsValid cs := ref_coins_positive cs;
  Coins_IsAllPositive cs := match cs with [] => false | _ => ref_coins_positive cs end;
  Coins_Sort cs := merge_sort coin_le cs;
|}.

Lemma AmountOf_insert_coin c cs d :
  AmountOf (insert_coin c cs) d = (if String.eqb (Coin_Denom c) d then Coin_Amount c else 0) + AmountOf cs d.
Proof.
  induction cs as [|c' cs IH]; simpl.
  - destruct (Z.eqb_spec (Coin_Amount c) 0); simpl; destruct (String.eqb _ d); lia.
  - destruct (String.compare _ _) eqn:E.
    + apply String.compare_eq_iff in E. rewrite E.
      destruct (Z.eqb_spec (Coin_Amount c + Coin_Amount c') 0); simpl;
        destruct (String.eqb (Coin_Denom c') d); lia.
    + destruct (Z.eqb_spec (Coin_Amount c) 0); simpl; destruct (String.eqb (Coin_Denom c) d); lia.
    + simpl. rewrite IH. lia.
Qed.

Lemma AmountOf_foldr_insert a b d : AmountOf (foldr insert_coin a b) d = AmountOf b d + AmountOf a d.
Proof. induction b as [|c b IH]; simpl; [done|]. rewrite AmountOf_insert_coin, IH. lia. Qed.

Lemma ref_coins_positive_spec cs : ref_coins_positive cs = true -> Forall (fun c => 0 < Coin_Amount c) cs.
Proof.
  unfold ref_coins_positive. rewrite forallb_forall. intros H. apply Forall_forall.
  intros c Hc%list_elem_of_In. apply Z.ltb_lt. auto.
Qed.

Lemma RefCoins_laws : @SdkCoinsLaws RefCoins.
Proof.
  split; cbn -[insert_coin].
  - done.
  - intros d a c. unfold ref_newcoin. destruct (ref_valid_denom d), (Z.leb_spec 0 a); simpl; naive_solver.
  - intros d a Hd Ha. unfold ref_newcoin. rewrite Hd. by rewrite (proj2 (Z.leb_le 0 a) Ha).
  - intros c1 c2 c. destruct (String.eqb_spec (Coin_Denom c1) (Coin_Denom c2)); naive_solver.
  - intros c1 c2 c. destruct (String.eqb_spec (Coin_Denom c1) (Coin_Denom c2)); [|done].
    destruct (Z.leb_spec (Coin_Amount c2) (Coin_Amount c1)); naive_solver.
  - intros cs r. destruct (ref_coins_positive _) eqn:E; [|done].
    destruct (bool_decide _); [|done]. simpl. intros ?; simplify_eq. split.
    + intros d. rewrite AmountOf_foldr_insert. simpl. lia.
    + by apply ref_coins_positive_spec.
  - intros a b r ? d; simplify_eq. rewrite AmountOf_foldr_insert. lia.
  - intros cs. apply merge_sort_Permutation.
  - apply ref_coins_positive_spec.
Qed.

(** ** Addresses *)

(** Account, validator and module addresses are byte strings; [""] is nil. *)
Class SdkAddress := {
  AccAddressFromBech32 : string -> res string;
  AccAddress_String : string -> string;
  ValAddressFromBech32 : string -> res string;
  ValAddress_String : string -> string;
  NewModuleAddress : string -> string;
}.

Class SdkAddressLaws `{SdkAddress} : Prop := {
  AccAddress_roundtrip a : a <> "" -> AccAddressFromBech32 (AccAddress_String a) = Ok a;
  AccAddress_nonempty s a : AccAddressFromBech32 s = Ok a -> a <> "";
  AccAddress_no_panic s : AccAddressFromBech32 s <> Panic;
  AccAddress_empty_text : is_ok (AccAddressFromBech32 "") = false;
  AccAddress_String_nil : AccAddress_String "" = "";
  ValAddress_roundtrip a : a <> "" -> ValAddressFromBech32 (ValAddress_String a) = Ok a;
  ValAddress_nonempty s a : ValAddressFromBech32 s = Ok a -> a <> "";
  ValAddress_empty_text : is_ok (ValAddressFromBech32 "") = false;
}.

Definition ref_decode (hrp s : string) : res string :=
  if String.prefix hrp s && negb (String.eqb s hrp) then Ok (str_drop (String.length hrp) s)
  else Err (PlainErr "decoding bech32 failed").
Definition ref_encode (hrp a : string) : string := if String.eqb a "" then "" else hrp +:+ a.

Definition RefAddress : SdkAddress := {|
  AccAddressFromBech32 := ref_decode "sif1";
  AccAddress_String := ref_encode "sif1";
  ValAddressFromBech32 := ref_decode "sifvaloper1";
  ValAddress_String := ref_encode "sifvaloper1";
  NewModuleAddress m := "module/" +:+ m;
|}.

Lemma prefix_app p s : String.prefix p (p +:+ s) = true.
Proof.
  induction p as [|c p IH]; simpl; [by destruct s|]. by destruct (ascii_dec c c).
Qed.

Lemma str_drop_app p s : str_drop (String.length p) (p +:+ s) = s.
Proof. induction p; simpl; done. Qed.

Lemma append_nonempty p s : s <> "" -> p +:+ s <> p.
Proof.
  intros Hs E. apply Hs. induction p as [|c p IH]; simpl in E; [done|].
  injection E as E. auto.
Qed.

Lemma ref_roundtrip hrp a : a <> "" -> ref_decode hrp (ref_encode hrp a) = Ok a.
Proof.
  intros Ha. unfold ref_decode, ref_encode. destruct (String.eqb_spec a ""); [done|].
  rewrite prefix_app, str_drop_app.
  by destruct (String.eqb_spec (hrp +:+ a) hrp) as [E%append_nonempty|].
Qed.

Lemma str_drop_prefix_empty p s : String.prefix p s = true -> str_drop (String.length p) s = "" -> s = p.
Proof.
  revert s; induction p as [|c p IH]; intros [|c' s]; simpl; try done.
  destruct (ascii_dec c c'); [subst|done]. intros. f_equal. auto.
Qed.

Lemma ref_nonempty hrp s a : ref_decode hrp s = Ok a -> a <> "".
Proof.
  unfold ref_decode. destruct (String.prefix hrp s) eqn:E; [|done]. simpl.
  destruct (String.eqb_spec s hrp) as [|Hs]; [done|]. simpl. intros [= <-] Hn.
  apply Hs, str_drop_prefix_empty; done.
Qed.

Lemma ref_no_panic hrp s : ref_decode hrp s <> Panic.
Proof. unfold ref_decode. by destruct (_ && _). Qed.

Lemma RefAddress_laws : @SdkAddressLaws RefAddress.
Proof. split; simpl; eauto using ref_roundtrip, ref_nonempty, ref_no_panic. Qed.

(** ** The bank keeper *)

Class BankKeeper (B : Type) := {
  GetBalance : B -> string -> string -> Z;
  HasBalance : B -> string -> Coin -> bool;
  SendCoins : string -> string -> list Coin -> M B unit;
  SendCoinsFromModuleToAccount : string -> string -> list Coin -> M B unit;
  SendCoinsFromAccountToModule : string -> string -> list Coin -> M B unit;
  MintCoins : string -> list Coin -> M B unit;
  BurnCoins : string -> list Coin -> M B unit;
}.

(** [cs] moved from one account to another and nothing else changed. *)
Definition moved `{BankKeeper B} (b b' : B) (from to : string) (cs : list Coin) : Prop :=
  forall a d, GetBalance b' a d =
    GetBalance b a d - (if decide (a = from) then AmountOf cs d else 0)
                     + (if decide (a = to) then AmountOf cs d else 0).

(** [cs] was created in (with [sgn = 1]) or removed from ([sgn = -1]) an account. *)
Definition minted `{BankKeeper B} (b b' : B) (addr : string) (sgn : Z) (cs : list Coin) : Prop :=
  forall a d, GetBalance b' a d =
    GetBalance b a d + (if decide (a = addr) then sgn * AmountOf cs d else 0).

Class BankLaws (B : Type) `{BankKeeper B, SdkAddress} : Prop := {
  GetBalance_nonneg b a d : 0 <= GetBalance b a d;
  HasBalance_eq b a c : HasBalance b a c = (Coin_Amount c <=? GetBalance b a (Coin_Denom c));
  SendCoins_ok from to cs b b' u : SendCoins from to cs b = (b', Ok u) ->
    moved b b' from to cs /\ forall d, AmountOf cs d <= GetBalance b from d;
  SendCoinsFromModuleToAccount_ok m to cs b b' u :
    SendCoinsFromModuleToAccount m to cs b = (b', Ok u) ->
    moved b b' (NewModuleAddress m) to cs
    /\ forall d, AmountOf cs d <= GetBalance b (NewModuleAddress m) d;
  SendCoinsFromAccountToModule_ok from m cs b b' u :
    SendCoinsFromAccountToModule from m cs b = (b', Ok u) ->
    moved b b' from (NewModuleAddress m) cs
    /\ forall d, AmountOf cs d <= GetBalance b from d;
  SendCoinsFromModuleToAccount_err m to cs b b' e :
    (forall d, AmountOf cs d <= GetBalance b (NewModuleAddress m) d) ->
    SendCoinsFromModuleToAccount m to cs b = (b', Err e) -> b' = b;
  MintCoins_ok m cs b b' u : MintCoins m cs b = (b', Ok u) -> minted b b' (NewModuleAddress m) 1 cs;
  BurnCoins_ok m cs b b' u : BurnCoins m cs b = (b', Ok u) ->
    minted b b' (NewModuleAddress m) (-1) cs
    /\ forall d, AmountOf cs d <= GetBalance b (NewModuleAddress m) d;
}.

(** The total of a denomination over a list of accounts. *)
Definition supply_of `{BankKeeper B} (b : B) (accts : list string) (d : string) : Z :=
  foldr (fun a acc => GetBalance b a d + acc) 0 accts.

(** ** Store pagination *)

Record PageRequest := mkPageRequest { Page_Key : string; Page_Offset : Z; Page_Limit : Z }.
Record PageResponse := mkPageResponse { Page_NextKey : string; Page_Total : Z }.

Definition MaxUint64 : Z := 2 ^ 64 - 1.

(** [query.Paginate] and [query.FilteredPaginate] walk the entries of a prefix
    store and collect, within the requested page, all the values or those that a
    callback accepts. *)
Class SdkQuery := {
  Paginate : forall V : Type, list (string * V) -> PageRequest -> res (list V * PageResponse);
  FilteredPaginate : forall V : Type,
    list (string * V) -> PageRequest -> (string -> V -> res bool) -> res (list V * PageResponse);
}.
Arguments Paginate {_ _} _ _.
Arguments FilteredPaginate {_ _} _ _ _.

Fixpoint keep_hits {V} (l : list (string * V)) (hit : string -> V -> res bool) : res (list V) :=
  match l with
  | [] => Ok []
  | (k, v) :: l' =>
      let! h := hit k v in
      let! vs := keep_hits l' hit in
      Ok (if h then v :: vs else vs)
  end.

(** With no key, no offset and a limit above the number of entries, the page is
    everything, or everything the callback accepts, in order; an error of the
    callback is returned. *)
Class SdkQueryLaws `{SdkQuery} : Prop := {
  Paginate_all V (l : list (string * V)) lim :
    Z.of_nat (length l) < lim <= MaxUint64 ->
    exists pr, Paginate l (mkPageRequest "" 0 lim) = Ok (l.*2, pr);
  FilteredPaginate_all V (l : list (string * V)) lim hit :
    Z.of_nat (length l) < lim < MaxUint64 ->
    match FilteredPaginate l (mkPageRequest "" 0 lim) hit with
    | Ok (vs, _) => keep_hits l hit = Ok vs
    | Err _ => exists e, keep_hits l hit = Err e
    | Panic => keep_hits l hit = Panic
    end;
}.

Definition ref_page {V} (req : PageRequest) (vs : list V) : list V :=
  let n := Z.of_nat (length vs) in
  take (Z.to_nat (Z.min n (Page_Limit req))) (drop (Z.to_nat (Z.min n (Page_Offset req))) vs).

Definition RefQuery : SdkQuery := {|
  Paginate V l req := Ok (ref_page req l.*2, mkPageResponse "" 0);
  FilteredPaginate V l req hit :=
    let! vs := keep_hits l hit in Ok (ref_page req vs, mkPageResponse "" 0)
|}.

Lemma keep_hits_length {V} (l : list (string * V)) hit vs :
  keep_hits l hit = Ok vs -> (length vs <= length l)%nat.
Proof.
  revert vs; induction l as [|[k v] l IH]; intros vs Hk; simpl in Hk; go_inv; simpl; [lia|].
  destruct x; simpl; specialize (IH _ H0); lia.
Qed.

Lemma ref_page_all {V} (vs : list V) lim :
  Z.of_nat (length vs) < lim -> ref_page (mkPageRequest "" 0 lim) vs = vs.
Proof.
  intros Hl. unfold ref_page. simpl. rewrite (Z.min_r _ 0), (Z.min_l _ lim) by lia.
  rewrite Nat2Z.id. change (Z.to_nat 0) with 0%nat. rewrite drop_0. apply take_ge. lia.
Qed.

Lemma RefQuery_laws : @SdkQueryLaws RefQuery.
Proof.
  split; intros V l lim.
  - intros Hl. eexists. simpl. rewrite ref_page_all; [done|]. rewrite length_fmap. lia.
  - intros hit Hl. simpl. destruct (keep_hits l hit) as [vs|e|] eqn:E; simpl; [|eauto..].
    apply keep_hits_length in E. rewrite ref_page_all; [done|lia].
Qed.

(** ** A reference bank: a map from account and denomination to a natural number *)

Abbreviation RefB := (gmap (string * string) N).

Definition ref_balance (b : RefB) (a d : string) : Z := Z.of_N (default 0%N (b !! (a, d))).

Fixpoint ref_sub (a : string) (cs : list Coin) (b : RefB) : option RefB :=
  match cs with
  | [] => Some b
  | c :: cs' =>
      let bal := ref_balance b a (Coin_Denom c) in
      if (0 <=? Coin_Amount c) && (Coin_Amount c <=? bal)
      then ref_sub a cs' (<[(a, Coin_Denom c) := Z.to_N (bal - Coin_Amount c)]> b)
      else None
  end.

Fixpoint ref_add (a : string) (cs : list Coin) (b : RefB) : option RefB :=
  match cs with
  | [] => Some b
  | c :: cs' =>
      let bal := ref_balance b a (Coin_Denom c) in
      if 0 <=? Coin_Amount c
      then ref_add a cs' (<[(a, Coin_Denom c) := Z.to_N (bal + Coin_Amount c)]> b)
      else None
  end.

Definition ErrInsufficientFunds : GoError := RegisteredErr "sdk" 5.

Definition ref_run (f : RefB -> option RefB) : M RefB unit :=
  fun b => match f b with Some b' => (b', Ok tt) | None => (b, Err ErrInsufficientFunds) end.
Definition ref_send (from to : string) (cs : list Coin) : M RefB unit :=
  ref_run (fun b => ref_sub from cs b ≫= ref_add to cs).

Definition RefBank `{SdkAddress} : BankKeeper RefB := {|
  GetBalance := ref_balance;
  HasBalance b a c := Coin_Amount c <=? ref_balance b a (Coin_Denom c);
  SendCoins := ref_send;
  SendCoinsFromModuleToAccount m to := ref_send (NewModuleAddress m) to;
  SendCoinsFromAccountToModule from m := ref_send from (NewModuleAddress m);
  MintCoins m cs := ref_run (ref_add (NewModuleAddress m) cs);
  BurnCoins m cs := ref_run (ref_sub (NewModuleAddress m) cs);
|}.

Lemma ref_balance_insert b a d n a' d' :
  0 <= n -> ref_balance (<[(a, d) := Z.to_N n]> b) a' d'
  = if decide (a' = a) then (if String.eqb d d' then n else ref_balance b a' d') else ref_balance b a' d'.
Proof.
  intros Hn. unfold ref_balance. rewrite lookup_insert.
  destruct (decide (a' = a)) as [->|Ha].
  - destruct (String.eqb_spec d d') as [->|Hd].
    + rewrite decide_True by done. simpl. lia.
    + rewrite decide_False by congruence. done.
  - rewrite decide_False by congruence. done.
Qed.

Lemma ref_sub_spec a cs b b' :
  ref_sub a cs b = Some b' ->
  (forall a' d, ref_balance b' a' d = ref_balance b a' d - (if decide (a' = a) then AmountOf cs d else 0))
  /\ (forall d, 0 <= AmountOf cs d <= ref_balance b a d).
Proof.
  revert b; induction cs as [|c cs IH]; intros b Hs; simpl in Hs.
  - simplify_eq. split; intros; simpl; [case_decide; lia|unfold ref_balance; lia].
  - destruct (Z.leb_spec 0 (Coin_Amount c)), (Z.leb_spec (Coin_Amount c) (ref_balance b a (Coin_Denom c)));
      try done. simpl in Hs. apply IH in Hs as [Hb Hp]. split.
    + intros a' d. rewrite Hb, ref_balance_insert by lia. simpl. case_decide; [|lia]. subst.
      destruct (String.eqb_spec (Coin_Denom c) d); subst; lia.
    + intros d. specialize (Hp d). rewrite ref_balance_insert, decide_True in Hp by (done || lia).
      simpl. destruct (String.eqb_spec (Coin_Denom c) d); subst; lia.
Qed.

Lemma ref_add_spec a cs b b' :
  ref_add a cs b = Some b' ->
  forall a' d, ref_balance b' a' d = ref_balance b a' d + (if decide (a' = a) then AmountOf cs d else 0).
Proof.
  revert b; induction cs as [|c cs IH]; intros b Hs a' d; simpl in Hs.
  - simplify_eq. case_decide; simpl; lia.
  - destruct (Z.leb_spec 0 (Coin_Amount c)); [|done].
    assert (0 <= ref_balance b a (Coin_Denom c)) by (unfold ref_balance; lia).
    rewrite (IH _ Hs), ref_balance_insert by lia. simpl. case_decide; [|lia]. subst.
    destruct (String.eqb_spec (Coin_Denom c) d); subst; lia.
Qed.

Lemma ref_run_ok f b b' u : ref_run f b = (b', Ok u) -> f b = Some b'.
Proof. unfold ref_run. destruct (f b); naive_solver. Qed.

Lemma ref_send_ok `{SdkAddress} from to cs b b' u :
  ref_send from to cs b = (b', Ok u) ->
  @moved _ RefBank b b' from to cs /\ forall d, AmountOf cs d <= ref_balance b from d.
Proof.
  unfold ref_send. intros Hs%ref_run_ok. apply bind_Some in Hs as (b1 & [Hsub Hp]%ref_sub_spec & Hadd).
  split.
  - intros a d. simpl. rewrite (ref_add_spec _ _ _ _ Hadd), Hsub. lia.
  - intros d. apply Hp.
Qed.

Lemma RefBank_laws `{SdkAddress} : @BankLaws RefB RefBank _.
Proof.
  split; simpl; eauto using ref_send_ok.
  - intros. unfold ref_balance. lia.
  - intros m to cs b b' e _. unfold ref_send, ref_run. destruct (_ ≫= _); naive_solver.
  - intros m cs b b' u Hr%ref_run_ok a d. simpl. rewrite (ref_add_spec _ _ _ _ Hr). case_decide; lia.
  - intros m cs b b' u Hr%ref_run_ok. apply ref_sub_spec in Hr as [Hb Hp]. split; [|apply Hp].
    intros a d. simpl. rewrite Hb. case_decide; lia.
Qed.
