(* ===== verification/Frames.v ===== *)
(** * Frames: what a piece of stateful code leaves alone

    A handler of one module runs on a state that other modules share.  [respects R m] says
    that every successful run of [m] relates its states by the preorder [R]; it is proved by
    following the statements of [m], one rule per combinator, which the tactic [respect]
    applies.  [spared P] is the preorder used for the bank: the accounts outside [P] lose
    nothing. *)

From Stdlib Require Import ZArith Lia Ascii String.
From stdpp Require Import base list gmap strings.
From S2P Require Import Prelude SdkMath Sdk.

(** ** Successful runs inside a preorder *)

Definition respects {S A} (R : relation S) (m : M S A) : Prop :=
  forall s s' a, m s = (s', Ok a) -> R s s'.

Create HintDb respects.

Section Rules.
Context {S : Type} (R : relation S) `{!PreOrder R}.

Lemma respects_ret {A} (a : A) : respects R (mret a).
Proof. by intros s s' x [-> _]%mret_ok_inv. Qed.
Lemma respects_lift {A} (r : res A) : respects R (mlift r).
Proof. by intros s s' x [-> _]%mlift_ok_inv. Qed.
Lemma respects_gets {A} (f : S -> A) : respects R (mgets f).
Proof. by intros s s' x [-> _]%mgets_ok_inv. Qed.
Lemma respects_throw {A} e : respects R (mthrow e : M S A).
Proof. done. Qed.
Lemma respects_panic {A} : respects R (mpanic : M S A).
Proof. done. Qed.
Lemma respects_fail_if c e : respects R (mfail_if c e).
Proof. by intros s s' x [_ ->]%mfail_if_ok_inv. Qed.
Lemma respects_modify f : (forall s, R s (f s)) -> respects R (mmodify f).
Proof. intros Hf s s' x ->%mmodify_ok_inv. apply Hf. Qed.
Lemma respects_wrap {A} e (m : M S A) : respects R m -> respects R (mwrap e m).
Proof. intros Hm s s' x ?%mwrap_ok_inv. by eapply Hm. Qed.
Lemma respects_must {A} (m : M S A) : respects R m -> respects R (mmust m).
Proof. intros Hm s s' x ?%mmust_ok_inv. by eapply Hm. Qed.

Lemma respects_bnd {A B} (m : M S A) (f : A -> M S B) :
  respects R m -> (forall a, respects R (f a)) -> respects R (mbnd m f).
Proof. intros Hm Hf s s' x (a & s1 & Ha & Hb)%mbnd_ok_inv. etrans; [by eapply Hm|by eapply Hf]. Qed.

(** The rest of a function may use what a pure call returned, *)
Lemma respects_bnd_lift {A B} (r : res A) (f : A -> M S B) :
  (forall a, r = Ok a -> respects R (f a)) -> respects R (mbnd (mlift r) f).
Proof. intros Hf s s' x (a & s1 & [-> Ha]%mlift_ok_inv & Hb)%mbnd_ok_inv. by eapply Hf. Qed.

(** or a fact about the result of a stateful one. *)
Lemma respects_bnd_post {A B} (Q : A -> Prop) (m : M S A) (f : A -> M S B) :
  (forall s s' a, m s = (s', Ok a) -> Q a) -> respects R m -> (forall a, Q a -> respects R (f a)) ->
  respects R (mbnd m f).
Proof. intros HQ Hm Hf s s' x (a & s1 & Ha & Hb)%mbnd_ok_inv. etrans; [by eapply Hm|eapply Hf; eauto]. Qed.

(** A caller that looks at the error goes on from the state of a failed run, too. *)
Lemma respects_try {A} (m : M S A) : (forall s s' r, m s = (s', r) -> R s s') -> respects R (mtry m).
Proof. intros Hm s s' x [(a & _ & Ha)|(e & _ & He)]%mtry_ok_inv; by eapply Hm. Qed.

Lemma respects_for {A} (l : list A) (body : A -> M S unit) :
  (forall x, respects R (body x)) -> respects R (mfor l body).
Proof.
  intros Hb. induction l as [|x l IH]; cbn [mfor]; [apply respects_ret|]. by apply respects_bnd.
Qed.

Lemma respects_fold {A B} (f : B -> A -> M S B) b (l : list A) :
  (forall b x, respects R (f b x)) -> respects R (mfold f b l).
Proof.
  intros Hf. revert b. induction l as [|x l IH]; intros b; cbn [mfold]; [apply respects_ret|]. by apply respects_bnd.
Qed.
End Rules.

Ltac respect_step :=
  match goal with
  | |- respects _ (mret _) => apply respects_ret; exact _
  | |- respects _ (mlift _) => apply respects_lift; exact _
  | |- respects _ (mgets _) => apply respects_gets; exact _
  | |- respects _ (mthrow _) => apply respects_throw
  | |- respects _ mpanic => apply respects_panic
  | |- respects _ (mfail_if _ _) => apply respects_fail_if; exact _
  | |- respects _ (mwrap _ _) => apply respects_wrap
  | |- respects _ (mmust _) => apply respects_must
  | |- respects _ (mfor _ _) => apply respects_for; [exact _|intros ?]
  | |- respects _ (mfold _ _ _) => apply respects_fold; [exact _|intros ? ?]
  | |- respects _ (mbnd (mlift _) _) => apply respects_bnd_lift; intros ? ?
  | |- respects _ (mbnd _ _) => apply respects_bnd; [exact _| |intros ?]
  | |- respects _ (match ?x with _ => _ end) => destruct x eqn:?
  | |- respects _ (let _ := _ in _) => cbv zeta
  | |- _ => solve [eauto with respects]
  end.
Ltac respect := repeat respect_step.

(** ** The bank *)

(** The bank refuses a list of coins that is not valid; a valid one has no negative amount. *)
Class BankValidLaws (B : Type) `{BankKeeper B} : Prop := {
  SendCoins_valid from to cs b b' u : SendCoins from to cs b = (b', Ok u) -> forall d, 0 <= AmountOf cs d;
  SendCoinsFromModuleToAccount_valid m to cs b b' u :
    SendCoinsFromModuleToAccount m to cs b = (b', Ok u) -> forall d, 0 <= AmountOf cs d;
  SendCoinsFromAccountToModule_valid from m cs b b' u :
    SendCoinsFromAccountToModule from m cs b = (b', Ok u) -> forall d, 0 <= AmountOf cs d;
  MintCoins_valid m cs b b' u : MintCoins m cs b = (b', Ok u) -> forall d, 0 <= AmountOf cs d;
  BurnCoins_valid m cs b b' u : BurnCoins m cs b = (b', Ok u) -> forall d, 0 <= AmountOf cs d;
}.

(** Only accounts in [P] may have less of anything. *)
Definition spared `{BankKeeper B} (P : string -> Prop) (b b' : B) : Prop :=
  forall a d, ~ P a -> GetBalance b a d <= GetBalance b' a d.

#[export] Instance spared_preorder `{BankKeeper B} (P : string -> Prop) : PreOrder (spared P).
Proof. split; [by intros b a d|]. intros b1 b2 b3 H1' H2' a d Ha. etrans; [by apply H1'|by apply H2']. Qed.

Lemma spared_mono `{BankKeeper B} (P Q : string -> Prop) b b' :
  (forall a, P a -> Q a) -> spared P b b' -> spared Q b b'.
Proof. intros HPQ Hs a d Ha. apply Hs. auto. Qed.

(** A relation of one part of a state. *)
#[export] Instance on_part_preorder {S T} (f : S -> T) (R : relation T) `{!PreOrder R} :
  PreOrder (fun s s' => R (f s) (f s')).
Proof. split; [by intros s|]. intros s1 s2 s3 ? ?. by etrans. Qed.

Section Bank.
Context {B : Type} `{SdkAddress, !BankKeeper B, !BankLaws B, !BankValidLaws B} (P : string -> Prop).

Lemma spared_moved (b b' : B) from to cs :
  P from -> (forall d, 0 <= AmountOf cs d) -> moved b b' from to cs -> spared P b b'.
Proof.
  intros Hf Hp Hm a d Ha. rewrite (Hm a d). rewrite decide_False by (by intros ->). specialize (Hp d). case_decide; lia.
Qed.

Lemma spares_SendCoins from to cs : P from -> respects (spared P) (SendCoins (B := B) from to cs).
Proof. intros Hf b b' u Hr. eapply spared_moved; [done|by eapply SendCoins_valid|by eapply SendCoins_ok]. Qed.
Lemma spares_ModuleToAccount m to cs :
  P (NewModuleAddress m) -> respects (spared P) (SendCoinsFromModuleToAccount (B := B) m to cs).
Proof.
  intros Hf b b' u Hr. eapply spared_moved; [done|by eapply SendCoinsFromModuleToAccount_valid|by eapply SendCoinsFromModuleToAccount_ok].
Qed.
Lemma spares_AccountToModule from m cs :
  P from -> respects (spared P) (SendCoinsFromAccountToModule (B := B) from m cs).
Proof.
  intros Hf b b' u Hr. eapply spared_moved; [done|by eapply SendCoinsFromAccountToModule_valid|by eapply SendCoinsFromAccountToModule_ok].
Qed.
Lemma spares_MintCoins m cs : respects (spared P) (MintCoins (B := B) m cs).
Proof.
  intros b b' u Hr a d _. pose proof (MintCoins_valid _ _ _ _ _ Hr d). rewrite (MintCoins_ok _ _ _ _ _ Hr a d). case_decide; lia.
Qed.
Lemma spares_BurnCoins m cs : P (NewModuleAddress m) -> respects (spared P) (BurnCoins (B := B) m cs).
Proof.
  intros Hm b b' u Hr a d Ha. apply BurnCoins_ok in Hr as [Hb _]. rewrite (Hb a d).
  rewrite decide_False by (by intros ->). lia.
Qed.
End Bank.

#[export] Hint Resolve spares_SendCoins spares_ModuleToAccount spares_AccountToModule spares_MintCoins spares_BurnCoins : respects.

(** *** The supply of a denomination *)

(** The total of the listed accounts changes by [n], for every list of distinct accounts that
    includes the ones that were touched. *)
Definition supply_moves `{BankKeeper B} (n : string -> Z) (b b' : B) : Prop :=
  exists touched, forall accts, NoDup accts -> touched ⊆ accts ->
    forall d, supply_of b' accts d = supply_of b accts d + n d.
Definition conserves `{BankKeeper B} : relation B := supply_moves (fun _ => 0).

Lemma supply_moves_trans `{BankKeeper B} n1 n2 n (b1 b2 b3 : B) :
  supply_moves n1 b1 b2 -> supply_moves n2 b2 b3 -> (forall d, n d = n1 d + n2 d) -> supply_moves n b1 b3.
Proof.
  intros [t1 Hs1] [t2 Hs2] Hn. exists (t1 ++ t2). intros accts Hnd Hsub d.
  rewrite Hs2, Hs1, Hn; [lia|done| |done|]; intros x Hx; apply Hsub, elem_of_app; tauto.
Qed.

#[export] Instance conserves_preorder `{BankKeeper B} : PreOrder (conserves (B := B)).
Proof.
  split; [intros b; exists []; intros; lia|]. intros b1 b2 b3 H1' H2'. eapply supply_moves_trans; [exact H1'|exact H2'|done].
Qed.

(** Each entry of [l] adds its amounts to its account. *)
Definition shifts `{BankKeeper B} (l : list (string * (string -> Z))) (b b' : B) : Prop :=
  forall a d, GetBalance b' a d
    = GetBalance b a d + foldr (fun e acc => (if decide (a = e.1) then e.2 d else 0) + acc) 0 l.
Definition shift_total (l : list (string * (string -> Z))) (d : string) : Z := foldr (fun e acc => e.2 d + acc) 0 l.

Lemma sum_at x z (accts : list string) :
  NoDup accts -> x ∈ accts -> foldr (fun a acc => (if decide (a = x) then z else 0) + acc) 0 accts = z.
Proof.
  assert (forall l : list string, x ∉ l -> foldr (fun a acc => (if decide (a = x) then z else 0) + acc) 0 l = 0) as H0.
  { induction l as [|a l IH]; intros Hx; [done|]. apply not_elem_of_cons in Hx as [Hne Hx]. simpl. rewrite IH by done.
    rewrite decide_False by congruence. done. }
  induction accts as [|a l IH]; intros Hnd Hx; [by apply elem_of_nil in Hx|]. apply NoDup_cons in Hnd as [Ha Hnd]. simpl.
  destruct (decide (a = x)) as [->|Hne]; [rewrite H0 by done; lia|]. apply elem_of_cons in Hx as [->|Hx]; [done|].
  rewrite IH by done. lia.
Qed.

Lemma foldr_add (f g : string -> Z) (l : list string) :
  foldr (fun a acc => (f a + g a) + acc) 0 l = foldr (fun a acc => f a + acc) 0 l + foldr (fun a acc => g a + acc) 0 l.
Proof. induction l as [|a l IH]; simpl; [done|]. rewrite IH. lia. Qed.
Lemma foldr_ext_eq (f g : string -> Z) (l : list string) :
  (forall a, f a = g a) -> foldr (fun a acc => f a + acc) 0 l = foldr (fun a acc => g a + acc) 0 l.
Proof. intros E. induction l as [|a l IH]; simpl; [done|]. by rewrite E, IH. Qed.

Lemma shifts_supply `{BankKeeper B} l (b b' : B) n :
  shifts l b b' -> (forall d, n d = shift_total l d) -> supply_moves n b b'.
Proof.
  intros Hs Hn. exists l.*1. intros accts Hnd Hsub d. unfold supply_of. rewrite Hn.
  rewrite (foldr_ext_eq _ _ accts (fun a => Hs a d)), foldr_add. f_equal. clear Hs Hn.
  induction l as [|e l IH]; simpl; [clear; by induction accts as [|x l' IH']; simpl; rewrite ?IH'|].
  rewrite foldr_add, IH; [|intros x Hx; apply Hsub; rewrite fmap_cons; by right].
  f_equal. apply sum_at; [done|]. apply Hsub. rewrite fmap_cons. by left.
Qed.

Lemma moved_conserves `{BankKeeper B} (b b' : B) from to cs : moved b b' from to cs -> conserves b b'.
Proof.
  intros Hm. apply (shifts_supply [(from, fun d => - AmountOf cs d); (to, AmountOf cs)]).
  - intros a d. rewrite (Hm a d). simpl. repeat case_decide; lia.
  - intros d. unfold shift_total. simpl. lia.
Qed.

Section Supply.
Context {B : Type} `{SdkAddress, !BankKeeper B, !BankLaws B}.

Lemma conserves_SendCoins from to cs : respects conserves (SendCoins (B := B) from to cs).
Proof. intros b b' u [Hm _]%SendCoins_ok. by eapply moved_conserves. Qed.
Lemma conserves_ModuleToAccount m to cs : respects conserves (SendCoinsFromModuleToAccount (B := B) m to cs).
Proof. intros b b' u [Hm _]%SendCoinsFromModuleToAccount_ok. by eapply moved_conserves. Qed.
Lemma conserves_AccountToModule from m cs : respects conserves (SendCoinsFromAccountToModule (B := B) from m cs).
Proof. intros b b' u [Hm _]%SendCoinsFromAccountToModule_ok. by eapply moved_conserves. Qed.
End Supply.
#[export] Hint Resolve conserves_SendCoins conserves_ModuleToAccount conserves_AccountToModule : respects.

(** The reference bank checks every amount. *)
Lemma ref_add_nonneg a cs b b' : ref_add a cs b = Some b' -> forall d, 0 <= AmountOf cs d.
Proof.
  revert b. induction cs as [|c cs IH]; intros b Hs d; simpl in *; [done|].
  destruct (Z.leb_spec 0 (Coin_Amount c)); [|done]. specialize (IH _ Hs d). case_match; lia.
Qed.

Lemma ref_send_nonneg from to cs b b' u : ref_send from to cs b = (b', Ok u) -> forall d, 0 <= AmountOf cs d.
Proof. unfold ref_send. intros Hs%ref_run_ok d. apply bind_Some in Hs as (b1 & [_ Hp]%ref_sub_spec & _). apply Hp. Qed.

Lemma RefBank_valid `{SdkAddress} : @BankValidLaws RefB RefBank.
Proof.
  split; simpl; intros.
  - by eapply ref_send_nonneg.
  - by eapply ref_send_nonneg.
  - by eapply ref_send_nonneg.
  - eapply ref_add_nonneg. by eapply ref_run_ok.
  - match goal with H' : ref_run _ _ = _ |- _ => apply ref_run_ok, ref_sub_spec in H' as [_ Hp] end. apply Hp.
Qed.
