(* ===== verification/TokenRegistry.v ===== *)
(** * x/tokenregistry: the registry of supported denominations

    The registry maps denominations (compared case-insensitively) to entries with
    decimals and permissions, and is changed only by the admin account.  The
    store has two fixed keys, [0x01] (the registry) and [0x02] (the admin), which
    are the two fields of [RegStore].  [TokenRegistryKeeper] is the Go interface
    of the same name that x/clp, x/ethbridge and x/ibctransfer call. *)

From Stdlib Require Import ZArith Lia Ascii String.
From stdpp Require Import base list gmap strings.
From S2P Require Import Prelude SdkMath Sdk.

Module TokenRegistry.

(** ** Data *)

(** The proto enum; other wire values are kept as they are. *)
Inductive Permission :=
| Permission_UNSPECIFIED
| Permission_CLP
| Permission_IBCEXPORT
| Permission_IBCIMPORT
| Permission_other (n : Z).

#[export] Instance Permission_eq_dec : EqDecision Permission.
Proof. solve_decision. Defined.

Record RegistryEntry := mkEntry {
  Decimals : Z;
  Denom : string;
  BaseDenom : string;
  Path : string;
  IbcChannelId : string;
  IbcCounterpartyChannelId : string;
  DisplayName : string;
  DisplaySymbol : string;
  Network : string;
  Address : string;
  ExternalSymbol : string;
  TransferLimit : string;
  Permissions : list Permission;
  UnitDenom : string;
  IbcCounterpartyDenom : string;
  IbcCounterpartyChainId : string;
}.

#[export] Instance RegistryEntry_eq_dec : EqDecision RegistryEntry.
Proof. solve_decision. Defined.

(** [Entries] is a slice of pointers; [None] is nil. *)
Record Registry := mkRegistry { Entries : list (option RegistryEntry) }.

Record GenesisState := mkGenesisState {
  AdminAccount : string;
  GenRegistry : option Registry;
}.

(** The module's store. *)
Record RegStore := mkRegStore {
  reg_registry : option Registry;
  reg_admin : option string;
}.

Definition ErrNotFound : GoError := RegisteredErr "tokenregistry" 1.
Definition ErrPermissionDenied : GoError := RegisteredErr "tokenregistry" 2.
Definition ErrKeyNotFound : GoError := RegisteredErr "sdk" 30.
Definition ErrInvalidAddress : GoError := RegisteredErr "sdk" 7.
Definition ErrUnknownRequest : GoError := RegisteredErr "sdk" 6.

Definition GetPermissionFromString (s : string) : Permission :=
  if String.eqb s "permission_clp" then Permission_CLP
  else if String.eqb s "permission_ibc_export" then Permission_IBCEXPORT
  else if String.eqb s "permission_ibc_import" then Permission_IBCIMPORT
  else Permission_UNSPECIFIED.

(** ** The keeper *)

Definition SetAdminAccount (adminAccount : string) (st : RegStore) : RegStore :=
  mkRegStore (reg_registry st) (Some adminAccount).

(** A missing key unmarshals to the empty address, which is nil. *)
Definition GetAdminAccount (st : RegStore) : string := default "" (reg_admin st).

Definition IsAdminAccount (st : RegStore) (adminAccount : string) : bool :=
  let account := GetAdminAccount st in
  if String.eqb account "" then false else String.eqb account adminAccount.

Definition CheckEntryPermissions (entry : RegistryEntry) (required : list Permission) : bool :=
  forallb (fun r => existsb (fun a => bool_decide (a = r)) (Permissions entry)) required.

Definition denom_matches (denom : string) (e : option RegistryEntry) : bool :=
  match e with Some e => EqualFold (Denom e) denom | None => false end.

Fixpoint find_entry (l : list (option RegistryEntry)) (denom : string) : option RegistryEntry :=
  match l with
  | [] => None
  | e :: l' => if denom_matches denom e then e else find_entry l' denom
  end.

Definition GetEntry (wl : Registry) (denom : string) : res RegistryEntry :=
  match find_entry (Entries wl) denom with
  | Some e => Ok e
  | None => Err ErrKeyNotFound
  end.

Definition is_entry (e : option RegistryEntry) : bool :=
  match e with Some _ => true | None => false end.

(** Marshalling dereferences every pointer: a registry with a nil entry cannot be stored. *)
Definition SetRegistry (wl : Registry) : M RegStore unit :=
  if forallb is_entry (Entries wl)
  then mmodify (fun st => mkRegStore (Some wl) (reg_admin st))
  else mpanic.

Definition GetRegistry (st : RegStore) : Registry := default (mkRegistry []) (reg_registry st).

(** Replace the first entry of the denomination, or report that there is none. *)
Fixpoint replace_entry (l : list (option RegistryEntry)) (entry : RegistryEntry)
  : option (list (option RegistryEntry)) :=
  match l with
  | [] => None
  | e :: l' =>
      if denom_matches (Denom entry) e then Some (Some entry :: l')
      else cons e <$> replace_entry l' entry
  end.

(** A nil [entry] is dereferenced when it is compared with a stored entry, or
    else when the registry is marshalled. *)
Definition SetToken (entry : option RegistryEntry) : M RegStore unit :=
  do! wl <- mgets GetRegistry;
  match entry with
  | Some e =>
      match replace_entry (Entries wl) e with
      | Some l => SetRegistry (mkRegistry l)
      | None => SetRegistry (mkRegistry (Entries wl ++ [Some e]))
      end
  | None => mpanic
  end.

Definition kept (denom : string) (t : option RegistryEntry) : bool :=
  match t with Some e => negb (EqualFold (Denom e) denom) | None => false end.

Definition RemoveToken (denom : string) : M RegStore unit :=
  do! registry <- mgets GetRegistry;
  SetRegistry (mkRegistry (filter (fun t => kept denom t = true) (Entries registry))).

(** ** Genesis, migration and queries *)

Definition InitGenesis `{SdkAddress} (state : GenesisState) : M RegStore unit :=
  run! (if String.eqb (AdminAccount state) "" then mret tt
        else do! addr <- mlift (panicOnErr (AccAddressFromBech32 (AdminAccount state)));
             mmodify (SetAdminAccount addr));
  match GenRegistry state with
  | Some r => SetRegistry r
  | None => mret tt
  end.

Definition ExportGenesis `{SdkAddress} (st : RegStore) : GenesisState :=
  mkGenesisState (AccAddress_String (GetAdminAccount st)) (Some (GetRegistry st)).

Definition migrate_entry (entry : RegistryEntry) : RegistryEntry :=
  if (9 <? Decimals entry) && CheckEntryPermissions entry [Permission_CLP; Permission_IBCEXPORT]
  then mkEntry (Decimals entry) (Denom entry) (BaseDenom entry) (Path entry) (IbcChannelId entry)
         (IbcCounterpartyChannelId entry) (DisplayName entry) (DisplaySymbol entry) (Network entry)
         (Address entry) (ExternalSymbol entry) (TransferLimit entry)
         (Permissions entry ++ [Permission_IBCIMPORT]) (UnitDenom entry) "" (IbcCounterpartyChainId entry)
  else entry.

(** The loop dereferences every pointer. *)
Definition MigrateToVer2 : M RegStore unit :=
  do! registry <- mgets GetRegistry;
  do! l <- mlift (rmap (fun e => match e with
                                 | Some e => Ok (Some (migrate_entry e))
                                 | None => Panic
                                 end) (Entries registry));
  SetRegistry (mkRegistry l).

(** The gRPC query of the same name. *)
Definition Entries_query (st : RegStore) : res (option Registry) := Ok (Some (GetRegistry st)).

(** ** Messages *)

Record MsgRegister := mkMsgRegister { Reg_From : string; Reg_Entry : option RegistryEntry }.
Record MsgSetRegistry := mkMsgSetRegistry { SetReg_From : string; SetReg_Registry : option Registry }.
Record MsgDeregister := mkMsgDeregister { Dereg_From : string; Dereg_Denom : string }.

Definition checkDenom `{SdkCoins} (denom : string) : res unit :=
  if String.eqb denom "" then Err (PlainErr "no denom specified")
  else if negb (Coin_IsValid (mkCoin denom 1)) then Err (PlainErr "Denom is not valid")
  else Ok tt.

Definition MsgRegister_ValidateBasic `{SdkCoins, SdkAddress} (m : MsgRegister) : res unit :=
  match Reg_Entry m with
  | None => Err (PlainErr "no token entry specified")
  | Some entry =>
      let! _ := checkDenom (Denom entry) in
      let! _ := AccAddressFromBech32 (Reg_From m) in
      if Decimals entry <=? 0 then Err (PlainErr "Decimals cannot be zero") else Ok tt
  end.

Definition checkEntry `{SdkCoins} (e : option RegistryEntry) : res unit :=
  match e with
  | None => Panic
  | Some entry =>
      let! _ := checkDenom (Denom entry) in
      if Decimals entry <=? 0 then Err (PlainErr "Decimals cannot be zero") else Ok tt
  end.

Definition MsgSetRegistry_ValidateBasic `{SdkCoins, SdkAddress} (m : MsgSetRegistry) : res unit :=
  match SetReg_Registry m with
  | None => Err (PlainErr "no token entry specified")
  | Some r =>
      let! _ := rmap checkEntry (Entries r) in
      let! _ := AccAddressFromBech32 (SetReg_From m) in
      Ok tt
  end.

Definition MsgDeregister_ValidateBasic `{SdkCoins, SdkAddress} (m : MsgDeregister) : res unit :=
  let! _ := checkDenom (Dereg_Denom m) in
  let! _ := AccAddressFromBech32 (Dereg_From m) in
  Ok tt.

Definition signers_of `{SdkAddress} (from : string) : res (list string) :=
  let! addr := panicOnErr (AccAddressFromBech32 from) in Ok [addr].
Definition MsgRegister_GetSigners `{SdkAddress} (m : MsgRegister) := signers_of (Reg_From m).
Definition MsgSetRegistry_GetSigners `{SdkAddress} (m : MsgSetRegistry) := signers_of (SetReg_From m).
Definition MsgDeregister_GetSigners `{SdkAddress} (m : MsgDeregister) := signers_of (Dereg_From m).

(** ** The message server *)

Section MsgServer.
Context `{SdkAddress}.

Definition requireAdmin (from : string) : M RegStore unit :=
  do! addr <- mlift (AccAddressFromBech32 from);
  do! st <- mgets id;
  mfail_if (negb (IsAdminAccount st addr)) ErrInvalidAddress.

Definition Register (req : MsgRegister) : M RegStore unit :=
  run! requireAdmin (Reg_From req);
  SetToken (Reg_Entry req).

Definition SetRegistry_msg (req : MsgSetRegistry) : M RegStore unit :=
  run! requireAdmin (SetReg_From req);
  match SetReg_Registry req with
  | Some r => SetRegistry r
  | None => mpanic
  end.

Definition Deregister (req : MsgDeregister) : M RegStore unit :=
  run! requireAdmin (Dereg_From req);
  RemoveToken (Dereg_Denom req).

Inductive Msg :=
| Msg_Register (m : MsgRegister)
| Msg_SetRegistry (m : MsgSetRegistry)
| Msg_Deregister (m : MsgDeregister)
| Msg_Unknown (typeURL : string).

(** The module's [NewHandler]. *)
Definition Handler (m : Msg) : M RegStore unit :=
  match m with
  | Msg_Register m => Register m
  | Msg_SetRegistry m => SetRegistry_msg m
  | Msg_Deregister m => Deregister m
  | Msg_Unknown _ => mthrow ErrUnknownRequest
  end.
End MsgServer.

(** ** The initial registry *)

Definition initial_denoms : list (string * Z) :=
  [("aku", 18); ("causc", 6); ("cusdt", 6); ("cusdc", 6); ("cwscrt", 6);
   ("cwbtc", 8); ("ceth", 18); ("cdai", 18); ("cyfi", 18); ("czrx", 18);
   ("cwfil", 18); ("cuni", 18); ("cuma", 18); ("ctusd", 18); ("csxp", 18);
   ("csushi", 18); ("csusd", 18); ("csrm", 18); ("csnx", 18); ("csand", 18);
   ("crune", 18); ("creef", 18); ("cogn", 18); ("cocean", 18); ("cmana", 18);
   ("clrc", 18); ("clon", 18); ("clink", 18); ("ciotx", 18); ("cgrt", 18);
   ("cftm", 18); ("cesd", 18); ("cenj", 18); ("ccream", 18); ("ccomp", 18);
   ("ccocos", 18); ("cbond", 18); ("cbnt", 18); ("cbat", 18); ("cband", 18);
   ("cbal", 18); ("cant", 18); ("caave", 18); ("c1inch", 18); ("cleash", 18);
   ("cshib", 18); ("ctidal", 18); ("cpaid", 18); ("crndr", 18); ("cconv", 18);
   ("crally", 18); ("crfuel", 18); ("cakro", 18); ("cb20", 18); ("ctshp", 18);
   ("clina", 18); ("cdaofi", 18); ("ckeep", 18)].

(** [BaseDenom] is set to the denomination unless it is an IBC denomination. *)
Definition initial_entry (d : string * Z) : RegistryEntry :=
  mkEntry d.2 d.1 (if HasPrefix d.1 "ibc/" then "" else d.1) "" "" "" "" "" "" "" "" ""
    [Permission_CLP] "" "" "".

Definition InitialRegistry : Registry := mkRegistry ((fun d => Some (initial_entry d)) <$> initial_denoms).

(** ** The interface other modules use *)

Class TokenRegistryKeeper (R : Type) := {
  trk_GetRegistry : R -> Registry;
  trk_GetEntry : Registry -> string -> res RegistryEntry;
  trk_CheckEntryPermissions : RegistryEntry -> list Permission -> bool;
  trk_IsAdminAccount : R -> string -> bool;
}.

(** What the interface promises: an entry that is found is an entry of the
    registry with the requested denomination, and a permission check is a
    subset test. *)
Class TokenRegistryKeeperLaws (R : Type) `{TokenRegistryKeeper R} : Prop := {
  trk_GetEntry_ok r d e : trk_GetEntry r d = Ok e -> Some e ∈ Entries r /\ EqualFold (Denom e) d = true;
  trk_GetEntry_total r d e : Some e ∈ Entries r -> EqualFold (Denom e) d = true ->
    is_ok (trk_GetEntry r d) = true;
  trk_CheckEntryPermissions_ok e ps : trk_CheckEntryPermissions e ps = true <-> ps ⊆ Permissions e;
}.

#[export] Instance Keeper : TokenRegistryKeeper RegStore := {|
  trk_GetRegistry := GetRegistry;
  trk_GetEntry := GetEntry;
  trk_CheckEntryPermissions := CheckEntryPermissions;
  trk_IsAdminAccount := IsAdminAccount;
|}.

(** ** Properties *)

(** What two denominations that are equal up to case have in common. *)
Definition folded (e : option RegistryEntry) : option string := (fun e => ToLower (Denom e)) <$> e.

Lemma denom_matches_spec d e : denom_matches d e = true <-> folded e = Some (ToLower d).
Proof.
  destruct e as [e|]; simpl; [|done]. unfold EqualFold. rewrite String.eqb_eq. split; congruence.
Qed.

Lemma find_entry_ok l d e :
  find_entry l d = Some e -> Some e ∈ l /\ EqualFold (Denom e) d = true.
Proof.
  induction l as [|x l IH]; simpl; [done|]. destruct (denom_matches d x) eqn:E.
  - intros ->. split; [by left|done].
  - intros [? ?]%IH. split; [by right|done].
Qed.

Lemma find_entry_None l d : find_entry l d = None <-> forall x, x ∈ l -> denom_matches d x = false.
Proof.
  induction l as [|x l IH]; simpl; [set_solver|].
  destruct (denom_matches d x) eqn:E; split.
  - intros ->. done.
  - intros Hall. rewrite (Hall x) in E; [done|by left].
  - intros Hn y [->|Hy]%elem_of_cons; [done|]. by apply IH.
  - intros Hall. apply IH. intros y Hy. apply Hall. by right.
Qed.

Lemma GetEntry_ok r d e : GetEntry r d = Ok e <-> find_entry (Entries r) d = Some e.
Proof. unfold GetEntry. destruct (find_entry _ _); naive_solver. Qed.

Lemma Keeper_CheckEntryPermissions e ps : CheckEntryPermissions e ps = true <-> ps ⊆ Permissions e.
Proof.
  unfold CheckEntryPermissions. rewrite forallb_forall. split.
  - intros Hf x Hx. apply list_elem_of_In in Hx. apply Hf in Hx.
    apply existsb_exists in Hx as (a & Ha & ->%bool_decide_eq_true). by apply list_elem_of_In.
  - intros Hs x Hx%list_elem_of_In%Hs. apply existsb_exists. exists x.
    split; [by apply list_elem_of_In|]. by apply bool_decide_eq_true.
Qed.

#[export] Instance Keeper_laws : TokenRegistryKeeperLaws RegStore.
Proof.
  split; simpl.
  - intros r d e Hg%GetEntry_ok. by apply find_entry_ok.
  - intros r d e Hin Heq. unfold GetEntry. destruct (find_entry (Entries r) d) eqn:E; [done|].
    apply find_entry_None with (x := Some e) in E; [|done]. simpl in E. congruence.
  - apply Keeper_CheckEntryPermissions.
Qed.

Lemma EqualFold_trans_eq a b c : EqualFold a b = true -> EqualFold a c = EqualFold b c.
Proof. unfold EqualFold. intros ->%String.eqb_eq. done. Qed.

Lemma denom_matches_other d1 d2 x :
  denom_matches d1 x = true -> EqualFold d1 d2 = false -> denom_matches d2 x = false.
Proof.
  destruct x as [x|]; simpl; [|done]. intros Hm Hn. by rewrite (EqualFold_trans_eq _ _ _ Hm).
Qed.

Lemma replace_entry_find l e l' d :
  replace_entry l e = Some l' ->
  find_entry l' d = if EqualFold (Denom e) d then Some e else find_entry l d.
Proof.
  revert l'; induction l as [|x l IH]; intros l' Hr; simpl in Hr; [done|].
  destruct (denom_matches (Denom e) x) eqn:E.
  - simplify_eq. simpl. destruct (EqualFold (Denom e) d) eqn:Ed; [done|].
    by rewrite (denom_matches_other _ _ _ E Ed).
  - apply fmap_Some in Hr as (l0 & Hr & ->). simpl. rewrite (IH _ Hr).
    destruct (denom_matches d x) eqn:Ex; [|done].
    destruct (EqualFold (Denom e) d) eqn:Ed; [|done].
    exfalso. apply denom_matches_spec in Ex. apply String.eqb_eq in Ed.
    assert (denom_matches (Denom e) x = true) as Ht; [|congruence].
    apply denom_matches_spec. by rewrite Ex, Ed.
Qed.

Lemma replace_entry_None l e : replace_entry l e = None -> find_entry l (Denom e) = None.
Proof.
  induction l as [|x l IH]; simpl; [done|]. destruct (denom_matches (Denom e) x); [done|].
  intros Hr. apply IH. by destruct (replace_entry l e).
Qed.

Lemma find_entry_app l1 l2 d :
  find_entry (l1 ++ l2) d = match find_entry l1 d with Some e => Some e | None => find_entry l2 d end.
Proof.
  induction l1 as [|x l1 IH]; simpl; [done|]. destruct (denom_matches d x) eqn:E; [|done].
  by destruct x.
Qed.

Lemma find_entry_fold l d1 d2 : EqualFold d1 d2 = true -> find_entry l d1 = find_entry l d2.
Proof.
  intros Hd. induction l as [|[x|] l IH]; simpl; [done| |done]. rewrite IH.
  unfold EqualFold in *. apply String.eqb_eq in Hd. by rewrite Hd.
Qed.

Lemma SetRegistry_ok wl st st' u :
  SetRegistry wl st = (st', Ok u) ->
  GetRegistry st' = wl /\ reg_admin st' = reg_admin st /\ forallb is_entry (Entries wl) = true.
Proof. unfold SetRegistry. intros Hs. go_all. done. Qed.

(** After [SetToken], looking a denomination up gives the new entry when the
    denomination is the entry's, and what it gave before otherwise. *)
Lemma SetToken_find st st' e u d :
  SetToken (Some e) st = (st', Ok u) ->
  find_entry (Entries (GetRegistry st')) d =
  if EqualFold (Denom e) d then Some e else find_entry (Entries (GetRegistry st)) d.
Proof.
  unfold SetToken. intros Hs. go_inv.
  destruct (replace_entry _ _) as [l|] eqn:E; apply SetRegistry_ok in H0 as (-> & _); simpl.
  - by apply replace_entry_find.
  - rewrite find_entry_app. simpl. apply replace_entry_None in E.
    destruct (EqualFold (Denom e) d) eqn:Ed.
    + rewrite <- (find_entry_fold _ _ _ Ed), E. done.
    + by destruct (find_entry _ d).
Qed.

Lemma RemoveToken_find st st' u d d' :
  RemoveToken d st = (st', Ok u) ->
  find_entry (Entries (GetRegistry st')) d' =
  if EqualFold d d' then None else find_entry (Entries (GetRegistry st)) d'.
Proof.
  unfold RemoveToken. intros Hr. go_inv. apply SetRegistry_ok in H0 as (-> & _). simpl.
  induction (Entries (GetRegistry st)) as [|x l IH].
  - simpl. by destruct (EqualFold d d').
  - rewrite filter_cons. destruct (decide (kept d x = true)) as [Hk|Hk].
    + destruct x as [x|]; [|done]. simpl in *. rewrite IH. unfold EqualFold in *.
      destruct (String.eqb_spec (ToLower (Denom x)) (ToLower d')) as [E|]; [|done].
      destruct (String.eqb_spec (ToLower d) (ToLower d')) as [E'|]; [|done].
      rewrite E, <- E' in Hk. by rewrite String.eqb_refl in Hk.
    + rewrite IH. destruct x as [x|]; simpl in *; [|done]. unfold EqualFold in *.
      destruct (String.eqb_spec (ToLower (Denom x)) (ToLower d)) as [E|]; [|done].
      rewrite E. by destruct (String.eqb_spec (ToLower d) (ToLower d')).
Qed.

Lemma replace_entry_folded l e l' :
  replace_entry l e = Some l' -> omap folded l' = omap folded l.
Proof.
  revert l'; induction l as [|x l IH]; intros l' Hr; simpl in Hr; [done|].
  destruct (denom_matches (Denom e) x) eqn:E.
  - simplify_eq. apply denom_matches_spec in E. simpl. rewrite E. done.
  - apply fmap_Some in Hr as (l0 & Hr & ->). apply IH in Hr. cbn in *. by rewrite Hr.
Qed.

(** How many entries of a registry have a denomination, up to case. *)
Definition copies (d : string) (r : Registry) : nat := length (List.filter (denom_matches d) (Entries r)).

Lemma copies_folded d r : copies d r = length (List.filter (String.eqb (ToLower d)) (omap folded (Entries r))).
Proof.
  unfold copies. induction (Entries r) as [|x l IH]; [done|]. cbn [List.filter]. destruct x as [x|]; [|exact IH].
  cbn [denom_matches]. unfold EqualFold. rewrite String.eqb_sym.
  change (omap folded (Some x :: l)) with (ToLower (Denom x) :: omap folded l). cbn [List.filter].
  destruct (String.eqb _ _); cbn [length]; by rewrite IH.
Qed.

Lemma copies_none l d : find_entry l d = None -> copies d (mkRegistry l) = 0%nat.
Proof.
  unfold copies. cbn [Entries]. intros Hn. assert (forall x, x ∈ l -> denom_matches d x = false) as Hf by by apply find_entry_None.
  clear Hn. induction l as [|x l IH]; [done|]. cbn [List.filter]. rewrite (Hf x) by (by left). apply IH. intros y Hy. apply Hf. by right.
Qed.
Lemma copies_some l e l' : replace_entry l e = Some l' -> (0 < copies (Denom e) (mkRegistry l))%nat.
Proof.
  unfold copies. cbn [Entries]. revert l'. induction l as [|x l IH]; intros l' Hr; [done|]. cbn [replace_entry List.filter] in *.
  destruct (denom_matches (Denom e) x); [cbn; lia|]. destruct (replace_entry l e) as [l1|]; [by eapply IH|done].
Qed.
Lemma copies_fold d d' r : EqualFold d d' = true -> copies d r = copies d' r.
Proof. rewrite !copies_folded. by intros ->%String.eqb_eq. Qed.

Lemma SetToken_copies st st' e u d :
  SetToken (Some e) st = (st', Ok u) ->
  copies d (GetRegistry st')
  = if EqualFold (Denom e) d then Nat.max 1 (copies d (GetRegistry st)) else copies d (GetRegistry st).
Proof.
  unfold SetToken. intros Hs. go_inv. destruct (replace_entry _ _) as [l|] eqn:E; apply SetRegistry_ok in H0 as (-> & _).
  - rewrite !copies_folded. cbn [GetRegistry reg_registry default Entries]. rewrite (replace_entry_folded _ _ _ E).
    destruct (EqualFold (Denom e) d) eqn:Ed; [|done]. rewrite <- copies_folded, <- (copies_fold _ _ _ Ed).
    apply copies_some in E. unfold copies in *. cbn [Entries] in E. lia.
  - unfold copies at 1. cbn [GetRegistry reg_registry default Entries]. rewrite List.filter_app, length_app.
    cbn [List.filter denom_matches]. destruct (EqualFold (Denom e) d) eqn:Ed; cbn [length]; [|unfold copies; lia].
    apply replace_entry_None, copies_none in E. rewrite (copies_fold _ _ _ Ed) in E. unfold copies in *. cbn [Entries] in E. lia.
Qed.

Lemma RemoveToken_copies st st' d d' u :
  RemoveToken d st = (st', Ok u) ->
  copies d' (GetRegistry st') = if EqualFold d d' then 0%nat else copies d' (GetRegistry st).
Proof.
  unfold RemoveToken. intros Hr. go_inv. apply SetRegistry_ok in H0 as (-> & _).
  unfold copies. cbn [GetRegistry reg_registry default Entries].
  induction (Entries (GetRegistry st)) as [|x l IH]; [by destruct (EqualFold d d')|]. rewrite filter_cons.
  assert (forall e, EqualFold (Denom e) d' = true -> EqualFold d d' = EqualFold (Denom e) d) as Hfold.
  { intros e He%String.eqb_eq. unfold EqualFold. by rewrite He, String.eqb_sym. }
  destruct x as [x|]; cbn [kept]; [|rewrite decide_False by done; exact IH].
  destruct (EqualFold (Denom x) d) eqn:Ed; cbn [negb].
  - rewrite decide_False by done. rewrite IH. cbn [List.filter denom_matches]. destruct (EqualFold (Denom x) d') eqn:Ed'; [|done].
    by rewrite (Hfold x Ed'), Ed.
  - rewrite decide_True by done. cbn [List.filter denom_matches]. destruct (EqualFold (Denom x) d') eqn:Ed'; [|exact IH].
    cbn [length]. rewrite IH. by rewrite (Hfold x Ed'), Ed.
Qed.

(** The sender of a message. *)
Definition Msg_From (m : Msg) : string :=
  match m with
  | Msg_Register m => Reg_From m
  | Msg_SetRegistry m => SetReg_From m
  | Msg_Deregister m => Dereg_From m
  | Msg_Unknown _ => ""
  end.

(** What a message does to the lookup table, seen from outside: the new
    result of [GetEntry] for a denomination, given the old one. *)
Definition lookup_after (m : Msg) (old : option RegistryEntry) (d : string) : option RegistryEntry :=
  match m with
  | Msg_Register (mkMsgRegister _ (Some e)) => if EqualFold (Denom e) d then Some e else old
  | Msg_SetRegistry (mkMsgSetRegistry _ (Some r)) => find_entry (Entries r) d
  | Msg_Deregister m => if EqualFold (Dereg_Denom m) d then None else old
  | _ => old
  end.

Lemma SetToken_stored st st' e u :
  SetToken e st = (st', Ok u) ->
  reg_admin st' = reg_admin st /\ forallb is_entry (Entries (GetRegistry st')) = true.
Proof. unfold SetToken. intros Hs. go_all; by apply SetRegistry_ok in H0 as (-> & ? & ?). Qed.

Lemma RemoveToken_stored st st' d u :
  RemoveToken d st = (st', Ok u) ->
  reg_admin st' = reg_admin st /\ forallb is_entry (Entries (GetRegistry st')) = true.
Proof. unfold RemoveToken. intros Hs. go_inv. by apply SetRegistry_ok in H0 as (-> & ? & ?). Qed.

Section HandlerProperties.
Context `{SdkAddress}.

Lemma requireAdmin_ok from st st' u :
  requireAdmin from st = (st', Ok u) ->
  st' = st /\ exists addr, AccAddressFromBech32 from = Ok addr /\ IsAdminAccount st addr = true.
Proof.
  unfold requireAdmin. intros Hr. go_inv. split; [done|]. exists x. split; [done|].
  by apply negb_false_iff.
Qed.

Lemma requireAdmin_state from st : (requireAdmin from st).1 = st.
Proof.
  unfold requireAdmin, mbnd, mlift, mgets. destruct (AccAddressFromBech32 from); [|done..].
  by destruct (negb _).
Qed.

Lemma Handler_ok m st st' u :
  Handler m st = (st', Ok u) ->
  (exists addr, AccAddressFromBech32 (Msg_From m) = Ok addr /\ IsAdminAccount st addr = true)
  /\ reg_admin st' = reg_admin st
  /\ forall d, find_entry (Entries (GetRegistry st')) d
               = lookup_after m (find_entry (Entries (GetRegistry st)) d) d.
Proof.
  destruct m as [[from [e|]]|[from [r|]]|[from d0]|]; simpl; intros Hh;
    [unfold Register in Hh|unfold Register in Hh|unfold SetRegistry_msg in Hh|
     unfold SetRegistry_msg in Hh|unfold Deregister in Hh|go_inv];
    go_inv; apply requireAdmin_ok in H0 as (-> & Ha); simpl in *.
  - split_and!; [done| |].
    + by eapply SetToken_stored.
    + intros d. by rewrite (SetToken_find _ _ _ _ _ H1).
  - unfold SetToken in H1. go_inv.
  - apply SetRegistry_ok in H1 as (-> & ? & _). done.
  - go_inv.
  - split_and!; [done| |].
    + by eapply RemoveToken_stored.
    + intros d. by rewrite (RemoveToken_find _ _ _ _ _ H1).
Qed.

(** A message that succeeds leaves a registry without nil entries. *)
Lemma Handler_stored m st st' u :
  Handler m st = (st', Ok u) -> reg_admin st' = reg_admin st /\ forallb is_entry (Entries (GetRegistry st')) = true.
Proof.
  intros Hh. destruct m as [m|[from [r|]]|m|]; simpl in Hh;
    [unfold Register in Hh|unfold SetRegistry_msg in Hh|unfold SetRegistry_msg in Hh|unfold Deregister in Hh|go_inv];
    go_inv; apply requireAdmin_ok in H0 as (-> & _); simpl in *.
  - by eapply SetToken_stored.
  - by apply SetRegistry_ok in H1 as (-> & ? & ?).
  - go_inv.
  - by eapply RemoveToken_stored.
Qed.

Lemma MigrateToVer2_stored st st' u :
  MigrateToVer2 st = (st', Ok u) -> forallb is_entry (Entries (GetRegistry st')) = true /\ reg_admin st' = reg_admin st.
Proof.
  unfold MigrateToVer2. intros Hr. get_step Hr. lift_step Hr as l _. by apply SetRegistry_ok in Hr as (-> & ? & ?).
Qed.

(** What a message does to the number of entries of a denomination. *)
Definition copies_after (m : Msg) (d : string) (n : nat) : nat :=
  match m with
  | Msg_Register (mkMsgRegister _ (Some e)) => if EqualFold (Denom e) d then Nat.max 1 n else n
  | Msg_SetRegistry (mkMsgSetRegistry _ (Some r)) => copies d r
  | Msg_Deregister m => if EqualFold (Dereg_Denom m) d then 0%nat else n
  | _ => n
  end.

Lemma Handler_copies m st st' u d :
  Handler m st = (st', Ok u) -> copies d (GetRegistry st') = copies_after m d (copies d (GetRegistry st)).
Proof.
  intros Hh. destruct m as [[from [e|]]|[from [r|]]|[from d0]|]; simpl in Hh;
    [unfold Register in Hh|unfold Register in Hh|unfold SetRegistry_msg in Hh|unfold SetRegistry_msg in Hh|unfold Deregister in Hh|go_inv];
    go_inv; apply requireAdmin_ok in H0 as (-> & _); simpl in *.
  - by apply (SetToken_copies _ _ _ _ d) in H1.
  - unfold SetToken in H1. go_inv.
  - by apply SetRegistry_ok in H1 as (-> & _).
  - go_inv.
  - by apply (RemoveToken_copies _ _ _ d) in H1.
Qed.

Lemma MigrateToVer2_copies st st' u d : MigrateToVer2 st = (st', Ok u) -> copies d (GetRegistry st') = copies d (GetRegistry st).
Proof.
  unfold MigrateToVer2. intros Hr. get_step Hr. lift_step Hr as l Hl. apply SetRegistry_ok in Hr as (-> & _ & _).
  unfold copies. cbn [Entries]. revert l Hl. induction (Entries (GetRegistry st)) as [|x es IH]; intros l Hl; cbn [rmap] in Hl; [by injection Hl as <-|].
  apply rbind_ok_inv in Hl as (y & Hy & Hl). apply rbind_ok_inv in Hl as (l' & Hl & [= <-]). destruct x as [x|]; [|done]. injection Hy as <-.
  assert (Denom (migrate_entry x) = Denom x) as Hd by (unfold migrate_entry; by destruct (_ && _)).
  cbn [List.filter denom_matches]. rewrite Hd. destruct (EqualFold (Denom x) d); cbn [length]; by rewrite (IH _ Hl).
Qed.

(** What has happened to a registry since genesis, the latest first: messages that were
    delivered, and migrations. *)
Inductive Event := Delivered (m : Msg) | Migrated.
Inductive history (g : GenesisState) : list Event -> RegStore -> Prop :=
| history_genesis st u : InitGenesis g (mkRegStore None None) = (st, Ok u) -> history g [] st
| history_message h st m st' u : history g h st -> Handler m st = (st', Ok u) -> history g (Delivered m :: h) st'
| history_migration h st st' u : history g h st -> MigrateToVer2 st = (st', Ok u) -> history g (Migrated :: h) st'.

(** The entries of a denomination, by what has happened; and the last table that was written
    whole, by genesis or by a message. *)
Definition genesis_table (g : GenesisState) : Registry := default (mkRegistry []) (GenRegistry g).
Fixpoint copies_by (g : GenesisState) (h : list Event) (d : string) : nat :=
  match h with
  | [] => copies d (genesis_table g)
  | Delivered m :: h => copies_after m d (copies_by g h d)
  | Migrated :: h => copies_by g h d
  end.
Fixpoint last_table (g : GenesisState) (h : list Event) : Registry :=
  match h with
  | [] => genesis_table g
  | Delivered (Msg_SetRegistry (mkMsgSetRegistry _ (Some r))) :: _ => r
  | _ :: h => last_table g h
  end.

Lemma copies_by_table g h d : (copies_by g h d <= Nat.max 1 (copies d (last_table g h)))%nat.
Proof.
  induction h as [|[[[from [e|]]|[from [r|]]|[from d0]|]|] h IH]; cbn; try lia; case_match; lia.
Qed.

Lemma InitGenesis_ok g st st' u :
  InitGenesis g st = (st', Ok u) ->
  (forall r, GenRegistry g = Some r -> GetRegistry st' = r /\ forallb is_entry (Entries r) = true)
  /\ (GenRegistry g = None -> reg_registry st' = reg_registry st)
  /\ (AdminAccount g <> "" -> exists a, AccAddressFromBech32 (AdminAccount g) = Ok a /\ reg_admin st' = Some a)
  /\ (AdminAccount g = "" -> reg_admin st' = reg_admin st).
Proof.
  unfold InitGenesis. intros Hi. go_inv.
  assert (reg_registry x0 = reg_registry st
    /\ (AdminAccount g <> "" -> exists a, AccAddressFromBech32 (AdminAccount g) = Ok a /\ reg_admin x0 = Some a)
    /\ (AdminAccount g = "" -> reg_admin x0 = reg_admin st)) as (E1 & E2 & E3).
  { destruct (String.eqb_spec (AdminAccount g) ""); go_inv; [done|]. simpl. split_and!; [done|eauto|done]. }
  destruct (GenRegistry g) as [r|].
  - apply SetRegistry_ok in H1 as (Hg & Ha & Hn). split_and!; [naive_solver|done|..]; by rewrite Ha.
  - go_inv. split_and!; done.
Qed.
End HandlerProperties.

(** A message that the admin has not sent fails and changes nothing. *)
Lemma handler_unauthorised `{SdkAddress} m st :
  (forall addr, AccAddressFromBech32 (Msg_From m) = Ok addr -> IsAdminAccount st addr = false) ->
  (Handler m st).1 = st /\ is_ok (Handler m st).2 = false.
Proof.
  intros Hm. assert (forall u s', Handler m st <> (s', Ok u)) as Hno.
  { intros u s' ((a & Ha & Hadm) & _)%Handler_ok. apply Hm in Ha. congruence. }
  assert (forall from k, Msg_From m = from ->
    Handler m st = mbnd (requireAdmin from) k st -> (Handler m st).1 = st) as Hst.
  { intros from k <- ->. pose proof (requireAdmin_state (Msg_From m) st) as Hs. unfold mbnd.
    destruct (requireAdmin _ st) as [s' [u|e|]] eqn:Er; simpl in Hs; subst; [|done..].
    apply requireAdmin_ok in Er as (_ & a & Ha%Hm & ?). congruence. }
  split; [|destruct (Handler m st) as [s' []]; naive_solver].
  destruct m; [eapply Hst; reflexivity..|done].
Qed.

(** C9: A registry message that succeeds was sent by the admin, keeps the admin, and
    changes the table exactly as its kind says: afterwards looking up any denomination
    (case-insensitively) gives the registered entry, the lookup in the replacing
    registry, nothing, or the old result.  A message whose sender does not decode to the
    stored admin address fails and leaves the store untouched; with no admin stored every
    message does. *)
Theorem handler_functional `{SdkAddress} m st :
  (forall st' u, Handler m st = (st', Ok u) ->
    (exists addr, AccAddressFromBech32 (Msg_From m) = Ok addr /\ IsAdminAccount st addr = true)
    /\ GetAdminAccount st' = GetAdminAccount st
    /\ forall d, match lookup_after m (find_entry (Entries (GetRegistry st)) d) d with
                 | Some e => GetEntry (GetRegistry st') d = Ok e
                 | None => GetEntry (GetRegistry st') d = Err ErrKeyNotFound
                 end)
  /\ ((forall addr, AccAddressFromBech32 (Msg_From m) = Ok addr -> IsAdminAccount st addr = false) ->
      (Handler m st).1 = st /\ is_ok (Handler m st).2 = false).
Proof.
  split; [|apply handler_unauthorised]. intros st' u (Ha & Hadm & Hf)%Handler_ok.
  split_and!; [done|unfold GetAdminAccount; by rewrite Hadm|].
  intros d. rewrite <- Hf. unfold GetEntry. by destruct (find_entry _ d).
Qed.

Definition ex_entry (d : string) (n : Z) : RegistryEntry := initial_entry (d, n).
Definition ex_store : RegStore :=
  mkRegStore (Some (mkRegistry [Some (ex_entry "ceth" 18); Some (ex_entry "cusdt" 6)])) (Some "admin").

Lemma handler_functional_witness :
  exists st', @Handler RefAddress (Msg_Register (mkMsgRegister "sif1admin" (Some (ex_entry "cETH" 8)))) ex_store
    = (st', Ok tt)
  /\ GetEntry (GetRegistry st') "CETH" = Ok (ex_entry "cETH" 8)
  /\ GetEntry (GetRegistry st') "cusdt" = Ok (ex_entry "cusdt" 6)
  /\ GetAdminAccount st' = "admin".
Proof.
  eexists. split; [vm_compute; reflexivity|].
  destruct (@handler_functional RefAddress
    (Msg_Register (mkMsgRegister "sif1admin" (Some (ex_entry "cETH" 8)))) ex_store) as [Hok _].
  destruct (Hok _ tt eq_refl) as (_ & Ha & Hd).
  split_and!; [exact (Hd "CETH")|exact (Hd "cusdt")|exact Ha].
Defined.

Example handler_from_stranger :
  (@Handler RefAddress (Msg_Deregister (mkMsgDeregister "sif1mallory" "ceth")) ex_store).1 = ex_store.
Proof. by vm_compute. Qed.

(** C10: After any sequence of delivered messages and migrations since genesis the registry has
    no nil entry, and as many entries of a denomination, up to case, as the sequence says: a
    registered denomination has one entry more only if it had none, a removed one has none,
    and a table written whole has those it lists.  So registering never makes a second entry:
    a denomination with two is listed twice in the last table written whole, which neither
    genesis nor the message checks. *)
Theorem registry_copies `{SdkAddress} g h st :
  history g h st ->
  forallb is_entry (Entries (GetRegistry st)) = true
  /\ forall d, copies d (GetRegistry st) = copies_by g h d
             /\ (copies d (GetRegistry st) <= Nat.max 1 (copies d (last_table g h)))%nat.
Proof.
  intros Hh. enough (forallb is_entry (Entries (GetRegistry st)) = true /\ forall d, copies d (GetRegistry st) = copies_by g h d) as [Hn Hc].
  { split; [done|]. intros d. split; [done|]. rewrite Hc. apply copies_by_table. }
  induction Hh as [st u Hi|h st m st' u Hh [IHn IHc] Hm|h st st' u Hh [IHn IHc] Hm].
  - apply InitGenesis_ok in Hi as (Hs & Hn & _). cbn [copies_by]. unfold genesis_table. destruct (GenRegistry g) as [r|].
    + by destruct (Hs r eq_refl) as [-> ?].
    + unfold GetRegistry. by rewrite Hn.
  - split; [by eapply Handler_stored|]. intros d. cbn [copies_by]. rewrite <- IHc. by eapply Handler_copies.
  - split; [by eapply MigrateToVer2_stored|]. intros d. cbn [copies_by]. rewrite <- IHc. by eapply MigrateToVer2_copies.
Qed.

(** A genesis table with ceth twice: registering it again replaces one of the two, removing it
    removes both, and then it has one entry however often it is registered. *)
Definition ex_twice : GenesisState :=
  mkGenesisState "sif1admin" (Some (mkRegistry [Some (ex_entry "ceth" 18); Some (ex_entry "cusdt" 6); Some (ex_entry "CETH" 18)])).
Definition ex_register (d : string) : Msg := Msg_Register (mkMsgRegister "sif1admin" (Some (ex_entry d 8))).
Definition ex_history : list Event :=
  [Delivered (ex_register "Ceth"); Delivered (ex_register "ceth"); Migrated; Delivered (Msg_Deregister (mkMsgDeregister "sif1admin" "cETH"));
   Delivered (ex_register "ceth")].
Definition ex_events (n : nat) : list Event := drop (5 - n) ex_history.
Definition ex_run (e : Event) : M RegStore unit := match e with Delivered m => @Handler RefAddress m | Migrated => MigrateToVer2 end.
Definition ex_state (n : nat) : RegStore :=
  fold_right (fun e st => (ex_run e st).1) (@InitGenesis RefAddress ex_twice (mkRegStore None None)).1 (ex_events n).
Lemma ex_reached : @history RefAddress ex_twice (ex_events 1) (ex_state 1) /\ @history RefAddress ex_twice (ex_events 5) (ex_state 5).
Proof.
  assert (@history RefAddress ex_twice (ex_events 1) (ex_state 1)) as H1.
  { apply (history_message ex_twice [] (ex_state 0) (ex_register "ceth") (ex_state 1) tt); [|by vm_compute].
    apply (history_genesis ex_twice (ex_state 0) tt). by vm_compute. }
  split; [exact H1|].
  apply (history_message ex_twice (ex_events 4) (ex_state 4) (ex_register "Ceth") (ex_state 5) tt); [|by vm_compute].
  apply (history_message ex_twice (ex_events 3) (ex_state 3) (ex_register "ceth") (ex_state 4) tt); [|by vm_compute].
  apply (history_migration ex_twice (ex_events 2) (ex_state 2) (ex_state 3) tt); [|by vm_compute].
  by apply (history_message ex_twice (ex_events 1) (ex_state 1) (Msg_Deregister (mkMsgDeregister "sif1admin" "cETH")) (ex_state 2) tt); [|by vm_compute].
Qed.
Lemma registry_copies_witness :
  copies "ceth" (GetRegistry (ex_state 1)) = 2%nat /\ copies "ceth" (GetRegistry (ex_state 5)) = 1%nat.
Proof.
  destruct ex_reached as [H1 H5]. split.
  - destruct (@registry_copies RefAddress ex_twice (ex_events 1) (ex_state 1) H1) as [_ Hc]. rewrite (proj1 (Hc "ceth")). reflexivity.
  - destruct (@registry_copies RefAddress ex_twice (ex_events 5) (ex_state 5) H5) as [_ Hc]. rewrite (proj1 (Hc "ceth")). reflexivity.
Defined.
End TokenRegistry.
