(* ===== verification/ClpTypes.v ===== *)
(** * x/clp/types: assets, pools, liquidity providers, keys, parameters, messages

    The data the continuous liquidity pool module stores and receives, with the
    checks that do not need the store: [Validate], [ValidateBasic], the key
    functions, the genesis checks.  A pointer that Go may find nil is an
    [option]; reading through it is [deref], which panics on nil. *)

From Stdlib Require Import ZArith Lia Ascii String.
From stdpp Require Import base list gmap strings.
From S2P Require Import Prelude SdkMath Sdk.

(** ** Constants and errors *)

Definition ModuleName : string := "clp".
Definition NativeSymbol : string := "aku".
Definition PoolThrehold : string := "1000000000000000000".
Definition MaxSymbolLength : Z := 71.
Definition MaxWbasis : Z := 10000.

Definition clp_err (code : Z) : GoError := RegisteredErr ModuleName code.
Definition ErrInvalid := clp_err 1.
Definition ErrPoolDoesNotExist := clp_err 2.
Definition ErrLiquidityProviderDoesNotExist := clp_err 3.
Definition ErrInValidAsset := clp_err 4.
Definition ErrInValidAmount := clp_err 5.
Definition ErrTotalAmountTooLow := clp_err 7.
Definition ErrNotEnoughAssetTokens := clp_err 8.
Definition ErrInvalidAsymmetry := clp_err 9.
Definition ErrInvalidWBasis := clp_err 10.
Definition ErrBalanceTooHigh := clp_err 11.
Definition ErrUnableToSetPool := clp_err 12.
Definition ErrUnableToDestroyPool := clp_err 13.
Definition ErrUnableToCreatePool := clp_err 14.
Definition ErrBalanceNotAvailable := clp_err 18.
Definition ErrTokenNotSupported := clp_err 19.
Definition ErrUnableToAddBalance := clp_err 20.
Definition ErrNotEnoughLiquidity := clp_err 21.
Definition ErrPoolTooShallow := clp_err 23.
Definition ErrUnableToAddLiquidity := clp_err 25.
Definition ErrUnableToRemoveLiquidity := clp_err 26.
Definition ErrUnableToSwap := clp_err 27.
Definition ErrUnableToRemoveLiquidityProvider := clp_err 28.
Definition ErrUnableToDecommissionPool := clp_err 29.
Definition ErrUnableToParseInt := clp_err 30.
Definition ErrReceivedAmountBelowExpected := clp_err 31.
Definition ErrAmountTooLow := clp_err 32.

Definition sdk_ErrUnknownRequest : GoError := RegisteredErr "sdk" 6.
Definition sdk_ErrInvalidAddress : GoError := RegisteredErr "sdk" 7.
Definition sdk_ErrInvalidRequest : GoError := RegisteredErr "sdk" 18.

(** ** Assets, pools, liquidity providers *)

Record Asset := mkAsset { Symbol : string }.

Record Pool := mkPool {
  ExternalAsset : option Asset;
  NativeAssetBalance : Z;
  ExternalAssetBalance : Z;
  PoolUnits : Z;
}.

Record LiquidityProvider := mkLiquidityProvider {
  LP_Asset : option Asset;
  LiquidityProviderUnits : Z;
  LiquidityProviderAddress : string;
}.

#[export] Instance Asset_eq_dec : EqDecision Asset.
Proof. solve_decision. Defined.
#[export] Instance Pool_eq_dec : EqDecision Pool.
Proof. solve_decision. Defined.
#[export] Instance LiquidityProvider_eq_dec : EqDecision LiquidityProvider.
Proof. solve_decision. Defined.

Definition deref {A} (p : option A) : res A :=
  match p with Some a => Ok a | None => Panic end.

Definition NewAsset (symbol : string) : Asset := mkAsset symbol.

Definition VerifyRange (num low high : Z) : bool :=
  if high <=? num then false else if num <=? low then false else true.

(** [sdk.NewCoin] panics on a denomination that is not valid, so the function
    returns [false] only for the length. *)
Definition Asset_Validate `{SdkCoins} (a : Asset) : res bool :=
  if negb (VerifyRange (str_len (TrimSpace (Symbol a))) 0 MaxSymbolLength) then Ok false
  else let! coin := NewCoin (Symbol a) 1 in Ok (Coin_IsValid coin).

Definition Asset_Equals (a a2 : Asset) : bool := String.eqb (Symbol a) (Symbol a2).
Definition Asset_IsEmpty (a : Asset) : bool := String.eqb (Symbol a) "".
Definition GetSettlementAsset : Asset := mkAsset NativeSymbol.
Definition GetCLPModuleAddress `{SdkAddress} : string := NewModuleAddress ModuleName.
Definition GetDefaultCLPAdmin `{SdkAddress} : string := NewModuleAddress "ClpAdmin".

Definition Pool_Validate `{SdkCoins} (p : Pool) : res bool :=
  let! a := deref (ExternalAsset p) in Asset_Validate a.

Definition NewPool (externalAsset : option Asset) (nativeAssetBalance externalAssetBalance poolUnits : Z) : Pool :=
  mkPool externalAsset nativeAssetBalance externalAssetBalance poolUnits.

Definition LiquidityProvider_Validate `{SdkCoins} (l : LiquidityProvider) : res bool :=
  let! a := deref (LP_Asset l) in Asset_Validate a.

Definition NewLiquidityProvider `{SdkAddress} (asset : option Asset) (units : Z) (addr : string) : LiquidityProvider :=
  mkLiquidityProvider asset units (AccAddress_String addr).

(** ** Keys *)

Definition PoolPrefix : string := byte1 0.
Definition LiquidityProviderPrefix : string := byte1 1.

(** It never returns an error. *)
Definition GetPoolKey (externalTicker nativeTicker : string) : string :=
  PoolPrefix +:+ (externalTicker +:+ "_" +:+ nativeTicker).

Definition GetLiquidityProviderKey (externalTicker lp : string) : string :=
  LiquidityProviderPrefix +:+ (externalTicker +:+ "_" +:+ lp).

(** ** Parameters *)

Record Params := mkParams { MinCreatePoolThreshold : Z }.

Definition DefaultMinCreatePoolThreshold : Z := 100.
Definition NewParams (minThreshold : Z) : Params := mkParams minThreshold.
Definition DefaultParams : Params := NewParams DefaultMinCreatePoolThreshold.
Definition validateMinCreatePoolThreshold (v : Z) : res unit :=
  if v =? 0 then Err (PlainErr "min create pool threshold must be positive") else Ok tt.
Definition Params_Validate (p : Params) : res unit :=
  validateMinCreatePoolThreshold (MinCreatePoolThreshold p).
Definition Params_Equal (p p2 : Params) : bool := MinCreatePoolThreshold p =? MinCreatePoolThreshold p2.

(** ** Genesis *)

Record GenesisState := mkGenesisState {
  Gen_Params : Params;
  AddressWhitelist : list string;
  PoolList : list (option Pool);
  LiquidityProviders : list (option LiquidityProvider);
}.

Definition NewGenesisState (params : Params) : GenesisState := mkGenesisState params [] [] [].
Definition DefaultGenesisState `{SdkAddress} : GenesisState :=
  mkGenesisState DefaultParams [AccAddress_String GetDefaultCLPAdmin] [] [].

Definition checkValid (b : res bool) : res unit :=
  let! v := b in if v then Ok tt else Err ErrInvalid.

Definition ValidateGenesis `{SdkCoins} (data : GenesisState) : res unit :=
  let! _ := rwrap ErrInvalid (Params_Validate (Gen_Params data)) in
  let! _ := rmap (fun p => let! p := deref p in checkValid (Pool_Validate p)) (PoolList data) in
  let! _ := rmap (fun l => let! l := deref l in checkValid (LiquidityProvider_Validate l)) (LiquidityProviders data) in
  Ok tt.

(** ** Messages *)

Record MsgRemoveLiquidity := mkMsgRemoveLiquidity {
  Rem_Signer : string;
  Rem_ExternalAsset : option Asset;
  WBasisPoints : Z;
  Asymmetry : Z;
}.

Record MsgCreatePool := mkMsgCreatePool {
  Create_Signer : string;
  Create_ExternalAsset : option Asset;
  Create_NativeAssetAmount : Z;
  Create_ExternalAssetAmount : Z;
}.

Record MsgAddLiquidity := mkMsgAddLiquidity {
  Add_Signer : string;
  Add_ExternalAsset : option Asset;
  Add_NativeAssetAmount : Z;
  Add_ExternalAssetAmount : Z;
}.

Record MsgSwap := mkMsgSwap {
  Swap_Signer : string;
  SentAsset : option Asset;
  ReceivedAsset : option Asset;
  SentAmount : Z;
  MinReceivingAmount : Z;
}.

Record MsgDecommissionPool := mkMsgDecommissionPool {
  Decom_Signer : string;
  Decom_Symbol : string;
}.

Section Messages.
Context `{SdkCoins, SdkAddress}.

Definition NewMsgDecommissionPool (signer symbol : string) : MsgDecommissionPool :=
  mkMsgDecommissionPool (AccAddress_String signer) symbol.
Definition NewMsgSwap (signer : string) (sent received : Asset) (sentAmount minReceiving : Z) : MsgSwap :=
  mkMsgSwap (AccAddress_String signer) (Some sent) (Some received) sentAmount minReceiving.
Definition NewMsgRemoveLiquidity (signer : string) (asset : Asset) (wBasisPoints asymmetry : Z) : MsgRemoveLiquidity :=
  mkMsgRemoveLiquidity (AccAddress_String signer) (Some asset) wBasisPoints asymmetry.
Definition NewMsgAddLiquidity (signer : string) (asset : Asset) (native external : Z) : MsgAddLiquidity :=
  mkMsgAddLiquidity (AccAddress_String signer) (Some asset) native external.
Definition NewMsgCreatePool (signer : string) (asset : Asset) (native external : Z) : MsgCreatePool :=
  mkMsgCreatePool (AccAddress_String signer) (Some asset) native external.

(** [if !asset.Validate() { return ErrInValidAsset }], through the pointer. *)
Definition checkAsset (a : option Asset) : res Asset :=
  let! a := deref a in
  let! v := Asset_Validate a in
  if v then Ok a else Err ErrInValidAsset.

Definition rcheck (c : bool) (e : GoError) : res unit := if c then Err e else Ok tt.

Definition MsgDecommissionPool_ValidateBasic (m : MsgDecommissionPool) : res unit :=
  let! _ := rcheck (String.eqb (Decom_Signer m) "") sdk_ErrInvalidAddress in
  rcheck (negb (VerifyRange (str_len (TrimSpace (Decom_Symbol m))) 0 MaxSymbolLength)) sdk_ErrInvalidRequest.

Definition MsgSwap_ValidateBasic (m : MsgSwap) : res unit :=
  let! _ := rcheck (String.eqb (Swap_Signer m) "") sdk_ErrInvalidAddress in
  let! sent := checkAsset (SentAsset m) in
  let! received := checkAsset (ReceivedAsset m) in
  let! _ := rcheck (Asset_Equals sent received) ErrInValidAsset in
  rcheck (SentAmount m =? 0) ErrInValidAmount.

Definition MsgRemoveLiquidity_ValidateBasic (m : MsgRemoveLiquidity) : res unit :=
  let! _ := rcheck (String.eqb (Rem_Signer m) "") sdk_ErrInvalidAddress in
  let! _ := checkAsset (Rem_ExternalAsset m) in
  let! _ := rcheck (negb (0 <? WBasisPoints m) || (MaxWbasis <? WBasisPoints m)) ErrInvalidWBasis in
  rcheck ((10000 <? Asymmetry m) || (Asymmetry m <? -10000)) ErrInvalidAsymmetry.

Definition MsgAddLiquidity_ValidateBasic (m : MsgAddLiquidity) : res unit :=
  let! _ := rcheck (String.eqb (Add_Signer m) "") sdk_ErrInvalidAddress in
  let! asset := checkAsset (Add_ExternalAsset m) in
  let! _ := rcheck (Asset_Equals asset GetSettlementAsset) ErrInValidAsset in
  rcheck (negb (0 <? Add_NativeAssetAmount m) && negb (0 <? Add_ExternalAssetAmount m)) ErrInValidAmount.

Definition MsgCreatePool_ValidateBasic (m : MsgCreatePool) : res unit :=
  let! _ := rcheck (String.eqb (Create_Signer m) "") sdk_ErrInvalidAddress in
  let! asset := checkAsset (Create_ExternalAsset m) in
  let! _ := rcheck (Asset_Equals asset GetSettlementAsset) ErrInValidAsset in
  let! _ := rcheck (negb (0 <? Create_NativeAssetAmount m)) ErrInValidAmount in
  rcheck (negb (0 <? Create_ExternalAssetAmount m)) ErrInValidAmount.

Definition signers_of (signer : string) : res (list string) :=
  let! addr := panicOnErr (AccAddressFromBech32 signer) in Ok [addr].
Definition MsgDecommissionPool_GetSigners (m : MsgDecommissionPool) := signers_of (Decom_Signer m).
Definition MsgSwap_GetSigners (m : MsgSwap) := signers_of (Swap_Signer m).
Definition MsgRemoveLiquidity_GetSigners (m : MsgRemoveLiquidity) := signers_of (Rem_Signer m).
Definition MsgAddLiquidity_GetSigners (m : MsgAddLiquidity) := signers_of (Add_Signer m).
Definition MsgCreatePool_GetSigners (m : MsgCreatePool) := signers_of (Create_Signer m).

(** The message sum the module's handler receives. *)
Inductive Msg :=
| CreatePoolMsg (m : MsgCreatePool)
| AddLiquidityMsg (m : MsgAddLiquidity)
| RemoveLiquidityMsg (m : MsgRemoveLiquidity)
| SwapMsg (m : MsgSwap)
| DecommissionPoolMsg (m : MsgDecommissionPool)
| UnknownMsg.

(** The check every message passes before it is delivered. *)
Definition ValidateBasic (m : Msg) : res unit :=
  match m with
  | CreatePoolMsg m => MsgCreatePool_ValidateBasic m
  | AddLiquidityMsg m => MsgAddLiquidity_ValidateBasic m
  | RemoveLiquidityMsg m => MsgRemoveLiquidity_ValidateBasic m
  | SwapMsg m => MsgSwap_ValidateBasic m
  | DecommissionPoolMsg m => MsgDecommissionPool_ValidateBasic m
  | UnknownMsg => Ok tt
  end.
End Messages.

#[global] Arguments NativeSymbol : simpl never.

(** ** Lemmas *)

(** Pools of different assets have different keys. *)
Lemma GetPoolKey_inj a b n : GetPoolKey a n = GetPoolKey b n -> a = b.
Proof. unfold GetPoolKey. intros E%(inj (String.app _)). by apply app_inv_tail_string in E. Qed.

Lemma rcheck_ok c e u : rcheck c e = Ok u -> c = false.
Proof. destruct c; [done|]. done. Qed.

Lemma deref_ok {A} (p : option A) a : deref p = Ok a -> p = Some a.
Proof. destruct p; naive_solver. Qed.

Lemma checkAsset_ok `{SdkCoins} a x : checkAsset a = Ok x -> a = Some x /\ Asset_Validate x = Ok true.
Proof.
  unfold checkAsset. intros Hc. go_inv. destruct x1; go_inv. by apply deref_ok in H0 as ->.
Qed.
