(* ===== verification/ClpCalc.v ===== *)
(** * x/clp/keeper: the pricing and share arithmetic

    [pureCalculation.go], [calculations.go] and [GetNormalizationFactor]: how
    much a swap pays, how many pool units a deposit earns, how much a withdrawal
    returns.  All of it is in the result monad, because every [sdk.Uint] and
    [sdk.Dec] operation can panic. *)

From Stdlib Require Import ZArith Lia Ascii String.
From stdpp Require Import base list gmap strings.
From S2P Require Import Prelude SdkMath Sdk ClpTypes.

Section Calc.
Context `{SdkMath}.

(** ** pureCalculation.go *)

(** [true] when no input is zero. *)
Fixpoint ValidateZero (inputs : list Z) : bool :=
  match inputs with
  | [] => true
  | val :: rest => if val =? 0 then false else ValidateZero rest
  end.

Definition ReducePrecision (dec po : Z) : res Z :=
  let! p := Dec_Power (NewDec 10) (u64 po) in Dec_Quo dec p.

Definition IncreasePrecision (dec po : Z) : res Z :=
  let! p := Dec_Power (NewDec 10) (u64 po) in Dec_Mul dec p.

Definition min_max_len (inputs : list Z) : Z * Z :=
  fold_left (fun '(minLen, maxInputLen) val =>
    let currentLen := str_len (big_String val) in
    (if currentLen <? minLen then currentLen else minLen,
     if maxInputLen <? currentLen then currentLen else maxInputLen))
    inputs (2 ^ 63 - 1, 1).

Definition GetMinLen (inputs : list Z) : Z :=
  let '(minLen, maxInputLen) := min_max_len inputs in
  if minLen <=? 6 then 6
  else if 27 <=? maxInputLen then
    let lenDiff := maxInputLen - 27 in
    if lenDiff <? minLen then (if lenDiff <=? 6 then 6 else lenDiff)
    else minLen - 1
  else minLen - 1.

(** ** The normalization factor of keeper.go *)

Definition GetNormalizationFactor (decimals : Z) : res (Z * bool) :=
  if decimals =? 18 then Ok (NewDec 1, false)
  else
    let '(diffFactor, adjustExternalToken) :=
      if decimals <? 18 then (i64 (18 - decimals), true) else (i64 (decimals - 18), false) in
    let! normalizationFactor := Dec_Power (NewDec 10) (u64 diffFactor) in
    Ok (normalizationFactor, adjustExternalToken).

(** ** calculations.go: swaps *)

Definition SetInputs (sentAmount : Z) (to : Asset) (pool : Pool) : Z * Z * Z * bool :=
  if decide (to = GetSettlementAsset)
  then (ExternalAssetBalance pool, sentAmount, NativeAssetBalance pool, true)
  else (NativeAssetBalance pool, sentAmount, ExternalAssetBalance pool, false).

(** Bring the three amounts to the scale of the asset with more decimals. *)
Definition normalize (toRowan : bool) (nf : Z) (adjustExternalToken : bool) (X x Y : Z)
  : res (Z * Z * Z) :=
  if Bool.eqb adjustExternalToken toRowan
  then let! X := Uint_Mul X nf in let! x := Uint_Mul x nf in Ok (X, x, Y)
  else let! Y := Uint_Mul Y nf in Ok (X, x, Y).

Definition CalcLiquidityFee (toRowan : bool) (normalizationFactor : Z) (adjustExternalToken : bool)
    (X x Y : Z) : res Z :=
  if (X =? 0) && (x =? 0) then Ok 0
  else if negb (ValidateZero [X; x; Y]) then Ok 0
  else
    let! nf := NewUintFromBigInt (Dec_RoundInt normalizationFactor) in
    let! '(X, x, Y) := normalize toRowan nf adjustExternalToken X x Y in
    let minLen := GetMinLen [X; x; Y] in
    let! Xd := ReducePrecision (NewDecFromBigInt X) minLen in
    let! xd := ReducePrecision (NewDecFromBigInt x) minLen in
    let! Yd := ReducePrecision (NewDecFromBigInt Y) minLen in
    let! xx := Dec_Mul xd xd in
    let! n := Dec_Mul xx Yd in
    let! s := Dec_Add xd Xd in
    let! d := Dec_Mul s s in
    let! y := Dec_Quo n d in
    let! y := IncreasePrecision y minLen in
    let! y := (if toRowan then Ok y else Dec_Quo y normalizationFactor) in
    NewUintFromBigInt (Dec_RoundInt y).

Definition CalcSwapResult (toRowan : bool) (normalizationFactor : Z) (adjustExternalToken : bool)
    (X x Y : Z) : res Z :=
  if negb (ValidateZero [X; x; Y]) then Ok 0
  else
    let! nf := NewUintFromBigInt (Dec_RoundInt normalizationFactor) in
    let! '(X, x, Y) := normalize toRowan nf adjustExternalToken X x Y in
    let minLen := GetMinLen [X; x; Y] in
    let! Xd := ReducePrecision (NewDecFromBigInt X) minLen in
    let! xd := ReducePrecision (NewDecFromBigInt x) minLen in
    let! Yd := ReducePrecision (NewDecFromBigInt Y) minLen in
    let! s := Dec_Add xd Xd in
    let! d := Dec_Mul s s in
    let! xX := Dec_Mul xd Xd in
    let! n := Dec_Mul xX Yd in
    let! y := Dec_Quo n d in
    let! y := IncreasePrecision y minLen in
    let! y := (if toRowan then Ok y else Dec_Quo y normalizationFactor) in
    NewUintFromBigInt (Dec_RoundInt y).

Definition calcPriceImpact (X x : Z) : res Z :=
  if x =? 0 then Ok 0
  else let! d := Uint_Add x X in Uint_Quo x d.

(** The amounts paid, charged and moved, and the pool afterwards. *)
Definition SwapOne (from : Asset) (sentAmount : Z) (to : Asset) (pool : Pool)
    (normalizationFactor : Z) (adjustExternalToken : bool) : res (Z * Z * Z * Pool) :=
  let '(X, x, Y, toRowan) := SetInputs sentAmount to pool in
  let! liquidityFee := CalcLiquidityFee toRowan normalizationFactor adjustExternalToken X x Y in
  let! priceImpact := calcPriceImpact X x in
  let! swapResult := CalcSwapResult toRowan normalizationFactor adjustExternalToken X x Y in
  if Y <=? swapResult then Err ErrNotEnoughAssetTokens
  else
    let! Xx := Uint_Add X x in
    let! Yy := Uint_Sub Y swapResult in
    if decide (from = GetSettlementAsset)
    then Ok (swapResult, liquidityFee, priceImpact, mkPool (ExternalAsset pool) Xx Yy (PoolUnits pool))
    else Ok (swapResult, liquidityFee, priceImpact, mkPool (ExternalAsset pool) Yy Xx (PoolUnits pool)).

(** On an error the Go function returns a [Uint] without a value, whose next
    use panics; [CalcSwapResult] never returns an error. *)
Definition GetSwapFee (sentAmount : Z) (to : Asset) (pool : Pool) (normalizationFactor : Z)
    (adjustExternalToken : bool) : res Z :=
  let '(X, x, Y, toRowan) := SetInputs sentAmount to pool in
  let! swapResult := panicOnErr (CalcSwapResult toRowan normalizationFactor adjustExternalToken X x Y) in
  if Y <=? swapResult then Ok 0 else Ok swapResult.

(** ** calculations.go: withdrawals *)

(** The share of a balance that [units] of [poolUnits] stand for. *)
Definition share_of (balanceF poolUnitsF units : Z) : res Z :=
  let! ratio := Dec_Quo poolUnitsF units in Dec_Quo balanceF ratio.

Definition units_to_swap (unitsToClaim asymmetryF : Z) : res Z :=
  let! ratio := Dec_Quo (NewDec 10000) (Z.abs asymmetryF) in Dec_Quo unitsToClaim ratio.

(** Native amount, external amount, units left, amount to swap. *)
Definition CalculateWithdrawal (poolUnits : Z) (nativeAssetBalance externalAssetBalance lpUnits wBasisPoints : string)
    (asymmetry : Z) : res (Z * Z * Z * Z) :=
  let poolUnitsF := NewDecFromBigInt poolUnits in
  let! nativeAssetBalanceF := panicOnErr (NewDecFromStr nativeAssetBalance) in
  let! externalAssetBalanceF := panicOnErr (NewDecFromStr externalAssetBalance) in
  let! lpUnitsF := panicOnErr (NewDecFromStr lpUnits) in
  let! wBasisPointsF := panicOnErr (NewDecFromStr wBasisPoints) in
  let! asymmetryF := panicOnErr (NewDecFromStr (big_String asymmetry)) in
  let! denominator := Dec_Quo (NewDec 10000) wBasisPointsF in
  let! unitsToClaim := Dec_Quo lpUnitsF denominator in
  let! withdrawExternalAssetAmount := share_of externalAssetBalanceF poolUnitsF unitsToClaim in
  let! withdrawNativeAssetAmount := share_of nativeAssetBalanceF poolUnitsF unitsToClaim in
  let! swapAmount :=
    (if 0 <? asymmetry then
       let! unitsToSwap := units_to_swap unitsToClaim asymmetryF in
       share_of nativeAssetBalanceF poolUnitsF unitsToSwap
     else if asymmetry <? 0 then
       let! unitsToSwap := units_to_swap unitsToClaim asymmetryF in
       share_of externalAssetBalanceF poolUnitsF unitsToSwap
     else Ok (NewDec 0)) in
  let! lpUnitsLeft := Dec_Sub lpUnitsF unitsToClaim in
  let! native := NewUintFromBigInt (Dec_RoundInt withdrawNativeAssetAmount) in
  let! external := NewUintFromBigInt (Dec_RoundInt withdrawExternalAssetAmount) in
  let! unitsLeft := NewUintFromBigInt (Dec_RoundInt lpUnitsLeft) in
  let! swap := NewUintFromBigInt (Dec_RoundInt swapAmount) in
  Ok (native, external, unitsLeft, swap).

Definition CalculateAllAssetsForLP (pool : Pool) (lp : LiquidityProvider) : res (Z * Z * Z * Z) :=
  CalculateWithdrawal (PoolUnits pool) (big_String (NativeAssetBalance pool))
    (big_String (ExternalAssetBalance pool)) (big_String (LiquidityProviderUnits lp))
    (big_String MaxWbasis) 0.

(** ** calculations.go: deposits *)

Definition ErrSdkInsufficientFunds : GoError := RegisteredErr "sdk" 5.

(** [1 - |R a - r A| / ((r + R) (a + A))] *)
Definition slip_adjustment (R A r a : Z) : res Z :=
  let! rR := Dec_Add r R in
  let! aA := Dec_Add a A in
  let! slipAdjDenominator := Dec_Mul rR aA in
  let! Ra := Dec_Mul R a in
  let! rA := Dec_Mul r A in
  let! diff := (if rA <? Ra then Dec_Sub Ra rA else Dec_Sub rA Ra) in
  let! slip := Dec_Quo diff slipAdjDenominator in
  Dec_Sub (NewDec 1) slip.

(** The new total of pool units, and the units the depositor earns. *)
Definition CalculatePoolUnits (oldPoolUnits nativeAssetBalance externalAssetBalance nativeAssetAmount
    externalAssetAmount normalizationFactor : Z) (adjustExternalToken : bool) : res (Z * Z) :=
  let! nf := NewUintFromBigInt (Dec_RoundInt normalizationFactor) in
  let! '(nativeAssetAmount, nativeAssetBalance, externalAssetAmount, externalAssetBalance) :=
    (if adjustExternalToken then
       let! a := Uint_Mul externalAssetAmount nf in
       let! b := Uint_Mul externalAssetBalance nf in
       Ok (nativeAssetAmount, nativeAssetBalance, a, b)
     else
       let! a := Uint_Mul nativeAssetAmount nf in
       let! b := Uint_Mul nativeAssetBalance nf in
       Ok (a, b, externalAssetAmount, externalAssetBalance)) in
  if (nativeAssetAmount =? 0) && (externalAssetAmount =? 0) then Err ErrAmountTooLow
  else
    let minLen := GetMinLen [oldPoolUnits; nativeAssetBalance; externalAssetBalance;
                             nativeAssetAmount; externalAssetAmount] in
    let! native := Uint_Add nativeAssetBalance nativeAssetAmount in
    if native =? 0 then Err ErrSdkInsufficientFunds
    else
      let! external := Uint_Add externalAssetBalance externalAssetAmount in
      if external =? 0 then Err ErrSdkInsufficientFunds
      else if (nativeAssetBalance =? 0) || (externalAssetBalance =? 0)
      then Ok (nativeAssetAmount, nativeAssetAmount)
      else
        let! P := panicOnErr (NewDecFromStr (big_String oldPoolUnits)) in
        let! R := panicOnErr (NewDecFromStr (big_String nativeAssetBalance)) in
        let! A := panicOnErr (NewDecFromStr (big_String externalAssetBalance)) in
        let! r := panicOnErr (NewDecFromStr (big_String nativeAssetAmount)) in
        let! a := panicOnErr (NewDecFromStr (big_String externalAssetAmount)) in
        let! P := ReducePrecision P minLen in
        let! R := ReducePrecision R minLen in
        let! A := ReducePrecision A minLen in
        let! a := ReducePrecision a minLen in
        let! r := ReducePrecision r minLen in
        let! slipAdjustment := slip_adjustment R A r a in
        let! aR := Dec_Mul a R in
        let! Ar := Dec_Mul A r in
        let! sum := Dec_Add aR Ar in
        let! numerator := Dec_Mul P sum in
        let! A2 := Dec_Mul (NewDec 2) A in
        let! denominator := Dec_Mul A2 R in
        let! ratio := Dec_Quo numerator denominator in
        let! stakeUnits := Dec_Mul ratio slipAdjustment in
        let! newPoolUnit := Dec_Add P stakeUnits in
        let! newPoolUnit := IncreasePrecision newPoolUnit minLen in
        let! stakeUnits := IncreasePrecision stakeUnits minLen in
        let! new := NewUintFromBigInt (Dec_RoundInt newPoolUnit) in
        let! stake := NewUintFromBigInt (Dec_RoundInt stakeUnits) in
        Ok (new, stake).
End Calc.

(** ** Lemmas *)

Section CalcLemmas.
Context `{SdkMathLaws}.

(** Any quotient is within one unit in the last place of the exact one. *)
Lemma Dec_Quo_close x y z : 0 < y -> Dec_Quo x y = Ok z -> x * prec - y < z * y < x * prec + y.
Proof.
  intros Hy [_ Hz]%Dec_Quo_ok. pose proof prec_pos.
  assert (prec + 2 < 2 * prec) by done.
  assert (Z.abs (z * y - x * prec) < y) as Ha; [|lia].
  apply (Z.mul_lt_mono_pos_l (2 * prec)); [lia|]. rewrite (Z.abs_eq y) in Hz by lia. nia.
Qed.

Lemma Dec_Quo_self y z : 0 < y -> Dec_Quo y y = Ok z -> z = prec.
Proof. intros Hy Hz%Dec_Quo_close; [|done]. nia. Qed.

Lemma Dec_Quo_by_one x z : Dec_Quo x prec = Ok z -> z = x.
Proof. intros Hz%Dec_Quo_close; [|done]. pose proof prec_pos. nia. Qed.

Lemma Dec_Quo_nonneg x y z : 0 <= x -> 0 < y -> Dec_Quo x y = Ok z -> 0 <= z.
Proof. intros Hx Hy Hz%Dec_Quo_close; [|done]. pose proof prec_pos. nia. Qed.

(** Dividing by at least one does not increase. *)
Lemma Dec_Quo_le x y z : 0 <= x -> prec <= y -> Dec_Quo x y = Ok z -> z <= x.
Proof.
  intros Hx Hy Hz%Dec_Quo_close; [|pose proof prec_pos; lia]. pose proof prec_pos.
  destruct (Z.le_gt_cases z x); [done|]. exfalso. nia.
Qed.

(** A ratio of a number to a smaller one is at least one. *)
Lemma Dec_Quo_ge_one x y z : 0 < y <= x -> Dec_Quo x y = Ok z -> prec <= z.
Proof.
  intros Hy Hz%Dec_Quo_close; [|lia]. pose proof prec_pos.
  destruct (Z.le_gt_cases prec z); [done|]. exfalso. nia.
Qed.

Lemma RoundInt_exact k : Dec_RoundInt (k * prec) = k.
Proof. pose proof (Dec_RoundInt_bound (k * prec)). pose proof prec_pos. nia. Qed.

Lemma RoundInt_le_int d k : d <= k * prec -> Dec_RoundInt d <= k.
Proof. intros Hd%Dec_RoundInt_mono. by rewrite RoundInt_exact in Hd. Qed.

Lemma NewDecFromStr_big z d : panicOnErr (NewDecFromStr (big_String z)) = Ok d -> d = z * prec.
Proof. intros Hd. go_inv. by apply NewDecFromStr_ok. Qed.

Lemma share_of_ok b P u z :
  share_of b P u = Ok z -> exists r, Dec_Quo P u = Ok r /\ Dec_Quo b r = Ok z /\ u <> 0.
Proof.
  intros (r & Hr & Hz)%rbind_ok_inv. exists r. split_and!; [done..|].
  by apply Dec_Quo_ok in Hr as [? _].
Qed.

Lemma share_of_le b P u z :
  0 <= b -> 0 <= u <= P -> share_of b P u = Ok z -> 0 <= z <= b.
Proof.
  intros Hb Hu (r & Hr & Hz & ?)%share_of_ok. pose proof prec_pos.
  apply Dec_Quo_ge_one in Hr; [|lia].
  split; [eapply Dec_Quo_nonneg; [| |exact Hz]; lia|by eapply Dec_Quo_le].
Qed.

(** A smaller number of units has a smaller share. *)
Lemma share_of_mono b P u1 u2 z1 z2 :
  0 <= b -> 0 <= u1 <= u2 -> u2 <= P ->
  share_of b P u1 = Ok z1 -> share_of b P u2 = Ok z2 -> z1 <= z2.
Proof.
  intros Hb Hu HP (r1 & Hr1 & Hz1 & ?)%share_of_ok (r2 & Hr2 & Hz2 & ?)%share_of_ok.
  pose proof prec_pos.
  assert (r2 <= r1) as Hr by (eapply (Dec_Quo_mono P u2 r2 P u1 r1); [lia..|nia|done|done]).
  apply Dec_Quo_ge_one in Hr2; [|lia].
  eapply (Dec_Quo_mono b r1 z1 b r2 z2); [lia..|nia|done|done].
Qed.

Lemma share_of_all b P z : 0 < P -> share_of b P P = Ok z -> z = b.
Proof.
  intros HP (r & Hr & Hz & _)%share_of_ok. apply Dec_Quo_self in Hr as ->; [|done].
  by apply Dec_Quo_by_one in Hz.
Qed.

(** [10000 / w] is at least one for basis points up to 10000. *)
Lemma basis_ratio w z : 0 < w <= 10000 -> Dec_Quo (NewDec 10000) (w * prec) = Ok z -> prec <= z.
Proof.
  intros Hw. unfold NewDec. rewrite NewDecFromBigInt_eq. pose proof prec_pos.
  apply Dec_Quo_ge_one. nia.
Qed.

Lemma units_to_swap_le u asym z :
  0 <= u -> asym <> 0 -> Z.abs asym <= 10000 -> units_to_swap u (asym * prec) = Ok z -> 0 <= z <= u.
Proof.
  intros Hu Ha Ha' (r & Hr & Hz)%rbind_ok_inv. pose proof prec_pos.
  rewrite Z.abs_mul, (Z.abs_eq prec) in Hr by done. apply basis_ratio in Hr; [|lia].
  split; [eapply Dec_Quo_nonneg; [| |exact Hz]; lia|by eapply Dec_Quo_le].
Qed.
End CalcLemmas.

Section CalcProperties.
Context `{SdkMathLaws}.

Lemma CalculateWithdrawal_bounds P nb eb L w asym n e l s :
  0 <= nb -> 0 <= eb -> 0 <= L <= P -> 0 < w <= 10000 -> Z.abs asym <= 10000 ->
  CalculateWithdrawal P (big_String nb) (big_String eb) (big_String L) (big_String w) asym = Ok (n, e, l, s) ->
  0 <= n <= nb /\ 0 <= e <= eb /\ 0 <= l <= L
  /\ 0 <= s <= (if 0 <? asym then n else if asym <? 0 then e else 0).
Proof.
  intros Hnb Heb HL Hw Ha Hc. unfold CalculateWithdrawal in Hc. pose proof prec_pos.
  apply rbind_ok_inv in Hc as (nF & ->%NewDecFromStr_big & Hc).
  apply rbind_ok_inv in Hc as (eF & ->%NewDecFromStr_big & Hc).
  apply rbind_ok_inv in Hc as (lF & ->%NewDecFromStr_big & Hc).
  apply rbind_ok_inv in Hc as (wF & ->%NewDecFromStr_big & Hc).
  apply rbind_ok_inv in Hc as (aF & ->%NewDecFromStr_big & Hc).
  apply rbind_ok_inv in Hc as (dd & Hdd%basis_ratio & Hc); [|done].
  rewrite NewDecFromBigInt_eq in Hc. apply rbind_ok_inv in Hc as (u & Hu & Hc).
  assert (0 <= u <= L * prec) as Hub.
  { split; [eapply Dec_Quo_nonneg; [| |exact Hu]; nia|eapply Dec_Quo_le; [|exact Hdd|exact Hu]; nia]. }
  assert (0 <= u <= P * prec) as HuP by nia.
  apply rbind_ok_inv in Hc as (we & Hwe & Hc). apply rbind_ok_inv in Hc as (wn & Hwn & Hc).
  apply rbind_ok_inv in Hc as (sw & Hsw & Hc).
  apply rbind_ok_inv in Hc as (lf & ->%Dec_Sub_ok & Hc).
  apply rbind_ok_inv in Hc as (n' & [-> Hn']%NewUintFromBigInt_ok & Hc).
  apply rbind_ok_inv in Hc as (e' & [-> He']%NewUintFromBigInt_ok & Hc).
  apply rbind_ok_inv in Hc as (l' & [-> Hl']%NewUintFromBigInt_ok & Hc).
  apply rbind_ok_inv in Hc as (s' & [-> Hs']%NewUintFromBigInt_ok & Hc). injection Hc as <- <- <- <-.
  pose proof Hwe as [_ ?]%share_of_le; [|nia|done].
  pose proof Hwn as [_ ?]%share_of_le; [|nia|done].
  split_and!; [lia|by apply RoundInt_le_int|lia|by apply RoundInt_le_int|lia| |lia|].
  { apply RoundInt_le_int. lia. }
  destruct (Z.ltb_spec 0 asym); [|destruct (Z.ltb_spec asym 0)].
  - apply rbind_ok_inv in Hsw as (us & Hus%units_to_swap_le & Hsw); [|lia..].
    apply Dec_RoundInt_mono. eapply share_of_mono; [| | |exact Hsw|exact Hwn]; nia.
  - apply rbind_ok_inv in Hsw as (us & Hus%units_to_swap_le & Hsw); [|lia..].
    apply Dec_RoundInt_mono. eapply share_of_mono; [| | |exact Hsw|exact Hwe]; nia.
  - injection Hsw as <-. unfold NewDec. rewrite NewDecFromBigInt_eq. by rewrite RoundInt_exact.
Qed.

Lemma Dec_Quo_run x y : 0 < y -> Z.abs (x * prec) < y * 2 ^ 254 -> exists z, Dec_Quo x y = Ok z.
Proof. intros Hy Hx. apply is_ok_true, Dec_Quo_total; lia. Qed.

Lemma scaled_small k : 0 <= k < 2 ^ 190 -> 0 <= k * prec < 2 ^ 254.
Proof.
  intros Hk. pose proof prec_pos. split; [lia|].
  apply Z.le_lt_trans with (2 ^ 190 * prec); [apply Z.mul_le_mono_nonneg_r; lia|done].
Qed.

Lemma Dec_Quo_whole_run k : 0 < k -> Dec_Quo k k = Ok prec.
Proof.
  intros Hk. pose proof prec_pos. destruct (Dec_Quo_run k k) as [r Hr]; [done| |].
  - rewrite Z.abs_eq by lia. apply Z.mul_lt_mono_pos_l; done.
  - by pose proof Hr as ->%Dec_Quo_self.
Qed.

Lemma Dec_Quo_one_run k : 0 <= k < 2 ^ 254 -> Dec_Quo k prec = Ok k.
Proof.
  intros Hk. pose proof prec_pos. destruct (Dec_Quo_run k prec) as [r Hr]; [done| |].
  - rewrite Z.abs_eq, Z.mul_comm by lia. apply Z.mul_lt_mono_pos_l; lia.
  - by pose proof Hr as ->%Dec_Quo_by_one.
Qed.

Lemma share_of_run b P :
  0 < P -> 0 <= b < 2 ^ 190 -> share_of (b * prec) (P * prec) (P * prec) = Ok (b * prec).
Proof.
  intros HP Hb. pose proof prec_pos. unfold share_of. rewrite Dec_Quo_whole_run by lia. simpl.
  by apply Dec_Quo_one_run, scaled_small.
Qed.

(** A provider of all the pool units who withdraws everything gets the whole pool. *)
Lemma CalculateWithdrawal_whole P nb eb :
  0 < P < 2 ^ 190 -> 0 <= nb < 2 ^ 190 -> 0 <= eb < 2 ^ 190 ->
  CalculateWithdrawal P (big_String nb) (big_String eb) (big_String P) (big_String MaxWbasis) 0
  = Ok (nb, eb, 0, 0).
Proof.
  intros HP Hnb Heb. pose proof prec_pos.
  assert (forall z, 0 <= z < 2 ^ 190 -> panicOnErr (NewDecFromStr (big_String z)) = Ok (z * prec)) as Hs.
  { intros z Hz%scaled_small. rewrite NewDecFromStr_total; [done|]. rewrite Z.abs_eq; lia. }
  assert (forall k, 0 <= k < 2 ^ 190 -> NewUintFromBigInt (Dec_RoundInt (k * prec)) = Ok k) as Hr.
  { intros k Hk. rewrite RoundInt_exact. apply NewUintFromBigInt_total. lia. }
  unfold CalculateWithdrawal. rewrite (Hs nb), (Hs eb), (Hs P), (Hs MaxWbasis), (Hs 0) by (done || lia).
  cbn [rbind]. unfold NewDec. rewrite !NewDecFromBigInt_eq.
  change (10000 * prec) with (MaxWbasis * prec). rewrite Dec_Quo_whole_run by done. cbn [rbind].
  rewrite Dec_Quo_one_run by (apply scaled_small; lia). cbn [rbind].
  rewrite !share_of_run by lia. cbn [rbind].
  change (0 <? 0) with false. cbn [rbind].
  rewrite Dec_Sub_total by (rewrite Z.sub_diag; done). rewrite Z.sub_diag.
  cbn [rbind]. rewrite !Hr by lia. cbn [rbind]. change (Dec_RoundInt 0) with (Dec_RoundInt (0 * prec)).
  by rewrite Hr.
Qed.

(** The part [L] of [P] of a balance, in whole coins: off by at most one coin and one part in
    10^18 from the exact one, and never more than the balance. *)
Definition pro_rata (b P L n : Z) : Prop := 0 <= n <= b /\ Z.abs (n * P - b * L) * prec <= n * L + P * prec + L.

(** The errors of the two rounded divisions, on integers; [p] is the precision. *)
Lemma ratio_error (p P L r : Z) :
  2 <= p -> 0 <= L -> 2 * p * Z.abs (r * (L * p) - P * p * p) <= Z.abs (L * p) * (p + 2) -> Z.abs (r * L - P * p) <= L.
Proof.
  intros Hp HL Hr. replace (r * (L * p) - P * p * p) with (p * (r * L - P * p)) in Hr by ring.
  rewrite Z.abs_mul, (Z.abs_eq p), (Z.abs_eq (L * p)) in Hr by nia. set (D := Z.abs (r * L - P * p)) in *. clearbody D.
  assert (p * (2 * p * D) <= p * (L * (p + 2))) as H1 by nia. apply Z.mul_le_mono_pos_l in H1; [nia|lia].
Qed.

Lemma quotient_error (p b r z n : Z) :
  3 <= p -> 0 <= r -> 2 * p * Z.abs (z * r - b * p * p) <= Z.abs r * (p + 2) -> 2 * Z.abs (n * p - z) <= p ->
  Z.abs (n * r - b * p) <= r.
Proof.
  intros Hp Hr Hz Hn. rewrite (Z.abs_eq r) in Hz by done.
  assert (p * Z.abs (n * r - b * p) <= Z.abs (z * r - b * p * p) + r * Z.abs (n * p - z)) as Ht.
  { replace (p * Z.abs (n * r - b * p)) with (Z.abs ((z * r - b * p * p) + r * (n * p - z))).
    - etrans; [apply Z.abs_triangle|]. rewrite (Z.abs_mul r), (Z.abs_eq r) by done. lia.
    - replace ((z * r - b * p * p) + r * (n * p - z)) with (p * (n * r - b * p)) by ring. rewrite Z.abs_mul, (Z.abs_eq p); lia. }
  set (X := Z.abs (z * r - b * p * p)) in *. set (Y := Z.abs (n * p - z)) in *. set (E := Z.abs (n * r - b * p)) in *. clearbody X Y E.
  assert (r * (2 * Y) <= r * p) as H1 by nia. assert (2 * p * (p * E) <= r * (p + 2) + p * (r * p)) as H2 by nia.
  assert (r * (p + 2) + p * (r * p) <= 2 * p * (p * r)) as H3 by nia. nia.
Qed.

Lemma share_of_pro_rata b P L z :
  0 <= b -> 0 < L <= P -> share_of (b * prec) (P * prec) (L * prec) = Ok z -> pro_rata b P L (Dec_RoundInt z).
Proof.
  intros Hb HL Hs. pose proof prec_pos as Hp. pose proof (share_of_le (b * prec) (P * prec) (L * prec) z ltac:(nia) ltac:(nia) Hs) as Hz.
  assert (0 <= Dec_RoundInt z <= b) as Hn0.
  { split; [|apply RoundInt_le_int; lia]. rewrite <- (RoundInt_exact 0). apply Dec_RoundInt_mono. lia. }
  split; [done|].
  apply share_of_ok in Hs as (r & Hr & Hq & _). pose proof (Dec_Quo_ge_one (P * prec) (L * prec) r ltac:(nia) Hr) as Hr1.
  apply Dec_Quo_ok in Hr as [_ Hr]. apply (ratio_error prec P L r ltac:(done) ltac:(lia)) in Hr.
  apply Dec_Quo_ok in Hq as [_ Hq].
  pose proof (quotient_error prec b r z _ ltac:(done) ltac:(lia) Hq (Dec_RoundInt_bound z)) as HE.
  set (n := Dec_RoundInt z) in *. clearbody n.
  replace (Z.abs (n * P - b * L) * prec) with (Z.abs (L * (n * r - b * prec) - n * (r * L - P * prec))).
  - pose proof (Z.abs_triangle (L * (n * r - b * prec)) (- (n * (r * L - P * prec)))) as Ht.
    rewrite Z.abs_opp, !Z.abs_mul, (Z.abs_eq L), (Z.abs_eq n) in Ht by lia.
    replace (L * (n * r - b * prec) + - (n * (r * L - P * prec))) with (L * (n * r - b * prec) - n * (r * L - P * prec)) in Ht by ring.
    set (E := Z.abs (n * r - b * prec)) in *. set (D := Z.abs (r * L - P * prec)) in *.
    assert (r * L <= P * prec + L) by (unfold D in Hr; lia). clearbody E D. nia.
  - replace (L * (n * r - b * prec) - n * (r * L - P * prec)) with ((n * P - b * L) * prec) by ring. rewrite Z.abs_mul, (Z.abs_eq prec); lia.
Qed.

Lemma share_of_total b P L :
  0 <= b < 2 ^ 190 -> 0 < L <= P -> P < 2 ^ 190 -> is_ok (share_of (b * prec) (P * prec) (L * prec)) = true.
Proof.
  intros Hb HL HP. pose proof prec_pos. unfold share_of.
  destruct (Dec_Quo_run (P * prec) (L * prec)) as [r Hr]; [nia| |].
  { pose proof (scaled_small P ltac:(lia)). rewrite Z.abs_eq by nia. nia. }
  rewrite Hr. cbn [rbind]. pose proof (Dec_Quo_ge_one (P * prec) (L * prec) r ltac:(nia) Hr) as Hr1.
  destruct (Dec_Quo_run (b * prec) r) as [z Hz]; [lia| |by rewrite Hz].
  pose proof (scaled_small b Hb). rewrite Z.abs_eq by nia. nia.
Qed.

(** What a provider's units are worth: its part of both sides of the pool. *)
Lemma all_assets_pro_rata pool lp :
  let P := PoolUnits pool in let L := LiquidityProviderUnits lp in
  0 < L <= P -> P < 2 ^ 190 -> 0 <= NativeAssetBalance pool < 2 ^ 190 -> 0 <= ExternalAssetBalance pool < 2 ^ 190 ->
  exists n e, CalculateAllAssetsForLP pool lp = Ok (n, e, 0, 0)
    /\ pro_rata (NativeAssetBalance pool) P L n /\ pro_rata (ExternalAssetBalance pool) P L e.
Proof.
  intros P L HL HP Hn He. pose proof prec_pos. unfold CalculateAllAssetsForLP. fold P L.
  set (nb := NativeAssetBalance pool) in *. set (eb := ExternalAssetBalance pool) in *. clearbody P L nb eb.
  assert (forall z, 0 <= z < 2 ^ 190 -> panicOnErr (NewDecFromStr (big_String z)) = Ok (z * prec)) as Hs.
  { intros z Hz%scaled_small. rewrite NewDecFromStr_total; [done|]. rewrite Z.abs_eq; lia. }
  destruct (proj1 (is_ok_true _) (share_of_total nb P L Hn HL HP)) as [zn Hzn].
  destruct (proj1 (is_ok_true _) (share_of_total eb P L He HL HP)) as [ze Hze].
  pose proof (share_of_pro_rata nb P L zn ltac:(lia) HL Hzn) as Hpn.
  pose proof (share_of_pro_rata eb P L ze ltac:(lia) HL Hze) as Hpe.
  exists (Dec_RoundInt zn), (Dec_RoundInt ze). split; [|done].
  unfold CalculateWithdrawal. rewrite (Hs nb), (Hs eb), (Hs L), (Hs MaxWbasis), (Hs 0) by (done || lia).
  cbn [rbind]. unfold NewDec. rewrite !NewDecFromBigInt_eq.
  change (10000 * prec) with (MaxWbasis * prec). rewrite Dec_Quo_whole_run by done. cbn [rbind].
  rewrite Dec_Quo_one_run by (apply scaled_small; lia). cbn [rbind].
  rewrite Hze, Hzn. cbn [rbind]. change (0 <? 0) with false. cbn [rbind].
  rewrite Dec_Sub_total by (rewrite Z.sub_diag; done). rewrite Z.sub_diag. cbn [rbind].
  destruct Hpn as [Hn0 _], Hpe as [He0 _]. change (Dec_RoundInt 0) with (Dec_RoundInt (0 * prec)).
  rewrite (RoundInt_exact 0), (NewUintFromBigInt_total (Dec_RoundInt zn)), (NewUintFromBigInt_total (Dec_RoundInt ze)) by lia.
  cbn [rbind]. by rewrite (NewUintFromBigInt_total 0).
Qed.

(** The swap formula never returns a negative amount. *)
Lemma CalcSwapResult_nonneg t nf adj X x Y r : CalcSwapResult t nf adj X x Y = Ok r -> 0 <= r.
Proof.
  unfold CalcSwapResult. destruct (negb _); [intros [= <-]; lia|]. intros Hr.
  apply rbind_ok_inv in Hr as (? & _ & Hr). apply rbind_ok_inv in Hr as ([[? ?] ?] & _ & Hr).
  repeat apply rbind_ok_inv in Hr as (? & _ & Hr). apply NewUintFromBigInt_ok in Hr. lia.
Qed.

(** What a swap does to a pool, in either direction. *)
Lemma SwapOne_ok from x to pool nf adj r fee imp pool' :
  SwapOne from x to pool nf adj = Ok (r, fee, imp, pool') ->
  (from = GetSettlementAsset <-> to <> GetSettlementAsset) ->
  ExternalAsset pool' = ExternalAsset pool /\ PoolUnits pool' = PoolUnits pool /\
  if decide (from = GetSettlementAsset)
  then NativeAssetBalance pool' = NativeAssetBalance pool + x
       /\ ExternalAssetBalance pool' = ExternalAssetBalance pool - r
       /\ 0 <= r < ExternalAssetBalance pool
  else ExternalAssetBalance pool' = ExternalAssetBalance pool + x
       /\ NativeAssetBalance pool' = NativeAssetBalance pool - r
       /\ 0 <= r < NativeAssetBalance pool.
Proof.
  unfold SwapOne, SetInputs. intros Hs Hft.
  destruct (decide (from = GetSettlementAsset)), (decide (to = GetSettlementAsset)); try tauto;
    apply rbind_ok_inv in Hs as (? & _ & Hs); apply rbind_ok_inv in Hs as (? & _ & Hs);
    apply rbind_ok_inv in Hs as (r' & Hr%CalcSwapResult_nonneg & Hs);
    match type of Hs with (if ?y <=? _ then _ else _) = _ => destruct (Z.leb_spec y r'); [done|] end;
    apply rbind_ok_inv in Hs as (? & [-> _]%Uint_Add_ok & Hs);
    apply rbind_ok_inv in Hs as (? & [-> _]%Uint_Sub_ok & Hs);
    injection Hs as <- <- <- <-; simpl; split_and!; done || lia.
Qed.

(** ** Lengths of decimal texts *)

Lemma min_max_len_fold inputs a b mn mx :
  fold_left (fun '(minLen, maxInputLen) val =>
    let currentLen := str_len (big_String val) in
    (if currentLen <? minLen then currentLen else minLen,
     if maxInputLen <? currentLen then currentLen else maxInputLen)) inputs (a, b) = (mn, mx) ->
  mn <= a /\ b <= mx /\ forall v, v ∈ inputs -> mn <= str_len (big_String v) <= mx.
Proof.
  revert a b; induction inputs as [|v inputs IH]; intros a b Hf; simpl in Hf.
  - injection Hf as <- <-. split_and!; [lia|lia|]. intros v []%elem_of_nil.
  - apply IH in Hf as (Ha & Hb & Hv).
    destruct (Z.ltb_spec (str_len (big_String v)) a), (Z.ltb_spec b (str_len (big_String v)));
      split_and!; try lia; intros w [->|Hw]%elem_of_cons; first [by apply Hv|lia].
Qed.

(** The precision by which amounts are reduced is at least 6, and beyond 6 it
    never exceeds the number of digits after the first of any input. *)
Lemma GetMinLen_bound inputs v :
  v ∈ inputs -> 0 <= v -> 6 <= GetMinLen inputs /\ (GetMinLen inputs = 6 \/ 10 ^ GetMinLen inputs <= v).
Proof.
  intros Hin Hv. unfold GetMinLen. destruct (min_max_len inputs) as [mn mx] eqn:E.
  apply min_max_len_fold in E as (_ & _ & Hall). apply Hall in Hin as [Hmn _].
  destruct (big_String_length v Hv) as (k & Hk & Hk1 & _ & Hlo). rewrite Hk in Hmn.
  assert (forall g, 6 <= g -> g <= mn - 1 -> 10 ^ g <= v) as Hg.
  { intros g Hg6 Hg. destruct Hlo as [->|Hlo]; [vm_compute in Hk; lia|].
    etrans; [|exact Hlo]. apply Z.pow_le_mono_r; lia. }
  destruct (Z.leb_spec mn 6); [lia|]. destruct (Z.leb_spec 27 mx).
  - destruct (Z.ltb_spec (mx - 27) mn); [destruct (Z.leb_spec (mx - 27) 6)|]; split; try lia;
      right; apply Hg; lia.
  - split; [lia|]. right. apply Hg; lia.
Qed.

Lemma ReducePrecision_close v m d :
  0 <= m < 2 ^ 64 -> ReducePrecision (v * prec) m = Ok d -> v * prec - 10 ^ m < d * 10 ^ m < v * prec + 10 ^ m.
Proof.
  unfold ReducePrecision, NewDec. rewrite NewDecFromBigInt_eq. intros Hm Hd.
  apply rbind_ok_inv in Hd as (p & Hp & Hd). unfold u64 in Hp. rewrite Z.mod_small in Hp by done.
  apply Dec_Power_ok in Hp as ->; [|lia]. assert (0 < 10 ^ m) by (apply Z.pow_pos_nonneg; lia).
  pose proof prec_pos. apply Dec_Quo_close in Hd; [nia|nia].
Qed.

Lemma IncreasePrecision_exact v m d :
  0 <= m < 2 ^ 64 -> IncreasePrecision v m = Ok d -> d = v * 10 ^ m.
Proof.
  unfold IncreasePrecision, NewDec. rewrite NewDecFromBigInt_eq. intros Hm Hd.
  apply rbind_ok_inv in Hd as (p & Hp & Hd). unfold u64 in Hp. rewrite Z.mod_small in Hp by done.
  apply Dec_Power_ok in Hp as ->; [|lia]. apply Dec_Mul_ok in Hd. pose proof prec_pos. nia.
Qed.

Lemma str_len_nonneg_bound inputs : inputs <> [] -> (forall v, v ∈ inputs -> 0 <= v < 2 ^ 256) ->
  0 <= GetMinLen inputs < 2 ^ 64.
Proof.
  intros Hne Hv. destruct inputs as [|v inputs]; [done|].
  destruct (GetMinLen_bound (v :: inputs) v) as [H6 Hg]; [by left|by apply Hv; left|].
  split; [lia|]. destruct Hg as [->|Hg]; [done|].
  destruct (Z.lt_ge_cases (GetMinLen (v :: inputs)) 256) as [|Hge]; [lia|].
  apply (Z.pow_le_mono_r 10) in Hge; [|lia]. specialize (Hv v ltac:(by left)).
  assert (2 ^ 256 < 10 ^ 256) by done. lia.
Qed.

Lemma RoundInt_shift k d1 d2 e :
  Z.abs (d1 - (k * prec + d2)) <= e -> Z.abs (Dec_RoundInt d1 - (k + Dec_RoundInt d2)) * prec <= prec + e.
Proof.
  intros Hd. pose proof (Dec_RoundInt_bound d1). pose proof (Dec_RoundInt_bound d2).
  pose proof prec_pos. nia.
Qed.

Lemma normalization_run d :
  0 <= d <= 76 -> GetNormalizationFactor d = Ok (10 ^ Z.abs (18 - d) * prec, d <? 18).
Proof.
  intros Hd. unfold GetNormalizationFactor, NewDec. rewrite !NewDecFromBigInt_eq.
  destruct (Z.eqb_spec d 18) as [->|]; [done|].
  assert (forall k, 0 <= k <= 58 -> Dec_Power (10 * prec) (u64 (i64 k)) = Ok (10 ^ k * prec)) as Hp.
  { intros k Hk. replace (u64 (i64 k)) with k.
    - destruct (proj1 (is_ok_true (Dec_Power (10 * prec) k))) as [p Ep].
      + apply Dec_Power_total; [lia|]. apply Z.le_lt_trans with (10 ^ 58 * prec); [|done].
        apply Z.mul_le_mono_nonneg_r; [done|]. apply Z.pow_le_mono_r; lia.
      + rewrite Ep. by apply Dec_Power_ok in Ep as ->; [|lia].
    - unfold u64, i64. rewrite (Z.mod_small (k + 2 ^ 63)) by lia.
      replace (k + 2 ^ 63 - 2 ^ 63) with k by lia. by rewrite Z.mod_small by lia. }
  destruct (Z.ltb_spec d 18).
  - rewrite Hp by lia. simpl. by rewrite Z.abs_eq by lia.
  - rewrite Hp by lia. simpl. rewrite Z.abs_neq by lia. do 4 f_equal. lia.
Qed.

(** ** Deposits *)

(** On a pool that lacks one of its balances a deposit is worth its native amount. *)
Lemma CalculatePoolUnits_empty P n e d :
  0 <= d <= 76 -> 0 < n -> 0 < e -> n * 10 ^ Z.abs (18 - d) < 2 ^ 256 -> e * 10 ^ Z.abs (18 - d) < 2 ^ 256 ->
  CalculatePoolUnits P 0 0 n e (10 ^ Z.abs (18 - d) * prec) (d <? 18)
  = let units := if d <? 18 then n else n * 10 ^ Z.abs (18 - d) in Ok (units, units).
Proof.
  intros Hd Hn He Hnb Heb. set (f := 10 ^ Z.abs (18 - d)) in *.
  assert (0 < f) by (apply Z.pow_pos_nonneg; lia).
  assert (f < 2 ^ 256).
  { apply Z.le_lt_trans with (10 ^ 58); [|done]. apply Z.pow_le_mono_r; lia. }
  unfold CalculatePoolUnits. rewrite RoundInt_exact, NewUintFromBigInt_total by lia. cbn [rbind].
  destruct (d <? 18); rewrite !Uint_Mul_total by (lia || nia); cbn [rbind];
    rewrite Z.mul_0_l; rewrite !Uint_Add_total by nia; cbn [rbind].
  - rewrite !(proj2 (Z.eqb_neq _ 0)) by nia. done.
  - rewrite !(proj2 (Z.eqb_neq _ 0)) by nia. done.
Qed.

Lemma CalculatePoolUnits_drift P nb eb n e nf adj new stake :
  0 <= P < 2 ^ 256 -> 0 < nb < 2 ^ 256 -> 0 < eb < 2 ^ 256 -> 0 <= n < 2 ^ 256 -> 0 <= e < 2 ^ 256 -> prec <= nf ->
  CalculatePoolUnits P nb eb n e nf adj = Ok (new, stake) ->
  Z.abs (new - (P + stake)) <= 1 + P / prec.
Proof.
  intros HP Hnb Heb Hn He Hnf Hc. unfold CalculatePoolUnits in Hc. pose proof prec_pos.
  apply rbind_ok_inv in Hc as (f & [-> Hf]%NewUintFromBigInt_ok & Hc).
  assert (1 <= Dec_RoundInt nf) as Hf1.
  { rewrite <- (RoundInt_exact 1). apply Dec_RoundInt_mono. lia. }
  apply rbind_ok_inv in Hc as ([[[n' nb'] e'] eb'] & Hnorm & Hc).
  assert (0 <= n' < 2 ^ 256 /\ 0 < nb' < 2 ^ 256 /\ 0 <= e' < 2 ^ 256 /\ 0 < eb' < 2 ^ 256) as (Hn' & Hnb' & He' & Heb').
  { destruct adj; apply rbind_ok_inv in Hnorm as (? & [-> ?]%Uint_Mul_ok & Hnorm);
      apply rbind_ok_inv in Hnorm as (? & [-> ?]%Uint_Mul_ok & Hnorm); injection Hnorm as <- <- <- <-; nia. }
  destruct (_ && _); [done|].
  pose proof (str_len_nonneg_bound [P; nb'; eb'; n'; e'] ltac:(done)) as Hm64.
  pose proof (GetMinLen_bound [P; nb'; eb'; n'; e'] P ltac:(by left) ltac:(lia)) as [Hm6 Hm].
  set (m := GetMinLen _) in *.
  assert (0 <= m < 2 ^ 64) as Hm'.
  { apply Hm64. intros v Hv. set_unfold in Hv. naive_solver lia. }
  apply rbind_ok_inv in Hc as (? & _ & Hc). destruct (_ =? 0); [done|].
  apply rbind_ok_inv in Hc as (? & _ & Hc). destruct (_ =? 0); [done|].
  destruct (Z.eqb_spec nb' 0); [lia|]. destruct (Z.eqb_spec eb' 0); [lia|]. simpl orb in Hc. cbv iota in Hc.
  apply rbind_ok_inv in Hc as (PF & ->%NewDecFromStr_big & Hc).
  do 4 apply rbind_ok_inv in Hc as (? & _ & Hc).
  apply rbind_ok_inv in Hc as (PD & HPD%ReducePrecision_close & Hc); [|done].
  do 4 apply rbind_ok_inv in Hc as (? & _ & Hc).
  do 8 apply rbind_ok_inv in Hc as (? & _ & Hc).
  apply rbind_ok_inv in Hc as (S & _ & Hc).
  apply rbind_ok_inv in Hc as (? & ->%Dec_Add_ok & Hc).
  apply rbind_ok_inv in Hc as (? & ->%IncreasePrecision_exact & Hc); [|done].
  apply rbind_ok_inv in Hc as (? & ->%IncreasePrecision_exact & Hc); [|done].
  apply rbind_ok_inv in Hc as (? & [-> _]%NewUintFromBigInt_ok & Hc).
  apply rbind_ok_inv in Hc as (? & [-> _]%NewUintFromBigInt_ok & Hc). injection Hc as <- <-.
  pose proof (RoundInt_shift P ((PD + S) * 10 ^ m) (S * 10 ^ m) (10 ^ m - 1) ltac:(lia)) as Hr.
  set (D := Z.abs _) in *. clearbody D. pose proof (Z.div_pos P prec ltac:(lia) ltac:(done)).
  destruct Hm as [Hm|Hm].
  - rewrite Hm in Hr. change (10 ^ 6) with 1000000 in Hr. unfold prec in *. lia.
  - enough (D - 1 <= P / prec) by lia. apply Z.div_le_lower_bound; lia.
Qed.
End CalcProperties.

(** ** Claims *)

Section CalcClaims.
Context `{SdkMathLaws}.

(** C5: A swap in either direction adds exactly the sent amount to one side of the
    pool, takes exactly the paid amount from the other side, never empties that side,
    and leaves the asset and the pool units alone. *)
Theorem swap_conserves from x to pool nf adj r fee imp pool' :
  SwapOne from x to pool nf adj = Ok (r, fee, imp, pool') ->
  (from = GetSettlementAsset <-> to <> GetSettlementAsset) ->
  ExternalAsset pool' = ExternalAsset pool /\ PoolUnits pool' = PoolUnits pool /\
  if decide (from = GetSettlementAsset)
  then NativeAssetBalance pool' = NativeAssetBalance pool + x
       /\ ExternalAssetBalance pool' = ExternalAssetBalance pool - r
       /\ 0 <= r < ExternalAssetBalance pool
  else ExternalAssetBalance pool' = ExternalAssetBalance pool + x
       /\ NativeAssetBalance pool' = NativeAssetBalance pool - r
       /\ 0 <= r < NativeAssetBalance pool.
Proof. apply SwapOne_ok. Qed.

(** C6: A withdrawal never pays more than the pool holds, never leaves the provider
    more units than before, and the part it swaps is at most the part it withdraws of
    the same asset: for a provider holding at most the pool's units, between 1 and
    10000 basis points, and an asymmetry within 10000. *)
Theorem withdrawal_bounds P nb eb L w asym n e l s :
  0 <= nb -> 0 <= eb -> 0 <= L <= P -> 0 < w <= 10000 -> Z.abs asym <= 10000 ->
  CalculateWithdrawal P (big_String nb) (big_String eb) (big_String L) (big_String w) asym = Ok (n, e, l, s) ->
  0 <= n <= nb /\ 0 <= e <= eb /\ 0 <= l <= L
  /\ 0 <= s <= (if 0 <? asym then n else if asym <? 0 then e else 0).
Proof. apply CalculateWithdrawal_bounds. Qed.

(** C7: The owner of all the units of a pool who withdraws everything is assigned
    exactly the whole pool, with no unit left: the rounding loses nothing.  The
    function returns (does not panic) for all balances below 2^190. *)
Theorem withdraw_everything pool lp :
  0 < PoolUnits pool < 2 ^ 190 -> 0 <= NativeAssetBalance pool < 2 ^ 190 ->
  0 <= ExternalAssetBalance pool < 2 ^ 190 -> LiquidityProviderUnits lp = PoolUnits pool ->
  CalculateAllAssetsForLP pool lp = Ok (NativeAssetBalance pool, ExternalAssetBalance pool, 0, 0).
Proof. intros HP Hn He HL. unfold CalculateAllAssetsForLP. rewrite HL. by apply CalculateWithdrawal_whole. Qed.

(** The first deposit into a pool earns as many units as its native amount, scaled
    by the token's decimals beyond 18, and returns for every decimals up to 76 for
    which the scaled amounts fit in 256 bits. *)
Theorem first_deposit_units P n e d :
  0 <= d <= 76 -> 0 < n -> 0 < e -> n * 10 ^ Z.abs (18 - d) < 2 ^ 256 -> e * 10 ^ Z.abs (18 - d) < 2 ^ 256 ->
  rbind (GetNormalizationFactor d) (fun '(nf, adj) => CalculatePoolUnits P 0 0 n e nf adj)
  = let units := if d <? 18 then n else n * 10 ^ Z.abs (18 - d) in Ok (units, units).
Proof. intros. rewrite normalization_run by done. by apply CalculatePoolUnits_empty. Qed.

(** C8: The new total of pool units that a deposit computes is the old total plus the
    units it grants, up to one unit and one part in 10^18 of the old total, whatever
    precision the amounts were reduced to. *)
Theorem pool_units_drift P nb eb n e nf adj new stake :
  0 <= P < 2 ^ 256 -> 0 < nb < 2 ^ 256 -> 0 < eb < 2 ^ 256 -> 0 <= n < 2 ^ 256 -> 0 <= e < 2 ^ 256 -> prec <= nf ->
  CalculatePoolUnits P nb eb n e nf adj = Ok (new, stake) ->
  Z.abs (new - (P + stake)) <= 1 + P / prec.
Proof. apply CalculatePoolUnits_drift. Qed.
End CalcClaims.

(** The precision the pricing formulas drop is at least 6 digits, and more than 6
    only when every input keeps at least one digit before the point. *)
Theorem precision_kept inputs v :
  v ∈ inputs -> 0 <= v ->
  6 <= GetMinLen inputs /\ (GetMinLen inputs = 6 \/ 10 ^ GetMinLen inputs <= v).
Proof. apply GetMinLen_bound. Qed.

(** ** Witnesses *)

Definition ex_eth : Asset := mkAsset "ceth".
Definition ex_pool : Pool := mkPool (Some ex_eth) (5 * 10 ^ 21) (2 * 10 ^ 21) (5 * 10 ^ 21).

Lemma swap_conserves_witness :
  exists r fee imp pool',
    @SwapOne RefMath GetSettlementAsset (10 ^ 20) ex_eth ex_pool prec false = Ok (r, fee, imp, pool')
    /\ NativeAssetBalance pool' = 5 * 10 ^ 21 + 10 ^ 20 /\ 0 <= r < 2 * 10 ^ 21.
Proof.
  do 4 eexists. split; [vm_compute; reflexivity|].
  pose proof (@swap_conserves RefMath RefMath_laws GetSettlementAsset (10 ^ 20) ex_eth ex_pool prec false
    _ _ _ _ ltac:(vm_compute; reflexivity) ltac:(split; discriminate || done)) as (_ & _ & Hb).
  split; apply Hb.
Defined.

Lemma withdrawal_bounds_witness :
  exists n e l s,
    @CalculateWithdrawal RefMath (5 * 10 ^ 21) (big_String (5 * 10 ^ 21)) (big_String (2 * 10 ^ 21))
      (big_String (10 ^ 21)) (big_String 2500) (-3000) = Ok (n, e, l, s)
    /\ 0 <= n <= 5 * 10 ^ 21 /\ 0 <= s <= e.
Proof.
  do 4 eexists. split; [vm_compute; reflexivity|].
  pose proof (@withdrawal_bounds RefMath RefMath_laws (5 * 10 ^ 21) (5 * 10 ^ 21) (2 * 10 ^ 21) (10 ^ 21) 2500 (-3000)
    _ _ _ _ ltac:(lia) ltac:(lia) ltac:(lia) ltac:(lia) ltac:(lia) ltac:(vm_compute; reflexivity)) as (Hn & _ & _ & Hs).
  split; [exact Hn|exact Hs].
Defined.

Lemma withdraw_everything_witness :
  @CalculateAllAssetsForLP RefMath ex_pool (mkLiquidityProvider (Some ex_eth) (5 * 10 ^ 21) "sif1lp")
  = Ok (5 * 10 ^ 21, 2 * 10 ^ 21, 0, 0).
Proof.
  apply (@withdraw_everything RefMath RefMath_laws ex_pool (mkLiquidityProvider (Some ex_eth) (5 * 10 ^ 21) "sif1lp"));
    simpl; lia.
Defined.

Lemma first_deposit_units_witness :
  rbind (@GetNormalizationFactor RefMath 6) (fun '(nf, adj) => @CalculatePoolUnits RefMath 0 0 0 (10 ^ 18) (10 ^ 7) nf adj)
  = Ok (10 ^ 18, 10 ^ 18).
Proof. apply (@first_deposit_units RefMath RefMath_laws 0 (10 ^ 18) (10 ^ 7) 6); done. Defined.

Lemma pool_units_drift_witness :
  exists new stake,
    @CalculatePoolUnits RefMath (5 * 10 ^ 21) (5 * 10 ^ 21) (2 * 10 ^ 21) (10 ^ 19) (3 * 10 ^ 18 + 7) prec false = Ok (new, stake)
    /\ Z.abs (new - (5 * 10 ^ 21 + stake)) <= 5001.
Proof.
  do 2 eexists. split; [vm_compute; reflexivity|].
  apply (@pool_units_drift RefMath RefMath_laws (5 * 10 ^ 21) (5 * 10 ^ 21) (2 * 10 ^ 21) (10 ^ 19) (3 * 10 ^ 18 + 7) prec false);
    (lia || (vm_compute; reflexivity)).
Defined.

Lemma precision_kept_witness :
  GetMinLen [10 ^ 30; 5 * 10 ^ 21; 7 * 10 ^ 20] = 6 \/ 10 ^ GetMinLen [10 ^ 30; 5 * 10 ^ 21; 7 * 10 ^ 20] <= 7 * 10 ^ 20.
Proof. apply (precision_kept [10 ^ 30; 5 * 10 ^ 21; 7 * 10 ^ 20] (7 * 10 ^ 20)); [set_solver|lia]. Defined.
