(* ===== verification/ClpKeeper.v ===== *)
(** * x/clp/keeper: the store, its operations, genesis and queries

    The module's [KVStore] holds three families of keys, told apart by their first
    byte: pools, liquidity providers, and the list of admins.  [ClpStore] has one
    field per family, plus the parameter subspace.  [World] adds the two keepers
    the module calls: the bank (changed by it) and the token registry (only read). *)

From Stdlib Require Import ZArith Lia Ascii String.
From stdpp Require Import base list gmap strings.
From S2P Require Import Prelude SdkMath Sdk TokenRegistry ClpTypes ClpCalc.

(** ** State *)

Record ClpStore := mkClpStore {
  clp_pools : KV Pool;
  clp_lps : KV LiquidityProvider;
  clp_whitelist : option (list string);
  clp_params : Params;
}.

Record World (B R : Type) := mkWorld {
  w_clp : ClpStore;
  w_bank : B;
  w_registry : R;
}.
Arguments mkWorld {_ _} _ _ _.
Arguments w_clp {_ _} _.
Arguments w_bank {_ _} _.
Arguments w_registry {_ _} _.

(** Run an operation of the bank inside the module's world. *)
Definition on_bank {B R A} (m : M B A) : M (World B R) A :=
  fun w => match m (w_bank w) with (b, r) => (mkWorld (w_clp w) b (w_registry w), r) end.

Definition upd_clp {B R} (f : ClpStore -> ClpStore) : M (World B R) unit :=
  mmodify (fun w => mkWorld (f (w_clp w)) (w_bank w) (w_registry w)).

Definition set_pools (f : KV Pool -> KV Pool) (s : ClpStore) : ClpStore :=
  mkClpStore (f (clp_pools s)) (clp_lps s) (clp_whitelist s) (clp_params s).
Definition set_lps (f : KV LiquidityProvider -> KV LiquidityProvider) (s : ClpStore) : ClpStore :=
  mkClpStore (clp_pools s) (f (clp_lps s)) (clp_whitelist s) (clp_params s).

(** ** Pure reads of the store *)

Definition native_key (symbol : string) : string := GetPoolKey symbol (Symbol GetSettlementAsset).

Definition read_pool (s : ClpStore) (symbol : string) : res Pool :=
  match clp_pools s !! native_key symbol with
  | Some pool => Ok pool
  | None => Err ErrPoolDoesNotExist
  end.

Definition read_lp (s : ClpStore) (symbol lpAddress : string) : res LiquidityProvider :=
  match clp_lps s !! GetLiquidityProviderKey symbol lpAddress with
  | Some lp => Ok lp
  | None => Err ErrLiquidityProviderDoesNotExist
  end.

Section Keeper.
Context {B R : Type} `{SdkMath, SdkCoins, SdkAddress, SdkQuery, BankKeeper B}.

Abbreviation CM := (M (World B R)).

(** ** pool.go *)

Definition SetPool (pool : Pool) : CM unit :=
  do! v <- mlift (Pool_Validate pool);
  run! mfail_if (negb v) ErrUnableToSetPool;
  do! asset <- mlift (deref (ExternalAsset pool));
  upd_clp (set_pools <[native_key (Symbol asset) := pool]>).

Definition ValidatePool (pool : Pool) : res bool :=
  let! v := Pool_Validate pool in
  if v then let! _ := deref (ExternalAsset pool) in Ok true else Ok false.

Definition GetPool (symbol : string) : CM Pool := fun w => (w, read_pool (w_clp w) symbol).

Definition ExistsPool (symbol : string) (w : World B R) : bool :=
  bool_decide (is_Some (clp_pools (w_clp w) !! native_key symbol)).

Definition GetPools (w : World B R) : list Pool := (kv_prefix PoolPrefix (clp_pools (w_clp w))).*2.

Definition GetPoolsPaginated (pagination : PageRequest) (w : World B R) : res (list Pool * PageResponse) :=
  Paginate (kv_prefix PoolPrefix (clp_pools (w_clp w))) pagination.

Definition DestroyPool (symbol : string) : CM unit :=
  do! w <- mgets id;
  if ExistsPool symbol w then upd_clp (set_pools (delete (native_key symbol)))
  else mthrow ErrPoolDoesNotExist.

(** ** liquidityprovider.go *)

(** A provider whose asset is not valid is silently not stored. *)
Definition SetLiquidityProvider (lp : LiquidityProvider) : CM unit :=
  do! v <- mlift (LiquidityProvider_Validate lp);
  if negb v then mret tt
  else
    do! asset <- mlift (deref (LP_Asset lp));
    upd_clp (set_lps <[GetLiquidityProviderKey (Symbol asset) (LiquidityProviderAddress lp) := lp]>).

Definition GetLiquidityProvider (symbol lpAddress : string) : CM LiquidityProvider :=
  fun w => (w, read_lp (w_clp w) symbol lpAddress).

Definition lp_entries (w : World B R) : list (string * LiquidityProvider) :=
  kv_prefix LiquidityProviderPrefix (clp_lps (w_clp w)).

Definition GetAssetsForLiquidityProviderPaginated (lpAddress : string) (pagination : PageRequest)
    (w : World B R) : res (list Asset * PageResponse) :=
  let! '(lps, pageRes) := FilteredPaginate (lp_entries w) pagination (fun _ lp =>
      match LP_Asset lp with
      | None => Ok false
      | Some _ => Ok (String.eqb (LiquidityProviderAddress lp) (AccAddress_String lpAddress))
      end) in
  Ok (omap LP_Asset lps, pageRes).

Definition DestroyLiquidityProvider (symbol lpAddress : string) : CM unit :=
  upd_clp (set_lps (delete (GetLiquidityProviderKey symbol lpAddress))).

Definition GetLiquidityProvidersForAssetPaginated (asset : Asset) (pagination : PageRequest)
    (w : World B R) : res (list LiquidityProvider * PageResponse) :=
  FilteredPaginate (lp_entries w) pagination (fun _ lp =>
    match LP_Asset lp with
    | None => Ok false
    | Some a => Ok (Asset_Equals a asset)
    end).

Definition GetAllLiquidityProvidersPaginated (pagination : PageRequest) (w : World B R)
  : res (list LiquidityProvider * PageResponse) :=
  Paginate (lp_entries w) pagination.

(** ** validatorWhitelist.go and params.go *)

Definition SetClpWhiteList (validatorList : list string) : CM unit :=
  upd_clp (fun s => mkClpStore (clp_pools s) (clp_lps s) (Some (AccAddress_String <$> validatorList)) (clp_params s)).

Definition ExistsClpWhiteList (w : World B R) : bool := bool_decide (is_Some (clp_whitelist (w_clp w))).

Definition GetClpWhiteList (w : World B R) : res (list string) :=
  rmap (fun entry => panicOnErr (AccAddressFromBech32 entry)) (default [] (clp_whitelist (w_clp w))).

Definition ValidateAddress (address : string) (w : World B R) : res bool :=
  if negb (ExistsClpWhiteList w) then Ok false
  else let! valList := GetClpWhiteList w in Ok (existsb (String.eqb address) valList).

Definition GetMinCreatePoolThreshold (w : World B R) : Z := MinCreatePoolThreshold (clp_params (w_clp w)).
Definition GetParams (w : World B R) : Params := clp_params (w_clp w).

(** The subspace validates every parameter it stores, and panics. *)
Definition SetParams (params : Params) : CM unit :=
  run! mlift (panicOnErr (validateMinCreatePoolThreshold (MinCreatePoolThreshold params)));
  upd_clp (fun s => mkClpStore (clp_pools s) (clp_lps s) (clp_whitelist s) params).

(** ** executors.go *)

Definition ParseToInt (nu : string) : CM Z :=
  match NewIntFromString nu with Some z => mret z | None => mthrow ErrUnableToParseInt end.

Definition kHasBalance (addr : string) (coin : Coin) : CM bool :=
  mgets (fun w => HasBalance (w_bank w) addr coin).

Definition CreatePool (poolUints : Z) (msg : MsgCreatePool) : CM Pool :=
  do! extInt <- ParseToInt (big_String (Create_ExternalAssetAmount msg));
  do! nativeInt <- ParseToInt (big_String (Create_NativeAssetAmount msg));
  do! addr <- mlift (AccAddressFromBech32 (Create_Signer msg));
  do! asset <- mlift (deref (Create_ExternalAsset msg));
  do! externalAssetCoin <- mlift (NewCoin (Symbol asset) extInt);
  do! nativeAssetCoin <- mlift (NewCoin (Symbol GetSettlementAsset) nativeInt);
  do! hasExternal <- kHasBalance addr externalAssetCoin;
  do! hasNative <- kHasBalance addr nativeAssetCoin;
  run! mfail_if (negb hasExternal && negb hasNative) ErrBalanceNotAvailable;
  let pool := NewPool (Create_ExternalAsset msg) (Create_NativeAssetAmount msg)
                (Create_ExternalAssetAmount msg) poolUints in
  do! coins <- mlift (NewCoins [externalAssetCoin; nativeAssetCoin]);
  run! on_bank (SendCoinsFromAccountToModule addr ModuleName coins);
  run! mwrap ErrUnableToSetPool (SetPool pool);
  mret pool.

Definition CreateLiquidityProvider (asset : option Asset) (lpunits : Z) (lpaddress : string)
  : CM LiquidityProvider :=
  let lp := NewLiquidityProvider asset lpunits lpaddress in
  run! SetLiquidityProvider lp; mret lp.

Definition index {A} (l : list A) (i : nat) : res A :=
  match l !! i with Some a => Ok a | None => Panic end.

(** [extInt != sdk.ZeroInt()] compares the pointers inside two [sdk.Int]
    structs.  They always differ, so both coins are always added. *)
Definition AddLiquidity (msg : MsgAddLiquidity) (pool : Pool) (newPoolUnits lpUnits : Z) : CM LiquidityProvider :=
  do! extInt <- ParseToInt (big_String (Add_ExternalAssetAmount msg));
  do! nativeInt <- ParseToInt (big_String (Add_NativeAssetAmount msg));
  do! asset <- mlift (deref (Add_ExternalAsset msg));
  do! externalAssetCoin <- mlift (NewCoin (Symbol asset) extInt);
  do! coins <- mlift (Coins_Add [] [externalAssetCoin]);
  do! nativeAssetCoin <- mlift (NewCoin (Symbol GetSettlementAsset) nativeInt);
  do! coins <- mlift (Coins_Add coins [nativeAssetCoin]);
  do! addr <- mlift (AccAddressFromBech32 (Add_Signer msg));
  do! coin0 <- mlift (index coins 0);
  do! has0 <- kHasBalance addr coin0;
  do! has1 <- (if has0 then mret true
               else do! coin1 <- mlift (index coins 1); kHasBalance addr coin1);
  run! mfail_if (negb has0 && negb has1) ErrBalanceNotAvailable;
  run! on_bank (SendCoinsFromAccountToModule addr ModuleName coins);
  do! native <- mlift (Uint_Add (NativeAssetBalance pool) (Add_NativeAssetAmount msg));
  do! external <- mlift (Uint_Add (ExternalAssetBalance pool) (Add_ExternalAssetAmount msg));
  let pool := mkPool (ExternalAsset pool) native external newPoolUnits in
  do! found <- mtry (GetLiquidityProvider (Symbol asset) (Add_Signer msg));
  do! '(lp, lpUnits) <- (match found with
    | inl lp => mret (lp, lpUnits)
    | inr _ => do! lp <- CreateLiquidityProvider (Add_ExternalAsset msg) lpUnits addr; mret (lp, 0)
    end);
  do! units <- mlift (Uint_Add (LiquidityProviderUnits lp) lpUnits);
  let lp := mkLiquidityProvider (LP_Asset lp) units (LiquidityProviderAddress lp) in
  run! mwrap ErrUnableToSetPool (SetPool pool);
  run! SetLiquidityProvider lp;
  mret lp.

Definition RemoveLiquidityProvider (coins : list Coin) (lp : LiquidityProvider) : CM unit :=
  do! lpaddr <- mlift (AccAddressFromBech32 (LiquidityProviderAddress lp));
  run! mwrap ErrUnableToAddBalance (on_bank (SendCoinsFromModuleToAccount ModuleName lpaddr coins));
  do! asset <- mlift (deref (LP_Asset lp));
  DestroyLiquidityProvider (Symbol asset) (LiquidityProviderAddress lp).

Definition DecommissionPool (pool : Pool) : CM unit :=
  do! asset <- mlift (deref (ExternalAsset pool));
  mwrap ErrUnableToDestroyPool (DestroyPool (Symbol asset)).

Definition Coin_positive (c : Coin) : bool := negb (Coin_Amount c =? 0) && negb (Coin_Amount c <? 0).

Definition RemoveLiquidity (pool : Pool) (externalAssetCoin nativeAssetCoin : Coin) (lp : LiquidityProvider)
    (lpUnitsLeft poolOriginalEB poolOriginalNB : Z) : CM unit :=
  do! lpAddr <- mlift (AccAddressFromBech32 (LiquidityProviderAddress lp));
  do! sendCoins <- mlift (NewCoins []);
  do! sendCoins <- mlift (if Coin_positive externalAssetCoin
                          then Coins_Add sendCoins [externalAssetCoin] else Ok sendCoins);
  do! sendCoins <- mlift (if Coin_positive nativeAssetCoin
                          then Coins_Add sendCoins [nativeAssetCoin] else Ok sendCoins);
  run! mfail_if ((poolOriginalEB <=? Coin_Amount externalAssetCoin)
                 || (poolOriginalNB <=? Coin_Amount nativeAssetCoin)) ErrPoolTooShallow;
  run! mwrap ErrUnableToSetPool (SetPool pool);
  run! (if bool_decide (sendCoins = []) then mret tt
        else run! mfor sendCoins (fun coin =>
               do! has <- kHasBalance GetCLPModuleAddress coin;
               mfail_if (negb has) ErrNotEnoughLiquidity);
             on_bank (SendCoinsFromModuleToAccount ModuleName lpAddr sendCoins));
  if lpUnitsLeft =? 0
  then do! asset <- mlift (deref (LP_Asset lp));
       DestroyLiquidityProvider (Symbol asset) (LiquidityProviderAddress lp)
  else SetLiquidityProvider (mkLiquidityProvider (LP_Asset lp) lpUnitsLeft (LiquidityProviderAddress lp)).

Definition InitiateSwap (sentCoin : Coin) (swapper : string) : CM unit :=
  do! has <- kHasBalance swapper sentCoin;
  run! mfail_if (negb has) ErrBalanceNotAvailable;
  do! coins <- mlift (NewCoins [sentCoin]);
  on_bank (SendCoinsFromAccountToModule swapper ModuleName coins).

Definition FinalizeSwap (sentAmount : string) (finalPool : Pool) (msg : MsgSwap) : CM unit :=
  run! mwrap ErrUnableToSetPool (SetPool finalPool);
  do! sentAmountInt <- ParseToInt sentAmount;
  do! addr <- mlift (AccAddressFromBech32 (Swap_Signer msg));
  do! received <- mlift (deref (ReceivedAsset msg));
  do! sentCoin <- mlift (NewCoin (Symbol received) sentAmountInt);
  do! coins <- mlift (NewCoins [sentCoin]);
  on_bank (SendCoinsFromModuleToAccount ModuleName addr coins).

(** ** genesis.go *)

Definition InitGenesis (data : GenesisState) : CM unit :=
  run! SetParams (Gen_Params data);
  run! (if bool_decide (AddressWhitelist data = []) then mpanic else mret tt);
  do! wl <- mlift (rmap (fun entry => panicOnErr (AccAddressFromBech32 entry)) (AddressWhitelist data));
  run! SetClpWhiteList wl;
  run! SetClpWhiteList wl;
  run! mfor (PoolList data) (fun pool =>
    do! pool <- mlift (deref pool);
    do! r <- mtry (SetPool pool);
    match r with inl _ => mret tt | inr _ => mpanic end);
  mfor (LiquidityProviders data) (fun lp => do! lp <- mlift (deref lp); SetLiquidityProvider lp).

(** The errors of the two listings are dropped, and their results are then nil. *)
Definition ExportGenesis (w : World B R) : res GenesisState :=
  let page := mkPageRequest "" 0 MaxUint64 in
  let! poolList := (match GetPoolsPaginated page w with
                    | Ok (l, _) => Ok l | Err _ => Ok [] | Panic => Panic end) in
  let! liquidityProviders := (match GetAllLiquidityProvidersPaginated page w with
                    | Ok (l, _) => Ok l | Err _ => Ok [] | Panic => Panic end) in
  let! whiteList := GetClpWhiteList w in
  Ok (mkGenesisState (GetParams w) (AccAddress_String <$> whiteList) (Some <$> poolList) (Some <$> liquidityProviders)).

(** ** grpc_query.go *)

Definition MaxPageLimit : Z := 200.
Definition InvalidArgument : GoError := RegisteredErr "grpc" 3.
Definition NotFound : GoError := RegisteredErr "grpc" 5.

Record LiquidityProviderRes := mkLPRes {
  Res_LP : LiquidityProvider;
  Res_Height : Z;
  Res_Native : string;
  Res_External : string;
}.

Definition query_GetPool (symbol : string) (height : Z) (w : World B R) : res (Pool * Z * string) :=
  match read_pool (w_clp w) symbol with
  | Ok pool => Ok (pool, height, AccAddress_String GetCLPModuleAddress)
  | Err _ => Err NotFound
  | Panic => Panic
  end.

(** A missing page request asks for [MaxPageLimit] entries; a longer page is refused. *)
Definition pageOrDefault (pagination : option PageRequest) : res PageRequest :=
  let p := default (mkPageRequest "" 0 MaxPageLimit) pagination in
  if MaxPageLimit <? Page_Limit p then Err InvalidArgument else Ok p.

Definition query_GetPools (pagination : option PageRequest) (height : Z) (w : World B R)
  : res (list Pool * Z * string * PageResponse) :=
  let! p := pageOrDefault pagination in
  let! '(pools, pageRes) := GetPoolsPaginated p w in
  Ok (pools, height, AccAddress_String GetCLPModuleAddress, pageRes).

Definition query_GetLiquidityProvider (symbol lpAddress : string) (height : Z) (w : World B R)
  : res LiquidityProviderRes :=
  let! lp := read_lp (w_clp w) symbol lpAddress in
  let! pool := read_pool (w_clp w) symbol in
  let! '(native, external, _, _) := CalculateAllAssetsForLP pool lp in
  Ok (mkLPRes lp height (big_String native) (big_String external)).

Record LiquidityProviderData := mkLPData {
  Data_LP : LiquidityProvider;
  Data_Native : string;
  Data_External : string;
}.

(** Assets whose pool or provider record is gone are skipped. *)
Fixpoint lpDataList (assets : list Asset) (lpAddress : string) (w : World B R) : res (list LiquidityProviderData) :=
  match assets with
  | [] => Ok []
  | asset :: assets' =>
      match read_pool (w_clp w) (Symbol asset), read_lp (w_clp w) (Symbol asset) lpAddress with
      | Ok pool, Ok lp =>
          let! '(native, external, _, _) := CalculateAllAssetsForLP pool lp in
          let! rest := lpDataList assets' lpAddress w in
          Ok (mkLPData lp (big_String native) (big_String external) :: rest)
      | _, _ => lpDataList assets' lpAddress w
      end
  end.

Definition query_GetLiquidityProviderData (lpAddress : string) (pagination : option PageRequest) (height : Z)
    (w : World B R) : res (list LiquidityProviderData * Z) :=
  let! p := pageOrDefault pagination in
  let! addr := AccAddressFromBech32 lpAddress in
  let! '(assetList, _) := GetAssetsForLiquidityProviderPaginated addr (mkPageRequest "" 0 (Page_Limit p)) w in
  let! data := lpDataList assetList lpAddress w in
  Ok (data, height).

Definition query_GetAssetList (lpAddress : string) (pagination : option PageRequest) (w : World B R)
  : res (list Asset) :=
  let! _ := pageOrDefault pagination in
  let! addr := AccAddressFromBech32 lpAddress in
  let! '(assetList, _) := GetAssetsForLiquidityProviderPaginated addr (mkPageRequest "" 0 MaxPageLimit) w in
  Ok assetList.

Definition query_GetLiquidityProviderList (symbol : string) (pagination : option PageRequest) (height : Z)
    (w : World B R) : res (list LiquidityProvider * Z * PageResponse) :=
  let! p := pageOrDefault pagination in
  let! '(lpList, pageRes) := GetLiquidityProvidersForAssetPaginated (NewAsset symbol) p w in
  Ok (lpList, height, pageRes).

Definition query_GetLiquidityProviders (pagination : option PageRequest) (height : Z) (w : World B R)
  : res (list LiquidityProvider * Z * PageResponse) :=
  let! p := pageOrDefault pagination in
  let! '(lpList, pageRes) := GetAllLiquidityProvidersPaginated p w in
  Ok (lpList, height, pageRes).
End Keeper.
