(* ===== verification/ClpMsgServer.v ===== *)
(** * x/clp/keeper/msg_server.go: the handlers of the pool module

    One definition per handler, in the order of the code's checks and effects, and
    the router of handler.go.  The module account has to be able to pay what the
    pools record: [solvent] states it, and the theorems at the end show which
    messages keep it and the one case in which a withdrawal breaks it. *)

From Stdlib Require Import ZArith Lia Ascii String.
From stdpp Require Import base list gmap strings.
From S2P Require Import Prelude SdkMath Sdk TokenRegistry ClpTypes ClpCalc ClpKeeper.
Import TokenRegistry (TokenRegistryKeeper, trk_GetRegistry, trk_GetEntry, trk_CheckEntryPermissions,
  RegistryEntry, Decimals, Permission_CLP, ErrPermissionDenied).

Section MsgServer.
Context {B R : Type} `{SdkMath, SdkCoins, SdkAddress, SdkQuery, BankKeeper B, TokenRegistryKeeper R}.

Abbreviation CM := (M (World B R)).

(** [GetEntry] of the registry, whatever its error. *)
Definition clpEntry (symbol : string) (w : World B R) : res RegistryEntry :=
  match trk_GetEntry (trk_GetRegistry (w_registry w)) symbol with
  | Ok e => Ok e
  | Err _ => Err ErrTokenNotSupported
  | Panic => Panic
  end.

Definition requireCLP (e : RegistryEntry) : CM unit :=
  mfail_if (negb (trk_CheckEntryPermissions e [Permission_CLP])) ErrPermissionDenied.

(** One iteration of the refund loop, with the loop's running balances. *)
Definition refund (symbol : string) (pool : Pool) (acc : Z * Z * Z) (lp : LiquidityProvider) : CM (Z * Z * Z) :=
  let '(poolUnits, nativeAssetBalance, externalAssetBalance) := acc in
  do! '(withdrawNativeAsset, withdrawExternalAsset, _, _) <- mlift (CalculateAllAssetsForLP pool lp);
  do! poolUnits <- mlift (Uint_Sub poolUnits (LiquidityProviderUnits lp));
  do! nativeAssetBalance <- mlift (Uint_Sub nativeAssetBalance withdrawNativeAsset);
  do! externalAssetBalance <- mlift (Uint_Sub externalAssetBalance withdrawExternalAsset);
  do! withdrawNativeAssetInt <- ParseToInt (big_String withdrawNativeAsset);
  do! withdrawExternalAssetInt <- ParseToInt (big_String withdrawExternalAsset);
  do! withdrawNativeCoins <- mlift (NewCoin (Symbol GetSettlementAsset) withdrawNativeAssetInt);
  do! withdrawExternalCoins <- mlift (NewCoin symbol withdrawExternalAssetInt);
  do! refundingCoins <- mlift (NewCoins [withdrawExternalCoins; withdrawNativeCoins]);
  run! mwrap ErrUnableToRemoveLiquidityProvider (RemoveLiquidityProvider refundingCoins lp);
  mret (poolUnits, nativeAssetBalance, externalAssetBalance).

Definition DecommissionPool_msg (msg : MsgDecommissionPool) : CM unit :=
  do! pool <- mwrap ErrPoolDoesNotExist (GetPool (Decom_Symbol msg));
  do! addAddr <- mlift (AccAddressFromBech32 (Decom_Signer msg));
  do! w <- mgets id;
  do! allowed <- mlift (ValidateAddress addAddr w);
  run! mfail_if (negb allowed) ErrInvalid;
  do! threshold <- mlift (NewUintFromString PoolThrehold);
  run! mfail_if (threshold <=? NativeAssetBalance pool) ErrBalanceTooHigh;
  match ExternalAsset pool with
  | None => mthrow (PlainErr "nill external asset")
  | Some asset =>
      do! '(lpList, _) <- mlift (rwrap ErrLiquidityProviderDoesNotExist
        (GetLiquidityProvidersForAssetPaginated asset (mkPageRequest "" 0 MaxUint64) w));
      do! _acc <- mfold (refund (Decom_Symbol msg) pool)
                   (PoolUnits pool, NativeAssetBalance pool, ExternalAssetBalance pool) lpList;
      mwrap ErrUnableToDecommissionPool (DecommissionPool pool)
  end.

(** The fee and the price impact are only reported, but computing them can panic. *)
Definition Swap (msg : MsgSwap) : CM unit :=
  do! w <- mgets id;
  do! sent <- mlift (deref (SentAsset msg));
  do! sAsset <- mlift (clpEntry (Symbol sent) w);
  do! received <- mlift (deref (ReceivedAsset msg));
  do! rAsset <- mlift (clpEntry (Symbol received) w);
  run! requireCLP sAsset;
  run! requireCLP rAsset;
  let nativeAsset := GetSettlementAsset in
  do! inPool <- (if negb (Asset_Equals sent nativeAsset)
                 then mwrap ErrPoolDoesNotExist (GetPool (Symbol sent))
                 else mret (mkPool None 0 0 0));
  do! sentAmountInt <- ParseToInt (big_String (SentAmount msg));
  do! accAddr <- mlift (AccAddressFromBech32 (Swap_Signer msg));
  do! sentCoin <- mlift (NewCoin (Symbol sent) sentAmountInt);
  run! mwrap ErrUnableToSwap (InitiateSwap sentCoin accAddr);
  do! '(sentAsset, sentAmount, priceImpact, liquidityFeeNative) <-
    (if negb (Asset_Equals sent nativeAsset) && negb (Asset_Equals received nativeAsset) then
       do! '(normalizationFactor, adjustExternalToken) <- mlift (GetNormalizationFactor (Decimals sAsset));
       do! '(emitAmount, lp, ts, finalPool) <-
         mlift (SwapOne sent (SentAmount msg) nativeAsset inPool normalizationFactor adjustExternalToken);
       run! mwrap ErrUnableToSetPool (SetPool finalPool);
       do! priceImpact <- mlift (Uint_Add 0 ts);
       do! liquidityFeeNative <- mlift (Uint_Add 0 lp);
       mret (nativeAsset, emitAmount, priceImpact, liquidityFeeNative)
     else mret (sent, SentAmount msg, 0, 0));
  do! '(outPool, decimals) <-
    (if Asset_Equals received nativeAsset
     then do! p <- mwrap ErrPoolDoesNotExist (GetPool (Symbol sent)); mret (p, Decimals sAsset)
     else do! p <- mwrap ErrPoolDoesNotExist (GetPool (Symbol received)); mret (p, Decimals rAsset));
  do! '(normalizationFactor, adjustExternalToken) <- mlift (GetNormalizationFactor decimals);
  do! '(emitAmount, lp, ts, finalPool) <-
    mlift (SwapOne sentAsset sentAmount received outPool normalizationFactor adjustExternalToken);
  run! mfail_if (emitAmount <? MinReceivingAmount msg) ErrReceivedAmountBelowExpected;
  run! mwrap ErrUnableToSwap (FinalizeSwap (big_String emitAmount) finalPool msg);
  run! (if 0 <? liquidityFeeNative then
          do! liquidityFeeExternal <- mlift (Uint_Add 0 lp);
          do! '(nf, adj) <- mlift (GetNormalizationFactor decimals);
          do! firstSwapFee <- mlift (GetSwapFee liquidityFeeNative received outPool nf adj);
          do! _total <- mlift (Uint_Add liquidityFeeExternal firstSwapFee); mret tt
        else do! _total <- mlift (Uint_Add liquidityFeeNative lp); mret tt);
  do! _impact <- mlift (Uint_Add priceImpact ts);
  mret tt.

(** The swap inside an asymmetric withdrawal: the pool afterwards, and the two
    coins to pay after moving [swapAmount] from one to the other. *)
Definition asymmetric_swap (e : RegistryEntry) (from to : Asset) (swapAmount : Z) (pool : Pool)
    (fromCoin toCoin : Coin) : CM (Pool * Coin * Coin) :=
  do! '(normalizationFactor, adjustExternalToken) <- mlift (GetNormalizationFactor (Decimals e));
  do! '(swapResult, _, _, swappedPool) <-
    mlift (rwrap ErrUnableToSwap (SwapOne from swapAmount to pool normalizationFactor adjustExternalToken));
  do! '(fromCoin, toCoin) <-
    (if negb (swapResult =? 0) then
       do! swapResultInt <- ParseToInt (big_String swapResult);
       do! swapAmountInt <- ParseToInt (big_String swapAmount);
       do! swapCoin <- mlift (NewCoin (Symbol to) swapResultInt);
       do! swapAmountInCoin <- mlift (NewCoin (Symbol from) swapAmountInt);
       do! toCoin <- mlift (Coin_Add toCoin swapCoin);
       do! fromCoin <- mlift (Coin_Sub fromCoin swapAmountInCoin);
       mret (fromCoin, toCoin)
     else mret (fromCoin, toCoin));
  mret (swappedPool, fromCoin, toCoin).

Definition RemoveLiquidity_msg (msg : MsgRemoveLiquidity) : CM unit :=
  do! w <- mgets id;
  do! external <- mlift (deref (Rem_ExternalAsset msg));
  do! eAsset <- mlift (clpEntry (Symbol external) w);
  run! requireCLP eAsset;
  do! pool <- mwrap ErrPoolDoesNotExist (GetPool (Symbol external));
  do! lp <- mwrap ErrLiquidityProviderDoesNotExist (GetLiquidityProvider (Symbol external) (Rem_Signer msg));
  let poolOriginalEB := ExternalAssetBalance pool in
  let poolOriginalNB := NativeAssetBalance pool in
  do! '(withdrawNative, withdrawExternal, lpUnitsLeft, swapAmount) <-
    mlift (CalculateWithdrawal (PoolUnits pool) (big_String (NativeAssetBalance pool))
             (big_String (ExternalAssetBalance pool)) (big_String (LiquidityProviderUnits lp))
             (big_String (WBasisPoints msg)) (Asymmetry msg));
  do! withdrawExternalInt <- ParseToInt (big_String withdrawExternal);
  do! withdrawNativeInt <- ParseToInt (big_String withdrawNative);
  do! externalAssetCoin <- mlift (NewCoin (Symbol external) withdrawExternalInt);
  do! nativeAssetCoin <- mlift (NewCoin (Symbol GetSettlementAsset) withdrawNativeInt);
  do! units <- mlift (Uint_Sub (PoolUnits pool) (LiquidityProviderUnits lp));
  do! units <- mlift (Uint_Add units lpUnitsLeft);
  do! native <- mlift (Uint_Sub (NativeAssetBalance pool) withdrawNative);
  do! externalB <- mlift (Uint_Sub (ExternalAssetBalance pool) withdrawExternal);
  let pool := mkPool (ExternalAsset pool) native externalB units in
  run! mfail_if (negb (Asymmetry msg =? 0) && ((externalB =? 0) || (native =? 0))) ErrPoolTooShallow;
  do! '(pool, nativeAssetCoin, externalAssetCoin) <-
    (if 0 <? Asymmetry msg
     then asymmetric_swap eAsset GetSettlementAsset external swapAmount pool nativeAssetCoin externalAssetCoin
     else mret (pool, nativeAssetCoin, externalAssetCoin));
  do! '(pool, externalAssetCoin, nativeAssetCoin) <-
    (if Asymmetry msg <? 0
     then asymmetric_swap eAsset external GetSettlementAsset swapAmount pool externalAssetCoin nativeAssetCoin
     else mret (pool, externalAssetCoin, nativeAssetCoin));
  mwrap ErrUnableToRemoveLiquidity
    (RemoveLiquidity pool externalAssetCoin nativeAssetCoin lp lpUnitsLeft poolOriginalEB poolOriginalNB).

Definition CreatePool_msg (msg : MsgCreatePool) : CM unit :=
  do! minThreshold <- mlift (NewUintFromString PoolThrehold);
  run! mfail_if (Create_NativeAssetAmount msg <? minThreshold) ErrTotalAmountTooLow;
  do! w <- mgets id;
  do! external <- mlift (deref (Create_ExternalAsset msg));
  do! eAsset <- mlift (clpEntry (Symbol external) w);
  run! requireCLP eAsset;
  run! mfail_if (ExistsPool (Symbol external) w) ErrUnableToCreatePool;
  do! '(normalizationFactor, adjustExternalToken) <- mlift (GetNormalizationFactor (Decimals eAsset));
  do! '(poolUnits, lpunits) <-
    mlift (rwrap ErrUnableToCreatePool
      (CalculatePoolUnits 0 0 0 (Create_NativeAssetAmount msg) (Create_ExternalAssetAmount msg)
         normalizationFactor adjustExternalToken));
  run! mwrap ErrUnableToSetPool (CreatePool poolUnits msg);
  do! accAddr <- mlift (AccAddressFromBech32 (Create_Signer msg));
  run! CreateLiquidityProvider (Create_ExternalAsset msg) lpunits accAddr;
  mret tt.

Definition AddLiquidity_msg (msg : MsgAddLiquidity) : CM unit :=
  do! w <- mgets id;
  do! external <- mlift (deref (Add_ExternalAsset msg));
  do! eAsset <- mlift (clpEntry (Symbol external) w);
  run! requireCLP eAsset;
  do! pool <- mwrap ErrPoolDoesNotExist (GetPool (Symbol external));
  do! '(normalizationFactor, adjustExternalToken) <- mlift (GetNormalizationFactor (Decimals eAsset));
  do! '(newPoolUnits, lpUnits) <-
    mlift (CalculatePoolUnits (PoolUnits pool) (NativeAssetBalance pool) (ExternalAssetBalance pool)
             (Add_NativeAssetAmount msg) (Add_ExternalAssetAmount msg) normalizationFactor adjustExternalToken);
  run! mwrap ErrUnableToAddLiquidity (AddLiquidity msg pool newPoolUnits lpUnits);
  mret tt.

(** [NewHandler] of handler.go. *)
Definition Handler (m : Msg) : CM unit :=
  match m with
  | DecommissionPoolMsg m => DecommissionPool_msg m
  | CreatePoolMsg m => CreatePool_msg m
  | AddLiquidityMsg m => AddLiquidity_msg m
  | RemoveLiquidityMsg m => RemoveLiquidity_msg m
  | SwapMsg m => Swap m
  | UnknownMsg => mthrow sdk_ErrUnknownRequest
  end.

Definition Msg_Signer (m : Msg) : string :=
  match m with
  | DecommissionPoolMsg m => Decom_Signer m
  | CreatePoolMsg m => Create_Signer m
  | AddLiquidityMsg m => Add_Signer m
  | RemoveLiquidityMsg m => Rem_Signer m
  | SwapMsg m => Swap_Signer m
  | UnknownMsg => ""
  end.
End MsgServer.

(** ** The solvency of the module account *)

(** The amount an asymmetric withdrawal moves between the two sides of the pool
    when the swap of that amount pays nothing; 0 when there is no such swap. *)
Definition removal_dust {B R} `{SdkMath, TokenRegistryKeeper R} (msg : MsgRemoveLiquidity) (w : World B R) : Z :=
  match Rem_ExternalAsset msg with
  | None => 0
  | Some external =>
      match clpEntry (Symbol external) w, read_pool (w_clp w) (Symbol external),
            read_lp (w_clp w) (Symbol external) (Rem_Signer msg) with
      | Ok e, Ok pool, Ok lp =>
          match CalculateWithdrawal (PoolUnits pool) (big_String (NativeAssetBalance pool))
                  (big_String (ExternalAssetBalance pool)) (big_String (LiquidityProviderUnits lp))
                  (big_String (WBasisPoints msg)) (Asymmetry msg), GetNormalizationFactor (Decimals e) with
          | Ok (native, ext, unitsLeft, amount), Ok (nf, adj) =>
              let pool' := mkPool (ExternalAsset pool) (NativeAssetBalance pool - native)
                  (ExternalAssetBalance pool - ext) (PoolUnits pool - LiquidityProviderUnits lp + unitsLeft) in
              let swap := if 0 <? Asymmetry msg then SwapOne GetSettlementAsset amount external pool' nf adj
                          else SwapOne external amount GetSettlementAsset pool' nf adj in
              match swap with
              | Ok (r, _, _, _) => if negb (Asymmetry msg =? 0) && (r =? 0) then amount else 0
              | _ => 0
              end
          | _, _ => 0
          end
      | _, _, _ => 0
      end
  end.

(** What a pool records of a denomination. *)
Definition pool_claim (d : string) (p : Pool) : Z :=
  (if String.eqb d NativeSymbol then NativeAssetBalance p else 0)
  + match ExternalAsset p with
    | Some a => if String.eqb (Symbol a) d then ExternalAssetBalance p else 0
    | None => 0
    end.

(** The denomination such an amount is in. *)
Definition dust_denom (msg : MsgRemoveLiquidity) : string :=
  if 0 <? Asymmetry msg then NativeSymbol
  else match Rem_ExternalAsset msg with Some a => Symbol a | None => "" end.

(** A stored pool sits under its own asset's key, is not a pool of the native
    asset, and has both balances positive. *)
Definition wf_pool (k : string) (p : Pool) : Prop :=
  exists sym, ExternalAsset p = Some (mkAsset sym) /\ k = native_key sym /\ sym <> NativeSymbol
    /\ 0 < NativeAssetBalance p /\ 0 < ExternalAssetBalance p.

Section Solvency.
Context {B R : Type} `{SdkMathLaws, SdkCoinsLaws, SdkAddressLaws, !SdkQuery, !BankKeeper B, !BankLaws B,
  !TokenRegistryKeeper R}.

Implicit Types w : World B R.

Definition wf_pools (w : World B R) : Prop := map_Forall wf_pool (clp_pools (w_clp w)).

(** What the module account holds of a denomination beyond what the pools record. *)
Definition slack (w : World B R) (d : string) : Z :=
  GetBalance (w_bank w) GetCLPModuleAddress d - map_sum (pool_claim d) (clp_pools (w_clp w)).

Definition solvent (w : World B R) : Prop := wf_pools w /\ forall d, 0 <= slack w d.

Definition same_pools (w w' : World B R) : Prop :=
  clp_pools (w_clp w') = clp_pools (w_clp w) /\ w_bank w' = w_bank w.

(** *** What each operation does to pools and bank *)

Lemma SetPool_ok p w w' u :
  SetPool p w = (w', Ok u) ->
  exists a, ExternalAsset p = Some a
    /\ clp_pools (w_clp w') = <[native_key (Symbol a) := p]> (clp_pools (w_clp w))
    /\ w_bank w' = w_bank w.
Proof.
  unfold SetPool, upd_clp. intros Hs. lift_step Hs as v Hv. check_step Hs as Hc.
  lift_step Hs as a Ha%deref_ok. apply mmodify_ok_inv in Hs as ->. by exists a.
Qed.

Lemma SetLiquidityProvider_ok lp w w' u :
  SetLiquidityProvider lp w = (w', Ok u) -> same_pools w w'.
Proof.
  unfold SetLiquidityProvider, upd_clp, same_pools. intros Hs. lift_step Hs as v Hv.
  destruct (negb v); go_inv; done.
Qed.

Lemma on_bank_ok {A} (m : M B A) (w w' : World B R) a :
  on_bank m w = (w', Ok a) ->
  clp_pools (w_clp w') = clp_pools (w_clp w) /\ m (w_bank w) = (w_bank w', Ok a).
Proof. unfold on_bank. destruct (m (w_bank w)) as [b r] eqn:E. intros [= <- ->]. done. Qed.

Lemma ParseToInt_ok z (w w' : World B R) i : ParseToInt (big_String z) w = (w', Ok i) -> w' = w /\ i = z.
Proof.
  unfold ParseToInt. destruct (NewIntFromString _) eqn:E; [|done]. intros Hp. go_inv.
  split; [done|]. by apply NewIntFromString_ok.
Qed.

Lemma kHasBalance_ok a c (w w' : World B R) b : kHasBalance a c w = (w', Ok b) -> w' = w.
Proof. unfold kHasBalance. intros Hk. by go_inv. Qed.

Lemma GetPool_ok sym (w w' : World B R) p :
  GetPool sym w = (w', Ok p) -> w' = w /\ clp_pools (w_clp w) !! native_key sym = Some p.
Proof. unfold GetPool, read_pool. destruct (_ !! _) eqn:E; intros [= -> <-]. done. Qed.

Lemma native_key_inj a b : native_key a = native_key b -> a = b.
Proof. apply GetPoolKey_inj. Qed.

Lemma wf_lookup w sym p :
  wf_pools w -> clp_pools (w_clp w) !! native_key sym = Some p ->
  ExternalAsset p = Some (mkAsset sym) /\ sym <> NativeSymbol
  /\ 0 < NativeAssetBalance p /\ 0 < ExternalAssetBalance p.
Proof. intros Hw (s & Hs & Hk%native_key_inj & ?)%Hw. subst. done. Qed.

Lemma wf_insert w w' sym p :
  wf_pools w -> clp_pools (w_clp w') = <[native_key sym := p]> (clp_pools (w_clp w)) ->
  wf_pool (native_key sym) p -> wf_pools w'.
Proof. unfold wf_pools. intros Hw -> Hp. by apply map_Forall_insert_2. Qed.

Abbreviation bal w d := (GetBalance (w_bank w) GetCLPModuleAddress d).
Abbreviation coin_of d s a := (if String.eqb s d then a else 0).

(** The signer is an ordinary account, not the module's own. *)
Definition outsider (signer : string) : Prop :=
  forall addr, AccAddressFromBech32 signer = Ok addr -> addr <> GetCLPModuleAddress.

Lemma receive_ok addr cs w w' u :
  on_bank (SendCoinsFromAccountToModule addr ModuleName cs) w = (w', Ok u) ->
  addr <> GetCLPModuleAddress ->
  clp_pools (w_clp w') = clp_pools (w_clp w) /\ forall d, bal w' d = bal w d + AmountOf cs d.
Proof.
  intros [Hp [Hm _]%SendCoinsFromAccountToModule_ok]%on_bank_ok Ha. split; [done|].
  intros d. rewrite (Hm _ d). rewrite decide_False by congruence.
  unfold GetCLPModuleAddress. rewrite decide_True by done. lia.
Qed.

Lemma pay_ok to cs w w' u :
  on_bank (SendCoinsFromModuleToAccount ModuleName to cs) w = (w', Ok u) ->
  clp_pools (w_clp w') = clp_pools (w_clp w)
  /\ forall d, 0 <= AmountOf cs d -> bal w d - AmountOf cs d <= bal w' d.
Proof.
  intros [Hp [Hm _]%SendCoinsFromModuleToAccount_ok]%on_bank_ok. split; [done|].
  intros d Hd. rewrite (Hm _ d). unfold GetCLPModuleAddress. rewrite decide_True by done.
  case_decide; lia.
Qed.

Lemma NewCoins_amount cs r d : NewCoins cs = Ok r -> AmountOf r d = AmountOf cs d /\ 0 <= AmountOf r d.
Proof. intros [Ha Hp]%NewCoins_ok. split; [done|]. by apply AmountOf_nonneg. Qed.

Lemma AmountOf_pair d s1 a1 s2 a2 :
  AmountOf [mkCoin s1 a1; mkCoin s2 a2] d = coin_of d s1 a1 + coin_of d s2 a2.
Proof. simpl. lia. Qed.

Lemma claims_insert w w' sym p d :
  clp_pools (w_clp w') = <[native_key sym := p]> (clp_pools (w_clp w)) ->
  map_sum (pool_claim d) (clp_pools (w_clp w'))
  = pool_claim d p + map_sum (pool_claim d) (clp_pools (w_clp w))
    - from_option (pool_claim d) 0 (clp_pools (w_clp w) !! native_key sym).
Proof. intros ->. apply map_sum_insert. Qed.

Lemma pool_claim_eq d sym n e u :
  pool_claim d (mkPool (Some (mkAsset sym)) n e u) = coin_of d NativeSymbol n + coin_of d sym e.
Proof. unfold pool_claim. simpl. rewrite (String.eqb_sym d). done. Qed.

Lemma pool_claim_ext d sym p :
  ExternalAsset p = Some (mkAsset sym) ->
  pool_claim d p = coin_of d NativeSymbol (NativeAssetBalance p) + coin_of d sym (ExternalAssetBalance p).
Proof. destruct p; simpl. intros ->. apply pool_claim_eq. Qed.

(** *** The executors *)

Lemma CreatePool_ok units msg w w' p :
  CreatePool units msg w = (w', Ok p) -> outsider (Create_Signer msg) ->
  exists a, Create_ExternalAsset msg = Some a
    /\ clp_pools (w_clp w') = <[native_key (Symbol a) :=
         mkPool (Some a) (Create_NativeAssetAmount msg) (Create_ExternalAssetAmount msg) units]> (clp_pools (w_clp w))
    /\ forall d, bal w' d = bal w d + coin_of d NativeSymbol (Create_NativeAssetAmount msg)
                             + coin_of d (Symbol a) (Create_ExternalAssetAmount msg).
Proof.
  intros Hr Ho. unfold CreatePool in Hr.
  run_step Hr as ? ? [-> ->]%ParseToInt_ok. run_step Hr as ? ? [-> ->]%ParseToInt_ok.
  lift_step Hr as addr Haddr. lift_step Hr as a Ha%deref_ok.
  lift_step Hr as ? (-> & _)%NewCoin_ok. lift_step Hr as ? (-> & _)%NewCoin_ok.
  run_step Hr as ? ? ->%kHasBalance_ok. run_step Hr as ? ? ->%kHasBalance_ok. check_step Hr as _.
  lift_step Hr as cs Hcs. run_step Hr as ? w1 Hsend. apply receive_ok in Hsend as [Hp1 Hb1]; [|by apply Ho].
  run_step Hr as ? w2 Hset%mwrap_ok_inv. apply SetPool_ok in Hset as (a' & Ha' & Hp2 & Hb2).
  apply mret_ok_inv in Hr as [-> ->]. rewrite Ha in *. unfold NewPool in *. simpl in Ha'. injection Ha' as <-.
  exists a. split_and!; [done|by rewrite Hp2, Hp1|]. intros d. rewrite Hb2, Hb1.
  destruct (NewCoins_amount _ _ d Hcs) as [-> _]. simpl. lia.
Qed.

Lemma CreateLiquidityProvider_ok asset units addr w w' lp :
  CreateLiquidityProvider asset units addr w = (w', Ok lp) -> same_pools w w'.
Proof.
  unfold CreateLiquidityProvider. intros Hr. run_step Hr as ? ? Hs%SetLiquidityProvider_ok. go_inv. done.
Qed.

Lemma same_bal w w' d : same_pools w w' -> bal w' d = bal w d.
Proof. by intros [_ ->]. Qed.

Lemma AddLiquidity_ok msg pool newUnits lpUnits w w' lp a :
  AddLiquidity msg pool newUnits lpUnits w = (w', Ok lp) -> outsider (Add_Signer msg) ->
  ExternalAsset pool = Some a ->
  exists b, Add_ExternalAsset msg = Some b
    /\ clp_pools (w_clp w') = <[native_key (Symbol a) :=
         mkPool (Some a) (NativeAssetBalance pool + Add_NativeAssetAmount msg)
           (ExternalAssetBalance pool + Add_ExternalAssetAmount msg) newUnits]> (clp_pools (w_clp w))
    /\ 0 <= Add_NativeAssetAmount msg /\ 0 <= Add_ExternalAssetAmount msg
    /\ forall d, bal w' d = bal w d + coin_of d NativeSymbol (Add_NativeAssetAmount msg)
                             + coin_of d (Symbol b) (Add_ExternalAssetAmount msg).
Proof.
  intros Hr Ho Ha. unfold AddLiquidity in Hr.
  run_step Hr as ? ? [-> ->]%ParseToInt_ok. run_step Hr as ? ? [-> ->]%ParseToInt_ok.
  lift_step Hr as b Hb%deref_ok. lift_step Hr as ? (-> & Hext & _)%NewCoin_ok.
  lift_step Hr as cs1 Hcs1. lift_step Hr as ? (-> & Hnat & _)%NewCoin_ok. lift_step Hr as cs2 Hcs2.
  lift_step Hr as addr Haddr. lift_step Hr as coin0 _.
  run_step Hr as has0 ? ->%kHasBalance_ok. run_step Hr as has1 w0 Hhas.
  assert (w0 = w) as ->.
  { destruct has0; [by go_inv|]. lift_step Hhas as coin1 _. by apply kHasBalance_ok in Hhas. }
  check_step Hr as _. run_step Hr as ? w1 Hsend. apply receive_ok in Hsend as [Hp1 Hb1]; [|by apply Ho].
  lift_step Hr as ? [-> _]%Uint_Add_ok. lift_step Hr as ? [-> _]%Uint_Add_ok.
  run_step Hr as found w2 Hf. run_step Hr as [lp' u'] w3 Hlp.
  assert (same_pools w1 w3) as [Hp3 Hb3].
  { apply mtry_ok_inv in Hf as [(l & -> & Hg)|(e & -> & Hg)]; unfold GetLiquidityProvider in Hg.
    - injection Hg as <- _. apply mret_ok_inv in Hlp as [-> _]. done.
    - injection Hg as <- _. run_step Hlp as l w4 Hc%CreateLiquidityProvider_ok. by go_inv. }
  lift_step Hr as units _. run_step Hr as ? w5 Hset%mwrap_ok_inv.
  apply SetPool_ok in Hset as (a' & Ha' & Hp5 & Hb5). simpl in Ha'. rewrite Ha in Ha'. injection Ha' as <-.
  run_step Hr as ? w6 [Hp6 Hb6]%SetLiquidityProvider_ok. apply mret_ok_inv in Hr as [-> ->].
  exists b. split_and!; [done|by rewrite Hp6, Hp5, Hp3, Hp1, Ha|done|done|].
  intros d. rewrite Hb6, Hb5, Hb3, Hb1, (Coins_Add_ok _ _ _ Hcs2), (Coins_Add_ok _ _ _ Hcs1). simpl. lia.
Qed.

Lemma add_positive cs c cs' d :
  (if Coin_positive c then Coins_Add cs [c] else Ok cs) = Ok cs' -> 0 <= Coin_Amount c ->
  AmountOf cs' d = AmountOf cs d + coin_of d (Coin_Denom c) (Coin_Amount c).
Proof.
  unfold Coin_positive. intros Hc Hn. destruct (Z.eqb_spec (Coin_Amount c) 0) as [E|]; simpl in Hc.
  - injection Hc as ->. rewrite E. case_match; lia.
  - rewrite (proj2 (Z.ltb_ge _ 0)) in Hc by lia. simpl in Hc.
    rewrite (Coins_Add_ok _ _ _ Hc). simpl. lia.
Qed.

Lemma DestroyLiquidityProvider_ok symbol addr w w' u :
  DestroyLiquidityProvider symbol addr w = (w', Ok u) -> same_pools w w'.
Proof. unfold DestroyLiquidityProvider, upd_clp. intros Hr. by apply mmodify_ok_inv in Hr as ->. Qed.

Lemma RemoveLiquidity_ok pool ec nc lp left oe on w w' u a :
  RemoveLiquidity pool ec nc lp left oe on w = (w', Ok u) ->
  ExternalAsset pool = Some a -> 0 <= Coin_Amount ec -> 0 <= Coin_Amount nc ->
  clp_pools (w_clp w') = <[native_key (Symbol a) := pool]> (clp_pools (w_clp w))
  /\ Coin_Amount ec < oe /\ Coin_Amount nc < on
  /\ forall d, bal w d - coin_of d (Coin_Denom ec) (Coin_Amount ec)
                       - coin_of d (Coin_Denom nc) (Coin_Amount nc) <= bal w' d.
Proof.
  intros Hr Ha He Hn. unfold RemoveLiquidity in Hr.
  lift_step Hr as lpAddr Hlp. lift_step Hr as c0 Hc0. lift_step Hr as c1 Hc1. lift_step Hr as c2 Hc2.
  check_step Hr as [Hoe Hon]%orb_false_iff. run_step Hr as ? w1 Hset%mwrap_ok_inv.
  apply SetPool_ok in Hset as (a' & Ha' & Hp1 & Hb1). rewrite Ha in Ha'. injection Ha' as <-.
  assert (forall d, AmountOf c2 d = coin_of d (Coin_Denom ec) (Coin_Amount ec)
                                    + coin_of d (Coin_Denom nc) (Coin_Amount nc)) as Hamt.
  { intros d. rewrite (add_positive _ _ _ d Hc2 Hn), (add_positive _ _ _ d Hc1 He).
    destruct (NewCoins_amount _ _ d Hc0) as [-> _]. simpl. lia. }
  run_step Hr as ? w2 Hpay.
  assert (clp_pools (w_clp w2) = clp_pools (w_clp w1) /\ forall d, bal w1 d - AmountOf c2 d <= bal w2 d) as [Hp2 Hb2].
  { case_bool_decide as Hc.
    - apply mret_ok_inv in Hpay as [-> _]. subst c2. split; [done|]. intros d. simpl. lia.
    - run_step Hpay as ? w3 Hloop.
      assert (w1 = w3) as <-.
      { eapply (mfor_inv (fun w => w1 = w)); [|done|exact Hloop]. intros c s s' v _ -> Hb.
        run_step Hb as has ? ->%kHasBalance_ok. by apply mfail_if_ok_inv in Hb as [_ ->]. }
      apply pay_ok in Hpay as [? Hb]. split; [done|]. intros d. apply Hb. rewrite Hamt. repeat case_match; lia. }
  assert (same_pools w2 w') as [Hp3 Hb3].
  { destruct (left =? 0); [|by apply SetLiquidityProvider_ok in Hr].
    lift_step Hr as asset _. by apply DestroyLiquidityProvider_ok in Hr. }
  split_and!; [by rewrite Hp3, Hp2, Hp1|lia|lia|]. intros d. specialize (Hb2 d).
  rewrite Hb3. rewrite Hamt, Hb1 in Hb2. lia.
Qed.

Lemma InitiateSwap_ok coin addr w w' u :
  InitiateSwap coin addr w = (w', Ok u) -> addr <> GetCLPModuleAddress ->
  clp_pools (w_clp w') = clp_pools (w_clp w)
  /\ forall d, bal w' d = bal w d + coin_of d (Coin_Denom coin) (Coin_Amount coin).
Proof.
  unfold InitiateSwap. intros Hr Ha. run_step Hr as has ? ->%kHasBalance_ok. check_step Hr as _.
  lift_step Hr as cs Hcs. apply receive_ok in Hr as [Hp Hb]; [|done]. split; [done|].
  intros d. rewrite Hb. destruct (NewCoins_amount _ _ d Hcs) as [-> _]. simpl.
  lia.
Qed.

Lemma FinalizeSwap_ok z pool msg w w' u a r :
  FinalizeSwap (big_String z) pool msg w = (w', Ok u) ->
  ExternalAsset pool = Some a -> ReceivedAsset msg = Some r ->
  clp_pools (w_clp w') = <[native_key (Symbol a) := pool]> (clp_pools (w_clp w))
  /\ forall d, bal w d - coin_of d (Symbol r) z <= bal w' d.
Proof.
  intros Hr Ha Hrec. unfold FinalizeSwap in Hr. run_step Hr as ? w1 Hset%mwrap_ok_inv.
  apply SetPool_ok in Hset as (a' & Ha' & Hp1 & Hb1). rewrite Ha in Ha'. injection Ha' as <-.
  run_step Hr as ? ? [-> ->]%ParseToInt_ok. lift_step Hr as addr Haddr. rewrite Hrec in Hr.
  lift_step Hr as r' [= <-]. lift_step Hr as ? (-> & _)%NewCoin_ok. lift_step Hr as cs Hcs.
  apply pay_ok in Hr as [Hp2 Hb2]. split; [by rewrite Hp2, Hp1|]. intros d. rewrite <- Hb1.
  destruct (NewCoins_amount _ _ d Hcs) as [Hamt Hpos]. etrans; [|by apply Hb2]. rewrite Hamt. simpl.
  lia.
Qed.

Lemma RemoveLiquidityProvider_ok cs lp w w' u :
  RemoveLiquidityProvider cs lp w = (w', Ok u) ->
  clp_pools (w_clp w') = clp_pools (w_clp w) /\ forall d, 0 <= AmountOf cs d -> bal w d - AmountOf cs d <= bal w' d.
Proof.
  unfold RemoveLiquidityProvider. intros Hr. lift_step Hr as addr _. run_step Hr as ? w1 Hs%mwrap_ok_inv.
  apply pay_ok in Hs as [Hp Hb]. lift_step Hr as asset _. apply DestroyLiquidityProvider_ok in Hr as [Hp' Hb'].
  split; [by rewrite Hp', Hp|]. intros d. rewrite Hb'. apply Hb.
Qed.

(** One refund pays at most what the running balances drop by. *)
Lemma refund_ok symbol pool pu n e lp w w' pu' n' e' :
  refund symbol pool (pu, n, e) lp w = (w', Ok (pu', n', e')) ->
  clp_pools (w_clp w') = clp_pools (w_clp w) /\ 0 <= n' /\ 0 <= e'
  /\ forall d, bal w d - coin_of d NativeSymbol (n - n') - coin_of d symbol (e - e') <= bal w' d.
Proof.
  intros Hr. unfold refund in Hr. lift_step Hr as [[[wn we] ?] ?] _. lift_step Hr as ? _.
  lift_step Hr as ? [-> Hn]%Uint_Sub_ok. lift_step Hr as ? [-> He]%Uint_Sub_ok.
  run_step Hr as ? ? [-> ->]%ParseToInt_ok. run_step Hr as ? ? [-> ->]%ParseToInt_ok.
  lift_step Hr as ? (-> & _)%NewCoin_ok. lift_step Hr as ? (-> & _)%NewCoin_ok. lift_step Hr as cs Hcs.
  run_step Hr as ? w1 Hrem%mwrap_ok_inv. apply RemoveLiquidityProvider_ok in Hrem as [Hp Hb].
  apply mret_ok_inv in Hr as [-> Hr]. injection Hr as -> -> ->. split_and!; [done..|]. intros d.
  destruct (NewCoins_amount _ _ d Hcs) as [Hamt Hpos]. specialize (Hb d Hpos). rewrite Hamt, AmountOf_pair in Hb.
  change (Symbol GetSettlementAsset) with NativeSymbol in Hb. repeat case_match; lia.
Qed.

Lemma refunds_ok symbol pool lps pu n e w w' acc :
  mfold (refund symbol pool) (pu, n, e) lps w = (w', Ok acc) -> 0 <= n -> 0 <= e ->
  clp_pools (w_clp w') = clp_pools (w_clp w)
  /\ forall d, bal w d - coin_of d NativeSymbol n - coin_of d symbol e <= bal w' d.
Proof.
  revert pu n e w; induction lps as [|lp lps IH]; intros pu n e w Hr Hn He; simpl in Hr.
  - apply mret_ok_inv in Hr as [-> _]. split; [done|]. intros d. repeat case_match; lia.
  - run_step Hr as [[pu1 n1] e1] w1 Hone. apply refund_ok in Hone as (Hp1 & Hn1 & He1 & Hb1).
    apply IH in Hr as [Hp Hb]; [|done..]. split; [by rewrite Hp|]. intros d.
    specialize (Hb d). specialize (Hb1 d). repeat case_match; lia.
Qed.

(** *** The handlers *)

Lemma wf_native_key w sym n e u :
  sym <> NativeSymbol -> 0 < n -> 0 < e -> wf_pool (native_key sym) (mkPool (Some (mkAsset sym)) n e u).
Proof. intros. by exists sym. Qed.

Lemma slack_write w w' sym p d :
  clp_pools (w_clp w') = <[native_key sym := p]> (clp_pools (w_clp w)) ->
  slack w' d - slack w d
  = bal w' d - bal w d - pool_claim d p + from_option (pool_claim d) 0 (clp_pools (w_clp w) !! native_key sym).
Proof. intros Hp. unfold slack. rewrite (claims_insert _ _ _ _ d Hp). lia. Qed.

Lemma CreatePool_msg_sound msg w w' u :
  CreatePool_msg msg w = (w', Ok u) -> MsgCreatePool_ValidateBasic msg = Ok tt -> outsider (Create_Signer msg) ->
  wf_pools w -> wf_pools w' /\ forall d, slack w' d = slack w d.
Proof.
  intros Hr Hv Ho Hw. unfold CreatePool_msg in Hr. unfold MsgCreatePool_ValidateBasic in Hv.
  apply rbind_ok_inv in Hv as (? & _ & Hv). apply rbind_ok_inv in Hv as (a & [Ha _]%checkAsset_ok & Hv).
  apply rbind_ok_inv in Hv as (? & Hna%rcheck_ok & Hv). apply rbind_ok_inv in Hv as (? & Hn%rcheck_ok & He%rcheck_ok).
  lift_step Hr as ? _. check_step Hr as _. get_step Hr. lift_step Hr as a' Ha'%deref_ok.
  assert (a' = a) as -> by congruence.
  lift_step Hr as e _. check_step Hr as _. check_step Hr as Hex. lift_step Hr as [nf adj] _.
  lift_step Hr as [pu lpu] _. run_step Hr as p w1 Hcp%mwrap_ok_inv.
  apply CreatePool_ok in Hcp as (a' & Ha'' & Hp1 & Hb1); [|done]. assert (a' = a) as -> by congruence.
  lift_step Hr as addr _. run_step Hr as ? w2 [Hp2 Hb2]%CreateLiquidityProvider_ok. apply mret_ok_inv in Hr as [-> _].
  destruct a as [sym]. cbn [Symbol] in *. unfold ExistsPool in Hex. apply bool_decide_eq_false, eq_None_not_Some in Hex.
  assert (sym <> NativeSymbol) by (by intros ->). rewrite <- Hp2 in Hp1. split.
  - apply negb_false_iff, Z.ltb_lt in Hn, He. eapply wf_insert; [done..|]. by apply wf_native_key.
  - intros d. pose proof (slack_write _ _ _ _ d Hp1) as Hs.
    rewrite pool_claim_eq, Hb2, Hb1, Hex in Hs. cbn [from_option Symbol] in Hs. lia.
Qed.

Lemma AddLiquidity_msg_sound msg w w' u :
  AddLiquidity_msg msg w = (w', Ok u) -> outsider (Add_Signer msg) ->
  wf_pools w -> wf_pools w' /\ forall d, slack w' d = slack w d.
Proof.
  intros Hr Ho Hw. unfold AddLiquidity_msg in Hr. get_step Hr. lift_step Hr as a Ha%deref_ok.
  lift_step Hr as e _. check_step Hr as _. run_step Hr as p ? Hg%mwrap_ok_inv. apply GetPool_ok in Hg as [-> Hg].
  destruct (wf_lookup _ _ _ Hw Hg) as (Hext & Hsym & Hnb & Heb). lift_step Hr as [nf adj] _. lift_step Hr as [npu lpu] _.
  run_step Hr as lp w1 Hadd%mwrap_ok_inv. apply mret_ok_inv in Hr as [-> _].
  destruct (AddLiquidity_ok _ _ _ _ _ _ _ _ Hadd Ho Hext) as (b & Hb & Hp1 & Hn & He & Hb1).
  assert (b = a) as -> by congruence. simpl in Hp1. split.
  - eapply wf_insert; [done..|]. apply wf_native_key; done || lia.
  - intros d. pose proof (slack_write _ _ _ _ d Hp1) as Hs.
    rewrite pool_claim_eq, Hb1, Hg in Hs. cbn [from_option Symbol] in Hs. rewrite (pool_claim_ext _ _ _ Hext) in Hs.
    repeat case_match; lia.
Qed.

Lemma DecommissionPool_msg_sound msg w w' u :
  DecommissionPool_msg msg w = (w', Ok u) ->
  wf_pools w -> wf_pools w' /\ forall d, slack w d <= slack w' d.
Proof.
  intros Hr Hw. unfold DecommissionPool_msg in Hr. run_step Hr as p ? Hg%mwrap_ok_inv.
  apply GetPool_ok in Hg as [-> Hg]. destruct (wf_lookup _ _ _ Hw Hg) as (Hext & Hsym & Hnb & Heb).
  lift_step Hr as addr _. get_step Hr. lift_step Hr as ? _. check_step Hr as _. lift_step Hr as ? _. check_step Hr as _.
  rewrite Hext in Hr. lift_step Hr as [lps ?] _. run_step Hr as acc w1 Href.
  apply refunds_ok in Href as [Hp1 Hb1]; [|lia..]. apply mwrap_ok_inv in Hr.
  unfold DecommissionPool in Hr. rewrite Hext in Hr. lift_step Hr as a [= <-]. apply mwrap_ok_inv in Hr.
  unfold DestroyPool in Hr. get_step Hr. simpl in Hr. destruct (ExistsPool _ _); [|done].
  apply mmodify_ok_inv in Hr. split.
  - unfold wf_pools. rewrite Hr. simpl. rewrite Hp1. by apply map_Forall_delete.
  - intros d. unfold slack. rewrite Hr. simpl. rewrite Hp1, map_sum_delete, Hg. simpl.
    rewrite (pool_claim_ext _ _ _ Hext). specialize (Hb1 d). lia.
Qed.

Definition swap_pair (sym : string) (from to : Asset) : Prop :=
  sym <> NativeSymbol /\
  ((from = GetSettlementAsset /\ to = mkAsset sym) \/ (from = mkAsset sym /\ to = GetSettlementAsset)).

(** A swap moves the claims of its pool by exactly the two amounts. *)
Lemma swap_claim sym from to amount pool nf adj r fee imp pool' :
  SwapOne from amount to pool nf adj = Ok (r, fee, imp, pool') ->
  swap_pair sym from to -> 0 <= amount ->
  ExternalAsset pool = Some (mkAsset sym) -> 0 < NativeAssetBalance pool -> 0 < ExternalAssetBalance pool ->
  ExternalAsset pool' = Some (mkAsset sym) /\ 0 < NativeAssetBalance pool' /\ 0 < ExternalAssetBalance pool'
  /\ PoolUnits pool' = PoolUnits pool /\ 0 <= r
  /\ forall d, pool_claim d pool' = pool_claim d pool + coin_of d (Symbol from) amount - coin_of d (Symbol to) r.
Proof.
  intros Hs [Hsym Hp] Ha Hext Hn He. unfold GetSettlementAsset in *.
  apply SwapOne_ok in Hs as (Hext' & Hu & Hb).
  2: { unfold GetSettlementAsset. destruct Hp as [[-> ->]|[-> ->]]; split; congruence. }
  rewrite Hext in Hext'. unfold GetSettlementAsset in Hb.
  destruct Hp as [[-> ->]|[-> ->]]; [rewrite decide_True in Hb by done|rewrite decide_False in Hb by congruence];
    (split_and!; [done|lia..|]); intros d; rewrite (pool_claim_ext _ _ _ Hext'), (pool_claim_ext _ _ _ Hext);
    destruct Hb as (-> & -> & _); cbn [Symbol]; repeat case_match; lia.
Qed.

Lemma set_swapped_ok sym from to amount pool nf adj r fee imp pool' w w1 w' :
  SwapOne from amount to pool nf adj = Ok (r, fee, imp, pool') ->
  swap_pair sym from to -> 0 <= amount ->
  wf_pools w -> clp_pools (w_clp w) !! native_key sym = Some pool ->
  clp_pools (w_clp w1) = clp_pools (w_clp w) ->
  clp_pools (w_clp w') = <[native_key sym := pool']> (clp_pools (w_clp w)) ->
  wf_pools w' /\ 0 <= r
  /\ forall d, slack w' d - slack w1 d = bal w' d - bal w1 d - coin_of d (Symbol from) amount + coin_of d (Symbol to) r.
Proof.
  intros Hs Hpair Ha Hw Hl Hp1 Hp'. destruct (wf_lookup _ _ _ Hw Hl) as (Hext & Hsym & Hn & He).
  destruct (swap_claim _ _ _ _ _ _ _ _ _ _ _ Hs Hpair Ha Hext Hn He) as (Hext' & Hn' & He' & _ & Hr & Hc).
  split_and!; [|done|].
  - eapply wf_insert; [done..|]. by exists sym.
  - intros d. rewrite <- Hp1 in Hp'. rewrite (slack_write _ _ _ _ d Hp'), Hc, Hp1, Hl. cbn [from_option]. lia.
Qed.

Lemma Asset_Equals_native a : Asset_Equals a GetSettlementAsset = true <-> a = GetSettlementAsset.
Proof.
  destruct a as [s]. unfold Asset_Equals, GetSettlementAsset. cbn [Symbol].
  rewrite String.eqb_eq. split; [by intros ->|by intros [= ->]].
Qed.

Lemma MsgSwap_ValidateBasic_ok msg :
  MsgSwap_ValidateBasic msg = Ok tt ->
  exists s r, SentAsset msg = Some s /\ ReceivedAsset msg = Some r /\ Symbol s <> Symbol r.
Proof.
  unfold MsgSwap_ValidateBasic. intros Hv. apply rbind_ok_inv in Hv as (? & _ & Hv).
  apply rbind_ok_inv in Hv as (s & [Hs _]%checkAsset_ok & Hv).
  apply rbind_ok_inv in Hv as (r & [Hr _]%checkAsset_ok & Hv).
  apply rbind_ok_inv in Hv as (? & Hsr%rcheck_ok & _). exists s, r. split_and!; [done..|].
  by apply String.eqb_neq.
Qed.

Lemma final_leg_ok sym from to amount pool nf adj r fee imp pool' msg w w' u :
  SwapOne from amount to pool nf adj = Ok (r, fee, imp, pool') ->
  swap_pair sym from to -> 0 <= amount -> wf_pools w ->
  clp_pools (w_clp w) !! native_key sym = Some pool ->
  ReceivedAsset msg = Some to -> FinalizeSwap (big_String r) pool' msg w = (w', Ok u) ->
  wf_pools w' /\ forall d, slack w d - coin_of d (Symbol from) amount <= slack w' d.
Proof.
  intros Hs Hpair Ha Hw Hl Hrec Hf. destruct (wf_lookup _ _ _ Hw Hl) as (Hext & Hsym & Hn & He).
  destruct (swap_claim _ _ _ _ _ _ _ _ _ _ _ Hs Hpair Ha Hext Hn He) as (Hext' & _).
  destruct (FinalizeSwap_ok _ _ _ _ _ _ _ _ Hf Hext' Hrec) as [Hp Hb]. cbn [Symbol] in Hp.
  destruct (set_swapped_ok _ _ _ _ _ _ _ _ _ _ _ w w w' Hs Hpair Ha Hw Hl eq_refl Hp) as (Hw' & Hr & Hd).
  split; [done|]. intros d. specialize (Hd d). specialize (Hb d). lia.
Qed.

Lemma asset_eta a : a = mkAsset (Symbol a).
Proof. by destruct a. Qed.

Lemma native_symbol_inv a : Symbol a = NativeSymbol -> a = GetSettlementAsset.
Proof. rewrite (asset_eta a) at 2. by intros ->. Qed.

(** The first part of a swap: take the coins; between two external assets, swap
    them for the native asset in the first pool.  Afterwards [amt] of [from] is on
    its way, and it is not yet claimed by any pool. *)
Definition in_flight (sent received : Asset) (w w2 : World B R) (from : Asset) (amt : Z) : Prop :=
  wf_pools w2 /\ 0 <= amt
  /\ (forall d, slack w2 d = slack w d + coin_of d (Symbol from) amt)
  /\ from = (if decide (received = GetSettlementAsset) then sent else GetSettlementAsset).

Lemma first_leg_ok sent received amount inPool nf adj emit fee imp final w w1 w2 u :
  SwapOne sent amount GetSettlementAsset inPool nf adj = Ok (emit, fee, imp, final) ->
  received <> GetSettlementAsset -> 0 <= amount -> wf_pools w ->
  clp_pools (w_clp w) !! native_key (Symbol sent) = Some inPool ->
  clp_pools (w_clp w1) = clp_pools (w_clp w) ->
  (forall d, slack w1 d = slack w d + coin_of d (Symbol sent) amount) ->
  SetPool final w1 = (w2, Ok u) ->
  in_flight sent received w w2 GetSettlementAsset emit.
Proof.
  intros Hs Hrec Ha Hw Hl Hp1 Hd1 Hset. destruct (wf_lookup _ _ _ Hw Hl) as (Hext & Hsym & Hn & He).
  assert (swap_pair (Symbol sent) sent GetSettlementAsset) as Hpair by (split; [done|right; by destruct sent]).
  destruct (swap_claim _ _ _ _ _ _ _ _ _ _ _ Hs Hpair Ha Hext Hn He) as (Hext' & _).
  apply SetPool_ok in Hset as (a & Ha' & Hp2 & Hb2). rewrite Hext' in Ha'. injection Ha' as <-.
  rewrite Hp1 in Hp2. cbn [Symbol] in Hp2.
  destruct (set_swapped_ok _ _ _ _ _ _ _ _ _ _ _ w w1 w2 Hs Hpair Ha Hw Hl Hp1 Hp2) as (Hw2 & Hr & Hd).
  split_and!; [done|done| |by rewrite decide_False]. intros d. specialize (Hd d). specialize (Hd1 d). rewrite Hb2 in Hd. lia.
Qed.

Lemma Swap_sound msg w w' u :
  Swap msg w = (w', Ok u) -> MsgSwap_ValidateBasic msg = Ok tt -> outsider (Swap_Signer msg) ->
  wf_pools w -> wf_pools w' /\ forall d, slack w d <= slack w' d.
Proof.
  intros Hr (sent & received & Hs & Hrec & Hne)%MsgSwap_ValidateBasic_ok Ho Hw. unfold Swap in Hr.
  get_step Hr. rewrite Hs, Hrec in Hr. lift_step Hr as s' [= <-]. lift_step Hr as sA _.
  lift_step Hr as r' [= <-]. lift_step Hr as rA _. check_step Hr as _. check_step Hr as _.
  run_step Hr as inPool w0 Hin. pose proof (Asset_Equals_native sent) as Hsn.
  pose proof (Asset_Equals_native received) as Hrn.
  destruct (Asset_Equals sent GetSettlementAsset) eqn:Es, (Asset_Equals received GetSettlementAsset) eqn:Er;
    cbn [negb andb] in Hr, Hin; [exfalso; rewrite (proj1 Hsn), (proj1 Hrn) in Hne; done|..].
  all: match type of Hin with
       | mret _ _ = _ => apply mret_ok_inv in Hin as [-> ->]
       | _ => apply mwrap_ok_inv, GetPool_ok in Hin as [-> Hin]
       end;
    run_step Hr as ? ? [-> ->]%ParseToInt_ok; lift_step Hr as addr Haddr;
    lift_step Hr as ? (-> & Hamt & _)%NewCoin_ok; run_step Hr as ? w1 Hini%mwrap_ok_inv;
    apply InitiateSwap_ok in Hini as [Hp1 Hb1]; [|by apply Ho]; cbn [Coin_Denom Coin_Amount] in Hb1;
    assert (forall d, slack w1 d = slack w d + coin_of d (Symbol sent) (SentAmount msg)) as Hd1
      by (intros d; unfold slack; rewrite Hp1, Hb1; lia);
    run_step Hr as [[[from amt] pi] lfn] w2 Hleg;
    assert (in_flight sent received w w2 from amt) as (Hw2 & Hamt2 & Hd2 & Hfrom);
    [|run_step Hr as [outPool dec] w3 Hout; run_step Hout as p ? Hg%mwrap_ok_inv;
      apply GetPool_ok in Hg as [-> Hg]; apply mret_ok_inv in Hout as [-> Hout]; injection Hout as -> ->;
      lift_step Hr as [nf adj] _; lift_step Hr as [[[emit lp] ts] final] Hsw; check_step Hr as _;
      run_step Hr as ? w4 Hfin%mwrap_ok_inv; run_step Hr as ? w5 Hfee;
      assert (w5 = w4) as -> by
        (destruct (0 <? lfn);
         [lift_step Hfee as ? _; lift_step Hfee as [? ?] _; lift_step Hfee as ? _; lift_step Hfee as ? _
         |lift_step Hfee as ? _]; by apply mret_ok_inv in Hfee as [-> _]);
      lift_step Hr as ? _; apply mret_ok_inv in Hr as [-> _];
      eapply final_leg_ok in Hfin as [Hw4 Hd4];
        [|exact Hsw| |done|done|exact Hg|done];
        [split; [exact Hw4|intros d; specialize (Hd4 d); rewrite Hd2 in Hd4; lia]|]].
  - apply mret_ok_inv in Hleg as [-> Hleg]. injection Hleg as -> -> _ _.
    split_and!; [unfold wf_pools; by rewrite Hp1|done|done|]. rewrite decide_False by naive_solver. naive_solver.
  - rewrite decide_False in Hfrom by naive_solver. subst from. split; [|left; split; [done|apply asset_eta]].
    intros E. by apply native_symbol_inv, Hrn in E.
  - apply mret_ok_inv in Hleg as [-> Hleg]. injection Hleg as -> -> _ _.
    split_and!; [unfold wf_pools; by rewrite Hp1|done|done|]. rewrite decide_True; naive_solver.
  - rewrite decide_True in Hfrom by naive_solver. subst from.
    split; [|right; split; [apply asset_eta|naive_solver]].
    intros E. by apply native_symbol_inv, Hsn in E.
  - lift_step Hleg as [nf adj] _. lift_step Hleg as [[[emit lp] ts] final] Hsw.
    run_step Hleg as ? w3 Hset%mwrap_ok_inv. lift_step Hleg as ? _. lift_step Hleg as ? _.
    apply mret_ok_inv in Hleg as [-> Hleg]. injection Hleg as -> -> _ _.
    eapply first_leg_ok; eauto. naive_solver.
  - rewrite decide_False in Hfrom by naive_solver. subst from. split; [|left; split; [done|apply asset_eta]].
    intros E. by apply native_symbol_inv, Hrn in E.
Qed.

Lemma asymmetric_swap_ok e from to amount pool fc tc w w' pool' fc' tc' :
  asymmetric_swap e from to amount pool fc tc w = (w', Ok (pool', fc', tc')) ->
  Coin_Denom fc = Symbol from -> 0 <= Coin_Amount fc ->
  w' = w /\ exists nf adj r fee imp,
    GetNormalizationFactor (Decimals e) = Ok (nf, adj)
    /\ SwapOne from amount to pool nf adj = Ok (r, fee, imp, pool')
    /\ fc' = mkCoin (Symbol from) (Coin_Amount fc - if r =? 0 then 0 else amount)
    /\ tc' = mkCoin (Coin_Denom tc) (Coin_Amount tc + r) /\ 0 <= Coin_Amount fc'.
Proof.
  unfold asymmetric_swap. intros Hr Hfc Hpos. lift_step Hr as [nf adj] Hnf.
  lift_step Hr as [[[r fee] imp] sp] Hs%rwrap_ok_inv. run_step Hr as [fc1 tc1] w1 Hc.
  apply mret_ok_inv in Hr as [-> Hr]. injection Hr as -> -> ->.
  destruct (Z.eqb_spec r 0) as [->|Hne]; cbn [negb] in Hc.
  - apply mret_ok_inv in Hc as [-> Hc]. injection Hc as -> ->. split; [done|].
    exists nf, adj, 0, fee, imp. rewrite Z.eqb_refl. split_and!; [done|done| | |done].
    + rewrite <- Hfc, Z.sub_0_r. by destruct fc.
    + rewrite Z.add_0_r. by destruct tc.
  - run_step Hc as ? ? [-> ->]%ParseToInt_ok. run_step Hc as ? ? [-> ->]%ParseToInt_ok.
    lift_step Hc as ? (-> & _)%NewCoin_ok. lift_step Hc as ? (-> & _)%NewCoin_ok.
    lift_step Hc as ? [_ ->]%Coin_Add_ok. lift_step Hc as ? (_ & Hle & ->)%Coin_Sub_ok.
    apply mret_ok_inv in Hc as [-> Hc]. injection Hc as -> ->. split; [done|].
    exists nf, adj, r, fee, imp. rewrite (proj2 (Z.eqb_neq r 0) Hne). simpl in *.
    split_and!; [done|done|by rewrite Hfc|done|lia].
Qed.

Lemma clpEntry_pure sym w e : clpEntry sym w = Ok e -> trk_GetEntry (trk_GetRegistry (w_registry w)) sym = Ok e.
Proof. unfold clpEntry. destruct (trk_GetEntry _ _); naive_solver. Qed.

(** The last step of a withdrawal, after an optional swap of [amount] of [from]
    that paid [r] of [to], of which [lost] was not deducted from the payment. *)
Lemma withdrawal_settles sym pool poolW wn we pool' ec nc lp left w w' u lost dfrom :
  RemoveLiquidity pool' ec nc lp left (ExternalAssetBalance pool) (NativeAssetBalance pool) w = (w', Ok u) ->
  wf_pools w -> clp_pools (w_clp w) !! native_key sym = Some pool ->
  ExternalAsset pool' = Some (mkAsset sym) -> 0 < NativeAssetBalance pool' -> 0 < ExternalAssetBalance pool' ->
  0 <= Coin_Amount ec -> 0 <= Coin_Amount nc ->
  (forall d, pool_claim d pool = pool_claim d poolW + coin_of d NativeSymbol wn + coin_of d sym we) ->
  (forall d, pool_claim d pool' + coin_of d (Coin_Denom ec) (Coin_Amount ec) + coin_of d (Coin_Denom nc) (Coin_Amount nc)
             = pool_claim d poolW + coin_of d NativeSymbol wn + coin_of d sym we + coin_of d dfrom lost) ->
  wf_pools w' /\ forall d, slack w d - coin_of d dfrom lost <= slack w' d.
Proof.
  intros Hr Hw Hl Hext Hn He Hec Hnc Hc Hc'.
  destruct (RemoveLiquidity_ok _ _ _ _ _ _ _ _ _ _ _ Hr Hext Hec Hnc) as (Hp & _ & _ & Hb). cbn [Symbol] in Hp. split.
  - destruct (wf_lookup _ _ _ Hw Hl) as (_ & Hsym & _). eapply wf_insert; [done..|]. by exists sym.
  - intros d. pose proof (slack_write _ _ _ _ d Hp) as Hs. rewrite Hl in Hs. cbn [from_option] in Hs.
    specialize (Hb d). specialize (Hc d). specialize (Hc' d). lia.
Qed.

Lemma CalculateWithdrawal_nonneg P nb eb L wb asym n e l s :
  CalculateWithdrawal P nb eb L wb asym = Ok (n, e, l, s) -> 0 <= n /\ 0 <= e /\ 0 <= l /\ 0 <= s.
Proof.
  unfold CalculateWithdrawal. intros Hc. do 11 apply rbind_ok_inv in Hc as (? & _ & Hc).
  apply rbind_ok_inv in Hc as (? & [-> ?]%NewUintFromBigInt_ok & Hc).
  apply rbind_ok_inv in Hc as (? & [-> ?]%NewUintFromBigInt_ok & Hc).
  apply rbind_ok_inv in Hc as (? & [-> ?]%NewUintFromBigInt_ok & Hc).
  apply rbind_ok_inv in Hc as (? & [-> ?]%NewUintFromBigInt_ok & Hc). injection Hc as <- <- <- <-. lia.
Qed.

Lemma GetLiquidityProvider_ok sym addr w w' lp :
  GetLiquidityProvider sym addr w = (w', Ok lp) -> w' = w /\ read_lp (w_clp w) sym addr = Ok lp.
Proof. unfold GetLiquidityProvider. by intros [= -> ->]. Qed.

Lemma GetPool_read sym w w' p : GetPool sym w = (w', Ok p) -> read_pool (w_clp w) sym = Ok p.
Proof. unfold GetPool. by intros [= -> ->]. Qed.

Lemma RemoveLiquidity_msg_sound msg w w' u :
  RemoveLiquidity_msg msg w = (w', Ok u) -> wf_pools w ->
  wf_pools w' /\ forall d, slack w d - coin_of d (dust_denom msg) (removal_dust msg w) <= slack w' d.
Proof.
  intros Hr Hw. unfold RemoveLiquidity_msg in Hr. get_step Hr. lift_step Hr as a Ha%deref_ok.
  lift_step Hr as e He. check_step Hr as _. run_step Hr as pool w0 Hg%mwrap_ok_inv.
  pose proof (GetPool_read _ _ _ _ Hg) as Hrp. apply GetPool_ok in Hg as [-> Hg].
  run_step Hr as lp ? Hlp%mwrap_ok_inv. apply GetLiquidityProvider_ok in Hlp as [-> Hlp].
  lift_step Hr as [[[wn we] left] amount] Hcw.
  destruct (CalculateWithdrawal_nonneg _ _ _ _ _ _ _ _ _ _ Hcw) as (Hwn & Hwe & _ & Hamt).
  run_step Hr as ? ? [-> ->]%ParseToInt_ok. run_step Hr as ? ? [-> ->]%ParseToInt_ok.
  lift_step Hr as ? (-> & _)%NewCoin_ok. lift_step Hr as ? (-> & _)%NewCoin_ok.
  lift_step Hr as ? [-> _]%Uint_Sub_ok. lift_step Hr as ? [-> _]%Uint_Add_ok.
  lift_step Hr as ? [-> Hn]%Uint_Sub_ok. lift_step Hr as ? [-> Heb]%Uint_Sub_ok.
  check_step Hr as Hshallow. destruct a as [sym]. cbn [Symbol] in *.
  destruct (wf_lookup _ _ _ Hw Hg) as (Hext & Hsym & _).
  unfold removal_dust, dust_denom. rewrite Ha. cbn [Symbol]. rewrite He, Hrp, Hlp, Hcw.
  set (poolW := mkPool _ _ _ _) in *.
  assert (forall d, pool_claim d pool = pool_claim d poolW + coin_of d NativeSymbol wn + coin_of d sym we) as Hcl.
  { intros d. unfold poolW. rewrite Hext, pool_claim_eq, (pool_claim_ext _ _ _ Hext). repeat case_match; lia. }
  assert (ExternalAsset poolW = Some (mkAsset sym)) as HextW by done.
  destruct (Z.ltb_spec 0 (Asymmetry msg)) as [Has|Has];
    [|destruct (Z.ltb_spec (Asymmetry msg) 0) as [Has'|Has']].
  - rewrite (proj2 (Z.eqb_neq (Asymmetry msg) 0)) in * by lia. cbn [negb andb] in *.
    apply orb_false_iff in Hshallow as [Hs1%Z.eqb_neq Hs2%Z.eqb_neq].
    run_step Hr as [[pool' nc] ec] w1 Hsw. apply asymmetric_swap_ok in Hsw
      as (-> & nf & adj & r & fee & imp & Hnf & Hs & -> & -> & Hpos); [|done..].
    run_step Hr as [[p2 ec2] nc2] w2 Hm. rewrite (proj2 (Z.ltb_ge _ 0)) in Hm by lia.
    apply mret_ok_inv in Hm as [-> Hm]. injection Hm as -> -> ->. rewrite Hnf, Hs. apply mwrap_ok_inv in Hr.
    assert (swap_pair sym GetSettlementAsset (mkAsset sym)) as Hpair by (split; [done|by left]).
    destruct (swap_claim _ _ _ _ _ _ _ _ _ _ _ Hs Hpair Hamt HextW ltac:(simpl; lia) ltac:(simpl; lia))
      as (Hext' & Hn' & He' & _ & Hr0 & Hc).
    eapply withdrawal_settles; [exact Hr|done|done|done|done|done|simpl; lia|done|exact Hcl|].
    intros d. rewrite Hc. cbn [Coin_Denom Coin_Amount Symbol GetSettlementAsset]. repeat case_match; lia.
  - rewrite (proj2 (Z.eqb_neq (Asymmetry msg) 0)) in * by lia. cbn [negb andb] in *.
    apply orb_false_iff in Hshallow as [Hs1%Z.eqb_neq Hs2%Z.eqb_neq].
    run_step Hr as [[p2 nc2] ec2] w2 Hm. apply mret_ok_inv in Hm as [-> Hm]. injection Hm as -> -> ->.
    run_step Hr as [[pool' ec] nc] w1 Hsw. apply asymmetric_swap_ok in Hsw
      as (-> & nf & adj & r & fee & imp & Hnf & Hs & -> & -> & Hpos); [|done..].
    rewrite Hnf, Hs. apply mwrap_ok_inv in Hr.
    assert (swap_pair sym (mkAsset sym) GetSettlementAsset) as Hpair by (split; [done|by right]).
    destruct (swap_claim _ _ _ _ _ _ _ _ _ _ _ Hs Hpair Hamt HextW ltac:(simpl; lia) ltac:(simpl; lia))
      as (Hext' & Hn' & He' & _ & Hr0 & Hc).
    eapply withdrawal_settles; [exact Hr|done|done|done|done|done|done|simpl; lia|exact Hcl|].
    intros d. rewrite Hc. cbn [Coin_Denom Coin_Amount Symbol GetSettlementAsset]. repeat case_match; lia.
  - assert (Asymmetry msg = 0) as -> by lia. cbn [negb andb Z.eqb] in *.
    run_step Hr as [[p2 nc2] ec2] w2 Hm. apply mret_ok_inv in Hm as [-> Hm]. injection Hm as -> -> ->.
    run_step Hr as [[p3 ec3] nc3] w3 Hm. apply mret_ok_inv in Hm as [-> Hm]. injection Hm as -> -> ->.
    apply mwrap_ok_inv in Hr.
    pose proof (RemoveLiquidity_ok _ _ _ _ _ _ _ _ _ _ _ Hr HextW Hwe Hwn) as (_ & H1' & H2' & _).
    cbn [Coin_Amount] in H1', H2'.
    assert (wf_pools w' /\ forall d, slack w d - coin_of d sym 0 <= slack w' d) as [Hw' Hd].
    { eapply withdrawal_settles; [exact Hr|done|done|done|simpl; lia|simpl; lia|done|done|exact Hcl|].
      intros d. cbn [Coin_Denom Coin_Amount Symbol GetSettlementAsset]. repeat case_match; lia. }
    split; [done|]. intros d. specialize (Hd d). repeat case_match; simplify_eq; lia.
Qed.

Lemma Handler_sound m w w' u :
  Handler m w = (w', Ok u) -> ValidateBasic m = Ok tt -> outsider (Msg_Signer m) -> wf_pools w ->
  wf_pools w' /\ forall d, slack w d - match m with
                                       | RemoveLiquidityMsg r => coin_of d (dust_denom r) (removal_dust r w)
                                       | _ => 0 end <= slack w' d.
Proof.
  intros Hr Hv Ho Hw. destruct m; simpl in Hr, Hv, Ho; [| | | | |done].
  - apply CreatePool_msg_sound in Hr as [? Hd]; [|done..]. split; [done|]. intros d. rewrite Hd. lia.
  - apply AddLiquidity_msg_sound in Hr as [? Hd]; [|done..]. split; [done|]. intros d. rewrite Hd. lia.
  - by eapply RemoveLiquidity_msg_sound.
  - apply Swap_sound in Hr as [? Hd]; [|done..]. split; [done|]. intros d. specialize (Hd d). lia.
  - apply DecommissionPool_msg_sound in Hr as [? Hd]; [|done..]. split; [done|]. intros d. specialize (Hd d). lia.
Qed.

(** *** The user's side of a swap *)

Lemma InitiateSwap_moved coin addr w w' u :
  InitiateSwap coin addr w = (w', Ok u) ->
  exists cs, moved (w_bank w) (w_bank w') addr GetCLPModuleAddress cs
    /\ forall d, AmountOf cs d = coin_of d (Coin_Denom coin) (Coin_Amount coin).
Proof.
  unfold InitiateSwap. intros Hr. run_step Hr as has ? ->%kHasBalance_ok. check_step Hr as _.
  lift_step Hr as cs Hcs. apply on_bank_ok in Hr as [_ [Hm _]%SendCoinsFromAccountToModule_ok].
  exists cs. split; [done|]. intros d. destruct (NewCoins_amount _ _ d Hcs) as [-> _]. simpl. lia.
Qed.

Lemma FinalizeSwap_moved z pool msg w w' u r :
  FinalizeSwap (big_String z) pool msg w = (w', Ok u) -> ReceivedAsset msg = Some r ->
  exists addr cs, AccAddressFromBech32 (Swap_Signer msg) = Ok addr
    /\ moved (w_bank w) (w_bank w') GetCLPModuleAddress addr cs
    /\ forall d, AmountOf cs d = coin_of d (Symbol r) z.
Proof.
  unfold FinalizeSwap. intros Hr Hrec. run_step Hr as ? w1 Hset%mwrap_ok_inv.
  apply SetPool_ok in Hset as (_ & _ & _ & Hb1). run_step Hr as ? ? [-> ->]%ParseToInt_ok.
  lift_step Hr as addr Haddr. rewrite Hrec in Hr. lift_step Hr as r' [= <-].
  lift_step Hr as ? (-> & _)%NewCoin_ok. lift_step Hr as cs Hcs.
  apply on_bank_ok in Hr as [_ [Hm _]%SendCoinsFromModuleToAccount_ok]. rewrite Hb1 in Hm.
  exists addr, cs. split_and!; [done|done|]. intros d. destruct (NewCoins_amount _ _ d Hcs) as [-> _]. simpl. lia.
Qed.

Lemma Swap_moves msg w w' u s r :
  Swap msg w = (w', Ok u) -> SentAsset msg = Some s -> ReceivedAsset msg = Some r ->
  exists addr b emit cs1 cs2, AccAddressFromBech32 (Swap_Signer msg) = Ok addr
    /\ MinReceivingAmount msg <= emit
    /\ moved (w_bank w) b addr GetCLPModuleAddress cs1
    /\ moved b (w_bank w') GetCLPModuleAddress addr cs2
    /\ (forall d, AmountOf cs1 d = coin_of d (Symbol s) (SentAmount msg))
    /\ (forall d, AmountOf cs2 d = coin_of d (Symbol r) emit).
Proof.
  intros Hr Hs Hrec. unfold Swap in Hr. get_step Hr. rewrite Hs, Hrec in Hr.
  lift_step Hr as ? [= <-]. lift_step Hr as sA _. lift_step Hr as ? [= <-]. lift_step Hr as rA _.
  check_step Hr as _. check_step Hr as _. run_step Hr as inPool w0 Hin.
  assert (w0 = w) as ->.
  { destruct (negb _); [by apply mwrap_ok_inv, GetPool_ok in Hin as [-> _]|by go_inv]. }
  run_step Hr as ? ? [-> ->]%ParseToInt_ok. lift_step Hr as addr Haddr. lift_step Hr as ? (-> & _)%NewCoin_ok.
  run_step Hr as ? w1 Hini%mwrap_ok_inv. apply InitiateSwap_moved in Hini as (cs1 & Hm1 & Ha1).
  run_step Hr as [[[from amt] imp] lfn] w2 Hleg.
  assert (w_bank w2 = w_bank w1) as Hb2.
  { destruct (_ && _); [|by apply mret_ok_inv in Hleg as [-> _]].
    lift_step Hleg as [? ?] _. lift_step Hleg as [[[? ?] ?] ?] _. run_step Hleg as ? w3 Hset%mwrap_ok_inv.
    apply SetPool_ok in Hset as (_ & _ & _ & <-). do 2 lift_step Hleg as ? _. by apply mret_ok_inv in Hleg as [-> _]. }
  run_step Hr as [outPool dec] w3 Hout.
  assert (w3 = w2) as ->.
  { destruct (Asset_Equals r _); run_step Hout as p ? Hg%mwrap_ok_inv; apply GetPool_ok in Hg as [-> _]; by go_inv. }
  lift_step Hr as [nf adj] _. lift_step Hr as [[[emit lp] ts] final] _. check_step Hr as Hmin%Z.ltb_ge.
  run_step Hr as ? w4 Hfin%mwrap_ok_inv. apply (FinalizeSwap_moved _ _ _ _ _ _ r) in Hfin as (addr' & cs2 & Haddr' & Hm2 & Ha2); [|done].
  run_step Hr as ? w5 Hfee.
  assert (w5 = w4) as ->.
  { destruct (0 <? lfn);
      [lift_step Hfee as ? _; lift_step Hfee as [? ?] _; lift_step Hfee as ? _; lift_step Hfee as ? _
      |lift_step Hfee as ? _]; by apply mret_ok_inv in Hfee as [-> _]. }
  lift_step Hr as ? _. apply mret_ok_inv in Hr as [-> _]. assert (addr' = addr) as -> by congruence.
  exists addr, (w_bank w1), emit, cs1, cs2. cbn [Coin_Denom Coin_Amount] in Ha1. rewrite Hb2 in Hm2. done.
Qed.

(** The states of a chain, seen from this module.  A message that fails is rolled
    back, so only successful ones are steps; between messages other modules may
    change the registry and the bank, but do not debit this module's account. *)
Inductive reachable : World B R -> Prop :=
| reach_start w : clp_pools (w_clp w) = ∅ -> reachable w
| reach_msg w m w' u :
    reachable w -> ValidateBasic m = Ok tt -> outsider (Msg_Signer m) ->
    (forall r, m = RemoveLiquidityMsg r -> removal_dust r w = 0) ->
    Handler m w = (w', Ok u) -> reachable w'
| reach_others w b r :
    reachable w ->
    (forall d, bal w d <= GetBalance b GetCLPModuleAddress d) -> reachable (mkWorld (w_clp w) b r).

Lemma reachable_solvent w : reachable w -> solvent w.
Proof.
  induction 1 as [w Hp|w m w' u _ [Hw Hd] Hv Ho Hdust Hr|w b r _ [Hw Hd] Hb].
  - split; [unfold wf_pools; rewrite Hp; by apply map_Forall_empty|].
    intros d. unfold slack. rewrite Hp, map_sum_empty. pose proof (GetBalance_nonneg (w_bank w) GetCLPModuleAddress d). lia.
  - destruct (Handler_sound _ _ _ _ Hr Hv Ho Hw) as [Hw' Hd']. split; [done|]. intros d.
    specialize (Hd d). specialize (Hd' d). destruct m; try lia. rewrite Hdust in Hd' by done. case_match; lia.
  - split; [done|]. intros d. specialize (Hd d). specialize (Hb d). unfold slack in *. simpl. lia.
Qed.

(** The module account is always able to pay out every pool: in every reachable
    state, for every denomination, it holds at least the sum of what the pools record,
    and every pool is stored under its own asset's key with both sides positive.  This
    covers creating, funding, withdrawing, swapping and decommissioning in any order,
    with any other module's activity in between, as long as no asymmetric withdrawal
    swaps an amount for nothing. *)
Theorem module_account_solvent w : reachable w -> solvent w.
Proof. apply reachable_solvent. Qed.

(** C3: No message reduces what the module account holds beyond the pools' records,
    except an asymmetric withdrawal whose inner swap pays nothing, and that one by at
    most the amount it moved. *)
Theorem message_keeps_slack m w w' u :
  Handler m w = (w', Ok u) -> ValidateBasic m = Ok tt -> outsider (Msg_Signer m) -> wf_pools w ->
  wf_pools w' /\ forall d, slack w d - match m with
                                       | RemoveLiquidityMsg r => coin_of d (dust_denom r) (removal_dust r w)
                                       | _ => 0 end <= slack w' d.
Proof. apply Handler_sound. Qed.

(** A pool is only removed by an admin of the module's list and only while it
    records less than 10^18 of the native asset; afterwards it is gone. *)
Theorem decommission_authorised msg w w' u :
  DecommissionPool_msg msg w = (w', Ok u) ->
  exists addr pool,
    AccAddressFromBech32 (Decom_Signer msg) = Ok addr
    /\ ValidateAddress addr w = Ok true
    /\ read_pool (w_clp w) (Decom_Symbol msg) = Ok pool /\ NativeAssetBalance pool < 10 ^ 18
    /\ (wf_pools w -> clp_pools (w_clp w') = delete (native_key (Decom_Symbol msg)) (clp_pools (w_clp w))).
Proof.
  intros Hr. unfold DecommissionPool_msg in Hr. run_step Hr as p ? Hg%mwrap_ok_inv.
  pose proof (GetPool_read _ _ _ _ Hg) as Hrp. apply GetPool_ok in Hg as [-> Hg].
  lift_step Hr as addr Haddr. get_step Hr. lift_step Hr as v Hv. check_step Hr as Hc%negb_false_iff. subst v.
  lift_step Hr as t Ht. change PoolThrehold with (big_String (10 ^ 18)) in Ht.
  rewrite NewUintFromString_eq in Ht by lia. injection Ht as <-. check_step Hr as Hlt%Z.leb_gt.
  exists addr, p. split_and!; [done..|]. intros Hw.
  destruct (wf_lookup _ _ _ Hw Hg) as (Hext & _ & Hnb & Heb). rewrite Hext in Hr.
  lift_step Hr as [lps ?] _. run_step Hr as acc w1 Href. apply refunds_ok in Href as [Hp1 _]; [|lia..].
  apply mwrap_ok_inv in Hr. unfold DecommissionPool in Hr. rewrite Hext in Hr. lift_step Hr as a [= <-].
  apply mwrap_ok_inv in Hr. unfold DestroyPool in Hr. get_step Hr. simpl in Hr. destruct (ExistsPool _ _); [|done].
  apply mmodify_ok_inv in Hr. rewrite Hr. simpl. by rewrite Hp1.
Qed.

(** The only provider of a pool can never withdraw everything: the handler refuses
    a symmetric withdrawal of all units, because it would leave a side of the pool empty. *)
Theorem sole_provider_cannot_empty_pool msg w pool lp a :
  Rem_ExternalAsset msg = Some a -> WBasisPoints msg = MaxWbasis -> Asymmetry msg = 0 ->
  read_pool (w_clp w) (Symbol a) = Ok pool -> read_lp (w_clp w) (Symbol a) (Rem_Signer msg) = Ok lp ->
  LiquidityProviderUnits lp = PoolUnits pool -> 0 < PoolUnits pool < 2 ^ 190 ->
  0 <= NativeAssetBalance pool < 2 ^ 190 -> 0 <= ExternalAssetBalance pool < 2 ^ 190 ->
  is_ok (RemoveLiquidity_msg msg w).2 = false.
Proof.
  intros Ha Hwb Has Hp Hl Hu HP Hn He. destruct (RemoveLiquidity_msg msg w) as [w' [u| |]] eqn:Hr; [|done..].
  exfalso. unfold RemoveLiquidity_msg in Hr. get_step Hr. rewrite Ha in Hr. lift_step Hr as ? [= <-].
  lift_step Hr as e _. check_step Hr as _. run_step Hr as p ? Hg%mwrap_ok_inv.
  pose proof (GetPool_read _ _ _ _ Hg) as Hrp. apply GetPool_ok in Hg as [-> _]. assert (p = pool) as -> by congruence.
  run_step Hr as l ? Hlp%mwrap_ok_inv. apply GetLiquidityProvider_ok in Hlp as [-> Hlp].
  assert (l = lp) as -> by congruence. rewrite Hu, Hwb, Has, CalculateWithdrawal_whole in Hr by done.
  lift_step Hr as ? [= <-]. run_step Hr as ? ? [-> ->]%ParseToInt_ok. run_step Hr as ? ? [-> ->]%ParseToInt_ok.
  lift_step Hr as ? (-> & Hec & _)%NewCoin_ok. lift_step Hr as ? (-> & _)%NewCoin_ok.
  do 4 lift_step Hr as ? _. check_step Hr as _. cbn [Z.ltb Z.compare] in Hr.
  run_step Hr as [[p2 nc2] ec2] w2 Hm. apply mret_ok_inv in Hm as [-> Hm]. injection Hm as -> -> ->.
  run_step Hr as [[p3 ec3] nc3] w3 Hm. apply mret_ok_inv in Hm as [-> Hm]. injection Hm as -> -> ->.
  apply mwrap_ok_inv in Hr. unfold RemoveLiquidity in Hr. do 4 lift_step Hr as ? _.
  check_step Hr as [Hoe%Z.leb_gt _]%orb_false_iff. cbn [Coin_Amount] in Hoe. lia.
Qed.

(** C4: A swap that succeeds takes exactly the sent amount from the signer and pays
    the signer at least the minimum they asked for, and nothing else on the signer's
    account changes. *)
Theorem swap_protects_signer msg w w' u :
  Swap msg w = (w', Ok u) -> MsgSwap_ValidateBasic msg = Ok tt -> outsider (Swap_Signer msg) ->
  exists addr s r emit,
    AccAddressFromBech32 (Swap_Signer msg) = Ok addr /\ SentAsset msg = Some s /\ ReceivedAsset msg = Some r
    /\ MinReceivingAmount msg <= emit
    /\ forall d, GetBalance (w_bank w') addr d
         = GetBalance (w_bank w) addr d - coin_of d (Symbol s) (SentAmount msg) + coin_of d (Symbol r) emit.
Proof.
  intros Hr (s & r & Hs & Hrec & _)%MsgSwap_ValidateBasic_ok Ho.
  destruct (Swap_moves _ _ _ _ _ _ Hr Hs Hrec) as (addr & b & emit & cs1 & cs2 & Ha & Hmin & Hm1 & Hm2 & Ha1 & Ha2).
  exists addr, s, r, emit. split_and!; [done..|]. intros d. rewrite (Hm2 addr d), (Hm1 addr d), Ha1, Ha2.
  apply Ho in Ha. rewrite !(decide_True (P := addr = addr)), !decide_False by done. lia.
Qed.
End Solvency.

(** ** Concrete runs *)

Section Examples.
#[local] Existing Instances RefMath RefCoins RefAddress RefQuery RefBank TokenRegistry.Keeper.
#[local] Existing Instances RefMath_laws RefCoins_laws RefAddress_laws RefBank_laws.

Definition ex_registry : TokenRegistry.RegStore :=
  TokenRegistry.mkRegStore (Some (TokenRegistry.mkRegistry
    [Some (TokenRegistry.ex_entry "aku" 18); Some (TokenRegistry.ex_entry "ceth" 18);
     Some (TokenRegistry.ex_entry "cusdt" 6)])) None.

(** Two users with coins, an empty module with [root] as its admin. *)
Definition ex_bank : RefB :=
  {[ ("alice", "aku") := Z.to_N (10 ^ 25); ("alice", "ceth") := Z.to_N (10 ^ 22);
     ("alice", "cusdt") := Z.to_N (10 ^ 9);
     ("bob", "aku") := Z.to_N (10 ^ 22); ("bob", "ceth") := Z.to_N (10 ^ 20) ]}.
Definition ex_world : World RefB TokenRegistry.RegStore :=
  mkWorld (mkClpStore ∅ ∅ (Some ["sif1root"]) DefaultParams) ex_bank ex_registry.

Definition ceth : option Asset := Some (mkAsset "ceth").
Definition cusdt : option Asset := Some (mkAsset "cusdt").

Definition ex_create := CreatePoolMsg (mkMsgCreatePool "sif1alice" ceth (10 ^ 24) (10 ^ 21)).
Definition ex_create_usdt := CreatePoolMsg (mkMsgCreatePool "sif1alice" cusdt (10 ^ 24) (10 ^ 6)).
Definition ex_swap_msg := mkMsgSwap "sif1bob" ceth cusdt (10 ^ 19) 1.
Definition ex_add := AddLiquidityMsg (mkMsgAddLiquidity "sif1bob" ceth (10 ^ 20) (10 ^ 17)).
Definition ex_remove_msg := mkMsgRemoveLiquidity "sif1alice" ceth 5000 2000.
Definition ex_dust_msg := mkMsgRemoveLiquidity "sif1alice" cusdt 1 10.
Definition ex_all_msg := mkMsgRemoveLiquidity "sif1alice" ceth 10000 0.
Definition ex_decommission := mkMsgDecommissionPool "sif1root" "ceth".

(** The world after some messages, the latest first. *)
Fixpoint after (ms : list Msg) : World RefB TokenRegistry.RegStore :=
  match ms with [] => ex_world | m :: ms => (Handler m (after ms)).1 end.

Lemma reach_after (m : Msg) (ms : list Msg) :
  reachable (after ms) -> ValidateBasic m = Ok tt -> outsider (Msg_Signer m) ->
  (forall r, m = RemoveLiquidityMsg r -> removal_dust r (after ms) = 0) ->
  (Handler m (after ms)).2 = Ok tt -> reachable (after (m :: ms)).
Proof. intros Hr Hv Ho Hd Hh%run_ok. by eapply reach_msg. Qed.

(** A pool too small to be protected from decommissioning. *)
Definition ex_small_world : World RefB TokenRegistry.RegStore :=
  mkWorld (mkClpStore {[ native_key "ceth" := mkPool ceth 900 70 900 ]}
    {[ GetLiquidityProviderKey "ceth" "sif1alice" := mkLiquidityProvider ceth 600 "sif1alice";
       GetLiquidityProviderKey "ceth" "sif1bob" := mkLiquidityProvider ceth 300 "sif1bob" ]}
    (Some ["sif1root"]) DefaultParams)
    (<[("module/clp", "aku") := 900%N]> (<[("module/clp", "ceth") := 70%N]> ex_bank)) ex_registry.

(** Step back to the state before [m], solving the side conditions by evaluation. *)
Ltac outsider_tac :=
  let a := fresh "a" in let Ha := fresh "Ha" in intros a Ha; vm_compute in Ha; injection Ha as <-; vm_compute; discriminate.
Ltac dust_tac :=
  let r := fresh "r" in let E := fresh "E" in
  intros r E; first [discriminate E | (injection E as <-; vm_compute; reflexivity)].
Ltac reach_back := apply reach_after; [|vm_compute; reflexivity|outsider_tac|dust_tac|vm_compute; reflexivity].

Lemma module_account_solvent_witness :
  solvent (after [RemoveLiquidityMsg ex_remove_msg; ex_add; SwapMsg ex_swap_msg; ex_create_usdt; ex_create]).
Proof.
  apply module_account_solvent. do 5 reach_back. apply reach_start. reflexivity.
Defined.

Definition ex_pools := after [ex_create_usdt; ex_create].

Lemma ex_pools_reachable : reachable ex_pools.
Proof. do 2 reach_back. apply reach_start. reflexivity. Qed.

Lemma ex_swap_run : Swap ex_swap_msg ex_pools = ((Swap ex_swap_msg ex_pools).1, Ok tt).
Proof. apply run_ok. vm_compute. reflexivity. Qed.

Lemma ex_decommission_run : DecommissionPool_msg ex_decommission ex_small_world
  = ((DecommissionPool_msg ex_decommission ex_small_world).1, Ok tt).
Proof. apply run_ok. vm_compute. reflexivity. Qed.

Lemma ex_swap_valid : MsgSwap_ValidateBasic ex_swap_msg = Ok tt.
Proof. vm_compute. reflexivity. Qed.

Lemma message_keeps_slack_witness :
  slack ex_pools "ceth" - 0 <= slack (Handler (SwapMsg ex_swap_msg) ex_pools).1 "ceth".
Proof.
  assert ((Handler (SwapMsg ex_swap_msg) ex_pools).2 = Ok tt) as Hr%run_ok by (vm_compute; reflexivity).
  assert (ValidateBasic (SwapMsg ex_swap_msg) = Ok tt) as Hv by (vm_compute; reflexivity).
  assert (outsider (Msg_Signer (SwapMsg ex_swap_msg))) as Ho by outsider_tac.
  pose proof (reachable_solvent _ ex_pools_reachable) as [Hw _].
  exact (proj2 (message_keeps_slack (SwapMsg ex_swap_msg) ex_pools _ tt Hr Hv Ho Hw) "ceth").
Defined.

Lemma decommission_authorised_witness :
  exists addr, AccAddressFromBech32 "sif1root" = Ok addr /\ ValidateAddress addr ex_small_world = Ok true.
Proof.
  destruct (decommission_authorised ex_decommission ex_small_world
    (DecommissionPool_msg ex_decommission ex_small_world).1 tt ex_decommission_run) as (addr & pool & Ha & Hv & _).
  exists addr. split; [exact Ha|exact Hv].
Defined.

Lemma sole_provider_cannot_empty_pool_witness :
  is_ok (RemoveLiquidity_msg ex_all_msg (after [ex_create])).2 = false.
Proof.
  apply (sole_provider_cannot_empty_pool ex_all_msg (after [ex_create]) (mkPool ceth (10 ^ 24) (10 ^ 21) (10 ^ 24))
    (mkLiquidityProvider ceth (10 ^ 24) "sif1alice") (mkAsset "ceth")); try (vm_compute; reflexivity); simpl; lia.
Defined.

Lemma swap_protects_signer_witness :
  exists emit, 1 <= emit
    /\ GetBalance (w_bank (Swap ex_swap_msg ex_pools).1) "bob" "cusdt" = emit.
Proof.
  destruct (swap_protects_signer ex_swap_msg ex_pools (Swap ex_swap_msg ex_pools).1 tt
    ex_swap_run ex_swap_valid ltac:(outsider_tac)) as (addr & s & r & emit & Ha & Hs & Hr & Hmin & Hb).
  injection Hs as <-. injection Hr as <-. vm_compute in Ha. injection Ha as <-.
  exists emit. split; [exact Hmin|]. rewrite Hb. vm_compute. destruct emit; reflexivity.
Defined.

(** An asymmetric withdrawal can leave the module account unable to pay: there is a
    state reached by creating pools, with nothing missing, and a valid withdrawal of
    one basis point whose inner swap pays 0, after which the pools record 10^17 more of
    the native asset than the account holds.  The inner swap puts the swapped amount
    back into the pool, but the amount is not taken off the payment. *)
Example dust_withdrawal_breaks_solvency :
  exists w w', reachable w /\ ValidateBasic (RemoveLiquidityMsg ex_dust_msg) = Ok tt
    /\ Handler (RemoveLiquidityMsg ex_dust_msg) w = (w', Ok tt)
    /\ slack w NativeSymbol = 0 /\ slack w' NativeSymbol = - 10 ^ 17.
Proof.
  exists (after [ex_create_usdt; ex_create]), (after [RemoveLiquidityMsg ex_dust_msg; ex_create_usdt; ex_create]).
  split_and!; [do 2 reach_back; apply reach_start; reflexivity|vm_compute; reflexivity| |vm_compute; reflexivity..].
  apply run_ok. vm_compute. reflexivity.
Qed.
End Examples.
