(* ===== verification/ClpGenesis.v ===== *)
(** * x/clp/genesis.go: exporting and importing the module's state

    A chain is restarted from the state it exports.  The theorem here is that
    nothing is lost: importing an export gives back the exported store. *)

From Stdlib Require Import ZArith Lia Ascii String.
From stdpp Require Import base list gmap strings.
From S2P Require Import Prelude SdkMath Sdk ClpTypes ClpCalc ClpKeeper.

Section Genesis.
Context {B R : Type} `{SdkMath, SdkCoins, SdkAddressLaws, SdkQueryLaws, BankKeeper B}.
Implicit Types w : World B R.

(** A stored pool or provider is valid and sits under the key of its own fields;
    the admin list is not empty and holds printed addresses. *)
Definition wf_pool_entry (k : string) (p : Pool) : Prop :=
  exists a, ExternalAsset p = Some a /\ Asset_Validate a = Ok true /\ k = native_key (Symbol a).
Definition wf_lp_entry (k : string) (l : LiquidityProvider) : Prop :=
  exists a, LP_Asset l = Some a /\ Asset_Validate a = Ok true
    /\ k = GetLiquidityProviderKey (Symbol a) (LiquidityProviderAddress l).

Record wf_store (s : ClpStore) : Prop := {
  wf_s_pools : map_Forall wf_pool_entry (clp_pools s);
  wf_s_lps : map_Forall wf_lp_entry (clp_lps s);
  wf_s_admins : exists l, l <> [] /\ Forall (fun a => a <> "") l /\ clp_whitelist s = Some (AccAddress_String <$> l);
  wf_s_params : MinCreatePoolThreshold (clp_params s) <> 0;
  wf_s_size : Z.of_nat (size (clp_pools s)) < MaxUint64 /\ Z.of_nat (size (clp_lps s)) < MaxUint64;
}.

Lemma rmap_bech32 l :
  Forall (fun a => a <> "") l ->
  rmap (fun entry => panicOnErr (AccAddressFromBech32 entry)) (AccAddress_String <$> l) = Ok l.
Proof.
  induction 1 as [|a l Ha Hl IH]; [done|].
  rewrite fmap_cons. cbn [rmap]. rewrite AccAddress_roundtrip by done. cbn [panicOnErr rbind]. by rewrite IH.
Qed.

Lemma SetPool_run p a w :
  ExternalAsset p = Some a -> Asset_Validate a = Ok true ->
  SetPool p w = (mkWorld (set_pools <[native_key (Symbol a) := p]> (w_clp w)) (w_bank w) (w_registry w), Ok tt).
Proof.
  intros Ha Hv. unfold SetPool, Pool_Validate, mbnd, mlift, mfail_if, mret, upd_clp, mmodify.
  rewrite Ha. simpl. by rewrite Hv.
Qed.

Lemma SetLiquidityProvider_run l a w :
  LP_Asset l = Some a -> Asset_Validate a = Ok true ->
  SetLiquidityProvider l w =
    (mkWorld (set_lps <[GetLiquidityProviderKey (Symbol a) (LiquidityProviderAddress l) := l]> (w_clp w))
       (w_bank w) (w_registry w), Ok tt).
Proof.
  intros Ha Hv. unfold SetLiquidityProvider, LiquidityProvider_Validate, mbnd, mlift, upd_clp, mmodify.
  rewrite Ha. simpl. by rewrite Hv.
Qed.

Definition init_pool (pool : option Pool) : M (World B R) unit :=
  do! pool <- mlift (deref pool);
  do! r <- mtry (SetPool pool);
  match r with inl _ => mret tt | inr _ => mpanic end.
Definition init_lp (lp : option LiquidityProvider) : M (World B R) unit :=
  do! lp <- mlift (deref lp); SetLiquidityProvider lp.

Definition upd_pools (f : KV Pool -> KV Pool) w : World B R :=
  mkWorld (set_pools f (w_clp w)) (w_bank w) (w_registry w).
Definition upd_lps (f : KV LiquidityProvider -> KV LiquidityProvider) w : World B R :=
  mkWorld (set_lps f (w_clp w)) (w_bank w) (w_registry w).

(** Writing a list of entries into a map. *)
Definition insert_entries {V} (l : list (string * V)) (m : KV V) : KV V := fold_left (fun acc kv => <[kv.1 := kv.2]> acc) l m.

Lemma mfor_pools (l : list (string * Pool)) w :
  Forall (fun kv => wf_pool_entry kv.1 kv.2) l -> mfor (Some <$> l.*2) init_pool w = (upd_pools (insert_entries l) w, Ok tt).
Proof.
  intros Hl. apply (mfor_entries Some _ upd_pools wf_pool_entry); [|done| |done].
  - intros k v w' (a & Ha & Hv & ->). unfold init_pool, mbnd, mlift, mtry. simpl. by rewrite (SetPool_run v a).
  - by intros [[] ? ?].
Qed.

Lemma mfor_lps (l : list (string * LiquidityProvider)) w :
  Forall (fun kv => wf_lp_entry kv.1 kv.2) l -> mfor (Some <$> l.*2) init_lp w = (upd_lps (insert_entries l) w, Ok tt).
Proof.
  intros Hl. apply (mfor_entries Some _ upd_lps wf_lp_entry); [|done| |done].
  - intros k v w' (a & Ha & Hv & ->). unfold init_lp, mbnd, mlift. simpl. by rewrite (SetLiquidityProvider_run v a).
  - by intros [[] ? ?].
Qed.

(** Importing a genesis state of valid entries writes them all. *)
Lemma InitGenesis_run params admins pools lps w0 :
  MinCreatePoolThreshold params <> 0 -> admins <> [] -> Forall (fun a => a <> "") admins ->
  Forall (fun kv => wf_pool_entry kv.1 kv.2) pools -> Forall (fun kv => wf_lp_entry kv.1 kv.2) lps ->
  InitGenesis (mkGenesisState params (AccAddress_String <$> admins) (Some <$> pools.*2) (Some <$> lps.*2)) w0
  = (mkWorld (mkClpStore (insert_entries pools (clp_pools (w_clp w0))) (insert_entries lps (clp_lps (w_clp w0)))
                (Some (AccAddress_String <$> admins)) params) (w_bank w0) (w_registry w0), Ok tt).
Proof.
  intros Hp Hne Ha Hpools Hlps. unfold InitGenesis, SetParams, SetClpWhiteList, upd_clp, validateMinCreatePoolThreshold.
  unfold mbnd at 1. unfold mbnd at 1. simpl Gen_Params.
  rewrite (proj2 (Z.eqb_neq _ 0)) by done. simpl. unfold mbnd at 1. rewrite bool_decide_eq_false_2; [|by destruct admins].
  simpl. unfold mbnd at 1, mlift. rewrite rmap_bech32 by done. unfold mbnd at 1 2. simpl.
  unfold mbnd. change (fun pool => _) with init_pool at 1. rewrite mfor_pools by done.
  change (mfor _ _) with (mfor (Some <$> lps.*2) init_lp).
  by rewrite mfor_lps.
Qed.

Lemma ExportGenesis_run w l :
  wf_store (w_clp w) -> Forall (fun a => a <> "") l -> clp_whitelist (w_clp w) = Some (AccAddress_String <$> l) ->
  ExportGenesis w = Ok (mkGenesisState (clp_params (w_clp w)) (AccAddress_String <$> l)
    (Some <$> (kv_prefix PoolPrefix (clp_pools (w_clp w))).*2)
    (Some <$> (kv_prefix LiquidityProviderPrefix (clp_lps (w_clp w))).*2)).
Proof.
  intros Hw Hl Hwl. destruct Hw as [_ _ _ _ [Hs1 Hs2]].
  unfold ExportGenesis, GetPoolsPaginated, GetAllLiquidityProvidersPaginated, lp_entries.
  pose proof (kv_prefix_length PoolPrefix (clp_pools (w_clp w))).
  pose proof (kv_prefix_length LiquidityProviderPrefix (clp_lps (w_clp w))).
  destruct (Paginate_all _ (kv_prefix PoolPrefix (clp_pools (w_clp w))) MaxUint64) as [? ->]; [lia|].
  destruct (Paginate_all _ (kv_prefix LiquidityProviderPrefix (clp_lps (w_clp w))) MaxUint64) as [? ->]; [lia|].
  simpl. unfold GetClpWhiteList. rewrite Hwl. simpl. by rewrite rmap_bech32.
Qed.

Lemma prefix_key p s : String.prefix (String p "") (String p "" +:+ s) = true.
Proof. simpl. destruct (ascii_dec p p); [|done]. by destruct s. Qed.

(** Restarting from an export loses nothing: exporting succeeds on every
    well-formed store with fewer than 2^64 - 1 entries, and importing the export into
    an empty store gives exactly the exported pools, providers, admins and parameters,
    without touching the bank or the registry. *)
Theorem genesis_roundtrip w w0 :
  wf_store (w_clp w) -> clp_pools (w_clp w0) = ∅ -> clp_lps (w_clp w0) = ∅ ->
  exists g, ExportGenesis w = Ok g
    /\ InitGenesis g w0 = (mkWorld (w_clp w) (w_bank w0) (w_registry w0), Ok tt).
Proof.
  intros Hw Hp0 Hl0. destruct (wf_s_admins _ Hw) as (l & Hne & Hl & Hwl).
  eexists. split; [by apply ExportGenesis_run|].
  rewrite InitGenesis_run; [|apply Hw|done|done|apply kv_prefix_Forall, Hw..]. unfold insert_entries. rewrite Hp0, Hl0, !insert_kv_prefix.
  - rewrite <- Hwl. by destruct w as [[] ? ?].
  - intros k v (a & _ & _ & ->)%(wf_s_lps _ Hw). apply prefix_key.
  - intros k v (a & _ & _ & ->)%(wf_s_pools _ Hw). apply prefix_key.
Qed.
End Genesis.

Definition ex_genesis_store : ClpStore :=
  mkClpStore {[ native_key "ceth" := mkPool (Some (mkAsset "ceth")) 900 70 900 ]}
    {[ GetLiquidityProviderKey "ceth" "sif1alice" := mkLiquidityProvider (Some (mkAsset "ceth")) 900 "sif1alice" ]}
    (Some ["sif1root"]) DefaultParams.

Lemma genesis_roundtrip_witness :
  exists g, @ExportGenesis RefB unit RefAddress RefQuery (mkWorld ex_genesis_store ∅ tt) = Ok g
    /\ @InitGenesis RefB unit RefCoins RefAddress g (mkWorld (mkClpStore ∅ ∅ None DefaultParams) ∅ tt)
       = (mkWorld ex_genesis_store ∅ tt, Ok tt).
Proof.
  apply (@genesis_roundtrip RefB unit RefCoins RefAddress RefAddress_laws RefQuery RefQuery_laws
    (mkWorld ex_genesis_store ∅ tt) (mkWorld (mkClpStore ∅ ∅ None DefaultParams) ∅ tt)); [|reflexivity..].
  split; simpl.
  - apply map_Forall_singleton. eexists. split_and!; [reflexivity|vm_compute; reflexivity|reflexivity].
  - apply map_Forall_singleton. eexists. split_and!; [reflexivity|vm_compute; reflexivity|reflexivity].
  - exists ["root"]. split_and!; [discriminate| |vm_compute; reflexivity]. repeat constructor; discriminate.
  - discriminate.
  - rewrite !map_size_singleton. done.
Defined.
