(* ===== verification/Json.v ===== *)
(** * encoding/json: documents, printing and parsing

    The part of Go's [encoding/json] that the oracle and the bridge use to store
    their data.  A document is printed compactly, with the escapes that
    [json.Marshal] writes (control characters, quotes, backslashes and the HTML
    characters), and parsed with white space and every escape of the grammar.
    Text is taken to be valid UTF-8 without U+2028 and U+2029, which [Marshal]
    escapes as well.  A number keeps its literal. *)

From Stdlib Require Import ZArith Lia Ascii String.
From stdpp Require Import base list strings.
From S2P Require Import Prelude.

#[warnings="-register-all"]
Inductive Json :=
| JNull
| JBool (b : bool)
| JNumber (lit : string)
| JString (s : string)
| JArray (l : list Json)
| JObject (fields : list (string * Json)).

(** ** Printing *)

Definition hex_digit (n : nat) : ascii := ascii_of_nat (if (n <? 10)%nat then 48 + n else 87 + n).

Definition quote : ascii := "034".
Definition backslash : ascii := "092".
Definition u00 (c : ascii) (rest : string) : string :=
  String backslash (String "u" (String "0" (String "0"
    (String (hex_digit (nat_of_ascii c / 16)) (String (hex_digit (nat_of_ascii c mod 16)) rest))))).

(** The escapes of [json.Marshal], in front of [rest]. *)
Definition escape (c : ascii) (rest : string) : string :=
  if Ascii.eqb c quote || Ascii.eqb c backslash then String backslash (String c rest)
  else if Ascii.eqb c "010" then String backslash (String "n" rest)
  else if Ascii.eqb c "013" then String backslash (String "r" rest)
  else if Ascii.eqb c "009" then String backslash (String "t" rest)
  else if (nat_of_ascii c <? 32)%nat || Ascii.eqb c "<" || Ascii.eqb c ">" || Ascii.eqb c "&" then u00 c rest
  else String c rest.

Fixpoint print_chars (s : string) (rest : string) : string :=
  match s with
  | EmptyString => String quote rest
  | String c s' => escape c (print_chars s' rest)
  end.
Definition print_string (s rest : string) : string := String quote (print_chars s rest).

(** The text of [j] in front of [rest]. *)
Fixpoint print (j : Json) (rest : string) : string :=
  match j with
  | JNull => "null" +:+ rest
  | JBool true => "true" +:+ rest
  | JBool false => "false" +:+ rest
  | JNumber lit => lit +:+ rest
  | JString s => print_string s rest
  | JArray l =>
      String "[" (match l with
        | [] => String "]" rest
        | x :: l' => print x ((fix elems l := match l with
            | [] => String "]" rest
            | x :: l' => String "," (print x (elems l'))
            end) l')
        end)
  | JObject l =>
      String "{" (match l with
        | [] => String "}" rest
        | (k, x) :: l' => print_string k (String ":" (print x ((fix fields l := match l with
            | [] => String "}" rest
            | (k, x) :: l' => String "," (print_string k (String ":" (print x (fields l'))))
            end) l')))
        end)
  end.

Definition json_print (j : Json) : string := print j "".

(** ** Parsing *)

Definition hex_val (c : ascii) : option nat :=
  let n := nat_of_ascii c in
  if (48 <=? n)%nat && (n <=? 57)%nat then Some (n - 48)%nat
  else if (97 <=? n)%nat && (n <=? 102)%nat then Some (n - 87)%nat
  else if (65 <=? n)%nat && (n <=? 70)%nat then Some (n - 55)%nat
  else None.

Definition hex4 (a b c d : ascii) : option Z :=
  match hex_val a, hex_val b, hex_val c, hex_val d with
  | Some a, Some b, Some c, Some d =>
      Some (((Z.of_nat a * 16 + Z.of_nat b) * 16 + Z.of_nat c) * 16 + Z.of_nat d)
  | _, _, _, _ => None
  end.

Definition zbyte (z : Z) : ascii := ascii_of_nat (Z.to_nat z).

(** The UTF-8 bytes of a code point, in front of [rest]. *)
Definition utf8 (z : Z) (rest : string) : string :=
  if z <? 128 then String (zbyte z) rest
  else if z <? 2048 then String (zbyte (192 + z / 64)) (String (zbyte (128 + z mod 64)) rest)
  else if z <? 65536 then
    String (zbyte (224 + z / 4096)) (String (zbyte (128 + z / 64 mod 64)) (String (zbyte (128 + z mod 64)) rest))
  else String (zbyte (240 + z / 262144)) (String (zbyte (128 + z / 4096 mod 64))
         (String (zbyte (128 + z / 64 mod 64)) (String (zbyte (128 + z mod 64)) rest))).

Definition replacement_char : Z := 65533.
Definition is_surrogate (z : Z) : bool := (55296 <=? z) && (z <? 57344).
Definition surrogate_pair (hi lo : Z) : option Z :=
  if (hi <? 56320) && (56320 <=? lo) && (lo <? 57344) then Some ((hi - 55296) * 1024 + (lo - 56320) + 65536) else None.

Definition simple_escape (c : ascii) : option ascii :=
  if Ascii.eqb c quote || Ascii.eqb c backslash || Ascii.eqb c "/" then Some c
  else if Ascii.eqb c "b" then Some "008"%char
  else if Ascii.eqb c "f" then Some "012"%char
  else if Ascii.eqb c "n" then Some "010"%char
  else if Ascii.eqb c "r" then Some "013"%char
  else if Ascii.eqb c "t" then Some "009"%char
  else None.

Definition push (f : string -> string) (r : option (string * string)) : option (string * string) :=
  match r with Some (s, rest) => Some (f s, rest) | None => None end.

(** The characters up to the closing quote, and what follows it.  A surrogate that
    is not part of a pair becomes U+FFFD. *)
Fixpoint parse_chars (s : string) : option (string * string) :=
  match s with
  | EmptyString => None
  | String c r =>
      if Ascii.eqb c quote then Some ("", r)
      else if Ascii.eqb c backslash then
        match r with
        | String "u" (String a (String b (String c (String d r')))) =>
            match hex4 a b c d with
            | None => None
            | Some z =>
                if is_surrogate z then
                  match r' with
                  | String x (String "u" (String a' (String b' (String c' (String d' r''))))) =>
                      match Ascii.eqb x backslash, hex4 a' b' c' d' with
                      | true, Some z' =>
                          match surrogate_pair z z' with
                          | Some p => push (utf8 p) (parse_chars r'')
                          | None => push (utf8 replacement_char) (parse_chars r')
                          end
                      | _, _ => push (utf8 replacement_char) (parse_chars r')
                      end
                  | _ => push (utf8 replacement_char) (parse_chars r')
                  end
                else push (utf8 z) (parse_chars r')
            end
        | String e r' =>
            match simple_escape e with
            | Some c' => push (String c') (parse_chars r')
            | None => None
            end
        | EmptyString => None
        end
      else if (nat_of_ascii c <? 32)%nat then None
      else push (String c) (parse_chars r)
  end.

Definition is_ws (c : ascii) : bool :=
  Ascii.eqb c " " || Ascii.eqb c "009" || Ascii.eqb c "010" || Ascii.eqb c "013".
Fixpoint skip_ws (s : string) : string :=
  match s with String c r => if is_ws c then skip_ws r else s | EmptyString => s end.

Definition is_digit (c : ascii) : bool := match digit_val c with Some _ => true | None => false end.
(** The longest prefix of digits, and the rest. *)
Fixpoint span_digits (s : string) : string * string :=
  match s with
  | String c r => if is_digit c then let '(d, rest) := span_digits r in (String c d, rest) else ("", s)
  | EmptyString => ("", "")
  end.

(** The integer part, the fraction and the exponent of a number:
    [-? (0 | [1-9][0-9]* ) (. [0-9]+)? ([eE] [+-]? [0-9]+)?] *)
Definition number_int (s : string) : option (string * string) :=
  match s with
  | String "0" r => Some ("0", r)
  | _ => let '(d, r) := span_digits s in if String.eqb d "" then None else Some (d, r)
  end.
Definition number_frac (s : string) : option (string * string) :=
  match s with
  | String "." r => let '(d, rest) := span_digits r in
                    if String.eqb d "" then None else Some ("." +:+ d, rest)
  | _ => Some ("", s)
  end.
Definition number_exp (s : string) : option (string * string) :=
  match s with
  | String e r =>
      if Ascii.eqb e "e" || Ascii.eqb e "E" then
        let '(sg, r') := match r with
                         | String "+" r' => ("+", r')
                         | String "-" r' => ("-", r')
                         | _ => ("", r)
                         end in
        let '(d, rest) := span_digits r' in
        if String.eqb d "" then None else Some (String e (sg +:+ d), rest)
      else Some ("", s)
  | EmptyString => Some ("", s)
  end.
Definition parse_unsigned (s : string) : option (string * string) :=
  match number_int s with
  | None => None
  | Some (i, s) => push (String.append i)
      match number_frac s with
      | None => None
      | Some (f, s) => push (String.append f) (number_exp s)
      end
  end.
Definition parse_number (s : string) : option (string * string) :=
  match s with
  | String "-" r => push (String "-") (parse_unsigned r)
  | _ => parse_unsigned s
  end.

Definition keyword (k : string) (j : Json) (s : string) : option (Json * string) :=
  if String.prefix k s then Some (j, str_drop (String.length k) s) else None.

(** One value and what follows it; the fuel bounds the nesting and the number of
    elements, which are at most the length of the text. *)
Fixpoint parse_value (fuel : nat) (s : string) : option (Json * string) :=
  match fuel with
  | O => None
  | S f =>
      match skip_ws s with
      | EmptyString => None
      | String c r =>
          if Ascii.eqb c quote then
            match parse_chars r with Some (t, rest) => Some (JString t, rest) | None => None end
          else if Ascii.eqb c "[" then
            match skip_ws r with
            | String "]" rest => Some (JArray [], rest)
            | _ => match parse_value f r with
                   | Some (x, rest) => match parse_elems f rest with
                                       | Some (l, rest) => Some (JArray (x :: l), rest)
                                       | None => None
                                       end
                   | None => None
                   end
            end
          else if Ascii.eqb c "{" then
            match skip_ws r with
            | String "}" rest => Some (JObject [], rest)
            | _ => match parse_field f r with
                   | Some (kx, rest) => match parse_fields f rest with
                                        | Some (l, rest) => Some (JObject (kx :: l), rest)
                                        | None => None
                                        end
                   | None => None
                   end
            end
          else if Ascii.eqb c "n" then keyword "null" JNull (String c r)
          else if Ascii.eqb c "t" then keyword "true" (JBool true) (String c r)
          else if Ascii.eqb c "f" then keyword "false" (JBool false) (String c r)
          else match parse_number (String c r) with
               | Some (lit, rest) => Some (JNumber lit, rest)
               | None => None
               end
      end
  end
with parse_elems (fuel : nat) (s : string) : option (list Json * string) :=
  match fuel with
  | O => None
  | S f =>
      match skip_ws s with
      | String "]" rest => Some ([], rest)
      | String "," r => match parse_value f r with
                        | Some (x, rest) => match parse_elems f rest with
                                            | Some (l, rest) => Some (x :: l, rest)
                                            | None => None
                                            end
                        | None => None
                        end
      | _ => None
      end
  end
with parse_field (fuel : nat) (s : string) : option ((string * Json) * string) :=
  match fuel with
  | O => None
  | S f =>
      match skip_ws s with
      | String q r =>
          if Ascii.eqb q quote then
            match parse_chars r with
            | Some (k, rest) =>
                match skip_ws rest with
                | String ":" rest => match parse_value f rest with
                                     | Some (x, rest) => Some ((k, x), rest)
                                     | None => None
                                     end
                | _ => None
                end
            | None => None
            end
          else None
      | EmptyString => None
      end
  end
with parse_fields (fuel : nat) (s : string) : option (list (string * Json) * string) :=
  match fuel with
  | O => None
  | S f =>
      match skip_ws s with
      | String "}" rest => Some ([], rest)
      | String "," r => match parse_field f r with
                        | Some (kx, rest) => match parse_fields f rest with
                                             | Some (l, rest) => Some (kx :: l, rest)
                                             | None => None
                                             end
                        | None => None
                        end
      | _ => None
      end
  end.

(** A whole document: one value and nothing but white space after it. *)
Definition json_parse (s : string) : option Json :=
  match parse_value (2 * String.length s + 2) s with
  | Some (j, rest) => if String.eqb (skip_ws rest) "" then Some j else None
  | None => None
  end.

(** ** Decoding into Go values; [null] leaves the zero value *)

Definition json_error : GoError := PlainErr "json".
Definition json_string (j : Json) : res string :=
  match j with JString s => Ok s | JNull => Ok "" | _ => Err json_error end.
Definition json_list {A} (dec : Json -> res A) (j : Json) : res (list A) :=
  match j with JArray l => rmap dec l | JNull => Ok [] | _ => Err json_error end.

(** ** Numbers read back *)

Fixpoint all_digits (s : string) : bool :=
  match s with EmptyString => true | String c r => is_digit c && all_digits r end.

(** What may follow a number without being read as part of it. *)
Definition stops (rest : string) : bool :=
  match rest with
  | EmptyString => true
  | String c _ => negb (is_digit c || Ascii.eqb c "." || Ascii.eqb c "e" || Ascii.eqb c "E")
  end.

Lemma is_digit_digit d : 0 <= d < 10 -> is_digit (digit d) = true.
Proof. intros Hd. unfold is_digit. by rewrite digit_val_digit. Qed.

Lemma span_digits_app ds rest : all_digits ds = true -> stops rest = true -> span_digits (ds +:+ rest) = (ds, rest).
Proof.
  intros Hd Hs. induction ds as [|c ds IH].
  - destruct rest as [|c rest]; [done|]. simpl in *. by destruct (is_digit c).
  - change (String c ds +:+ rest) with (String c (ds +:+ rest)). simpl in Hd |- *.
    apply andb_prop in Hd as [-> Hd]. by rewrite IH.
Qed.

Lemma all_digits_app s t : all_digits s = true -> all_digits t = true -> all_digits (s +:+ t) = true.
Proof. induction s as [|c s IH]; [done|]. simpl. intros [-> Hs]%andb_prop Ht. by apply IH. Qed.

Lemma dec_digits_head fuel n acc :
  0 < n < 2 ^ Z.of_nat fuel -> all_digits acc = true ->
  exists d ds, dec_digits fuel n acc = String (digit d) ds /\ 0 < d < 10 /\ all_digits ds = true.
Proof.
  revert n acc; induction fuel as [|f IH]; intros n acc Hn Ha.
  - change (2 ^ Z.of_nat 0) with 1 in Hn. lia.
  - rewrite Nat2Z.inj_succ, Z.pow_succ_r in Hn by lia. cbn [dec_digits].
    pose proof (Z.mod_pos_bound n 10 ltac:(lia)) as Hm. destruct (Z.ltb_spec n 10).
    + exists (n mod 10), acc. rewrite Z.mod_small by lia. split_and!; (done || lia).
    + apply IH; [split; [apply Z.div_str_pos; lia|apply Z.div_lt_upper_bound; lia]|].
      cbn [all_digits]. by rewrite is_digit_digit.
Qed.

Lemma nonneg_String_shape n :
  0 <= n -> nonneg_String n = "0" \/ exists d ds, nonneg_String n = String (digit d) ds /\ 0 < d < 10 /\ all_digits ds = true.
Proof.
  intros Hn. destruct (Z.eq_dec n 0) as [->|Hz]; [by left|right]. unfold nonneg_String.
  apply dec_digits_head; [|done]. split; [lia|]. pose proof (nonneg_fuel n Hn). lia.
Qed.

Lemma digit_cases d : 0 < d < 10 ->
  d = 1 \/ d = 2 \/ d = 3 \/ d = 4 \/ d = 5 \/ d = 6 \/ d = 7 \/ d = 8 \/ d = 9.
Proof. lia. Qed.

Lemma app_cons c s t : String c s +:+ t = String c (s +:+ t).
Proof. done. Qed.

Lemma string_app_assoc (a b c : string) : (a +:+ b) +:+ c = a +:+ b +:+ c.
Proof. induction a as [|x a IH]; [done|]. by rewrite !app_cons, IH. Qed.
Lemma append_nil_r s : s +:+ "" = s.
Proof. induction s as [|c s IH]; [done|]. by rewrite app_cons, IH. Qed.

Lemma number_frac_stops rest : stops rest = true -> number_frac rest = Some ("", rest).
Proof. destruct rest as [|[[] [] [] [] [] [] [] []] r]; done. Qed.
Lemma number_exp_stops rest : stops rest = true -> number_exp rest = Some ("", rest).
Proof. destruct rest as [|[[] [] [] [] [] [] [] []] r]; done. Qed.

Lemma parse_unsigned_String n rest :
  0 <= n -> stops rest = true -> parse_unsigned (nonneg_String n +:+ rest) = Some (nonneg_String n, rest).
Proof.
  intros Hn Hs. assert (number_int (nonneg_String n +:+ rest) = Some (nonneg_String n, rest)) as Hi.
  { destruct (nonneg_String_shape n Hn) as [->|(d & ds & -> & Hd & Hds)]; [done|]. rewrite app_cons.
    pose proof (span_digits_app (String (digit d) ds) rest) as Hsp. rewrite app_cons in Hsp.
    unfold number_int. rewrite Hsp; [|cbn [all_digits]; by rewrite is_digit_digit by lia|done].
    by destruct (digit_cases d Hd) as [->|[->|[->|[->|[->|[->|[->|[->| ->]]]]]]]]. }
  unfold parse_unsigned. rewrite Hi, number_frac_stops, number_exp_stops by done. cbn [push].
  change ("" +:+ "") with "". by rewrite append_nil_r.
Qed.

Lemma parse_number_String z rest :
  stops rest = true -> parse_number (big_String z +:+ rest) = Some (big_String z, rest).
Proof.
  intros Hs. unfold big_String. destruct (Z.ltb_spec z 0).
  - change ("-" +:+ nonneg_String (- z)) with (String "-" (nonneg_String (- z))). rewrite app_cons. unfold parse_number.
    by rewrite parse_unsigned_String by (done || lia).
  - pose proof (parse_unsigned_String z rest ltac:(lia) Hs) as Hp.
    destruct (nonneg_String_shape z ltac:(lia)) as [E|(d & ds & E & Hd & Hds)]; rewrite E in *; [done|].
    rewrite app_cons in *. unfold parse_number. rewrite Hp.
    by destruct (digit_cases d Hd) as [->|[->|[->|[->|[->|[->|[->|[->| ->]]]]]]]].
Qed.

Lemma big_String_cons z : exists c r, big_String z = String c r
  /\ (c = "-"%char \/ exists d, 0 <= d < 10 /\ c = digit d).
Proof.
  unfold big_String. destruct (Z.ltb_spec z 0); [by eexists _, _; split; [|left]|].
  destruct (nonneg_String_shape z ltac:(lia)) as [->|(d & ds & -> & Hd & _)]; eexists _, _; (split; [done|right]).
  - by exists 0.
  - exists d. split; [lia|done].
Qed.

Lemma big_SetString_String z : big_SetString (big_String z) = Some z.
Proof.
  rewrite <- (parse_big_String z). unfold big_SetString. destruct (big_String_cons z) as (c & r & -> & [->|(d & Hd & ->)]); [done|].
  assert (d = 0 \/ 0 < d < 10) as [->|Hp] by lia; [done|].
  by destruct (digit_cases d Hp) as [->|[->|[->|[->|[->|[->|[->|[->| ->]]]]]]]].
Qed.

Lemma Atoi_String z : - 2 ^ 63 <= z < 2 ^ 63 -> Atoi (big_String z) = Ok z.
Proof.
  intros [Hl Hu]. unfold Atoi. rewrite big_SetString_String. by rewrite (proj2 (Z.leb_le _ _) Hl), (proj2 (Z.ltb_lt _ _) Hu).
Qed.

Lemma all_digits_String z : 0 <= z -> all_digits (big_String z) = true.
Proof.
  intros Hz. unfold big_String. rewrite (proj2 (Z.ltb_ge z 0) Hz).
  destruct (nonneg_String_shape z Hz) as [->|(d & ds & -> & Hd & Hds)]; [done|]. cbn [all_digits]. by rewrite is_digit_digit by lia.
Qed.

(** ** Strings read back *)

Lemma parse_escape c s rest r :
  parse_chars s = Some (rest, r) -> parse_chars (escape c s) = Some (String c rest, r).
Proof. intros Hs. destruct c as [[] [] [] [] [] [] [] []]; simpl; by rewrite Hs. Qed.

Lemma parse_print_chars s rest : parse_chars (print_chars s rest) = Some (s, rest).
Proof. induction s as [|c s IH]; [done|]. cbn [print_chars]. by apply parse_escape. Qed.

(** ** Documents read back *)

(** The induction principle for documents. *)
Section Induction.
Variable P : Json -> Prop.
Hypothesis Pnull : P JNull.
Hypothesis Pbool : forall b, P (JBool b).
Hypothesis Pnumber : forall lit, P (JNumber lit).
Hypothesis Pstring : forall s, P (JString s).
Hypothesis Parray : forall l, Forall P l -> P (JArray l).
Hypothesis Pobject : forall l, Forall (fun kx => P kx.2) l -> P (JObject l).

Lemma Json_nested_ind : forall j, P j.
Proof.
  fix IH 1. intros [|b|lit|s|l|l]; [exact Pnull|exact (Pbool b)|exact (Pnumber lit)|exact (Pstring s)| |].
  - apply Parray. induction l as [|x l IHl]; constructor; [apply IH|exact IHl].
  - apply Pobject. induction l as [|[k x] l IHl]; constructor; [apply IH|exact IHl].
Qed.
End Induction.

(** Every number is an integer literal, as [Marshal] writes Go's integers. *)
Fixpoint integers (j : Json) : Prop :=
  match j with
  | JNumber lit => exists z, lit = big_String z
  | JArray l => foldr (fun x acc => integers x /\ acc) True l
  | JObject l => foldr (fun kx acc => integers kx.2 /\ acc) True l
  | _ => True
  end.

(** Enough fuel for a document. *)
Fixpoint size (j : Json) : nat :=
  match j with
  | JArray l => S (foldr (fun x acc => S (size x + acc))%nat O l)
  | JObject l => S (foldr (fun kx acc => S (S (size kx.2 + acc)))%nat O l)
  | _ => 1%nat
  end.
Abbreviation elems_size l := (foldr (fun x acc => S (size x + acc))%nat O l).
Abbreviation fields_size l := (foldr (fun kx acc => S (S (size kx.2 + acc)))%nat O l).

Fixpoint print_elems (l : list Json) (rest : string) : string :=
  match l with
  | [] => String "]" rest
  | x :: l' => String "," (print x (print_elems l' rest))
  end.
Fixpoint print_fields (l : list (string * Json)) (rest : string) : string :=
  match l with
  | [] => String "}" rest
  | (k, x) :: l' => String "," (print_string k (String ":" (print x (print_fields l' rest))))
  end.

Lemma print_array x l rest : print (JArray (x :: l)) rest = String "[" (print x (print_elems l rest)).
Proof. simpl. do 2 f_equal. induction l as [|y l IH]; [done|]. simpl. by rewrite IH. Qed.
Lemma print_object k x l rest :
  print (JObject ((k, x) :: l)) rest = String "{" (print_string k (String ":" (print x (print_fields l rest)))).
Proof. simpl. do 4 f_equal. induction l as [|[k' y] l IH]; [done|]. simpl. by rewrite IH. Qed.

(** A value never starts with white space or a closing bracket. *)
Lemma print_head j rest : integers j -> exists c r, print j rest = String c r
  /\ skip_ws (String c r) = String c r /\ c <> "]"%char /\ c <> "}"%char.
Proof.
  intros Hj. destruct j as [|[]|lit|s|[|x l]|[|[k x] l]]; try (eexists _, _; by split_and!).
  destruct Hj as [z ->]. destruct (big_String_cons z) as (c & r & -> & Hc). cbn [print]. rewrite app_cons.
  eexists _, _. split; [done|]. destruct Hc as [->|(d & Hd & ->)]; [by split_and!|].
  destruct (Z.eq_dec d 0) as [->|]; [by split_and!|].
  by destruct (digit_cases d ltac:(lia)) as [->|[->|[->|[->|[->|[->|[->|[->| ->]]]]]]]]; split_and!.
Qed.

Lemma stops_elems l rest : stops (print_elems l rest) = true.
Proof. by destruct l. Qed.
Lemma stops_fields l rest : stops (print_fields l rest) = true.
Proof. by destruct l as [|[]]. Qed.

Lemma parse_elems_print l rest f :
  Forall (fun j => forall rest f, (size j <= f)%nat -> integers j -> stops rest = true ->
            parse_value f (print j rest) = Some (j, rest)) l ->
  foldr (fun x acc => integers x /\ acc) True l -> (S (elems_size l) <= f)%nat ->
  parse_elems f (print_elems l rest) = Some (l, rest).
Proof.
  intros Hl. revert f. induction Hl as [|x l Hx Hl IH]; intros [|f] Hi Hf; simpl in Hi, Hf; try lia; [done|].
  destruct Hi as [Hix Hil]. cbn [print_elems parse_elems skip_ws is_ws Ascii.eqb Bool.eqb orb].
  rewrite Hx by (done || lia || apply stops_elems). rewrite IH by (done || lia). done.
Qed.

Lemma parse_field_print f k s :
  parse_field (S f) (print_string k (String ":" s))
  = match parse_value f s with Some (x, rest) => Some ((k, x), rest) | None => None end.
Proof. unfold print_string. cbn [parse_field skip_ws is_ws Ascii.eqb Bool.eqb orb quote]. by rewrite parse_print_chars. Qed.

Lemma parse_fields_comma f r :
  parse_fields (S f) (String "," r)
  = match parse_field f r with
    | Some (kx, rest) => match parse_fields f rest with Some (l, rest) => Some (kx :: l, rest) | None => None end
    | None => None
    end.
Proof. done. Qed.

Lemma parse_fields_print l rest f :
  Forall (fun kx => forall rest f, (size kx.2 <= f)%nat -> integers kx.2 -> stops rest = true ->
            parse_value f (print kx.2 rest) = Some (kx.2, rest)) l ->
  foldr (fun kx acc => integers kx.2 /\ acc) True l -> (S (fields_size l) <= f)%nat ->
  parse_fields f (print_fields l rest) = Some (l, rest).
Proof.
  intros Hl. revert f. induction Hl as [|[k x] l Hx Hl IH]; intros [|f] Hi Hf; simpl in Hi, Hf; try lia; [done|].
  destruct Hi as [Hix Hil]. destruct f as [|f]; [lia|].
  cbn [print_fields]. rewrite parse_fields_comma, parse_field_print.
  rewrite Hx by (done || (simpl; lia) || apply stops_fields). by rewrite IH by (done || lia).
Qed.

Lemma parse_value_object f k s :
  parse_value (S f) (String "{" (print_string k s))
  = match parse_field f (print_string k s) with
    | Some (kx, rest) => match parse_fields f rest with
                         | Some (l, rest) => Some (JObject (kx :: l), rest)
                         | None => None
                         end
    | None => None
    end.
Proof. done. Qed.

Definition number_start (c : ascii) : bool := is_digit c || Ascii.eqb c "-".
Lemma parse_value_number f c r :
  number_start c = true ->
  parse_value (S f) (String c r)
  = match parse_number (String c r) with Some (lit, rest) => Some (JNumber lit, rest) | None => None end.
Proof. by destruct c as [[] [] [] [] [] [] [] []]. Qed.

Lemma parse_value_print j rest f :
  (size j <= f)%nat -> integers j -> stops rest = true -> parse_value f (print j rest) = Some (j, rest).
Proof.
  revert rest f. induction j as [|b|lit|s|l IH|l IH] using Json_nested_ind; intros rest [|f] Hf Hi Hs; simpl in Hf; try lia.
  - by destruct rest.
  - by destruct b, rest.
  - destruct Hi as [z ->]. pose proof (parse_number_String z rest Hs) as Hp. cbn [print].
    destruct (big_String_cons z) as (c & r & E & Hc). rewrite E in *. rewrite app_cons in *.
    rewrite parse_value_number, Hp; [done|]. destruct Hc as [->|(d & Hd & ->)]; [done|].
    unfold number_start. by rewrite is_digit_digit.
  - cbn [print parse_value]. unfold print_string. cbn [skip_ws is_ws Ascii.eqb Bool.eqb orb quote].
    by rewrite parse_print_chars.
  - destruct l as [|x l]; [done|]. rewrite print_array. inversion IH as [|? ? Hx Hl]; subst. destruct Hi as [Hix Hil].
    destruct (print_head x (print_elems l rest) Hix) as (c & r & E & Hw & Hc & _).
    cbn [parse_value skip_ws is_ws Ascii.eqb Bool.eqb orb quote]. pose proof (Hx (print_elems l rest) f) as Hp.
    rewrite E in *. rewrite Hw. simpl in Hf. rewrite Hp by (done || lia || apply stops_elems).
    rewrite parse_elems_print by (done || lia). by destruct c as [[] [] [] [] [] [] [] []].
  - destruct l as [|[k x] l]; [done|]. rewrite print_object. inversion IH as [|? ? Hx Hl]; subst. destruct Hi as [Hix Hil].
    simpl in Hf. destruct f as [|f]; [lia|]. rewrite parse_value_object, parse_field_print.
    rewrite Hx by (done || (simpl; lia) || apply stops_fields).
    by rewrite parse_fields_print by (done || lia).
Qed.

Lemma print_string_length k rest : (2 + String.length rest <= String.length (print_string k rest))%nat.
Proof.
  unfold print_string. cbn [String.length]. enough (1 + String.length rest <= String.length (print_chars k rest))%nat by lia.
  induction k as [|c k IH]; simpl; [lia|]. assert (forall s, String.length s < String.length (escape c s))%nat as He.
  { intros s. by destruct c as [[] [] [] [] [] [] [] []]; simpl; lia. }
  specialize (He (print_chars k rest)). lia.
Qed.

(** The fuel of [json_parse] is enough for every printed document. *)
Lemma print_length j rest : integers j -> (size j + String.length rest <= String.length (print j rest))%nat.
Proof.
  revert rest. induction j as [|b|lit|s|l IH|l IH] using Json_nested_ind; intros rest Hi.
  - cbn [print]. rewrite string_length_app. simpl. lia.
  - destruct b; cbn [print]; rewrite string_length_app; simpl; lia.
  - destruct Hi as [z ->]. destruct (big_String_cons z) as (c & r & -> & _). cbn [print]. rewrite string_length_app. simpl. lia.
  - cbn [print]. pose proof (print_string_length s rest). cbn [size]. lia.
  - destruct l as [|x l]; [simpl; lia|]. rewrite print_array. inversion IH as [|? ? Hx Hl]; subst. destruct Hi as [Hix Hil].
    assert (S (elems_size l) + String.length rest <= String.length (print_elems l rest))%nat as He.
    { clear Hix Hx IH. induction Hl as [|y l Hy Hl IHl]; [simpl; lia|]. destruct Hil as [Hiy Hil].
      cbn [print_elems String.length]. specialize (IHl Hil). specialize (Hy (print_elems l rest) Hiy). simpl. lia. }
    cbn [String.length]. specialize (Hx (print_elems l rest) Hix). simpl in *. lia.
  - destruct l as [|[k x] l]; [simpl; lia|]. rewrite print_object. inversion IH as [|? ? Hx Hl]; subst. destruct Hi as [Hix Hil].
    assert (S (fields_size l) + String.length rest <= String.length (print_fields l rest))%nat as He.
    { clear Hix Hx IH. induction Hl as [|[k' y] l Hy Hl IHl]; [simpl; lia|]. destruct Hil as [Hiy Hil].
      cbn [print_fields String.length]. specialize (IHl Hil). specialize (Hy (print_fields l rest) Hiy).
      pose proof (print_string_length k' (String ":" (print y (print_fields l rest)))) as Hk. simpl in *. lia. }
    specialize (Hx (print_fields l rest) Hix).
    pose proof (print_string_length k (String ":" (print x (print_fields l rest)))) as Hk. simpl in *. lia.
Qed.

(** What [json.Marshal] writes, [json.Unmarshal] reads back. *)
Lemma json_parse_print j : integers j -> json_parse (json_print j) = Some j.
Proof.
  intros Hi. unfold json_parse, json_print. pose proof (print_length j "" Hi) as Hl. simpl in Hl.
  by rewrite parse_value_print by (done || lia).
Qed.

Lemma json_print_inj j1 j2 : integers j1 -> integers j2 -> json_print j1 = json_print j2 -> j1 = j2.
Proof. intros H1 H2 E. apply (f_equal json_parse) in E. rewrite !json_parse_print in E by done. congruence. Qed.
