(* ===== verification/Oracle.v ===== *)
(** * x/oracle: prophecies decided by validator claims

    Validators make claims on a prophecy; when the power behind one claim reaches
    the needed share of the whitelisted power the prophecy succeeds, and when no
    claim can reach it any more the prophecy fails.

    Go's [range] over a map visits the entries in an order the runtime chooses:
    [MapOrder] is that choice, and the theorems say what does not depend on it.
    Powers are [int64]; ratios are [float64], as the [spec_float]s of the Standard
    Library.  The two vote tables of a prophecy are stored as JSON text. *)

From Stdlib Require Import ZArith Lia Ascii String SpecFloat.
From stdpp Require Import base list gmap strings.
From S2P Require Import Prelude SdkMath Sdk Json.

Module Oracle.

(** ** float64 *)

Definition float64 := spec_float.
Definition float64_of_int64 (z : Z) : float64 :=
  match z with
  | Z0 => S754_zero false
  | Zpos p => binary_normalize 53 1024 (Zpos p) 0 false
  | Zneg p => binary_normalize 53 1024 (Zneg p) 0 true
  end.
Definition fdiv (x y : float64) : float64 := SFdiv 53 1024 x y.
Definition fge (x y : float64) : bool :=
  match SFcompare x y with Some Gt | Some Eq => true | _ => false end.
Definition fle (x y : float64) : bool :=
  match SFcompare x y with Some Lt | Some Eq => true | _ => false end.
Definition flt (x y : float64) : bool :=
  match SFcompare x y with Some Lt => true | _ => false end.

(** The double nearest to 0.7. *)
Definition DefaultConsensusNeeded : float64 := S754_finite false 6305039478318694 (-53).

(** ** Data *)

Inductive StatusText :=
| STATUS_TEXT_UNSPECIFIED
| STATUS_TEXT_PENDING
| STATUS_TEXT_SUCCESS
| STATUS_TEXT_FAILED.

#[export] Instance StatusText_eq_dec : EqDecision StatusText.
Proof. solve_decision. Defined.

Record Status := mkStatus { Text : StatusText; FinalClaim : string }.

#[export] Instance Status_eq_dec : EqDecision Status.
Proof. solve_decision. Defined.

Record Claim := mkClaim { Claim_Id : string; ValidatorAddress : string; Content : string }.

(** A Go map; [None] is the nil map. *)
Abbreviation GoMap V := (option (KV V)).
Definition go_lookup {V} (zero : V) (m : GoMap V) (k : string) : V :=
  match m with Some m => default zero (m !! k) | None => zero end.
Definition go_store {V} (m : GoMap V) (k : string) (v : V) : res (GoMap V) :=
  match m with Some m => Ok (Some (<[k := v]> m)) | None => Panic end.

Record Prophecy := mkProphecy {
  ID : string;
  PStatus : Status;
  ClaimValidators : GoMap (list string);
  ValidatorClaims : GoMap string;
}.

Record DBProphecy := mkDBProphecy {
  DB_Id : string;
  DB_Status : Status;
  DB_ClaimValidators : string;
  DB_ValidatorClaims : string;
}.

Record GenesisState := mkGenesisState {
  AddressWhitelist : option (list string);
  AdminAddress : string;
  Prophecies : list DBProphecy;
}.

Definition oracle_err (code : Z) : GoError := RegisteredErr "oracle" code.
Definition ErrMinimumConsensusNeededInvalid := oracle_err 2.
Definition ErrInvalidIdentifier := oracle_err 4.
Definition ErrProphecyFinalized := oracle_err 5.
Definition ErrDuplicateMessage := oracle_err 6.
Definition ErrInvalidClaim := oracle_err 7.
Definition ErrInvalidValidator := oracle_err 8.
Definition ErrInternalDB := oracle_err 9.
Definition ErrValidatorNotInWhiteList := oracle_err 10.
Definition ErrNotAdminAccount := oracle_err 11.
Definition ErrInvalidOperationType := oracle_err 12.

Definition NewClaim (id validatorAddress content : string) : Claim := mkClaim id validatorAddress content.
Definition NewStatus (text : StatusText) (finalClaim : string) : Status := mkStatus text finalClaim.
Definition NewProphecy (id : string) : Prophecy :=
  mkProphecy id (NewStatus STATUS_TEXT_PENDING "") (Some ∅) (Some ∅).

(** ** Services *)

(** The staking module: its state [S] and its validators [V]. *)
Class StakingKeeper (S V : Type) := {
  GetValidator : S -> string -> option V;
  GetBondedValidatorsByPower : S -> list V;
  IsBonded : V -> bool;
  OperatorAddress : V -> string;
  GetOperator : V -> string;
  GetConsensusPower : V -> Z;
}.

(** Powers are not negative, their sum fits in an [int64], and no validator is listed twice. *)
Class StakingLaws (S V : Type) `{StakingKeeper S V} : Prop := {
  GetConsensusPower_nonneg v : 0 <= GetConsensusPower v;
  bonded_power_bound st : foldr (fun v acc => GetConsensusPower v + acc) 0 (GetBondedValidatorsByPower st) < 2 ^ 63;
  bonded_distinct st : NoDup (OperatorAddress <$> GetBondedValidatorsByPower st);
}.

Class MapOrder := { map_range : forall V : Type, KV V -> list (string * V) }.
Arguments map_range {_ _} _.
Class MapOrderLaws `{MapOrder} : Prop := {
  map_range_perm V (m : KV V) : map_range m ≡ₚ map_to_list m;
}.
Definition RefOrder : MapOrder := {| map_range V m := map_to_list m |}.
Lemma RefOrder_laws : @MapOrderLaws RefOrder.
Proof. by split. Qed.

(** ** Serialization *)

(** [json.Marshal] of a map: [null] for nil, and the keys in ascending order. *)
Definition json_map {V} (enc : V -> Json) (m : GoMap V) : Json :=
  match m with
  | None => JNull
  | Some m => JObject ((fun kv => (kv.1, enc kv.2)) <$> kv_prefix "" m)
  end.

(** [json.Unmarshal] into a map: the last of two equal keys wins. *)
Fixpoint json_fields {V} (dec : Json -> res V) (l : list (string * Json)) (acc : KV V) : res (KV V) :=
  match l with
  | [] => Ok acc
  | (k, j) :: l' => let! v := dec j in json_fields dec l' (<[k := v]> acc)
  end.
Definition json_unmarshal_map {V} (dec : Json -> res V) (text : string) : res (GoMap V) :=
  match json_parse text with
  | Some JNull => Ok None
  | Some (JObject l) => let! m := json_fields dec l ∅ in Ok (Some m)
  | _ => Err json_error
  end.

Section Model.
Context `{SdkAddress}.

(** [ValAddress.UnmarshalJSON]. *)
Definition json_address (j : Json) : res string :=
  let! s := json_string j in if String.eqb s "" then Ok "" else ValAddressFromBech32 s.

Definition SerializeForDB (prophecy : Prophecy) : res DBProphecy :=
  Ok (mkDBProphecy (ID prophecy) (PStatus prophecy)
    (json_print (json_map (fun vs => JArray ((fun a => JString (ValAddress_String a)) <$> vs)) (ClaimValidators prophecy)))
    (json_print (json_map JString (ValidatorClaims prophecy)))).

Definition DeserializeFromDB (db : DBProphecy) : res Prophecy :=
  let! claimValidators := json_unmarshal_map (json_list json_address) (DB_ClaimValidators db) in
  let! validatorClaims := json_unmarshal_map json_string (DB_ValidatorClaims db) in
  Ok (mkProphecy (DB_Id db) (DB_Status db) claimValidators validatorClaims).

(** ** Claims on a prophecy *)

Definition AddClaim (prophecy : Prophecy) (validator claim : string) : res Prophecy :=
  let claimValidators := go_lookup [] (ClaimValidators prophecy) claim in
  let! cv := go_store (ClaimValidators prophecy) claim (claimValidators ++ [validator]) in
  let! vc := go_store (ValidatorClaims prophecy) (ValAddress_String validator) claim in
  Ok (mkProphecy (ID prophecy) (PStatus prophecy) cv vc).

Context {S V : Type} `{StakingKeeper S V, MapOrder}.

Definition inWhiteList (validator : V) (whiteList : list string) : bool :=
  existsb (String.eqb (GetOperator validator)) whiteList.

(** The last validator with the address wins, as in a Go map. *)
Definition validatorsByAddress (validators : list V) : KV V :=
  fold_left (fun m v => <[OperatorAddress v := v]> m) validators ∅.

Definition whitelist_power (validators : list V) (whiteList : list string) : Z :=
  fold_left (fun totalPower v =>
    if inWhiteList v whiteList then i64 (totalPower + GetConsensusPower v) else totalPower) validators 0.

Definition claim_power (byAddress : KV V) (validatorAddrs : list string) : Z :=
  fold_left (fun claimPower addr =>
    match byAddress !! ValAddress_String addr with
    | Some v => i64 (claimPower + GetConsensusPower v)
    | None => claimPower
    end) validatorAddrs 0.

Definition highest_step (byAddress : KV V) (acc : string * Z * Z) (kv : string * list string) : string * Z * Z :=
  let '(highestClaim, highestClaimPower, totalClaimsPower) := acc in
  let claimPower := claim_power byAddress kv.2 in
  let totalClaimsPower := i64 (totalClaimsPower + claimPower) in
  if highestClaimPower <? claimPower then (kv.1, claimPower, totalClaimsPower)
  else (highestClaim, highestClaimPower, totalClaimsPower).

(** Highest claim, its power, the power of all claims, the whitelisted power. *)
Definition FindHighestClaim (prophecy : Prophecy) (st : S) (whiteList : list string) : string * Z * Z * Z :=
  let validators := GetBondedValidatorsByPower st in
  let totalPower := whitelist_power validators whiteList in
  let byAddress := validatorsByAddress validators in
  let '(highestClaim, highestClaimPower, totalClaimsPower) :=
    fold_left (highest_step byAddress)
      (match ClaimValidators prophecy with Some m => map_range m | None => [] end) ("", -1, 0) in
  (highestClaim, highestClaimPower, totalClaimsPower, totalPower).

(** ** The keeper *)

Record OracleStore := mkOracleStore {
  o_whitelist : option (list string);
  o_admin : option string;
  o_prophecies : KV DBProphecy;
}.

Abbreviation OM := (M OracleStore).

(** [NewKeeper]: the share must be in (0, 1]; a NaN passes both tests. *)
Definition NewKeeper (consensusNeeded : float64) : res float64 :=
  if fle consensusNeeded (S754_zero false) || flt (float64_of_int64 1) consensusNeeded then Panic
  else Ok consensusNeeded.

Definition ProphecyPrefix : string := byte1 2.
Definition prophecy_key (id : string) : string := ProphecyPrefix +:+ "_" +:+ id.

Definition GetProphecies (s : OracleStore) : res (list Prophecy) :=
  rmap (fun kv => panicOnErr (DeserializeFromDB kv.2)) (kv_from ProphecyPrefix (o_prophecies s)).

(** A prophecy that does not deserialize counts as not found. *)
Definition GetProphecy (id : string) (s : OracleStore) : res (option Prophecy) :=
  match o_prophecies s !! prophecy_key id with
  | None => Ok None
  | Some db => match DeserializeFromDB db with
               | Ok p => Ok (Some p)
               | Err _ => Ok None
               | Panic => Panic
               end
  end.

Definition SetDBProphecy (prophecy : DBProphecy) : OM unit :=
  mmodify (fun s => mkOracleStore (o_whitelist s) (o_admin s)
                      (<[prophecy_key (DB_Id prophecy) := prophecy]> (o_prophecies s))).

Definition SetProphecy (prophecy : Prophecy) : OM unit :=
  do! db <- mlift (SerializeForDB prophecy); SetDBProphecy db.

Definition SetOracleWhiteList (validatorList : list string) : OM unit :=
  mmodify (fun s => mkOracleStore (Some (ValAddress_String <$> validatorList)) (o_admin s) (o_prophecies s)).

Definition ExistsOracleWhiteList (s : OracleStore) : bool := bool_decide (is_Some (o_whitelist s)).

Definition GetOracleWhiteList (s : OracleStore) : res (list string) :=
  rmap (fun entry => panicOnErr (ValAddressFromBech32 entry)) (default [] (o_whitelist s)).

Definition ValidateAddress (address : string) (s : OracleStore) : res bool :=
  if negb (ExistsOracleWhiteList s) then Ok false
  else let! valList := GetOracleWhiteList s in Ok (existsb (String.eqb address) valList).

Definition AddOracleWhiteList (validator : string) : OM unit :=
  do! s <- mgets id;
  do! valList <- mlift (GetOracleWhiteList s);
  SetOracleWhiteList (valList ++ [validator]).

Definition RemoveOracleWhiteList (validator : string) : OM unit :=
  do! s <- mgets id;
  do! valList <- mlift (GetOracleWhiteList s);
  SetOracleWhiteList (filter (fun addr => addr <> validator) valList).

Definition SetAdminAccount (adminAccount : string) : OM unit :=
  mmodify (fun s => mkOracleStore (o_whitelist s) (Some adminAccount) (o_prophecies s)).
Definition GetAdminAccount (s : OracleStore) : string := default "" (o_admin s).
Definition IsAdminAccount (adminAccount : string) (s : OracleStore) : bool :=
  let account := GetAdminAccount s in
  if String.eqb account "" then false else String.eqb account adminAccount.

Definition EnsureAddressIsInWhitelist (validatorAddress : string) : OM unit :=
  do! s <- mgets id;
  do! whiteList <- mlift (GetOracleWhiteList s);
  if existsb (fun a => String.eqb (ValAddress_String a) validatorAddress) whiteList then mret tt
  else mthrow ErrValidatorNotInWhiteList.

Definition checkActiveValidator (st : S) (validatorAddress : string) : bool :=
  match GetValidator st validatorAddress with Some v => IsBonded v | None => false end.

Definition processCompletion (consensusNeeded : float64) (st : S) (prophecy : Prophecy) : OM Prophecy :=
  do! s <- mgets id;
  do! whiteList <- mlift (GetOracleWhiteList s);
  let '(highestClaim, highestClaimPower, totalClaimsPower, totalPower) :=
    FindHighestClaim prophecy st whiteList in
  let highestConsensusRatio := fdiv (float64_of_int64 highestClaimPower) (float64_of_int64 totalPower) in
  let remainingPossibleClaimPower := i64 (totalPower - totalClaimsPower) in
  let highestPossibleClaimPower := i64 (highestClaimPower + remainingPossibleClaimPower) in
  let highestPossibleConsensusRatio :=
    fdiv (float64_of_int64 highestPossibleClaimPower) (float64_of_int64 totalPower) in
  let set st := mkProphecy (ID prophecy) st (ClaimValidators prophecy) (ValidatorClaims prophecy) in
  if fge highestConsensusRatio consensusNeeded then mret (set (mkStatus STATUS_TEXT_SUCCESS highestClaim))
  else if flt highestPossibleConsensusRatio consensusNeeded
       then mret (set (mkStatus STATUS_TEXT_FAILED (FinalClaim (PStatus prophecy))))
  else mret prophecy.

Definition ProcessClaim (consensusNeeded : float64) (st : S) (claim : Claim) : OM Status :=
  run! EnsureAddressIsInWhitelist (ValidatorAddress claim);
  do! valAddr <- mlift (ValAddressFromBech32 (ValidatorAddress claim));
  run! mfail_if (negb (checkActiveValidator st valAddr)) ErrInvalidValidator;
  run! mfail_if (String.eqb (Claim_Id claim) "") ErrInvalidIdentifier;
  run! mfail_if (String.eqb (Content claim) "") ErrInvalidClaim;
  do! s <- mgets id;
  do! found <- mlift (GetProphecy (Claim_Id claim) s);
  let prophecy := default (NewProphecy (Claim_Id claim)) found in
  run! mfail_if (bool_decide (Text (PStatus prophecy) <> STATUS_TEXT_PENDING)) ErrProphecyFinalized;
  run! mfail_if (negb (String.eqb (go_lookup "" (ValidatorClaims prophecy) (ValidatorAddress claim)) ""))
         ErrDuplicateMessage;
  do! prophecy <- mlift (AddClaim prophecy valAddr (Content claim));
  do! prophecy <- processCompletion consensusNeeded st prophecy;
  run! SetProphecy prophecy;
  mret (PStatus prophecy).

Definition ProcessUpdateWhiteListValidator (cosmosSender validator operationtype : string) : OM unit :=
  do! s <- mgets id;
  run! mfail_if (negb (IsAdminAccount cosmosSender s)) ErrNotAdminAccount;
  if String.eqb operationtype "add" then AddOracleWhiteList validator
  else if String.eqb operationtype "remove" then RemoveOracleWhiteList validator
  else mthrow ErrInvalidOperationType.

(** ** Genesis *)

Definition InitGenesis (data : GenesisState) : OM unit :=
  run! (match AddressWhitelist data with
        | None => mret tt
        | Some l =>
            do! wl <- mlift (rmap (fun entry => panicOnErr (ValAddressFromBech32 entry))
                               (filter (fun entry => str_len (TrimSpace entry) <> 0) l));
            SetOracleWhiteList wl
        end);
  run! (if str_len (TrimSpace (AdminAddress data)) =? 0 then mret tt
        else do! adminAddress <- mlift (panicOnErr (AccAddressFromBech32 (AdminAddress data)));
             SetAdminAccount adminAddress);
  mfor (Prophecies data) SetDBProphecy.

Definition ExportGenesis (s : OracleStore) : res GenesisState :=
  let! whiteList := GetOracleWhiteList s in
  let! prophecies := GetProphecies s in
  let! dbProphecies := rmap (fun p => panicOnErr (SerializeForDB p)) prophecies in
  Ok (mkGenesisState (Some (ValAddress_String <$> whiteList)) (AccAddress_String (GetAdminAccount s)) dbProphecies).

Definition ValidateGenesis (g : GenesisState) : res unit := Ok tt.
End Model.
Definition DefaultGenesisState : GenesisState := mkGenesisState (Some []) "" [].
Definition NewGenesisState : GenesisState := DefaultGenesisState.

(** ** Lemmas on float64 *)

Definition positive (x : float64) : Prop := flt (S754_zero false) x = true.
Definition not_positive (x : float64) : bool :=
  match x with S754_finite false _ _ | S754_infinity false => false | _ => true end.

Lemma positive_shape x : positive x -> x = S754_infinity false \/ exists m e, x = S754_finite false m e.
Proof. destruct x as [[]|[]| |[] m e]; try done; eauto. Qed.

(** What the constructor lets through, a NaN apart, is a positive share. *)
Lemma NewKeeper_positive c k : NewKeeper c = Ok k -> k = S754_nan \/ positive k.
Proof.
  unfold NewKeeper. destruct c as [[]|[]| |[] ? ?]; simpl; try done; intros Hk; [left|right].
  - congruence.
  - destruct (flt _ _); [done|]. by injection Hk as <-.
Qed.

Lemma round_sign sx m e l :
  match binary_round_aux 53 1024 sx m e l with
  | S754_zero s | S754_infinity s | S754_finite s _ _ => s = sx
  | S754_nan => True
  end.
Proof.
  unfold binary_round_aux. destruct (shr_fexp _ _ _ _ _) as [r1 e1]. destruct (shr_fexp _ _ _ _ _) as [r2 e2].
  destruct (shr_m r2); [done|destruct (Z.leb _ _); done|done].
Qed.

(** A negative power over a non-negative total is below every positive share. *)
Lemma negative_ratio t c :
  0 <= t -> positive c -> fge (fdiv (float64_of_int64 (-1)) (float64_of_int64 t)) c = false.
Proof.
  intros Ht Hc. assert (not_positive (fdiv (float64_of_int64 (-1)) (float64_of_int64 t)) = true) as Hn.
  { replace (float64_of_int64 (-1)) with (S754_finite true 4503599627370496 (-52)) by reflexivity.
    destruct t as [|t|t]; [done| |lia]. unfold float64_of_int64, binary_normalize, binary_round.
    destruct (shl_align _ _ _) as [mz ez]. pose proof (round_sign false (Z.pos mz) ez loc_Exact) as Hs.
    destruct (binary_round_aux _ _ _ _ _ _) as [s|s| |s m e]; subst; try done. unfold fdiv, SFdiv.
    destruct (SFdiv_core_binary _ _ _ _ _ _) as [[q f] l]. simpl xorb. pose proof (round_sign true q f l) as Hs.
    destruct (binary_round_aux _ _ _ _ _ _) as [s|s| |s' m' e']; subst; done. }
  destruct (positive_shape _ Hc) as [->|(m & e & ->)];
    destruct (fdiv _ _) as [[]|[]| |[] ? ?]; try done.
Qed.

(** ** Lemmas on int64 sums *)

Lemma i64_add_l a b : i64 (i64 a + b) = i64 (a + b).
Proof.
  unfold i64. f_equal. replace ((a + 2 ^ 63) mod 2 ^ 64 - 2 ^ 63 + b + 2 ^ 63) with ((a + 2 ^ 63) mod 2 ^ 64 + b) by lia.
  rewrite Zplus_mod_idemp_l. f_equal. lia.
Qed.

Section Lemmas.
Context `{SdkAddressLaws}.
Context {S V : Type} `{StakingKeeper S V}.

(** *** The highest claim does not depend on the order of the range loop *)

Section Highest.
Variable byAddress : KV V.
Abbreviation power kv := (claim_power byAddress kv.2).
Definition best (l : list (string * list string)) (p0 : Z) : Z := foldr (fun kv acc => Z.max (power kv) acc) p0 l.
Definition total (l : list (string * list string)) : Z := foldr (fun kv acc => power kv + acc) 0 l.

Lemma best_acc l p q : best l (Z.max p q) = Z.max q (best l p).
Proof. unfold best. induction l as [|kv l IH]; simpl; [lia|]. rewrite IH. lia. Qed.

Lemma highest_fold l c0 p0 t0 c p t :
  fold_left (highest_step byAddress) l (c0, p0, i64 t0) = (c, p, t) ->
  p = best l p0 /\ t = i64 (t0 + total l)
  /\ ((p = p0 /\ c = c0) \/ (p0 < p /\ exists vs, (c, vs) ∈ l /\ claim_power byAddress vs = p)).
Proof.
  revert c0 p0 t0; induction l as [|kv l IH]; intros c0 p0 t0 Hf; simpl in Hf.
  - injection Hf as <- <- <-. simpl. rewrite Z.add_0_r. eauto.
  - rewrite i64_add_l in Hf.
    destruct (Z.ltb_spec p0 (power kv)) as [Hlt|Hge]; apply IH in Hf as (Hp & Ht & Hc); simpl.
    + split_and!; [|by rewrite Ht; f_equal; lia|].
      * rewrite Hp. pose proof (best_acc l p0 (power kv)) as Hb. rewrite Z.max_r in Hb by lia. done.
      * right. destruct Hc as [[-> ->]|(Hlt' & vs & Hin & Hv)].
        -- split; [done|]. exists kv.2. split; [|done]. destruct kv. by left.
        -- split; [lia|]. exists vs. split; [by right|done].
    + split_and!; [|by rewrite Ht; f_equal; lia|].
      * rewrite Hp. pose proof (best_acc l p0 (power kv)) as Hb. by rewrite Z.max_l in Hb by lia.
      * destruct Hc as [?|(Hlt' & vs & Hin & Hv)]; [by left|]. right. split; [done|]. exists vs. split; [by right|done].
Qed.

Lemma best_perm l1 l2 p : l1 ≡ₚ l2 -> best l1 p = best l2 p.
Proof. intros Hp. unfold best. induction Hp; simpl; lia. Qed.
Lemma total_perm l1 l2 : l1 ≡ₚ l2 -> total l1 = total l2.
Proof. intros Hp. unfold total. induction Hp; simpl; lia. Qed.
End Highest.

Lemma FindHighestClaim_spec (o : MapOrder) `{!@MapOrderLaws o} p st wl m c h t T :
  ClaimValidators p = Some m -> @FindHighestClaim _ S V _ o p st wl = (c, h, t, T) ->
  let by_ := validatorsByAddress (GetBondedValidatorsByPower st) in
  h = best by_ (map_to_list m) (-1) /\ t = i64 (total by_ (map_to_list m))
  /\ T = whitelist_power (GetBondedValidatorsByPower st) wl
  /\ ((h = -1 /\ c = "") \/ (-1 < h /\ exists vs, m !! c = Some vs /\ claim_power by_ vs = h)).
Proof.
  intros Hm Hf by_. unfold FindHighestClaim in Hf. rewrite Hm in Hf. fold by_ in Hf.
  destruct (fold_left _ _ _) as [[c' h'] t'] eqn:E. injection Hf as -> -> -> <-.
  change 0 with (i64 0) in E. apply highest_fold in E as (Hh & Ht & Hc). simpl in Ht.
  rewrite (best_perm _ _ _ _ (map_range_perm _ m)) in Hh. rewrite (total_perm _ _ _ (map_range_perm _ m)) in Ht.
  split_and!; [done..|]. destruct Hc as [?|(? & vs & Hin & ?)]; [by left|right]. split; [done|].
  exists vs. rewrite map_range_perm in Hin. by apply elem_of_map_to_list in Hin.
Qed.

Lemma power_sum_nonneg `{!StakingLaws S V} (l : list V) : 0 <= foldr (fun v acc => GetConsensusPower v + acc) 0 l.
Proof. induction l as [|w l IH]; simpl; [lia|]. pose proof (GetConsensusPower_nonneg w). lia. Qed.

Lemma whitelist_power_nonneg `{!StakingLaws S V} st wl :
  0 <= whitelist_power (GetBondedValidatorsByPower st) wl.
Proof.
  pose proof (bonded_power_bound st) as Hb. unfold whitelist_power.
  assert (forall l t, 0 <= t -> t + foldr (fun v acc => GetConsensusPower v + acc) 0 l < 2 ^ 63 ->
    0 <= fold_left (fun totalPower v =>
      if inWhiteList v wl then i64 (totalPower + GetConsensusPower v) else totalPower) l t) as Hl.
  { induction l as [|v l IH]; intros t Ht Hs; simpl in *; [done|]. pose proof (GetConsensusPower_nonneg v).
    pose proof (power_sum_nonneg l).
    destruct (inWhiteList v wl); [|apply IH; lia]. rewrite i64_small by lia. apply IH; lia. }
  apply Hl; lia.
Qed.

(** *** Addresses *)

Lemma ValAddress_String_inj a b : a <> "" -> b <> "" -> ValAddress_String a = ValAddress_String b -> a = b.
Proof.
  intros Ha Hb E. apply (f_equal ValAddressFromBech32) in E. rewrite !ValAddress_roundtrip in E by done. congruence.
Qed.

Lemma GetOracleWhiteList_nonempty s wl : GetOracleWhiteList s = Ok wl -> Forall (fun a => a <> "") wl.
Proof.
  unfold GetOracleWhiteList. generalize (default [] (o_whitelist s)) as l. intros l. revert wl.
  induction l as [|e l IH]; intros wl Hw; simpl in Hw; [by injection Hw as <-|].
  apply rbind_ok_inv in Hw as (a & Ha%panicOnErr_ok_inv & Hw). apply rbind_ok_inv in Hw as (as_ & Has & Hw).
  injection Hw as <-. constructor; [by eapply ValAddress_nonempty|by apply IH].
Qed.

(** A claim that passes the whitelist check names its validator canonically. *)
Lemma Ensure_ok raw s s' u :
  EnsureAddressIsInWhitelist raw s = (s', Ok u) ->
  s' = s /\ exists wl a, GetOracleWhiteList s = Ok wl /\ a ∈ wl /\ a <> ""
    /\ ValAddress_String a = raw /\ ValAddressFromBech32 raw = Ok a.
Proof.
  unfold EnsureAddressIsInWhitelist. intros Hr. get_step Hr. lift_step Hr as wl Hwl.
  destruct (existsb _ wl) eqn:E; [|done]. apply mret_ok_inv in Hr as [-> _]. split; [done|].
  apply existsb_exists in E as (a & Hin & Ha%String.eqb_eq). apply list_elem_of_In in Hin.
  pose proof (GetOracleWhiteList_nonempty _ _ Hwl) as Hne. rewrite Forall_forall in Hne.
  exists wl, a. split_and!; [done|done|by apply Hne|done|]. rewrite <- Ha. by apply ValAddress_roundtrip, Hne.
Qed.

(** *** Well-formed prophecies *)

(** Who made a claim and what a validator claimed agree; nobody is listed twice. *)
Definition consistent (cv : KV (list string)) (vc : KV string) : Prop :=
  (forall c vs, cv !! c = Some vs -> vs <> [] /\ NoDup vs /\ forall v, v ∈ vs -> v <> "" /\ vc !! ValAddress_String v = Some c)
  /\ (forall k c, vc !! k = Some c -> c <> "" /\ exists v vs, k = ValAddress_String v /\ cv !! c = Some vs /\ v ∈ vs).

Definition wf_prophecy (p : Prophecy) : Prop :=
  exists cv vc, ClaimValidators p = Some cv /\ ValidatorClaims p = Some vc /\ consistent cv vc
    /\ (Text (PStatus p) = STATUS_TEXT_SUCCESS -> is_Some (cv !! FinalClaim (PStatus p))).

Lemma wf_NewProphecy id : wf_prophecy (NewProphecy id).
Proof.
  exists ∅, ∅. split_and!; [done|done| |done].
  split; intros ? ? Hl; by rewrite lookup_empty in Hl.
Qed.

Lemma consistent_add cv vc v c :
  consistent cv vc -> v <> "" -> c <> "" -> vc !! ValAddress_String v = None ->
  consistent (<[c := default [] (cv !! c) ++ [v]]> cv) (<[ValAddress_String v := c]> vc).
Proof.
  intros [Hcv Hvc] Hv Hc Hnew. split.
  - intros c' vs Hl. destruct (decide (c = c')) as [->|Hcc].
    + rewrite lookup_insert_eq in Hl. injection Hl as <-.
      assert (NoDup (default [] (cv !! c')) /\ forall w, w ∈ default [] (cv !! c') ->
        w <> "" /\ vc !! ValAddress_String w = Some c') as [Hnd Hall].
      { destruct (cv !! c') as [vs|] eqn:E; simpl; [by destruct (Hcv _ _ E) as [_ ?]|]. split; [constructor|]. by intros w []%elem_of_nil. }
      split_and!; [by destruct (default [] _)| |].
      * apply NoDup_app. split_and!; [done| |apply NoDup_singleton].
        intros w Hw ->%list_elem_of_singleton. apply Hall in Hw as [_ Hw]. congruence.
      * intros w [Hw| ->%list_elem_of_singleton]%elem_of_app.
        -- destruct (Hall w Hw) as [Hne Hlw]. split; [done|]. rewrite lookup_insert_ne by congruence. done.
        -- split; [done|]. by rewrite lookup_insert_eq.
    + rewrite lookup_insert_ne in Hl by done. destruct (Hcv _ _ Hl) as (Hvs & Hnd & Hall). split_and!; [done..|].
      intros w Hw. destruct (Hall w Hw) as [Hne Hlw]. split; [done|]. rewrite lookup_insert_ne by congruence. done.
  - intros k c' Hl. destruct (decide (ValAddress_String v = k)) as [<-|Hk].
    + rewrite lookup_insert_eq in Hl. injection Hl as <-. split; [done|]. exists v. eexists.
      split_and!; [done|by rewrite lookup_insert_eq|]. apply elem_of_app. right. by left.
    + rewrite lookup_insert_ne in Hl by done. destruct (Hvc _ _ Hl) as (Hne & w & vs & Hkw & Hlw & Hw).
      split; [done|]. destruct (decide (c = c')) as [->|].
      * exists w. eexists. split_and!; [done|by rewrite lookup_insert_eq|]. rewrite Hlw. simpl. apply elem_of_app. by left.
      * exists w, vs. split_and!; [done| |done]. by rewrite lookup_insert_ne.
Qed.

(** *** Serialization *)

Lemma json_fields_encode {W} (enc : W -> Json) dec (l : list (string * W)) acc :
  (forall k v, (k, v) ∈ l -> dec (enc v) = Ok v) ->
  json_fields dec ((fun kv => (kv.1, enc kv.2)) <$> l) acc
  = Ok (fold_left (fun acc kv => <[kv.1 := kv.2]> acc) l acc).
Proof.
  revert acc. induction l as [|[k v] l IH]; intros acc Hd; [done|]. rewrite fmap_cons. cbn [json_fields fst snd].
  rewrite (Hd k v) by by left. cbn [rbind]. apply IH. intros j w Hin. apply (Hd j w). by right.
Qed.

Lemma json_map_roundtrip {W} (enc : W -> Json) dec (m : KV W) :
  (forall v, integers (enc v)) -> (forall k v, m !! k = Some v -> dec (enc v) = Ok v) ->
  json_unmarshal_map dec (json_print (json_map enc (Some m))) = Ok (Some m).
Proof.
  intros Hi Hd. unfold json_unmarshal_map. rewrite json_parse_print; cbn [json_map].
  - rewrite json_fields_encode; [cbn [rbind]; by rewrite insert_kv_prefix by (by intros [] ?)|].
    intros k v [Hk _]%elem_of_kv_prefix. by eapply Hd.
  - simpl. induction (kv_prefix "" m) as [|kv l IH]; [done|]. simpl. split; [apply Hi|done].
Qed.

Lemma json_addresses vs :
  Forall (fun v => v <> "") vs ->
  json_list json_address (JArray ((fun a => JString (ValAddress_String a)) <$> vs)) = Ok vs.
Proof.
  unfold json_list. induction 1 as [|v vs Hv Hvs IH]; [done|]. rewrite fmap_cons. cbn [rmap].
  unfold json_address at 1. cbn [json_string rbind]. pose proof (ValAddress_roundtrip _ Hv) as Hr.
  destruct (String.eqb_spec (ValAddress_String v) "") as [E|_]; [|rewrite Hr; cbn [rbind]; by rewrite IH].
  rewrite E in Hr. pose proof ValAddress_empty_text as He. by rewrite Hr in He.
Qed.

Lemma serialize_roundtrip p :
  wf_prophecy p -> exists db, SerializeForDB p = Ok db /\ DB_Id db = ID p /\ DeserializeFromDB db = Ok p.
Proof.
  intros (cv & vc & Hcv & Hvc & [Hc _] & _). eexists. split; [reflexivity|]. split; [done|].
  unfold DeserializeFromDB. cbn [DB_ClaimValidators DB_ValidatorClaims DB_Id DB_Status]. rewrite Hcv, Hvc.
  rewrite (json_map_roundtrip _ (json_list json_address)).
  - cbn [rbind]. rewrite json_map_roundtrip by done. cbn [rbind]. destruct p; simpl in *. by subst.
  - intros vs. simpl. by induction vs.
  - intros k vs Hk. apply json_addresses, Forall_forall. intros v Hv. by apply (Hc _ _ Hk).
Qed.
(** *** Keeping the store well formed *)

Lemma prophecy_key_inj i j : prophecy_key i = prophecy_key j -> i = j.
Proof. unfold prophecy_key. intros E. by do 2 apply (inj (String.append _)) in E. Qed.

(** Every stored prophecy is under its own key, can be read back and is well formed. *)
Definition wf_store (s : OracleStore) : Prop :=
  forall k db, o_prophecies s !! k = Some db ->
    k = prophecy_key (DB_Id db) /\ exists p, DeserializeFromDB db = Ok p /\ wf_prophecy p.

Lemma GetProphecy_wf id s found :
  wf_store s -> GetProphecy id s = Ok found -> wf_prophecy (default (NewProphecy id) found)
  /\ ID (default (NewProphecy id) found) = id.
Proof.
  unfold GetProphecy. intros Hs. destruct (o_prophecies s !! prophecy_key id) as [db|] eqn:E.
  - destruct (Hs _ _ E) as (Hk%prophecy_key_inj & p & Hp & Hwf). rewrite Hp. intros [= <-]. split; [done|].
    unfold DeserializeFromDB in Hp. go_inv. simpl. done.
  - intros [= <-]. split; [apply wf_NewProphecy|done].
Qed.

Lemma GetProphecy_total id s : wf_store s -> is_ok (GetProphecy id s) = true.
Proof.
  intros Hs. unfold GetProphecy. destruct (o_prophecies s !! prophecy_key id) as [db|] eqn:E; [|done].
  destruct (Hs _ _ E) as (_ & p & -> & _). done.
Qed.

(** What a prophecy says of the outside world: its status and each validator's vote. *)
Definition ballot (s : OracleStore) (id : string) : Status * KV string :=
  match GetProphecy id s with
  | Ok (Some p) => (PStatus p, default ∅ (ValidatorClaims p))
  | _ => (NewStatus STATUS_TEXT_PENDING "", ∅)
  end.

Lemma ballot_default id s found :
  GetProphecy id s = Ok found ->
  let p := default (NewProphecy id) found in ballot s id = (PStatus p, default ∅ (ValidatorClaims p)).
Proof. intros Hg. unfold ballot. rewrite Hg. by destruct found. Qed.

Lemma ballot_frame s s' id :
  o_prophecies s' !! prophecy_key id = o_prophecies s !! prophecy_key id -> ballot s' id = ballot s id.
Proof. intros E. unfold ballot, GetProphecy. by rewrite E. Qed.

Lemma AddClaim_wf p a c vc :
  wf_prophecy p -> a <> "" -> c <> "" -> ValidatorClaims p = Some vc -> vc !! ValAddress_String a = None ->
  Text (PStatus p) = STATUS_TEXT_PENDING ->
  exists p', AddClaim p a c = Ok p' /\ wf_prophecy p' /\ ID p' = ID p /\ PStatus p' = PStatus p
    /\ ValidatorClaims p' = Some (<[ValAddress_String a := c]> vc).
Proof.
  intros (cv & vc' & Hcv & Hvc' & Hcons & _) Ha Hc Hvc Hnew Hp. rewrite Hvc in Hvc'. injection Hvc' as <-.
  unfold AddClaim, go_lookup, go_store. rewrite Hcv, Hvc. cbn [rbind]. eexists. split; [reflexivity|].
  split_and!; [|done..]. eexists _, _. split_and!; [done|done|by apply consistent_add|]. simpl. congruence.
Qed.

(** Success names a claim that somebody made. *)
Lemma processCompletion_wf (o : MapOrder) `{!@MapOrderLaws o, !StakingLaws S V} cn st p s s' p' :
  positive cn -> wf_prophecy p -> Text (PStatus p) = STATUS_TEXT_PENDING ->
  processCompletion (S := S) (V := V) cn st p s = (s', Ok p') ->
  s' = s /\ wf_prophecy p' /\ ID p' = ID p /\ ClaimValidators p' = ClaimValidators p
  /\ ValidatorClaims p' = ValidatorClaims p.
Proof.
  intros Hcn (cv & vc & Hcv & Hvc & Hcons & Hfin) Hpend Hr. unfold processCompletion in Hr. get_step Hr.
  lift_step Hr as wl Hwl. destruct (FindHighestClaim p st wl) as [[[c h] t] T] eqn:Ef.
  destruct (FindHighestClaim_spec o p st wl cv c h t T Hcv Ef) as (_ & _ & HT & Hc). cbv zeta in Hr.
  destruct (fge _ cn) eqn:Eg; [|destruct (flt _ cn)]; apply mret_ok_inv in Hr as [-> ->];
    (split_and!; [done| |done..]).
  - exists cv, vc. split_and!; [done..|]. intros _. simpl.
    destruct Hc as [[-> ->]|(_ & vs & Hl & _)]; [|by eexists].
    rewrite negative_ratio in Eg; [done|rewrite HT; apply whitelist_power_nonneg|done].
  - exists cv, vc. by split_and!.
  - exists cv, vc. by split_and!.
Qed.

Lemma SetProphecy_ok p s s' u :
  wf_prophecy p -> SetProphecy p s = (s', Ok u) ->
  exists db, DB_Id db = ID p /\ DeserializeFromDB db = Ok p /\ SerializeForDB p = Ok db
    /\ s' = mkOracleStore (o_whitelist s) (o_admin s) (<[prophecy_key (ID p) := db]> (o_prophecies s)).
Proof.
  intros Hwf Hr. destruct (serialize_roundtrip p Hwf) as (db & Hs & Hid & Hd). unfold SetProphecy in Hr.
  lift_step Hr as db' Hs'. rewrite Hs in Hs'. injection Hs' as <-. apply mmodify_ok_inv in Hr as ->.
  exists db. by rewrite <- Hid.
Qed.

(** The effect of an accepted claim, and the prophecy whose completion decided it. *)
Lemma ProcessClaim_full (o : MapOrder) `{!@MapOrderLaws o, !StakingLaws S V} cn st claim s s' status :
  positive cn -> wf_store s -> ProcessClaim (S := S) (V := V) cn st claim s = (s', Ok status) ->
  wf_store s'
  /\ (exists wl a, GetOracleWhiteList s = Ok wl /\ a ∈ wl /\ ValAddress_String a = ValidatorAddress claim
       /\ checkActiveValidator st a = true)
  /\ Text (ballot s (Claim_Id claim)).1 = STATUS_TEXT_PENDING
  /\ (ballot s (Claim_Id claim)).2 !! ValidatorAddress claim = None
  /\ ballot s' (Claim_Id claim)
     = (status, <[ValidatorAddress claim := Content claim]> (ballot s (Claim_Id claim)).2)
  /\ (forall id, id <> Claim_Id claim -> ballot s' id = ballot s id)
  /\ exists p p', wf_prophecy p /\ PStatus p = (ballot s (Claim_Id claim)).1
       /\ ValidatorClaims p = Some (<[ValidatorAddress claim := Content claim]> (ballot s (Claim_Id claim)).2)
       /\ Content claim <> "" /\ processCompletion cn st p s = (s, Ok p') /\ PStatus p' = status
       /\ wf_prophecy p' /\ exists db, SerializeForDB p' = Ok db
            /\ s' = mkOracleStore (o_whitelist s) (o_admin s) (<[prophecy_key (ID p') := db]> (o_prophecies s)).
Proof.
  intros Hcn Hs Hr. unfold ProcessClaim in Hr.
  run_step Hr as u s1 He. destruct (Ensure_ok _ _ _ _ He) as (-> & wl & a & Hwl & Hin & Hne & Ha & Hdec).
  lift_step Hr as a' Ha'. rewrite Hdec in Ha'. injection Ha' as <-.
  check_step Hr as Hact%negb_false_iff. check_step Hr as _. check_step Hr as Hcont%String.eqb_neq.
  get_step Hr. lift_step Hr as found Hg. cbv zeta in Hr.
  destruct (GetProphecy_wf _ _ _ Hs Hg) as [Hwf Hid]. pose proof (ballot_default _ _ _ Hg) as Hb. cbv zeta in Hb.
  change (from_option (fun x => x) ?d ?f) with (default d f) in Hr.
  set (p0 := default (NewProphecy (Claim_Id claim)) found) in *.
  check_step Hr as Hpend%bool_decide_eq_false. apply dec_stable in Hpend.
  check_step Hr as Hnew%negb_false_iff. apply String.eqb_eq in Hnew.
  assert (exists vc, ValidatorClaims p0 = Some vc /\ vc !! ValidatorAddress claim = None) as (vc & Hvc & Hnone).
  { destruct Hwf as (cv & vc & Hcv & Hvc & [_ Hcons] & _). exists vc. split; [done|]. rewrite Hvc in Hnew. simpl in Hnew.
    destruct (vc !! _) as [c|] eqn:E; [|done]. simpl in Hnew. subst. by destruct (Hcons _ _ E) as [[] _]. }
  rewrite <- Ha in Hnone. destruct (AddClaim_wf p0 a (Content claim) vc) as (p1 & Hadd & Hwf1 & Hid1 & Hst1 & Hvc1); try done.
  lift_step Hr as p1' Hp1'. rewrite Hadd in Hp1'. injection Hp1' as <-.
  run_step Hr as p2 s2 Hcomp.
  destruct (processCompletion_wf o cn st p1 s s2 p2) as (-> & Hwf2 & Hid2 & _ & Hvc2); [done|done|by rewrite Hst1|done|].
  run_step Hr as u2 s3 Hset. apply SetProphecy_ok in Hset as (db & Hdb & Hdd & Hser & ->); [|done].
  apply mret_ok_inv in Hr as [-> ->]. assert (ID p2 = Claim_Id claim) as Hkey by congruence. rewrite Hkey.
  assert (GetProphecy (Claim_Id claim) (mkOracleStore (o_whitelist s) (o_admin s)
    (<[prophecy_key (Claim_Id claim) := db]> (o_prophecies s))) = Ok (Some p2)) as Hg2.
  { unfold GetProphecy. simpl. by rewrite lookup_insert_eq, Hdd. }
  split_and!.
  - intros k db' Hl. simpl in Hl. apply lookup_insert_Some in Hl as [[<- <-]|[_ Hl]]; [|by apply Hs].
    split; [by rewrite Hdb, Hkey|]. by exists p2.
  - by exists wl, a.
  - by rewrite Hb.
  - rewrite Hb. simpl. by rewrite Hvc, <- Ha.
  - rewrite (ballot_default _ _ _ Hg2), Hb. simpl. by rewrite Hvc2, Hvc1, Hvc, Ha.
  - intros id Hid'. apply ballot_frame. simpl. apply lookup_insert_ne. intros E%prophecy_key_inj. congruence.
  - exists p1, p2. rewrite Hb. cbn [fst snd]. rewrite Hvc1, Hst1, Hvc, Ha, Hkey. split_and!; try done. by exists db.
Qed.

Lemma ProcessClaim_ok (o : MapOrder) `{!@MapOrderLaws o, !StakingLaws S V} cn st claim s s' status :
  positive cn -> wf_store s -> ProcessClaim (S := S) (V := V) cn st claim s = (s', Ok status) ->
  wf_store s'
  /\ (exists wl a, GetOracleWhiteList s = Ok wl /\ a ∈ wl /\ ValAddress_String a = ValidatorAddress claim
       /\ checkActiveValidator st a = true)
  /\ Text (ballot s (Claim_Id claim)).1 = STATUS_TEXT_PENDING
  /\ (ballot s (Claim_Id claim)).2 !! ValidatorAddress claim = None
  /\ ballot s' (Claim_Id claim)
     = (status, <[ValidatorAddress claim := Content claim]> (ballot s (Claim_Id claim)).2)
  /\ forall id, id <> Claim_Id claim -> ballot s' id = ballot s id.
Proof.
  intros Hcn Hs Hr. destruct (ProcessClaim_full _ _ _ _ _ _ _ Hcn Hs Hr) as (? & ? & ? & ? & ? & ? & _). done.
Qed.

Lemma readonly_Ensure a : readonly (EnsureAddressIsInWhitelist a).
Proof.
  apply readonly_mbnd; [done|]. intros s. apply readonly_mbnd; [done|]. intros wl. by destruct (existsb _ wl).
Qed.
Lemma readonly_processCompletion (o : MapOrder) cn st p : readonly (processCompletion (S := S) (V := V) cn st p).
Proof.
  apply readonly_mbnd; [done|]. intros s. apply readonly_mbnd; [done|]. intros wl.
  destruct (FindHighestClaim p st wl) as [[[c h] t] T]. cbv zeta. by repeat case_match.
Qed.
Lemma atomic_SetProphecy p : atomic (SetProphecy p).
Proof. apply atomic_mbnd; [done|]. intros db. apply atomic_mmodify. Qed.

Lemma ProcessClaim_atomic (o : MapOrder) cn st claim : atomic (ProcessClaim (S := S) (V := V) cn st claim).
Proof.
  unfold ProcessClaim. repeat (apply atomic_mbnd;
    [first [apply readonly_Ensure|apply readonly_processCompletion|auto with atomic; fail]|intros ?]).
  apply atomic_mbnd_last; [apply atomic_SetProphecy|done].
Qed.

Lemma Ensure_run raw s wl a :
  GetOracleWhiteList s = Ok wl -> a ∈ wl -> ValAddress_String a = raw ->
  EnsureAddressIsInWhitelist raw s = (s, Ok tt) /\ ValAddressFromBech32 raw = Ok a.
Proof.
  intros Hwl Hin Ha. pose proof (GetOracleWhiteList_nonempty _ _ Hwl) as Hne. rewrite Forall_forall in Hne.
  split; [|rewrite <- Ha; by apply ValAddress_roundtrip, Hne]. unfold EnsureAddressIsInWhitelist.
  erewrite mbnd_run by reflexivity. rewrite (mbnd_lift _ _ _ _ Hwl).
  assert (existsb (fun a => String.eqb (ValAddress_String a) raw) wl = true) as ->; [|done].
  apply existsb_exists. exists a. split; [by apply list_elem_of_In|]. by apply String.eqb_eq.
Qed.

Lemma processCompletion_run (o : MapOrder) cn st p s wl :
  GetOracleWhiteList s = Ok wl -> exists p', processCompletion (S := S) (V := V) cn st p s = (s, Ok p').
Proof.
  intros Hwl. unfold processCompletion. erewrite mbnd_run by reflexivity. rewrite (mbnd_lift _ _ _ _ Hwl).
  destruct (FindHighestClaim p st wl) as [[[c h] t] T]. cbv zeta. case_match; [|case_match]; by eexists.
Qed.

(** The claim of a whitelisted, bonded validator is refused for two reasons only. *)
Lemma ProcessClaim_outcome (o : MapOrder) cn st claim s wl a :
  wf_store s -> GetOracleWhiteList s = Ok wl -> a ∈ wl -> ValAddress_String a = ValidatorAddress claim ->
  checkActiveValidator st a = true -> Claim_Id claim <> "" -> Content claim <> "" ->
  let b := ballot s (Claim_Id claim) in
  let r := ProcessClaim (S := S) (V := V) cn st claim s in
  if decide (Text b.1 <> STATUS_TEXT_PENDING) then r = (s, Err ErrProphecyFinalized)
  else if decide (is_Some (b.2 !! ValidatorAddress claim)) then r = (s, Err ErrDuplicateMessage)
  else exists s' status, r = (s', Ok status).
Proof.
  intros Hs Hwl Hin Ha Hact Hid Hcont b r. subst r. destruct (Ensure_run _ _ _ _ Hwl Hin Ha) as [He Hdec].
  pose proof (GetProphecy_total (Claim_Id claim) s Hs) as Ht.
  destruct (GetProphecy (Claim_Id claim) s) as [found|e|] eqn:Hg; try done.
  unfold ProcessClaim. rewrite (mbnd_run _ _ _ _ _ He), (mbnd_lift _ _ _ _ Hdec).
  rewrite mbnd_pass by (by rewrite Hact). rewrite mbnd_pass by (by apply String.eqb_neq).
  rewrite mbnd_pass by (by apply String.eqb_neq). erewrite mbnd_run by reflexivity. unfold id.
  rewrite (mbnd_lift _ _ _ _ Hg). cbv zeta. change (from_option (fun x => x) ?d ?f) with (default d f).
  destruct (GetProphecy_wf _ _ _ Hs Hg) as [Hwf _]. subst b. rewrite (ballot_default _ _ _ Hg).
  set (p0 := default (NewProphecy (Claim_Id claim)) found) in *. cbn [fst snd].
  destruct (decide (Text (PStatus p0) <> STATUS_TEXT_PENDING)) as [Hf|Hp].
  { by rewrite mbnd_stop by (by apply bool_decide_eq_true). }
  rewrite mbnd_pass by (by apply bool_decide_eq_false). apply dec_stable in Hp.
  destruct Hwf as (cv & vc & Hcv & Hvc & [Hc1 Hc2] & Hfin). rewrite Hvc. cbn [default go_lookup].
  destruct (decide _) as [[c Hl]|Hl]; cbn [from_option id] in Hl; unfold id in Hl.
  { rewrite mbnd_stop; [done|]. rewrite Hl. simpl. apply negb_true_iff, String.eqb_neq. by apply (Hc2 _ _ Hl). }
  apply eq_None_not_Some in Hl. rewrite mbnd_pass by (by rewrite Hl). pose proof (GetOracleWhiteList_nonempty _ _ Hwl) as Hne.
  destruct (AddClaim_wf p0 a (Content claim) vc) as (p1 & Hadd & Hwf1 & _);
    [by exists cv, vc|by eapply (proj1 (Forall_forall _ _)) in Hne|done|done|by rewrite Ha|done|].
  rewrite (mbnd_lift _ _ _ _ Hadd). destruct (processCompletion_run o cn st p1 s wl Hwl) as [p2 Hp2].
  rewrite (mbnd_run _ _ _ _ _ Hp2). unfold SetProphecy. by do 2 eexists.
Qed.

(** *** The order of the range loop *)

(** A claim of the prophecy that no other claim of it outweighs. *)
Definition most_voted (st : S) (cv : KV (list string)) (c : string) : Prop :=
  let by_ := validatorsByAddress (GetBondedValidatorsByPower st) in
  exists vs, cv !! c = Some vs /\ map_Forall (fun _ vs' => claim_power by_ vs' <= claim_power by_ vs) cv.

Lemma best_upper byAddress l p kv : kv ∈ l -> claim_power byAddress kv.2 <= best byAddress l p.
Proof. unfold best. induction 1; simpl; lia. Qed.

Lemma FindHighestClaim_most_voted (o : MapOrder) `{!@MapOrderLaws o} p st wl m c h t T :
  ClaimValidators p = Some m -> @FindHighestClaim _ S V _ o p st wl = (c, h, t, T) ->
  (h = -1 /\ c = "") \/ (-1 < h /\ most_voted st m c).
Proof.
  intros Hm E. apply (FindHighestClaim_spec _ _ _ _ _ _ _ _ _ Hm) in E as (Hh & _ & _ & [?|(? & vs & Hv & Hp)]); [by left|right].
  split; [done|]. exists vs. split; [done|]. intros c' vs' Hc'%elem_of_map_to_list. rewrite Hp, Hh.
  by apply (best_upper _ _ _ (c', vs')).
Qed.

Lemma FindHighestClaim_order (o1 o2 : MapOrder) `{!@MapOrderLaws o1, !@MapOrderLaws o2} p st wl m c1 h1 t1 T1 c2 h2 t2 T2 :
  ClaimValidators p = Some m ->
  @FindHighestClaim _ S V _ o1 p st wl = (c1, h1, t1, T1) -> @FindHighestClaim _ S V _ o2 p st wl = (c2, h2, t2, T2) ->
  h1 = h2 /\ t1 = t2 /\ T1 = T2 /\ (c1 = c2 \/ (most_voted st m c1 /\ most_voted st m c2)).
Proof.
  intros Hm E1 E2. pose proof (FindHighestClaim_most_voted _ _ _ _ _ _ _ _ _ Hm E1) as H1'.
  pose proof (FindHighestClaim_most_voted _ _ _ _ _ _ _ _ _ Hm E2) as H2'.
  apply (FindHighestClaim_spec _ _ _ _ _ _ _ _ _ Hm) in E1 as (-> & -> & -> & _).
  apply (FindHighestClaim_spec _ _ _ _ _ _ _ _ _ Hm) in E2 as (-> & -> & -> & _).
  split_and!; [done..|]. destruct H1' as [[E ->]|(Hlt & ?)], H2' as [[E' ->]|(Hlt' & ?)]; [by left|lia|lia|by right].
Qed.

(** The prophecy [p] decided in favour of [c]. *)
Definition decided_for (p : Prophecy) (c : string) : Prophecy :=
  mkProphecy (ID p) (mkStatus STATUS_TEXT_SUCCESS c) (ClaimValidators p) (ValidatorClaims p).

Lemma processCompletion_order (o1 o2 : MapOrder) `{!@MapOrderLaws o1, !@MapOrderLaws o2} cn st p s m :
  ClaimValidators p = Some m ->
  let r1 := @processCompletion _ S V _ o1 cn st p s in let r2 := @processCompletion _ S V _ o2 cn st p s in
  r1 = r2 \/ exists c1 c2, c1 <> c2 /\ most_voted st m c1 /\ most_voted st m c2
    /\ r1 = (s, Ok (decided_for p c1)) /\ r2 = (s, Ok (decided_for p c2)).
Proof.
  intros Hm r1 r2. subst r1 r2. unfold processCompletion, mbnd, mgets, mlift.
  destruct (GetOracleWhiteList (id s)) as [wl|e|]; [|by left..].
  destruct (@FindHighestClaim _ S V _ o1 p st wl) as [[[c1 h1] t1] T1] eqn:E1.
  destruct (@FindHighestClaim _ S V _ o2 p st wl) as [[[c2 h2] t2] T2] eqn:E2.
  destruct (FindHighestClaim_order _ _ _ _ _ _ _ _ _ _ _ _ _ _ Hm E1 E2) as (-> & -> & -> & [->|[]]); [by left|].
  destruct (decide (c1 = c2)) as [->|Hne]; [by left|].
  cbv zeta. destruct (fge _ cn); [|by left]. right. by exists c1, c2.
Qed.

(** *** The whitelist *)

Lemma rmap_strings (wl : list string) :
  Forall (fun a => a <> "") wl ->
  rmap (fun e => panicOnErr (ValAddressFromBech32 e)) (ValAddress_String <$> wl) = Ok wl.
Proof.
  induction 1 as [|a wl Ha Hwl IH]; [done|]. rewrite fmap_cons. cbn [rmap]. rewrite ValAddress_roundtrip by done.
  cbn [panicOnErr rbind]. by rewrite IH.
Qed.

Lemma existsb_elem a (l : list string) : existsb (String.eqb a) l = bool_decide (a ∈ l).
Proof.
  symmetry. destruct (existsb _ l) eqn:E.
  - apply existsb_exists in E as (b & Hb & ->%String.eqb_eq). by apply bool_decide_eq_true, list_elem_of_In.
  - apply bool_decide_eq_false. intros Hin. assert (existsb (String.eqb a) l = true); [|congruence].
    apply existsb_exists. exists a. split; [by apply list_elem_of_In|]. apply String.eqb_refl.
Qed.

(** Membership in the whitelist, for a readable store. *)
Lemma ValidateAddress_spec s wl a :
  GetOracleWhiteList s = Ok wl -> ValidateAddress a s = Ok (bool_decide (a ∈ wl)).
Proof.
  intros Hwl. unfold ValidateAddress, ExistsOracleWhiteList. destruct (o_whitelist s) as [l|] eqn:E.
  - rewrite bool_decide_true by (by eexists). cbn [negb]. rewrite Hwl. cbn [rbind]. f_equal.
    apply existsb_elem.
  - rewrite bool_decide_false by (by intros [? ?]). unfold GetOracleWhiteList in Hwl. rewrite E in Hwl.
    injection Hwl as <-. by rewrite bool_decide_false by apply not_elem_of_nil.
Qed.

Lemma SetOracleWhiteList_read wl s s' u :
  Forall (fun a => a <> "") wl -> SetOracleWhiteList wl s = (s', Ok u) ->
  GetOracleWhiteList s' = Ok wl /\ o_admin s' = o_admin s /\ o_prophecies s' = o_prophecies s.
Proof. intros Hne ->%mmodify_ok_inv. split; [|done]. unfold GetOracleWhiteList. simpl. by apply rmap_strings. Qed.

Lemma whitelist_update sender v op s s' u :
  v <> "" -> ProcessUpdateWhiteListValidator sender v op s = (s', Ok u) ->
  IsAdminAccount sender s = true /\ (op = "add" \/ op = "remove")
  /\ (exists wl wl', GetOracleWhiteList s = Ok wl /\ GetOracleWhiteList s' = Ok wl'
       /\ forall a, a ∈ wl' <-> if decide (a = v) then op = "add" else a ∈ wl)
  /\ o_admin s' = o_admin s /\ o_prophecies s' = o_prophecies s.
Proof.
  intros Hv Hr. unfold ProcessUpdateWhiteListValidator in Hr. get_step Hr. check_step Hr as Ha%negb_false_iff.
  split; [done|]. unfold AddOracleWhiteList, RemoveOracleWhiteList in Hr.
  destruct (String.eqb_spec op "add") as [->|Hadd]; [|destruct (String.eqb_spec op "remove") as [->|]; [|done]];
    get_step Hr; lift_step Hr as wl Hwl; pose proof (GetOracleWhiteList_nonempty _ _ Hwl) as Hne;
    apply SetOracleWhiteList_read in Hr as (Hr & ? & ?).
  - split_and!; [by left| |done|done]. eexists _, _. split_and!; [done|done|]. intros a.
    rewrite elem_of_app, list_elem_of_singleton. case_decide; naive_solver.
  - apply Forall_app. by split; [|constructor].
  - split_and!; [by right| |done|done]. eexists _, _. split_and!; [done|done|]. intros a.
    rewrite list_elem_of_filter. case_decide; naive_solver.
  - apply Forall_forall. intros a [_ Ha']%list_elem_of_filter. by eapply Forall_forall in Hne.
Qed.

Lemma whitelist_update_frame sender v op s s' r :
  ProcessUpdateWhiteListValidator sender v op s = (s', r) -> o_prophecies s' = o_prophecies s.
Proof.
  unfold ProcessUpdateWhiteListValidator, AddOracleWhiteList, RemoveOracleWhiteList, SetOracleWhiteList, mbnd, mgets, mlift,
    mmodify, mfail_if, mthrow, mret. intros Hr. repeat case_match; simplify_eq; done.
Qed.

(** *** Runs of the oracle *)

(** One keeper call, whatever its outcome; each uses its own staking state and loop order. *)
Inductive step `{!StakingLaws S V} (cn : float64) : OracleStore -> OracleStore -> Prop :=
| step_claim (o : MapOrder) (Ho : @MapOrderLaws o) (st : S) claim s s' r :
    @ProcessClaim _ S V _ o cn st claim s = (s', r) -> step cn s s'
| step_whitelist sender v op s s' r :
    ProcessUpdateWhiteListValidator sender v op s = (s', r) -> step cn s s'
| step_set_whitelist l s s' r : SetOracleWhiteList l s = (s', r) -> step cn s s'
| step_set_admin a s s' r : SetAdminAccount a s = (s', r) -> step cn s s'.

Lemma wf_store_frame s s' : o_prophecies s' = o_prophecies s -> wf_store s -> wf_store s'.
Proof. unfold wf_store. by intros ->. Qed.

Lemma step_wf `{!StakingLaws S V} cn s s' : positive cn -> wf_store s -> step cn s s' -> wf_store s'.
Proof.
  intros Hcn Hs Hst.
  destruct Hst as [o Ho st claim s s' [status|e|] Hr|? ? ? ? ? ? Hr|? ? ? ? Hr|? ? ? ? Hr].
  - by eapply ProcessClaim_ok in Hr as [? _].
  - by rewrite (ProcessClaim_atomic _ _ _ _ _ _ _ Hr eq_refl).
  - by rewrite (ProcessClaim_atomic _ _ _ _ _ _ _ Hr eq_refl).
  - by eapply wf_store_frame, Hs; eapply whitelist_update_frame.
  - injection Hr as <- _. by eapply wf_store_frame.
  - injection Hr as <- _. by eapply wf_store_frame.
Qed.

Lemma step_ballot `{!StakingLaws S V} cn s s' id :
  positive cn -> wf_store s -> step cn s s' ->
  Text (ballot s id).1 <> STATUS_TEXT_PENDING -> ballot s' id = ballot s id.
Proof.
  intros Hcn Hs Hst Hf.
  destruct Hst as [o Ho st claim s s' [status|e|] Hr|? ? ? ? ? ? Hr|? ? ? ? Hr|? ? ? ? Hr].
  - eapply ProcessClaim_ok in Hr as (_ & _ & Hp & _ & _ & Hrest); [|done..].
    destruct (decide (id = Claim_Id claim)) as [->|]; [done|by apply Hrest].
  - by rewrite (ProcessClaim_atomic _ _ _ _ _ _ _ Hr eq_refl).
  - by rewrite (ProcessClaim_atomic _ _ _ _ _ _ _ Hr eq_refl).
  - apply ballot_frame. by rewrite (whitelist_update_frame _ _ _ _ _ _ Hr).
  - by injection Hr as <- _.
  - by injection Hr as <- _.
Qed.

(** Votes are never withdrawn or changed. *)
Lemma step_votes `{!StakingLaws S V} cn s s' id :
  positive cn -> wf_store s -> step cn s s' -> (ballot s id).2 ⊆ (ballot s' id).2.
Proof.
  intros Hcn Hs Hst.
  destruct Hst as [o Ho st claim s s' [status|e|] Hr|? ? ? ? ? ? Hr|? ? ? ? Hr|? ? ? ? Hr].
  - eapply ProcessClaim_ok in Hr as (_ & _ & _ & Hnew & Hb & Hrest); [|done..].
    destruct (decide (id = Claim_Id claim)) as [->|Hne]; [|by rewrite Hrest].
    rewrite Hb. by apply insert_subseteq.
  - by rewrite (ProcessClaim_atomic _ _ _ _ _ _ _ Hr eq_refl).
  - by rewrite (ProcessClaim_atomic _ _ _ _ _ _ _ Hr eq_refl).
  - rewrite (ballot_frame s s' id); [done|]. by rewrite (whitelist_update_frame _ _ _ _ _ _ Hr).
  - by injection Hr as <- _.
  - by injection Hr as <- _.
Qed.

Lemma steps_wf `{!StakingLaws S V} cn s s' : positive cn -> wf_store s -> rtc (step cn) s s' -> wf_store s'.
Proof. intros Hcn Hs. induction 1; [done|]. eauto using step_wf. Qed.

(** ** Properties *)

(** C11: whatever keeper calls are made from a store with no prophecies (claims by anybody
    with any staking state, whitelist and admin changes, in any loop order), every
    prophecy can be read back; the two vote tables agree, no validator is listed twice,
    and a successful prophecy's final claim is a claim that somebody made. *)
Theorem prophecies_well_formed `{!StakingLaws S V} cn s0 s id :
  positive cn -> o_prophecies s0 = ∅ -> rtc (step cn) s0 s ->
  exists found, GetProphecy id s = Ok found /\ wf_prophecy (default (NewProphecy id) found).
Proof.
  intros Hcn Hempty Hst. assert (wf_store s) as Hs.
  { eapply steps_wf; [done| |done]. intros k db Hl. by rewrite Hempty, lookup_empty in Hl. }
  pose proof (GetProphecy_total id s Hs) as Ht. destruct (GetProphecy id s) as [found| |] eqn:E; try done.
  exists found. split; [done|]. by apply (GetProphecy_wf _ _ _ Hs E).
Qed.

(** C12: once a prophecy has succeeded or failed, no sequence of keeper calls changes its
    status, its final claim or the votes on it; and a vote is never withdrawn or changed. *)
Theorem finalized_forever `{!StakingLaws S V} cn s s' id :
  positive cn -> wf_store s -> rtc (step cn) s s' ->
  (Text (ballot s id).1 <> STATUS_TEXT_PENDING -> ballot s' id = ballot s id)
  /\ (ballot s id).2 ⊆ (ballot s' id).2.
Proof.
  intros Hcn Hs Hst. induction Hst as [s|s s1 s' Hst Hsts IH]; [done|].
  destruct IH as [IH1 IH2]; [by eapply step_wf|]. split.
  - intros Hf. pose proof (step_ballot _ _ _ _ Hcn Hs Hst Hf) as E. rewrite <- E in Hf |- *. by apply IH1.
  - etrans; [|exact IH2]. by eapply step_votes.
Qed.

(** an accepted claim was made by a whitelisted validator that is bonded, on a pending
    prophecy this validator had not voted on; it adds exactly that vote, the returned
    status is the stored one, and every other prophecy is untouched. *)
Theorem accepted_claim (o : MapOrder) `{!@MapOrderLaws o, !StakingLaws S V} cn st claim s s' status :
  positive cn -> wf_store s -> ProcessClaim (S := S) (V := V) cn st claim s = (s', Ok status) ->
  (exists wl a, GetOracleWhiteList s = Ok wl /\ a ∈ wl /\ ValAddress_String a = ValidatorAddress claim
     /\ checkActiveValidator st a = true)
  /\ Text (ballot s (Claim_Id claim)).1 = STATUS_TEXT_PENDING
  /\ (ballot s (Claim_Id claim)).2 !! ValidatorAddress claim = None
  /\ ballot s' (Claim_Id claim)
     = (status, <[ValidatorAddress claim := Content claim]> (ballot s (Claim_Id claim)).2)
  /\ forall id, id <> Claim_Id claim -> ballot s' id = ballot s id.
Proof. intros Hcn Hs Hr. by apply (ProcessClaim_ok o cn st claim s s' status Hcn Hs) in Hr as [_ ?]. Qed.

(** C13: a claim with an identifier and a content by a whitelisted, bonded validator is
    refused exactly when the prophecy is finalized or the validator already voted on it,
    with the store unchanged; in every other case it is accepted. *)
Theorem claim_outcome (o : MapOrder) cn st claim s wl a :
  wf_store s -> GetOracleWhiteList s = Ok wl -> a ∈ wl -> ValAddress_String a = ValidatorAddress claim ->
  checkActiveValidator st a = true -> Claim_Id claim <> "" -> Content claim <> "" ->
  let b := ballot s (Claim_Id claim) in
  let r := ProcessClaim (S := S) (V := V) cn st claim s in
  if decide (Text b.1 <> STATUS_TEXT_PENDING) then r = (s, Err ErrProphecyFinalized)
  else if decide (is_Some (b.2 !! ValidatorAddress claim)) then r = (s, Err ErrDuplicateMessage)
  else exists s' status, r = (s', Ok status).
Proof. apply ProcessClaim_outcome. Qed.

(** C14: two nodes whose runtimes visit the claims of a prophecy in different orders decide
    alike whenever no two claims tie for the highest power; if they differ, both decide
    the prophecy successful, for two different claims of the prophecy that no claim of it
    outweighs. *)
Theorem completion_order (o1 o2 : MapOrder) `{!@MapOrderLaws o1, !@MapOrderLaws o2} cn st p s :
  wf_prophecy p ->
  let r1 := @processCompletion _ S V _ o1 cn st p s in let r2 := @processCompletion _ S V _ o2 cn st p s in
  exists m, ClaimValidators p = Some m
    /\ ((forall c1 c2, most_voted st m c1 -> most_voted st m c2 -> c1 = c2) -> r1 = r2)
    /\ (r1 = r2 \/ exists c1 c2, c1 <> c2 /\ most_voted st m c1 /\ most_voted st m c2
         /\ r1 = (s, Ok (decided_for p c1)) /\ r2 = (s, Ok (decided_for p c2))).
Proof.
  intros (m & _ & Hm & _) r1 r2. exists m. split; [done|].
  pose proof (processCompletion_order o1 o2 cn st p s m Hm) as Hd. cbv zeta in Hd. fold r1 r2 in Hd. split; [|done].
  intros Hone. destruct Hd as [?|(c1 & c2 & Hne & H1' & H2' & _)]; [done|]. destruct Hne. by apply Hone.
Qed.

(** only the admin account changes the whitelist, and only by [add] or [remove];
    afterwards an address passes [ValidateAddress] exactly when it did before, except
    for the named validator, and the prophecies and the admin are untouched. *)
Theorem whitelist_update_spec sender v op s s' u :
  v <> "" -> ProcessUpdateWhiteListValidator sender v op s = (s', Ok u) ->
  IsAdminAccount sender s = true
  /\ (op = "add" /\ ValidateAddress v s' = Ok true \/ op = "remove" /\ ValidateAddress v s' = Ok false)
  /\ (forall a, a <> v -> ValidateAddress a s' = ValidateAddress a s)
  /\ o_admin s' = o_admin s /\ o_prophecies s' = o_prophecies s.
Proof.
  intros Hv Hr. destruct (whitelist_update _ _ _ _ _ _ Hv Hr) as (Ha & Hop & (wl & wl' & Hwl & Hwl' & Hin) & ? & ?).
  split_and!; [done| | |done|done].
  - rewrite (ValidateAddress_spec _ _ _ Hwl'). specialize (Hin v). rewrite decide_True in Hin by done.
    destruct Hop as [->| ->]; [left|right]; (split; [done|]).
    + by rewrite bool_decide_true by (by apply Hin).
    + by rewrite bool_decide_false by (by intros ?%Hin).
  - intros a Hne. rewrite (ValidateAddress_spec _ _ _ Hwl'), (ValidateAddress_spec _ _ _ Hwl). f_equal.
    specialize (Hin a). rewrite decide_False in Hin by done. by apply bool_decide_ext.
Qed.

(** A well-formed prophecy survives being written to the store and read back. *)
Theorem prophecy_roundtrip p s s' u :
  wf_prophecy p -> SetProphecy p s = (s', Ok u) -> GetProphecy (ID p) s' = Ok (Some p).
Proof.
  intros Hwf Hr. destruct (SetProphecy_ok _ _ _ _ Hwf Hr) as (db & Hid & Hd & _ & ->). unfold GetProphecy. simpl.
  by rewrite lookup_insert_eq, Hd.
Qed.
End Lemmas.

(** ** Examples *)

Section Examples.
#[local] Existing Instances RefAddress RefAddress_laws RefOrder RefOrder_laws.

(** Three validators; the last one is not bonded. *)
Record ExValidator := mkExValidator { ex_op : string; ex_bonded : bool; ex_power : N }.
Definition ex_staking : StakingKeeper unit ExValidator := {|
  GetValidator _ a :=
    find (fun v => String.eqb (ex_op v) a)
      [mkExValidator "alice" true 60; mkExValidator "bob" true 40; mkExValidator "carol" false 5];
  GetBondedValidatorsByPower _ := [mkExValidator "alice" true 60; mkExValidator "bob" true 40];
  IsBonded := ex_bonded;
  OperatorAddress v := ValAddress_String (ex_op v);
  GetOperator := ex_op;
  GetConsensusPower v := Z.of_N (ex_power v);
|}.
#[local] Existing Instance ex_staking.
Lemma ex_staking_laws : StakingLaws unit ExValidator.
Proof. split; [intros v; apply N2Z.is_nonneg|by intros st|intros []; apply (bool_decide_unpack (NoDup _)); by vm_compute]. Qed.
#[local] Existing Instance ex_staking_laws.

Definition ex_store : OracleStore := mkOracleStore (Some ["sifvaloper1alice"; "sifvaloper1bob"]) (Some "admin") ∅.
Definition ex_claim (v : string) : Claim := NewClaim "tx1" ("sifvaloper1" +:+ v) "lock 5 eth".
Definition ex_after (v : string) (s : OracleStore) : OracleStore :=
  (ProcessClaim (S := unit) (V := ExValidator) DefaultConsensusNeeded tt (ex_claim v) s).1.

Lemma ex_positive : positive DefaultConsensusNeeded.
Proof. reflexivity. Qed.
Lemma ex_wf : wf_store ex_store.
Proof. intros k db Hl. unfold ex_store in Hl. cbn [o_prophecies] in Hl. by rewrite lookup_empty in Hl. Qed.
Lemma ex_step v s : step (S := unit) (V := ExValidator) DefaultConsensusNeeded s (ex_after v s).
Proof. eapply (step_claim _ RefOrder RefOrder_laws tt (ex_claim v)). apply surjective_pairing. Qed.
Lemma ex_steps : rtc (step (S := unit) (V := ExValidator) DefaultConsensusNeeded) ex_store (ex_after "bob" (ex_after "alice" ex_store)).
Proof. eapply rtc_l; [apply ex_step|]. eapply rtc_l; [apply ex_step|]. done. Qed.

Example ex_decided :
  (ballot (ex_after "alice" ex_store) "tx1").1 = mkStatus STATUS_TEXT_PENDING ""
  /\ (ballot (ex_after "bob" (ex_after "alice" ex_store)) "tx1").1 = mkStatus STATUS_TEXT_SUCCESS "lock 5 eth".
Proof. by vm_compute. Qed.

Lemma prophecies_well_formed_witness :
  exists found, GetProphecy "tx1" (ex_after "bob" (ex_after "alice" ex_store)) = Ok found
  /\ wf_prophecy (default (NewProphecy "tx1") found).
Proof. apply (prophecies_well_formed DefaultConsensusNeeded ex_store _ "tx1" ex_positive eq_refl ex_steps). Defined.

Lemma finalized_forever_witness :
  ballot (ex_after "alice" (ex_after "bob" (ex_after "alice" ex_store))) "tx1"
  = ballot (ex_after "bob" (ex_after "alice" ex_store)) "tx1".
Proof.
  pose proof (finalized_forever DefaultConsensusNeeded (ex_after "bob" (ex_after "alice" ex_store))
    (ex_after "alice" (ex_after "bob" (ex_after "alice" ex_store))) "tx1" ex_positive
    (steps_wf _ _ _ ex_positive ex_wf ex_steps) (rtc_once _ _ (ex_step "alice" _))) as [Hf _].
  apply Hf. rewrite (proj2 ex_decided). discriminate.
Defined.

Lemma accepted_claim_witness :
  (ballot (ex_after "alice" ex_store) "tx1").2 = <["sifvaloper1alice" := "lock 5 eth"]> (ballot ex_store "tx1").2.
Proof.
  pose proof (accepted_claim RefOrder DefaultConsensusNeeded tt (ex_claim "alice") ex_store (ex_after "alice" ex_store)
    (mkStatus STATUS_TEXT_PENDING "") ex_positive ex_wf) as Hac.
  destruct Hac as (_ & _ & _ & Hb & _); [|simpl in Hb; by rewrite Hb].
  apply run_ok. by vm_compute.
Defined.

Lemma claim_outcome_witness :
  ProcessClaim (S := unit) (V := ExValidator) DefaultConsensusNeeded tt (ex_claim "bob") (ex_after "bob" ex_store)
  = (ex_after "bob" ex_store, Err ErrDuplicateMessage).
Proof.
  assert (Text (ballot (ex_after "bob" ex_store) "tx1").1 = STATUS_TEXT_PENDING) as Hp by by vm_compute.
  assert ((ballot (ex_after "bob" ex_store) "tx1").2 !! "sifvaloper1bob" = Some "lock 5 eth") as Hv by by vm_compute.
  assert (GetOracleWhiteList (ex_after "bob" ex_store) = Ok ["alice"; "bob"]) as Hwl by by vm_compute.
  pose proof (claim_outcome RefOrder DefaultConsensusNeeded tt (ex_claim "bob") (ex_after "bob" ex_store)
    ["alice"; "bob"] "bob" (step_wf _ _ _ ex_positive ex_wf (ex_step "bob" ex_store)) Hwl
    ltac:(right; left) eq_refl eq_refl ltac:(discriminate) ltac:(discriminate)) as Hc. cbv zeta in Hc.
  destruct (decide (Text _ <> _)) as [Hn|_] in Hc; [by destruct (Hn Hp)|].
  destruct (decide (is_Some _)) as [_|Hn] in Hc; [exact Hc|]. destruct Hn. eexists. exact Hv.
Defined.

(** Another order of the same loop. *)
Definition rev_order : MapOrder := {| map_range V m := rev (map_to_list m) |}.
Lemma rev_order_laws : @MapOrderLaws rev_order.
Proof. split. intros V m. symmetry. apply Permutation_rev. Qed.

(** Alice and bob reported different contents. *)
Definition ex_claims : KV (list string) := <["lock 7 eth" := ["bob"]]> (<["lock 5 eth" := ["alice"]]> ∅).
Definition ex_vote (v c : string) (p : Prophecy) : Prophecy :=
  match AddClaim p v c with Ok p' => p' | _ => p end.
Definition ex_split : Prophecy := ex_vote "bob" "lock 7 eth" (ex_vote "alice" "lock 5 eth" (NewProphecy "tx1")).
Lemma ex_split_wf : wf_prophecy ex_split.
Proof.
  unfold ex_split.
  destruct (AddClaim_wf (NewProphecy "tx1") "alice" "lock 5 eth" ∅ (wf_NewProphecy _)) as (p1 & E1 & Hwf1 & _ & Hs1 & Hv1);
    [done..|].
  destruct (AddClaim_wf p1 "bob" "lock 7 eth" (<[ValAddress_String "alice" := "lock 5 eth"]> ∅) Hwf1)
    as (p2 & E2 & Hwf2 & _); [done|done|exact Hv1|done|by rewrite Hs1|].
  unfold ex_vote. by rewrite E1, E2.
Qed.

Definition ex_half : float64 := S754_finite false 4503599627370496 (-53).

(** The two orders visit the claims differently and alice's claim wins in both. *)
Lemma completion_order_witness :
  let r o := @processCompletion _ unit ExValidator _ o ex_half tt ex_split ex_store in
  @map_range RefOrder _ ex_claims <> @map_range rev_order _ ex_claims
  /\ r RefOrder = r rev_order /\ r RefOrder = (ex_store, Ok (decided_for ex_split "lock 5 eth")).
Proof.
  intros r. split; [by vm_compute|]. split; [|by vm_compute].
  destruct (@completion_order _ unit ExValidator _ RefOrder rev_order RefOrder_laws rev_order_laws ex_half tt
    ex_split ex_store ex_split_wf) as (m & [= <-] & Hone & _).
  apply Hone. intros c1 c2 (v1 & Hv1 & Hm1) (v2 & Hv2 & Hm2).
  assert (forall c v, ex_claims !! c = Some v -> map_Forall (fun _ vs' =>
    claim_power (validatorsByAddress (GetBondedValidatorsByPower tt)) vs'
    <= claim_power (validatorsByAddress (GetBondedValidatorsByPower tt)) v) ex_claims -> c = "lock 5 eth") as Hwin.
  { intros c v Hv Hm. unfold ex_claims in Hv. apply lookup_insert_Some in Hv as [[<- <-]|[_ Hv]].
    - exfalso. assert (ex_claims !! "lock 5 eth" = Some ["alice"]) as Hl by by vm_compute.
      apply (Hm _ _ Hl). by vm_compute.
    - clear Hm. apply lookup_insert_Some in Hv as [[<- _]|[_ Hv]]; [reflexivity|].
      rewrite lookup_empty in Hv. discriminate Hv. }
  etrans; [by eapply Hwin|symmetry; by eapply Hwin].
Defined.

(** A tie: alice and bob have equal power, and bob has left the whitelist since he voted. *)
Definition ex_even_staking : StakingKeeper unit ExValidator := {|
  GetValidator _ a := find (fun v => String.eqb (ex_op v) a) [mkExValidator "alice" true 50; mkExValidator "bob" true 50];
  GetBondedValidatorsByPower _ := [mkExValidator "alice" true 50; mkExValidator "bob" true 50];
  IsBonded := ex_bonded;
  OperatorAddress v := ValAddress_String (ex_op v);
  GetOperator := ex_op;
  GetConsensusPower v := Z.of_N (ex_power v);
|}.
Example ex_tie :
  let s := mkOracleStore (Some ["sifvaloper1alice"]) (Some "admin") ∅ in
  let r o := @processCompletion _ unit ExValidator ex_even_staking o DefaultConsensusNeeded tt ex_split s in
  let (c1, c2) := ("lock 5 eth", "lock 7 eth") in
  (r RefOrder, r rev_order) = ((s, Ok (decided_for ex_split c1)), (s, Ok (decided_for ex_split c2)))
  \/ (r RefOrder, r rev_order) = ((s, Ok (decided_for ex_split c2)), (s, Ok (decided_for ex_split c1))).
Proof. vm_compute. tauto. Qed.

Lemma whitelist_update_spec_witness :
  let s' := (ProcessUpdateWhiteListValidator "admin" "carol" "add" ex_store).1 in ValidateAddress "carol" s' = Ok true.
Proof.
  destruct (whitelist_update_spec "admin" "carol" "add" ex_store
    (ProcessUpdateWhiteListValidator "admin" "carol" "add" ex_store).1 tt) as (_ & [[_ E]|[? _]] & _);
    [done|by apply run_ok|done|done].
Defined.

Lemma prophecy_roundtrip_witness :
  GetProphecy "tx1" (SetProphecy (NewProphecy "tx1") ex_store).1 = Ok (Some (NewProphecy "tx1")).
Proof. apply (prophecy_roundtrip (NewProphecy "tx1") ex_store _ tt (wf_NewProphecy "tx1") eq_refl). Defined.

(** The votes of a bonded validator keep their power after it is removed from the
    whitelist, while its power leaves the total: alice votes for one claim and is
    removed; when bob, the only whitelisted validator left, votes for another claim, the
    prophecy succeeds with alice's. *)
Example removed_validator_decides :
  let vote v c := ProcessClaim (S := unit) (V := ExValidator) DefaultConsensusNeeded tt
                    (NewClaim "tx1" ("sifvaloper1" +:+ v) c) in
  ((run! vote "alice" "pay mallory";
    run! ProcessUpdateWhiteListValidator "admin" "alice" "remove";
    vote "bob" "pay bob") ex_store).2 = Ok (mkStatus STATUS_TEXT_SUCCESS "pay mallory").
Proof. by vm_compute. Qed.
End Examples.
End Oracle.
