(* ===== verification/Ballot.v ===== *)
(** * The oracle as a ballot

    What x/oracle promises, without its tables: a prophecy is a status and a finite map
    from validators to claims.  A vote adds one entry; the power behind a claim is the
    exact sum of the powers of the bonded validators that voted for it; the prophecy
    succeeds with a claim nobody beats as soon as that claim's share of the whitelisted
    power reaches the needed one, and fails when even all the missing votes could not
    bring it there.  The theorem shows that the keeper (two JSON tables per prophecy,
    int64 sums, a loop in random order) refines this machine. *)

From Stdlib Require Import ZArith Lia Ascii String.
From stdpp Require Import base list gmap strings relations.
From S2P Require Import Prelude SdkMath Sdk Json Oracle.

Module Ballot.
Import Oracle.

Section Spec.
Context {S V : Type} `{StakingKeeper S V}.

(** The power of the validators of a list that satisfy a test. *)
Definition power_where (P : V -> bool) (l : list V) : Z :=
  foldr (fun v acc => (if P v then GetConsensusPower v else 0) + acc) 0 l.

Definition support (st : S) (votes : KV string) (c : string) : Z :=
  power_where (fun v => bool_decide (votes !! OperatorAddress v = Some c)) (GetBondedValidatorsByPower st).
Definition voted (st : S) (votes : KV string) : Z :=
  power_where (fun v => bool_decide (is_Some (votes !! OperatorAddress v))) (GetBondedValidatorsByPower st).
Definition eligible (st : S) (wl : list string) : Z :=
  power_where (fun v => inWhiteList v wl) (GetBondedValidatorsByPower st).
Definition share (power total : Z) : float64 := fdiv (float64_of_int64 power) (float64_of_int64 total).

(** A claim that somebody made and that no other claim beats. *)
Definition leader (st : S) (votes : KV string) (c : string) : Prop :=
  (exists k, votes !! k = Some c) /\ forall k c', votes !! k = Some c' -> support st votes c' <= support st votes c.

(** What the votes make of a pending status. *)
Inductive decides (cn : float64) (st : S) (wl : list string) (votes : KV string) (old : Status) : Status -> Prop :=
| decides_success c : leader st votes c ->
    fge (share (support st votes c) (eligible st wl)) cn = true ->
    decides cn st wl votes old (mkStatus STATUS_TEXT_SUCCESS c)
| decides_failure c : leader st votes c ->
    fge (share (support st votes c) (eligible st wl)) cn = false ->
    flt (share (support st votes c + (eligible st wl - voted st votes)) (eligible st wl)) cn = true ->
    decides cn st wl votes old (mkStatus STATUS_TEXT_FAILED (FinalClaim old))
| decides_open c : leader st votes c ->
    fge (share (support st votes c) (eligible st wl)) cn = false ->
    flt (share (support st votes c + (eligible st wl - voted st votes)) (eligible st wl)) cn = false ->
    decides cn st wl votes old old.

(** One vote on one prophecy, with some staking state and some whitelist. *)
Inductive vote `{SdkAddress} (cn : float64) : Status * KV string -> Status * KV string -> Prop :=
| vote_cast st wl a c old votes new :
    Text old = STATUS_TEXT_PENDING -> a ∈ wl -> checkActiveValidator st a = true -> c <> "" ->
    votes !! ValAddress_String a = None ->
    decides cn st wl (<[ValAddress_String a := c]> votes) old new ->
    vote cn (old, votes) (new, <[ValAddress_String a := c]> votes).
End Spec.

Section Refinement.
Context `{SdkAddressLaws} {S V : Type} `{!StakingKeeper S V, !StakingLaws S V}.

(** *** Sums of powers *)

Lemma power_where_ext (P Q : V -> bool) l : Forall (fun v => P v = Q v) l -> power_where P l = power_where Q l.
Proof. unfold power_where. induction 1 as [|v l E _ IH]; simpl; [done|]. by rewrite E, IH. Qed.

Lemma power_where_mono (P Q : V -> bool) l :
  Forall (fun v => P v = true -> Q v = true) l -> 0 <= power_where P l <= power_where Q l.
Proof.
  unfold power_where. induction 1 as [|v l HPQ _ IH]; simpl; [lia|]. pose proof (GetConsensusPower_nonneg v).
  destruct (P v); [rewrite HPQ by done; lia|]. destruct (Q v); lia.
Qed.

Lemma power_where_bound (P : V -> bool) st : 0 <= power_where P (GetBondedValidatorsByPower st) < 2 ^ 63.
Proof.
  pose proof (power_where_mono P (fun _ => true) (GetBondedValidatorsByPower st)) as Hm.
  specialize (Hm ltac:(by apply Forall_forall)). pose proof (bonded_power_bound st) as Hb.
  replace (power_where (fun _ => true) (GetBondedValidatorsByPower st))
    with (foldr (fun v acc => GetConsensusPower v + acc) 0 (GetBondedValidatorsByPower st)) in Hm by done. lia.
Qed.

(** An int64 sum of non-negative terms that stays in range is exact. *)
Lemma fold_i64 {A} (f : A -> Z) (step : Z -> A -> Z) l t :
  (forall x, 0 <= f x) -> (forall t x, 0 <= t -> t + f x < 2 ^ 63 -> step t x = t + f x) ->
  0 <= t -> t + foldr (fun x acc => f x + acc) 0 l < 2 ^ 63 ->
  fold_left step l t = t + foldr (fun x acc => f x + acc) 0 l.
Proof.
  intros Hf Hs. revert t. induction l as [|x l IH]; intros t Ht Hb; simpl in *; [lia|].
  assert (0 <= foldr (fun x acc => f x + acc) 0 l) by (clear -Hf; induction l as [|y l IH]; simpl; [lia|]; specialize (Hf y); lia).
  pose proof (Hf x). rewrite Hs, IH by lia. lia.
Qed.

Lemma whitelist_power_eq st wl : whitelist_power (GetBondedValidatorsByPower st) wl = eligible st wl.
Proof.
  unfold whitelist_power, eligible. rewrite (fold_i64 (fun v => if inWhiteList v wl then GetConsensusPower v else 0)).
  - by rewrite Z.add_0_l.
  - intros v. pose proof (GetConsensusPower_nonneg v). destruct (inWhiteList v wl); lia.
  - intros t v Ht Hb. pose proof (GetConsensusPower_nonneg v). destruct (inWhiteList v wl); [|lia]. apply i64_small. lia.
  - done.
  - apply (power_where_bound (fun v => inWhiteList v wl)).
Qed.

(** *** The votes for one claim *)

Lemma byAddress_listing l :
  NoDup (OperatorAddress <$> l) -> validatorsByAddress l = list_to_map ((fun v => (OperatorAddress v, v)) <$> l) (M := KV V).
Proof.
  intros Hnd. unfold validatorsByAddress. rewrite <- (right_id_L ∅ (∪) (list_to_map _)). generalize (∅ : KV V) as m.
  induction l as [|v l IH]; intros m; [simpl; by rewrite (left_id_L ∅ (∪))|]. cbn in Hnd. apply NoDup_cons in Hnd as [Hv Hnd].
  cbn [fold_left]. rewrite IH by done. rewrite fmap_cons. simpl.
  rewrite <- insert_union_r, insert_union_l; [done|]. apply not_elem_of_list_to_map_1. by rewrite <- list_fmap_compose.
Qed.

(** The powers found under a list of distinct keys. *)
Lemma lookup_sum (ks : list string) (l : list V) :
  NoDup ks -> NoDup (OperatorAddress <$> l) ->
  foldr (fun k acc => from_option GetConsensusPower 0 ((list_to_map ((fun v => (OperatorAddress v, v)) <$> l) : KV V) !! k) + acc) 0 ks
  = power_where (fun v => bool_decide (OperatorAddress v ∈ ks)) l.
Proof.
  intros Hks. induction l as [|v l IH]; intros Hnd.
  - clear Hks. induction ks as [|k ks IH]; simpl; [done|]. rewrite lookup_empty. simpl. exact IH.
  - cbn in Hnd. apply NoDup_cons in Hnd as [Hv Hnd]. specialize (IH Hnd). cbn [power_where foldr]. fold (power_where (fun v => bool_decide (OperatorAddress v ∈ ks)) l).
    rewrite <- IH. rewrite fmap_cons. simpl list_to_map.
    assert ((list_to_map ((fun v => (OperatorAddress v, v)) <$> l) : KV V) !! OperatorAddress v = None) as Hn.
    { apply not_elem_of_list_to_map_1. by rewrite <- list_fmap_compose. }
    generalize dependent (list_to_map ((fun v => (OperatorAddress v, v)) <$> l) : KV V). intros m _ Hn. clear Hv Hnd.
    induction Hks as [|k ks Hk Hks IH]; [done|]. cbn [foldr]. rewrite IH.
    destruct (decide (OperatorAddress v = k)) as [<-|Hne].
    + rewrite lookup_insert_eq, Hn. simpl. rewrite (bool_decide_true (_ ∈ _ :: _)) by by left.
      rewrite (bool_decide_false (_ ∈ ks)) by done. lia.
    + rewrite lookup_insert_ne by done.
      rewrite (bool_decide_ext (OperatorAddress v ∈ k :: ks) (OperatorAddress v ∈ ks)); [lia|]. rewrite elem_of_cons. naive_solver.
Qed.

Lemma claim_power_support st cv vc c vs :
  consistent cv vc -> cv !! c = Some vs ->
  claim_power (validatorsByAddress (GetBondedValidatorsByPower st)) vs = support st vc c.
Proof.
  intros [Hcv Hvc] Hl. destruct (Hcv _ _ Hl) as (_ & Hnd & Hall). set (l := GetBondedValidatorsByPower st).
  assert (NoDup (ValAddress_String <$> vs)) as Hks.
  { clear -H0 Hnd Hall. induction Hnd as [|v vs Hv Hnd IH]; [constructor|]. rewrite fmap_cons. constructor.
    - intros (w & E & Hw)%list_elem_of_fmap. apply ValAddress_String_inj in E as ->; [done|apply Hall..]; [by left|by right].
    - apply IH. intros w Hw. apply Hall. by right. }
  assert (support st vc c = power_where (fun v => bool_decide (OperatorAddress v ∈ ValAddress_String <$> vs)) l) as ->.
  { apply power_where_ext, Forall_forall. intros v _. apply bool_decide_ext. rewrite list_elem_of_fmap. split.
    - intros E. destruct (Hvc _ _ E) as (_ & w & vs' & Ek & Hl' & Hw). exists w. split; [done|]. congruence.
    - intros (w & -> & Hw). by apply Hall. }
  pose proof (bonded_distinct st) as Hd. fold l in Hd. rewrite <- (lookup_sum _ _ Hks Hd), <- byAddress_listing by done.
  assert (forall a, 0 <= from_option GetConsensusPower 0 (validatorsByAddress l !! a)) as Hpos.
  { intros a. destruct (validatorsByAddress l !! a); simpl; [apply GetConsensusPower_nonneg|done]. }
  unfold claim_power. rewrite (fold_i64 (fun a => from_option GetConsensusPower 0 (validatorsByAddress l !! ValAddress_String a))).
  - rewrite Z.add_0_l. clear. induction vs as [|v vs IH]; [done|]. rewrite fmap_cons. cbn [foldr]. by rewrite IH.
  - intros a. apply Hpos.
  - intros t a Ht Hb. destruct (validatorsByAddress l !! ValAddress_String a); simpl in *; [|lia]. pose proof (GetConsensusPower_nonneg v).
    apply i64_small. lia.
  - done.
  - rewrite Z.add_0_l. pose proof (power_where_bound (fun v => bool_decide (OperatorAddress v ∈ ValAddress_String <$> vs)) st) as Hb.
    fold l in Hb. rewrite <- (lookup_sum _ _ Hks Hd), <- byAddress_listing in Hb by done.
    replace (foldr (fun a acc => from_option GetConsensusPower 0 (validatorsByAddress l !! ValAddress_String a) + acc) 0 vs)
      with (foldr (fun k acc => from_option GetConsensusPower 0 (validatorsByAddress l !! k) + acc) 0 (ValAddress_String <$> vs)); [lia|].
    clear. induction vs as [|v vs IH]; [done|]. rewrite fmap_cons. cbn [foldr]. by rewrite IH.
Qed.

(** *** All the votes *)

(** A sum over the claims of a table, exchanged with the sum over the validators. *)
Lemma support_sum st votes (cs : list string) :
  NoDup cs -> (forall k c, votes !! k = Some c -> c ∈ cs) ->
  foldr (fun c acc => support st votes c + acc) 0 cs = voted st votes.
Proof.
  intros Hnd Hcs. unfold support, voted. generalize (GetBondedValidatorsByPower st) as l.
  induction l as [|v l IH].
  - clear. induction cs as [|c cs IH]; [done|]. cbn [foldr]. rewrite IH. done.
  - cbn [power_where foldr]. fold (power_where (fun v => bool_decide (is_Some (votes !! OperatorAddress v))) l). rewrite <- IH. clear IH.
    assert (forall cs, foldr (fun c acc => ((if bool_decide (votes !! OperatorAddress v = Some c) then GetConsensusPower v else 0)
        + power_where (fun v => bool_decide (votes !! OperatorAddress v = Some c)) l) + acc) 0 cs
      = foldr (fun c acc => (if bool_decide (votes !! OperatorAddress v = Some c) then GetConsensusPower v else 0) + acc) 0 cs
        + foldr (fun c acc => power_where (fun v => bool_decide (votes !! OperatorAddress v = Some c)) l + acc) 0 cs) as Hsplit.
    { clear. induction cs as [|c cs IH]; cbn [foldr]; [done|]. rewrite IH. lia. }
    unfold power_where in Hsplit |- *. cbn [foldr]. rewrite Hsplit. f_equal. clear Hsplit.
    destruct (votes !! OperatorAddress v) as [c0|] eqn:E.
    + rewrite (bool_decide_true (is_Some _)) by eauto. specialize (Hcs _ _ E). clear E.
      induction Hnd as [|c cs Hc Hnd IH]; [by apply not_elem_of_nil in Hcs|]. cbn [foldr]. destruct (decide (c0 = c)) as [->|Hne].
      * rewrite bool_decide_true by done.
        enough (foldr (fun c1 acc => (if bool_decide (Some c = Some c1) then GetConsensusPower v else 0) + acc) 0 cs = 0) by lia.
        clear -Hc. induction cs as [|c1 cs IH]; [done|]. apply not_elem_of_cons in Hc as [Hne Hc]. cbn [foldr].
        rewrite IH, bool_decide_false by (done || congruence). done.
      * rewrite bool_decide_false by congruence. rewrite IH; [done|]. by apply elem_of_cons in Hcs as [?|?].
    + rewrite (bool_decide_false (is_Some _)) by (by intros [? ?]). clear. induction cs as [|c cs IH]; [done|]. cbn [foldr]. rewrite IH.
      by rewrite bool_decide_false by done.
Qed.

Lemma total_voted st cv vc :
  consistent cv vc -> total (validatorsByAddress (GetBondedValidatorsByPower st)) (map_to_list cv) = voted st vc.
Proof.
  intros Hc. rewrite <- (support_sum st vc (map_to_list cv).*1).
  - unfold total. assert (forall l : list (string * list string), (forall c vs, (c, vs) ∈ l -> cv !! c = Some vs) ->
      foldr (fun kv acc => claim_power (validatorsByAddress (GetBondedValidatorsByPower st)) kv.2 + acc) 0 l
      = foldr (fun c acc => support st vc c + acc) 0 l.*1) as Hl.
    { induction l as [|[c vs] l IH]; intros Hin; [done|]. rewrite fmap_cons. cbn [foldr fst snd].
      rewrite IH by (intros; apply Hin; by right). by rewrite (claim_power_support st cv vc c) by (done || by apply Hin; left). }
    apply Hl. intros c vs. apply elem_of_map_to_list.
  - apply NoDup_fst_map_to_list.
  - intros k c Hk. destruct Hc as [_ Hvc]. destruct (Hvc _ _ Hk) as (_ & v & vs & _ & Hl & _). apply list_elem_of_fmap.
    exists (c, vs). split; [done|]. by apply elem_of_map_to_list.
Qed.

Lemma best_ge by_ l p c vs : (c, vs) ∈ l -> claim_power by_ vs <= best (V := V) by_ l p.
Proof.
  unfold best. induction l as [|kv l IH]; [by intros ?%not_elem_of_nil|]. intros [<-|Hin]%elem_of_cons; simpl; [lia|].
  specialize (IH Hin). lia.
Qed.

(** *** The decision *)

Lemma FindHighestClaim_leader (o : MapOrder) `{!@MapOrderLaws o} p st wl cv vc c h t T k0 c0 :
  ClaimValidators p = Some cv -> consistent cv vc -> vc !! k0 = Some c0 ->
  @FindHighestClaim _ S V _ o p st wl = (c, h, t, T) ->
  leader st vc c /\ h = support st vc c /\ t = voted st vc /\ T = eligible st wl.
Proof.
  intros Hcv Hc Hk Hf. destruct (FindHighestClaim_spec o p st wl cv c h t T Hcv Hf) as (Hh & Ht & HT & Hwin). cbv zeta in *.
  pose proof Hc as [Hc1 Hc2].
  assert (forall k c', vc !! k = Some c' -> support st vc c' <= h) as Hmax.
  { intros k c' Hk'. destruct (Hc2 _ _ Hk') as (_ & v & vs & _ & Hl & _). rewrite <- (claim_power_support st cv vc c' vs) by done.
    rewrite Hh. apply best_ge with c'. by apply elem_of_map_to_list. }
  assert (0 <= support st vc c0) by apply power_where_bound. specialize (Hmax _ _ Hk) as Hk0.
  destruct Hwin as [[-> _]|(_ & vs & Hl & Hp)]; [lia|]. rewrite (claim_power_support st cv vc c vs Hc Hl) in Hp. subst h.
  split_and!.
  - split; [|rewrite Hp; exact Hmax]. destruct (Hc1 _ _ Hl) as (Hne & _ & Hall). destruct vs as [|v vs]; [done|].
    exists (ValAddress_String v). apply Hall. by left.
  - done.
  - rewrite Ht, (total_voted st cv vc Hc). apply i64_small.
    pose proof (power_where_bound (fun v => bool_decide (is_Some (vc !! OperatorAddress v))) st) as Hb. fold (voted st vc) in Hb. lia.
  - rewrite HT. apply whitelist_power_eq.
Qed.

Lemma processCompletion_decides (o : MapOrder) `{!@MapOrderLaws o} cn st p s s' p' wl vc k0 c0 :
  wf_prophecy p -> ValidatorClaims p = Some vc -> vc !! k0 = Some c0 -> GetOracleWhiteList s = Ok wl ->
  processCompletion (S := S) (V := V) cn st p s = (s', Ok p') -> decides cn st wl vc (PStatus p) (PStatus p').
Proof.
  intros (cv & vc' & Hcv & Hvc' & Hc & _) Hvc Hk Hwl Hr. rewrite Hvc in Hvc'. injection Hvc' as <-.
  unfold processCompletion in Hr. get_step Hr. lift_step Hr as wl' Hwl'. rewrite Hwl in Hwl'. injection Hwl' as <-.
  destruct (FindHighestClaim p st wl) as [[[c h] t] T] eqn:Ef.
  destruct (FindHighestClaim_leader o p st wl cv vc c h t T k0 c0 Hcv Hc Hk Ef) as (Hlead & -> & -> & ->). cbv zeta in Hr.
  pose proof (power_where_bound (fun v => bool_decide (vc !! OperatorAddress v = Some c)) st) as Hb1. fold (support st vc c) in Hb1.
  pose proof (power_where_bound (fun v => inWhiteList v wl) st) as Hb2. fold (eligible st wl) in Hb2.
  pose proof (power_where_bound (fun v => bool_decide (is_Some (vc !! OperatorAddress v))) st) as Hb3. fold (voted st vc) in Hb3.
  assert (support st vc c <= voted st vc) as Hle.
  { apply power_where_mono, Forall_forall. intros v _. rewrite !bool_decide_eq_true. eauto. }
  rewrite (i64_small (eligible st wl - voted st vc)) in Hr by lia.
  rewrite (i64_small (support st vc c + (eligible st wl - voted st vc))) in Hr by lia.
  fold (share (support st vc c) (eligible st wl)) in Hr.
  fold (share (support st vc c + (eligible st wl - voted st vc)) (eligible st wl)) in Hr.
  destruct (fge _ cn) eqn:E1; [|destruct (flt _ cn) eqn:E2]; apply mret_ok_inv in Hr as [_ ->]; cbn [PStatus].
  - by apply decides_success.
  - by apply (decides_failure _ _ _ _ _ c).
  - by apply (decides_open _ _ _ _ _ c).
Qed.

(** An accepted claim is one vote. *)
Lemma ProcessClaim_vote (o : MapOrder) `{!@MapOrderLaws o} cn st claim s s' status :
  positive cn -> wf_store s -> ProcessClaim (S := S) (V := V) cn st claim s = (s', Ok status) ->
  vote (S := S) (V := V) cn (ballot s (Claim_Id claim)) (ballot s' (Claim_Id claim)).
Proof.
  intros Hcn Hs Hr.
  destruct (ProcessClaim_full o cn st claim s s' status Hcn Hs Hr)
    as (_ & (wl & a & Hwl & Hin & Ha & Hact) & Hpend & Hnew & Hb & _ & p & p' & Hwf & Hst & Hvc & Hne & Hcomp & Hp' & _).
  rewrite Hb. destruct (ballot s (Claim_Id claim)) as [old votes]. cbn [fst snd] in *. rewrite <- Ha in *.
  apply (vote_cast cn st wl a (Content claim)); try done. rewrite <- Hst, <- Hp'.
  apply (processCompletion_decides o cn st p s s p' wl _ (ValAddress_String a) (Content claim)); try done. apply lookup_insert_eq.
Qed.

Lemma step_vote cn s s' id :
  positive cn -> wf_store s -> step cn s s' ->
  ballot s' id = ballot s id \/ vote (S := S) (V := V) cn (ballot s id) (ballot s' id).
Proof.
  intros Hcn Hs Hst.
  destruct Hst as [o Ho st claim s s' [status|e|] Hr|? ? ? ? ? ? Hr|? ? ? ? Hr|? ? ? ? Hr].
  - destruct (decide (id = Claim_Id claim)) as [->|Hne]; [right; by eapply ProcessClaim_vote|left].
    by apply (ProcessClaim_ok o cn st claim s s' status Hcn Hs) in Hr as (_ & _ & _ & _ & _ & Hrest); apply Hrest.
  - left. by rewrite (ProcessClaim_atomic _ _ _ _ _ _ _ Hr eq_refl).
  - left. by rewrite (ProcessClaim_atomic _ _ _ _ _ _ _ Hr eq_refl).
  - left. apply ballot_frame. by rewrite (whitelist_update_frame _ _ _ _ _ _ Hr).
  - left. by injection Hr as <- _.
  - left. by injection Hr as <- _.
Qed.

(** ** Claims *)

(** C15: the oracle refines the ballot machine: whatever keeper calls are made, with any
    staking states, whitelists and loop orders, the status and the votes that a prophecy
    shows evolve by votes of whitelisted bonded validators only, and each vote is decided
    by the exact sums of the bonded powers behind the claims. *)
Theorem oracle_refines_ballot cn s s' id :
  positive cn -> wf_store s -> rtc (step (S := S) (V := V) cn) s s' ->
  rtc (vote (S := S) (V := V) cn) (ballot s id) (ballot s' id).
Proof.
  intros Hcn Hs Hst. induction Hst as [s|s s1 s' Hst Hsts IH]; [done|].
  specialize (IH (step_wf _ _ _ Hcn Hs Hst)). destruct (step_vote cn s s1 id Hcn Hs Hst) as [E|Hv]; [by rewrite <- E|].
  by eapply rtc_l.
Qed.
End Refinement.

(** ** Examples *)

Section Examples.
#[local] Existing Instances RefAddress RefAddress_laws RefOrder RefOrder_laws ex_staking ex_staking_laws.

Lemma oracle_refines_ballot_witness :
  rtc (vote (S := unit) (V := ExValidator) DefaultConsensusNeeded) (ballot ex_store "tx1")
    (ballot (ex_after "bob" (ex_after "alice" ex_store)) "tx1").
Proof.
  apply (oracle_refines_ballot DefaultConsensusNeeded ex_store (ex_after "bob" (ex_after "alice" ex_store)) "tx1"
    ex_positive ex_wf ex_steps).
Defined.
End Examples.
End Ballot.
