(* ===== verification/OracleGenesis.v ===== *)
(** * x/oracle/genesis.go: exporting and importing the oracle's state

    Every store that the keeper's calls can leave is exportable: its prophecies are in the
    form the keeper writes, its whitelist holds printed addresses, its admin is not empty.
    Importing the export of such a store gives it back. *)

From Stdlib Require Import ZArith Lia Ascii String.
From stdpp Require Import base list gmap strings.
From S2P Require Import Prelude SdkMath Sdk Frames Oracle.
Import Oracle.

(** A printed address is not blank. *)
Class AddressTextLaws `{SdkAddress} : Prop := {
  AccAddress_not_blank a : a <> "" -> str_len (TrimSpace (AccAddress_String a)) <> 0;
  ValAddress_not_blank a : a <> "" -> str_len (TrimSpace (ValAddress_String a)) <> 0;
}.

Lemma RefAddress_text : @AddressTextLaws RefAddress.
Proof.
  split; intros a Ha%String.eqb_neq; cbn; unfold ref_encode; rewrite Ha; by apply TrimSpace_nonblank.
Qed.

Section Genesis.
Context `{SdkAddressLaws}.
Implicit Types s : OracleStore.

Record exportable s : Prop := {
  ex_prophecies : forall k db, o_prophecies s !! k = Some db ->
    exists p, k = prophecy_key (ID p) /\ wf_prophecy p /\ SerializeForDB p = Ok db;
  ex_whitelist : forall l, o_whitelist s = Some l -> exists vs, Forall (fun v => v <> "") vs /\ l = ValAddress_String <$> vs;
  ex_admin : o_admin s <> Some "";
}.

Lemma serialized p db : wf_prophecy p -> SerializeForDB p = Ok db -> DB_Id db = ID p /\ DeserializeFromDB db = Ok p.
Proof. intros (db' & Hs & Hd)%serialize_roundtrip Hs'. rewrite Hs in Hs'. by injection Hs' as <-. Qed.

Lemma exportable_wf s : exportable s -> wf_store s.
Proof.
  intros [Hp _ _] k db (p & -> & Hwf & Hs)%Hp. destruct (serialized p db) as [Hid Hd]; [done..|].
  split; [by rewrite Hid|]. by exists p.
Qed.

Lemma exportable_whitelist s : exportable s ->
  exists vs, Forall (fun v => v <> "") vs /\ default [] (o_whitelist s) = ValAddress_String <$> vs /\ GetOracleWhiteList s = Ok vs.
Proof.
  intros [_ Hw _]. unfold GetOracleWhiteList. destruct (o_whitelist s) as [l|]; [|by exists []].
  destruct (Hw l) as (vs & Hne & ->); [done|]. exists vs. split_and!; [done..|]. by apply rmap_strings.
Qed.

(** *** The keeper's calls keep a store exportable *)

Lemma SetOracleWhiteList_exportable vs s s' u :
  Forall (fun v => v <> "") vs -> exportable s -> SetOracleWhiteList vs s = (s', Ok u) -> exportable s'.
Proof. intros Hne [Hp _ Ha] ->%mmodify_ok_inv. split; [done| |done]. intros l [= <-]. by exists vs. Qed.

Lemma SetAdminAccount_exportable a s s' u : a <> "" -> exportable s -> SetAdminAccount a s = (s', Ok u) -> exportable s'.
Proof. intros Hne [Hp Hw _] ->%mmodify_ok_inv. split; [done|done|]. simpl. congruence. Qed.

Lemma ProcessUpdateWhiteListValidator_exportable sender v op s s' u :
  v <> "" -> exportable s -> ProcessUpdateWhiteListValidator sender v op s = (s', Ok u) -> exportable s'.
Proof.
  intros Hv Hs Hr. unfold ProcessUpdateWhiteListValidator, AddOracleWhiteList, RemoveOracleWhiteList in Hr.
  get_step Hr. check_step Hr as _. destruct (String.eqb op "add"); [|destruct (String.eqb op "remove"); [|done]];
    get_step Hr; lift_step Hr as wl Hwl%GetOracleWhiteList_nonempty;
    (eapply SetOracleWhiteList_exportable; [|exact Hs|exact Hr]).
  - apply Forall_app. by split; [|constructor].
  - apply Forall_forall. intros a [_ Ha]%list_elem_of_filter. by eapply Forall_forall in Hwl.
Qed.

Lemma ProcessClaim_exportable {S V} `{!StakingKeeper S V, !StakingLaws S V} `{!MapOrder, !MapOrderLaws} cn (st : S) claim s s' status :
  positive cn -> exportable s -> ProcessClaim cn st claim s = (s', Ok status) -> exportable s'.
Proof.
  intros Hcn Hs Hr. pose proof (exportable_wf _ Hs) as Hwf.
  destruct (ProcessClaim_full _ _ _ _ _ _ _ Hcn Hwf Hr) as (_ & _ & _ & _ & _ & _ & _ & p & _ & _ & _ & _ & _ & _ & Hwfp & db & Hser & ->).
  destruct Hs as [Hp Hw Ha]. split; [|done|done]. intros k db'. simpl.
  intros [[<- <-]|[_ Hk]]%lookup_insert_Some; [by exists p|by apply Hp].
Qed.

(** *** Exporting and importing *)

Lemma export_prophecies (m : KV DBProphecy) l :
  (forall k db, (k, db) ∈ l -> exists p, k = prophecy_key (ID p) /\ wf_prophecy p /\ SerializeForDB p = Ok db) ->
  exists ps, rmap (fun kv : string * DBProphecy => panicOnErr (DeserializeFromDB kv.2)) l = Ok ps
    /\ rmap (fun p => panicOnErr (SerializeForDB p)) ps = Ok l.*2
    /\ Forall (fun kv => kv.1 = prophecy_key (DB_Id kv.2)) l.
Proof.
  induction l as [|[k db] l IH]; intros Hl; [by exists []|].
  destruct IH as (ps & E1 & E2 & Hk); [intros; apply Hl; by right|].
  destruct (Hl k db) as (p & -> & Hwf & Hs); [by left|]. destruct (serialized p db) as [Hid Hd]; [done..|].
  exists (p :: ps). cbn [rmap fst snd]. rewrite Hd. cbn [panicOnErr rbind]. rewrite E1. cbn [rbind].
  split; [done|]. rewrite Hs. cbn [panicOnErr rbind]. rewrite E2. split; [done|]. constructor; [|done]. simpl. by rewrite Hid.
Qed.

Lemma keep_printed `{!AddressTextLaws} vs :
  Forall (fun v => v <> "") vs ->
  filter (fun entry => str_len (TrimSpace entry) <> 0) (ValAddress_String <$> vs) = ValAddress_String <$> vs.
Proof.
  induction 1 as [|v vs Hv Hvs IH]; [done|]. rewrite fmap_cons, filter_cons, decide_True, IH; [done|].
  by apply ValAddress_not_blank.
Qed.

Definition upd_prophecies (f : KV DBProphecy -> KV DBProphecy) s : OracleStore :=
  mkOracleStore (o_whitelist s) (o_admin s) (f (o_prophecies s)).

Lemma import_prophecies l s :
  Forall (fun kv : string * DBProphecy => kv.1 = prophecy_key (DB_Id kv.2)) l ->
  mfor l.*2 SetDBProphecy s
  = (upd_prophecies (fun m => fold_left (fun acc kv => <[kv.1 := kv.2]> acc) l m) s, Ok tt).
Proof.
  intros Hl. rewrite <- (list_fmap_id l.*2).
  apply (mfor_entries id SetDBProphecy upd_prophecies (fun k db => k = prophecy_key (DB_Id db))); [|done|by intros []|done].
  by intros k db s' ->.
Qed.

(** An export succeeds; importing it into an empty store restores the prophecies, the admin and
    the whitelist, where a whitelist that was never set comes back empty. *)
Lemma oracle_export_import `{!AddressTextLaws} s :
  exportable s ->
  exists g, ExportGenesis s = Ok g
    /\ InitGenesis g (mkOracleStore None None ∅)
       = (mkOracleStore (Some (default [] (o_whitelist s))) (o_admin s) (o_prophecies s), Ok tt).
Proof.
  intros Hs. destruct (exportable_whitelist _ Hs) as (vs & Hne & Hdef & Hwl). destruct Hs as [Hp Hw Ha].
  destruct (export_prophecies (o_prophecies s) (kv_from ProphecyPrefix (o_prophecies s))) as (ps & E1 & E2 & Hk).
  { intros k db [Hk _]%elem_of_kv_from. by apply Hp. }
  eexists. split.
  { unfold ExportGenesis, GetProphecies. rewrite Hwl. cbn [rbind]. rewrite E1. cbn [rbind]. rewrite E2. reflexivity. }
  unfold InitGenesis. cbn [AddressWhitelist AdminAddress Prophecies]. rewrite keep_printed by done.
  unfold mbnd at 1 2 3. unfold mlift at 1. rewrite rmap_strings by done. unfold SetOracleWhiteList at 1, mmodify at 1.
  unfold mbnd at 1. rewrite Hdef.
  assert (forall s0, (if str_len (TrimSpace (AccAddress_String (GetAdminAccount s))) =? 0 then mret tt
     else do! adminAddress <- mlift (panicOnErr (AccAddressFromBech32 (AccAddress_String (GetAdminAccount s)))); SetAdminAccount adminAddress) s0
     = (mkOracleStore (o_whitelist s0) (match o_admin s with Some a => Some a | None => o_admin s0 end) (o_prophecies s0), Ok tt)) as Hadm.
  { intros s0. unfold GetAdminAccount. destruct (o_admin s) as [a|]; cbv [from_option id].
    - assert (a <> "") as Hna by congruence. pose proof (AccAddress_not_blank a Hna) as Hb%Z.eqb_neq.
      rewrite Hb, AccAddress_roundtrip by done. done.
    - rewrite AccAddress_String_nil. by destruct s0. }
  rewrite Hadm. rewrite import_prophecies by done. unfold upd_prophecies. cbn [o_whitelist o_admin o_prophecies].
  f_equal. f_equal; [by destruct (o_admin s)|]. apply insert_listing; [apply kv_from_NoDup|].
  intros k db. rewrite elem_of_kv_from. split; [by intros [? _]|]. intros Hl. split; [done|].
  by destruct (Hp _ _ Hl) as (p & -> & _).
Qed.
End Genesis.
