(* ===== verification/EthBridge.v ===== *)
(** * x/ethbridge: the Ethereum bridge

    Validators report Ethereum events as claims; the oracle decides them, and a
    successful claim mints the reported coins for the receiver.  Users send coins
    back with [lock] (coins of this chain) and [burn] (coins the bridge minted),
    paying the Ethereum gas in ceth.  [EthBridge] models messages, keeper, message
    server, genesis and queries.

    The oracle is used through the class [OracleKeeper]; [Oracle] discharges it.
    The address functions of go-ethereum and the JSON decoding of [sdk.Int] are the
    classes [EthCommon] and [IntText].  The accounts of [x/auth] live in the bank's
    state, since sending coins creates them.  Amounts in messages are set. *)

From Stdlib Require Import ZArith Lia Ascii String.
From stdpp Require Import base list gmap strings.
From S2P Require Import Prelude SdkMath Sdk TokenRegistry Json Oracle.

Module EthBridge.
Import Oracle.

(** ** Services *)

Class EthCommon := {
  IsHexAddress : string -> bool;
  HexToAddress : string -> string;
  Address_String : string -> string;
  UnmarshalFixedJSON : string -> option string;
}.

(** An address has 20 bytes and its text decodes to it. *)
Class EthCommonLaws `{EthCommon} : Prop := {
  HexToAddress_length s : String.length (HexToAddress s) = 20%nat;
  Address_roundtrip a : String.length a = 20%nat -> UnmarshalFixedJSON (Address_String a) = Some a;
}.

Class IntText := { Int_UnmarshalText : string -> option Z }.
Class IntTextLaws `{IntText} : Prop := {
  Int_text_roundtrip z : Z.abs z < 2 ^ 255 -> Int_UnmarshalText (big_String z) = Some z;
}.

Class AccountKeeper (B : Type) := { HasAccount : B -> string -> bool }.

(** The keeper interface of expected_keepers.go. *)
Class OracleKeeper (O : Type) := {
  ok_ProcessClaim : Claim -> M O Status;
  ok_GetProphecy : string -> O -> res (option Prophecy);
  ok_ProcessUpdateWhiteListValidator : string -> string -> string -> M O unit;
  ok_IsAdminAccount : string -> O -> bool;
}.

(** What the bridge relies on: a claim that is not accepted changes nothing; an
    accepted one was on an undecided prophecy, which is decided afterwards exactly
    when the returned status is not pending; nothing undecides a prophecy.  The
    promises hold in the oracle's own invariant, which its calls keep. *)
Class OracleKeeperLaws (O : Type) `{OracleKeeper O} := {
  ok_inv : O -> Prop;
  ok_decided : O -> string -> bool;
  ok_claim_ok claim o o' st : ok_inv o -> ok_ProcessClaim claim o = (o', Ok st) ->
    ok_inv o' /\ ok_decided o (Claim_Id claim) = false
    /\ ok_decided o' (Claim_Id claim) = negb (bool_decide (Text st = STATUS_TEXT_PENDING))
    /\ forall id, id <> Claim_Id claim -> ok_decided o' id = ok_decided o id;
  ok_claim_err claim o o' r : ok_ProcessClaim claim o = (o', r) -> is_ok r = false -> o' = o;
  ok_whitelist_frame a v op o o' r : ok_inv o -> ok_ProcessUpdateWhiteListValidator a v op o = (o', r) ->
    ok_inv o' /\ forall id, ok_decided o' id = ok_decided o id;
}.

(** ** Data *)

(** [ClaimType] is an open protobuf enum: an [int32] with three named values. *)
Definition ClaimType := Z.
Definition CLAIM_TYPE_UNSPECIFIED : ClaimType := 0.
Definition CLAIM_TYPE_BURN : ClaimType := 1.
Definition CLAIM_TYPE_LOCK : ClaimType := 2.

Record EthBridgeClaim := mkEthBridgeClaim {
  EthereumChainId : Z;
  BridgeContractAddress : string;
  Nonce : Z;
  ESymbol : string;
  TokenContractAddress : string;
  EthereumSender : string;
  CosmosReceiver : string;
  EValidatorAddress : string;
  EAmount : Z;
  EClaimType : ClaimType;
}.

(** The content of a claim as the oracle stores it; [None] is an amount that is not set. *)
Record OracleClaimContent := mkOracleClaimContent {
  OC_CosmosReceiver : string;
  OC_Amount : option Z;
  OC_Symbol : string;
  OC_TokenContractAddress : string;
  OC_ClaimType : ClaimType;
}.

Record MsgLock := mkMsgLock {
  Lock_CosmosSender : string;
  Lock_Amount : Z;
  Lock_Symbol : string;
  Lock_EthereumChainId : Z;
  Lock_EthereumReceiver : string;
  Lock_CethAmount : Z;
}.
Record MsgBurn := mkMsgBurn {
  Burn_CosmosSender : string;
  Burn_Amount : Z;
  Burn_Symbol : string;
  Burn_EthereumChainId : Z;
  Burn_EthereumReceiver : string;
  Burn_CethAmount : Z;
}.
Record MsgCreateEthBridgeClaim := mkMsgCreateEthBridgeClaim { Create_Claim : option EthBridgeClaim }.
Record MsgUpdateWhiteListValidator := mkMsgUpdateWhiteListValidator {
  UWL_CosmosSender : string;
  UWL_Validator : string;
  UWL_OperationType : string;
}.
Record MsgUpdateCethReceiverAccount := mkMsgUpdateCethReceiverAccount {
  UCR_CosmosSender : string;
  UCR_CethReceiverAccount : string;
}.
Record MsgRescueCeth := mkMsgRescueCeth {
  Rescue_CosmosSender : string;
  Rescue_CosmosReceiver : string;
  Rescue_CethAmount : Z;
}.
Record MsgSetBlacklist := mkMsgSetBlacklist { Blacklist_From : string; Blacklist_Addresses : list string }.

Inductive Msg :=
| CreateMsg (m : MsgCreateEthBridgeClaim)
| BurnMsg (m : MsgBurn)
| LockMsg (m : MsgLock)
| UpdateWhiteListMsg (m : MsgUpdateWhiteListValidator)
| UpdateCethReceiverMsg (m : MsgUpdateCethReceiverAccount)
| RescueMsg (m : MsgRescueCeth)
| BlacklistMsg (m : MsgSetBlacklist).

Record GenesisState := mkGenesisState { G_CethReceiveAccount : string; G_PeggyTokens : list string }.

Definition ModuleName : string := "ethbridge".
Definition CethSymbol : string := "ceth".
Definition PeggedCoinPrefix : string := "c".
Definition burnGasCost : Z := 60000000000 * 393000.
Definition lockGasCost : Z := 60000000000 * 393000.

Definition ethbridge_err (code : Z) : GoError := RegisteredErr "ethbridge" code.
Definition ErrInvalidEthNonce := ethbridge_err 1.
Definition ErrInvalidEthAddress := ethbridge_err 2.
Definition ErrJSONMarshalling := ethbridge_err 3.
Definition ErrInvalidEthSymbol := ethbridge_err 4.
Definition ErrInvalidClaimType := ethbridge_err 5.
Definition ErrInvalidEthereumChainID := ethbridge_err 6.
Definition ErrInvalidAmount := ethbridge_err 7.
Definition ErrInvalidSymbol := ethbridge_err 8.
Definition ErrInvalidBurnSymbol := ethbridge_err 9.
Definition ErrCethAmount := ethbridge_err 10.
Definition ErrProphecyNotFound := oracle_err 1.
Definition ErrInvalidAddress := RegisteredErr "sdk" 7.
Definition ErrUnknownAddress := RegisteredErr "sdk" 9.

(** ** Addresses and claims *)

Section Types.
Context `{SdkAddress, EthCommon, IntText}.

Definition NewEthereumAddress (address : string) : string := HexToAddress address.
Definition EthereumAddress_String (a : string) : string := Address_String a.
Definition EthereumAddress_MarshalJSON (a : string) : Json := JString (EthereumAddress_String a).
Definition EthereumAddress_UnmarshalJSON (j : Json) : res string :=
  match j with
  | JString s => match UnmarshalFixedJSON s with Some a => Ok a | None => Err json_error end
  | _ => Err json_error
  end.

Definition NewEthBridgeClaim (ethereumChainID : Z) (bridgeContract : string) (nonce : Z) (symbol tokenContact
    ethereumSender cosmosReceiver validator : string) (amount : Z) (claimType : ClaimType) : EthBridgeClaim :=
  mkEthBridgeClaim ethereumChainID (EthereumAddress_String bridgeContract) nonce symbol
    (EthereumAddress_String tokenContact) (EthereumAddress_String ethereumSender)
    (AccAddress_String cosmosReceiver) (ValAddress_String validator) amount claimType.

Definition NewOracleClaimContent (cosmosReceiver : string) (amount : Z) (symbol tokenContractAddress : string)
    (claimType : ClaimType) : OracleClaimContent :=
  mkOracleClaimContent cosmosReceiver (Some amount) symbol tokenContractAddress claimType.

(** [json.Marshal] of the struct: its fields under their tags, in order. *)
Definition content_json (c : OracleClaimContent) : Json :=
  JObject [("cosmos_receiver", JString (AccAddress_String (OC_CosmosReceiver c)));
           ("amount", JString (big_String (default 0 (OC_Amount c))));
           ("symbol", JString (OC_Symbol c));
           ("token_contract_address", EthereumAddress_MarshalJSON (OC_TokenContractAddress c));
           ("claim_type", JNumber (big_String (OC_ClaimType c)))].

(** [json.Unmarshal] of one field of the struct: tags match up to case, unknown
    fields are skipped, [null] leaves a string or a number as it was. *)
Definition content_field (c : OracleClaimContent) (k : string) (j : Json) : res OracleClaimContent :=
  if EqualFold k "cosmos_receiver" then
    let! s := json_string j in
    let! a := if String.eqb s "" then Ok "" else AccAddressFromBech32 s in
    Ok (mkOracleClaimContent a (OC_Amount c) (OC_Symbol c) (OC_TokenContractAddress c) (OC_ClaimType c))
  else if EqualFold k "amount" then
    let! s := json_string j in
    match Int_UnmarshalText s with
    | Some z => Ok (mkOracleClaimContent (OC_CosmosReceiver c) (Some z) (OC_Symbol c) (OC_TokenContractAddress c) (OC_ClaimType c))
    | None => Err json_error
    end
  else if EqualFold k "symbol" then
    match j with
    | JNull => Ok c
    | JString s => Ok (mkOracleClaimContent (OC_CosmosReceiver c) (OC_Amount c) s (OC_TokenContractAddress c) (OC_ClaimType c))
    | _ => Err json_error
    end
  else if EqualFold k "token_contract_address" then
    let! a := EthereumAddress_UnmarshalJSON j in
    Ok (mkOracleClaimContent (OC_CosmosReceiver c) (OC_Amount c) (OC_Symbol c) a (OC_ClaimType c))
  else if EqualFold k "claim_type" then
    match j with
    | JNull => Ok c
    | JNumber lit =>
        match parse_int lit with
        | Some z => if (- 2 ^ 31 <=? z) && (z <? 2 ^ 31)
                    then Ok (mkOracleClaimContent (OC_CosmosReceiver c) (OC_Amount c) (OC_Symbol c) (OC_TokenContractAddress c) z)
                    else Err json_error
        | None => Err json_error
        end
    | _ => Err json_error
    end
  else Ok c.

Fixpoint content_fields (c : OracleClaimContent) (l : list (string * Json)) : res OracleClaimContent :=
  match l with
  | [] => Ok c
  | (k, j) :: l' => let! c' := content_field c k j in content_fields c' l'
  end.

(** The zero value of the struct: the address is 20 zero bytes. *)
Fixpoint zero_bytes (n : nat) : string := match n with O => "" | S n => String zero (zero_bytes n) end.
Definition zero_content : OracleClaimContent := mkOracleClaimContent "" None "" (zero_bytes 20) 0.

Definition CreateOracleClaimFromOracleString (oracleClaimString : string) : res OracleClaimContent :=
  rwrap ErrJSONMarshalling
    match json_parse oracleClaimString with
    | Some (JObject l) => content_fields zero_content l
    | Some JNull => Ok zero_content
    | _ => Err json_error
    end.

(** The identifier of a prophecy: chain id, nonce and sender, written one after the other. *)
Definition oracle_id (chainId nonce : Z) (sender : string) : string :=
  big_String chainId +:+ big_String nonce +:+ sender.

Definition CreateOracleClaimFromEthClaim (ethClaim : EthBridgeClaim) : res Claim :=
  let oracleID := oracle_id (EthereumChainId ethClaim) (Nonce ethClaim) (EthereumSender ethClaim) in
  let! cosmosReceiver := AccAddressFromBech32 (CosmosReceiver ethClaim) in
  let claimContent := NewOracleClaimContent cosmosReceiver (EAmount ethClaim) (ESymbol ethClaim)
    (NewEthereumAddress (TokenContractAddress ethClaim)) (EClaimType ethClaim) in
  Ok (NewClaim oracleID (EValidatorAddress ethClaim) (json_print (content_json claimContent))).

(** The codec writes an amount that is not set as 0. *)
Definition CreateEthClaimFromOracleString (ethereumChainID : Z) (bridgeContract : string) (nonce : Z)
    (ethereumAddress validator oracleClaimString : string) : res EthBridgeClaim :=
  let! oracleClaim := CreateOracleClaimFromOracleString oracleClaimString in
  Ok (NewEthBridgeClaim ethereumChainID bridgeContract nonce (OC_Symbol oracleClaim)
        (OC_TokenContractAddress oracleClaim) ethereumAddress (OC_CosmosReceiver oracleClaim) validator
        (default 0 (OC_Amount oracleClaim)) (OC_ClaimType oracleClaim)).

Fixpoint map_claims (ethereumChainID : Z) (bridgeContract : string) (nonce : Z) (ethereumSender : string)
    (f : Z -> string -> Z -> string -> string -> string -> res EthBridgeClaim) (l : list (string * string)) :
    res (list EthBridgeClaim) :=
  match l with
  | [] => Ok []
  | (validatorBech32, validatorClaim) :: l' =>
      let! validatorAddress := rwrap ErrInvalidAddress (ValAddressFromBech32 validatorBech32) in
      let! mappedClaim := f ethereumChainID bridgeContract nonce ethereumSender validatorAddress validatorClaim in
      let! mappedClaims := map_claims ethereumChainID bridgeContract nonce ethereumSender f l' in
      Ok (mappedClaim :: mappedClaims)
  end.

Definition MapOracleClaimsToEthBridgeClaims `{MapOrder} (ethereumChainID : Z) (bridgeContract : string) (nonce : Z)
    (symbol tokenContract ethereumSender : string) (oracleValidatorClaims : GoMap string)
    (f : Z -> string -> Z -> string -> string -> string -> res EthBridgeClaim) : res (list EthBridgeClaim) :=
  map_claims ethereumChainID bridgeContract nonce ethereumSender f
    (match oracleValidatorClaims with Some m => map_range m | None => [] end).

(** ** Messages: construction, stateless checks and signers *)

Definition NewMsgLock (ethereumChainID : Z) (cosmosSender ethereumReceiver : string) (amount : Z) (symbol : string)
    (cethAmount : Z) : MsgLock :=
  mkMsgLock (AccAddress_String cosmosSender) amount symbol ethereumChainID (EthereumAddress_String ethereumReceiver)
    cethAmount.
Definition NewMsgBurn (ethereumChainID : Z) (cosmosSender ethereumReceiver : string) (amount : Z) (symbol : string)
    (cethAmount : Z) : MsgBurn :=
  mkMsgBurn (AccAddress_String cosmosSender) amount symbol ethereumChainID (EthereumAddress_String ethereumReceiver)
    cethAmount.
Definition NewMsgCreateEthBridgeClaim (c : option EthBridgeClaim) : MsgCreateEthBridgeClaim := mkMsgCreateEthBridgeClaim c.
Definition NewMsgUpdateCethReceiverAccount (cosmosSender cethReceiverAccount : string) : MsgUpdateCethReceiverAccount :=
  mkMsgUpdateCethReceiverAccount (AccAddress_String cosmosSender) (AccAddress_String cethReceiverAccount).
Definition NewMsgRescueCeth (cosmosSender cosmosReceiver : string) (cethAmount : Z) : MsgRescueCeth :=
  mkMsgRescueCeth (AccAddress_String cosmosSender) (AccAddress_String cosmosReceiver) cethAmount.
Definition NewMsgUpdateWhiteListValidator (cosmosSender validator operationType : string) : MsgUpdateWhiteListValidator :=
  mkMsgUpdateWhiteListValidator (AccAddress_String cosmosSender) (ValAddress_String validator) operationType.

Definition MsgLock_ValidateBasic (msg : MsgLock) : res unit :=
  let! _ := fail_if (String.eqb (big_String (Lock_EthereumChainId msg)) "") ErrInvalidEthereumChainID in
  let! _ := fail_if (String.eqb (Lock_CosmosSender msg) "") ErrInvalidAddress in
  let! _ := fail_if (String.eqb (Lock_EthereumReceiver msg) "") ErrInvalidEthAddress in
  let! _ := fail_if (negb (IsHexAddress (Lock_EthereumReceiver msg))) ErrInvalidEthAddress in
  let! _ := fail_if (Lock_Amount msg <=? 0) ErrInvalidAmount in
  let! _ := fail_if (Lock_CethAmount msg <? lockGasCost) ErrCethAmount in
  fail_if (str_len (Lock_Symbol msg) =? 0) ErrInvalidSymbol.

Definition MsgBurn_ValidateBasic (msg : MsgBurn) : res unit :=
  let! _ := fail_if (Burn_EthereumChainId msg =? 0) ErrInvalidEthereumChainID in
  let! _ := fail_if (String.eqb (Burn_CosmosSender msg) "") ErrInvalidAddress in
  let! _ := fail_if (String.eqb (Burn_EthereumReceiver msg) "") ErrInvalidEthAddress in
  let! _ := fail_if (negb (IsHexAddress (Burn_EthereumReceiver msg))) ErrInvalidEthAddress in
  let! _ := fail_if (Burn_Amount msg <=? 0) ErrInvalidAmount in
  let prefixLength := str_len PeggedCoinPrefix in
  let! _ := fail_if (str_len (Burn_Symbol msg) <=? prefixLength + 1) ErrInvalidBurnSymbol in
  let! _ := fail_if (negb (HasPrefix (Burn_Symbol msg) PeggedCoinPrefix)) ErrInvalidBurnSymbol in
  let! _ := fail_if (Burn_CethAmount msg <? burnGasCost) ErrCethAmount in
  fail_if (str_len (str_drop (String.length PeggedCoinPrefix) (Burn_Symbol msg)) =? 0) ErrInvalidBurnSymbol.

Definition MsgCreateEthBridgeClaim_ValidateBasic (msg : MsgCreateEthBridgeClaim) : res unit :=
  match Create_Claim msg with
  | None => Panic
  | Some c =>
      let! _ := fail_if (String.eqb (CosmosReceiver c) "") ErrInvalidAddress in
      let! _ := fail_if (String.eqb (EValidatorAddress c) "") ErrInvalidAddress in
      let! _ := fail_if (Nonce c <? 0) ErrInvalidEthNonce in
      let! _ := fail_if (negb (IsHexAddress (EthereumSender c))) ErrInvalidEthAddress in
      let! _ := fail_if (negb (IsHexAddress (BridgeContractAddress c))) ErrInvalidEthAddress in
      let! _ := fail_if (negb (IsHexAddress (TokenContractAddress c))) ErrInvalidEthAddress in
      fail_if (String.eqb (ToLower (ESymbol c)) "eth"
               && negb (String.eqb (NewEthereumAddress (TokenContractAddress c))
                          (NewEthereumAddress "0x0000000000000000000000000000000000000000"))) ErrInvalidEthSymbol
  end.

Definition MsgUpdateCethReceiverAccount_ValidateBasic (msg : MsgUpdateCethReceiverAccount) : res unit :=
  let! _ := fail_if (String.eqb (UCR_CosmosSender msg) "") ErrInvalidAddress in
  fail_if (String.eqb (UCR_CethReceiverAccount msg) "") ErrInvalidAddress.
Definition MsgRescueCeth_ValidateBasic (msg : MsgRescueCeth) : res unit :=
  let! _ := fail_if (String.eqb (Rescue_CosmosSender msg) "") ErrInvalidAddress in
  fail_if (String.eqb (Rescue_CosmosReceiver msg) "") ErrInvalidAddress.
Definition MsgUpdateWhiteListValidator_ValidateBasic (msg : MsgUpdateWhiteListValidator) : res unit :=
  let! _ := fail_if (String.eqb (UWL_CosmosSender msg) "") ErrInvalidAddress in
  fail_if (String.eqb (UWL_Validator msg) "") ErrInvalidAddress.
Definition MsgSetBlacklist_ValidateBasic (msg : MsgSetBlacklist) : res unit := Ok tt.

Definition ValidateBasic (m : Msg) : res unit :=
  match m with
  | CreateMsg m => MsgCreateEthBridgeClaim_ValidateBasic m
  | BurnMsg m => MsgBurn_ValidateBasic m
  | LockMsg m => MsgLock_ValidateBasic m
  | UpdateWhiteListMsg m => MsgUpdateWhiteListValidator_ValidateBasic m
  | UpdateCethReceiverMsg m => MsgUpdateCethReceiverAccount_ValidateBasic m
  | RescueMsg m => MsgRescueCeth_ValidateBasic m
  | BlacklistMsg m => MsgSetBlacklist_ValidateBasic m
  end.

Definition signer_of (text : string) : res (list string) :=
  let! a := panicOnErr (AccAddressFromBech32 text) in Ok [a].
Definition MsgLock_GetSigners (msg : MsgLock) := signer_of (Lock_CosmosSender msg).
Definition MsgBurn_GetSigners (msg : MsgBurn) := signer_of (Burn_CosmosSender msg).
Definition MsgCreateEthBridgeClaim_GetSigners (msg : MsgCreateEthBridgeClaim) : res (list string) :=
  match Create_Claim msg with
  | None => Panic
  | Some c => let! v := panicOnErr (ValAddressFromBech32 (EValidatorAddress c)) in Ok [v]
  end.
Definition MsgUpdateCethReceiverAccount_GetSigners (msg : MsgUpdateCethReceiverAccount) := signer_of (UCR_CosmosSender msg).
Definition MsgRescueCeth_GetSigners (msg : MsgRescueCeth) := signer_of (Rescue_CosmosSender msg).
Definition MsgUpdateWhiteListValidator_GetSigners (msg : MsgUpdateWhiteListValidator) := signer_of (UWL_CosmosSender msg).
Definition MsgSetBlacklist_GetSigners (msg : MsgSetBlacklist) := signer_of (Blacklist_From msg).
End Types.

(** ** State *)

(** The keys 0x00 (token list), 0x01 (ceth receiver) and 0x02... (blacklist) of the store. *)
Record BridgeStore := mkBridgeStore {
  eb_peggy : option (list string);
  eb_ceth : option string;
  eb_blacklist : KV unit;
}.

Record BridgeWorld (B O R : Type) := mkBridgeWorld {
  bw_store : BridgeStore;
  bw_bank : B;
  bw_oracle : O;
  bw_registry : R;
}.
Arguments mkBridgeWorld {_ _ _} _ _ _ _.
Arguments bw_store {_ _ _} _.
Arguments bw_bank {_ _ _} _.
Arguments bw_oracle {_ _ _} _.
Arguments bw_registry {_ _ _} _.

Definition on_bank {B O R A} (m : M B A) : M (BridgeWorld B O R) A :=
  fun w => match m (bw_bank w) with (b, r) => (mkBridgeWorld (bw_store w) b (bw_oracle w) (bw_registry w), r) end.
Definition on_oracle {B O R A} (m : M O A) : M (BridgeWorld B O R) A :=
  fun w => match m (bw_oracle w) with (o, r) => (mkBridgeWorld (bw_store w) (bw_bank w) o (bw_registry w), r) end.
Definition upd_store {B O R} (f : BridgeStore -> BridgeStore) : M (BridgeWorld B O R) unit :=
  mmodify (fun w => mkBridgeWorld (f (bw_store w)) (bw_bank w) (bw_oracle w) (bw_registry w)).

Section Keeper.
Context {B O R : Type} `{SdkMath, SdkCoins, SdkAddress, EthCommon, IntText, BankKeeper B, AccountKeeper B,
  OracleKeeper O, !TokenRegistry.TokenRegistryKeeper R}.

Abbreviation BM := (M (BridgeWorld B O R)).
Abbreviation W := (BridgeWorld B O R).

(** ** The list of pegged tokens *)

Definition GetPeggyToken (w : W) : list string := default [] (eb_peggy (bw_store w)).
Definition ExistsPeggyToken (token : string) (w : W) : bool := existsb (fun value => String.eqb value token) (GetPeggyToken w).
Definition AddPeggyToken (token : string) : BM unit :=
  do! w <- mgets id;
  if ExistsPeggyToken token w then mret tt
  else upd_store (fun s => mkBridgeStore (Some (GetPeggyToken w ++ [token])) (eb_ceth s) (eb_blacklist s)).

(** ** The account that receives ceth *)

Definition SetCethReceiverAccount (cethReceiverAccount : string) : BM unit :=
  upd_store (fun s => mkBridgeStore (eb_peggy s) (Some (AccAddress_String cethReceiverAccount)) (eb_blacklist s)).
Definition GetCethReceiverAccount (w : W) : string :=
  match eb_ceth (bw_store w) with
  | None => ""
  | Some value =>
      if String.eqb value "" then ""
      else match AccAddressFromBech32 value with Ok accAddress => accAddress | _ => "" end
  end.
Definition IsCethReceiverAccount (cethReceiverAccount : string) (w : W) : bool :=
  String.eqb (GetCethReceiverAccount w) cethReceiverAccount.
Definition IsCethReceiverAccountSet (w : W) : bool := negb (String.eqb (GetCethReceiverAccount w) "").

(** ** The blacklist of Ethereum receivers *)

Definition BlacklistPrefix : string := byte1 2.
Definition blacklist_key (address : string) : string := BlacklistPrefix +:+ address.

Definition IsBlacklisted (address : string) (w : W) : bool :=
  bool_decide (is_Some (eb_blacklist (bw_store w) !! blacklist_key address)).

Definition upd_blacklist (f : KV unit -> KV unit) : BM unit :=
  upd_store (fun s => mkBridgeStore (eb_peggy s) (eb_ceth s) (f (eb_blacklist s))).

(** The listed addresses that the new list does not contain; a key of one byte is skipped. *)
Definition removals (addresses : list string) (w : W) : list string :=
  filter (fun address => address ∉ addresses)
    ((fun kv => str_drop 1 kv.1) <$>
       filter (fun kv : string * unit => (1 < String.length kv.1)%nat) (kv_from BlacklistPrefix (eb_blacklist (bw_store w)))).

Definition SetBlacklist (msg : MsgSetBlacklist) : BM unit :=
  do! from <- mlift (AccAddressFromBech32 (Blacklist_From msg));
  do! w <- mgets id;
  run! mfail_if (negb (TokenRegistry.trk_IsAdminAccount (bw_registry w) from)) ErrNotAdminAccount;
  run! mfor (removals (Blacklist_Addresses msg) w) (fun address => upd_blacklist (delete (blacklist_key address)));
  mfor (Blacklist_Addresses msg) (fun address => upd_blacklist <[blacklist_key address := tt]>).

Definition GetBlacklist (w : W) : list string :=
  (fun kv => str_drop 1 kv.1) <$> kv_from BlacklistPrefix (eb_blacklist (bw_store w)).

(** ** Claims, burns and locks *)

(** One coin of a denomination, as a coin list. *)
Definition coins_of (denom : string) (amount : Z) : res (list Coin) :=
  let! c := NewCoin denom amount in NewCoins [c].
Definition coins_of2 (d1 : string) (a1 : Z) (d2 : string) (a2 : Z) : res (list Coin) :=
  let! c1 := NewCoin d1 a1 in let! c2 := NewCoin d2 a2 in NewCoins [c1; c2].

Definition ProcessClaim (claim : option EthBridgeClaim) : BM Status :=
  match claim with
  | None => mpanic
  | Some claim =>
      do! oracleClaim <- mlift (CreateOracleClaimFromEthClaim claim);
      on_oracle (ok_ProcessClaim oracleClaim)
  end.

Definition ProcessSuccessfulClaim (claim : string) : BM unit :=
  do! oracleClaim <- mlift (CreateOracleClaimFromOracleString claim);
  let receiverAddress := OC_CosmosReceiver oracleClaim in
  let mint symbol : BM (list Coin) :=
    do! amount <- mlift (match OC_Amount oracleClaim with Some a => Ok a | None => Panic end);
    do! coins <- mlift (coins_of symbol amount);
    run! on_bank (MintCoins ModuleName coins);
    mret coins in
  do! coins <-
    (if OC_ClaimType oracleClaim =? CLAIM_TYPE_LOCK then
       let symbol := PeggedCoinPrefix +:+ OC_Symbol oracleClaim in
       run! AddPeggyToken symbol; mint symbol
     else if OC_ClaimType oracleClaim =? CLAIM_TYPE_BURN then mint (OC_Symbol oracleClaim)
     else mthrow ErrInvalidClaimType);
  mmust (on_bank (SendCoinsFromModuleToAccount ModuleName receiverAddress coins)).

Definition ProcessBurn (cosmosSender : string) (msg : MsgBurn) : BM unit :=
  do! w <- mgets id;
  run! mfail_if (IsBlacklisted (Burn_EthereumReceiver msg) w) ErrInvalidEthAddress;
  do! coins <-
    (if IsCethReceiverAccountSet w then
       do! coins <- mlift (coins_of CethSymbol (Burn_CethAmount msg));
       run! on_bank (SendCoins cosmosSender (GetCethReceiverAccount w) coins);
       mlift (coins_of (Burn_Symbol msg) (Burn_Amount msg))
     else if String.eqb (Burn_Symbol msg) CethSymbol then
       do! a <- mlift (Int_Add (Burn_CethAmount msg) (Burn_Amount msg));
       mlift (coins_of CethSymbol a)
     else mlift (coins_of2 (Burn_Symbol msg) (Burn_Amount msg) CethSymbol (Burn_CethAmount msg)));
  run! on_bank (SendCoinsFromAccountToModule cosmosSender ModuleName coins);
  do! coins <- mlift (coins_of (Burn_Symbol msg) (Burn_Amount msg));
  on_bank (BurnCoins ModuleName coins).

Definition ProcessLock (cosmosSender : string) (msg : MsgLock) : BM unit :=
  do! w <- mgets id;
  run! mfail_if (IsBlacklisted (Lock_EthereumReceiver msg) w) ErrInvalidEthAddress;
  do! coins <-
    (if IsCethReceiverAccountSet w then
       do! coins <- mlift (coins_of CethSymbol (Lock_CethAmount msg));
       run! on_bank (SendCoins cosmosSender (GetCethReceiverAccount w) coins);
       mlift (coins_of (Lock_Symbol msg) (Lock_Amount msg))
     else mlift (coins_of2 (Lock_Symbol msg) (Lock_Amount msg) CethSymbol (Lock_CethAmount msg)));
  run! on_bank (SendCoinsFromAccountToModule cosmosSender ModuleName coins);
  do! coins <- mlift (coins_of (Lock_Symbol msg) (Lock_Amount msg));
  on_bank (BurnCoins ModuleName coins).

Definition ProcessUpdateWhiteListValidator (cosmosSender validator operationtype : string) : BM unit :=
  on_oracle (ok_ProcessUpdateWhiteListValidator cosmosSender validator operationtype).

Definition ProcessUpdateCethReceiverAccount (cosmosSender cethReceiverAccount : string) : BM unit :=
  do! w <- mgets id;
  run! mfail_if (negb (ok_IsAdminAccount cosmosSender (bw_oracle w)))
         (PlainErr "only admin account can update ceth receiver account");
  SetCethReceiverAccount cethReceiverAccount.

Definition ProcessRescueCeth (msg : MsgRescueCeth) : BM unit :=
  do! cosmosSender <- mlift (AccAddressFromBech32 (Rescue_CosmosSender msg));
  do! cosmosReceiver <- mlift (AccAddressFromBech32 (Rescue_CosmosReceiver msg));
  do! w <- mgets id;
  run! mfail_if (negb (ok_IsAdminAccount cosmosSender (bw_oracle w))) (PlainErr "only admin account can call rescue ceth");
  do! coins <- mlift (coins_of CethSymbol (Rescue_CethAmount msg));
  on_bank (SendCoinsFromModuleToAccount ModuleName cosmosReceiver coins).

(** ** The message server *)

(** The sender decodes and has an account. *)
Definition sender_account (text : string) (e : GoError) : BM string :=
  do! cosmosSender <- mlift (AccAddressFromBech32 text);
  do! w <- mgets id;
  run! mfail_if (negb (HasAccount (bw_bank w) cosmosSender)) e;
  mret cosmosSender.

Definition Lock (msg : MsgLock) : BM unit :=
  do! w <- mgets id;
  run! mfail_if (ExistsPeggyToken (Lock_Symbol msg) w) (PlainErr "Pegged token can't be lock.");
  do! cosmosSender <- sender_account (Lock_CosmosSender msg) ErrInvalidAddress;
  ProcessLock cosmosSender msg.

Definition Burn (msg : MsgBurn) : BM unit :=
  do! w <- mgets id;
  run! mfail_if (negb (ExistsPeggyToken (Burn_Symbol msg) w)) (PlainErr "Native token can't be burn.");
  do! cosmosSender <- sender_account (Burn_CosmosSender msg) ErrInvalidAddress;
  ProcessBurn cosmosSender msg.

Definition CreateEthBridgeClaim (msg : MsgCreateEthBridgeClaim) : BM unit :=
  do! status <- ProcessClaim (Create_Claim msg);
  if bool_decide (Text status = STATUS_TEXT_SUCCESS) then ProcessSuccessfulClaim (FinalClaim status) else mret tt.

Definition UpdateWhiteListValidator (msg : MsgUpdateWhiteListValidator) : BM unit :=
  do! cosmosSender <- sender_account (UWL_CosmosSender msg) ErrUnknownAddress;
  do! valAddr <- mlift (rwrap ErrInvalidAddress (ValAddressFromBech32 (UWL_Validator msg)));
  ProcessUpdateWhiteListValidator cosmosSender valAddr (UWL_OperationType msg).

Definition UpdateCethReceiverAccount (msg : MsgUpdateCethReceiverAccount) : BM unit :=
  do! cosmosSender <- mlift (AccAddressFromBech32 (UCR_CosmosSender msg));
  do! cethReceiverAddress <- mlift (AccAddressFromBech32 (UCR_CethReceiverAccount msg));
  do! w <- mgets id;
  run! mfail_if (negb (HasAccount (bw_bank w) cosmosSender)) ErrInvalidAddress;
  ProcessUpdateCethReceiverAccount cosmosSender cethReceiverAddress.

Definition RescueCeth (msg : MsgRescueCeth) : BM unit :=
  run! sender_account (Rescue_CosmosSender msg) ErrInvalidAddress;
  ProcessRescueCeth msg.

Definition SetBlacklist_msg (msg : MsgSetBlacklist) : BM unit := SetBlacklist msg.

Definition Handler (m : Msg) : BM unit :=
  match m with
  | CreateMsg m => CreateEthBridgeClaim m
  | BurnMsg m => Burn m
  | LockMsg m => Lock m
  | UpdateWhiteListMsg m => UpdateWhiteListValidator m
  | UpdateCethReceiverMsg m => UpdateCethReceiverAccount m
  | RescueMsg m => RescueCeth m
  | BlacklistMsg m => SetBlacklist_msg m
  end.

(** ** Genesis and queries *)

Definition InitGenesis (data : GenesisState) : BM unit :=
  run! (if String.eqb (G_CethReceiveAccount data) "" then mret tt
        else do! receiveAccount <- mlift (panicOnErr (AccAddressFromBech32 (G_CethReceiveAccount data)));
             SetCethReceiverAccount receiveAccount);
  mfor (G_PeggyTokens data) AddPeggyToken.

Definition ExportGenesis (w : W) : GenesisState :=
  mkGenesisState (AccAddress_String (GetCethReceiverAccount w)) (GetPeggyToken w).

Definition GetBlacklist_query (w : W) : res (list string) := Ok (GetBlacklist w).

Definition EthProphecy `{MapOrder} (chainId : Z) (bridgeContract : string) (nonce : Z)
    (symbol tokenContract sender : string) (w : W) : res (string * Status * list EthBridgeClaim) :=
  let! found := ok_GetProphecy (oracle_id chainId nonce sender) (bw_oracle w) in
  match found with
  | None => Err ErrProphecyNotFound
  | Some prophecy =>
      let! bridgeClaims := MapOracleClaimsToEthBridgeClaims chainId (NewEthereumAddress bridgeContract) nonce symbol
        (NewEthereumAddress tokenContract) (NewEthereumAddress sender) (ValidatorClaims prophecy)
        CreateEthClaimFromOracleString in
      Ok (ID prophecy, PStatus prophecy, bridgeClaims)
  end.
End Keeper.

Definition DefaultGenesis : GenesisState := mkGenesisState "" [].
Definition ValidateGenesis (data : GenesisState) : res unit := Ok tt.

(** ** Lemmas *)

Definition set_bank {B O R} (w : BridgeWorld B O R) (b : B) : BridgeWorld B O R :=
  mkBridgeWorld (bw_store w) b (bw_oracle w) (bw_registry w).

Lemma bridge_bank_ok {B O R A} (m : M B A) (w w' : BridgeWorld B O R) a :
  on_bank m w = (w', Ok a) -> exists b', m (bw_bank w) = (b', Ok a) /\ w' = set_bank w b'.
Proof. unfold on_bank, set_bank. destruct (m (bw_bank w)) as [b r]. intros [= <- ->]. eauto. Qed.

Lemma bridge_oracle_ok {B O R A} (m : M O A) (w w' : BridgeWorld B O R) a :
  on_oracle m w = (w', Ok a) ->
  exists o', m (bw_oracle w) = (o', Ok a) /\ w' = mkBridgeWorld (bw_store w) (bw_bank w) o' (bw_registry w).
Proof. unfold on_oracle. destruct (m (bw_oracle w)) as [o r]. intros [= <- ->]. eauto. Qed.

#[export] Instance blacklist_key_inj : Inj (=) (=) blacklist_key.
Proof. intros a b E. by apply (inj (String.append _)) in E. Qed.

Section Lemmas.
Context {B O R : Type} `{SdkMathLaws, SdkCoinsLaws, SdkAddressLaws, EthCommonLaws, IntTextLaws, !BankKeeper B, !BankLaws B,
  !AccountKeeper B, !OracleKeeper O, !OracleKeeperLaws O, !TokenRegistry.TokenRegistryKeeper R}.
Abbreviation W := (BridgeWorld B O R).

(** *** Coins *)

Lemma coins_of_ok d a cs : coins_of d a = Ok cs -> 0 <= a /\ forall d', AmountOf cs d' = if String.eqb d d' then a else 0.
Proof.
  unfold coins_of. intros (c & (-> & Ha & _)%NewCoin_ok & [Hr _]%NewCoins_ok)%rbind_ok_inv.
  split; [done|]. intros d'. rewrite Hr. simpl. lia.
Qed.

Lemma coins_of2_ok d1 a1 d2 a2 cs :
  coins_of2 d1 a1 d2 a2 = Ok cs ->
  forall d', AmountOf cs d' = (if String.eqb d1 d' then a1 else 0) + (if String.eqb d2 d' then a2 else 0).
Proof.
  unfold coins_of2. intros (c & (-> & Ha & _)%NewCoin_ok & (c' & (-> & Ha' & _)%NewCoin_ok & [Hr _]%NewCoins_ok)%rbind_ok_inv)%rbind_ok_inv.
  intros d'. rewrite Hr. simpl. lia.
Qed.

(** *** The content of a claim *)

Lemma content_integers c : integers (content_json c).
Proof. simpl. split_and!; try done. by eexists. Qed.

Lemma big_String_nonempty z : big_String z <> "".
Proof. destruct (big_String_cons z) as (c & r & -> & _). done. Qed.

Lemma AccAddress_String_nonempty a : a <> "" -> AccAddress_String a <> "".
Proof.
  intros Ha E. pose proof (AccAddress_roundtrip a Ha) as Hr. rewrite E in Hr.
  pose proof AccAddress_empty_text as He. by rewrite Hr in He.
Qed.

(** A claim content survives being written into the oracle and read back. *)
Lemma content_roundtrip receiver amount symbol token ty :
  receiver <> "" -> Z.abs amount < 2 ^ 255 -> String.length token = 20%nat -> - 2 ^ 31 <= ty < 2 ^ 31 ->
  let c := NewOracleClaimContent receiver amount symbol token ty in
  CreateOracleClaimFromOracleString (json_print (content_json c)) = Ok c.
Proof.
  intros Hr Ha Ht Hty c. unfold CreateOracleClaimFromOracleString. rewrite json_parse_print by apply content_integers.
  unfold content_json. cbn [content_fields]. unfold content_field, EthereumAddress_MarshalJSON.
  change (EqualFold "cosmos_receiver" "cosmos_receiver") with true.
  change (EqualFold "amount" "cosmos_receiver") with false. change (EqualFold "amount" "amount") with true.
  change (EqualFold "symbol" "cosmos_receiver") with false. change (EqualFold "symbol" "amount") with false.
  change (EqualFold "symbol" "symbol") with true.
  change (EqualFold "token_contract_address" "cosmos_receiver") with false.
  change (EqualFold "token_contract_address" "amount") with false.
  change (EqualFold "token_contract_address" "symbol") with false.
  change (EqualFold "token_contract_address" "token_contract_address") with true.
  change (EqualFold "claim_type" "cosmos_receiver") with false. change (EqualFold "claim_type" "amount") with false.
  change (EqualFold "claim_type" "symbol") with false. change (EqualFold "claim_type" "token_contract_address") with false.
  change (EqualFold "claim_type" "claim_type") with true.
  cbn [json_string rbind OC_CosmosReceiver OC_Amount OC_Symbol OC_TokenContractAddress OC_ClaimType c NewOracleClaimContent default].
  pose proof (AccAddress_String_nonempty receiver Hr) as Hn%String.eqb_neq. rewrite Hn, AccAddress_roundtrip by done.
  cbn [rbind OC_CosmosReceiver OC_Amount OC_Symbol OC_TokenContractAddress OC_ClaimType].
  unfold id. rewrite Int_text_roundtrip by done. cbn [rbind OC_CosmosReceiver OC_Amount OC_Symbol OC_TokenContractAddress OC_ClaimType].
  unfold EthereumAddress_UnmarshalJSON, EthereumAddress_String. rewrite Address_roundtrip by done.
  cbn [rbind OC_CosmosReceiver OC_Amount OC_Symbol OC_TokenContractAddress OC_ClaimType]. rewrite parse_big_String.
  rewrite (proj2 (Z.leb_le _ _)), (proj2 (Z.ltb_lt _ _)) by lia. done.
Qed.

(** *** The list of pegged tokens *)

Lemma ExistsPeggyToken_spec token (w : W) : ExistsPeggyToken token w = true <-> token ∈ GetPeggyToken w.
Proof.
  unfold ExistsPeggyToken. rewrite existsb_exists. split.
  - by intros (v & Hv%list_elem_of_In & ->%String.eqb_eq).
  - intros Hin. exists token. split; [by apply list_elem_of_In|apply String.eqb_refl].
Qed.

(** Everything outside the store's token list is untouched. *)
Definition same_but_tokens (w w' : W) : Prop :=
  bw_bank w' = bw_bank w /\ bw_oracle w' = bw_oracle w /\ bw_registry w' = bw_registry w
  /\ eb_ceth (bw_store w') = eb_ceth (bw_store w) /\ eb_blacklist (bw_store w') = eb_blacklist (bw_store w).

Lemma AddPeggyToken_ok token (w w' : W) u :
  AddPeggyToken token w = (w', Ok u) ->
  same_but_tokens w w' /\ GetPeggyToken w' = (if ExistsPeggyToken token w then GetPeggyToken w else GetPeggyToken w ++ [token]).
Proof.
  unfold AddPeggyToken. intros Hr. get_step Hr. destruct (ExistsPeggyToken token w) eqn:E.
  - apply mret_ok_inv in Hr as [-> _]. by split.
  - apply mmodify_ok_inv in Hr as ->. by split.
Qed.

Lemma AddPeggyToken_total token (w : W) : is_ok (AddPeggyToken token w).2 = true.
Proof. unfold AddPeggyToken, mbnd, mgets. by destruct (ExistsPeggyToken _ _). Qed.

(** *** Paying a successful claim *)

(** The denomination a claim is paid in. *)
Definition paid_denom (c : OracleClaimContent) : string :=
  if OC_ClaimType c =? CLAIM_TYPE_LOCK then PeggedCoinPrefix +:+ OC_Symbol c else OC_Symbol c.

Lemma mint_and_send (w w1 w2 : W) symbol amount cs receiver u1 u2 :
  coins_of symbol amount = Ok cs -> on_bank (MintCoins ModuleName cs) w = (w1, Ok u1) ->
  on_bank (SendCoinsFromModuleToAccount ModuleName receiver cs) w1 = (w2, Ok u2) ->
  w2 = set_bank w (bw_bank w2) /\ 0 <= amount
  /\ forall a d, GetBalance (bw_bank w2) a d = GetBalance (bw_bank w) a d
       + (if decide (a = receiver) then if String.eqb symbol d then amount else 0 else 0).
Proof.
  intros [Ha Hcs]%coins_of_ok (b1 & Hm%MintCoins_ok & ->)%bridge_bank_ok (b2 & [Hs _]%SendCoinsFromModuleToAccount_ok & ->)%bridge_bank_ok.
  split_and!; [done..|]. intros a d. simpl in *. rewrite (Hs a d), (Hm a d), !Hcs. repeat case_decide; lia.
Qed.

Lemma ProcessSuccessfulClaim_ok text (w w' : W) u :
  ProcessSuccessfulClaim text w = (w', Ok u) ->
  exists c amount, CreateOracleClaimFromOracleString text = Ok c /\ OC_Amount c = Some amount /\ 0 <= amount
  /\ (OC_ClaimType c = CLAIM_TYPE_LOCK /\ paid_denom c ∈ GetPeggyToken w'
      \/ OC_ClaimType c = CLAIM_TYPE_BURN /\ GetPeggyToken w' = GetPeggyToken w)
  /\ same_but_tokens (set_bank w (bw_bank w')) w'
  /\ (forall t, t ∈ GetPeggyToken w' <-> t ∈ GetPeggyToken w \/ OC_ClaimType c = CLAIM_TYPE_LOCK /\ t = paid_denom c)
  /\ (NoDup (GetPeggyToken w) -> NoDup (GetPeggyToken w'))
  /\ forall a d, GetBalance (bw_bank w') a d = GetBalance (bw_bank w) a d
       + (if decide (a = OC_CosmosReceiver c) then if String.eqb (paid_denom c) d then amount else 0 else 0).
Proof.
  unfold ProcessSuccessfulClaim, paid_denom. intros Hr. lift_step Hr as c Hc. cbv zeta in Hr. run_step Hr as cs w1 Hmint.
  apply mmust_ok_inv in Hr. exists c. destruct (Z.eqb_spec (OC_ClaimType c) CLAIM_TYPE_LOCK) as [Hl|Hl].
  - run_step Hmint as u1 w2 Hadd. apply AddPeggyToken_ok in Hadd as [(Hb & Ho & Hreg & Hce & Hbl) Ht].
    lift_step Hmint as amount Hamt. lift_step Hmint as cs' Hcs'. run_step Hmint as u2 w3 Hm.
    apply mret_ok_inv in Hmint as [-> ->]. exists amount. destruct (OC_Amount c) as [am|]; [|done]. injection Hamt as ->.
    destruct (mint_and_send _ _ _ _ _ _ _ _ _ Hcs' Hm Hr) as (E & Hpos & Hbal). set (sym := PeggedCoinPrefix +:+ OC_Symbol c) in *.
    assert (GetPeggyToken w' = GetPeggyToken w2) as Ht' by (by rewrite E). rewrite Hb in Hbal.
    assert (forall t, t ∈ GetPeggyToken w' <-> t ∈ GetPeggyToken w \/ OC_ClaimType c = CLAIM_TYPE_LOCK /\ t = sym) as Hin.
    { intros t. rewrite Ht', Ht. destruct (ExistsPeggyToken sym w) eqn:Ex.
      - apply ExistsPeggyToken_spec in Ex. naive_solver.
      - rewrite elem_of_app, list_elem_of_singleton. naive_solver. }
    split_and!; [done|done|done|left; split; [done|by apply Hin; right]| |done| |done].
    + rewrite E. unfold same_but_tokens, set_bank. simpl. by split_and!.
    + intros Hnd. rewrite Ht', Ht. destruct (ExistsPeggyToken sym w) eqn:Ex; [done|].
      apply NoDup_app. split_and!; [done| |apply NoDup_singleton]. intros t Hin' ->%list_elem_of_singleton.
      apply ExistsPeggyToken_spec in Hin'. congruence.
  - destruct (Z.eqb_spec (OC_ClaimType c) CLAIM_TYPE_BURN) as [Hb|]; [|done].
    lift_step Hmint as amount Hamt. lift_step Hmint as cs' Hcs'. run_step Hmint as u2 w3 Hm.
    apply mret_ok_inv in Hmint as [-> ->]. exists amount. destruct (OC_Amount c) as [am|]; [|done]. injection Hamt as ->.
    destruct (mint_and_send _ _ _ _ _ _ _ _ _ Hcs' Hm Hr) as (E & Hpos & Hbal).
    assert (GetPeggyToken w' = GetPeggyToken w) as Ht' by (by rewrite E).
    split_and!; [done|done|done|by right| | | |done].
    + by rewrite E.
    + intros t. rewrite Ht'. naive_solver.
    + by rewrite Ht'.
Qed.

Lemma CreateEthBridgeClaim_ok msg (w w' : W) u :
  CreateEthBridgeClaim msg w = (w', Ok u) ->
  exists ec claim status o', Create_Claim msg = Some ec /\ CreateOracleClaimFromEthClaim ec = Ok claim
  /\ ok_ProcessClaim claim (bw_oracle w) = (o', Ok status) /\ bw_oracle w' = o'
  /\ let w1 := mkBridgeWorld (bw_store w) (bw_bank w) o' (bw_registry w) in
     if decide (Text status = STATUS_TEXT_SUCCESS) then ProcessSuccessfulClaim (FinalClaim status) w1 = (w', Ok u)
     else w' = w1.
Proof.
  unfold CreateEthBridgeClaim, ProcessClaim. intros Hr. run_step Hr as status w1 Hp.
  destruct (Create_Claim msg) as [ec|] eqn:Ec; [|done]. lift_step Hp as claim Hc.
  apply bridge_oracle_ok in Hp as (o' & Ho & ->). exists ec, claim, status, o'.
  destruct (decide (Text status = STATUS_TEXT_SUCCESS)) as [Hs|Hs].
  - rewrite bool_decide_true in Hr by done. split_and!; try done.
    by destruct (ProcessSuccessfulClaim_ok _ _ _ _ Hr) as (c & am & _ & _ & _ & _ & (_ & ? & _) & _).
  - rewrite bool_decide_false in Hr by done. apply mret_ok_inv in Hr as [-> ->]. by split_and!.
Qed.

(** *** Sending coins off this chain *)

Lemma sender_account_ok text e (w w' : W) a :
  sender_account text e w = (w', Ok a) -> w' = w /\ AccAddressFromBech32 text = Ok a /\ HasAccount (bw_bank w) a = true.
Proof.
  unfold sender_account. intros Hr. lift_step Hr as a' Ha. get_step Hr. check_step Hr as Hc%negb_false_iff.
  apply mret_ok_inv in Hr as [-> ->]. by split_and!.
Qed.

(** Where the gas money goes. *)
Definition ceth_target (w : W) : string :=
  if IsCethReceiverAccountSet w then GetCethReceiverAccount w else NewModuleAddress ModuleName.

(** The sender pays the amount, which disappears, and the gas, which reaches its target. *)
Definition sent_off (b b' : B) (sender target symbol : string) (amount ceth : Z) : Prop :=
  forall a d, GetBalance b' a d = GetBalance b a d
    - (if decide (a = sender)
       then (if String.eqb symbol d then amount else 0) + (if String.eqb CethSymbol d then ceth else 0) else 0)
    + (if decide (a = target) then if String.eqb CethSymbol d then ceth else 0 else 0).

Lemma send_and_burn (w w1 w2 : W) sender cs cs' symbol amount u1 u2 :
  on_bank (SendCoinsFromAccountToModule sender ModuleName cs) w = (w1, Ok u1) ->
  coins_of symbol amount = Ok cs' -> on_bank (BurnCoins ModuleName cs') w1 = (w2, Ok u2) ->
  w2 = set_bank w (bw_bank w2)
  /\ forall a d, GetBalance (bw_bank w2) a d = GetBalance (bw_bank w) a d
       - (if decide (a = sender) then AmountOf cs d else 0)
       + (if decide (a = NewModuleAddress ModuleName) then AmountOf cs d - (if String.eqb symbol d then amount else 0) else 0).
Proof.
  intros (b1 & [Hs _]%SendCoinsFromAccountToModule_ok & ->)%bridge_bank_ok [_ Hcs]%coins_of_ok
    (b2 & [Hm _]%BurnCoins_ok & ->)%bridge_bank_ok.
  split; [done|]. intros a d. simpl in *. rewrite (Hm a d), (Hs a d), !Hcs. repeat case_decide; lia.
Qed.

Lemma pay_gas (w w1 : W) sender cs ceth u :
  coins_of CethSymbol ceth = Ok cs -> on_bank (SendCoins sender (GetCethReceiverAccount w) cs) w = (w1, Ok u) ->
  w1 = set_bank w (bw_bank w1)
  /\ forall a d, GetBalance (bw_bank w1) a d = GetBalance (bw_bank w) a d
       - (if decide (a = sender) then if String.eqb CethSymbol d then ceth else 0 else 0)
       + (if decide (a = GetCethReceiverAccount w) then if String.eqb CethSymbol d then ceth else 0 else 0).
Proof.
  intros [_ Hcs]%coins_of_ok (b1 & [Hs _]%SendCoins_ok & ->)%bridge_bank_ok. split; [done|].
  intros a d. simpl in *. by rewrite (Hs a d), !Hcs.
Qed.

Lemma sent_off_with_receiver (w w1 w2 w3 : W) sender cs cs1 cs2 symbol amount ceth u1 u2 u3 :
  IsCethReceiverAccountSet w = true -> coins_of CethSymbol ceth = Ok cs ->
  on_bank (SendCoins sender (GetCethReceiverAccount w) cs) w = (w1, Ok u1) -> coins_of symbol amount = Ok cs1 ->
  on_bank (SendCoinsFromAccountToModule sender ModuleName cs1) w1 = (w2, Ok u2) -> coins_of symbol amount = Ok cs2 ->
  on_bank (BurnCoins ModuleName cs2) w2 = (w3, Ok u3) ->
  w3 = set_bank w (bw_bank w3) /\ sent_off (bw_bank w) (bw_bank w3) sender (ceth_target w) symbol amount ceth.
Proof.
  intros Hset Hcs Hgas [_ Hcs1]%coins_of_ok Hsend Hcs2 Hburn. destruct (pay_gas _ _ _ _ _ _ Hcs Hgas) as [E1 Hb1].
  destruct (send_and_burn _ _ _ _ _ _ _ _ _ _ Hsend Hcs2 Hburn) as [E3 Hb3]. split.
  - rewrite E3 at 1. rewrite E1. done.
  - intros a d. unfold ceth_target. rewrite Hset, (Hb3 a d), (Hb1 a d), !Hcs1. repeat case_decide; lia.
Qed.

Lemma sent_off_without_receiver (w w2 w3 : W) sender cs1 cs2 symbol amount ceth u2 u3 :
  IsCethReceiverAccountSet w = false ->
  (forall d, AmountOf cs1 d = (if String.eqb symbol d then amount else 0) + (if String.eqb CethSymbol d then ceth else 0)) ->
  on_bank (SendCoinsFromAccountToModule sender ModuleName cs1) w = (w2, Ok u2) -> coins_of symbol amount = Ok cs2 ->
  on_bank (BurnCoins ModuleName cs2) w2 = (w3, Ok u3) ->
  w3 = set_bank w (bw_bank w3) /\ sent_off (bw_bank w) (bw_bank w3) sender (ceth_target w) symbol amount ceth.
Proof.
  intros Hset Hcs1 Hsend Hcs2 Hburn. destruct (send_and_burn _ _ _ _ _ _ _ _ _ _ Hsend Hcs2 Hburn) as [E3 Hb3].
  split; [done|]. intros a d. unfold ceth_target. rewrite Hset, (Hb3 a d), !Hcs1. repeat case_decide; lia.
Qed.

Lemma ProcessLock_ok sender msg (w w' : W) u :
  ProcessLock sender msg w = (w', Ok u) ->
  IsBlacklisted (Lock_EthereumReceiver msg) w = false /\ w' = set_bank w (bw_bank w')
  /\ sent_off (bw_bank w) (bw_bank w') sender (ceth_target w) (Lock_Symbol msg) (Lock_Amount msg) (Lock_CethAmount msg).
Proof.
  unfold ProcessLock. intros Hr. get_step Hr. check_step Hr as Hbl. split; [done|]. run_step Hr as cs1 w1 Hcoins.
  run_step Hr as u1 w2 Hsend. lift_step Hr as cs2 Hcs2. destruct (IsCethReceiverAccountSet w) eqn:Hset.
  - lift_step Hcoins as cs Hcs. run_step Hcoins as u2 w4 Hgas. apply mlift_ok_inv in Hcoins as [-> Hcs1].
    exact (sent_off_with_receiver _ _ _ _ _ _ _ _ _ _ _ _ _ _ Hset Hcs Hgas Hcs1 Hsend Hcs2 Hr).
  - apply mlift_ok_inv in Hcoins as [-> Hcs1].
    exact (sent_off_without_receiver _ _ _ _ _ _ _ _ _ _ _ Hset (coins_of2_ok _ _ _ _ _ Hcs1) Hsend Hcs2 Hr).
Qed.

Lemma ProcessBurn_ok sender msg (w w' : W) u :
  ProcessBurn sender msg w = (w', Ok u) ->
  IsBlacklisted (Burn_EthereumReceiver msg) w = false /\ w' = set_bank w (bw_bank w')
  /\ sent_off (bw_bank w) (bw_bank w') sender (ceth_target w) (Burn_Symbol msg) (Burn_Amount msg) (Burn_CethAmount msg).
Proof.
  unfold ProcessBurn. intros Hr. get_step Hr. check_step Hr as Hbl. split; [done|]. run_step Hr as cs1 w1 Hcoins.
  run_step Hr as u1 w2 Hsend. lift_step Hr as cs2 Hcs2. destruct (IsCethReceiverAccountSet w) eqn:Hset.
  - lift_step Hcoins as cs Hcs. run_step Hcoins as u2 w4 Hgas. apply mlift_ok_inv in Hcoins as [-> Hcs1].
    exact (sent_off_with_receiver _ _ _ _ _ _ _ _ _ _ _ _ _ _ Hset Hcs Hgas Hcs1 Hsend Hcs2 Hr).
  - destruct (String.eqb_spec (Burn_Symbol msg) CethSymbol) as [E|].
    + lift_step Hcoins as total Ht%Int_Add_ok. apply mlift_ok_inv in Hcoins as [-> [_ Hcs1]%coins_of_ok].
      refine (sent_off_without_receiver _ _ _ _ _ _ _ _ _ _ _ Hset _ Hsend Hcs2 Hr).
      intros d. rewrite Hcs1, E, Ht. case_match; lia.
    + apply mlift_ok_inv in Hcoins as [-> Hcs1].
    exact (sent_off_without_receiver _ _ _ _ _ _ _ _ _ _ _ Hset (coins_of2_ok _ _ _ _ _ Hcs1) Hsend Hcs2 Hr).
Qed.

(** *** The blacklist *)

Definition set_blacklist (w : W) (m : KV unit) : W :=
  mkBridgeWorld (mkBridgeStore (eb_peggy (bw_store w)) (eb_ceth (bw_store w)) m) (bw_bank w) (bw_oracle w) (bw_registry w).

Lemma mfor_blacklist (f : string -> KV unit -> KV unit) l (w : W) :
  mfor l (fun a => upd_blacklist (f a)) w
  = (set_blacklist w (fold_left (fun m a => f a m) l (eb_blacklist (bw_store w))), Ok tt).
Proof.
  revert w. induction l as [|a l IH]; intros w; [by destruct w as [[] ? ? ?]|]. cbn [mfor fold_left].
  erewrite mbnd_run by reflexivity. by rewrite IH.
Qed.

Lemma fold_delete_lookup l (m : KV unit) k :
  (fold_left (fun m a => delete (blacklist_key a) m) l m) !! k = if decide (k ∈ blacklist_key <$> l) then None else m !! k.
Proof.
  revert m. induction l as [|a l IH]; intros m; [done|]. simpl. rewrite IH.
  destruct (decide (k ∈ blacklist_key <$> l)) as [Hin|Hin].
  - by rewrite decide_True by (by right).
  - destruct (decide (k = blacklist_key a)) as [->|Hne].
    + rewrite lookup_delete_eq. by rewrite decide_True by left.
    + rewrite lookup_delete_ne by done. rewrite decide_False; [done|]. by intros [?|?]%elem_of_cons.
Qed.

Lemma fold_insert_lookup l (m : KV unit) k :
  (fold_left (fun m a => <[blacklist_key a := tt]> m) l m) !! k = if decide (k ∈ blacklist_key <$> l) then Some tt else m !! k.
Proof.
  revert m. induction l as [|a l IH]; intros m; [done|]. simpl. rewrite IH.
  destruct (decide (k ∈ blacklist_key <$> l)) as [Hin|Hin].
  - by rewrite decide_True by (by right).
  - destruct (decide (k = blacklist_key a)) as [->|Hne].
    + rewrite lookup_insert_eq. by rewrite decide_True by left.
    + rewrite lookup_insert_ne by done. rewrite decide_False; [done|]. by intros [?|?]%elem_of_cons.
Qed.

Lemma elem_of_removals addresses (w : W) a :
  a <> "" -> IsBlacklisted a w = true -> a ∉ addresses -> a ∈ removals addresses w.
Proof.
  intros Ha [[] Hb]%bool_decide_eq_true Hn. unfold removals. apply list_elem_of_filter. split; [done|].
  apply list_elem_of_fmap. exists (blacklist_key a, tt). split; [done|]. apply list_elem_of_filter. split.
  - destruct a; [done|]. simpl. lia.
  - apply elem_of_kv_from. split; [done|]. unfold blacklist_key, BlacklistPrefix, byte1. by destruct a.
Qed.

Lemma removals_spec addresses (w : W) a : a ∈ removals addresses w -> (a ∉ addresses) /\ a <> "".
Proof.
  unfold removals. intros [Hn (kv & -> & [Hl _]%list_elem_of_filter)%list_elem_of_fmap]%list_elem_of_filter.
  split; [done|]. destruct kv as [[|c [|c' k]] v]; simpl in *; (lia || done).
Qed.

Lemma SetBlacklist_ok msg (w w' : W) u :
  SetBlacklist msg w = (w', Ok u) ->
  (exists from, AccAddressFromBech32 (Blacklist_From msg) = Ok from
     /\ TokenRegistry.trk_IsAdminAccount (bw_registry w) from = true)
  /\ w' = set_blacklist w (eb_blacklist (bw_store w'))
  /\ forall a, IsBlacklisted a w' = bool_decide (a ∈ Blacklist_Addresses msg) || (String.eqb a "" && IsBlacklisted a w).
Proof.
  unfold SetBlacklist. intros Hr. lift_step Hr as from Hf. get_step Hr. check_step Hr as Ha%negb_false_iff.
  rewrite (mbnd_run _ _ _ _ _ (mfor_blacklist _ _ _)), mfor_blacklist in Hr. injection Hr as <- _.
  split; [by exists from|]. split; [done|]. intros a. unfold IsBlacklisted at 1. cbn [set_blacklist bw_store eb_blacklist].
  rewrite fold_insert_lookup, fold_delete_lookup.
  destruct (decide (blacklist_key a ∈ blacklist_key <$> Blacklist_Addresses msg)) as [Hin|Hin];
    rewrite (list_elem_of_fmap_inj blacklist_key) in Hin.
  { rewrite (bool_decide_true (a ∈ Blacklist_Addresses msg)) by done. by rewrite bool_decide_true. }
  rewrite (bool_decide_false (a ∈ Blacklist_Addresses msg)) by done. cbn [orb].
  destruct (decide (blacklist_key a ∈ blacklist_key <$> removals (Blacklist_Addresses msg) w)) as [Hrem|Hrem];
    rewrite (list_elem_of_fmap_inj blacklist_key) in Hrem.
  { apply removals_spec in Hrem as [_ Hne%String.eqb_neq]. rewrite Hne. by rewrite bool_decide_false by (by intros [? ?]). }
  fold (IsBlacklisted a w). destruct (String.eqb_spec a "") as [->|Hne]; [done|]. cbn [andb].
  destruct (IsBlacklisted a w) eqn:E; [|done]. by destruct Hrem; apply elem_of_removals.
Qed.

(** *** Runs of the bridge *)

(** A transaction keeps the effects of its message only if the handler succeeds. *)
Definition deliver (m : Msg) (w : W) : W :=
  match Handler m w with (w', Ok _) => w' | _ => w end.

(** A bridge message, or anything other modules do to the bank, the registry and the
    staking state behind the oracle. *)
Inductive bridge_step : W -> W -> Prop :=
| step_message m w : ValidateBasic m = Ok tt -> bridge_step w (deliver m w)
| step_other w b o r : ok_inv o -> (forall id, ok_decided o id = ok_decided (bw_oracle w) id) ->
    bridge_step w (mkBridgeWorld (bw_store w) b o r).

(** What one successful message does to the oracle and to the token list. *)
Definition keeps_record (w w' : W) : Prop :=
  (ok_inv (bw_oracle w) -> ok_inv (bw_oracle w') /\
     forall id, ok_decided (bw_oracle w) id = true -> ok_decided (bw_oracle w') id = true)
  /\ GetPeggyToken w ⊆ GetPeggyToken w' /\ (NoDup (GetPeggyToken w) -> NoDup (GetPeggyToken w')).

Lemma keeps_record_frame (w w' : W) :
  bw_oracle w' = bw_oracle w -> GetPeggyToken w' = GetPeggyToken w -> keeps_record w w'.
Proof. unfold keeps_record. by intros -> ->. Qed.

Lemma keeps_record_trans (w1 w2 w3 : W) : keeps_record w1 w2 -> keeps_record w2 w3 -> keeps_record w1 w3.
Proof. intros (Ho & Ht & Hn) (Ho' & Ht' & Hn'). split; [|split; [by etrans|auto]]. intros [Hi Hd]%Ho. naive_solver. Qed.

Lemma create_keeps_record msg (w w' : W) u : CreateEthBridgeClaim msg w = (w', Ok u) -> keeps_record w w'.
Proof.
  intros (ec & claim & status & o' & _ & _ & Ho & Ho' & Hr)%CreateEthBridgeClaim_ok. cbv zeta in Hr. split.
  - intros Hi. destruct (ok_claim_ok _ _ _ _ Hi Ho) as (Hi' & Hno & _ & Hrest). rewrite Ho'. split; [done|].
    intros id Hd. rewrite Hrest; [done|]. intros ->. congruence.
  - destruct (decide _); [|rewrite Hr; by split]. apply ProcessSuccessfulClaim_ok in Hr as (c & am & _ & _ & _ & _ & _ & Hin & Hnd & _).
    split; [|done]. intros t Ht. apply Hin. by left.
Qed.

Lemma whitelist_keeps_record a v op (w w' : W) u :
  ProcessUpdateWhiteListValidator a v op w = (w', Ok u) -> keeps_record w w'.
Proof.
  intros (o' & Ho & ->)%bridge_oracle_ok. split; [|done]. intros Hi.
  destruct (ok_whitelist_frame _ _ _ _ _ _ Hi Ho) as [Hi' Hd]. split; [done|]. intros id. simpl. by rewrite Hd.
Qed.

Lemma Handler_keeps_record m (w w' : W) u : Handler m w = (w', Ok u) -> keeps_record w w'.
Proof.
  destruct m as [m|m|m|m|m|m|m]; cbn [Handler]; intros Hr.
  - by eapply create_keeps_record.
  - unfold Burn in Hr. get_step Hr. check_step Hr as _. run_step Hr as a w1 Ha. apply sender_account_ok in Ha as [-> _].
    apply ProcessBurn_ok in Hr as (_ & E & _). apply keeps_record_frame; by rewrite E.
  - unfold Lock in Hr. get_step Hr. check_step Hr as _. run_step Hr as a w1 Ha. apply sender_account_ok in Ha as [-> _].
    apply ProcessLock_ok in Hr as (_ & E & _). apply keeps_record_frame; by rewrite E.
  - unfold UpdateWhiteListValidator in Hr. run_step Hr as a w1 Ha. apply sender_account_ok in Ha as [-> _].
    lift_step Hr as v Hv. by eapply whitelist_keeps_record.
  - unfold UpdateCethReceiverAccount, ProcessUpdateCethReceiverAccount in Hr. lift_step Hr as a Ha. lift_step Hr as v Hv.
    get_step Hr. check_step Hr as _. get_step Hr. check_step Hr as _. apply mmodify_ok_inv in Hr as ->. by apply keeps_record_frame.
  - unfold RescueCeth, ProcessRescueCeth in Hr. run_step Hr as a w1 Ha. apply sender_account_ok in Ha as [-> _].
    lift_step Hr as a' Ha'. lift_step Hr as r Hrcv. get_step Hr. check_step Hr as _. lift_step Hr as cs Hcs.
    apply bridge_bank_ok in Hr as (b' & _ & ->). by apply keeps_record_frame.
  - apply SetBlacklist_ok in Hr as (_ & E & _). apply keeps_record_frame; by rewrite E.
Qed.

Lemma step_keeps_record (w w' : W) : bridge_step w w' -> keeps_record w w'.
Proof.
  intros [m w1 _|w1 b o r Hi Hd].
  - unfold deliver. destruct (Handler m w1) as [w2 [u|e|]] eqn:E; [by eapply Handler_keeps_record|by apply keeps_record_frame..].
  - split; [|done]. intros _. split; [done|]. intros id. simpl. by rewrite Hd.
Qed.

Lemma steps_keep_record (w w' : W) : rtc bridge_step w w' -> keeps_record w w'.
Proof. induction 1; [by apply keeps_record_frame|]. eauto using keeps_record_trans, step_keeps_record. Qed.

(** A claim on a decided identifier is refused without effect. *)
Lemma decided_refused msg (w w' : W) ec r :
  ok_inv (bw_oracle w) -> Create_Claim msg = Some ec ->
  ok_decided (bw_oracle w) (oracle_id (EthereumChainId ec) (Nonce ec) (EthereumSender ec)) = true ->
  CreateEthBridgeClaim msg w = (w', r) -> is_ok r = false /\ w' = w.
Proof.
  intros Hi Hec Hd. unfold CreateEthBridgeClaim, ProcessClaim, mbnd, mlift. rewrite Hec.
  unfold CreateOracleClaimFromEthClaim. destruct (AccAddressFromBech32 (CosmosReceiver ec)) as [a|e|]; cbn [rbind];
    [|by intros [= <- <-]..].
  unfold on_oracle. destruct (ok_ProcessClaim _ (bw_oracle w)) as [o' r'] eqn:E. destruct r' as [st|e|].
  - apply ok_claim_ok in E as (_ & Hno & _); [|done]. cbn [NewClaim Claim_Id] in Hno. congruence.
  - apply ok_claim_err in E as ->; [|done]. intros [= <- <-]. split; [done|by destruct w].
  - apply ok_claim_err in E as ->; [|done]. intros [= <- <-]. split; [done|by destruct w].
Qed.

Lemma pegged_not_lockable msg (w : W) :
  Lock_Symbol msg ∈ GetPeggyToken w -> Lock msg w = (w, Err (PlainErr "Pegged token can't be lock.")).
Proof.
  intros Hin. unfold Lock. erewrite mbnd_run by reflexivity. rewrite mbnd_stop; [done|]. by apply ExistsPeggyToken_spec.
Qed.

(** *** Genesis *)

Lemma AddPeggyTokens_run l (w : W) :
  NoDup (GetPeggyToken w ++ l) ->
  exists w', mfor l AddPeggyToken w = (w', Ok tt) /\ same_but_tokens w w' /\ GetPeggyToken w' = GetPeggyToken w ++ l.
Proof.
  revert w. induction l as [|t l IH]; intros w Hnd.
  - exists w. split_and!; [done|done|by rewrite app_nil_r].
  - cbn [mfor]. destruct (AddPeggyToken t w) as [w1 r] eqn:E. pose proof (AddPeggyToken_total t w) as Ht. rewrite E in Ht.
    destruct r as [u| |]; [|done..]. rewrite (mbnd_run _ _ _ _ _ E). apply AddPeggyToken_ok in E as [Hsame Hl].
    assert (ExistsPeggyToken t w = false) as Hn.
    { destruct (ExistsPeggyToken t w) eqn:Ex; [|done]. apply ExistsPeggyToken_spec in Ex.
      apply NoDup_app in Hnd as (_ & Hd & _). destruct (Hd t Ex). by left. }
    rewrite Hn in Hl. destruct (IH w1) as (w' & Hrun & Hsame' & Hl'); [rewrite Hl, <- app_assoc; done|].
    exists w'. split_and!; [done| |by rewrite Hl', Hl, <- app_assoc]. unfold same_but_tokens in *. naive_solver congruence.
Qed.

Lemma GetCethReceiverAccount_nonempty (w : W) :
  GetCethReceiverAccount w = "" \/ AccAddressFromBech32 (AccAddress_String (GetCethReceiverAccount w)) = Ok (GetCethReceiverAccount w).
Proof.
  unfold GetCethReceiverAccount. destruct (eb_ceth (bw_store w)) as [v|]; [|by left]. destruct (String.eqb v ""); [by left|].
  destruct (AccAddressFromBech32 v) as [a| |] eqn:E; [|by left..]. right. by apply AccAddress_roundtrip, (AccAddress_nonempty v).
Qed.

(** ** Properties *)

(** C17: a successful claim message has voted for its own event with the oracle, and the oracle
    has answered with a status.  When the status is not success, neither the bank nor the
    bridge's own store changes.  When it is, the final claim of the status, and not what the
    message says, is paid: it decodes, its type is lock or burn, exactly its amount of one
    denomination (the symbol, with the pegged prefix for a lock) appears at its receiver and
    nowhere else, and exactly a lock's denomination becomes a pegged token. *)
Theorem claim_payment msg (w w' : W) u :
  CreateEthBridgeClaim msg w = (w', Ok u) ->
  exists ec claim status, Create_Claim msg = Some ec /\ CreateOracleClaimFromEthClaim ec = Ok claim
  /\ ok_ProcessClaim claim (bw_oracle w) = (bw_oracle w', Ok status)
  /\ (Text status <> STATUS_TEXT_SUCCESS -> bw_bank w' = bw_bank w /\ bw_store w' = bw_store w)
  /\ (Text status = STATUS_TEXT_SUCCESS -> exists c amount,
       CreateOracleClaimFromOracleString (FinalClaim status) = Ok c /\ OC_Amount c = Some amount /\ 0 <= amount
       /\ (OC_ClaimType c = CLAIM_TYPE_LOCK \/ OC_ClaimType c = CLAIM_TYPE_BURN)
       /\ (forall t, t ∈ GetPeggyToken w' <-> t ∈ GetPeggyToken w \/ OC_ClaimType c = CLAIM_TYPE_LOCK /\ t = paid_denom c)
       /\ forall a d, GetBalance (bw_bank w') a d = GetBalance (bw_bank w) a d
            + (if decide (a = OC_CosmosReceiver c) then if String.eqb (paid_denom c) d then amount else 0 else 0)).
Proof.
  intros (ec & claim & status & o' & Hec & Hcl & Ho & <- & Hr)%CreateEthBridgeClaim_ok. cbv zeta in Hr.
  exists ec, claim, status. split_and!; [done..| |]; intros Hs.
  - rewrite decide_False in Hr by done. rewrite Hr. by split.
  - rewrite decide_True in Hr by done.
    destruct (ProcessSuccessfulClaim_ok _ _ _ _ Hr) as (c & am & Hc & Ham & Hpos & Hty & _ & Hpeg & _ & Hbal).
    exists c, am. split_and!; try done. destruct Hty as [[? _]|[? _]]; auto.
Qed.

(** C16: a claim is paid at most once: after a claim message that changed the bank, whatever
    messages and other activity follow, every later claim with the same chain id, nonce
    and Ethereum sender is refused and changes nothing. *)
Theorem paid_once msg ec (w w1 w2 w3 : W) u msg' ec' r :
  ok_inv (bw_oracle w) -> CreateEthBridgeClaim msg w = (w1, Ok u) -> Create_Claim msg = Some ec ->
  bw_bank w1 <> bw_bank w -> rtc bridge_step w1 w2 -> Create_Claim msg' = Some ec' ->
  EthereumChainId ec' = EthereumChainId ec -> Nonce ec' = Nonce ec -> EthereumSender ec' = EthereumSender ec ->
  CreateEthBridgeClaim msg' w2 = (w3, r) -> is_ok r = false /\ w3 = w2.
Proof.
  intros Hi (ec0 & claim & status & o' & Hec0 & Hclaim & Ho & Ho' & Hpay)%CreateEthBridgeClaim_ok Hec Hb Hsteps Hec' E1 E2 E3 Hr.
  rewrite Hec in Hec0. injection Hec0 as <-. cbv zeta in Hpay.
  destruct (decide (Text status = STATUS_TEXT_SUCCESS)) as [Hs|]; [|by destruct Hb; rewrite Hpay].
  destruct (ok_claim_ok _ _ _ _ Hi Ho) as (Hi' & _ & Hd & _). rewrite <- Ho' in *.
  destruct (steps_keep_record _ _ Hsteps) as [Hrec _]. destruct (Hrec Hi') as [Hi2 Hd2].
  eapply decided_refused; [exact Hi2|exact Hec'| |exact Hr]. rewrite E1, E2, E3. apply Hd2.
  unfold CreateOracleClaimFromEthClaim in Hclaim. apply rbind_ok_inv in Hclaim as (a & _ & Hclaim).
  injection Hclaim as <-. cbn [NewClaim Claim_Id] in Hd. rewrite Hd, Hs. done.
Qed.

(** C18: a successful lock is of a token that is not pegged and a successful burn of one that
    is, for a receiver that is not blacklisted, by a sender with an account; the sender pays
    exactly the amount, which leaves circulation, and the ceth, which reaches the ceth
    receiver (the module account when none is set); no other balance changes. *)
Theorem lock_and_burn_exact (w w' : W) u :
  (forall msg, Lock msg w = (w', Ok u) ->
     (Lock_Symbol msg ∉ GetPeggyToken w) /\ IsBlacklisted (Lock_EthereumReceiver msg) w = false
     /\ exists sender, AccAddressFromBech32 (Lock_CosmosSender msg) = Ok sender /\ HasAccount (bw_bank w) sender = true
        /\ w' = set_bank w (bw_bank w')
        /\ sent_off (bw_bank w) (bw_bank w') sender (ceth_target w) (Lock_Symbol msg) (Lock_Amount msg) (Lock_CethAmount msg))
  /\ (forall msg, Burn msg w = (w', Ok u) ->
     Burn_Symbol msg ∈ GetPeggyToken w /\ IsBlacklisted (Burn_EthereumReceiver msg) w = false
     /\ exists sender, AccAddressFromBech32 (Burn_CosmosSender msg) = Ok sender /\ HasAccount (bw_bank w) sender = true
        /\ w' = set_bank w (bw_bank w')
        /\ sent_off (bw_bank w) (bw_bank w') sender (ceth_target w) (Burn_Symbol msg) (Burn_Amount msg) (Burn_CethAmount msg)).
Proof.
  split; intros msg Hr; unfold Lock, Burn in Hr; get_step Hr.
  - check_step Hr as Hp. run_step Hr as sender w1 Ha. apply sender_account_ok in Ha as (-> & Hs & Hacc).
    apply ProcessLock_ok in Hr as (Hbl & E & Hsent). split; [by intros Hin%ExistsPeggyToken_spec; congruence|]. split; [done|]. by exists sender.
  - check_step Hr as Hp%negb_false_iff. run_step Hr as sender w1 Ha. apply sender_account_ok in Ha as (-> & Hs & Hacc).
    apply ProcessBurn_ok in Hr as (Hbl & E & Hsent). split; [by apply ExistsPeggyToken_spec|]. split; [done|]. by exists sender.
Qed.

(** C19: the claims that two validators make of an event reach the oracle with the same
    content exactly when they agree on the receiver, the amount, the symbol, the token
    contract and the claim type; and the content reads back as those five. *)
Theorem claims_agree ec1 ec2 c1 c2 r1 r2 :
  Z.abs (EAmount ec1) < 2 ^ 255 -> Z.abs (EAmount ec2) < 2 ^ 255 ->
  - 2 ^ 31 <= EClaimType ec1 < 2 ^ 31 -> - 2 ^ 31 <= EClaimType ec2 < 2 ^ 31 ->
  AccAddressFromBech32 (CosmosReceiver ec1) = Ok r1 -> AccAddressFromBech32 (CosmosReceiver ec2) = Ok r2 ->
  CreateOracleClaimFromEthClaim ec1 = Ok c1 -> CreateOracleClaimFromEthClaim ec2 = Ok c2 ->
  let content ec r := NewOracleClaimContent r (EAmount ec) (ESymbol ec) (NewEthereumAddress (TokenContractAddress ec)) (EClaimType ec) in
  CreateOracleClaimFromOracleString (Content c1) = Ok (content ec1 r1)
  /\ (Content c1 = Content c2 <-> content ec1 r1 = content ec2 r2).
Proof.
  intros Ha1 Ha2 Ht1 Ht2 Hr1 Hr2 Hc1 Hc2 content. unfold CreateOracleClaimFromEthClaim in Hc1, Hc2.
  rewrite Hr1 in Hc1. rewrite Hr2 in Hc2. injection Hc1 as <-. injection Hc2 as <-. cbn [NewClaim Content].
  pose proof (content_roundtrip r1 (EAmount ec1) (ESymbol ec1) (NewEthereumAddress (TokenContractAddress ec1)) (EClaimType ec1)
    (AccAddress_nonempty _ _ Hr1) Ha1 (HexToAddress_length _) Ht1) as H1'. cbv zeta in H1'.
  pose proof (content_roundtrip r2 (EAmount ec2) (ESymbol ec2) (NewEthereumAddress (TokenContractAddress ec2)) (EClaimType ec2)
    (AccAddress_nonempty _ _ Hr2) Ha2 (HexToAddress_length _) Ht2) as H2'. cbv zeta in H2'.
  split; [exact H1'|]. split; [|by unfold content; intros ->].
  intros E. rewrite E in H1'. rewrite H2' in H1'. injection H1'. unfold content. congruence.
Qed.

(** only an admin of the token registry sets the blacklist; afterwards exactly the
    listed addresses are blacklisted, except that an empty address, once listed, stays. *)
Theorem blacklist_set msg (w w' : W) u :
  SetBlacklist msg w = (w', Ok u) ->
  (exists from, AccAddressFromBech32 (Blacklist_From msg) = Ok from
     /\ TokenRegistry.trk_IsAdminAccount (bw_registry w) from = true)
  /\ forall a, IsBlacklisted a w' = bool_decide (a ∈ Blacklist_Addresses msg) || (String.eqb a "" && IsBlacklisted a w).
Proof. by intros (Hf & _ & Hb)%SetBlacklist_ok. Qed.

(** The list of pegged tokens never holds a token twice and never loses one, whatever
    messages and other activity follow; so a pegged token can never be locked again. *)
Theorem pegged_forever (w w' : W) :
  rtc bridge_step w w' ->
  (NoDup (GetPeggyToken w) -> NoDup (GetPeggyToken w')) /\ GetPeggyToken w ⊆ GetPeggyToken w'
  /\ forall msg, Lock_Symbol msg ∈ GetPeggyToken w -> Lock msg w' = (w', Err (PlainErr "Pegged token can't be lock.")).
Proof.
  intros (_ & Hsub & Hnd)%steps_keep_record. split_and!; [done|done|].
  intros msg Hin. by apply pegged_not_lockable, Hsub.
Qed.

(** Importing an exported genesis state into an empty store restores the pegged tokens
    and the ceth receiver; the blacklist is not part of it and is lost. *)
Lemma bridge_genesis_roundtrip (w w0 : W) :
  NoDup (GetPeggyToken w) -> bw_store w0 = mkBridgeStore None None ∅ ->
  exists w', InitGenesis (ExportGenesis w) w0 = (w', Ok tt) /\ GetPeggyToken w' = GetPeggyToken w
    /\ GetCethReceiverAccount w' = GetCethReceiverAccount w /\ (forall a, IsBlacklisted a w' = false)
    /\ bw_bank w' = bw_bank w0 /\ bw_oracle w' = bw_oracle w0 /\ bw_registry w' = bw_registry w0.
Proof.
  intros Hnd H0'. unfold InitGenesis, ExportGenesis. cbn [G_CethReceiveAccount G_PeggyTokens].
  set (w1 := if String.eqb (AccAddress_String (GetCethReceiverAccount w)) "" then w0 else
    mkBridgeWorld (mkBridgeStore None (Some (AccAddress_String (GetCethReceiverAccount w))) ∅) (bw_bank w0) (bw_oracle w0) (bw_registry w0)).
  assert (GetPeggyToken w1 = [] /\ GetCethReceiverAccount w1 = GetCethReceiverAccount w /\ eb_blacklist (bw_store w1) = ∅
    /\ bw_bank w1 = bw_bank w0 /\ bw_oracle w1 = bw_oracle w0 /\ bw_registry w1 = bw_registry w0) as (Ht & Hc & Hb & Hbk & Ho & Hreg).
  { unfold w1, GetPeggyToken. destruct (String.eqb_spec (AccAddress_String (GetCethReceiverAccount w)) "") as [E|E].
    - rewrite H0'. split_and!; try done. unfold GetCethReceiverAccount at 1. rewrite H0'. simpl.
      destruct (GetCethReceiverAccount_nonempty w) as [->|Hd]; [done|]. rewrite E in Hd.
      pose proof AccAddress_empty_text as He. by rewrite Hd in He.
    - split_and!; try done. unfold GetCethReceiverAccount at 1. simpl. apply String.eqb_neq in E. rewrite E.
      destruct (GetCethReceiverAccount_nonempty w) as [Hn|Hd]; [|by rewrite Hd].
      rewrite Hn, AccAddress_String_nil in E. done. }
  destruct (AddPeggyTokens_run (GetPeggyToken w) w1) as (w' & Hrun & (Hb1 & Ho1 & Hreg1 & Hc1 & Hbl1) & Hl); [by rewrite Ht|].
  exists w'. split_and!; [|by rewrite Hl, Ht|by unfold GetCethReceiverAccount in *; rewrite Hc1| |congruence..].
  - rewrite (mbnd_run _ _ _ w1 tt); [done|]. unfold w1.
    destruct (String.eqb_spec (AccAddress_String (GetCethReceiverAccount w)) ""); [done|].
    destruct (GetCethReceiverAccount_nonempty w) as [Hn|Hd]; [by rewrite Hn, AccAddress_String_nil in n|].
    rewrite Hd. cbn [panicOnErr]. unfold mlift, mbnd, SetCethReceiverAccount, upd_store, mmodify. by rewrite H0'.
  - intros a. unfold IsBlacklisted. rewrite Hbl1, Hb. apply bool_decide_false. rewrite lookup_empty. by intros [? ?].
Qed.
End Lemmas.

(** ** The oracle module behind the interface *)

(** The oracle's store together with the staking state it reads. *)
Section Service.
Context `{SdkAddressLaws} {S V : Type} `{!StakingKeeper S V, !StakingLaws S V, MapOrderLaws}.
Variable cn : float64.
Hypothesis Hcn : positive cn.

Definition on_store {A} (m : S -> M OracleStore A) : M (OracleStore * S) A :=
  fun o => match m o.2 o.1 with (s, r) => ((s, o.2), r) end.

Definition OracleService : OracleKeeper (OracleStore * S) := {|
  ok_ProcessClaim claim := on_store (fun st => Oracle.ProcessClaim cn st claim);
  ok_GetProphecy id o := GetProphecy id o.1;
  ok_ProcessUpdateWhiteListValidator a v op := on_store (fun _ => Oracle.ProcessUpdateWhiteListValidator a v op);
  ok_IsAdminAccount a o := IsAdminAccount a o.1;
|}.

Definition decided (o : OracleStore * S) (id : string) : bool :=
  negb (bool_decide (Text (ballot o.1 id).1 = STATUS_TEXT_PENDING)).

Lemma on_store_inv {A} (m : S -> M OracleStore A) o o' r :
  on_store m o = (o', r) -> m o.2 o.1 = (o'.1, r) /\ o'.2 = o.2.
Proof. unfold on_store. destruct (m o.2 o.1) as [s r']. by intros [= <- ->]. Qed.

Definition OracleService_laws : @OracleKeeperLaws _ OracleService.
Proof.
  refine {| ok_inv := fun o => wf_store o.1; ok_decided := decided |}.
  - intros claim o o' st Hw Hr. apply (on_store_inv (fun st => Oracle.ProcessClaim cn st claim)) in Hr as [Hr _].
    destruct (ProcessClaim_ok _ _ _ _ _ _ _ Hcn Hw Hr) as (Hw' & _ & Hp & _ & Hb & Hrest). split; [done|].
    unfold decided. rewrite Hp, Hb. split_and!; [done|done|]. intros id Hne. by rewrite Hrest.
  - intros claim [s st] [s' st'] r Hr Hk. apply (on_store_inv (fun st => Oracle.ProcessClaim cn st claim)) in Hr as [Hr Hst].
    simpl in *. subst st'.
    by rewrite (ProcessClaim_atomic _ _ _ _ _ _ _ Hr Hk).
  - intros a v op o o' r Hw Hr.
    apply (on_store_inv (fun _ => Oracle.ProcessUpdateWhiteListValidator a v op)) in Hr as [Hr _]. apply whitelist_update_frame in Hr. split; [by eapply wf_store_frame|].
    intros id. unfold decided. by rewrite (ballot_frame o.1 o'.1 id) by by rewrite Hr.
Defined.
End Service.

(** ** A reference for the address functions of go-ethereum *)

Fixpoint to_hex (s : string) : string :=
  match s with
  | EmptyString => ""
  | String c s' => String (hex_digit (nat_of_ascii c / 16)) (String (hex_digit (nat_of_ascii c mod 16)) (to_hex s'))
  end.
Fixpoint of_hex (s : string) : option string :=
  match s with
  | EmptyString => Some ""
  | String a (String b s') =>
      match hex_val a, hex_val b, of_hex s' with
      | Some x, Some y, Some r => Some (String (ascii_of_nat (16 * x + y)) r)
      | _, _, _ => None
      end
  | _ => None
  end.
Definition strip0x (s : string) : string := if String.prefix "0x" s then str_drop 2 s else s.
Definition crop20 (s : string) : string :=
  let n := String.length s in if (20 <=? n)%nat then str_drop (n - 20) s else zero_bytes (20 - n) +:+ s.

Definition RefEth : EthCommon := {|
  IsHexAddress s := (String.length (strip0x s) =? 40)%nat && bool_decide (is_Some (of_hex (strip0x s)));
  HexToAddress s := crop20 (default "" (of_hex (strip0x s)));
  Address_String a := "0x" +:+ to_hex a;
  UnmarshalFixedJSON s :=
    if String.prefix "0x" s && (String.length s =? 42)%nat then of_hex (str_drop 2 s) else None;
|}.

Lemma of_hex_to_hex s : of_hex (to_hex s) = Some s.
Proof.
  induction s as [|c s IH]; [done|]. cbn [to_hex of_hex]. rewrite IH. by destruct c as [[] [] [] [] [] [] [] []].
Qed.
Lemma to_hex_length s : String.length (to_hex s) = (2 * String.length s)%nat.
Proof. induction s as [|c s IH]; [done|]. cbn [to_hex String.length]. lia. Qed.
Lemma zero_bytes_length n : String.length (zero_bytes n) = n.
Proof. induction n as [|n IH]; [done|]. simpl. by rewrite IH. Qed.
Lemma str_drop_length n s : (n <= String.length s)%nat -> String.length (str_drop n s) = (String.length s - n)%nat.
Proof. revert s. induction n as [|n IH]; intros [|c s] Hn; simpl in *; try lia. apply IH. lia. Qed.

Lemma RefEth_laws : @EthCommonLaws RefEth.
Proof.
  split; simpl.
  - intros s. unfold crop20. set (b := default "" (of_hex (strip0x s))). destruct (Nat.leb_spec 20 (String.length b)).
    + rewrite str_drop_length; lia.
    + rewrite string_length_app, zero_bytes_length. lia.
  - intros a Ha. rewrite prefix_app, string_length_app, to_hex_length, Ha. cbn [String.length Nat.mul Nat.add Nat.eqb andb].
    exact (of_hex_to_hex a).
Qed.

Definition RefIntText : IntText := {|
  Int_UnmarshalText s :=
    match parse_int s with Some z => if Z.abs z <? 2 ^ 255 then Some z else None | None => None end;
|}.
Lemma RefIntText_laws : @IntTextLaws RefIntText.
Proof. split. intros z Hz. simpl. rewrite parse_big_String. by rewrite (proj2 (Z.ltb_lt _ _)). Qed.

(** ** Examples *)

Section Examples.
#[local] Existing Instances RefMath RefCoins RefAddress RefBank RefEth RefIntText RefOrder TokenRegistry.Keeper ex_staking.
#[local] Existing Instances RefMath_laws RefCoins_laws RefAddress_laws RefBank_laws RefEth_laws RefIntText_laws
  RefOrder_laws ex_staking_laws.

#[local] Instance ex_accounts : AccountKeeper RefB := {| HasAccount _ a := negb (String.eqb a "") |}.
#[local] Instance ex_oracle : OracleKeeper (OracleStore * unit) := OracleService (S := unit) (V := ExValidator) DefaultConsensusNeeded.
#[local] Instance ex_oracle_laws : OracleKeeperLaws (OracleStore * unit) := OracleService_laws DefaultConsensusNeeded ex_positive.

Definition ex_address : string := "0x00000000000000000000000000000000000000ab".
Definition ex_address_upper : string := "0x00000000000000000000000000000000000000AB".
Definition ex_bridge_bank : RefB := {[ ("dave", "aku") := 1000%N; ("dave", "ceth") := Z.to_N (10 ^ 18) ]}.
Definition ex_world : BridgeWorld RefB (OracleStore * unit) TokenRegistry.RegStore :=
  mkBridgeWorld (mkBridgeStore None None ∅) ex_bridge_bank (Oracle.ex_store, tt) TokenRegistry.ex_store.

(** Two validators report that 500 wei of eth were locked for dave. *)
Definition ex_event (validator : string) : EthBridgeClaim :=
  mkEthBridgeClaim 1 ex_address 7 "eth" "0x0000000000000000000000000000000000000000" ex_address "sif1dave"
    ("sifvaloper1" +:+ validator) 500 CLAIM_TYPE_LOCK.
Definition ex_report (validator : string) : MsgCreateEthBridgeClaim := mkMsgCreateEthBridgeClaim (Some (ex_event validator)).
Definition ex_voted : BridgeWorld RefB (OracleStore * unit) TokenRegistry.RegStore :=
  (CreateEthBridgeClaim (ex_report "bob") ex_world).1.
Definition ex_paid : BridgeWorld RefB (OracleStore * unit) TokenRegistry.RegStore :=
  (CreateEthBridgeClaim (ex_report "alice") ex_voted).1.

Lemma ex_first : CreateEthBridgeClaim (ex_report "bob") ex_world = (ex_voted, Ok tt).
Proof. apply (run_ok (CreateEthBridgeClaim (ex_report "bob")) ex_world tt). by vm_compute. Qed.
Lemma ex_pays : CreateEthBridgeClaim (ex_report "alice") ex_voted = (ex_paid, Ok tt).
Proof. apply (run_ok (CreateEthBridgeClaim (ex_report "alice")) ex_voted tt). by vm_compute. Qed.
Lemma ex_balances :
  GetBalance (bw_bank ex_voted) "dave" "ceth" = 10 ^ 18 /\ GetBalance (bw_bank ex_paid) "dave" "ceth" = 10 ^ 18 + 500.
Proof. by vm_compute. Qed.
Lemma ex_bank_changed : bw_bank ex_paid <> bw_bank ex_voted.
Proof. intros E. destruct ex_balances as [H1 H2]. rewrite E, H1 in H2. discriminate. Qed.
Lemma ex_inv w : wf_store (bw_oracle w).1 -> ok_inv (bw_oracle (B := RefB) (R := TokenRegistry.RegStore) w).
Proof. done. Qed.
Lemma ex_voted_inv : ok_inv (bw_oracle ex_voted).
Proof.
  assert (bridge_step ex_world ex_voted) as Hst.
  { replace ex_voted with (deliver (CreateMsg (ex_report "bob")) ex_world); [by apply step_message|].
    unfold deliver, Handler, ex_voted. by rewrite (run_ok (CreateEthBridgeClaim (ex_report "bob")) ex_world tt) by by vm_compute. }
  apply step_keeps_record in Hst as [Hk _]. apply Hk. apply Oracle.ex_wf.
Qed.

Definition ex_claim_of (validator : string) : Claim :=
  match CreateOracleClaimFromEthClaim (ex_event validator) with Ok c => c | _ => NewClaim "" "" "" end.
Definition ex_answer (validator : string) (w : BridgeWorld RefB (OracleStore * unit) TokenRegistry.RegStore) : res Status :=
  (ok_ProcessClaim (ex_claim_of validator) (bw_oracle w)).2.
Lemma ex_content : CreateOracleClaimFromOracleString (Content (ex_claim_of "alice")) = Ok (mkOracleClaimContent "dave" (Some 500) "eth" (EthBridge.zero_bytes 20) CLAIM_TYPE_LOCK).
Proof. by vm_compute. Qed.
Lemma ex_answer_bob : ex_answer "bob" ex_world = Ok (mkStatus STATUS_TEXT_PENDING "").
Proof. by vm_compute. Qed.
Lemma ex_answer_alice : ex_answer "alice" ex_voted = Ok (mkStatus STATUS_TEXT_SUCCESS (Content (ex_claim_of "alice"))).
Proof. by vm_compute. Qed.

(** The second of two reports completes the claim, and its receiver gets the 500 reported;
    the first completes nothing and moves nothing. *)
Lemma claim_payment_witness :
  GetBalance (bw_bank ex_paid) "dave" "ceth" = GetBalance (bw_bank ex_voted) "dave" "ceth" + 500
  /\ bw_bank ex_voted = bw_bank ex_world.
Proof.
  assert (forall v claim, CreateOracleClaimFromEthClaim (ex_event v) = Ok claim -> claim = ex_claim_of v) as Hof
    by (intros v claim E; unfold ex_claim_of; by rewrite E).
  split.
  - destruct (claim_payment (ex_report "alice") ex_voted ex_paid tt ex_pays) as (ec & claim & status & [= <-] & ->%Hof & Ho & _ & Hs).
    pose proof ex_answer_alice as Ha. unfold ex_answer in Ha. rewrite Ho in Ha. injection Ha as ->.
    destruct (Hs eq_refl) as (c & am & Hc & Ham & _ & _ & _ & Hb). pose proof (eq_trans (eq_sym ex_content) Hc) as [= <-].
    injection Ham as <-. exact (Hb "dave" "ceth").
  - destruct (claim_payment (ex_report "bob") ex_world ex_voted tt ex_first) as (ec & claim & status & [= <-] & ->%Hof & Ho & Hn & _).
    pose proof ex_answer_bob as Ha. unfold ex_answer in Ha. rewrite Ho in Ha. injection Ha as ->. by apply Hn.
Defined.

Lemma paid_once_witness :
  CreateEthBridgeClaim (ex_report "bob") ex_paid = (ex_paid, Err ErrProphecyFinalized).
Proof.
  pose proof (paid_once (ex_report "alice") (ex_event "alice") ex_voted ex_paid ex_paid
    (CreateEthBridgeClaim (ex_report "bob") ex_paid).1 tt (ex_report "bob") (ex_event "bob")
    (CreateEthBridgeClaim (ex_report "bob") ex_paid).2 ex_voted_inv ex_pays eq_refl ex_bank_changed
    (rtc_refl _ _) eq_refl eq_refl eq_refl eq_refl (surjective_pairing _)) as [_ E].
  rewrite (surjective_pairing (CreateEthBridgeClaim _ _)), E. f_equal; by vm_compute.
Defined.

Lemma ex_target : ceth_target ex_paid = "module/ethbridge".
Proof. by vm_compute. Qed.
Definition ex_lock : MsgLock := mkMsgLock "sif1dave" 100 "aku" 1 ex_address lockGasCost.
Definition ex_after_lock : BridgeWorld RefB (OracleStore * unit) TokenRegistry.RegStore := (Lock ex_lock ex_paid).1.
Lemma ex_lock_ok : Lock ex_lock ex_paid = (ex_after_lock, Ok tt).
Proof. apply (run_ok (Lock ex_lock) ex_paid tt). by vm_compute. Qed.

Definition ex_burn : MsgBurn := mkMsgBurn "sif1dave" 400 "ceth" 1 ex_address burnGasCost.
Definition ex_after_burn : BridgeWorld RefB (OracleStore * unit) TokenRegistry.RegStore := (Burn ex_burn ex_paid).1.
Lemma ex_burn_ok : Burn ex_burn ex_paid = (ex_after_burn, Ok tt).
Proof. apply (run_ok (Burn ex_burn) ex_paid tt). by vm_compute. Qed.

Lemma lock_and_burn_exact_witness :
  (GetBalance (bw_bank ex_after_lock) "dave" "aku" = GetBalance (bw_bank ex_paid) "dave" "aku" - 100
   /\ GetBalance (bw_bank ex_after_lock) "module/ethbridge" "ceth"
      = GetBalance (bw_bank ex_paid) "module/ethbridge" "ceth" + lockGasCost)
  /\ GetBalance (bw_bank ex_after_burn) "dave" "ceth" = GetBalance (bw_bank ex_paid) "dave" "ceth" - (400 + burnGasCost).
Proof.
  split.
  - destruct (lock_and_burn_exact ex_paid ex_after_lock tt) as [Hl _].
    destruct (Hl ex_lock ex_lock_ok) as (_ & _ & sender & Hs & _ & _ & Hb).
    vm_compute in Hs. injection Hs as <-. rewrite ex_target in Hb. split.
    + rewrite (Hb "dave" "aku"). generalize (GetBalance (bw_bank ex_paid) "dave" "aku"). intros z. simpl. lia.
    + rewrite (Hb "module/ethbridge" "ceth"). generalize (GetBalance (bw_bank ex_paid) "module/ethbridge" "ceth"). intros z. simpl. lia.
  - destruct (lock_and_burn_exact ex_paid ex_after_burn tt) as [_ Hl].
    destruct (Hl ex_burn ex_burn_ok) as (_ & _ & sender & Hs & _ & _ & Hb).
    vm_compute in Hs. injection Hs as <-. rewrite ex_target in Hb. rewrite (Hb "dave" "ceth").
    generalize (GetBalance (bw_bank ex_paid) "dave" "ceth"). intros z. simpl. lia.
Defined.

Lemma claims_agree_witness : Content (ex_claim_of "alice") = Content (ex_claim_of "bob").
Proof.
  pose proof (claims_agree (ex_event "alice") (ex_event "bob") (ex_claim_of "alice") (ex_claim_of "bob") "dave" "dave"
    ltac:(done) ltac:(done) ltac:(done) ltac:(done) eq_refl eq_refl eq_refl eq_refl) as Hc.
  cbv zeta in Hc. apply Hc. reflexivity.
Defined.

Definition ex_blacklist : MsgSetBlacklist := mkMsgSetBlacklist "sif1admin" [ex_address].
Definition ex_listed : BridgeWorld RefB (OracleStore * unit) TokenRegistry.RegStore := (SetBlacklist ex_blacklist ex_paid).1.
Lemma ex_listed_ok : SetBlacklist ex_blacklist ex_paid = (ex_listed, Ok tt).
Proof. apply (run_ok (SetBlacklist ex_blacklist) ex_paid tt). by vm_compute. Qed.

Lemma blacklist_set_witness : IsBlacklisted ex_address ex_listed = true.
Proof.
  destruct (blacklist_set ex_blacklist ex_paid ex_listed tt ex_listed_ok) as [_ Hb].
  rewrite (Hb ex_address). reflexivity.
Defined.

(** The blacklist compares texts: the same address in upper case is not listed. *)
Example blacklist_spelling :
  NewEthereumAddress ex_address_upper = NewEthereumAddress ex_address /\ IsHexAddress ex_address_upper = true
  /\ IsBlacklisted ex_address ex_listed = true
  /\ (Lock (mkMsgLock "sif1dave" 100 "aku" 1 ex_address_upper lockGasCost) ex_listed).2 = Ok tt.
Proof. by vm_compute. Qed.

Lemma pegged_forever_witness :
  Lock (mkMsgLock "sif1dave" 100 "ceth" 1 ex_address lockGasCost) (deliver (LockMsg ex_lock) ex_paid)
  = (deliver (LockMsg ex_lock) ex_paid, Err (PlainErr "Pegged token can't be lock.")).
Proof.
  destruct (pegged_forever ex_paid (deliver (LockMsg ex_lock) ex_paid)) as (_ & _ & Hl).
  - apply rtc_once, step_message. by vm_compute.
  - apply Hl. assert (GetPeggyToken ex_paid = ["ceth"]) as -> by by vm_compute. by left.
Defined.

Lemma bridge_genesis_roundtrip_witness :
  exists w', InitGenesis (ExportGenesis ex_paid) ex_world = (w', Ok tt) /\ GetPeggyToken w' = ["ceth"].
Proof.
  assert (GetPeggyToken ex_paid = ["ceth"]) as Hp by by vm_compute.
  destruct (bridge_genesis_roundtrip ex_paid ex_world) as (w' & Hr & Ht & _).
  - rewrite Hp. apply NoDup_singleton.
  - reflexivity.
  - exists w'. split; [exact Hr|]. rewrite Ht. exact Hp.
Defined.

(** Two different events of one sender get the same prophecy: chain 1 with nonce 23 and
    chain 12 with nonce 3 are both written [123] in front of the sender. *)
Example oracle_id_ambiguous sender : oracle_id 1 23 sender = oracle_id 12 3 sender.
Proof. reflexivity. Qed.
End Examples.
End EthBridge.
