(* ===== verification/Dispensation.v ===== *)
(** * x/dispensation: distributions of coins to many recipients

    A distributor funds a distribution: its coins move to the module account and one
    pending record per recipient is stored.  The authorised runner pays the records
    out, at most [MaxRecordsPerBlock] per message; a record ends completed or failed.
    Users can register a claim, which a payment of a supporting type removes. *)

From Stdlib Require Import ZArith Lia Ascii String.
From stdpp Require Import base list gmap strings sorting.
From S2P Require Import Prelude SdkMath Sdk.

Module Dispensation.

(** ** Data *)

(** Open protobuf enums: an [int32] with named values. *)
Definition DistributionType := Z.
Definition DISTRIBUTION_TYPE_UNSPECIFIED : DistributionType := 0.
Definition DISTRIBUTION_TYPE_AIRDROP : DistributionType := 1.
Definition DISTRIBUTION_TYPE_VALIDATOR_SUBSIDY : DistributionType := 2.
Definition DISTRIBUTION_TYPE_LIQUIDITY_MINING : DistributionType := 3.

Definition DistributionStatus := Z.
Definition DISTRIBUTION_STATUS_UNSPECIFIED : DistributionStatus := 0.
Definition DISTRIBUTION_STATUS_PENDING : DistributionStatus := 1.
Definition DISTRIBUTION_STATUS_COMPLETED : DistributionStatus := 2.
Definition DISTRIBUTION_STATUS_FAILED : DistributionStatus := 3.

Definition DistributionType_String (t : DistributionType) : string :=
  if t =? DISTRIBUTION_TYPE_UNSPECIFIED then "DISTRIBUTION_TYPE_UNSPECIFIED"
  else if t =? DISTRIBUTION_TYPE_AIRDROP then "DISTRIBUTION_TYPE_AIRDROP"
  else if t =? DISTRIBUTION_TYPE_VALIDATOR_SUBSIDY then "DISTRIBUTION_TYPE_VALIDATOR_SUBSIDY"
  else if t =? DISTRIBUTION_TYPE_LIQUIDITY_MINING then "DISTRIBUTION_TYPE_LIQUIDITY_MINING"
  else big_String t.

Record DistributionRecord := mkDistributionRecord {
  DR_Status : DistributionStatus;
  DR_Type : DistributionType;
  DR_Name : string;
  DR_Recipient : string;
  DR_Coins : list Coin;
  DR_StartHeight : Z;
  DR_CompletedHeight : Z;
  DR_Runner : string;
}.

Record Distribution := mkDistribution {
  D_Type : DistributionType;
  D_Name : string;
  D_Runner : string;
}.

(** Seconds and nanoseconds since the epoch. *)
Definition Timestamp : Type := Z * Z.

Record UserClaim := mkUserClaim {
  UC_UserAddress : string;
  UC_Type : DistributionType;
  UC_Time : option Timestamp;
}.

(** The records, distributions and claims of a genesis file; [None] is nil. *)
Record GenesisState := mkGenesisState {
  G_DistributionRecords : option (list DistributionRecord);
  G_Distributions : option (list Distribution);
  G_Claims : option (list UserClaim);
}.

(** The bank module's output. *)
Record Output := mkOutput { Out_Address : string; Out_Coins : list Coin }.

Record MsgCreateDistribution := mkMsgCreateDistribution {
  Create_Distributor : string;
  Create_Runner : string;
  Create_Type : DistributionType;
  Create_Output : list Output;
}.
Record MsgCreateUserClaim := mkMsgCreateUserClaim { Claim_Address : string; Claim_Type : DistributionType }.
Record MsgRunDistribution := mkMsgRunDistribution {
  Run_Runner : string;
  Run_Name : string;
  Run_Type : DistributionType;
}.

Inductive Msg :=
| CreateDistributionMsg (m : MsgCreateDistribution)
| CreateUserClaimMsg (m : MsgCreateUserClaim)
| RunDistributionMsg (m : MsgRunDistribution).

Definition ModuleName : string := "dispensation".
Definition MsgTypeCreateUserClaim : string := "createUserClaim".
Definition MsgTypeRunDistribution : string := "runDistribution".
Definition MsgTypeCreateDistribution : string := "createDistribution".
Definition MaxRecordsPerBlock : Z := 10.

Definition dispensation_err (code : Z) : GoError := RegisteredErr "dispensation" code.
Definition ErrInvalid := dispensation_err 1.
Definition ErrFailedInputs := dispensation_err 4.
Definition ErrFailedOutputs := dispensation_err 5.
Definition ErrDistribution := dispensation_err 6.
Definition ErrInvalidAddress := RegisteredErr "sdk" 7.
(** [ErrNoOutputs] of the bank module. *)
Definition ErrNoOutputs := RegisteredErr "bank" 3.

(** ** Keys *)

Definition DistributionRecordPrefixPending : string := byte1 0.
Definition DistributionRecordPrefixCompleted : string := byte1 17.
Definition DistributionRecordPrefixFailed : string := byte1 18.
Definition DistributionsPrefix : string := byte1 1.
Definition UserClaimPrefix : string := byte1 2.

Definition record_name_key (name : string) (t : DistributionType) (recipient : string) : string :=
  name +:+ "_" +:+ big_String t +:+ "_" +:+ recipient.

Definition GetDistributionRecordKey (status : DistributionStatus) (name recipient : string) (t : DistributionType) : string :=
  (if status =? DISTRIBUTION_STATUS_PENDING then DistributionRecordPrefixPending
   else if status =? DISTRIBUTION_STATUS_COMPLETED then DistributionRecordPrefixCompleted
   else if status =? DISTRIBUTION_STATUS_FAILED then DistributionRecordPrefixFailed
   else DistributionRecordPrefixCompleted) +:+ record_name_key name t recipient.
Definition GetDistributionsKey (name : string) (t : DistributionType) (authorizedRunner : string) : string :=
  DistributionsPrefix +:+ name +:+ "_" +:+ big_String t +:+ "_" +:+ authorizedRunner.
Definition GetUserClaimKey (userAddress : string) (t : DistributionType) : string :=
  UserClaimPrefix +:+ userAddress +:+ "_" +:+ big_String t.

(** ** Enum texts *)

Definition GetDistributionStatus (status : string) : DistributionStatus * bool :=
  if String.eqb status "Completed" then (DISTRIBUTION_STATUS_COMPLETED, true)
  else if String.eqb status "Pending" then (DISTRIBUTION_STATUS_PENDING, true)
  else if String.eqb status "Failed" then (DISTRIBUTION_STATUS_FAILED, true)
  else (DISTRIBUTION_STATUS_UNSPECIFIED, false).
Definition GetClaimType (claimType : string) : DistributionType * bool :=
  if String.eqb claimType "LiquidityMining" then (DISTRIBUTION_TYPE_LIQUIDITY_MINING, true)
  else if String.eqb claimType "ValidatorSubsidy" then (DISTRIBUTION_TYPE_VALIDATOR_SUBSIDY, true)
  else (DISTRIBUTION_TYPE_UNSPECIFIED, false).
Definition GetDistributionTypeFromShortString (distributionType : string) : DistributionType * bool :=
  if String.eqb distributionType "Airdrop" then (DISTRIBUTION_TYPE_AIRDROP, true)
  else if String.eqb distributionType "LiquidityMining" then (DISTRIBUTION_TYPE_LIQUIDITY_MINING, true)
  else if String.eqb distributionType "ValidatorSubsidy" then (DISTRIBUTION_TYPE_VALIDATOR_SUBSIDY, true)
  else (DISTRIBUTION_TYPE_UNSPECIFIED, false).
Definition IsValidDistributionType (distributionType : string) : DistributionType * bool :=
  if String.eqb distributionType "DISTRIBUTION_TYPE_AIRDROP" then (DISTRIBUTION_TYPE_AIRDROP, true)
  else if String.eqb distributionType "DISTRIBUTION_TYPE_LIQUIDITY_MINING" then (DISTRIBUTION_TYPE_LIQUIDITY_MINING, true)
  else if String.eqb distributionType "DISTRIBUTION_TYPE_VALIDATOR_SUBSIDY" then (DISTRIBUTION_TYPE_VALIDATOR_SUBSIDY, true)
  else (DISTRIBUTION_TYPE_UNSPECIFIED, false).
Definition IsValidClaimType (claimType : string) : DistributionType * bool :=
  if String.eqb claimType "DISTRIBUTION_TYPE_LIQUIDITY_MINING" then (DISTRIBUTION_TYPE_LIQUIDITY_MINING, true)
  else if String.eqb claimType "DISTRIBUTION_TYPE_VALIDATOR_SUBSIDY" then (DISTRIBUTION_TYPE_VALIDATOR_SUBSIDY, true)
  else (0, false).

(** [TimestampProto] of gogo/protobuf: refuses times outside the years 1 to 9999. *)
Class GogoTypes := { TimestampProto : Timestamp -> res Timestamp }.

(** The part of [sdk.Context] the module reads. *)
Record Context := mkContext { BlockHeight : Z; BlockTime : Timestamp }.

(** ** Records and messages *)

Section Types.
Context `{SdkCoins, SdkAddress, GogoTypes}.

Definition NewDistributionRecord (status : DistributionStatus) (distributionType : DistributionType)
    (distributionName recipientAddress : string) (coins : list Coin) (start end_ : Z) (runner : string) : DistributionRecord :=
  mkDistributionRecord status distributionType distributionName recipientAddress coins start end_ runner.

Definition DistributionRecord_Validate (dr : DistributionRecord) : bool :=
  if str_len (DR_Recipient dr) =? 0 then false
  else if negb (Coins_IsValid (DR_Coins dr)) then false
  else if negb (Coins_IsAllPositive (DR_Coins dr)) then false
  else true.

Definition DistributionRecord_Add (dr dr2 : DistributionRecord) : res DistributionRecord :=
  let! coins := Coins_Add (DR_Coins dr) (DR_Coins dr2) in
  Ok (mkDistributionRecord (DR_Status dr) (DR_Type dr) (DR_Name dr) (DR_Recipient dr) coins (DR_StartHeight dr)
        (DR_CompletedHeight dr) (DR_Runner dr)).

Definition DoesTypeSupportClaim (dr : DistributionRecord) : bool :=
  (DR_Type dr =? DISTRIBUTION_TYPE_LIQUIDITY_MINING) || (DR_Type dr =? DISTRIBUTION_TYPE_VALIDATOR_SUBSIDY).

Definition NewUserClaim (userAddress : string) (userClaimType : DistributionType) (t : Timestamp) : res UserClaim :=
  let! tProto := TimestampProto t in Ok (mkUserClaim userAddress userClaimType (Some tProto)).
Definition UserClaim_Validate (uc : UserClaim) : bool := negb (str_len (UC_UserAddress uc) =? 0).
Definition NewDistribution (t : DistributionType) (name authorizedRunner : string) : Distribution :=
  mkDistribution t name authorizedRunner.
Definition Distribution_Validate (ar : Distribution) : bool := negb (String.eqb (D_Name ar) "").

Definition NewMsgCreateDistribution (distributor : string) (t : DistributionType) (output : list Output)
    (authorizedRunner : string) : MsgCreateDistribution :=
  mkMsgCreateDistribution (AccAddress_String distributor) authorizedRunner t output.
Definition NewMsgCreateUserClaim (userClaimAddress : string) (claimType : DistributionType) : MsgCreateUserClaim :=
  mkMsgCreateUserClaim (AccAddress_String userClaimAddress) claimType.
Definition NewMsgRunDistribution (runner distributionName : string) (t : DistributionType) : MsgRunDistribution :=
  mkMsgRunDistribution runner distributionName t.

(** The check of one output sorts its coins in place: the result is the output it leaves. *)
Definition check_output (out : Output) : res Output :=
  let! _ := rwrap ErrInvalid (AccAddressFromBech32 (Out_Address out)) in
  let coins := Coins_Sort (Out_Coins out) in
  let! _ := fail_if (negb (Coins_IsValid coins)) ErrInvalid in
  Ok (mkOutput (Out_Address out) coins).

Definition MsgCreateDistribution_ValidateBasic (m : MsgCreateDistribution) : res MsgCreateDistribution :=
  let! _ := fail_if (negb (IsValidDistributionType (DistributionType_String (Create_Type m))).2) ErrInvalid in
  let! _ := fail_if (Z.of_nat (length (Create_Output m)) =? 0) ErrInvalid in
  let! _ := rwrap ErrInvalid (AccAddressFromBech32 (Create_Distributor m)) in
  let! _ := rwrap ErrInvalid (AccAddressFromBech32 (Create_Runner m)) in
  let! output := rmap check_output (Create_Output m) in
  Ok (mkMsgCreateDistribution (Create_Distributor m) (Create_Runner m) (Create_Type m) output).

Definition MsgCreateUserClaim_ValidateBasic (m : MsgCreateUserClaim) : res unit :=
  let! _ := rwrap ErrInvalidAddress (AccAddressFromBech32 (Claim_Address m)) in
  fail_if (negb (IsValidClaimType (DistributionType_String (Claim_Type m))).2) ErrInvalid.

Definition MsgRunDistribution_ValidateBasic (m : MsgRunDistribution) : res unit :=
  let! _ := fail_if (negb (IsValidDistributionType (DistributionType_String (Run_Type m))).2) ErrInvalid in
  let! _ := fail_if (String.eqb (Run_Name m) "") ErrInvalid in
  let! _ := rwrap ErrInvalid (AccAddressFromBech32 (Run_Runner m)) in Ok tt.

(** The message as its checks leave it. *)
Definition ValidateBasic (m : Msg) : res Msg :=
  match m with
  | CreateDistributionMsg m => let! m := MsgCreateDistribution_ValidateBasic m in Ok (CreateDistributionMsg m)
  | CreateUserClaimMsg m => let! _ := MsgCreateUserClaim_ValidateBasic m in Ok (CreateUserClaimMsg m)
  | RunDistributionMsg m => let! _ := MsgRunDistribution_ValidateBasic m in Ok (RunDistributionMsg m)
  end.

Definition signer_of (text : string) : res (list string) :=
  let! a := panicOnErr (AccAddressFromBech32 text) in Ok [a].
Definition MsgCreateDistribution_GetSigners (m : MsgCreateDistribution) := signer_of (Create_Distributor m).
Definition MsgCreateUserClaim_GetSigners (m : MsgCreateUserClaim) := signer_of (Claim_Address m).
Definition MsgRunDistribution_GetSigners (m : MsgRunDistribution) := signer_of (Run_Runner m).
Definition GetSigners (m : Msg) : res (list string) :=
  match m with
  | CreateDistributionMsg m => MsgCreateDistribution_GetSigners m
  | CreateUserClaimMsg m => MsgCreateUserClaim_GetSigners m
  | RunDistributionMsg m => MsgRunDistribution_GetSigners m
  end.

Definition GetDistributionModuleAddress : string := NewModuleAddress ModuleName.

(** [total.Add(output[i].Coins...)] from the second output on. *)
Fixpoint add_outputs (total : list Coin) (output : list Output) : res (list Coin) :=
  match output with
  | [] => Ok total
  | out :: output' => let! total := Coins_Add total (Out_Coins out) in add_outputs total output'
  end.
Definition TotalOutput (output : list Output) : res (list Coin) :=
  match output with
  | [] => Err ErrNoOutputs
  | out :: output' => add_outputs (Out_Coins out) output'
  end.
End Types.

(** ** State *)

(** The store: records (prefixes 0x00, 0x11 and 0x12), distributions (0x01), claims (0x02). *)
Record DispStore := mkDispStore {
  d_records : KV DistributionRecord;
  d_distributions : KV Distribution;
  d_claims : KV UserClaim;
}.
Record DispWorld (B : Type) := mkDispWorld { dw_store : DispStore; dw_bank : B }.
Arguments mkDispWorld {_} _ _.
Arguments dw_store {_} _.
Arguments dw_bank {_} _.

Definition on_bank {B A} (m : M B A) : M (DispWorld B) A :=
  fun w => match m (dw_bank w) with (b, r) => (mkDispWorld (dw_store w) b, r) end.
Definition upd_records {B} (f : KV DistributionRecord -> KV DistributionRecord) : M (DispWorld B) unit :=
  mmodify (fun w => mkDispWorld (mkDispStore (f (d_records (dw_store w))) (d_distributions (dw_store w)) (d_claims (dw_store w)))
                      (dw_bank w)).
Definition upd_distributions {B} (f : KV Distribution -> KV Distribution) : M (DispWorld B) unit :=
  mmodify (fun w => mkDispWorld (mkDispStore (d_records (dw_store w)) (f (d_distributions (dw_store w))) (d_claims (dw_store w)))
                      (dw_bank w)).
Definition upd_claims {B} (f : KV UserClaim -> KV UserClaim) : M (DispWorld B) unit :=
  mmodify (fun w => mkDispWorld (mkDispStore (d_records (dw_store w)) (d_distributions (dw_store w)) (f (d_claims (dw_store w))))
                      (dw_bank w)).

Section Keeper.
Context {B : Type} `{SdkCoins, SdkAddress, GogoTypes, BankKeeper B}.
Abbreviation DM := (M (DispWorld B)).
Abbreviation W := (DispWorld B).

(** ** distribution.go *)

Definition SetDistribution (ar : Distribution) : DM unit :=
  run! mfail_if (negb (Distribution_Validate ar)) ErrInvalid;
  upd_distributions <[GetDistributionsKey (D_Name ar) (D_Type ar) (D_Runner ar) := ar]>.
Definition GetDistribution (name : string) (t : DistributionType) (authorizedRunner : string) (w : W) : res Distribution :=
  match d_distributions (dw_store w) !! GetDistributionsKey name t authorizedRunner with
  | Some ar => Ok ar
  | None => Err ErrInvalid
  end.
Definition ExistsDistribution (name : string) (t : DistributionType) (authorizedRunner : string) (w : W) : bool :=
  bool_decide (is_Some (d_distributions (dw_store w) !! GetDistributionsKey name t authorizedRunner)).
Definition GetDistributions (w : W) : list Distribution := (kv_prefix DistributionsPrefix (d_distributions (dw_store w))).*2.

(** ** distributionRecords.go *)

Definition SetDistributionRecord (dr : DistributionRecord) : DM unit :=
  run! mfail_if (negb (DistributionRecord_Validate dr)) ErrInvalid;
  upd_records <[GetDistributionRecordKey (DR_Status dr) (DR_Name dr) (DR_Recipient dr) (DR_Type dr) := dr]>.
Definition GetDistributionRecord (airdropName recipientAddress : string) (status : DistributionStatus) (t : DistributionType)
    (w : W) : res DistributionRecord :=
  match d_records (dw_store w) !! GetDistributionRecordKey status airdropName recipientAddress t with
  | Some dr => Ok dr
  | None => Err ErrInvalid
  end.
Definition ExistsDistributionRecord (airdropName recipientAddress : string) (status : DistributionStatus)
    (t : DistributionType) (w : W) : bool :=
  bool_decide (is_Some (d_records (dw_store w) !! GetDistributionRecordKey status airdropName recipientAddress t)).

(** A status without an iterator panics at its first use. *)
Definition GetDistributionRecordsIterator (status : DistributionStatus) (w : W) : res (list DistributionRecord) :=
  let over p := Ok (kv_prefix p (d_records (dw_store w))).*2 in
  if status =? DISTRIBUTION_STATUS_PENDING then over DistributionRecordPrefixPending
  else if status =? DISTRIBUTION_STATUS_COMPLETED then over DistributionRecordPrefixCompleted
  else if status =? DISTRIBUTION_STATUS_FAILED then over DistributionRecordPrefixFailed
  else Panic.

Definition DeleteDistributionRecord (distributionName recipientAddress : string) (status : DistributionStatus)
    (t : DistributionType) : DM unit :=
  do! w <- mgets id;
  run! mfail_if (negb (ExistsDistributionRecord distributionName recipientAddress status t w)) ErrInvalid;
  upd_records (delete (GetDistributionRecordKey status distributionName recipientAddress t)).

Definition select (p : DistributionRecord -> bool) (r : res (list DistributionRecord)) : res (list DistributionRecord) :=
  let! l := r in Ok (filter (fun dr => p dr = true) l).
Definition over_statuses (p : DistributionRecord -> bool) (w : W) : res (list DistributionRecord) :=
  let! pending := select p (GetDistributionRecordsIterator DISTRIBUTION_STATUS_PENDING w) in
  let! completed := select p (GetDistributionRecordsIterator DISTRIBUTION_STATUS_COMPLETED w) in
  let! failed := select p (GetDistributionRecordsIterator DISTRIBUTION_STATUS_FAILED w) in
  Ok (pending ++ completed ++ failed).

Definition GetRecordsForNameAndStatus (name : string) (status : DistributionStatus) (w : W) : res (list DistributionRecord) :=
  select (fun dr => String.eqb (DR_Name dr) name) (GetDistributionRecordsIterator status w).
Definition GetRecordsForNameStatusAndType (name : string) (status : DistributionStatus) (t : DistributionType) (w : W) :
    res (list DistributionRecord) :=
  select (fun dr => String.eqb (DR_Name dr) name && (DR_Type dr =? t)) (GetDistributionRecordsIterator status w).
Definition GetRecordsForRecipient (recipient : string) (w : W) : res (list DistributionRecord) :=
  over_statuses (fun dr => String.eqb (DR_Recipient dr) recipient) w.
Definition GetRecords (w : W) : res (list DistributionRecord) := over_statuses (fun _ => true) w.
Definition GetRecordsForName (name : string) (w : W) : res (list DistributionRecord) :=
  over_statuses (fun dr => String.eqb (DR_Name dr) name) w.

Definition GetLimitedRecordsForStatus (status : DistributionStatus) (w : W) : res (list DistributionRecord) :=
  let! l := GetDistributionRecordsIterator status w in Ok (take (Z.to_nat MaxRecordsPerBlock) l).

Definition runs (distributionName authorizedRunner : string) (t : DistributionType) (dr : DistributionRecord) : bool :=
  String.eqb (DR_Name dr) distributionName && (DR_Status dr =? DISTRIBUTION_STATUS_PENDING)
  && String.eqb (DR_Runner dr) authorizedRunner && (DR_Type dr =? t).

(** The loop stops at the limit before it looks at another record. *)
Fixpoint limited (p : DistributionRecord -> bool) (l : list DistributionRecord) (count : Z) : list DistributionRecord :=
  match l with
  | [] => []
  | dr :: l' =>
      if count =? MaxRecordsPerBlock then []
      else if p dr then dr :: limited p l' (count + 1) else limited p l' count
  end.
Definition GetLimitedRecordsForRunner (distributionName authorizedRunner : string) (t : DistributionType)
    (status : DistributionStatus) (w : W) : res (list DistributionRecord) :=
  let! l := GetDistributionRecordsIterator status w in Ok (limited (runs distributionName authorizedRunner t) l 0).

Definition with_status (dr : DistributionRecord) (status : DistributionStatus) (height : Z) : DistributionRecord :=
  mkDistributionRecord status (DR_Type dr) (DR_Name dr) (DR_Recipient dr) (DR_Coins dr) (DR_StartHeight dr) height
    (DR_Runner dr).
Definition ChangeRecordStatus (dr : DistributionRecord) (height : Z) (newStatus : DistributionStatus) : DM unit :=
  let oldStatus := DR_Status dr in
  let dr := with_status dr newStatus height in
  run! mwrap ErrDistribution (SetDistributionRecord dr);
  mwrap ErrDistribution (DeleteDistributionRecord (DR_Name dr) (DR_Recipient dr) oldStatus (DR_Type dr)).

(** ** userclaim.go *)

Definition SetClaim (ar : UserClaim) : DM unit :=
  run! mfail_if (negb (UserClaim_Validate ar)) ErrInvalid;
  upd_claims <[GetUserClaimKey (UC_UserAddress ar) (UC_Type ar) := ar]>.
Definition GetClaim (recipient : string) (t : DistributionType) (w : W) : res UserClaim :=
  match d_claims (dw_store w) !! GetUserClaimKey recipient t with Some ar => Ok ar | None => Err ErrInvalid end.
Definition ExistsClaim (recipient : string) (t : DistributionType) (w : W) : bool :=
  bool_decide (is_Some (d_claims (dw_store w) !! GetUserClaimKey recipient t)).
Definition DeleteClaim (recipient : string) (t : DistributionType) : DM unit :=
  upd_claims (delete (GetUserClaimKey recipient t)).
Definition GetClaims (w : W) : list UserClaim := (kv_prefix UserClaimPrefix (d_claims (dw_store w))).*2.
Definition GetClaimsByType (t : DistributionType) (w : W) : list UserClaim :=
  filter (fun uc => UC_Type uc = t) (GetClaims w).

(** ** keeper.go and executors.go *)

Definition HasCoins (user : string) (coins : list Coin) (w : W) : bool :=
  forallb (fun coin => HasBalance (dw_bank w) user coin) coins.

Definition CreateDrops (ctx : Context) (output : list Output) (name : string) (t : DistributionType)
    (authorizedRunner : string) : DM unit :=
  mfor output (fun receiver =>
    let distributionRecord := NewDistributionRecord DISTRIBUTION_STATUS_PENDING t name (Out_Address receiver)
      (Out_Coins receiver) (BlockHeight ctx) (-1) authorizedRunner in
    do! w <- mgets id;
    do! distributionRecord <-
      (if ExistsDistributionRecord name (Out_Address receiver) DISTRIBUTION_STATUS_PENDING t w then
         do! oldRecord <- mlift (rwrap ErrDistribution
           (GetDistributionRecord name (Out_Address receiver) DISTRIBUTION_STATUS_PENDING t w));
         mlift (DistributionRecord_Add distributionRecord oldRecord)
       else mret distributionRecord);
    mwrap ErrFailedOutputs (SetDistributionRecord distributionRecord)).

(** Pay one record; a record with an undecodable recipient is skipped. *)
Definition distribute (height : Z) (record : DistributionRecord) : DM unit :=
  match AccAddressFromBech32 (DR_Recipient record) with
  | Panic => mpanic
  | Err _ => mret tt
  | Ok recipientAddress =>
      do! sent <- mtry (on_bank (SendCoinsFromModuleToAccount ModuleName recipientAddress (DR_Coins record)));
      match sent with
      | inr _ => mmust (ChangeRecordStatus record height DISTRIBUTION_STATUS_FAILED)
      | inl _ =>
          do! changed <- mtry (ChangeRecordStatus record height DISTRIBUTION_STATUS_COMPLETED);
          match changed with
          | inr _ => mmust (on_bank (SendCoinsFromAccountToModule recipientAddress ModuleName (DR_Coins record)))
          | inl _ => if DoesTypeSupportClaim record then DeleteClaim (DR_Recipient record) (DR_Type record) else mret tt
          end
      end
  end.

Definition DistributeDrops (height : Z) (distributionName authorizedRunner : string) (t : DistributionType) :
    DM (list DistributionRecord) :=
  do! w <- mgets id;
  do! pendingRecords <- mlift (GetLimitedRecordsForRunner distributionName authorizedRunner t DISTRIBUTION_STATUS_PENDING w);
  run! mfor pendingRecords (distribute height);
  mret pendingRecords.

Definition AccumulateDrops (addr : string) (amount : list Coin) : DM unit :=
  do! address <- mlift (AccAddressFromBech32 addr);
  mwrap ErrFailedInputs (on_bank (SendCoinsFromAccountToModule address ModuleName amount)).

Definition VerifyAndSetDistribution (distributionName : string) (t : DistributionType) (authorizedRunner : string) : DM unit :=
  do! w <- mgets id;
  run! mfail_if (ExistsDistribution distributionName t authorizedRunner w) ErrDistribution;
  mwrap ErrDistribution (SetDistribution (NewDistribution t distributionName authorizedRunner)).

(** ** The message server *)

Definition distribution_name (ctx : Context) (distributor : string) : string :=
  big_String (BlockHeight ctx) +:+ "_" +:+ distributor.

Definition CreateDistribution (ctx : Context) (msg : MsgCreateDistribution) : DM unit :=
  let distributionName := distribution_name ctx (Create_Distributor msg) in
  run! VerifyAndSetDistribution distributionName (Create_Type msg) (Create_Runner msg);
  do! totalOutput <- mlift (TotalOutput (Create_Output msg));
  run! AccumulateDrops (Create_Distributor msg) totalOutput;
  CreateDrops ctx (Create_Output msg) distributionName (Create_Type msg) (Create_Runner msg).

Definition CreateUserClaim (ctx : Context) (claim : MsgCreateUserClaim) : DM unit :=
  do! w <- mgets id;
  run! mfail_if (ExistsClaim (Claim_Address claim) (Claim_Type claim) w) ErrInvalid;
  do! newClaim <- mlift (NewUserClaim (Claim_Address claim) (Claim_Type claim) (BlockTime ctx));
  SetClaim newClaim.

Definition RunDistribution (ctx : Context) (distribution : MsgRunDistribution) : DM unit :=
  run! DistributeDrops (BlockHeight ctx) (Run_Name distribution) (Run_Runner distribution) (Run_Type distribution);
  mret tt.

Definition Handler (ctx : Context) (m : Msg) : DM unit :=
  match m with
  | CreateDistributionMsg m => CreateDistribution ctx m
  | CreateUserClaimMsg m => CreateUserClaim ctx m
  | RunDistributionMsg m => RunDistribution ctx m
  end.

(** ** Genesis and queries *)

Definition InitGenesis (data : GenesisState) : DM unit :=
  run! mfor (default [] (G_DistributionRecords data)) (fun record => mmust (SetDistributionRecord record));
  run! mfor (default [] (G_Distributions data)) (fun dist => mmust (SetDistribution dist));
  mfor (default [] (G_Claims data)) (fun claim => mmust (SetClaim claim)).

Definition ExportGenesis (w : W) : res GenesisState :=
  let! records := GetRecords w in
  Ok (mkGenesisState (Some records) (Some (GetDistributions w)) (Some (GetClaims w))).

Definition ValidateGenesis (data : GenesisState) : res unit :=
  let! _ := fail_if (negb (forallb DistributionRecord_Validate (default [] (G_DistributionRecords data)))) ErrInvalid in
  let! _ := fail_if (negb (forallb Distribution_Validate (default [] (G_Distributions data)))) ErrInvalid in
  fail_if (negb (forallb UserClaim_Validate (default [] (G_Claims data)))) ErrInvalid.

Definition AllDistributions (w : W) : res (list Distribution) := Ok (GetDistributions w).
Definition ClaimsByType (t : DistributionType) (w : W) : res (list UserClaim) := Ok (GetClaimsByType t w).
Definition RecordsByDistributionName (name : string) (status : DistributionStatus) (w : W) : res (list DistributionRecord) :=
  let! records := GetRecordsForNameAndStatus name status w in
  if status =? DISTRIBUTION_STATUS_UNSPECIFIED then
    let! pending := GetRecordsForNameAndStatus name DISTRIBUTION_STATUS_PENDING w in Ok (records ++ pending)
  else Ok records.
Definition RecordsByRecipient (address : string) (w : W) : res (list DistributionRecord) := GetRecordsForRecipient address w.
End Keeper.

Definition NewGenesisState : GenesisState := mkGenesisState None None None.
Definition DefaultGenesisState : GenesisState := mkGenesisState None None None.

(** ** Lemmas *)

Definition set_records {B} (w : DispWorld B) (m : KV DistributionRecord) : DispWorld B :=
  mkDispWorld (mkDispStore m (d_distributions (dw_store w)) (d_claims (dw_store w))) (dw_bank w).
Definition set_claims {B} (w : DispWorld B) (m : KV UserClaim) : DispWorld B :=
  mkDispWorld (mkDispStore (d_records (dw_store w)) (d_distributions (dw_store w)) m) (dw_bank w).
Definition set_disp_bank {B} (w : DispWorld B) (b : B) : DispWorld B := mkDispWorld (dw_store w) b.
Abbreviation records w := (d_records (dw_store w)).

(** The key a record belongs under. *)
Definition key_of (dr : DistributionRecord) : string :=
  GetDistributionRecordKey (DR_Status dr) (DR_Name dr) (DR_Recipient dr) (DR_Type dr).
Definition is_pending (dr : DistributionRecord) : bool := DR_Status dr =? DISTRIBUTION_STATUS_PENDING.

Lemma pending_key st name r t :
  String.prefix DistributionRecordPrefixPending (GetDistributionRecordKey st name r t) = (st =? DISTRIBUTION_STATUS_PENDING).
Proof.
  unfold GetDistributionRecordKey. destruct (st =? DISTRIBUTION_STATUS_PENDING).
  - apply prefix_app.
  - by destruct (st =? DISTRIBUTION_STATUS_COMPLETED); [|destruct (st =? DISTRIBUTION_STATUS_FAILED)].
Qed.

Lemma key_of_moved dr st h : is_pending dr = true -> st <> DISTRIBUTION_STATUS_PENDING -> key_of (with_status dr st h) <> key_of dr.
Proof.
  intros Hp Hst E. apply (f_equal (String.prefix DistributionRecordPrefixPending)) in E. unfold key_of in E.
  rewrite !pending_key in E. unfold is_pending in Hp. rewrite Hp in E. simpl in E. apply Z.eqb_neq in Hst. congruence.
Qed.

(** A record and the status it ended with. *)
Abbreviation outcome := (DistributionRecord * DistributionStatus)%type.

Section Lemmas.
Context {B : Type} `{SdkCoinsLaws, SdkAddressLaws, GogoTypes, !BankKeeper B, !BankLaws B}.
Abbreviation W := (DispWorld B).

Lemma disp_bank_ok {A} (m : M B A) (w w' : W) r :
  on_bank m w = (w', r) -> exists b', m (dw_bank w) = (b', r) /\ w' = set_disp_bank w b'.
Proof. unfold on_bank, set_disp_bank. destruct (m (dw_bank w)) as [b r']. intros [= <- <-]. eauto. Qed.

Lemma Validate_coins dr d : DistributionRecord_Validate dr = true -> 0 <= AmountOf (DR_Coins dr) d.
Proof.
  unfold DistributionRecord_Validate. destruct (_ =? 0); [done|]. destruct (Coins_IsValid (DR_Coins dr)) eqn:E; [|done].
  intros _. by apply AmountOf_nonneg, Coins_IsValid_pos.
Qed.

(** *** Moving a record *)

(** What [ChangeRecordStatus] does to a record that is stored under its own key. *)
Definition moved_records (m : KV DistributionRecord) (dr : DistributionRecord) (st : DistributionStatus) (h : Z) :=
  delete (key_of dr) (<[key_of (with_status dr st h) := with_status dr st h]> m).

Lemma ChangeRecordStatus_run dr h st (w : W) :
  DistributionRecord_Validate dr = true -> records w !! key_of dr = Some dr ->
  ChangeRecordStatus dr h st w = (set_records w (moved_records (records w) dr st h), Ok tt).
Proof.
  intros Hv Hl. unfold ChangeRecordStatus, SetDistributionRecord, DeleteDistributionRecord. cbv zeta.
  assert (DistributionRecord_Validate (with_status dr st h) = true) as Hv' by done.
  unfold mwrap, mbnd, mfail_if, mret, mgets, upd_records, mmodify, id. rewrite Hv'. cbn [negb].
  unfold ExistsDistributionRecord. cbn [dw_store d_records d_distributions d_claims].
  rewrite bool_decide_true; [done|]. fold (key_of (with_status dr st h)). rewrite lookup_insert_is_Some.
  destruct (decide (key_of (with_status dr st h) = key_of dr)) as [E|E]; [left; exact E|right]. split; [exact E|].
  exists dr. exact Hl.
Qed.

Lemma moved_sum (f : DistributionRecord -> Z) m dr st h :
  m !! key_of dr = Some dr -> key_of (with_status dr st h) <> key_of dr ->
  map_sum f (moved_records m dr st h)
  = map_sum f m - f dr + f (with_status dr st h) - from_option f 0 (m !! key_of (with_status dr st h)).
Proof.
  intros Hl Hne. unfold moved_records. rewrite map_sum_delete, map_sum_insert, lookup_insert_ne, Hl by done. simpl. lia.
Qed.

(** *** Well-formed records and what the module owes *)

Definition readable (dr : DistributionRecord) : Prop := exists a, AccAddressFromBech32 (DR_Recipient dr) = Ok a.
Definition wf_records (m : KV DistributionRecord) : Prop :=
  forall k dr, m !! k = Some dr -> k = key_of dr /\ DistributionRecord_Validate dr = true /\ readable dr.

(** A pending record will be paid and a failed one was not: both are covered by the module account. *)
Definition owed (d : string) (dr : DistributionRecord) : Z :=
  if is_pending dr || (DR_Status dr =? DISTRIBUTION_STATUS_FAILED) then AmountOf (DR_Coins dr) d else 0.
Definition liabilities (m : KV DistributionRecord) (d : string) : Z := map_sum (owed d) m.
Definition solvent (w : W) : Prop :=
  forall d, liabilities (records w) d <= GetBalance (dw_bank w) GetDistributionModuleAddress d.

Lemma owed_nonneg m d : wf_records m -> forall k dr, m !! k = Some dr -> 0 <= owed d dr.
Proof. intros Hm k dr (_ & Hv & _)%Hm. unfold owed. destruct (_ || _); [by apply Validate_coins|done]. Qed.

Lemma moved_wf m dr st h : wf_records m -> m !! key_of dr = Some dr -> wf_records (moved_records m dr st h).
Proof.
  intros Hm Hl k dr' Hk. unfold moved_records in Hk.
  apply lookup_delete_Some in Hk as [_ [[<- <-]|[_ Hk]]%lookup_insert_Some]; [|by apply Hm].
  destruct (Hm _ _ Hl) as (_ & Hv & Hr). by split_and!.
Qed.

Lemma moved_liabilities m dr st h d :
  wf_records m -> m !! key_of dr = Some dr -> is_pending dr = true -> st <> DISTRIBUTION_STATUS_PENDING ->
  liabilities (moved_records m dr st h) d <= liabilities m d
    - (if st =? DISTRIBUTION_STATUS_FAILED then 0 else AmountOf (DR_Coins dr) d).
Proof.
  intros Hm Hl Hp Hst. unfold liabilities. rewrite moved_sum by (done || by apply key_of_moved).
  assert (0 <= from_option (owed d) 0 (m !! key_of (with_status dr st h))).
  { destruct (m !! key_of (with_status dr st h)) as [dr'|] eqn:E; simpl; [by eapply owed_nonneg|done]. }
  unfold owed at 2 3. rewrite Hp. unfold is_pending. cbn [with_status DR_Status DR_Coins orb].
  apply Z.eqb_neq in Hst. rewrite Hst. cbn [orb]. destruct (st =? DISTRIBUTION_STATUS_FAILED); lia.
Qed.

(** *** Paying one record *)

(** What an outcome did to the balance of [x] and to the user claims. *)
Definition completed (o : outcome) : bool := o.2 =? DISTRIBUTION_STATUS_COMPLETED.
Definition final (o : outcome) : Prop := o.2 = DISTRIBUTION_STATUS_COMPLETED \/ o.2 = DISTRIBUTION_STATUS_FAILED.
Definition settled (h : Z) (m : KV DistributionRecord) (o : outcome) : KV DistributionRecord := moved_records m o.1 o.2 h.
Definition is_recipient (x : string) (dr : DistributionRecord) : bool :=
  match AccAddressFromBech32 (DR_Recipient dr) with Ok a => String.eqb x a | _ => false end.
Definition payment (x d : string) (o : outcome) : Z :=
  if completed o then
    (if is_recipient x o.1 then AmountOf (DR_Coins o.1) d else 0)
    - (if String.eqb x GetDistributionModuleAddress then AmountOf (DR_Coins o.1) d else 0)
  else 0.
Definition claims_after (m : KV UserClaim) (o : outcome) : KV UserClaim :=
  if completed o && DoesTypeSupportClaim o.1 then delete (GetUserClaimKey (DR_Recipient o.1) (DR_Type o.1)) m else m.

Lemma covered dr (w : W) d :
  wf_records (records w) -> solvent w -> records w !! key_of dr = Some dr -> is_pending dr = true ->
  AmountOf (DR_Coins dr) d <= GetBalance (dw_bank w) (NewModuleAddress ModuleName) d.
Proof.
  intros Hwf Hsol Hl Hp. etrans; [|apply Hsol].
  replace (AmountOf (DR_Coins dr) d) with (owed d dr) by (unfold owed; by rewrite Hp).
  unfold liabilities. eapply map_sum_ge; [|exact Hl]. by apply owed_nonneg.
Qed.

Lemma moved_solvent dr st h (w w' : W) :
  wf_records (records w) -> solvent w -> records w !! key_of dr = Some dr -> is_pending dr = true -> final (dr, st) ->
  records w' = settled h (records w) (dr, st) ->
  (forall x d, GetBalance (dw_bank w') x d = GetBalance (dw_bank w) x d + payment x d (dr, st)) ->
  wf_records (records w') /\ solvent w'.
Proof.
  intros Hwf Hsol Hl Hp Hst Er Hbal. split; [rewrite Er; by apply moved_wf|]. intros d. rewrite Er, Hbal. unfold settled. simpl.
  assert (st <> DISTRIBUTION_STATUS_PENDING) as Hne by (by destruct Hst as [E|E]; simpl in E; rewrite E).
  pose proof (moved_liabilities _ _ st h d Hwf Hl Hp Hne) as Hml. specialize (Hsol d).
  destruct (Hwf _ _ Hl) as (_ & Hv & _). pose proof (Validate_coins dr d Hv). unfold payment, completed. cbn [fst snd].
  rewrite String.eqb_refl. destruct Hst as [E|E]; simpl in E; rewrite E in Hml |- *; simpl in Hml |- *; [|lia].
  destruct (is_recipient _ _); lia.
Qed.

Lemma distribute_ok h dr (w w' : W) u :
  wf_records (records w) -> solvent w -> records w !! key_of dr = Some dr -> is_pending dr = true ->
  distribute h dr w = (w', Ok u) ->
  exists st, final (dr, st) /\ records w' = settled h (records w) (dr, st)
    /\ d_distributions (dw_store w') = d_distributions (dw_store w)
    /\ d_claims (dw_store w') = claims_after (d_claims (dw_store w)) (dr, st)
    /\ (forall x d, GetBalance (dw_bank w') x d = GetBalance (dw_bank w) x d + payment x d (dr, st)).
Proof.
  intros Hwf Hsol Hl Hp Hr. destruct (Hwf _ _ Hl) as (_ & Hv & a & Ha). unfold distribute in Hr. rewrite Ha in Hr.
  run_step Hr as sent w1 Hs. apply mtry_ok_inv in Hs as [(u' & -> & Hs)|(e & -> & Hs)]; apply disp_bank_ok in Hs as (b1 & Hs & ->).
  - apply SendCoinsFromModuleToAccount_ok in Hs as [Hm _]. run_step Hr as changed w2 Hc.
    rewrite (mtry_run _ _ _ _ (ChangeRecordStatus_run dr h DISTRIBUTION_STATUS_COMPLETED (set_disp_bank w b1) Hv Hl)) in Hc.
    injection Hc as <- <-. exists DISTRIBUTION_STATUS_COMPLETED. split; [by left|].
    assert (records w' = settled h (records w) (dr, DISTRIBUTION_STATUS_COMPLETED)
      /\ d_distributions (dw_store w') = d_distributions (dw_store w)
      /\ d_claims (dw_store w') = claims_after (d_claims (dw_store w)) (dr, DISTRIBUTION_STATUS_COMPLETED)
      /\ dw_bank w' = b1) as (? & ? & ? & Eb).
    { unfold claims_after. cbn [completed fst snd]. simpl.
      destruct (DoesTypeSupportClaim dr); [apply mmodify_ok_inv in Hr as ->|apply mret_ok_inv in Hr as [-> _]]; done. }
    split_and!; [done..|]. intros x d. rewrite Eb, (Hm x d). unfold payment, is_recipient. cbn [completed fst snd]. simpl. rewrite Ha.
    unfold GetDistributionModuleAddress.
    destruct (String.eqb_spec x a), (String.eqb_spec x (NewModuleAddress ModuleName)); repeat case_decide; (done || lia).
  - pose proof (SendCoinsFromModuleToAccount_err _ _ _ _ _ _ (fun d => covered dr w d Hwf Hsol Hl Hp) Hs) as Eb.
    apply mmust_ok_inv in Hr.
    rewrite (ChangeRecordStatus_run dr h DISTRIBUTION_STATUS_FAILED (set_disp_bank w b1) Hv Hl) in Hr.
    injection Hr as <- _. exists DISTRIBUTION_STATUS_FAILED. split; [by right|]. split_and!; [done..|].
    intros x d. simpl. rewrite Eb. unfold payment. cbn [completed fst snd]. simpl. lia.
Qed.

(** The bank panics only for a module account it does not know. *)
Definition module_registered : Prop :=
  forall to cs b, (SendCoinsFromModuleToAccount ModuleName to cs b).2 <> Panic.

Lemma distribute_total h dr (w : W) :
  module_registered -> wf_records (records w) -> records w !! key_of dr = Some dr -> (distribute h dr w).2 = Ok tt.
Proof.
  intros Hreg Hwf Hl. destruct (Hwf _ _ Hl) as (_ & Hv & a & Ha). unfold distribute. rewrite Ha.
  unfold mbnd, mtry, on_bank. specialize (Hreg a (DR_Coins dr) (dw_bank w)).
  destruct (SendCoinsFromModuleToAccount _ _ _ _) as [b1 [u|e|]]; [| |done].
  - change (mkDispWorld (dw_store w) b1) with (set_disp_bank w b1).
    rewrite (ChangeRecordStatus_run dr h DISTRIBUTION_STATUS_COMPLETED (set_disp_bank w b1) Hv Hl).
    by destruct (DoesTypeSupportClaim dr).
  - change (mkDispWorld (dw_store w) b1) with (set_disp_bank w b1). unfold mmust.
    by rewrite (ChangeRecordStatus_run dr h DISTRIBUTION_STATUS_FAILED (set_disp_bank w b1) Hv Hl).
Qed.

(** *** Paying a list of records *)

Lemma key_of_final dr st h dr' : final (dr, st) -> is_pending dr' = true -> key_of (with_status dr st h) <> key_of dr'.
Proof.
  intros Hst Hp E. apply (f_equal (String.prefix DistributionRecordPrefixPending)) in E. unfold key_of in E.
  rewrite !pending_key in E. unfold is_pending in Hp. rewrite Hp in E.
  by destruct Hst as [Hst|Hst]; simpl in Hst; subst st.
Qed.

Lemma settled_other h m dr st dr' :
  final (dr, st) -> is_pending dr' = true -> key_of dr <> key_of dr' ->
  settled h m (dr, st) !! key_of dr' = m !! key_of dr'.
Proof.
  intros Hst Hp Hne. unfold settled, moved_records. cbn [fst snd].
  rewrite lookup_delete_ne, lookup_insert_ne by (done || by apply key_of_final). done.
Qed.

Definition stored (m : KV DistributionRecord) (dr : DistributionRecord) : Prop :=
  m !! key_of dr = Some dr /\ is_pending dr = true.

(** The loop of [DistributeDrops], as the sequence of its outcomes. *)
Lemma distribute_list h l (w w' : W) u :
  wf_records (records w) -> solvent w -> Forall (stored (records w)) l -> NoDup (key_of <$> l) ->
  mfor l (distribute h) w = (w', Ok u) ->
  exists outs : list outcome, outs.*1 = l /\ Forall final outs
    /\ records w' = fold_left (settled h) outs (records w)
    /\ d_distributions (dw_store w') = d_distributions (dw_store w)
    /\ d_claims (dw_store w') = fold_left claims_after outs (d_claims (dw_store w))
    /\ (forall x d, GetBalance (dw_bank w') x d = GetBalance (dw_bank w) x d + foldr (fun o acc => payment x d o + acc) 0 outs)
    /\ wf_records (records w') /\ solvent w'.
Proof.
  revert w. induction l as [|dr l IH]; intros w Hwf Hsol Hst Hnd Hr; cbn [mfor] in Hr.
  - apply mret_ok_inv in Hr as [-> _]. exists []. split_and!; try done. intros x d. simpl. lia.
  - run_step Hr as u1 w1 Hd. apply Forall_cons in Hst as [[Hl Hp] Hst]. cbn in Hnd. apply NoDup_cons in Hnd as [Hni Hnd].
    destruct (distribute_ok _ _ _ _ _ Hwf Hsol Hl Hp Hd) as (st & Hf & Er & Ed & Ec & Hb).
    destruct (moved_solvent _ _ _ _ _ Hwf Hsol Hl Hp Hf Er Hb) as [Hwf1 Hsol1].
    destruct (IH w1) as (outs & Eo & Hfs & Er' & Ed' & Ec' & Hb' & Hwf' & Hsol'); try done.
    { eapply Forall_impl; [apply Forall_and; split; [exact Hst|]|].
      - apply (Forall_forall (fun x => key_of dr <> key_of x)). intros x Hx E. apply Hni. rewrite E. by apply list_elem_of_fmap_2.
      - intros x [[Hx Hpx] Hne]. split; [|done]. rewrite Er, settled_other; done. }
    exists ((dr, st) :: outs). split_and!; [by rewrite <- Eo|by constructor|by rewrite Er', Er|congruence|by rewrite Ec', Ec| |done|done].
    intros x d. rewrite Hb', Hb. simpl. lia.
Qed.

Lemma distribute_list_total h l (w : W) :
  module_registered -> wf_records (records w) -> solvent w -> Forall (stored (records w)) l -> NoDup (key_of <$> l) ->
  (mfor l (distribute h) w).2 = Ok tt.
Proof.
  intros Hreg. revert w. induction l as [|dr l IH]; intros w Hwf Hsol Hst Hnd; [done|]. cbn [mfor].
  apply Forall_cons in Hst as [[Hl Hp] Hst]. cbn in Hnd. apply NoDup_cons in Hnd as [Hni Hnd].
  pose proof (run_ok _ _ _ (distribute_total h dr w Hreg Hwf Hl)) as Hd. rewrite (mbnd_run _ _ _ _ _ Hd).
  destruct (distribute_ok _ _ _ _ _ Hwf Hsol Hl Hp Hd) as (st & Hf & Er & _ & _ & Hb).
  destruct (moved_solvent _ _ _ _ _ Hwf Hsol Hl Hp Hf Er Hb) as [Hwf1 Hsol1].
  apply IH; [done..| |done]. apply Forall_forall. intros x Hx. rewrite Forall_forall in Hst. destruct (Hst x Hx) as [Hlx Hpx].
  split; [|done]. rewrite Er, settled_other; try done. intros E. apply Hni. rewrite E. by apply list_elem_of_fmap_2.
Qed.

(** *** The records a run selects *)

Lemma limited_take p l count :
  0 <= count <= MaxRecordsPerBlock ->
  limited p l count = take (Z.to_nat (MaxRecordsPerBlock - count)) (filter (fun dr => p dr = true) l).
Proof.
  revert count. induction l as [|dr l IH]; intros count Hc; cbn [limited]; [by rewrite filter_nil, take_nil|].
  destruct (Z.eqb_spec count MaxRecordsPerBlock) as [->|Hne]; [by rewrite Z.sub_diag|].
  rewrite filter_cons. destruct (p dr) eqn:E.
  - rewrite decide_True, IH by (done || lia).
    replace (Z.to_nat (MaxRecordsPerBlock - count)) with (S (Z.to_nat (MaxRecordsPerBlock - (count + 1)))) by lia. done.
  - rewrite decide_False, IH by (done || lia). done.
Qed.

(** The pending records of a distribution its runner may still pay, in key order. *)
Definition due (name runner : string) (t : DistributionType) (m : KV DistributionRecord) : list DistributionRecord :=
  filter (fun dr => runs name runner t dr = true) (kv_prefix DistributionRecordPrefixPending m).*2.

Lemma runs_spec name runner t dr :
  runs name runner t dr = true <-> DR_Name dr = name /\ is_pending dr = true /\ DR_Runner dr = runner /\ DR_Type dr = t.
Proof. unfold runs, is_pending. rewrite !andb_true_iff, !String.eqb_eq, !Z.eqb_eq. tauto. Qed.

Lemma elem_of_values p (m : KV DistributionRecord) dr :
  wf_records m -> dr ∈ (kv_prefix p m).*2 <-> m !! key_of dr = Some dr /\ String.prefix p (key_of dr) = true.
Proof.
  intros Hm. rewrite list_elem_of_fmap. split.
  - intros ([k v] & -> & [Hk Hp]%elem_of_kv_prefix). simpl. destruct (Hm _ _ Hk) as (-> & _). done.
  - intros [Hl Hp]. exists (key_of dr, dr). split; [done|]. by apply elem_of_kv_prefix.
Qed.

Lemma values_NoDup p (m : KV DistributionRecord) : wf_records m -> NoDup (key_of <$> (kv_prefix p m).*2).
Proof.
  intros Hm. replace (key_of <$> (kv_prefix p m).*2) with (kv_prefix p m).*1; [apply kv_prefix_NoDup|].
  rewrite <- list_fmap_compose. apply list_fmap_ext. intros i [k v] Hi. simpl.
  apply list_elem_of_lookup_2, elem_of_kv_prefix in Hi as [Hk _]. by destruct (Hm _ _ Hk) as (-> & _).
Qed.

Lemma due_stored name runner t m dr :
  wf_records m -> dr ∈ due name runner t m <-> stored m dr /\ runs name runner t dr = true.
Proof.
  intros Hm. unfold due. rewrite list_elem_of_filter, elem_of_values by done. unfold key_of at 2. rewrite pending_key.
  unfold stored, is_pending. tauto.
Qed.

Lemma due_NoDup name runner t m : wf_records m -> NoDup (key_of <$> due name runner t m).
Proof.
  intros Hm. eapply sublist_NoDup; [by apply (values_NoDup DistributionRecordPrefixPending m)|].
  apply fmap_sublist, sublist_filter.
Qed.

(** The number of due records, as a sum over the store. *)
Lemma due_length name runner t m :
  wf_records m ->
  Z.of_nat (length (due name runner t m)) = map_sum (fun dr => if runs name runner t dr then 1 else 0) m.
Proof.
  intros Hm. rewrite <- (map_sum_list _ m (map_to_list m)) by done. unfold due, kv_prefix.
  rewrite (merge_sort_Permutation key_le).
  assert (forall l : list (string * DistributionRecord), (forall k v, (k, v) ∈ l -> m !! k = Some v) ->
    Z.of_nat (length (filter (fun dr => runs name runner t dr = true)
      (filter (fun kv : string * DistributionRecord => String.prefix DistributionRecordPrefixPending kv.1 = true) l).*2))
    = foldr (fun kv acc => (if runs name runner t kv.2 then 1 else 0) + acc) 0 l) as Hl.
  { induction l as [|[k v] l IH]; intros Hin; [done|]. rewrite filter_cons. cbn [foldr fst snd].
    rewrite <- IH by (intros; apply Hin; by right).
    destruct (Hm k v (Hin _ _ (list_elem_of_here _ _))) as (-> & _). unfold key_of. rewrite pending_key.
    destruct (DR_Status v =? DISTRIBUTION_STATUS_PENDING) eqn:E.
    - rewrite decide_True by done. rewrite fmap_cons, filter_cons. cbn [snd].
      destruct (runs name runner t v); [rewrite decide_True by done|rewrite decide_False by done]; simpl length; lia.
    - rewrite decide_False by done. destruct (runs name runner t v) eqn:Er; [|lia].
      apply runs_spec in Er as (_ & Er & _). unfold is_pending in Er. congruence. }
  apply Hl. intros k v. apply elem_of_map_to_list.
Qed.

Lemma settled_due name runner t h m dr st :
  wf_records m -> stored m dr -> runs name runner t dr = true -> final (dr, st) ->
  Z.of_nat (length (due name runner t (settled h m (dr, st)))) = Z.of_nat (length (due name runner t m)) - 1.
Proof.
  intros Hm [Hl Hp] Hr Hf. rewrite !due_length by (done || by apply moved_wf). unfold settled. cbn [fst snd].
  rewrite moved_sum by (done || by apply key_of_final). cbv beta. rewrite Hr.
  assert (forall dr', key_of dr' = key_of (with_status dr st h) -> is_pending dr' = false) as Hnp.
  { intros dr' E. destruct (is_pending dr') eqn:Ep; [|done]. exfalso. by eapply key_of_final. }
  assert (runs name runner t (with_status dr st h) = false) as ->.
  { destruct (runs _ _ _ (with_status dr st h)) eqn:E; [|done]. apply runs_spec in E as (_ & E & _). by rewrite Hnp in E. }
  destruct (m !! key_of (with_status dr st h)) as [dr'|] eqn:E; simpl; [|lia].
  destruct (Hm _ _ E) as (Ek & _). destruct (runs name runner t dr') eqn:E'; [|lia].
  apply runs_spec in E' as (_ & E' & _). by rewrite Hnp in E'.
Qed.

(** *** What a sequence of outcomes leaves in the store *)

Lemma key_of_status dr st h dr' st' h' :
  final (dr, st) -> final (dr', st') -> is_pending dr = true -> is_pending dr' = true ->
  key_of (with_status dr st h) = key_of (with_status dr' st' h') -> key_of dr = key_of dr'.
Proof.
  unfold is_pending, key_of, GetDistributionRecordKey. intros Hf Hf' -> ->. cbn [with_status DR_Status DR_Name DR_Recipient DR_Type].
  destruct Hf as [E|E], Hf' as [E'|E']; simpl in E, E'; subst st st'; simpl; intros E;
    first [discriminate E|apply (inj (String.append _)) in E; by rewrite E].
Qed.

(** The record left the pending records and is stored with its new status. *)
Definition settled_as (m : KV DistributionRecord) (dr : DistributionRecord) (st : DistributionStatus) (h : Z) : Prop :=
  m !! key_of dr = None /\ m !! key_of (with_status dr st h) = Some (with_status dr st h).

Lemma settled_here h m dr st : stored m dr -> final (dr, st) -> settled_as (settled h m (dr, st)) dr st h.
Proof.
  intros [Hl Hp] Hf. unfold settled_as, settled, moved_records. cbn [fst snd]. split; [apply lookup_delete_eq|].
  rewrite lookup_delete_ne by (intros E; symmetry in E; revert E; by apply key_of_final). apply lookup_insert_eq.
Qed.

Lemma settled_as_keep h m dr st h0 dr' st' :
  is_pending dr = true -> final (dr, st) -> stored m dr' -> final (dr', st') -> settled_as m dr st h0 ->
  settled_as (settled h m (dr', st')) dr st h0.
Proof.
  intros Hp Hf [Hl' Hp'] Hf' [Hn Hs]. assert (key_of dr' <> key_of dr) as Hne by congruence.
  split; [by rewrite settled_other|]. unfold settled, moved_records. cbn [fst snd].
  rewrite lookup_delete_ne by (intros E; symmetry in E; revert E; by apply key_of_final).
  rewrite lookup_insert_ne; [done|]. intros E. by apply key_of_status in E.
Qed.

Lemma stored_keep h m dr dr' st' :
  stored m dr -> final (dr', st') -> key_of dr' <> key_of dr -> stored (settled h m (dr', st')) dr.
Proof. intros [Hl Hp] Hf Hne. split; [|done]. by rewrite settled_other. Qed.

Lemma fold_settled h outs m :
  wf_records m -> Forall (stored m) outs.*1 -> NoDup (key_of <$> outs.*1) -> Forall final outs ->
  let m' := fold_left (settled h) outs m in
  (forall o, o ∈ outs -> settled_as m' o.1 o.2 h)
  /\ (forall dr, stored m dr -> dr ∉ outs.*1 -> stored m' dr)
  /\ (forall dr st h0, is_pending dr = true -> final (dr, st) -> settled_as m dr st h0 -> settled_as m' dr st h0)
  /\ (forall name runner t, Forall (fun dr => runs name runner t dr = true) outs.*1 ->
        length (due name runner t m') = (length (due name runner t m) - length outs)%nat).
Proof.
  revert m. induction outs as [|[dr st] outs IH]; intros m Hm Hst Hnd Hf m'; subst m'; cbn [fold_left].
  - split_and!; [by intros ? []%not_elem_of_nil|done|done|]. intros. simpl. lia.
  - rewrite fmap_cons in *. cbn [fst] in *. apply Forall_cons in Hst as [Hs Hst]. apply Forall_cons in Hf as [Hf0 Hf].
    apply NoDup_cons in Hnd as [Hni Hnd]. pose proof Hs as [Hl Hp].
    assert (forall x, x ∈ outs.*1 -> key_of dr <> key_of x) as Hne.
    { intros x Hx E. apply Hni. rewrite E. by apply list_elem_of_fmap_2. }
    destruct (IH (settled h m (dr, st))) as (Ho & Hk & Hd & Hc); try done; [by apply moved_wf| |].
    { rewrite Forall_forall in *. intros x Hx. apply stored_keep; auto. }
    split_and!.
    + intros o [->|Hi]%elem_of_cons; [|by apply Ho]. cbn [fst snd]. apply Hd; [done..|]. by apply settled_here.
    + intros x Hx [Hxd Hxo]%not_elem_of_cons. apply Hk; [|done]. apply stored_keep; [done..|].
      intros E. apply Hxd. destruct Hx as [Hx _]. rewrite <- E, Hl in Hx. congruence.
    + intros x st0 h0 Hx Hfx Hsx. apply Hd; [done..|]. by apply settled_as_keep.
    + intros name runner t Hr. apply Forall_cons in Hr as [Hr0 Hr]. rewrite Hc by done.
      pose proof (settled_due name runner t h m dr st Hm Hs Hr0 Hf0) as Hdue. simpl. lia.
Qed.

(** *** Running a distribution *)

Definition due_of (msg : MsgRunDistribution) (w : W) : list DistributionRecord :=
  due (Run_Name msg) (Run_Runner msg) (Run_Type msg) (records w).

Lemma run_selects msg (w : W) :
  GetLimitedRecordsForRunner (Run_Name msg) (Run_Runner msg) (Run_Type msg) DISTRIBUTION_STATUS_PENDING w
  = Ok (take 10 (due_of msg w)).
Proof. unfold GetLimitedRecordsForRunner. simpl rbind. by rewrite limited_take. Qed.

Lemma RunDistribution_eq ctx msg (w : W) :
  RunDistribution ctx msg w = mfor (take 10 (due_of msg w)) (distribute (BlockHeight ctx)) w.
Proof.
  unfold RunDistribution, DistributeDrops, mgets, mlift, mbnd at 1 2 3, id. rewrite run_selects. unfold mbnd.
  by destruct (mfor _ _ w) as [w' [[]|e|]].
Qed.

Lemma due_prefix_stored msg (w : W) :
  wf_records (records w) ->
  Forall (stored (records w)) (take 10 (due_of msg w)) /\ NoDup (key_of <$> take 10 (due_of msg w))
  /\ Forall (fun dr => runs (Run_Name msg) (Run_Runner msg) (Run_Type msg) dr = true) (take 10 (due_of msg w)).
Proof.
  intros Hm. split_and!.
  - apply Forall_take, Forall_forall. intros dr Hd. by apply due_stored in Hd as [? _].
  - rewrite fmap_take. eapply sublist_NoDup; [by apply due_NoDup|apply sublist_take].
  - apply Forall_take, Forall_forall. intros dr Hd. by apply due_stored in Hd as [_ ?].
Qed.

Lemma RunDistribution_ok ctx msg (w w' : W) u :
  wf_records (records w) -> solvent w -> RunDistribution ctx msg w = (w', Ok u) ->
  exists outs : list outcome, outs.*1 = take 10 (due_of msg w) /\ Forall final outs
    /\ (forall o, o ∈ outs -> settled_as (records w') o.1 o.2 (BlockHeight ctx))
    /\ (forall dr, stored (records w) dr -> dr ∉ take 10 (due_of msg w) -> stored (records w') dr)
    /\ (forall dr st h, is_pending dr = true -> final (dr, st) -> settled_as (records w) dr st h -> settled_as (records w') dr st h)
    /\ length (due_of msg w') = (length (due_of msg w) - 10)%nat
    /\ (forall x d, GetBalance (dw_bank w') x d = GetBalance (dw_bank w) x d + foldr (fun o acc => payment x d o + acc) 0 outs)
    /\ d_claims (dw_store w') = fold_left claims_after outs (d_claims (dw_store w))
    /\ d_distributions (dw_store w') = d_distributions (dw_store w)
    /\ wf_records (records w') /\ solvent w'.
Proof.
  intros Hm Hsol Hr. rewrite RunDistribution_eq in Hr. destruct (due_prefix_stored msg w Hm) as (Hst & Hnd & Hrun).
  destruct (distribute_list _ _ _ _ _ Hm Hsol Hst Hnd Hr) as (outs & Eo & Hf & Er & Ed & Ec & Hb & Hm' & Hsol').
  rewrite <- Eo in Hst, Hnd, Hrun. destruct (fold_settled (BlockHeight ctx) outs _ Hm Hst Hnd Hf) as (Ho & Hk & Hd & Hc).
  rewrite <- Er in Ho, Hk, Hd, Hc. exists outs. rewrite <- Eo. split_and!; try done.
  unfold due_of. rewrite Hc by done. assert (length outs = length (take 10 (due_of msg w))) as El by (by rewrite <- Eo, length_fmap).
  rewrite length_take in El. unfold due_of in *. lia.
Qed.

Lemma RunDistribution_total ctx msg (w : W) :
  module_registered -> wf_records (records w) -> solvent w -> (RunDistribution ctx msg w).2 = Ok tt.
Proof.
  intros Hreg Hm Hsol. rewrite RunDistribution_eq. destruct (due_prefix_stored msg w Hm) as (Hst & Hnd & _).
  by apply distribute_list_total.
Qed.

(** *** Creating a distribution *)

Abbreviation pkey name t r := (GetDistributionRecordKey DISTRIBUTION_STATUS_PENDING name r t).

Lemma pkey_inj name t r r' : pkey name t r = pkey name t r' -> r = r'.
Proof. unfold GetDistributionRecordKey, record_name_key. by intros E%(inj _)%(inj _)%(inj _)%(inj _)%(inj _). Qed.

(** What the store holds for a recipient, and what a list of outputs gives it. *)
Definition pending_for (m : KV DistributionRecord) (name : string) (t : DistributionType) (r d : string) : Z :=
  from_option (fun dr => AmountOf (DR_Coins dr) d) 0 (m !! pkey name t r).
Definition outputs_to (r d : string) (outs : list Output) : Z :=
  foldr (fun o acc => (if String.eqb (Out_Address o) r then AmountOf (Out_Coins o) d else 0) + acc) 0 outs.
Definition outputs_total (d : string) (outs : list Output) : Z := foldr (fun o acc => AmountOf (Out_Coins o) d + acc) 0 outs.

Lemma TotalOutput_ok outs total d : TotalOutput outs = Ok total -> AmountOf total d = outputs_total d outs.
Proof.
  destruct outs as [|o outs]; [done|]. simpl. generalize (Out_Coins o) as acc. induction outs as [|o' outs IH]; simpl; intros acc Ht.
  - injection Ht as ->. lia.
  - apply rbind_ok_inv in Ht as (acc' & Ha & Ht). rewrite (IH _ Ht). rewrite (Coins_Add_ok _ _ _ Ha). lia.
Qed.

(** The record one output leaves. *)
Definition drop_record (ctx : Context) (name : string) (t : DistributionType) (runner r : string) (cs : list Coin) : DistributionRecord :=
  mkDistributionRecord DISTRIBUTION_STATUS_PENDING t name r cs (BlockHeight ctx) (-1) runner.

Lemma drop_one ctx o outs name t runner (w w' : W) u :
  CreateDrops ctx (o :: outs) name t runner w = (w', Ok u) ->
  exists cs, DistributionRecord_Validate (drop_record ctx name t runner (Out_Address o) cs) = true
    /\ (forall d, AmountOf cs d = AmountOf (Out_Coins o) d + pending_for (records w) name t (Out_Address o) d)
    /\ CreateDrops ctx outs name t runner
         (set_records w (<[pkey name t (Out_Address o) := drop_record ctx name t runner (Out_Address o) cs]> (records w)))
       = (w', Ok u).
Proof.
  unfold CreateDrops at 1. cbn [mfor]. intros Hr. run_step Hr as u1 w1 Hb. cbv zeta in Hb. get_step Hb.
  run_step Hb as dr w2 Hd. apply mwrap_ok_inv in Hb. unfold SetDistributionRecord in Hb. check_step Hb as Hv.
  apply mmodify_ok_inv in Hb as ->. apply negb_false_iff in Hv.
  assert (exists cs, dr = drop_record ctx name t runner (Out_Address o) cs /\ w2 = w
    /\ forall d, AmountOf cs d = AmountOf (Out_Coins o) d + pending_for (records w) name t (Out_Address o) d) as (cs & -> & -> & Hcs).
  { unfold ExistsDistributionRecord in Hd. unfold pending_for. case_bool_decide as Hex.
    - lift_step Hd as old Ho. apply rwrap_ok_inv in Ho. unfold GetDistributionRecord in Ho.
      destruct (records w !! pkey name t (Out_Address o)) as [old'|]; [|done]. injection Ho as ->.
      apply mlift_ok_inv in Hd as [-> Hd]. unfold DistributionRecord_Add in Hd. apply rbind_ok_inv in Hd as (cs & Ha & Hd).
      injection Hd as <-. exists cs. split_and!; [done..|]. intros d. by rewrite (Coins_Add_ok _ _ _ Ha).
    - apply mret_ok_inv in Hd as [-> ->]. exists (Out_Coins o). split_and!; [done..|]. intros d.
      destruct (records w !! pkey name t (Out_Address o)); simpl; [|lia]. exfalso. eauto. }
  exists cs. split_and!; [done..|]. exact Hr.
Qed.

Lemma pending_owed m name t r d :
  wf_records m -> from_option (owed d) 0 (m !! pkey name t r) = pending_for m name t r d.
Proof.
  intros Hm. unfold pending_for. destruct (m !! pkey name t r) as [dr|] eqn:E; [|done]. simpl.
  destruct (Hm _ _ E) as (Ek & _). apply (f_equal (String.prefix DistributionRecordPrefixPending)) in Ek.
  unfold key_of in Ek. rewrite !pending_key in Ek. unfold owed, is_pending. by rewrite <- Ek.
Qed.

Lemma CreateDrops_ok ctx outs name t runner (w w' : W) u :
  wf_records (records w) -> Forall (fun o => exists a, AccAddressFromBech32 (Out_Address o) = Ok a) outs ->
  CreateDrops ctx outs name t runner w = (w', Ok u) ->
  w' = set_records w (records w') /\ wf_records (records w')
  /\ (forall d, liabilities (records w') d = liabilities (records w) d + outputs_total d outs)
  /\ (forall r d, pending_for (records w') name t r d = pending_for (records w) name t r d + outputs_to r d outs)
  /\ (forall r, r ∈ Out_Address <$> outs ->
        exists cs, records w' !! pkey name t r = Some (drop_record ctx name t runner r cs))
  /\ (forall k, (forall r, r ∈ Out_Address <$> outs -> k <> pkey name t r) -> records w' !! k = records w !! k).
Proof.
  revert w. induction outs as [|o outs IH]; intros w Hm Ha Hr.
  - apply mret_ok_inv in Hr as [-> _]. split_and!; try done.
    + by destruct w as [[] ?].
    + intros d. simpl. lia.
    + intros r d. simpl. lia.
    + by intros r []%not_elem_of_nil.
  - apply drop_one in Hr as (cs & Hv & Hcs & Hr). apply Forall_cons in Ha as [Hoa Ha]. set (r0 := Out_Address o) in *.
    set (dr := drop_record ctx name t runner r0 cs) in *.
    assert (wf_records (<[pkey name t r0 := dr]> (records w))) as Hm1.
    { intros k x [[<- <-]|[_ Hk]]%lookup_insert_Some; [done|by apply Hm]. }
    destruct (IH (set_records w (<[pkey name t r0 := dr]> (records w))) Hm1 Ha Hr) as (Ew & Hwf & Hl & Hp & Hi & Hk). cbn [set_records dw_store d_records] in *.
    split_and!; [exact Ew|done|..].
    + intros d. rewrite Hl. unfold liabilities. rewrite map_sum_insert, pending_owed by done.
      replace (owed d dr) with (AmountOf cs d) by done. rewrite Hcs. simpl. lia.
    + intros r d. rewrite Hp. simpl. fold r0. unfold pending_for at 1. destruct (String.eqb_spec r0 r) as [<-|Hne].
      * rewrite lookup_insert_eq. simpl. rewrite Hcs. lia.
      * rewrite lookup_insert_ne by (intros E; by apply pkey_inj in E). unfold pending_for. lia.
    + intros r Hr'. destruct (decide (r ∈ Out_Address <$> outs)) as [|Hni]; [by apply Hi|].
      rewrite Hk; [|intros r1 Hr1 E%pkey_inj; congruence]. rewrite fmap_cons in Hr'. apply elem_of_cons in Hr' as [->|?]; [|done].
      exists cs. apply lookup_insert_eq.
    + intros k Hne. rewrite Hk; [|intros r1 Hr1; apply Hne; rewrite fmap_cons; by right].
      apply lookup_insert_ne. intros <-. eapply Hne; [|done]. rewrite fmap_cons. by left.
Qed.

Definition dkey (ar : Distribution) : string := GetDistributionsKey (D_Name ar) (D_Type ar) (D_Runner ar).
Definition ckey (uc : UserClaim) : string := GetUserClaimKey (UC_UserAddress uc) (UC_Type uc).

Record disp_ok (w : W) : Prop := {
  ok_records : wf_records (records w);
  ok_solvent : solvent w;
  ok_distributions : forall k ar, d_distributions (dw_store w) !! k = Some ar -> k = dkey ar /\ Distribution_Validate ar = true;
  ok_claims : forall k uc, d_claims (dw_store w) !! k = Some uc -> k = ckey uc /\ UserClaim_Validate uc = true;
}.

Lemma SetDistribution_ok ar (w w' : W) u :
  SetDistribution ar w = (w', Ok u) ->
  Distribution_Validate ar = true
  /\ w' = mkDispWorld (mkDispStore (records w) (<[dkey ar := ar]> (d_distributions (dw_store w))) (d_claims (dw_store w))) (dw_bank w).
Proof. unfold SetDistribution. intros Hr. check_step Hr as Hv. apply mmodify_ok_inv in Hr as ->. by apply negb_false_iff in Hv. Qed.

Lemma SetClaim_ok uc (w w' : W) u :
  SetClaim uc w = (w', Ok u) ->
  UserClaim_Validate uc = true /\ w' = set_claims w (<[ckey uc := uc]> (d_claims (dw_store w))).
Proof. unfold SetClaim. intros Hr. check_step Hr as Hv. apply mmodify_ok_inv in Hr as ->. by apply negb_false_iff in Hv. Qed.

Definition readable_outputs (outs : list Output) : Prop := Forall (fun o => exists a, AccAddressFromBech32 (Out_Address o) = Ok a) outs.

(** The state a successful [CreateDistribution] leaves. *)
Lemma CreateDistribution_ok ctx msg (w w' : W) u :
  wf_records (records w) -> readable_outputs (Create_Output msg) -> CreateDistribution ctx msg w = (w', Ok u) ->
  let name := distribution_name ctx (Create_Distributor msg) in
  let ar := mkDistribution (Create_Type msg) name (Create_Runner msg) in
  exists a, AccAddressFromBech32 (Create_Distributor msg) = Ok a
    /\ d_distributions (dw_store w) !! dkey ar = None /\ Distribution_Validate ar = true
    /\ d_distributions (dw_store w') = <[dkey ar := ar]> (d_distributions (dw_store w))
    /\ d_claims (dw_store w') = d_claims (dw_store w)
    /\ (forall x d, GetBalance (dw_bank w') x d = GetBalance (dw_bank w) x d
          - (if String.eqb x a then outputs_total d (Create_Output msg) else 0)
          + (if String.eqb x GetDistributionModuleAddress then outputs_total d (Create_Output msg) else 0))
    /\ (forall d, outputs_total d (Create_Output msg) <= GetBalance (dw_bank w) a d)
    /\ wf_records (records w')
    /\ (forall d, liabilities (records w') d = liabilities (records w) d + outputs_total d (Create_Output msg))
    /\ (forall r d, pending_for (records w') name (Create_Type msg) r d
          = pending_for (records w) name (Create_Type msg) r d + outputs_to r d (Create_Output msg))
    /\ (forall r, r ∈ Out_Address <$> Create_Output msg ->
          exists cs, records w' !! pkey name (Create_Type msg) r = Some (drop_record ctx name (Create_Type msg) (Create_Runner msg) r cs))
    /\ (forall k, (forall r, r ∈ Out_Address <$> Create_Output msg -> k <> pkey name (Create_Type msg) r) ->
          records w' !! k = records w !! k).
Proof.
  intros Hm Ho Hr name ar. unfold CreateDistribution in Hr. cbv zeta in Hr. fold name in Hr.
  run_step Hr as u1 w1 Hv. unfold VerifyAndSetDistribution in Hv. get_step Hv. check_step Hv as Hex. apply mwrap_ok_inv in Hv.
  apply SetDistribution_ok in Hv as [Hval ->]. change (NewDistribution _ _ _) with ar in *.
  lift_step Hr as total Ht. run_step Hr as u2 w2 Hs. unfold AccumulateDrops in Hs. lift_step Hs as a Ha.
  apply mwrap_ok_inv, disp_bank_ok in Hs as (b2 & Hs & ->). apply SendCoinsFromAccountToModule_ok in Hs as [Hmv Hcov].
  cbn [set_disp_bank dw_bank dw_store] in *.
  apply CreateDrops_ok in Hr as (Ew & Hwf & Hl & Hp & Hi & Hk); [|done..]. cbn [set_disp_bank dw_store d_records] in *.
  exists a. rewrite Ew. cbn [set_records set_disp_bank dw_bank dw_store d_records d_distributions d_claims].
  split_and!; try done.
  - unfold ExistsDistribution in Hex. fold (dkey ar) in Hex. case_bool_decide as Hn; [done|].
    destruct (d_distributions (dw_store w) !! dkey ar) eqn:E; [|done]. exfalso. apply Hn. change (is_Some (d_distributions (dw_store w) !! dkey ar)). eauto.
  - intros y d. rewrite (Hmv y d), (TotalOutput_ok _ _ d Ht). unfold GetDistributionModuleAddress.
    destruct (String.eqb_spec y a), (String.eqb_spec y (NewModuleAddress ModuleName)); repeat case_decide; (done || lia).
  - intros d. rewrite <- (TotalOutput_ok _ _ d Ht). apply Hcov.
Qed.

(** *** The invariant *)

Lemma claims_after_sub m outs k uc : fold_left claims_after outs m !! k = Some uc -> m !! k = Some uc.
Proof.
  revert m. induction outs as [|o outs IH]; intros m; [done|]. cbn [fold_left]. intros Hk%IH. unfold claims_after in Hk.
  destruct (completed o && DoesTypeSupportClaim o.1); [|done]. by apply lookup_delete_Some in Hk as [_ ?].
Qed.

Lemma rmap_Forall {A C} (f : A -> res C) (P : C -> Prop) l l' :
  rmap f l = Ok l' -> (forall x y, f x = Ok y -> P y) -> Forall P l'.
Proof.
  revert l'. induction l as [|x l IH]; intros l' Hl HP; cbn [rmap] in Hl; go_inv; [done|].
  constructor; [by eapply HP|by apply IH].
Qed.

Lemma ValidateBasic_outputs m m' : MsgCreateDistribution_ValidateBasic m = Ok m' -> readable_outputs (Create_Output m').
Proof.
  unfold MsgCreateDistribution_ValidateBasic. intros Hv. go_inv. cbn [Create_Output]. eapply rmap_Forall; [eassumption|].
  intros o o' Ho. unfold check_output in Ho. go_inv. eauto.
Qed.

(** A message whose sender's address is not the module's own. *)
Definition outside_signer (m : Msg) : Prop := exists s, GetSigners m = Ok [s] /\ s <> GetDistributionModuleAddress.

Lemma disp_Handler_ok ctx m m' (w w' : W) u :
  disp_ok w -> ValidateBasic m = Ok m' -> outside_signer m' -> Handler ctx m' w = (w', Ok u) -> disp_ok w'.
Proof.
  intros [Hm Hsol Hd Hc] Hv (s & Hs & Hne) Hr. destruct m as [m|m|m]; simpl in Hv; apply rbind_ok_inv in Hv as (m1 & Hv & [= <-]).
  - simpl in Hr, Hs. apply CreateDistribution_ok in Hr as (a & Ha & Hn & Hval & Ed & Ec & Hb & Hcov & Hwf & Hl & _); [|done|].
    2: { by eapply ValidateBasic_outputs. }
    unfold MsgCreateDistribution_GetSigners, signer_of in Hs. rewrite Ha in Hs. injection Hs as ->. split; [done|..].
    + intros d. rewrite Hl, Hb, String.eqb_refl. destruct (String.eqb_spec GetDistributionModuleAddress s); [congruence|].
      specialize (Hsol d). lia.
    + intros k ar Hk. rewrite Ed in Hk. apply lookup_insert_Some in Hk as [[<- <-]|[_ Hk]]; [done|by apply Hd].
    + by rewrite Ec.
  - simpl in Hr. unfold CreateUserClaim in Hr. get_step Hr. check_step Hr as Hex. lift_step Hr as uc Huc.
    apply SetClaim_ok in Hr as [Hval ->]. split; [done..|]. intros k uc0 Hk. cbn in Hk.
    apply lookup_insert_Some in Hk as [[<- <-]|[_ Hk]]; [done|by apply Hc].
  - simpl in Hr. apply RunDistribution_ok in Hr as (outs & _ & _ & _ & _ & _ & _ & _ & Ec & Ed & Hwf & Hsol'); [|done..].
    split; [done|done| |].
    + by rewrite Ed.
    + intros k uc0 Hk. rewrite Ec in Hk. by apply Hc, (claims_after_sub _ outs).
Qed.

(** *** Genesis *)

Definition record_entries (m : KV DistributionRecord) : list (string * DistributionRecord) :=
  kv_prefix DistributionRecordPrefixPending m ++ kv_prefix DistributionRecordPrefixCompleted m
  ++ kv_prefix DistributionRecordPrefixFailed m.

Lemma byte_prefix a b k : String.prefix (byte1 a) k = true -> String.prefix (byte1 b) k = true -> ascii_of_nat a = ascii_of_nat b.
Proof. destruct k as [|c k]; [done|]. simpl. intros. repeat case_match; congruence. Qed.

Lemma record_entries_NoDup (m : KV DistributionRecord) : NoDup (record_entries m).*1.
Proof.
  unfold record_entries. rewrite !fmap_app. apply NoDup_app. split; [apply kv_prefix_NoDup|]. split.
  - intros k ([k1 v1] & -> & [_ P1]%elem_of_kv_prefix)%list_elem_of_fmap. simpl.
    intros [([k2 v2] & -> & [_ P2]%elem_of_kv_prefix)%list_elem_of_fmap
           |([k2 v2] & -> & [_ P2]%elem_of_kv_prefix)%list_elem_of_fmap]%elem_of_app; by pose proof (byte_prefix _ _ _ P1 P2).
  - apply NoDup_app. split; [apply kv_prefix_NoDup|]. split; [|apply kv_prefix_NoDup].
    intros k ([k1 v1] & -> & [_ P1]%elem_of_kv_prefix)%list_elem_of_fmap. simpl.
    intros ([k2 v2] & -> & [_ P2]%elem_of_kv_prefix)%list_elem_of_fmap. by pose proof (byte_prefix _ _ _ P1 P2).
Qed.

Lemma key_prefix dr :
  String.prefix DistributionRecordPrefixPending (key_of dr) = true
  \/ String.prefix DistributionRecordPrefixCompleted (key_of dr) = true
  \/ String.prefix DistributionRecordPrefixFailed (key_of dr) = true.
Proof.
  unfold key_of, GetDistributionRecordKey. destruct (_ =? _); [left; apply prefix_app|].
  destruct (_ =? _); [right; left; apply prefix_app|].
  destruct (_ =? _); [right; right; apply prefix_app|right; left; apply prefix_app].
Qed.

Lemma record_entries_listing (m : KV DistributionRecord) k dr :
  wf_records m -> (k, dr) ∈ record_entries m <-> m !! k = Some dr.
Proof.
  intros Hm. unfold record_entries. rewrite !elem_of_app, !elem_of_kv_prefix. split; [tauto|]. intros Hk.
  destruct (Hm _ _ Hk) as (-> & _). destruct (key_prefix dr) as [?|[?|?]]; tauto.
Qed.

Lemma record_entries_wf (m : KV DistributionRecord) :
  wf_records m -> Forall (fun kv => kv.1 = key_of kv.2 /\ DistributionRecord_Validate kv.2 = true) (record_entries m).
Proof.
  intros Hm. apply Forall_forall. intros [k dr] Hk%record_entries_listing; [|done]. destruct (Hm _ _ Hk) as (-> & Hv & _). done.
Qed.

Lemma GetRecords_eq (w : W) : GetRecords w = Ok (record_entries (records w)).*2.
Proof.
  assert (forall l : list DistributionRecord, filter (fun _ => true = true) l = l) as Hf.
  { induction l as [|x l IH]; [done|]. by rewrite filter_cons, decide_True, IH by done. }
  unfold GetRecords, over_statuses, select. simpl. rewrite !Hf. unfold record_entries. by rewrite !fmap_app.
Qed.

Lemma forallb_values {V} (f : V -> bool) (l : list (string * V)) :
  Forall (fun kv => f kv.2 = true) l -> forallb f l.*2 = true.
Proof. induction 1 as [|[k v] l Hv _ IH]; [done|]. rewrite fmap_cons. simpl in *. by rewrite Hv. Qed.

Lemma export_init (w w0 : W) :
  disp_ok w -> dw_store w0 = mkDispStore ∅ ∅ ∅ ->
  exists g, ExportGenesis w = Ok g /\ ValidateGenesis g = Ok tt
    /\ InitGenesis g w0 = (mkDispWorld (dw_store w) (dw_bank w0), Ok tt).
Proof.
  intros [Hm _ Hd Hc] E0. unfold ExportGenesis. rewrite GetRecords_eq. simpl. eexists. split; [done|].
  pose proof (record_entries_wf _ Hm) as Hr. pose proof (kv_prefix_Forall _ DistributionsPrefix _ Hd) as Hd'.
  pose proof (kv_prefix_Forall _ UserClaimPrefix _ Hc) as Hc'. split.
  - unfold ValidateGenesis. simpl. unfold GetDistributions, GetClaims.
    rewrite !forallb_values; [done|eapply Forall_impl; [eassumption|]; by intros ? []..].
  - unfold InitGenesis. cbn [G_DistributionRecords G_Distributions G_Claims from_option]. unfold id, GetDistributions, GetClaims.
    rewrite <- (list_fmap_id (record_entries _).*2), <- (list_fmap_id (kv_prefix DistributionsPrefix _).*2),
      <- (list_fmap_id (kv_prefix UserClaimPrefix _).*2). unfold mbnd.
    rewrite (mfor_entries id _ (fun f w => (upd_records f w).1)
      (fun k dr => k = key_of dr /\ DistributionRecord_Validate dr = true)); [|..|exact Hr].
    2: { intros k dr w1 [-> Hv]. unfold SetDistributionRecord, id. by rewrite Hv. } 2: { done. } 2: { by intros [[] ?]. }
    rewrite (mfor_entries id _ (fun f w => (upd_distributions f w).1)
      (fun k ar => k = dkey ar /\ Distribution_Validate ar = true)); [|..|exact Hd'].
    2: { intros k ar w1 [-> Hv]. unfold SetDistribution, id. by rewrite Hv. } 2: { done. } 2: { by intros [[] ?]. }
    rewrite (mfor_entries id _ (fun f w => (upd_claims f w).1)
      (fun k uc => k = ckey uc /\ UserClaim_Validate uc = true)); [|..|exact Hc'].
    2: { intros k uc w1 [-> Hv]. unfold SetClaim, id. by rewrite Hv. } 2: { done. } 2: { by intros [[] ?]. }
    destruct w0 as [st b]. simpl in E0. subst st. cbn.
    rewrite insert_listing with (m := records w), !insert_kv_prefix; [by destruct w as [[] ?]|..].
    + intros k uc Hk. destruct (Hc _ _ Hk) as [-> _]. apply prefix_app.
    + intros k ar Hk. destruct (Hd _ _ Hk) as [-> _]. apply prefix_app.
    + apply record_entries_NoDup.
    + intros k dr. by apply record_entries_listing.
Qed.

(** *** Reachable states *)

(** A message that passed its checks and whose handler succeeded (a failed one is
    rolled back), or activity of other modules that leaves this module's coins alone. *)
Inductive step (w : W) : W -> Prop :=
| step_msg ctx m m' w' : ValidateBasic m = Ok m' -> outside_signer m' -> Handler ctx m' w = (w', Ok tt) -> step w w'
| step_other b : (forall d, GetBalance (dw_bank w) GetDistributionModuleAddress d <= GetBalance b GetDistributionModuleAddress d) ->
    step w (mkDispWorld (dw_store w) b).
Inductive reachable : W -> Prop :=
| reach_start b : reachable (mkDispWorld (mkDispStore ∅ ∅ ∅) b)
| reach_step w w' : reachable w -> step w w' -> reachable w'.

Lemma reachable_ok w : reachable w -> disp_ok w.
Proof.
  induction 1 as [b|w w' _ IH [ctx m m' w1 Hv Hs Hr|b Hb]].
  - split; [done| |done|done]. intros d. apply GetBalance_nonneg.
  - by eapply disp_Handler_ok.
  - destruct IH as [Hm Hsol Hd Hc]. split; [done| |done|done]. intros d. etrans; [apply Hsol|apply Hb].
Qed.

(** *** User claims *)

Lemma ckey_inj a t a' t' : GetUserClaimKey a t = GetUserClaimKey a' t' -> a = a' /\ t = t'.
Proof.
  unfold GetUserClaimKey. intros E%(inj _). change (a +:+ String "_" (big_String t) = a' +:+ String "_" (big_String t')) in E.
  apply separated_inj in E as [-> E]; [|apply big_String_free..]. by apply big_String_inj in E as ->.
Qed.

Lemma CreateUserClaim_refused ctx a t uc (w : W) :
  d_claims (dw_store w) !! GetUserClaimKey a t = Some uc ->
  CreateUserClaim ctx (mkMsgCreateUserClaim a t) w = (w, Err ErrInvalid).
Proof. intros Hl. unfold CreateUserClaim, ExistsClaim, mgets, id, mbnd at 1. cbn. by rewrite Hl. Qed.

(** A claim that the outcomes removed belongs to a completed record of its owner and type. *)
Lemma claims_after_lost outs m a t uc :
  m !! GetUserClaimKey a t = Some uc ->
  fold_left claims_after outs m !! GetUserClaimKey a t = Some uc
  \/ fold_left claims_after outs m !! GetUserClaimKey a t = None
     /\ exists o, o ∈ outs /\ completed o = true /\ DoesTypeSupportClaim o.1 = true /\ DR_Recipient o.1 = a /\ DR_Type o.1 = t.
Proof.
  revert m. induction outs as [|o outs IH]; intros m Hm; [by left|]. cbn [fold_left].
  destruct (claims_after m o !! GetUserClaimKey a t) as [uc'|] eqn:E.
  - assert (uc' = uc) as -> by (apply (claims_after_sub m [o]) in E; congruence).
    destruct (IH _ E) as [?|(? & o' & ? & ?)]; [by left|right]. split; [done|]. exists o'. split; [by right|done].
  - right. split.
    + destruct (fold_left _ _ _ !! _) as [uc'|] eqn:E'; [|done]. apply claims_after_sub in E'. congruence.
    + exists o. split; [by left|]. unfold claims_after in E. destruct (completed o && DoesTypeSupportClaim o.1) eqn:Eb; [|congruence].
      apply andb_true_iff in Eb as [-> ->]. split_and!; try done;
        apply lookup_delete_None in E as [E|E]; try congruence; by apply ckey_inj in E as [? ?].
Qed.

Lemma claim_step (w w' : W) a t uc :
  disp_ok w -> step w w' -> d_claims (dw_store w) !! GetUserClaimKey a t = Some uc ->
  d_claims (dw_store w') !! GetUserClaimKey a t = Some uc
  \/ d_claims (dw_store w') !! GetUserClaimKey a t = None
     /\ exists dr h, stored (records w) dr /\ DR_Recipient dr = a /\ DR_Type dr = t /\ DoesTypeSupportClaim dr = true
          /\ settled_as (records w') dr DISTRIBUTION_STATUS_COMPLETED h.
Proof.
  intros [Hm Hsol _ _] [ctx m m' w1 Hv Hs Hr|b _] Hc; [|by left].
  destruct m as [m|m|m]; simpl in Hv; apply rbind_ok_inv in Hv as (m1 & Hv & [= <-]); simpl in Hr.
  - apply CreateDistribution_ok in Hr as (_ & _ & _ & _ & _ & Ec & _); [|done|by eapply ValidateBasic_outputs]. left. by rewrite Ec.
  - destruct m as [a' t']. destruct (decide (GetUserClaimKey a' t' = GetUserClaimKey a t)) as [[-> ->]%ckey_inj|Hne].
    + rewrite (CreateUserClaim_refused _ _ _ uc) in Hr by done. discriminate Hr.
    + left. unfold CreateUserClaim in Hr. get_step Hr. check_step Hr as Hex. lift_step Hr as uc' Huc.
      apply SetClaim_ok in Hr as [_ ->]. unfold NewUserClaim in Huc. apply rbind_ok_inv in Huc as (tp & _ & [= <-]). cbn.
      by rewrite lookup_insert_ne.
  - apply RunDistribution_ok in Hr as (outs & Eo & Hf & Hset & _ & _ & _ & _ & Ec & _); [|done..].
    rewrite Ec. destruct (claims_after_lost outs _ _ _ _ Hc) as [?|(? & o & Ho & Hcm & Hsup & Ha & Ht)]; [by left|right].
    split; [done|]. exists o.1, (BlockHeight ctx). unfold completed in Hcm. apply Z.eqb_eq in Hcm.
    destruct (due_prefix_stored m w Hm) as (Hst & _). rewrite <- Eo, Forall_forall in Hst.
    split_and!; try done; [apply Hst, list_elem_of_fmap; eauto|]. rewrite <- Hcm. by apply Hset.
Qed.

(** *** Runs until nothing is due *)

Definition run_all (msg : MsgRunDistribution) (ctxs : list Context) : M W unit := mfor ctxs (fun ctx => RunDistribution ctx msg).

Lemma due_keep_pending msg (w : W) dr : wf_records (records w) -> dr ∈ due_of msg w -> is_pending dr = true.
Proof. intros Hm [[_ ?] _]%due_stored; done. Qed.

Lemma run_all_ok msg ctxs (w : W) :
  module_registered -> disp_ok w -> (length (due_of msg w) <= 10 * length ctxs)%nat ->
  exists w', run_all msg ctxs w = (w', Ok tt) /\ due_of msg w' = []
    /\ (forall dr, dr ∈ due_of msg w -> exists h st, final (dr, st) /\ settled_as (records w') dr st h)
    /\ (forall dr st h, is_pending dr = true -> final (dr, st) -> settled_as (records w) dr st h -> settled_as (records w') dr st h).
Proof.
  intros Hreg. revert w. induction ctxs as [|ctx ctxs IH]; intros w Hok Hl.
  - exists w. assert (due_of msg w = []) as E by (apply nil_length_inv; simpl in Hl; lia).
    split_and!; [done|done| |done]. rewrite E. by intros dr []%not_elem_of_nil.
  - pose proof Hok as [Hm Hsol Hd Hc]. pose proof (run_ok _ _ _ (RunDistribution_total ctx msg w Hreg Hm Hsol)) as Hr.
    unfold run_all. cbn [mfor]. rewrite (mbnd_run _ _ _ _ _ Hr). fold (run_all msg ctxs).
    set (w1 := (RunDistribution ctx msg w).1) in *.
    destruct (RunDistribution_ok _ _ _ _ _ Hm Hsol Hr) as (outs & Eo & Hf & Hset & Hkeep & Hset0 & Hlen & _ & Ec & Ed & Hm1 & Hsol1).
    destruct (IH w1) as (w' & Hr' & Hn & Hall & Hset').
    { split; [done|done|by rewrite Ed|]. intros k uc Hk. rewrite Ec in Hk. by apply Hc, (claims_after_sub _ outs). }
    { simpl in Hl. lia. }
    exists w'. split_and!; [exact Hr'|done| |].
    + intros dr Hdr. pose proof (due_keep_pending _ _ _ Hm Hdr) as Hp.
      destruct (decide (key_of dr ∈ key_of <$> outs.*1)) as [Hin|Hni].
      * apply list_elem_of_fmap in Hin as (dr' & Ek & Hin). destruct (due_prefix_stored msg w Hm) as (Hst & _).
        rewrite <- Eo, Forall_forall in Hst. destruct (Hst _ Hin) as [Hl' _]. apply due_stored in Hdr as [[Hl0 _] _]; [|done].
        assert (dr' = dr) as -> by congruence. apply list_elem_of_fmap in Hin as ([dr0 st] & E & Hin). simpl in E. subst dr0.
        exists (BlockHeight ctx), st. assert (final (dr, st)) as Hfo by (rewrite Forall_forall in Hf; by apply Hf).
        split; [done|]. apply Hset'; [done..|]. by apply (Hset (dr, st)).
      * apply Hall, due_stored; [done|]. apply due_stored in Hdr as [Hs Hrun]; [|done]. split; [|done]. apply Hkeep; [done|].
        rewrite <- Eo. intros Hin. apply Hni. by apply list_elem_of_fmap_2.
    + intros dr st h Hp Hfd Hs. apply Hset'; [done..|]. by apply Hset0.
Qed.

(** ** Claims *)

(** In every reachable state the module account holds at least the coins of all the
    pending records and of all the records whose payment failed. *)
Theorem dispensation_solvent (w : W) d :
  reachable w -> liabilities (records w) d <= GetBalance (dw_bank w) GetDistributionModuleAddress d.
Proof. intros Hw. apply (ok_solvent _ (reachable_ok _ Hw)). Qed.

(** C24: a run settles the first ten records, in key order, that are pending for its
    distribution, type and runner, and no other record: each of them leaves the pending
    records and is stored as completed or failed, the balances change by the payments of
    the completed ones, their recipients' claims of a supporting type are removed, and the
    other pending records stay. *)
Theorem run_pays ctx msg (w w' : W) u :
  reachable w -> RunDistribution ctx msg w = (w', Ok u) ->
  exists outs : list outcome, outs.*1 = take 10 (due_of msg w) /\ Forall final outs
    /\ (forall o, o ∈ outs -> settled_as (records w') o.1 o.2 (BlockHeight ctx))
    /\ (forall dr, stored (records w) dr -> dr ∉ take 10 (due_of msg w) -> stored (records w') dr)
    /\ (forall x d, GetBalance (dw_bank w') x d = GetBalance (dw_bank w) x d + foldr (fun o acc => payment x d o + acc) 0 outs)
    /\ d_claims (dw_store w') = fold_left claims_after outs (d_claims (dw_store w))
    /\ d_distributions (dw_store w') = d_distributions (dw_store w).
Proof.
  intros [Hm Hsol _ _]%reachable_ok Hr.
  destruct (RunDistribution_ok _ _ _ _ _ Hm Hsol Hr) as (outs & ? & ? & ? & ? & _ & _ & ? & ? & ? & _). by exists outs.
Qed.

(** C25: runs always succeed, and one run for every ten due records settles them all: then
    nothing is due any more and every record that was due is stored as completed or
    failed, with the height of one of the runs. *)
Theorem distribution_completes msg ctxs (w : W) :
  module_registered -> reachable w -> (length (due_of msg w) <= 10 * length ctxs)%nat ->
  exists w', run_all msg ctxs w = (w', Ok tt) /\ due_of msg w' = []
    /\ forall dr, dr ∈ due_of msg w -> exists h st, final (dr, st) /\ settled_as (records w') dr st h.
Proof.
  intros Hreg Hok%reachable_ok Hl. destruct (run_all_ok msg ctxs w Hreg Hok Hl) as (w' & ? & ? & ? & _). by exists w'.
Qed.

(** A successful creation takes exactly the total of the outputs from the distributor
    to the module account, adds to what is pending for each recipient exactly its outputs,
    puts the pending records of all the recipients (also those an earlier distribution of
    the same block created) under the new runner, and changes no other record. *)
Theorem create_distribution_exact ctx msg msg' (w w' : W) u :
  reachable w -> MsgCreateDistribution_ValidateBasic msg = Ok msg' -> CreateDistribution ctx msg' w = (w', Ok u) ->
  let name := distribution_name ctx (Create_Distributor msg') in
  let t := Create_Type msg' in
  let total d := outputs_total d (Create_Output msg') in
  exists a, AccAddressFromBech32 (Create_Distributor msg') = Ok a
    /\ (forall d, total d <= GetBalance (dw_bank w) a d)
    /\ (forall x d, GetBalance (dw_bank w') x d = GetBalance (dw_bank w) x d
          - (if String.eqb x a then total d else 0) + (if String.eqb x GetDistributionModuleAddress then total d else 0))
    /\ (forall r d, pending_for (records w') name t r d = pending_for (records w) name t r d + outputs_to r d (Create_Output msg'))
    /\ (forall r, r ∈ Out_Address <$> Create_Output msg' ->
          exists cs, records w' !! pkey name t r = Some (drop_record ctx name t (Create_Runner msg') r cs))
    /\ (forall k, (forall r, r ∈ Out_Address <$> Create_Output msg' -> k <> pkey name t r) -> records w' !! k = records w !! k)
    /\ is_Some (d_distributions (dw_store w') !! GetDistributionsKey name t (Create_Runner msg'))
    /\ ExistsDistribution name t (Create_Runner msg') w = false.
Proof.
  intros [Hm _ _ _]%reachable_ok Hv Hr name t total.
  apply CreateDistribution_ok in Hr as (a & Ha & Hn & _ & Ed & _ & Hb & Hcov & _ & _ & Hp & Hi & Hk); [|done|by eapply ValidateBasic_outputs].
  exists a. split_and!; try done.
  - rewrite Ed. unfold dkey. cbn [D_Name D_Type D_Runner]. rewrite lookup_insert_eq. eauto.
  - apply bool_decide_false. unfold dkey in Hn. cbn [D_Name D_Type D_Runner] in Hn. fold name in Hn. fold t in Hn. rewrite Hn. by intros [? ?].
Qed.

(** While a user's claim of a type is registered, another one is refused without
    effect; a step of the module either keeps it or is a run that completed a record of
    that user and that type. *)
Theorem claim_until_paid (w w' : W) a t uc :
  reachable w -> step w w' -> d_claims (dw_store w) !! GetUserClaimKey a t = Some uc ->
  (forall ctx, CreateUserClaim ctx (mkMsgCreateUserClaim a t) w = (w, Err ErrInvalid))
  /\ (d_claims (dw_store w') !! GetUserClaimKey a t = Some uc
      \/ d_claims (dw_store w') !! GetUserClaimKey a t = None
        /\ exists dr h, stored (records w) dr /\ DR_Recipient dr = a /\ DR_Type dr = t /\ DoesTypeSupportClaim dr = true
             /\ settled_as (records w') dr DISTRIBUTION_STATUS_COMPLETED h).
Proof.
  intros Hok%reachable_ok Hs Hc. split; [intros ctx; by eapply CreateUserClaim_refused|by apply claim_step].
Qed.

(** The genesis state exported from a reachable state passes the genesis checks, and
    importing it into an empty store restores records, distributions and claims exactly. *)
Theorem dispensation_genesis_roundtrip (w w0 : W) :
  reachable w -> dw_store w0 = mkDispStore ∅ ∅ ∅ ->
  exists g, ExportGenesis w = Ok g /\ ValidateGenesis g = Ok tt
    /\ InitGenesis g w0 = (mkDispWorld (dw_store w) (dw_bank w0), Ok tt).
Proof. intros Hok%reachable_ok. by apply export_init. Qed.
End Lemmas.

(** ** Examples *)

Section Examples.
#[local] Existing Instances RefCoins RefAddress RefBank RefCoins_laws RefAddress_laws RefBank_laws.

(** Years 1 to 9999. *)
#[local] Instance RefGogoTypes : GogoTypes := {|
  TimestampProto t := if (-62135596800 <=? t.1) && (t.1 <? 253402300800) then Ok t else Err (PlainErr "timestamp")
|}.

Abbreviation ExWorld := (DispWorld RefB).
Definition ex_start : ExWorld := mkDispWorld (mkDispStore ∅ ∅ ∅) {[ ("alice", "rowan") := 100%N ]}.
Definition ex_ctx : Context := mkContext 7 (1600000000, 0).
Definition ex_claim : MsgCreateUserClaim := mkMsgCreateUserClaim "sif1bob" DISTRIBUTION_TYPE_LIQUIDITY_MINING.
Definition ex_create : MsgCreateDistribution :=
  mkMsgCreateDistribution "sif1alice" "sif1run" DISTRIBUTION_TYPE_LIQUIDITY_MINING
    [mkOutput "sif1bob" [mkCoin "rowan" 5]; mkOutput "sif1carol" [mkCoin "rowan" 7]; mkOutput "sif1bob" [mkCoin "rowan" 3]].
Definition ex_run : MsgRunDistribution := mkMsgRunDistribution "sif1run" "7_sif1alice" DISTRIBUTION_TYPE_LIQUIDITY_MINING.

Definition ex_claimed : ExWorld := (CreateUserClaim ex_ctx ex_claim ex_start).1.
Definition ex_created : ExWorld := (CreateDistribution ex_ctx ex_create ex_claimed).1.
Definition ex_paid : ExWorld := (RunDistribution ex_ctx ex_run ex_created).1.

Lemma ex_claimed_ok : CreateUserClaim ex_ctx ex_claim ex_start = (ex_claimed, Ok tt).
Proof. apply (run_ok (CreateUserClaim ex_ctx ex_claim) ex_start tt). by vm_compute. Qed.
Lemma ex_created_ok : CreateDistribution ex_ctx ex_create ex_claimed = (ex_created, Ok tt).
Proof. apply (run_ok (CreateDistribution ex_ctx ex_create) ex_claimed tt). by vm_compute. Qed.
Lemma ex_paid_ok : RunDistribution ex_ctx ex_run ex_created = (ex_paid, Ok tt).
Proof. apply (run_ok (RunDistribution ex_ctx ex_run) ex_created tt). by vm_compute. Qed.

Lemma ex_valid : MsgCreateDistribution_ValidateBasic ex_create = Ok ex_create.
Proof. by vm_compute. Qed.
Lemma ex_claimed_reachable : reachable ex_claimed.
Proof.
  eapply reach_step; [apply reach_start|]. apply (step_msg _ ex_ctx (CreateUserClaimMsg ex_claim) (CreateUserClaimMsg ex_claim)).
  - by vm_compute.
  - exists "bob". split; [by vm_compute|]. by vm_compute.
  - exact ex_claimed_ok.
Qed.
Lemma ex_created_reachable : reachable ex_created.
Proof.
  eapply reach_step; [exact ex_claimed_reachable|].
  apply (step_msg _ ex_ctx (CreateDistributionMsg ex_create) (CreateDistributionMsg ex_create)).
  - unfold ValidateBasic. by rewrite ex_valid.
  - exists "alice". split; [by vm_compute|]. by vm_compute.
  - exact ex_created_ok.
Qed.
Lemma ex_run_step : step ex_created ex_paid.
Proof.
  apply (step_msg _ ex_ctx (RunDistributionMsg ex_run) (RunDistributionMsg ex_run)).
  - by vm_compute.
  - exists "run". split; [by vm_compute|]. by vm_compute.
  - exact ex_paid_ok.
Qed.
Lemma ex_registered : module_registered (B := RefB).
Proof. intros to cs b. simpl. unfold ref_send, ref_run. by destruct (_ ≫= _). Qed.

Lemma ex_liabilities : liabilities (records ex_created) "rowan" = 15.
Proof. by vm_compute. Qed.
Lemma ex_due_length : length (due_of ex_run ex_created) = 2%nat.
Proof. by vm_compute. Qed.

Lemma dispensation_solvent_witness : 15 <= GetBalance (dw_bank ex_created) GetDistributionModuleAddress "rowan".
Proof.
  pose proof (dispensation_solvent ex_created "rowan" ex_created_reachable) as Hs. rewrite ex_liabilities in Hs. exact Hs.
Defined.

Lemma run_pays_witness :
  exists outs : list outcome, length outs = 2%nat /\ Forall (fun o => settled_as (records ex_paid) o.1 o.2 7) outs.
Proof.
  destruct (run_pays ex_ctx ex_run ex_created ex_paid tt ex_created_reachable ex_paid_ok) as (outs & Eo & _ & Hs & _).
  exists outs. split.
  - rewrite <- (length_fmap fst outs), Eo, length_take, ex_due_length. reflexivity.
  - apply Forall_forall. intros o Ho. apply (Hs o Ho).
Defined.

Lemma distribution_completes_witness : exists w', run_all ex_run [ex_ctx] ex_created = (w', Ok tt) /\ due_of ex_run w' = [].
Proof.
  destruct (distribution_completes ex_run [ex_ctx] ex_created ex_registered ex_created_reachable) as (w' & Hr & Hd & _).
  - rewrite ex_due_length. simpl. lia.
  - exists w'. split; [exact Hr|exact Hd].
Defined.

Lemma ex_outputs_bob : outputs_to "sif1bob" "rowan" (Create_Output ex_create) = 8.
Proof. by vm_compute. Qed.
Lemma create_distribution_exact_witness :
  let name := distribution_name ex_ctx (Create_Distributor ex_create) in
  pending_for (records ex_created) name (Create_Type ex_create) "sif1bob" "rowan"
  = pending_for (records ex_claimed) name (Create_Type ex_create) "sif1bob" "rowan" + 8.
Proof.
  destruct (create_distribution_exact ex_ctx ex_create ex_create ex_claimed ex_created tt ex_claimed_reachable ex_valid ex_created_ok)
    as (a & _ & _ & _ & Hp & _). cbv zeta. rewrite <- ex_outputs_bob. exact (Hp "sif1bob" "rowan").
Defined.

Lemma claim_until_paid_witness :
  CreateUserClaim ex_ctx ex_claim ex_created = (ex_created, Err ErrInvalid).
Proof.
  destruct (claim_until_paid ex_created ex_paid "sif1bob" DISTRIBUTION_TYPE_LIQUIDITY_MINING
    (mkUserClaim "sif1bob" DISTRIBUTION_TYPE_LIQUIDITY_MINING (Some (1600000000, 0))) ex_created_reachable ex_run_step) as [Href _].
  - by vm_compute.
  - exact (Href ex_ctx).
Defined.

Lemma dispensation_genesis_roundtrip_witness :
  exists g, ExportGenesis ex_created = Ok g /\ InitGenesis g ex_start = (mkDispWorld (dw_store ex_created) (dw_bank ex_start), Ok tt).
Proof.
  destruct (dispensation_genesis_roundtrip ex_created ex_start ex_created_reachable eq_refl) as (g & He & _ & Hi).
  exists g. split; [exact He|exact Hi].
Defined.

(** The payment removes bob's claim, and pays both outputs of bob at once. *)
Example ex_outcome :
  d_claims (dw_store ex_paid) = ∅ /\ GetBalance (dw_bank ex_paid) "bob" "rowan" = 8
  /\ GetBalance (dw_bank ex_paid) "carol" "rowan" = 7 /\ liabilities (records ex_paid) "rowan" = 0.
Proof. by vm_compute. Qed.

(** A second distribution of the same distributor in the same block, with another runner,
    takes over what the first runner was to pay: the first runner has nothing to run. *)
Definition ex_takeover : MsgCreateDistribution :=
  mkMsgCreateDistribution "sif1alice" "sif1other" DISTRIBUTION_TYPE_LIQUIDITY_MINING
    [mkOutput "sif1bob" [mkCoin "rowan" 1]; mkOutput "sif1carol" [mkCoin "rowan" 1]].
Example runner_replaced :
  due_of ex_run (CreateDistribution ex_ctx ex_takeover ex_created).1 = []
  /\ length (due_of (mkMsgRunDistribution "sif1other" "7_sif1alice" DISTRIBUTION_TYPE_LIQUIDITY_MINING)
       (CreateDistribution ex_ctx ex_takeover ex_created).1) = 2%nat.
Proof. by vm_compute. Qed.
End Examples.
End Dispensation.
