(* ===== verification/Sha256.v ===== *)
(** * crypto/sha256 of the Go standard library

    The hash of FIPS 180-4 on byte strings, with its words as integers below 2^32;
    x/ibctransfer derives its escrow addresses from it. *)

From Stdlib Require Import ZArith Lia Ascii String.
From stdpp Require Import base list strings.
From S2P Require Import Prelude.

Module Sha256.

Definition u32 (z : Z) : Z := z mod 2 ^ 32.
Definition rotr (n x : Z) : Z := Z.lor (Z.shiftr x n) (u32 (Z.shiftl x (32 - n))).

(** The first 32 bits of the fractional parts of the cube roots of the first 64 primes. *)
Definition round_constants : list Z := [
   1116352408; 1899447441; 3049323471; 3921009573; 961987163; 1508970993; 2453635748; 2870763221;
   3624381080; 310598401; 607225278; 1426881987; 1925078388; 2162078206; 2614888103; 3248222580;
   3835390401; 4022224774; 264347078; 604807628; 770255983; 1249150122; 1555081692; 1996064986;
   2554220882; 2821834349; 2952996808; 3210313671; 3336571891; 3584528711; 113926993; 338241895;
   666307205; 773529912; 1294757372; 1396182291; 1695183700; 1986661051; 2177026350; 2456956037;
   2730485921; 2820302411; 3259730800; 3345764771; 3516065817; 3600352804; 4094571909; 275423344;
   430227734; 506948616; 659060556; 883997877; 958139571; 1322822218; 1537002063; 1747873779;
   1955562222; 2024104815; 2227730452; 2361852424; 2428436474; 2756734187; 3204031479; 3329325298].
(** The same of the square roots of the first eight primes. *)
Definition initial_hash : list Z := [
   1779033703; 3144134277; 1013904242; 2773480762; 1359893119; 2600822924; 528734635; 1541459225].

Definition ch (x y z : Z) : Z := Z.lxor (Z.land x y) (Z.land (2 ^ 32 - 1 - x) z).
Definition maj (x y z : Z) : Z := Z.lxor (Z.land x y) (Z.lxor (Z.land x z) (Z.land y z)).
Definition big_sigma0 (x : Z) : Z := Z.lxor (rotr 2 x) (Z.lxor (rotr 13 x) (rotr 22 x)).
Definition big_sigma1 (x : Z) : Z := Z.lxor (rotr 6 x) (Z.lxor (rotr 11 x) (rotr 25 x)).
Definition small_sigma0 (x : Z) : Z := Z.lxor (rotr 7 x) (Z.lxor (rotr 18 x) (Z.shiftr x 3)).
Definition small_sigma1 (x : Z) : Z := Z.lxor (rotr 17 x) (Z.lxor (rotr 19 x) (Z.shiftr x 10)).

(** ** Bytes and words *)

Definition bytes_of (s : string) : list Z := (fun c => Z.of_N (N_of_ascii c)) <$> list_ascii_of_string s.
Definition string_of (l : list Z) : string := string_of_list_ascii ((fun b => ascii_of_N (Z.to_N b)) <$> l).

(** The [n] low bytes of a word, the most significant first. *)
Fixpoint big_endian (n : nat) (w : Z) : list Z :=
  match n with
  | O => []
  | S n' => (w / 256 ^ Z.of_nat n') mod 256 :: big_endian n' w
  end.

Fixpoint words (l : list Z) : list Z :=
  match l with
  | a :: b :: c :: d :: l' => ((a * 256 + b) * 256 + c) * 256 + d :: words l'
  | _ => []
  end.

Definition pad (l : list Z) : list Z :=
  let n := Z.of_nat (length l) in
  l ++ [128] ++ replicate (Z.to_nat ((55 - n) mod 64)) 0 ++ big_endian 8 (8 * n).

(** ** The compression function *)

(** The schedule, built backwards: the list holds the words so far, the newest first. *)
Fixpoint schedule (n : nat) (w : list Z) : list Z :=
  match n with
  | O => rev w
  | S n' =>
      schedule n' (u32 (small_sigma1 (nth 1 w 0) + nth 6 w 0 + small_sigma0 (nth 14 w 0) + nth 15 w 0) :: w)
  end.

Definition round (s : list Z) (kw : Z * Z) : list Z :=
  match s with
  | [a; b; c; d; e; f; g; h] =>
      let t1 := h + big_sigma1 e + ch e f g + kw.1 + kw.2 in
      let t2 := big_sigma0 a + maj a b c in
      [u32 (t1 + t2); a; b; c; u32 (d + t1); e; f; g]
  | _ => s
  end.
Definition compress (h block : list Z) : list Z :=
  zip_with (fun x y => u32 (x + y)) h (fold_left round (zip round_constants (schedule 48 (rev block))) h).

Fixpoint blocks (n : nat) (w : list Z) (h : list Z) : list Z :=
  match n with
  | O => h
  | S n' => blocks n' (drop 16 w) (compress h (take 16 w))
  end.

Definition Sum256 (data : string) : string :=
  let w := words (pad (bytes_of data)) in
  string_of (mjoin (big_endian 4 <$> blocks (length w / 16) w initial_hash)).

(** ** Test vectors *)

Example sha256_empty :
  bytes_of (Sum256 "") =
  [227; 176; 196; 66; 152; 252; 28; 20; 154; 251; 244; 200; 153; 111; 185; 36; 39; 174; 65; 228; 100; 155; 147; 76; 164; 149; 153; 27; 120; 82; 184; 85].
Proof. by vm_compute. Qed.
Example sha256_abc :
  bytes_of (Sum256 "abc") =
  [186; 120; 22; 191; 143; 1; 207; 234; 65; 65; 64; 222; 93; 174; 34; 35; 176; 3; 97; 163; 150; 23; 122; 156; 180; 16; 255; 97; 242; 0; 21; 173].
Proof. by vm_compute. Qed.
(** Two blocks. *)
Example sha256_two_blocks :
  bytes_of (Sum256 "abcdbcdecdefdefgefghfghighijhijkijkljklmklmnlmnomnopnopq") =
  [36; 141; 106; 97; 210; 6; 56; 184; 229; 192; 38; 147; 12; 62; 96; 57; 163; 60; 228; 89; 100; 255; 33; 103; 246; 236; 237; 212; 25; 219; 6; 193].
Proof. by vm_compute. Qed.

Lemma big_endian_length n w : length (big_endian n w) = n.
Proof. induction n as [|n IH]; simpl; [done|]. by rewrite IH. Qed.
End Sha256.
