(* ===== verification/IbcTransfer.v ===== *)
(** * x/ibctransfer: transfers over IBC, gated by the token registry

    A wrapper around the transfer module of ibc-go.  Outgoing transfers need a registry
    entry with the export permission that is no alias; incoming ones are received by
    ibc-go, admitted when they return home or the denomination may be imported, and
    converted to the entry's unit denomination when that has more decimals: the received
    coins are burnt and the unit coins come from the channel's escrow account. *)

From Stdlib Require Import ZArith Lia Ascii String.
From stdpp Require Import base list gmap strings.
From S2P Require Import Prelude SdkMath Sdk TokenRegistry Sha256 Json.

Module IbcTransfer.
Import TokenRegistry (TokenRegistryKeeper, TokenRegistryKeeperLaws, trk_GetRegistry, trk_GetEntry, trk_CheckEntryPermissions,
  trk_GetEntry_ok, trk_CheckEntryPermissions_ok, Registry, RegistryEntry, Entries, Denom, Decimals, UnitDenom, IbcCounterpartyDenom,
  Permissions, Permission_IBCEXPORT, Permission_IBCIMPORT, ErrPermissionDenied).

Definition ModuleName : string := "scibctransfer".
Definition Version : string := "ics20-sc.1".
Definition ErrConvertingToUnitDenom : GoError := RegisteredErr ModuleName 1.
Definition ErrConvertingToCounterpartyDenom : GoError := RegisteredErr ModuleName 2.
Definition ErrAmountTooLowToConvert : GoError := RegisteredErr ModuleName 3.
Definition ErrAmountTooLargeToSend : GoError := RegisteredErr ModuleName 4.
Definition ErrInvalidCoins : GoError := RegisteredErr "sdk" 10.

(** The escrow address of a channel: 20 bytes of a hash. *)
Definition GetEscrowAddress (portID channelID : string) : string :=
  substring 0 20 (Sha256.Sum256 (Version +:+ byte1 0 +:+ portID +:+ "/" +:+ channelID)).

(** ** Data of ibc-go *)

Record Packet := mkPacket {
  SourcePort : string;
  SourceChannel : string;
  DestPort : string;
  DestChannel : string;
  Data : string;
}.
Record FungibleTokenPacketData := mkPacketData {
  PD_Denom : string;
  PD_Amount : string;
  PD_Sender : string;
  PD_Receiver : string;
}.
Record DenomTrace := mkDenomTrace { Trace_Path : string; Trace_BaseDenom : string }.
Record MsgTransfer := mkMsgTransfer {
  Tr_SourcePort : string;
  Tr_SourceChannel : string;
  Tr_Token : Coin;
  Tr_Sender : string;
  Tr_Receiver : string;
}.
Inductive Acknowledgement := ErrorAck (e : GoError) | ResultAck (result : string).

(** The functions of ibc-go the module calls. *)
Class IbcTypes := {
  UnmarshalPacketData : string -> res FungibleTokenPacketData;
  ReceiverChainIsSource : string -> string -> string -> bool;
  GetDenomPrefix : string -> string -> string;
  ParseDenomTrace : string -> DenomTrace;
  IBCDenom : DenomTrace -> string;
}.
(** A voucher returns home when its denomination starts with the channel's prefix. *)
Class IbcTypesLaws `{IbcTypes} : Prop := {
  ReceiverChainIsSource_prefix port channel denom :
    ReceiverChainIsSource port channel denom = String.prefix (GetDenomPrefix port channel) denom;
}.

(** The keeper of ibc-go's transfer module works on the bank and on its own state [T]. *)
Class SDKTransferKeeper (B T : Type) := {
  tk_OnRecvPacket : Packet -> FungibleTokenPacketData -> M (B * T) unit;
  tk_Transfer : MsgTransfer -> M (B * T) unit;
}.

Record IbcWorld (B R T : Type) := mkIbcWorld { iw_bank : B; iw_registry : R; iw_transfer : T }.
Arguments mkIbcWorld {_ _ _} _ _ _.
Arguments iw_bank {_ _ _} _.
Arguments iw_registry {_ _ _} _.
Arguments iw_transfer {_ _ _} _.

(** ** Amounts *)

Section Amounts.
Context `{SdkMath}.

Definition IncreasePrecision (dec po : Z) : res Z :=
  let! p := Dec_Power (NewDec 10) po in Dec_MulTruncate dec p.
Definition ReducePrecision (dec po : Z) : res Z :=
  let! p := Dec_Power (NewDec 10) po in Dec_QuoTruncate dec p.

Definition ConvertIncomingCoins (amount : string) (diff : Z) : res Z :=
  match NewIntFromString amount with
  | None => Err (PlainErr "Failed to convert to int from string")
  | Some intAmount =>
      let! d := IncreasePrecision (NewDecFromBigInt intAmount) diff in NewIntFromBigInt (Dec_TruncateInt d)
  end.

(** The coins taken from the sender and the coins sent in their place. *)
Definition ConvertCoinsForTransfer `{SdkCoins} (msg : MsgTransfer) (sendRegistryEntry sendAsRegistryEntry : RegistryEntry) : res (Coin * Coin) :=
  let po := u64 (i64 (Decimals sendRegistryEntry - Decimals sendAsRegistryEntry)) in
  let decAmount := NewDecFromBigInt (Coin_Amount (Tr_Token msg)) in
  let! convAmountDec := ReducePrecision decAmount po in
  let! convAmount := NewIntFromBigInt (Dec_TruncateInt convAmountDec) in
  let! convToken := NewCoin (IbcCounterpartyDenom sendRegistryEntry) convAmount in
  let! tokenAmountDec := IncreasePrecision (NewDecFromBigInt convAmount) po in
  let! tokenAmount := NewIntFromBigInt (Dec_TruncateInt tokenAmountDec) in
  let! token := NewCoin (Coin_Denom (Tr_Token msg)) tokenAmount in
  Ok (token, convToken).
End Amounts.

Section Module_.
Context {B R T : Type} `{SdkMath, SdkCoins, SdkAddress, IbcTypes, BankKeeper B, TokenRegistryKeeper R, SDKTransferKeeper B T}.
Abbreviation IM := (M (IbcWorld B R T)).

Definition on_bank {A} (m : M B A) : IM A :=
  fun w => match m (iw_bank w) with (b, r) => (mkIbcWorld b (iw_registry w) (iw_transfer w), r) end.
Definition on_transfer {A} (m : M (B * T) A) : IM A :=
  fun w => match m (iw_bank w, iw_transfer w) with (bt, r) => (mkIbcWorld bt.1 (iw_registry w) bt.2, r) end.

(** ** Outgoing transfers *)

Definition Transfer (msg : MsgTransfer) : IM unit :=
  do! w <- mgets id;
  let registry := trk_GetRegistry (iw_registry w) in
  do! registryEntry <- mlift (rwrap ErrPermissionDenied (trk_GetEntry registry (Coin_Denom (Tr_Token msg))));
  run! mfail_if (negb (String.eqb (UnitDenom registryEntry) "") && negb (String.eqb (UnitDenom registryEntry) (Denom registryEntry)))
         ErrPermissionDenied;
  run! mfail_if (negb (trk_CheckEntryPermissions registryEntry [Permission_IBCEXPORT])) ErrPermissionDenied;
  run! mfail_if (Coin_Amount (Tr_Token msg) <=? 0) ErrAmountTooLowToConvert;
  on_transfer (tk_Transfer msg).

Definition PrepareToSendConvertedCoins (msg : MsgTransfer) (token convToken : Coin) : IM unit :=
  do! sender <- mlift (AccAddressFromBech32 (Tr_Sender msg));
  let escrowAddress := GetEscrowAddress (Tr_SourcePort msg) (Tr_SourceChannel msg) in
  do! coins <- mlift (NewCoins [token]);
  run! on_bank (SendCoins sender escrowAddress coins);
  do! convCoins <- mlift (NewCoins [convToken]);
  run! on_bank (MintCoins ModuleName convCoins);
  on_bank (SendCoinsFromModuleToAccount ModuleName sender convCoins).

(** ** Incoming packets *)

Definition IsRecvPacketAllowed (packet : Packet) (data : FungibleTokenPacketData) (mintedDenomEntry : RegistryEntry) : bool :=
  if ReceiverChainIsSource (SourcePort packet) (SourceChannel packet) (PD_Denom data) then true
  else trk_CheckEntryPermissions mintedDenomEntry [Permission_IBCIMPORT].

(** [s[n:]], which panics beyond the end. *)
Definition slice_from (n : nat) (s : string) : res string := if (n <=? String.length s)%nat then Ok (str_drop n s) else Panic.

Definition GetMintedDenomFromPacket (packet : Packet) (data : FungibleTokenPacketData) : res string :=
  if ReceiverChainIsSource (SourcePort packet) (SourceChannel packet) (PD_Denom data) then
    let! denom := slice_from (String.length (GetDenomPrefix (SourcePort packet) (SourceChannel packet))) (PD_Denom data) in
    let denomTrace := ParseDenomTrace denom in
    if negb (String.eqb (Trace_Path denomTrace) "") then Ok (IBCDenom denomTrace) else Ok denom
  else Ok (IBCDenom (ParseDenomTrace (GetDenomPrefix (DestPort packet) (DestChannel packet) +:+ PD_Denom data))).

Definition ExecConvForIncomingCoins (mintedDenomEntry convertToDenomEntry : RegistryEntry) (packet : Packet)
    (data : FungibleTokenPacketData) : IM unit :=
  do! receiver <- mlift (AccAddressFromBech32 (PD_Receiver data));
  match NewIntFromString (PD_Amount data) with
  | None => mthrow (PlainErr "Unable to get string amount")
  | Some amount =>
      do! coin <- mlift (NewCoin (Denom mintedDenomEntry) amount);
      do! incomingCoins <- mlift (NewCoins [coin]);
      run! on_bank (SendCoinsFromAccountToModule receiver ModuleName incomingCoins);
      run! on_bank (BurnCoins ModuleName incomingCoins);
      do! coin <- mlift (NewCoin (Denom convertToDenomEntry) amount);
      do! finalCoins <- mlift (NewCoins [coin]);
      do! finalCoins <-
        (if Decimals mintedDenomEntry <? Decimals convertToDenomEntry then
           let diff := u64 (i64 (Decimals convertToDenomEntry - Decimals mintedDenomEntry)) in
           do! convAmount <- mlift (ConvertIncomingCoins (PD_Amount data) diff);
           do! coin <- mlift (NewCoin (Denom convertToDenomEntry) convAmount);
           mlift (NewCoins [coin])
         else mret finalCoins);
      let escrowAddress := GetEscrowAddress (DestPort packet) (DestChannel packet) in
      on_bank (SendCoins escrowAddress receiver finalCoins)
  end.

Definition needs_conversion (mintedDenomEntry convertToDenomEntry : RegistryEntry) : bool :=
  (0 <? Decimals convertToDenomEntry) && (0 <? Decimals mintedDenomEntry)
  && (Decimals mintedDenomEntry <? Decimals convertToDenomEntry).

Definition OnRecvPacketWhitelistConvert (packet : Packet) : IM Acknowledgement :=
  match UnmarshalPacketData (Data packet) with
  | Panic => mpanic
  | Err e => mret (ErrorAck e)
  | Ok data =>
      do! received <- mtry (on_transfer (tk_OnRecvPacket packet data));
      match received with
      | inr e => mret (ErrorAck e)
      | inl _ =>
          do! mintedDenom <- mlift (GetMintedDenomFromPacket packet data);
          do! w <- mgets id;
          let registry := trk_GetRegistry (iw_registry w) in
          match trk_GetEntry registry mintedDenom with
          | Panic => mpanic
          | Err _ => mret (ErrorAck ErrInvalidCoins)
          | Ok mintedDenomEntry =>
              if negb (IsRecvPacketAllowed packet data mintedDenomEntry) then mret (ErrorAck ErrInvalidCoins)
              else
                match trk_GetEntry registry (UnitDenom mintedDenomEntry) with
                | Panic => mpanic
                | Err _ => mret (ResultAck (byte1 1))
                | Ok convertToDenomEntry =>
                    if needs_conversion mintedDenomEntry convertToDenomEntry then
                      do! converted <- mtry (ExecConvForIncomingCoins mintedDenomEntry convertToDenomEntry packet data);
                      match converted with
                      | inr _ => mret (ErrorAck ErrConvertingToUnitDenom)
                      | inl _ => mret (ResultAck (byte1 1))
                      end
                    else mret (ResultAck (byte1 1))
                end
          end
      end
  end.

(** ** The module's callbacks *)

(** The callbacks of ibc-go's transfer module that are passed on; [T] holds its channels. *)
Class TransferModule := {
  tm_NegotiateAppVersion : Z -> string -> string -> string * string -> string -> M (B * T) string;
  tm_OnChanOpenInit : Z -> list string -> string -> string -> string * string -> string -> M (B * T) unit;
  tm_OnChanOpenTry : Z -> list string -> string -> string -> string * string -> string -> string -> M (B * T) unit;
  tm_OnChanOpenAck : string -> string -> string -> M (B * T) unit;
  tm_OnChanOpenConfirm : string -> string -> M (B * T) unit;
  tm_OnChanCloseInit : string -> string -> M (B * T) unit;
  tm_OnChanCloseConfirm : string -> string -> M (B * T) unit;
  tm_OnAcknowledgementPacket : Packet -> string -> string -> M (B * T) unit;
  tm_OnTimeoutPacket : Packet -> string -> M (B * T) unit;
}.
Context {transfer_module : TransferModule}.

Definition NegotiateAppVersion (order : Z) (connectionID portID : string) (counterparty : string * string) (proposedVersion : string) : IM string :=
  on_transfer (tm_NegotiateAppVersion order connectionID portID counterparty proposedVersion).
Definition OnChanOpenInit (order : Z) (connectionHops : list string) (portID channelID : string) (counterparty : string * string)
    (version : string) : IM unit :=
  on_transfer (tm_OnChanOpenInit order connectionHops portID channelID counterparty version).
Definition OnChanOpenTry (order : Z) (connectionHops : list string) (portID channelID : string) (counterparty : string * string)
    (version counterpartyVersion : string) : IM unit :=
  on_transfer (tm_OnChanOpenTry order connectionHops portID channelID counterparty version counterpartyVersion).
Definition OnChanOpenAck (portID channelID counterpartyVersion : string) : IM unit :=
  on_transfer (tm_OnChanOpenAck portID channelID counterpartyVersion).
Definition OnChanOpenConfirm (portID channelID : string) : IM unit := on_transfer (tm_OnChanOpenConfirm portID channelID).
Definition OnChanCloseInit (portID channelID : string) : IM unit := on_transfer (tm_OnChanCloseInit portID channelID).
(** The callback of the other handshake. *)
Definition OnChanCloseConfirm (portID channelID : string) : IM unit := on_transfer (tm_OnChanOpenConfirm portID channelID).
(** The relayer's account is not looked at. *)
Definition AppModule_OnRecvPacket (packet : Packet) (relayer : string) : IM Acknowledgement := OnRecvPacketWhitelistConvert packet.
Definition OnAcknowledgementPacket (packet : Packet) (acknowledgement relayer : string) : IM unit :=
  on_transfer (tm_OnAcknowledgementPacket packet acknowledgement relayer).
Definition OnTimeoutPacket (packet : Packet) (relayer : string) : IM unit := on_transfer (tm_OnTimeoutPacket packet relayer).
End Module_.

(** ** Lemmas *)

Section Lemmas.
Context {B R T : Type} `{SdkMathLaws, SdkCoinsLaws, SdkAddressLaws, IbcTypesLaws, !BankKeeper B, !BankLaws B,
  !TokenRegistryKeeper R, !TokenRegistryKeeperLaws R, !SDKTransferKeeper B T}.
Abbreviation W := (IbcWorld B R T).

Definition set_bank (w : W) (b : B) : W := mkIbcWorld b (iw_registry w) (iw_transfer w).

Lemma ibc_bank_ok {A} (m : M B A) (w w' : W) r :
  on_bank m w = (w', r) -> exists b', m (iw_bank w) = (b', r) /\ w' = set_bank w b'.
Proof. unfold on_bank, set_bank. destruct (m (iw_bank w)) as [b r']. intros [= <- <-]. eauto. Qed.

(** Scaling up is exact. *)
Lemma ConvertIncomingCoins_ok text diff a c :
  NewIntFromString text = Some a -> 0 <= a -> 0 <= diff -> ConvertIncomingCoins text diff = Ok c -> c = a * 10 ^ diff.
Proof.
  unfold ConvertIncomingCoins, IncreasePrecision, NewDec. intros -> Ha Hd Hc.
  apply rbind_ok_inv in Hc as (d & Hp & Hc). apply rbind_ok_inv in Hp as (p & Hp & Hm).
  rewrite NewDecFromBigInt_eq in Hp. apply Dec_Power_ok in Hp as ->; [|done]. rewrite NewDecFromBigInt_eq in Hm.
  pose proof prec_pos. assert (0 < 10 ^ diff) by (apply Z.pow_pos_nonneg; lia).
  apply Dec_MulTruncate_ok in Hm as ->; [|nia..]. apply NewIntFromBigInt_ok in Hc as ->.
  replace (a * prec * (10 ^ diff * prec) / prec) with (a * 10 ^ diff * prec).
  - rewrite Dec_TruncateInt_eq by nia. apply Z.div_mul. lia.
  - replace (a * prec * (10 ^ diff * prec)) with ((a * 10 ^ diff * prec) * prec) by ring. symmetry. apply Z.div_mul. lia.
Qed.

(** The coin list of one coin. *)
Lemma one_coin d a c cs x : NewCoin d a = Ok c -> NewCoins [c] = Ok cs ->
  0 <= a /\ AmountOf cs x = if String.eqb d x then a else 0.
Proof.
  intros (-> & Ha & _)%NewCoin_ok [Hcs _]%NewCoins_ok. split; [done|]. rewrite Hcs. simpl. lia.
Qed.

Definition int64 (z : Z) : Prop := - 2 ^ 63 <= z < 2 ^ 63.
Lemma decimals_difference a b : int64 a -> int64 b -> 0 < b < a -> u64 (i64 (a - b)) = a - b.
Proof. unfold int64, u64, i64. intros Ha Hb Hlt. rewrite (Z.mod_small (a - b + 2 ^ 63)) by lia. rewrite Z.mod_small; lia. Qed.

(** What the conversion of a received amount does to the balances. *)
Lemma ExecConv_ok e c packet data (w w' : W) u :
  int64 (Decimals e) -> int64 (Decimals c) -> needs_conversion e c = true ->
  ExecConvForIncomingCoins e c packet data w = (w', Ok u) ->
  exists receiver amount, AccAddressFromBech32 (PD_Receiver data) = Ok receiver
    /\ NewIntFromString (PD_Amount data) = Some amount /\ 0 <= amount
    /\ iw_registry w' = iw_registry w /\ iw_transfer w' = iw_transfer w
    /\ forall a d, GetBalance (iw_bank w') a d = GetBalance (iw_bank w) a d
         - (if String.eqb a receiver && String.eqb (Denom e) d then amount else 0)
         + (if String.eqb (Denom c) d then
              (if String.eqb a receiver then amount * 10 ^ (Decimals c - Decimals e) else 0)
              - (if String.eqb a (GetEscrowAddress (DestPort packet) (DestChannel packet)) then amount * 10 ^ (Decimals c - Decimals e) else 0)
            else 0).
Proof.
  intros He Hc Hn Hr. unfold needs_conversion in Hn. apply andb_true_iff in Hn as [Hn Hlt].
  apply andb_true_iff in Hn as [Hc0 He0]. unfold ExecConvForIncomingCoins in Hr.
  lift_step Hr as receiver Hrec. destruct (NewIntFromString (PD_Amount data)) as [amount|] eqn:Ea; [|done].
  lift_step Hr as ci Hci. lift_step Hr as incoming Hin. run_step Hr as u1 w1 Hs. apply ibc_bank_ok in Hs as (b1 & Hs & ->).
  apply SendCoinsFromAccountToModule_ok in Hs as [Hmv _]. run_step Hr as u2 w2 Hb. apply ibc_bank_ok in Hb as (b2 & Hb & ->).
  apply BurnCoins_ok in Hb as [Hburn _]. lift_step Hr as cf0 Hcf0. lift_step Hr as final0 Hf0. rewrite Hlt in Hr.
  run_step Hr as final w3 Hconv. lift_step Hconv as conv Hcv. lift_step Hconv as cf Hcf. apply mlift_ok_inv in Hconv as [-> Hfin].
  apply ibc_bank_ok in Hr as (b3 & Hsend & ->). apply SendCoins_ok in Hsend as [Hmv2 _]. cbn [set_bank iw_bank iw_registry iw_transfer] in *.
  apply Z.ltb_lt in Hc0, He0, Hlt. rewrite (decimals_difference (Decimals c) (Decimals e)) in Hcv by (done || lia).
  destruct (one_coin _ _ _ _ (Denom e) Hci Hin) as [Hpos _]. apply (ConvertIncomingCoins_ok _ _ amount) in Hcv as ->; [|done|done|lia].
  exists receiver, amount. split_and!; [done..|]. intros a d. rewrite (Hmv2 a d), (Hburn a d), (Hmv a d).
  destruct (one_coin _ _ _ _ d Hci Hin) as [_ ->]. destruct (one_coin _ _ _ _ d Hcf Hfin) as [_ ->].
  destruct (String.eqb_spec a receiver), (String.eqb_spec a (GetEscrowAddress (DestPort packet) (DestChannel packet))),
    (String.eqb (Denom e) d), (String.eqb (Denom c) d); repeat case_decide; simpl; (congruence || lia).
Qed.

Definition int64_registry (r : Registry) : Prop := forall e, Some e ∈ Entries r -> int64 (Decimals e).

(** The conversion of the entry an incoming packet is credited under, if there is one. *)
Definition conversion (r : Registry) (e : RegistryEntry) : option RegistryEntry :=
  match trk_GetEntry r (UnitDenom e) with
  | Ok c => if needs_conversion e c then Some c else None
  | _ => None
  end.

(** A packet that is acknowledged with success: what ibc-go did, and the conversion after it. *)
Lemma OnRecv_received packet (w w' : W) ack :
  OnRecvPacketWhitelistConvert packet w = (w', Ok (ResultAck ack)) ->
  exists data b1 t1 denom e, UnmarshalPacketData (Data packet) = Ok data
    /\ tk_OnRecvPacket packet data (iw_bank w, iw_transfer w) = ((b1, t1), Ok tt)
    /\ GetMintedDenomFromPacket packet data = Ok denom
    /\ trk_GetEntry (trk_GetRegistry (iw_registry w)) denom = Ok e
    /\ IsRecvPacketAllowed packet data e = true
    /\ let received := mkIbcWorld b1 (iw_registry w) t1 in
       match conversion (trk_GetRegistry (iw_registry w)) e with
       | None => w' = received
       | Some c => needs_conversion e c = true /\ trk_GetEntry (trk_GetRegistry (iw_registry w)) (UnitDenom e) = Ok c
           /\ ExecConvForIncomingCoins e c packet data received = (w', Ok tt)
       end.
Proof.
  intros Hr. unfold OnRecvPacketWhitelistConvert in Hr. destruct (UnmarshalPacketData (Data packet)) as [data|e0|] eqn:Ed; [|done..].
  run_step Hr as received w1 Hk. apply mtry_ok_inv in Hk as [([] & -> & Hk)|(e0 & -> & Hk)]; [|done].
  unfold on_transfer in Hk. destruct (tk_OnRecvPacket packet data (iw_bank w, iw_transfer w)) as [[b1 t1] rk] eqn:Ek.
  injection Hk as <- ->. lift_step Hr as denom Hden. get_step Hr. cbn [iw_registry fst snd] in Hr.
  destruct (trk_GetEntry (trk_GetRegistry (iw_registry w)) denom) as [e|e0|] eqn:Ee; [|done..].
  destruct (IsRecvPacketAllowed packet data e) eqn:Eal; [|done]. cbn [negb] in Hr.
  exists data, b1, t1, denom, e. do 5 (split; [done|]). cbv zeta.
  unfold conversion. destruct (trk_GetEntry _ (UnitDenom e)) as [c|e0|] eqn:Ec; [|by apply mret_ok_inv in Hr as [-> _]|done].
  destruct (needs_conversion e c) eqn:En; [|by apply mret_ok_inv in Hr as [-> _]]. run_step Hr as cv w2 Hc.
  apply mtry_ok_inv in Hc as [([] & -> & Hc)|(e0 & -> & Hc)]; [|done]. by apply mret_ok_inv in Hr as [-> _].
Qed.

Lemma OnRecv_ok packet (w w' : W) ack :
  int64_registry (trk_GetRegistry (iw_registry w)) ->
  OnRecvPacketWhitelistConvert packet w = (w', Ok (ResultAck ack)) ->
  exists data b1 t1 denom e, UnmarshalPacketData (Data packet) = Ok data
    /\ tk_OnRecvPacket packet data (iw_bank w, iw_transfer w) = ((b1, t1), Ok tt)
    /\ GetMintedDenomFromPacket packet data = Ok denom
    /\ trk_GetEntry (trk_GetRegistry (iw_registry w)) denom = Ok e
    /\ (ReceiverChainIsSource (SourcePort packet) (SourceChannel packet) (PD_Denom data) = true \/ Permission_IBCIMPORT ∈ Permissions e)
    /\ iw_registry w' = iw_registry w /\ iw_transfer w' = t1
    /\ match conversion (trk_GetRegistry (iw_registry w)) e with
       | None => iw_bank w' = b1
       | Some c => exists receiver amount, AccAddressFromBech32 (PD_Receiver data) = Ok receiver
           /\ NewIntFromString (PD_Amount data) = Some amount /\ 0 <= amount
           /\ forall a d, GetBalance (iw_bank w') a d = GetBalance b1 a d
                - (if String.eqb a receiver && String.eqb (Denom e) d then amount else 0)
                + (if String.eqb (Denom c) d then
                     (if String.eqb a receiver then amount * 10 ^ (Decimals c - Decimals e) else 0)
                     - (if String.eqb a (GetEscrowAddress (DestPort packet) (DestChannel packet))
                        then amount * 10 ^ (Decimals c - Decimals e) else 0)
                   else 0)
       end.
Proof.
  intros Hint (data & b1 & t1 & denom & e & ? & ? & ? & He & Hal & Hr)%OnRecv_received.
  exists data, b1, t1, denom, e. do 4 (split; [done|]). split.
  { unfold IsRecvPacketAllowed in Hal. destruct (ReceiverChainIsSource _ _ _); [by left|right].
    apply trk_CheckEntryPermissions_ok in Hal. apply Hal. by left. }
  cbv zeta in Hr. destruct (conversion _ _) as [c|]; [|by subst w']. destruct Hr as (Hn & Hc & Hr).
  apply ExecConv_ok in Hr as (receiver & amount & ? & ? & ? & Hreg & Htr & Hbal); [|eapply Hint, trk_GetEntry_ok; eassumption..|done].
  split_and!; [done..|]. by exists receiver, amount.
Qed.

(** Scaling an outgoing amount down and up again. *)
Lemma ConvertCoins_ok msg s a token conv :
  0 <= Coin_Amount (Tr_Token msg) -> ConvertCoinsForTransfer msg s a = Ok (token, conv) ->
  let po := u64 (i64 (Decimals s - Decimals a)) in
  let amount := Coin_Amount (Tr_Token msg) in
  Coin_Denom token = Coin_Denom (Tr_Token msg) /\ Coin_Denom conv = IbcCounterpartyDenom s
  /\ Coin_Amount conv = amount / 10 ^ po /\ Coin_Amount token = amount - amount mod 10 ^ po.
Proof.
  intros Hpos Hc po amount. fold amount in Hpos. unfold ConvertCoinsForTransfer in Hc. cbv zeta in Hc. fold po amount in Hc.
  assert (0 <= po) as Hpo by (apply Z.mod_pos_bound; lia). assert (0 < 10 ^ po) by (apply Z.pow_pos_nonneg; lia).
  pose proof prec_pos. unfold ReducePrecision, IncreasePrecision, NewDec in Hc. rewrite !NewDecFromBigInt_eq in Hc.
  apply rbind_ok_inv in Hc as (d1 & Hd1 & Hc). apply rbind_ok_inv in Hd1 as (p & Hp & Hd1). apply Dec_Power_ok in Hp as ->; [|done].
  apply Dec_QuoTruncate_ok in Hd1 as ->; [|nia..].
  rewrite Z.div_mul_cancel_r, Dec_TruncateInt_eq, Z.div_div, Z.div_mul_cancel_r in Hc by (lia || (apply Z.div_pos; nia)).
  apply rbind_ok_inv in Hc as (cv & Hcv & Hc). apply NewIntFromBigInt_ok in Hcv as ->.
  apply rbind_ok_inv in Hc as (ct & Hct & Hc). apply NewCoin_ok in Hct as (-> & Hq & _).
  apply rbind_ok_inv in Hc as (d2 & Hd2 & Hc). apply rbind_ok_inv in Hd2 as (p & Hp & Hd2). apply Dec_Power_ok in Hp as ->; [|done].
  rewrite NewDecFromBigInt_eq in Hd2. apply Dec_MulTruncate_ok in Hd2 as ->; [|nia..].
  replace (amount / 10 ^ po * prec * (10 ^ po * prec) / prec) with (amount / 10 ^ po * 10 ^ po * prec) in Hc
    by (replace (amount / 10 ^ po * prec * (10 ^ po * prec)) with ((amount / 10 ^ po * 10 ^ po * prec) * prec) by ring; symmetry; apply Z.div_mul; lia).
  rewrite Dec_TruncateInt_eq, Z.div_mul in Hc by nia.
  apply rbind_ok_inv in Hc as (tv & Htv & Hc). apply NewIntFromBigInt_ok in Htv as ->.
  apply rbind_ok_inv in Hc as (tt_ & Htt & Hc). apply NewCoin_ok in Htt as (-> & _ & _). injection Hc as <- <-.
  cbn [Coin_Denom Coin_Amount]. split_and!; try done. pose proof (Z.div_mod amount (10 ^ po)). lia.
Qed.

(** What is sent converts back to exactly what was taken. *)
Lemma convert_back msg s a token conv c :
  0 <= Coin_Amount (Tr_Token msg) -> ConvertCoinsForTransfer msg s a = Ok (token, conv) ->
  ConvertIncomingCoins (big_String (Coin_Amount conv)) (u64 (i64 (Decimals s - Decimals a))) = Ok c -> c = Coin_Amount token.
Proof.
  intros Hpos Hcc Hc. apply ConvertCoins_ok in Hcc as (_ & _ & Hconv & Htok); [|done].
  set (po := u64 (i64 (Decimals s - Decimals a))) in *. assert (0 <= po) as Hpo by (apply Z.mod_pos_bound; lia).
  assert (0 < 10 ^ po) by (apply Z.pow_pos_nonneg; lia). assert (0 <= Coin_Amount conv) by (rewrite Hconv; by apply Z.div_pos).
  destruct (NewIntFromString (big_String (Coin_Amount conv))) as [z|] eqn:Ez; [|by unfold ConvertIncomingCoins in Hc; rewrite Ez in Hc].
  pose proof (NewIntFromString_ok _ _ Ez) as ->. rewrite (ConvertIncomingCoins_ok _ po _ c Ez) by done.
  rewrite Hconv, Htok. pose proof (Z.div_mod (Coin_Amount (Tr_Token msg)) (10 ^ po)). lia.
Qed.
End Lemmas.

Section Claims.
Context {B R T : Type} `{SdkMathLaws, SdkCoinsLaws, SdkAddressLaws, IbcTypesLaws, !BankKeeper B, !BankLaws B,
  !TokenRegistryKeeper R, !TokenRegistryKeeperLaws R, !SDKTransferKeeper B T}.

(** C26: A packet acknowledged with success was received by ibc-go, its denomination is
    registered, and it returned home or may be imported.  If the entry's unit denomination
    is registered with more decimals, the receiver's balances end as after ibc-go's receipt,
    less the amount in the received denomination, plus the amount times ten to the difference
    of the decimals in the unit denomination, which the channel's escrow account pays.
    Otherwise nothing else changes; the registry never does. *)
Theorem recv_converts packet (w w' : IbcWorld B R T) ack :
  int64_registry (trk_GetRegistry (iw_registry w)) ->
  OnRecvPacketWhitelistConvert packet w = (w', Ok (ResultAck ack)) ->
  exists data b1 t1 denom e, UnmarshalPacketData (Data packet) = Ok data
    /\ tk_OnRecvPacket packet data (iw_bank w, iw_transfer w) = ((b1, t1), Ok tt)
    /\ GetMintedDenomFromPacket packet data = Ok denom
    /\ trk_GetEntry (trk_GetRegistry (iw_registry w)) denom = Ok e
    /\ (ReceiverChainIsSource (SourcePort packet) (SourceChannel packet) (PD_Denom data) = true \/ Permission_IBCIMPORT ∈ Permissions e)
    /\ iw_registry w' = iw_registry w /\ iw_transfer w' = t1
    /\ match conversion (trk_GetRegistry (iw_registry w)) e with
       | None => iw_bank w' = b1
       | Some c => exists receiver amount, AccAddressFromBech32 (PD_Receiver data) = Ok receiver
           /\ NewIntFromString (PD_Amount data) = Some amount /\ 0 <= amount
           /\ let paid := amount * 10 ^ (Decimals c - Decimals e) in
              let escrow := GetEscrowAddress (DestPort packet) (DestChannel packet) in
              forall a d, GetBalance (iw_bank w') a d = GetBalance b1 a d
                - (if String.eqb a receiver && String.eqb (Denom e) d then amount else 0)
                + (if String.eqb (Denom c) d
                   then (if String.eqb a receiver then paid else 0) - (if String.eqb a escrow then paid else 0) else 0)
       end.
Proof. apply OnRecv_ok. Qed.

End Claims.

#[local] Existing Instances TokenRegistry.Keeper TokenRegistry.Keeper_laws.

(** A transfer looks at the registry only to find the entry of its denomination. *)
Lemma Transfer_registry `{BankKeeper B, SdkAddress, SDKTransferKeeper B T} (b : B) (t : T) (r1 r2 : TokenRegistry.RegStore) msg :
  trk_GetEntry (trk_GetRegistry r1) (Coin_Denom (Tr_Token msg)) = trk_GetEntry (trk_GetRegistry r2) (Coin_Denom (Tr_Token msg)) ->
  let f r := Transfer msg (mkIbcWorld b r t) in
  (f r1).2 = (f r2).2 /\ iw_bank (f r1).1 = iw_bank (f r2).1 /\ iw_transfer (f r1).1 = iw_transfer (f r2).1.
Proof.
  intros He f. subst f. unfold Transfer, mbnd, mgets, id. cbn [iw_registry]. rewrite He. unfold mlift, mfail_if, mthrow, mret.
  destruct (rwrap _ _); [|done..]. destruct (_ && _); [done|]. destruct (negb _); [done|]. destruct (_ <=? 0); [done|].
  unfold on_transfer. cbn [iw_bank iw_transfer]. by destruct (tk_Transfer msg (b, t)) as [[] ?].
Qed.

Section Composed.
Context {B T : Type} `{SdkAddress, IbcTypes, SdkMath, SdkCoins, !BankKeeper B, !SDKTransferKeeper B T}.

(** When the admin has removed a denomination from the registry, in whatever case it is
    written, transfers of it are refused and change nothing, and packets that would credit it
    are acknowledged with an error; transfers of other denominations go on as before. *)
Theorem deregistered_not_exported from denom (st st' : TokenRegistry.RegStore) (b : B) (t : T) u :
  TokenRegistry.Handler (TokenRegistry.Msg_Deregister (TokenRegistry.mkMsgDeregister from denom)) st = (st', Ok u) ->
  let before := mkIbcWorld b st t in
  let after := mkIbcWorld b st' t in
  (forall msg, EqualFold denom (Coin_Denom (Tr_Token msg)) = true ->
     Transfer msg after = (after, Err ErrPermissionDenied))
  /\ (forall msg, EqualFold denom (Coin_Denom (Tr_Token msg)) = false ->
        (Transfer msg after).2 = (Transfer msg before).2
        /\ iw_bank (Transfer msg after).1 = iw_bank (Transfer msg before).1
        /\ iw_transfer (Transfer msg after).1 = iw_transfer (Transfer msg before).1)
  /\ (forall packet data d w' ack, UnmarshalPacketData (Data packet) = Ok data ->
        GetMintedDenomFromPacket packet data = Ok d -> EqualFold denom d = true ->
        OnRecvPacketWhitelistConvert packet after = (w', Ok ack) -> exists e, ack = ErrorAck e).
Proof.
  intros (_ & _ & Hf)%TokenRegistry.Handler_ok before after. cbn [TokenRegistry.lookup_after TokenRegistry.Dereg_Denom] in Hf.
  assert (forall d, EqualFold denom d = true -> trk_GetEntry (trk_GetRegistry st') d = Err TokenRegistry.ErrKeyNotFound) as Hgone.
  { intros d Hd. cbn. unfold TokenRegistry.GetEntry. by rewrite Hf, Hd. }
  split_and!.
  - intros msg Hd. unfold Transfer, mbnd, mgets, id. cbn [after iw_registry]. by rewrite (Hgone _ Hd).
  - intros msg Hd. apply Transfer_registry. cbn. unfold TokenRegistry.GetEntry. by rewrite Hf, Hd.
  - intros packet data d w' ack Hdata Hden Hd Hr. unfold OnRecvPacketWhitelistConvert in Hr. rewrite Hdata in Hr.
    run_step Hr as received w1 Hk. apply mtry_ok_inv in Hk as [([] & -> & Hk)|(e0 & -> & Hk)].
    + unfold on_transfer in Hk. destruct (tk_OnRecvPacket _ _ _) as [bt rk]. injection Hk as <- ->.
      rewrite Hden in Hr. run_step Hr as d1 w2 Hl. apply mlift_ok_inv in Hl as [-> [= <-]]. get_step Hr.
      cbn [after iw_registry] in Hr. rewrite (Hgone _ Hd) in Hr. apply mret_ok_inv in Hr as [_ ->]. eauto.
    + apply mret_ok_inv in Hr as [_ ->]. eauto.
Qed.
End Composed.

(** ** Reference implementations and runs *)

Definition hex_upper (n : nat) : ascii := ascii_of_nat (if (n <? 10)%nat then 48 + n else 55 + n).
Fixpoint hex_string (s : string) : string :=
  match s with
  | EmptyString => EmptyString
  | String c s' => String (hex_upper (nat_of_ascii c / 16)) (String (hex_upper (nat_of_ascii c mod 16)) (hex_string s'))
  end.
(** Everything before the last slash, and the rest. *)
Fixpoint split_last (s : string) : string * string :=
  match s with
  | EmptyString => ("", "")
  | String c s' =>
      if Contains s' "/" then let (p, b) := split_last s' in (String c p, b)
      else if Ascii.eqb c "/" then ("", s')
      else match split_last s' with (p, b) => (p, String c b) end
  end.
Definition json_field (k : string) (j : Json) : res string :=
  match j with
  | JObject fs => match find (fun f => String.eqb f.1 k) fs with Some f => json_string f.2 | None => Ok "" end
  | _ => Err json_error
  end.
Definition ref_prefix (port channel : string) : string := port +:+ "/" +:+ channel +:+ "/".

Definition RefIbcTypes : IbcTypes := {|
  UnmarshalPacketData text :=
    match json_parse text with
    | None => Err json_error
    | Some j =>
        let! denom := json_field "denom" j in
        let! amount := json_field "amount" j in
        let! sender := json_field "sender" j in
        let! receiver := json_field "receiver" j in
        Ok (mkPacketData denom amount sender receiver)
    end;
  ReceiverChainIsSource port channel denom := String.prefix (ref_prefix port channel) denom;
  GetDenomPrefix := ref_prefix;
  ParseDenomTrace text := match split_last text with (p, b) => mkDenomTrace p b end;
  IBCDenom t := if String.eqb (Trace_Path t) "" then Trace_BaseDenom t
                else "ibc/" +:+ hex_string (Sha256.Sum256 (Trace_Path t +:+ "/" +:+ Trace_BaseDenom t))
|}.
Lemma RefIbcTypes_laws : @IbcTypesLaws RefIbcTypes.
Proof. by split. Qed.

Section Examples.
#[local] Existing Instances RefCoins RefAddress RefBank RefMath RefIbcTypes RefCoins_laws RefAddress_laws RefBank_laws
  RefMath_laws RefIbcTypes_laws.

(** Vouchers are minted for the receiver; sent coins go to an escrow account. *)
#[local] Instance RefTransferKeeper : SDKTransferKeeper RefB unit := {|
  tk_OnRecvPacket packet data := fun bt =>
    match (do! receiver <- mlift (AccAddressFromBech32 (PD_Receiver data));
           do! denom <- mlift (GetMintedDenomFromPacket packet data);
           match NewIntFromString (PD_Amount data) with
           | None => mthrow (PlainErr "amount")
           | Some amount =>
               do! coin <- mlift (NewCoin denom amount);
               run! MintCoins "transfer" [coin];
               SendCoinsFromModuleToAccount "transfer" receiver [coin]
           end) bt.1 with (b, r) => ((b, bt.2), r) end;
  tk_Transfer msg := fun bt =>
    match (do! sender <- mlift (AccAddressFromBech32 (Tr_Sender msg));
           SendCoins sender "escrow" [Tr_Token msg]) bt.1 with (b, r) => ((b, bt.2), r) end
|}.

Definition json_quote (s : string) : string := print_string s "".
Definition ex_data : string :=
  "{" +:+ json_quote "denom" +:+ ":" +:+ json_quote "uatom" +:+ "," +:+ json_quote "amount" +:+ ":" +:+ json_quote "500" +:+ ","
  +:+ json_quote "sender" +:+ ":" +:+ json_quote "cosmos1alice" +:+ "," +:+ json_quote "receiver" +:+ ":" +:+ json_quote "sif1bob" +:+ "}".
Definition ex_packet : Packet := mkPacket "transfer" "channel-9" "transfer" "channel-0" ex_data.

(** The well known voucher of the Cosmos Hub's atom over channel-0. *)
Definition ex_voucher : string := "ibc/27394FB092D2ECCD56123C74F36E4C1F926001CEADA9CA97EA622B25F41E5EB2".
Lemma ex_minted_data :
  GetMintedDenomFromPacket ex_packet (mkPacketData "uatom" "500" "cosmos1alice" "sif1bob") = Ok ex_voucher.
Proof. by vm_compute. Qed.

(** The voucher has 6 decimals and is held in the unit of 10 decimals. *)
Definition ex_entry (d : string) (decimals : Z) (ps : list TokenRegistry.Permission) (unit_denom : string) : RegistryEntry :=
  TokenRegistry.mkEntry decimals d "" "" "" "" "" "" "" "" "" "" ps unit_denom "" "".
Definition ex_registry : TokenRegistry.RegStore :=
  TokenRegistry.mkRegStore (Some (TokenRegistry.mkRegistry
    [Some (ex_entry ex_voucher 6 [Permission_IBCIMPORT] "xatom"); Some (ex_entry "xatom" 10 [] "");
     Some (ex_entry "rowan" 18 [Permission_IBCEXPORT] "")])) (Some "admin").
Definition ex_escrow : string := GetEscrowAddress "transfer" "channel-0".
Definition ex_start : IbcWorld RefB TokenRegistry.RegStore unit :=
  mkIbcWorld {[ (ex_escrow, "xatom") := 9000000%N; ("alice", "rowan") := 70%N ]} ex_registry tt.
Definition ex_received := (OnRecvPacketWhitelistConvert ex_packet ex_start).1.
Lemma ex_received_ok : OnRecvPacketWhitelistConvert ex_packet ex_start = (ex_received, Ok (ResultAck (byte1 1))).
Proof. apply (run_ok (OnRecvPacketWhitelistConvert ex_packet) ex_start (ResultAck (byte1 1))). by vm_compute. Qed.

Lemma ex_int64 : int64_registry (trk_GetRegistry (iw_registry ex_start)).
Proof.
  intros e He. cbn in He. unfold int64. repeat (apply elem_of_cons in He as [[= ->]|He]; [cbn; lia|]). by apply elem_of_nil in He.
Qed.

Lemma recv_converts_witness :
  exists data b1 e, UnmarshalPacketData ex_data = Ok data
    /\ trk_GetEntry (trk_GetRegistry ex_registry) ex_voucher = Ok e
    /\ GetBalance (iw_bank ex_received) "bob" "xatom" = GetBalance b1 "bob" "xatom" + 500 * 10 ^ 4
    /\ (tk_OnRecvPacket ex_packet data (iw_bank ex_start, tt)).1.1 = b1.
Proof.
  destruct (recv_converts ex_packet ex_start ex_received (byte1 1) ex_int64 ex_received_ok)
    as (data & b1 & t1 & denom & e & Hdata & Hrecv & Hden & He & _ & _ & _ & Hc).
  exists data, b1, e. assert (data = mkPacketData "uatom" "500" "cosmos1alice" "sif1bob") as ->.
  { vm_compute in Hdata. by injection Hdata as <-. }
  assert (denom = ex_voucher) as -> by (rewrite ex_minted_data in Hden; by injection Hden as <-).
  assert (e = ex_entry ex_voucher 6 [Permission_IBCIMPORT] "xatom") as -> by (vm_compute in He; by injection He as <-).
  assert (conversion (trk_GetRegistry ex_registry) (ex_entry ex_voucher 6 [Permission_IBCIMPORT] "xatom")
    = Some (ex_entry "xatom" 10 [] "")) as Ec by by vm_compute.
  cbn [ex_start iw_registry] in Hc. rewrite Ec in Hc. destruct Hc as (receiver & amount & Hr & Ha & _ & Hb).
  vm_compute in Hr. injection Hr as <-. vm_compute in Ha. injection Ha as <-.
  split_and!; [done|by vm_compute| |by apply (f_equal (fun p => p.1.1)) in Hrecv].
  specialize (Hb "bob" "xatom"). assert (String.eqb "bob" (GetEscrowAddress (DestPort ex_packet) (DestChannel ex_packet)) = false) as Eb
    by by vm_compute. rewrite Eb in Hb. cbn -[Z.mul Z.pow GetBalance ex_received] in Hb. rewrite Hb. lia.
Defined.

(** The admin removes the entry of rowan. *)
Definition ex_deregister : TokenRegistry.Msg :=
  TokenRegistry.Msg_Deregister (TokenRegistry.mkMsgDeregister "sif1admin" "ROWAN").
Definition ex_after : TokenRegistry.RegStore := (TokenRegistry.Handler ex_deregister ex_registry).1.
Lemma ex_after_ok : TokenRegistry.Handler ex_deregister ex_registry = (ex_after, Ok tt).
Proof. apply (run_ok (TokenRegistry.Handler ex_deregister) ex_registry tt). by vm_compute. Qed.
Definition ex_send : MsgTransfer := mkMsgTransfer "transfer" "channel-0" (mkCoin "rowan" 50) "sif1alice" "cosmos1bob".

Lemma deregistered_not_exported_witness :
  (Transfer ex_send ex_start).2 = Ok tt
  /\ Transfer ex_send (mkIbcWorld (iw_bank ex_start) ex_after tt) = (mkIbcWorld (iw_bank ex_start) ex_after tt, Err ErrPermissionDenied).
Proof.
  split; [by vm_compute|].
  pose proof (deregistered_not_exported "sif1admin" "ROWAN" ex_registry ex_after (iw_bank ex_start) tt tt ex_after_ok) as [Hno _].
  apply Hno. reflexivity.
Defined.

Example escrow_length : String.length ex_escrow = 20%nat.
Proof. by vm_compute. Qed.
End Examples.
End IbcTransfer.
