(* ===== verification/Ante.v ===== *)
(** * app/ante: what a transaction must pay before its messages run

    [NewAnteHandler] chains the decorators of the SDK with one of this chain,
    [AdjustGasPriceDecorator], which lowers the gas price of a transaction that is a
    single distribution message, and demands a minimum fee in aku of transactions with
    messages of certain kinds.  A transaction is the type URLs of its messages and its
    fee, if it has one; the decorators that follow are the continuation [next]. *)

From Stdlib Require Import ZArith Lia Ascii String.
From stdpp Require Import base list strings.
From S2P Require Import Prelude SdkMath Sdk Dispensation.

Module Ante.

Definition ErrTxDecode : GoError := RegisteredErr "sdk" 2.
Definition ErrLogic : GoError := RegisteredErr "sdk" 35.

(** The types of the two transfer messages of the SDK's bank module. *)
Class BankTypes := { TypeMsgSend : string; TypeMsgMultiSend : string }.

Record DecCoin := mkDecCoin { DC_Denom : string; DC_Amount : Z }.
Class SdkDecCoins := {
  DecCoin_IsValid : DecCoin -> bool;
  NewDecCoins : DecCoin -> res (list DecCoin);
}.

(** [tx_fee] is [None] when the transaction has no fee ([tx.(sdk.FeeTx)] fails). *)
Record Tx := mkTx { GetMsgs : list string; tx_fee : option (list Coin) }.
Record Context := mkContext { MinGasPrices : list DecCoin }.
Definition WithMinGasPrices (_ : Context) (prices : list DecCoin) : Context := mkContext prices.

Section Decorator.
Context `{SdkMath, BankTypes, SdkDecCoins}.

Definition is_distribution (url : string) : bool :=
  Contains (ToLower url) (ToLower Dispensation.MsgTypeCreateDistribution)
  || Contains (ToLower url) (ToLower Dispensation.MsgTypeRunDistribution).

Definition is_expensive (url : string) : bool :=
  let msgTypeURLLower := ToLower url in
  Contains msgTypeURLLower (ToLower TypeMsgSend) || Contains msgTypeURLLower (ToLower TypeMsgMultiSend)
  || Contains msgTypeURLLower "createuserclaim" || Contains msgTypeURLLower "swap"
  || Contains msgTypeURLLower "removeliquidity" || Contains msgTypeURLLower "addliquidity".
Definition is_transfer (url : string) : bool := Contains (ToLower url) "transfer".

Definition high_fee : Z := 100000000000000000.
Definition low_fee : Z := 10000000000000000.

(** One turn of the loop over the messages. *)
Definition raise_fee (minFee : Z) (url : string) : Z :=
  if is_expensive url then high_fee
  else if is_transfer url && (minFee <=? low_fee) then low_fee
  else minFee.
Definition min_fee (msgs : list string) : Z := fold_left raise_fee msgs 0.

Definition aku_of (akuFee : Z) (fee : Coin) : Z := if EqualFold "aku" (Coin_Denom fee) then Coin_Amount fee else akuFee.
Definition aku_fee (fees : list Coin) : Z := fold_left aku_of fees 0.

(** [MustNewDecFromStr]. *)
Definition MustNewDecFromStr (s : string) : res Z := panicOnErr (NewDecFromStr s).

(** A transaction that is one distribution message. *)
Definition lone_distribution (msgs : list string) : bool :=
  match msgs with [url] => is_distribution url | _ => false end.

Definition AnteHandle {A} (ctx : Context) (tx : Tx) (next : Context -> Tx -> res A) : res A :=
  let msgs := GetMsgs tx in
  if lone_distribution msgs then
    let! amount := MustNewDecFromStr "0.00000005" in
    let minGasPrice := mkDecCoin "aku" amount in
    if negb (DecCoin_IsValid minGasPrice) then Err ErrLogic
    else
      let! prices := NewDecCoins minGasPrice in
      next (WithMinGasPrices ctx prices) tx
  else
    let minFee := min_fee msgs in
    if minFee =? 0 then next ctx tx
    else
      match tx_fee tx with
      | None => Err ErrTxDecode
      | Some fees =>
          let akuFee := aku_fee fees in
          if akuFee <=? 0 then Err ErrLogic
          else if akuFee <? minFee then Err ErrLogic
          else next ctx tx
      end.

(** ** The chain of decorators *)

(** The keepers and handlers that the decorators of the SDK are built from; a missing one is
    [None].  The remaining decorators never miss theirs. *)
Record HandlerOptions (AK BK SM FK GC : Type) := mkHandlerOptions {
  opt_AccountKeeper : option AK;
  opt_BankKeeper : option BK;
  opt_SignModeHandler : option SM;
  opt_FeegrantKeeper : FK;
  opt_SigGasConsumer : option GC;
}.
Arguments opt_AccountKeeper {_ _ _ _ _} _.
Arguments opt_BankKeeper {_ _ _ _ _} _.
Arguments opt_SignModeHandler {_ _ _ _ _} _.
Arguments opt_FeegrantKeeper {_ _ _ _ _} _.
Arguments opt_SigGasConsumer {_ _ _ _ _} _.

Definition AnteHandler (A : Type) : Type := Context -> Tx -> res A.
Definition AnteDecorator (A : Type) : Type := Context -> Tx -> AnteHandler A -> res A.

Class SdkAnte (A AK BK SM FK GC : Type) := {
  DefaultSigVerificationGasConsumer : GC;
  NewSetUpContextDecorator : AnteDecorator A;
  NewRejectExtensionOptionsDecorator : AnteDecorator A;
  NewMempoolFeeDecorator : AnteDecorator A;
  NewValidateBasicDecorator : AnteDecorator A;
  NewTxTimeoutHeightDecorator : AnteDecorator A;
  NewValidateMemoDecorator : AK -> AnteDecorator A;
  NewConsumeGasForTxSizeDecorator : AK -> AnteDecorator A;
  NewDeductFeeDecorator : AK -> BK -> FK -> AnteDecorator A;
  NewSetPubKeyDecorator : AK -> AnteDecorator A;
  NewValidateSigCountDecorator : AK -> AnteDecorator A;
  NewSigGasConsumeDecorator : AK -> GC -> AnteDecorator A;
  NewSigVerificationDecorator : AK -> SM -> AnteDecorator A;
  NewIncrementSequenceDecorator : AK -> AnteDecorator A;
  ChainAnteDecorators : list (AnteDecorator A) -> AnteHandler A;
}.
(** Each decorator gets the chain of those behind it as its [next]. *)
Class SdkAnteLaws (A AK BK SM FK GC : Type) `{SdkAnte A AK BK SM FK GC} : Prop := {
  ChainAnteDecorators_cons (d : AnteDecorator A) ds ctx tx :
    ChainAnteDecorators (d :: ds) ctx tx = d ctx tx (ChainAnteDecorators ds);
}.

Definition NewAnteHandler {A AK BK SM FK GC} `{SdkAnte A AK BK SM FK GC} (options : HandlerOptions AK BK SM FK GC) : res (AnteHandler A) :=
  match opt_AccountKeeper options with
  | None => Err ErrLogic
  | Some ak =>
      match opt_BankKeeper options with
      | None => Err ErrLogic
      | Some bk =>
          match opt_SignModeHandler options with
          | None => Err ErrLogic
          | Some sm =>
              let sigGasConsumer := default DefaultSigVerificationGasConsumer (opt_SigGasConsumer options) in
              Ok (ChainAnteDecorators
                    [NewSetUpContextDecorator; AnteHandle; NewRejectExtensionOptionsDecorator; NewMempoolFeeDecorator;
                     NewValidateBasicDecorator; NewTxTimeoutHeightDecorator; NewValidateMemoDecorator ak;
                     NewConsumeGasForTxSizeDecorator ak; NewDeductFeeDecorator ak bk (opt_FeegrantKeeper options);
                     NewSetPubKeyDecorator ak; NewValidateSigCountDecorator ak; NewSigGasConsumeDecorator ak sigGasConsumer;
                     NewSigVerificationDecorator ak sm; NewIncrementSequenceDecorator ak])
          end
      end
  end.

(** ** The fee a transaction owes *)

(** What the loop computes, without its order. *)
Definition owed (msgs : list string) : Z :=
  if existsb is_expensive msgs then high_fee else if existsb is_transfer msgs then low_fee else 0.

Lemma raise_fee_values f url : f = 0 \/ f = low_fee \/ f = high_fee ->
  raise_fee f url = Z.max f (if is_expensive url then high_fee else if is_transfer url then low_fee else 0).
Proof.
  unfold raise_fee, high_fee, low_fee. intros Hf. destruct (is_expensive url); [lia|].
  destruct (is_transfer url); simpl; [|lia]. destruct (Z.leb_spec f 10000000000000000); lia.
Qed.

Lemma min_fee_from msgs f : f = 0 \/ f = low_fee \/ f = high_fee -> fold_left raise_fee msgs f = Z.max f (owed msgs).
Proof.
  revert f; induction msgs as [|u msgs IH]; intros f Hf; simpl.
  - unfold owed; simpl. unfold low_fee, high_fee in *. lia.
  - rewrite raise_fee_values by done. rewrite IH.
    + unfold owed. simpl. destruct (is_expensive u), (is_transfer u), (existsb is_expensive msgs), (existsb is_transfer msgs);
        simpl; unfold low_fee, high_fee in *; lia.
    + destruct (is_expensive u), (is_transfer u); unfold low_fee, high_fee in *; lia.
Qed.

Lemma min_fee_owed msgs : min_fee msgs = owed msgs.
Proof.
  unfold min_fee. rewrite min_fee_from by (by left). unfold owed.
  destruct (existsb is_expensive msgs), (existsb is_transfer msgs); unfold low_fee, high_fee; lia.
Qed.

Lemma owed_perm msgs msgs' : msgs ≡ₚ msgs' -> owed msgs = owed msgs'.
Proof.
  intros Hp. assert (forall p : string -> bool, existsb p msgs = existsb p msgs') as Hb.
  { intros p. apply eq_true_iff_eq. rewrite !existsb_exists. split; intros (x & Hx & Hpx); exists x; (split; [|done]);
      apply list_elem_of_In; apply list_elem_of_In in Hx; by rewrite Hp in Hx || rewrite <- Hp in Hx. }
  unfold owed. by rewrite !Hb.
Qed.

(** C29: A transaction that is no single distribution message is passed on, unchanged and in
    the same context, exactly when it owes nothing or its fee has at least the owed amount of
    aku; otherwise it fails with an error, whatever follows.  It owes 0.1 aku when any of its
    messages is a send, swap, claim or liquidity message, 0.01 aku when one is a transfer,
    and nothing otherwise, in whatever order they come. *)
Theorem fee_floor {A} ctx tx (next : Context -> Tx -> res A) :
  lone_distribution (GetMsgs tx) = false ->
  let due := owed (GetMsgs tx) in
  (forall tx', GetMsgs tx ≡ₚ GetMsgs tx' -> owed (GetMsgs tx') = due)
  /\ (due = 0 \/ (exists fees, tx_fee tx = Some fees /\ due <= aku_fee fees) -> AnteHandle ctx tx next = next ctx tx)
  /\ (0 < due -> match tx_fee tx with
                 | None => AnteHandle ctx tx next = Err ErrTxDecode
                 | Some fees => aku_fee fees < due -> AnteHandle ctx tx next = Err ErrLogic
                 end).
Proof.
  intros Hl due. split; [intros tx' Hp; symmetry; by apply owed_perm|].
  unfold AnteHandle. rewrite Hl, min_fee_owed. fold due.
  assert (0 <= due) by (unfold due, owed, high_fee, low_fee; repeat case_match; lia).
  destruct (Z.eqb_spec due 0) as [->|Hd]; [split; [done|lia]|]. split.
  - intros [?|(fees & -> & Hf)]; [lia|]. destruct (Z.leb_spec (aku_fee fees) 0); [lia|].
    by destruct (Z.ltb_spec (aku_fee fees) due); [lia|].
  - intros _. destruct (tx_fee tx) as [fees|]; [|done]. intros Hf. destruct (Z.leb_spec (aku_fee fees) 0); [done|].
    by destruct (Z.ltb_spec (aku_fee fees) due); [|lia].
Qed.

(** The handler of a chain is there when both keepers and the signature modes are.  Its second
    decorator is the one of this chain: behind the set-up of the context, a transaction with
    too low a fee is refused before any other decorator, the deduction of the fee and the check
    of the signatures included, whatever those would do. *)
Theorem ante_handler {A AK BK SM FK GC} `{SdkAnteLaws A AK BK SM FK GC} (options : HandlerOptions AK BK SM FK GC) :
  (is_ok (NewAnteHandler (A := A) options) = true
   <-> is_Some (opt_AccountKeeper options) /\ is_Some (opt_BankKeeper options) /\ is_Some (opt_SignModeHandler options))
  /\ forall handler ctx tx, NewAnteHandler options = Ok handler ->
       forall ctx', (forall next, NewSetUpContextDecorator ctx tx next = next ctx' tx) ->
            lone_distribution (GetMsgs tx) = false -> 0 < owed (GetMsgs tx) ->
            (forall fees, tx_fee tx = Some fees -> aku_fee fees < owed (GetMsgs tx)) ->
            exists e, handler ctx tx = Err e.
Proof.
  unfold NewAnteHandler. destruct (opt_AccountKeeper options) as [ak|]; [|by split; [split; [done|intros ([? ?] & _)]|]].
  destruct (opt_BankKeeper options) as [bk|]; [|by split; [split; [done|intros (_ & [? ?] & _)]|]].
  destruct (opt_SignModeHandler options) as [sm|]; [|by split; [split; [done|intros (_ & _ & [? ?])]|]].
  split; [by split; [intros _; split_and!; eexists|]|]. intros handler ctx tx [= <-] ctx' Hset Hl Hd Hlow.
  pose proof (ChainAnteDecorators_cons (AK := AK) (BK := BK) (SM := SM) (FK := FK) (GC := GC) (A := A)) as Hc. rewrite Hc, Hset, Hc. unfold AnteHandle. rewrite Hl, min_fee_owed.
  destruct (Z.eqb_spec (owed (GetMsgs tx)) 0); [lia|]. destruct (tx_fee tx) as [fees|]; [|by eexists].
  specialize (Hlow fees eq_refl). destruct (Z.leb_spec (aku_fee fees) 0); [by eexists|].
  destruct (Z.ltb_spec (aku_fee fees) (owed (GetMsgs tx))); [by eexists|lia].
Qed.
End Decorator.

Section Examples.
#[local] Existing Instance RefMath.
#[local] Instance RefBankTypes : BankTypes := {| TypeMsgSend := "send"; TypeMsgMultiSend := "multisend" |}.
#[local] Instance RefDecCoins : SdkDecCoins := {|
  DecCoin_IsValid c := 0 <=? DC_Amount c; NewDecCoins c := Ok [c]
|}.

Definition ex_tx (aku : Z) : Tx :=
  mkTx ["/ibc.applications.transfer.v1.MsgTransfer"; "/sifnode.clp.v1.MsgSwap"] (Some [mkCoin "AKU" aku; mkCoin "ceth" 5]).

(** A transfer and a swap owe the higher fee. *)
Lemma fee_floor_witness :
  AnteHandle (mkContext []) (ex_tx (10 ^ 17)) (fun _ tx => Ok tx) = Ok (ex_tx (10 ^ 17))
  /\ AnteHandle (mkContext []) (ex_tx (10 ^ 17 - 1)) (fun _ tx => Ok tx) = Err ErrLogic.
Proof.
  assert (owed (GetMsgs (ex_tx (10 ^ 17))) = 10 ^ 17) as Hd by by vm_compute. split.
  - apply (fee_floor (mkContext []) (ex_tx (10 ^ 17)) (fun _ tx => Ok tx)); [by vm_compute|].
    right. eexists. split; [reflexivity|]. rewrite Hd. by vm_compute.
  - assert (lone_distribution (GetMsgs (ex_tx (10 ^ 17 - 1))) = false) as Hl by by vm_compute.
    destruct (fee_floor (mkContext []) (ex_tx (10 ^ 17 - 1)) (fun _ tx => Ok tx) Hl) as (_ & _ & Hno).
    cbn [ex_tx tx_fee] in Hno. apply Hno; by vm_compute.
Defined.
End Examples.
End Ante.
