(* ===== verification/AppFrames.v ===== *)
(** * What the handlers of each module leave alone

    A message of one module debits only its signer and the account of that module, and its
    store stays in the form its genesis export needs.  These are the facts that let the
    modules run on one bank (App). *)

From Stdlib Require Import ZArith Lia Ascii String.
From stdpp Require Import base list gmap strings.
From S2P Require Import Prelude SdkMath Sdk Frames TokenRegistry ClpTypes ClpCalc ClpKeeper ClpMsgServer ClpGenesis Oracle EthBridge Dispensation IbcTransfer.

(** ** The exchange *)

Section Clp.
Context {B R : Type} `{SdkMath, SdkCoins, SdkAddressLaws, !SdkQuery, !BankKeeper B, !BankLaws B, !BankValidLaws B,
  !TokenRegistry.TokenRegistryKeeper R}.
Implicit Types w : World B R.

(** *** The bank *)

(** A message of the exchange only pays from the module's account and takes from its signer, so
    any relation that both kinds of payment respect is respected by every message. *)
Section BankRelation.
Variable Rb : relation B.
Context `{!PreOrder Rb}.
Variable signer : string.
Hypothesis pays : forall to cs, respects Rb (SendCoinsFromModuleToAccount ModuleName to cs).
Hypothesis takes : forall from cs, AccAddressFromBech32 signer = Ok from ->
  respects Rb (SendCoinsFromAccountToModule from ModuleName cs).
Abbreviation R_ := (fun w w' : World B R => Rb (w_bank w) (w_bank w')).

Lemma bank_on_bank {A} (m : M B A) : respects Rb m -> respects R_ (on_bank m).
Proof. intros Hm w w' a [_ Hr]%on_bank_ok. by eapply Hm. Qed.
Lemma bank_upd_clp f : respects R_ (upd_clp f).
Proof. by apply respects_modify. Qed.
Lemma bank_GetPool s : respects R_ (GetPool s).
Proof. by intros w w' p [-> _]%GetPool_ok. Qed.
Lemma bank_GetLiquidityProvider s a : respects R_ (GetLiquidityProvider s a).
Proof. by intros w w' p [= <- _]. Qed.
Lemma bank_tryLiquidityProvider s a : respects R_ (mtry (GetLiquidityProvider s a)).
Proof. apply respects_try. by intros w w' p [= <- _]. Qed.

#[local] Hint Resolve pays takes bank_on_bank bank_upd_clp bank_GetPool bank_GetLiquidityProvider bank_tryLiquidityProvider : respects.

Lemma bank_kHasBalance a c : respects R_ (kHasBalance a c).
Proof. unfold kHasBalance. respect. Qed.
Lemma bank_ParseToInt s : respects R_ (ParseToInt s).
Proof. unfold ParseToInt. respect. Qed.
Lemma bank_SetPool p : respects R_ (SetPool p).
Proof. unfold SetPool. respect. Qed.
Lemma bank_SetLiquidityProvider lp : respects R_ (SetLiquidityProvider lp).
Proof. unfold SetLiquidityProvider. respect. Qed.
#[local] Hint Resolve bank_kHasBalance bank_ParseToInt bank_SetPool bank_SetLiquidityProvider : respects.

Lemma bank_RemoveLiquidityProvider cs lp : respects R_ (RemoveLiquidityProvider cs lp).
Proof. unfold RemoveLiquidityProvider, DestroyLiquidityProvider. respect. Qed.
Lemma bank_RemoveLiquidity p ec nc lp l eb nb : respects R_ (RemoveLiquidity p ec nc lp l eb nb).
Proof. unfold RemoveLiquidity, DestroyLiquidityProvider. respect. Qed.
Lemma bank_asymmetric_swap e f t a p fc tc : respects R_ (asymmetric_swap e f t a p fc tc).
Proof. unfold asymmetric_swap. respect. Qed.
#[local] Hint Resolve bank_RemoveLiquidityProvider bank_RemoveLiquidity bank_asymmetric_swap : respects.

Lemma bank_InitiateSwap c a : AccAddressFromBech32 signer = Ok a -> respects R_ (InitiateSwap c a).
Proof. intros Ha. unfold InitiateSwap. respect. Qed.
Lemma bank_FinalizeSwap s p msg : respects R_ (FinalizeSwap s p msg).
Proof. unfold FinalizeSwap. respect. Qed.
Lemma bank_refund s p acc lp : respects R_ (refund s p acc lp).
Proof. unfold refund. respect. Qed.
#[local] Hint Resolve bank_InitiateSwap bank_FinalizeSwap bank_refund : respects.

Lemma Handler_bank m : Msg_Signer m = signer -> respects R_ (Handler m).
Proof.
  intros E. destruct m as [m|m|m|m|m|]; cbn [Handler Msg_Signer] in *.
  - unfold CreatePool_msg, requireCLP, CreatePool, CreateLiquidityProvider. rewrite ?E. respect.
  - unfold AddLiquidity_msg, requireCLP, AddLiquidity, CreateLiquidityProvider. rewrite ?E. respect.
  - unfold RemoveLiquidity_msg, requireCLP. rewrite ?E. respect.
  - unfold Swap, requireCLP. rewrite ?E. respect.
  - unfold DecommissionPool_msg, DecommissionPool, DestroyPool. rewrite ?E. respect.
  - respect.
Qed.
End BankRelation.

(** Who a message of the exchange may debit. *)
Definition clp_debits (signer a : string) : Prop :=
  a = GetCLPModuleAddress \/ AccAddressFromBech32 signer = Ok a.

Lemma clp_Handler_spares m :
  respects (fun w w' : World B R => spared (clp_debits (Msg_Signer m)) (w_bank w) (w_bank w')) (Handler m).
Proof.
  apply (Handler_bank _ (Msg_Signer m)); [| |done].
  - intros to cs. apply spares_ModuleToAccount. by left.
  - intros from cs Hf. apply spares_AccountToModule. by right.
Qed.

(** It creates and destroys no coins. *)
Lemma Handler_conserves m : respects (fun w w' : World B R => conserves (w_bank w) (w_bank w')) (Handler m).
Proof.
  apply (Handler_bank _ (Msg_Signer m)); [| |done].
  - intros to cs. apply conserves_ModuleToAccount.
  - intros from cs _. apply conserves_AccountToModule.
Qed.

(** *** The store keeps the form its export needs *)

(** What every message keeps of the store: valid pools and providers under their own keys,
    and the admin list, the parameters and the registry unchanged. *)
Definition keeps_entries (w w' : World B R) : Prop :=
  (map_Forall wf_pool_entry (clp_pools (w_clp w)) -> map_Forall wf_pool_entry (clp_pools (w_clp w')))
  /\ (map_Forall wf_lp_entry (clp_lps (w_clp w)) -> map_Forall wf_lp_entry (clp_lps (w_clp w')))
  /\ clp_whitelist (w_clp w') = clp_whitelist (w_clp w) /\ clp_params (w_clp w') = clp_params (w_clp w)
  /\ w_registry w' = w_registry w.

#[export] Instance keeps_entries_preorder : PreOrder keeps_entries.
Proof.
  split; [by intros w; split_and!|]. intros w1 w2 w3 (Hp & Hl & Hw & Hq & Hr) (Hp' & Hl' & Hw' & Hq' & Hr').
  split_and!; [auto|auto|congruence..].
Qed.

Lemma keeps_same w w' : w_clp w' = w_clp w -> w_registry w' = w_registry w -> keeps_entries w w'.
Proof. unfold keeps_entries. by intros -> ->. Qed.

Lemma entries_on_bank {A} (m : M B A) : respects keeps_entries (on_bank m).
Proof.
  intros w w' a Hr. unfold on_bank in Hr. destruct (m (w_bank w)) as [b r]. injection Hr as <- _. by apply keeps_same.
Qed.
Lemma entries_GetPool s : respects keeps_entries (GetPool s).
Proof. by intros w w' p [-> _]%GetPool_ok. Qed.
Lemma entries_GetLiquidityProvider s a : respects keeps_entries (GetLiquidityProvider s a).
Proof. by intros w w' p [= <- _]. Qed.
Lemma entries_tryLiquidityProvider s a : respects keeps_entries (mtry (GetLiquidityProvider s a)).
Proof. apply respects_try. by intros w w' p [= <- _]. Qed.

Lemma entries_SetPool p : respects keeps_entries (SetPool p).
Proof.
  intros w w' u Hs. unfold SetPool, upd_clp in Hs. lift_step Hs as v Hv. check_step Hs as ->%negb_false_iff.
  lift_step Hs as a Ha%deref_ok. apply mmodify_ok_inv in Hs as ->. split_and!; [|done..].
  intros Hw. apply map_Forall_insert_2; [|done]. exists a. split_and!; [done| |done].
  unfold Pool_Validate in Hv. by rewrite Ha in Hv.
Qed.
Lemma entries_SetLiquidityProvider lp : respects keeps_entries (SetLiquidityProvider lp).
Proof.
  intros w w' u Hs. unfold SetLiquidityProvider, upd_clp in Hs. lift_step Hs as v Hv.
  destruct v; cbn [negb] in Hs; [|by apply mret_ok_inv in Hs as [-> _]].
  lift_step Hs as a Ha%deref_ok. apply mmodify_ok_inv in Hs as ->. split_and!; [done| |done..].
  intros Hw. apply map_Forall_insert_2; [|done]. exists a. split_and!; [done| |done].
  unfold LiquidityProvider_Validate in Hv. by rewrite Ha in Hv.
Qed.
Lemma entries_DestroyPool s : respects keeps_entries (DestroyPool s).
Proof.
  unfold DestroyPool, upd_clp. respect. apply respects_modify. intros w. split_and!; [|done..].
  intros Hw. by apply map_Forall_delete.
Qed.
Lemma entries_DestroyLiquidityProvider s a : respects keeps_entries (DestroyLiquidityProvider s a).
Proof.
  unfold DestroyLiquidityProvider, upd_clp. apply respects_modify. intros w. split_and!; [done| |done..].
  intros Hw. by apply map_Forall_delete.
Qed.
#[local] Hint Resolve entries_on_bank entries_GetPool entries_GetLiquidityProvider entries_tryLiquidityProvider
  entries_SetPool entries_SetLiquidityProvider entries_DestroyPool entries_DestroyLiquidityProvider : respects.

Lemma entries_kHasBalance a c : respects keeps_entries (kHasBalance a c).
Proof. unfold kHasBalance. respect. Qed.
Lemma entries_ParseToInt s : respects keeps_entries (ParseToInt s).
Proof. unfold ParseToInt. respect. Qed.
#[local] Hint Resolve entries_kHasBalance entries_ParseToInt : respects.

Lemma entries_RemoveLiquidity p ec nc lp l eb nb : respects keeps_entries (RemoveLiquidity p ec nc lp l eb nb).
Proof. unfold RemoveLiquidity. respect. Qed.
Lemma entries_asymmetric_swap e f t a p fc tc : respects keeps_entries (asymmetric_swap e f t a p fc tc).
Proof. unfold asymmetric_swap. respect. Qed.
Lemma entries_refund s p acc lp : respects keeps_entries (refund s p acc lp).
Proof. unfold refund, RemoveLiquidityProvider. respect. Qed.
#[local] Hint Resolve entries_RemoveLiquidity entries_asymmetric_swap entries_refund : respects.

Lemma Handler_keeps_entries m : respects keeps_entries (Handler m).
Proof.
  destruct m as [m|m|m|m|m|]; cbn [Handler].
  - unfold CreatePool_msg, requireCLP, CreatePool, CreateLiquidityProvider. respect.
  - unfold AddLiquidity_msg, requireCLP, AddLiquidity, CreateLiquidityProvider. respect.
  - unfold RemoveLiquidity_msg, requireCLP. respect.
  - unfold Swap, requireCLP, InitiateSwap, FinalizeSwap. respect.
  - unfold DecommissionPool_msg, DecommissionPool. respect.
  - respect.
Qed.

End Clp.

(** ** The bridge *)

Module Bridge.
Import EthBridge.
Section Frame.
Context {B O R : Type} `{SdkMath, SdkCoins, SdkAddressLaws, EthCommon, IntText, !BankKeeper B, !BankLaws B, !BankValidLaws B,
  !AccountKeeper B, !OracleKeeper O, !TokenRegistry.TokenRegistryKeeper R}.
Abbreviation W := (BridgeWorld B O R).

(** The text of the account a message spends from; only locks and burns do. *)
Definition spender (m : Msg) : string :=
  match m with
  | LockMsg m => Lock_CosmosSender m
  | BurnMsg m => Burn_CosmosSender m
  | _ => ""
  end.
Definition debits (signer a : string) : Prop := a = NewModuleAddress ModuleName \/ AccAddressFromBech32 signer = Ok a.

Section Spares.
Variable signer : string.
Abbreviation R_ := (fun w w' : W => spared (debits signer) (bw_bank w) (bw_bank w')).

Lemma bridge_spares_on_bank {A} (m : M B A) : respects (spared (debits signer)) m -> respects R_ (on_bank m).
Proof. intros Hm w w' a (b' & Hr & ->)%bridge_bank_ok. by eapply Hm. Qed.
Lemma spares_on_oracle {A} (m : M O A) : respects R_ (on_oracle m).
Proof. intros w w' a (o' & Hr & ->)%bridge_oracle_ok. by intros x d. Qed.
Lemma spares_upd_store f : respects R_ (upd_store f).
Proof. apply respects_modify. by intros w x d. Qed.
Lemma bridge_debits_module : debits signer (NewModuleAddress ModuleName).
Proof. by left. Qed.
#[local] Hint Resolve bridge_spares_on_bank spares_on_oracle spares_upd_store bridge_debits_module : respects.

Lemma spares_sender_account t e : respects R_ (sender_account (O := O) (R := R) t e).
Proof. unfold sender_account. respect. Qed.
Lemma spares_AddPeggyToken t : respects R_ (AddPeggyToken (O := O) (R := R) t).
Proof. unfold AddPeggyToken. respect. Qed.
#[local] Hint Resolve spares_sender_account spares_AddPeggyToken : respects.

Lemma spares_ProcessSuccessfulClaim c : respects R_ (ProcessSuccessfulClaim (O := O) (R := R) c).
Proof. unfold ProcessSuccessfulClaim. respect. Qed.
Lemma spares_ProcessLock a msg : debits signer a -> respects R_ (ProcessLock (O := O) (R := R) a msg).
Proof. intros Ha. unfold ProcessLock. respect. Qed.
Lemma spares_ProcessBurn a msg : debits signer a -> respects R_ (ProcessBurn (O := O) (R := R) a msg).
Proof. intros Ha. unfold ProcessBurn. respect. Qed.
#[local] Hint Resolve spares_ProcessSuccessfulClaim spares_ProcessLock spares_ProcessBurn : respects.

Lemma sender_account_post t e (w w' : W) a : sender_account t e w = (w', Ok a) -> AccAddressFromBech32 t = Ok a.
Proof. by intros (_ & ? & _)%sender_account_ok. Qed.

Lemma bridge_Handler_spares m : spender m = signer -> respects R_ (Handler m).
Proof.
  intros E. destruct m as [m|m|m|m|m|m|m]; cbn [Handler spender] in *.
  - unfold CreateEthBridgeClaim, ProcessClaim. respect.
  - unfold Burn. rewrite E. do 2 (apply respects_bnd; [exact _|respect|intros ?]).
    apply (respects_bnd_post _ (debits signer)); [|respect..]. intros w w' x Hx. right. by eapply sender_account_post.
  - unfold Lock. rewrite E. do 2 (apply respects_bnd; [exact _|respect|intros ?]).
    apply (respects_bnd_post _ (debits signer)); [|respect..]. intros w w' x Hx. right. by eapply sender_account_post.
  - unfold UpdateWhiteListValidator, ProcessUpdateWhiteListValidator. respect.
  - unfold UpdateCethReceiverAccount, ProcessUpdateCethReceiverAccount, SetCethReceiverAccount. respect.
  - unfold RescueCeth, ProcessRescueCeth. respect.
  - unfold SetBlacklist_msg, SetBlacklist, upd_blacklist. respect.
Qed.
End Spares.

(** The bridge reads the registry and never writes it. *)
Lemma registry_on_bank {A} (m : M B A) : respects (fun w w' : W => bw_registry w = bw_registry w') (on_bank m).
Proof. by intros w w' a (b' & Hr & ->)%bridge_bank_ok. Qed.
Lemma registry_on_oracle {A} (m : M O A) : respects (fun w w' : W => bw_registry w = bw_registry w') (on_oracle m).
Proof. by intros w w' a (o' & Hr & ->)%bridge_oracle_ok. Qed.
Lemma registry_upd_store f : respects (fun w w' : W => bw_registry w = bw_registry w') (upd_store f).
Proof. by apply respects_modify. Qed.
#[local] Hint Resolve registry_on_bank registry_on_oracle registry_upd_store : respects.

Lemma Handler_registry m : respects (fun w w' : W => bw_registry w = bw_registry w') (Handler m).
Proof.
  destruct m as [m|m|m|m|m|m|m]; cbn [Handler];
    unfold CreateEthBridgeClaim, ProcessClaim, ProcessSuccessfulClaim, AddPeggyToken, Burn, ProcessBurn, Lock, ProcessLock,
      UpdateWhiteListValidator, ProcessUpdateWhiteListValidator, UpdateCethReceiverAccount, ProcessUpdateCethReceiverAccount,
      SetCethReceiverAccount, RescueCeth, ProcessRescueCeth, SetBlacklist_msg, SetBlacklist, upd_blacklist, sender_account;
    respect.
Qed.
End Frame.
End Bridge.

(** ** Distributions *)

Module Disp.
Import Dispensation.
Section Frame.
Context {B : Type} `{SdkCoinsLaws, SdkAddressLaws, GogoTypes, !BankKeeper B, !BankLaws B, !BankValidLaws B}.
Abbreviation W := (DispWorld B).

(** The text of the account a message spends from. *)
Definition spender (m : Msg) : string :=
  match m with
  | CreateDistributionMsg m => Create_Distributor m
  | CreateUserClaimMsg m => Claim_Address m
  | RunDistributionMsg m => Run_Runner m
  end.
Definition debits (signer a : string) : Prop := a = GetDistributionModuleAddress \/ AccAddressFromBech32 signer = Ok a.
Abbreviation R_ signer := (fun w w' : W => spared (debits signer) (dw_bank w) (dw_bank w')).

Lemma disp_spares_on_bank signer {A} (m : M B A) : respects (spared (debits signer)) m -> respects (R_ signer) (on_bank m).
Proof. intros Hm w w' a (b' & Hr & ->)%disp_bank_ok. by eapply Hm. Qed.
Lemma spares_upd_records signer f : respects (R_ signer) (upd_records f).
Proof. by apply respects_modify. Qed.
Lemma spares_upd_distributions signer f : respects (R_ signer) (upd_distributions f).
Proof. by apply respects_modify. Qed.
Lemma spares_upd_claims signer f : respects (R_ signer) (upd_claims f).
Proof. by apply respects_modify. Qed.
Lemma debits_signer signer a : AccAddressFromBech32 signer = Ok a -> debits signer a.
Proof. by right. Qed.
#[local] Hint Resolve disp_spares_on_bank spares_upd_records spares_upd_distributions spares_upd_claims debits_signer : respects.

Lemma CreateDistribution_spares ctx msg : respects (R_ (Create_Distributor msg)) (CreateDistribution ctx msg).
Proof.
  unfold CreateDistribution, VerifyAndSetDistribution, SetDistribution, AccumulateDrops, CreateDrops, SetDistributionRecord.
  respect.
Qed.

Lemma RunDistribution_spares ctx msg (w w' : W) u :
  disp_ok w -> RunDistribution ctx msg w = (w', Ok u) -> spared (debits (Run_Runner msg)) (dw_bank w) (dw_bank w').
Proof.
  intros [Hm Hsol _ _] Hr a d Ha. apply RunDistribution_ok in Hr as (outs & Eo & _ & _ & _ & _ & _ & Hb & _); [|done..].
  rewrite Hb. destruct (due_prefix_stored msg w Hm) as (Hst & _). rewrite <- Eo in Hst.
  enough (0 <= foldr (fun o acc => payment a d o + acc) 0 outs) by lia.
  clear Eo Hb. induction outs as [|o outs IH]; [done|]. rewrite fmap_cons in Hst. apply Forall_cons in Hst as [Ho Hst].
  specialize (IH Hst). cbn [foldr]. enough (0 <= payment a d o) by lia. unfold payment.
  destruct (String.eqb_spec a GetDistributionModuleAddress) as [->|]; [by destruct Ha; left|].
  assert (0 <= AmountOf (DR_Coins o.1) d) by (apply Validate_coins; by apply (Hm _ _ (proj1 Ho))). repeat case_match; lia.
Qed.

Lemma disp_Handler_spares ctx m (w w' : W) u :
  disp_ok w -> Handler ctx m w = (w', Ok u) -> spared (debits (spender m)) (dw_bank w) (dw_bank w').
Proof.
  intros Hw Hr. destruct m as [m|m|m]; cbn [Handler spender] in *.
  - by eapply CreateDistribution_spares.
  - revert Hr. apply (fun P : respects (R_ (Claim_Address m)) (CreateUserClaim ctx m) => P w w' u).
    unfold CreateUserClaim, SetClaim. respect.
  - by eapply RunDistribution_spares.
Qed.
End Frame.
End Disp.

(** ** IBC transfers *)

(** ibc-go debits the sender of a transfer (whose coins it escrows or burns), and for a received
    packet the escrow account of the channel. *)
Class TransferKeeperLaws (B T : Type) `{SdkAddress, BankKeeper B, !IbcTransfer.SDKTransferKeeper B T} : Prop := {
  tk_Transfer_spares msg (b b' : B) (t t' : T) u :
    IbcTransfer.tk_Transfer msg (b, t) = ((b', t'), Ok u) ->
    spared (fun a => AccAddressFromBech32 (IbcTransfer.Tr_Sender msg) = Ok a) b b';
  tk_OnRecvPacket_spares packet data (b b' : B) (t t' : T) u :
    IbcTransfer.tk_OnRecvPacket packet data (b, t) = ((b', t'), Ok u) ->
    spared (fun a => a = IbcTransfer.GetEscrowAddress (IbcTransfer.DestPort packet) (IbcTransfer.DestChannel packet)) b b';
}.

Module Ibc.
Import IbcTransfer.
Import TokenRegistry (trk_GetRegistry, trk_GetEntry, UnitDenom).
Section Frame.
Context {B R T : Type} `{SdkMath, SdkCoins, SdkAddress, IbcTypes, !BankKeeper B, !BankLaws B, !BankValidLaws B,
  !TokenRegistry.TokenRegistryKeeper R, !SDKTransferKeeper B T, !TransferKeeperLaws B T}.
Abbreviation W := (IbcWorld B R T).

(** Who the receipt of a packet may debit: the module, the channel's escrow account, and the
    receiver, whose coins are converted. *)
Definition packet_debits (packet : Packet) (a : string) : Prop :=
  a = NewModuleAddress ModuleName
  \/ a = GetEscrowAddress (DestPort packet) (DestChannel packet)
  \/ exists data, UnmarshalPacketData (Data packet) = Ok data /\ AccAddressFromBech32 (PD_Receiver data) = Ok a.

Lemma Transfer_spares msg (w w' : W) u :
  Transfer msg w = (w', Ok u) ->
  spared (fun a => AccAddressFromBech32 (Tr_Sender msg) = Ok a) (iw_bank w) (iw_bank w') /\ iw_registry w' = iw_registry w.
Proof.
  unfold Transfer. intros Hr. get_step Hr. lift_step Hr as e _. do 3 check_step Hr as _.
  unfold on_transfer in Hr. destruct (tk_Transfer msg (iw_bank w, iw_transfer w)) as [[b t] r] eqn:E. injection Hr as <- ->.
  split; [|done]. by eapply tk_Transfer_spares.
Qed.

Section Packet.
Variable packet : Packet.
Abbreviation R_ := (fun w w' : W => spared (packet_debits packet) (iw_bank w) (iw_bank w') /\ iw_registry w' = iw_registry w).

#[local] Instance packet_preorder : PreOrder R_.
Proof. split; [by intros w|]. intros w1 w2 w3 [??] [??]. split; [by etrans|congruence]. Qed.

Lemma packet_on_bank {A} (m : M B A) : respects (spared (packet_debits packet)) m -> respects R_ (on_bank m).
Proof.
  intros Hm w w' a Hr. unfold on_bank in Hr. destruct (m (iw_bank w)) as [b r] eqn:E. injection Hr as <- ->.
  split; [by eapply Hm|done].
Qed.
Lemma packet_debits_module : packet_debits packet (NewModuleAddress ModuleName).
Proof. by left. Qed.
Lemma debits_escrow : packet_debits packet (GetEscrowAddress (DestPort packet) (DestChannel packet)).
Proof. by right; left. Qed.
Lemma debits_receiver data a :
  UnmarshalPacketData (Data packet) = Ok data -> AccAddressFromBech32 (PD_Receiver data) = Ok a -> packet_debits packet a.
Proof. intros ? ?. right; right. by exists data. Qed.
#[local] Hint Resolve packet_on_bank packet_debits_module debits_escrow debits_receiver : respects.

Lemma ExecConv_spares e c data :
  UnmarshalPacketData (Data packet) = Ok data -> respects R_ (ExecConvForIncomingCoins e c packet data).
Proof. intros Hd. unfold ExecConvForIncomingCoins. respect. Qed.

(** A packet that is acknowledged with success. *)
Lemma OnRecv_spares (w w' : W) ack :
  OnRecvPacketWhitelistConvert packet w = (w', Ok (ResultAck ack)) ->
  spared (packet_debits packet) (iw_bank w) (iw_bank w') /\ iw_registry w' = iw_registry w.
Proof.
  unfold OnRecvPacketWhitelistConvert. intros Hr. destruct (UnmarshalPacketData (Data packet)) as [data|e0|] eqn:Ed; [|done..].
  run_step Hr as received w1 Hk. apply mtry_ok_inv in Hk as [([] & -> & Hk)|(e0 & -> & Hk)]; [|done].
  unfold on_transfer in Hk. destruct (tk_OnRecvPacket packet data (iw_bank w, iw_transfer w)) as [[b1 t1] rk] eqn:Ek.
  injection Hk as <- ->. apply (transitivity (R := R_) (y := mkIbcWorld b1 (iw_registry w) t1)).
  { split; [|done]. eapply spared_mono, tk_OnRecvPacket_spares, Ek. intros a ->. apply debits_escrow. }
  lift_step Hr as denom Hden. get_step Hr. cbn [iw_registry fst snd] in *.
  destruct (trk_GetEntry (trk_GetRegistry (iw_registry w)) denom) as [e|e0|] eqn:Ee; [|done..].
  destruct (IsRecvPacketAllowed packet data e) eqn:Eal; [|done]. cbn [negb] in Hr.
  destruct (trk_GetEntry _ (UnitDenom e)) as [c|e0|] eqn:Ec; [|by apply mret_ok_inv in Hr as [-> _]|done].
  destruct (needs_conversion e c) eqn:En; [|by apply mret_ok_inv in Hr as [-> _]]. run_step Hr as cv w2 Hc.
  apply mtry_ok_inv in Hc as [([] & -> & Hc)|(e0 & -> & Hc)]; [|done]. apply mret_ok_inv in Hr as [-> _].
  by eapply ExecConv_spares in Hc.
Qed.
End Packet.
End Frame.
End Ibc.
