(* ===== verification/RegReads.v ===== *)
(** * What a message reads of the token registry

    The exchange, the bridge and the distributions share the registry with its admin.  [sim]
    says that a piece of stateful code runs the same way when a part of its state that it does
    not look at is replaced: same result, same new state, but for that part.  It is proved by
    following the statements of the code, one rule per combinator, which the tactic
    [simulate] applies.  With it: a message of the exchange depends on the registry only
    through the entries of the denominations it names, a transfer through the entry of its
    coin, and one of the bridge only through the registry's admin. *)

From Stdlib Require Import ZArith Lia Ascii String.
From stdpp Require Import base list gmap strings.
From S2P Require Import Prelude SdkMath Sdk TokenRegistry ClpTypes ClpCalc ClpKeeper ClpMsgServer Oracle EthBridge IbcTransfer.

(** ** Code that does not look at a part of its state *)

(** [upd] replaces the part, in the states that satisfy [P]. *)
Definition sim {S A} (P : S -> Prop) (upd : S -> S) (m1 m2 : M S A) : Prop :=
  forall s, P s -> m2 (upd s) = (upd (m1 s).1, (m1 s).2) /\ P (m1 s).1.

Create HintDb sim.

Section Rules.
Context {S : Type} (P : S -> Prop) (upd : S -> S).

Lemma sim_ret {A} (a : A) : sim P upd (mret a) (mret a).
Proof. by intros s. Qed.
Lemma sim_lift {A} (r : res A) : sim P upd (mlift r) (mlift r).
Proof. by intros s. Qed.
Lemma sim_throw {A} e : sim P upd (mthrow e : M S A) (mthrow e).
Proof. by intros s. Qed.
Lemma sim_panic {A} : sim P upd (mpanic : M S A) mpanic.
Proof. by intros s. Qed.
Lemma sim_fail_if c e : sim P upd (mfail_if c e) (mfail_if c e).
Proof. by destruct c. Qed.
Lemma sim_gets {A} (f : S -> A) : (forall s, P s -> f (upd s) = f s) -> sim P upd (mgets f) (mgets f).
Proof. intros Hf s Hs. unfold mgets. simpl. by rewrite Hf. Qed.
Lemma sim_modify f : (forall s, P s -> f (upd s) = upd (f s) /\ P (f s)) -> sim P upd (mmodify f) (mmodify f).
Proof. intros Hf s Hs. unfold mmodify. simpl. by destruct (Hf s Hs) as [-> ?]. Qed.

Lemma sim_bnd {A B} (m1 m2 : M S A) (k1 k2 : A -> M S B) :
  sim P upd m1 m2 -> (forall a, sim P upd (k1 a) (k2 a)) -> sim P upd (mbnd m1 k1) (mbnd m2 k2).
Proof.
  intros Hm Hk s Hs. destruct (Hm s Hs) as [E Hs1]. unfold mbnd. rewrite E. destruct (m1 s) as [s1 [a|e|]]; [|done..].
  by apply Hk.
Qed.
(** The rest may use what a pure call returned, *)
Lemma sim_bnd_lift {A B} (r : res A) (k1 k2 : A -> M S B) :
  (forall a, r = Ok a -> sim P upd (k1 a) (k2 a)) -> sim P upd (mbnd (mlift r) k1) (mbnd (mlift r) k2).
Proof. intros Hk s Hs. unfold mbnd, mlift. destruct r as [a|e|]; [|done..]. by apply Hk. Qed.
(** or the state it read. *)
Lemma sim_bnd_get {A} (k1 k2 : S -> M S A) :
  (forall s, P s -> sim P upd (k1 s) (k2 (upd s))) -> sim P upd (mbnd (mgets id) k1) (mbnd (mgets id) k2).
Proof. intros Hk s Hs. unfold mbnd, mgets, id. by apply Hk. Qed.

Lemma sim_wrap {A} e (m1 m2 : M S A) : sim P upd m1 m2 -> sim P upd (mwrap e m1) (mwrap e m2).
Proof. intros Hm s Hs. destruct (Hm s Hs) as [E Hs1]. unfold mwrap. rewrite E. by destruct (m1 s) as [s1 []]. Qed.
Lemma sim_must {A} (m1 m2 : M S A) : sim P upd m1 m2 -> sim P upd (mmust m1) (mmust m2).
Proof. intros Hm s Hs. destruct (Hm s Hs) as [E Hs1]. unfold mmust. rewrite E. by destruct (m1 s) as [s1 []]. Qed.
Lemma sim_try {A} (m1 m2 : M S A) : sim P upd m1 m2 -> sim P upd (mtry m1) (mtry m2).
Proof. intros Hm s Hs. destruct (Hm s Hs) as [E Hs1]. unfold mtry. rewrite E. by destruct (m1 s) as [s1 []]. Qed.
Lemma sim_for {A} (l : list A) (b1 b2 : A -> M S unit) :
  (forall x, sim P upd (b1 x) (b2 x)) -> sim P upd (mfor l b1) (mfor l b2).
Proof. intros Hb. induction l as [|x l IH]; cbn [mfor]; [apply sim_ret|]. by apply sim_bnd. Qed.
Lemma sim_fold {A B} (f1 f2 : B -> A -> M S B) b (l : list A) :
  (forall b x, sim P upd (f1 b x) (f2 b x)) -> sim P upd (mfold f1 b l) (mfold f2 b l).
Proof. intros Hf. revert b. induction l as [|x l IH]; intros b; cbn [mfold]; [apply sim_ret|]. by apply sim_bnd. Qed.
End Rules.

Ltac sim_step :=
  match goal with
  | |- sim _ _ (mbnd (mgets id) _) (mbnd (mgets id) _) => apply sim_bnd_get; intros ? ?; cbv beta
  | |- sim _ _ (mbnd (mlift ?r) _) (mbnd (mlift ?r') _) => change r' with r; apply sim_bnd_lift; intros ? ?
  | |- sim _ _ (mbnd _ _) (mbnd _ _) => apply sim_bnd; [|intros ?]
  | |- sim _ _ (mwrap _ _) (mwrap _ _) => apply sim_wrap
  | |- sim _ _ (mmust _) (mmust _) => apply sim_must
  | |- sim _ _ (mtry _) (mtry _) => apply sim_try
  | |- sim _ _ (mfor ?l _) (mfor ?l' _) => change l' with l; apply sim_for; intros ?
  | |- sim _ _ (mfold _ ?b ?l) (mfold _ ?b' ?l') => change b' with b; change l' with l; apply sim_fold; intros ? ?
  | |- sim _ _ (match ?x with _ => _ end) (match ?y with _ => _ end) => change y with x; destruct x eqn:?
  | |- sim _ _ (let _ := _ in _) _ => cbv zeta
  | |- sim _ _ ?m1 ?m2 =>
      change m2 with m1;
      first [apply sim_ret|apply sim_lift|apply sim_throw|apply sim_panic|apply sim_fail_if|solve [eauto with sim]]
  end.
Ltac simulate := repeat sim_step.

(** ** The bridge *)

Module BridgeReads.
Import EthBridge.
Section Reads.
Context {B O R : Type} `{SdkMath, SdkCoins, SdkAddress, EthCommon, IntText, !BankKeeper B, !AccountKeeper B, !OracleKeeper O,
  !TokenRegistry.TokenRegistryKeeper R}.
Variable r : R.
Abbreviation W := (BridgeWorld B O R).
(** Another registry with the same admin. *)
Abbreviation P := (fun w : W => forall a, TokenRegistry.trk_IsAdminAccount r a = TokenRegistry.trk_IsAdminAccount (bw_registry w) a).
Definition put_bridge_registry (w : W) : W := mkBridgeWorld (bw_store w) (bw_bank w) (bw_oracle w) r.
Abbreviation sim_ := (sim P put_bridge_registry).

Lemma sim_bridge_bank {A} (m : M B A) : sim_ (on_bank m) (on_bank m).
Proof. intros w Hw. unfold on_bank. cbn. by destruct (m (bw_bank w)) as [b x]. Qed.
Lemma sim_bridge_oracle {A} (m : M O A) : sim_ (on_oracle m) (on_oracle m).
Proof. intros w Hw. unfold on_oracle. cbn. by destruct (m (bw_oracle w)) as [o x]. Qed.
Lemma sim_bridge_store f : sim_ (upd_store f) (upd_store f).
Proof. by apply sim_modify. Qed.
#[local] Hint Resolve sim_bridge_bank sim_bridge_oracle sim_bridge_store : sim.

(** A bridge message runs the same way on every registry with the same admin. *)
Lemma bridge_reads_admin m : sim_ (Handler m) (Handler m).
Proof.
  destruct m as [m|m|m|m|m|m|m]; cbn [Handler];
    unfold CreateEthBridgeClaim, ProcessClaim, ProcessSuccessfulClaim, AddPeggyToken, Burn, ProcessBurn, Lock, ProcessLock,
      UpdateWhiteListValidator, ProcessUpdateWhiteListValidator, UpdateCethReceiverAccount, ProcessUpdateCethReceiverAccount,
      SetCethReceiverAccount, RescueCeth, ProcessRescueCeth, SetBlacklist_msg, SetBlacklist, upd_blacklist, sender_account;
    simulate.
  (* the guard of the blacklist message asks for the admin *)
  match goal with Hs : forall a, _ = _ |- _ => cbn; rewrite Hs end. apply sim_fail_if.
Qed.
End Reads.
End BridgeReads.

(** ** The exchange *)

(** The assets whose registry entry a message looks up. *)
Definition clp_names (m : Msg) : list string :=
  let symbol (x : option Asset) := match x with Some x => [Symbol x] | None => [] end in
  match m with
  | CreatePoolMsg m => symbol (Create_ExternalAsset m)
  | AddLiquidityMsg m => symbol (Add_ExternalAsset m)
  | RemoveLiquidityMsg m => symbol (Rem_ExternalAsset m)
  | SwapMsg m => symbol (SentAsset m) ++ symbol (ReceivedAsset m)
  | _ => []
  end.

Section ClpReads.
Context {B R : Type} `{SdkMath, SdkCoins, SdkAddress, SdkQuery, !BankKeeper B, !TokenRegistry.TokenRegistryKeeper R}.
Variable r : R.
Variable names : list string.
Abbreviation entry r d := (TokenRegistry.trk_GetEntry (TokenRegistry.trk_GetRegistry r) d).
(** Another registry with the same entries for the listed denominations. *)
Abbreviation P := (fun w : World B R => forall d, d ∈ names -> entry r d = entry (w_registry w) d).
Definition put_clp_registry (w : World B R) : World B R := mkWorld (w_clp w) (w_bank w) r.
Abbreviation sim_ := (sim P put_clp_registry).

Lemma sim_clp_bank {A} (m : M B A) : sim_ (on_bank m) (on_bank m).
Proof. intros w Hw. unfold on_bank. cbn. by destruct (m (w_bank w)) as [b x]. Qed.
Lemma sim_clp_store f : sim_ (upd_clp f) (upd_clp f).
Proof. by apply sim_modify. Qed.
Lemma sim_GetPool s : sim_ (GetPool s) (GetPool s).
Proof. by intros w. Qed.
Lemma sim_GetLiquidityProvider s a : sim_ (GetLiquidityProvider s a) (GetLiquidityProvider s a).
Proof. by intros w. Qed.
Lemma sim_kHasBalance a c : sim_ (kHasBalance a c) (kHasBalance a c).
Proof. by apply sim_gets. Qed.
Lemma sim_ParseToInt s : sim_ (ParseToInt s) (ParseToInt s).
Proof. unfold ParseToInt. simulate. Qed.
#[local] Hint Resolve sim_clp_bank sim_clp_store sim_GetPool sim_GetLiquidityProvider sim_kHasBalance sim_ParseToInt : sim.

Lemma sim_SetPool p : sim_ (SetPool p) (SetPool p).
Proof. unfold SetPool. simulate. Qed.
Lemma sim_SetLiquidityProvider lp : sim_ (SetLiquidityProvider lp) (SetLiquidityProvider lp).
Proof. unfold SetLiquidityProvider. simulate. Qed.
Lemma sim_DestroyPool s : sim_ (DestroyPool s) (DestroyPool s).
Proof. unfold DestroyPool. simulate. Qed.
#[local] Hint Resolve sim_SetPool sim_SetLiquidityProvider sim_DestroyPool : sim.

Lemma sim_RemoveLiquidity p ec nc lp l eb nb : sim_ (RemoveLiquidity p ec nc lp l eb nb) (RemoveLiquidity p ec nc lp l eb nb).
Proof. unfold RemoveLiquidity, DestroyLiquidityProvider. simulate. Qed.
Lemma sim_asymmetric_swap e f t a p fc tc : sim_ (asymmetric_swap e f t a p fc tc) (asymmetric_swap e f t a p fc tc).
Proof. unfold asymmetric_swap. simulate. Qed.
Lemma sim_refund s p acc lp : sim_ (refund s p acc lp) (refund s p acc lp).
Proof. unfold refund, RemoveLiquidityProvider, DestroyLiquidityProvider. simulate. Qed.
#[local] Hint Resolve sim_RemoveLiquidity sim_asymmetric_swap sim_refund : sim.

(** Looking up a listed denomination. *)
Lemma sim_clpEntry {A} d w (k1 k2 : TokenRegistry.RegistryEntry -> M (World B R) A) :
  P w -> d ∈ names -> (forall e, sim_ (k1 e) (k2 e)) ->
  sim_ (mbnd (mlift (clpEntry d w)) k1) (mbnd (mlift (clpEntry d (put_clp_registry w))) k2).
Proof.
  intros Hw Hd Hk. replace (clpEntry d (put_clp_registry w)) with (clpEntry d w).
  - apply sim_bnd_lift. intros e _. apply Hk.
  - unfold clpEntry. cbn. by rewrite (Hw d Hd).
Qed.

Ltac named Hn :=
  match goal with
  | Hd : deref ?x = Ok ?a |- Symbol ?a ∈ _ => apply Hn; rewrite (deref_ok _ _ Hd); set_solver
  end.
Ltac simulate_clp Hn :=
  repeat first [apply sim_clpEntry; [assumption|named Hn|intros ?]|sim_step].

(** A message of the exchange runs the same way on every registry that has the same entries
    for the denominations it names. *)
Lemma clp_reads_entries m : clp_names m ⊆ names -> sim_ (Handler m) (Handler m).
Proof.
  intros Hn. destruct m as [m|m|m|m|m|]; cbn [Handler clp_names] in *.
  - unfold CreatePool_msg, requireCLP, CreatePool, CreateLiquidityProvider. simulate_clp Hn.
  - unfold AddLiquidity_msg, requireCLP, AddLiquidity, CreateLiquidityProvider. simulate_clp Hn.
  - unfold RemoveLiquidity_msg, requireCLP. simulate_clp Hn.
  - unfold Swap, requireCLP, InitiateSwap, FinalizeSwap. simulate_clp Hn.
  - unfold DecommissionPool_msg, DecommissionPool. simulate_clp Hn.
  - simulate_clp Hn.
Qed.
End ClpReads.

(** ** Transfers *)

Section TransferReads.
Context {B R T : Type} `{SdkAddress, !BankKeeper B, !TokenRegistry.TokenRegistryKeeper R, !IbcTransfer.SDKTransferKeeper B T}.
Variable r : R.
Abbreviation entry r d := (TokenRegistry.trk_GetEntry (TokenRegistry.trk_GetRegistry r) d).
Definition put_ibc_registry (w : IbcTransfer.IbcWorld B R T) : IbcTransfer.IbcWorld B R T :=
  IbcTransfer.mkIbcWorld (IbcTransfer.iw_bank w) r (IbcTransfer.iw_transfer w).

(** A transfer runs the same way on every registry with the same entry for its coin. *)
Lemma transfer_reads_entry msg :
  sim (fun w => entry r (Coin_Denom (IbcTransfer.Tr_Token msg)) = entry (IbcTransfer.iw_registry w) (Coin_Denom (IbcTransfer.Tr_Token msg)))
    put_ibc_registry (IbcTransfer.Transfer msg) (IbcTransfer.Transfer msg).
Proof.
  unfold IbcTransfer.Transfer. apply sim_bnd_get. intros w Hw. cbv zeta. cbn [put_ibc_registry IbcTransfer.iw_registry]. rewrite Hw.
  simulate. intros w' Hw'. unfold IbcTransfer.on_transfer. cbn. by destruct (IbcTransfer.tk_Transfer _ _) as [bt x].
Qed.
End TransferReads.
