(* ===== verification/App.v ===== *)
(** * app/app.go: the modules on one state

    [NewAkhiraApp] gives every keeper its own store, and all of them the same bank; x/clp,
    x/ethbridge and x/ibctransfer read the store of x/tokenregistry, and x/ethbridge writes
    the store of x/oracle.  [App] is that state, [deliver] the routing of a message to the
    handler of its module, [InitGenesis] and [ExportGenesis] those of the module manager.

    The theorems are about the whole application: what each module keeps true of its own part
    survives the messages of all the others, and a chain restarted from its own export goes
    on with the same state. *)

From Stdlib Require Import ZArith Lia Ascii String.
From stdpp Require Import base list gmap strings.
From S2P Require Import Prelude SdkMath Sdk Frames TokenRegistry ClpTypes ClpCalc ClpKeeper ClpMsgServer ClpGenesis Oracle OracleGenesis EthBridge Dispensation IbcTransfer AppFrames RegReads.

Module App.
#[local] Existing Instances TokenRegistry.Keeper Oracle.StatusText_eq_dec.

(** ** The tables of app.go *)

Definition Minter : string := "minter".
Definition Burner : string := "burner".
Definition Staking : string := "staking".

(** The module accounts with their permissions; the first seven are modules of the SDK. *)
Definition maccPerms : list (string * list string) :=
  [("fee_collector", []); ("distribution", []); ("mint", [Minter]);
   ("bonded_tokens_pool", [Burner; Staking]); ("not_bonded_tokens_pool", [Burner; Staking]);
   ("gov", [Burner; Staking]); ("transfer", [Minter; Burner]);
   (IbcTransfer.ModuleName, [Minter; Burner]); (EthBridge.ModuleName, [Minter; Burner]);
   (ClpTypes.ModuleName, [Burner; Minter]); (Dispensation.ModuleName, [Burner; Minter])].

Definition ModuleAccountAddrs `{SdkAddress} : list string := (fun kv => AccAddress_String (NewModuleAddress kv.1)) <$> maccPerms.
Definition module_accounts `{SdkAddress} : list string := (fun kv => NewModuleAddress kv.1) <$> maccPerms.

(** [app.mm.SetOrderInitGenesis]: the modules of the SDK, then the chain's own. *)
Definition sdk_modules : list string :=
  ["capability"; "auth"; "bank"; "distribution"; "staking"; "slashing"; "gov"; "mint"; "crisis"; "ibc"; "genutil";
   "evidence"; "transfer"; "feegrant"].
Definition own_modules : list string :=
  [ClpTypes.ModuleName; "oracle"; EthBridge.ModuleName; Dispensation.ModuleName; "tokenregistry"].
Definition OrderInitGenesis : list string := sdk_modules ++ own_modules.

(** [SetOrderBeginBlockers] and [SetOrderEndBlockers]. *)
Definition OrderBeginBlockers : list string :=
  ["upgrade"; "capability"; "mint"; "distribution"; "slashing"; "evidence"; "staking"; "ibc"].
Definition OrderEndBlockers : list string := ["crisis"; "gov"; "staking"; "feegrant"].

(** None of the chain's own modules runs at a block's boundary. *)
Example own_modules_idle :
  forallb (fun m => negb (existsb (String.eqb m) (OrderBeginBlockers ++ OrderEndBlockers))) own_modules = true.
Proof. reflexivity. Qed.

(** ** The state and what each keeper sees of it *)

Record App (B S T : Type) := mkApp {
  app_bank : B;
  app_staking : S;
  app_transfer : T;
  app_registry : TokenRegistry.RegStore;
  app_clp : ClpStore;
  app_oracle : Oracle.OracleStore;
  app_bridge : EthBridge.BridgeStore;
  app_disp : Dispensation.DispStore;
}.
Arguments mkApp {_ _ _} _ _ _ _ _ _ _ _.
Arguments app_bank {_ _ _} _.
Arguments app_staking {_ _ _} _.
Arguments app_transfer {_ _ _} _.
Arguments app_registry {_ _ _} _.
Arguments app_clp {_ _ _} _.
Arguments app_oracle {_ _ _} _.
Arguments app_bridge {_ _ _} _.
Arguments app_disp {_ _ _} _.

(** Run an operation of a keeper on the part of the state it sees. *)
Definition zoom {A W X} (get : A -> W) (put : A -> W -> A) (m : M W X) : M A X :=
  fun a => match m (get a) with (w, r) => (put a w, r) end.

Lemma zoom_ok {A W X} (get : A -> W) (put : A -> W -> A) (m : M W X) a a' x :
  zoom get put m a = (a', Ok x) -> exists w, m (get a) = (w, Ok x) /\ a' = put a w.
Proof. unfold zoom. destruct (m (get a)) as [w r]. intros [= <- ->]. eauto. Qed.

Lemma zoom_mfor {A W X} (get : A -> W) (put : A -> W -> A) (f : X -> M W unit) (l : list X) :
  (forall a w, get (put a w) = w) -> (forall a w w', put (put a w) w' = put a w') -> (forall a, put a (get a) = a) ->
  forall a, mfor l (fun x => zoom get put (f x)) a = zoom get put (mfor l f) a.
Proof.
  intros Hgp Hpp Hpg. induction l as [|x l IH]; intros a; cbn [mfor].
  - unfold zoom, mret. by rewrite Hpg.
  - unfold mbnd at 1. unfold zoom at 1. unfold zoom, mbnd in *. destruct (f x (get a)) as [w [u|e|]]; [|done..].
    rewrite IH, Hgp. destruct (mfor l f w) as [w' r]. by rewrite Hpp.
Qed.

Section Views.
Context {B S T : Type}.
Abbreviation App := (App B S T).

Definition clp_view (a : App) : World B TokenRegistry.RegStore := mkWorld (app_clp a) (app_bank a) (app_registry a).
Definition put_clp (a : App) (w : World B TokenRegistry.RegStore) : App :=
  mkApp (w_bank w) (app_staking a) (app_transfer a) (w_registry w) (w_clp w) (app_oracle a) (app_bridge a) (app_disp a).

Definition put_bank (a : App) (b : B) : App :=
  mkApp b (app_staking a) (app_transfer a) (app_registry a) (app_clp a) (app_oracle a) (app_bridge a) (app_disp a).
Definition put_registry (a : App) (r : TokenRegistry.RegStore) : App :=
  mkApp (app_bank a) (app_staking a) (app_transfer a) r (app_clp a) (app_oracle a) (app_bridge a) (app_disp a).
Definition put_oracle (a : App) (o : Oracle.OracleStore) : App :=
  mkApp (app_bank a) (app_staking a) (app_transfer a) (app_registry a) (app_clp a) o (app_bridge a) (app_disp a).

Definition bridge_view (a : App) : EthBridge.BridgeWorld B (Oracle.OracleStore * S) TokenRegistry.RegStore :=
  EthBridge.mkBridgeWorld (app_bridge a) (app_bank a) (app_oracle a, app_staking a) (app_registry a).
Definition put_bridge (a : App) (w : EthBridge.BridgeWorld B (Oracle.OracleStore * S) TokenRegistry.RegStore) : App :=
  mkApp (EthBridge.bw_bank w) (EthBridge.bw_oracle w).2 (app_transfer a) (EthBridge.bw_registry w) (app_clp a)
    (EthBridge.bw_oracle w).1 (EthBridge.bw_store w) (app_disp a).

Definition disp_view (a : App) : Dispensation.DispWorld B := Dispensation.mkDispWorld (app_disp a) (app_bank a).
Definition put_disp (a : App) (w : Dispensation.DispWorld B) : App :=
  mkApp (Dispensation.dw_bank w) (app_staking a) (app_transfer a) (app_registry a) (app_clp a) (app_oracle a) (app_bridge a)
    (Dispensation.dw_store w).

Definition ibc_view (a : App) : IbcTransfer.IbcWorld B TokenRegistry.RegStore T :=
  IbcTransfer.mkIbcWorld (app_bank a) (app_registry a) (app_transfer a).
Definition put_ibc (a : App) (w : IbcTransfer.IbcWorld B TokenRegistry.RegStore T) : App :=
  mkApp (IbcTransfer.iw_bank w) (app_staking a) (IbcTransfer.iw_transfer w) (IbcTransfer.iw_registry w) (app_clp a)
    (app_oracle a) (app_bridge a) (app_disp a).

(** The state of the SDK's own modules. *)
Definition sdk_view (a : App) : B * S * T := (app_bank a, app_staking a, app_transfer a).
Definition put_sdk (a : App) (x : B * S * T) : App :=
  mkApp x.1.1 x.1.2 x.2 (app_registry a) (app_clp a) (app_oracle a) (app_bridge a) (app_disp a).
End Views.

(** ** Messages *)

Inductive AppMsg :=
| RegistryMsg (m : TokenRegistry.Msg)
| ClpMsg (m : ClpTypes.Msg)
| BridgeMsg (m : EthBridge.Msg)
| DispMsg (m : Dispensation.Msg)
| TransferMsg (m : IbcTransfer.MsgTransfer).

(** The genesis file: the SDK's part [G], and one entry per module of the chain that is in it. *)
Record GenesisState (G : Type) := mkGenesis {
  gs_sdk : G;
  gs_clp : option ClpTypes.GenesisState;
  gs_oracle : option Oracle.GenesisState;
  gs_bridge : option EthBridge.GenesisState;
  gs_disp : option Dispensation.GenesisState;
  gs_registry : option TokenRegistry.GenesisState;
}.
Arguments mkGenesis {_} _ _ _ _ _ _.
Arguments gs_sdk {_} _.
Arguments gs_clp {_} _.
Arguments gs_oracle {_} _.
Arguments gs_bridge {_} _.
Arguments gs_disp {_} _.
Arguments gs_registry {_} _.

(** The genesis functions of the SDK's modules, one for each name, and their state before. *)
Class SdkGenesis (G B S T : Type) := {
  sdk_InitGenesis : string -> G -> M (B * S * T) unit;
  sdk_ExportGenesis : B * S * T -> G;
  sdk_empty : B * S * T;
}.

(** A chain can be started from an export of the SDK's modules, and balances are part of it. *)
Class SdkGenesisLaws (G B S T : Type) `{BankKeeper B, !SdkGenesis G B S T} : Prop := {
  sdk_restart x : exists y, mfor sdk_modules (fun name => sdk_InitGenesis name (sdk_ExportGenesis x)) sdk_empty = (y, Ok tt)
    /\ forall a d, GetBalance y.1.1 a d = GetBalance x.1.1 a d;
}.

(** x/ethbridge registers its account with its permissions before its genesis is read. *)
Class ModuleAccountKeeper (B : Type) := { SetModuleAccount : string -> list string -> B -> B }.
Class ModuleAccountKeeperLaws (B : Type) `{BankKeeper B, !ModuleAccountKeeper B} : Prop := {
  SetModuleAccount_balance n perms (b : B) a d : GetBalance (SetModuleAccount n perms b) a d = GetBalance b a d;
}.

Section Wiring.
Context {G B S V T : Type} `{SdkMath, SdkCoins, SdkAddress, SdkQuery, EthBridge.EthCommon, EthBridge.IntText, Dispensation.GogoTypes,
  IbcTransfer.IbcTypes, !BankKeeper B, !EthBridge.AccountKeeper B, !Oracle.StakingKeeper S V, !Oracle.MapOrder,
  !IbcTransfer.SDKTransferKeeper B T, !SdkGenesis G B S T, !ModuleAccountKeeper B}.
Abbreviation App := (App B S T).
Abbreviation AM := (M App).

(** The bridge's oracle keeper is the one of x/oracle, with the default share of the power. *)
#[local] Instance oracle_keeper : EthBridge.OracleKeeper (Oracle.OracleStore * S) :=
  EthBridge.OracleService Oracle.DefaultConsensusNeeded.

Definition registry_ValidateBasic (m : TokenRegistry.Msg) : res unit :=
  match m with
  | TokenRegistry.Msg_Register m => TokenRegistry.MsgRegister_ValidateBasic m
  | TokenRegistry.Msg_SetRegistry m => TokenRegistry.MsgSetRegistry_ValidateBasic m
  | TokenRegistry.Msg_Deregister m => TokenRegistry.MsgDeregister_ValidateBasic m
  | TokenRegistry.Msg_Unknown _ => Ok tt
  end.

(** The message as its check leaves it. *)
Definition ValidateBasic (m : AppMsg) : res AppMsg :=
  match m with
  | RegistryMsg r => let! _ := registry_ValidateBasic r in Ok m
  | ClpMsg c => let! _ := ClpTypes.ValidateBasic c in Ok m
  | BridgeMsg b => let! _ := EthBridge.ValidateBasic b in Ok m
  | DispMsg d => let! d := Dispensation.ValidateBasic d in Ok (DispMsg d)
  | TransferMsg _ => Ok m
  end.

Definition GetSigners (m : AppMsg) : res (list string) :=
  match m with
  | RegistryMsg (TokenRegistry.Msg_Register m) => TokenRegistry.MsgRegister_GetSigners m
  | RegistryMsg (TokenRegistry.Msg_SetRegistry m) => TokenRegistry.MsgSetRegistry_GetSigners m
  | RegistryMsg (TokenRegistry.Msg_Deregister m) => TokenRegistry.MsgDeregister_GetSigners m
  | RegistryMsg (TokenRegistry.Msg_Unknown _) => Ok []
  | ClpMsg (CreatePoolMsg m) => MsgCreatePool_GetSigners m
  | ClpMsg (AddLiquidityMsg m) => MsgAddLiquidity_GetSigners m
  | ClpMsg (RemoveLiquidityMsg m) => MsgRemoveLiquidity_GetSigners m
  | ClpMsg (SwapMsg m) => MsgSwap_GetSigners m
  | ClpMsg (DecommissionPoolMsg m) => MsgDecommissionPool_GetSigners m
  | ClpMsg UnknownMsg => Ok []
  | BridgeMsg (EthBridge.CreateMsg m) => EthBridge.MsgCreateEthBridgeClaim_GetSigners m
  | BridgeMsg (EthBridge.BurnMsg m) => EthBridge.MsgBurn_GetSigners m
  | BridgeMsg (EthBridge.LockMsg m) => EthBridge.MsgLock_GetSigners m
  | BridgeMsg (EthBridge.UpdateWhiteListMsg m) => EthBridge.MsgUpdateWhiteListValidator_GetSigners m
  | BridgeMsg (EthBridge.UpdateCethReceiverMsg m) => EthBridge.MsgUpdateCethReceiverAccount_GetSigners m
  | BridgeMsg (EthBridge.RescueMsg m) => EthBridge.MsgRescueCeth_GetSigners m
  | BridgeMsg (EthBridge.BlacklistMsg m) => EthBridge.MsgSetBlacklist_GetSigners m
  | DispMsg m => Dispensation.GetSigners m
  | TransferMsg m => let! a := panicOnErr (AccAddressFromBech32 (IbcTransfer.Tr_Sender m)) in Ok [a]
  end.

(** The routes of [RegisterRoutes] and [RegisterServices]: each module's handler on the
    keeper it was given. *)
Definition deliver (ctx : Dispensation.Context) (m : AppMsg) : AM unit :=
  match m with
  | RegistryMsg m => zoom app_registry put_registry (TokenRegistry.Handler m)
  | ClpMsg m => zoom clp_view put_clp (Handler m)
  | BridgeMsg m => zoom bridge_view put_bridge (EthBridge.Handler m)
  | DispMsg m => zoom disp_view put_disp (Dispensation.Handler ctx m)
  | TransferMsg m => zoom ibc_view put_ibc (IbcTransfer.Transfer m)
  end.

(** The migration that x/tokenregistry registers, which the upgrade handler runs. *)
Definition migrate_registry : AM unit := zoom app_registry put_registry TokenRegistry.MigrateToVer2.

(** The IBC router's route for the port of the transfer module. *)
Definition OnRecvPacket (packet : IbcTransfer.Packet) : AM IbcTransfer.Acknowledgement :=
  zoom ibc_view put_ibc (IbcTransfer.OnRecvPacketWhitelistConvert packet).

(** ** Genesis *)

Definition init_if {X} (g : option X) (m : X -> AM unit) : AM unit :=
  match g with Some x => m x | None => mret tt end.

(** [InitGenesis] of each module of the chain. *)
Definition clp_InitGenesis (d : ClpTypes.GenesisState) : AM unit := zoom clp_view put_clp (ClpKeeper.InitGenesis d).
Definition oracle_InitGenesis (d : Oracle.GenesisState) : AM unit := zoom app_oracle put_oracle (Oracle.InitGenesis d).
Definition bridge_InitGenesis (d : EthBridge.GenesisState) : AM unit :=
  run! zoom app_bank put_bank (mmodify (SetModuleAccount EthBridge.ModuleName [Burner; Minter]));
  zoom bridge_view put_bridge (EthBridge.InitGenesis d).
Definition disp_InitGenesis (d : Dispensation.GenesisState) : AM unit := zoom disp_view put_disp (Dispensation.InitGenesis d).
Definition registry_InitGenesis (d : TokenRegistry.GenesisState) : AM unit :=
  zoom app_registry put_registry (TokenRegistry.InitGenesis d).

(** The loop of the module manager: a module that the file does not mention is skipped. *)
Definition InitModule (g : GenesisState G) (name : string) : AM unit :=
  if String.eqb name ClpTypes.ModuleName then init_if (gs_clp g) clp_InitGenesis
  else if String.eqb name "oracle" then init_if (gs_oracle g) oracle_InitGenesis
  else if String.eqb name EthBridge.ModuleName then init_if (gs_bridge g) bridge_InitGenesis
  else if String.eqb name Dispensation.ModuleName then init_if (gs_disp g) disp_InitGenesis
  else if String.eqb name "tokenregistry" then init_if (gs_registry g) registry_InitGenesis
  else zoom sdk_view put_sdk (sdk_InitGenesis name (gs_sdk g)).

Definition InitGenesis (g : GenesisState G) : AM unit := mfor OrderInitGenesis (InitModule g).

Definition clp_ExportGenesis (a : App) : res ClpTypes.GenesisState := ClpKeeper.ExportGenesis (clp_view a).
Definition oracle_ExportGenesis (a : App) : res Oracle.GenesisState := Oracle.ExportGenesis (app_oracle a).
Definition bridge_ExportGenesis (a : App) : EthBridge.GenesisState := EthBridge.ExportGenesis (bridge_view a).
Definition disp_ExportGenesis (a : App) : res Dispensation.GenesisState := Dispensation.ExportGenesis (disp_view a).
Definition registry_ExportGenesis (a : App) : TokenRegistry.GenesisState := TokenRegistry.ExportGenesis (app_registry a).

Definition ExportGenesis (a : App) : res (GenesisState G) :=
  let! c := clp_ExportGenesis a in
  let! o := oracle_ExportGenesis a in
  let! d := disp_ExportGenesis a in
  Ok (mkGenesis (sdk_ExportGenesis (sdk_view a)) (Some c) (Some o) (Some (bridge_ExportGenesis a)) (Some d)
        (Some (registry_ExportGenesis a))).

(** The stores of a chain that has not started. *)
Definition empty_app : App :=
  mkApp sdk_empty.1.1 sdk_empty.1.2 sdk_empty.2 (TokenRegistry.mkRegStore None None) (mkClpStore ∅ ∅ None DefaultParams) (Oracle.mkOracleStore None None ∅)
    (EthBridge.mkBridgeStore None None ∅) (Dispensation.mkDispStore ∅ ∅ ∅).
End Wiring.

(** ** The invariant of the application *)

(** Different names of module accounts have different addresses. *)
Class ModuleAccountLaws `{SdkAddress} : Prop := { module_accounts_distinct : NoDup module_accounts }.

Section Invariant.
Context {G B S V T : Type} `{SdkMathLaws, SdkCoinsLaws, SdkAddressLaws, !AddressTextLaws, !ModuleAccountLaws, SdkQueryLaws,
  EthBridge.EthCommonLaws, EthBridge.IntTextLaws, Dispensation.GogoTypes, IbcTransfer.IbcTypes, !BankKeeper B, !BankLaws B,
  !BankValidLaws B, !EthBridge.AccountKeeper B, !Oracle.StakingKeeper S V, !Oracle.StakingLaws S V, Oracle.MapOrderLaws,
  !IbcTransfer.SDKTransferKeeper B T, !TransferKeeperLaws B T, !SdkGenesis G B S T, !SdkGenesisLaws G B S T,
  !ModuleAccountKeeper B, !ModuleAccountKeeperLaws B}.
Abbreviation App := (App B S T).
Implicit Types a : App.
#[local] Existing Instance oracle_keeper.

Lemma default_share_positive : Oracle.positive Oracle.DefaultConsensusNeeded.
Proof. reflexivity. Qed.
#[local] Instance oracle_keeper_laws : EthBridge.OracleKeeperLaws (Oracle.OracleStore * S) :=
  EthBridge.OracleService_laws Oracle.DefaultConsensusNeeded default_share_positive.

(** The signers of a message are not module accounts: those have no key to sign with. *)
Definition authentic (m : AppMsg) : Prop :=
  exists ss, GetSigners m = Ok ss /\ forall s, s ∈ ss -> s ∉ module_accounts.

(** What an asymmetric withdrawal of the exchange may leave unbacked, by denomination. *)
Definition msg_dust (m : AppMsg) (a : App) (d : string) : Z :=
  match m with
  | ClpMsg (RemoveLiquidityMsg r) => if String.eqb (dust_denom r) d then removal_dust r (clp_view a) else 0
  | _ => 0
  end.

(** The two accounts whose coins back what a module records. *)
Definition backing_accounts : list string := [GetCLPModuleAddress; Dispensation.GetDistributionModuleAddress].

Definition clp_exportable (s : ClpStore) : Prop :=
  map_Forall wf_pool_entry (clp_pools s) /\ map_Forall wf_lp_entry (clp_lps s)
  /\ (exists l, l <> [] /\ Forall (fun x => x <> "") l /\ clp_whitelist s = Some (AccAddress_String <$> l))
  /\ MinCreatePoolThreshold (clp_params s) <> 0.

(** What holds of every module's part, where [D] bounds what the pools may lack. *)
Record app_ok (a : App) (D : string -> Z) : Prop := {
  ok_pools : wf_pools (clp_view a);
  ok_slack : forall d, - D d <= slack (clp_view a) d;
  ok_clp : clp_exportable (app_clp a);
  ok_disp : Dispensation.disp_ok (disp_view a);
  ok_oracle : exportable (app_oracle a);
  ok_entries : forallb TokenRegistry.is_entry (TokenRegistry.Entries (TokenRegistry.GetRegistry (app_registry a))) = true;
  ok_admin : TokenRegistry.reg_admin (app_registry a) <> Some "";
  ok_tokens : NoDup (EthBridge.GetPeggyToken (bridge_view a));
}.

(** *** The accounts of the modules *)

Lemma module_account m : existsb (String.eqb m) maccPerms.*1 = true -> NewModuleAddress m ∈ module_accounts.
Proof.
  intros (n & Hin%list_elem_of_In & <-%String.eqb_eq)%existsb_exists. apply list_elem_of_fmap in Hin as (kv & -> & Hkv).
  apply list_elem_of_fmap. by exists kv.
Qed.

Lemma module_account_ne m n :
  existsb (String.eqb m) maccPerms.*1 = true -> existsb (String.eqb n) maccPerms.*1 = true -> m <> n ->
  NewModuleAddress m <> NewModuleAddress n.
Proof.
  intros (m' & Hm%list_elem_of_In & <-%String.eqb_eq)%existsb_exists (n' & Hn%list_elem_of_In & <-%String.eqb_eq)%existsb_exists Hne E.
  apply list_elem_of_lookup in Hm as (i & Hi), Hn as (j & Hj). pose proof module_accounts_distinct as Hnd.
  rewrite NoDup_alt in Hnd. unfold module_accounts in Hnd.
  rewrite list_lookup_fmap in Hi, Hj. apply fmap_Some in Hi as (x & Hi & ->), Hj as (y & Hj & ->).
  apply Hne. enough (i = j) as -> by congruence. apply (Hnd i j (NewModuleAddress x.1)).
  - by rewrite list_lookup_fmap, Hi.
  - rewrite list_lookup_fmap, Hj. simpl. by rewrite E.
Qed.

(** *** Activity that leaves the backing accounts alone *)

Definition unbacking (x : string) : Prop := x ∉ backing_accounts.

Lemma spared_backing (P : string -> Prop) (b b' : B) x d :
  spared P b b' -> (forall y, P y -> unbacking y) -> x ∈ backing_accounts -> GetBalance b x d <= GetBalance b' x d.
Proof. intros Hs HP Hx. apply Hs. intros Hp. by apply HP in Hp. Qed.

Lemma slack_bank (w : World B TokenRegistry.RegStore) (b : B) (r : TokenRegistry.RegStore) d :
  (forall d, GetBalance (w_bank w) GetCLPModuleAddress d <= GetBalance b GetCLPModuleAddress d) ->
  slack w d <= slack (mkWorld (w_clp w) b r) d.
Proof. intros Hb. specialize (Hb d). unfold slack. simpl. lia. Qed.

Lemma disp_ok_bank (w : Dispensation.DispWorld B) b :
  (forall d, GetBalance (Dispensation.dw_bank w) Dispensation.GetDistributionModuleAddress d
             <= GetBalance b Dispensation.GetDistributionModuleAddress d) ->
  Dispensation.disp_ok w -> Dispensation.disp_ok (Dispensation.mkDispWorld (Dispensation.dw_store w) b).
Proof. intros Hb [Hr Hs Hd Hc]. split; [done| |done|done]. intros d. etrans; [apply Hs|apply Hb]. Qed.

Lemma app_ok_bank a D b s t :
  app_ok a D -> spared unbacking (app_bank a) b ->
  app_ok (mkApp b s t (app_registry a) (app_clp a) (app_oracle a) (app_bridge a) (app_disp a)) D.
Proof.
  intros [Hp Hs Hc Hd Ho He Ha Ht] Hb.
  assert (forall x d, x ∈ backing_accounts -> GetBalance (app_bank a) x d <= GetBalance b x d) as Hb'.
  { intros x d Hx. by eapply spared_backing. }
  split; try done.
  - intros d. etrans; [apply Hs|]. apply slack_bank. intros d'. apply Hb'. by left.
  - apply (disp_ok_bank (disp_view a)); [|done]. intros d. apply Hb'. by right; left.
Qed.

(** *** Messages *)

Lemma signer_authentic m text :
  authentic m -> (forall ss, GetSigners m = Ok ss -> forall x, AccAddressFromBech32 text = Ok x -> x ∈ ss) ->
  forall x, AccAddressFromBech32 text = Ok x -> x ∉ module_accounts.
Proof. intros (ss & Hss & Hout) Htext x Hx. by eapply Hout, Htext. Qed.

Lemma one_signer text ss :
  (let! a := panicOnErr (AccAddressFromBech32 text) in Ok [a]) = Ok ss ->
  forall x, AccAddressFromBech32 text = Ok x -> x ∈ ss.
Proof. intros Hs x Hx. rewrite Hx in Hs. injection Hs as <-. by left. Qed.

Lemma no_signer (ss : list string) x : AccAddressFromBech32 "" = Ok x -> x ∈ ss.
Proof. intros Hx. pose proof AccAddress_empty_text as He. by rewrite Hx in He. Qed.

Lemma clp_signer m :
  authentic (ClpMsg m) -> forall x, AccAddressFromBech32 (Msg_Signer m) = Ok x -> x ∉ module_accounts.
Proof.
  intros Ha. apply (signer_authentic _ _ Ha). intros ss Hss. destruct m; first [by apply no_signer|by apply one_signer].
Qed.
Lemma bridge_signer m :
  authentic (BridgeMsg m) -> forall x, AccAddressFromBech32 (Bridge.spender m) = Ok x -> x ∉ module_accounts.
Proof.
  intros Ha. apply (signer_authentic _ _ Ha). intros ss Hss. destruct m; first [by apply no_signer|by apply one_signer].
Qed.
Lemma disp_signer m :
  authentic (DispMsg m) -> forall x, AccAddressFromBech32 (Disp.spender m) = Ok x -> x ∉ module_accounts.
Proof. intros Ha. apply (signer_authentic _ _ Ha). intros ss Hss. destruct m; by apply one_signer. Qed.
Lemma transfer_signer m :
  authentic (TransferMsg m) -> forall x, AccAddressFromBech32 (IbcTransfer.Tr_Sender m) = Ok x -> x ∉ module_accounts.
Proof. intros Ha. apply (signer_authentic _ _ Ha). intros ss Hss. by apply one_signer. Qed.

Lemma clp_account : GetCLPModuleAddress ∈ module_accounts.
Proof. by apply module_account. Qed.
Lemma disp_account : Dispensation.GetDistributionModuleAddress ∈ module_accounts.
Proof. by apply module_account. Qed.

Lemma outside_backing x : x ∉ module_accounts -> unbacking x.
Proof.
  intros Hx [->|[->|[]%elem_of_nil]%elem_of_cons]%elem_of_cons; [by apply Hx, clp_account|by apply Hx, disp_account].
Qed.
Lemma other_module m :
  existsb (String.eqb m) maccPerms.*1 = true -> m <> ClpTypes.ModuleName -> m <> Dispensation.ModuleName ->
  unbacking (NewModuleAddress m).
Proof.
  intros Hm H1' H2' [E|[E|[]%elem_of_nil]%elem_of_cons]%elem_of_cons; revert E; by apply module_account_ne.
Qed.

(** A debit of a module's own account or of a signer does not touch the other module's account. *)
Lemma debits_spare (m : string) (text : string) (b b' : B) x d :
  spared (fun y => y = NewModuleAddress m \/ AccAddressFromBech32 text = Ok y) b b' ->
  (forall y, AccAddressFromBech32 text = Ok y -> y ∉ module_accounts) ->
  x ∈ backing_accounts -> x <> NewModuleAddress m -> GetBalance b x d <= GetBalance b' x d.
Proof.
  intros Hs Ht Hx Hne. apply Hs. intros [->|Ha]; [done|]. by apply (outside_backing x (Ht _ Ha)).
Qed.

Lemma clp_disp_ne : GetCLPModuleAddress <> Dispensation.GetDistributionModuleAddress.
Proof. by apply module_account_ne. Qed.

Lemma deliver_clp_ok ctx m a a' D u :
  app_ok a D -> ClpTypes.ValidateBasic m = Ok tt -> authentic (ClpMsg m) -> deliver ctx (ClpMsg m) a = (a', Ok u) ->
  app_ok a' (fun d => D d + msg_dust (ClpMsg m) a d).
Proof.
  intros [Hp Hs Hc Hd Ho He Ha Ht] Hv Hau (w & Hr & ->)%zoom_ok. pose proof (clp_signer _ Hau) as Hsig.
  destruct (Handler_sound _ _ _ _ Hr Hv) as [Hp' Hs']; [|done|].
  { intros x Hx ->. by apply (Hsig _ Hx), clp_account. }
  destruct (Handler_keeps_entries _ _ _ _ Hr) as (Hpe & Hle & Hw & Hq & Hreg).
  pose proof (clp_Handler_spares _ _ _ _ Hr) as Hsp. cbn in Hpe, Hle, Hw, Hq, Hreg, Hsp.
  destruct w as [st b r]. simpl in *. subst r. split; try done.
  - intros d. specialize (Hs d). specialize (Hs' d). etrans; [|exact Hs']. unfold msg_dust. destruct m; lia.
  - destruct Hc as (Hc1 & Hc2 & Hc3 & Hc4). split_and!; [auto|auto|cbn; by rewrite Hw|cbn; by rewrite Hq].
  - apply (disp_ok_bank (disp_view a)); [|done]. intros d. eapply (debits_spare ClpTypes.ModuleName); [done|done|by right; left|].
    apply not_eq_sym, clp_disp_ne.
Qed.

Lemma deliver_registry_ok ctx m a a' D u :
  app_ok a D -> deliver ctx (RegistryMsg m) a = (a', Ok u) -> app_ok a' D.
Proof.
  intros [Hp Hs Hc Hd Ho He Ha Ht] (r & Hr & ->)%zoom_ok. split; try done.
  - apply (TokenRegistry.Handler_stored _ _ _ _ Hr).
  - simpl. by destruct (TokenRegistry.Handler_stored _ _ _ _ Hr) as [-> _].
Qed.

(** The bridge keeps the oracle's store exportable. *)
Section BridgeOracle.
Abbreviation BW := (EthBridge.BridgeWorld B (Oracle.OracleStore * S) TokenRegistry.RegStore).
Abbreviation R_ := (fun w w' : BW => exportable (EthBridge.bw_oracle w).1 -> exportable (EthBridge.bw_oracle w').1).

#[local] Instance oracle_preorder : PreOrder R_.
Proof. split; [by intros w|]. intros w1 w2 w3 H1' H2'. auto. Qed.

Lemma oracle_on_bank {A} (m : M B A) : respects R_ (EthBridge.on_bank m).
Proof. by intros w w' x (b & _ & ->)%EthBridge.bridge_bank_ok. Qed.
Lemma oracle_upd_store f : respects R_ (EthBridge.upd_store f).
Proof. by apply respects_modify. Qed.
Lemma oracle_ProcessClaim claim : respects R_ (EthBridge.on_oracle (EthBridge.ok_ProcessClaim claim)).
Proof.
  intros w w' x (o & Hr & ->)%EthBridge.bridge_oracle_ok Hw. simpl.
  apply (EthBridge.on_store_inv (fun st => Oracle.ProcessClaim _ st claim)) in Hr as [Hr _].
  eapply ProcessClaim_exportable; [apply default_share_positive|exact Hw|exact Hr].
Qed.
Lemma oracle_UpdateWhiteList x text v op :
  ValAddressFromBech32 text = Ok v -> respects R_ (EthBridge.on_oracle (EthBridge.ok_ProcessUpdateWhiteListValidator x v op)).
Proof.
  intros Hv w w' u (o & Hr & ->)%EthBridge.bridge_oracle_ok Hw. simpl.
  apply (EthBridge.on_store_inv (fun _ => Oracle.ProcessUpdateWhiteListValidator x v op)) in Hr as [Hr _].
  eapply ProcessUpdateWhiteListValidator_exportable; [by eapply ValAddress_nonempty|exact Hw|exact Hr].
Qed.
#[local] Hint Resolve oracle_on_bank oracle_upd_store oracle_ProcessClaim : respects.

Lemma oracle_sender_account t e : respects R_ (EthBridge.sender_account t e).
Proof. unfold EthBridge.sender_account. respect. Qed.
#[local] Hint Resolve oracle_sender_account : respects.

Lemma bridge_keeps_exportable m : respects R_ (EthBridge.Handler m).
Proof.
  destruct m as [m|m|m|m|m|m|m]; cbn [EthBridge.Handler].
  - unfold EthBridge.CreateEthBridgeClaim, EthBridge.ProcessClaim, EthBridge.ProcessSuccessfulClaim, EthBridge.AddPeggyToken.
    respect.
  - unfold EthBridge.Burn, EthBridge.ProcessBurn. respect.
  - unfold EthBridge.Lock, EthBridge.ProcessLock. respect.
  - unfold EthBridge.UpdateWhiteListValidator, EthBridge.ProcessUpdateWhiteListValidator. respect.
    match goal with H' : rwrap _ _ = Ok _ |- _ => apply rwrap_ok_inv in H'; by apply (oracle_UpdateWhiteList _ _ _ _ H') end.
  - unfold EthBridge.UpdateCethReceiverAccount, EthBridge.ProcessUpdateCethReceiverAccount, EthBridge.SetCethReceiverAccount.
    respect.
  - unfold EthBridge.RescueCeth, EthBridge.ProcessRescueCeth. respect.
  - unfold EthBridge.SetBlacklist_msg, EthBridge.SetBlacklist, EthBridge.upd_blacklist. respect.
Qed.
End BridgeOracle.

Lemma bridge_account_unbacking : unbacking (NewModuleAddress EthBridge.ModuleName).
Proof. by apply other_module. Qed.

Lemma deliver_bridge_ok ctx m a a' D u :
  app_ok a D -> authentic (BridgeMsg m) -> deliver ctx (BridgeMsg m) a = (a', Ok u) -> app_ok a' D.
Proof.
  intros Hok Hau (w & Hr & ->)%zoom_ok. pose proof (bridge_signer _ Hau) as Hsig.
  pose proof (Bridge.bridge_Handler_spares _ m eq_refl _ _ _ Hr) as Hsp. pose proof (Bridge.Handler_registry _ _ _ _ Hr) as Hreg.
  pose proof (bridge_keeps_exportable _ _ _ _ Hr (ok_oracle _ _ Hok)) as Ho.
  destruct (EthBridge.Handler_keeps_record _ _ _ _ Hr) as (_ & _ & Hnd).
  destruct w as [st b [o s] r]. cbn in Hsp, Hreg, Ho, Hnd. subst r.
  destruct (app_ok_bank a D b s (app_transfer a) Hok) as [Hp Hs Hc Hd _ He Ha _].
  { eapply spared_mono; [|exact Hsp]. intros x [->|Hx]; [apply bridge_account_unbacking|by apply outside_backing, (Hsig x)]. }
  split; try done. apply Hnd, (ok_tokens _ _ Hok).
Qed.

Lemma deliver_disp_ok ctx m m' a a' D u :
  app_ok a D -> Dispensation.ValidateBasic m = Ok m' -> authentic (DispMsg m') -> deliver ctx (DispMsg m') a = (a', Ok u) ->
  app_ok a' D.
Proof.
  intros [Hp Hs Hc Hd Ho He Ha Ht] Hv Hau (w & Hr & ->)%zoom_ok. pose proof (disp_signer _ Hau) as Hsig.
  pose proof (Disp.disp_Handler_spares _ _ _ _ _ Hd Hr) as Hsp.
  assert (Dispensation.disp_ok w) as Hd'.
  { eapply Dispensation.disp_Handler_ok; [exact Hd|exact Hv| |exact Hr]. destruct Hau as (ss & Hss & Hout).
    destruct m' as [m'|m'|m']; simpl in Hss; unfold Dispensation.MsgCreateDistribution_GetSigners,
      Dispensation.MsgCreateUserClaim_GetSigners, Dispensation.MsgRunDistribution_GetSigners, Dispensation.signer_of in Hss;
      pose proof Hss as (x & Hx & [= <-])%rbind_ok_inv; exists x; (split; [exact Hss|]);
      intros ->; (apply (Hout Dispensation.GetDistributionModuleAddress); [by left|apply disp_account]). }
  destruct w as [st b]. cbn in Hsp. split; try done. intros d. etrans; [apply Hs|]. apply (slack_bank (clp_view a)).
  intros d'. eapply (debits_spare Dispensation.ModuleName); [exact Hsp|exact Hsig|by left|apply clp_disp_ne].
Qed.

Lemma deliver_transfer_ok ctx m a a' D u :
  app_ok a D -> authentic (TransferMsg m) -> deliver ctx (TransferMsg m) a = (a', Ok u) -> app_ok a' D.
Proof.
  intros Hok Hau (w & Hr & ->)%zoom_ok. pose proof (transfer_signer _ Hau) as Hsig.
  apply Ibc.Transfer_spares in Hr as [Hsp Hreg]. destruct w as [b r t]. cbn in Hsp, Hreg. subst r.
  apply (app_ok_bank a D b (app_staking a) t Hok). eapply spared_mono; [|exact Hsp]. intros x Hx. by apply outside_backing, (Hsig x).
Qed.

(** *** Packets *)

(** Neither the receiver nor the escrow account of a packet is a module account. *)
Definition outside_packet (packet : IbcTransfer.Packet) : Prop :=
  (IbcTransfer.GetEscrowAddress (IbcTransfer.DestPort packet) (IbcTransfer.DestChannel packet) ∉ module_accounts)
  /\ forall data x, IbcTransfer.UnmarshalPacketData (IbcTransfer.Data packet) = Ok data ->
       AccAddressFromBech32 (IbcTransfer.PD_Receiver data) = Ok x -> x ∉ module_accounts.

Lemma packet_ok packet a a' D ack :
  app_ok a D -> outside_packet packet -> OnRecvPacket packet a = (a', Ok (IbcTransfer.ResultAck ack)) -> app_ok a' D.
Proof.
  intros Hok [Hesc Hrec] (w & Hr & ->)%zoom_ok. apply Ibc.OnRecv_spares in Hr as [Hsp Hreg].
  destruct w as [b r t]. cbn in Hsp, Hreg. subst r. apply (app_ok_bank a D b (app_staking a) t Hok).
  eapply spared_mono; [|exact Hsp]. intros x [->|[->|(data & Hd & Hx)]].
  - by apply other_module.
  - by apply outside_backing.
  - by eapply outside_backing, Hrec.
Qed.

(** *** Genesis: one module after the other *)

Lemma InitGenesis_eq (g : GenesisState G) a :
  InitGenesis g a = mbnd (zoom sdk_view put_sdk (mfor sdk_modules (fun name => sdk_InitGenesis name (gs_sdk g))))
                      (fun _ => mfor own_modules (InitModule g)) a.
Proof.
  unfold InitGenesis, OrderInitGenesis. rewrite mfor_app. unfold mbnd at 1.
  rewrite (mfor_ext _ _ (fun name => zoom sdk_view put_sdk (sdk_InitGenesis name (gs_sdk g)))) by (repeat constructor).
  rewrite (zoom_mfor sdk_view put_sdk); [done|by intros ? [[??]?]|done|by intros []].
Qed.

(** *** Restarting from an export *)

(** Fewer pools and providers than a page can list. *)
Definition fits (a : App) : Prop :=
  Z.of_nat (size (clp_pools (app_clp a))) < MaxUint64 /\ Z.of_nat (size (clp_lps (app_clp a))) < MaxUint64.

(** The state after a restart: everything but the bridge's blacklist is back. *)
Record restarted (a a' : App) : Prop := {
  rs_bank : forall x d, GetBalance (app_bank a') x d = GetBalance (app_bank a) x d;
  rs_registry : TokenRegistry.GetRegistry (app_registry a') = TokenRegistry.GetRegistry (app_registry a);
  rs_admin : TokenRegistry.reg_admin (app_registry a') = TokenRegistry.reg_admin (app_registry a);
  rs_clp : app_clp a' = app_clp a;
  rs_prophecies : Oracle.o_prophecies (app_oracle a') = Oracle.o_prophecies (app_oracle a);
  rs_oracle_admin : Oracle.o_admin (app_oracle a') = Oracle.o_admin (app_oracle a);
  rs_whitelist : default [] (Oracle.o_whitelist (app_oracle a')) = default [] (Oracle.o_whitelist (app_oracle a));
  rs_tokens : EthBridge.GetPeggyToken (bridge_view a') = EthBridge.GetPeggyToken (bridge_view a);
  rs_ceth : EthBridge.GetCethReceiverAccount (bridge_view a') = EthBridge.GetCethReceiverAccount (bridge_view a);
  rs_blacklist : forall x, EthBridge.IsBlacklisted x (bridge_view a') = false;
  rs_disp : app_disp a' = app_disp a;
}.

Lemma registry_export_import (st : TokenRegistry.RegStore) :
  forallb TokenRegistry.is_entry (TokenRegistry.Entries (TokenRegistry.GetRegistry st)) = true ->
  TokenRegistry.reg_admin st <> Some "" ->
  TokenRegistry.InitGenesis (TokenRegistry.ExportGenesis st) (TokenRegistry.mkRegStore None None)
  = (TokenRegistry.mkRegStore (Some (TokenRegistry.GetRegistry st)) (TokenRegistry.reg_admin st), Ok tt).
Proof.
  intros He Ha. unfold TokenRegistry.InitGenesis, TokenRegistry.ExportGenesis, TokenRegistry.SetRegistry.
  cbn [TokenRegistry.AdminAccount TokenRegistry.GenRegistry]. rewrite He. unfold TokenRegistry.GetAdminAccount.
  destruct (TokenRegistry.reg_admin st) as [x|]; cbv [from_option id].
  - assert (x <> "") as Hx by congruence. pose proof (EthBridge.AccAddress_String_nonempty x Hx) as Hn%String.eqb_neq.
    by rewrite Hn, AccAddress_roundtrip.
  - by rewrite AccAddress_String_nil.
Qed.

Lemma zoom_run {A W X} (get : A -> W) (put : A -> W -> A) (m : M W X) x w r : m (get x) = (w, r) -> zoom get put m x = (put x w, r).
Proof. unfold zoom. by intros ->. Qed.

(** The chain's own modules, in their order, from a file that mentions all of them. *)
Definition with_bridge_account (a : App) : App :=
  put_bank a (SetModuleAccount EthBridge.ModuleName [Burner; Minter] (app_bank a)).

Lemma own_genesis (sdk : G) c o b d r a w1 o2 w3 w4 r5 :
  ClpKeeper.InitGenesis c (clp_view a) = (w1, Ok tt) -> let a1 := put_clp a w1 in
  Oracle.InitGenesis o (app_oracle a1) = (o2, Ok tt) -> let a2 := with_bridge_account (put_oracle a1 o2) in
  EthBridge.InitGenesis b (bridge_view a2) = (w3, Ok tt) -> let a3 := put_bridge a2 w3 in
  Dispensation.InitGenesis d (disp_view a3) = (w4, Ok tt) -> let a4 := put_disp a3 w4 in
  TokenRegistry.InitGenesis r (app_registry a4) = (r5, Ok tt) ->
  mfor own_modules (InitModule (mkGenesis sdk (Some c) (Some o) (Some b) (Some d) (Some r))) a = (put_registry a4 r5, Ok tt).
Proof.
  intros Hc a1 Ho a2 Hb a3 Hd a4 Hr. cbn [mfor own_modules].
  erewrite mbnd_run by (by apply (zoom_run clp_view put_clp)). erewrite mbnd_run by (by apply (zoom_run app_oracle put_oracle)).
  rewrite (mbnd_run _ _ _ a3 tt).
  2: { change (bridge_InitGenesis b (put_oracle a1 o2) = (a3, Ok tt)). unfold bridge_InitGenesis.
       rewrite (mbnd_run _ _ _ a2 tt) by reflexivity. by apply (zoom_run bridge_view put_bridge). }
  erewrite mbnd_run by (by apply (zoom_run disp_view put_disp)).
  by erewrite mbnd_run by (by apply (zoom_run app_registry put_registry)).
Qed.

Lemma clp_exportable_wf a : clp_exportable (app_clp a) -> fits a -> ClpGenesis.wf_store (w_clp (clp_view a)).
Proof. intros (? & ? & ? & ?) ?. by split. Qed.

Lemma sdk_view_empty : sdk_view (empty_app : App) = sdk_empty.
Proof. unfold sdk_view, empty_app. cbn. by destruct sdk_empty as [[??]?]. Qed.

Lemma export_import a D :
  app_ok a D -> fits a -> exists g a', ExportGenesis a = Ok g /\ InitGenesis g empty_app = (a', Ok tt) /\ restarted a a'.
Proof.
  intros [Hp Hs Hc Hd Ho He Ha Ht] Hfit. destruct (sdk_restart (sdk_view a)) as (y & Hy & Hbal).
  set (a0 := put_sdk empty_app y).
  destruct (genesis_roundtrip (clp_view a) (clp_view a0)) as (c & Ec & Ic); [by apply clp_exportable_wf|done|done|].
  destruct (oracle_export_import _ Ho) as (o & Eo & Io).
  set (a1 := put_clp a0 (mkWorld (app_clp a) (app_bank a0) (app_registry a0))).
  set (a2 := with_bridge_account (put_oracle a1 (Oracle.mkOracleStore (Some (default [] (Oracle.o_whitelist (app_oracle a))))
    (Oracle.o_admin (app_oracle a)) (Oracle.o_prophecies (app_oracle a))))).
  destruct (EthBridge.bridge_genesis_roundtrip (bridge_view a) (bridge_view a2)) as (w3 & Ib & Etok & Ece & Ebl & Ebk & Eor & Ereg); [done|done|].
  set (a3 := put_bridge a2 w3).
  destruct (Dispensation.export_init (disp_view a) (disp_view a3)) as (d & Ed & _ & Id); [done|done|].
  set (a4 := put_disp a3 (Dispensation.mkDispWorld (app_disp a) (Dispensation.dw_bank (disp_view a3)))).
  eexists _, (put_registry a4 (TokenRegistry.mkRegStore (Some (TokenRegistry.GetRegistry (app_registry a))) (TokenRegistry.reg_admin (app_registry a)))).
  split_and!.
  - unfold ExportGenesis, clp_ExportGenesis, oracle_ExportGenesis, disp_ExportGenesis. rewrite Ec. cbn [rbind]. rewrite Eo. cbn [rbind]. rewrite Ed. reflexivity.
  - rewrite InitGenesis_eq. rewrite (mbnd_run _ _ _ a0 tt).
    2: { apply zoom_run. by rewrite sdk_view_empty. }
    apply (own_genesis _ _ _ _ _ _ a0); [exact Ic|exact Io|exact Ib|exact Id|]. cbn [put_disp put_bridge app_registry].
    rewrite Ereg. by apply registry_export_import.
  - split; cbn; try done.
    + intros x d'. rewrite Ebk. cbn. rewrite SetModuleAccount_balance. apply Hbal.
    + by rewrite Eor.
    + by rewrite Eor.
    + by rewrite Eor.
Qed.

Lemma restarted_ok a a' D : app_ok a D -> restarted a a' -> app_ok a' D.
Proof.
  intros [Hp Hs Hc Hd Ho He Ha Ht] [Rb Rr Rad Rc Rp Roa Rw Rt _ _ Rd]. split.
  - unfold wf_pools, clp_view. simpl. by rewrite Rc.
  - intros d. specialize (Hs d). unfold slack, clp_view in *. simpl in *. by rewrite Rc, Rb.
  - by rewrite Rc.
  - unfold disp_view. rewrite Rd. apply (disp_ok_bank (disp_view a)); [|done]. intros d. rewrite Rb. simpl. lia.
  - destruct Ho as [Hpr Hwl Had]. split.
    + by rewrite Rp.
    + intros l Hl. rewrite Hl in Rw. cbv [from_option id] in Rw. subst l.
      destruct (Oracle.o_whitelist (app_oracle a)) as [l|]; [by apply Hwl|by exists []].
    + by rewrite Roa.
  - by rewrite Rr.
  - by rewrite Rad.
  - by rewrite Rt.
Qed.

(** *** The first genesis *)

(** A file without pools, prophecies and distribution records, which has the exchange's part. *)
Definition fresh (g : GenesisState G) : Prop :=
  (exists c, gs_clp g = Some c /\ PoolList c = [])
  /\ (forall o, gs_oracle g = Some o -> Oracle.Prophecies o = [])
  /\ (forall d, gs_disp g = Some d -> default [] (Dispensation.G_DistributionRecords d) = []).

Lemma rmap_addresses l l' :
  rmap (fun entry => panicOnErr (AccAddressFromBech32 entry)) l = Ok l' -> Forall (fun x => x <> "") l' /\ length l' = length l.
Proof.
  revert l'. induction l as [|x l IH]; intros l' Hl; cbn [rmap] in Hl; [by injection Hl as <-|].
  apply rbind_ok_inv in Hl as (y & Hy%panicOnErr_ok_inv & Hl). apply rbind_ok_inv in Hl as (ys & Hys & [= <-]).
  destruct (IH _ Hys) as [Hne Hlen]. split; [|by simpl; rewrite Hlen]. constructor; [by eapply AccAddress_nonempty|done].
Qed.

Lemma SetParams_ok p (w w' : World B TokenRegistry.RegStore) u :
  SetParams p w = (w', Ok u) -> MinCreatePoolThreshold p <> 0
  /\ w' = mkWorld (mkClpStore (clp_pools (w_clp w)) (clp_lps (w_clp w)) (clp_whitelist (w_clp w)) p) (w_bank w) (w_registry w).
Proof.
  unfold SetParams, validateMinCreatePoolThreshold. intros Hr. lift_step Hr as v Hv. apply mmodify_ok_inv in Hr as ->.
  destruct (Z.eqb_spec (MinCreatePoolThreshold p) 0); [done|]. done.
Qed.

Lemma clp_start c (w w' : World B TokenRegistry.RegStore) u :
  clp_pools (w_clp w) = ∅ -> clp_lps (w_clp w) = ∅ -> PoolList c = [] -> ClpKeeper.InitGenesis c w = (w', Ok u) ->
  clp_pools (w_clp w') = ∅ /\ clp_exportable (w_clp w') /\ w_bank w' = w_bank w /\ w_registry w' = w_registry w.
Proof.
  intros Ep El Ec Hr. unfold ClpKeeper.InitGenesis in Hr. rewrite Ec in Hr.
  run_step Hr as u1 w1 H1'. apply SetParams_ok in H1' as [Hp ->].
  run_step Hr as u2 w2 H2'. destruct (bool_decide_reflect (AddressWhitelist c = [])) as [|Hne]; [done|]. apply mret_ok_inv in H2' as [-> _].
  lift_step Hr as wl Hwl. apply rmap_addresses in Hwl as [Hwl Hlen].
  run_step Hr as u3 w3 H3'. apply mmodify_ok_inv in H3' as ->. run_step Hr as u4 w4 H4'. apply mmodify_ok_inv in H4' as ->.
  run_step Hr as u5 w5 H5'. apply mret_ok_inv in H5' as [-> _]. cbn in Hr.
  set (R := fun w w' : World B TokenRegistry.RegStore => clp_pools (w_clp w') = clp_pools (w_clp w) /\ w_bank w' = w_bank w /\ keeps_entries w w').
  assert (PreOrder R) as HR.
  { split; [by intros ?; split_and!; reflexivity|]. intros x y z (? & ? & ?) (? & ? & ?). unfold R.
    split_and!; [congruence|congruence|by etrans]. }
  assert (respects R (mfor (LiquidityProviders c) (fun lp => do! lp <- mlift (deref lp); SetLiquidityProvider lp))) as Hlps.
  { respect. intros s1 s2 v Hv. destruct (SetLiquidityProvider_ok _ _ _ _ Hv). split_and!; [done..|by eapply entries_SetLiquidityProvider]. }
  apply Hlps in Hr as (Hpools & Hbank & Hpe & Hle & Hw & Hq & Hreg). cbn in *. rewrite Ep, El in *.
  split_and!; [done| |done|done]. split_and!.
  - apply Hpe, map_Forall_empty.
  - apply Hle, map_Forall_empty.
  - rewrite Hw. exists wl. split_and!; [|done|done]. by destruct wl, (AddressWhitelist c).
  - by rewrite Hq.
Qed.

Lemma oracle_start o s u :
  Oracle.Prophecies o = [] -> Oracle.InitGenesis o (Oracle.mkOracleStore None None ∅) = (s, Ok u) -> exportable s.
Proof.
  intros Ep Hr. unfold Oracle.InitGenesis in Hr. rewrite Ep in Hr.
  assert (exportable (Oracle.mkOracleStore None None ∅)) as H0' by done.
  run_step Hr as u1 s1 H1'. assert (exportable s1) as Hs1.
  { destruct (Oracle.AddressWhitelist o) as [l|]; [|by apply mret_ok_inv in H1' as [-> _]].
    lift_step H1' as wl Hwl. eapply SetOracleWhiteList_exportable; [|exact H0'|exact H1'].
    apply (Oracle.GetOracleWhiteList_nonempty (Oracle.mkOracleStore (Some (filter (fun entry => str_len (TrimSpace entry) <> 0) l)) None ∅)).
    exact Hwl. }
  run_step Hr as u2 s2 H2'. apply mret_ok_inv in Hr as [-> _].
  destruct (_ =? _); [by apply mret_ok_inv in H2' as [-> _]|]. lift_step H2' as x Hx%panicOnErr_ok_inv.
  eapply SetAdminAccount_exportable; [by eapply AccAddress_nonempty|exact Hs1|exact H2'].
Qed.

Lemma bridge_start d (w w' : EthBridge.BridgeWorld B (Oracle.OracleStore * S) TokenRegistry.RegStore) u :
  EthBridge.InitGenesis d w = (w', Ok u) -> NoDup (EthBridge.GetPeggyToken w) ->
  EthBridge.bw_bank w' = EthBridge.bw_bank w /\ EthBridge.bw_oracle w' = EthBridge.bw_oracle w
  /\ EthBridge.bw_registry w' = EthBridge.bw_registry w /\ NoDup (EthBridge.GetPeggyToken w').
Proof.
  set (R := fun x y : EthBridge.BridgeWorld B (Oracle.OracleStore * S) TokenRegistry.RegStore =>
    EthBridge.bw_bank y = EthBridge.bw_bank x /\ EthBridge.bw_oracle y = EthBridge.bw_oracle x
    /\ EthBridge.bw_registry y = EthBridge.bw_registry x
    /\ (NoDup (EthBridge.GetPeggyToken x) -> NoDup (EthBridge.GetPeggyToken y))).
  assert (PreOrder R) as HR.
  { split; [by intros ?; split_and!|]. intros x y z (? & ? & ? & ?) (? & ? & ? & ?). unfold R. split_and!; (congruence || auto). }
  assert (forall t, respects R (EthBridge.AddPeggyToken (O := Oracle.OracleStore * S) t)) as Hadd.
  { intros t x y v [(? & ? & ? & _) Ht]%EthBridge.AddPeggyToken_ok. split_and!; [done..|]. intros Hnd. rewrite Ht.
    destruct (EthBridge.ExistsPeggyToken t x) eqn:E; [done|]. apply NoDup_app. split_and!; [done| |apply NoDup_singleton].
    intros t' Hin ->%list_elem_of_singleton. apply EthBridge.ExistsPeggyToken_spec in Hin. congruence. }
  assert (respects R (EthBridge.InitGenesis (O := Oracle.OracleStore * S) d)) as Hall.
  { unfold EthBridge.InitGenesis, EthBridge.SetCethReceiverAccount, EthBridge.upd_store. respect.
    apply respects_modify. by intros x. }
  intros (? & ? & ? & ?)%Hall Hnd. split_and!; auto.
Qed.

Lemma disp_start d (w w' : Dispensation.DispWorld B) u :
  Dispensation.dw_store w = Dispensation.mkDispStore ∅ ∅ ∅ -> default [] (Dispensation.G_DistributionRecords d) = [] ->
  Dispensation.InitGenesis d w = (w', Ok u) -> Dispensation.disp_ok w' /\ Dispensation.dw_bank w' = Dispensation.dw_bank w.
Proof.
  intros E0 Ed. set (R := fun x y : Dispensation.DispWorld B =>
    Dispensation.dw_bank y = Dispensation.dw_bank x /\ (Dispensation.disp_ok x -> Dispensation.disp_ok y)).
  assert (PreOrder R) as HR.
  { split; [by intros ?; split|]. intros x y z [? ?] [? ?]. unfold R. split; [congruence|auto]. }
  assert (respects R (Dispensation.InitGenesis d)) as Hall.
  { unfold Dispensation.InitGenesis. rewrite Ed. cbn [mfor]. respect.
    - intros s1 s2 v [Hv ->]%Dispensation.SetDistribution_ok. split; [done|]. intros [Hr Hs Hd Hc]. split; [done|done| |done].
      intros k ar Hl. cbn in Hl. apply lookup_insert_Some in Hl as [[<- <-]|[_ Hl]]; [done|by apply Hd].
    - intros s1 s2 v [Hv ->]%Dispensation.SetClaim_ok. split; [done|]. intros [Hr Hs Hd Hc]. split; [done|done|done|].
      intros k uc Hl. cbn in Hl. apply lookup_insert_Some in Hl as [[<- <-]|[_ Hl]]; [done|by apply Hc]. }
  intros [Hb Hok]%Hall. split; [|done]. apply Hok. destruct w as [st b]. simpl in E0. subst st.
  split; [done| |done|done]. intros d'. apply GetBalance_nonneg.
Qed.

Lemma registry_start g st u :
  TokenRegistry.InitGenesis g (TokenRegistry.mkRegStore None None) = (st, Ok u) ->
  forallb TokenRegistry.is_entry (TokenRegistry.Entries (TokenRegistry.GetRegistry st)) = true /\ TokenRegistry.reg_admin st <> Some "".
Proof.
  intros (Hr & Hn & Ha & Hna)%TokenRegistry.InitGenesis_ok. split.
  - destruct (TokenRegistry.GenRegistry g) as [r|]; [by destruct (Hr r eq_refl) as [-> ?]|].
    unfold TokenRegistry.GetRegistry. by rewrite Hn.
  - destruct (decide (TokenRegistry.AdminAccount g = "")) as [E|E]; [by rewrite Hna|].
    destruct (Ha E) as (x & Hx%AccAddress_nonempty & ->). congruence.
Qed.

Lemma init_if_ok {X} (g : option X) (m : X -> M App unit) a a' u :
  init_if g m a = (a', Ok u) -> (g = None /\ a' = a) \/ exists x, g = Some x /\ m x a = (a', Ok u).
Proof. destruct g; simpl; [by right; eauto|]. intros [-> _]%mret_ok_inv. by left. Qed.

Lemma genesis_ok g a u : fresh g -> InitGenesis g empty_app = (a, Ok u) -> app_ok a (fun _ => 0).
Proof.
  intros ((c & Ec & Epool) & Ho & Hd) Hr. rewrite InitGenesis_eq in Hr. run_step Hr as u0 a0 Hs.
  apply zoom_ok in Hs as ([[b s] t] & _ & ->). cbn [mfor own_modules] in Hr.
  run_step Hr as u1 a1 H1'. change (init_if (gs_clp g) (fun d => zoom clp_view put_clp (ClpKeeper.InitGenesis d)) (put_sdk empty_app (b, s, t)) = (a1, Ok u1)) in H1'.
  rewrite Ec in H1'. apply zoom_ok in H1' as ([st b1 r1] & H1' & ->).
  apply clp_start in H1' as (Hpools & Hclp & Hb & Hreg); [|done..]. cbn in Hpools, Hclp, Hb, Hreg. subst b1 r1.
  run_step Hr as u2 a2 H2'. apply init_if_ok in H2'.
  assert (exists o, a2 = mkApp b s t (TokenRegistry.mkRegStore None None) st o (EthBridge.mkBridgeStore None None ∅)
    (Dispensation.mkDispStore ∅ ∅ ∅) /\ exportable o) as (o & -> & Hexp).
  { destruct H2' as [[_ ->]|(d & Ed & (o & H2' & ->)%zoom_ok)]; [by eexists|]. exists o. split; [done|].
    eapply oracle_start; [by apply Ho|exact H2']. }
  run_step Hr as u3 a3 H3'. apply init_if_ok in H3'.
  assert (exists br b3, a3 = mkApp b3 s t (TokenRegistry.mkRegStore None None) st o br (Dispensation.mkDispStore ∅ ∅ ∅)
    /\ NoDup (EthBridge.GetPeggyToken (bridge_view a3))) as (br & b3 & -> & Hnd).
  { destruct H3' as [[_ ->]|(d & Ed & H3')]; [eexists _, _; split; [done|apply NoDup_nil_2]|].
    unfold bridge_InitGenesis in H3'. run_step H3' as u6 a6 H6'. apply zoom_ok in H6' as (b6 & _ & ->).
    apply zoom_ok in H3' as (w & H3' & ->). apply bridge_start in H3' as (Eb & Eo & Er & Hnd); [|apply NoDup_nil_2].
    destruct w as [br b' [o' s'] r']. cbn in Eb, Eo, Er. subst b' r'. injection Eo as -> ->. by exists br, b6. }
  run_step Hr as u4 a4 H4'. apply init_if_ok in H4'.
  assert (exists di, a4 = mkApp b3 s t (TokenRegistry.mkRegStore None None) st o br di /\ Dispensation.disp_ok (disp_view a4))
    as (di & -> & Hdi).
  { destruct H4' as [[_ ->]|(d & Ed & (w & H4' & ->)%zoom_ok)].
    - eexists. split; [done|]. split; [done| |done|done]. intros d'. apply GetBalance_nonneg.
    - apply disp_start in H4' as [Hdi Eb]; [|done|by apply Hd]. destruct w as [di b']. cbn in Eb. subst b'. by exists di. }
  run_step Hr as u5 a5 H5'. apply mret_ok_inv in Hr as [-> _]. apply init_if_ok in H5'.
  assert (exists r, a5 = mkApp b3 s t r st o br di
    /\ forallb TokenRegistry.is_entry (TokenRegistry.Entries (TokenRegistry.GetRegistry r)) = true /\ TokenRegistry.reg_admin r <> Some "")
    as (r & -> & He & Had).
  { destruct H5' as [[_ ->]|(d & Ed & (r & H5' & ->)%zoom_ok)]; [by eexists|]. exists r. split; [done|].
    by eapply registry_start. }
  split; try done.
  - unfold wf_pools, clp_view. simpl. rewrite Hpools. apply map_Forall_empty.
  - intros d'. unfold slack, clp_view. simpl. rewrite Hpools, map_sum_empty. pose proof (GetBalance_nonneg b3 GetCLPModuleAddress d'). lia.
Qed.

(** *** Messages on a denomination that the registry does not hold *)

(** The messages that name a denomination, in whatever case. *)
Definition names (denom : string) (m : AppMsg) : bool :=
  let asset (x : option Asset) := match x with Some x => EqualFold denom (Symbol x) | None => false end in
  match m with
  | ClpMsg (CreatePoolMsg m) => asset (Create_ExternalAsset m)
  | ClpMsg (AddLiquidityMsg m) => asset (Add_ExternalAsset m)
  | ClpMsg (RemoveLiquidityMsg m) => asset (Rem_ExternalAsset m)
  | ClpMsg (SwapMsg m) => asset (SentAsset m) || asset (ReceivedAsset m)
  | TransferMsg m => EqualFold denom (Coin_Denom (IbcTransfer.Tr_Token m))
  | _ => false
  end.

Definition refused {St X} (m : M St X) (s : St) : Prop := (m s).1 = s /\ is_ok (m s).2 = false.

Lemma zoom_refused {W X} (get : App -> W) (put : App -> W -> App) (m : M W X) a :
  put a (get a) = a -> refused m (get a) -> refused (zoom get put m) a.
Proof. intros Hpg [Hs Hr]. unfold refused, zoom. destruct (m (get a)) as [w r]. simpl in *. by subst. Qed.

Definition not_listed (denom : string) (r : TokenRegistry.RegStore) : Prop :=
  forall d, EqualFold denom d = true -> TokenRegistry.GetEntry (TokenRegistry.GetRegistry r) d = Err TokenRegistry.ErrKeyNotFound.

Lemma clpEntry_not_listed denom d (w : World B TokenRegistry.RegStore) :
  not_listed denom (w_registry w) -> EqualFold denom d = true -> clpEntry d w = Err ErrTokenNotSupported.
Proof. intros Hn Hd. unfold clpEntry. cbn. by rewrite Hn. Qed.

Lemma clp_refused denom m (w : World B TokenRegistry.RegStore) :
  not_listed denom (w_registry w) -> names denom (ClpMsg m) = true -> refused (Handler m) w.
Proof.
  intros Hn Hm. destruct m as [m|m|m|m|m|]; cbn [names Handler] in *; try done.
  - destruct (Create_ExternalAsset m) as [x|] eqn:E; [|done].
    unfold refused, CreatePool_msg, mbnd, mlift, mgets, mfail_if, id. destruct (NewUintFromString PoolThrehold); [|done..].
    destruct (_ <? _); [done|]. unfold mret. rewrite E. cbn [deref]. by rewrite (clpEntry_not_listed denom).
  - destruct (Add_ExternalAsset m) as [x|] eqn:E; [|done].
    unfold refused, AddLiquidity_msg, mbnd, mlift, mgets, id. rewrite E. cbn [deref]. by rewrite (clpEntry_not_listed denom).
  - destruct (Rem_ExternalAsset m) as [x|] eqn:E; [|done].
    unfold refused, RemoveLiquidity_msg, mbnd, mlift, mgets, id. rewrite E. cbn [deref]. by rewrite (clpEntry_not_listed denom).
  - unfold refused, Swap, mbnd, mlift, mgets, id. destruct (SentAsset m) as [x|]; cbn [deref]; [|done].
    destruct (EqualFold denom (Symbol x)) eqn:Ex; [by rewrite (clpEntry_not_listed denom)|].
    destruct (clpEntry (Symbol x) w); [|done..]. destruct (ReceivedAsset m) as [y|]; cbn [deref]; [|done].
    cbn [orb] in Hm. by rewrite (clpEntry_not_listed denom).
Qed.

Lemma transfer_refused denom m (w : IbcTransfer.IbcWorld B TokenRegistry.RegStore T) :
  not_listed denom (IbcTransfer.iw_registry w) -> names denom (TransferMsg m) = true -> refused (IbcTransfer.Transfer m) w.
Proof. intros Hn Hm. unfold refused, IbcTransfer.Transfer, mbnd, mlift, mgets, id. cbn in *. by rewrite Hn. Qed.

Lemma packet_refused denom packet data d (w w' : IbcTransfer.IbcWorld B TokenRegistry.RegStore T) ack :
  not_listed denom (IbcTransfer.iw_registry w) -> IbcTransfer.UnmarshalPacketData (IbcTransfer.Data packet) = Ok data ->
  IbcTransfer.GetMintedDenomFromPacket packet data = Ok d -> EqualFold denom d = true ->
  IbcTransfer.OnRecvPacketWhitelistConvert packet w = (w', Ok ack) -> exists e, ack = IbcTransfer.ErrorAck e.
Proof.
  intros Hn Hdata Hden Hd Hr. unfold IbcTransfer.OnRecvPacketWhitelistConvert in Hr. rewrite Hdata in Hr.
  run_step Hr as received w1 Hk. apply mtry_ok_inv in Hk as [([] & -> & Hk)|(e0 & -> & Hk)].
  - unfold IbcTransfer.on_transfer in Hk. destruct (IbcTransfer.tk_OnRecvPacket _ _ _) as [bt rk]. injection Hk as <- ->.
    rewrite Hden in Hr. run_step Hr as d1 w2 Hl. apply mlift_ok_inv in Hl as [-> [= <-]]. get_step Hr.
    cbn in Hr. rewrite (Hn _ Hd) in Hr. apply mret_ok_inv in Hr as [_ ->]. eauto.
  - apply mret_ok_inv in Hr as [_ ->]. eauto.
Qed.

(** The rest of a message that names no denomination, or others: the registry it runs on may
    be replaced by one that differs only at [denom]. *)
Definition differs_at (denom : string) (r r' : TokenRegistry.RegStore) : Prop :=
  TokenRegistry.reg_admin r' = TokenRegistry.reg_admin r
  /\ forall d, EqualFold denom d = false ->
       TokenRegistry.GetEntry (TokenRegistry.GetRegistry r') d = TokenRegistry.GetEntry (TokenRegistry.GetRegistry r) d.

Lemma clp_names_other denom m d : names denom (ClpMsg m) = false -> d ∈ clp_names m -> EqualFold denom d = false.
Proof.
  destruct m as [m|m|m|m|m|]; cbn [names clp_names]; repeat case_match; intros Hn Hd; rewrite ?orb_false_iff in Hn; set_solver.
Qed.

Lemma zoom_sim {W} P upd (get : App -> W) (put : App -> W -> App) (m : M W unit) a (r : TokenRegistry.RegStore) :
  sim P upd m m -> P (get a) -> get (put_registry a r) = upd (get a) ->
  (forall w, put (put_registry a r) (upd w) = put_registry (put a w) r) ->
  zoom get put m (put_registry a r) = (put_registry (zoom get put m a).1 r, (zoom get put m a).2).
Proof.
  intros Hm HP Hget Hput. unfold zoom. rewrite Hget. destruct (Hm _ HP) as [-> _].
  destruct (m (get a)) as [w x]. cbn [fst snd]. by rewrite Hput.
Qed.

(** A message that does not name the denomination runs the same way. *)
Lemma unnamed_unchanged ctx denom m a r :
  differs_at denom (app_registry a) r -> names denom m = false -> (forall g, m <> RegistryMsg g) ->
  deliver ctx m (put_registry a r) = (put_registry (deliver ctx m a).1 r, (deliver ctx m a).2).
Proof.
  intros [Hadm Hent] Hn Hg. destruct m as [m|m|m|m|m]; [by destruct (Hg m)|..]; cbn [deliver].
  - apply (zoom_sim _ _ _ _ _ _ _ (clp_reads_entries r (clp_names m) m (reflexivity _))); [|done..].
    intros d Hd. apply Hent. by eapply clp_names_other.
  - apply (zoom_sim _ _ _ _ _ _ _ (BridgeReads.bridge_reads_admin r m)); [|done..].
    intros x. change (TokenRegistry.IsAdminAccount r x = TokenRegistry.IsAdminAccount (app_registry a) x).
    unfold TokenRegistry.IsAdminAccount, TokenRegistry.GetAdminAccount. by rewrite Hadm.
  - unfold zoom. change (disp_view (put_registry a r)) with (disp_view a). by destruct (Dispensation.Handler ctx m (disp_view a)) as [w x].
  - apply (zoom_sim _ _ _ _ _ _ _ (transfer_reads_entry r m)); [|done..]. by apply Hent.
Qed.

(** ** Reachable states *)

(** The states of the chain, with what asymmetric withdrawals have left unbacked so far.  A
    message that fails is rolled back with its whole transaction, and a packet that is
    acknowledged with an error is not applied; between them the modules of the SDK may do
    anything that does not debit the two backing accounts.  A chain may be restarted from its
    own export, and the registry migrated by an upgrade. *)
Inductive reachable : App -> (string -> Z) -> Prop :=
| reach_genesis g a : fresh g -> InitGenesis g empty_app = (a, Ok tt) -> reachable a (fun _ => 0)
| reach_message a D ctx m m' a' :
    reachable a D -> ValidateBasic m = Ok m' -> authentic m' -> deliver ctx m' a = (a', Ok tt) ->
    reachable a' (fun d => D d + msg_dust m' a d)
| reach_packet a D packet a' ack :
    reachable a D -> outside_packet packet -> OnRecvPacket packet a = (a', Ok (IbcTransfer.ResultAck ack)) -> reachable a' D
| reach_sdk a D b s t :
    reachable a D -> spared unbacking (app_bank a) b ->
    reachable (mkApp b s t (app_registry a) (app_clp a) (app_oracle a) (app_bridge a) (app_disp a)) D
| reach_upgrade a D a' : reachable a D -> migrate_registry a = (a', Ok tt) -> reachable a' D
| reach_restart a D g a' :
    reachable a D -> fits a -> ExportGenesis a = Ok g -> InitGenesis g empty_app = (a', Ok tt) -> reachable a' D.

Lemma deliver_ok ctx m m' a a' D u :
  app_ok a D -> ValidateBasic m = Ok m' -> authentic m' -> deliver ctx m' a = (a', Ok u) ->
  app_ok a' (fun d => D d + msg_dust m' a d).
Proof.
  intros Hok Hv Hau Hr.
  assert (msg_dust m' a = (fun _ => 0) \/ exists c, m' = ClpMsg c) as [Hz|[c ->]].
  { destruct m' as [r|c|b|d|t]; [by left|right; eauto|by left..]. }
  - rewrite Hz. assert (app_ok a' D) as [Hp Hs Hc Hd Ho He Ha Ht].
    { destruct m as [r|c|b|d|t]; cbn [ValidateBasic] in Hv.
      - apply rbind_ok_inv in Hv as (v & _ & [= <-]). by eapply deliver_registry_ok.
      - apply rbind_ok_inv in Hv as ([] & Hv & [= <-]). pose proof (deliver_clp_ok _ _ _ _ _ _ Hok Hv Hau Hr) as [Hp Hs Hc Hd Ho He Ha Ht].
        split; try done. intros x. specialize (Hs x). rewrite Hz in Hs. lia.
      - apply rbind_ok_inv in Hv as (v & _ & [= <-]). by eapply deliver_bridge_ok.
      - apply rbind_ok_inv in Hv as (v & Hv & [= <-]). by eapply deliver_disp_ok.
      - injection Hv as <-. by eapply deliver_transfer_ok. }
    split; try done. intros x. specialize (Hs x). lia.
  - destruct m as [r|c'|b|d|t]; cbn [ValidateBasic] in Hv; [by apply rbind_ok_inv in Hv as (? & _ & ?)| |by apply rbind_ok_inv in Hv as (? & _ & ?)..|done].
    apply rbind_ok_inv in Hv as ([] & Hv & [= <-]). by eapply deliver_clp_ok.
Qed.

Lemma app_reachable_ok a D : reachable a D -> app_ok a D.
Proof.
  induction 1 as [g a Hf Hi|a D ctx m m' a' _ IH Hv Hau Hr|a D packet a' ack _ IH Ho Hr|a D b s t _ IH Hb|a D a' _ IH Hr|a D g a' _ IH Hfit He Hi].
  - by eapply genesis_ok.
  - by eapply deliver_ok.
  - by eapply packet_ok.
  - by apply app_ok_bank.
  - apply zoom_ok in Hr as (r & [He Hadm]%TokenRegistry.MigrateToVer2_stored & ->). destruct IH as [Hp Hs Hc Hd Ho _ Had Ht].
    split; try done. simpl. by rewrite Hadm.
  - destruct (export_import _ _ IH Hfit) as (g' & a1 & He' & Hi' & Hrs). rewrite He in He'. injection He' as <-.
    rewrite Hi in Hi'. injection Hi' as <-. by eapply restarted_ok.
Qed.

(** *** The supply of a denomination *)

Definition coins_at (symbol : string) (amount : Z) (d : string) : Z := if String.eqb symbol d then amount else 0.

(** The content of the claim that a message completes, when the oracle finds that it does. *)
Definition paid_claim (msg : EthBridge.MsgCreateEthBridgeClaim)
    (w : EthBridge.BridgeWorld B (Oracle.OracleStore * S) TokenRegistry.RegStore) : option EthBridge.OracleClaimContent :=
  match EthBridge.Create_Claim msg with
  | Some ec =>
      match EthBridge.CreateOracleClaimFromEthClaim ec with
      | Ok claim =>
          match (EthBridge.ok_ProcessClaim claim (EthBridge.bw_oracle w)).2 with
          | Ok status =>
              if decide (Oracle.Text status = Oracle.STATUS_TEXT_SUCCESS) then
                match EthBridge.CreateOracleClaimFromOracleString (Oracle.FinalClaim status) with Ok c => Some c | _ => None end
              else None
          | _ => None
          end
      | _ => None
      end
  | None => None
  end.

(** What a message adds to the supply of [d]. *)
Definition supply_change (m : AppMsg) (a : App) (d : string) : Z :=
  match m with
  | BridgeMsg (EthBridge.LockMsg m) => - coins_at (EthBridge.Lock_Symbol m) (EthBridge.Lock_Amount m) d
  | BridgeMsg (EthBridge.BurnMsg m) => - coins_at (EthBridge.Burn_Symbol m) (EthBridge.Burn_Amount m) d
  | BridgeMsg (EthBridge.CreateMsg m) =>
      match paid_claim m (bridge_view a) with
      | Some c => coins_at (EthBridge.paid_denom c) (default 0 (EthBridge.OC_Amount c)) d
      | None => 0
      end
  | _ => 0
  end.

Lemma supply_moves_ext (n n' : string -> Z) (b b' : B) :
  (forall d, n d = n' d) -> supply_moves n b b' -> supply_moves n' b b'.
Proof. intros E [t Ht]. exists t. intros accts Hnd Hsub d. by rewrite Ht, E. Qed.

Lemma sent_off_supply (b b' : B) sender target symbol amount ceth :
  EthBridge.sent_off b b' sender target symbol amount ceth -> supply_moves (fun d => - coins_at symbol amount d) b b'.
Proof.
  intros Hs. apply (shifts_supply
    [(sender, fun d => - (coins_at symbol amount d + coins_at EthBridge.CethSymbol ceth d)); (target, coins_at EthBridge.CethSymbol ceth)]).
  - intros x d. rewrite (Hs x d). unfold coins_at. simpl. repeat case_decide; lia.
  - intros d. unfold shift_total. simpl. lia.
Qed.

(** What the conversion of a received packet burns of [d]: the packet's amount in the
    denomination it arrived in, when its registry entry converts. *)
Definition packet_burn (packet : IbcTransfer.Packet) (a : App) (d : string) : Z :=
  let registry := TokenRegistry.GetRegistry (app_registry a) in
  match IbcTransfer.UnmarshalPacketData (IbcTransfer.Data packet) with
  | Ok data =>
      match IbcTransfer.GetMintedDenomFromPacket packet data with
      | Ok minted =>
          match TokenRegistry.GetEntry registry minted with
          | Ok e =>
              match IbcTransfer.conversion registry e with
              | Some _ => coins_at (TokenRegistry.Denom e) (default 0 (NewIntFromString (IbcTransfer.PD_Amount data))) d
              | None => 0
              end
          | _ => 0
          end
      | _ => 0
      end
  | _ => 0
  end.

(** Received coins are burned, and the converted ones come from the escrow account. *)
Lemma ExecConv_supply e c packet data (w w' : IbcTransfer.IbcWorld B TokenRegistry.RegStore T) u :
  IbcTransfer.ExecConvForIncomingCoins e c packet data w = (w', Ok u) ->
  supply_moves (fun d => - coins_at (TokenRegistry.Denom e) (default 0 (NewIntFromString (IbcTransfer.PD_Amount data))) d)
    (IbcTransfer.iw_bank w) (IbcTransfer.iw_bank w') /\ IbcTransfer.iw_transfer w' = IbcTransfer.iw_transfer w.
Proof.
  unfold IbcTransfer.ExecConvForIncomingCoins. intros Hr. lift_step Hr as receiver Hrec.
  destruct (NewIntFromString _) as [amount|]; [|done]. lift_step Hr as ci Hci. lift_step Hr as incoming Hin.
  run_step Hr as u1 w1 Hs. apply IbcTransfer.ibc_bank_ok in Hs as (b1 & Hs & ->). apply conserves_AccountToModule in Hs.
  run_step Hr as u2 w2 Hb. apply IbcTransfer.ibc_bank_ok in Hb as (b2 & Hb & ->). apply BurnCoins_ok in Hb as [Hburn _].
  lift_step Hr as cf Hcf. lift_step Hr as fin0 Hf0. run_step Hr as fin w3 Hconv.
  assert (w3 = IbcTransfer.set_bank (IbcTransfer.set_bank w b1) b2) as ->.
  { destruct (_ <? _); [|by apply mret_ok_inv in Hconv as [-> _]]. lift_step Hconv as conv Hcv. lift_step Hconv as cf' Hcf'.
    by apply mlift_ok_inv in Hconv as [-> _]. }
  apply IbcTransfer.ibc_bank_ok in Hr as (b3 & Hsend & ->). apply conserves_SendCoins in Hsend. cbn in Hs, Hburn, Hsend |- *.
  split; [|done]. eapply supply_moves_trans; [exact Hs| |intros d; apply Z.add_0_l].
  eapply supply_moves_trans; [|exact Hsend|intros d; by rewrite Z.add_0_r].
  apply (shifts_supply [(NewModuleAddress IbcTransfer.ModuleName, fun d => - coins_at (TokenRegistry.Denom e) amount d)]).
  - intros x d. rewrite (Hburn x d). destruct (IbcTransfer.one_coin _ _ _ _ d Hci Hin) as [_ ->]. unfold coins_at. simpl.
    repeat case_decide; lia.
  - intros d. change (- coins_at (TokenRegistry.Denom e) amount d = - coins_at (TokenRegistry.Denom e) amount d + 0). lia.
Qed.

Lemma packet_supply packet a a' ack :
  OnRecvPacket packet a = (a', Ok (IbcTransfer.ResultAck ack)) ->
  exists data b1, IbcTransfer.UnmarshalPacketData (IbcTransfer.Data packet) = Ok data
    /\ IbcTransfer.tk_OnRecvPacket packet data (app_bank a, app_transfer a) = ((b1, app_transfer a'), Ok tt)
    /\ supply_moves (fun d => - packet_burn packet a d) b1 (app_bank a').
Proof.
  intros (w & Hr & ->)%zoom_ok. apply IbcTransfer.OnRecv_received in Hr as (data & b1 & t1 & denom & e & Hd & Hk & Hm & He & _ & Hr).
  exists data, b1. split; [done|]. cbn in Hk, He, Hr |- *. unfold packet_burn. rewrite Hd, Hm, He.
  destruct (IbcTransfer.conversion _ e) as [c|]; [|subst w; split; [exact Hk|apply conserves_preorder]].
  destruct Hr as (_ & _ & [Hs ->]%ExecConv_supply). done.
Qed.

Lemma transfer_supply msg (w w' : IbcTransfer.IbcWorld B TokenRegistry.RegStore T) u :
  IbcTransfer.Transfer msg w = (w', Ok u) ->
  IbcTransfer.tk_Transfer msg (IbcTransfer.iw_bank w, IbcTransfer.iw_transfer w)
  = ((IbcTransfer.iw_bank w', IbcTransfer.iw_transfer w'), Ok u).
Proof.
  unfold IbcTransfer.Transfer. intros Hr. get_step Hr. lift_step Hr as e _. do 3 check_step Hr as _.
  unfold IbcTransfer.on_transfer in Hr. destruct (IbcTransfer.tk_Transfer msg _) as [[b t] r]. by injection Hr as <- ->.
Qed.

(** What the payments of a run of a distribution add to each account. *)
Definition payouts (o : Dispensation.outcome) : list (string * (string -> Z)) :=
  match AccAddressFromBech32 (Dispensation.DR_Recipient o.1) with
  | Ok x => if Dispensation.completed o then
              [(x, AmountOf (Dispensation.DR_Coins o.1));
               (Dispensation.GetDistributionModuleAddress, fun d => - AmountOf (Dispensation.DR_Coins o.1) d)]
            else []
  | _ => []
  end.

Lemma run_supply ctx msg (w w' : Dispensation.DispWorld B) u :
  Dispensation.disp_ok w -> Dispensation.RunDistribution ctx msg w = (w', Ok u) ->
  conserves (Dispensation.dw_bank w) (Dispensation.dw_bank w').
Proof.
  intros [Hm Hsol _ _] Hr. apply Dispensation.RunDistribution_ok in Hr as (outs & Eo & _ & _ & _ & _ & _ & Hb & _); [|done..].
  destruct (Dispensation.due_prefix_stored msg w Hm) as (Hst & _). rewrite <- Eo in Hst.
  assert (Forall (fun o => Dispensation.readable o.1) outs) as Hread.
  { apply Forall_forall. intros o Ho. rewrite Forall_forall in Hst. destruct (Hst o.1) as [Hl _]; [by apply list_elem_of_fmap_2|].
    by destruct (Hm _ _ Hl) as (_ & _ & ?). }
  apply (shifts_supply (outs ≫= payouts)); [intros x d; rewrite Hb; f_equal|intros d]; clear Eo Hb Hst;
    (induction Hread as [|o outs [y Hy] _ IH]; [done|]); unfold shift_total in *; rewrite bind_cons, foldr_app, <- IH;
    cbn [foldr]; unfold Dispensation.payment, Dispensation.is_recipient, payouts; rewrite Hy;
    destruct (Dispensation.completed o); simpl; try lia.
  destruct (String.eqb_spec x y), (String.eqb_spec x Dispensation.GetDistributionModuleAddress); repeat case_decide; (done || lia).
Qed.

Section DispConserves.
Abbreviation R_ := (fun w w' : Dispensation.DispWorld B => conserves (Dispensation.dw_bank w) (Dispensation.dw_bank w')).

Lemma conserves_disp_bank {A} (m : M B A) : respects conserves m -> respects R_ (Dispensation.on_bank m).
Proof. intros Hm w w' x (b' & Hr & ->)%Dispensation.disp_bank_ok. by eapply Hm. Qed.
Lemma conserves_upd_records f : respects R_ (Dispensation.upd_records f).
Proof. by apply respects_modify. Qed.
Lemma conserves_upd_distributions f : respects R_ (Dispensation.upd_distributions f).
Proof. by apply respects_modify. Qed.
Lemma conserves_upd_claims f : respects R_ (Dispensation.upd_claims f).
Proof. by apply respects_modify. Qed.
#[local] Hint Resolve conserves_disp_bank conserves_upd_records conserves_upd_distributions conserves_upd_claims : respects.

Lemma disp_conserves ctx m (w w' : Dispensation.DispWorld B) u :
  Dispensation.disp_ok w -> Dispensation.Handler ctx m w = (w', Ok u) ->
  conserves (Dispensation.dw_bank w) (Dispensation.dw_bank w').
Proof.
  intros Hw Hr. destruct m as [m|m|m]; cbn [Dispensation.Handler] in *; [| |by eapply run_supply].
  - revert Hr. apply (fun P : respects R_ (Dispensation.CreateDistribution ctx m) => P w w' u).
    unfold Dispensation.CreateDistribution, Dispensation.VerifyAndSetDistribution, Dispensation.SetDistribution,
      Dispensation.AccumulateDrops, Dispensation.CreateDrops, Dispensation.SetDistributionRecord. respect.
  - revert Hr. apply (fun P : respects R_ (Dispensation.CreateUserClaim ctx m) => P w w' u).
    unfold Dispensation.CreateUserClaim, Dispensation.SetClaim. respect.
Qed.
End DispConserves.

Section BridgeConserves.
Abbreviation BW := (EthBridge.BridgeWorld B (Oracle.OracleStore * S) TokenRegistry.RegStore).
Abbreviation R_ := (fun w w' : BW => conserves (EthBridge.bw_bank w) (EthBridge.bw_bank w')).

Lemma conserves_bridge_bank {A} (m : M B A) : respects conserves m -> respects R_ (EthBridge.on_bank m).
Proof. intros Hm w w' x (b' & Hr & ->)%EthBridge.bridge_bank_ok. by eapply Hm. Qed.
Lemma conserves_bridge_oracle {A} (m : M (Oracle.OracleStore * S) A) : respects R_ (EthBridge.on_oracle m).
Proof. by intros w w' x (o' & Hr & ->)%EthBridge.bridge_oracle_ok. Qed.
Lemma conserves_upd_store f : respects R_ (EthBridge.upd_store f).
Proof. by apply respects_modify. Qed.
#[local] Hint Resolve conserves_bridge_bank conserves_bridge_oracle conserves_upd_store : respects.

(** The administrative messages of the bridge, with the rescue of ceth, which is a payment. *)
Definition administrative (m : EthBridge.Msg) : bool :=
  match m with EthBridge.CreateMsg _ | EthBridge.BurnMsg _ | EthBridge.LockMsg _ => false | _ => true end.

Lemma administrative_conserves m : administrative m = true -> respects R_ (EthBridge.Handler m).
Proof.
  intros Hm. destruct m as [m|m|m|m|m|m|m]; try done; cbn [EthBridge.Handler];
    unfold EthBridge.UpdateWhiteListValidator, EthBridge.ProcessUpdateWhiteListValidator, EthBridge.UpdateCethReceiverAccount,
      EthBridge.ProcessUpdateCethReceiverAccount, EthBridge.SetCethReceiverAccount, EthBridge.RescueCeth,
      EthBridge.ProcessRescueCeth, EthBridge.SetBlacklist_msg, EthBridge.SetBlacklist, EthBridge.upd_blacklist,
      EthBridge.sender_account; respect.
Qed.

Lemma claim_supply msg (w w' : BW) u :
  EthBridge.CreateEthBridgeClaim msg w = (w', Ok u) ->
  supply_moves (fun d => match paid_claim msg w with
                         | Some c => coins_at (EthBridge.paid_denom c) (default 0 (EthBridge.OC_Amount c)) d
                         | None => 0
                         end) (EthBridge.bw_bank w) (EthBridge.bw_bank w').
Proof.
  intros (ec & claim & status & o' & E1 & E2 & E3 & _ & Hr)%EthBridge.CreateEthBridgeClaim_ok. cbv zeta in Hr.
  unfold paid_claim. rewrite E1, E2, E3. cbn [snd]. destruct (decide _) as [Hs|Hs]; [|by rewrite Hr; apply conserves_preorder].
  apply EthBridge.ProcessSuccessfulClaim_ok in Hr as (c & amount & -> & -> & _ & _ & _ & _ & _ & Hb).
  apply (shifts_supply [(EthBridge.OC_CosmosReceiver c, coins_at (EthBridge.paid_denom c) amount)]).
  - intros x d. rewrite (Hb x d). unfold coins_at. cbn. case_decide; lia.
  - intros d. unfold shift_total. simpl. cbv [from_option id]. lia.
Qed.

Lemma lock_supply msg (w w' : BW) u :
  EthBridge.Lock msg w = (w', Ok u) ->
  supply_moves (fun d => - coins_at (EthBridge.Lock_Symbol msg) (EthBridge.Lock_Amount msg) d)
    (EthBridge.bw_bank w) (EthBridge.bw_bank w').
Proof.
  unfold EthBridge.Lock. intros Hr. get_step Hr. check_step Hr as _. run_step Hr as sender w1 Ha.
  apply EthBridge.sender_account_ok in Ha as (-> & _). apply EthBridge.ProcessLock_ok in Hr as (_ & _ & Hs).
  by eapply sent_off_supply.
Qed.
Lemma burn_supply msg (w w' : BW) u :
  EthBridge.Burn msg w = (w', Ok u) ->
  supply_moves (fun d => - coins_at (EthBridge.Burn_Symbol msg) (EthBridge.Burn_Amount msg) d)
    (EthBridge.bw_bank w) (EthBridge.bw_bank w').
Proof.
  unfold EthBridge.Burn. intros Hr. get_step Hr. check_step Hr as _. run_step Hr as sender w1 Ha.
  apply EthBridge.sender_account_ok in Ha as (-> & _). apply EthBridge.ProcessBurn_ok in Hr as (_ & _ & Hs).
  by eapply sent_off_supply.
Qed.
End BridgeConserves.

(** ** Properties *)

(** C1: In every reachable state of the application, whatever messages of all modules, packets,
    activity of the SDK's modules and restarts came before, and in any order, every module's
    part is intact: the exchange's account covers the pools up to what asymmetric withdrawals
    left unbacked, the distribution account covers every unpaid record, every prophecy is
    well formed and stored as it was written, the registry has no nil entry, and no token is
    pegged twice. *)
Theorem app_invariants a D : reachable a D -> app_ok a D.
Proof. apply app_reachable_ok. Qed.

(** C30: Every reachable state with fewer than 2^64 - 1 pools and providers can be exported, and a
    new chain starts from that export: with the same balances, registry, pools, providers,
    parameters, prophecies, oracle admin and whitelist, pegged tokens, ceth receiver,
    distributions, records and user claims.  Only the bridge's blacklist is lost. *)
Theorem app_genesis_roundtrip a D :
  reachable a D -> fits a -> exists g a', ExportGenesis a = Ok g /\ InitGenesis g empty_app = (a', Ok tt) /\ restarted a a'.
Proof. intros Ha%app_reachable_ok Hf. by eapply export_import. Qed.

(** C31: When the admin has removed a denomination from the registry, every message that creates,
    funds or leaves its pool, swaps it either way or transfers it to another chain, in
    whatever case it is written, is refused and changes nothing.  Every other message of the
    exchange, the bridge, the distributions and IBC, also on that denomination, does exactly
    what it would have done before the removal.  A packet that would credit the denomination
    is acknowledged with an error. *)
Theorem deregistered_frozen ctx from denom a a' u :
  deliver ctx (RegistryMsg (TokenRegistry.Msg_Deregister (TokenRegistry.mkMsgDeregister from denom))) a = (a', Ok u) ->
  (forall ctx' m, names denom m = true -> (deliver ctx' m a').1 = a' /\ is_ok (deliver ctx' m a').2 = false)
  /\ (forall ctx' m, names denom m = false -> (forall r, m <> RegistryMsg r) ->
        deliver ctx' m a' = (put_registry (deliver ctx' m a).1 (app_registry a'), (deliver ctx' m a).2))
  /\ forall packet data d a'' ack, IbcTransfer.UnmarshalPacketData (IbcTransfer.Data packet) = Ok data ->
       IbcTransfer.GetMintedDenomFromPacket packet data = Ok d -> EqualFold denom d = true ->
       OnRecvPacket packet a' = (a'', Ok ack) -> exists e, ack = IbcTransfer.ErrorAck e.
Proof.
  intros (r & (_ & Hadm & Hf)%TokenRegistry.Handler_ok & ->)%zoom_ok.
  cbn [TokenRegistry.lookup_after TokenRegistry.Dereg_Denom] in Hf.
  assert (not_listed denom r) as Hn.
  { intros d Hd. unfold TokenRegistry.GetEntry. by rewrite Hf, Hd. }
  split_and!.
  - intros ctx' m Hm. destruct m as [m|m|m|m|m]; [done| |done|done|].
    + apply (zoom_refused clp_view put_clp); [done|]. by apply (clp_refused denom).
    + apply (zoom_refused ibc_view put_ibc); [done|]. by apply (transfer_refused denom).
  - intros ctx' m Hm Hg. apply (unnamed_unchanged ctx' denom); [|done..]. split; [done|].
    intros d Hd. unfold TokenRegistry.GetEntry. by rewrite Hf, Hd.
  - intros packet data d a'' ack Hdata Hden Hd (w & Hr & _)%zoom_ok.
    by apply (packet_refused denom packet data d (ibc_view (put_registry a r)) w ack).
Qed.
(** C2: Which coins the chain creates and destroys, to the coin.  A message of the registry, the
    exchange or the distributions changes no supply; a bridge message destroys exactly what is
    locked or burned, creates exactly the amount of the claim that the oracle completes, in
    the denomination it is paid in, and otherwise neither; a transfer to another chain does to
    the balances what ibc-go's own transfer does and nothing else; and a packet acknowledged
    with success does what ibc-go's receipt does and then, when its registry entry converts,
    destroys exactly the received amount, the converted coins being paid from the escrow
    account and not created. *)
Theorem supply_exact a D :
  reachable a D ->
  (forall ctx m a' u, deliver ctx m a = (a', Ok u) ->
     match m with
     | TransferMsg t => IbcTransfer.tk_Transfer t (app_bank a, app_transfer a) = ((app_bank a', app_transfer a'), Ok u)
     | _ => supply_moves (supply_change m a) (app_bank a) (app_bank a')
     end)
  /\ forall packet a' ack, OnRecvPacket packet a = (a', Ok (IbcTransfer.ResultAck ack)) ->
       exists data b1, IbcTransfer.UnmarshalPacketData (IbcTransfer.Data packet) = Ok data
         /\ IbcTransfer.tk_OnRecvPacket packet data (app_bank a, app_transfer a) = ((b1, app_transfer a'), Ok tt)
         /\ supply_moves (fun d => - packet_burn packet a d) b1 (app_bank a').
Proof.
  intros Ha%app_reachable_ok. split; [|intros packet a' ack; apply packet_supply].
  intros ctx m a' u Hr. destruct m as [m|m|m|m|m]; apply zoom_ok in Hr as (w & Hr & ->).
  - apply conserves_preorder.
  - exact (Handler_conserves _ _ _ _ Hr).
  - destruct m as [m|m|m|m|m|m|m]; cbn [supply_change];
      [exact (claim_supply _ _ _ _ Hr)|exact (burn_supply _ _ _ _ Hr)|exact (lock_supply _ _ _ _ Hr)|refine (administrative_conserves _ _ _ _ _ Hr); reflexivity..].
  - exact (disp_conserves _ _ (disp_view a) _ _ (ok_disp _ _ Ha) Hr).
  - exact (transfer_supply _ _ _ _ Hr).
Qed.
End Invariant.

(** ** Reference modules of the SDK *)

(** Only the bank has a genesis state, the balances. *)
Definition RefSdkGenesis : SdkGenesis (RefB * unit * unit) RefB unit unit := {|
  sdk_InitGenesis name g := fun x => if String.eqb name "bank" then (g, Ok tt) else (x, Ok tt);
  sdk_ExportGenesis x := x;
  sdk_empty := (∅, tt, tt);
|}.
Lemma RefSdkGenesis_laws `{SdkAddress} : @SdkGenesisLaws (RefB * unit * unit) RefB unit unit RefBank RefSdkGenesis.
Proof. split. intros x. by exists x. Qed.

(** The reference bank keeps balances, not accounts. *)
Definition RefModuleAccounts : ModuleAccountKeeper RefB := {| SetModuleAccount _ _ b := b |}.
Lemma RefModuleAccounts_laws `{SdkAddress} : @ModuleAccountKeeperLaws RefB RefBank RefModuleAccounts.
Proof. by split. Qed.

Lemma RefAccounts_distinct : @ModuleAccountLaws RefAddress.
Proof. split. apply (bool_decide_unpack (NoDup _)). by vm_compute. Qed.

Section RefTransfer.
#[local] Existing Instances RefCoins RefAddress RefBank RefMath IbcTransfer.RefIbcTypes RefCoins_laws RefAddress_laws RefBank_laws
  RefBank_valid IbcTransfer.RefTransferKeeper.

Lemma RefTransferKeeper_laws : TransferKeeperLaws RefB unit.
Proof.
  split.
  - intros msg b b' t t' u Hr. unfold IbcTransfer.tk_Transfer, IbcTransfer.RefTransferKeeper in Hr. cbn [fst snd] in Hr.
    destruct (mbnd _ _ b) as [b1 r] eqn:E. injection Hr as <- _ ->. lift_step E as sender Hs. exact (spares_SendCoins (B := RefB) _ _ _ _ Hs _ _ _ E).
  - intros packet data b b' t t' u Hr. unfold IbcTransfer.tk_OnRecvPacket, IbcTransfer.RefTransferKeeper in Hr.
    cbn [fst snd] in Hr. destruct (mbnd _ _ b) as [b1 r] eqn:E. injection Hr as <- _ ->. lift_step E as receiver Hrec. lift_step E as denom Hden. destruct (NewIntFromString _) as [amount|]; [|done].
    lift_step E as coin Hc. run_step E as u1 b2 Hm. pose proof (MintCoins_valid _ _ _ _ _ Hm) as Hv. apply MintCoins_ok in Hm.
    apply SendCoinsFromModuleToAccount_ok in E as [Hs _].
    intros x d _. rewrite (Hs x d), (Hm x d). specialize (Hv d). repeat case_decide; lia.
Qed.
End RefTransfer.

(** ** Examples *)

Section Examples.
#[local] Existing Instances RefMath RefCoins RefAddress RefQuery RefBank EthBridge.RefEth EthBridge.RefIntText Oracle.RefOrder
  Dispensation.RefGogoTypes IbcTransfer.RefIbcTypes IbcTransfer.RefTransferKeeper EthBridge.ex_accounts Oracle.ex_staking
  RefSdkGenesis RefModuleAccounts.
#[local] Existing Instances RefMath_laws RefCoins_laws RefAddress_laws RefAddress_text RefAccounts_distinct RefQuery_laws
  RefBank_laws RefBank_valid EthBridge.RefEth_laws EthBridge.RefIntText_laws Oracle.RefOrder_laws Oracle.ex_staking_laws
  RefTransferKeeper_laws RefSdkGenesis_laws RefModuleAccounts_laws.

Abbreviation ExApp := (App RefB unit unit).

Definition ex_balances : RefB :=
  {[ ("alice", "aku") := Z.to_N (10 ^ 25); ("alice", "ceth") := Z.to_N (10 ^ 22);
     ("bob", "ceth") := Z.to_N (10 ^ 20); ("dave", "ceth") := Z.to_N (10 ^ 18) ]}.
Definition ex_genesis : GenesisState (RefB * unit * unit) :=
  mkGenesis (ex_balances, tt, tt)
    (Some (ClpTypes.mkGenesisState DefaultParams ["sif1root"] [] []))
    (Some (Oracle.mkGenesisState (Some ["sifvaloper1alice"; "sifvaloper1bob"]) "sif1admin" []))
    (Some EthBridge.DefaultGenesis) None
    (Some (TokenRegistry.mkGenesisState "sif1admin" (TokenRegistry.reg_registry ClpMsgServer.ex_registry))).

(** The state after some messages, the latest first. *)
Fixpoint ex_after (ms : list AppMsg) : ExApp :=
  match ms with
  | [] => (InitGenesis ex_genesis empty_app).1
  | m :: ms => (deliver (V := Oracle.ExValidator) Dispensation.ex_ctx m (ex_after ms)).1
  end.

Lemma authentic_dec (m : AppMsg) ss :
  GetSigners m = Ok ss -> forallb (fun s => negb (existsb (String.eqb s) module_accounts)) ss = true -> authentic m.
Proof.
  intros Hs Hall. exists ss. split; [done|]. intros s Hin%list_elem_of_In Hm%list_elem_of_In.
  pose proof (proj1 (forallb_forall _ _) Hall s Hin) as Hn%negb_true_iff.
  assert (existsb (String.eqb s) module_accounts = true) as He by (apply existsb_exists; exists s; by rewrite String.eqb_refl).
  congruence.
Qed.

Fixpoint ex_dust (ms : list AppMsg) : string -> Z :=
  match ms with [] => fun _ => 0 | m :: ms => fun d => ex_dust ms d + msg_dust m (ex_after ms) d end.

Abbreviation ex_deliver := (deliver (B := RefB) (S := unit) (V := Oracle.ExValidator) (T := unit)).
Abbreviation ex_reachable := (reachable (G := RefB * unit * unit) (B := RefB) (S := unit) (V := Oracle.ExValidator) (T := unit)).

Lemma deliver_next m ms :
  (ex_deliver Dispensation.ex_ctx m (ex_after ms)).2 = Ok tt ->
  ex_deliver Dispensation.ex_ctx m (ex_after ms) = (ex_after (m :: ms), Ok tt).
Proof. intros Hd. by apply (run_ok (ex_deliver Dispensation.ex_ctx m)). Qed.

Lemma app_reach_after m ms ss :
  ex_reachable (ex_after ms) (ex_dust ms) -> ValidateBasic m = Ok m -> GetSigners m = Ok ss ->
  forallb (fun s => negb (existsb (String.eqb s) module_accounts)) ss = true ->
  (ex_deliver Dispensation.ex_ctx m (ex_after ms)).2 = Ok tt -> ex_reachable (ex_after (m :: ms)) (ex_dust (m :: ms)).
Proof.
  intros Hr Hv Hs Ho Hd%deliver_next. by apply (reach_message _ _ Dispensation.ex_ctx m m); [..|eapply authentic_dec|].
Qed.
Lemma reach_first : ex_reachable (ex_after []) (ex_dust []).
Proof.
  apply (reach_genesis ex_genesis).
  - split; [by eexists|split]; [by intros o [= <-]|done].
  - apply (run_ok (InitGenesis ex_genesis) empty_app tt). by vm_compute.
Qed.

(** A pool, two validators reporting one event, and a distribution. *)
Definition ex_pool : AppMsg := ClpMsg ClpMsgServer.ex_create.
Definition ex_report (validator : string) : AppMsg := BridgeMsg (EthBridge.CreateMsg (EthBridge.ex_report validator)).
Definition ex_drop : AppMsg := DispMsg (Dispensation.CreateDistributionMsg
  (Dispensation.mkMsgCreateDistribution "sif1alice" "sif1run" Dispensation.DISTRIBUTION_TYPE_AIRDROP
    [Dispensation.mkOutput "sif1bob" [mkCoin "aku" 5]; Dispensation.mkOutput "sif1carol" [mkCoin "ceth" 7]])).
Definition ex_voted : list AppMsg := [ex_report "bob"; ex_pool].
Definition ex_run : list AppMsg := ex_drop :: ex_report "alice" :: ex_voted.

Ltac reach_by m ms := eapply (app_reach_after m ms); [|vm_compute; reflexivity..].
Lemma ex_voted_reachable : ex_reachable (ex_after ex_voted) (ex_dust ex_voted).
Proof. reach_by (ex_report "bob") [ex_pool]. reach_by ex_pool (@nil AppMsg). exact reach_first. Qed.
Lemma ex_run_reachable : ex_reachable (ex_after ex_run) (ex_dust ex_run).
Proof. reach_by ex_drop (ex_report "alice" :: ex_voted). reach_by (ex_report "alice") ex_voted. exact ex_voted_reachable. Qed.

Lemma ex_owed : Dispensation.liabilities (Dispensation.d_records (app_disp (ex_after ex_run))) "aku" = 5.
Proof. by vm_compute. Qed.
Lemma ex_no_dust : ex_dust ex_run "aku" = 0.
Proof. by vm_compute. Qed.

Lemma app_ok_facts (a : ExApp) D d :
  app_ok a D ->
  Dispensation.liabilities (Dispensation.d_records (app_disp a)) d
    <= GetBalance (app_bank a) Dispensation.GetDistributionModuleAddress d
  /\ - D d <= slack (clp_view a) d /\ NoDup (EthBridge.GetPeggyToken (bridge_view a)).
Proof. intros [_ Hs _ [_ Hd _ _] _ _ _ Ht]. split; [apply Hd|split; [apply Hs|exact Ht]]. Qed.

Lemma app_invariants_witness :
  5 <= GetBalance (app_bank (ex_after ex_run)) Dispensation.GetDistributionModuleAddress "aku"
  /\ 0 <= slack (clp_view (ex_after ex_run)) "aku"
  /\ NoDup (EthBridge.GetPeggyToken (bridge_view (ex_after ex_run))).
Proof.
  pose proof (app_ok_facts _ _ "aku" (app_invariants (ex_after ex_run) (ex_dust ex_run) ex_run_reachable)) as Hok.
  rewrite ex_owed, ex_no_dust in Hok. exact Hok.
Defined.

Lemma ex_fits : fits (ex_after ex_run).
Proof. split; by vm_compute. Qed.
Lemma app_genesis_roundtrip_witness :
  exists g a', ExportGenesis (ex_after ex_run) = Ok g /\ InitGenesis g empty_app = (a', Ok tt)
    /\ Dispensation.liabilities (Dispensation.d_records (app_disp a')) "aku" = 5
    /\ app_clp a' = app_clp (ex_after ex_run).
Proof.
  destruct (app_genesis_roundtrip (ex_after ex_run) (ex_dust ex_run) ex_run_reachable ex_fits) as (g & a' & He & Hi & Hr).
  exists g, a'. split; [exact He|]. split; [exact Hi|]. split; [|exact (rs_clp _ _ Hr)].
  rewrite (rs_disp _ _ Hr). exact ex_owed.
Defined.

Lemma ex_last_vote : ex_deliver Dispensation.ex_ctx (ex_report "alice") (ex_after ex_voted) = (ex_after (ex_report "alice" :: ex_voted), Ok tt).
Proof. apply (deliver_next (ex_report "alice") ex_voted). by vm_compute. Qed.
Lemma ex_minted : supply_change (ex_report "alice") (ex_after ex_voted) "ceth" = 500.
Proof. by vm_compute. Qed.

(** A chain whose registry converts vouchers of the Cosmos Hub's atom, of which the escrow
    account of the channel holds the unit. *)
Definition ex_ibc_genesis : GenesisState (RefB * unit * unit) :=
  mkGenesis (IbcTransfer.iw_bank IbcTransfer.ex_start, tt, tt)
    (Some (ClpTypes.mkGenesisState DefaultParams ["sif1root"] [] [])) None None None
    (Some (TokenRegistry.mkGenesisState "sif1admin" (TokenRegistry.reg_registry IbcTransfer.ex_registry))).
Definition ex_hub : ExApp := (InitGenesis ex_ibc_genesis empty_app).1.
Lemma ex_hub_reachable : ex_reachable ex_hub (fun _ => 0).
Proof.
  apply (reach_genesis ex_ibc_genesis).
  - split; [by eexists|split]; [by intros o ?|done].
  - apply (run_ok (InitGenesis ex_ibc_genesis) empty_app tt). by vm_compute.
Qed.
Definition ex_hub_received : ExApp := (OnRecvPacket IbcTransfer.ex_packet ex_hub).1.
Lemma ex_hub_packet : OnRecvPacket IbcTransfer.ex_packet ex_hub = (ex_hub_received, Ok (IbcTransfer.ResultAck (byte1 1))).
Proof. apply (run_ok (OnRecvPacket IbcTransfer.ex_packet) ex_hub (IbcTransfer.ResultAck (byte1 1))). by vm_compute. Qed.
Lemma ex_hub_burn :
  packet_burn IbcTransfer.ex_packet ex_hub IbcTransfer.ex_voucher = 500 /\ packet_burn IbcTransfer.ex_packet ex_hub "xatom" = 0.
Proof. by vm_compute. Qed.

(** The last vote creates 500 ceth; a packet of 500 atom has its vouchers destroyed. *)
Lemma supply_exact_witness :
  (exists touched, forall accts, NoDup accts -> touched ⊆ accts ->
     supply_of (app_bank (ex_after (ex_report "alice" :: ex_voted))) accts "ceth"
     = supply_of (app_bank (ex_after ex_voted)) accts "ceth" + 500)
  /\ exists b1 touched, forall accts, NoDup accts -> touched ⊆ accts ->
     supply_of (app_bank ex_hub_received) accts IbcTransfer.ex_voucher = supply_of b1 accts IbcTransfer.ex_voucher - 500
     /\ supply_of (app_bank ex_hub_received) accts "xatom" = supply_of b1 accts "xatom".
Proof.
  split.
  - destruct (supply_exact (ex_after ex_voted) (ex_dust ex_voted) ex_voted_reachable) as [Hm _].
    destruct (Hm _ _ _ _ ex_last_vote) as [touched Ht].
    exists touched. intros accts Hnd Hsub. rewrite <- ex_minted. exact (Ht accts Hnd Hsub "ceth").
  - destruct (supply_exact ex_hub _ ex_hub_reachable) as [_ Hp]. destruct (Hp _ _ _ ex_hub_packet) as (data & b1 & _ & _ & touched & Ht).
    exists b1, touched. intros accts Hnd Hsub. destruct ex_hub_burn as [Ev Ex].
    pose proof (Ht accts Hnd Hsub IbcTransfer.ex_voucher) as H1'. pose proof (Ht accts Hnd Hsub "xatom") as H2'. cbv beta in H1', H2'.
    rewrite Ev in H1'. rewrite Ex in H2'. split; lia.
Defined.

Definition ex_deregister : AppMsg := RegistryMsg (TokenRegistry.Msg_Deregister (TokenRegistry.mkMsgDeregister "sif1admin" "CETH")).
Lemma ex_deregistered : ex_deliver Dispensation.ex_ctx ex_deregister (ex_after ex_run) = (ex_after (ex_deregister :: ex_run), Ok tt).
Proof. apply (deliver_next ex_deregister ex_run). by vm_compute. Qed.
Definition ex_swap : AppMsg := ClpMsg (SwapMsg (mkMsgSwap "sif1bob" (Some (mkAsset "ceth")) (Some (mkAsset "aku")) 1000 1)).
Lemma ex_swaps_before : is_ok (ex_deliver Dispensation.ex_ctx ex_swap (ex_after ex_run)).2 = true.
Proof. by vm_compute. Qed.

Definition ex_burn : AppMsg := BridgeMsg (EthBridge.BurnMsg EthBridge.ex_burn).
Lemma ex_burns_before : is_ok (ex_deliver Dispensation.ex_ctx ex_burn (ex_after ex_run)).2 = true.
Proof. by vm_compute. Qed.

Lemma same_outcome {X Y} (p q : X * res Y) x : p = (x, q.2) -> is_ok q.2 = true -> is_ok p.2 = true.
Proof. by intros ->. Qed.

(** The swap is refused now; the bridge burns the same token as before. *)
Lemma deregistered_frozen_witness :
  is_ok (ex_deliver Dispensation.ex_ctx ex_swap (ex_after ex_run)).2 = true
  /\ is_ok (ex_deliver Dispensation.ex_ctx ex_swap (ex_after (ex_deregister :: ex_run))).2 = false
  /\ is_ok (ex_deliver Dispensation.ex_ctx ex_burn (ex_after (ex_deregister :: ex_run))).2 = true.
Proof.
  split; [exact ex_swaps_before|].
  destruct (deregistered_frozen _ _ _ _ _ _ ex_deregistered) as (Hf & Hu & _). split.
  - exact (proj2 (Hf Dispensation.ex_ctx ex_swap eq_refl)).
  - exact (same_outcome _ _ _ (Hu Dispensation.ex_ctx ex_burn eq_refl ltac:(intros r E; discriminate E)) ex_burns_before).
Defined.
End Examples.
End App.
