(* ===== verification/AppExport.v ===== *)
(** * Exporting the state of the application

    app/export.go and createSimappAndExport of cmd/akhiranoded/cmd/root.go: the command that
    writes the state of a stopped node as a genesis file, at its height or prepared for a
    start at height zero.  The stores and hooks of the SDK's staking, distribution and
    slashing modules are the class [ExportKeepers]; the state of all three is in the SDK's
    part of the application's state. *)

From Stdlib Require Import ZArith Lia Ascii String.
From stdpp Require Import base list gmap strings.
From S2P Require Import Prelude SdkMath Sdk Frames TokenRegistry ClpTypes ClpCalc ClpKeeper ClpMsgServer ClpGenesis Oracle OracleGenesis EthBridge Dispensation IbcTransfer AppFrames App.

Module AppExport.
Import App.
#[local] Existing Instance TokenRegistry.Keeper.

(** ** Services *)

(** A delegation is between two printed addresses; of the entries of a redelegation or of an
    unbonding delegation only the creation height matters. *)
Record Delegation := mkDelegation { DelegatorAddress : string; Del_ValidatorAddress : string }.
Record Unbonding (R : Type) := mkUnbonding { CreationHeights : list Z; unbonding_rest : R }.
Arguments mkUnbonding {_} _ _.
Arguments CreationHeights {_} _.
Arguments unbonding_rest {_} _.

Definition ValidatorsKey : string := "!".
(** [stakingtypes.GetValidatorKey]: since SDK 0.43 an address in a key has its length in front. *)
Definition GetValidatorKey (operatorAddr : string) : string :=
  String "!" (String (ascii_of_nat (String.length operatorAddr)) operatorAddr).

(** [X] is the state of the SDK's modules, [V] a validator, [R] what else a redelegation or an
    unbonding delegation holds, [I] a signing info and [C] coins.  An operation that returns no
    error ends or panics. *)
Class ExportKeepers (X V R I C : Type) := {
  staking_store : X -> KV V;
  sk_GetValidator : X -> string -> option V;
  sk_SetValidator : V -> M X unit;
  val_GetOperator : V -> string;
  with_UnbondingHeight : Z -> V -> V;
  with_Jailed : bool -> V -> V;
  GetAllValidators : X -> list V;
  GetAllDelegations : X -> list Delegation;
  GetRedelegations : X -> list (Unbonding R);
  SetRedelegation : Unbonding R -> M X unit;
  GetUnbondingDelegations : X -> list (Unbonding R);
  SetUnbondingDelegation : Unbonding R -> M X unit;
  ApplyAndReturnValidatorSetUpdates : M X unit;
  WithdrawValidatorCommission : string -> M X unit;
  WithdrawDelegationRewards : string -> string -> M X unit;
  DeleteAllValidatorSlashEvents : M X unit;
  DeleteAllValidatorHistoricalRewards : M X unit;
  GetValidatorOutstandingRewardsCoins : X -> string -> C;
  GetCommunityPool : X -> C;
  SetCommunityPool : C -> M X unit;
  DecCoins_Add : C -> C -> C;
  AfterValidatorCreated : Z -> string -> M X unit;
  BeforeDelegationCreated : Z -> string -> string -> M X unit;
  AfterDelegationModified : Z -> string -> string -> M X unit;
  GetSigningInfos : X -> list (string * I);
  with_StartHeight : Z -> I -> I;
  SetValidatorSigningInfo : string -> I -> M X unit;
  WriteValidators : X -> res (list string);
}.

(** Nothing outside the staking module writes its validators, and it writes them where
    [GetValidatorKey] says, under their operators' addresses of 20 bytes. *)
Definition keeps_validators {X V R I C A} `{ExportKeepers X V R I C} (m : M X A) : Prop :=
  forall x, staking_store (m x).1 = staking_store x.
Class ExportKeepersLaws (X V R I C : Type) `{ExportKeepers X V R I C} : Prop := {
  sk_GetValidator_eq x addr : sk_GetValidator x addr = staking_store x !! GetValidatorKey addr;
  validators_keyed x k v : staking_store x !! k = Some v ->
    k = GetValidatorKey (val_GetOperator v) /\ String.length (val_GetOperator v) = 20%nat;
  keeps_WithdrawValidatorCommission a : keeps_validators (WithdrawValidatorCommission a);
  keeps_WithdrawDelegationRewards d a : keeps_validators (WithdrawDelegationRewards d a);
  keeps_DeleteAllValidatorSlashEvents : keeps_validators DeleteAllValidatorSlashEvents;
  keeps_DeleteAllValidatorHistoricalRewards : keeps_validators DeleteAllValidatorHistoricalRewards;
  keeps_SetCommunityPool c : keeps_validators (SetCommunityPool c);
  keeps_AfterValidatorCreated h a : keeps_validators (AfterValidatorCreated h a);
  keeps_BeforeDelegationCreated h d a : keeps_validators (BeforeDelegationCreated h d a);
  keeps_AfterDelegationModified h d a : keeps_validators (AfterDelegationModified h d a);
  keeps_SetRedelegation r : keeps_validators (SetRedelegation r);
  keeps_SetUnbondingDelegation r : keeps_validators (SetUnbondingDelegation r);
}.

(** ** The export *)

Section Model.
Context {G B S V T R I C : Type} `{SdkMath, SdkCoins, SdkAddress, SdkQuery, EthBridge.EthCommon, EthBridge.IntText, Dispensation.GogoTypes,
  IbcTransfer.IbcTypes, !BankKeeper B, !EthBridge.AccountKeeper B, !Oracle.StakingKeeper S V, !Oracle.MapOrder,
  !IbcTransfer.SDKTransferKeeper B T, !SdkGenesis G B S T, !ModuleAccountKeeper B, !ExportKeepers (B * S * T) V R I C}.
Abbreviation App := (App B S T).
Abbreviation X := (B * S * T)%type.

(** [log.Fatal] ends the process. *)
Definition check_jailWhiteList (jailWhiteList : list string) : res unit :=
  let! _ := rmap (fun addr => panicOnErr (ValAddressFromBech32 addr)) jailWhiteList in Ok tt.

(** Withdraw all commission and all rewards, whatever the answers. *)
Definition withdraw_all : M X (list Delegation) :=
  do! vals <- mgets GetAllValidators;
  run! mfor vals (fun val => run! mtry (WithdrawValidatorCommission (val_GetOperator val)); mret tt);
  do! dels <- mgets GetAllDelegations;
  run! mfor dels (fun delegation =>
    do! valAddr <- mlift (panicOnErr (ValAddressFromBech32 (Del_ValidatorAddress delegation)));
    do! delAddr <- mlift (panicOnErr (AccAddressFromBech32 (DelegatorAddress delegation)));
    run! mtry (WithdrawDelegationRewards delAddr valAddr); mret tt);
  mret dels.

(** At height zero: what is left of the rewards goes to the community pool, and the validators
    and delegations are created again. *)
Definition reinitialize (dels : list Delegation) : M X unit :=
  do! vals <- mgets GetAllValidators;
  run! mfor vals (fun val =>
    do! scraps <- mgets (fun x => GetValidatorOutstandingRewardsCoins x (val_GetOperator val));
    do! pool <- mgets GetCommunityPool;
    run! mmust (SetCommunityPool (DecCoins_Add pool scraps));
    mmust (AfterValidatorCreated 0 (val_GetOperator val)));
  mfor dels (fun del =>
    do! valAddr <- mlift (panicOnErr (ValAddressFromBech32 (Del_ValidatorAddress del)));
    do! delAddr <- mlift (panicOnErr (AccAddressFromBech32 (DelegatorAddress del)));
    run! mmust (BeforeDelegationCreated 0 delAddr valAddr);
    mmust (AfterDelegationModified 0 delAddr valAddr)).

Definition created_at_zero (u : Unbonding R) : Unbonding R :=
  mkUnbonding ((fun _ => 0) <$> CreationHeights u) (unbonding_rest u).

Definition ErrValidatorNotFound : GoError := PlainErr "expected validator, not found".

(** The body of the loop over the keys of the validators. *)
Definition reset_validator (jailWhiteList : list string) (key : string) : M X unit :=
  let addr := str_drop 1 key in
  do! validator <- mgets (fun x => sk_GetValidator x addr);
  match validator with
  | None => mpanic
  | Some validator =>
      let validator := with_UnbondingHeight 0 validator in
      let jail := negb (bool_decide (jailWhiteList = [])) && negb (existsb (String.eqb (ValAddress_String addr)) jailWhiteList) in
      mmust (sk_SetValidator (if jail then with_Jailed true validator else validator))
  end.

Definition reset_validators (jailWhiteList : list string) : M X unit :=
  do! keys <- mgets (fun x => reverse (kv_prefix ValidatorsKey (staking_store x)).*1);
  mfor keys (reset_validator jailWhiteList).

Definition prepForZeroHeightGenesis (jailWhiteList : list string) : M X unit :=
  run! mlift (check_jailWhiteList jailWhiteList);
  do! dels <- withdraw_all;
  run! mmust DeleteAllValidatorSlashEvents;
  run! mmust DeleteAllValidatorHistoricalRewards;
  run! reinitialize dels;
  do! reds <- mgets GetRedelegations;
  run! mfor reds (fun red => mmust (SetRedelegation (created_at_zero red)));
  do! ubds <- mgets GetUnbondingDelegations;
  run! mfor ubds (fun ubd => mmust (SetUnbondingDelegation (created_at_zero ubd)));
  run! reset_validators jailWhiteList;
  run! mtry ApplyAndReturnValidatorSetUpdates;
  do! infos <- mgets GetSigningInfos;
  mfor infos (fun '(addr, info) => mmust (SetValidatorSigningInfo addr (with_StartHeight 0 info))).

Record ExportedApp := mkExportedApp { AppState : GenesisState G; Validators : list string; Height : Z }.

(** The context is the one transactions are checked in: nothing that is written stays. *)
Definition ExportAppStateAndValidators (forZeroHeight : bool) (jailAllowedAddrs : list string) (LastBlockHeight : Z) (a : App) : res ExportedApp :=
  let height := LastBlockHeight + 1 in
  let '(a, r, height) :=
    if forZeroHeight then (zoom sdk_view put_sdk (prepForZeroHeightGenesis jailAllowedAddrs) a, 0) else ((a, Ok tt), height) in
  let! _ := r in
  let! genState := ExportGenesis a in
  let! validators := WriteValidators (sdk_view a) in
  Ok (mkExportedApp genState validators height).

(** The committed versions of the state, and the last of them. *)
Class Versions := { LoadHeight : Z -> res App; LoadLatest : Z * App }.
Context {versions : Versions}.

Definition createSimappAndExport (height : Z) (forZeroHeight : bool) (jailAllowedAddrs : list string) : res ExportedApp :=
  let! '(last, a) := (if height =? -1 then Ok LoadLatest else let! a := LoadHeight height in Ok (height, a)) in
  ExportAppStateAndValidators forZeroHeight jailAllowedAddrs last a.
End Model.

(** ** Lemmas *)

Section Lemmas.
Context {G B S V T R I C : Type} `{SdkMathLaws, SdkCoinsLaws, SdkAddressLaws, !AddressTextLaws, !ModuleAccountLaws, SdkQueryLaws,
  EthBridge.EthCommonLaws, EthBridge.IntTextLaws, Dispensation.GogoTypes, IbcTransfer.IbcTypes, !BankKeeper B, !BankLaws B,
  !BankValidLaws B, !EthBridge.AccountKeeper B, !Oracle.StakingKeeper S V, !Oracle.StakingLaws S V, Oracle.MapOrderLaws,
  !IbcTransfer.SDKTransferKeeper B T, !TransferKeeperLaws B T, !SdkGenesis G B S T, !SdkGenesisLaws G B S T,
  !ModuleAccountKeeper B, !ModuleAccountKeeperLaws B, !ExportKeepers (B * S * T) V R I C, !ExportKeepersLaws (B * S * T) V R I C}.
#[local] Existing Instance oracle_keeper.
Abbreviation App := (App B S T).
Abbreviation X := (B * S * T)%type.

(** An operation that, from a state in which a validator is stored, panics or ends in such a
    state and never returns an error. *)
Definition quiet {A} (m : M X A) : Prop :=
  forall x, (staking_store (m x).1 = staking_store x) /\ forall e, (m x).2 <> Err e.

Lemma quiet_ret {A} (y : A) : quiet (mret y). Proof. by intros x. Qed.
Lemma quiet_gets {A} (f : X -> A) : quiet (mgets f). Proof. by intros x. Qed.
Lemma quiet_panicOnErr {A} (r : res A) : quiet (mlift (panicOnErr r)). Proof. intros x. by destruct r. Qed.
Lemma quiet_bnd {A D} (m : M X A) (f : A -> M X D) : quiet m -> (forall y, quiet (f y)) -> quiet (mbnd m f).
Proof.
  intros Hm Hf x. unfold mbnd. destruct (Hm x) as [Hs He]. destruct (m x) as [x1 [y|e|]]; cbn in *; [|by destruct (He e)|done].
  destruct (Hf y x1) as [Hs1 He1]. by rewrite Hs1.
Qed.
Lemma quiet_for {A} (l : list A) (f : A -> M X unit) : (forall y, quiet (f y)) -> quiet (mfor l f).
Proof. intros Hf. induction l as [|y l IH]; [apply quiet_ret|]. apply quiet_bnd; [apply Hf|done]. Qed.
Lemma quiet_try {A} (m : M X A) : keeps_validators m -> quiet (mtry m).
Proof. intros Hm x. specialize (Hm x). unfold mtry. by destruct (m x) as [x1 [y|e|]]. Qed.
Lemma quiet_must {A} (m : M X A) : keeps_validators m -> quiet (mmust m).
Proof. intros Hm x. specialize (Hm x). unfold mmust. by destruct (m x) as [x1 [y|e|]]. Qed.

Create HintDb quiet.
#[local] Hint Resolve quiet_ret quiet_gets quiet_panicOnErr quiet_bnd quiet_for quiet_try quiet_must
  keeps_WithdrawValidatorCommission keeps_WithdrawDelegationRewards keeps_DeleteAllValidatorSlashEvents
  keeps_DeleteAllValidatorHistoricalRewards keeps_SetCommunityPool keeps_AfterValidatorCreated keeps_BeforeDelegationCreated
  keeps_AfterDelegationModified keeps_SetRedelegation keeps_SetUnbondingDelegation : quiet.

Lemma quiet_check l : quiet (mlift (check_jailWhiteList l)).
Proof.
  intros x. split; [done|]. intros e. cbn. unfold check_jailWhiteList. induction l as [|addr l IH]; [done|]. cbn [rmap rbind].
  destruct (ValAddressFromBech32 addr); cbn; [|done..]. by destruct (rmap _ l).
Qed.
Lemma quiet_withdraw_all : quiet withdraw_all.
Proof. unfold withdraw_all. auto 20 with quiet. Qed.
Lemma quiet_reinitialize dels : quiet (reinitialize dels).
Proof. unfold reinitialize. auto 20 with quiet. Qed.

(** The key of a validator, without its first byte, is the key of nobody. *)
Lemma not_found (x : X) k : is_Some (staking_store x !! k) -> sk_GetValidator x (str_drop 1 k) = None.
Proof.
  intros [v Hv]. destruct (validators_keyed _ _ _ Hv) as [-> Hlen]. rewrite sk_GetValidator_eq.
  destruct (staking_store x !! GetValidatorKey (str_drop 1 (GetValidatorKey (val_GetOperator v)))) as [w|] eqn:E; [|done]. exfalso. apply validators_keyed in E as [E Hlen'].
  apply (f_equal String.length) in E. unfold GetValidatorKey in E. cbn -[ascii_of_nat] in E. lia.
Qed.

Lemma reset_validators_panics l (x : X) : staking_store x <> ∅ -> (reset_validators l x).2 = Panic.
Proof.
  intros Hne. unfold reset_validators, mbnd at 1, mgets. apply map_choose in Hne as (k & v & Hv).
  assert (k ∈ reverse (kv_prefix ValidatorsKey (staking_store x)).*1) as Hk.
  { apply elem_of_reverse, list_elem_of_fmap. exists (k, v). split; [done|].
    apply elem_of_kv_prefix. split; [done|]. apply validators_keyed in Hv as [-> _]. reflexivity. }
  assert (Forall (fun k => is_Some (staking_store x !! k)) (reverse (kv_prefix ValidatorsKey (staking_store x)).*1)) as Hall.
  { apply Forall_forall. intros k' ([k1 v1] & -> & Hin)%elem_of_reverse%list_elem_of_fmap.
    apply elem_of_kv_prefix in Hin as [Hin _]. by exists v1. }
  destruct Hall as [|k1 l1 Hk1 _]; [by apply not_elem_of_nil in Hk|]. cbn [mfor]. unfold mbnd at 1, reset_validator at 1.
  unfold mbnd, mgets. by rewrite not_found.
Qed.

Lemma quiet_then {A D} (m : M X A) (f : A -> M X D) x :
  quiet m -> (forall y x1, staking_store x1 = staking_store x -> (f y x1).2 = Panic) -> (mbnd m f x).2 = Panic.
Proof.
  intros Hm Hf. unfold mbnd. destruct (Hm x) as [Hs He]. destruct (m x) as [x1 [y|e|]]; cbn in *; [|by destruct (He e)|done].
  by apply Hf.
Qed.

Lemma prep_panics l (x : X) : staking_store x <> ∅ -> (prepForZeroHeightGenesis l x).2 = Panic.
Proof.
  intros Hne. unfold prepForZeroHeightGenesis.
  repeat (apply quiet_then; [solve [apply quiet_check|apply quiet_withdraw_all|apply quiet_reinitialize|auto 20 with quiet]|intros ? ? Hs];
    rewrite <- Hs in Hne; clear Hs).
  match goal with |- (mbnd _ _ ?x).2 = _ => pose proof (reset_validators_panics l x Hne) as Hp end.
  unfold mbnd at 1. destruct (reset_validators l _) as [x' r]. cbn in Hp. by subst.
Qed.

(** ** Properties *)

(** C36: The export of a committed version gives, for the start at the next height, exactly the
    genesis state of that version, whatever is in the list of validators not to jail; if the
    version is reachable, with fewer than 2^64 - 1 pools and providers, the export succeeds
    when the validators can be listed, and a chain starts from it with everything but the
    blacklist.  An export for height zero never ends well while any validator is stored: the
    loop over the validators takes the rest of a key for the address, with the length byte in
    front of it, does not find the validator and panics. *)
Theorem export_command `{!Versions} height jail a D :
  height <> -1 -> LoadHeight height = Ok a ->
  (forall e, createSimappAndExport height false jail = Ok e ->
     ExportGenesis a = Ok (AppState e) /\ Height e = height + 1)
  /\ (reachable a D -> fits a -> forall vals, WriteValidators (sdk_view a) = Ok vals ->
       exists e a', createSimappAndExport height false jail = Ok e /\ Validators e = vals
         /\ InitGenesis (AppState e) empty_app = (a', Ok tt) /\ restarted a a')
  /\ (staking_store (sdk_view a) <> ∅ -> createSimappAndExport height true jail = Panic).
Proof.
  intros Hh%Z.eqb_neq Hl. unfold createSimappAndExport, ExportAppStateAndValidators. rewrite Hh, Hl. cbn [rbind]. split_and!.
  - intros e He. apply rbind_ok_inv in He as (g & Hg & He). apply rbind_ok_inv in He as (vals & _ & He). injection He as <-. done.
  - intros Ha%app_reachable_ok Hf vals Hv. destruct (export_import _ _ Ha Hf) as (g & a' & Hg & Hi & Hr).
    rewrite Hg, Hv. cbn [rbind]. by eexists _, a'.
  - intros Hne%(prep_panics jail). unfold zoom. destruct (prepForZeroHeightGenesis jail (sdk_view a)) as [x r]. cbn in Hne. by subst.
Qed.
End Lemmas.

(** ** Examples *)

Section Examples.
#[local] Existing Instances RefMath RefCoins RefAddress RefQuery RefBank EthBridge.RefEth EthBridge.RefIntText Oracle.RefOrder
  Dispensation.RefGogoTypes IbcTransfer.RefIbcTypes IbcTransfer.RefTransferKeeper EthBridge.ex_accounts Oracle.ex_staking
  RefSdkGenesis RefModuleAccounts.
#[local] Existing Instances RefMath_laws RefCoins_laws RefAddress_laws RefAddress_text RefAccounts_distinct RefQuery_laws
  RefBank_laws RefBank_valid EthBridge.RefEth_laws EthBridge.RefIntText_laws Oracle.RefOrder_laws Oracle.ex_staking_laws
  RefTransferKeeper_laws RefSdkGenesis_laws RefModuleAccounts_laws.

(** One validator, that nothing is owed to, and one delegation. *)
Definition ex_operator : string := "validator-number-one".
Definition ex_validators : KV Oracle.ExValidator := {[ GetValidatorKey ex_operator := Oracle.mkExValidator ex_operator true 60 ]}.
Definition RefExportKeepers : ExportKeepers (RefB * unit * unit) Oracle.ExValidator unit unit Z := {|
  staking_store _ := ex_validators;
  sk_GetValidator _ addr := ex_validators !! GetValidatorKey addr;
  sk_SetValidator _ := mret tt;
  val_GetOperator := Oracle.ex_op;
  with_UnbondingHeight _ v := v;
  with_Jailed j v := Oracle.mkExValidator (Oracle.ex_op v) (negb j) (Oracle.ex_power v);
  GetAllValidators _ := [Oracle.mkExValidator ex_operator true 60];
  GetAllDelegations _ := [mkDelegation "sif1alice" ("sifvaloper1" +:+ ex_operator)];
  GetRedelegations _ := [mkUnbonding [7; 9] tt];
  SetRedelegation _ := mret tt;
  GetUnbondingDelegations _ := [];
  SetUnbondingDelegation _ := mret tt;
  ApplyAndReturnValidatorSetUpdates := mret tt;
  WithdrawValidatorCommission _ := mthrow (PlainErr "no validator commission to withdraw");
  WithdrawDelegationRewards _ _ := mret tt;
  DeleteAllValidatorSlashEvents := mret tt;
  DeleteAllValidatorHistoricalRewards := mret tt;
  GetValidatorOutstandingRewardsCoins _ _ := 0;
  GetCommunityPool _ := 0;
  SetCommunityPool _ := mret tt;
  DecCoins_Add := Z.add;
  AfterValidatorCreated _ _ := mret tt;
  BeforeDelegationCreated _ _ _ := mret tt;
  AfterDelegationModified _ _ _ := mret tt;
  GetSigningInfos _ := [];
  with_StartHeight _ i := i;
  SetValidatorSigningInfo _ _ := mret tt;
  WriteValidators _ := Ok [ex_operator];
|}.
#[local] Existing Instance RefExportKeepers.
Lemma RefExportKeepers_laws : ExportKeepersLaws (RefB * unit * unit) Oracle.ExValidator unit unit Z.
Proof. split; try done. intros x k v Hk. change (ex_validators !! k = Some v) in Hk. unfold ex_validators in Hk. by apply lookup_singleton_Some in Hk as [<- <-]. Qed.
#[local] Existing Instance RefExportKeepers_laws.

#[local] Instance ex_versions : @Versions RefB unit unit := {|
  LoadHeight h := if h =? 12 then Ok (ex_after ex_run) else Err (PlainErr "version does not exist");
  LoadLatest := (12, ex_after ex_run);
|}.
Lemma ex_loaded : @LoadHeight _ _ _ ex_versions 12 = Ok (ex_after ex_run).
Proof. reflexivity. Qed.
Lemma ex_stored : staking_store (sdk_view (ex_after ex_run)) <> ∅.
Proof. apply map_non_empty_singleton. Qed.

Lemma export_command_witness :
  (exists e a', createSimappAndExport 12 false [] = Ok e /\ InitGenesis (AppState e) empty_app = (a', Ok tt)
    /\ app_clp a' = app_clp (ex_after ex_run))
  /\ createSimappAndExport (G := RefB * unit * unit) (V := Oracle.ExValidator) 12 true [] = Panic.
Proof.
  destruct (export_command 12 [] (ex_after ex_run) (ex_dust ex_run) ltac:(discriminate) ex_loaded) as (_ & Hr & Hp).
  split; [|exact (Hp ex_stored)].
  destruct (Hr ex_run_reachable ex_fits [ex_operator] eq_refl) as (e & a' & He & _ & Hi & Hre).
  exists e, a'. split; [exact He|]. split; [exact Hi|exact (rs_clp _ _ Hre)].
Defined.
End Examples.
End AppExport.
