(* ===== verification/IbcDiag.v ===== *)
(** * The diagnosis of IBC transfers

    The command stuck-txs of cmd/akhiranoded/cmd/ibc-diag.go: it pages through the packets a
    node has committed to and not seen acknowledged, asks the other node which of them it has
    not received, and searches the first node for the transactions that sent them.  The two
    nodes are behind the class [DiagNet], whose state is the state of both chains; it moves on
    between the requests. *)

From Stdlib Require Import ZArith Lia Ascii String.
From stdpp Require Import base list strings.
From S2P Require Import Prelude Sdk Json Sha256 EthBridge.

Module IbcDiag.

Definition transferPort : string := "transfer".

Record FungibleTokenPacketData := mkPacketData { Denom : string; Amount : string; Sender : string; Receiver : string }.
Record Transfer := mkTransfer { T_TxHash : string; T_PacketSequence : string; T_PacketData : FungibleTokenPacketData }.

(** The results of a transaction search: the bytes of a transaction and its events. *)
Record TxEvent := mkTxEvent { Event_Type : string; Event_Attributes : list (string * string) }.
Record ResultTx := mkResultTx { Tx : string; Tx_Events : list TxEvent }.
(** The printed attributes, which nothing reads, are left out. *)
Record EventInfo := mkEventInfo { Info_Type : string; Info_TxHash : string; RealAttributes : list (string * string) }.

(** ** The nodes *)

Class DiagNet (W : Type) := {
  GetClientQueryContext : res unit;
  (** The connections to an endpoint, for queries and for searches. *)
  NewClientFromNode : string -> res unit;
  rpchttp_New : string -> res unit;
  PacketCommitments : string -> string -> string -> Z -> Z -> M W (list Z);
  UnreceivedPackets : string -> string -> string -> list Z -> M W (list Z);
  TxSearch : string -> string -> Z -> Z -> M W (list ResultTx);
}.

(** ** The command *)

Section Model.
Context {W : Type} `{!DiagNet W}.

(** *** Events *)

Definition hex_EncodeToString : string -> string := EthBridge.to_hex.

Definition FilterEvents (txs : list ResultTx) (typeFilter : string -> bool) : list EventInfo :=
  concat ((fun tx =>
    (fun ev => mkEventInfo (Event_Type ev) (hex_EncodeToString (Sha256.Sum256 (Tx tx))) (Event_Attributes ev)) <$>
      List.filter (fun ev => typeFilter (Event_Type ev)) (Tx_Events tx)) <$> txs).

Definition GetAttribute (ev : EventInfo) (key : string) : string :=
  match find (fun attr => String.eqb attr.1 key) (RealAttributes ev) with Some attr => attr.2 | None => "" end.

(** [json.Unmarshal] into the struct: the name of a field is matched in any case, a later
    member wins, null leaves the field alone and any other member is ignored. *)
Definition set_field (d : FungibleTokenPacketData) (kx : string * Json) : res FungibleTokenPacketData :=
  let '(k, x) := kx in
  match x with
  | JNull => Ok d
  | _ =>
      if EqualFold k "Denom" then let! s := json_string x in Ok (mkPacketData s (Amount d) (Sender d) (Receiver d))
      else if EqualFold k "Amount" then let! s := json_string x in Ok (mkPacketData (Denom d) s (Sender d) (Receiver d))
      else if EqualFold k "Sender" then let! s := json_string x in Ok (mkPacketData (Denom d) (Amount d) s (Receiver d))
      else if EqualFold k "Receiver" then let! s := json_string x in Ok (mkPacketData (Denom d) (Amount d) (Sender d) s)
      else Ok d
  end.
Definition set_fields (d : FungibleTokenPacketData) (fs : list (string * Json)) : res FungibleTokenPacketData :=
  fold_left (fun acc kx => let! d := acc in set_field d kx) fs (Ok d).
Definition unmarshal_packet (text : string) : res FungibleTokenPacketData :=
  let empty := mkPacketData "" "" "" "" in
  match json_parse text with
  | None => Err json_error
  | Some JNull => Ok empty
  | Some (JObject fs) => set_fields empty fs
  | Some _ => Err json_error
  end.

(** *** One transfer *)

Definition send_packet_query (packetSequence : Z) (channelID : string) : string :=
  "send_packet.packet_sequence=" +:+ big_String packetSequence +:+ " AND send_packet.packet_src_channel='" +:+ channelID +:+ "'".
Definition is_send_packet (eventType : string) : bool := String.eqb eventType "send_packet".

Definition ErrPruned : GoError := PlainErr "pruned send_packet".
Definition ErrMultiple : GoError := PlainErr "multiple events".

(** The transfer in the results of a search. *)
Definition only_transfer (filteredEvents : list EventInfo) : res Transfer :=
  match filteredEvents with
  | [] => Err ErrPruned
  | _ :: _ :: _ => Err ErrMultiple
  | [ev] =>
      let! fungibleTokenPacket := unmarshal_packet (GetAttribute ev "packet_data") in
      Ok (mkTransfer (Info_TxHash ev) (GetAttribute ev "packet_sequence") fungibleTokenPacket)
  end.
Definition getTransfer (node channelID : string) (packetSequence : Z) : M W Transfer :=
  do! txs <- TxSearch node (send_packet_query packetSequence channelID) 1 100;
  mlift (only_transfer (FilterEvents txs is_send_packet)).

Definition add_transfer (node chan : string) (transfers : list Transfer) (seq : Z) : M W (list Transfer) :=
  do! ev <- getTransfer node chan seq; mret (transfers ++ [ev]).

Definition getTransfers (nodeURI channelID : string) (packets : list Z) : M W (list Transfer) :=
  run! mlift (rpchttp_New nodeURI);
  mfold (add_transfer nodeURI channelID) [] packets.

(** *** The packets *)

Definition getClientContext (nodeURI : string) : res unit :=
  let! _ := GetClientQueryContext in
  NewClientFromNode nodeURI.

Definition limit : Z := 100.

(** The loop over the pages; [None] when the fuel runs out. *)
Fixpoint read_pages (fuel : nat) (nodeURI portID channelID : string) (page : Z) (packets : list Z) : M W (option (list Z)) :=
  match fuel with
  | O => mret None
  | S fuel =>
      do! packetSequences <- PacketCommitments nodeURI portID channelID (u64 (u64 (page - 1) * limit)) limit;
      let packets := packets ++ packetSequences in
      if Z.of_nat (length packetSequences) <? limit then mret (Some packets)
      else read_pages fuel nodeURI portID channelID (u64 (page + 1)) packets
  end.
Definition getCommittedPackets (fuel : nat) (nodeURI portID channelID : string) : M W (option (list Z)) :=
  run! mlift (getClientContext nodeURI);
  read_pages fuel nodeURI portID channelID 1 [].

Definition getUnreceivedPackets (nodeURI : string) (committedPackets : list Z) (portID channelID : string) : M W (list Z) :=
  run! mlift (panicOnErr (getClientContext nodeURI));
  UnreceivedPackets nodeURI portID channelID committedPackets.

(** *** The table *)

Definition heading : string := "packet_sequence, tx_hash, amount, denom, receiver, sender".
Definition print_row (t : Transfer) : string :=
  String.concat ", " [T_PacketSequence t; T_TxHash t; Amount (T_PacketData t); Denom (T_PacketData t);
                      Receiver (T_PacketData t); Sender (T_PacketData t)].

(** Every error is a panic of the command; [None] when the fuel runs out. *)
Definition getStuckTransfers (fuel : nat) (srcNode dstNode srcChannel dstChannel : string) : M W (option (list string)) :=
  do! commitments <- mmust (getCommittedPackets fuel srcNode transferPort srcChannel);
  match commitments with
  | None => mret None
  | Some commitments =>
      do! unreceived <- mmust (getUnreceivedPackets dstNode commitments transferPort dstChannel);
      do! transfers <- mmust (getTransfers srcNode srcChannel unreceived);
      mret (Some (heading :: (print_row <$> transfers)))
  end.
End Model.

(** ** What the nodes answer *)

(** The state of both chains as the nodes see it, and how it moves on.  A page is a part of the
    list of commitments; a search without the option of later versions of Tendermint to match
    within one event gives the transactions that have, in some of their events, the sequence,
    and, in some of them, the channel. *)
Definition has_attribute (tx : ResultTx) (key value : string) : bool :=
  existsb (fun ev => is_send_packet (Event_Type ev)
                     && existsb (fun attr => String.eqb attr.1 key && String.eqb attr.2 value) (Event_Attributes ev)) (Tx_Events tx).
Definition sends (packetSequence : Z) (channelID : string) (tx : ResultTx) : bool :=
  has_attribute tx "packet_sequence" (big_String packetSequence) && has_attribute tx "packet_src_channel" channelID.

Class DiagView (W : Type) := {
  later : W -> W -> Prop;
  commitments : W -> string -> string -> string -> list Z;
  received : W -> string -> string -> string -> Z -> bool;
  chain_txs : W -> string -> list ResultTx;
}.
Class DiagNetLaws (W : Type) `{DiagNet W, DiagView W} : Prop := {
  later_preorder :: PreOrder later;
  PacketCommitments_ok n p c off lim (w w' : W) r : 0 <= off -> 0 <= lim -> PacketCommitments n p c off lim w = (w', r) ->
    later w w' /\ forall l, r = Ok l -> l = take (Z.to_nat lim) (drop (Z.to_nat off) (commitments w n p c));
  UnreceivedPackets_ok n p c seqs (w w' : W) r : UnreceivedPackets n p c seqs w = (w', r) ->
    later w w' /\ forall l, r = Ok l -> l = List.filter (fun seq => negb (received w n p c seq)) seqs;
  TxSearch_ok n seq c (w w' : W) r : TxSearch n (send_packet_query seq c) 1 100 w = (w', r) ->
    later w w' /\ forall l, r = Ok l -> l = take 100 (List.filter (sends seq c) (chain_txs w n));
}.

(** ** Lemmas *)

Section Lemmas.
Context {W : Type} `{DiagNetLaws W}.
Implicit Types w : W.

Lemma page_offset page : 1 <= page < 2 ^ 50 -> u64 (u64 (page - 1) * limit) = (page - 1) * 100.
Proof. intros Hp. unfold limit. rewrite !u64_small by (rewrite ?u64_small; lia). done. Qed.

(** However the commitments change while they are read, as long as there are never more than
    [n] of them, the loop needs no more than one page for every hundred, and one. *)
Lemma read_pages_ends n q node port chan fuel page packets w :
  0 <= n < 2 ^ 40 -> 100 * q <= n < 100 * q + 100 ->
  (forall w', later w w' -> Z.of_nat (length (commitments w' node port chan)) <= n) ->
  1 <= page <= q + 1 -> q + 2 <= page + Z.of_nat fuel ->
  (read_pages fuel node port chan page packets w).2 <> Ok None.
Proof.
  intros Hn Hq. revert page packets w. induction fuel as [|fuel IH]; intros page packets w Hb Hp Hf; [lia|].
  cbn [read_pages]. unfold mbnd. rewrite page_offset by lia.
  destruct (PacketCommitments node port chan ((page - 1) * 100) limit w) as [w1 [l|e|]] eqn:E; [|done..].
  apply PacketCommitments_ok in E as [Hlater Hl]; [|unfold limit; lia..]. specialize (Hl l eq_refl).
  destruct (Z.ltb_spec (Z.of_nat (length l)) limit) as [Hs|Hs]; [done|]. rewrite u64_small by lia.
  assert (page <= q) as Hpage.
  { specialize (Hb w (reflexivity w)). unfold limit in Hs. subst l. rewrite length_take, length_drop in Hs. lia. }
  apply IH; [|lia..]. intros w' Hw'. apply Hb. by transitivity w1.
Qed.

(** As long as the commitments stay what they are, the pages put together are all of them. *)
Lemma read_pages_all node port chan cs fuel page w w' l :
  Z.of_nat (length cs) < 2 ^ 40 -> (forall w', later w w' -> commitments w' node port chan = cs) ->
  1 <= page -> (page - 1) * 100 <= Z.of_nat (length cs) ->
  read_pages fuel node port chan page (take (Z.to_nat ((page - 1) * 100)) cs) w = (w', Ok (Some l)) ->
  later w w' /\ l = cs.
Proof.
  intros Hn. revert page w. induction fuel as [|fuel IH]; intros page w Hc Hp Hle Hr; [done|].
  cbn [read_pages] in Hr. rewrite page_offset in Hr by lia. run_step Hr as ps w1 Hpage.
  apply PacketCommitments_ok in Hpage as [Hlater Hps]; [|unfold limit; lia..]. specialize (Hps ps eq_refl).
  rewrite (Hc w (reflexivity w)) in Hps. change (Z.to_nat limit) with 100%nat in Hps.
  assert (take (Z.to_nat ((page - 1) * 100)) cs ++ ps = take (Z.to_nat ((page + 1 - 1) * 100)) cs) as Happ.
  { subst ps. replace (Z.to_nat ((page + 1 - 1) * 100)) with (Z.to_nat ((page - 1) * 100) + 100)%nat by lia. by rewrite take_take_drop. }
  rewrite Happ in Hr. destruct (Z.ltb_spec (Z.of_nat (length ps)) limit) as [Hs|Hs].
  - injection Hr as <- <-. split; [done|]. subst ps. rewrite length_take, length_drop in Hs. unfold limit in Hs. apply take_ge. lia.
  - rewrite u64_small in Hr by lia. subst ps. rewrite length_take, length_drop in Hs. unfold limit in Hs.
    destruct (IH (page + 1) w1) as [Hl' ->]; [|lia|lia|exact Hr|].
    + intros w2 Hw2. apply Hc. by transitivity w1.
    + split; [by transitivity w1|done].
Qed.

(** *** The transfers *)

(** The data of a packet as the transfer module of ibc-go writes it. *)
Definition packet_text (d : FungibleTokenPacketData) : string :=
  json_print (JObject [("amount", JString (Amount d)); ("denom", JString (Denom d));
                       ("receiver", JString (Receiver d)); ("sender", JString (Sender d))]).
Lemma unmarshal_packet_text d : unmarshal_packet (packet_text d) = Ok d.
Proof. unfold unmarshal_packet, packet_text. rewrite json_parse_print by done. by destruct d. Qed.

(** The packet [d] was sent once, by a transaction that sends nothing else. *)
Record sent_alone (w : W) (node channelID : string) (seq : Z) (tx : ResultTx) (d : FungibleTokenPacketData) : Prop := {
  sent_once w' : later w w' -> List.filter (sends seq channelID) (chain_txs w' node) = [tx];
  sent_event : exists attrs, List.filter (fun ev => is_send_packet (Event_Type ev)) (Tx_Events tx) = [mkTxEvent "send_packet" attrs]
    /\ NoDup attrs.*1 /\ ("packet_data", packet_text d) ∈ attrs;
}.
Definition transfer_of (seq : Z) (tx : ResultTx) (d : FungibleTokenPacketData) : Transfer :=
  mkTransfer (hex_EncodeToString (Sha256.Sum256 (Tx tx))) (big_String seq) d.

Lemma GetAttribute_in ty h attrs k v :
  NoDup attrs.*1 -> (k, v) ∈ attrs -> GetAttribute (mkEventInfo ty h attrs) k = v.
Proof.
  unfold GetAttribute. cbn [RealAttributes]. induction attrs as [|[k' v'] attrs IH]; intros Hn Hin; [by apply not_elem_of_nil in Hin|].
  apply NoDup_cons in Hn as [Hk Hn]. simpl. apply elem_of_cons in Hin as [[= <- <-]|Hin]; [by rewrite String.eqb_refl|].
  destruct (String.eqb_spec k' k) as [->|]; [|by apply IH]. destruct Hk. by apply (list_elem_of_fmap_2 fst _ (k, v)).
Qed.

Lemma has_attribute_single tx attrs k v :
  List.filter (fun ev => is_send_packet (Event_Type ev)) (Tx_Events tx) = [mkTxEvent "send_packet" attrs] ->
  has_attribute tx k v = true -> (k, v) ∈ attrs.
Proof.
  intros Hf Ha. apply existsb_exists in Ha as (ev & Hin & [Hty Ha]%andb_prop).
  assert (In ev [mkTxEvent "send_packet" attrs]) as [<-|[]] by (rewrite <- Hf; by apply filter_In).
  apply existsb_exists in Ha as ([k' v'] & Hin' & [Ek%String.eqb_eq Ev%String.eqb_eq]%andb_prop). cbn in *. subst. by apply list_elem_of_In.
Qed.

Lemma only_transfer_alone w node chan seq tx d :
  sent_alone w node chan seq tx d -> only_transfer (FilterEvents [tx] is_send_packet) = Ok (transfer_of seq tx d).
Proof.
  intros [Ho (attrs & He & Hn & Hd)]. unfold FilterEvents. cbn [fmap list_fmap concat]. rewrite He, app_nil_r. cbn [fmap list_fmap].
  cbn [only_transfer]. rewrite (GetAttribute_in _ _ _ _ _ Hn Hd), unmarshal_packet_text. cbn [rbind Info_TxHash].
  assert (In tx (List.filter (sends seq chan) (chain_txs w node))) as Hin by (rewrite (Ho w (reflexivity w)); by left).
  apply filter_In in Hin as [_ [Hs _]%andb_prop]. by rewrite (GetAttribute_in _ _ _ _ _ Hn (has_attribute_single _ _ _ _ He Hs)).
Qed.

(** The events that a search for a packet comes back with. *)
Definition found_events (w : W) (node channelID : string) (seq : Z) : list EventInfo :=
  FilterEvents (take 100 (List.filter (sends seq channelID) (chain_txs w node))) is_send_packet.

Lemma getTransfer_found node chan seq w w' r :
  getTransfer node chan seq w = (w', r) ->
  later w w' /\ forall t, r = Ok t -> only_transfer (found_events w node chan seq) = Ok t.
Proof.
  unfold getTransfer, mbnd. destruct (TxSearch _ _ _ _ w) as [w1 [txs|e|]] eqn:E; apply TxSearch_ok in E as [Hl Ht];
    intros [= <- <-]; (split; [done|]); [|done..]. intros t Hr. unfold found_events. by rewrite <- (Ht txs eq_refl).
Qed.

Lemma getTransfers_alone node chan pkts acc w :
  (forall w' seq, later w w' -> is_ok (TxSearch node (send_packet_query seq chan) 1 100 w').2 = true) ->
  Forall (fun '(seq, tx, d) => sent_alone w node chan seq tx d) pkts ->
  exists w', mfold (add_transfer node chan) acc ((fun '(seq, tx, d) => seq) <$> pkts) w
    = (w', Ok (acc ++ ((fun '(seq, tx, d) => transfer_of seq tx d) <$> pkts))).
Proof.
  revert acc w. induction pkts as [|[[seq tx] d] pkts IH]; intros acc w Hon Hp; cbn [fmap list_fmap mfold].
  - exists w. by rewrite app_nil_r.
  - apply Forall_cons in Hp as [Hp Hps]. unfold add_transfer at 1, getTransfer.
    pose proof (Hon w seq (reflexivity w)) as Hok. destruct (TxSearch _ _ _ _ w) as [w1 [txs|e|]] eqn:E; cbn in Hok; [|done..].
    pose proof (TxSearch_ok _ _ _ _ _ _ E) as [Hlater Ht].
    assert (mbnd (mbnd (TxSearch node (send_packet_query seq chan) 1 100) (fun txs => mlift (only_transfer (FilterEvents txs is_send_packet))))
              (fun ev => mret (acc ++ [ev])) w = (w1, Ok (acc ++ [transfer_of seq tx d]))) as Hstep.
    { pose proof (only_transfer_alone _ _ _ _ _ _ Hp) as Hone. destruct Hp as [Ho _]. specialize (Ht txs eq_refl).
      rewrite (Ho w (reflexivity w)) in Ht. cbn [take] in Ht. subst txs.
      unfold mbnd at 1. rewrite (mbnd_run _ _ _ _ _ E). unfold mlift. by rewrite Hone. }
    rewrite (mbnd_run _ _ _ _ _ Hstep). destruct (IH (acc ++ [transfer_of seq tx d]) w1) as [w' Hw'].
    + intros w2 s2 Hw2. apply Hon. by transitivity w1.
    + eapply Forall_impl; [exact Hps|]. intros [[sq t] dd] [Ho He]. split; [|done]. intros w2 Hw2. apply Ho. by transitivity w1.
    + exists w'. rewrite Hw'. by rewrite <- app_assoc.
Qed.

Lemma mmust_ok {A} (m : M W A) w w' x : mmust m w = (w', Ok x) -> m w = (w', Ok x).
Proof. unfold mmust. by destruct (m w) as [w1 [y|e|]]; intros [= <- <-]. Qed.
Lemma mmust_run {A} (m : M W A) w w' x : m w = (w', Ok x) -> mmust m w = (w', Ok x).
Proof. unfold mmust. by intros ->. Qed.

Lemma getTransfers_later node chan seqs acc w w' l :
  mfold (add_transfer node chan) acc seqs w = (w', Ok l) ->
  forall seq, seq ∈ seqs -> exists w1, later w w1 /\ is_ok (only_transfer (found_events w1 node chan seq)) = true.
Proof.
  revert acc w. induction seqs as [|s seqs IH]; intros acc w Hr seq Hin; [by apply not_elem_of_nil in Hin|]. cbn [mfold] in Hr.
  run_step Hr as acc' w1 Hs. unfold add_transfer in Hs. run_step Hs as t w2 Ht. injection Hs as <- <-.
  apply getTransfer_found in Ht as [Hlater Ht]. apply elem_of_cons in Hin as [->|Hin].
  - exists w. split; [reflexivity|]. by rewrite (Ht t eq_refl).
  - destruct (IH _ _ Hr seq Hin) as (w3 & Hw3 & Ho). exists w3. split; [by transitivity w2|done].
Qed.

(** The endpoints answer, from now on. *)
Record online (w : W) (srcNode dstNode srcChannel dstChannel : string) : Prop := {
  on_context : GetClientQueryContext = Ok tt;
  on_source : NewClientFromNode srcNode = Ok tt;
  on_destination : NewClientFromNode dstNode = Ok tt;
  on_search : rpchttp_New srcNode = Ok tt;
  on_commitments w' off lim : later w w' -> is_ok (PacketCommitments srcNode transferPort srcChannel off lim w').2 = true;
  on_unreceived w' seqs : later w w' -> is_ok (UnreceivedPackets dstNode transferPort dstChannel seqs w').2 = true;
  on_searches w' seq : later w w' -> is_ok (TxSearch srcNode (send_packet_query seq srcChannel) 1 100 w').2 = true;
}.

Lemma read_pages_answers src dst sc dc fuel page packets w :
  online w src dst sc dc -> exists w' r, read_pages fuel src transferPort sc page packets w = (w', Ok r).
Proof.
  intros Hon. assert (forall w1, later w w1 -> exists w' r, read_pages fuel src transferPort sc page packets w1 = (w', Ok r)) as Hall;
    [|by apply Hall].
  revert page packets. induction fuel as [|fuel IH]; intros page packets w1 Hw1; cbn [read_pages]; [by exists w1, None|].
  pose proof (on_commitments _ _ _ _ _ Hon w1 (u64 (u64 (page - 1) * limit)) limit Hw1) as Hok. unfold mbnd.
  destruct (PacketCommitments _ _ _ _ _ w1) as [w2 [l|e|]] eqn:E; cbn in Hok; [|done..].
  destruct (_ <? limit); [by eexists _, _|]. apply IH. transitivity w1; [done|].
  eapply PacketCommitments_ok; [| |exact E]; [apply Z.mod_pos_bound; lia|done].
Qed.

Lemma committed_ends fuel src sc n w :
  0 <= n < 2 ^ 40 -> n / 100 + 2 <= Z.of_nat fuel ->
  (forall w', later w w' -> Z.of_nat (length (commitments w' src transferPort sc)) <= n) ->
  (getCommittedPackets fuel src transferPort sc w).2 <> Ok None.
Proof.
  intros Hn Hf Hb. unfold getCommittedPackets, mbnd, mlift. destruct (getClientContext src); [|done..].
  pose proof (Z.div_mod n 100 ltac:(lia)). pose proof (Z.mod_pos_bound n 100 ltac:(lia)).
  apply (read_pages_ends n (n / 100)); [lia|lia|exact Hb|lia|lia].
Qed.

Lemma committed_all fuel src sc cs w w' l :
  Z.of_nat (length cs) < 2 ^ 40 -> (forall w', later w w' -> commitments w' src transferPort sc = cs) ->
  mmust (getCommittedPackets fuel src transferPort sc) w = (w', Ok (Some l)) -> later w w' /\ l = cs.
Proof.
  intros Hn Hc Hr%mmust_ok. unfold getCommittedPackets in Hr. lift_step Hr as u Hctx.
  apply (read_pages_all src transferPort sc cs fuel 1); [done|done|lia|lia|exact Hr].
Qed.

Lemma unreceived_packets dst cs dc w w' l :
  mmust (getUnreceivedPackets dst cs transferPort dc) w = (w', Ok l) ->
  later w w' /\ l = List.filter (fun seq => negb (received w dst transferPort dc seq)) cs.
Proof.
  intros Hr%mmust_ok. unfold getUnreceivedPackets in Hr. lift_step Hr as u Hu.
  destruct (UnreceivedPackets_ok _ _ _ _ _ _ _ Hr) as [Hl Hs]. split; [done|]. by apply Hs.
Qed.

Definition no_error {A} (m : M W A) : Prop := forall w e, (m w).2 <> Err e.
Lemma no_error_must {A} (m : M W A) : no_error (mmust m).
Proof. intros w e. unfold mmust. by destruct (m w) as [w1 [y|e'|]]. Qed.
Lemma no_error_bnd {A C} (m : M W A) (f : A -> M W C) : no_error m -> (forall x, no_error (f x)) -> no_error (mbnd m f).
Proof.
  intros Hm Hf w e. specialize (Hm w). unfold mbnd. destruct (m w) as [w1 [y|e'|]]; cbn in *; [apply Hf|by destruct (Hm e')|done].
Qed.

Lemma stuck_no_error fuel src dst sc dc : no_error (getStuckTransfers fuel src dst sc dc).
Proof.
  unfold getStuckTransfers. apply no_error_bnd; [apply no_error_must|]. intros [l|]; [|by intros w e].
  apply no_error_bnd; [apply no_error_must|]. intros us. apply no_error_bnd; [apply no_error_must|]. by intros ts w e.
Qed.

Lemma stuck_ends fuel src dst sc dc w :
  (getCommittedPackets fuel src transferPort sc w).2 <> Ok None -> (getStuckTransfers fuel src dst sc dc w).2 <> Ok None.
Proof.
  intros Hends. unfold getStuckTransfers, mbnd at 1, mmust at 1.
  destruct (getCommittedPackets fuel src transferPort sc w) as [w1 [[l|]|e|]]; [|done..].
  unfold mbnd at 1. destruct (mmust (getUnreceivedPackets dst l transferPort dc) w1) as [w2 [us|e|]]; [|done..].
  unfold mbnd. by destruct (mmust (getTransfers src sc us) w2) as [w3 [ts|e|]].
Qed.

(** A table is printed only when every search found one sent packet. *)
Lemma stuck_found fuel src dst sc dc cs w rows :
  Z.of_nat (length cs) < 2 ^ 40 -> (forall w', later w w' -> commitments w' src transferPort sc = cs) ->
  (forall w' seq, later w w' -> received w' dst transferPort dc seq = received w dst transferPort dc seq) ->
  (getStuckTransfers fuel src dst sc dc w).2 = Ok (Some rows) ->
  forall seq, seq ∈ List.filter (fun seq => negb (received w dst transferPort dc seq)) cs ->
  exists w', later w w' /\ length (found_events w' src sc seq) = 1%nat.
Proof.
  intros Hn Hc Hrcv Hr seq Hin. apply run_ok in Hr. unfold getStuckTransfers in Hr. run_step Hr as cs' w1 Hcom.
  destruct cs' as [cs'|]; [|done]. apply (committed_all _ _ _ cs) in Hcom as [Hw1 ->]; [|done..].
  run_step Hr as us w2 Hus. apply unreceived_packets in Hus as [Hw2 ->]. run_step Hr as ts w3 Hts.
  apply mmust_ok in Hts. unfold getTransfers in Hts. lift_step Hts as u Hu.
  rewrite (filter_ext _ (fun seq => negb (received w dst transferPort dc seq))) in Hts by (intros s; by rewrite Hrcv).
  destruct (getTransfers_later _ _ _ _ _ _ _ Hts seq Hin) as (w4 & Hw4 & Ho). exists w4.
  split; [by transitivity w2; [transitivity w1|]|]. by destruct (found_events w4 src sc seq) as [|? [|? ?]].
Qed.

(** When everything answers, the table is printed. *)
Lemma stuck_listed fuel src dst sc dc cs w pkts :
  Z.of_nat (length cs) < 2 ^ 40 -> (forall w', later w w' -> commitments w' src transferPort sc = cs) ->
  (forall w' seq, later w w' -> received w' dst transferPort dc seq = received w dst transferPort dc seq) ->
  (getCommittedPackets fuel src transferPort sc w).2 <> Ok None -> online w src dst sc dc ->
  (fun '(seq, tx, d) => seq) <$> pkts = List.filter (fun seq => negb (received w dst transferPort dc seq)) cs ->
  Forall (fun '(seq, tx, d) => sent_alone w src sc seq tx d) pkts ->
  (getStuckTransfers fuel src dst sc dc w).2 = Ok (Some (heading :: ((fun '(seq, tx, d) => print_row (transfer_of seq tx d)) <$> pkts))).
Proof.
  intros Hn Hc Hrcv Hends Hon Hp Hall. assert (exists w1, mmust (getCommittedPackets fuel src transferPort sc) w = (w1, Ok (Some cs))) as [w1 Hcom].
  { destruct (read_pages_answers src dst sc dc fuel 1 [] w Hon) as (w1 & r & Hr).
    assert (getCommittedPackets fuel src transferPort sc w = (w1, Ok r)) as Hcom.
    { unfold getCommittedPackets, getClientContext. rewrite (on_context _ _ _ _ _ Hon). cbn [rbind]. by rewrite (on_source _ _ _ _ _ Hon). }
    rewrite Hcom in Hends. destruct r as [l|]; [|done]. exists w1. pose proof (mmust_run _ _ _ _ Hcom) as Hm.
    by destruct (committed_all _ _ _ _ _ _ _ Hn Hc Hm) as [_ ->]. }
  destruct (committed_all _ _ _ _ _ _ _ Hn Hc Hcom) as [Hw1 _].
  assert (exists w2, later w1 w2 /\ mmust (getUnreceivedPackets dst cs transferPort dc) w1 = (w2, Ok ((fun '(seq, tx, d) => seq) <$> pkts)))
    as (w2 & Hw2 & Hun).
  { pose proof (on_unreceived _ _ _ _ _ Hon w1 cs Hw1) as Hok.
    destruct (UnreceivedPackets dst transferPort dc cs w1) as [w2 [us|e|]] eqn:E; cbn in Hok; [|done..].
    destruct (UnreceivedPackets_ok _ _ _ _ _ _ _ E) as [Hw2 Hus]. exists w2. split; [done|]. apply mmust_run.
    unfold getUnreceivedPackets, getClientContext. rewrite (on_context _ _ _ _ _ Hon). cbn [rbind].
    rewrite (on_destination _ _ _ _ _ Hon). cbn [panicOnErr]. rewrite (mbnd_lift _ _ _ tt) by done. rewrite E, Hp, (Hus us eq_refl).
    do 2 f_equal. apply filter_ext. intros seq. by rewrite Hrcv. }
  destruct (getTransfers_alone src sc pkts [] w2) as [w3 Hw3].
  { intros w' seq Hw'. apply (on_searches _ _ _ _ _ Hon). by transitivity w2; [transitivity w1|]. }
  { eapply Forall_impl; [exact Hall|]. intros [[sq t] dd] [Ho He]. split; [|done]. intros w' Hw'. apply Ho. by transitivity w2; [transitivity w1|]. }
  assert (mmust (getTransfers src sc ((fun '(seq, tx, d) => seq) <$> pkts)) w2
          = (w3, Ok ((fun '(seq, tx, d) => transfer_of seq tx d) <$> pkts))) as Htr.
  { apply mmust_run. unfold getTransfers. rewrite (mbnd_lift _ _ _ tt) by (by rewrite (on_search _ _ _ _ _ Hon)). exact Hw3. }
  unfold getStuckTransfers. rewrite (mbnd_run _ _ _ _ _ Hcom), (mbnd_run _ _ _ _ _ Hun), (mbnd_run _ _ _ _ _ Htr). cbn.
  do 3 f_equal. rewrite <- list_fmap_compose. apply list_fmap_ext. by intros i [[sq t] dd] _.
Qed.

(** ** Properties *)

(** C37: The command ends: however the commitments change while their pages are read, as long as
    there are never more than [n] of them, one request for every hundred and two more suffice.
    While the commitments and the receipts stay what they are and the endpoints answer, it
    prints one row for each packet the source has committed to and the destination has not
    received, in the order of the commitments: its sequence, the hash of the transaction, and
    the transfer, if each of those packets was sent by a transaction that sends nothing else.
    A single undelivered packet whose search finds another number of sent packets, because
    its transaction was pruned or sent a second packet, ends the command without a table. *)
Theorem stuck_transfers fuel src dst sc dc n cs (w : W) :
  0 <= n < 2 ^ 40 -> n / 100 + 2 <= Z.of_nat fuel ->
  (forall w', later w w' -> Z.of_nat (length (commitments w' src transferPort sc)) <= n) ->
  (getStuckTransfers fuel src dst sc dc w).2 <> Ok None
  /\ ((forall w', later w w' -> commitments w' src transferPort sc = cs) ->
      (forall w' seq, later w w' -> received w' dst transferPort dc seq = received w dst transferPort dc seq) ->
      let stuck := List.filter (fun seq => negb (received w dst transferPort dc seq)) cs in
      (online w src dst sc dc ->
       forall pkts, (fun '(seq, tx, d) => seq) <$> pkts = stuck ->
         Forall (fun '(seq, tx, d) => sent_alone w src sc seq tx d) pkts ->
         (getStuckTransfers fuel src dst sc dc w).2
         = Ok (Some (heading :: ((fun '(seq, tx, d) => print_row (transfer_of seq tx d)) <$> pkts))))
      /\ ((exists seq, seq ∈ stuck /\ forall w', later w w' -> length (found_events w' src sc seq) <> 1%nat) ->
          (getStuckTransfers fuel src dst sc dc w).2 = Panic)).
Proof.
  intros Hn Hf Hb. pose proof (committed_ends fuel src sc n w Hn Hf Hb) as Hends. pose proof (stuck_ends fuel src dst sc dc w Hends) as Hne.
  split; [exact Hne|]. intros Hc Hrcv stuck. assert (Z.of_nat (length cs) < 2 ^ 40) as Hlen.
  { specialize (Hb w (reflexivity w)). rewrite (Hc w (reflexivity w)) in Hb. lia. }
  split; [intros Hon pkts Hp Hall; by apply (stuck_listed fuel src dst sc dc cs)|].
  intros (seq & Hin & Hbad). destruct (getStuckTransfers fuel src dst sc dc w).2 as [[rows|]|e|] eqn:E; [|done| |done].
  - destruct (stuck_found _ _ _ _ _ _ _ _ Hlen Hc Hrcv E seq Hin) as (w' & Hw' & Hone). by destruct (Hbad w' Hw').
  - by apply stuck_no_error in E.
Qed.
End Lemmas.

(** ** Examples *)

Section Examples.

(** Reading a search back. *)
Fixpoint upto (c : ascii) (s : string) : string :=
  match s with
  | EmptyString => ""
  | String d s' => if Ascii.eqb d c then "" else String d (upto c s')
  end.
Lemma upto_digits s t : all_digits s = true -> upto " " (s +:+ String " " t) = s.
Proof.
  induction s as [|d s IH]; intros Hd; [done|]. cbn [all_digits] in Hd. apply andb_prop in Hd as [Hd Hs]. rewrite app_cons. cbn [upto].
  destruct (Ascii.eqb_spec d " ") as [->|]; [done|]. by rewrite IH.
Qed.
Lemma upto_number z t : upto " " (big_String z +:+ String " " t) = big_String z.
Proof.
  destruct (Z.ltb_spec z 0) as [Hz|Hz]; [|by apply upto_digits, all_digits_String].
  assert (big_String z = String "-" (big_String (- z))) as ->.
  { unfold big_String. destruct (Z.ltb_spec z 0); [|lia]. by destruct (Z.ltb_spec (- z) 0); [lia|]. }
  rewrite app_cons. cbn [upto Ascii.eqb Bool.eqb]. f_equal. by apply upto_digits, all_digits_String; lia.
Qed.
Lemma existsb_ext {X} (f g : X -> bool) l : (forall x, f x = g x) -> existsb f l = existsb g l.
Proof. intros Hfg. induction l as [|x l IH]; [done|]. cbn [existsb]. by rewrite Hfg, IH. Qed.
Lemma app_char_inj c a b : a +:+ String c "" = b +:+ String c "" -> a = b.
Proof.
  revert b. induction a as [|x a IH]; intros [|y b]; rewrite ?app_cons; [done| | |].
  - intros [= <- E]. by destruct b.
  - intros [= <- E]. by destruct a.
  - intros [= <- E]. f_equal. by apply IH.
Qed.

Definition ref_query (sequence channel : string) : string :=
  "send_packet.packet_sequence=" +:+ sequence +:+ " AND send_packet.packet_src_channel='" +:+ channel +:+ "'".
Definition ref_match (query : string) (tx : ResultTx) : bool :=
  let sequence := upto " " (str_drop 28 query) in
  has_attribute tx "packet_sequence" sequence
  && existsb (fun ev => is_send_packet (Event_Type ev)
                     && existsb (fun attr => String.eqb attr.1 "packet_src_channel" && String.eqb (ref_query sequence attr.2) query)
                          (Event_Attributes ev)) (Tx_Events tx).

Lemma ref_match_sends seq c tx : ref_match (send_packet_query seq c) tx = sends seq c tx.
Proof.
  unfold ref_match, sends.
  assert (upto " " (str_drop 28 (send_packet_query seq c)) = big_String seq) as ->.
  { unfold send_packet_query. rewrite (str_drop_app "send_packet.packet_sequence="). apply (upto_number seq ("AND send_packet.packet_src_channel='" +:+ c +:+ "'")). }
  f_equal. unfold has_attribute. apply existsb_ext. intros ev. f_equal. apply existsb_ext. intros [k v]. cbn [fst snd]. f_equal.
  change (send_packet_query seq c) with (ref_query (big_String seq) c). unfold ref_query.
  destruct (String.eqb_spec v c) as [->|Hne]; [apply String.eqb_refl|]. apply String.eqb_neq. intros E. apply Hne.
  by apply (inj _), (inj _), (inj _), app_char_inj in E.
Qed.

(** 150 packets are committed to; two of them were not received. *)
Definition ex_data (n : Z) : FungibleTokenPacketData := mkPacketData "aku" (big_String (10 * n)) "sif1alice" "cosmos1bob".
Definition ex_event (n : Z) : TxEvent := mkTxEvent "send_packet"
  [("packet_data", packet_text (ex_data n)); ("packet_sequence", big_String n); ("packet_src_channel", "channel-18")].
Definition ex_tx (n : Z) : ResultTx := mkResultTx ("tx" +:+ big_String n) [mkTxEvent "message" [("sender", "sif1alice")]; ex_event n].
(** One transaction sends packets 5 and 6. *)
Definition ex_double : ResultTx := mkResultTx "two" [ex_event 5; ex_event 6].

Definition ExChain : Type := list Z * list ResultTx.
Definition RefNet : DiagNet ExChain := {|
  GetClientQueryContext := Ok tt;
  NewClientFromNode _ := Ok tt;
  rpchttp_New _ := Ok tt;
  PacketCommitments _ _ _ off lim w := (w, Ok (take (Z.to_nat lim) (drop (Z.to_nat off) (seqZ 1 150))));
  UnreceivedPackets _ _ _ seqs w := (w, Ok (List.filter (fun seq => negb (negb (existsb (Z.eqb seq) w.1))) seqs));
  TxSearch _ query _ _ w := (w, Ok (take 100 (List.filter (ref_match query) w.2)));
|}.
Definition RefView : DiagView ExChain := {|
  later := eq;
  commitments _ _ _ _ := seqZ 1 150;
  received w _ _ _ seq := negb (existsb (Z.eqb seq) w.1);
  chain_txs w _ := w.2;
|}.
#[local] Existing Instances RefNet RefView.
Lemma RefNet_laws : DiagNetLaws ExChain.
Proof.
  split.
  - split; [done|by intros x y z -> ->].
  - intros n p c off lim w w' r _ _ [= <- <-]. split; [done|]. by intros l [= <-].
  - intros n p c seqs w w' r [= <- <-]. split; [done|]. by intros l [= <-].
  - intros n seq c w w' r [= <- <-]. split; [done|]. intros l [= <-]. f_equal. apply filter_ext. intros tx. apply ref_match_sends.
Qed.
#[local] Existing Instance RefNet_laws.

Definition ex_chain : ExChain := ([7; 120], [ex_tx 120; ex_tx 7; ex_tx 8]).
Definition ex_stuck_chain : ExChain := ([6; 7], [ex_tx 7; ex_double]).
Definition ex_packets : list (Z * ResultTx * FungibleTokenPacketData) := [(7, ex_tx 7, ex_data 7); (120, ex_tx 120, ex_data 120)].

Lemma ex_online (w : ExChain) : online w "src" "dst" "channel-18" "channel-7".
Proof. by split. Qed.
Lemma ex_undelivered : (fun '(seq, tx, d) => seq) <$> ex_packets
  = List.filter (fun seq => negb (received ex_chain "dst" transferPort "channel-7" seq)) (seqZ 1 150).
Proof. by vm_compute. Qed.
Lemma ex_sent_alone n : n = 7 \/ n = 120 -> sent_alone ex_chain "src" "channel-18" n (ex_tx n) (ex_data n).
Proof.
  intros Hn. split.
  - intros w' <-. by destruct Hn as [->| ->]; vm_compute.
  - eexists. split; [reflexivity|]. split; [apply (bool_decide_unpack (NoDup _)); by vm_compute|by left].
Qed.
Lemma ex_double_found : length (found_events ex_stuck_chain "src" "channel-18" 6) = 2%nat.
Proof. by vm_compute. Qed.

Lemma stuck_transfers_witness :
  (getStuckTransfers 3 "src" "dst" "channel-18" "channel-7" ex_chain).2
    = Ok (Some [heading; print_row (transfer_of 7 (ex_tx 7) (ex_data 7)); print_row (transfer_of 120 (ex_tx 120) (ex_data 120))])
  /\ (getStuckTransfers 3 "src" "dst" "channel-18" "channel-7" ex_stuck_chain).2 = Panic.
Proof.
  split.
  - destruct (stuck_transfers 3 "src" "dst" "channel-18" "channel-7" 150 (seqZ 1 150) ex_chain ltac:(lia) ltac:(vm_compute; discriminate)
      ltac:(intros w' _; vm_compute; discriminate)) as [_ Hs].
    destruct (Hs ltac:(done) ltac:(intros w' seq E; by rewrite E)) as [Hrows _].
    refine (Hrows (ex_online _) ex_packets ex_undelivered _).
    constructor; [apply ex_sent_alone; by left|]. constructor; [apply ex_sent_alone; by right|constructor].
  - destruct (stuck_transfers 3 "src" "dst" "channel-18" "channel-7" 150 (seqZ 1 150) ex_stuck_chain ltac:(lia) ltac:(vm_compute; discriminate)
      ltac:(intros w' _; vm_compute; discriminate)) as [_ Hs].
    destruct (Hs ltac:(done) ltac:(intros w' seq E; by rewrite E)) as [_ Hpanic].
    apply Hpanic. exists 6. split; [apply list_elem_of_In; vm_compute; by left|]. intros w' E. rewrite <- E, ex_double_found. discriminate.
Defined.

Example ex_row : print_row (transfer_of 7 (ex_tx 7) (ex_data 7))
  = "7, 281b9dba10658c86d0c3c267b82b8972b6c7b41285f60ce2054211e69dd89e15, 70, aku, cosmos1bob, sif1alice".
Proof. by vm_compute. Qed.
End Examples.
End IbcDiag.
