(* ===== verification/GenesisFile.v ===== *)
(** * The genesis file before the chain starts

    app/genesis.go and the [DefaultGenesis] and [ValidateGenesis] of each module, and the
    commands of cmd/akhiranoded/cmd that edit the file: add-genesis-account (genaccounts.go),
    add-genesis-validators (gentx.go), add-genesis-clp-admin (clpadmin.go),
    set-genesis-oracle-admin (oracle.go), set-genesis-whitelister-admin
    (setwhitelistadmin.go) and set-gen-denom-whitelist (setgendenomwhitelist.go).  The file
    is its content, a [GenesisState]; reading and writing it always succeeds.  The accounts
    of x/auth and the balances of x/bank are parts of the SDK's half of it. *)

From Stdlib Require Import ZArith Lia Ascii String.
From stdpp Require Import base list gmap strings.
From S2P Require Import Prelude SdkMath Sdk Frames TokenRegistry ClpTypes ClpCalc ClpKeeper ClpMsgServer ClpGenesis Oracle OracleGenesis EthBridge Dispensation IbcTransfer AppFrames App.

Module GenesisFile.
Import App.
#[local] Existing Instance TokenRegistry.Keeper.

(** The key store of the user. *)
Class CommandLine `{SdkAddress} := { kb_Key : string -> res string }.

(** The file system, [filepath.Abs] and [ioutil.ReadFile], and the codec's reading of a registry. *)
Class FileSystem := { Abs : string -> res string; ReadFile : string -> res string }.
Class RegistryJson := { UnmarshalRegistry : string -> res TokenRegistry.Registry }.

Definition ParseDenoms `{FileSystem, RegistryJson} (dir : string) : res TokenRegistry.Registry :=
  let! file := Abs dir in
  let! o := ReadFile file in
  UnmarshalRegistry o.

(** A key has an address. *)
Class CommandLineLaws `{CommandLine} : Prop := { kb_Key_nonempty name a : kb_Key name = Ok a -> a <> "" }.

(** The part of the file that belongs to the modules of the SDK. *)
Class SdkBasics (G : Type) := { sdk_DefaultGenesis : G; sdk_ValidateGenesis : G -> res unit }.

(** The accounts of x/auth and x/auth/vesting and the genesis files of x/auth and x/bank. *)
Class SdkAccounts (G A : Type) := {
  NewBaseAccount : string -> A;
  (** A base account with its vesting coins and the end, and the start, of vesting. *)
  NewDelayedVestingAccountRaw : A -> list Coin -> Z -> A;
  NewContinuousVestingAccountRaw : A -> list Coin -> Z -> Z -> A;
  Account_GetAddress : A -> string;
  Account_Validate : A -> res unit;
  ParseCoinsNormalized : string -> res (list Coin);
  Coins_IsZero : list Coin -> bool;
  (** An account without its number. *)
  unnumbered : A -> A;
  SanitizeGenesisAccounts : list A -> list A;
  SanitizeGenesisBalances : list (string * list Coin) -> list (string * list Coin);
  auth_GetAccounts : G -> res (list A);
  auth_SetAccounts : list A -> G -> res G;
  bank_GetState : G -> list (string * list Coin) * list Coin;
  bank_SetState : list (string * list Coin) -> list Coin -> G -> res G;
}.
(** Sanitizing sorts and renumbers; the two files are independent of each other, and what is
    written to one is read back. *)
Class SdkAccountsLaws (G A : Type) `{SdkAccounts G A} : Prop := {
  NewBaseAccount_address a : Account_GetAddress (NewBaseAccount a) = a;
  NewDelayed_address b cs e : Account_GetAddress (NewDelayedVestingAccountRaw b cs e) = Account_GetAddress b;
  NewContinuous_address b cs e st : Account_GetAddress (NewContinuousVestingAccountRaw b cs e st) = Account_GetAddress b;
  unnumbered_address a : Account_GetAddress (unnumbered a) = Account_GetAddress a;
  SanitizeGenesisAccounts_perm l : unnumbered <$> SanitizeGenesisAccounts l ≡ₚ unnumbered <$> l;
  SanitizeGenesisBalances_perm l : SanitizeGenesisBalances l ≡ₚ l;
  auth_SetAccounts_ok l g g' : auth_SetAccounts l g = Ok g' -> auth_GetAccounts g' = Ok l /\ bank_GetState g' = bank_GetState g;
  bank_SetState_ok bs cs g g' : bank_SetState bs cs g = Ok g' -> bank_GetState g' = (bs, cs) /\ auth_GetAccounts g' = auth_GetAccounts g;
}.

(** The default files list no account and no balance. *)
Class SdkDefaultsLaws (G A : Type) `{SdkBasics G, SdkAccounts G A} : Prop := {
  default_accounts : auth_GetAccounts (sdk_DefaultGenesis (G := G)) = Ok [];
  default_balances : bank_GetState (sdk_DefaultGenesis (G := G)) = ([], []);
}.

Definition ErrUnmarshalGenesis : GoError := PlainErr "failed to unmarshal genesis state".

Section Model.
Context {G A : Type} `{SdkMath, SdkCoins, SdkAddress, !CommandLine, FileSystem, RegistryJson, !SdkBasics G, !SdkAccounts G A}.

(** ** The basic manager *)

Definition clp_ValidateGenesis (bz : option ClpTypes.GenesisState) : res unit :=
  match bz with Some data => ClpTypes.ValidateGenesis data | None => Err ErrUnmarshalGenesis end.
Definition oracle_ValidateGenesis (bz : option Oracle.GenesisState) : res unit :=
  match bz with Some data => Oracle.ValidateGenesis data | None => Err ErrUnmarshalGenesis end.
Definition bridge_ValidateGenesis (bz : option EthBridge.GenesisState) : res unit :=
  match bz with Some data => EthBridge.ValidateGenesis data | None => Err ErrUnmarshalGenesis end.
Definition disp_ValidateGenesis (bz : option Dispensation.GenesisState) : res unit :=
  match bz with Some data => Dispensation.ValidateGenesis data | None => Err ErrUnmarshalGenesis end.
(** Only this one accepts a file that does not mention the module. *)
Definition registry_ValidateGenesis (bz : option TokenRegistry.GenesisState) : res unit := Ok tt.

(** The manager goes through a Go map: which error is reported is not determined. *)
Definition ValidateGenesis (g : GenesisState G) : res unit :=
  let! _ := sdk_ValidateGenesis (gs_sdk g) in
  let! _ := clp_ValidateGenesis (gs_clp g) in
  let! _ := oracle_ValidateGenesis (gs_oracle g) in
  let! _ := bridge_ValidateGenesis (gs_bridge g) in
  let! _ := disp_ValidateGenesis (gs_disp g) in
  registry_ValidateGenesis (gs_registry g).

Definition registry_DefaultGenesis : TokenRegistry.GenesisState := TokenRegistry.mkGenesisState "" None.
Definition NewDefaultGenesisState : GenesisState G :=
  mkGenesis sdk_DefaultGenesis (Some ClpTypes.DefaultGenesisState) (Some Oracle.DefaultGenesisState)
    (Some EthBridge.DefaultGenesis) (Some Dispensation.DefaultGenesisState) (Some registry_DefaultGenesis).

(** ** The commands *)

Definition clp_GenesisStateFromAppState (g : GenesisState G) : ClpTypes.GenesisState :=
  default (ClpTypes.mkGenesisState (NewParams 0) [] [] []) (gs_clp g).
Definition oracle_GenesisStateFromAppState (g : GenesisState G) : Oracle.GenesisState :=
  default (Oracle.mkGenesisState None "" []) (gs_oracle g).
Definition registry_GenesisStateFromAppState (g : GenesisState G) : TokenRegistry.GenesisState :=
  default (TokenRegistry.mkGenesisState "" None) (gs_registry g).

(** An address, or the name of a key. *)
Definition resolve (arg : string) : res string :=
  match AccAddressFromBech32 arg with
  | Ok addr => Ok addr
  | Err _ => kb_Key arg
  | Panic => Panic
  end.

Definition AddGenesisCLPAdminCmd (arg : string) (g : GenesisState G) : res (GenesisState G) :=
  let! addr := resolve arg in
  let s := clp_GenesisStateFromAppState g in
  let s := ClpTypes.mkGenesisState (Gen_Params s) (AddressWhitelist s ++ [AccAddress_String addr]) (PoolList s) (LiquidityProviders s) in
  Ok (mkGenesis (gs_sdk g) (Some s) (gs_oracle g) (gs_bridge g) (gs_disp g) (gs_registry g)).

(** [encoding/json] leaves an empty list out, and it is read back as nil. *)
Definition omitempty {X} (l : option (list X)) : option (list X) := match l with Some [] => None | _ => l end.

Definition SetGenesisOracleAdminCmd (arg : string) (g : GenesisState G) : res (GenesisState G) :=
  let! addr := resolve arg in
  let s := oracle_GenesisStateFromAppState g in
  let s := Oracle.mkGenesisState (omitempty (Oracle.AddressWhitelist s)) (AccAddress_String addr) (Oracle.Prophecies s) in
  Ok (mkGenesis (gs_sdk g) (gs_clp g) (Some s) (gs_bridge g) (gs_disp g) (gs_registry g)).

Definition SetGenesisWhitelisterAdminCmd (arg : string) (g : GenesisState G) : res (GenesisState G) :=
  let! addr := resolve arg in
  let s := registry_GenesisStateFromAppState g in
  let s := TokenRegistry.mkGenesisState (AccAddress_String addr) (TokenRegistry.GenRegistry s) in
  Ok (mkGenesis (gs_sdk g) (gs_clp g) (gs_oracle g) (gs_bridge g) (gs_disp g) (Some s)).

Definition SetGenesisDenomWhitelist (path : string) (g : GenesisState G) : res (GenesisState G) :=
  let! whitelist := ParseDenoms path in
  let s := registry_GenesisStateFromAppState g in
  let s := TokenRegistry.mkGenesisState (TokenRegistry.AdminAccount s) (Some whitelist) in
  Ok (mkGenesis (gs_sdk g) (gs_clp g) (gs_oracle g) (gs_bridge g) (gs_disp g) (Some s)).

Definition ErrValidatorExists : GoError := PlainErr "address already in white list".
Definition AddGenesisValidatorCmd (arg : string) (g : GenesisState G) : res (GenesisState G) :=
  let! addr := ValAddressFromBech32 arg in
  let s := oracle_GenesisStateFromAppState g in
  let whitelist := default [] (Oracle.AddressWhitelist s) in
  let! _ := fail_if (existsb (fun item => String.eqb item (ValAddress_String addr)) whitelist) ErrValidatorExists in
  let s := Oracle.mkGenesisState (Some (whitelist ++ [ValAddress_String addr])) (Oracle.AdminAddress s) (Oracle.Prophecies s) in
  Ok (mkGenesis (gs_sdk g) (gs_clp g) (Some s) (gs_bridge g) (gs_disp g) (gs_registry g)).

(** The arguments and flags of add-genesis-account; the two times are uint64. *)
Record NewAccount := mkNewAccount {
  Acc_Address : string; Acc_Coins : string; Acc_VestingStart : Z; Acc_VestingEnd : Z; Acc_VestingAmt : string }.

Definition ErrVestingParameters : GoError :=
  PlainErr "invalid vesting parameters; must supply start and end time or end time".
Definition ErrAccountExists : GoError := PlainErr "cannot add account at existing address".

(** The concrete account type based on the flags. *)
Definition new_account (addr : string) (vestingAmt : list Coin) (vestingStart vestingEnd : Z) : res A :=
  let baseAccount := NewBaseAccount addr in
  if Coins_IsZero vestingAmt then Ok baseAccount
  else if negb (vestingStart =? 0) && negb (vestingEnd =? 0)
  then Ok (NewContinuousVestingAccountRaw baseAccount (Coins_Sort vestingAmt) (i64 vestingEnd) (i64 vestingStart))
  else if negb (vestingEnd =? 0) then Ok (NewDelayedVestingAccountRaw baseAccount (Coins_Sort vestingAmt) (i64 vestingEnd))
  else Err ErrVestingParameters.

Definition AddGenesisAccountCmd (n : NewAccount) (g : GenesisState G) : res (GenesisState G) :=
  let! addr := resolve (Acc_Address n) in
  let! coins := ParseCoinsNormalized (Acc_Coins n) in
  let! vestingAmt := ParseCoinsNormalized (Acc_VestingAmt n) in
  let! genAccount := new_account addr vestingAmt (Acc_VestingStart n) (Acc_VestingEnd n) in
  let! _ := Account_Validate genAccount in
  let! accs := auth_GetAccounts (gs_sdk g) in
  let! _ := fail_if (existsb (fun acc => String.eqb (Account_GetAddress acc) addr) accs) ErrAccountExists in
  let! sdk := auth_SetAccounts (SanitizeGenesisAccounts (accs ++ [genAccount])) (gs_sdk g) in
  let '(balances, supply) := bank_GetState sdk in
  let balance := (AccAddress_String addr, Coins_Sort coins) in
  let! supply := Coins_Add supply (Coins_Sort coins) in
  let! sdk := bank_SetState (SanitizeGenesisBalances (balances ++ [balance])) supply sdk in
  Ok (mkGenesis sdk (gs_clp g) (gs_oracle g) (gs_bridge g) (gs_disp g) (gs_registry g)).

Inductive Command :=
| AddAccount (n : NewAccount)
| AddValidator (arg : string)
| AddCLPAdmin (arg : string)
| SetOracleAdmin (arg : string)
| SetWhitelisterAdmin (arg : string)
| SetDenomWhitelist (path : string).

Definition run_command (c : Command) : GenesisState G -> res (GenesisState G) :=
  match c with
  | AddAccount n => AddGenesisAccountCmd n
  | AddValidator arg => AddGenesisValidatorCmd arg
  | AddCLPAdmin arg => AddGenesisCLPAdminCmd arg
  | SetOracleAdmin arg => SetGenesisOracleAdminCmd arg
  | SetWhitelisterAdmin arg => SetGenesisWhitelisterAdminCmd arg
  | SetDenomWhitelist path => SetGenesisDenomWhitelist path
  end.

Fixpoint run_commands (cs : list Command) (g : GenesisState G) : res (GenesisState G) :=
  match cs with
  | [] => Ok g
  | c :: cs => let! g := run_command c g in run_commands cs g
  end.
End Model.

(** ** Lemmas *)

Section Lemmas.
Context {G A B S V T : Type} `{SdkMathLaws, SdkCoinsLaws, SdkAddressLaws, !AddressTextLaws, !CommandLine, !CommandLineLaws, FileSystem, RegistryJson,
  !ModuleAccountLaws, SdkQueryLaws, EthBridge.EthCommonLaws, EthBridge.IntTextLaws, Dispensation.GogoTypes, IbcTransfer.IbcTypes,
  !BankKeeper B, !BankLaws B, !BankValidLaws B, !EthBridge.AccountKeeper B, !Oracle.StakingKeeper S V, !Oracle.StakingLaws S V,
  Oracle.MapOrderLaws, !IbcTransfer.SDKTransferKeeper B T, !TransferKeeperLaws B T, !SdkGenesis G B S T, !SdkGenesisLaws G B S T,
  !ModuleAccountKeeper B, !ModuleAccountKeeperLaws B, !SdkBasics G,
  !SdkAccounts G A, !SdkAccountsLaws G A, !SdkDefaultsLaws G A}.
#[local] Existing Instance oracle_keeper.

Definition resolved (arg : string) : option string := match resolve arg with Ok a => Some a | _ => None end.
(** What a command sets. *)
Definition clp_admin_of (c : Command) : option string := match c with AddCLPAdmin arg => resolved arg | _ => None end.
(** The account with the vesting that its flags ask for: none without vesting coins, from the
    start to the end when both are given, and until the end when only that is. *)
Definition scheduled (addr : string) (vesting : list Coin) (start end_ : Z) : A :=
  match Coins_IsZero vesting, start =? 0 with
  | true, _ => NewBaseAccount addr
  | false, true => NewDelayedVestingAccountRaw (NewBaseAccount addr) (Coins_Sort vesting) (i64 end_)
  | false, false => NewContinuousVestingAccountRaw (NewBaseAccount addr) (Coins_Sort vesting) (i64 end_) (i64 start)
  end.
Definition account_of (c : Command) : option A :=
  match c with
  | AddAccount n =>
      match resolved (Acc_Address n), ParseCoinsNormalized (Acc_VestingAmt n) with
      | Some addr, Ok vesting => Some (scheduled addr vesting (Acc_VestingStart n) (Acc_VestingEnd n))
      | _, _ => None
      end
  | _ => None
  end.
Definition balance_of (c : Command) : option (string * list Coin) :=
  match c with
  | AddAccount n =>
      match resolved (Acc_Address n), ParseCoinsNormalized (Acc_Coins n) with
      | Some addr, Ok coins => Some (AccAddress_String addr, Coins_Sort coins)
      | _, _ => None
      end
  | _ => None
  end.
(** What a list of balances adds up to. *)
Definition total_of (bs : list (string * list Coin)) (d : string) : Z := foldr (fun b acc => AmountOf b.2 d + acc) 0 bs.
Definition validator_of (c : Command) : option string :=
  match c with AddValidator arg => match ValAddressFromBech32 arg with Ok a => Some a | _ => None end | _ => None end.
Definition oracle_admin_of (c : Command) : option string := match c with SetOracleAdmin arg => resolved arg | _ => None end.
Definition registry_admin_of (c : Command) : option string := match c with SetWhitelisterAdmin arg => resolved arg | _ => None end.
Definition whitelist_of (c : Command) : option TokenRegistry.Registry :=
  match c with SetDenomWhitelist path => match ParseDenoms path with Ok r => Some r | _ => None end | _ => None end.

Definition text_of (a : option string) : string := default "" (AccAddress_String <$> a).

Lemma resolve_nonempty arg a : resolve arg = Ok a -> a <> "".
Proof.
  unfold resolve. destruct (AccAddressFromBech32 arg) eqn:E; [|apply kb_Key_nonempty|done]. intros [= <-]. by eapply AccAddress_nonempty.
Qed.
Lemma resolved_nonempty arg a : resolved arg = Some a -> a <> "".
Proof. unfold resolved. destruct (resolve arg) eqn:E; [|done..]. intros [= <-]. by eapply resolve_nonempty. Qed.

(** The whitelist of the oracle: an empty one is left out once the file is written by
    [encoding/json]. *)
Definition whitelist_after (cs : list Command) : option (list string) :=
  match ValAddress_String <$> omap validator_of cs with
  | [] => match omap oracle_admin_of cs with [] => Some [] | _ => None end
  | l => Some l
  end.

(** The default file after a sequence of commands, given what became of the SDK's part. *)
Definition file_after (sdk : G) (cs : list Command) : GenesisState G :=
  mkGenesis sdk
    (Some (ClpTypes.mkGenesisState DefaultParams (AccAddress_String <$> (GetDefaultCLPAdmin :: omap clp_admin_of cs)) [] []))
    (Some (Oracle.mkGenesisState (whitelist_after cs) (text_of (last (omap oracle_admin_of cs))) []))
    (Some EthBridge.DefaultGenesis) (Some Dispensation.DefaultGenesisState)
    (Some (TokenRegistry.mkGenesisState (text_of (last (omap registry_admin_of cs))) (last (omap whitelist_of cs)))).

Lemma omap_snoc {X C} (f : X -> option C) l x :
  omap f (l ++ [x]) = omap f l ++ match f x with Some y => [y] | None => [] end.
Proof. rewrite omap_app. simpl. by destruct (f x). Qed.

Lemma last_omap_snoc {X C} (f : X -> option C) l x :
  last (omap f (l ++ [x])) = match f x with Some y => Some y | None => last (omap f l) end.
Proof. rewrite omap_snoc. destruct (f x); [apply last_snoc|by rewrite app_nil_r]. Qed.

Lemma whitelist_default cs : default [] (whitelist_after cs) = ValAddress_String <$> omap validator_of cs.
Proof. unfold whitelist_after. destruct (ValAddress_String <$> _); [|done]. by destruct (omap oracle_admin_of cs). Qed.

Lemma whitelist_validator cs arg a :
  ValAddressFromBech32 arg = Ok a ->
  Some (default [] (whitelist_after cs) ++ [ValAddress_String a]) = whitelist_after (cs ++ [AddValidator arg]).
Proof.
  intros Ha. rewrite whitelist_default. unfold whitelist_after. rewrite omap_snoc. cbn [validator_of]. rewrite Ha, fmap_app.
  by destruct (ValAddress_String <$> omap validator_of cs).
Qed.

Lemma whitelist_omitted cs arg a :
  resolve arg = Ok a -> omitempty (whitelist_after cs) = whitelist_after (cs ++ [SetOracleAdmin arg]).
Proof.
  intros Ha. unfold whitelist_after. rewrite !omap_snoc. cbn [validator_of oracle_admin_of]. unfold resolved. rewrite Ha, app_nil_r.
  destruct (ValAddress_String <$> _); [|done]. by destruct (omap oracle_admin_of cs).
Qed.

Lemma whitelist_kept cs c : validator_of c = None -> oracle_admin_of c = None -> whitelist_after (cs ++ [c]) = whitelist_after cs.
Proof. intros Hv Ho. unfold whitelist_after. by rewrite !omap_snoc, Hv, Ho, !app_nil_r. Qed.

Lemma run_command_file c cs sdk g :
  run_command c (file_after sdk cs) = Ok g -> g = file_after (gs_sdk g) (cs ++ [c]).
Proof.
  intros Hr. unfold file_after. rewrite omap_snoc, !last_omap_snoc. destruct c as [n|arg|arg|arg|arg|path]; cbn [run_command] in Hr.
  - repeat first [apply rbind_ok_inv in Hr as (? & _ & Hr) | destruct (bank_GetState _)]. injection Hr as <-.
    rewrite whitelist_kept by done. by rewrite app_nil_r.
  - apply rbind_ok_inv in Hr as (a & Ha & Hr). apply rbind_ok_inv in Hr as (? & _ & Hr). injection Hr as <-.
    rewrite <- (whitelist_validator cs arg a Ha). by rewrite app_nil_r.
  - apply rbind_ok_inv in Hr as (a & Ha & Hr). injection Hr as <-. rewrite whitelist_kept by done.
    cbn [clp_admin_of oracle_admin_of registry_admin_of whitelist_of]. unfold resolved. rewrite Ha, !fmap_cons, fmap_app. done.
  - apply rbind_ok_inv in Hr as (a & Ha & Hr). injection Hr as <-. rewrite <- (whitelist_omitted cs arg a Ha).
    cbn [clp_admin_of oracle_admin_of registry_admin_of whitelist_of]. unfold resolved. by rewrite Ha, app_nil_r.
  - apply rbind_ok_inv in Hr as (a & Ha & Hr). injection Hr as <-. rewrite whitelist_kept by done.
    cbn [clp_admin_of oracle_admin_of registry_admin_of whitelist_of]. unfold resolved. by rewrite Ha, app_nil_r.
  - apply rbind_ok_inv in Hr as (a & Ha & Hr). injection Hr as <-. rewrite whitelist_kept by done.
    cbn [clp_admin_of oracle_admin_of registry_admin_of whitelist_of]. by rewrite Ha, app_nil_r.
Qed.

Lemma run_commands_file cs cs0 sdk g :
  run_commands cs (file_after sdk cs0) = Ok g -> g = file_after (gs_sdk g) (cs0 ++ cs).
Proof.
  revert cs0 sdk g. induction cs as [|c cs IH]; intros cs0 sdk g Hr; cbn [run_commands] in Hr.
  - injection Hr as <-. by rewrite app_nil_r.
  - apply rbind_ok_inv in Hr as (g1 & ->%run_command_file & Hr). apply IH in Hr. by rewrite <- app_assoc in Hr.
Qed.

(** *** The accounts *)

Lemma total_of_app bs bs' d : total_of (bs ++ bs') d = total_of bs d + total_of bs' d.
Proof. unfold total_of. induction bs as [|b bs IH]; cbn [app foldr]; [lia|]. rewrite IH. lia. Qed.

Lemma new_account_scheduled addr vs st en acc :
  new_account addr vs st en = Ok acc -> acc = scheduled addr vs st en /\ Account_GetAddress acc = addr.
Proof.
  unfold new_account, scheduled. intros Hn. destruct (Coins_IsZero vs), (st =? 0), (en =? 0); try discriminate Hn; injection Hn as <-;
    rewrite ?NewContinuous_address, ?NewDelayed_address, NewBaseAccount_address; done.
Qed.

Lemma addresses_unnumbered (l : list A) : Account_GetAddress <$> l = Account_GetAddress <$> (unnumbered <$> l).
Proof. rewrite <- list_fmap_compose. apply list_fmap_ext. intros _ x _. symmetry. apply unnumbered_address. Qed.

(** What the file says of the accounts and the coins, after the commands [cs]. *)
Definition accounted (sdk : G) (cs : list Command) : Prop :=
  (exists accs, auth_GetAccounts sdk = Ok accs /\ NoDup (Account_GetAddress <$> accs)
     /\ unnumbered <$> accs ≡ₚ unnumbered <$> omap account_of cs)
  /\ (bank_GetState sdk).1 ≡ₚ omap balance_of cs
  /\ forall d, AmountOf (bank_GetState sdk).2 d = total_of (omap balance_of cs) d.

Lemma run_command_accounts c cs g g' :
  run_command c g = Ok g' -> accounted (gs_sdk g) cs -> accounted (gs_sdk g') (cs ++ [c]).
Proof.
  unfold accounted. intros Hr ((accs & Haccs & Hnd & Hp) & Hb & Hs). rewrite !omap_snoc.
  destruct c as [n|arg|arg|arg|arg|path]; cbn [run_command] in Hr.
  2-6: repeat (apply rbind_ok_inv in Hr as (? & ? & Hr)); injection Hr as <-; cbn [account_of balance_of gs_sdk];
    rewrite !app_nil_r; split_and!; eauto.
  apply rbind_ok_inv in Hr as (addr & Ha & Hr). apply rbind_ok_inv in Hr as (coins & Hcoins & Hr).
  apply rbind_ok_inv in Hr as (vs & Hvs & Hr). apply rbind_ok_inv in Hr as (acc & [Hacc Haddr]%new_account_scheduled & Hr).
  apply rbind_ok_inv in Hr as (? & _ & Hr). rewrite Haccs in Hr. apply rbind_ok_inv in Hr as (? & [= <-] & Hr).
  apply rbind_ok_inv in Hr as ([] & Hf & Hr). apply rbind_ok_inv in Hr as (sdk & [Hauth Hbank]%auth_SetAccounts_ok & Hr).
  rewrite Hbank in Hr. destruct (bank_GetState (gs_sdk g)) as [bs sup] eqn:Eb. apply rbind_ok_inv in Hr as (sup' & Hsup & Hr).
  apply rbind_ok_inv in Hr as (sdk' & [Hb' Ha']%bank_SetState_ok & Hr). injection Hr as <-.
  cbn [gs_sdk account_of balance_of]. unfold resolved. rewrite Ha, Hcoins, Hvs, Ha', Hauth, Hb', <- Hacc. cbn [fst snd] in *.
  assert (unnumbered <$> SanitizeGenesisAccounts (accs ++ [acc]) ≡ₚ unnumbered <$> (omap account_of cs ++ [acc])) as Hp'.
  { rewrite SanitizeGenesisAccounts_perm, !fmap_app. by rewrite Hp. }
  split_and!.
  - eexists. split; [done|]. split; [|exact Hp']. rewrite addresses_unnumbered, SanitizeGenesisAccounts_perm, <- addresses_unnumbered, fmap_app.
    apply NoDup_app. split; [done|]. split; [|apply NoDup_singleton]. cbn [fmap list_fmap]. rewrite Haddr.
    intros ad (acc0 & -> & Hin)%list_elem_of_fmap Hx%list_elem_of_singleton. unfold fail_if in Hf.
    destruct (existsb _ accs) eqn:E; [done|]. apply not_true_iff_false in E. apply E, existsb_exists.
    exists acc0. split; [by apply list_elem_of_In|]. by apply String.eqb_eq.
  - by rewrite SanitizeGenesisBalances_perm, Hb.
  - intros d. rewrite (Coins_Add_ok _ _ _ Hsup d), Hs, total_of_app. unfold total_of. cbn [foldr snd]. lia.
Qed.

Lemma run_commands_accounts cs cs0 g g' :
  run_commands cs g = Ok g' -> accounted (gs_sdk g) cs0 -> accounted (gs_sdk g') (cs0 ++ cs).
Proof.
  revert cs0 g. induction cs as [|c cs IH]; intros cs0 g Hr Hl; cbn [run_commands] in Hr.
  - injection Hr as <-. by rewrite app_nil_r.
  - apply rbind_ok_inv in Hr as (g1 & Hc & Hr). apply (run_command_accounts _ _ _ _ Hc) in Hl.
    apply (IH _ _ Hr) in Hl. by rewrite <- app_assoc in Hl.
Qed.

(** No validator twice. *)
Lemma run_command_validators c cs sdk g :
  run_command c (file_after sdk cs) = Ok g -> NoDup (omap validator_of cs) -> NoDup (omap validator_of (cs ++ [c])).
Proof.
  intros Hr Hn. rewrite omap_snoc. destruct c as [n|arg|arg|arg|arg|path]; cbn [validator_of]; rewrite ?app_nil_r; [done| |done..].
  cbn [run_command] in Hr. apply rbind_ok_inv in Hr as (a & Ha & Hr). rewrite Ha. apply rbind_ok_inv in Hr as ([] & Hf & _).
  apply NoDup_app. split; [done|]. split; [|apply NoDup_singleton]. intros x Hx ->%list_elem_of_singleton.
  unfold fail_if in Hf. destruct (existsb _ _) eqn:E; [done|]. apply not_true_iff_false in E. apply E.
  apply existsb_exists. exists (ValAddress_String a). split; [|apply String.eqb_refl]. apply list_elem_of_In.
  change (ValAddress_String a ∈ default [] (whitelist_after cs)). rewrite whitelist_default. by apply list_elem_of_fmap_2.
Qed.

Lemma last_omap {X C} (f : X -> option C) l y : last (omap f l) = Some y -> exists x, x ∈ l /\ f x = Some y.
Proof. intros Hl%last_Some_elem_of. by apply list_elem_of_omap in Hl. Qed.

Lemma run_commands_validators cs cs0 sdk g :
  run_commands cs (file_after sdk cs0) = Ok g -> NoDup (omap validator_of cs0) -> NoDup (omap validator_of (cs0 ++ cs)).
Proof.
  revert cs0 sdk g. induction cs as [|c cs IH]; intros cs0 sdk g Hr Hn; cbn [run_commands] in Hr; [by rewrite app_nil_r|].
  apply rbind_ok_inv in Hr as (g1 & Hc & Hr). pose proof (run_command_validators _ _ _ _ Hc Hn) as Hn1.
  rewrite (run_command_file _ _ _ _ Hc) in Hr. specialize (IH _ _ _ Hr Hn1). by rewrite <- app_assoc in IH.
Qed.

(** *** Starting from such a file *)

Lemma clp_start_file l (w : World B TokenRegistry.RegStore) :
  l <> [] -> Forall (fun a => a <> "") l ->
  ClpKeeper.InitGenesis (ClpTypes.mkGenesisState DefaultParams (AccAddress_String <$> l) [] []) w
  = (mkWorld (mkClpStore (clp_pools (w_clp w)) (clp_lps (w_clp w)) (Some (AccAddress_String <$> l)) DefaultParams)
       (w_bank w) (w_registry w), Ok tt).
Proof.
  intros Hne Hl. unfold ClpKeeper.InitGenesis. cbn [Gen_Params AddressWhitelist PoolList LiquidityProviders mfor].
  rewrite bool_decide_false by (by destruct l). rewrite rmap_bech32 by done. by destruct w as [[] ? ?].
Qed.

Lemma text_of_nonblank a : (forall x, a = Some x -> x <> "") -> is_Some a -> str_len (TrimSpace (text_of a)) <> 0.
Proof. intros Ha [x ->]. by apply AccAddress_not_blank, Ha. Qed.

Lemma validators_nonempty cs : Forall (fun v => v <> "") (omap validator_of cs).
Proof.
  apply Forall_forall. intros a (c & _ & Hc)%list_elem_of_omap. destruct c as [|arg| | | |]; [done| |done..].
  cbn [validator_of] in Hc. destruct (ValAddressFromBech32 arg) eqn:E; [|done..]. injection Hc as <-. by eapply ValAddress_nonempty.
Qed.

Lemma oracle_whitelist_file cs s0 :
  (match whitelist_after cs with
   | None => mret tt
   | Some l => do! wl <- mlift (rmap (fun entry => panicOnErr (ValAddressFromBech32 entry))
                               (filter (fun entry => str_len (TrimSpace entry) <> 0) l));
               Oracle.SetOracleWhiteList wl
   end) s0
  = (Oracle.mkOracleStore (match whitelist_after cs with Some l => Some l | None => Oracle.o_whitelist s0 end)
       (Oracle.o_admin s0) (Oracle.o_prophecies s0), Ok tt).
Proof.
  destruct (whitelist_after cs) as [l|] eqn:E; [|by destruct s0].
  assert (l = ValAddress_String <$> omap validator_of cs) as -> by (by rewrite <- whitelist_default, E).
  rewrite keep_printed by apply validators_nonempty. unfold mbnd, mlift.
  rewrite Oracle.rmap_strings by apply validators_nonempty. done.
Qed.

Lemma oracle_start_file cs a :
  (forall x, a = Some x -> x <> "") ->
  Oracle.InitGenesis (Oracle.mkGenesisState (whitelist_after cs) (text_of a) []) (Oracle.mkOracleStore None None ∅)
  = (Oracle.mkOracleStore (whitelist_after cs) a ∅, Ok tt).
Proof.
  intros Ha. unfold Oracle.InitGenesis. cbn [Oracle.AddressWhitelist Oracle.AdminAddress Oracle.Prophecies mfor].
  rewrite (mbnd_run _ _ _ _ _ (oracle_whitelist_file cs _)). cbn [Oracle.o_whitelist Oracle.o_admin Oracle.o_prophecies].
  replace (match whitelist_after cs with Some l => Some l | None => None end) with (whitelist_after cs) by (by destruct (whitelist_after cs)).
  destruct a as [x|]; [|done]. unfold text_of. cbn [fmap option_fmap option_map default]. cbv [from_option id].
  assert (x <> "") as Hx by auto. pose proof (AccAddress_not_blank x Hx) as Hb%Z.eqb_neq. rewrite Hb, AccAddress_roundtrip by done.
  done.
Qed.

Lemma registry_start_file a r :
  (forall x, a = Some x -> x <> "") -> (forall x, r = Some x -> forallb TokenRegistry.is_entry (TokenRegistry.Entries x) = true) ->
  TokenRegistry.InitGenesis (TokenRegistry.mkGenesisState (text_of a) r) (TokenRegistry.mkRegStore None None)
  = (TokenRegistry.mkRegStore r a, Ok tt).
Proof.
  intros Ha Hr. unfold TokenRegistry.InitGenesis, TokenRegistry.SetRegistry.
  cbn [TokenRegistry.AdminAccount TokenRegistry.GenRegistry].
  assert ((if String.eqb (text_of a) "" then mret tt
           else do! addr <- mlift (panicOnErr (AccAddressFromBech32 (text_of a))); mmodify (TokenRegistry.SetAdminAccount addr))
          (TokenRegistry.mkRegStore None None) = (TokenRegistry.mkRegStore None a, Ok tt)) as Hadm.
  { destruct a as [x|]; [|done]. unfold text_of. cbn [fmap option_fmap option_map default]. cbv [from_option id].
    assert (x <> "") as Hx by auto. pose proof (EthBridge.AccAddress_String_nonempty x Hx) as Hn%String.eqb_neq.
    by rewrite Hn, AccAddress_roundtrip. }
  rewrite (mbnd_run _ _ _ _ _ Hadm). destruct r as [r|]; [|done]. by rewrite Hr.
Qed.

(** A list of denominations without nil entries. *)
Definition clean (c : Command) : Prop :=
  forall r, whitelist_of c = Some r -> forallb TokenRegistry.is_entry (TokenRegistry.Entries r) = true.

Lemma admins_nonempty cs : Forall (fun a => a <> "") (omap clp_admin_of cs).
Proof.
  apply Forall_forall. intros a (c & _ & Hc)%list_elem_of_omap. destruct c; try done; by eapply resolved_nonempty.
Qed.
Lemma oracle_admin_nonempty cs x : last (omap oracle_admin_of cs) = Some x -> x <> "".
Proof. intros (c & _ & Hc)%last_omap. destruct c; try done; by eapply resolved_nonempty. Qed.
Lemma registry_admin_nonempty cs x : last (omap registry_admin_of cs) = Some x -> x <> "".
Proof. intros (c & _ & Hc)%last_omap. destruct c; [done..|by eapply resolved_nonempty|done]. Qed.

Lemma file_after_starts sdk cs (y : B * S * T) :
  Forall clean cs -> GetDefaultCLPAdmin <> "" ->
  mfor sdk_modules (fun name => sdk_InitGenesis name sdk) sdk_empty = (y, Ok tt) ->
  exists b, InitGenesis (file_after sdk cs) empty_app
    = (mkApp b y.1.2 y.2 (TokenRegistry.mkRegStore (last (omap whitelist_of cs)) (last (omap registry_admin_of cs)))
         (mkClpStore ∅ ∅ (Some (AccAddress_String <$> (GetDefaultCLPAdmin :: omap clp_admin_of cs))) DefaultParams)
         (Oracle.mkOracleStore (whitelist_after cs) (last (omap oracle_admin_of cs)) ∅)
         (EthBridge.mkBridgeStore None None ∅) (Dispensation.mkDispStore ∅ ∅ ∅), Ok tt)
    /\ forall x d, GetBalance b x d = GetBalance y.1.1 x d.
Proof.
  intros Hc Hd Hy. exists (SetModuleAccount EthBridge.ModuleName [Burner; Minter] y.1.1).
  split; [|intros x d; apply SetModuleAccount_balance].
  rewrite InitGenesis_eq. rewrite (mbnd_run _ _ _ (put_sdk empty_app y) tt) by (apply zoom_run; by rewrite sdk_view_empty).
  refine (own_genesis _ _ _ _ _ _ (put_sdk empty_app y) (mkWorld (mkClpStore ∅ ∅ (Some (AccAddress_String <$> (GetDefaultCLPAdmin :: omap clp_admin_of cs)))
      DefaultParams) y.1.1 (TokenRegistry.mkRegStore None None))
    (Oracle.mkOracleStore (whitelist_after cs) (last (omap oracle_admin_of cs)) ∅)
    (EthBridge.mkBridgeWorld (EthBridge.mkBridgeStore None None ∅) (SetModuleAccount EthBridge.ModuleName [Burner; Minter] y.1.1)
      (Oracle.mkOracleStore (whitelist_after cs) (last (omap oracle_admin_of cs)) ∅, y.1.2) (TokenRegistry.mkRegStore None None))
    (Dispensation.mkDispWorld (Dispensation.mkDispStore ∅ ∅ ∅) (SetModuleAccount EthBridge.ModuleName [Burner; Minter] y.1.1))
    (TokenRegistry.mkRegStore (last (omap whitelist_of cs)) (last (omap registry_admin_of cs))) _ _ _ _ _).
  - apply clp_start_file; [done|]. constructor; [done|apply admins_nonempty].
  - apply oracle_start_file, oracle_admin_nonempty.
  - done.
  - done.
  - apply registry_start_file; [apply registry_admin_nonempty|]. intros r (c & Hin & Hr)%last_omap.
    rewrite Forall_forall in Hc. by apply (Hc c Hin).
Qed.

(** ** Properties *)

(** C32: The default file, edited by any sequence of the six commands that succeed and read no
    list with a null entry, passes the validation of every module, and the chain starts from
    it in a state that satisfies the invariants of the application: the admins of the
    exchange are the default one and all that were added, in their order; the validators
    that may vote are all that were added, none of them twice; the admins of the
    oracle and of the registry and the list of denominations are the ones set last, and
    nothing else is configured.  The SDK's part of the file, which has to be valid and to
    start by itself, lists exactly the added accounts, up to their numbers and order and none
    of them twice, each with the vesting its flags ask for; its balances are exactly the
    coins each of those commands gave to its account, and the supply it states is their
    total in every denomination. *)
Theorem genesis_commands cs g (y : B * S * T) :
  run_commands cs NewDefaultGenesisState = Ok g -> Forall clean cs -> GetDefaultCLPAdmin <> "" ->
  sdk_ValidateGenesis (gs_sdk g) = Ok tt ->
  mfor sdk_modules (fun name => sdk_InitGenesis name (gs_sdk g)) sdk_empty = (y, Ok tt) ->
  (ValidateGenesis g = Ok tt /\ exists a, InitGenesis g empty_app = (a, Ok tt) /\ app_ok a (fun _ => 0)
    /\ GetClpWhiteList (clp_view a) = Ok (GetDefaultCLPAdmin :: omap clp_admin_of cs)
    /\ default [] (Oracle.o_whitelist (app_oracle a)) = ValAddress_String <$> omap validator_of cs
    /\ Oracle.o_admin (app_oracle a) = last (omap oracle_admin_of cs)
    /\ TokenRegistry.reg_admin (app_registry a) = last (omap registry_admin_of cs)
    /\ TokenRegistry.reg_registry (app_registry a) = last (omap whitelist_of cs)
    /\ clp_pools (app_clp a) = ∅ /\ Oracle.o_prophecies (app_oracle a) = ∅ /\ app_disp a = Dispensation.mkDispStore ∅ ∅ ∅
    /\ forall x d, GetBalance (app_bank a) x d = GetBalance y.1.1 x d)
  /\ NoDup (omap validator_of cs)
  /\ (exists accs, auth_GetAccounts (gs_sdk g) = Ok accs /\ NoDup (Account_GetAddress <$> accs)
       /\ unnumbered <$> accs ≡ₚ unnumbered <$> omap account_of cs)
  /\ (bank_GetState (gs_sdk g)).1 ≡ₚ omap balance_of cs
  /\ forall d, AmountOf (bank_GetState (gs_sdk g)).2 d = total_of (omap balance_of cs) d.
Proof.
  intros Hr Hc Hd Hv Hy. split.
  { pose proof (run_commands_file cs [] _ g Hr) as Hg. set (sdk := gs_sdk g) in *. clearbody sdk. subst g. split.
    { unfold ValidateGenesis, file_after. cbn [gs_sdk]. by rewrite Hv. }
    destruct (file_after_starts sdk cs y Hc Hd Hy) as (b & Hi & Hb). eexists. split; [exact Hi|]. split.
    { eapply genesis_ok; [|exact Hi]. split; [by eexists|]. split; [by intros o [= <-]|by intros d [= <-]]. }
    split_and!; try done; [|apply whitelist_default]. unfold GetClpWhiteList. cbn [clp_view w_clp app_clp clp_whitelist].
    cbv [from_option id]. apply rmap_bech32. constructor; [done|apply admins_nonempty]. }
  split; [exact (run_commands_validators cs [] _ g Hr (NoDup_nil_2))|].
  apply (run_commands_accounts cs [] _ g Hr). unfold accounted. cbn [NewDefaultGenesisState gs_sdk].
  rewrite default_accounts, default_balances. split; [|by split]. exists []. split; [done|]. split; [apply NoDup_nil_2|done].
Qed.
End Lemmas.

(** ** Examples *)

Section Examples.
#[local] Existing Instances RefMath RefCoins RefAddress RefQuery RefBank EthBridge.RefEth EthBridge.RefIntText Oracle.RefOrder
  Dispensation.RefGogoTypes IbcTransfer.RefIbcTypes IbcTransfer.RefTransferKeeper EthBridge.ex_accounts Oracle.ex_staking
  RefSdkGenesis RefModuleAccounts.
#[local] Existing Instances RefMath_laws RefCoins_laws RefAddress_laws RefAddress_text RefAccounts_distinct RefQuery_laws
  RefBank_laws RefBank_valid EthBridge.RefEth_laws EthBridge.RefIntText_laws Oracle.RefOrder_laws Oracle.ex_staking_laws
  RefTransferKeeper_laws RefSdkGenesis_laws RefModuleAccounts_laws.

(** One key and one file, whose content is the name of a registry. *)
Definition RefCommandLine : CommandLine := {|
  kb_Key name := if String.eqb name "node" then Ok "nodekey" else Err (PlainErr "key not found");
|}.
Definition RefFiles : FileSystem := {|
  Abs path := Ok ("/home/" +:+ path);
  ReadFile path := if String.eqb path "/home/denoms.json" then Ok "ceth" else Err (PlainErr "no such file");
|}.
Definition RefRegistryJson : RegistryJson := {|
  UnmarshalRegistry text := Ok (TokenRegistry.mkRegistry [Some (TokenRegistry.ex_entry text 18)]);
|}.
#[local] Existing Instances RefFiles RefRegistryJson.
#[local] Existing Instance RefCommandLine.
Lemma RefCommandLine_laws : CommandLineLaws.
Proof. split. intros name a. simpl. destruct (String.eqb name "node"); [by intros [= <-]|done]. Qed.
#[local] Existing Instance RefCommandLine_laws.

(** A file of the SDK's modules: its accounts, balances and supply; the rest does not matter.
    An account is its address with its vesting coins and their times. *)
Definition RefAccount : Type := string * list Coin * Z * Z.
Record RefFile := mkRefFile { rf_accounts : list RefAccount; rf_balances : list (string * list Coin); rf_supply : list Coin }.
#[local] Instance RefSdkBasics : SdkBasics RefFile := {|
  sdk_DefaultGenesis := mkRefFile [] [] []; sdk_ValidateGenesis _ := Ok tt
|}.
#[local] Instance RefFileGenesis : SdkGenesis RefFile RefB unit unit := {|
  sdk_InitGenesis _ _ := mret tt; sdk_ExportGenesis _ := mkRefFile [] [] []; sdk_empty := (∅, tt, tt)
|}.
(** Coins are written as one amount of aku. *)
Definition RefSdkAccounts : SdkAccounts RefFile RefAccount := {|
  NewBaseAccount a := (a, [], 0, 0);
  NewDelayedVestingAccountRaw a cs e := (a.1.1.1, cs, 0, e);
  NewContinuousVestingAccountRaw a cs e st := (a.1.1.1, cs, st, e);
  Account_GetAddress a := a.1.1.1;
  Account_Validate _ := Ok tt;
  ParseCoinsNormalized s := if String.eqb s "" then Ok [] else let! n := ParseUint s in Ok [mkCoin "aku" n];
  Coins_IsZero cs := forallb (fun c => Coin_Amount c =? 0) cs;
  unnumbered a := a;
  SanitizeGenesisAccounts l := l;
  SanitizeGenesisBalances l := l;
  auth_GetAccounts g := Ok (rf_accounts g);
  auth_SetAccounts l g := Ok (mkRefFile l (rf_balances g) (rf_supply g));
  bank_GetState g := (rf_balances g, rf_supply g);
  bank_SetState bs cs g := Ok (mkRefFile (rf_accounts g) bs cs);
|}.
#[local] Existing Instance RefSdkAccounts.
Lemma RefSdkAccounts_laws : SdkAccountsLaws RefFile RefAccount.
Proof. by split; try done; intros * [= <-]. Qed.
Lemma RefSdkDefaults_laws : SdkDefaultsLaws RefFile RefAccount.
Proof. done. Qed.
#[local] Existing Instances RefSdkAccounts_laws RefSdkDefaults_laws.

Definition ex_commands : list Command :=
  [AddAccount (mkNewAccount "sif1alice" "1000" 0 0 ""); AddValidator "sifvaloper1val"; AddCLPAdmin "sif1alice"; SetOracleAdmin "node";
   SetWhitelisterAdmin "sif1bob"; SetDenomWhitelist "denoms.json"; AddAccount (mkNewAccount "node" "500" 10 20 "100");
   AddCLPAdmin "node"; SetWhitelisterAdmin "sif1carol"].
Definition ex_file : GenesisState RefFile :=
  match run_commands ex_commands NewDefaultGenesisState with Ok g => g | _ => NewDefaultGenesisState end.
Lemma ex_file_ok : run_commands ex_commands NewDefaultGenesisState = Ok ex_file.
Proof. by vm_compute. Qed.
Lemma ex_clean : Forall clean ex_commands.
Proof. repeat constructor; by intros r [= <-]. Qed.
Lemma ex_sdk_starts : mfor sdk_modules (fun name => sdk_InitGenesis name (gs_sdk ex_file)) sdk_empty = ((∅ : RefB, tt, tt), Ok tt).
Proof. by vm_compute. Qed.

Lemma genesis_commands_witness :
  ValidateGenesis ex_file = Ok tt /\ (exists a : App RefB unit unit, InitGenesis ex_file empty_app = (a, Ok tt)
    /\ GetClpWhiteList (clp_view a) = Ok ["module/ClpAdmin"; "alice"; "nodekey"]
    /\ default [] (Oracle.o_whitelist (app_oracle a)) = ["sifvaloper1val"]
    /\ TokenRegistry.reg_admin (app_registry a) = Some "carol")
  /\ rf_accounts (gs_sdk ex_file) ≡ₚ [("alice", [], 0, 0); ("nodekey", [mkCoin "aku" 100], 10, 20)]
  /\ rf_balances (gs_sdk ex_file) ≡ₚ [("sif1alice", [mkCoin "aku" 1000]); ("sif1nodekey", [mkCoin "aku" 500])]
  /\ AmountOf (rf_supply (gs_sdk ex_file)) "aku" = 1500.
Proof.
  destruct (genesis_commands (S := unit) (T := unit) ex_commands ex_file (∅, tt, tt) ex_file_ok ex_clean
    ltac:(discriminate) eq_refl ex_sdk_starts) as ((Hv & a & Hi & _ & Hc & Hw & _ & Hr & _) & _ & (accs & Haccs & _ & Ha) & Hb & Hs).
  split; [exact Hv|]. split; [exists a; split_and!; [exact Hi|exact Hc|exact Hw|exact Hr]|]. split; [|split].
  - assert (accs = rf_accounts (gs_sdk ex_file)) as -> by exact (f_equal (fun r => match r with Ok l => l | _ => [] end) (eq_sym Haccs)).
    rewrite list_fmap_id in Ha. exact Ha.
  - exact Hb.
  - exact (Hs "aku").
Defined.

(** Vesting coins without an end are refused; an end beyond the range of int64 lies in the past. *)
Example vesting_without_end : is_ok (run_command (AddAccount (mkNewAccount "sif1bob" "5" 10 0 "5")) ex_file) = false.
Proof. by vm_compute. Qed.
Example vesting_end_wraps : i64 (2 ^ 64 - 1) = -1.
Proof. reflexivity. Qed.
Example account_twice : run_command (AddAccount (mkNewAccount "sif1alice" "5" 0 0 "")) ex_file = Err ErrAccountExists.
Proof. by vm_compute. Qed.

(** The command that only the name of an unknown key is given to leaves the file alone. *)
Example unknown_key : run_command (AddCLPAdmin "mallory") ex_file = Err (PlainErr "key not found").
Proof. reflexivity. Qed.
End Examples.
End GenesisFile.
