(* ===== verification/AppUpgrade.v ===== *)
(** * app/setup_handlers.go: the upgrade of a running chain

    The upgrade handler of this release sets the parameters of IBC connections and of the
    mint, and has the module manager run the migrations between the versions recorded in the
    store and those of the code; of the chain's own modules only x/tokenregistry registers
    one.  [InitChainer] records the versions when a chain starts.  The module manager and the
    keepers of IBC, mint and upgrade are parameters.

    The theorem is what makes the upgrade a step of [App.reachable]: whatever the modules of
    the SDK do, the stores of the chain's own modules are untouched but for the registry, and
    the registry is migrated when the store says version 1, and only then. *)

From Stdlib Require Import ZArith Lia Ascii String.
From stdpp Require Import base list gmap strings.
From S2P Require Import Prelude SdkMath Sdk Frames TokenRegistry ClpTypes ClpCalc ClpKeeper ClpMsgServer ClpGenesis Oracle OracleGenesis EthBridge Dispensation IbcTransfer Ante AppFrames App GenesisFile.

Module AppUpgrade.
Import App.
#[local] Existing Instance TokenRegistry.Keeper.

(** ** The module manager *)

Definition VersionMap : Type := KV Z.

(** A module as the manager sees it: its version, the migrations it registered by the version
    they start from, and [InitGenesis] on its default genesis. *)
Record AppModule (St : Type) := mkAppModule {
  Am_Name : string;
  ConsensusVersion : Z;
  Migrations : Z -> option (M St unit);
  InitDefault : M St unit;
}.
Arguments mkAppModule {_} _ _ _ _.
Arguments Am_Name {_} _.
Arguments ConsensusVersion {_} _.
Arguments Migrations {_} _ _.
Arguments InitDefault {_} _.

Class ModuleManager := {
  RunMigrations : forall St, list (AppModule St) -> VersionMap -> M St VersionMap;
  mm_GetVersionMap : forall St, list (AppModule St) -> VersionMap;
}.
Arguments RunMigrations {_} {_} _ _.
Arguments mm_GetVersionMap {_} {_} _.

(** What the SDK documents for one module: one that is not recorded is new and gets its default
    genesis; one whose version is recorded runs its migrations one version after another. *)
Definition ErrModuleNotFound : GoError := RegisteredErr "sdk" 38.
Definition documented_migration {St} (fromVM : VersionMap) (m : AppModule St) : M St unit :=
  match fromVM !! Am_Name m with
  | None => InitDefault m
  | Some from =>
      if (ConsensusVersion m <=? 1) || (from =? ConsensusVersion m) then mret tt
      else mfor (seqZ from (ConsensusVersion m - from))
             (fun v => match Migrations m v with Some h => h | None => mthrow ErrModuleNotFound end)
  end.

(** The order of the modules is that of a map's iteration. *)
Class ModuleManagerLaws `{ModuleManager} : Prop := {
  RunMigrations_ok St (mods : list (AppModule St)) vm vm' s s' : RunMigrations mods vm s = (s', Ok vm') ->
    vm' = mm_GetVersionMap mods
    /\ exists order, order ≡ₚ mods /\ mfor order (documented_migration vm) s = (s', Ok tt);
  mm_GetVersionMap_lookup St (mods : list (AppModule St)) m : m ∈ mods -> NoDup (Am_Name <$> mods) ->
    mm_GetVersionMap mods !! Am_Name m = Some (ConsensusVersion m);
}.

(** ** The keepers of the SDK *)

Record MintMinter := mkMinter { Inflation : Z; AnnualProvisions : Z }.

(** [X] is the state of the SDK's modules and [P] the parameters of the mint. *)
Class UpgradeServices (X P : Type) := {
  sdk_ConsensusVersion : string -> Z;
  sdk_Migrations : string -> Z -> option (M X unit);
  sdk_InitDefault : string -> M X unit;
  (** [ConnectionKeeper.SetParams] of [ibcconnectiontypes.DefaultParams()]. *)
  connection_SetDefaultParams : M X unit;
  SetMinter : MintMinter -> M X unit;
  mint_GetParams : X -> P;
  with_InflationMax : Z -> P -> P;
  with_InflationMin : Z -> P -> P;
  mint_SetParams : P -> M X unit;
  SetModuleVersionMap : VersionMap -> M X unit;
}.

(** The plan that the last binary left on disk for this one. *)
Record UpgradeInfo := mkUpgradeInfo { Ui_Name : string; Ui_Height : Z }.

Section Model.
Context {G B S V T P : Type} `{SdkMath, SdkCoins, SdkAddress, SdkQuery, EthBridge.EthCommon, EthBridge.IntText, Dispensation.GogoTypes,
  IbcTransfer.IbcTypes, !BankKeeper B, !EthBridge.AccountKeeper B, !Oracle.StakingKeeper S V, !Oracle.MapOrder,
  !IbcTransfer.SDKTransferKeeper B T, !SdkGenesis G B S T, !ModuleAccountKeeper B, !ModuleManager, !UpgradeServices (B * S * T) P}.
Abbreviation App := (App B S T).
Abbreviation AM := (M App).

Definition on_sdk {A} (m : M (B * S * T) A) : AM A := zoom sdk_view put_sdk m.

(** *** The modules of the manager *)

Definition sdk_module (name : string) : AppModule App :=
  mkAppModule name (sdk_ConsensusVersion name) (fun v => on_sdk <$> sdk_Migrations name v) (on_sdk (sdk_InitDefault name)).
(** The version of this chain's transfer module is its own; its genesis is that of ibc-go. *)
Definition transfer_module : AppModule App :=
  mkAppModule "transfer" 1 (fun _ => None) (on_sdk (sdk_InitDefault "transfer")).
Definition clp_module : AppModule App :=
  mkAppModule ClpTypes.ModuleName 1 (fun _ => None) (clp_InitGenesis ClpTypes.DefaultGenesisState).
Definition oracle_module : AppModule App :=
  mkAppModule "oracle" 1 (fun _ => None) (oracle_InitGenesis Oracle.DefaultGenesisState).
Definition ethbridge_module : AppModule App :=
  mkAppModule EthBridge.ModuleName 1 (fun _ => None) (bridge_InitGenesis EthBridge.DefaultGenesis).
Definition dispensation_module : AppModule App :=
  mkAppModule Dispensation.ModuleName 1 (fun _ => None) (disp_InitGenesis Dispensation.DefaultGenesisState).
(** [RegisterServices] registers [MigrateToVer2] as the migration from version 1. *)
Definition registry_module : AppModule App :=
  mkAppModule "tokenregistry" 2 (fun v => if v =? 1 then Some migrate_registry else None)
    (registry_InitGenesis GenesisFile.registry_DefaultGenesis).

Definition manager_sdk_modules : list string :=
  ["genutil"; "auth"; "vesting"; "bank"; "capability"; "crisis"; "gov"; "mint"; "slashing"; "distribution"; "staking";
   "upgrade"; "evidence"; "feegrant"; "ibc"; "params"].
Definition mm : list (AppModule App) :=
  (sdk_module <$> manager_sdk_modules)
  ++ [transfer_module; clp_module; oracle_module; ethbridge_module; dispensation_module; registry_module].

(** *** The start of a chain *)

(** [appState] is what the file of the first block parses to. *)
Definition InitChainer (appState : res (GenesisState G)) : AM unit :=
  do! genesisState <- mlift (panicOnErr appState);
  run! on_sdk (SetModuleVersionMap (mm_GetVersionMap mm));
  InitGenesis genesisState.

(** *** The upgrade *)

Definition releaseVersion : string := "0.0.1".

Definition UpgradeHandler (vm : VersionMap) : AM VersionMap :=
  run! on_sdk connection_SetDefaultParams;
  do! inflation <- mlift (Ante.MustNewDecFromStr "0.417800000000000000");
  run! on_sdk (SetMinter (mkMinter inflation 0));
  do! params <- mgets (fun a => mint_GetParams (sdk_view a));
  do! max <- mlift (Ante.MustNewDecFromStr "0.487400000000000000");
  do! min <- mlift (Ante.MustNewDecFromStr "0.348100000000000000");
  run! on_sdk (mint_SetParams (with_InflationMin min (with_InflationMax max params)));
  RunMigrations mm vm.

(** What [SetupHandlers] leaves behind: the handlers by the name of a plan, and the height at
    which a store loader is to run, if this binary was started by an upgrade. *)
Record Setup := mkSetup {
  upgradeHandlers : string -> option (VersionMap -> AM VersionMap);
  storeLoader : option Z;
}.
Definition SetupHandlers (ReadUpgradeInfoFromDisk : res UpgradeInfo) (IsSkipHeight : Z -> bool) : res Setup :=
  let handlers name := if String.eqb name releaseVersion then Some UpgradeHandler else None in
  let! upgradeInfo := panicOnErr ReadUpgradeInfoFromDisk in
  Ok (mkSetup handlers
    (if String.eqb (Ui_Name upgradeInfo) releaseVersion && negb (IsSkipHeight (Ui_Height upgradeInfo))
     then Some (Ui_Height upgradeInfo) else None)).
End Model.

(** ** What an upgrade leaves alone *)

(** No migration and no parameter of the SDK takes coins from the accounts that back what the
    chain's own modules record. *)
Class UpgradeServicesLaws (B S T P : Type) `{SdkAddress, !BankKeeper B, !UpgradeServices (B * S * T) P} : Prop := {
  sdk_Migrations_spare name v m (x x' : B * S * T) : sdk_Migrations name v = Some m -> m x = (x', Ok tt) -> spared unbacking x.1.1 x'.1.1;
  connection_SetDefaultParams_spares (x x' : B * S * T) : connection_SetDefaultParams x = (x', Ok tt) -> spared unbacking x.1.1 x'.1.1;
  SetMinter_spares minter (x x' : B * S * T) : SetMinter minter x = (x', Ok tt) -> spared unbacking x.1.1 x'.1.1;
  mint_SetParams_spares params (x x' : B * S * T) : mint_SetParams params x = (x', Ok tt) -> spared unbacking x.1.1 x'.1.1;
}.

Section Lemmas.
Context {G B S V T P : Type} `{SdkMathLaws, SdkCoinsLaws, SdkAddressLaws, !AddressTextLaws, !ModuleAccountLaws, SdkQueryLaws,
  EthBridge.EthCommonLaws, EthBridge.IntTextLaws, Dispensation.GogoTypes, IbcTransfer.IbcTypes, !BankKeeper B, !BankLaws B,
  !BankValidLaws B, !EthBridge.AccountKeeper B, !Oracle.StakingKeeper S V, !Oracle.StakingLaws S V, Oracle.MapOrderLaws,
  !IbcTransfer.SDKTransferKeeper B T, !TransferKeeperLaws B T, !SdkGenesis G B S T, !SdkGenesisLaws G B S T,
  !ModuleAccountKeeper B, !ModuleAccountKeeperLaws B, !ModuleManager, !ModuleManagerLaws, !UpgradeServices (B * S * T) P, !UpgradeServicesLaws B S T P}.
Abbreviation App := (App B S T).
Implicit Types a : App.

(** Only the state of the SDK's modules moves, and the backing accounts lose nothing. *)
Record sdk_step a a' : Prop := {
  step_bank : spared unbacking (app_bank a) (app_bank a');
  step_registry : app_registry a' = app_registry a;
  step_clp : app_clp a' = app_clp a;
  step_oracle : app_oracle a' = app_oracle a;
  step_bridge : app_bridge a' = app_bridge a;
  step_disp : app_disp a' = app_disp a;
}.
#[local] Instance sdk_step_preorder : PreOrder sdk_step.
Proof.
  split.
  - intros a. by split.
  - intros a a1 a2 [Hb ? ? ? ? ?] [Hb' ? ? ? ? ?]. split; [by etrans|congruence..].
Qed.

Lemma on_sdk_step (m : M (B * S * T) unit) a a' :
  (forall x x', m x = (x', Ok tt) -> spared unbacking x.1.1 x'.1.1) -> on_sdk m a = (a', Ok tt) -> sdk_step a a'.
Proof. intros Hm (x & Hx & ->)%zoom_ok. apply Hm in Hx. by split. Qed.

(** Every module but the registry, when its version is recorded. *)
Lemma documented_migration_sdk vm (m : AppModule App) a a' :
  m ∈ mm -> m <> registry_module -> is_Some (vm !! Am_Name m) -> documented_migration vm m a = (a', Ok tt) -> sdk_step a a'.
Proof.
  intros Hm Hne [from Hv]. unfold documented_migration. rewrite Hv.
  assert (ConsensusVersion m <= 1 \/ exists name, m = sdk_module name) as [Hle|[name ->]].
  { unfold mm in Hm. apply elem_of_app in Hm as [(name & -> & _)%list_elem_of_fmap|Hm]; [by right; exists name|left].
    repeat (apply elem_of_cons in Hm as [->|Hm]; [first [by destruct Hne|apply Z.le_refl]|]). by apply not_elem_of_nil in Hm. }
  - apply Z.leb_le in Hle. rewrite Hle. by intros [= <-].
  - case_match; [by intros [= <-]|]. apply (mfor_inv (sdk_step a)); [|done].
    intros v a1 a2 [] _ Ha Hr. etrans; [exact Ha|]. cbn [sdk_module Migrations] in Hr.
    destruct (sdk_Migrations name v) as [h|] eqn:Hh; [|done]. revert Hr. apply on_sdk_step. intros x x'. by eapply sdk_Migrations_spare.
Qed.

(** The registry: its migration runs when version 1 is recorded. *)
Lemma documented_migration_registry vm a a' :
  is_Some (vm !! "tokenregistry") -> documented_migration vm registry_module a = (a', Ok tt) ->
  if decide (vm !! "tokenregistry" = Some 1) then migrate_registry a = (a', Ok tt) else a' = a.
Proof.
  intros [from Hv]. unfold documented_migration. cbn [registry_module Am_Name]. rewrite Hv.
  change (ConsensusVersion registry_module) with 2. change (2 <=? 1) with false. cbn [orb].
  destruct (Z.eqb_spec from 2) as [->|Hn2]; [by intros [= <-]|].
  destruct (decide (from = 1)) as [->|Hn1].
  - rewrite decide_True by done. change (seqZ 1 (2 - 1)) with [1]. cbn [mfor registry_module Migrations]. change (1 =? 1) with true.
    intros Hr. apply mbnd_ok_inv in Hr as ([] & a1 & Hr & [= <-]). exact Hr.
  - rewrite decide_False by congruence. destruct (decide (2 < from)).
    + rewrite seqZ_nil by lia. by intros [= <-].
    + rewrite seqZ_cons by lia. cbn [mfor registry_module Migrations]. apply Z.eqb_neq in Hn1. rewrite Hn1.
      by intros ([] & a1 & Hr & _)%mbnd_ok_inv.
Qed.

Lemma mm_registry_once : exists others, mm = others ++ [registry_module] /\ (forall m, m ∈ others -> m <> registry_module).
Proof.
  exists ((sdk_module <$> manager_sdk_modules) ++ [transfer_module; clp_module; oracle_module; ethbridge_module; dispensation_module]).
  split; [by rewrite <- app_assoc|]. intros m Hm ->.
  apply (list_elem_of_fmap_2 Am_Name), list_elem_of_In in Hm. vm_compute in Hm. by intuition discriminate.
Qed.

Lemma migrations_split (vm : VersionMap) (order : list (AppModule App)) a a' :
  order ≡ₚ mm -> (forall m, m ∈ mm -> is_Some (vm !! Am_Name m)) -> mfor order (documented_migration vm) a = (a', Ok tt) ->
  exists a1 a2, sdk_step a a1 /\ documented_migration vm registry_module a1 = (a2, Ok tt) /\ sdk_step a2 a'.
Proof.
  intros Hp Hrec Hr. destruct mm_registry_once as (others & Hmm & Hothers).
  assert (registry_module ∈ order) as (l1 & l2 & ->)%list_elem_of_split by (rewrite Hp, Hmm; set_solver).
  assert (l1 ++ l2 ≡ₚ others) as Hl.
  { apply (Permutation_cons_inv (a := registry_module)). rewrite Permutation_middle, Hp, Hmm. by rewrite Permutation_app_comm. }
  assert (forall l a a', (forall m, m ∈ l -> m ∈ l1 ++ l2) -> mfor l (documented_migration vm) a = (a', Ok tt) -> sdk_step a a') as Hstep.
  { intros l b b' Hsub. apply (mfor_inv (sdk_step b)); [|done]. intros m b1 b2 [] Hm Hb Hd. etrans; [exact Hb|].
    assert (m ∈ others) as Ho by (rewrite <- Hl; by apply Hsub).
    assert (m ∈ mm) as Hin by (rewrite Hmm; set_solver). by apply (documented_migration_sdk vm m); [|apply Hothers|apply Hrec|]. }
  rewrite mfor_app in Hr. apply mbnd_ok_inv in Hr as ([] & a1 & E1 & Hr). cbn [mfor] in Hr. apply mbnd_ok_inv in Hr as ([] & a2 & E2 & E3).
  exists a1, a2. split; [|split; [done|]]; eapply Hstep; [|exact E1| |exact E3]; set_solver.
Qed.
Lemma sdk_step_reachable a a' D : reachable a D -> sdk_step a a' -> reachable a' D.
Proof.
  intros Hr [Hb ? ? ? ? ?]. destruct a, a'; simplify_eq/=. by apply (reach_sdk _ _ app_bank1 app_staking1 app_transfer1 Hr).
Qed.

Lemma migrate_registry_stores a a' :
  migrate_registry a = (a', Ok tt) ->
  TokenRegistry.MigrateToVer2 (app_registry a) = (app_registry a', Ok tt)
  /\ app_clp a' = app_clp a /\ app_oracle a' = app_oracle a /\ app_bridge a' = app_bridge a /\ app_disp a' = app_disp a.
Proof. by intros (r & Hr & ->)%zoom_ok. Qed.

(** ** Properties *)

(** An upgrade of a chain whose store records a version of every module gives, when it ends
    well, a reachable state and the versions of this code.  The stores of x/clp, x/oracle,
    x/ethbridge and x/dispensation are the same as before; the registry is migrated when the
    store records version 1 of it, and otherwise the same. *)
Theorem upgrade_reachable vm vm' a a' D :
  reachable a D -> (forall m, m ∈ mm -> is_Some (vm !! Am_Name m)) -> UpgradeHandler vm a = (a', Ok vm') ->
  reachable a' D /\ vm' = mm_GetVersionMap mm
  /\ app_clp a' = app_clp a /\ app_oracle a' = app_oracle a /\ app_bridge a' = app_bridge a /\ app_disp a' = app_disp a
  /\ (if decide (vm !! "tokenregistry" = Some 1)
      then TokenRegistry.MigrateToVer2 (app_registry a) = (app_registry a', Ok tt)
      else app_registry a' = app_registry a).
Proof.
  intros Ha Hrec Hr. unfold UpgradeHandler in Hr.
  run_step Hr as [] a1 E1. apply (on_sdk_step _ _ _ connection_SetDefaultParams_spares) in E1.
  lift_step Hr as infl _. run_step Hr as [] a2 E2. apply (on_sdk_step _ _ _ (SetMinter_spares _)) in E2.
  get_step Hr. lift_step Hr as max _. lift_step Hr as min _. run_step Hr as [] a3 E3.
  apply (on_sdk_step _ _ _ (mint_SetParams_spares _)) in E3.
  apply RunMigrations_ok in Hr as (-> & order & Hp & (b1 & b2 & Hs1 & Hm & Hs2)%(migrations_split _ _ _ _ Hp Hrec)).
  assert (sdk_step a b1) as Hs by (etrans; [exact E1|]; etrans; [exact E2|]; by etrans).
  apply documented_migration_registry in Hm; [|apply (Hrec registry_module); destruct mm_registry_once as (? & -> & _); set_solver].
  pose proof (sdk_step_reachable _ _ _ Ha Hs) as Hb1. destruct Hs as [_ Hreg Hc Ho Hbr Hd].
  destruct (decide _).
  - pose proof (reach_upgrade _ _ _ Hb1 Hm) as Hb2. apply migrate_registry_stores in Hm as (Hm & ? & ? & ? & ?).
    split; [by eapply sdk_step_reachable|]. destruct Hs2 as [_ Hreg' ? ? ? ?]. rewrite Hreg in Hm. rewrite Hreg'. split_and!; congruence.
  - subst b2. split; [by eapply sdk_step_reachable|]. destruct Hs2. split_and!; congruence.
Qed.

(** A plan of another name has no handler; a binary that an upgrade started installs the store
    loader at the height of the plan, unless that height is to be skipped. *)
Theorem setup_handlers info skip s name :
  SetupHandlers (B := B) (S := S) (T := T) (P := P) info skip = Ok s ->
  (is_Some (upgradeHandlers s name) <-> name = releaseVersion)
  /\ exists i, info = Ok i /\ forall h, storeLoader s = Some h <-> Ui_Name i = releaseVersion /\ skip h = false /\ h = Ui_Height i.
Proof.
  intros (i & Hi & [= <-])%rbind_ok_inv. apply panicOnErr_ok_inv in Hi. cbn [upgradeHandlers storeLoader]. split.
  - destruct (String.eqb_spec name releaseVersion); split; first [done|by eauto|by intros [? ?]].
  - exists i. split; [done|]. intros h. destruct (String.eqb_spec (Ui_Name i) releaseVersion), (skip (Ui_Height i)) eqn:Hs; cbn;
      (split; [intros [=]|intros (? & ? & ?)]); subst; try done; congruence.
Qed.
End Lemmas.

(** ** Examples *)

Section Examples.
#[local] Existing Instances RefMath RefCoins RefAddress RefQuery RefBank EthBridge.RefEth EthBridge.RefIntText Oracle.RefOrder
  Dispensation.RefGogoTypes IbcTransfer.RefIbcTypes IbcTransfer.RefTransferKeeper EthBridge.ex_accounts Oracle.ex_staking
  RefSdkGenesis RefModuleAccounts.
#[local] Existing Instances RefMath_laws RefCoins_laws RefAddress_laws RefAddress_text RefAccounts_distinct RefQuery_laws
  RefBank_laws RefBank_valid EthBridge.RefEth_laws EthBridge.RefIntText_laws Oracle.RefOrder_laws Oracle.ex_staking_laws
  RefTransferKeeper_laws RefSdkGenesis_laws RefModuleAccounts_laws.

Abbreviation ExApp := (App RefB unit unit).
Abbreviation ex_reachable := (reachable (G := RefB * unit * unit) (B := RefB) (S := unit) (V := Oracle.ExValidator) (T := unit)).

(** A manager that goes through the modules in the order of their list. *)
Definition RefManager : ModuleManager := {|
  RunMigrations St mods vm :=
    run! mfor mods (documented_migration vm); mret (list_to_map ((fun m => (Am_Name m, ConsensusVersion m)) <$> mods));
  mm_GetVersionMap St mods := list_to_map ((fun m => (Am_Name m, ConsensusVersion m)) <$> mods);
|}.
#[local] Existing Instance RefManager.
Lemma RefManager_laws : ModuleManagerLaws.
Proof.
  split.
  - intros St mods vm vm' s s' ([] & s1 & Hr & [= <- <-])%mbnd_ok_inv. split; [done|]. by exists mods.
  - intros St mods m Hm Hnd. apply elem_of_list_to_map.
    + by rewrite <- list_fmap_compose.
    + apply list_elem_of_fmap. by exists m.
Qed.
#[local] Existing Instance RefManager_laws.

(** Modules of the SDK without migrations; the parameters of the mint are a maximum and a minimum. *)
Definition RefUpgradeServices : UpgradeServices (RefB * unit * unit) (Z * Z) := {|
  sdk_ConsensusVersion _ := 2;
  sdk_Migrations _ _ := Some (mret tt);
  sdk_InitDefault _ := mret tt;
  connection_SetDefaultParams := mret tt;
  SetMinter _ := mret tt;
  mint_GetParams _ := (0, 0);
  with_InflationMax z p := (z, p.2);
  with_InflationMin z p := (p.1, z);
  mint_SetParams p := mfail_if (p.1 <? p.2) (PlainErr "max inflation must be greater than or equal to min inflation");
  SetModuleVersionMap _ := mret tt;
|}.
#[local] Existing Instance RefUpgradeServices.
Lemma RefUpgradeServices_laws : UpgradeServicesLaws RefB unit unit (Z * Z).
Proof.
  split.
  - by intros name v m x x' [= <-] [= <-].
  - by intros x x' [= <-].
  - by intros minter x x' [= <-].
  - by intros p x x' [_ ->]%mfail_if_ok_inv.
Qed.
#[local] Existing Instance RefUpgradeServices_laws.

(** Every module at version 1. *)
Definition ex_versions : VersionMap := list_to_map ((fun m : AppModule ExApp => (Am_Name m, 1)) <$> mm).
Definition ex_upgraded : ExApp := (UpgradeHandler ex_versions (ex_after ex_run)).1.
Lemma ex_recorded (m : AppModule ExApp) : m ∈ mm -> is_Some (ex_versions !! Am_Name m).
Proof.
  intros Hm. exists 1. apply elem_of_list_to_map.
  - rewrite <- list_fmap_compose. apply (bool_decide_unpack _). by vm_compute.
  - apply list_elem_of_fmap. by exists m.
Qed.
Lemma ex_upgrade_ends : exists vm', UpgradeHandler ex_versions (ex_after ex_run) = (ex_upgraded, Ok vm').
Proof.
  assert (is_ok (UpgradeHandler ex_versions (ex_after ex_run)).2 = true) as (vm' & Hr)%is_ok_true by by vm_compute.
  exists vm'. by apply (run_ok (UpgradeHandler ex_versions)).
Qed.

Lemma upgrade_reachable_witness :
  ex_reachable ex_upgraded (ex_dust ex_run) /\ app_clp ex_upgraded = app_clp (ex_after ex_run)
  /\ TokenRegistry.MigrateToVer2 (app_registry (ex_after ex_run)) = (app_registry ex_upgraded, Ok tt).
Proof.
  destruct ex_upgrade_ends as (vm' & He).
  destruct (upgrade_reachable ex_versions _ _ _ _ ex_run_reachable ex_recorded He) as (Hr & _ & Hc & _ & _ & _ & Hm).
  split; [exact Hr|]. split; [exact Hc|]. rewrite decide_True in Hm by (by vm_compute). exact Hm.
Defined.
End Examples.
End AppUpgrade.
