(* ===== verification/Queriers.v ===== *)
(** * The legacy queries and their clients

    keeper/querier.go of the four modules that answer legacy queries: text in amino JSON in,
    text out, on top of the gRPC queries.  Their clients: the GET routes of
    x/clp/client/rest/query.go and x/tokenregistry/client/rest/rest.go, and the query commands
    in client/cli/query.go of x/dispensation, x/clp and x/ethbridge.

    The JSON codec, the connection to a node and the flags of a command are parameters. *)

From Stdlib Require Import ZArith Lia Ascii String.
From stdpp Require Import base list gmap strings.
From S2P Require Import Prelude SdkMath Sdk Frames TokenRegistry ClpTypes ClpCalc ClpKeeper ClpMsgServer ClpGenesis Oracle OracleGenesis EthBridge Dispensation IbcTransfer AppFrames App.

Module Queriers.
Import App.
#[local] Existing Instance TokenRegistry.Keeper.

(** ** Requests and answers *)

Record PoolReq := mkPoolReq { PoolReq_Symbol : string }.
Record PoolsReq := mkPoolsReq { PoolsReq_Pagination : option PageRequest }.
Record LiquidityProviderReq := mkLiquidityProviderReq { LPReq_Symbol : string; LPReq_LpAddress : string }.
Record LiquidityProviderDataReq := mkLiquidityProviderDataReq {
  LPDataReq_LpAddress : string; LPDataReq_Pagination : option PageRequest }.
Record AssetListReq := mkAssetListReq { AssetListReq_LpAddress : string; AssetListReq_Pagination : option PageRequest }.
Record LiquidityProviderListReq := mkLiquidityProviderListReq {
  LPListReq_Symbol : string; LPListReq_Pagination : option PageRequest }.
Record LiquidityProvidersReq := mkLiquidityProvidersReq { LPsReq_Pagination : option PageRequest }.

Record QueryEthProphecyRequest := mkQueryEthProphecyRequest {
  EthReq_ChainId : Z;
  EthReq_BridgeContract : string;
  EthReq_Nonce : Z;
  EthReq_Symbol : string;
  EthReq_TokenContract : string;
  EthReq_Sender : string;
}.

Record QueryRecordsByDistributionNameRequest := mkQueryRecordsByDistributionNameRequest {
  RecordsReq_Name : string; RecordsReq_Status : Dispensation.DistributionStatus }.
Record QueryRecordsByRecipientAddrRequest := mkQueryRecordsByRecipientAddrRequest { RecipientReq_Address : string }.
Record QueryClaimsByTypeRequest := mkQueryClaimsByTypeRequest { ClaimsReq_Type : Dispensation.DistributionType }.

Record DistributionRecords := mkDistributionRecords { Records_List : list Dispensation.DistributionRecord }.
Record Distributions := mkDistributions { Distributions_List : list Dispensation.Distribution }.
Record QueryAllDistributionsResponse := mkQueryAllDistributionsResponse {
  AllRes_Distributions : list Dispensation.Distribution; AllRes_Height : Z }.
Record QueryClaimsResponse := mkQueryClaimsResponse {
  ClaimsRes_Claims : list Dispensation.UserClaim; ClaimsRes_Height : Z }.
Record QueryRecordsByDistributionNameResponse := mkQueryRecordsByDistributionNameResponse {
  NameRes_Records : DistributionRecords; NameRes_Height : Z }.
Record QueryRecordsByRecipientAddrResponse := mkQueryRecordsByRecipientAddrResponse {
  RecipientRes_Records : DistributionRecords; RecipientRes_Height : Z }.

Abbreviation PoolRes := (Pool * Z * string)%type.
Abbreviation PoolsRes := (list Pool * Z * string * PageResponse)%type.
Abbreviation LiquidityProvidersRes := (list LiquidityProvider * Z * PageResponse)%type.
Abbreviation EthProphecyRes := (string * Oracle.Status * list EthBridge.EthBridgeClaim)%type.

(** ** Amino JSON *)

(** The codec of a type; [json_text] says that the strings of a value are valid UTF-8. *)
Class JsonCodec (T : Type) := {
  MarshalJSON : T -> res string;
  MarshalJSONIndent : T -> res string;
  UnmarshalJSON : string -> res T;
  json_text : T -> Prop;
}.
(** Both spellings of such a value read back. *)
Class JsonCodecLaws (T : Type) `{!JsonCodec T} : Prop := {
  json_roundtrip (x : T) : json_text x -> exists t, MarshalJSON x = Ok t /\ UnmarshalJSON t = Ok x;
  json_indent_roundtrip (x : T) : json_text x -> exists t, MarshalJSONIndent x = Ok t /\ UnmarshalJSON t = Ok x;
}.

Class JsonTypes := {
  json_PoolReq :: JsonCodec PoolReq;
  json_PoolsReq :: JsonCodec PoolsReq;
  json_LiquidityProviderReq :: JsonCodec LiquidityProviderReq;
  json_LiquidityProviderDataReq :: JsonCodec LiquidityProviderDataReq;
  json_AssetListReq :: JsonCodec AssetListReq;
  json_LiquidityProviderListReq :: JsonCodec LiquidityProviderListReq;
  json_QueryEthProphecyRequest :: JsonCodec QueryEthProphecyRequest;
  json_QueryBlacklistRequest :: JsonCodec unit;
  json_NameRequest :: JsonCodec QueryRecordsByDistributionNameRequest;
  json_RecipientRequest :: JsonCodec QueryRecordsByRecipientAddrRequest;
  json_ClaimsRequest :: JsonCodec QueryClaimsByTypeRequest;
  json_PoolRes :: JsonCodec PoolRes;
  json_PoolsRes :: JsonCodec PoolsRes;
  json_LiquidityProviderRes :: JsonCodec LiquidityProviderRes;
  json_LiquidityProviderDataRes :: JsonCodec (list LiquidityProviderData * Z);
  json_Assets :: JsonCodec (list Asset);
  json_LiquidityProviders :: JsonCodec (list LiquidityProvider);
  json_EthProphecyRes :: JsonCodec EthProphecyRes;
  json_BlacklistRes :: JsonCodec (list string);
  json_AllDistributions :: JsonCodec QueryAllDistributionsResponse;
  json_Distributions :: JsonCodec Distributions;
  json_Claims :: JsonCodec QueryClaimsResponse;
  json_Records :: JsonCodec DistributionRecords;
  json_Entries :: JsonCodec (option TokenRegistry.Registry);
}.

(** A member that the receiving type does not have is ignored: the answer to the
    distributions query reads back as the distributions in it. *)
Class JsonTypesLaws `{JsonTypes} : Prop := {
  json_PoolReq_laws :: JsonCodecLaws PoolReq;
  json_PoolsReq_laws :: JsonCodecLaws PoolsReq;
  json_LiquidityProviderReq_laws :: JsonCodecLaws LiquidityProviderReq;
  json_AssetListReq_laws :: JsonCodecLaws AssetListReq;
  json_LiquidityProviderListReq_laws :: JsonCodecLaws LiquidityProviderListReq;
  json_NameRequest_laws :: JsonCodecLaws QueryRecordsByDistributionNameRequest;
  json_RecipientRequest_laws :: JsonCodecLaws QueryRecordsByRecipientAddrRequest;
  json_ClaimsRequest_laws :: JsonCodecLaws QueryClaimsByTypeRequest;
  json_PoolRes_laws :: JsonCodecLaws PoolRes;
  json_PoolsRes_laws :: JsonCodecLaws PoolsRes;
  json_LiquidityProviderRes_laws :: JsonCodecLaws LiquidityProviderRes;
  json_Assets_laws :: JsonCodecLaws (list Asset);
  json_LiquidityProviders_laws :: JsonCodecLaws (list LiquidityProvider);
  json_Claims_laws :: JsonCodecLaws QueryClaimsResponse;
  json_Records_laws :: JsonCodecLaws DistributionRecords;
  json_Entries_laws :: JsonCodecLaws (option TokenRegistry.Registry);
  json_all_distributions (r : QueryAllDistributionsResponse) : json_text r ->
    exists t, MarshalJSON r = Ok t /\ UnmarshalJSON t = Ok (mkDistributions (AllRes_Distributions r));
}.

Definition ErrUnknownRequest : GoError := RegisteredErr "sdk" 6.
Definition ErrJSONMarshal : GoError := RegisteredErr "sdk" 16.
Definition ErrJSONUnmarshal : GoError := RegisteredErr "sdk" 17.

(** A legacy querier takes the rest of the path and the data of the request. *)
Abbreviation LegacyQuerier := (list string -> string -> res string).

(** ** The queriers *)

Section Server.
Context {B S V T : Type} `{SdkMath, SdkCoins, SdkAddress, SdkQuery, EthBridge.EthCommon, EthBridge.IntText, Dispensation.GogoTypes,
  !BankKeeper B, !EthBridge.AccountKeeper B, !Oracle.StakingKeeper S V, !Oracle.MapOrder, !JsonTypes}.
#[local] Existing Instance oracle_keeper.
(** The block height of the query's context and the committed state. *)
Variable height : Z.
Variable a : App B S T.

(** *** x/clp *)

Definition queryPool (data : string) : res string :=
  let! params := rwrap ErrJSONUnmarshal (UnmarshalJSON (T := PoolReq) data) in
  let! res := query_GetPool (PoolReq_Symbol params) height (clp_view a) in
  rwrap ErrJSONMarshal (MarshalJSON res).

(** The request is not looked at. *)
Definition queryPools (data : string) : res string :=
  let! res := query_GetPools None height (clp_view a) in
  rwrap ErrJSONMarshal (MarshalJSONIndent res).

Definition queryLiquidityProvider (data : string) : res string :=
  let! params := rwrap ErrJSONUnmarshal (UnmarshalJSON (T := LiquidityProviderReq) data) in
  let! res := query_GetLiquidityProvider (LPReq_Symbol params) (LPReq_LpAddress params) height (clp_view a) in
  rwrap ErrJSONMarshal (MarshalJSONIndent res).

Definition queryLiquidityProviderData (data : string) : res string :=
  let! params := rwrap ErrJSONUnmarshal (UnmarshalJSON (T := LiquidityProviderDataReq) data) in
  let! res := query_GetLiquidityProviderData (LPDataReq_LpAddress params) (LPDataReq_Pagination params) height (clp_view a) in
  rwrap ErrJSONMarshal (MarshalJSONIndent res).

Definition queryAssetList (data : string) : res string :=
  let! params := rwrap ErrJSONUnmarshal (UnmarshalJSON (T := AssetListReq) data) in
  let! assets := query_GetAssetList (AssetListReq_LpAddress params) (AssetListReq_Pagination params) (clp_view a) in
  rwrap ErrJSONMarshal (MarshalJSONIndent assets).

Definition queryLPList (data : string) : res string :=
  let! params := rwrap ErrJSONUnmarshal (UnmarshalJSON (T := LiquidityProviderListReq) data) in
  let! '(lps, _, _) := query_GetLiquidityProviderList (LPListReq_Symbol params) (LPListReq_Pagination params) height (clp_view a) in
  rwrap ErrJSONMarshal (MarshalJSONIndent lps).

(** The request is not looked at. *)
Definition queryAllLP (data : string) : res string :=
  let! '(lps, _, _) := query_GetLiquidityProviders None height (clp_view a) in
  rwrap ErrJSONMarshal (MarshalJSONIndent lps).

Definition clp_NewQuerier : LegacyQuerier := fun path data =>
  match path with
  | [] => Panic
  | endpoint :: _ =>
      if String.eqb endpoint "pool" then queryPool data
      else if String.eqb endpoint "allpools" then queryPools data
      else if String.eqb endpoint "liquidityProvider" then queryLiquidityProvider data
      else if String.eqb endpoint "liquidityProviderData" then queryLiquidityProviderData data
      else if String.eqb endpoint "assetList" then queryAssetList data
      else if String.eqb endpoint "lpList" then queryLPList data
      else if String.eqb endpoint "allLp" then queryAllLP data
      else Err ErrUnknownRequest
  end.

(** *** x/ethbridge *)

Definition legacyQueryEthProphecy (data : string) : res string :=
  let! req := rwrap EthBridge.ErrJSONMarshalling (UnmarshalJSON (T := QueryEthProphecyRequest) data) in
  let! response := EthBridge.EthProphecy (EthReq_ChainId req) (EthReq_BridgeContract req) (EthReq_Nonce req) (EthReq_Symbol req)
                     (EthReq_TokenContract req) (EthReq_Sender req) (bridge_view a) in
  MarshalJSONIndent response.

Definition legacyQueryBlacklist (data : string) : res string :=
  let! req := rwrap EthBridge.ErrJSONMarshalling (UnmarshalJSON (T := unit) data) in
  let! response := EthBridge.GetBlacklist_query (bridge_view a) in
  MarshalJSONIndent response.

Definition bridge_NewLegacyQuerier : LegacyQuerier := fun path data =>
  match path with
  | [] => Panic
  | endpoint :: _ =>
      if String.eqb endpoint "prophecies" then legacyQueryEthProphecy data
      else if String.eqb endpoint "blacklist" then legacyQueryBlacklist data
      else Err ErrUnknownRequest
  end.

(** *** x/dispensation *)

Definition queryAllDistributions : res string :=
  let! list := Dispensation.AllDistributions (disp_view a) in
  MarshalJSON (mkQueryAllDistributionsResponse list 0).

(** The three queries below cannot return an error. *)
Definition queryDistributionRecordsForName (data : string) : res string :=
  let! params := rwrap ErrJSONUnmarshal (UnmarshalJSON (T := QueryRecordsByDistributionNameRequest) data) in
  let! records := Dispensation.RecordsByDistributionName (RecordsReq_Name params) (RecordsReq_Status params) (disp_view a) in
  rwrap ErrJSONMarshal (MarshalJSON (mkDistributionRecords records)).

Definition queryDistributionRecordsForRecipient (data : string) : res string :=
  let! params := rwrap ErrJSONUnmarshal (UnmarshalJSON (T := QueryRecordsByRecipientAddrRequest) data) in
  let! records := Dispensation.RecordsByRecipient (RecipientReq_Address params) (disp_view a) in
  rwrap ErrJSONMarshal (MarshalJSON (mkDistributionRecords records)).

Definition queryClaimsByType (data : string) : res string :=
  let! params := rwrap ErrJSONUnmarshal (UnmarshalJSON (T := QueryClaimsByTypeRequest) data) in
  let! claims := Dispensation.ClaimsByType (ClaimsReq_Type params) (disp_view a) in
  rwrap ErrJSONMarshal (MarshalJSON (mkQueryClaimsResponse claims 0)).

Definition disp_NewLegacyQuerier : LegacyQuerier := fun path data =>
  match path with
  | [] => Panic
  | endpoint :: _ =>
      if String.eqb endpoint "distributions" then queryAllDistributions
      else if String.eqb endpoint "records_by_name" then queryDistributionRecordsForName data
      else if String.eqb endpoint "records_by_recipient" then queryDistributionRecordsForRecipient data
      else if String.eqb endpoint "claims_by_type" then queryClaimsByType data
      else Err ErrUnknownRequest
  end.

(** *** x/tokenregistry *)

Definition queryDenoms : res string :=
  let! res := TokenRegistry.Entries_query (app_registry a) in
  MarshalJSON res.

Definition registry_NewLegacyQuerier : LegacyQuerier := fun path data =>
  match path with
  | [] => Panic
  | endpoint :: _ => if String.eqb endpoint "entries" then queryDenoms else Err ErrUnknownRequest
  end.

(** *** The routes *)

(** [QuerierRoute] and [LegacyQuerierHandler] of each module of the chain: x/oracle has none. *)
Definition LegacyQuerierHandler (route : string) : option LegacyQuerier :=
  if String.eqb route ClpTypes.ModuleName then Some clp_NewQuerier
  else if String.eqb route EthBridge.ModuleName then Some bridge_NewLegacyQuerier
  else if String.eqb route Dispensation.ModuleName then Some disp_NewLegacyQuerier
  else if String.eqb route "tokenregistry" then Some registry_NewLegacyQuerier
  else None.
End Server.

(** ** The clients *)

(** The connection of a client: the route and the data of a legacy query; the answer comes
    with the height it was read at. *)
Class QueryConn := { QueryWithData : string -> string -> res (string * Z) }.

(** The services [types.QueryClient] of a gRPC connection that the commands call. *)
Class QueryClients := {
  qc_GetPool : PoolReq -> res PoolRes;
  qc_GetPools : PoolsReq -> res PoolsRes;
  qc_GetLiquidityProvider : LiquidityProviderReq -> res LiquidityProviderRes;
  qc_GetAssetList : AssetListReq -> res (list Asset);
  qc_GetLiquidityProviderList : LiquidityProviderListReq -> res LiquidityProvidersRes;
  qc_GetLiquidityProviders : LiquidityProvidersReq -> res LiquidityProvidersRes;
  qc_EthProphecy : QueryEthProphecyRequest -> res EthProphecyRes;
  qc_GetBlacklist : res (list string);
  qc_Entries : res (option TokenRegistry.Registry);
}.

(** What the SDK makes of the command line: the contexts and the page request. *)
Class CommandContext := {
  GetClientQueryContext : res unit;
  GetClientTxContext : res unit;
  ReadPersistentCommandFlags : res unit;
  ReadPageRequest : res PageRequest;
}.

(** The flags of a command: each has a type, the getter of that type its value. *)
Class FlagSet (F : Type) := {
  flag_type : F -> string -> option string;
  flag_String : string -> F -> F;
  GetInt64 : F -> string -> res Z;
  GetString : F -> string -> res string;
  GetBool : F -> string -> res bool;
}.
(** Declaring a text flag gives it that type, and only the getter of its type returns a value. *)
Class FlagSetLaws (F : Type) `{!FlagSet F} : Prop := {
  flag_String_type name fs n : flag_type (flag_String name fs) n = if String.eqb n name then Some "string" else flag_type fs n;
  GetInt64_type fs name z : GetInt64 fs name = Ok z -> flag_type fs name = Some "int64";
}.

(** What an HTTP handler writes: nothing at all (an empty answer with status 200), an error
    with its status, or a result with the height. *)
Inductive Reply (T : Type) :=
| Silent
| ErrorReply (status : Z)
| DataReply (height : Z) (result : T).
Arguments Silent {_}.
Arguments ErrorReply {_} _.
Arguments DataReply {_} _ _.

Definition StatusBadRequest : Z := 400.
Definition StatusNotFound : Z := 404.
Definition StatusInternalServerError : Z := 500.

(** A GET request: its query parameters, empty when absent, and whether
    [ParseQueryHeightOrReturnBadRequest] accepts its height. *)
Record HttpGet := mkHttpGet { url_query : string -> string; height_ok : bool }.

Definition ErrUsage : GoError := PlainErr "accepts a different number of arguments".
(** [cobra.ExactArgs n] and [args[i]]. *)
Definition ExactArgs (n : nat) (args : list string) : res unit := fail_if (negb (length args =? n)%nat) ErrUsage.
Definition arg (args : list string) (i : nat) : res string :=
  match args !! i with Some s => Ok s | None => Panic end.

Definition FlagEthereumChainID : string := "ethereum-chain-id".
Definition FlagTokenContractAddr : string := "token-contract-address".

Section Client.
Context {F : Type} `{SdkAddress, EthBridge.EthCommon, !JsonTypes, !QueryConn, !QueryClients, !CommandContext, !FlagSet F}.

Definition NewQueryEthProphecyRequest (ethereumChainID : Z) (bridgeContractAddress : string) (nonce : Z) (symbol : string)
    (tokenContractAddress ethereumSender : string) : QueryEthProphecyRequest :=
  mkQueryEthProphecyRequest ethereumChainID (EthBridge.EthereumAddress_String bridgeContractAddress) nonce symbol
    (EthBridge.EthereumAddress_String tokenContractAddress) (EthBridge.EthereumAddress_String ethereumSender).

(** *** REST *)

(** An error on the way is answered with a status. *)
Definition or_error {A T} (status : Z) (m : res A) (k : A -> res (Reply T)) : res (Reply T) :=
  match m with Ok x => k x | Err _ => Ok (ErrorReply status) | Panic => Panic end.

Definition clp_route (endpoint : string) : string := "custom/" +:+ ClpTypes.ModuleName +:+ "/" +:+ endpoint.

Definition getPoolHandler (r : HttpGet) : res (Reply string) :=
  if negb (height_ok r) then Ok (ErrorReply StatusBadRequest)
  else
    let params := mkPoolReq (url_query r "symbol") in
    or_error StatusBadRequest (MarshalJSON params) (fun bz =>
    or_error StatusInternalServerError (QueryWithData (clp_route "pool") bz) (fun '(res, height) =>
    Ok (DataReply height res))).

(** An address that does not decode is answered with nothing. *)
Definition getLiquidityProviderHandler (r : HttpGet) : res (Reply string) :=
  if negb (height_ok r) then Ok (ErrorReply StatusBadRequest)
  else match AccAddressFromBech32 (url_query r "lpAddress") with
       | Panic => Panic
       | Err _ => Ok Silent
       | Ok lpAddess =>
           let params := mkLiquidityProviderReq (url_query r "symbol") (AccAddress_String lpAddess) in
           or_error StatusBadRequest (MarshalJSON params) (fun bz =>
           or_error StatusInternalServerError (QueryWithData (clp_route "liquidityProvider") bz) (fun '(res, height) =>
           Ok (DataReply height res)))
       end.

(** A number in the URL; an absent one is zero. *)
Definition url_uint (r : HttpGet) (name : string) : res Z :=
  if String.eqb (url_query r name) "" then Ok 0 else ParseUint (url_query r name).

Definition getPoolsHandler (r : HttpGet) : res (Reply string) :=
  if negb (height_ok r) then Ok (ErrorReply StatusBadRequest)
  else
    or_error StatusBadRequest (url_uint r "limit") (fun limit =>
    or_error StatusBadRequest (url_uint r "offset") (fun offset =>
    let params := mkPoolsReq (Some (mkPageRequest "" offset limit)) in
    or_error StatusInternalServerError (MarshalJSON params) (fun bz =>
    or_error StatusInternalServerError (QueryWithData (clp_route "allpools") bz) (fun '(res, height) =>
    Ok (DataReply height res))))).

Definition getAssetsHandler (r : HttpGet) : res (Reply string) :=
  if negb (height_ok r) then Ok (ErrorReply StatusBadRequest)
  else
    or_error StatusBadRequest (url_uint r "limit") (fun limit =>
    or_error StatusBadRequest (url_uint r "offset") (fun offset =>
    match AccAddressFromBech32 (url_query r "lpAddress") with
    | Panic => Panic
    | Err _ => Ok Silent
    | Ok lpAddress =>
        let params := mkAssetListReq (AccAddress_String lpAddress) (Some (mkPageRequest "" offset limit)) in
        or_error StatusBadRequest (MarshalJSON params) (fun bz =>
        or_error StatusInternalServerError (QueryWithData (clp_route "assetList") bz) (fun '(res, height) =>
        Ok (DataReply height res)))
    end)).

Definition getLpListHandler (r : HttpGet) : res (Reply string) :=
  if negb (height_ok r) then Ok (ErrorReply StatusBadRequest)
  else
    or_error StatusBadRequest (url_uint r "limit") (fun limit =>
    or_error StatusBadRequest (url_uint r "offset") (fun offset =>
    let params := mkLiquidityProviderListReq (url_query r "symbol") (Some (mkPageRequest "" offset limit)) in
    or_error StatusBadRequest (MarshalJSON params) (fun bz =>
    or_error StatusInternalServerError (QueryWithData (clp_route "lpList") bz) (fun '(res, height) =>
    Ok (DataReply height res))))).

Definition getTokenRegistryHandler (r : HttpGet) : res (Reply (option TokenRegistry.Registry)) :=
  if negb (height_ok r) then Ok (ErrorReply StatusBadRequest)
  else
    or_error StatusBadRequest (QueryWithData "custom/tokenregistry/entries" "") (fun '(bz, height) =>
    or_error StatusBadRequest (UnmarshalJSON bz) (fun res =>
    Ok (DataReply height res))).

(** x/ethbridge: the variables of the path; the height of the answer is not passed on. *)
Definition getProphecyHandler (vars : string -> string) : res (Reply string) :=
  or_error StatusInternalServerError (Atoi (vars "ethereumChainID")) (fun ethereumChainID =>
  let bridgeContract := EthBridge.NewEthereumAddress (vars "bridgeContract") in
  or_error StatusInternalServerError (Atoi (vars "nonce")) (fun nonce =>
  let tokenContract := EthBridge.NewEthereumAddress (vars "tokenContract") in
  let symbol := vars "symbol" in
  if String.eqb (TrimSpace symbol) "" then Ok (ErrorReply StatusInternalServerError)
  else
    let ethereumSender := EthBridge.NewEthereumAddress (vars "ethereumSender") in
    or_error StatusNotFound (MarshalJSON (NewQueryEthProphecyRequest ethereumChainID bridgeContract nonce symbol tokenContract ethereumSender))
      (fun bz =>
    or_error StatusNotFound (QueryWithData ("custom/" +:+ EthBridge.ModuleName +:+ "/prophecies") bz) (fun '(res, _) =>
    Ok (DataReply 0 res))))).

(** The five GET routes of x/clp and the one of x/tokenregistry. *)
Definition serve_get (path : string) : option (HttpGet -> res (Reply string)) :=
  if String.eqb path "/clp/getPool" then Some getPoolHandler
  else if String.eqb path "/clp/getPools" then Some getPoolsHandler
  else if String.eqb path "/clp/getLiquidityProvider" then Some getLiquidityProviderHandler
  else if String.eqb path "/clp/getAssets" then Some getAssetsHandler
  else if String.eqb path "/clp/getLpList" then Some getLpListHandler
  else None.

(** *** Query commands of x/clp; the result is what they print *)

Definition GetCmdPool (args : list string) : res PoolRes :=
  let! _ := ExactArgs 1 args in
  let! _ := GetClientQueryContext in
  let! ticker := arg args 0 in
  qc_GetPool (mkPoolReq ticker).

Definition GetCmdPools (args : list string) : res PoolsRes :=
  let! _ := ExactArgs 0 args in
  let! _ := GetClientQueryContext in
  let! pageReq := ReadPageRequest in
  qc_GetPools (mkPoolsReq (Some pageReq)).

(** One argument is accepted and the second one is read. *)
Definition GetCmdAssets (args : list string) : res (list Asset) :=
  let! _ := ExactArgs 1 args in
  let! _ := GetClientQueryContext in
  let! lpAddress := arg args 1 in
  qc_GetAssetList (mkAssetListReq lpAddress None).

Definition GetCmdLiquidityProvider (args : list string) : res LiquidityProviderRes :=
  let! _ := ExactArgs 2 args in
  let! _ := GetClientQueryContext in
  let! symbol := arg args 0 in
  let! lpAddress := arg args 1 in
  qc_GetLiquidityProvider (mkLiquidityProviderReq symbol lpAddress).

Definition GetCmdLpList (args : list string) : res LiquidityProvidersRes :=
  let! _ := ExactArgs 1 args in
  let! _ := GetClientQueryContext in
  let! assetSymbol := arg args 0 in
  let! pageReq := ReadPageRequest in
  qc_GetLiquidityProviderList (mkLiquidityProviderListReq assetSymbol (Some pageReq)).

Definition GetCmdAllLps (args : list string) : res LiquidityProvidersRes :=
  let! _ := ExactArgs 0 args in
  let! _ := GetClientQueryContext in
  let! pageReq := ReadPageRequest in
  qc_GetLiquidityProviders (mkLiquidityProvidersReq (Some pageReq)).

(** *** Query commands of x/dispensation, over the legacy queries *)

Definition disp_route (endpoint : string) : string := "custom/" +:+ Dispensation.ModuleName +:+ "/" +:+ endpoint.

Definition GetCmdDistributions (args : list string) : res QueryAllDistributionsResponse :=
  let! _ := ExactArgs 0 args in
  let! _ := GetClientQueryContext in
  let! '(res, height) := QueryWithData (disp_route "distributions") "" in
  let! dr := panicOnErr (UnmarshalJSON (T := Distributions) res) in
  Ok (mkQueryAllDistributionsResponse (Distributions_List dr) height).

Definition GetCmdDistributionRecordForRecipient (args : list string) : res QueryRecordsByRecipientAddrResponse :=
  let! _ := ExactArgs 1 args in
  let! _ := GetClientQueryContext in
  let! address := arg args 0 in
  let! recipientAddress := AccAddressFromBech32 address in
  let! bz := MarshalJSON (mkQueryRecordsByRecipientAddrRequest (AccAddress_String recipientAddress)) in
  let! '(res, height) := QueryWithData (disp_route "records_by_recipient") bz in
  let! drs := panicOnErr (UnmarshalJSON (T := DistributionRecords) res) in
  Ok (mkQueryRecordsByRecipientAddrResponse drs height).

Definition ErrInvalidStatus : GoError := PlainErr "invalid Status: Status supported [Completed/Pending/Failed]".
Definition ErrInvalidClaimType : GoError := PlainErr "invalid Claim Type: Types supported [LiquidityMining/ValidatorSubsidy]".

Definition GetCmdDistributionRecordForDistName (args : list string) : res QueryRecordsByDistributionNameResponse :=
  let! _ := ExactArgs 2 args in
  let! _ := GetClientQueryContext in
  let! name := arg args 0 in
  let! text := arg args 1 in
  let '(status, ok) := Dispensation.GetDistributionStatus text in
  let! _ := fail_if (negb ok) ErrInvalidStatus in
  let! bz := MarshalJSON (mkQueryRecordsByDistributionNameRequest name status) in
  let! '(res, height) := QueryWithData (disp_route "records_by_name") bz in
  let! drs := panicOnErr (UnmarshalJSON (T := DistributionRecords) res) in
  Ok (mkQueryRecordsByDistributionNameResponse drs height).

Definition GetCmdClaimsByType (args : list string) : res QueryClaimsResponse :=
  let! _ := ExactArgs 1 args in
  let! _ := GetClientQueryContext in
  let! text := arg args 0 in
  let '(claimType, ok) := Dispensation.GetClaimType text in
  let! _ := fail_if (negb ok) ErrInvalidClaimType in
  let! bz := MarshalJSON (mkQueryClaimsByTypeRequest claimType) in
  let! '(res, height) := QueryWithData (disp_route "claims_by_type") bz in
  let! out := panicOnErr (UnmarshalJSON (T := QueryClaimsResponse) res) in
  Ok (mkQueryClaimsResponse (ClaimsRes_Claims out) height).

(** *** Query commands of x/ethbridge and x/tokenregistry *)

(** The flags that the parent of the commands declares. *)
Definition GetQueryCmd_flags (fs : F) : F := flag_String FlagTokenContractAddr (flag_String FlagEthereumChainID fs).

Definition GetCmdGetEthBridgeProphecy (fs : F) (args : list string) : res EthProphecyRes :=
  let! _ := ExactArgs 4 args in
  let! _ := GetClientTxContext in
  let! ethereumChainID := GetInt64 fs FlagEthereumChainID in
  let! tokenContractString := GetString fs FlagTokenContractAddr in
  let tokenContract := EthBridge.NewEthereumAddress tokenContractString in
  let! contract := arg args 0 in
  let bridgeContract := EthBridge.NewEthereumAddress contract in
  let! text := arg args 1 in
  let! nonce := Atoi text in
  let! symbol := arg args 2 in
  let! sender := arg args 3 in
  let ethereumSender := EthBridge.NewEthereumAddress sender in
  qc_EthProphecy (NewQueryEthProphecyRequest ethereumChainID bridgeContract nonce symbol tokenContract ethereumSender).

Definition GetCmdGetBlacklist (args : list string) : res (list string) :=
  let! _ := ExactArgs 0 args in
  let! _ := GetClientTxContext in
  qc_GetBlacklist.

Definition GetCmdQueryEntries (args : list string) : res (option TokenRegistry.Registry) :=
  let! _ := ExactArgs 0 args in
  let! _ := GetClientQueryContext in
  qc_Entries.
End Client.

(** ** Lemmas *)

Section Lemmas.
Context {G B S V T F : Type} `{SdkMathLaws, SdkCoinsLaws, SdkAddressLaws, !AddressTextLaws, !ModuleAccountLaws, SdkQueryLaws,
  EthBridge.EthCommonLaws, EthBridge.IntTextLaws, Dispensation.GogoTypes, IbcTransfer.IbcTypes, !BankKeeper B, !BankLaws B,
  !BankValidLaws B, !EthBridge.AccountKeeper B, !Oracle.StakingKeeper S V, !Oracle.StakingLaws S V, Oracle.MapOrderLaws,
  !IbcTransfer.SDKTransferKeeper B T, !TransferKeeperLaws B T, !SdkGenesis G B S T, !SdkGenesisLaws G B S T,
  !ModuleAccountKeeper B, !ModuleAccountKeeperLaws B, JsonTypesLaws, !QueryConn, !QueryClients, !CommandContext, !FlagSet F, !FlagSetLaws F}.
Abbreviation App := (App B S T).
Implicit Types (a : App) (r : HttpGet).
#[local] Existing Instance oracle_keeper.

(** A command that reads [args[1]] after insisting on one argument never prints anything. *)
Theorem GetCmdAssets_never args : is_ok (GetCmdAssets args) = false.
Proof.
  unfold GetCmdAssets, ExactArgs, fail_if, arg. destruct args as [|x [|y args]]; [done| |done]. cbn.
  by destruct GetClientQueryContext.
Qed.

(** Nor does one that asks for the integer value of a flag declared as text: parsing the
    command line sets values and leaves the types. *)
Theorem GetCmdGetEthBridgeProphecy_never (fs fs0 : F) args :
  (forall name, flag_type fs name = flag_type (GetQueryCmd_flags fs0) name) ->
  is_ok (GetCmdGetEthBridgeProphecy fs args) = false.
Proof.
  intros Ht. specialize (Ht FlagEthereumChainID). unfold GetQueryCmd_flags in Ht. rewrite !flag_String_type in Ht. cbn in Ht.
  unfold GetCmdGetEthBridgeProphecy. destruct (ExactArgs 4 args) as [[]| |]; [|done..]. destruct GetClientTxContext as [[]| |]; [|done..].
  cbn [rbind]. destruct (GetInt64 fs FlagEthereumChainID) eqn:E; [|done..]. apply GetInt64_type in E. congruence.
Qed.

(** *** A node that serves a state *)

(** A command line or REST server connected to a node at height [h], whose answers carry the
    height [hq] of the query, gets what the module's querier answers.  What becomes of a
    panicking query is not said. *)
Definition serves (h hq : Z) (a : App) : Prop :=
  forall route endpoint data q,
    LegacyQuerierHandler h a route = Some q -> Contains endpoint "/" = false ->
    match q [endpoint] data with
    | Ok bz => QueryWithData ("custom/" +:+ route +:+ "/" +:+ endpoint) data = Ok (bz, hq)
    | Err _ => exists e, QueryWithData ("custom/" +:+ route +:+ "/" +:+ endpoint) data = Err e
    | Panic => True
    end.

Lemma or_error_ok {A X} st (x : A) (k : A -> res (Reply X)) m : m = Ok x -> or_error st m k = k x.
Proof. by intros ->. Qed.

Lemma dispensation_answers h hq a endpoint data bz :
  serves h hq a -> Contains endpoint "/" = false -> disp_NewLegacyQuerier a [endpoint] data = Ok bz ->
  QueryWithData (disp_route endpoint) data = Ok (bz, hq).
Proof.
  intros Hs He Hq. specialize (Hs Dispensation.ModuleName endpoint data (disp_NewLegacyQuerier a) eq_refl He).
  rewrite Hq in Hs. exact Hs.
Qed.

Lemma clp_answers h hq a endpoint data :
  serves h hq a -> Contains endpoint "/" = false ->
  match clp_NewQuerier h a [endpoint] data with
  | Ok bz => QueryWithData (clp_route endpoint) data = Ok (bz, hq)
  | Err _ => exists e, QueryWithData (clp_route endpoint) data = Err e
  | Panic => True
  end.
Proof. intros Hs He. exact (Hs ClpTypes.ModuleName endpoint data (clp_NewQuerier h a) eq_refl He). Qed.

(** *** What the dispensation queries list *)

(** A record is stored, under its own key. *)
Definition held (s : Dispensation.DispStore) (dr : Dispensation.DistributionRecord) : Prop :=
  Dispensation.d_records s !! Dispensation.key_of dr = Some dr.

(** A status has one prefix of keys; other statuses are kept among the completed ones. *)
Definition listed_under (st : Dispensation.DistributionStatus) (dr : Dispensation.DistributionRecord) : bool :=
  if st =? Dispensation.DISTRIBUTION_STATUS_COMPLETED
  then negb ((Dispensation.DR_Status dr =? Dispensation.DISTRIBUTION_STATUS_PENDING)
             || (Dispensation.DR_Status dr =? Dispensation.DISTRIBUTION_STATUS_FAILED))
  else Dispensation.DR_Status dr =? st.

Definition lists (l : list Dispensation.DistributionRecord) (a : App) (p : Dispensation.DistributionRecord -> bool) : Prop :=
  NoDup l /\ forall dr, dr ∈ l <-> held (app_disp a) dr /\ p dr = true.

Lemma over_statuses_eq p (w : Dispensation.DispWorld B) :
  Dispensation.over_statuses p w = Ok (filter (fun dr => p dr = true) (Dispensation.record_entries (Dispensation.d_records (Dispensation.dw_store w))).*2).
Proof.
  unfold Dispensation.over_statuses, Dispensation.select, Dispensation.record_entries. simpl. by rewrite !fmap_app, !filter_app.
Qed.

Lemma entries_values (m : KV Dispensation.DistributionRecord) :
  Dispensation.wf_records m -> NoDup (Dispensation.record_entries m).*2.
Proof.
  intros Hm. apply (NoDup_fmap_1 Dispensation.key_of).
  enough (Dispensation.key_of <$> (Dispensation.record_entries m).*2 = (Dispensation.record_entries m).*1) as ->
    by apply Dispensation.record_entries_NoDup.
  rewrite <- list_fmap_compose. apply list_fmap_ext. intros i [k dr] Hi%list_elem_of_lookup_2.
  apply Dispensation.record_entries_listing in Hi as [-> _]%Hm; done.
Qed.

Lemma over_statuses_lists p a :
  Dispensation.wf_records (Dispensation.d_records (app_disp a)) ->
  exists l, Dispensation.over_statuses p (disp_view a) = Ok l /\ lists l a p.
Proof.
  intros Hm. rewrite over_statuses_eq. eexists. split; [done|]. split; [by apply NoDup_filter, entries_values|].
  intros dr. rewrite list_elem_of_filter, list_elem_of_fmap. split.
  - intros [Hp ([k dr'] & -> & Hk%Dispensation.record_entries_listing)]; [|done]. simpl in *.
    split; [|done]. destruct (Hm _ _ Hk) as (E & _). unfold held. by rewrite <- E.
  - intros [Hk Hp]. split; [done|]. exists (Dispensation.key_of dr, dr). split; [done|]. by apply Dispensation.record_entries_listing.
Qed.

Lemma prefix_byte1 x y s : String.prefix (byte1 x) (byte1 y +:+ s) = Ascii.eqb (ascii_of_nat x) (ascii_of_nat y).
Proof.
  unfold byte1. simpl. destruct (ascii_dec _ _) as [->|Hn]; [rewrite Ascii.eqb_refl; by destruct s|]. by apply Ascii.eqb_neq in Hn as ->.
Qed.

Lemma iterator_prefix st (w : Dispensation.DispWorld B) l dr :
  Dispensation.GetDistributionRecordsIterator st w = Ok l ->
  exists p, l = (kv_prefix p (Dispensation.d_records (Dispensation.dw_store w))).*2
    /\ String.prefix p (Dispensation.key_of dr) = listed_under st dr.
Proof.
  unfold Dispensation.GetDistributionRecordsIterator, listed_under, Dispensation.key_of. generalize (Dispensation.DR_Status dr) as s.
  intros s. unfold Dispensation.GetDistributionRecordKey, Dispensation.DISTRIBUTION_STATUS_PENDING,
    Dispensation.DISTRIBUTION_STATUS_COMPLETED, Dispensation.DISTRIBUTION_STATUS_FAILED.
  destruct (Z.eqb_spec st 1) as [->|N1]; [|destruct (Z.eqb_spec st 2) as [->|N2]; [|destruct (Z.eqb_spec st 3) as [->|N3]; [|done]]];
    intros [= <-]; eexists; (split; [done|]);
    unfold Dispensation.DistributionRecordPrefixPending, Dispensation.DistributionRecordPrefixCompleted, Dispensation.DistributionRecordPrefixFailed;
    (destruct (Z.eqb_spec s 1) as [->|?]; [by rewrite prefix_byte1|]; destruct (Z.eqb_spec s 2) as [->|?]; [by rewrite prefix_byte1|];
     by destruct (Z.eqb_spec s 3) as [->|?]; rewrite prefix_byte1).
Qed.

Lemma iterator_lists st (w : Dispensation.DispWorld B) l dr :
  Dispensation.wf_records (Dispensation.d_records (Dispensation.dw_store w)) ->
  Dispensation.GetDistributionRecordsIterator st w = Ok l ->
  dr ∈ l <-> held (Dispensation.dw_store w) dr /\ listed_under st dr = true.
Proof. intros Hm (p & -> & <-)%(iterator_prefix _ _ _ dr). by rewrite Dispensation.elem_of_values. Qed.

Lemma iterator_NoDup st (w : Dispensation.DispWorld B) l :
  Dispensation.wf_records (Dispensation.d_records (Dispensation.dw_store w)) ->
  Dispensation.GetDistributionRecordsIterator st w = Ok l -> NoDup l.
Proof.
  unfold Dispensation.GetDistributionRecordsIterator. intros Hm. repeat case_match; try done; intros [= <-];
    eapply NoDup_fmap_1, Dispensation.values_NoDup, Hm.
Qed.

Lemma status_text st text (w : Dispensation.DispWorld B) : Dispensation.GetDistributionStatus text = (st, true) ->
  (exists l, Dispensation.GetDistributionRecordsIterator st w = Ok l) /\ (st =? Dispensation.DISTRIBUTION_STATUS_UNSPECIFIED) = false.
Proof.
  unfold Dispensation.GetDistributionStatus.
  do 3 (case_match; [intros [= <-]; split; [eexists; reflexivity|reflexivity]|]). done.
Qed.

Lemma name_and_status_lists name text st a :
  Dispensation.wf_records (Dispensation.d_records (app_disp a)) -> Dispensation.GetDistributionStatus text = (st, true) ->
  exists l, Dispensation.RecordsByDistributionName name st (disp_view a) = Ok l
    /\ lists l a (fun dr => String.eqb (Dispensation.DR_Name dr) name && listed_under st dr).
Proof.
  intros Hm [(l & Hi) Hu]%(status_text _ _ (disp_view a)).
  unfold Dispensation.RecordsByDistributionName, Dispensation.GetRecordsForNameAndStatus, Dispensation.select. rewrite Hi, Hu. cbn [rbind].
  eexists. split; [done|]. split; [apply NoDup_filter; by apply (iterator_NoDup st (disp_view a))|]. intros dr.
  rewrite list_elem_of_filter, (iterator_lists st (disp_view a) l), andb_true_iff by done. cbn [Dispensation.dw_store disp_view]. tauto.
Qed.

(** *** Requests and answers through the codec *)

Lemma disp_ask {X Y} `{!JsonCodec X, !JsonCodecLaws X, !JsonCodec Y, !JsonCodecLaws Y} h hq a endpoint (req : X) (ans : Y) :
  serves h hq a -> Contains endpoint "/" = false -> json_text req -> json_text ans ->
  (forall data t, UnmarshalJSON data = Ok req -> MarshalJSON ans = Ok t -> disp_NewLegacyQuerier a [endpoint] data = Ok t) ->
  exists data t, MarshalJSON req = Ok data /\ QueryWithData (disp_route endpoint) data = Ok (t, hq) /\ UnmarshalJSON t = Ok ans.
Proof.
  intros Hs He (data & Hd & Hu)%json_roundtrip (t & Ht & Hut)%json_roundtrip Hq. exists data, t. split; [done|]. split; [|done].
  eapply dispensation_answers; eauto.
Qed.

(** What a GET route replies, given what the gRPC query answers. *)
Definition replies {Y} `{!JsonCodec Y} (hq : Z) (reply : res (Reply string)) (answer : res Y) : Prop :=
  match answer with
  | Ok y => json_text y -> exists t, reply = Ok (DataReply hq t) /\ UnmarshalJSON t = Ok y
  | Err _ => reply = Ok (ErrorReply StatusInternalServerError)
  | Panic => True
  end.

Lemma clp_ask {X Y} `{!JsonCodec X, !JsonCodecLaws X, !JsonCodec Y} h hq a endpoint (req : X) (answer : res Y) (print : Y -> res string) st :
  serves h hq a -> Contains endpoint "/" = false -> json_text req ->
  (forall data, UnmarshalJSON data = Ok req -> clp_NewQuerier h a [endpoint] data = let! y := answer in rwrap ErrJSONMarshal (print y)) ->
  (forall y, json_text y -> exists t, print y = Ok t /\ UnmarshalJSON t = Ok y) ->
  replies hq (or_error st (MarshalJSON req) (fun bz =>
    or_error StatusInternalServerError (QueryWithData (clp_route endpoint) bz) (fun '(res, height) => Ok (DataReply height res)))) answer.
Proof.
  intros Hs He (data & Hd & Hu)%json_roundtrip Hq Hp. unfold replies. rewrite Hd. cbn [or_error].
  pose proof (clp_answers h hq a endpoint data Hs He) as Ha. rewrite (Hq _ Hu) in Ha. destruct answer as [y|e|]; [|by destruct Ha as [e' ->]|done].
  intros (t & Ht & Hut)%Hp. cbn [rbind] in Ha. rewrite Ht in Ha. cbn [rwrap] in Ha. rewrite Ha. by exists t.
Qed.

Lemma url_uint_no_panic r name : url_uint r name <> Panic.
Proof. unfold url_uint, ParseUint. by repeat case_match. Qed.

Lemma all_pools h a :
  Z.of_nat (size (clp_pools (app_clp a))) < MaxPageLimit ->
  exists page, query_GetPools None h (clp_view a) = Ok (GetPools (clp_view a), h, AccAddress_String GetCLPModuleAddress, page).
Proof.
  intros Hn. unfold query_GetPools, GetPoolsPaginated. change (pageOrDefault None) with (Ok (mkPageRequest "" 0 MaxPageLimit)). cbn [rbind].
  destruct (Paginate_all _ (kv_prefix PoolPrefix (clp_pools (w_clp (clp_view a)))) MaxPageLimit) as [page Hp].
  - pose proof (kv_prefix_length PoolPrefix (clp_pools (w_clp (clp_view a)))) as Hl. cbn [w_clp clp_view] in *. unfold MaxPageLimit, MaxUint64 in *. lia.
  - exists page. by rewrite Hp.
Qed.

(** *** What the queries of the exchange list *)

(** The stored pools, each once. *)
Definition lists_pools (l : list Pool) (a : App) : Prop :=
  NoDup l /\ forall p, p ∈ l <-> exists k, clp_pools (app_clp a) !! k = Some p.
(** The stored providers of an asset, each once, *)
Definition lists_providers (symbol : string) (l : list LiquidityProvider) (a : App) : Prop :=
  NoDup l /\ forall lp, lp ∈ l <-> (exists k, clp_lps (app_clp a) !! k = Some lp) /\ LP_Asset lp = Some (mkAsset symbol).
(** and the assets that an address provides, each once. *)
Definition lists_assets (address : string) (l : list Asset) (a : App) : Prop :=
  NoDup l /\ forall x, x ∈ l <-> exists k lp, clp_lps (app_clp a) !! k = Some lp
    /\ LP_Asset lp = Some x /\ LiquidityProviderAddress lp = address.

Lemma keep_hits_filter {X} (l : list (string * X)) hit (p : X -> bool) :
  (forall k v, hit k v = Ok (p v)) -> keep_hits l hit = Ok (filter (fun v => p v = true) l.*2).
Proof.
  intros Hp. induction l as [|[k v] l IH]; [done|]. cbn [keep_hits fmap list_fmap snd]. rewrite Hp, IH. cbn [rbind].
  rewrite filter_cons. by destruct (p v).
Qed.

Lemma filtered_page {X} (l : list (string * X)) hit (p : X -> bool) lim :
  (forall k v, hit k v = Ok (p v)) -> Z.of_nat (length l) < lim < MaxUint64 ->
  exists pr, FilteredPaginate l (mkPageRequest "" 0 lim) hit = Ok (filter (fun v => p v = true) l.*2, pr).
Proof.
  intros Hp Hl. pose proof (FilteredPaginate_all _ l lim hit Hl) as Hf. rewrite (keep_hits_filter l hit p Hp) in Hf.
  destruct (FilteredPaginate _ _ _) as [[vs pr]|e|]; [|by destruct Hf|done]. injection Hf as <-. by exists pr.
Qed.

(** The values under a prefix that every key has, when a value determines its key. *)
Lemma prefix_values_lists {X} (prefix : string) (m : KV X) (wf : string -> X -> Prop) :
  map_Forall wf m -> (forall k v, wf k v -> String.prefix prefix k = true) -> (forall k k' v, wf k v -> wf k' v -> k = k') ->
  NoDup (kv_prefix prefix m).*2 /\ forall v, v ∈ (kv_prefix prefix m).*2 <-> exists k, m !! k = Some v.
Proof.
  intros Hm Hp Hk. split.
  - pose proof (kv_prefix_NoDup prefix m) as Hn. pose proof (kv_prefix_Forall wf prefix m Hm) as Hw.
    induction (kv_prefix prefix m) as [|[k v] l IH]; [constructor|]. rewrite !fmap_cons in *. apply NoDup_cons in Hn as [Hk1 Hn].
    apply Forall_cons in Hw as [Hw1 Hw]. apply NoDup_cons. split; [|by apply IH]. intros ([k' v'] & E & Hin)%list_elem_of_fmap. cbn in E. subst v'.
    rewrite Forall_forall in Hw. assert (k = k') as -> by (eapply Hk; [exact Hw1|exact (Hw _ Hin)]).
    apply Hk1, list_elem_of_fmap. by exists (k', v).
  - intros v. rewrite list_elem_of_fmap. split.
    + intros ([k v'] & -> & [Hin _]%elem_of_kv_prefix). by exists k.
    + intros [k Hin]. exists (k, v). split; [done|]. apply elem_of_kv_prefix. split; [done|]. eapply Hp, Hm, Hin.
Qed.

Lemma provider_values a : clp_exportable (app_clp a) ->
  NoDup (lp_entries (clp_view a)).*2 /\ forall lp, lp ∈ (lp_entries (clp_view a)).*2 <-> exists k, clp_lps (app_clp a) !! k = Some lp.
Proof.
  intros (_ & Hl & _). apply (prefix_values_lists _ _ wf_lp_entry Hl).
  - intros k lp (x & _ & _ & ->). apply prefix_key.
  - intros k k' lp (x & Hx & _ & ->) (y & Hy & _ & ->). congruence.
Qed.

Lemma pools_listed a : clp_exportable (app_clp a) -> lists_pools (GetPools (clp_view a)) a.
Proof.
  intros (Hp & _). apply (prefix_values_lists _ _ wf_pool_entry Hp).
  - intros k pool (x & _ & _ & ->). apply prefix_key.
  - intros k k' pool (x & Hx & _ & ->) (y & Hy & _ & ->). congruence.
Qed.

Lemma providers_fewer a lim : Z.of_nat (size (clp_lps (app_clp a))) < lim -> Z.of_nat (length (lp_entries (clp_view a))) < lim.
Proof. intros Hs. unfold lp_entries. cbn. pose proof (kv_prefix_length LiquidityProviderPrefix (clp_lps (app_clp a))). lia. Qed.

Lemma provider_list_answer h symbol lim a :
  clp_exportable (app_clp a) -> Z.of_nat (size (clp_lps (app_clp a))) < lim <= MaxPageLimit ->
  exists l page, query_GetLiquidityProviderList symbol (Some (mkPageRequest "" 0 lim)) h (clp_view a) = Ok (l, h, page)
    /\ lists_providers symbol l a.
Proof.
  intros [Hnd Hin]%provider_values [Hs Hlim]. unfold query_GetLiquidityProviderList, pageOrDefault. cbn [from_option Page_Limit]. cbv [id].
  cbn [Page_Limit]. rewrite (proj2 (Z.ltb_ge _ _)) by lia. cbn [rbind].
  destruct (filtered_page (lp_entries (clp_view a)) (fun _ lp => match LP_Asset lp with None => Ok false | Some x => Ok (Asset_Equals x (NewAsset symbol)) end)
    (fun lp => match LP_Asset lp with None => false | Some x => Asset_Equals x (NewAsset symbol) end) lim) as [pr Hp].
  { intros k lp. by destruct (LP_Asset lp). }
  { split; [by apply providers_fewer|]. unfold MaxPageLimit, MaxUint64 in *. lia. }
  unfold GetLiquidityProvidersForAssetPaginated. rewrite Hp. cbn [rbind]. eexists _, pr. split; [done|]. split; [by apply NoDup_filter|].
  intros lp. rewrite list_elem_of_filter, Hin. destruct (LP_Asset lp) as [[sym]|]; [|naive_solver].
  unfold Asset_Equals, NewAsset. cbn [Symbol]. rewrite String.eqb_eq. naive_solver.
Qed.

Lemma omap_NoDup {X Y} (f : X -> option Y) (l : list X) :
  NoDup l -> (forall x1 x2 y, x1 ∈ l -> x2 ∈ l -> f x1 = Some y -> f x2 = Some y -> x1 = x2) -> NoDup (omap f l).
Proof.
  induction l as [|x l IH]; intros Hn Hf; [constructor|]. apply NoDup_cons in Hn as [Hx Hn]. cbn [omap list_omap].
  assert (NoDup (omap f l)) as Hl. { apply IH; [done|]. intros x1 x2 y H1' H2'. apply Hf; by right. }
  destruct (f x) as [y|] eqn:E; [|done]. apply NoDup_cons. split; [|done]. intros (x' & Hx' & E')%list_elem_of_omap.
  apply Hx. by rewrite (Hf x x' y ltac:(by left) ltac:(by right) E E').
Qed.

Lemma asset_list_answer addr page a :
  clp_exportable (app_clp a) -> addr <> "" -> Z.of_nat (size (clp_lps (app_clp a))) < MaxPageLimit -> Page_Limit page <= MaxPageLimit ->
  exists l, query_GetAssetList (AccAddress_String addr) (Some page) (clp_view a) = Ok l /\ lists_assets (AccAddress_String addr) l a.
Proof.
  intros Hc Ha Hs Hp. destruct (provider_values a Hc) as [Hnd Hin]. destruct Hc as (_ & Hw & _).
  unfold query_GetAssetList, pageOrDefault. cbn [from_option]. cbv [id].
  rewrite (proj2 (Z.ltb_ge _ _)) by lia. cbn [rbind]. rewrite AccAddress_roundtrip by done. cbn [rbind].
  destruct (filtered_page (lp_entries (clp_view a)) (fun _ lp => match LP_Asset lp with None => Ok false
      | Some _ => Ok (String.eqb (LiquidityProviderAddress lp) (AccAddress_String addr)) end)
    (fun lp => match LP_Asset lp with None => false | Some _ => String.eqb (LiquidityProviderAddress lp) (AccAddress_String addr) end) MaxPageLimit) as [pr Hf].
  { intros k lp. by destruct (LP_Asset lp). }
  { split; [by apply providers_fewer|]. by unfold MaxPageLimit, MaxUint64. }
  unfold GetAssetsForLiquidityProviderPaginated. rewrite Hf. cbn [rbind]. eexists. split; [done|]. split.
  - apply omap_NoDup; [by apply NoDup_filter|]. intros lp1 lp2 x [H1' I1]%list_elem_of_filter [H2' I2]%list_elem_of_filter E1 E2.
    apply Hin in I1 as [k1 I1], I2 as [k2 I2]. destruct (Hw _ _ I1) as (x1 & Ex1 & _ & ->), (Hw _ _ I2) as (x2 & Ex2 & _ & ->).
    rewrite E1 in H1', Ex1. rewrite E2 in H2', Ex2. apply String.eqb_eq in H1', H2'. congruence.
  - intros x. rewrite list_elem_of_omap. split.
    + intros (lp & [Hp' [k I]%Hin]%list_elem_of_filter & E). exists k, lp. rewrite E in Hp'. by apply String.eqb_eq in Hp'.
    + intros (k & lp & I & E & El). exists lp. split; [|done]. apply list_elem_of_filter. rewrite E. split; [by apply String.eqb_eq|].
      apply Hin. by exists k.
Qed.

(** *** What the GET routes of the exchange reply *)

Section Replies.
Variables (h hq : Z) (a : App) (r : HttpGet).
Hypothesis node : serves h hq a.
Hypothesis height_fits : height_ok r = true.
Abbreviation symbol := (url_query r "symbol").
Abbreviation module := (AccAddress_String GetCLPModuleAddress).
Abbreviation page offset limit := (Some (mkPageRequest "" offset limit)).

Lemma get_pool_reply :
  clp_exportable (app_clp a) -> json_text (mkPoolReq symbol) ->
  match clp_pools (app_clp a) !! native_key symbol with
  | Some pool => (exists x, ExternalAsset pool = Some x /\ Symbol x = symbol) /\ replies hq (getPoolHandler r) (Ok (pool, h, module))
  | None => getPoolHandler r = Ok (ErrorReply StatusInternalServerError)
  end.
Proof.
  intros [Hw _] Hreq. unfold getPoolHandler. rewrite height_fits. cbn [negb].
  pose proof (clp_ask h hq a "pool" _ (query_GetPool symbol h (clp_view a)) MarshalJSON StatusBadRequest node eq_refl Hreq
    (fun data E => ltac:(cbn; unfold queryPool; by rewrite E)) json_roundtrip) as Hp.
  unfold query_GetPool, read_pool in Hp. cbn [w_clp clp_view] in Hp.
  destruct (clp_pools (app_clp a) !! native_key symbol) as [pool|] eqn:E; [|exact Hp]. split; [|exact Hp].
  destruct (Hw _ _ E) as (x & Hx & _ & Hk%native_key_inj). by exists x.
Qed.

Lemma get_provider_reply :
  match AccAddressFromBech32 (url_query r "lpAddress") with
  | Ok addr => json_text (mkLiquidityProviderReq symbol (AccAddress_String addr)) ->
      match clp_lps (app_clp a) !! GetLiquidityProviderKey symbol (AccAddress_String addr), clp_pools (app_clp a) !! native_key symbol with
      | Some lp, Some pool =>
          let P := PoolUnits pool in let L := LiquidityProviderUnits lp in
          0 < L <= P -> P < 2 ^ 190 -> 0 <= NativeAssetBalance pool < 2 ^ 190 -> 0 <= ExternalAssetBalance pool < 2 ^ 190 ->
          exists n e, pro_rata (NativeAssetBalance pool) P L n /\ pro_rata (ExternalAssetBalance pool) P L e
            /\ replies hq (getLiquidityProviderHandler r) (Ok (mkLPRes lp h (big_String n) (big_String e)))
      | _, _ => getLiquidityProviderHandler r = Ok (ErrorReply StatusInternalServerError)
      end
  | _ => getLiquidityProviderHandler r = Ok Silent
  end.
Proof.
  unfold getLiquidityProviderHandler. rewrite height_fits. cbn [negb]. destruct (AccAddressFromBech32 _) as [addr|e|] eqn:E;
    [|done|by apply AccAddress_no_panic in E]. intros Hreq.
  pose proof (clp_ask h hq a "liquidityProvider" _ (query_GetLiquidityProvider symbol (AccAddress_String addr) h (clp_view a)) MarshalJSONIndent
    StatusBadRequest node eq_refl Hreq (fun data E' => ltac:(cbn; unfold queryLiquidityProvider; by rewrite E')) json_indent_roundtrip) as Hp.
  unfold query_GetLiquidityProvider, read_lp, read_pool in Hp. cbn [w_clp clp_view] in Hp.
  destruct (clp_lps (app_clp a) !! _) as [lp|]; [|exact Hp]. destruct (clp_pools (app_clp a) !! _) as [pool|]; [|exact Hp].
  intros HL HP Hn He. destruct (all_assets_pro_rata pool lp HL HP Hn He) as (n & e & Hq & Hpn & Hpe). exists n, e. split; [done|]. split; [done|].
  cbn [rbind] in Hp. rewrite Hq in Hp. exact Hp.
Qed.

Variables limit offset : Z.
Hypothesis limit_read : url_uint r "limit" = Ok limit.
Hypothesis offset_read : url_uint r "offset" = Ok offset.

Lemma get_pools_reply :
  clp_exportable (app_clp a) -> json_text (mkPoolsReq (page offset limit)) -> Z.of_nat (size (clp_pools (app_clp a))) < MaxPageLimit ->
  exists pools page, lists_pools pools a /\ replies hq (getPoolsHandler r) (Ok (pools, h, module, page)).
Proof.
  intros Hc Hreq [page Hp]%(all_pools h). exists (GetPools (clp_view a)), page. split; [by apply pools_listed|].
  unfold getPoolsHandler. rewrite height_fits, limit_read, offset_read. cbn [negb or_error]. rewrite <- Hp.
  apply (clp_ask h hq a "allpools" _ _ MarshalJSONIndent StatusInternalServerError node eq_refl Hreq); [done|apply json_indent_roundtrip].
Qed.

(** A page longer than the maximum is refused. *)
Lemma long_page : MaxPageLimit < limit -> pageOrDefault (page offset limit) = Err InvalidArgument.
Proof. intros Hl. unfold pageOrDefault. cbn [from_option]. cbv [id]. cbn [Page_Limit]. by rewrite (proj2 (Z.ltb_lt _ _) Hl). Qed.

Lemma get_lp_list_reply :
  clp_exportable (app_clp a) -> json_text (mkLiquidityProviderListReq symbol (page offset limit)) ->
  (MaxPageLimit < limit -> getLpListHandler r = Ok (ErrorReply StatusInternalServerError))
  /\ (offset = 0 -> Z.of_nat (size (clp_lps (app_clp a))) < limit <= MaxPageLimit ->
      exists l, lists_providers symbol l a /\ replies hq (getLpListHandler r) (Ok l)).
Proof.
  intros Hc Hreq. unfold getLpListHandler. rewrite height_fits, limit_read, offset_read. cbn [negb or_error].
  pose proof (clp_ask h hq a "lpList" _ (let! '(lps, _, _) := query_GetLiquidityProviderList symbol (page offset limit) h (clp_view a)
    in Ok lps) MarshalJSONIndent StatusBadRequest node eq_refl Hreq
    (fun data E => ltac:(cbn; unfold queryLPList; rewrite E; cbn [rwrap rbind LPListReq_Symbol LPListReq_Pagination];
      by destruct (query_GetLiquidityProviderList _ _ _ _) as [[[] ?]| |])) json_indent_roundtrip) as Hp.
  split.
  - intros Hl. unfold query_GetLiquidityProviderList in Hp. rewrite (long_page Hl) in Hp. exact Hp.
  - intros Eo Hs. rewrite Eo in *. destruct (provider_list_answer h symbol limit a Hc Hs) as (l & pr & Hq & Hl). exists l. split; [done|].
    rewrite Hq in Hp. exact Hp.
Qed.

Lemma get_assets_reply :
  clp_exportable (app_clp a) ->
  match AccAddressFromBech32 (url_query r "lpAddress") with
  | Ok addr => json_text (mkAssetListReq (AccAddress_String addr) (page offset limit)) ->
      (MaxPageLimit < limit -> getAssetsHandler r = Ok (ErrorReply StatusInternalServerError))
      /\ (limit <= MaxPageLimit -> Z.of_nat (size (clp_lps (app_clp a))) < MaxPageLimit ->
          exists l, lists_assets (AccAddress_String addr) l a /\ replies hq (getAssetsHandler r) (Ok l))
  | _ => getAssetsHandler r = Ok Silent
  end.
Proof.
  intros Hc. unfold getAssetsHandler. rewrite height_fits, limit_read, offset_read. cbn [negb or_error].
  destruct (AccAddressFromBech32 _) as [addr|e|] eqn:E; [|done|by apply AccAddress_no_panic in E]. intros Hreq.
  pose proof (clp_ask h hq a "assetList" _ (query_GetAssetList (AccAddress_String addr) (page offset limit) (clp_view a)) MarshalJSONIndent
    StatusBadRequest node eq_refl Hreq (fun data E' => ltac:(cbn; unfold queryAssetList; by rewrite E')) json_indent_roundtrip) as Hp.
  split.
  - intros Hl. unfold query_GetAssetList in Hp. rewrite (long_page Hl) in Hp. exact Hp.
  - intros Hl Hs. destruct (asset_list_answer addr (mkPageRequest "" offset limit) a Hc ltac:(by eapply AccAddress_nonempty) Hs Hl) as (l & Hq & Hlist).
    exists l. split; [done|]. rewrite Hq in Hp. exact Hp.
Qed.
End Replies.

(** A malformed number is refused by the three routes that read pages. *)
Lemma number_refused r :
  height_ok r = true ->
  (exists e, url_uint r "limit" = Err e) \/ (exists limit e, url_uint r "limit" = Ok limit /\ url_uint r "offset" = Err e) ->
  getPoolsHandler r = Ok (ErrorReply StatusBadRequest) /\ getLpListHandler r = Ok (ErrorReply StatusBadRequest)
  /\ getAssetsHandler r = Ok (ErrorReply StatusBadRequest).
Proof.
  intros Hh He. unfold getPoolsHandler, getLpListHandler, getAssetsHandler. rewrite Hh.
  destruct He as [[e ->]|(limit & e & -> & ->)]; done.
Qed.

(** ** Theorems *)

(** Connected to a node that serves a reachable state, the distribution query commands print
    what is stored, with the height of the query: all distributions; exactly the records of a
    recipient, each once; exactly the records of a distribution listed under a status; the
    claims of a type.  Any other status or type of claim is refused. *)
Theorem distribution_queries h hq a D :
  reachable a D -> serves h hq a -> GetClientQueryContext = Ok tt ->
  (json_text (mkQueryAllDistributionsResponse (Dispensation.GetDistributions (disp_view a)) 0) ->
   GetCmdDistributions [] = Ok (mkQueryAllDistributionsResponse (Dispensation.GetDistributions (disp_view a)) hq))
  /\ (forall text addr, AccAddressFromBech32 text = Ok addr -> exists l,
       lists l a (fun dr => String.eqb (Dispensation.DR_Recipient dr) (AccAddress_String addr))
       /\ (json_text (mkQueryRecordsByRecipientAddrRequest (AccAddress_String addr)) -> json_text (mkDistributionRecords l) ->
           GetCmdDistributionRecordForRecipient [text] = Ok (mkQueryRecordsByRecipientAddrResponse (mkDistributionRecords l) hq)))
  /\ (forall name text st, Dispensation.GetDistributionStatus text = (st, true) -> exists l,
       lists l a (fun dr => String.eqb (Dispensation.DR_Name dr) name && listed_under st dr)
       /\ (json_text (mkQueryRecordsByDistributionNameRequest name st) -> json_text (mkDistributionRecords l) ->
           GetCmdDistributionRecordForDistName [name; text] = Ok (mkQueryRecordsByDistributionNameResponse (mkDistributionRecords l) hq)))
  /\ (forall text t, Dispensation.GetClaimType text = (t, true) ->
       let claims := Dispensation.GetClaimsByType t (disp_view a) in
       json_text (mkQueryClaimsByTypeRequest t) -> json_text (mkQueryClaimsResponse claims 0) ->
       GetCmdClaimsByType [text] = Ok (mkQueryClaimsResponse claims hq))
  /\ (forall name text, (Dispensation.GetDistributionStatus text).2 = false -> GetCmdDistributionRecordForDistName [name; text] = Err ErrInvalidStatus)
  /\ (forall text, (Dispensation.GetClaimType text).2 = false -> GetCmdClaimsByType [text] = Err ErrInvalidClaimType).
Proof.
  intros Hr Hs Hctx. pose proof (Dispensation.ok_records _ (ok_disp _ _ (app_reachable_ok _ _ Hr))) as Hm.
  split; [|split; [|split; [|split; [|split]]]].
  - intros (t & Ht & Hu)%json_all_distributions. unfold GetCmdDistributions. cbn [ExactArgs fail_if length Nat.eqb negb rbind]. rewrite Hctx. cbn [rbind].
    rewrite (dispensation_answers h hq a "distributions" "" t Hs eq_refl Ht). cbn [rbind]. by rewrite Hu.
  - intros text addr Ha. destruct (over_statuses_lists (fun dr => String.eqb (Dispensation.DR_Recipient dr) (AccAddress_String addr)) a Hm) as (l & Hl & Hlist).
    exists l. split; [done|]. intros Hreq Hans.
    destruct (disp_ask h hq a "records_by_recipient" _ _ Hs eq_refl Hreq Hans) as (data & t & Hd & Hq & Hu).
    { intros data t Hu Ht. cbn. unfold queryDistributionRecordsForRecipient. rewrite Hu. cbn [rwrap rbind RecipientReq_Address].
      unfold Dispensation.RecordsByRecipient, Dispensation.GetRecordsForRecipient. rewrite Hl. cbn [rbind]. by rewrite Ht. }
    unfold GetCmdDistributionRecordForRecipient. cbn. rewrite Hctx. cbn. rewrite Ha. cbn [rbind]. rewrite Hd. cbn [rbind]. rewrite Hq. cbn [rbind].
    by rewrite Hu.
  - intros name text st Hst. destruct (name_and_status_lists name text st a Hm Hst) as (l & Hl & Hlist).
    exists l. split; [done|]. intros Hreq Hans.
    destruct (disp_ask h hq a "records_by_name" _ _ Hs eq_refl Hreq Hans) as (data & t & Hd & Hq & Hu).
    { intros data t Hu Ht. cbn. unfold queryDistributionRecordsForName. rewrite Hu. cbn [rwrap rbind RecordsReq_Name RecordsReq_Status].
      rewrite Hl. cbn [rbind]. by rewrite Ht. }
    unfold GetCmdDistributionRecordForDistName. cbn. rewrite Hctx. cbn. rewrite Hst. cbn [rbind fail_if negb]. rewrite Hd. cbn [rbind].
    rewrite Hq. cbn [rbind]. by rewrite Hu.
  - intros text t Ht claims Hreq Hans.
    destruct (disp_ask h hq a "claims_by_type" _ _ Hs eq_refl Hreq Hans) as (data & t' & Hd & Hq & Hu).
    { intros data t' Hu Ht'. cbn. unfold queryClaimsByType. rewrite Hu. cbn [rwrap rbind ClaimsReq_Type]. unfold Dispensation.ClaimsByType.
      cbn [rbind]. fold claims. by rewrite Ht'. }
    unfold GetCmdClaimsByType. cbn. rewrite Hctx. cbn. rewrite Ht. cbn [rbind fail_if negb]. rewrite Hd. cbn [rbind]. rewrite Hq. cbn [rbind].
    by rewrite Hu.
  - intros name text Hst. unfold GetCmdDistributionRecordForDistName. cbn. rewrite Hctx. cbn.
    destruct (Dispensation.GetDistributionStatus text) as [st ok]. cbn in Hst. by subst.
  - intros text Ht. unfold GetCmdClaimsByType. cbn. rewrite Hctx. cbn.
    destruct (Dispensation.GetClaimType text) as [t ok]. cbn in Ht. by subst.
Qed.

(** C33: Connected to a node that serves a reachable state, each of the five GET routes of the
    exchange replies with what is stored: getPool with the pool of the symbol, the module's
    address and the height, or status 500 when there is none; getPools, below 200 pools, with
    all of them, whatever limit and offset the URL has; getLiquidityProvider with the stored
    provider and its part of both sides of the pool, native and external, or status 500;
    getLpList, with no offset and fewer providers than its limit, with all the providers of the
    asset; getAssets, below 200 providers, with all the assets the address provides, whatever
    limit and offset.  A limit above 200 is answered with status 500, an address that does not
    decode with nothing, and a malformed number with status 400. *)
Theorem clp_rest_queries h hq a D r :
  reachable a D -> serves h hq a -> height_ok r = true ->
  let symbol := url_query r "symbol" in
  let module := AccAddress_String GetCLPModuleAddress in
  (json_text (mkPoolReq symbol) ->
   match clp_pools (app_clp a) !! native_key symbol with
   | Some pool => (exists x, ExternalAsset pool = Some x /\ Symbol x = symbol) /\ replies hq (getPoolHandler r) (Ok (pool, h, module))
   | None => getPoolHandler r = Ok (ErrorReply StatusInternalServerError)
   end)
  /\ (match AccAddressFromBech32 (url_query r "lpAddress") with
      | Ok addr => json_text (mkLiquidityProviderReq symbol (AccAddress_String addr)) ->
          match clp_lps (app_clp a) !! GetLiquidityProviderKey symbol (AccAddress_String addr), clp_pools (app_clp a) !! native_key symbol with
          | Some lp, Some pool =>
              let P := PoolUnits pool in let L := LiquidityProviderUnits lp in
              0 < L <= P -> P < 2 ^ 190 -> 0 <= NativeAssetBalance pool < 2 ^ 190 -> 0 <= ExternalAssetBalance pool < 2 ^ 190 ->
              exists n e, pro_rata (NativeAssetBalance pool) P L n /\ pro_rata (ExternalAssetBalance pool) P L e
                /\ replies hq (getLiquidityProviderHandler r) (Ok (mkLPRes lp h (big_String n) (big_String e)))
          | _, _ => getLiquidityProviderHandler r = Ok (ErrorReply StatusInternalServerError)
          end
      | _ => getLiquidityProviderHandler r = Ok Silent
      end)
  /\ (match url_uint r "limit", url_uint r "offset" with
      | Ok limit, Ok offset =>
          (json_text (mkPoolsReq (Some (mkPageRequest "" offset limit))) -> Z.of_nat (size (clp_pools (app_clp a))) < MaxPageLimit ->
           exists pools page, lists_pools pools a /\ replies hq (getPoolsHandler r) (Ok (pools, h, module, page)))
          /\ (json_text (mkLiquidityProviderListReq symbol (Some (mkPageRequest "" offset limit))) ->
              (MaxPageLimit < limit -> getLpListHandler r = Ok (ErrorReply StatusInternalServerError))
              /\ (offset = 0 -> Z.of_nat (size (clp_lps (app_clp a))) < limit <= MaxPageLimit ->
                  exists l, lists_providers symbol l a /\ replies hq (getLpListHandler r) (Ok l)))
          /\ match AccAddressFromBech32 (url_query r "lpAddress") with
             | Ok addr => json_text (mkAssetListReq (AccAddress_String addr) (Some (mkPageRequest "" offset limit))) ->
                 (MaxPageLimit < limit -> getAssetsHandler r = Ok (ErrorReply StatusInternalServerError))
                 /\ (limit <= MaxPageLimit -> Z.of_nat (size (clp_lps (app_clp a))) < MaxPageLimit ->
                     exists l, lists_assets (AccAddress_String addr) l a /\ replies hq (getAssetsHandler r) (Ok l))
             | _ => getAssetsHandler r = Ok Silent
             end
      | _, _ => getPoolsHandler r = Ok (ErrorReply StatusBadRequest) /\ getLpListHandler r = Ok (ErrorReply StatusBadRequest)
          /\ getAssetsHandler r = Ok (ErrorReply StatusBadRequest)
      end).
Proof.
  intros Hr Hs Hh symbol module. pose proof (ok_clp _ _ (app_reachable_ok _ _ Hr)) as Hc.
  split; [exact (get_pool_reply h hq a r Hs Hh Hc)|split; [exact (get_provider_reply h hq a r Hs Hh)|]].
  destruct (url_uint r "limit") as [limit| |] eqn:El; [|by apply number_refused; [|left; eexists]|by apply url_uint_no_panic in El].
  destruct (url_uint r "offset") as [offset| |] eqn:Eo; [|by apply number_refused; [|right; eexists _, _]|by apply url_uint_no_panic in Eo].
  split; [exact (get_pools_reply h hq a r Hs Hh limit offset El Eo Hc)|].
  split; [exact (get_lp_list_reply h hq a r Hs Hh limit offset El Eo Hc)|exact (get_assets_reply h hq a r Hs Hh limit offset El Eo Hc)].
Qed.
End Lemmas.
(** ** A reference codec *)

Section RefJson.
#[local] Existing Instances TokenRegistry.Permission_eq_dec TokenRegistry.RegistryEntry_eq_dec.
#[local] Instance PageRequest_eq : EqDecision PageRequest.
Proof. solve_decision. Defined.
#[local] Instance PageRequest_countable : Countable PageRequest :=
  inj_countable' (fun r => (Page_Key r, Page_Offset r, Page_Limit r))
    (fun '(x0, x1, x2) => mkPageRequest x0 x1 x2) ltac:(by intros []).
#[local] Instance PageResponse_eq : EqDecision PageResponse.
Proof. solve_decision. Defined.
#[local] Instance PageResponse_countable : Countable PageResponse :=
  inj_countable' (fun r => (Page_NextKey r, Page_Total r))
    (fun '(x0, x1) => mkPageResponse x0 x1) ltac:(by intros []).
#[local] Instance Asset_countable : Countable Asset := inj_countable' Symbol mkAsset ltac:(by intros []).
#[local] Instance Pool_countable : Countable Pool :=
  inj_countable' (fun r => (ExternalAsset r, NativeAssetBalance r, ExternalAssetBalance r, PoolUnits r))
    (fun '(x0, x1, x2, x3) => mkPool x0 x1 x2 x3) ltac:(by intros []).
#[local] Instance LiquidityProvider_countable : Countable LiquidityProvider :=
  inj_countable' (fun r => (LP_Asset r, LiquidityProviderUnits r, LiquidityProviderAddress r))
    (fun '(x0, x1, x2) => mkLiquidityProvider x0 x1 x2) ltac:(by intros []).
#[local] Instance LiquidityProviderRes_eq : EqDecision LiquidityProviderRes.
Proof. solve_decision. Defined.
#[local] Instance LiquidityProviderRes_countable : Countable LiquidityProviderRes :=
  inj_countable' (fun r => (Res_LP r, Res_Height r, Res_Native r, Res_External r))
    (fun '(x0, x1, x2, x3) => mkLPRes x0 x1 x2 x3) ltac:(by intros []).
#[local] Instance Coin_countable : Countable Coin :=
  inj_countable' (fun r => (Coin_Denom r, Coin_Amount r))
    (fun '(x0, x1) => mkCoin x0 x1) ltac:(by intros []).
#[local] Instance DistributionRecord_eq : EqDecision Dispensation.DistributionRecord.
Proof. solve_decision. Defined.
#[local] Instance DistributionRecord_countable : Countable Dispensation.DistributionRecord :=
  inj_countable' (fun r => (Dispensation.DR_Status r, Dispensation.DR_Type r, Dispensation.DR_Name r, Dispensation.DR_Recipient r, Dispensation.DR_Coins r, Dispensation.DR_StartHeight r, Dispensation.DR_CompletedHeight r, Dispensation.DR_Runner r))
    (fun '(x0, x1, x2, x3, x4, x5, x6, x7) => Dispensation.mkDistributionRecord x0 x1 x2 x3 x4 x5 x6 x7) ltac:(by intros []).
#[local] Instance Distribution_eq : EqDecision Dispensation.Distribution.
Proof. solve_decision. Defined.
#[local] Instance Distribution_countable : Countable Dispensation.Distribution :=
  inj_countable' (fun r => (Dispensation.D_Type r, Dispensation.D_Name r, Dispensation.D_Runner r))
    (fun '(x0, x1, x2) => Dispensation.mkDistribution x0 x1 x2) ltac:(by intros []).
#[local] Instance UserClaim_eq : EqDecision Dispensation.UserClaim.
Proof. solve_decision. Defined.
#[local] Instance UserClaim_countable : Countable Dispensation.UserClaim :=
  inj_countable' (fun r => (Dispensation.UC_UserAddress r, Dispensation.UC_Type r, Dispensation.UC_Time r))
    (fun '(x0, x1, x2) => Dispensation.mkUserClaim x0 x1 x2) ltac:(by intros []).
#[local] Instance Permission_countable : Countable TokenRegistry.Permission :=
  inj_countable' (fun p => match p with
      | TokenRegistry.Permission_UNSPECIFIED => (0, 0) | TokenRegistry.Permission_CLP => (1, 0)
      | TokenRegistry.Permission_IBCEXPORT => (2, 0) | TokenRegistry.Permission_IBCIMPORT => (3, 0)
      | TokenRegistry.Permission_other n => (4, n) end)
    (fun '(k, n) => match k with
      | 0 => TokenRegistry.Permission_UNSPECIFIED | 1 => TokenRegistry.Permission_CLP
      | 2 => TokenRegistry.Permission_IBCEXPORT | 3 => TokenRegistry.Permission_IBCIMPORT
      | _ => TokenRegistry.Permission_other n end) ltac:(by intros []).
#[local] Instance RegistryEntry_countable : Countable TokenRegistry.RegistryEntry :=
  inj_countable' (fun r => (TokenRegistry.Decimals r, TokenRegistry.Denom r, TokenRegistry.BaseDenom r, TokenRegistry.Path r, TokenRegistry.IbcChannelId r, TokenRegistry.IbcCounterpartyChannelId r,
      TokenRegistry.DisplayName r, TokenRegistry.DisplaySymbol r, TokenRegistry.Network r, TokenRegistry.Address r, TokenRegistry.ExternalSymbol r,
      TokenRegistry.TransferLimit r, TokenRegistry.Permissions r, TokenRegistry.UnitDenom r, TokenRegistry.IbcCounterpartyDenom r, TokenRegistry.IbcCounterpartyChainId r))
    (fun '(x0, x1, x2, x3, x4, x5, x6, x7, x8, x9, x10, x11, x12, x13, x14, x15) => TokenRegistry.mkEntry x0 x1 x2 x3 x4 x5 x6 x7 x8 x9 x10 x11 x12 x13 x14 x15) ltac:(by intros []).
#[local] Instance Registry_eq : EqDecision TokenRegistry.Registry.
Proof. solve_decision. Defined.
#[local] Instance Registry_countable : Countable TokenRegistry.Registry :=
  inj_countable' TokenRegistry.Entries
    TokenRegistry.mkRegistry ltac:(by intros []).
#[local] Instance PoolReq_eq : EqDecision PoolReq.
Proof. solve_decision. Defined.
#[local] Instance PoolReq_countable : Countable PoolReq := inj_countable' PoolReq_Symbol mkPoolReq ltac:(by intros []).
#[local] Instance PoolsReq_eq : EqDecision PoolsReq.
Proof. solve_decision. Defined.
#[local] Instance PoolsReq_countable : Countable PoolsReq := inj_countable' PoolsReq_Pagination mkPoolsReq ltac:(by intros []).
#[local] Instance LiquidityProviderReq_eq : EqDecision LiquidityProviderReq.
Proof. solve_decision. Defined.
#[local] Instance LiquidityProviderReq_countable : Countable LiquidityProviderReq :=
  inj_countable' (fun r => (LPReq_Symbol r, LPReq_LpAddress r))
    (fun '(x0, x1) => mkLiquidityProviderReq x0 x1) ltac:(by intros []).
#[local] Instance AssetListReq_eq : EqDecision AssetListReq.
Proof. solve_decision. Defined.
#[local] Instance AssetListReq_countable : Countable AssetListReq :=
  inj_countable' (fun r => (AssetListReq_LpAddress r, AssetListReq_Pagination r))
    (fun '(x0, x1) => mkAssetListReq x0 x1) ltac:(by intros []).
#[local] Instance LiquidityProviderListReq_eq : EqDecision LiquidityProviderListReq.
Proof. solve_decision. Defined.
#[local] Instance LiquidityProviderListReq_countable : Countable LiquidityProviderListReq :=
  inj_countable' (fun r => (LPListReq_Symbol r, LPListReq_Pagination r))
    (fun '(x0, x1) => mkLiquidityProviderListReq x0 x1) ltac:(by intros []).
#[local] Instance QueryRecordsByDistributionNameRequest_eq : EqDecision QueryRecordsByDistributionNameRequest.
Proof. solve_decision. Defined.
#[local] Instance QueryRecordsByDistributionNameRequest_countable : Countable QueryRecordsByDistributionNameRequest :=
  inj_countable' (fun r => (RecordsReq_Name r, RecordsReq_Status r))
    (fun '(x0, x1) => mkQueryRecordsByDistributionNameRequest x0 x1) ltac:(by intros []).
#[local] Instance QueryRecordsByRecipientAddrRequest_eq : EqDecision QueryRecordsByRecipientAddrRequest.
Proof. solve_decision. Defined.
#[local] Instance QueryRecordsByRecipientAddrRequest_countable : Countable QueryRecordsByRecipientAddrRequest :=
  inj_countable' RecipientReq_Address
    mkQueryRecordsByRecipientAddrRequest ltac:(by intros []).
#[local] Instance QueryClaimsByTypeRequest_eq : EqDecision QueryClaimsByTypeRequest.
Proof. solve_decision. Defined.
#[local] Instance QueryClaimsByTypeRequest_countable : Countable QueryClaimsByTypeRequest :=
  inj_countable' ClaimsReq_Type
    mkQueryClaimsByTypeRequest ltac:(by intros []).
#[local] Instance DistributionRecords_eq : EqDecision DistributionRecords.
Proof. solve_decision. Defined.
#[local] Instance DistributionRecords_countable : Countable DistributionRecords :=
  inj_countable' Records_List
    mkDistributionRecords ltac:(by intros []).
#[local] Instance QueryAllDistributionsResponse_eq : EqDecision QueryAllDistributionsResponse.
Proof. solve_decision. Defined.
#[local] Instance QueryAllDistributionsResponse_countable : Countable QueryAllDistributionsResponse :=
  inj_countable' (fun r => (AllRes_Distributions r, AllRes_Height r))
    (fun '(x0, x1) => mkQueryAllDistributionsResponse x0 x1) ltac:(by intros []).
#[local] Instance QueryClaimsResponse_eq : EqDecision QueryClaimsResponse.
Proof. solve_decision. Defined.
#[local] Instance QueryClaimsResponse_countable : Countable QueryClaimsResponse :=
  inj_countable' (fun r => (ClaimsRes_Claims r, ClaimsRes_Height r))
    (fun '(x0, x1) => mkQueryClaimsResponse x0 x1) ltac:(by intros []).

(** A value is the number that encodes it, in decimal. *)
Definition number_text {X} `{Countable X} (x : X) : string := big_String (Z.pos (encode x)).
Definition text_number {X} `{Countable X} (t : string) : res X :=
  match parse_int t with
  | Some (Z.pos p) => match decode p with Some x => Ok x | None => Err ErrJSONUnmarshal end
  | _ => Err ErrJSONUnmarshal
  end.
Lemma text_number_text {X} `{Countable X} (x : X) : text_number (number_text x) = Ok x.
Proof. unfold text_number, number_text. by rewrite parse_big_String, decode_encode. Qed.

#[local] Instance RefJson {X} `{Countable X} : JsonCodec X := {|
  MarshalJSON x := Ok (number_text x);
  MarshalJSONIndent x := Ok (number_text x);
  UnmarshalJSON := text_number;
  json_text _ := True;
|}.
Lemma RefJson_laws {X} `{Countable X} : JsonCodecLaws X.
Proof. split; intros x _; exists (number_text x); (split; [done|apply text_number_text]). Qed.

(** No value has a text. *)
Definition NoJson {X} : JsonCodec X := {|
  MarshalJSON _ := Err ErrJSONMarshal;
  MarshalJSONIndent _ := Err ErrJSONMarshal;
  UnmarshalJSON _ := Err ErrJSONUnmarshal;
  json_text _ := False;
|}.

Definition RefTypes : JsonTypes := {|
  json_PoolReq := _; json_PoolsReq := _; json_LiquidityProviderReq := _; json_LiquidityProviderDataReq := NoJson;
  json_AssetListReq := _; json_LiquidityProviderListReq := _; json_QueryEthProphecyRequest := NoJson;
  json_QueryBlacklistRequest := _; json_NameRequest := _; json_RecipientRequest := _; json_ClaimsRequest := _;
  json_PoolRes := _; json_PoolsRes := _; json_LiquidityProviderRes := _; json_LiquidityProviderDataRes := NoJson;
  json_Assets := _; json_LiquidityProviders := _; json_EthProphecyRes := NoJson; json_BlacklistRes := _;
  json_AllDistributions := _;
  json_Distributions := {|
    MarshalJSON d := Ok (number_text (mkQueryAllDistributionsResponse (Distributions_List d) 0));
    MarshalJSONIndent d := Ok (number_text (mkQueryAllDistributionsResponse (Distributions_List d) 0));
    UnmarshalJSON t := let! r := text_number (X := QueryAllDistributionsResponse) t in Ok (mkDistributions (AllRes_Distributions r));
    json_text _ := True;
  |};
  json_Claims := _; json_Records := _; json_Entries := _;
|}.
Lemma RefTypes_all (r : QueryAllDistributionsResponse) :
  @UnmarshalJSON Distributions (@json_Distributions RefTypes) (number_text r) = Ok (mkDistributions (AllRes_Distributions r)).
Proof. change (@UnmarshalJSON Distributions (@json_Distributions RefTypes) (number_text r)) with
  (let! r := text_number (X := QueryAllDistributionsResponse) (number_text r) in Ok (mkDistributions (AllRes_Distributions r))).
  by rewrite text_number_text. Qed.
Lemma RefTypes_laws : @JsonTypesLaws RefTypes.
Proof.
  apply (@Build_JsonTypesLaws RefTypes
    (RefJson_laws (X := PoolReq)) (RefJson_laws (X := PoolsReq)) (RefJson_laws (X := LiquidityProviderReq)) (RefJson_laws (X
    := AssetListReq)) (RefJson_laws (X := LiquidityProviderListReq)) (RefJson_laws (X :=
    QueryRecordsByDistributionNameRequest)) (RefJson_laws (X := QueryRecordsByRecipientAddrRequest)) (RefJson_laws (X :=
    QueryClaimsByTypeRequest)) (RefJson_laws (X := PoolRes)) (RefJson_laws (X := PoolsRes)) (RefJson_laws (X :=
    LiquidityProviderRes)) (RefJson_laws (X := (list Asset))) (RefJson_laws (X := (list LiquidityProvider))) (RefJson_laws
    (X := QueryClaimsResponse)) (RefJson_laws (X := DistributionRecords)) (RefJson_laws (X := (option
    TokenRegistry.Registry)))).
  intros r _. exists (number_text r). split; [reflexivity|apply RefTypes_all].
Qed.
End RefJson.

(** ** A reference connection *)

(** [strings.Split(s, "/")]. *)
Fixpoint split_path (s : string) : list string :=
  match s with
  | EmptyString => [""]
  | String c s' =>
      if Ascii.eqb c "/" then "" :: split_path s'
      else match split_path s' with p :: ps => String c p :: ps | [] => [String c ""] end
  end.

Lemma split_path_plain s : Contains s "/" = false -> split_path s = [s].
Proof.
  induction s as [|c s IH]; [done|]. intros [Hp Hs]%orb_false_iff. cbn [split_path]. destruct (Ascii.eqb c "/") eqn:E.
  - apply Ascii.eqb_eq in E as ->. by destruct s.
  - by rewrite IH.
Qed.

Lemma split_path_app u v : Contains u "/" = false -> split_path (u +:+ "/" +:+ v) = u :: split_path v.
Proof.
  induction u as [|c u IH]; [done|]. intros [Hp Hs]%orb_false_iff. change (String c u +:+ "/" +:+ v) with (String c (u +:+ "/" +:+ v)).
  cbn [split_path]. destruct (Ascii.eqb c "/") eqn:E.
  - apply Ascii.eqb_eq in E as ->. by destruct u.
  - by rewrite IH.
Qed.

Section RefConn.
Context {B S V T : Type} `{SdkMath, SdkCoins, SdkAddress, SdkQuery, EthBridge.EthCommon, EthBridge.IntText, Dispensation.GogoTypes,
  !BankKeeper B, !EthBridge.AccountKeeper B, !Oracle.StakingKeeper S V, !Oracle.MapOrder, !JsonTypes}.

(** A node that answers from one state. *)
Definition RefConn (h : Z) (a : App B S T) : QueryConn := {|
  QueryWithData route data :=
    match split_path route with
    | ["custom"; module; endpoint] =>
        match LegacyQuerierHandler h a module with
        | Some q => let! bz := q [endpoint] data in Ok (bz, h)
        | None => Err ErrUnknownRequest
        end
    | _ => Err ErrUnknownRequest
    end
|}.

Lemma RefConn_serves h (a : App B S T) (conn := RefConn h a) : serves h h a.
Proof.
  subst conn.
  intros route endpoint data q Hq He%split_path_plain.
  assert (split_path ("custom/" +:+ route +:+ "/" +:+ endpoint) = ["custom"; route; endpoint]) as Hp.
  { change ("custom/" +:+ route +:+ "/" +:+ endpoint) with ("custom" +:+ "/" +:+ (route +:+ "/" +:+ endpoint)).
    rewrite split_path_app, split_path_app, He; [done| |done]. revert Hq. unfold LegacyQuerierHandler.
    do 4 (case_match eqn:E; [apply String.eqb_eq in E as ->; by intros _|clear E]). done. }
  unfold QueryWithData, RefConn. rewrite Hp. rewrite Hq. destruct (q [endpoint] data); [done|by eexists|done].
Qed.
End RefConn.

(** Flags by name with their type and text. *)
Definition RefFlags : FlagSet (list (string * string)) := {|
  flag_type fs name := snd <$> find (fun kv => String.eqb kv.1 name) fs;
  flag_String name fs := (name, "string") :: fs;
  GetInt64 fs name := match find (fun kv => String.eqb kv.1 name) fs with Some (_, "int64") => Ok 0 | _ => Err ErrNumber end;
  GetString fs name := match find (fun kv => String.eqb kv.1 name) fs with Some (_, "string") => Ok "" | _ => Err ErrNumber end;
  GetBool fs name := match find (fun kv => String.eqb kv.1 name) fs with Some (_, "bool") => Ok true | _ => Err ErrNumber end;
|}.
Lemma RefFlags_laws : @FlagSetLaws _ RefFlags.
Proof.
  split; intros; cbn in *.
  - rewrite (String.eqb_sym n). by destruct (String.eqb name n).
  - destruct (find _ fs) as [[k t]|]; [|done]. cbn. repeat case_match; try done.
Qed.

(** ** Examples *)

Section Examples.
#[local] Existing Instances RefMath RefCoins RefAddress RefQuery RefBank EthBridge.RefEth EthBridge.RefIntText Oracle.RefOrder
  Dispensation.RefGogoTypes IbcTransfer.RefIbcTypes IbcTransfer.RefTransferKeeper EthBridge.ex_accounts Oracle.ex_staking
  RefSdkGenesis RefModuleAccounts RefTypes RefConn.
#[local] Existing Instances RefMath_laws RefCoins_laws RefAddress_laws RefAddress_text RefAccounts_distinct RefQuery_laws
  RefBank_laws RefBank_valid EthBridge.RefEth_laws EthBridge.RefIntText_laws Oracle.RefOrder_laws Oracle.ex_staking_laws
  RefTransferKeeper_laws RefSdkGenesis_laws RefModuleAccounts_laws RefTypes_laws.

Definition ex_state : App RefB unit unit := ex_after ex_run.
#[local] Instance ex_conn : QueryConn := RefConn (S := unit) (V := Oracle.ExValidator) 7 ex_state.
#[local] Instance ex_context : CommandContext := {|
  GetClientQueryContext := Ok tt; GetClientTxContext := Ok tt; ReadPersistentCommandFlags := Ok tt; ReadPageRequest := Ok (mkPageRequest "" 0 100) |}.

Definition ex_get : HttpGet :=
  mkHttpGet (fun name => if String.eqb name "symbol" then "ceth" else if String.eqb name "lpAddress" then "sif1alice"
    else if String.eqb name "limit" then "100" else "") true.

Lemma ex_serves : serves (V := Oracle.ExValidator) 7 7 ex_state.
Proof. apply RefConn_serves. Qed.
Lemma ex_has_context : GetClientQueryContext = Ok tt.
Proof. reflexivity. Qed.
Lemma ex_pool_stored : is_Some (clp_pools (app_clp ex_state) !! native_key "ceth").
Proof. vm_compute. by eexists. Qed.
Lemma ex_few_pools : Z.of_nat (size (clp_pools (app_clp ex_state))) < MaxPageLimit.
Proof. by vm_compute. Qed.
Lemma ex_few_providers : Z.of_nat (size (clp_lps (app_clp ex_state))) < 100 <= MaxPageLimit.
Proof. by vm_compute. Qed.
Definition ex_the_pool : Pool := default (mkPool None 0 0 0) (clp_pools (app_clp ex_state) !! native_key "ceth").
Definition ex_the_provider : LiquidityProvider :=
  default (mkLiquidityProvider None 0 "") (clp_lps (app_clp ex_state) !! GetLiquidityProviderKey "ceth" "sif1alice").
Lemma ex_pool_is : clp_pools (app_clp ex_state) !! native_key "ceth" = Some ex_the_pool.
Proof. destruct ex_pool_stored as [p E]. unfold ex_the_pool. by rewrite E. Qed.
Lemma ex_provider_is : clp_lps (app_clp ex_state) !! GetLiquidityProviderKey "ceth" "sif1alice" = Some ex_the_provider.
Proof. by vm_compute. Qed.
Lemma ex_pool_numbers : 0 < LiquidityProviderUnits ex_the_provider <= PoolUnits ex_the_pool /\ PoolUnits ex_the_pool < 2 ^ 190
  /\ 0 <= NativeAssetBalance ex_the_pool < 2 ^ 190 /\ 0 <= ExternalAssetBalance ex_the_pool < 2 ^ 190.
Proof. by vm_compute. Qed.

(** What a route replied, read back. *)
Definition answers {Y} `{JsonCodec Y} (reply : res (Reply string)) (y : Y) : Prop :=
  exists t, reply = Ok (DataReply 7 t) /\ UnmarshalJSON t = Ok y.

Lemma clp_rest_queries_witness :
  answers (getPoolHandler ex_get) (ex_the_pool, 7, AccAddress_String GetCLPModuleAddress)
  /\ (exists n e, answers (getLiquidityProviderHandler ex_get) (mkLPRes ex_the_provider 7 (big_String n) (big_String e))
       /\ pro_rata (NativeAssetBalance ex_the_pool) (PoolUnits ex_the_pool) (LiquidityProviderUnits ex_the_provider) n)
  /\ (exists pools page, answers (getPoolsHandler ex_get) (pools, 7, AccAddress_String GetCLPModuleAddress, page) /\ ex_the_pool ∈ pools)
  /\ (exists l, answers (getLpListHandler ex_get) l /\ lists_providers "ceth" l ex_state)
  /\ exists l, answers (getAssetsHandler ex_get) l /\ lists_assets "sif1alice" l ex_state.
Proof.
  destruct (clp_rest_queries (V := Oracle.ExValidator) 7 7 ex_state (ex_dust ex_run) ex_get ex_run_reachable ex_serves eq_refl) as (Hp & Hl & Hpages).
  change (url_query ex_get "symbol") with "ceth" in *. change (url_query ex_get "lpAddress") with "sif1alice" in *.
  change (url_uint ex_get "limit") with (Ok 100 : res Z) in Hpages. change (url_uint ex_get "offset") with (Ok 0 : res Z) in Hpages.
  change (AccAddressFromBech32 "sif1alice") with (Ok "alice" : res string) in *. destruct Hpages as (Hps & Hls & Has).
  split; [|split; [|split; [|split]]].
  - specialize (Hp I). rewrite ex_pool_is in Hp. destruct Hp as [_ Hp]. exact (Hp I).
  - specialize (Hl I). change (AccAddress_String "alice") with "sif1alice" in Hl. rewrite ex_provider_is, ex_pool_is in Hl.
    destruct ex_pool_numbers as (H1' & H2' & H3' & H4'). destruct (Hl H1' H2' H3' H4') as (n & e & Hn & _ & Hr).
    exists n, e. split; [exact (Hr I)|exact Hn].
  - destruct (Hps I ex_few_pools) as (pools & page & Hlist & Hr). exists pools, page. split; [exact (Hr I)|].
    apply Hlist. exists (native_key "ceth"). exact ex_pool_is.
  - destruct (Hls I) as [_ Hls']. destruct (Hls' eq_refl ex_few_providers) as (l & Hlist & Hr). exists l. split; [exact (Hr I)|exact Hlist].
  - destruct (Has I) as [_ Has']. destruct ex_few_providers as [H1' H2'].
    destruct (Has' H2' (Z.lt_le_trans _ _ _ H1' H2')) as (l & Hlist & Hr). exists l. split; [exact (Hr I)|exact Hlist].
Defined.

Lemma distribution_queries_witness :
  GetCmdDistributions [] = Ok (mkQueryAllDistributionsResponse (Dispensation.GetDistributions (disp_view ex_state)) 7)
  /\ exists l, GetCmdDistributionRecordForRecipient ["sif1bob"] = Ok (mkQueryRecordsByRecipientAddrResponse (mkDistributionRecords l) 7)
       /\ lists l ex_state (fun dr => String.eqb (Dispensation.DR_Recipient dr) "sif1bob").
Proof.
  destruct (distribution_queries (V := Oracle.ExValidator) 7 7 ex_state (ex_dust ex_run) ex_run_reachable ex_serves ex_has_context) as (Hd & Hr & _).
  split; [exact (Hd I)|]. destruct (Hr "sif1bob" "bob" eq_refl) as (l & Hl & Hc). exists l. split; [exact (Hc I I)|exact Hl].
Defined.
End Examples.
End Queriers.
