(* ===== verification/TxClient.v ===== *)
(** * The clients that make transactions

    The transaction commands of x/clp, x/ethbridge, x/dispensation and x/tokenregistry
    (client/cli/tx.go), their REST counterparts (client/rest/tx.go, x/ethbridge/client/rest/rest.go),
    and the commands that print registry files (x/tokenregistry/client/cli/query.go).

    A command runs on an [Invocation], what cobra and the SDK make of the command line, and its
    state is the list of messages handed to [tx.GenerateOrBroadcastTxCLI], each with the two
    accounts of the client context.  What becomes of a message there is a parameter. *)

From Stdlib Require Import ZArith Lia Ascii String.
From stdpp Require Import base list gmap strings.
From S2P Require Import Prelude SdkMath Sdk Frames TokenRegistry ClpTypes ClpCalc ClpKeeper ClpMsgServer ClpGenesis Json Oracle OracleGenesis EthBridge Dispensation IbcTransfer AppFrames App GenesisFile Queriers.

Module TxClient.
Import App GenesisFile Queriers.
#[local] Existing Instance TokenRegistry.Keeper.

(** ** The command line *)

(** The arguments; the text flags, as the command's own flags and as viper see them; and the
    account of [--from], when the client context can be made. *)
Record Invocation := mkInvocation {
  inv_args : list string;
  inv_flag : string -> res string;
  inv_viper : string -> string;
  inv_from : res string;
}.

(** The two accounts of a client context: the one of the key that [--from] names, which is the
    key that signs, and the one whose number and sequence the transaction carries. *)
Record ClientContext := mkClientContext { FromName : string; FromAddress : string }.
Definition client_context (from : string) : ClientContext := mkClientContext from from.
Definition WithFromAddress (addr : string) (ctx : ClientContext) : ClientContext := mkClientContext (FromName ctx) addr.

Class TxClient := { tx_result : ClientContext -> AppMsg -> res unit }.

(** The JSON files of the commands: [encoding/json] on the structures of the SDK and of x/ethbridge. *)
Class TxJson := {
  UnmarshalOutputs : string -> res (list Dispensation.Output);
  UnmarshalInputs : string -> res (list Dispensation.Output);
  UnmarshalBlacklist : string -> res EthBridge.MsgSetBlacklist;
}.

Abbreviation Sent := (list (ClientContext * AppMsg)).
Abbreviation CM := (M Sent).

Definition FlagAssetSymbol : string := "symbol".
Definition FlagSentAssetSymbol : string := "sentSymbol".
Definition FlagReceivedAssetSymbol : string := "receivedSymbol".
Definition FlagNativeAssetAmount : string := "nativeAmount".
Definition FlagExternalAssetAmount : string := "externalAmount".
Definition FlagWBasisPoints : string := "wBasis".
Definition FlagAsymmetry : string := "asymmetry".
Definition FlagAmount : string := "sentAmount".
Definition FlagMinimumReceivingAmount : string := "minReceivingAmount".

Definition ErrOverFlow : GoError := RegisteredErr "clp" 24.
Definition cli_error (text : string) : GoError := PlainErr text.

Definition ClaimType_value (name : string) : option EthBridge.ClaimType :=
  if String.eqb name "CLAIM_TYPE_UNSPECIFIED" then Some EthBridge.CLAIM_TYPE_UNSPECIFIED
  else if String.eqb name "CLAIM_TYPE_BURN" then Some EthBridge.CLAIM_TYPE_BURN
  else if String.eqb name "CLAIM_TYPE_LOCK" then Some EthBridge.CLAIM_TYPE_LOCK
  else None.

(** The regular expression [^[0-9]+$]. *)
Definition digitCheck (s : string) : bool := negb (String.eqb s "") && all_digits s.

(** [ok] of a conversion, with the error returned when it is false. *)
Definition or_throw {A} (o : option A) (e : GoError) : CM A :=
  match o with Some x => mret x | None => mthrow e end.

Section Commands.
Context {B S V T : Type} `{SdkMath, SdkCoins, SdkAddress, SdkQuery, EthBridge.EthCommon, EthBridge.IntText, Dispensation.GogoTypes,
  IbcTransfer.IbcTypes, FileSystem, RegistryJson, !TxClient, !TxJson}.

(** *** Handing a message over *)

Definition GenerateOrBroadcastTxCLI (ctx : ClientContext) (m : AppMsg) : CM unit :=
  fun sent => (sent ++ [(ctx, m)], tx_result ctx m).

(** [if err := msg.ValidateBasic(); err != nil { return err }], then the call above. *)
Definition check_and_send (ctx : ClientContext) (m : AppMsg) : CM unit :=
  do! m <- mlift (ValidateBasic m);
  GenerateOrBroadcastTxCLI ctx m.

(** *** x/clp *)

Definition GetCmdCreatePool (i : Invocation) : CM unit :=
  do! signer <- mlift (inv_from i);
  do! assetSymbol <- mlift (inv_flag i FlagAssetSymbol);
  do! externalAmount <- mlift (inv_flag i FlagExternalAssetAmount);
  do! nativeAmount <- mlift (inv_flag i FlagNativeAssetAmount);
  let asset := NewAsset assetSymbol in
  do! native <- mlift (NewUintFromString nativeAmount);
  do! external <- mlift (NewUintFromString externalAmount);
  check_and_send (client_context signer) (ClpMsg (CreatePoolMsg (NewMsgCreatePool signer asset native external))).

Definition GetCmdDecommissionPool (i : Invocation) : CM unit :=
  do! signer <- mlift (inv_from i);
  let symbol := inv_viper i FlagAssetSymbol in
  check_and_send (client_context signer) (ClpMsg (DecommissionPoolMsg (NewMsgDecommissionPool signer symbol))).

Definition GetCmdAddLiquidity (i : Invocation) : CM unit :=
  do! signer <- mlift (inv_from i);
  let externalAsset := NewAsset (inv_viper i FlagAssetSymbol) in
  let externalAmount := inv_viper i FlagExternalAssetAmount in
  let nativeAmount := inv_viper i FlagNativeAssetAmount in
  do! native <- mlift (NewUintFromString nativeAmount);
  do! external <- mlift (NewUintFromString externalAmount);
  check_and_send (client_context signer) (ClpMsg (AddLiquidityMsg (NewMsgAddLiquidity signer externalAsset native external))).

Definition GetCmdRemoveLiquidity (i : Invocation) : CM unit :=
  do! signer <- mlift (inv_from i);
  let externalAsset := NewAsset (inv_viper i FlagAssetSymbol) in
  let wb := inv_viper i FlagWBasisPoints in
  let as' := inv_viper i FlagAsymmetry in
  do! wBasis <- or_throw (NewIntFromString wb) ErrOverFlow;
  do! asymmetry <- or_throw (NewIntFromString as') ErrOverFlow;
  check_and_send (client_context signer) (ClpMsg (RemoveLiquidityMsg (NewMsgRemoveLiquidity signer externalAsset wBasis asymmetry))).

Definition GetCmdSwap (i : Invocation) : CM unit :=
  do! signer <- mlift (inv_from i);
  let sentAsset := NewAsset (inv_viper i FlagSentAssetSymbol) in
  let receivedAsset := NewAsset (inv_viper i FlagReceivedAssetSymbol) in
  let sentAmount := inv_viper i FlagAmount in
  let minReceivingAmount := inv_viper i FlagMinimumReceivingAmount in
  do! sent <- mlift (NewUintFromString sentAmount);
  do! minReceiving <- mlift (NewUintFromString minReceivingAmount);
  check_and_send (client_context signer) (ClpMsg (SwapMsg (NewMsgSwap signer sentAsset receivedAsset sent minReceiving))).

(** *** x/ethbridge *)

(** An unknown claim type, like an amount that [NewIntFromString] refuses in the two commands
    after it, ends the command with the [err] of the call before: no error, and nothing sent. *)
Definition GetCmdCreateEthBridgeClaim (i : Invocation) : CM unit :=
  run! mlift (ExactArgs 8 (inv_args i));
  do! from <- mlift (inv_from i);
  do! ethereumChainIDStr <- mlift (inv_flag i FlagEthereumChainID);
  do! ethereumChainID <- mlift (Atoi ethereumChainIDStr);
  do! tokenContractString <- mlift (inv_flag i FlagTokenContractAddr);
  run! mfail_if (negb (EthBridge.IsHexAddress tokenContractString)) (cli_error "invalid [token-contract-address]");
  let tokenContract := EthBridge.NewEthereumAddress tokenContractString in
  do! contract <- mlift (arg (inv_args i) 0);
  run! mfail_if (negb (EthBridge.IsHexAddress contract)) (cli_error "invalid [bridge-registry-contract]");
  let bridgeContract := EthBridge.NewEthereumAddress contract in
  do! nonceText <- mlift (arg (inv_args i) 1);
  do! nonce <- mlift (Atoi nonceText);
  do! symbol <- mlift (arg (inv_args i) 2);
  do! sender <- mlift (arg (inv_args i) 3);
  let ethereumSender := EthBridge.NewEthereumAddress sender in
  run! mfail_if (negb (EthBridge.IsHexAddress sender)) (cli_error "invalid [ethereum-sender-address]");
  do! receiver <- mlift (arg (inv_args i) 4);
  do! cosmosReceiver <- mlift (AccAddressFromBech32 receiver);
  do! validatorText <- mlift (arg (inv_args i) 5);
  do! validator <- mlift (ValAddressFromBech32 validatorText);
  do! amountText <- mlift (arg (inv_args i) 6);
  run! mfail_if (negb (digitCheck amountText)) EthBridge.ErrInvalidAmount;
  do! bigIntAmount <- or_throw (NewIntFromString amountText) EthBridge.ErrInvalidAmount;
  run! mfail_if (bigIntAmount <=? 0) EthBridge.ErrInvalidAmount;
  do! typeText <- mlift (arg (inv_args i) 7);
  match ClaimType_value typeText with
  | None => mret tt
  | Some ct =>
      let ethBridgeClaim := EthBridge.NewEthBridgeClaim ethereumChainID bridgeContract nonce symbol tokenContract
                              ethereumSender cosmosReceiver validator bigIntAmount ct in
      check_and_send (client_context from) (BridgeMsg (EthBridge.CreateMsg (EthBridge.NewMsgCreateEthBridgeClaim (Some ethBridgeClaim))))
  end.

Definition GetCmdBurn (i : Invocation) : CM unit :=
  run! mlift (ExactArgs 5 (inv_args i));
  do! from <- mlift (inv_from i);
  do! ethereumChainIDStr <- mlift (inv_flag i FlagEthereumChainID);
  do! ethereumChainID <- mlift (Atoi ethereumChainIDStr);
  do! senderText <- mlift (arg (inv_args i) 0);
  do! cosmosSender <- mlift (AccAddressFromBech32 senderText);
  do! receiverText <- mlift (arg (inv_args i) 1);
  run! mfail_if (negb (EthBridge.IsHexAddress receiverText)) (cli_error "invalid [ethereum-receiver-address]");
  let ethereumReceiver := EthBridge.NewEthereumAddress receiverText in
  do! amountText <- mlift (arg (inv_args i) 2);
  run! mfail_if (negb (digitCheck amountText)) EthBridge.ErrInvalidAmount;
  match NewIntFromString amountText with
  | None => mret tt
  | Some amount =>
      run! mfail_if (amount <=? 0) EthBridge.ErrInvalidAmount;
      do! symbol <- mlift (arg (inv_args i) 3);
      do! cethText <- mlift (arg (inv_args i) 4);
      do! cethAmount <- or_throw (NewIntFromString cethText) (cli_error "Error parsing ceth amount");
      check_and_send (client_context from) (BridgeMsg (EthBridge.BurnMsg
        (EthBridge.NewMsgBurn ethereumChainID cosmosSender ethereumReceiver amount symbol cethAmount)))
  end.

(** The account whose number and sequence are used becomes the sender; the key stays the one of
    [--from]. *)
Definition GetCmdLock (i : Invocation) : CM unit :=
  run! mlift (ExactArgs 5 (inv_args i));
  do! from <- mlift (inv_from i);
  do! senderText <- mlift (arg (inv_args i) 0);
  do! cosmosSender <- mlift (AccAddressFromBech32 senderText);
  let ctx := WithFromAddress cosmosSender (client_context from) in
  do! ethereumChainIDStr <- mlift (inv_flag i FlagEthereumChainID);
  do! ethereumChainID <- mlift (Atoi ethereumChainIDStr);
  do! receiverText <- mlift (arg (inv_args i) 1);
  run! mfail_if (negb (EthBridge.IsHexAddress receiverText)) (cli_error "invalid [ethereum-receiver-address]");
  let ethereumReceiver := EthBridge.NewEthereumAddress receiverText in
  do! amountText <- mlift (arg (inv_args i) 2);
  run! mfail_if (negb (digitCheck amountText)) EthBridge.ErrInvalidAmount;
  match NewIntFromString amountText with
  | None => mret tt
  | Some amount =>
      run! mfail_if (amount <=? 0) EthBridge.ErrInvalidAmount;
      do! symbol <- mlift (arg (inv_args i) 3);
      do! cethText <- mlift (arg (inv_args i) 4);
      do! cethAmount <- or_throw (NewIntFromString cethText) (cli_error "Error parsing ceth amount");
      check_and_send ctx (BridgeMsg (EthBridge.LockMsg
        (EthBridge.NewMsgLock ethereumChainID cosmosSender ethereumReceiver amount symbol cethAmount)))
  end.

Definition GetCmdUpdateWhiteListValidator (i : Invocation) : CM unit :=
  run! mlift (ExactArgs 3 (inv_args i));
  do! from <- mlift (inv_from i);
  do! senderText <- mlift (arg (inv_args i) 0);
  do! cosmosSender <- mlift (AccAddressFromBech32 senderText);
  do! validatorText <- mlift (arg (inv_args i) 1);
  do! validatorAddress <- mlift (ValAddressFromBech32 validatorText);
  do! operationType <- mlift (arg (inv_args i) 2);
  run! mfail_if (negb (String.eqb operationType "add") && negb (String.eqb operationType "remove")) (cli_error "invalid [operation-type]");
  check_and_send (client_context from) (BridgeMsg (EthBridge.UpdateWhiteListMsg
    (EthBridge.NewMsgUpdateWhiteListValidator cosmosSender validatorAddress operationType))).

Definition GetCmdUpdateCethReceiverAccount (i : Invocation) : CM unit :=
  run! mlift (ExactArgs 2 (inv_args i));
  do! from <- mlift (inv_from i);
  do! senderText <- mlift (arg (inv_args i) 0);
  do! cosmosSender <- mlift (AccAddressFromBech32 senderText);
  do! receiverText <- mlift (arg (inv_args i) 1);
  do! cethReceiverAccount <- mlift (AccAddressFromBech32 receiverText);
  check_and_send (client_context from) (BridgeMsg (EthBridge.UpdateCethReceiverMsg
    (EthBridge.NewMsgUpdateCethReceiverAccount cosmosSender cethReceiverAccount))).

Definition GetCmdRescueCeth (i : Invocation) : CM unit :=
  run! mlift (ExactArgs 3 (inv_args i));
  do! from <- mlift (inv_from i);
  do! senderText <- mlift (arg (inv_args i) 0);
  do! cosmosSender <- mlift (AccAddressFromBech32 senderText);
  do! receiverText <- mlift (arg (inv_args i) 1);
  do! cethReceiverAccount <- mlift (AccAddressFromBech32 receiverText);
  do! cethText <- mlift (arg (inv_args i) 2);
  do! cethAmount <- or_throw (NewIntFromString cethText) (cli_error "Error parsing ceth amount");
  check_and_send (client_context from) (BridgeMsg (EthBridge.RescueMsg
    (EthBridge.NewMsgRescueCeth cosmosSender cethReceiverAccount cethAmount))).

(** The sender named in the file is replaced. *)
Definition GetCmdSetBlacklist (i : Invocation) : CM unit :=
  run! mlift (ExactArgs 1 (inv_args i));
  do! from <- mlift (inv_from i);
  do! path <- mlift (arg (inv_args i) 0);
  do! file <- mlift (Abs path);
  do! contents <- mlift (ReadFile file);
  do! msg <- mlift (UnmarshalBlacklist contents);
  check_and_send (client_context from) (BridgeMsg (EthBridge.BlacklistMsg
    (EthBridge.mkMsgSetBlacklist (AccAddress_String from) (EthBridge.Blacklist_Addresses msg)))).

(** *** x/dispensation *)

Definition ParseInput (fp : string) : res (list Dispensation.Output) :=
  let! file := Abs fp in
  let! input := ReadFile file in
  UnmarshalInputs input.
Definition ParseOutput (fp : string) : res (list Dispensation.Output) :=
  let! file := Abs fp in
  let! o := ReadFile file in
  UnmarshalOutputs o.

Definition ErrInvalidDistributionType : GoError :=
  PlainErr "invalid distribution Type: Types supported [Airdrop/LiquidityMining/ValidatorSubsidy]".

Definition GetCmdCreate (i : Invocation) : CM unit :=
  do! from <- mlift (inv_from i);
  run! mlift (ExactArgs 3 (inv_args i));
  do! typeText <- mlift (arg (inv_args i) 0);
  let '(distributionType, ok) := Dispensation.GetDistributionTypeFromShortString typeText in
  run! mfail_if (negb ok) ErrInvalidDistributionType;
  do! path <- mlift (arg (inv_args i) 1);
  do! outputList <- mlift (ParseOutput path);
  do! runner <- mlift (arg (inv_args i) 2);
  check_and_send (client_context from) (DispMsg (Dispensation.CreateDistributionMsg
    (Dispensation.NewMsgCreateDistribution from distributionType outputList runner))).

Definition GetCmdClaim (i : Invocation) : CM unit :=
  do! from <- mlift (inv_from i);
  run! mlift (ExactArgs 1 (inv_args i));
  do! typeText <- mlift (arg (inv_args i) 0);
  let '(claimType, ok) := Dispensation.GetClaimType typeText in
  run! mfail_if (negb ok) ErrInvalidClaimType;
  check_and_send (client_context from) (DispMsg (Dispensation.CreateUserClaimMsg (Dispensation.NewMsgCreateUserClaim from claimType))).

Definition GetCmdRun (i : Invocation) : CM unit :=
  do! from <- mlift (inv_from i);
  run! mlift (ExactArgs 2 (inv_args i));
  do! typeText <- mlift (arg (inv_args i) 1);
  let '(distributionType, ok) := Dispensation.GetDistributionTypeFromShortString typeText in
  run! mfail_if (negb ok) ErrInvalidDistributionType;
  do! name <- mlift (arg (inv_args i) 0);
  check_and_send (client_context from) (DispMsg (Dispensation.RunDistributionMsg
    (Dispensation.NewMsgRunDistribution (AccAddress_String from) name distributionType))).

(** *** x/tokenregistry *)

Definition ErrNoEntry : GoError := PlainErr "at least one token entry must be specified in input file".
Definition ErrOneEntry : GoError := PlainErr "exactly one token entry must be specified in input file".

Definition register_msg (from : string) (entry : option TokenRegistry.RegistryEntry) : AppMsg :=
  RegistryMsg (TokenRegistry.Msg_Register (TokenRegistry.mkMsgRegister (AccAddress_String from) entry)).
Definition deregister_msg (from denom : string) : AppMsg :=
  RegistryMsg (TokenRegistry.Msg_Deregister (TokenRegistry.mkMsgDeregister (AccAddress_String from) denom)).

Definition GetCmdRegisterAll (i : Invocation) : CM unit :=
  do! from <- mlift (inv_from i);
  run! mlift (ExactArgs 1 (inv_args i));
  do! path <- mlift (arg (inv_args i) 0);
  do! registry <- mlift (ParseDenoms path);
  run! mfail_if (length (TokenRegistry.Entries registry) <? 1)%nat ErrNoEntry;
  mfor (TokenRegistry.Entries registry) (fun entry => check_and_send (client_context from) (register_msg from entry)).

Definition GetCmdRegister (i : Invocation) : CM unit :=
  do! from <- mlift (inv_from i);
  run! mlift (ExactArgs 1 (inv_args i));
  do! path <- mlift (arg (inv_args i) 0);
  do! registry <- mlift (ParseDenoms path);
  match TokenRegistry.Entries registry with
  | [entry] => check_and_send (client_context from) (register_msg from entry)
  | _ => mthrow ErrOneEntry
  end.

(** Like [register], it refuses a file with more than one entry. *)
Definition GetCmdSetRegistry (i : Invocation) : CM unit :=
  do! from <- mlift (inv_from i);
  run! mlift (ExactArgs 1 (inv_args i));
  do! path <- mlift (arg (inv_args i) 0);
  do! registry <- mlift (ParseDenoms path);
  run! mfail_if (negb (length (TokenRegistry.Entries registry) =? 1)%nat) ErrOneEntry;
  check_and_send (client_context from) (RegistryMsg (TokenRegistry.Msg_SetRegistry
    (TokenRegistry.mkMsgSetRegistry (AccAddress_String from) (Some registry)))).

Definition GetCmdDeregister (i : Invocation) : CM unit :=
  do! from <- mlift (inv_from i);
  run! mlift (ExactArgs 1 (inv_args i));
  do! denom <- mlift (arg (inv_args i) 0);
  check_and_send (client_context from) (deregister_msg from denom).

(** A null entry of the file is dereferenced. *)
Definition GetCmdDeregisterAll (i : Invocation) : CM unit :=
  do! from <- mlift (inv_from i);
  run! mlift (ExactArgs 1 (inv_args i));
  do! path <- mlift (arg (inv_args i) 0);
  do! registry <- mlift (ParseDenoms path);
  run! mfail_if (length (TokenRegistry.Entries registry) <? 1)%nat ErrNoEntry;
  mfor (TokenRegistry.Entries registry) (fun entry =>
    do! entry <- mlift (deref entry);
    check_and_send (client_context from) (deregister_msg from (TokenRegistry.Denom entry))).

(** *** The commands by name *)

Definition tx_commands : list (string * string * (Invocation -> CM unit)) :=
  [("clp", "create-pool", GetCmdCreatePool);
   ("clp", "decommission-pool", GetCmdDecommissionPool);
   ("clp", "add-liquidity", GetCmdAddLiquidity);
   ("clp", "remove-liquidity", GetCmdRemoveLiquidity);
   ("clp", "swap", GetCmdSwap);
   ("ethbridge", "create-claim", GetCmdCreateEthBridgeClaim);
   ("ethbridge", "burn", GetCmdBurn);
   ("ethbridge", "lock", GetCmdLock);
   ("ethbridge", "update_whitelist_validator", GetCmdUpdateWhiteListValidator);
   ("ethbridge", "update_ceth_receiver_account", GetCmdUpdateCethReceiverAccount);
   ("ethbridge", "rescue_ceth", GetCmdRescueCeth);
   ("ethbridge", "set-blacklist", GetCmdSetBlacklist);
   ("dispensation", "create", GetCmdCreate);
   ("dispensation", "claim", GetCmdClaim);
   ("dispensation", "run", GetCmdRun);
   ("tokenregistry", "register-all", GetCmdRegisterAll);
   ("tokenregistry", "register", GetCmdRegister);
   ("tokenregistry", "set-registry", GetCmdSetRegistry);
   ("tokenregistry", "deregister", GetCmdDeregister);
   ("tokenregistry", "deregister-all", GetCmdDeregisterAll)].
End Commands.

(** ** REST *)

(** The body of a POST, when it can be read, and whether [BaseReq.ValidateBasic] accepts it; in
    either case the answer has been written when it is not so.  All numbers of the body are given. *)
Record Post (R : Type) := mkPost { post_body : option R; post_base_ok : bool }.
Arguments mkPost {_} _ _.
Arguments post_body {_} _.
Arguments post_base_ok {_} _.

(** The answer: an error with its status, or the transaction of a message, to be signed. *)
Inductive TxReply :=
| Refused (status : Z)
| Generated (m : AppMsg).

Record AddLiquidityReq := mkAddLiquidityReq {
  AddReq_Signer : string; AddReq_ExternalAsset : Asset; AddReq_Native : Z; AddReq_External : Z }.
Record RemoveLiquidityReq := mkRemoveLiquidityReq {
  RemReq_Signer : string; RemReq_ExternalAsset : Asset; RemReq_WBasisPoints : Z; RemReq_Asymmetry : Z }.
Record CreatePoolReq := mkCreatePoolReq {
  PoolReq_Signer : string; PoolReq_ExternalAsset : Asset; PoolReq_Native : Z; PoolReq_External : Z }.
Record DecommissionPoolReq := mkDecommissionPoolReq { DecReq_Signer : string; DecReq_Ticker : string }.
Record SwapReq := mkSwapReq {
  SwapReq_Signer : string; SwapReq_SentAsset : Asset; SwapReq_ReceivedAsset : Asset; SwapReq_Sent : Z; SwapReq_MinReceiving : Z }.
Record CreateClaimReq := mkCreateClaimReq { ClaimReq_Creator : string; ClaimReq_Type : Dispensation.DistributionType }.
Record createEthClaimReq := mkCreateEthClaimReq {
  EthClaim_ChainID : Z; EthClaim_BridgeContract : string; EthClaim_Nonce : Z; EthClaim_Symbol : string;
  EthClaim_TokenContract : string; EthClaim_Sender : string; EthClaim_Receiver : string; EthClaim_Validator : string;
  EthClaim_Amount : Z; EthClaim_Type : string }.
Record burnOrLockEthReq := mkBurnOrLockEthReq {
  BL_ChainID : string; BL_CosmosSender : string; BL_EthereumReceiver : string; BL_Amount : Z; BL_Symbol : string; BL_CethAmount : Z }.

Section Rest.
Context `{SdkMath, SdkCoins, SdkAddress, EthBridge.EthCommon, EthBridge.IntText, Dispensation.GogoTypes, IbcTransfer.IbcTypes}.

Definition or_refuse {A} (status : Z) (m : res A) (k : A -> res TxReply) : res TxReply :=
  match m with Ok x => k x | Err _ => Ok (Refused status) | Panic => Panic end.

(** [rest.ReadRESTReq] and the check of the base request. *)
Definition read_post {R} (p : Post R) (k : R -> res TxReply) : res TxReply :=
  match post_body p with
  | None => Ok (Refused StatusBadRequest)
  | Some req => if negb (post_base_ok p) then Ok (Refused StatusBadRequest) else k req
  end.

(** The check of the message, then [tx.WriteGeneratedTxResponse]. *)
Definition generate (m : AppMsg) : res TxReply :=
  or_refuse StatusBadRequest (ValidateBasic m) (fun m => Ok (Generated m)).

Definition createPoolHandler (p : Post CreatePoolReq) : res TxReply :=
  read_post p (fun req =>
  or_refuse StatusBadRequest (AccAddressFromBech32 (PoolReq_Signer req)) (fun signer =>
  generate (ClpMsg (CreatePoolMsg
    (NewMsgCreatePool signer (PoolReq_ExternalAsset req) (PoolReq_Native req) (PoolReq_External req)))))).

Definition decommissionPoolHandler (p : Post DecommissionPoolReq) : res TxReply :=
  read_post p (fun req =>
  or_refuse StatusBadRequest (AccAddressFromBech32 (DecReq_Signer req)) (fun signer =>
  generate (ClpMsg (DecommissionPoolMsg (NewMsgDecommissionPool signer (DecReq_Ticker req)))))).

Definition addLiquidityHandler (p : Post AddLiquidityReq) : res TxReply :=
  read_post p (fun req =>
  or_refuse StatusBadRequest (AccAddressFromBech32 (AddReq_Signer req)) (fun signer =>
  generate (ClpMsg (AddLiquidityMsg
    (NewMsgAddLiquidity signer (AddReq_ExternalAsset req) (AddReq_Native req) (AddReq_External req)))))).

Definition removeLiquidityHandler (p : Post RemoveLiquidityReq) : res TxReply :=
  read_post p (fun req =>
  or_refuse StatusBadRequest (AccAddressFromBech32 (RemReq_Signer req)) (fun signer =>
  generate (ClpMsg (RemoveLiquidityMsg
    (NewMsgRemoveLiquidity signer (RemReq_ExternalAsset req) (RemReq_WBasisPoints req) (RemReq_Asymmetry req)))))).

Definition swapHandler (p : Post SwapReq) : res TxReply :=
  read_post p (fun req =>
  or_refuse StatusBadRequest (AccAddressFromBech32 (SwapReq_Signer req)) (fun signer =>
  generate (ClpMsg (SwapMsg
    (NewMsgSwap signer (SwapReq_SentAsset req) (SwapReq_ReceivedAsset req) (SwapReq_Sent req) (SwapReq_MinReceiving req)))))).

(** x/dispensation. *)
Definition createClaimHandler (p : Post CreateClaimReq) : res TxReply :=
  read_post p (fun req =>
  or_refuse StatusBadRequest (AccAddressFromBech32 (ClaimReq_Creator req)) (fun signer =>
  generate (DispMsg (Dispensation.CreateUserClaimMsg (Dispensation.NewMsgCreateUserClaim signer (ClaimReq_Type req)))))).

(** x/ethbridge. *)
Definition createEthClaimHandler (p : Post createEthClaimReq) : res TxReply :=
  read_post p (fun req =>
  let bridgeContractAddress := EthBridge.NewEthereumAddress (EthClaim_BridgeContract req) in
  let tokenContractAddress := EthBridge.NewEthereumAddress (EthClaim_TokenContract req) in
  let ethereumSender := EthBridge.NewEthereumAddress (EthClaim_Sender req) in
  or_refuse StatusBadRequest (AccAddressFromBech32 (EthClaim_Receiver req)) (fun cosmosReceiver =>
  or_refuse StatusBadRequest (ValAddressFromBech32 (EthClaim_Validator req)) (fun validator =>
  match ClaimType_value (EthClaim_Type req) with
  | None => Ok (Refused StatusBadRequest)
  | Some ct =>
      generate (BridgeMsg (EthBridge.CreateMsg (EthBridge.NewMsgCreateEthBridgeClaim (Some
        (EthBridge.NewEthBridgeClaim (EthClaim_ChainID req) bridgeContractAddress (EthClaim_Nonce req) (EthClaim_Symbol req)
           tokenContractAddress ethereumSender cosmosReceiver validator (EthClaim_Amount req) ct)))))
  end))).

(** The two routes differ in the message; with any other word there would be none to check. *)
Definition burnOrLockHandler (lockOrBurn : string) (p : Post burnOrLockEthReq) : res TxReply :=
  read_post p (fun req =>
  or_refuse StatusInternalServerError (Atoi (BL_ChainID req)) (fun ethereumChainID =>
  or_refuse StatusBadRequest (AccAddressFromBech32 (BL_CosmosSender req)) (fun cosmosSender =>
  let ethereumReceiver := EthBridge.NewEthereumAddress (BL_EthereumReceiver req) in
  if String.eqb lockOrBurn "lock" then
    generate (BridgeMsg (EthBridge.LockMsg
      (EthBridge.NewMsgLock ethereumChainID cosmosSender ethereumReceiver (BL_Amount req) (BL_Symbol req) (BL_CethAmount req))))
  else if String.eqb lockOrBurn "burn" then
    generate (BridgeMsg (EthBridge.BurnMsg
      (EthBridge.NewMsgBurn ethereumChainID cosmosSender ethereumReceiver (BL_Amount req) (BL_Symbol req) (BL_CethAmount req))))
  else Panic))).
End Rest.

(** ** Registry files *)

Section RegistryFiles.
Context {F : Type} `{SdkAddress, IbcTransfer.IbcTypes, FileSystem, RegistryJson, !CommandContext, !FlagSet F}.

(** [generate]: the entry the flags describe. *)
Definition GetCmdGenerateEntry (flags : F) (args : list string) : res TokenRegistry.Registry :=
  let! _ := ExactArgs 0 args in
  let! _ := GetClientQueryContext in
  let! _ := ReadPersistentCommandFlags in
  let! decimals := GetInt64 flags "token_decimals" in
  let! initialDenom := GetString flags "token_denom" in
  let! baseDenom := GetString flags "token_base_denom" in
  let! unitDenom := GetString flags "token_unit_denom" in
  let! ibcChannelID := GetString flags "token_ibc_channel_id" in
  let! ibcCounterpartyChannelID := GetString flags "token_ibc_counterparty_channel_id" in
  let! ibcCounterpartyChainID := GetString flags "token_ibc_counterparty_chain_id" in
  let! ibcCounterpartyDenom := GetString flags "token_ibc_counterparty_denom" in
  let! displayName := GetString flags "token_display_name" in
  let! displaySymbol := GetString flags "token_display_symbol" in
  let! externalSymbol := GetString flags "token_external_symbol" in
  let! transferLimit := GetString flags "token_transfer_limit" in
  let! network := GetString flags "token_network" in
  let! address := GetString flags "token_address" in
  let! permissionCLP := GetBool flags "token_permission_clp" in
  let! permissionIBCExport := GetBool flags "token_permission_ibc_export" in
  let! permissionIBCImport := GetBool flags "token_permission_ibc_import" in
  let permissions := (if permissionCLP then [TokenRegistry.Permission_CLP] else [])
    ++ (if permissionIBCExport then [TokenRegistry.Permission_IBCEXPORT] else [])
    ++ (if permissionIBCImport then [TokenRegistry.Permission_IBCIMPORT] else []) in
  let! _ := fail_if (String.eqb ibcChannelID "" && String.eqb initialDenom "")
              (PlainErr "--token_denom must be specified if no IBC channel is provided") in
  let path := if String.eqb ibcChannelID "" then "" else "transfer/" +:+ ibcChannelID in
  let denom := if String.eqb initialDenom "" then IbcTransfer.IBCDenom (IbcTransfer.mkDenomTrace path baseDenom) else initialDenom in
  Ok (TokenRegistry.mkRegistry [Some (TokenRegistry.mkEntry decimals denom baseDenom path ibcChannelID ibcCounterpartyChannelID
    displayName displaySymbol network address externalSymbol transferLimit permissions unitDenom ibcCounterpartyDenom
    ibcCounterpartyChainID)]).

(** [add]: the first entry of the second file behind those of the first. *)
Definition GetCmdAddEntry (args : list string) : res TokenRegistry.Registry :=
  let! _ := ExactArgs 2 args in
  let! _ := GetClientQueryContext in
  let! path := arg args 0 in
  let! registry := ParseDenoms path in
  let! entryPath := arg args 1 in
  let! reg := ParseDenoms entryPath in
  match TokenRegistry.Entries reg with
  | [] => Panic
  | entryToAdd :: _ => Ok (TokenRegistry.mkRegistry (TokenRegistry.Entries registry ++ [entryToAdd]))
  end.

Definition conversion_denom (denom : string) : string :=
  if HasPrefix denom "c" then "x" +:+ str_drop 1 denom
  else if EqualFold denom "aku" then "xaku"
  else "".

Definition with_conversion (e : TokenRegistry.RegistryEntry) (counterparty : string) (permissions : list TokenRegistry.Permission)
    : TokenRegistry.RegistryEntry :=
  TokenRegistry.mkEntry (TokenRegistry.Decimals e) (TokenRegistry.Denom e) (TokenRegistry.BaseDenom e) (TokenRegistry.Path e)
    (TokenRegistry.IbcChannelId e) (TokenRegistry.IbcCounterpartyChannelId e) (TokenRegistry.DisplayName e)
    (TokenRegistry.DisplaySymbol e) (TokenRegistry.Network e) (TokenRegistry.Address e) (TokenRegistry.ExternalSymbol e)
    (TokenRegistry.TransferLimit e) permissions (TokenRegistry.UnitDenom e) counterparty (TokenRegistry.IbcCounterpartyChainId e).

(** What [add-all] makes of one entry: with more than ten decimals it gets a second entry, of
    ten, under which it travels. *)
Definition convert_entry (e : TokenRegistry.RegistryEntry) : list TokenRegistry.RegistryEntry :=
  if 10 <? TokenRegistry.Decimals e then
    let conversionDenom := conversion_denom (TokenRegistry.Denom e) in
    [with_conversion e conversionDenom [TokenRegistry.Permission_CLP; TokenRegistry.Permission_IBCEXPORT];
     TokenRegistry.mkEntry 10 conversionDenom conversionDenom "" "" "" "" "" "" "" "" ""
       [TokenRegistry.Permission_IBCIMPORT] (TokenRegistry.Denom e) "" ""]
  else [with_conversion e (TokenRegistry.IbcCounterpartyDenom e)
          [TokenRegistry.Permission_CLP; TokenRegistry.Permission_IBCEXPORT; TokenRegistry.Permission_IBCIMPORT]].

Definition GetCmdAddAllEntries (args : list string) : res TokenRegistry.Registry :=
  let! _ := ExactArgs 1 args in
  let! _ := GetClientQueryContext in
  let! path := arg args 0 in
  let! registry := ParseDenoms path in
  let! entries := rmap deref (TokenRegistry.Entries registry) in
  Ok (TokenRegistry.mkRegistry (Some <$> concat (convert_entry <$> entries))).
End RegistryFiles.

(** ** Lemmas *)

Section Lemmas.
Context `{SdkMathLaws, SdkCoinsLaws, SdkAddressLaws, !AddressTextLaws, SdkQuery, EthBridge.EthCommonLaws, EthBridge.IntText,
  Dispensation.GogoTypes, IbcTransfer.IbcTypes, FileSystem, RegistryJson, !TxClient, !TxJson}.
Implicit Types (m : AppMsg) (i : Invocation) (P : ClientContext * AppMsg -> Prop).

(** *** Commands that hand over at most one message *)

(** Nothing is handed over, or one message, and its fate is the result. *)
Definition hands P (c : CM unit) : Prop :=
  forall s s' r, c s = (s', r) -> s' = s \/ exists x, P x /\ s' = s ++ [x] /\ r = tx_result x.1 x.2.

Lemma hands_lift {A} P (r : res A) (k : A -> CM unit) :
  (forall x, r = Ok x -> hands P (k x)) -> hands P (do! x <- mlift r; k x).
Proof. intros Hk s s' r' Hr. unfold mbnd, mlift in Hr. destruct r as [x|e|]; [by eapply Hk|left; congruence..]. Qed.

Lemma hands_or_throw {A} P (o : option A) e (k : A -> CM unit) :
  (forall x, o = Some x -> hands P (k x)) -> hands P (do! x <- or_throw o e; k x).
Proof. intros Hk s s' r Hr. destruct o as [x|]; [by eapply Hk|left]. unfold mbnd, or_throw, mthrow in Hr. congruence. Qed.

Lemma hands_fail P b e (k : CM unit) : (b = false -> hands P k) -> hands P (run! mfail_if b e; k).
Proof. intros Hk s s' r Hr. destruct b; [left; unfold mbnd, mfail_if, mthrow in Hr; congruence|by eapply Hk]. Qed.

Lemma hands_ret P : hands P (mret tt).
Proof. intros s s' r [= <- <-]. by left. Qed.
Lemma hands_throw P e : hands P (mthrow e).
Proof. intros s s' r [= <- <-]. by left. Qed.

Lemma hands_send P ctx m :
  (forall m', ValidateBasic m = Ok m' -> P (ctx, m')) -> hands P (check_and_send ctx m).
Proof.
  intros Hp. apply hands_lift. intros m' Hm s s' r [= <- <-]. right. exists (ctx, m'). auto.
Qed.

Lemma hands_weaken P Q c : (forall x, P x -> Q x) -> hands P c -> hands Q c.
Proof. intros Hpq Hc s s' r [->|(x & Hx & ?)]%Hc; [by left|right; eauto]. Qed.

(** *** Commands that go through a file *)

Lemma hands_each {A} P (body : A -> CM unit) (l : list A) :
  (forall x, hands P (body x)) -> forall s s' r, mfor l body s = (s', r) -> exists sent, s' = s ++ sent /\ Forall P sent.
Proof.
  intros Hb. induction l as [|x l IH]; intros s s' r Hr; cbn [mfor] in Hr.
  - injection Hr as <- <-. exists []. by rewrite app_nil_r.
  - unfold mbnd in Hr. destruct (body x s) as [s1 r1] eqn:E.
    assert (exists sent, s1 = s ++ sent /\ Forall P sent) as (sent & -> & Hs).
    { destruct (Hb x _ _ _ E) as [->|(y & Hy & -> & _)]; [exists []; by rewrite app_nil_r|exists [y]; by repeat constructor]. }
    destruct r1 as [u|e|]; [|injection Hr as <- <-; eauto..]. apply IH in Hr as (sent' & -> & Hs').
    exists (sent ++ sent'). rewrite <- app_assoc. split; [done|by apply Forall_app].
Qed.

(** *** Who signs *)

Lemma ValidateBasic_signers m m' : ValidateBasic m = Ok m' -> GetSigners m' = GetSigners m.
Proof.
  destruct m as [m|m|m|m|m]; cbn [ValidateBasic]; try (intros (? & _ & [= <-])%rbind_ok_inv; reflexivity); [|by intros [= <-]].
  intros (d & Hd & [= <-])%rbind_ok_inv. destruct m as [m|m|m]; cbn [Dispensation.ValidateBasic] in Hd;
    apply rbind_ok_inv in Hd as (m1 & Hm & [= <-]); [|done..].
  unfold Dispensation.MsgCreateDistribution_ValidateBasic in Hm. go_inv. done.
Qed.

Lemma own_signer from : from <> "" -> (let! addr := panicOnErr (AccAddressFromBech32 (AccAddress_String from)) in Ok [addr]) = Ok [from].
Proof. intros Hf. by rewrite AccAddress_roundtrip. Qed.

(** *** What a command hands over *)

(** The commands of the bridge that take the account that has to sign as an argument. *)
Definition by_argument : list string :=
  ["burn"; "lock"; "update_whitelist_validator"; "update_ceth_receiver_account"; "rescue_ceth"].

(** The account whose signature a message of the command needs. *)
Definition needs_signature (name : string) (i : Invocation) (from s : string) : Prop :=
  if decide (name ∈ by_argument) then exists text, inv_args i !! 0%nat = Some text /\ AccAddressFromBech32 text = Ok s
  else if String.eqb name "create-claim" then exists text, inv_args i !! 5%nat = Some text /\ ValAddressFromBech32 text = Ok s
  else s = from.

Record handed (name : string) (i : Invocation) (from : string) (x : ClientContext * AppMsg) : Prop := {
  handed_valid : exists m, ValidateBasic m = Ok x.2;
  handed_key : FromName x.1 = from;
  handed_signer : exists s, GetSigners x.2 = Ok [s] /\ needs_signature name i from s
    /\ FromAddress x.1 = if String.eqb name "lock" then s else from;
}.

Ltac listed := apply list_elem_of_In; simpl; tauto.

Lemma arg_ok l n x : arg l n = Ok x -> l !! n = Some x.
Proof. unfold arg. destruct (l !! n); congruence. Qed.

Ltac hands_step :=
  lazymatch goal with
  | |- hands _ (mbnd (mlift _) _) => apply hands_lift; intros
  | |- hands _ (mbnd (or_throw _ _) _) => apply hands_or_throw; intros
  | |- hands _ (mbnd (mfail_if _ _) _) => apply hands_fail; intros
  | |- hands _ (mret tt) => apply hands_ret
  | |- hands _ (mthrow _) => apply hands_throw
  | |- hands _ (check_and_send _ _) => apply hands_send; intros
  | |- hands _ (let _ := _ in _) => cbv zeta
  | |- hands _ (match ?x with _ => _ end) => destruct x
  end.
Ltac hands_all :=
  unfold GetCmdCreatePool, GetCmdDecommissionPool, GetCmdAddLiquidity, GetCmdRemoveLiquidity, GetCmdSwap, GetCmdCreateEthBridgeClaim,
    GetCmdBurn, GetCmdLock, GetCmdUpdateWhiteListValidator, GetCmdUpdateCethReceiverAccount, GetCmdRescueCeth, GetCmdSetBlacklist,
    GetCmdCreate, GetCmdClaim, GetCmdRun, GetCmdRegister, GetCmdSetRegistry, GetCmdDeregister;
  repeat hands_step.

Lemma handed_intro name i from ctx m m' s :
  ValidateBasic m = Ok m' -> GetSigners m = Ok [s] -> needs_signature name i from s ->
  ctx = mkClientContext from (if String.eqb name "lock" then s else from) -> handed name i from (ctx, m').
Proof.
  intros Hv Hs Hn ->. constructor; cbn [fst snd FromName FromAddress]; [by eexists|done|].
  exists s. by rewrite (ValidateBasic_signers _ _ Hv).
Qed.

(** The commands whose messages the account of [--from] has to sign. *)
Definition signs_itself (name : string) : bool :=
  negb (bool_decide (name ∈ by_argument)) && negb (String.eqb name "create-claim").
Lemma handed_own name i from m m' :
  signs_itself name = true -> ValidateBasic m = Ok m' -> GetSigners m = Ok [from] -> handed name i from (client_context from, m').
Proof.
  intros [Hn%negb_true_iff%bool_decide_eq_false Hc%negb_true_iff]%andb_true_iff Hv Hs. apply (handed_intro _ _ _ _ m _ from); [done..| |].
  - unfold needs_signature. by rewrite decide_False, Hc.
  - destruct (String.eqb_spec name "lock") as [->|]; [|done]. destruct Hn. by do 1 right; left.
Qed.

(** The account of the client context, the only one there is. *)
Ltac same_account Hf := match goal with E : inv_from _ = Ok _ |- _ => rewrite Hf in E; injection E as <- end.

Lemma clp_commands_hand i from name c :
  from <> "" -> inv_from i = Ok from -> signs_itself name = true ->
  c ∈ [GetCmdCreatePool; GetCmdDecommissionPool; GetCmdAddLiquidity; GetCmdRemoveLiquidity; GetCmdSwap] -> hands (handed name i from) (c i).
Proof.
  intros Hne Hf Hn Hc. repeat (apply elem_of_cons in Hc as [->|Hc]; [hands_all|]); [..|by apply not_elem_of_nil in Hc].
  all: same_account Hf; eapply handed_own; [done|eassumption|by apply own_signer].
Qed.

Lemma disp_commands_hand i from name c :
  from <> "" -> inv_from i = Ok from -> signs_itself name = true ->
  c ∈ [GetCmdCreate; GetCmdClaim; GetCmdRun] -> hands (handed name i from) (c i).
Proof.
  intros Hne Hf Hn Hc. repeat (apply elem_of_cons in Hc as [->|Hc]; [hands_all|]); [..|by apply not_elem_of_nil in Hc].
  all: same_account Hf; eapply handed_own; [done|eassumption|by apply own_signer].
Qed.

Lemma registry_commands_hand i from name c :
  from <> "" -> inv_from i = Ok from -> signs_itself name = true ->
  c ∈ [GetCmdRegister; GetCmdSetRegistry; GetCmdDeregister; GetCmdSetBlacklist] -> hands (handed name i from) (c i).
Proof.
  intros Hne Hf Hn Hc. repeat (apply elem_of_cons in Hc as [->|Hc]; [hands_all|]); [..|by apply not_elem_of_nil in Hc].
  all: same_account Hf; eapply handed_own; [done|eassumption|by apply own_signer].
Qed.

Lemma sender_needed name i from s text :
  name ∈ by_argument -> arg (inv_args i) 0 = Ok text -> AccAddressFromBech32 text = Ok s -> needs_signature name i from s.
Proof. intros Hn Ha%arg_ok Hs. unfold needs_signature. rewrite decide_True by done. by exists text. Qed.

(** The signer of a message that was made for a decoded sender is that sender. *)
Lemma decoded_signer text s :
  AccAddressFromBech32 text = Ok s -> (let! addr := panicOnErr (AccAddressFromBech32 (AccAddress_String s)) in Ok [addr]) = Ok [s].
Proof. intros Hs. apply own_signer. by eapply AccAddress_nonempty. Qed.

Lemma bridge_commands_hand i from name c :
  inv_from i = Ok from -> (name, c) ∈ [("burn", GetCmdBurn); ("lock", GetCmdLock); ("update_whitelist_validator", GetCmdUpdateWhiteListValidator);
    ("update_ceth_receiver_account", GetCmdUpdateCethReceiverAccount); ("rescue_ceth", GetCmdRescueCeth)] ->
  hands (handed name i from) (c i).
Proof.
  intros Hf Hc. repeat (apply elem_of_cons in Hc as [[= -> ->]|Hc]; [hands_all|]); [..|by apply not_elem_of_nil in Hc].
  all: same_account Hf; eapply handed_intro; [eassumption|by eapply decoded_signer|eapply sender_needed; [listed|eassumption..]|done].
Qed.

Lemma validator_signer v :
  v <> "" -> (let! addr := panicOnErr (ValAddressFromBech32 (ValAddress_String v)) in Ok [addr]) = Ok [v].
Proof. intros Hv. by rewrite ValAddress_roundtrip. Qed.

Lemma claim_command_hands i from : inv_from i = Ok from -> hands (handed "create-claim" i from) (GetCmdCreateEthBridgeClaim i).
Proof.
  intros Hf. hands_all. same_account Hf.
  match goal with Ha : arg _ 5%nat = Ok ?t, Hv : ValAddressFromBech32 _ = Ok ?v |- _ =>
    apply arg_ok in Ha; eapply (handed_intro _ _ _ _ _ _ v);
      [eassumption|by apply validator_signer; eapply ValAddress_nonempty|exists t|] end; done.
Qed.

(** The commands that go through a file: whatever precedes the loop hands over nothing. *)
Definition hand_over_all P (c : CM unit) : Prop :=
  forall s s' r, c s = (s', r) -> exists sent, s' = s ++ sent /\ Forall P sent.

Lemma all_lift {A} P (r : res A) (k : A -> CM unit) :
  (forall x, r = Ok x -> hand_over_all P (k x)) -> hand_over_all P (do! x <- mlift r; k x).
Proof.
  intros Hk s s' o Hr. unfold mbnd, mlift in Hr. destruct r as [x|e|]; [by eapply Hk|..]; injection Hr as <- <-; exists []; by rewrite app_nil_r.
Qed.
Lemma all_fail P b e (k : CM unit) : hand_over_all P k -> hand_over_all P (run! mfail_if b e; k).
Proof.
  intros Hk s s' o Hr. destruct b; [|by eapply Hk]. unfold mbnd, mfail_if, mthrow in Hr. injection Hr as <- <-. exists []. by rewrite app_nil_r.
Qed.

Lemma all_commands_hand i from name c :
  from <> "" -> inv_from i = Ok from -> signs_itself name = true -> c ∈ [GetCmdRegisterAll; GetCmdDeregisterAll] ->
  hand_over_all (handed name i from) (c i).
Proof.
  intros Hne Hf Hn Hc. repeat (apply elem_of_cons in Hc as [->|Hc]); [..|by apply not_elem_of_nil in Hc].
  all: unfold GetCmdRegisterAll, GetCmdDeregisterAll; do 4 (apply all_lift; intros); apply all_fail;
    same_account Hf; intros s s' r; apply hands_each; intros entry; hands_all;
    (eapply handed_own; [done|eassumption|by apply own_signer]).
Qed.

(** *** The command line of a message *)

(** Text flags given as a list, absent ones empty. *)
Definition flag_text (fs : list (string * string)) (name : string) : string :=
  match find (fun kv => String.eqb kv.1 name) fs with Some (_, v) => v | None => "" end.
Definition typed (from : string) (args : list string) (fs : list (string * string)) : Invocation :=
  mkInvocation args (fun name => Ok (flag_text fs name)) (flag_text fs) (Ok from).

Definition asset_text (a : option Asset) : string := match a with Some a => Symbol a | None => "" end.
Definition claim_type_text (t : EthBridge.ClaimType) : string :=
  if t =? EthBridge.CLAIM_TYPE_BURN then "CLAIM_TYPE_BURN"
  else if t =? EthBridge.CLAIM_TYPE_LOCK then "CLAIM_TYPE_LOCK" else "CLAIM_TYPE_UNSPECIFIED".
Definition short_type (t : Dispensation.DistributionType) : string :=
  if t =? Dispensation.DISTRIBUTION_TYPE_AIRDROP then "Airdrop"
  else if t =? Dispensation.DISTRIBUTION_TYPE_LIQUIDITY_MINING then "LiquidityMining" else "ValidatorSubsidy".

(** The command line that spells a message, with the path of the file for those that need one. *)
Definition spell_clp (from : string) (m : ClpTypes.Msg) : option ((Invocation -> CM unit) * Invocation) :=
  match m with
  | CreatePoolMsg m => Some (GetCmdCreatePool, typed from []
      [(FlagAssetSymbol, asset_text (Create_ExternalAsset m)); (FlagNativeAssetAmount, big_String (Create_NativeAssetAmount m));
       (FlagExternalAssetAmount, big_String (Create_ExternalAssetAmount m))])
  | AddLiquidityMsg m => Some (GetCmdAddLiquidity, typed from []
      [(FlagAssetSymbol, asset_text (Add_ExternalAsset m)); (FlagNativeAssetAmount, big_String (Add_NativeAssetAmount m));
       (FlagExternalAssetAmount, big_String (Add_ExternalAssetAmount m))])
  | RemoveLiquidityMsg m => Some (GetCmdRemoveLiquidity, typed from []
      [(FlagAssetSymbol, asset_text (Rem_ExternalAsset m)); (FlagWBasisPoints, big_String (WBasisPoints m));
       (FlagAsymmetry, big_String (Asymmetry m))])
  | SwapMsg m => Some (GetCmdSwap, typed from []
      [(FlagSentAssetSymbol, asset_text (SentAsset m)); (FlagReceivedAssetSymbol, asset_text (ReceivedAsset m));
       (FlagAmount, big_String (SentAmount m)); (FlagMinimumReceivingAmount, big_String (MinReceivingAmount m))])
  | DecommissionPoolMsg m => Some (GetCmdDecommissionPool, typed from [] [(FlagAssetSymbol, Decom_Symbol m)])
  | UnknownMsg => None
  end.

Definition spell_bridge (from path : string) (m : EthBridge.Msg) : option ((Invocation -> CM unit) * Invocation) :=
  match m with
  | EthBridge.CreateMsg (EthBridge.mkMsgCreateEthBridgeClaim (Some c)) => Some (GetCmdCreateEthBridgeClaim, typed from
      [EthBridge.BridgeContractAddress c; big_String (EthBridge.Nonce c); EthBridge.ESymbol c; EthBridge.EthereumSender c;
       EthBridge.CosmosReceiver c; EthBridge.EValidatorAddress c; big_String (EthBridge.EAmount c); claim_type_text (EthBridge.EClaimType c)]
      [(FlagEthereumChainID, big_String (EthBridge.EthereumChainId c)); (FlagTokenContractAddr, EthBridge.TokenContractAddress c)])
  | EthBridge.CreateMsg _ => None
  | EthBridge.BurnMsg m => Some (GetCmdBurn, typed from
      [EthBridge.Burn_CosmosSender m; EthBridge.Burn_EthereumReceiver m; big_String (EthBridge.Burn_Amount m); EthBridge.Burn_Symbol m;
       big_String (EthBridge.Burn_CethAmount m)] [(FlagEthereumChainID, big_String (EthBridge.Burn_EthereumChainId m))])
  | EthBridge.LockMsg m => Some (GetCmdLock, typed from
      [EthBridge.Lock_CosmosSender m; EthBridge.Lock_EthereumReceiver m; big_String (EthBridge.Lock_Amount m); EthBridge.Lock_Symbol m;
       big_String (EthBridge.Lock_CethAmount m)] [(FlagEthereumChainID, big_String (EthBridge.Lock_EthereumChainId m))])
  | EthBridge.UpdateWhiteListMsg m => Some (GetCmdUpdateWhiteListValidator, typed from
      [EthBridge.UWL_CosmosSender m; EthBridge.UWL_Validator m; EthBridge.UWL_OperationType m] [])
  | EthBridge.UpdateCethReceiverMsg m => Some (GetCmdUpdateCethReceiverAccount, typed from
      [EthBridge.UCR_CosmosSender m; EthBridge.UCR_CethReceiverAccount m] [])
  | EthBridge.RescueMsg m => Some (GetCmdRescueCeth, typed from
      [EthBridge.Rescue_CosmosSender m; EthBridge.Rescue_CosmosReceiver m; big_String (EthBridge.Rescue_CethAmount m)] [])
  | EthBridge.BlacklistMsg m => Some (GetCmdSetBlacklist, typed from [path] [])
  end.

Definition spell (from path : string) (m : AppMsg) : option ((Invocation -> CM unit) * Invocation) :=
  match m with
  | ClpMsg m => spell_clp from m
  | BridgeMsg m => spell_bridge from path m
  | DispMsg (Dispensation.CreateDistributionMsg m) =>
      Some (GetCmdCreate, typed from [short_type (Dispensation.Create_Type m); path; Dispensation.Create_Runner m] [])
  | DispMsg (Dispensation.CreateUserClaimMsg m) => Some (GetCmdClaim, typed from [short_type (Dispensation.Claim_Type m)] [])
  | DispMsg (Dispensation.RunDistributionMsg m) =>
      Some (GetCmdRun, typed from [Dispensation.Run_Name m; short_type (Dispensation.Run_Type m)] [])
  | RegistryMsg (TokenRegistry.Msg_Register m) => Some (GetCmdRegister, typed from [path] [])
  | RegistryMsg (TokenRegistry.Msg_SetRegistry m) => Some (GetCmdSetRegistry, typed from [path] [])
  | RegistryMsg (TokenRegistry.Msg_Deregister m) => Some (GetCmdDeregister, typed from [TokenRegistry.Dereg_Denom m] [])
  | RegistryMsg (TokenRegistry.Msg_Unknown _) => None
  | TransferMsg _ => None
  end.

(** What a message needs to be typed: its numbers fit the types they are parsed at, its addresses
    are written the way the commands print them, and the file holds what the message does. *)
Definition uint256 (z : Z) : Prop := 0 <= z < 2 ^ 256.
Definition int255 (z : Z) : Prop := Z.abs z < 2 ^ 255.
Definition int64 (z : Z) : Prop := - 2 ^ 63 <= z < 2 ^ 63.
Definition acc_text (s : string) : Prop := exists a, AccAddressFromBech32 s = Ok a /\ AccAddress_String a = s.
Definition val_text (s : string) : Prop := exists a, ValAddressFromBech32 s = Ok a /\ ValAddress_String a = s.
Definition eth_text (s : string) : Prop := EthBridge.EthereumAddress_String (EthBridge.NewEthereumAddress s) = s.

Definition plain_clp (from : string) (m : ClpTypes.Msg) : Prop :=
  match m with
  | CreatePoolMsg m => Create_Signer m = AccAddress_String from
      /\ uint256 (Create_NativeAssetAmount m) /\ uint256 (Create_ExternalAssetAmount m)
  | AddLiquidityMsg m => Add_Signer m = AccAddress_String from
      /\ uint256 (Add_NativeAssetAmount m) /\ uint256 (Add_ExternalAssetAmount m)
  | RemoveLiquidityMsg m => Rem_Signer m = AccAddress_String from /\ int255 (WBasisPoints m) /\ int255 (Asymmetry m)
  | SwapMsg m => Swap_Signer m = AccAddress_String from /\ uint256 (SentAmount m) /\ uint256 (MinReceivingAmount m)
  | DecommissionPoolMsg m => Decom_Signer m = AccAddress_String from
  | UnknownMsg => True
  end.

Definition plain_bridge (from path : string) (m : EthBridge.Msg) : Prop :=
  match m with
  | EthBridge.CreateMsg m => forall c, EthBridge.Create_Claim m = Some c ->
      eth_text (EthBridge.BridgeContractAddress c) /\ eth_text (EthBridge.TokenContractAddress c) /\ eth_text (EthBridge.EthereumSender c)
      /\ acc_text (EthBridge.CosmosReceiver c) /\ val_text (EthBridge.EValidatorAddress c)
      /\ int64 (EthBridge.EthereumChainId c) /\ int64 (EthBridge.Nonce c) /\ 0 < EthBridge.EAmount c < 2 ^ 255
      /\ (0 <= EthBridge.EClaimType c <= 2)
  | EthBridge.BurnMsg m => acc_text (EthBridge.Burn_CosmosSender m) /\ eth_text (EthBridge.Burn_EthereumReceiver m)
      /\ int64 (EthBridge.Burn_EthereumChainId m) /\ int255 (EthBridge.Burn_Amount m) /\ int255 (EthBridge.Burn_CethAmount m)
  | EthBridge.LockMsg m => EthBridge.Lock_CosmosSender m = AccAddress_String from /\ eth_text (EthBridge.Lock_EthereumReceiver m)
      /\ int64 (EthBridge.Lock_EthereumChainId m) /\ int255 (EthBridge.Lock_Amount m) /\ int255 (EthBridge.Lock_CethAmount m)
  | EthBridge.UpdateWhiteListMsg m => acc_text (EthBridge.UWL_CosmosSender m) /\ val_text (EthBridge.UWL_Validator m)
      /\ (EthBridge.UWL_OperationType m = "add" \/ EthBridge.UWL_OperationType m = "remove")
  | EthBridge.UpdateCethReceiverMsg m => acc_text (EthBridge.UCR_CosmosSender m) /\ acc_text (EthBridge.UCR_CethReceiverAccount m)
  | EthBridge.RescueMsg m => acc_text (EthBridge.Rescue_CosmosSender m) /\ acc_text (EthBridge.Rescue_CosmosReceiver m)
      /\ int255 (EthBridge.Rescue_CethAmount m)
  | EthBridge.BlacklistMsg m => EthBridge.Blacklist_From m = AccAddress_String from
      /\ exists file contents other, Abs path = Ok file /\ ReadFile file = Ok contents
           /\ UnmarshalBlacklist contents = Ok (EthBridge.mkMsgSetBlacklist other (EthBridge.Blacklist_Addresses m))
  end.

Definition plain (from path : string) (m : AppMsg) : Prop :=
  match m with
  | ClpMsg m => plain_clp from m
  | BridgeMsg m => plain_bridge from path m
  | DispMsg (Dispensation.CreateDistributionMsg m) =>
      Dispensation.Create_Distributor m = AccAddress_String from /\ ParseOutput path = Ok (Dispensation.Create_Output m)
  | DispMsg (Dispensation.CreateUserClaimMsg m) => Dispensation.Claim_Address m = AccAddress_String from
  | DispMsg (Dispensation.RunDistributionMsg m) => Dispensation.Run_Runner m = AccAddress_String from
  | RegistryMsg (TokenRegistry.Msg_Register m) => TokenRegistry.Reg_From m = AccAddress_String from
      /\ ParseDenoms path = Ok (TokenRegistry.mkRegistry [TokenRegistry.Reg_Entry m])
  | RegistryMsg (TokenRegistry.Msg_SetRegistry m) => TokenRegistry.SetReg_From m = AccAddress_String from
      /\ exists e, TokenRegistry.SetReg_Registry m = Some (TokenRegistry.mkRegistry [e]) /\ ParseDenoms path = Ok (TokenRegistry.mkRegistry [e])
  | RegistryMsg (TokenRegistry.Msg_Deregister m) => TokenRegistry.Dereg_From m = AccAddress_String from
  | RegistryMsg (TokenRegistry.Msg_Unknown _) => True
  | TransferMsg _ => True
  end.

(** *** Running a typed command *)

Lemma step_lift {A} (r : res A) x (k : A -> CM unit) s o : r = Ok x -> k x s = o -> (do! y <- mlift r; k y) s = o.
Proof. by intros -> <-. Qed.
Lemma step_throw {A} (r : option A) x e (k : A -> CM unit) s o : r = Some x -> k x s = o -> (do! y <- or_throw r e; k y) s = o.
Proof. by intros -> <-. Qed.
Lemma step_fail b e (k : CM unit) s o : b = false -> k s = o -> (run! mfail_if b e; k) s = o.
Proof. by intros -> <-. Qed.
Lemma step_send ctx m m' s : m' = m -> ValidateBasic m = Ok m -> check_and_send ctx m' s = (s ++ [(ctx, m)], tx_result ctx m).
Proof. intros -> Hv. unfold check_and_send, mbnd, mlift. by rewrite Hv. Qed.

Lemma checkAsset_some a x : checkAsset a = Ok x -> a = Some x.
Proof.
  unfold checkAsset. destruct a as [a|]; [|done]. cbn. destruct (Asset_Validate a) as [[]| |]; [|done..]. by intros [= ->].
Qed.

Lemma NewMsg_asset a x : checkAsset a = Ok x -> Some (NewAsset (asset_text a)) = a.
Proof. intros ->%checkAsset_some. by destruct x. Qed.

Lemma clp_assets (m : ClpTypes.Msg) :
  ClpTypes.ValidateBasic m = Ok tt ->
  match m with
  | CreatePoolMsg m => Some (NewAsset (asset_text (Create_ExternalAsset m))) = Create_ExternalAsset m
  | AddLiquidityMsg m => Some (NewAsset (asset_text (Add_ExternalAsset m))) = Add_ExternalAsset m
  | RemoveLiquidityMsg m => Some (NewAsset (asset_text (Rem_ExternalAsset m))) = Rem_ExternalAsset m
  | SwapMsg m => Some (NewAsset (asset_text (SentAsset m))) = SentAsset m /\ Some (NewAsset (asset_text (ReceivedAsset m))) = ReceivedAsset m
  | _ => True
  end.
Proof.
  destruct m as [m|m|m|m|m|]; cbn [ClpTypes.ValidateBasic]; try done;
    unfold MsgCreatePool_ValidateBasic, MsgAddLiquidity_ValidateBasic, MsgRemoveLiquidity_ValidateBasic, MsgSwap_ValidateBasic; intros Hv; go_inv;
    repeat match goal with Ha : checkAsset _ = Ok _ |- _ => apply NewMsg_asset in Ha end; auto.
Qed.

Lemma bridge_checked (m : EthBridge.Msg) :
  EthBridge.ValidateBasic m = Ok tt ->
  match m with
  | EthBridge.CreateMsg (EthBridge.mkMsgCreateEthBridgeClaim (Some c)) => EthBridge.IsHexAddress (EthBridge.EthereumSender c) = true
      /\ EthBridge.IsHexAddress (EthBridge.BridgeContractAddress c) = true /\ EthBridge.IsHexAddress (EthBridge.TokenContractAddress c) = true
  | EthBridge.BurnMsg m => EthBridge.IsHexAddress (EthBridge.Burn_EthereumReceiver m) = true /\ 0 < EthBridge.Burn_Amount m
  | EthBridge.LockMsg m => EthBridge.IsHexAddress (EthBridge.Lock_EthereumReceiver m) = true /\ 0 < EthBridge.Lock_Amount m
  | _ => True
  end.
Proof.
  assert (forall b e u, fail_if b e = Ok u -> b = false) as Hf by (by intros [] ? ?).
  destruct m as [[[m|]]|m|m|m|m|m|m]; cbn [EthBridge.ValidateBasic]; try done; intros Hv;
    unfold EthBridge.MsgCreateEthBridgeClaim_ValidateBasic, EthBridge.MsgBurn_ValidateBasic, EthBridge.MsgLock_ValidateBasic in Hv;
    cbn [EthBridge.Create_Claim] in Hv; repeat (apply rbind_ok_inv in Hv as (? & ?%Hf & Hv));
    repeat match goal with Hn : negb _ = false |- _ => apply negb_false_iff in Hn | Hn : (_ <=? 0) = false |- _ => apply Z.leb_gt in Hn end; auto.
Qed.

Lemma digitCheck_String z : 0 <= z -> digitCheck (big_String z) = true.
Proof.
  intros Hz. unfold digitCheck. rewrite all_digits_String by done.
  destruct (big_String_cons z) as (c & r & -> & _). done.
Qed.

Lemma ClaimType_value_text t : 0 <= t <= 2 -> ClaimType_value (claim_type_text t) = Some t.
Proof. intros Ht. assert (t = 0 \/ t = 1 \/ t = 2) as [->|[->| ->]] by lia; reflexivity. Qed.

(** The text of a number is no name of a type. *)
Lemma number_not_named z rest : String.eqb (big_String z) (String "D" rest) = false.
Proof.
  destruct (big_String_cons z) as (c & r & -> & [->|(d & Hd & ->)]); [done|]. assert (d = 0 \/ 0 < d < 10) as [->|Hp] by lia; [done|].
  by destruct (digit_cases d Hp) as [->|[->|[->|[->|[->|[->|[->|[->| ->]]]]]]]].
Qed.

Lemma named_type t (ok : string -> Dispensation.DistributionType * bool) u :
  (ok (big_String t)).2 = false ->
  fail_if (negb (ok (Dispensation.DistributionType_String t)).2) Dispensation.ErrInvalid = Ok u ->
  0 <= t <= 3 /\ (ok (Dispensation.DistributionType_String t)).2 = true.
Proof.
  intros Hno Hok. destruct (ok (Dispensation.DistributionType_String t)).2 eqn:E; [|done]. split; [|done].
  unfold Dispensation.DistributionType_String, Dispensation.DISTRIBUTION_TYPE_UNSPECIFIED, Dispensation.DISTRIBUTION_TYPE_AIRDROP,
    Dispensation.DISTRIBUTION_TYPE_VALIDATOR_SUBSIDY, Dispensation.DISTRIBUTION_TYPE_LIQUIDITY_MINING in E.
  repeat (case_match eqn:Et; [apply Z.eqb_eq in Et; lia|clear Et]). congruence.
Qed.

Lemma type_checked t u :
  fail_if (negb (Dispensation.IsValidDistributionType (Dispensation.DistributionType_String t)).2) Dispensation.ErrInvalid = Ok u ->
  Dispensation.GetDistributionTypeFromShortString (short_type t) = (t, true).
Proof.
  intros [Ht Hv]%named_type.
  - assert (t = 0 \/ t = 1 \/ t = 2 \/ t = 3) as [->|[->|[->| ->]]] by lia; [done|reflexivity..].
  - unfold Dispensation.IsValidDistributionType. by rewrite !number_not_named.
Qed.
Lemma claim_type_checked t u :
  fail_if (negb (Dispensation.IsValidClaimType (Dispensation.DistributionType_String t)).2) Dispensation.ErrInvalid = Ok u ->
  Dispensation.GetClaimType (short_type t) = (t, true).
Proof.
  intros [Ht Hv]%named_type.
  - assert (t = 0 \/ t = 1 \/ t = 2 \/ t = 3) as [->|[->|[->| ->]]] by lia; [done|done|reflexivity..].
  - unfold Dispensation.IsValidClaimType. by rewrite !number_not_named.
Qed.

Ltac typed_step :=
  lazymatch goal with
  | |- mbnd (mlift _) _ _ = _ =>
      eapply step_lift; [first [reflexivity | eassumption | by apply NewUintFromString_eq | by apply Atoi_String]|]
  | |- mbnd (or_throw _ _) _ _ = _ => eapply step_throw; [by apply NewIntFromString_total|]
  | |- mbnd (mfail_if _ _) _ _ = _ =>
      apply step_fail; [first [reflexivity | eassumption | by apply negb_false_iff | apply negb_false_iff, digitCheck_String; lia | apply Z.leb_gt; lia]|]
  end; cbv beta zeta.
Ltac typed_end Hv := apply (step_send _ _ _ []); [|exact Hv].

Lemma typed_clp from (m : ClpTypes.Msg) c i :
  plain_clp from m -> ClpTypes.ValidateBasic m = Ok tt -> spell_clp from m = Some (c, i) ->
  c i [] = ([(client_context from, ClpMsg m)], tx_result (client_context from) (ClpMsg m)).
Proof.
  intros Hp Hv Hs. assert (ValidateBasic (ClpMsg m) = Ok (ClpMsg m)) as Hv' by (cbn; by rewrite Hv).
  pose proof (clp_assets m Hv) as Ha. clear Hv.
  destruct m as [m|m|m|m|m|]; cbn [spell_clp] in Hs; [injection Hs as <- <-..|done]; destruct m; cbn in Hp, Ha; destruct_and?; subst.
  all: unfold GetCmdCreatePool, GetCmdAddLiquidity, GetCmdRemoveLiquidity, GetCmdSwap, GetCmdDecommissionPool; cbv zeta; repeat typed_step; typed_end Hv'.
  all: unfold NewMsgCreatePool, NewMsgAddLiquidity, NewMsgRemoveLiquidity, NewMsgSwap, NewMsgDecommissionPool; cbn; congruence.
Qed.

Lemma typed_bridge from path (m : EthBridge.Msg) c i :
  from <> "" -> plain_bridge from path m -> EthBridge.ValidateBasic m = Ok tt -> spell_bridge from path m = Some (c, i) ->
  c i [] = ([(client_context from, BridgeMsg m)], tx_result (client_context from) (BridgeMsg m)).
Proof.
  intros Hne Hp Hv Hs. assert (ValidateBasic (BridgeMsg m) = Ok (BridgeMsg m)) as Hv' by (cbn; by rewrite Hv).
  pose proof (bridge_checked m Hv) as Ha. clear Hv.
  destruct m as [[[m|]]|m|m|m|m|m|m]; cbn [spell_bridge] in Hs; (injection Hs as <- <-) || done.
  - specialize (Hp m eq_refl) as (Hb & Ht & He & (a & Ea & Ta) & (v & Ev & Tv) & Hid & Hn & Hamt & Hct). cbn in Ha. destruct Ha as (Xs & Xb & Xt).
    assert (int255 (EthBridge.EAmount m)) by (unfold int255; lia).
    unfold GetCmdCreateEthBridgeClaim. cbv zeta. repeat typed_step. rewrite ClaimType_value_text by done. typed_end Hv'.
    unfold eth_text in *. cbn. unfold EthBridge.NewMsgCreateEthBridgeClaim, EthBridge.NewEthBridgeClaim. rewrite Hb, He, Ta, Tv.
    change (flag_text _ _) with (EthBridge.TokenContractAddress m). rewrite Ht. by destruct m.
  - destruct Hp as ((a & Ea & Ta) & Hr & Hid & Hamt & Hc). destruct Ha as [Xr Xa]. unfold GetCmdBurn. cbv zeta. repeat typed_step.
    rewrite NewIntFromString_total by done. repeat typed_step. typed_end Hv'. unfold EthBridge.NewMsgBurn. rewrite Ta, Hr. by destruct m.
  - destruct Hp as (Es & Hr & Hid & Hamt & Hc). destruct Ha as [Xr Xa]. unfold GetCmdLock. cbv zeta.
    assert (AccAddressFromBech32 (EthBridge.Lock_CosmosSender m) = Ok from) as Ea by (rewrite Es; by apply AccAddress_roundtrip).
    repeat typed_step.
    rewrite NewIntFromString_total by done. repeat typed_step. typed_end Hv'. unfold EthBridge.NewMsgLock. rewrite Hr, <- Es. by destruct m.
  - destruct Hp as ((a & Ea & Ta) & (v & Ev & Tv) & Hop). unfold GetCmdUpdateWhiteListValidator. cbv zeta. repeat typed_step.
    apply step_fail; [by destruct Hop as [-> | ->]|]. typed_end Hv'. unfold EthBridge.NewMsgUpdateWhiteListValidator. rewrite Ta, Tv. by destruct m.
  - destruct Hp as ((a & Ea & Ta) & (b & Eb & Tb)). unfold GetCmdUpdateCethReceiverAccount. cbv zeta. repeat typed_step.
    typed_end Hv'. unfold EthBridge.NewMsgUpdateCethReceiverAccount. rewrite Ta, Tb. by destruct m.
  - destruct Hp as ((a & Ea & Ta) & (b & Eb & Tb) & Hc). unfold GetCmdRescueCeth. cbv zeta. repeat typed_step.
    typed_end Hv'. unfold EthBridge.NewMsgRescueCeth. rewrite Ta, Tb. by destruct m.
  - destruct Hp as (Es & file & contents & other & Hf & Hr & Hu). unfold GetCmdSetBlacklist. cbv zeta. repeat typed_step.
    typed_end Hv'. rewrite <- Es. by destruct m.
Qed.

Lemma typed_disp from path (m : Dispensation.Msg) c i :
  plain from path (DispMsg m) -> Dispensation.ValidateBasic m = Ok m -> spell from path (DispMsg m) = Some (c, i) ->
  c i [] = ([(client_context from, DispMsg m)], tx_result (client_context from) (DispMsg m)).
Proof.
  intros Hp Hv Hs. assert (ValidateBasic (DispMsg m) = Ok (DispMsg m)) as Hv' by (cbn; by rewrite Hv).
  destruct m as [m|m|m]; cbn [spell] in Hs; injection Hs as <- <-; cbn in Hp;
    cbn [Dispensation.ValidateBasic] in Hv; apply rbind_ok_inv in Hv as (m1 & Hv & _).
  - destruct Hp as [Ed Ho]. unfold Dispensation.MsgCreateDistribution_ValidateBasic in Hv. apply rbind_ok_inv in Hv as (? & Ht%type_checked & _).
    unfold GetCmdCreate. cbv zeta. repeat typed_step. rewrite Ht. repeat typed_step. typed_end Hv'.
    unfold Dispensation.NewMsgCreateDistribution. rewrite <- Ed. by destruct m.
  - unfold Dispensation.MsgCreateUserClaim_ValidateBasic in Hv. apply rbind_ok_inv in Hv as (? & _ & Ht%claim_type_checked).
    unfold GetCmdClaim. cbv zeta. repeat typed_step. rewrite Ht. repeat typed_step. typed_end Hv'.
    unfold Dispensation.NewMsgCreateUserClaim. rewrite <- Hp. by destruct m.
  - unfold Dispensation.MsgRunDistribution_ValidateBasic in Hv. apply rbind_ok_inv in Hv as (? & Ht%type_checked & _).
    unfold GetCmdRun. cbv zeta. repeat typed_step. rewrite Ht. repeat typed_step. typed_end Hv'.
    unfold Dispensation.NewMsgRunDistribution. rewrite <- Hp. by destruct m.
Qed.

Lemma typed_registry from path (m : TokenRegistry.Msg) c i :
  plain from path (RegistryMsg m) -> registry_ValidateBasic m = Ok tt -> spell from path (RegistryMsg m) = Some (c, i) ->
  c i [] = ([(client_context from, RegistryMsg m)], tx_result (client_context from) (RegistryMsg m)).
Proof.
  intros Hp Hv Hs. assert (ValidateBasic (RegistryMsg m) = Ok (RegistryMsg m)) as Hv' by (cbn; by rewrite Hv).
  destruct m as [m|m|m|u]; cbn [spell] in Hs; [injection Hs as <- <-..|done]; cbn in Hp.
  - destruct Hp as [Ef Hf]. unfold GetCmdRegister. repeat typed_step. cbn [TokenRegistry.Entries]. typed_end Hv'.
    unfold register_msg. rewrite <- Ef. by destruct m.
  - destruct Hp as (Ef & e & Ee & Hf). unfold GetCmdSetRegistry. repeat typed_step. typed_end Hv'. rewrite <- Ef, <- Ee. by destruct m.
  - unfold GetCmdDeregister. repeat typed_step. typed_end Hv'. unfold deregister_msg. rewrite <- Hp. by destruct m.
Qed.

(** *** The same messages over REST *)

Definition posted {R} (req : R) : Post R := mkPost (Some req) true.

(** The answer to the request that spells a message, for those with a route. *)
Definition post_of (m : AppMsg) : option (res TxReply) :=
  match m with
  | ClpMsg (CreatePoolMsg m) => Some (createPoolHandler (posted
      (mkCreatePoolReq (Create_Signer m) (NewAsset (asset_text (Create_ExternalAsset m))) (Create_NativeAssetAmount m) (Create_ExternalAssetAmount m))))
  | ClpMsg (AddLiquidityMsg m) => Some (addLiquidityHandler (posted
      (mkAddLiquidityReq (Add_Signer m) (NewAsset (asset_text (Add_ExternalAsset m))) (Add_NativeAssetAmount m) (Add_ExternalAssetAmount m))))
  | ClpMsg (RemoveLiquidityMsg m) => Some (removeLiquidityHandler (posted
      (mkRemoveLiquidityReq (Rem_Signer m) (NewAsset (asset_text (Rem_ExternalAsset m))) (WBasisPoints m) (Asymmetry m))))
  | ClpMsg (SwapMsg m) => Some (swapHandler (posted
      (mkSwapReq (Swap_Signer m) (NewAsset (asset_text (SentAsset m))) (NewAsset (asset_text (ReceivedAsset m))) (SentAmount m) (MinReceivingAmount m))))
  | ClpMsg (DecommissionPoolMsg m) => Some (decommissionPoolHandler (posted (mkDecommissionPoolReq (Decom_Signer m) (Decom_Symbol m))))
  | BridgeMsg (EthBridge.CreateMsg (EthBridge.mkMsgCreateEthBridgeClaim (Some c))) => Some (createEthClaimHandler (posted
      (mkCreateEthClaimReq (EthBridge.EthereumChainId c) (EthBridge.BridgeContractAddress c) (EthBridge.Nonce c) (EthBridge.ESymbol c)
         (EthBridge.TokenContractAddress c) (EthBridge.EthereumSender c) (EthBridge.CosmosReceiver c) (EthBridge.EValidatorAddress c)
         (EthBridge.EAmount c) (claim_type_text (EthBridge.EClaimType c)))))
  | BridgeMsg (EthBridge.BurnMsg m) => Some (burnOrLockHandler "burn" (posted
      (mkBurnOrLockEthReq (big_String (EthBridge.Burn_EthereumChainId m)) (EthBridge.Burn_CosmosSender m) (EthBridge.Burn_EthereumReceiver m)
         (EthBridge.Burn_Amount m) (EthBridge.Burn_Symbol m) (EthBridge.Burn_CethAmount m))))
  | BridgeMsg (EthBridge.LockMsg m) => Some (burnOrLockHandler "lock" (posted
      (mkBurnOrLockEthReq (big_String (EthBridge.Lock_EthereumChainId m)) (EthBridge.Lock_CosmosSender m) (EthBridge.Lock_EthereumReceiver m)
         (EthBridge.Lock_Amount m) (EthBridge.Lock_Symbol m) (EthBridge.Lock_CethAmount m))))
  | DispMsg (Dispensation.CreateUserClaimMsg m) => Some (createClaimHandler (posted
      (mkCreateClaimReq (Dispensation.Claim_Address m) (Dispensation.Claim_Type m))))
  | _ => None
  end.

Lemma generate_ok m m' : m' = m -> ValidateBasic m = Ok m -> generate m' = Ok (Generated m).
Proof. intros -> Hv. unfold generate. by rewrite Hv. Qed.

Lemma refuse_ok {A} st (r : res A) x k : r = Ok x -> or_refuse st r k = k x.
Proof. by intros ->. Qed.

Lemma posted_clp from (m : ClpTypes.Msg) reply :
  from <> "" -> plain_clp from m -> ClpTypes.ValidateBasic m = Ok tt -> post_of (ClpMsg m) = Some reply -> reply = Ok (Generated (ClpMsg m)).
Proof.
  intros Hne Hp Hv Hr. assert (ValidateBasic (ClpMsg m) = Ok (ClpMsg m)) as Hv' by (cbn; by rewrite Hv).
  pose proof (clp_assets m Hv) as Ha. clear Hv.
  destruct m as [m|m|m|m|m|]; cbn [post_of] in Hr; [injection Hr as <-..|done]; destruct m; cbn in Hp, Ha; destruct_and?; subst.
  all: unfold createPoolHandler, addLiquidityHandler, removeLiquidityHandler, swapHandler, decommissionPoolHandler, read_post; cbn;
    erewrite refuse_ok by (by apply AccAddress_roundtrip); apply (fun E => generate_ok _ _ E Hv').
  all: unfold NewMsgCreatePool, NewMsgAddLiquidity, NewMsgRemoveLiquidity, NewMsgSwap, NewMsgDecommissionPool; cbn; congruence.
Qed.

Lemma posted_bridge from path (m : EthBridge.Msg) reply :
  from <> "" -> plain_bridge from path m -> EthBridge.ValidateBasic m = Ok tt -> post_of (BridgeMsg m) = Some reply ->
  reply = Ok (Generated (BridgeMsg m)).
Proof.
  intros Hne Hp Hv Hr. assert (ValidateBasic (BridgeMsg m) = Ok (BridgeMsg m)) as Hv' by (cbn; by rewrite Hv).
  destruct m as [[[m|]]|m|m|m|m|m|m]; cbn [post_of] in Hr; (injection Hr as <-) || done.
  - specialize (Hp m eq_refl) as (Hb & Ht & He & (a & Ea & Ta) & (v & Ev & Tv) & _ & _ & _ & Hct).
    unfold createEthClaimHandler, read_post. cbn. rewrite (refuse_ok _ _ _ _ Ea), (refuse_ok _ _ _ _ Ev), ClaimType_value_text by done.
    apply (fun E => generate_ok _ _ E Hv'). unfold EthBridge.NewMsgCreateEthBridgeClaim, EthBridge.NewEthBridgeClaim, eth_text in *.
    rewrite Hb, Ht, He, Ta, Tv. by destruct m.
  - destruct Hp as ((a & Ea & Ta) & Hr & Hid & _). unfold burnOrLockHandler, read_post. cbn.
    rewrite (refuse_ok _ _ _ _ (Atoi_String _ Hid)), (refuse_ok _ _ _ _ Ea). apply (fun E => generate_ok _ _ E Hv').
    unfold EthBridge.NewMsgBurn, eth_text in *. rewrite Ta, Hr. by destruct m.
  - destruct Hp as (Es & Hr & Hid & _). unfold burnOrLockHandler, read_post. cbn. rewrite Es.
    rewrite (refuse_ok _ _ _ _ (Atoi_String _ Hid)), (refuse_ok _ _ _ _ (AccAddress_roundtrip _ Hne)). apply (fun E => generate_ok _ _ E Hv').
    unfold EthBridge.NewMsgLock, eth_text in *. rewrite Hr, <- Es. by destruct m.
Qed.

(** ** Theorems *)

(** C34: Whatever the command line, a transaction command hands over only messages that passed
    their check, and the key that is to sign is always the one of [--from].  The signature each
    message needs is that of [--from] as well, except that five commands of the bridge need the
    one of the sender given as their first argument, and [create-claim] the one of the validator
    given as its sixth: no command compares that account with [--from]; [lock] takes the account
    number and the sequence of that sender, every other command those of [--from].  But for the
    two commands that go through a registry file, at most one message is handed over, and its
    fate is the result: a command that fails before has no effect. *)
Theorem tx_commands_sound module name c i from sent r :
  (module, name, c) ∈ tx_commands -> inv_from i = Ok from -> from <> "" -> c i [] = (sent, r) ->
  Forall (handed name i from) sent
  /\ (name ∈ ["register-all"; "deregister-all"] \/ sent = [] \/ exists x, sent = [x] /\ r = tx_result x.1 x.2).
Proof.
  intros Hin Hf Hne Hr.
  assert (hand_over_all (handed name i from) (c i) /\ (name ∈ ["register-all"; "deregister-all"] \/ hands (handed name i from) (c i))) as [Ha Ho].
  { assert (forall P, hands P (c i) -> hand_over_all P (c i) /\ (name ∈ ["register-all"; "deregister-all"] \/ hands P (c i))) as Hone.
    { intros P Hc. split; [|by right]. intros s s' r' [->|(x & Hx & -> & _)]%Hc; [exists []; by rewrite app_nil_r|exists [x]; by repeat constructor]. }
    repeat (apply elem_of_cons in Hin as [[= -> -> ->]|Hin]); [..|by apply not_elem_of_nil in Hin].
    all: first
      [ apply Hone, claim_command_hands, Hf | apply Hone, bridge_commands_hand; [done|listed]
      | apply Hone, clp_commands_hand; [done|done|done|listed] | apply Hone, disp_commands_hand; [done|done|done|listed]
      | apply Hone, registry_commands_hand; [done|done|done|listed]
      | split; [apply all_commands_hand; [done|done|done|listed]|left; listed] ]. }
  split.
  - destruct (Ha _ _ _ Hr) as (sent' & -> & Hs). exact Hs.
  - destruct Ho as [Hn|Ho]; [by left|right]. destruct (Ho _ _ _ Hr) as [->|(x & _ & -> & ->)]; [by left|right; by exists x].
Qed.

(** C35: Every message of the chain's own modules that passes its check and is written plainly (numbers
    within their types, addresses as the commands print them) can be sent from the command
    line: the command that spells it hands over exactly it, once.  And posting it to its REST
    route, where it has one, generates exactly it. *)
Theorem messages_can_be_sent from path m c i :
  from <> "" -> plain from path m -> ValidateBasic m = Ok m -> spell from path m = Some (c, i) ->
  c i [] = ([(client_context from, m)], tx_result (client_context from) m)
  /\ forall reply, post_of m = Some reply -> reply = Ok (Generated m).
Proof.
  intros Hne Hp Hv Hs. destruct m as [m|m|m|m|m]; cbn [ValidateBasic] in Hv; [..|done].
  - apply rbind_ok_inv in Hv as ([] & Hv & _). split; [by eapply typed_registry|by intros ?].
  - apply rbind_ok_inv in Hv as ([] & Hv & _). split; [by eapply typed_clp|intros reply; by apply (posted_clp from)].
  - apply rbind_ok_inv in Hv as ([] & Hv & _). split; [by eapply typed_bridge|intros reply; by apply (posted_bridge from path)].
  - apply rbind_ok_inv in Hv as (m' & Hv & [= ->]). split; [by eapply typed_disp|]. intros reply Hr.
    destruct m as [m|m|m]; [done| |done]. injection Hr as <-. cbn in Hp. unfold createClaimHandler, read_post. cbn. rewrite Hp.
    rewrite (refuse_ok _ _ _ _ (AccAddress_roundtrip _ Hne)). apply generate_ok; [|cbn [ValidateBasic]; by rewrite Hv].
    unfold Dispensation.NewMsgCreateUserClaim. rewrite <- Hp. by destruct m.
Qed.

(** [set-registry] cannot set a registry of any other size than one. *)
Theorem set_registry_one from path r :
  ParseDenoms path = Ok r -> length (TokenRegistry.Entries r) <> 1%nat ->
  GetCmdSetRegistry (typed from [path] []) [] = ([], Err ErrOneEntry).
Proof.
  intros Hp Hl. unfold GetCmdSetRegistry. do 3 (eapply step_lift; [reflexivity|]). eapply step_lift; [exact Hp|].
  apply Nat.eqb_neq in Hl. unfold mbnd, mfail_if. by rewrite Hl.
Qed.
End Lemmas.

(** ** Examples *)

Section Examples.
#[local] Existing Instances RefMath RefCoins RefAddress RefQuery EthBridge.RefEth EthBridge.RefIntText Dispensation.RefGogoTypes
  IbcTransfer.RefIbcTypes RefFiles RefRegistryJson RefMath_laws RefCoins_laws RefAddress_laws RefAddress_text EthBridge.RefEth_laws.
#[local] Instance ex_node : TxClient := {| tx_result _ _ := Ok tt |}.
#[local] Instance ex_json : TxJson := {|
  UnmarshalOutputs _ := Ok [Dispensation.mkOutput "sif1bob" [mkCoin "aku" 5]];
  UnmarshalInputs _ := Ok [];
  UnmarshalBlacklist text := Ok (EthBridge.mkMsgSetBlacklist "" [text]);
|}.

Definition ex_swap_msg : MsgSwap := mkMsgSwap "sif1alice" (Some (mkAsset "aku")) (Some (mkAsset "ceth")) 1000 7.
Definition ex_swap_line : Invocation := typed "alice" []
  [(FlagSentAssetSymbol, "aku"); (FlagReceivedAssetSymbol, "ceth"); (FlagAmount, "1000"); (FlagMinimumReceivingAmount, "7")].
Lemma ex_swap_plain : plain "alice" "" (ClpMsg (SwapMsg ex_swap_msg)).
Proof. split; [reflexivity|]. by split. Qed.
Lemma ex_typed_swap_valid : ValidateBasic (ClpMsg (SwapMsg ex_swap_msg)) = Ok (ClpMsg (SwapMsg ex_swap_msg)).
Proof. by vm_compute. Qed.
Lemma ex_swap_spelled : spell "alice" "" (ClpMsg (SwapMsg ex_swap_msg)) = Some (GetCmdSwap, ex_swap_line).
Proof. reflexivity. Qed.

Lemma messages_can_be_sent_witness :
  GetCmdSwap ex_swap_line [] = ([(client_context "alice", ClpMsg (SwapMsg ex_swap_msg))], Ok tt)
  /\ forall reply, post_of (ClpMsg (SwapMsg ex_swap_msg)) = Some reply -> reply = Ok (Generated (ClpMsg (SwapMsg ex_swap_msg))).
Proof.
  exact (messages_can_be_sent "alice" "" (ClpMsg (SwapMsg ex_swap_msg)) GetCmdSwap ex_swap_line ltac:(discriminate)
    ex_swap_plain ex_typed_swap_valid ex_swap_spelled).
Defined.

Lemma ex_swap_listed : ("clp", "swap", GetCmdSwap) ∈ tx_commands.
Proof. apply list_elem_of_In; simpl; tauto. Qed.
Lemma tx_commands_sound_witness :
  Forall (handed "swap" ex_swap_line "alice") [(client_context "alice", ClpMsg (SwapMsg ex_swap_msg))].
Proof.
  exact (proj1 (tx_commands_sound "clp" "swap" GetCmdSwap ex_swap_line "alice" [(client_context "alice", ClpMsg (SwapMsg ex_swap_msg))] (Ok tt)
    ex_swap_listed eq_refl ltac:(discriminate) eq_refl)).
Defined.

(** Amounts that are no numbers: the exchange's commands panic. *)
Example swap_of_text : (GetCmdSwap (typed "alice" [] [(FlagSentAssetSymbol, "aku"); (FlagReceivedAssetSymbol, "ceth"); (FlagAmount, "all")]) []).2 = Panic.
Proof. reflexivity. Qed.

Definition ex_address : string := "0x1111111111111111111111111111111111111111".
Definition ex_claim_line (type : string) : Invocation := typed "alice"
  [ex_address; "1"; "eth"; ex_address; "sif1bob"; "sifvaloper1alice"; "500"; type]
  [(FlagEthereumChainID, "3"); (FlagTokenContractAddr, "0x0000000000000000000000000000000000000000")].
(** A claim is handed over; with a type misspelt nothing is, and the command succeeds. *)
Example claim_typed : length (GetCmdCreateEthBridgeClaim (ex_claim_line "CLAIM_TYPE_LOCK") []).1 = 1%nat.
Proof. by vm_compute. Qed.
Example claim_type_misspelt : GetCmdCreateEthBridgeClaim (ex_claim_line "lock") [] = ([], Ok tt).
Proof. by vm_compute. Qed.

(** The sender of a burn or a lock need not be the account of [--from]: it is alice's key that
    is to sign a message that only bob's signature makes valid. *)
Definition ex_send_line : Invocation := typed "alice" ["sif1bob"; ex_address; "5"; "ceth"; "70000000000000000"] [(FlagEthereumChainID, "3")].
Example burn_for_another : (fun x => (x.1, GetSigners x.2)) <$> (GetCmdBurn ex_send_line []).1 = [(mkClientContext "alice" "alice", Ok ["bob"])].
Proof. by vm_compute. Qed.
Example lock_for_another : (fun x => (x.1, GetSigners x.2)) <$> (GetCmdLock ex_send_line []).1 = [(mkClientContext "alice" "bob", Ok ["bob"])].
Proof. by vm_compute. Qed.

(** An entry of more than ten decimals under a name of its own gets a counterpart without one,
    which no registry message may carry. *)
Example nameless_counterpart :
  TokenRegistry.Denom <$> convert_entry (TokenRegistry.ex_entry "ibc/27394FB092D2ECCD" 18) = ["ibc/27394FB092D2ECCD"; ""].
Proof. reflexivity. Qed.
Example nameless_refused : is_ok (TokenRegistry.checkDenom "") = false.
Proof. reflexivity. Qed.
End Examples.
End TxClient.
