(* ===== verification/GoUrl.v ===== *)
(** * The parsing of net/url

    [url.Parse], as far as the relayer looks at its result: whether the text is accepted, and
    the scheme.  The functions are those of the Go standard library, in their order. *)

From Stdlib Require Import ZArith Lia Ascii String.
From stdpp Require Import base list strings.
From S2P Require Import Prelude Json.

Module GoUrl.

Definition code (c : ascii) : nat := nat_of_ascii c.
Definition is_upper (c : ascii) : bool := (65 <=? code c)%nat && (code c <=? 90)%nat.
Definition is_lower (c : ascii) : bool := (97 <=? code c)%nat && (code c <=? 122)%nat.
Definition is_alpha (c : ascii) : bool := is_upper c || is_lower c.
Definition is_alnum (c : ascii) : bool := is_alpha c || is_digit c.
Definition one_of (s : string) (c : ascii) : bool := existsb (Ascii.eqb c) (list_ascii_of_string s).
Definition all_chars (f : ascii -> bool) (s : string) : bool := forallb f (list_ascii_of_string s).

(** [strings.Cut] at the first byte, and the same at the last one. *)
Fixpoint cut (c : ascii) (s : string) : string * option string :=
  match s with
  | EmptyString => ("", None)
  | String d s' =>
      if Ascii.eqb d c then ("", Some s')
      else let '(a, b) := cut c s' in (String d a, b)
  end.
Fixpoint cut_last (c : ascii) (s : string) : option (string * string) :=
  match s with
  | EmptyString => None
  | String d s' =>
      match cut_last c s' with
      | Some (a, b) => Some (String d a, b)
      | None => if Ascii.eqb d c then Some ("", s') else None
      end
  end.

(** What an escape sequence is part of. *)
Inductive Mode := encodePath | encodeHost | encodeZone | encodeUserPassword | encodeFragment.

(** [shouldEscape(c, encodeHost)]. *)
Definition should_escape_host (c : ascii) : bool := negb (is_alnum c || one_of "!$&'()*+,;=:[]<>-_.~" c || Ascii.eqb c "034").

(** The text of a host may hold these bytes as they are: all beyond ASCII, and the ones that
    need no escape. *)
Definition host_char (c : ascii) : bool := (128 <=? code c)%nat || negb (should_escape_host c).

(** Whether [unescape] succeeds. *)
Fixpoint unescape_ok (mode : Mode) (s : string) : bool :=
  match s with
  | EmptyString => true
  | String "%" r =>
      match r with
      | String a (String b r') =>
          match hex_val a, hex_val b with
          | Some x, Some y =>
              (match mode with
               | encodeHost => (8 <=? x)%nat || (x =? 2)%nat && (y =? 5)%nat
               | encodeZone => (x =? 2)%nat && (y =? 5)%nat || (x =? 2)%nat && (y =? 0)%nat
                               || negb (should_escape_host (ascii_of_nat (16 * x + y)))
               | _ => true
               end) && unescape_ok mode r'
          | _, _ => false
          end
      | _ => false
      end
  | String c r => (match mode with encodeHost | encodeZone => host_char c | _ => true end) && unescape_ok mode r
  end.

Definition validOptionalPort (port : string) : bool :=
  match port with
  | EmptyString => true
  | String c digits => Ascii.eqb c ":" && all_chars is_digit digits
  end.

(** The zone of an address in brackets starts at the first [%25]. *)
Fixpoint cut_zone (s : string) : string * option string :=
  match s with
  | EmptyString => ("", None)
  | String c s' => if String.prefix "%25" s then ("", Some s) else let '(a, b) := cut_zone s' in (String c a, b)
  end.

Definition parseHost_ok (host : string) : bool :=
  match host with
  | String "[" _ =>
      match cut_last "]" host with
      | None => false
      | Some (inside, colonPort) =>
          validOptionalPort colonPort &&
          match cut_zone inside with
          | (address, Some zone) =>
              unescape_ok encodeHost address && unescape_ok encodeZone zone && unescape_ok encodeHost (String "]" colonPort)
          | (_, None) => unescape_ok encodeHost host
          end
      end
  | _ =>
      match cut_last ":" host with
      | Some (_, port) => validOptionalPort (String ":" port)
      | None => true
      end && unescape_ok encodeHost host
  end.

Definition validUserinfo (s : string) : bool := all_chars (fun c => is_alnum c || one_of "-._:~!$&'()*+,;=%@" c) s.
Definition parseAuthority_ok (authority : string) : bool :=
  match cut_last "@" authority with
  | None => parseHost_ok authority
  | Some (userinfo, host) =>
      parseHost_ok host && validUserinfo userinfo &&
      match cut ":" userinfo with
      | (username, Some password) => unescape_ok encodeUserPassword username && unescape_ok encodeUserPassword password
      | (username, None) => unescape_ok encodeUserPassword username
      end
  end.

(** The scheme and the rest; a text that starts with a colon has none, a text whose first byte
    outside the alphabet of schemes is no colon has the empty one. *)
Fixpoint scheme_chars (first : bool) (s : string) : option (option (string * string)) :=
  match s with
  | EmptyString => Some None
  | String c s' =>
      if Ascii.eqb c ":" then (if first then None else Some (Some ("", s')))
      else if is_alpha c || negb first && (is_digit c || one_of "+-." c) then
        match scheme_chars false s' with
        | Some (Some (a, b)) => Some (Some (String c a, b))
        | r => r
        end
      else Some None
  end.
Definition getScheme (rawURL : string) : option (string * string) :=
  match scheme_chars true rawURL with
  | None => None
  | Some (Some sr) => Some sr
  | Some None => Some ("", rawURL)
  end.

Definition ctl_byte (c : ascii) : bool := (code c <? 32)%nat || (code c =? 127)%nat.

(** What is left after a single question mark at the end, or before the first one. *)
Definition without_query (rest : string) : string := (cut "?" rest).1.

Definition parse (rawURL : string) : option string :=
  if negb (all_chars (fun c => negb (ctl_byte c)) rawURL) then None
  else if String.eqb rawURL "*" then Some ""
  else
    match getScheme rawURL with
    | None => None
    | Some (scheme, rest) =>
        let scheme := ToLower scheme in
        let rest := without_query rest in
        if negb (HasPrefix rest "/") && negb (String.eqb scheme "") then Some scheme
        else if negb (HasPrefix rest "/") && Contains (cut "/" rest).1 ":" then None
        else
          let has_authority := (negb (String.eqb scheme "") || negb (HasPrefix rest "///")) && HasPrefix rest "//" in
          let '(authority, path) :=
            if has_authority then
              match cut "/" (str_drop 2 rest) with
              | (a, Some p) => (a, String "/" p)
              | (a, None) => (a, "")
              end
            else ("", rest) in
          if (negb has_authority || parseAuthority_ok authority) && unescape_ok encodePath path then Some scheme else None
    end.

(** [url.Parse]: the scheme of an accepted text. *)
Definition Parse (rawURL : string) : option string :=
  let '(u, frag) := cut "#" rawURL in
  match parse u with
  | Some scheme => if unescape_ok encodeFragment (default "" frag) then Some scheme else None
  | None => None
  end.

(** ** Examples *)

Example parse_websocket : Parse "ws://localhost:7545/" = Some "ws". Proof. reflexivity. Qed.
Example parse_upper : Parse "WSS://user:pa%20ss@[::1%25en0]:80/a?b=%zz#x" = Some "wss". Proof. reflexivity. Qed.
Example parse_opaque : Parse "ws:anything goes" = Some "ws". Proof. reflexivity. Qed.
Example parse_port : Parse "ws://localhost:port" = None. Proof. reflexivity. Qed.
Example parse_space : Parse "ws://local host" = None. Proof. reflexivity. Qed.
Example parse_relative : Parse "localhost" = Some "". Proof. reflexivity. Qed.
Example parse_colon : Parse "127.0.0.1:7545" = None. Proof. reflexivity. Qed.
Example parse_percent : Parse "http://host/%" = None. Proof. reflexivity. Qed.

(** A text with a scheme starts with a letter. *)
Lemma scheme_chars_head s a b : scheme_chars true s = Some (Some (a, b)) -> exists c s', s = String c s' /\ is_alpha c = true.
Proof.
  destruct s as [|c s']; [done|]. cbn [scheme_chars]. destruct (Ascii.eqb c ":"); [done|]. rewrite andb_false_l, orb_false_r.
  destruct (is_alpha c) eqn:E; [by exists c, s'|done].
Qed.

Lemma parse_head u scheme : parse u = Some scheme -> scheme <> "" -> exists c u', u = String c u' /\ is_alpha c = true.
Proof.
  unfold parse. destruct (negb _); [done|]. destruct (String.eqb u "*"); [congruence|]. unfold getScheme.
  destruct (scheme_chars true u) as [[[a b]|]|] eqn:E; [intros _ _; by eapply scheme_chars_head| |done].
  cbn [ToLower]. intros Hp Hne. exfalso. apply Hne. repeat case_match; congruence.
Qed.

Lemma Parse_head s scheme : Parse s = Some scheme -> scheme <> "" -> exists c s', s = String c s' /\ is_alpha c = true.
Proof.
  unfold Parse. destruct (cut "#" s) as [u frag] eqn:E. destruct (parse u) as [sch|] eqn:Ep; [|done].
  destruct (unescape_ok _ _); [|done]. intros [= <-] Hne. destruct (parse_head _ _ Ep Hne) as (c & u' & -> & Hc).
  destruct s as [|d s']; [done|]. cbn [cut] in E. destruct (Ascii.eqb d "#"); [done|]. destruct (cut "#" s') as [a b].
  injection E as -> _ _. by exists c, s'.
Qed.

Lemma alpha_not_space c : is_alpha c = true -> is_space c = false.
Proof. by destruct c as [[] [] [] [] [] [] [] []]. Qed.
End GoUrl.
