(* ===== verification/EbEvents.v ===== *)
(** * cmd/ebrelayer: what the relayer reads from the two chains

    The relayer of a validator watches both chains.  Lock and burn logs of the Ethereum
    contract become claim messages ([EthereumEventToEthBridgeClaim]); lock and burn events
    of this chain become calls of the contract ([BurnLockEventToCosmosMsg]); the claims of
    this chain are read back by the replay commands ([AttributesToEthereumBridgeClaim]).
    Symbols of the two chains are translated by a table, a bidirectional map of a third
    party ([BiMap]).  The loops that drive all this are in [EbRelayer], the replay commands
    in [EbReplay]. *)

From Stdlib Require Import ZArith Lia Ascii String.
From stdpp Require Import base list gmap strings.
From S2P Require Import Prelude SdkMath Sdk TokenRegistry Json Oracle EthBridge.

Module EbEvents.
Import Oracle (MapOrder, map_range).
Import EthBridge (EthCommon, EthCommonLaws, IsHexAddress, HexToAddress, Address_String, ClaimType, CLAIM_TYPE_BURN,
  CLAIM_TYPE_LOCK, EthBridgeClaim, mkEthBridgeClaim, NewEthereumAddress, EthereumAddress_String).

(** ** types/types.go *)

Inductive Event :=
| Unsupported
| MsgBurn
| MsgLock
| LogLock
| LogBurn
| LogNewProphecyClaim
| NewProphecyClaim
| CreateEthBridgeClaim.
#[export] Instance Event_eq_dec : EqDecision Event.
Proof. solve_decision. Defined.

Definition Event_String (d : Event) : string :=
  match d with
  | Unsupported => "unsupported"
  | MsgBurn => "burn"
  | MsgLock => "lock"
  | LogLock => "LogLock"
  | LogBurn => "LogBurn"
  | LogNewProphecyClaim => "LogNewProphecyClaim"
  | NewProphecyClaim => "newProphecyClaim"
  | CreateEthBridgeClaim => "create_claim"
  end.

(** Addresses are 20 bytes, [To] and [ID] byte strings, numbers [big.Int]s. *)
Record EthereumEvent := mkEthereumEvent {
  Ev_To : string;
  Ev_Symbol : string;
  Ev_EthereumChainID : Z;
  Ev_Value : Z;
  Ev_Nonce : Z;
  Ev_ClaimType : ClaimType;
  Ev_ID : string;
  Ev_BridgeContractAddress : string;
  Ev_From : string;
  Ev_Token : string;
}.

(** [None] is a number that was never set. *)
Record CosmosMsg := mkCosmosMsg {
  Cm_CosmosSender : string;
  Cm_CosmosSenderSequence : option Z;
  Cm_Symbol : string;
  Cm_Amount : option Z;
  Cm_EthereumReceiver : string;
  Cm_ClaimType : Event;
}.
Definition NewCosmosMsg (claimType : Event) (cosmosSender : string) (cosmosSenderSequence : option Z)
    (ethereumReceiver symbol : string) (amount : option Z) : CosmosMsg :=
  mkCosmosMsg cosmosSender cosmosSenderSequence symbol amount ethereumReceiver claimType.

Inductive CosmosMsgAttributeKey :=
| UnsupportedAttributeKey
| CosmosSender
| CosmosSenderSequence
| EthereumReceiver
| Amount
| Symbol
| EthereumSender
| EthereumSenderNonce.
Definition AttributeKey_String (d : CosmosMsgAttributeKey) : string :=
  match d with
  | UnsupportedAttributeKey => "unsupported"
  | CosmosSender => "cosmos_sender"
  | CosmosSenderSequence => "cosmos_sender_sequence"
  | EthereumReceiver => "ethereum_receiver"
  | Amount => "amount"
  | Symbol => "symbol"
  | EthereumSender => "ethereum_sender"
  | EthereumSenderNonce => "ethereum_sender_nonce"
  end.

Record EthereumBridgeClaim := mkEthereumBridgeClaim {
  Bc_EthereumSender : string;
  Bc_CosmosSender : string;
  Bc_Nonce : option Z;
}.
Record ProphecyClaimUnique := mkProphecyClaimUnique {
  Pu_CosmosSenderSequence : Z;
  Pu_CosmosSender : string;
}.

(** An event of this chain: its type and its attributes. *)
Abbreviation Attribute := (string * string)%type.
Record AbciEvent := mkAbciEvent { Ae_Type : string; Ae_Attributes : list Attribute }.

(** ** The symbol table *)

(** Values come from JSON and may be of any type; the keys are strings. *)
Class BiMap (T : Type) := {
  NewBiMap : T;
  bm_Insert : string -> Json -> T -> res T;
  bm_Get : T -> string -> option Json;
  bm_GetInverse : T -> string -> option string;
}.

Section Translator.
Context {T : Type} `{BiMap T}.

Definition GetWithDefault (m : T) (k : string) (defaultValue : Json) : Json := default defaultValue (bm_Get m k).
Definition GetInverseWithDefault (m : T) (k defaultValue : string) : string := default defaultValue (bm_GetInverse m k).

(** The type assertion panics on a value that is no string. *)
Definition SifchainToEthereum (s : T) (denom : string) : res string :=
  match GetWithDefault s denom (JString denom) with JString symbol => Ok symbol | _ => Panic end.
Definition EthereumToSifchain (s : T) (symbol : string) : string := GetInverseWithDefault s symbol symbol.

Definition NewSymbolTranslator : T := NewBiMap.
Fixpoint insert_all (l : list (string * Json)) (m : T) : res T :=
  match l with
  | [] => Ok m
  | (k, v) :: l' => let! m' := bm_Insert k v m in insert_all l' m'
  end.
Definition NewSymbolTranslatorFromJSONBytes `{MapOrder} (jsonContents : string) : res T :=
  match json_parse jsonContents with
  | Some (JObject fields) =>
      insert_all (map_range (fold_left (fun m kv => <[kv.1 := kv.2]> m) fields (∅ : KV Json))) NewBiMap
  | Some JNull => Ok NewBiMap
  | _ => Err json_error
  end.
End Translator.

(** ** txs/parser.go *)

(** [strings.SplitAfter(s, sep)] for a separator of one byte. *)
Fixpoint SplitAfter (s : string) (sep : ascii) : list string :=
  match s with
  | EmptyString => [""]
  | String c s' =>
      if Ascii.eqb c sep then String c "" :: SplitAfter s' sep
      else match SplitAfter s' sep with
           | p :: ps => String c p :: ps
           | [] => [String c ""]
           end
  end.
(** [strings.Join(l, "")]. *)
Definition Join (l : list string) : string := foldr String.append "" l.

Definition nullAddress : string := "0x0000000000000000000000000000000000000000".
Definition defaultSifchainPrefix : string := "c".

Section Parser.
Context {T : Type} `{SdkMath, SdkAddress, EthCommon, BiMap T}.

Definition isZeroAddress (address : string) : bool := String.eqb address (HexToAddress nullAddress).

Definition event_symbol (event : EthereumEvent) (symbolTranslator : T) : res string :=
  if Ev_ClaimType event =? CLAIM_TYPE_LOCK then
    let symbol := ToLower (Ev_Symbol event) in
    if String.eqb symbol "eth" && negb (isZeroAddress (Ev_Token event))
    then Err (PlainErr "symbol eth must have null address set as token address") else Ok symbol
  else if Ev_ClaimType event =? CLAIM_TYPE_BURN then Ok (EthereumToSifchain symbolTranslator (Ev_Symbol event))
  else Ok (Ev_Symbol event).

Definition EthereumEventToEthBridgeClaim (valAddr : string) (event : EthereumEvent) (symbolTranslator : T) : res EthBridgeClaim :=
  let chainID := i64 (Ev_EthereumChainID event) in
  let bridgeContractAddress := NewEthereumAddress (Address_String (Ev_BridgeContractAddress event)) in
  let sender := NewEthereumAddress (Address_String (Ev_From event)) in
  let! recipient := AccAddressFromBech32 (Ev_To event) in
  if String.eqb recipient "" then Err (PlainErr "empty recipient address")
  else
    let tokenContractAddress := NewEthereumAddress (Address_String (Ev_Token event)) in
    let! symbol := event_symbol event symbolTranslator in
    let! amount := NewIntFromBigInt (Ev_Value event) in
    let nonce := i64 (Ev_Nonce event) in
    Ok (mkEthBridgeClaim chainID (EthereumAddress_String bridgeContractAddress) nonce symbol
          (EthereumAddress_String tokenContractAddress) (EthereumAddress_String sender) (AccAddress_String recipient)
          (ValAddress_String valAddr) amount (Ev_ClaimType event)).

(** The variables of the loop over the attributes of an event. *)
Record Collected := mkCollected {
  Co_sender : string;
  Co_sequence : option Z;
  Co_receiver : string;
  Co_symbol : string;
  Co_amount : option Z;
  Co_number : Z;
}.
Definition zero_address : string := EthBridge.zero_bytes 20.
Definition nothing_collected : Collected := mkCollected "" None zero_address "" None 0.

Definition message_symbol (claimType : Event) (val current : string) (symbolTranslator : T) : res string :=
  match claimType with
  | MsgLock => SifchainToEthereum symbolTranslator val
  | MsgBurn =>
      if negb (Contains val defaultSifchainPrefix) then Err (PlainErr "can only relay burns of prefixed coins")
      else Ok (Join (tail (SplitAfter val "c")))
  | _ => Ok current
  end.

Definition collect (claimType : Event) (symbolTranslator : T) (c : Collected) (attribute : Attribute) : res Collected :=
  let key := attribute.1 in
  let val := attribute.2 in
  let n := Co_number c + 1 in
  if String.eqb key (AttributeKey_String CosmosSender) then
    Ok (mkCollected val (Co_sequence c) (Co_receiver c) (Co_symbol c) (Co_amount c) n)
  else if String.eqb key (AttributeKey_String CosmosSenderSequence) then
    match big_SetString val with
    | None => Err (PlainErr "invalid account sequence")
    | Some sequence => Ok (mkCollected (Co_sender c) (Some sequence) (Co_receiver c) (Co_symbol c) (Co_amount c) n)
    end
  else if String.eqb key (AttributeKey_String EthereumReceiver) then
    if negb (IsHexAddress val) then Err (PlainErr "invalid recipient address")
    else Ok (mkCollected (Co_sender c) (Co_sequence c) (HexToAddress val) (Co_symbol c) (Co_amount c) n)
  else if String.eqb key (AttributeKey_String Symbol) then
    let! symbol := message_symbol claimType val (Co_symbol c) symbolTranslator in
    Ok (mkCollected (Co_sender c) (Co_sequence c) (Co_receiver c) symbol (Co_amount c) n)
  else if String.eqb key (AttributeKey_String Amount) then
    match NewIntFromString val with
    | None => Err (PlainErr "invalid amount")
    | Some amount => Ok (mkCollected (Co_sender c) (Co_sequence c) (Co_receiver c) (Co_symbol c) (Some amount) n)
    end
  else Ok c.

Fixpoint collect_all (claimType : Event) (symbolTranslator : T) (c : Collected) (attributes : list Attribute) : res Collected :=
  match attributes with
  | [] => Ok c
  | a :: l => let! c' := collect claimType symbolTranslator c a in collect_all claimType symbolTranslator c' l
  end.

Definition BurnLockEventToCosmosMsg (claimType : Event) (attributes : list Attribute) (symbolTranslator : T) : res CosmosMsg :=
  let! c := collect_all claimType symbolTranslator nothing_collected attributes in
  if Co_number c <? 5 then Err (PlainErr "message not complete")
  else Ok (NewCosmosMsg claimType (Co_sender c) (Co_sequence c) (Co_receiver c) (Co_symbol c) (Co_amount c)).

Definition read_claim (c : EthereumBridgeClaim) (attribute : Attribute) : res EthereumBridgeClaim :=
  let key := attribute.1 in
  let val := attribute.2 in
  if String.eqb key (AttributeKey_String CosmosSender) then
    let! cosmosSender := ValAddressFromBech32 val in
    Ok (mkEthereumBridgeClaim (Bc_EthereumSender c) cosmosSender (Bc_Nonce c))
  else if String.eqb key (AttributeKey_String EthereumSender) then
    if negb (IsHexAddress val) then Err (PlainErr "invalid recipient address")
    else Ok (mkEthereumBridgeClaim (HexToAddress val) (Bc_CosmosSender c) (Bc_Nonce c))
  else if String.eqb key (AttributeKey_String EthereumSenderNonce) then
    match NewIntFromString val with
    | None => Err (PlainErr "invalid nonce")
    | Some nonce => Ok (mkEthereumBridgeClaim (Bc_EthereumSender c) (Bc_CosmosSender c) (Some nonce))
    end
  else Ok c.

Fixpoint read_claims (c : EthereumBridgeClaim) (attributes : list Attribute) : res EthereumBridgeClaim :=
  match attributes with
  | [] => Ok c
  | a :: l => let! c' := read_claim c a in read_claims c' l
  end.
Definition AttributesToEthereumBridgeClaim (attributes : list Attribute) : res EthereumBridgeClaim :=
  read_claims (mkEthereumBridgeClaim zero_address "" None) attributes.
End Parser.

(** ** Events of x/ethbridge, as its message server emits them *)

Definition ClaimType_String (x : ClaimType) : string :=
  if x =? 0 then "CLAIM_TYPE_UNSPECIFIED" else if x =? 1 then "CLAIM_TYPE_BURN"
  else if x =? 2 then "CLAIM_TYPE_LOCK" else big_String x.

Definition lock_event (msg : EthBridge.MsgLock) (sequence : Z) : AbciEvent :=
  mkAbciEvent "lock"
    [("ethereum_chain_id", big_String (EthBridge.Lock_EthereumChainId msg));
     ("cosmos_sender", EthBridge.Lock_CosmosSender msg);
     ("cosmos_sender_sequence", big_String sequence);
     ("ethereum_receiver", EthBridge.Lock_EthereumReceiver msg);
     ("amount", big_String (EthBridge.Lock_Amount msg));
     ("symbol", EthBridge.Lock_Symbol msg);
     ("ceth_amount", big_String (EthBridge.Lock_CethAmount msg))].
Definition burn_event (msg : EthBridge.MsgBurn) (sequence : Z) : AbciEvent :=
  mkAbciEvent "burn"
    [("ethereum_chain_id", big_String (EthBridge.Burn_EthereumChainId msg));
     ("cosmos_sender", EthBridge.Burn_CosmosSender msg);
     ("cosmos_sender_sequence", big_String sequence);
     ("ethereum_receiver", EthBridge.Burn_EthereumReceiver msg);
     ("amount", big_String (EthBridge.Burn_Amount msg));
     ("symbol", EthBridge.Burn_Symbol msg);
     ("ceth_amount", big_String (EthBridge.Burn_CethAmount msg))].
Definition create_claim_event (c : EthBridgeClaim) : AbciEvent :=
  mkAbciEvent "create_claim"
    [("cosmos_sender", EthBridge.EValidatorAddress c);
     ("ethereum_sender", EthBridge.EthereumSender c);
     ("ethereum_sender_nonce", big_String (EthBridge.Nonce c));
     ("cosmos_receiver", EthBridge.CosmosReceiver c);
     ("amount", big_String (EthBridge.EAmount c));
     ("symbol", EthBridge.ESymbol c);
     ("token_contract_address", EthBridge.TokenContractAddress c);
     ("claim_type", ClaimType_String (EthBridge.EClaimType c))].

(** ** Comparing and printing events *)

Definition newline : string := String "010" "".
(** [fmt.Sprintf] of lines "name: value". *)
Definition text_line (name value : string) : string := newline +:+ name +:+ ": " +:+ value.
Definition text_lines (l : list (string * string)) : string := String.concat "" ((fun kv => text_line kv.1 kv.2) <$> l).

(** The chain ids are compared as pointers, not as numbers: [same] says whether the two events
    share the number behind [EthereumChainID]. *)
Definition EthereumEvent_Equal (same : bool) (e other : EthereumEvent) : bool :=
  same
  && String.eqb (Ev_BridgeContractAddress e) (Ev_BridgeContractAddress other)
  && String.eqb (Ev_ID e) (Ev_ID other)
  && String.eqb (Ev_From e) (Ev_From other)
  && String.eqb (Ev_To e) (Ev_To other)
  && String.eqb (Ev_Symbol e) (Ev_Symbol other)
  && (Ev_Value e =? Ev_Value other)
  && (Ev_Nonce e =? Ev_Nonce other)
  && (Ev_ClaimType e =? Ev_ClaimType other).

(** Numbers that were never set print as [<nil>]. *)
Definition opt_String (z : option Z) : string := match z with Some z => big_String z | None => "<nil>" end.

Record ProphecyClaimEvent := mkProphecyClaimEvent {
  Pe_CosmosSender : string;
  Pe_Symbol : string;
  Pe_ProphecyID : option Z;
  Pe_Amount : option Z;
  Pe_EthereumReceiver : string;
  Pe_ValidatorAddress : string;
  Pe_TokenAddress : string;
  Pe_ClaimType : Z;
}.
Definition NewProphecyClaimEvent (cosmosSender symbol : string) (prophecyID amount : option Z)
    (ethereumReceiver validatorAddress tokenAddress : string) (claimType : Z) : ProphecyClaimEvent :=
  mkProphecyClaimEvent cosmosSender symbol prophecyID amount ethereumReceiver validatorAddress tokenAddress claimType.

Section Text.
Context `{EthCommon}.

Definition EthereumEvent_String (e : EthereumEvent) : string :=
  text_lines
    [("Chain ID", big_String (Ev_EthereumChainID e));
     ("Bridge contract address", Address_String (Ev_BridgeContractAddress e));
     ("Token symbol", Ev_Symbol e);
     ("Token contract address", Address_String (Ev_Token e));
     ("Sender", Address_String (Ev_From e));
     ("Recipient", Ev_To e);
     ("Value", big_String (Ev_Value e));
     ("Nonce", big_String (Ev_Nonce e));
     ("Claim type", ClaimType_String (Ev_ClaimType e))].

Definition ProphecyClaimEvent_String (p : ProphecyClaimEvent) : string :=
  text_lines
    [("Prophecy ID", opt_String (Pe_ProphecyID p));
     ("Claim Type", big_String (Pe_ClaimType p));
     ("Sender", Pe_CosmosSender p);
     ("Recipient", Address_String (Pe_EthereumReceiver p));
     ("Symbol", Pe_Symbol p);
     ("Token", Address_String (Pe_TokenAddress p));
     ("Amount", opt_String (Pe_Amount p));
     ("Validator", Address_String (Pe_ValidatorAddress p))]
  +:+ newline +:+ newline.

(** Both branches of the method print the same. *)
Definition CosmosMsg_String (c : CosmosMsg) : string :=
  let lines :=
    [("Claim Type", Event_String (Cm_ClaimType c));
     ("Cosmos Sender", Cm_CosmosSender c);
     ("Cosmos Sender Sequence", opt_String (Cm_CosmosSenderSequence c));
     ("Ethereum Recipient", Address_String (Cm_EthereumReceiver c));
     ("Symbol", Cm_Symbol c);
     ("Amount", opt_String (Cm_Amount c))] in
  if decide (Cm_ClaimType c = MsgLock) then text_lines lines +:+ newline else text_lines lines +:+ newline.
End Text.

(** Two events are equal for the relayer when they share their chain id and differ at most in the
    token contract; two events with chain ids of their own never are, not even of the same number. *)
Lemma EthereumEvent_Equal_spec same e other : (same = true -> Ev_EthereumChainID e = Ev_EthereumChainID other) ->
  EthereumEvent_Equal same e other = true
  <-> same = true /\ exists token, other = mkEthereumEvent (Ev_To e) (Ev_Symbol e) (Ev_EthereumChainID e) (Ev_Value e) (Ev_Nonce e)
                              (Ev_ClaimType e) (Ev_ID e) (Ev_BridgeContractAddress e) (Ev_From e) token.
Proof.
  intros Hsame. unfold EthereumEvent_Equal. rewrite !andb_true_iff, !Z.eqb_eq, !String.eqb_eq. split.
  - intros ((((((((? & ?) & ?) & ?) & ?) & ?) & ?) & ?) & ?). split; [done|]. exists (Ev_Token other).
    rewrite Hsame by done. destruct e, other. by simplify_eq/=.
  - by intros (? & token & ->).
Qed.

(** ** What the loops read *)

Definition getOracleClaimType (eventType : string) : Event :=
  if String.eqb eventType (Event_String MsgBurn) then MsgBurn
  else if String.eqb eventType (Event_String MsgLock) then MsgLock
  else Unsupported.

(** The bytes as one big-endian number: the hexadecimal text is read back in base 16. *)
Fixpoint big_endian_value (acc : Z) (s : string) : Z :=
  match s with
  | EmptyString => acc
  | String c s' => big_endian_value (256 * acc + Z.of_N (N_of_ascii c)) s'
  end.

(** ** Lemmas *)

(** The text of an address is an address and reads back. *)
Class EthTextLaws `{EthCommon} : Prop := {
  HexToAddress_String a : String.length a = 20%nat -> HexToAddress (Address_String a) = a;
  IsHexAddress_String a : String.length a = 20%nat -> IsHexAddress (Address_String a) = true;
}.

Lemma SplitAfter_nonempty s c : SplitAfter s c <> [].
Proof. destruct s as [|a s]; simpl; [done|]. destruct (Ascii.eqb a c); [done|]. by destruct (SplitAfter s c). Qed.
Lemma Join_SplitAfter s c : Join (SplitAfter s c) = s.
Proof.
  induction s as [|a s IH]; simpl; [done|]. destruct (Ascii.eqb a c) eqn:E; [by simpl; rewrite IH|].
  destruct (SplitAfter s c) as [|p ps] eqn:Es; [by destruct (SplitAfter_nonempty s c)|]. by rewrite <- IH.
Qed.
(** Cutting at the first prefix character takes a leading one off. *)
Lemma strip_prefix s : Join (tail (SplitAfter (EthBridge.PeggedCoinPrefix +:+ s) "c")) = s.
Proof. cbn. apply Join_SplitAfter. Qed.

(** An event as the contract's log is decoded: addresses have 20 bytes, numbers are unsigned
    and the chain and the nonce are below 2^63. *)
Definition wf_event (e : EthereumEvent) : Prop :=
  String.length (Ev_BridgeContractAddress e) = 20%nat /\ String.length (Ev_From e) = 20%nat
  /\ String.length (Ev_Token e) = 20%nat /\ 0 <= Ev_EthereumChainID e < 2 ^ 63 /\ 0 <= Ev_Nonce e < 2 ^ 63
  /\ 0 <= Ev_Value e < 2 ^ 255 /\ - 2 ^ 31 <= Ev_ClaimType e < 2 ^ 31.

Section Witnessed.
Context {T : Type} `{SdkMathLaws, SdkAddressLaws, EthCommonLaws, !EthTextLaws, EthBridge.IntText, !EthBridge.IntTextLaws, !BiMap T}.

(** The claim a validator makes of an event, and what it becomes for the oracle. *)
Lemma claim_of_event v e (t : T) ec :
  wf_event e -> EthereumEventToEthBridgeClaim v e t = Ok ec ->
  exists receiver symbol, AccAddressFromBech32 (Ev_To e) = Ok receiver /\ event_symbol e t = Ok symbol
  /\ ec = mkEthBridgeClaim (Ev_EthereumChainID e) (Address_String (Ev_BridgeContractAddress e)) (Ev_Nonce e) symbol
            (Address_String (Ev_Token e)) (Address_String (Ev_From e)) (AccAddress_String receiver) (ValAddress_String v)
            (Ev_Value e) (Ev_ClaimType e).
Proof.
  intros (Hb & Hf & Ht & Hc & Hn & Hv & _) He. unfold EthereumEventToEthBridgeClaim in He.
  apply rbind_ok_inv in He as (receiver & Hr & He). destruct (String.eqb receiver ""); [done|].
  apply rbind_ok_inv in He as (symbol & Hs & He). apply rbind_ok_inv in He as (amount & Ha & He).
  apply NewIntFromBigInt_ok in Ha as ->. injection He as <-. exists receiver, symbol. split; [done|]. split; [done|].
  unfold NewEthereumAddress, EthereumAddress_String. rewrite !HexToAddress_String by done. by rewrite !i64_small by lia.
Qed.

Lemma oracle_claim_of_event v e (t : T) ec claim :
  wf_event e -> EthereumEventToEthBridgeClaim v e t = Ok ec -> EthBridge.CreateOracleClaimFromEthClaim ec = Ok claim ->
  exists receiver symbol, AccAddressFromBech32 (Ev_To e) = Ok receiver /\ event_symbol e t = Ok symbol
  /\ let content := EthBridge.NewOracleClaimContent receiver (Ev_Value e) symbol (Ev_Token e) (Ev_ClaimType e) in
     claim = Oracle.NewClaim (EthBridge.oracle_id (Ev_EthereumChainID e) (Ev_Nonce e) (Address_String (Ev_From e)))
               (ValAddress_String v) (json_print (EthBridge.content_json content))
     /\ EthBridge.CreateOracleClaimFromOracleString (Oracle.Content claim) = Ok content.
Proof.
  intros Hw He Hc. destruct (claim_of_event _ _ _ _ Hw He) as (receiver & symbol & Hr & Hs & ->).
  exists receiver, symbol. split; [done|]. split; [done|]. destruct Hw as (Hb & Hf & Ht & _ & _ & Hv & Hty).
  unfold EthBridge.CreateOracleClaimFromEthClaim in Hc. cbn [EthBridge.CosmosReceiver] in Hc.
  rewrite AccAddress_roundtrip in Hc by by eapply AccAddress_nonempty. cbn [rbind] in Hc. injection Hc as <-.
  cbn [EthBridge.EthereumChainId EthBridge.Nonce EthBridge.EthereumSender EthBridge.EValidatorAddress EthBridge.EAmount
    EthBridge.ESymbol EthBridge.TokenContractAddress EthBridge.EClaimType].
  unfold NewEthereumAddress. rewrite HexToAddress_String by done. split; [done|].
  apply EthBridge.content_roundtrip; [by eapply AccAddress_nonempty|lia|done|done].
Qed.

(** What the relayer reads from a burn or lock event of this chain. *)
Lemma relayed_message claimType chain sender sequence receiver amount symbol ceth (t : T) :
  IsHexAddress receiver = true -> Z.abs amount < 2 ^ 255 ->
  BurnLockEventToCosmosMsg claimType
    [("ethereum_chain_id", chain); ("cosmos_sender", sender); ("cosmos_sender_sequence", big_String sequence);
     ("ethereum_receiver", receiver); ("amount", big_String amount); ("symbol", symbol); ("ceth_amount", ceth)] t
  = let! out := message_symbol claimType symbol "" t in
    Ok (NewCosmosMsg claimType sender (Some sequence) (HexToAddress receiver) out (Some amount)).
Proof.
  intros Hr Ha. unfold BurnLockEventToCosmosMsg, collect_all, collect.
  cbn -[big_SetString big_String NewIntFromString message_symbol]. rewrite big_SetString_String.
  cbn -[big_SetString big_String NewIntFromString message_symbol]. rewrite Hr.
  cbn -[big_SetString big_String NewIntFromString message_symbol]. rewrite NewIntFromString_total by done.
  cbn -[message_symbol]. by destruct (message_symbol claimType symbol "" t).
Qed.
End Witnessed.

(** ** Properties *)

Section EndToEnd.
Context {T B O R : Type} `{SdkMathLaws, SdkCoinsLaws, SdkAddressLaws, EthCommonLaws, !EthTextLaws, EthBridge.IntText,
  !EthBridge.IntTextLaws, !BankKeeper B, !BankLaws B, !EthBridge.AccountKeeper B, !EthBridge.OracleKeeper O,
  !EthBridge.OracleKeeperLaws O, !TokenRegistry.TokenRegistryKeeper R, !BiMap T}.
Abbreviation W := (EthBridge.BridgeWorld B O R).

(** C20: From Ethereum and back.  All validators that witness a lock make claims with one
    identifier and one content.  When the bridge pays that content, exactly the locked value
    appears at the receiver the event names, in the pegged denomination of the lower-case
    symbol, which is listed as pegged; and the event of burning any amount of it is relayed
    to Ethereum with that symbol, amount, receiver, sender and sequence. *)
Theorem ethereum_roundtrip v v2 e (t : T) ec ec2 claim claim2 (w w' : W) u :
  wf_event e -> Ev_ClaimType e = CLAIM_TYPE_LOCK ->
  EthereumEventToEthBridgeClaim v e t = Ok ec -> EthBridge.CreateOracleClaimFromEthClaim ec = Ok claim ->
  EthereumEventToEthBridgeClaim v2 e t = Ok ec2 -> EthBridge.CreateOracleClaimFromEthClaim ec2 = Ok claim2 ->
  EthBridge.ProcessSuccessfulClaim (Oracle.Content claim) w = (w', Ok u) ->
  let denom := EthBridge.PeggedCoinPrefix +:+ ToLower (Ev_Symbol e) in
  Oracle.Claim_Id claim2 = Oracle.Claim_Id claim /\ Oracle.Content claim2 = Oracle.Content claim
  /\ (exists receiver, AccAddressFromBech32 (Ev_To e) = Ok receiver
        /\ forall a d, GetBalance (EthBridge.bw_bank w') a d = GetBalance (EthBridge.bw_bank w) a d
             + (if decide (a = receiver) then if String.eqb denom d then Ev_Value e else 0 else 0))
  /\ EthBridge.ExistsPeggyToken denom w' = true
  /\ forall msg sequence, EthBridge.Burn_Symbol msg = denom -> IsHexAddress (EthBridge.Burn_EthereumReceiver msg) = true ->
       Z.abs (EthBridge.Burn_Amount msg) < 2 ^ 255 ->
       BurnLockEventToCosmosMsg MsgBurn (Ae_Attributes (burn_event msg sequence)) t
       = Ok (NewCosmosMsg MsgBurn (EthBridge.Burn_CosmosSender msg) (Some sequence)
               (HexToAddress (EthBridge.Burn_EthereumReceiver msg)) (ToLower (Ev_Symbol e)) (Some (EthBridge.Burn_Amount msg))).
Proof.
  intros Hw Hty He Hc He2 Hc2 Hp denom.
  destruct (oracle_claim_of_event _ _ _ _ _ Hw He Hc) as (receiver & symbol & Hr & Hs & -> & Hread).
  destruct (oracle_claim_of_event _ _ _ _ _ Hw He2 Hc2) as (receiver2 & symbol2 & Hr2 & Hs2 & -> & _).
  rewrite Hr in Hr2. injection Hr2 as <-. rewrite Hs in Hs2. injection Hs2 as <-.
  assert (symbol = ToLower (Ev_Symbol e)) as ->.
  { unfold event_symbol in Hs. rewrite Hty in Hs. cbn in Hs. by destruct (_ && _); [|injection Hs as <-]. }
  destruct (EthBridge.ProcessSuccessfulClaim_ok _ _ _ _ Hp) as (c & amount & Hc' & Ham & _ & Hkind & _ & _ & _ & Hb).
  rewrite Hread in Hc'. injection Hc' as <-. injection Ham as <-. cbn [EthBridge.OC_ClaimType EthBridge.NewOracleClaimContent] in Hkind.
  assert (EthBridge.paid_denom (EthBridge.NewOracleClaimContent receiver (Ev_Value e) (ToLower (Ev_Symbol e)) (Ev_Token e) (Ev_ClaimType e))
    = denom) as Hd by (unfold EthBridge.paid_denom; cbn [EthBridge.OC_ClaimType EthBridge.NewOracleClaimContent]; by rewrite Hty).
  rewrite Hd in Hkind, Hb. split; [done|]. split; [done|]. split; [by exists receiver|]. split.
  - apply EthBridge.ExistsPeggyToken_spec. destruct Hkind as [[_ Hin]|[Hno _]]; [done|]. rewrite Hty in Hno. done.
  - intros msg sequence Hsym Hhex Habs. unfold burn_event, Ae_Attributes. rewrite relayed_message by done.
    unfold message_symbol. rewrite Hsym. assert (Contains denom defaultSifchainPrefix = true) as -> by by destruct (ToLower (Ev_Symbol e)). unfold denom.
    by rewrite strip_prefix.
Qed.

(** The table pairs denominations and symbols one to one. *)
Definition bijective (t : T) : Prop := forall d s, bm_Get t d = Some (JString s) <-> bm_GetInverse t s = Some d.

(** C21: From this chain and back.  With a one-to-one symbol table, the event of locking a
    denomination that the table lists, or that is none of its Ethereum symbols, is relayed
    with the sender, sequence, amount and receiver of the message and some symbol; when coins
    of that symbol are burnt on Ethereum, the bridge pays the burnt value to the event's
    receiver in the denomination that was locked. *)
Theorem cosmos_roundtrip msg sequence e (t : T) v m ec claim (w w' : W) u :
  bijective t -> (is_Some (bm_Get t (EthBridge.Lock_Symbol msg)) \/ bm_GetInverse t (EthBridge.Lock_Symbol msg) = None) ->
  IsHexAddress (EthBridge.Lock_EthereumReceiver msg) = true -> Z.abs (EthBridge.Lock_Amount msg) < 2 ^ 255 ->
  BurnLockEventToCosmosMsg MsgLock (Ae_Attributes (lock_event msg sequence)) t = Ok m ->
  wf_event e -> Ev_ClaimType e = CLAIM_TYPE_BURN -> Ev_Symbol e = Cm_Symbol m ->
  EthereumEventToEthBridgeClaim v e t = Ok ec -> EthBridge.CreateOracleClaimFromEthClaim ec = Ok claim ->
  EthBridge.ProcessSuccessfulClaim (Oracle.Content claim) w = (w', Ok u) ->
  m = NewCosmosMsg MsgLock (EthBridge.Lock_CosmosSender msg) (Some sequence) (HexToAddress (EthBridge.Lock_EthereumReceiver msg))
        (Cm_Symbol m) (Some (EthBridge.Lock_Amount msg))
  /\ exists receiver, AccAddressFromBech32 (Ev_To e) = Ok receiver
     /\ forall a d, GetBalance (EthBridge.bw_bank w') a d = GetBalance (EthBridge.bw_bank w) a d
          + (if decide (a = receiver) then if String.eqb (EthBridge.Lock_Symbol msg) d then Ev_Value e else 0 else 0).
Proof.
  intros Hbij Hdom Hhex Habs Hm Hw Hty Hsym He Hc Hp.
  unfold lock_event, Ae_Attributes in Hm. rewrite relayed_message in Hm by done.
  apply rbind_ok_inv in Hm as (s & Hs & Hm). injection Hm as <-. split; [done|].
  destruct (oracle_claim_of_event _ _ _ _ _ Hw He Hc) as (receiver & symbol & Hr & Hes & -> & Hread).
  assert (symbol = EthBridge.Lock_Symbol msg) as ->.
  { unfold event_symbol in Hes. rewrite Hty, Hsym in Hes. cbn in Hes. injection Hes as <-.
    unfold message_symbol, SifchainToEthereum, GetWithDefault in Hs. unfold EthereumToSifchain, GetInverseWithDefault.
    destruct (bm_Get t (EthBridge.Lock_Symbol msg)) as [j|] eqn:Ej; cbn in Hs.
    - destruct j as [| | |s'| |]; try done. injection Hs as <-. by rewrite (proj1 (Hbij _ _) Ej).
    - injection Hs as <-. by destruct Hdom as [[]| ->]. }
  exists receiver. split; [done|].
  destruct (EthBridge.ProcessSuccessfulClaim_ok _ _ _ _ Hp) as (c & amount & Hc' & Ham & _ & _ & _ & _ & _ & Hb).
  rewrite Hread in Hc'. injection Hc' as <-. injection Ham as <-. intros a d. rewrite Hb. unfold EthBridge.paid_denom.
  cbn [EthBridge.OC_ClaimType EthBridge.NewOracleClaimContent EthBridge.OC_CosmosReceiver EthBridge.OC_Symbol]. by rewrite Hty.
Qed.
End EndToEnd.

(** ** Reference implementations and runs *)

(** A table as a list of pairs. *)
Definition RefTable : BiMap (list (string * string)) := {|
  NewBiMap := [];
  bm_Insert k v m := match v with JString s => Ok ((k, s) :: m) | _ => Panic end;
  bm_Get m k := (fun kv => JString kv.2) <$> find (fun kv => String.eqb kv.1 k) m;
  bm_GetInverse m v := fst <$> find (fun kv => String.eqb kv.2 v) m;
|}.

Lemma strip0x_app s : EthBridge.strip0x ("0x" +:+ s) = s.
Proof. unfold EthBridge.strip0x. rewrite prefix_app. apply (str_drop_app "0x"). Qed.
Lemma RefEth_text_laws : @EthTextLaws EthBridge.RefEth.
Proof.
  split; intros a Ha.
  - change (EthBridge.crop20 (default "" (EthBridge.of_hex (EthBridge.strip0x ("0x" +:+ EthBridge.to_hex a)))) = a).
    rewrite strip0x_app, EthBridge.of_hex_to_hex. cbn [default]. unfold EthBridge.crop20, id. by rewrite Ha.
  - change ((String.length (EthBridge.strip0x ("0x" +:+ EthBridge.to_hex a)) =? 40)%nat
      && bool_decide (is_Some (EthBridge.of_hex (EthBridge.strip0x ("0x" +:+ EthBridge.to_hex a)))) = true).
    by rewrite strip0x_app, EthBridge.of_hex_to_hex, EthBridge.to_hex_length, Ha.
Qed.

Section Examples.
#[local] Existing Instances RefMath RefCoins RefAddress RefBank EthBridge.RefEth EthBridge.RefIntText Oracle.RefOrder RefTable
  TokenRegistry.Keeper Oracle.ex_staking.
#[local] Existing Instances RefMath_laws RefCoins_laws RefAddress_laws RefBank_laws EthBridge.RefEth_laws EthBridge.RefIntText_laws
  RefEth_text_laws EthBridge.ex_accounts EthBridge.ex_oracle EthBridge.ex_oracle_laws.

Definition ex_table : list (string * string) := [("ibc/FEEDFACEFEEDFACEFEEDFACEFEEDFACEFEEDFACE", "Face"); ("aku", "erowan")].
Definition ex_address : string := EthBridge.zero_bytes 19 +:+ byte1 171.
Definition ex_event (ty : ClaimType) (symbol : string) : EthereumEvent :=
  mkEthereumEvent "sif1dave" symbol 1 500 7 ty "" ex_address ex_address (EthBridge.zero_bytes 20).
Definition ex_claim (v : string) (e : EthereumEvent) : EthBridgeClaim :=
  match EthereumEventToEthBridgeClaim v e ex_table with Ok c => c | _ => mkEthBridgeClaim 0 "" 0 "" "" "" "" "" 0 0 end.
Definition ex_oracle_claim (c : EthBridgeClaim) : Oracle.Claim :=
  match EthBridge.CreateOracleClaimFromEthClaim c with Ok claim => claim | _ => Oracle.NewClaim "" "" "" end.

Lemma ex_event_wf ty symbol : - 2 ^ 31 <= ty < 2 ^ 31 -> wf_event (ex_event ty symbol).
Proof. intros Hty. unfold wf_event. cbn [ex_event Ev_BridgeContractAddress Ev_From Ev_Token Ev_EthereumChainID Ev_Nonce Ev_Value Ev_ClaimType]. by split_and!; (lia || done). Qed.

Definition ex_lock : EthereumEvent := ex_event CLAIM_TYPE_LOCK "ETH".
Definition ex_lock_text : string := Oracle.Content (ex_oracle_claim (ex_claim "alice" ex_lock)).
Definition ex_minted := (EthBridge.ProcessSuccessfulClaim ex_lock_text EthBridge.ex_world).1.
Lemma ex_minted_ok : EthBridge.ProcessSuccessfulClaim ex_lock_text EthBridge.ex_world = (ex_minted, Ok tt).
Proof. apply (run_ok (EthBridge.ProcessSuccessfulClaim ex_lock_text) EthBridge.ex_world tt). by vm_compute. Qed.

Lemma ethereum_roundtrip_witness :
  GetBalance (EthBridge.bw_bank ex_minted) "dave" "ceth" = GetBalance (EthBridge.bw_bank EthBridge.ex_world) "dave" "ceth" + 500
  /\ BurnLockEventToCosmosMsg MsgBurn (Ae_Attributes (burn_event (EthBridge.mkMsgBurn "sif1dave" 400 "ceth" 1 EthBridge.ex_address 9) 3)) ex_table
     = Ok (NewCosmosMsg MsgBurn "sif1dave" (Some 3) (HexToAddress EthBridge.ex_address) "eth" (Some 400)).
Proof.
  destruct (ethereum_roundtrip "alice" "bob" ex_lock ex_table (ex_claim "alice" ex_lock) (ex_claim "bob" ex_lock)
    (ex_oracle_claim (ex_claim "alice" ex_lock)) (ex_oracle_claim (ex_claim "bob" ex_lock)) EthBridge.ex_world ex_minted tt)
    as (_ & _ & (receiver & Hr & Hb) & _ & Hrel);
    [by apply ex_event_wf|done|by vm_compute|by vm_compute|by vm_compute|by vm_compute|exact ex_minted_ok|]. split.
  - vm_compute in Hr. injection Hr as <-. rewrite (Hb "dave" "ceth"). done.
  - apply (Hrel (EthBridge.mkMsgBurn "sif1dave" 400 "ceth" 1 EthBridge.ex_address 9) 3); by vm_compute.
Defined.

Definition ex_lock_msg : EthBridge.MsgLock := EthBridge.mkMsgLock "sif1dave" 500 "aku" 1 EthBridge.ex_address EthBridge.lockGasCost.
Definition ex_relayed : CosmosMsg := NewCosmosMsg MsgLock "sif1dave" (Some 3) (HexToAddress EthBridge.ex_address) "erowan" (Some 500).
Definition ex_burn : EthereumEvent := ex_event CLAIM_TYPE_BURN "erowan".
Definition ex_burn_text : string := Oracle.Content (ex_oracle_claim (ex_claim "alice" ex_burn)).
Definition ex_returned := (EthBridge.ProcessSuccessfulClaim ex_burn_text EthBridge.ex_world).1.
Lemma ex_returned_ok : EthBridge.ProcessSuccessfulClaim ex_burn_text EthBridge.ex_world = (ex_returned, Ok tt).
Proof. apply (run_ok (EthBridge.ProcessSuccessfulClaim ex_burn_text) EthBridge.ex_world tt). by vm_compute. Qed.

Lemma ex_table_bijective : bijective ex_table.
Proof.
  intros d s. cbn [bm_Get bm_GetInverse RefTable ex_table find fst snd].
  destruct (String.eqb_spec "ibc/FEEDFACEFEEDFACEFEEDFACEFEEDFACEFEEDFACE" d), (String.eqb_spec "Face" s),
    (String.eqb_spec "aku" d), (String.eqb_spec "erowan" s); cbn; split; intros E; try injection E as E; congruence.
Qed.

Lemma cosmos_roundtrip_witness :
  GetBalance (EthBridge.bw_bank ex_returned) "dave" "aku" = GetBalance (EthBridge.bw_bank EthBridge.ex_world) "dave" "aku" + 500.
Proof.
  destruct (cosmos_roundtrip ex_lock_msg 3 ex_burn ex_table "alice" ex_relayed (ex_claim "alice" ex_burn)
    (ex_oracle_claim (ex_claim "alice" ex_burn)) EthBridge.ex_world ex_returned tt) as (_ & receiver & Hr & Hb);
    [exact ex_table_bijective|left; by eexists|by vm_compute|by vm_compute|by vm_compute|by apply ex_event_wf|done|done|by vm_compute
    |by vm_compute|exact ex_returned_ok|].
  vm_compute in Hr. injection Hr as <-. by rewrite (Hb "dave" "aku").
Defined.

(** An event with an attribute twice passes the check that all five are there. *)
Example message_with_a_gap :
  exists m, BurnLockEventToCosmosMsg MsgBurn
    [("cosmos_sender", "a"); ("cosmos_sender", "b"); ("symbol", "ceth"); ("amount", "1"); ("cosmos_sender_sequence", "1")] ex_table = Ok m
  /\ Cm_EthereumReceiver m = zero_address.
Proof. by eexists. Qed.
End Examples.
End EbEvents.
