(* ===== verification/EbSender.v ===== *)
(** * cmd/ebrelayer/txs: sending a message of this chain to Ethereum

    [handleBurnLockMsg] relays one lock or burn message: it prepares the account
    ([InitRelayConfig], at most five times), then calls the contract
    ([RelayProphecyClaimToEthereum], at most five times) until a call is accepted and its
    receipt is found.  The Ethereum node, go-ethereum and the generated bindings of the
    contracts are the class [EthClient]: every request may change the node and may fail.
    [eth_trace] records every request with its outcome, the calls that leave a mark on the
    Ethereum chain with their arguments, in the order in which they are made. *)

From Stdlib Require Import ZArith Lia Ascii String.
From stdpp Require Import base list strings.
From S2P Require Import Prelude SdkMath Sdk TokenRegistry Json Oracle EthBridge EbEvents.

Module EbSender.
Import EbEvents.

(** ** Data *)

Inductive ContractRegistry := Valset | Oracle | BridgeBank | CosmosBridge.

Definition GasLimit : Z := 1800000.

(** The options of a transaction ([bind.TransactOpts]). *)
Record TransactOpts := mkTransactOpts { Nonce : Z; Value : Z; Gas : Z; GasPrice : Z }.

(** The arguments of [newProphecyClaim] with the contract and the options of the call. *)
Record ProphecyCall := mkProphecyCall {
  Pc_Auth : TransactOpts;
  Pc_Contract : string;
  Pc_ClaimType : Z;
  Pc_CosmosSender : string;
  Pc_CosmosSenderSequence : option Z;
  Pc_EthereumReceiver : string;
  Pc_Symbol : string;
  Pc_Amount : option Z;
}.

(** What the preparation of an account and the connection to the contract ask for. *)
Inductive Request :=
| Connection | OperatorNonce | SuggestedPrice | ChainID | Transactor | LatestHeader | Registry | ContractAddress
| BridgeInstance.

(** A request and whether it was answered; a call of the contract with the hash of its
    transaction, if it was accepted; and a query for the receipt of a transaction. *)
Inductive EthCall :=
| Requested (request : Request) (answered : bool)
| NewProphecyClaimCall (call : ProphecyCall) (hash : option string)
| ReceiptQuery (hash : string) (found : bool).

(** The process environment, the keys of go-ethereum and a connection to a node whose
    state is [N].  Addresses are their 20 bytes. *)
Class EthClient (N Key : Type) := {
  Getenv : string -> string;
  HexToECDSA : string -> res Key;
  PubkeyToAddress : Key -> string;
  Dial : M N unit;
  HeaderByNumber : M N Z;
  PendingNonceAt : string -> M N Z;
  SuggestGasPrice : M N Z;
  NetworkID : M N Z;
  NewKeyedTransactorWithChainID : Z -> M N unit;
  NewBridgeRegistry : string -> M N unit;
  RegisteredContract : string -> ContractRegistry -> string -> Z -> M N string;
  NewCosmosBridge : string -> M N unit;
  Contract_NewProphecyClaim : ProphecyCall -> M N string;
  TransactionReceipt : string -> M N unit;
}.

(** Requests answer or fail; they do not crash the program, except that the encoding of a
    call needs its two numbers. *)
Definition answers {N A} (m : M N A) : Prop := forall n, (m n).2 <> Panic.
Class EthClientLaws (N Key : Type) `{EthClient N Key} : Prop := {
  HexToECDSA_answers : forall s, HexToECDSA s <> Panic;
  Dial_answers : answers Dial;
  HeaderByNumber_answers : answers HeaderByNumber;
  PendingNonceAt_answers : forall a, answers (PendingNonceAt a);
  SuggestGasPrice_answers : answers SuggestGasPrice;
  NetworkID_answers : answers NetworkID;
  NewKeyedTransactor_answers : forall i, answers (NewKeyedTransactorWithChainID i);
  NewBridgeRegistry_answers : forall a, answers (NewBridgeRegistry a);
  RegisteredContract_answers : forall r c a n, answers (RegisteredContract r c a n);
  NewCosmosBridge_answers : forall a, answers (NewCosmosBridge a);
  NewProphecyClaim_answers : forall c,
    is_Some (Pc_CosmosSenderSequence c) -> is_Some (Pc_Amount c) -> answers (Contract_NewProphecyClaim c);
  TransactionReceipt_answers : forall h, answers (TransactionReceipt h);
}.

Record Eth (N : Type) := mkEth { eth_node : N; eth_trace : list EthCall }.
Arguments mkEth {_} _ _.
Arguments eth_node {_} _.
Arguments eth_trace {_} _.

(** ** Operations *)

Section Sender.
Context {N Key : Type} `{EthClient N Key}.
(** The address of the bridge registry the relayer was started with. *)
Context (registry : string).

Definition on_node {A} (m : M N A) : M (Eth N) A := fun s => let '(n, r) := m (eth_node s) in (mkEth n (eth_trace s), r).
Definition request {A} (q : Request) (m : M N A) : M (Eth N) A :=
  fun s => let '(n, r) := m (eth_node s) in (mkEth n (eth_trace s ++ [Requested q (is_ok r)]), r).
Definition record (c : EthCall) : M (Eth N) unit := mmodify (fun s => mkEth (eth_node s) (eth_trace s ++ [c])).

(** A call of the contract, and a query for a receipt; the answer of the latter is only
    whether there is one. *)
Definition call_contract (call : ProphecyCall) : M (Eth N) string :=
  do! r <- mtry (on_node (Contract_NewProphecyClaim call));
  match r with
  | inl hash => run! record (NewProphecyClaimCall call (Some hash)); mret hash
  | inr e => run! record (NewProphecyClaimCall call None); mthrow e
  end.
Definition query_receipt (hash : string) : M (Eth N) bool :=
  do! r <- mtry (on_node (TransactionReceipt hash));
  let found := match r with inl _ => true | inr _ => false end in
  run! record (ReceiptQuery hash found);
  mret found.

Definition LoadPrivateKey : res Key :=
  let rawPrivateKey := Getenv "ETHEREUM_PRIVATE_KEY" in
  if String.eqb (TrimSpace rawPrivateKey) "" then Err (PlainErr "can't load ethereum private key")
  else HexToECDSA rawPrivateKey.
Definition LoadSender : res string := let! key := LoadPrivateKey in Ok (PubkeyToAddress key).

Definition GetAddressFromBridgeRegistry (target : ContractRegistry) : M (Eth N) string :=
  do! sender <- mlift LoadSender;
  do! number <- request LatestHeader HeaderByNumber;
  run! request Registry (NewBridgeRegistry registry);
  request ContractAddress (RegisteredContract registry target sender number).

(** Twice the suggested price less a quarter of that. *)
Definition adjusted_gas_price (gasPrice : Z) : Z :=
  let gasPrice := gasPrice * 2 in
  let quarterGasPrice := gasPrice / 4 in
  gasPrice - quarterGasPrice.

Definition target_contract (event : Event) : res ContractRegistry :=
  match event with
  | MsgBurn | MsgLock => Ok CosmosBridge
  | LogNewProphecyClaim => Ok Oracle
  | _ => Panic
  end.

Definition InitRelayConfig (event : Event) : M (Eth N) (TransactOpts * string) :=
  run! request Connection Dial;
  do! sender <- mlift LoadSender;
  do! nonce <- request OperatorNonce (PendingNonceAt sender);
  do! gasPrice <- request SuggestedPrice SuggestGasPrice;
  do! chainID <- request ChainID NetworkID;
  run! request Transactor (NewKeyedTransactorWithChainID chainID);
  let transactOptsAuth := mkTransactOpts (i64 nonce) 0 GasLimit (adjusted_gas_price gasPrice) in
  do! targetContract <- mlift (target_contract event);
  do! target <- GetAddressFromBridgeRegistry targetContract;
  mret (transactOptsAuth, target).

Fixpoint init_retries (retries : nat) (claimType : Event) : M (Eth N) (TransactOpts * string) :=
  match retries with
  | O => mthrow (PlainErr "hit max initRelayConfig retries")
  | S retries' =>
      do! r <- mtry (InitRelayConfig claimType);
      match r with inl config => mret config | inr _ => init_retries retries' claimType end
  end.
Definition tryInitRelayConfig (claimType : Event) : M (Eth N) (TransactOpts * string) := init_retries 5 claimType.

(** [uint8(claim.ClaimType)]. *)
Definition Event_byte (e : Event) : Z :=
  match e with
  | Unsupported => 0 | MsgBurn => 1 | MsgLock => 2 | LogLock => 3 | LogBurn => 4
  | LogNewProphecyClaim => 5 | NewProphecyClaim => 6 | CreateEthBridgeClaim => 7
  end.

Definition prophecy_call_of (claim : CosmosMsg) (auth : TransactOpts) (target : string) : ProphecyCall :=
  mkProphecyCall auth target (Event_byte (Cm_ClaimType claim)) (Cm_CosmosSender claim) (Cm_CosmosSenderSequence claim)
    (Cm_EthereumReceiver claim) (Cm_Symbol claim) (Cm_Amount claim).

(** Whether a receipt is found within the given number of queries. *)
Fixpoint await_receipt (retries : nat) (hash : string) : M (Eth N) bool :=
  match retries with
  | O => mret false
  | S retries' =>
      do! found <- query_receipt hash;
      if found : bool then mret true else await_receipt retries' hash
  end.

Definition RelayProphecyClaimToEthereum (claim : CosmosMsg) (auth : TransactOpts) (target : string) : M (Eth N) unit :=
  do! hash <- call_contract (prophecy_call_of claim auth target);
  do! found <- await_receipt 60 hash;
  if found : bool then mret tt else mthrow (PlainErr "hit max tx receipt query retries").

Fixpoint relay_retries (retries : nat) (cosmosMsg : CosmosMsg) (auth : TransactOpts) (target : string) : M (Eth N) unit :=
  match retries with
  | O => mret tt
  | S retries' =>
      do! r <- mtry (RelayProphecyClaimToEthereum cosmosMsg auth target);
      match r with inl _ => mret tt | inr _ => relay_retries retries' cosmosMsg auth target end
  end.

Definition handleBurnLockMsg (cosmosMsg : CosmosMsg) (claimType : Event) : M (Eth N) unit :=
  do! config <- mtry (tryInitRelayConfig claimType);
  match config with
  | inr _ => mret tt
  | inl (auth, target) =>
      do! cosmosBridgeInstance <- mtry (request BridgeInstance (NewCosmosBridge target));
      match cosmosBridgeInstance with
      | inr _ => mret tt
      | inl _ => relay_retries 5 cosmosMsg auth target
      end
  end.
End Sender.

(** ** What a relayed message leaves on Ethereum *)

(** One attempt to relay a call: it is rejected, or its receipt is not found by any of the
    sixty queries, or the receipt is found. *)
Inductive attempt (c : ProphecyCall) : bool -> list EthCall -> Prop :=
| attempt_rejected : attempt c false [NewProphecyClaimCall c None]
| attempt_lost hash : attempt c false (NewProphecyClaimCall c (Some hash) :: replicate 60 (ReceiptQuery hash false))
| attempt_mined hash k : (k < 60)%nat ->
    attempt c true (NewProphecyClaimCall c (Some hash) :: replicate k (ReceiptQuery hash false) ++ [ReceiptQuery hash true]).

(** Attempts until one succeeds or the number is used up. *)
Inductive attempts (c : ProphecyCall) : nat -> list EthCall -> Prop :=
| attempts_given_up : attempts c 0 []
| attempts_done n tr : attempt c true tr -> attempts c (S n) tr
| attempts_again n tr tr' : attempt c false tr -> attempts c n tr' -> attempts c (S n) (tr ++ tr').

Section SenderLemmas.
Context {N Key : Type} `{EthClientLaws N Key}.
Context (registry : string).

(** The call that relays a message: the fields of the message, sent to a contract the
    registry gave, with a nonce and a gas price the node suggested. *)
Record call_for (m : CosmosMsg) (c : ProphecyCall) : Prop := mkCallFor {
  call_type : Pc_ClaimType c = Event_byte (Cm_ClaimType m);
  call_sender : Pc_CosmosSender c = Cm_CosmosSender m /\ Pc_CosmosSenderSequence c = Cm_CosmosSenderSequence m;
  call_payment : Pc_EthereumReceiver c = Cm_EthereumReceiver m /\ Pc_Symbol c = Cm_Symbol m /\ Pc_Amount c = Cm_Amount m;
  call_contract_of : exists address number node, (RegisteredContract registry CosmosBridge address number node).2 = Ok (Pc_Contract c);
  call_nonce : exists address nonce node, (PendingNonceAt address node).2 = Ok nonce /\ Nonce (Pc_Auth c) = i64 nonce;
  call_price : exists price node, (SuggestGasPrice node).2 = Ok price
                 /\ 2 * GasPrice (Pc_Auth c) = 3 * price + price mod 2;
}.
Definition complete (m : CosmosMsg) : Prop := is_Some (Cm_CosmosSenderSequence m) /\ is_Some (Cm_Amount m).

(** A preparation of the account: every request is answered, or one is not and it stops
    there, or there is no key. *)
Definition preparation : list Request :=
  [Connection; OperatorNonce; SuggestedPrice; ChainID; Transactor; LatestHeader; Registry; ContractAddress].
Definition prepared : list EthCall := (fun q => Requested q true) <$> preparation.
Inductive unprepared : list EthCall -> Prop :=
| unprepared_request k q : preparation !! k = Some q -> unprepared (take k prepared ++ [Requested q false])
| unprepared_key : is_ok LoadSender = false -> unprepared [Requested Connection true].

(** What is done for a message: preparations until one succeeds, at most five; then, when the
    contract can be connected to, at most five attempts of one call. *)
Inductive relayed (m : CosmosMsg) : list EthCall -> Prop :=
| relayed_unprepared fs : Forall unprepared fs -> length fs = 5%nat -> relayed m (mjoin fs)
| relayed_unconnected fs : Forall unprepared fs -> (length fs < 5)%nat ->
    relayed m (mjoin fs ++ prepared ++ [Requested BridgeInstance false])
| relayed_called fs c tr : Forall unprepared fs -> (length fs < 5)%nat -> call_for m c -> attempts c 5 tr ->
    relayed m (mjoin fs ++ prepared ++ [Requested BridgeInstance true] ++ tr).

(** Never nothing. *)
Lemma relayed_nonempty m tr : relayed m tr -> tr <> [].
Proof.
  assert (forall f, unprepared f -> f <> []) as Hf by (intros f [k q _|_]; [by destruct (take k prepared)|done]).
  intros [fs Hfs Hl|fs _ _|fs c tr' _ _ _ _]; [|by destruct (mjoin fs)..].
  destruct Hfs as [|f fs Hx _]; [done|]. apply Hf in Hx. by destruct f.
Qed.

(** The calls made for several messages, one after the other. *)
Definition relayed_all (ms : list CosmosMsg) (tr : list EthCall) : Prop := exists trs, Forall2 relayed ms trs /\ tr = mjoin trs.

Lemma relayed_all_nil : relayed_all [] [].
Proof. by exists []. Qed.
Lemma relayed_all_one m tr : relayed m tr -> relayed_all [m] tr.
Proof. intros Hm. exists [tr]. split; [apply Forall2_cons_2; [done|apply Forall2_nil_2]|]. cbn. by rewrite app_nil_r. Qed.
Lemma relayed_all_app ms ms' tr tr' : relayed_all ms tr -> relayed_all ms' tr' -> relayed_all (ms ++ ms') (tr ++ tr').
Proof. intros (trs & H1 & ->) (trs' & H2 & ->). exists (trs ++ trs'). rewrite join_app. split; [by apply Forall2_app|done]. Qed.

(** [traced m P]: [m] does not crash, only appends to the trace, and [P] holds of its result
    and of what it appends. *)
Definition traced {A} (m : M (Eth N) A) (P : res A -> list EthCall -> Prop) : Prop :=
  forall s, exists s' r tr, m s = (s', r) /\ r <> Panic /\ eth_trace s' = eth_trace s ++ tr /\ P r tr.

Lemma traced_conseq {A} (m : M (Eth N) A) (P Q : res A -> list EthCall -> Prop) :
  traced m P -> (forall r tr, P r tr -> Q r tr) -> traced m Q.
Proof. intros Hm HPQ s. destruct (Hm s) as (s' & r & tr & ? & ? & ? & ?). exists s', r, tr. auto. Qed.

Lemma traced_bind {A B} (m : M (Eth N) A) (f : A -> M (Eth N) B) P Q :
  traced m P ->
  (forall a tr, P (Ok a) tr -> traced (f a) (fun r tr' => Q r (tr ++ tr'))) ->
  (forall e tr, P (Err e) tr -> Q (Err e) tr) ->
  traced (mbnd m f) Q.
Proof.
  intros Hm Hf He s. destruct (Hm s) as (s1 & r & tr & Hr & Hp & Ht & HP). unfold mbnd. rewrite Hr. destruct r as [a|e|]; [| |done].
  - destruct (Hf a tr HP s1) as (s2 & r2 & tr2 & -> & ? & Ht2 & ?). exists s2, r2, (tr ++ tr2).
    rewrite Ht2, Ht, app_assoc. auto.
  - exists s1, (Err e), tr. split_and!; auto.
Qed.

Lemma traced_try {A} (m : M (Eth N) A) P :
  traced m P -> traced (mtry m) (fun r tr => match r with Ok (inl a) => P (Ok a) tr | Ok (inr e) => P (Err e) tr | _ => False end).
Proof.
  intros Hm s. destruct (Hm s) as (s1 & r & tr & Hr & Hp & Ht & HP). unfold mtry. rewrite Hr.
  destruct r as [a|e|]; [exists s1, (Ok (inl a)), tr|exists s1, (Ok (inr e)), tr|done]; auto.
Qed.

Lemma traced_ret {A} (a : A) (P : res A -> list EthCall -> Prop) : P (Ok a) [] -> traced (mret a) P.
Proof. intros HP s. exists s, (Ok a), []. by rewrite app_nil_r. Qed.
Lemma traced_throw {A} e (P : res A -> list EthCall -> Prop) : P (Err e) [] -> traced (mthrow e) P.
Proof. intros HP s. exists s, (Err e), []. by rewrite app_nil_r. Qed.
Lemma traced_lift {A} (x : res A) (P : res A -> list EthCall -> Prop) : x <> Panic -> P x [] -> traced (mlift x) P.
Proof. intros Hx HP s. exists s, x, []. by rewrite app_nil_r. Qed.
Lemma traced_record {A} c (m : M (Eth N) A) P : traced m (fun r tr => P r (c :: tr)) -> traced (run! record c; m) P.
Proof.
  intros Hm s. destruct (Hm (mkEth (eth_node s) (eth_trace s ++ [c]))) as (s' & r & tr & Hr & Hp & Ht & HP).
  exists s', r, (c :: tr). unfold mbnd, record, mmodify. rewrite Hr, Ht. cbn [eth_trace]. by rewrite <- app_assoc.
Qed.
Lemma traced_node {A} (m : M N A) :
  answers m -> traced (on_node m) (fun r tr => tr = [] /\ exists n, (m n).2 = r).
Proof.
  intros Hm s. specialize (Hm (eth_node s)). unfold on_node. destruct (m (eth_node s)) as [n r] eqn:E.
  exists (mkEth n (eth_trace s)), r, []. rewrite app_nil_r. split_and!; [done..|]. exists (eth_node s). by rewrite E.
Qed.

(** A loop over a list, each of whose steps relays some messages. *)
Lemma traced_mfor {A} (l : list A) (body : A -> M (Eth N) unit) (f : A -> list CosmosMsg) :
  (forall x, x ∈ l -> traced (body x) (fun r tr => r = Ok tt /\ relayed_all (f x) tr)) ->
  traced (mfor l body) (fun r tr => r = Ok tt /\ relayed_all (mjoin (f <$> l)) tr).
Proof.
  induction l as [|x l IH]; intros Hb; cbn [mfor].
  - apply traced_ret. split; [done|]. apply relayed_all_nil.
  - eapply traced_bind; [apply Hb; by left| |by intros e tr [? _]]. intros [] tr [_ Htr].
    eapply traced_conseq; [apply IH; intros y Hy; apply Hb; by right|]. intros r tr' [-> Htr']. split; [done|].
    by apply relayed_all_app.
Qed.

Lemma traced_request {A} q (m : M N A) :
  answers m -> traced (request q m) (fun r tr => tr = [Requested q (is_ok r)] /\ exists n, (m n).2 = r).
Proof.
  intros Hm s. specialize (Hm (eth_node s)). unfold request. destruct (m (eth_node s)) as [n r] eqn:E.
  exists (mkEth n (eth_trace s ++ [Requested q (is_ok r)])), r, [Requested q (is_ok r)]. split_and!; [done..|]. exists (eth_node s). by rewrite E.
Qed.

Lemma LoadSender_answers : LoadSender <> Panic.
Proof.
  unfold LoadSender, LoadPrivateKey. destruct (String.eqb _ ""); [done|]. pose proof (HexToECDSA_answers (Getenv "ETHEREUM_PRIVATE_KEY")).
  by destruct (HexToECDSA _).
Qed.

Lemma adjusted_price p : 2 * adjusted_gas_price p = 3 * p + p mod 2.
Proof.
  unfold adjusted_gas_price. replace (p * 2 / 4) with (p / 2).
  - pose proof (Z.div_mod p 2). lia.
  - rewrite <- (Z.div_mul_cancel_r p 2 2) by lia. done.
Qed.

(** Options and a contract with which a message can be called. *)
Definition usable (config : TransactOpts * string) : Prop :=
  forall m, call_for m (prophecy_call_of m config.1 config.2).

(** One more request of a preparation: when it is not answered, the preparation stops. *)
Lemma traced_step {A B} k q (m : M N A) (f : A -> M (Eth N) B) (Q : res B -> list EthCall -> Prop) :
  answers m -> preparation !! k = Some q ->
  (forall e tr, unprepared tr -> Q (Err e) tr) ->
  (forall a, (exists n, (m n).2 = Ok a) -> traced (f a) (fun r tr => Q r (take (S k) prepared ++ tr))) ->
  traced (mbnd (request q m) f) (fun r tr => Q r (take k prepared ++ tr)).
Proof.
  intros Hm Hq He Hf. eapply traced_bind; [by apply traced_request| |].
  - intros a tr [-> [n Hn]]. eapply traced_conseq; [apply Hf; by exists n|]. intros r tr. cbn [is_ok].
    rewrite (take_S_r _ _ (Requested q true)) by (unfold prepared; by rewrite list_lookup_fmap, Hq).
    by rewrite <- app_assoc.
  - intros e tr [-> _]. by apply He, unprepared_request.
Qed.

Definition configured (r : res (TransactOpts * string)) (tr : list EthCall) : Prop :=
  match r with Ok config => tr = prepared /\ usable config | Err _ => unprepared tr | Panic => False end.

Lemma InitRelayConfig_traced event : event = MsgBurn \/ event = MsgLock -> traced (InitRelayConfig registry event) configured.
Proof.
  intros Hev. unfold InitRelayConfig. apply (traced_step 0 Connection); [apply Dial_answers|done|done|intros _ _].
  destruct LoadSender as [sender|e|] eqn:Es; [|apply traced_throw, unprepared_key; by rewrite Es|by destruct LoadSender_answers].
  apply (traced_step 1 OperatorNonce _ _ configured); [apply PendingNonceAt_answers|done|done|intros nonce [n1 Hnonce]].
  apply (traced_step 2 SuggestedPrice _ _ configured); [apply SuggestGasPrice_answers|done|done|intros price [n2 Hprice]].
  apply (traced_step 3 ChainID _ _ configured); [apply NetworkID_answers|done|done|intros chain _].
  apply (traced_step 4 Transactor _ _ configured); [apply NewKeyedTransactor_answers|done|done|intros _ _].
  assert (target_contract event = Ok CosmosBridge) as -> by by destruct Hev as [-> | ->].
  unfold GetAddressFromBridgeRegistry. rewrite Es.
  set (found := fun (r : res string) tr => match r with
    | Ok target => tr = prepared /\ exists address number node, (RegisteredContract registry CosmosBridge address number node).2 = Ok target
    | Err _ => unprepared tr | Panic => False end).
  eapply (traced_bind _ _ (fun r tr => found r (take 5 prepared ++ tr))).
  - apply (traced_step 5 LatestHeader _ _ found); [apply HeaderByNumber_answers|done|done|intros number _].
    apply (traced_step 6 Registry _ _ found); [apply NewBridgeRegistry_answers|done|done|intros _ _].
    eapply traced_conseq; [apply traced_request, RegisteredContract_answers|].
    intros r tr [-> [node Hn]]. destruct r as [target|e|]; cbn [is_ok found].
    + split; [done|]. by exists sender, number, node.
    + by apply (unprepared_request 7 ContractAddress).
    + by destruct (RegisteredContract_answers registry CosmosBridge sender number node).
  - intros target tr [Htr Ht]. apply traced_ret. rewrite app_nil_r. split; [done|].
    intros m. split; cbn [prophecy_call_of Pc_ClaimType Pc_CosmosSender Pc_CosmosSenderSequence
      Pc_EthereumReceiver Pc_Symbol Pc_Amount Pc_Contract Pc_Auth Nonce GasPrice fst snd]; try done.
    + by exists sender, nonce, n1.
    + exists price, n2. split; [done|]. apply adjusted_price.
  - done.
Qed.

Lemma init_retries_traced k event : event = MsgBurn \/ event = MsgLock ->
  traced (init_retries registry k event) (fun r tr => exists fs, Forall unprepared fs /\
    match r with
    | Ok config => (length fs < k)%nat /\ tr = mjoin fs ++ prepared /\ usable config
    | Err _ => length fs = k /\ tr = mjoin fs
    | Panic => False
    end).
Proof.
  intros Hev. induction k as [|k IH]; cbn [init_retries].
  - apply traced_throw. by exists [].
  - eapply traced_bind; [apply traced_try, (InitRelayConfig_traced event Hev)| |by intros e tr].
    intros [config|e] tr Hc; cbn [configured] in Hc.
    + apply traced_ret. destruct Hc as [-> Hu]. exists []. rewrite app_nil_r. split; [done|]. split; [cbn; lia|done].
    + eapply traced_conseq; [exact IH|]. intros r tr' (fs & Hfs & Hr). exists (tr :: fs). split; [by constructor|].
      destruct r as [config|e'|]; [|destruct Hr as [<- ->]; done|done]. destruct Hr as (Hl & -> & Hu).
      split_and!; [cbn; lia| |done]. cbn. by rewrite <- app_assoc.
Qed.

Lemma call_contract_traced c : is_Some (Pc_CosmosSenderSequence c) -> is_Some (Pc_Amount c) ->
  traced (call_contract c) (fun r tr => match r with Ok hash => tr = [NewProphecyClaimCall c (Some hash)] | Err _ => tr = [NewProphecyClaimCall c None] | Panic => False end).
Proof.
  intros Hs Ha. unfold call_contract. eapply traced_bind; [apply traced_try, traced_node, NewProphecyClaim_answers; assumption| |by intros e tr].
  intros [hash|e] tr [-> _]; apply traced_record; [by apply traced_ret|by apply traced_throw].
Qed.

Lemma query_receipt_traced hash :
  traced (query_receipt hash) (fun r tr => exists found, r = Ok found /\ tr = [ReceiptQuery hash found]).
Proof.
  unfold query_receipt. eapply traced_bind; [apply traced_try, traced_node, TransactionReceipt_answers| |by intros e tr].
  intros [u|e] tr [-> _]; apply traced_record, traced_ret; by eexists.
Qed.

Lemma await_receipt_traced k hash :
  traced (await_receipt k hash) (fun r tr =>
    r = Ok false /\ tr = replicate k (ReceiptQuery hash false)
    \/ r = Ok true /\ exists j, (j < k)%nat /\ tr = replicate j (ReceiptQuery hash false) ++ [ReceiptQuery hash true]).
Proof.
  induction k as [|k IH]; cbn [await_receipt].
  - apply traced_ret. by left.
  - eapply traced_bind; [apply query_receipt_traced| |by intros e tr (? & ? & _)].
    intros found tr (f & [= <-] & ->). destruct found.
    + apply traced_ret. right. split; [done|]. exists 0%nat. split; [lia|done].
    + eapply traced_conseq; [exact IH|]. intros r tr [[-> ->]|(-> & j & Hj & ->)]; [by left|right].
      split; [done|]. exists (S j). split; [lia|done].
Qed.

Lemma Relay_traced m auth target : complete m ->
  traced (RelayProphecyClaimToEthereum m auth target) (fun r tr => attempt (prophecy_call_of m auth target) (is_ok r) tr).
Proof.
  intros [Hs Ha]. unfold RelayProphecyClaimToEthereum. eapply traced_bind; [by apply call_contract_traced| |].
  - intros hash tr ->. eapply traced_bind; [apply await_receipt_traced| |].
    + intros found tr [[[= ->] ->]|([= ->] & j & Hj & ->)].
      * apply traced_throw. rewrite app_nil_r. apply attempt_lost.
      * apply traced_ret. rewrite app_nil_r. by apply attempt_mined.
    + by intros e tr [[? _]|[? _]].
  - intros e tr ->. apply attempt_rejected.
Qed.

Lemma relay_retries_traced k m auth target : complete m ->
  traced (relay_retries k m auth target) (fun r tr => r = Ok tt /\ attempts (prophecy_call_of m auth target) k tr).
Proof.
  intros Hm. induction k as [|k IH]; cbn [relay_retries].
  - apply traced_ret. split; [done|constructor].
  - eapply traced_bind; [apply traced_try, Relay_traced, Hm| |by intros e tr].
    intros [u|e] tr Hat; cbn in Hat.
    + apply traced_ret. rewrite app_nil_r. split; [done|]. by apply attempts_done.
    + eapply traced_conseq; [exact IH|]. intros r tr' [-> Hats]. split; [done|]. by apply attempts_again.
Qed.

(** Handling a message always ends, in success as far as its caller can see. *)
Lemma handleBurnLockMsg_traced m ty : complete m -> ty = MsgBurn \/ ty = MsgLock ->
  traced (handleBurnLockMsg registry m ty) (fun r tr => r = Ok tt /\ relayed m tr).
Proof.
  intros Hm Hty. unfold handleBurnLockMsg. eapply traced_bind; [apply traced_try, (init_retries_traced 5 ty Hty)| |by intros e tr].
  intros [[auth target]|e] tr (fs & Hfs & Hc); cbn in Hc.
  - destruct Hc as (Hl & -> & Hu). eapply traced_bind; [apply traced_try, traced_request, NewCosmosBridge_answers| |by intros e tr].
    intros [u|e] tr [-> _]; cbn [is_ok].
    + eapply traced_conseq; [by apply relay_retries_traced|]. intros r tr [-> Hats]. split; [done|]. rewrite <- app_assoc.
      by apply (relayed_called _ _ (prophecy_call_of m auth target)).
    + apply traced_ret. split; [done|]. rewrite app_nil_r, <- app_assoc. by apply relayed_unconnected.
  - destruct Hc as [Hl ->]. apply traced_ret. split; [done|]. rewrite app_nil_r. by apply relayed_unprepared.
Qed.
End SenderLemmas.

(** ** A node that counts its requests *)

(** The first connection and every call or query with an odd count fail; the nonce is the
    count, the hash of a transaction its decimal text. *)
Definition RefNode (address : string) : EthClient nat string := {|
  Getenv _ := "key";
  HexToECDSA s := Ok s;
  PubkeyToAddress _ := address;
  Dial n := (S n, if (n =? 0)%nat then Err (PlainErr "no connection") else Ok tt);
  HeaderByNumber n := (n, Ok 100);
  PendingNonceAt _ n := (n, Ok (Z.of_nat n));
  SuggestGasPrice n := (n, Ok 7);
  NetworkID n := (n, Ok 1);
  NewKeyedTransactorWithChainID _ n := (n, Ok tt);
  NewBridgeRegistry _ n := (n, Ok tt);
  RegisteredContract _ _ _ _ n := (n, Ok address);
  NewCosmosBridge _ n := (n, Ok tt);
  Contract_NewProphecyClaim _ n := (S n, if Nat.odd n then Err (PlainErr "rejected") else Ok (big_String (Z.of_nat n)));
  TransactionReceipt _ n := (S n, if Nat.odd n then Err (PlainErr "not found") else Ok tt);
|}.
Lemma RefNode_laws address : @EthClientLaws nat string (RefNode address).
Proof. split; repeat intro; cbn in *; repeat case_match; done. Qed.
End EbSender.
