(* ===== verification/EbRelayer.v ===== *)
(** * cmd/ebrelayer: the loops of the relayer

    [EthereumSub.Start] follows Ethereum: for every new head it asks for the logs of the
    blocks since the last one it processed, up to [trailingBlocks] behind the head, turns
    lock and burn logs into claims and sends them to this chain in one transaction.
    [CosmosSub.Start] follows this chain: for every new block it walks the blocks it has
    not processed yet and hands their lock and burn messages on.  Each keeps the number of
    the last processed block in a variable and in a LevelDB key.

    The nodes of the two chains are parameters: [FilterLogs] and [BroadcastTx] answer a
    call, [available] says which requests for block results succeed.  What is sent to this
    chain is recorded in [es_sent], one list of messages per transaction, whether or not
    the broadcast succeeds; the Ethereum node that [EbSender] sends to is in [cs_eth]. *)

From Stdlib Require Import ZArith Lia Ascii String.
From stdpp Require Import base list gmap strings.
From S2P Require Import Prelude SdkMath Sdk TokenRegistry Json Oracle EthBridge EbEvents EbSender.

Module EbRelayer.
Import EbEvents.
Import EbSender (EthClient, EthClientLaws, Eth, eth_trace, handleBurnLockMsg, handleBurnLockMsg_traced, complete, relayed, relayed_all,
  traced).
Import EthBridge (EthCommon, EthCommonLaws, ClaimType, CLAIM_TYPE_BURN, CLAIM_TYPE_LOCK, EthBridgeClaim,
  MsgCreateEthBridgeClaim, NewMsgCreateEthBridgeClaim, MsgCreateEthBridgeClaim_ValidateBasic).

Definition trailingBlocks : Z := 50.

(** ** [big.Int.Bytes] and [SetBytes] *)

Fixpoint be_bytes (fuel : nat) (n : Z) (acc : string) : string :=
  match fuel with
  | O => acc
  | S f => if n =? 0 then acc else be_bytes f (n / 256) (String (ascii_of_N (Z.to_N (n mod 256))) acc)
  end.
(** The fuel is the number of bits, which is more than the number of bytes. *)
Definition big_Bytes (z : Z) : string := be_bytes (S (Z.to_nat (Z.log2 (Z.abs z)))) (Z.abs z) "".
Definition big_SetBytes (s : string) : Z := big_endian_value 0 s.

Lemma be_bytes_value f n acc : 0 <= n < 2 ^ Z.of_nat f -> big_endian_value 0 (be_bytes f n acc) = big_endian_value n acc.
Proof.
  revert n acc; induction f as [|f IH]; intros n acc Hn; cbn [be_bytes].
  - change (2 ^ Z.of_nat 0) with 1 in Hn. by replace n with 0 by lia.
  - destruct (Z.eqb_spec n 0) as [->|Hz]; [done|]. rewrite Nat2Z.inj_succ, Z.pow_succ_r in Hn by lia.
    rewrite IH by (split; [apply Z.div_pos; lia|apply Z.div_lt_upper_bound; lia]). cbn [big_endian_value].
    pose proof (Z.mod_pos_bound n 256 ltac:(lia)). rewrite N_ascii_embedding by lia. rewrite Z2N.id by lia.
    f_equal. pose proof (Z.div_mod n 256 ltac:(lia)). lia.
Qed.
Lemma big_SetBytes_Bytes z : 0 <= z -> big_SetBytes (big_Bytes z) = z.
Proof.
  intros Hz. unfold big_SetBytes, big_Bytes. rewrite Z.abs_eq by done. rewrite be_bytes_value; [done|]. split; [done|].
  rewrite Nat2Z.inj_succ, Z2Nat.id by apply Z.log2_nonneg. destruct (Z.eq_dec z 0) as [->|]; [done|].
  apply Z.log2_spec. lia.
Qed.

(** ** Following Ethereum *)

Record EthLog := mkEthLog { Topics : list string; LogData : string; TxHash : string }.

(** The contract's ABI: the hexadecimal identifier of an event, and the decoding of its data
    into the fields of an [EthereumEvent]. *)
Class BridgeAbi := {
  EventID : string -> string;
  UnpackIntoInterface : string -> string -> res EthereumEvent;
}.

Record EthState := mkEthState {
  es_last : Z;
  es_db : option string;
  es_records : KV EthereumEvent;
  es_sent : list (list MsgCreateEthBridgeClaim);
}.
Definition set_last (n : Z) : M EthState unit := mmodify (fun s => mkEthState n (es_db s) (es_records s) (es_sent s)).
Definition put_db (v : string) : M EthState unit := mmodify (fun s => mkEthState (es_last s) (Some v) (es_records s) (es_sent s)).
Definition NewEventWrite (txHash : string) (event : EthereumEvent) : M EthState unit :=
  mmodify (fun s => mkEthState (es_last s) (es_db s) (<[txHash := event]> (es_records s)) (es_sent s)).
Definition send (messages : list MsgCreateEthBridgeClaim) : M EthState unit :=
  mmodify (fun s => mkEthState (es_last s) (es_db s) (es_records s) (es_sent s ++ [messages])).

Section Ethereum.
Context {T : Type} `{SdkMath, SdkAddress, EthCommon, BiMap T, BridgeAbi}.
(** The chain and the contract that are followed, the address behind the validator's key,
    and the answer to a broadcast. *)
Context (clientChainID : Z) (bridgeBankAddress : string) (GetValAddressFromKeyring : res string)
  (BroadcastTx : list MsgCreateEthBridgeClaim -> res unit) (symbolTranslator : T).

Definition event_name (topic : string) : string :=
  if String.eqb topic (EventID (Event_String LogBurn)) then Event_String LogBurn
  else if String.eqb topic (EventID (Event_String LogLock)) then Event_String LogLock
  else "".

(** [None]: the log is no burn or lock event. *)
Definition logToEvent (cLog : EthLog) : M EthState (option EthereumEvent) :=
  match Topics cLog with
  | [] => mpanic
  | topic :: _ =>
      let eventName := event_name topic in
      if String.eqb eventName "" then mret None
      else
        do! event <- mlift (UnpackIntoInterface eventName (LogData cLog));
        let ty := if String.eqb eventName (Event_String LogBurn) then CLAIM_TYPE_BURN else CLAIM_TYPE_LOCK in
        let event := mkEthereumEvent (Ev_To event) (Ev_Symbol event) clientChainID (Ev_Value event) (Ev_Nonce event) ty
                       (Ev_ID event) bridgeBankAddress (Ev_From event) (Ev_Token event) in
        run! NewEventWrite (TxHash cLog) event;
        mret (Some event)
  end.

(** The burn and lock events of the logs; a log that cannot be decoded is skipped. *)
Fixpoint logs_to_events (ethLogs : list EthLog) : M EthState (list EthereumEvent) :=
  match ethLogs with
  | [] => mret []
  | ethLog :: l =>
      do! r <- mtry (logToEvent ethLog);
      do! events <- logs_to_events l;
      mret (match r with inl (Some event) => event :: events | _ => events end)
  end.

(** Claims that cannot be made, or fail their stateless check, are skipped. *)
Fixpoint claims_of_events (valAddr : string) (events : list EthereumEvent) : res (list EthBridgeClaim) :=
  match events with
  | [] => Ok []
  | event :: l =>
      match EthereumEventToEthBridgeClaim valAddr event symbolTranslator with
      | Panic => Panic
      | Err _ => claims_of_events valAddr l
      | Ok claim => let! claims := claims_of_events valAddr l in Ok (claim :: claims)
      end
  end.
Fixpoint valid_messages (claims : list EthBridgeClaim) : res (list MsgCreateEthBridgeClaim) :=
  match claims with
  | [] => Ok []
  | claim :: l =>
      let msg := NewMsgCreateEthBridgeClaim (Some claim) in
      match MsgCreateEthBridgeClaim_ValidateBasic msg with
      | Panic => Panic
      | Err _ => valid_messages l
      | Ok _ => let! messages := valid_messages l in Ok (msg :: messages)
      end
  end.

Definition RelayToCosmos (claims : list EthBridgeClaim) : M EthState unit :=
  do! messages <- mlift (valid_messages claims);
  run! send messages;
  mlift (BroadcastTx messages).

Definition handleEthereumEvent (events : list EthereumEvent) : M EthState unit :=
  do! valAddr <- mlift GetValAddressFromKeyring;
  do! prophecyClaims <- mlift (claims_of_events valAddr events);
  match events with
  | [] => mret tt
  | _ => RelayToCosmos prophecyClaims
  end.

(** A new head.  The number 0 stands for never having processed a block. *)
Definition on_head (FilterLogs : Z -> Z -> res (list EthLog)) (number : Z) : M EthState unit :=
  let endingBlock := number - trailingBlocks in
  if endingBlock <? 0 then mret tt
  else
    do! st <- mgets id;
    let lastProcessedBlock := if es_last st =? 0 then endingBlock else es_last st in
    run! set_last lastProcessedBlock;
    match FilterLogs lastProcessedBlock endingBlock with
    | Panic => mpanic
    | Err _ => mret tt
    | Ok ethLogs =>
        do! events <- logs_to_events ethLogs;
        run! (match events with [] => mret tt | _ => run! mtry (handleEthereumEvent events); mret tt end);
        let endingBlock := endingBlock + 1 in
        run! put_db (big_Bytes endingBlock);
        set_last endingBlock
    end.

(** The start: the number in the database, or 0. *)
Definition start_ethereum (db : option string) : EthState :=
  mkEthState (match db with Some data => big_SetBytes data | None => 0 end) db ∅ [].

(** A run over the heads of a chain whose block [n] has the logs [chain n]; the flag of a
    head says whether its query is answered. *)
Definition FilterLogs_of (chain : Z -> list EthLog) (up : bool) (from to : Z) : res (list EthLog) :=
  if up then Ok (mjoin (chain <$> seqZ from (to - from + 1))) else Err (PlainErr "no answer").
Definition eth_run (chain : Z -> list EthLog) (heads : list (Z * bool)) : M EthState unit :=
  mfor heads (fun head => on_head (FilterLogs_of chain head.2) head.1).
End Ethereum.

(** ** Following this chain *)

Record CosmosState (N : Type) := mkCosmosState {
  cs_last : Z;
  cs_db : option string;
  cs_requests : nat;
  cs_eth : Eth N;
}.
Arguments mkCosmosState {_} _ _ _ _.
Arguments cs_last {_} _.
Arguments cs_db {_} _.
Arguments cs_requests {_} _.
Arguments cs_eth {_} _.

Section Cosmos.
Context {T N Key : Type} `{SdkMath, SdkAddress, EthCommon, BiMap T, EthClient N Key}.

Definition on_eth {A} (m : M (Eth N) A) : M (CosmosState N) A :=
  fun s => let '(e, r) := m (cs_eth s) in (mkCosmosState (cs_last s) (cs_db s) (cs_requests s) e, r).
Definition requested : M (CosmosState N) unit :=
  mmodify (fun s => mkCosmosState (cs_last s) (cs_db s) (S (cs_requests s)) (cs_eth s)).
Definition processed (n : Z) : M (CosmosState N) unit :=
  mmodify (fun s => mkCosmosState n (Some (big_Bytes n)) (cs_requests s) (cs_eth s)).

(** The events of the transactions of a block, which requests are answered, and the address
    of the bridge registry. *)
Context (block : Z -> list (list AbciEvent)) (available : nat -> bool) (registry : string) (symbolTranslator : T).

Definition relay_event (event : AbciEvent) : M (Eth N) unit :=
  let claimType := getOracleClaimType (Ae_Type event) in
  match claimType with
  | MsgBurn | MsgLock =>
      match BurnLockEventToCosmosMsg claimType (Ae_Attributes event) symbolTranslator with
      | Panic => mpanic
      | Err _ => mret tt
      | Ok cosmosMsg => handleBurnLockMsg registry cosmosMsg claimType
      end
  | _ => mret tt
  end.
Definition process_block (n : Z) : M (CosmosState N) unit :=
  run! on_eth (mfor (block n) (fun events => mfor events relay_event));
  processed n.

(** The loop over the blocks; a request that fails is repeated without end.  [false] means
    that the fuel has run out. *)
Fixpoint catch_up (fuel : nat) (blockNumber blockHeight : Z) : M (CosmosState N) bool :=
  match fuel with
  | O => mret false
  | S fuel' =>
      if blockHeight <? blockNumber then mret true
      else
        do! st <- mgets id;
        run! requested;
        if available (cs_requests st) then
          run! process_block blockNumber;
          catch_up fuel' (blockNumber + 1) blockHeight
        else catch_up fuel' blockNumber blockHeight
  end.

(** A new block. *)
Definition on_block (fuel : nat) (blockHeight : Z) : M (CosmosState N) bool :=
  do! st <- mgets id;
  let lastProcessedBlock := if cs_last st =? 0 then blockHeight else cs_last st in
  run! mmodify (fun s => mkCosmosState lastProcessedBlock (cs_db s) (cs_requests s) (cs_eth s));
  catch_up fuel (lastProcessedBlock + 1) blockHeight.
Definition start_cosmos (db : option string) (eth : Eth N) : CosmosState N :=
  mkCosmosState (match db with Some data => i64 (big_SetBytes data) | None => 0 end) db 0 eth.
End Cosmos.

(** ** Lemmas *)

Section EthereumLemmas.
Context {T : Type} `{SdkMathLaws, SdkAddressLaws, EthCommonLaws, !BiMap T, BridgeAbi}.
Context (clientChainID : Z) (bridgeBankAddress : string) (v : string)
  (BroadcastTx : list MsgCreateEthBridgeClaim -> res unit) (t : T).
Context (broadcast_answers : forall messages, BroadcastTx messages <> Panic).

Abbreviation log_to_event := (logToEvent clientChainID bridgeBankAddress).
Abbreviation run_logs := (logs_to_events clientChainID bridgeBankAddress).
Abbreviation head_step := (on_head clientChainID bridgeBankAddress (Ok v) BroadcastTx t).

(** The burn or lock event of a log, and the message made of an event, if there is one. *)
Definition log_event (l : EthLog) : option EthereumEvent :=
  match Topics l with
  | [] => None
  | topic :: _ =>
      if String.eqb (event_name topic) "" then None
      else match UnpackIntoInterface (event_name topic) (LogData l) with
           | Ok event =>
               Some (mkEthereumEvent (Ev_To event) (Ev_Symbol event) clientChainID (Ev_Value event) (Ev_Nonce event)
                       (if String.eqb (event_name topic) (Event_String LogBurn) then CLAIM_TYPE_BURN else CLAIM_TYPE_LOCK)
                       (Ev_ID event) bridgeBankAddress (Ev_From event) (Ev_Token event))
           | _ => None
           end
  end.
Definition event_message (e : EthereumEvent) : option MsgCreateEthBridgeClaim :=
  match EthereumEventToEthBridgeClaim v e t with
  | Ok claim =>
      let msg := NewMsgCreateEthBridgeClaim (Some claim) in
      if is_ok (MsgCreateEthBridgeClaim_ValidateBasic msg) then Some msg else None
  | _ => None
  end.
Definition messages_of (logs : list EthLog) : list MsgCreateEthBridgeClaim := omap event_message (omap log_event logs).

(** Logs have a topic, their data decodes or is refused, and their value has 255 bits. *)
Definition wf_log (l : EthLog) : Prop :=
  Topics l <> [] /\ forall name, UnpackIntoInterface name (LogData l) <> Panic
    /\ forall e, UnpackIntoInterface name (LogData l) = Ok e -> 0 <= Ev_Value e < 2 ^ 255.

Definition small_event (e : EthereumEvent) : Prop := 0 <= Ev_Value e < 2 ^ 255.

Lemma log_event_small l e : wf_log l -> log_event l = Some e -> small_event e.
Proof.
  intros [Ht Hw] He. unfold log_event in He. destruct (Topics l) as [|topic tl]; [done|]. destruct (String.eqb _ ""); [done|].
  destruct (Hw (event_name topic)) as [_ Hv]. destruct (UnpackIntoInterface _ _) as [e0| |]; [|done..].
  injection He as <-. exact (Hv e0 eq_refl).
Qed.

(** Reading a log only records the event. *)
Definition same_but_records (s s' : EthState) : Prop :=
  es_last s' = es_last s /\ es_db s' = es_db s /\ es_sent s' = es_sent s.

Lemma logToEvent_run l s : wf_log l ->
  exists s' r, mtry (log_to_event l) s = (s', Ok r) /\ same_but_records s s'
    /\ match r with inl o => o | inr _ => None end = log_event l.
Proof.
  intros [Ht Hw]. unfold logToEvent, log_event. destruct (Topics l) as [|topic tl]; [done|].
  destruct (String.eqb (event_name topic) ""); [by eexists _, _|]. destruct (Hw (event_name topic)) as [Hp _].
  destruct (UnpackIntoInterface _ _) as [e0| |] eqn:Eu; [..|done]; unfold mtry, mbnd, mlift; by eexists _, _.
Qed.

Lemma logs_to_events_run logs s : Forall wf_log logs ->
  exists s', run_logs logs s = (s', Ok (omap log_event logs)) /\ same_but_records s s'.
Proof.
  intros Hw. revert s. induction Hw as [|l logs Hl _ IH]; intros s; cbn [logs_to_events].
  - by exists s.
  - destruct (logToEvent_run l s Hl) as (s1 & r & Hr & (El & Ed & Es) & E). rewrite (mbnd_run _ _ _ _ _ Hr).
    destruct (IH s1) as (s2 & Hs & Hsame). rewrite (mbnd_run _ _ _ _ _ Hs). exists s2. split.
    + unfold mret. cbn. rewrite <- E. by destruct r as [[e|]|].
    + unfold same_but_records in *. destruct Hsame as (-> & -> & ->). done.
Qed.

Lemma ValidateBasic_no_panic c : MsgCreateEthBridgeClaim_ValidateBasic (NewMsgCreateEthBridgeClaim (Some c)) <> Panic.
Proof.
  unfold MsgCreateEthBridgeClaim_ValidateBasic, NewMsgCreateEthBridgeClaim, fail_if. cbn [EthBridge.Create_Claim].
  repeat (case_match; cbn [rbind]; try done).
Qed.

Lemma claim_no_panic e : small_event e -> EthereumEventToEthBridgeClaim v e t <> Panic.
Proof.
  intros Hv. unfold EthereumEventToEthBridgeClaim. pose proof (AccAddress_no_panic (Ev_To e)).
  destruct (AccAddressFromBech32 (Ev_To e)) as [r| |]; [|done..]. cbn [rbind]. destruct (String.eqb r ""); [done|].
  assert (event_symbol e t <> Panic) as Hs by (unfold event_symbol; repeat case_match; done).
  destruct (event_symbol e t) as [s| |]; [|done..]. cbn [rbind].
  rewrite NewIntFromBigInt_total; [done|]. unfold small_event in Hv. lia.
Qed.

Lemma messages_run events : Forall small_event events ->
  exists claims, claims_of_events t v events = Ok claims /\ valid_messages claims = Ok (omap event_message events).
Proof.
  induction 1 as [|e events He _ IH]; [by exists []|]. destruct IH as (claims & Hc & Hm).
  pose proof (claim_no_panic e He). cbn [claims_of_events omap list_omap]. unfold event_message at 1.
  destruct (EthereumEventToEthBridgeClaim v e t) as [c| |]; [|by exists claims|done].
  rewrite Hc. exists (c :: claims). split; [done|]. cbn [valid_messages]. pose proof (ValidateBasic_no_panic c).
  destruct (MsgCreateEthBridgeClaim_ValidateBasic _) as [u| |]; cbn [is_ok]; [|done..]. by rewrite Hm.
Qed.

Lemma handle_run events s : events <> [] -> Forall small_event events ->
  exists r, mtry (handleEthereumEvent (Ok v) BroadcastTx t events) s
    = (mkEthState (es_last s) (es_db s) (es_records s) (es_sent s ++ [omap event_message events]), Ok r).
Proof.
  intros Hne Hs. destruct (messages_run events Hs) as (claims & Hc & Hm). unfold handleEthereumEvent, mtry.
  rewrite (mbnd_lift (Ok v) _ _ v) by done. rewrite (mbnd_lift _ _ _ _ Hc). destruct events as [|e events]; [done|].
  unfold RelayToCosmos. rewrite (mbnd_lift _ _ _ _ Hm). unfold mbnd, send, mmodify, mlift.
  pose proof (broadcast_answers (omap event_message (e :: events))).
  destruct (BroadcastTx _) as [u| |]; [by exists (inl u)|by eexists|done].
Qed.

(** A head whose query is not answered changes nothing, for a relayer that has started. *)
Lemma head_down chain number s : 0 < es_last s -> head_step (FilterLogs_of chain false) number s = (s, Ok tt).
Proof.
  intros Hl. unfold on_head. destruct (number - trailingBlocks <? 0); [done|]. unfold mbnd, mgets, set_last, mmodify, mret, id. cbn.
  destruct (Z.eqb_spec (es_last s) 0); [lia|]. by destruct s.
Qed.

(** A head whose query is answered moves on to the block after the last one it read. *)
Lemma head_up chain number s :
  0 < es_last s -> es_last s - 1 <= number - trailingBlocks -> (forall n, Forall wf_log (chain n)) ->
  exists s', head_step (FilterLogs_of chain true) number s = (s', Ok tt)
    /\ es_last s' = number - trailingBlocks + 1 /\ es_db s' = Some (big_Bytes (es_last s'))
    /\ mjoin (es_sent s') = mjoin (es_sent s) ++ messages_of (mjoin (chain <$> seqZ (es_last s) (es_last s' - es_last s))).
Proof.
  intros Hl Hn Hw. unfold on_head. destruct (Z.ltb_spec (number - trailingBlocks) 0); [lia|]. cbn zeta.
  unfold mbnd at 1, mgets, id. destruct (Z.eqb_spec (es_last s) 0); [lia|]. unfold mbnd at 1, set_last at 1, mmodify.
  cbn [FilterLogs_of]. set (logs := mjoin (chain <$> seqZ (es_last s) (number - trailingBlocks - es_last s + 1))).
  assert (Forall wf_log logs) as Hlogs.
  { apply Forall_forall. intros l Hin. apply list_elem_of_join in Hin as (x & Hx & Hin). apply list_elem_of_fmap in Hin as (n0 & -> & _).
    specialize (Hw n0). rewrite Forall_forall in Hw. by apply Hw. }
  destruct (logs_to_events_run logs (mkEthState (es_last s) (es_db s) (es_records s) (es_sent s)) Hlogs) as (s1 & Hr & El & Ed & Es).
  cbn in El, Ed, Es. rewrite (mbnd_run _ _ _ _ _ Hr).
  assert (Forall small_event (omap log_event logs)) as Hsmall.
  { apply Forall_forall. intros e (l & Hin & He)%list_elem_of_omap. eapply log_event_small; [|exact He].
    rewrite Forall_forall in Hlogs. by apply Hlogs. }
  set (sent := match omap log_event logs with [] => [] | _ => [omap event_message (omap log_event logs)] end).
  exists (mkEthState (number - trailingBlocks + 1) (Some (big_Bytes (number - trailingBlocks + 1))) (es_records s1) (es_sent s ++ sent)).
  split_and!; [|done|done|].
  - unfold sent. destruct (omap log_event logs) as [|e events] eqn:Eo.
    + unfold mbnd, mret, put_db, set_last, mmodify. cbn. by rewrite Es, app_nil_r.
    + destruct (handle_run (e :: events) s1 ltac:(done) Hsmall) as [r Hh]. unfold mbnd at 1. rewrite (mbnd_run _ _ _ _ _ Hh).
      unfold mbnd, mret, put_db, set_last, mmodify. cbn. by rewrite Es.
  - cbn [es_sent es_last]. replace (number - trailingBlocks + 1 - es_last s) with (number - trailingBlocks - es_last s + 1) by lia.
    fold logs. unfold messages_of, sent. rewrite join_app. f_equal. destruct (omap log_event logs) as [|e events]; [done|]. apply app_nil_r.
Qed.

(** Heads that never fall back behind the blocks read: each answered head is at least the
    last one, and the first is high enough for the block to start with. *)
Fixpoint in_order (last : Z) (heads : list (Z * bool)) : Prop :=
  match heads with
  | [] => True
  | (number, up) :: l => last - 1 <= number - trailingBlocks /\ in_order (if up then number - trailingBlocks + 1 else last) l
  end.
(** The block to continue with. *)
Fixpoint next_block (last : Z) (heads : list (Z * bool)) : Z :=
  match heads with
  | [] => last
  | (number, up) :: l => next_block (if up then number - trailingBlocks + 1 else last) l
  end.

Lemma eth_run_spec chain heads s :
  0 < es_last s -> in_order (es_last s) heads -> (forall n, Forall wf_log (chain n)) ->
  exists s', eth_run clientChainID bridgeBankAddress (Ok v) BroadcastTx t chain heads s = (s', Ok tt)
    /\ es_last s' = next_block (es_last s) heads /\ es_last s <= es_last s'
    /\ (es_last s' = es_last s /\ es_db s' = es_db s \/ es_db s' = Some (big_Bytes (es_last s')))
    /\ mjoin (es_sent s') = mjoin (es_sent s) ++ messages_of (mjoin (chain <$> seqZ (es_last s) (es_last s' - es_last s))).
Proof.
  intros Hl Ho Hw. revert s Hl Ho. induction heads as [|[number up] heads IH]; intros s Hl Ho; unfold eth_run; cbn [mfor in_order next_block fst snd] in *.
  - exists s. split_and!; [done|done|lia|by left|]. rewrite Z.sub_diag. by rewrite app_nil_r.
  - destruct Ho as [Hn Ho]. destruct up.
    + destruct (head_up chain number s Hl Hn Hw) as (s1 & Hr & E & Hdb & Hsent). rewrite (mbnd_run _ _ _ _ _ Hr).
      destruct (IH s1) as (s2 & Hrun & El & Hle & Hd & Hs); [lia|by rewrite E|]. exists s2. split; [exact Hrun|].
      split; [by rewrite El, E|]. split; [lia|]. split.
      { right. destruct Hd as [[-> ->]|]; done. }
      rewrite Hs, Hsent, <- app_assoc. f_equal. unfold messages_of.
      replace (es_last s2 - es_last s) with ((es_last s1 - es_last s) + (es_last s2 - es_last s1)) by lia.
      rewrite seqZ_app by lia. replace (es_last s + (es_last s1 - es_last s)) with (es_last s1) by lia.
      by rewrite fmap_app, join_app, !omap_app.
    + rewrite (mbnd_run _ _ _ _ _ (head_down chain number s Hl)). by apply IH.
Qed.
End EthereumLemmas.

Section CosmosLemmas.
Context {T N Key : Type} `{SdkMathLaws, SdkAddressLaws, EthCommonLaws, !BiMap T, EthClientLaws N Key}.
Context (block : Z -> list (list AbciEvent)) (available : nat -> bool) (registry : string) (t : T).
Context (symbols : forall d, SifchainToEthereum t d <> Panic).
(** Requests keep being answered now and then. *)
Context (fair : forall n, exists m, (n <= m)%nat /\ available m = true).

Definition event_relayed (event : AbciEvent) : option CosmosMsg :=
  let claimType := getOracleClaimType (Ae_Type event) in
  match claimType with
  | MsgBurn | MsgLock =>
      match BurnLockEventToCosmosMsg claimType (Ae_Attributes event) t with Ok m => Some m | _ => None end
  | _ => None
  end.
Definition messages_in (blocks : list (list (list AbciEvent))) : list CosmosMsg := omap event_relayed (mjoin (mjoin blocks)).

Lemma messages_in_cons txs blocks : messages_in (txs :: blocks) = messages_in [txs] ++ messages_in blocks.
Proof. unfold messages_in. rewrite <- omap_app, <- join_app. cbn. by rewrite app_nil_r. Qed.
Lemma omap_join (l : list AbciEvent) : omap event_relayed l = mjoin ((fun event => option_list (event_relayed event)) <$> l).
Proof.
  induction l as [|e l IH]; [done|]. trans (option_list (event_relayed e) ++ omap event_relayed l); [|by rewrite IH].
  cbn. by destruct (event_relayed e).
Qed.
Lemma omap_join_lists (l : list (list AbciEvent)) : omap event_relayed (mjoin l) = mjoin (omap event_relayed <$> l).
Proof.
  induction l as [|x l IH]; [done|]. change (omap event_relayed (x ++ mjoin l) = omap event_relayed x ++ mjoin (omap event_relayed <$> l)).
  by rewrite omap_app, IH.
Qed.

Lemma collect_no_panic ty c a : collect ty t c a <> Panic.
Proof.
  unfold collect, message_symbol. pose proof (symbols a.2).
  destruct (SifchainToEthereum t a.2); [| |done]; repeat (case_match; cbn [rbind]; try done).
Qed.
Lemma parse_no_panic ty attributes : BurnLockEventToCosmosMsg ty attributes t <> Panic.
Proof.
  unfold BurnLockEventToCosmosMsg. generalize nothing_collected. induction attributes as [|a l IH]; intros c; cbn [collect_all rbind].
  - by destruct (_ <? 5).
  - pose proof (collect_no_panic ty c a). destruct (collect ty t c a) as [c'| |]; [apply IH|done..].
Qed.

(** The bridge events of the blocks have their sequence and their amount. *)
Definition complete_events (events : list AbciEvent) : Prop :=
  forall event m, event ∈ events -> event_relayed event = Some m -> complete m.
Context (events_complete : forall n events, events ∈ block n -> complete_events events).

Lemma relay_event_traced event : (forall m, event_relayed event = Some m -> complete m) ->
  traced (relay_event registry t event) (fun r tr => r = Ok tt /\ relayed_all registry (option_list (event_relayed event)) tr).
Proof.
  intros Hm. unfold relay_event, event_relayed in *.
  destruct (getOracleClaimType (Ae_Type event)) eqn:Ety;
    try (apply EbSender.traced_ret; split; [done|]; apply EbSender.relayed_all_nil).
  all: pose proof (parse_no_panic (getOracleClaimType (Ae_Type event)) (Ae_Attributes event)) as Hp; rewrite Ety in Hp;
    destruct (BurnLockEventToCosmosMsg _ _ t) as [m| |];
    [|apply EbSender.traced_ret; split; [done|]; apply EbSender.relayed_all_nil|done].
  all: eapply EbSender.traced_conseq; [apply handleBurnLockMsg_traced; [by apply Hm|auto]|];
    intros r tr [-> Hr]; split; [done|]; by apply EbSender.relayed_all_one.
Qed.

Lemma relay_block_traced n :
  traced (mfor (block n) (fun events => mfor events (relay_event registry t)))
    (fun r tr => r = Ok tt /\ relayed_all registry (messages_in [block n]) tr).
Proof.
  eapply EbSender.traced_conseq; [apply (EbSender.traced_mfor registry _ _ (fun events => omap event_relayed events))|].
  - intros events Hin. eapply EbSender.traced_conseq;
      [apply (EbSender.traced_mfor registry _ _ (fun event => option_list (event_relayed event)))|].
    + intros event He. apply relay_event_traced. intros m. by eapply events_complete.
    + intros r tr [-> Htr]. split; [done|]. by rewrite omap_join.
  - intros r tr [-> Htr]. split; [done|]. unfold messages_in. cbn [mjoin list_join]. rewrite app_nil_r. by rewrite omap_join_lists.
Qed.

Lemma process_block_run n s :
  exists e tr, process_block block registry t n s = (mkCosmosState n (Some (big_Bytes n)) (cs_requests s) e, Ok tt)
    /\ eth_trace e = eth_trace (cs_eth s) ++ tr /\ relayed_all registry (messages_in [block n]) tr.
Proof.
  destruct (relay_block_traced n (cs_eth s)) as (e & r & tr & Hr & _ & Ht & -> & Hrel). exists e, tr. split; [|done].
  unfold process_block, mbnd, on_eth. by rewrite Hr.
Qed.

Lemma catch_up_step fuel b h s :
  catch_up block available registry t (S fuel) b h s =
  if h <? b then (s, Ok true)
  else
    let s1 := mkCosmosState (cs_last s) (cs_db s) (S (cs_requests s)) (cs_eth s) in
    if available (cs_requests s) then mbnd (process_block block registry t b) (fun _ => catch_up block available registry t fuel (b + 1) h) s1
    else catch_up block available registry t fuel b h s1.
Proof.
  cbn [catch_up]. destruct (h <? b); [done|]. unfold mbnd at 1, mgets, id. unfold mbnd at 1, requested, mmodify.
  by destruct (available (cs_requests s)).
Qed.

(** Requests are repeated until one is answered. *)
Lemma catch_up_retry m b h s : (cs_requests s <= m)%nat -> available m = true -> b <= h ->
  exists k n, forall fuel, catch_up block available registry t (S (k + fuel)) b h s
    = mbnd (process_block block registry t b) (fun _ => catch_up block available registry t fuel (b + 1) h)
        (mkCosmosState (cs_last s) (cs_db s) (S n) (cs_eth s)).
Proof.
  intros Hm Hav Hb. remember (m - cs_requests s)%nat as d eqn:Ed. revert s Hm Ed. induction d as [|d IH]; intros s Hm Ed.
  - exists 0%nat, (cs_requests s). intros fuel. cbn [Nat.add]. rewrite catch_up_step. destruct (Z.ltb_spec h b); [lia|].
    by replace (available (cs_requests s)) with true by (by replace (cs_requests s) with m by lia).
  - destruct (available (cs_requests s)) eqn:Ea.
    + exists 0%nat, (cs_requests s). intros fuel. cbn [Nat.add]. rewrite catch_up_step, Ea. by destruct (Z.ltb_spec h b); [lia|].
    + destruct (IH (mkCosmosState (cs_last s) (cs_db s) (S (cs_requests s)) (cs_eth s))) as (k & n & E); [cbn; lia..|].
      exists (S k), n. intros fuel. specialize (E fuel). cbn [cs_last cs_db cs_eth] in E. rewrite <- E.
      cbn [Nat.add]. rewrite catch_up_step, Ea. by destruct (Z.ltb_spec h b); [lia|].
Qed.

Lemma catch_up_spec b h s : b = cs_last s + 1 ->
  exists fuel s', catch_up block available registry t fuel b h s = (s', Ok true)
    /\ cs_last s' = Z.max (cs_last s) h
    /\ (cs_last s' = cs_last s /\ cs_db s' = cs_db s \/ cs_db s' = Some (big_Bytes (cs_last s')))
    /\ exists tr, eth_trace (cs_eth s') = eth_trace (cs_eth s) ++ tr
         /\ relayed_all registry (messages_in (block <$> seqZ b (cs_last s' - cs_last s))) tr.
Proof.
  intros Hb. remember (Z.to_nat (h + 1 - b)) as d eqn:Ed. revert b s Hb Ed. induction d as [|d IH]; intros b s Hb Ed.
  - exists 1%nat, s. cbn [catch_up]. destruct (Z.ltb_spec h b); [|lia]. split_and!; [done|lia|by left|].
    exists []. rewrite Z.sub_diag, app_nil_r. split; [done|]. apply EbSender.relayed_all_nil.
  - destruct (fair (cs_requests s)) as (m & Hm & Hav).
    destruct (catch_up_retry m b h s Hm Hav ltac:(lia)) as (k & n & Hk).
    destruct (process_block_run b (mkCosmosState (cs_last s) (cs_db s) (S n) (cs_eth s))) as (e & tr1 & Hp & Ht1 & Hm1).
    destruct (IH (b + 1) (mkCosmosState b (Some (big_Bytes b)) (S n) e)) as (fuel & s' & Hr & Hl & Hdb & tr2 & Ht2 & Hm2);
      [done|lia|]. cbn [cs_last cs_db cs_eth cs_requests] in Hl, Hdb, Ht1, Ht2, Hm2, Hp.
    exists (S (k + fuel)), s'. split_and!.
    + rewrite Hk, (mbnd_run _ _ _ _ _ Hp). exact Hr.
    + lia.
    + right. destruct Hdb as [[-> ->]|]; done.
    + exists (tr1 ++ tr2). rewrite Ht2, Ht1, app_assoc. split; [done|].
      replace (cs_last s' - cs_last s) with (Z.succ (cs_last s' - b)) by lia.
      rewrite (seqZ_cons b (Z.succ _)) by lia. replace (Z.pred (Z.succ (cs_last s' - b))) with (cs_last s' - b) by lia.
      rewrite fmap_cons, <- Z.add_1_r, messages_in_cons. by apply EbSender.relayed_all_app.
Qed.

(** More fuel changes nothing. *)
Lemma catch_up_fuel fuel fuel' b h s s' :
  (fuel <= fuel')%nat -> catch_up block available registry t fuel b h s = (s', Ok true) -> catch_up block available registry t fuel' b h s = (s', Ok true).
Proof.
  revert fuel' b s. induction fuel as [|fuel IH]; intros fuel' b s Hf Hr; [done|]. destruct fuel' as [|fuel']; [lia|].
  rewrite catch_up_step in Hr |- *. destruct (h <? b); [done|]. cbv zeta in *.
  destruct (available (cs_requests s)); [|apply IH; [lia|done]].
  destruct (mbnd_ok_inv _ _ _ _ _ Hr) as (u & s1 & Hp & Hr'). rewrite (mbnd_run _ _ _ _ _ Hp). apply IH; [lia|done].
Qed.
End CosmosLemmas.

Section Properties.
Context {T N Key : Type} `{SdkMathLaws, SdkAddressLaws, EthCommonLaws, !BiMap T, BridgeAbi, EthClientLaws N Key}.

(** C22: A relayer that starts from a block number of its database and sees heads that do not
    fall back never crashes, and sends claims for exactly the lock and burn logs of the blocks
    from that number up to the one it will continue with, every log once and in chain order,
    whichever queries fail and whatever becomes of the broadcasts; what it continues with is
    what the database holds, so a restarted relayer goes on with the first block not read. *)
Theorem ethereum_blocks_once clientChainID bridgeBankAddress v (BroadcastTx : list MsgCreateEthBridgeClaim -> res unit) (t : T)
    chain heads data :
  (forall messages, BroadcastTx messages <> Panic) -> (forall n, Forall wf_log (chain n)) ->
  let s := start_ethereum (Some data) in
  0 < es_last s -> in_order (es_last s) heads ->
  exists s', eth_run clientChainID bridgeBankAddress (Ok v) BroadcastTx t chain heads s = (s', Ok tt)
    /\ es_last s' = next_block (es_last s) heads /\ es_last s <= es_last s'
    /\ mjoin (es_sent s')
       = messages_of clientChainID bridgeBankAddress v t (mjoin (chain <$> seqZ (es_last s) (es_last s' - es_last s)))
    /\ es_last (start_ethereum (es_db s')) = es_last s'.
Proof.
  intros Hb Hw s Hl Ho. destruct (eth_run_spec clientChainID bridgeBankAddress v BroadcastTx t Hb chain heads s Hl Ho Hw)
    as (s' & Hr & Hn & Hle & Hdb & Hs). exists s'. split_and!; [done..|].
  destruct Hdb as [[E ->]| ->]; [by rewrite E|]. cbn. apply big_SetBytes_Bytes. lia.
Qed.

(** C23: When the node keeps answering now and then, the relayer that has processed the blocks
    up to its last one always gets through all blocks up to a new one, in finitely many
    steps, whatever the Ethereum node answers.  What it asks of that node is, for the lock
    and burn messages of exactly the blocks in between, each once and in order: preparations
    of the account until one succeeds, at most five, each of which stops at the first request
    that is not answered; then, if the contract can be connected to, at most five attempts of
    one call with the fields of the message, until its receipt is found.  No message is passed
    over.  It ends with the new height in the variable
    and, read back, in the database.  A relayer that starts for the first time relays
    nothing of the block it sees first. *)
Theorem cosmos_catches_up block available registry (t : T) blockHeight s :
  (forall d, SifchainToEthereum t d <> Panic) -> (forall n, exists m, (n <= m)%nat /\ available m = true) ->
  (forall n events, events ∈ block n -> complete_events t events) ->
  0 <= cs_last s < 2 ^ 63 -> 0 < blockHeight < 2 ^ 63 ->
  let from := if cs_last s =? 0 then blockHeight else cs_last s in
  exists fuel s', (forall fuel', (fuel <= fuel')%nat -> on_block block available registry t fuel' blockHeight s = (s', Ok true))
    /\ cs_last s' = Z.max from blockHeight
    /\ (exists tr, eth_trace (cs_eth s') = eth_trace (cs_eth s) ++ tr
          /\ relayed_all registry (messages_in t (block <$> seqZ (from + 1) (cs_last s' - from))) tr)
    /\ (cs_last s' = from \/ cs_last (start_cosmos (cs_db s') (cs_eth s')) = cs_last s').
Proof.
  intros Hsym Hfair Hcomplete Hl Hh from. unfold on_block.
  destruct (catch_up_spec block available registry t Hsym Hfair Hcomplete (from + 1) blockHeight
    (mkCosmosState from (cs_db s) (cs_requests s) (cs_eth s)) eq_refl) as (fuel & s' & Hr & El & Hdb & Htr).
  exists fuel, s'. cbn [cs_last cs_db cs_eth] in *. split_and!; [|done|done|].
  - intros fuel' Hf. unfold mbnd, mgets, id, mmodify. fold from. by eapply catch_up_fuel.
  - destruct Hdb as [[E _]| ->]; [by left|right]. cbn [start_cosmos cs_last]. assert (0 <= cs_last s' < 2 ^ 63) as Hb.
    { rewrite El. unfold from. destruct (Z.eqb_spec (cs_last s) 0); lia. }
    rewrite big_SetBytes_Bytes by lia. apply i64_small. lia.
Qed.
End Properties.

Section Examples.
#[local] Existing Instances RefMath RefAddress EthBridge.RefEth EthBridge.RefIntText RefTable.
#[local] Existing Instances RefMath_laws RefAddress_laws EthBridge.RefEth_laws EthBridge.RefIntText_laws.

(** Every log is the lock event of the earlier example, apart from its nonce. *)
#[local] Instance RefAbi : BridgeAbi := {|
  EventID name := name;
  UnpackIntoInterface _ data :=
    match parse_nonneg data with
    | Some n => Ok (mkEthereumEvent "sif1dave" "ETH" 0 500 n 0 "" "" EbEvents.ex_address (EthBridge.zero_bytes 20))
    | None => Err (PlainErr "abi")
    end;
|}.
(** Block [n] locks with nonce [n]; block 101 also has a log that does not decode. *)
Definition ex_chain (n : Z) : list EthLog :=
  mkEthLog ["LogLock"] (big_String n) "" :: (if n =? 101 then [mkEthLog ["LogBurn"] "x" ""] else []).
(** The second query and every broadcast fail. *)
Definition ex_heads : list (Z * bool) := [(150, true); (151, false); (153, true)].
Definition ex_db : string := big_Bytes 100.
Definition no_broadcast (_ : list MsgCreateEthBridgeClaim) : res unit := Err (PlainErr "no answer").

Lemma ex_chain_wf n : Forall wf_log (ex_chain n).
Proof.
  assert (forall data topic, wf_log (mkEthLog [topic] data "")) as Hw.
  { intros data topic. split; [done|]. intros name. cbn. destruct (parse_nonneg data); split; try done. intros e [= <-]. done. }
  unfold ex_chain. destruct (n =? 101); repeat (constructor; try apply Hw).
Qed.

Lemma ethereum_blocks_once_witness :
  exists s', eth_run 1 EbEvents.ex_address (Ok "alice") no_broadcast EbEvents.ex_table ex_chain ex_heads (start_ethereum (Some ex_db)) = (s', Ok tt)
    /\ es_last s' = 104 /\ length (mjoin (es_sent s')) = 4%nat.
Proof.
  destruct (ethereum_blocks_once 1 EbEvents.ex_address "alice" no_broadcast EbEvents.ex_table ex_chain ex_heads ex_db)
    as (s' & Hr & Hn & _ & Hs & _); [done|apply ex_chain_wf|by vm_compute|by vm_compute|].
  exists s'. assert (es_last s' = 104) as El by (rewrite Hn; by vm_compute). split; [exact Hr|]. split; [exact El|].
  rewrite Hs, El. by vm_compute.
Defined.

(** One lock per block; two of three requests fail. *)
Definition ex_block (n : Z) : list (list AbciEvent) :=
  [[mkAbciEvent "message" []; lock_event EbEvents.ex_lock_msg n]].
Definition ex_available (n : nat) : bool := (n mod 3 =? 2)%nat.
#[local] Instance RefClient : EthClient nat string := EbSender.RefNode EbEvents.ex_address.
#[local] Instance RefClient_laws : EthClientLaws nat string := EbSender.RefNode_laws EbEvents.ex_address.
Definition ex_cosmos : CosmosState nat := start_cosmos (Some (big_Bytes 7)) (EbSender.mkEth 0%nat []).

Lemma ex_fair n : exists m, (n <= m)%nat /\ ex_available m = true.
Proof.
  exists (3 * n + 2)%nat. split; [lia|]. unfold ex_available.
  by rewrite Nat.add_comm, Nat.mul_comm, Nat.Div0.mod_add.
Qed.
Lemma ex_symbols d : SifchainToEthereum EbEvents.ex_table d <> Panic.
Proof. unfold SifchainToEthereum, GetWithDefault. cbn [bm_Get RefTable]. by case (find (fun kv => String.eqb kv.1 d) EbEvents.ex_table). Qed.
Lemma ex_complete n events : events ∈ ex_block n -> complete_events EbEvents.ex_table events.
Proof.
  intros ->%list_elem_of_singleton event m Hin Hm. apply elem_of_cons in Hin as [-> | ->%list_elem_of_singleton]; [done|].
  change (match BurnLockEventToCosmosMsg MsgLock (Ae_Attributes (lock_event EbEvents.ex_lock_msg n)) EbEvents.ex_table with
          | Ok m => Some m | _ => None end = Some m) in Hm.
  destruct (BurnLockEventToCosmosMsg MsgLock (Ae_Attributes (lock_event EbEvents.ex_lock_msg n)) EbEvents.ex_table)
    as [m0| |] eqn:E; [|done..]. injection Hm as <-.
  unfold lock_event, Ae_Attributes in E. rewrite relayed_message in E by by vm_compute. apply rbind_ok_inv in E as (symbol & _ & E).
  injection E as <-. by split; eexists.
Qed.

Lemma cosmos_catches_up_witness :
  exists fuel s' tr, on_block ex_block ex_available EbEvents.ex_address EbEvents.ex_table fuel 9 ex_cosmos = (s', Ok true)
    /\ eth_trace (cs_eth s') = tr
    /\ relayed_all EbEvents.ex_address (messages_in EbEvents.ex_table [ex_block 8; ex_block 9]) tr
    /\ Cm_CosmosSenderSequence <$> messages_in EbEvents.ex_table [ex_block 8; ex_block 9] = [Some 8; Some 9].
Proof.
  assert (0 <= cs_last ex_cosmos < 2 ^ 63) as Hl by by vm_compute. assert (0 < 9 < 2 ^ 63) as Hh by done.
  destruct (cosmos_catches_up ex_block ex_available EbEvents.ex_address EbEvents.ex_table 9 ex_cosmos
    ex_symbols ex_fair ex_complete Hl Hh) as (fuel & s' & Hr & El & (tr & Ht & Hrel) & _).
  exists fuel, s', tr. rewrite El in Hrel. split_and!; [apply Hr; lia|exact Ht|exact Hrel|by vm_compute].
Defined.

(** The same run: the first connection fails, and every receipt is found by its second query. *)
Example two_relayed :
  omap (fun c => match c with
               | EbSender.NewProphecyClaimCall _ hash => Some (hash, true)
               | EbSender.ReceiptQuery hash found => Some (Some hash, found)
               | EbSender.Requested _ _ => None
               end) (eth_trace (cs_eth (on_block ex_block ex_available EbEvents.ex_address EbEvents.ex_table 20 9 ex_cosmos).1))
  = [(Some "2", true); (Some "2", false); (Some "2", true); (Some "6", true); (Some "6", false); (Some "6", true)].
Proof. by vm_compute. Qed.

(** A broadcast that fails is not repeated: its claims are in no later transaction, and the
    database already points behind their blocks. *)
Example lost_broadcast :
  let s' := (eth_run 1 EbEvents.ex_address (Ok "alice") no_broadcast EbEvents.ex_table ex_chain [(150, true); (151, true)] (start_ethereum (Some ex_db))).1 in
  es_last s' = 102 /\ length <$> es_sent s' = [1; 1]%nat.
Proof. by vm_compute. Qed.
End Examples.
End EbRelayer.
