(* ===== verification/EbReplay.v ===== *)
(** * cmd/ebrelayer: the replay commands

    What a relayer missed can be replayed.  The Ethereum replay reads a range of Ethereum
    blocks again and sends the claims of the events for which it finds no claim of its own
    on this chain; the Cosmos replay reads a range of blocks of this chain again and relays
    the messages for which it finds no call of its own on Ethereum.  [ListMissedCosmosEvent]
    prints the messages such a replay would relay.  Calls are recognised by decoding their
    data at fixed positions ([MyDecode]). *)

From Stdlib Require Import ZArith Lia Ascii String.
From stdpp Require Import base list gmap strings.
From S2P Require Import Prelude SdkMath Sdk TokenRegistry Json Oracle EthBridge EbEvents EbSender EbRelayer.

Module EbReplay.
Import EbEvents EbRelayer.
Import EthBridge (EthCommon, EthCommonLaws, IsHexAddress, HexToAddress, Address_String, ClaimType, CLAIM_TYPE_BURN,
  CLAIM_TYPE_LOCK, EthBridgeClaim, MsgCreateEthBridgeClaim).
Import EbSender (EthClient, EthClientLaws, Eth, eth_trace, handleBurnLockMsg, handleBurnLockMsg_traced, complete, relayed_all,
  traced, request, Connection, ChainID, Requested, Dial, NetworkID, LoadSender).

(** ** What was sent before *)

(** [Cmp] on a number that was never set panics. *)
Fixpoint EventProcessed (bridgeClaims : list EthereumBridgeClaim) (event : EthereumEvent) : res bool :=
  match bridgeClaims with
  | [] => Ok false
  | claim :: l =>
      if String.eqb (Ev_From event) (Bc_EthereumSender claim) then
        match Bc_Nonce claim with
        | None => Panic
        | Some nonce => if Ev_Nonce event =? nonce then Ok true else EventProcessed l event
        end
      else EventProcessed l event
  end.
Fixpoint MessageProcessed (message : CosmosMsg) (prophecyClaims : list ProphecyClaimUnique) : res bool :=
  match prophecyClaims with
  | [] => Ok false
  | claim :: l =>
      if String.eqb (Cm_CosmosSender message) (Pu_CosmosSender claim) then
        match Cm_CosmosSenderSequence message with
        | None => Panic
        | Some sequence => if sequence =? Pu_CosmosSenderSequence claim then Ok true else MessageProcessed message l
        end
      else MessageProcessed message l
  end.

(** [data[from:to]]. *)
Definition bytes_between (from to : nat) (data : string) : string := substring from (to - from) data.
Definition MyDecode (data : string) : res ProphecyClaimUnique :=
  if str_len data <? 32 * 7 + 42 then Err (PlainErr "tx data length not enough")
  else
    let sequence := big_endian_value 0 (bytes_between 64 96 data) in
    if 2 ^ 32 <=? sequence then Err (PlainErr "value out of range")
    else Ok (mkProphecyClaimUnique sequence (bytes_between (32 * 7) (32 * 7 + 42) data)).

Section Claims.
Context `{SdkMath, SdkAddress, EthCommon}.

(** The claims of a validator among the events of a block. *)
Definition my_claims (ValidatorAddress : string) (event : AbciEvent) : list EthereumBridgeClaim :=
  if String.eqb (Ae_Type event) "create_claim" then
    match AttributesToEthereumBridgeClaim (Ae_Attributes event) with
    | Ok claim => if String.eqb (Bc_CosmosSender claim) ValidatorAddress then [claim] else []
    | _ => []
    end
  else [].
(** A block whose results cannot be fetched is skipped. *)
Definition getAllClaims (ValidatorAddress : string) (BlockResults : Z -> option (list (list AbciEvent))) (fromBlock toBlock : Z) :
    list EthereumBridgeClaim :=
  mjoin ((fun blockNumber => match BlockResults blockNumber with
                             | None => []
                             | Some TxsResults => mjoin ((fun events => mjoin (my_claims ValidatorAddress <$> events)) <$> TxsResults)
                             end) <$> seqZ fromBlock (toBlock - fromBlock)).
End Claims.

(** A transaction of an Ethereum block: its sender, if the signature has one, and its data. *)
Record EthTx := mkEthTx { Tx_Sender : option string; Tx_Data : string }.

(** The identifier of the method [newProphecyClaim] of the contract's ABI. *)
Section Prophecies.
Context (methodID : string).

(** The call a transaction makes, when it is one of this sender. *)
Definition my_prophecy (ethereumAddress : string) (tx : EthTx) : list ProphecyClaimUnique :=
  match Tx_Sender tx with
  | None => []
  | Some sender =>
      if negb (String.eqb sender ethereumAddress) then []
      else if str_len (Tx_Data tx) <? 4 then []
      else if negb (String.eqb (bytes_between 0 4 (Tx_Data tx)) methodID) then []
      else match MyDecode (str_drop 4 (Tx_Data tx)) with Ok prophecyClaim => [prophecyClaim] | _ => [] end
  end.
(** A block that cannot be fetched is skipped. *)
Definition GetAllProphecyClaim (BlockByNumber : Z -> option (list EthTx)) (ethereumAddress : string)
    (ethFromBlock ethToBlock : Z) : list ProphecyClaimUnique :=
  mjoin ((fun blockNumber => match BlockByNumber blockNumber with
                             | None => []
                             | Some Transactions => mjoin (my_prophecy ethereumAddress <$> Transactions)
                             end) <$> seqZ ethFromBlock (ethToBlock - ethFromBlock)).
End Prophecies.

(** ** The Ethereum replay *)

Section EthereumReplay.
Context {T : Type} `{SdkMath, SdkAddress, EthCommon, BiMap T, BridgeAbi}.
Context (GetValAddressFromKeyring : res string) (BroadcastTx : list MsgCreateEthBridgeClaim -> res unit) (symbolTranslator : T).

Definition replay_log (clientChainID : Z) (subContractAddress : string) (bridgeClaims : list EthereumBridgeClaim) (ethLog : EthLog) :
    M EthState unit :=
  do! r <- mtry (logToEvent clientChainID subContractAddress ethLog);
  match r with
  | inl (Some event) =>
      do! processed <- mlift (EventProcessed bridgeClaims event);
      if processed : bool then mret tt
      else run! mtry (handleEthereumEvent GetValAddressFromKeyring BroadcastTx symbolTranslator [event]); mret tt
  | _ => mret tt
  end.

(** [connected] is the outcome of connecting to the node and asking it for its chain and for
    the contract. *)
Definition EthereumSub_Replay (connected : res (Z * string)) (ValidatorAddress : string)
    (BlockResults : Z -> option (list (list AbciEvent))) (FilterLogs : Z -> Z -> res (list EthLog))
    (fromBlock toBlock cosmosFromBlock cosmosToBlock : Z) : M EthState unit :=
  let bridgeClaims := getAllClaims ValidatorAddress BlockResults cosmosFromBlock cosmosToBlock in
  do! r <- mtry (mlift connected);
  match r with
  | inr _ => mret tt
  | inl (clientChainID, subContractAddress) =>
      do! logs <- mtry (mlift (FilterLogs fromBlock toBlock));
      match logs with
      | inr _ => mret tt
      | inl logs => mfor logs (replay_log clientChainID subContractAddress bridgeClaims)
      end
  end.
End EthereumReplay.

(** ** The Cosmos replay *)

(** The transactions of the blocks of a range; a block that cannot be fetched is skipped. *)
Definition fetched (BlockResults : Z -> option (list (list AbciEvent))) (fromBlock toBlock : Z) : list (list (list AbciEvent)) :=
  omap BlockResults (seqZ fromBlock (toBlock - fromBlock)).

Section CosmosReplay.
Context {T N Key : Type} `{SdkMath, SdkAddress, EthCommon, BiMap T, EthClient N Key}.
Context (methodID registry : string) (symbolTranslator : T).

Definition replay_event (ProphecyClaims : list ProphecyClaimUnique) (event : AbciEvent) : M (Eth N) unit :=
  let claimType := getOracleClaimType (Ae_Type event) in
  match claimType with
  | MsgBurn | MsgLock =>
      match BurnLockEventToCosmosMsg claimType (Ae_Attributes event) symbolTranslator with
      | Panic => mpanic
      | Err _ => mret tt
      | Ok cosmosMsg =>
          do! processed <- mlift (MessageProcessed cosmosMsg ProphecyClaims);
          if processed : bool then mret tt else handleBurnLockMsg registry cosmosMsg claimType
      end
  | _ => mret tt
  end.

Definition CosmosSub_Replay (BlockByNumber : Z -> option (list EthTx)) (BlockResults : Z -> option (list (list AbciEvent)))
    (fromBlock toBlock ethFromBlock ethToBlock : Z) : M (Eth N) unit :=
  do! r <- mtry (run! request Connection Dial; run! request ChainID NetworkID; mlift LoadSender);
  match r with
  | inr _ => mret tt
  | inl mySender =>
      let ProphecyClaims := GetAllProphecyClaim methodID BlockByNumber mySender ethFromBlock ethToBlock in
      mfor (fetched BlockResults fromBlock toBlock) (fun TxsResults =>
        mfor TxsResults (fun events => mfor events (replay_event ProphecyClaims)))
  end.

(** ** Listing what was missed *)

(** The block to start with, some blocks per minute for some days before the current one. *)
Definition height_before (currentHeight perMinute Days : Z) : Z :=
  let fromHeight := i64 (currentHeight - i64 (perMinute * 60 * 24 * Days)) in
  if fromHeight <? 0 then 0 else fromHeight.

(** The messages among the events that were not relayed. *)
Fixpoint list_missed (ProphecyClaims : list ProphecyClaimUnique) (events : list AbciEvent) : res (list CosmosMsg) :=
  match events with
  | [] => Ok []
  | event :: l =>
      let claimType := getOracleClaimType (Ae_Type event) in
      match claimType with
      | MsgBurn | MsgLock =>
          match BurnLockEventToCosmosMsg claimType (Ae_Attributes event) symbolTranslator with
          | Panic => Panic
          | Err _ => list_missed ProphecyClaims l
          | Ok cosmosMsg =>
              let! processed := MessageProcessed cosmosMsg ProphecyClaims in
              let! missed := list_missed ProphecyClaims l in
              Ok (if processed : bool then missed else cosmosMsg :: missed)
          end
      | _ => list_missed ProphecyClaims l
      end
  end.
Definition ListMissedCosmosEvent (BlockByNumber : Z -> option (list EthTx)) (BlockResults : Z -> option (list (list AbciEvent)))
    (EthereumAddress : string) (Days currentEthHeight currentCosmosHeight : Z) : res (list CosmosMsg) :=
  let ProphecyClaims :=
    GetAllProphecyClaim methodID BlockByNumber EthereumAddress (height_before currentEthHeight 4 Days) currentEthHeight in
  list_missed ProphecyClaims (mjoin (mjoin (fetched BlockResults (height_before currentCosmosHeight 10 Days) currentCosmosHeight))).
End CosmosReplay.

(** ** Lemmas *)

(** The blocks' claim events are those the message server emits, of claims that passed their
    stateless check. *)
Definition emitted `{EthCommon} (BlockResults : Z -> option (list (list AbciEvent))) : Prop :=
  forall n txs events event, BlockResults n = Some txs -> events ∈ txs -> event ∈ events -> Ae_Type event = "create_claim" ->
    exists c, event = create_claim_event c /\ i64 (EthBridge.Nonce c) = EthBridge.Nonce c /\ IsHexAddress (EthBridge.EthereumSender c) = true.

Section ReadClaims.
Context {T : Type} `{SdkMathLaws, SdkAddressLaws, EthCommonLaws, !EthTextLaws, EthBridge.IntText, !EthBridge.IntTextLaws, !BiMap T}.

Lemma read_create_claim c r :
  AttributesToEthereumBridgeClaim (Ae_Attributes (create_claim_event c)) = Ok r <->
  exists validator nonce, ValAddressFromBech32 (EthBridge.EValidatorAddress c) = Ok validator
    /\ IsHexAddress (EthBridge.EthereumSender c) = true
    /\ NewIntFromString (big_String (EthBridge.Nonce c)) = Some nonce
    /\ r = mkEthereumBridgeClaim (HexToAddress (EthBridge.EthereumSender c)) validator (Some nonce).
Proof.
  unfold AttributesToEthereumBridgeClaim, read_claims, read_claim. cbn -[big_String]. split.
  - destruct (ValAddressFromBech32 _) as [v| |]; cbn -[big_String]; [|done..].
    destruct (IsHexAddress _); cbn -[big_String]; [|done].
    destruct (NewIntFromString _) as [z|]; cbn; [|done]. intros [= <-]. by exists v, z.
  - intros (v & z & -> & -> & Hz & ->). cbn -[big_String]. by rewrite Hz.
Qed.

Lemma getAllClaims_spec me BlockResults from to x :
  x ∈ getAllClaims me BlockResults from to <->
  exists n txs events event, from <= n < to /\ BlockResults n = Some txs /\ events ∈ txs /\ event ∈ events
    /\ Ae_Type event = "create_claim" /\ AttributesToEthereumBridgeClaim (Ae_Attributes event) = Ok x /\ Bc_CosmosSender x = me.
Proof.
  unfold getAllClaims. rewrite list_elem_of_join. setoid_rewrite list_elem_of_fmap. split.
  - intros (l & Hx & n & -> & Hn%elem_of_seqZ). destruct (BlockResults n) as [txs|] eqn:Eb; [|by apply elem_of_nil in Hx].
    apply list_elem_of_join in Hx as (l & Hx & Hl). apply list_elem_of_fmap in Hl as (events & -> & Hevs).
    apply list_elem_of_join in Hx as (l & Hx & Hl). apply list_elem_of_fmap in Hl as (event & -> & Hev).
    exists n, txs, events, event. unfold my_claims in Hx. destruct (String.eqb_spec (Ae_Type event) "create_claim"); [|by apply elem_of_nil in Hx].
    destruct (AttributesToEthereumBridgeClaim _) as [c| |] eqn:Ec; [|by apply elem_of_nil in Hx..].
    destruct (String.eqb_spec (Bc_CosmosSender c) me); [|by apply elem_of_nil in Hx]. apply list_elem_of_singleton in Hx as ->.
    split_and!; (done || lia).
  - intros (n & txs & events & event & Hn & Eb & Hevs & Hev & Hty & Hc & Hme). eexists. split; [|exists n; split; [reflexivity|]].
    + rewrite Eb. apply list_elem_of_join. exists (mjoin (my_claims me <$> events)). split; [|apply list_elem_of_fmap; eauto].
      apply list_elem_of_join. exists (my_claims me event). split; [|apply list_elem_of_fmap; eauto]. unfold my_claims.
      rewrite Hty, Hc, Hme, !String.eqb_refl. by left.
    + apply elem_of_seqZ. lia.
Qed.

Lemma EventProcessed_spec claims e :
  (forall c, c ∈ claims -> is_Some (Bc_Nonce c)) ->
  exists b, EventProcessed claims e = Ok b
    /\ (b = true <-> exists c, c ∈ claims /\ Bc_EthereumSender c = Ev_From e /\ Bc_Nonce c = Some (Ev_Nonce e)).
Proof.
  induction claims as [|c claims IH]; intros Hs; cbn [EventProcessed].
  - exists false. split; [done|]. split; [done|]. by intros (c & Hc%elem_of_nil & _).
  - destruct IH as (b & Hb & IHb); [intros c' Hc'; apply Hs; by right|]. destruct (Hs c) as [nonce Hn]; [by left|].
    rewrite Hn. destruct (String.eqb_spec (Ev_From e) (Bc_EthereumSender c)) as [Ef|Ef];
      [destruct (Z.eqb_spec (Ev_Nonce e) nonce) as [En|En]|]; [exists true|exists b..]; (split; [done|]).
    { split; [|done]. intros _. exists c. split_and!; [by left|done|by subst]. }
    all: rewrite IHb; split; [intros (c' & ? & ?); exists c'; split; [by right|done]|].
    all: intros (c' & [->|Hc']%elem_of_cons & ? & ?); [congruence|by exists c'].
Qed.

(** The validator has claimed the event in a block of the range: a claim event of its own
    names the sender and the nonce of the event. *)
Definition claimed (me : string) (BlockResults : Z -> option (list (list AbciEvent))) (from to : Z) (e : EthereumEvent) : Prop :=
  exists n txs events c, from <= n < to /\ BlockResults n = Some txs /\ events ∈ txs /\ create_claim_event c ∈ events
    /\ ValAddressFromBech32 (EthBridge.EValidatorAddress c) = Ok me
    /\ HexToAddress (EthBridge.EthereumSender c) = Ev_From e /\ EthBridge.Nonce c = Ev_Nonce e.

(** What [EventProcessed] answers. *)
Definition recognised (claims : list EthereumBridgeClaim) (e : EthereumEvent) : bool :=
  match EventProcessed claims e with Ok b => b | _ => false end.

Lemma recognised_claimed me BlockResults from to e : emitted BlockResults ->
  EventProcessed (getAllClaims me BlockResults from to) e = Ok (recognised (getAllClaims me BlockResults from to) e)
  /\ (recognised (getAllClaims me BlockResults from to) e = true <-> claimed me BlockResults from to e).
Proof.
  intros Hem. unfold recognised. destruct (EventProcessed_spec (getAllClaims me BlockResults from to) e) as (b & Hb & Hspec).
  { intros c (n & txs & events & event & _ & Hblk & Htx & Hev & Hty & Hread & _)%getAllClaims_spec.
    destruct (Hem _ _ _ _ Hblk Htx Hev Hty) as (c0 & -> & _). apply read_create_claim in Hread as (v & nonce & _ & _ & _ & ->). by eexists. }
  rewrite Hb. split; [done|]. rewrite Hspec. split.
  - intros (x & Hx & Hf & Hn). apply getAllClaims_spec in Hx as (n & txs & events & event & ? & Hblk & Htx & Hev & Hty & Hread & Hs).
    destruct (Hem _ _ _ _ Hblk Htx Hev Hty) as (c0 & -> & _). apply read_create_claim in Hread as (v & nonce & Hv & _ & Hno & ->).
    cbn in Hf, Hn, Hs. subst v. injection Hn as ->. apply NewIntFromString_ok in Hno. exists n, txs, events, c0. split_and!; (done || lia).
  - intros (n & txs & events & c & Hn & Hblk & Htx & Hin & Hv & Hf & Hno).
    destruct (Hem n txs events _ Hblk Htx Hin eq_refl) as (c0 & Ec & Hi & Hhex).
    assert (EthBridge.Nonce c0 = EthBridge.Nonce c /\ EthBridge.EthereumSender c0 = EthBridge.EthereumSender c) as [En Es].
    { unfold create_claim_event in Ec. injection Ec as _ Hs Hn' _ _ _ _ _. by apply big_String_inj in Hn'. }
    rewrite En in Hi. rewrite Es in Hhex.
    exists (mkEthereumBridgeClaim (Ev_From e) me (Some (Ev_Nonce e))). split; [|done].
    apply getAllClaims_spec. exists n, txs, events, (create_claim_event c). split_and!; try done; try lia.
    apply read_create_claim. exists me, (Ev_Nonce e). rewrite Hf, <- Hno. split_and!; [done|done| |done].
    apply NewIntFromString_total. unfold i64 in Hi. pose proof (Z.mod_pos_bound (EthBridge.Nonce c + 2 ^ 63) (2 ^ 64) ltac:(lia)). lia.
Qed.

(** Nobody has an empty address. *)
Lemma nobody_claimed BlockResults from to : emitted BlockResults -> getAllClaims "" BlockResults from to = [].
Proof.
  intros Hem. apply elem_of_nil_inv. intros c (n & txs & events & event & _ & Hblk & Htx & Hev & Hty & Hread & Hs)%getAllClaims_spec.
  destruct (Hem _ _ _ _ Hblk Htx Hev Hty) as (c0 & -> & _). apply read_create_claim in Hread as (v & nonce & Hv & _ & _ & ->).
  cbn in Hs. by apply ValAddress_nonempty in Hv.
Qed.

(** A claim made of an event is a claim of that event. *)
Lemma own_claim me e (t : T) ec BlockResults from to n txs events :
  wf_event e -> EthereumEventToEthBridgeClaim me e t = Ok ec -> me <> "" ->
  from <= n < to -> BlockResults n = Some txs -> events ∈ txs -> create_claim_event ec ∈ events ->
  claimed me BlockResults from to e.
Proof.
  intros Hw Hec Hme Hn Hblk Htx Hin. exists n, txs, events, ec. split_and!; try done; try lia.
  all: destruct (claim_of_event _ _ _ _ Hw Hec) as (receiver & symbol & _ & _ & ->); destruct Hw as (_ & Hf & _ & _ & Hnn & _);
    cbn [EthBridge.EValidatorAddress EthBridge.EthereumSender EthBridge.Nonce].
  - by rewrite ValAddress_roundtrip.
  - by rewrite HexToAddress_String.
  - done.
Qed.
End ReadClaims.

Section EthereumReplayLemmas.
Context {T : Type} `{SdkMathLaws, SdkAddressLaws, EthCommonLaws, !BiMap T, BridgeAbi}.
Context (clientChainID : Z) (contract v : string) (BroadcastTx : list MsgCreateEthBridgeClaim -> res unit) (t : T).
Context (broadcast_answers : forall messages, BroadcastTx messages <> Panic).

Lemma replay_logs_run (claims : list EthereumBridgeClaim) logs s :
  Forall wf_log logs -> (forall e, EventProcessed claims e = Ok (recognised claims e)) ->
  exists s', mfor logs (replay_log (Ok v) BroadcastTx t clientChainID contract claims) s = (s', Ok tt)
    /\ es_last s' = es_last s /\ es_db s' = es_db s
    /\ es_sent s' = es_sent s ++ ((fun e => option_list (event_message v t e))
                                  <$> List.filter (fun e => negb (recognised claims e)) (omap (log_event clientChainID contract) logs)).
Proof.
  intros Hw Hrec. revert s. induction Hw as [|l logs Hl _ IH]; intros s; cbn [mfor].
  - exists s. by rewrite app_nil_r.
  - destruct (logToEvent_run clientChainID contract l s Hl) as (s1 & r & Hr & (El & Ed & Es) & E).
    assert (exists s2, replay_log (Ok v) BroadcastTx t clientChainID contract claims l s = (s2, Ok tt) /\ es_last s2 = es_last s
      /\ es_db s2 = es_db s /\ es_sent s2 = es_sent s ++ ((fun e => option_list (event_message v t e))
           <$> List.filter (fun e => negb (recognised claims e)) (option_list (log_event clientChainID contract l)))) as (s2 & Hrun2 & El2 & Ed2 & Es2).
    { unfold replay_log. rewrite (mbnd_run _ _ _ _ _ Hr), <- E. destruct r as [[e|]|err]; [|exists s1; cbn; rewrite El, Ed, Es, app_nil_r; done..].
      rewrite (mbnd_lift _ _ _ _ (Hrec e)). cbn. destruct (recognised claims e); cbn.
      { exists s1. by rewrite El, Ed, Es, app_nil_r. }
      destruct (handle_run v BroadcastTx t broadcast_answers [e] s1 ltac:(done)) as [r2 Hh].
      { constructor; [|done]. eapply log_event_small; [exact Hl|by rewrite <- E]. }
      rewrite (mbnd_run _ _ _ _ _ Hh). eexists. split; [reflexivity|]. cbn [es_last es_db es_sent]. rewrite El, Ed, Es.
      by split_and!. }
    rewrite (mbnd_run _ _ _ _ _ Hrun2). destruct (IH s2) as (s3 & Hrun3 & El3 & Ed3 & Es3). exists s3. split; [exact Hrun3|].
    rewrite El3, Ed3, Es3, El2, Ed2, Es2, <- app_assoc, <- fmap_app, <- List.filter_app. split_and!; [done..|].
    do 3 f_equal. cbn. by destruct (log_event clientChainID contract l).
Qed.
End EthereumReplayLemmas.


(** The prefix of this chain's account addresses (app/prefix.go), and the length of the
    Bech32 text of a 20-byte address: the prefix, a separator, 32 characters for the bytes and
    6 for the checksum. *)
Definition AccountAddressPrefix : string := "ak".
Definition bech32_length (prefix : string) : nat := (String.length prefix + 1 + 32 + 6)%nat.

Lemma substring_length n m s : (n + m <= String.length s)%nat -> String.length (substring n m s) = m.
Proof.
  revert n m. induction s as [|c s IH]; intros [|n] [|m] Hl; simpl in *; try lia; try done.
  - f_equal. apply (IH 0%nat). lia.
  - apply IH. lia.
  - apply IH. lia.
Qed.
Lemma substring_skip a b n m : substring (String.length a + n) m (a +:+ b) = substring n m b.
Proof. induction a as [|c a IH]; simpl; done. Qed.
Lemma substring_prefix a b : substring 0 (String.length a) (a +:+ b) = a.
Proof. induction a as [|c a IH]; simpl; [by destruct b|by rewrite IH]. Qed.
(** The bytes between two positions of a concatenation. *)
Lemma bytes_between_app from to a b c :
  String.length a = from -> String.length b = (to - from)%nat -> bytes_between from to (a +:+ b +:+ c) = b.
Proof.
  intros <- Hb. unfold bytes_between. rewrite <- Hb, <- (Nat.add_0_r (String.length a)), substring_skip.
  apply substring_prefix.
Qed.

Lemma MyDecode_length data p : MyDecode data = Ok p -> String.length (Pu_CosmosSender p) = 42%nat.
Proof.
  unfold MyDecode. destruct (Z.ltb_spec (str_len data) (32 * 7 + 42)) as [|Hl]; [done|].
  destruct (2 ^ 32 <=? _); [done|]. intros [= <-]. cbn [Pu_CosmosSender]. unfold bytes_between. unfold str_len in Hl.
  apply substring_length. lia.
Qed.

(** The arguments of a call of newProphecyClaim as the contract's ABI lays them out: two
    words, the sequence, three words, the length of the sender, the sender and the rest. *)
Record prophecy_call (data sender : string) (sequence : Z) : Prop := mkCall {
  pc_front : exists front word middle rest, data = front +:+ word +:+ middle +:+ sender +:+ rest
    /\ String.length front = 64%nat /\ String.length word = 32%nat /\ String.length middle = 128%nat
    /\ big_endian_value 0 word = sequence;
}.

(** The data of a call of 42-character sender and 32-bit sequence is decoded. *)
Lemma MyDecode_call data sender sequence :
  prophecy_call data sender sequence -> String.length sender = 42%nat -> sequence < 2 ^ 32 ->
  MyDecode data = Ok (mkProphecyClaimUnique sequence sender).
Proof.
  intros [(a & w & b & r & -> & Ha & Hw & Hb & <-)] Hs Hlt. unfold MyDecode, str_len.
  rewrite !string_length_app, Ha, Hw, Hb, Hs. rewrite (proj2 (Z.ltb_ge _ _)) by lia.
  rewrite (bytes_between_app 64 96 a w) by done. rewrite (proj2 (Z.leb_gt _ _)) by done.
  rewrite <- (string_app_assoc w), <- (string_app_assoc a), (bytes_between_app _ _ (a +:+ w +:+ b)) by
    (rewrite ?string_length_app; lia). done.
Qed.

Lemma MessageProcessed_spec m claims q : Cm_CosmosSenderSequence m = Some q ->
  exists b, MessageProcessed m claims = Ok b /\ (b = true <-> mkProphecyClaimUnique q (Cm_CosmosSender m) ∈ claims).
Proof.
  intros Hq. induction claims as [|p claims IH]; cbn [MessageProcessed].
  - exists false. split; [done|]. split; [done|]. by intros Hin%elem_of_nil.
  - destruct IH as (b & Hb & IHb). rewrite Hq. destruct p as [q' sender]; cbn [Pu_CosmosSender Pu_CosmosSenderSequence].
    destruct (String.eqb_spec (Cm_CosmosSender m) sender) as [Es|Hne]; [destruct (Z.eqb_spec q q') as [En|Hne]|].
    { exists true. split; [done|]. split; [intros _|done]. rewrite Es, En. by left. }
    all: exists b; split; [done|]; rewrite IHb, elem_of_cons; split; [by right|intros [[= ? ?]|]; [congruence|done]].
Qed.

Lemma substring_split n s : (n <= String.length s)%nat -> s = substring 0 n s +:+ str_drop n s.
Proof.
  revert s. induction n as [|n IH]; intros s Hn; [by destruct s|]. destruct s as [|c s]; simpl in *; [lia|].
  rewrite app_cons, <- IH by lia. done.
Qed.

(** The sender has called the contract for the message in a block of the range. *)
Definition called (methodID address : string) (BlockByNumber : Z -> option (list EthTx)) (from to : Z) (m : CosmosMsg) : Prop :=
  exists n txs args q, from <= n < to /\ BlockByNumber n = Some txs /\ mkEthTx (Some address) (methodID +:+ args) ∈ txs
    /\ Cm_CosmosSenderSequence m = Some q /\ MyDecode args = Ok (mkProphecyClaimUnique q (Cm_CosmosSender m)).

Lemma my_prophecy_spec methodID address tx p : String.length methodID = 4%nat ->
  p ∈ my_prophecy methodID address tx <-> exists args, tx = mkEthTx (Some address) (methodID +:+ args) /\ MyDecode args = Ok p.
Proof.
  intros Hm. unfold my_prophecy. destruct tx as [sender data]; cbn [Tx_Sender Tx_Data]. split.
  - destruct sender as [sender|]; [|by intros ?%elem_of_nil]. destruct (String.eqb_spec sender address) as [->|]; cbn [negb]; [|by intros ?%elem_of_nil].
    destruct (Z.ltb_spec (str_len data) 4) as [|Hl]; [by intros ?%elem_of_nil|].
    destruct (String.eqb_spec (bytes_between 0 4 data) methodID) as [E|]; cbn [negb]; [|by intros ?%elem_of_nil].
    destruct (MyDecode _) as [p'| |] eqn:Ed; [|by intros ?%elem_of_nil..]. intros ->%list_elem_of_singleton.
    exists (str_drop 4 data). split; [|done]. f_equal. unfold bytes_between in E. cbn in E. rewrite <- E.
    unfold str_len in Hl. apply substring_split. lia.
  - intros (args & [= -> ->] & Hd). rewrite String.eqb_refl. cbn [negb]. unfold str_len. rewrite string_length_app, Hm.
    rewrite (proj2 (Z.ltb_ge _ _)) by lia. unfold bytes_between. cbn [Nat.sub]. rewrite <- Hm, substring_prefix, String.eqb_refl, str_drop_app, Hd.
    by left.
Qed.

Lemma called_spec methodID address BlockByNumber from to m q :
  String.length methodID = 4%nat -> Cm_CosmosSenderSequence m = Some q ->
  mkProphecyClaimUnique q (Cm_CosmosSender m) ∈ GetAllProphecyClaim methodID BlockByNumber address from to
  <-> called methodID address BlockByNumber from to m.
Proof.
  intros Hm Hq. unfold GetAllProphecyClaim, called. rewrite list_elem_of_join. setoid_rewrite list_elem_of_fmap. split.
  - intros (l & Hp & n & -> & Hn%elem_of_seqZ). destruct (BlockByNumber n) as [txs|] eqn:Eb; [|by apply elem_of_nil in Hp].
    apply list_elem_of_join in Hp as (l & Hp & Hl). apply list_elem_of_fmap in Hl as (tx & -> & Htx).
    apply my_prophecy_spec in Hp as (args & -> & Hd); [|done]. exists n, txs, args, q. split_and!; (done || lia).
  - intros (n & txs & args & q' & Hn & Eb & Htx & Hq' & Hd). rewrite Hq in Hq'. injection Hq' as <-.
    eexists. split; [|exists n; split; [reflexivity|apply elem_of_seqZ; lia]]. rewrite Eb. apply list_elem_of_join.
    eexists. split; [|apply list_elem_of_fmap; eexists; split; [reflexivity|exact Htx]]. apply my_prophecy_spec; [done|]. by exists args.
Qed.

Lemma filter_join {A} (p : A -> bool) (l : list (list A)) : List.filter p (mjoin l) = mjoin (List.filter p <$> l).
Proof.
  induction l as [|x l IH]; [done|]. change (List.filter p (x ++ mjoin l) = List.filter p x ++ mjoin (List.filter p <$> l)).
  by rewrite List.filter_app, IH.
Qed.

Section CosmosReplayLemmas.
Context {T N Key : Type} `{SdkMathLaws, SdkAddressLaws, EthCommonLaws, !BiMap T, EthClientLaws N Key}.
Context (methodID registry : string) (t : T) (symbols : forall d, SifchainToEthereum t d <> Panic).
Context (claims : list ProphecyClaimUnique).

(** The messages that are relayed again. *)
Definition unprocessed (m : CosmosMsg) : bool := match MessageProcessed m claims with Ok b => negb b | _ => false end.

Lemma MessageProcessed_unprocessed m : complete m -> MessageProcessed m claims = Ok (negb (unprocessed m)).
Proof.
  intros [[q Hq] _]. unfold unprocessed. destruct (MessageProcessed_spec m claims q Hq) as (b & -> & _). by destruct b.
Qed.

Lemma replay_event_traced event : (forall m, event_relayed t event = Some m -> complete m) ->
  traced (replay_event registry t claims event)
    (fun r tr => r = Ok tt /\ relayed_all registry (List.filter unprocessed (option_list (event_relayed t event))) tr).
Proof.
  intros Hm. unfold replay_event, event_relayed in *.
  destruct (getOracleClaimType (Ae_Type event)) eqn:Ety;
    try (apply EbSender.traced_ret; split; [done|]; apply EbSender.relayed_all_nil).
  all: pose proof (parse_no_panic t symbols (getOracleClaimType (Ae_Type event)) (Ae_Attributes event)) as Hp; rewrite Ety in Hp;
    destruct (BurnLockEventToCosmosMsg _ _ t) as [m| |];
    [|apply EbSender.traced_ret; split; [done|]; apply EbSender.relayed_all_nil|done].
  all: specialize (Hm m eq_refl); rewrite (MessageProcessed_unprocessed m Hm);
    eapply EbSender.traced_bind;
      [apply (EbSender.traced_lift _ (fun r tr => r = Ok (negb (unprocessed m)) /\ tr = [])); done| |by intros e tr [? _]];
    intros b tr [[= ->] ->]; cbn; destruct (unprocessed m); cbn;
    [|apply EbSender.traced_ret; split; [done|]; apply EbSender.relayed_all_nil].
  all: eapply EbSender.traced_conseq; [apply handleBurnLockMsg_traced; [exact Hm|auto]|];
    intros r tr [-> Hr]; split; [done|]; by apply EbSender.relayed_all_one.
Qed.

Lemma replay_blocks_traced blocks :
  (forall txs events, txs ∈ blocks -> events ∈ txs -> complete_events t events) ->
  traced (mfor blocks (fun txs => mfor txs (fun events => mfor events (replay_event registry t claims))))
    (fun r tr => r = Ok tt /\ relayed_all registry (List.filter unprocessed (messages_in t blocks)) tr).
Proof.
  intros Hc. eapply EbSender.traced_conseq;
    [apply (EbSender.traced_mfor registry _ _ (fun txs => List.filter unprocessed (messages_in t [txs])))|].
  - intros txs Htx. eapply EbSender.traced_conseq;
      [apply (EbSender.traced_mfor registry _ _ (fun events => List.filter unprocessed (omap (event_relayed t) events)))|].
    + intros events Hev. eapply EbSender.traced_conseq;
        [apply (EbSender.traced_mfor registry _ _ (fun event => List.filter unprocessed (option_list (event_relayed t event))))|].
      * intros event He. apply replay_event_traced. intros m. by eapply Hc.
      * intros r tr [-> Htr]. split; [done|]. rewrite omap_join, filter_join, <- list_fmap_compose. exact Htr.
    + intros r tr [-> Htr]. split; [done|]. unfold messages_in. cbn [mjoin list_join]. rewrite app_nil_r.
      rewrite omap_join_lists, filter_join, <- list_fmap_compose. exact Htr.
  - intros r tr [-> Htr]. split; [done|]. replace (List.filter unprocessed (messages_in t blocks))
      with (mjoin ((fun txs => List.filter unprocessed (messages_in t [txs])) <$> blocks)); [done|].
    clear. induction blocks as [|txs blocks IH]; [done|]. rewrite messages_in_cons, List.filter_app, <- IH. done.
Qed.

Lemma list_missed_run events : complete_events t events ->
  list_missed t claims events = Ok (List.filter unprocessed (omap (event_relayed t) events)).
Proof.
  induction events as [|event events IH]; intros Hc; [done|].
  assert (list_missed t claims events = Ok (List.filter unprocessed (omap (event_relayed t) events))) as Hl.
  { apply IH. intros e m Hin. apply Hc. by right. }
  change (list_missed t claims (event :: events) = Ok (List.filter unprocessed
    match event_relayed t event with Some y => y :: omap (event_relayed t) events | None => omap (event_relayed t) events end)).
  cbn [list_missed]. rewrite Hl. generalize (omap (event_relayed t) events); intros rest.
  pose proof (Hc event) as Hm. unfold event_relayed in *.
  destruct (getOracleClaimType (Ae_Type event)) eqn:Ety; try done.
  all: pose proof (parse_no_panic t symbols (getOracleClaimType (Ae_Type event)) (Ae_Attributes event)) as Hp; rewrite Ety in Hp;
    destruct (BurnLockEventToCosmosMsg _ _ t) as [m| |]; [|done..].
  all: specialize (Hm m ltac:(by left) eq_refl); rewrite (MessageProcessed_unprocessed m Hm); cbn; by destruct (unprocessed m).
Qed.
End CosmosReplayLemmas.

(** Connecting takes two requests; one that is not answered is the last. *)
Definition connected : list EbSender.EthCall := [Requested Connection true; Requested ChainID true].
Definition unconnected (tr : list EbSender.EthCall) : Prop :=
  tr = [Requested Connection false] \/ tr = [Requested Connection true; Requested ChainID false].

Lemma connect_traced {N Key} `{EthClientLaws N Key} address : LoadSender = Ok address ->
  traced (run! request Connection Dial; run! request ChainID NetworkID; mlift LoadSender)
    (fun r tr => match r with Ok a => a = address /\ tr = connected | Err _ => unconnected tr | Panic => False end).
Proof.
  intros Hs. eapply EbSender.traced_bind; [apply EbSender.traced_request, EbSender.Dial_answers| |].
  - intros [] tr [-> _]. eapply EbSender.traced_bind; [apply EbSender.traced_request, EbSender.NetworkID_answers| |].
    + intros id tr [-> _]. rewrite Hs. by apply EbSender.traced_lift.
    + intros e tr [-> _]. by right.
  - intros e tr [-> _]. by left.
Qed.

(** ** What a replay sends *)

(** The claim message of each of the events, one transaction per event. *)
Definition one_by_one `{SdkMath, SdkAddress, EthCommon} {T} `{!BiMap T} (v : string) (t : T) (events : list EthereumEvent) :
    list (list MsgCreateEthBridgeClaim) := (fun e => option_list (event_message v t e)) <$> events.

Section Properties.
Context {T N Key : Type} `{SdkMathLaws, SdkAddressLaws, EthCommonLaws, !EthTextLaws, EthBridge.IntText, !EthBridge.IntTextLaws,
  !BiMap T, BridgeAbi, EthClientLaws N Key}.

(** C27: Given the validator's own address, the Ethereum replay sends, one transaction per
    event and in chain order, the claims of exactly the events of the range for which no
    claim of the validator is among those of the given blocks of this chain; a claim the
    relayer made of an event counts.  The replay command leaves the address empty, and
    then the claims of all events are sent again. *)
Theorem ethereum_replay clientChainID contract v me (BroadcastTx : list MsgCreateEthBridgeClaim -> res unit) (t : T)
    BlockResults chain from to cosmosFrom cosmosTo s :
  (forall messages, BroadcastTx messages <> Panic) -> (forall n, Forall wf_log (chain n)) -> emitted BlockResults -> me <> "" ->
  let events := omap (log_event clientChainID contract) (mjoin (chain <$> seqZ from (to - from + 1))) in
  let Replay address := EthereumSub_Replay (Ok v) BroadcastTx t (Ok (clientChainID, contract)) address BlockResults
                          (FilterLogs_of chain true) from to cosmosFrom cosmosTo in
  (exists s' p, Replay me s = (s', Ok tt) /\ es_last s' = es_last s /\ es_db s' = es_db s
     /\ es_sent s' = es_sent s ++ one_by_one v t (List.filter (fun e => negb (p e)) events)
     /\ forall e, p e = true <-> claimed me BlockResults cosmosFrom cosmosTo e)
  /\ (forall e ec n txs evs, wf_event e -> EthereumEventToEthBridgeClaim me e t = Ok ec -> cosmosFrom <= n < cosmosTo ->
        BlockResults n = Some txs -> evs ∈ txs -> create_claim_event ec ∈ evs -> claimed me BlockResults cosmosFrom cosmosTo e)
  /\ (exists s', Replay "" s = (s', Ok tt) /\ es_sent s' = es_sent s ++ one_by_one v t events).
Proof.
  intros Hb Hw Hem Hme events Replay.
  assert (Forall wf_log (mjoin (chain <$> seqZ from (to - from + 1)))) as Hlogs.
  { apply Forall_forall. intros l (x & Hx & (n & -> & _)%list_elem_of_fmap)%list_elem_of_join. specialize (Hw n).
    rewrite Forall_forall in Hw. by apply Hw. }
  assert (forall claims, (forall e, EventProcessed claims e = Ok (recognised claims e)) -> exists s',
    mfor (mjoin (chain <$> seqZ from (to - from + 1))) (replay_log (Ok v) BroadcastTx t clientChainID contract claims) s = (s', Ok tt)
    /\ es_last s' = es_last s /\ es_db s' = es_db s
    /\ es_sent s' = es_sent s ++ one_by_one v t (List.filter (fun e => negb (recognised claims e)) events)) as Hrun
    by (intros claims Hrec; by apply replay_logs_run). split_and!.
  - pose proof (fun e => recognised_claimed me BlockResults cosmosFrom cosmosTo e Hem) as Hrec.
    destruct (Hrun (getAllClaims me BlockResults cosmosFrom cosmosTo) (fun e => proj1 (Hrec e))) as (s' & Hr & El & Ed & Es).
    exists s', (recognised (getAllClaims me BlockResults cosmosFrom cosmosTo)). split_and!; [exact Hr|done..|]. intros e. apply Hrec.
  - intros e ec n txs evs Hwf Hec Hn Hblk Htx Hin. by eapply own_claim.
  - destruct (Hrun [] ltac:(done)) as (s' & Hr & _ & _ & Es). exists s'. split.
    + unfold Replay, EthereumSub_Replay. rewrite nobody_claimed by done. exact Hr.
    + rewrite Es. do 2 f_equal. clear. unfold recognised. induction events as [|e l IH]; [done|]. cbn in *. by rewrite IH.
Qed.

(** C28: The Cosmos replay relays, in chain order, exactly the messages of the range for which
    the validator has made no call with their sender and sequence in the given Ethereum
    blocks, unless one of the two requests that connect it fails; each of them is tried as
    the relayer does, so none is passed over; and [ListMissedCosmosEvent] lists just these.  A call
    made for a message counts when the sender's address has 42 characters and the sequence
    32 bits.  The addresses of this chain have 41 characters, and no call counts for a
    message from such an address: it is always relayed again. *)
Theorem cosmos_replay methodID registry address (t : T) BlockByNumber BlockResults from to ethFrom ethTo s :
  String.length methodID = 4%nat -> LoadSender = Ok address -> (forall d, SifchainToEthereum t d <> Panic) ->
  (forall txs events, txs ∈ fetched BlockResults from to -> events ∈ txs -> complete_events t events) ->
  let messages := messages_in t (fetched BlockResults from to) in
  (exists s' tr p, CosmosSub_Replay methodID registry t BlockByNumber BlockResults from to ethFrom ethTo s = (s', Ok tt)
     /\ eth_trace s' = eth_trace s ++ tr
     /\ ((exists calls, tr = connected ++ calls /\ relayed_all registry (List.filter (fun m => negb (p m)) messages) calls)
         \/ unconnected tr)
     /\ list_missed t (GetAllProphecyClaim methodID BlockByNumber address ethFrom ethTo) (mjoin (mjoin (fetched BlockResults from to)))
        = Ok (List.filter (fun m => negb (p m)) messages)
     /\ forall m, m ∈ messages -> p m = true <-> called methodID address BlockByNumber ethFrom ethTo m)
  /\ (forall m n txs args q, prophecy_call args (Cm_CosmosSender m) q -> String.length (Cm_CosmosSender m) = 42%nat -> q < 2 ^ 32 ->
        Cm_CosmosSenderSequence m = Some q -> ethFrom <= n < ethTo -> BlockByNumber n = Some txs ->
        mkEthTx (Some address) (methodID +:+ args) ∈ txs -> called methodID address BlockByNumber ethFrom ethTo m)
  /\ (forall m, String.length (Cm_CosmosSender m) = bech32_length AccountAddressPrefix ->
        ~ called methodID address BlockByNumber ethFrom ethTo m).
Proof.
  intros Hm Haddr Hsym Hc messages. set (claims := GetAllProphecyClaim methodID BlockByNumber address ethFrom ethTo).
  assert (forall m, m ∈ messages -> complete m) as Hcomplete.
  { intros m (event & Hin & He)%list_elem_of_omap. apply list_elem_of_join in Hin as (events & Hin & Hev).
    apply list_elem_of_join in Hev as (txs & Hev & Htx). by eapply Hc. }
  assert (List.filter (fun m => negb (negb (unprocessed claims m))) messages = List.filter (unprocessed claims) messages) as Hneg.
  { apply List.filter_ext. intros m. apply negb_involutive. }
  split_and!.
  - destruct (EbSender.traced_try _ _ (connect_traced address Haddr) s) as (s1 & r & tr1 & Hr & _ & Ht1 & HP1).
    assert (exists s' tr, CosmosSub_Replay methodID registry t BlockByNumber BlockResults from to ethFrom ethTo s = (s', Ok tt)
      /\ eth_trace s' = eth_trace s ++ tr
      /\ ((exists calls, tr = connected ++ calls /\ relayed_all registry (List.filter (unprocessed claims) messages) calls)
          \/ unconnected tr)) as (s' & tr & Hrun & Ht & Hrel).
    { unfold CosmosSub_Replay. destruct r as [[a|e]|e0|]; [| |done..]; rewrite (mbnd_run _ _ _ _ _ Hr).
      - destruct HP1 as [-> ->].
        destruct (replay_blocks_traced registry t Hsym claims (fetched BlockResults from to) Hc s1) as (s2 & r2 & tr2 & Hr2 & _ & Ht2 & -> & Hrel).
        exists s2, (connected ++ tr2). rewrite Ht2, Ht1, <- app_assoc. split_and!; [exact Hr2|done|]. left. by exists tr2.
      - exists s1, tr1. split_and!; [done|done|by right]. }
    exists s', tr, (fun m => negb (unprocessed claims m)). rewrite Hneg. split_and!; [done..| |].
    + rewrite (list_missed_run t Hsym claims); [done|]. intros event m (events & Hin & Hev)%list_elem_of_join He.
      apply list_elem_of_join in Hev as (txs & Hev & Htx). by eapply Hc.
    + intros m Hin. destruct (Hcomplete m Hin) as [[q Hq] _]. rewrite <- (called_spec _ _ _ _ _ _ q Hm Hq). fold claims.
      destruct (MessageProcessed_spec m claims q Hq) as (b & Hb & Hspec). unfold unprocessed. rewrite Hb, negb_involutive. exact Hspec.
  - intros m n txs args q Hcall Hs Hlt Hq Hn Hblk Htx. exists n, txs, args, q. split_and!; try done; try lia. by apply MyDecode_call.
  - intros m Hs (n & txs & args & q & _ & _ & _ & _ & Hd%MyDecode_length). cbn in Hd. rewrite Hs in Hd. done.
Qed.
End Properties.

Section Examples.
#[local] Existing Instances RefMath RefAddress EthBridge.RefEth EthBridge.RefIntText RefTable RefAbi.
#[local] Existing Instances RefMath_laws RefAddress_laws EthBridge.RefEth_laws EthBridge.RefIntText_laws RefEth_text_laws.

(** The lock events of the blocks 10 to 12, of which the one with nonce 11 was claimed. *)
Definition ex_claimed : EthereumEvent :=
  mkEthereumEvent "sif1dave" "ETH" 1 500 11 CLAIM_TYPE_LOCK "" EbEvents.ex_address EbEvents.ex_address (EthBridge.zero_bytes 20).
Definition ex_own_claim : EthBridgeClaim := EbEvents.ex_claim "alice" ex_claimed.
Definition ex_blocks (n : Z) : option (list (list AbciEvent)) := if n =? 12 then Some [[create_claim_event ex_own_claim]] else None.

Lemma ex_emitted : emitted ex_blocks.
Proof.
  intros n txs events event Hn Htx Hev _. unfold ex_blocks in Hn. destruct (n =? 12); [|done]. injection Hn as <-.
  apply list_elem_of_singleton in Htx as ->. apply list_elem_of_singleton in Hev as ->. exists ex_own_claim.
  split_and!; [done|by vm_compute..].
Qed.

Lemma ex_claimed_wf : wf_event ex_claimed.
Proof. by vm_compute. Qed.
Lemma ex_own : EthereumEventToEthBridgeClaim "alice" ex_claimed EbEvents.ex_table = Ok ex_own_claim.
Proof. by vm_compute. Qed.
Lemma ex_block_12 : ex_blocks 12 = Some [[create_claim_event ex_own_claim]].
Proof. reflexivity. Qed.

Lemma ethereum_replay_witness :
  exists s' p, EthereumSub_Replay (Ok "alice") no_broadcast EbEvents.ex_table (Ok (1, EbEvents.ex_address)) "alice" ex_blocks
      (FilterLogs_of ex_chain true) 10 12 10 20 (start_ethereum None) = (s', Ok tt)
    /\ p ex_claimed = true
    /\ es_sent s' = one_by_one "alice" EbEvents.ex_table (List.filter (fun e => negb (p e))
         (omap (log_event 1 EbEvents.ex_address) (mjoin (ex_chain <$> seqZ 10 3)))).
Proof.
  destruct (ethereum_replay 1 EbEvents.ex_address "alice" "alice" no_broadcast EbEvents.ex_table ex_blocks ex_chain 10 12 10 20
    (start_ethereum None)) as ((s' & p & Hr & _ & _ & Hs & Hp) & Hown & _); [done|exact ex_chain_wf|exact ex_emitted|done|].
  exists s', p. split_and!; [exact Hr| |exact Hs]. apply Hp.
  apply (Hown ex_claimed ex_own_claim 12 [[create_claim_event ex_own_claim]] [create_claim_event ex_own_claim]);
    [exact ex_claimed_wf|exact ex_own|lia|exact ex_block_12|apply list_elem_of_here..].
Defined.

(** Two locks of one sequence, from an address of 42 characters and from one of this chain,
    both relayed before. *)
Definition ex_sender (prefix : string) : string := prefix +:+ "1gxyz2gxyz2gxyz2gxyz2gxyz2gxyz2gxyz2gxy".
Definition ex_call (sender : string) : string :=
  EthBridge.zero_bytes 64 +:+ (EthBridge.zero_bytes 31 +:+ byte1 5) +:+ EthBridge.zero_bytes 128 +:+ sender +:+ EthBridge.zero_bytes 22.
Definition ex_lock_of (prefix : string) : AbciEvent :=
  lock_event (EthBridge.mkMsgLock (ex_sender prefix) 500 "aku" 1 EthBridge.ex_address EthBridge.lockGasCost) 5.
Definition ex_message (prefix : string) : CosmosMsg := NewCosmosMsg MsgLock (ex_sender prefix) (Some 5) (HexToAddress EthBridge.ex_address) "erowan" (Some 500).
Definition ex_cosmos_blocks (n : Z) : option (list (list AbciEvent)) := if n =? 3 then Some [[ex_lock_of "sif"; ex_lock_of "ak"]] else None.
Definition ex_eth_blocks (n : Z) : option (list EthTx) :=
  if n =? 7 then Some [mkEthTx (Some EbEvents.ex_address) ("meth" +:+ ex_call (ex_sender "sif")); mkEthTx None "";
                       mkEthTx (Some EbEvents.ex_address) ("meth" +:+ ex_call (ex_sender "ak"))] else None.
#[local] Existing Instances EbRelayer.RefClient EbRelayer.RefClient_laws.

Lemma ex_relayed prefix : event_relayed EbEvents.ex_table (ex_lock_of prefix) = Some (ex_message prefix).
Proof.
  change (match BurnLockEventToCosmosMsg MsgLock (Ae_Attributes (ex_lock_of prefix)) EbEvents.ex_table with
          | Ok m => Some m | _ => None end = Some (ex_message prefix)).
  unfold ex_lock_of, lock_event, Ae_Attributes. rewrite relayed_message by by vm_compute. by vm_compute.
Qed.
Lemma ex_complete_events txs events :
  txs ∈ fetched ex_cosmos_blocks 0 5 -> events ∈ txs -> complete_events EbEvents.ex_table events.
Proof.
  intros (n & Hn & Hb)%list_elem_of_omap Hev. unfold ex_cosmos_blocks in Hb. destruct (n =? 3); [|done]. injection Hb as <-.
  apply list_elem_of_singleton in Hev as ->. intros event m Hin Hm.
  apply elem_of_cons in Hin as [-> | ->%list_elem_of_singleton]; rewrite ex_relayed in Hm; injection Hm as <-; by split; eexists.
Qed.

Lemma ex_layout : prophecy_call (ex_call (ex_sender "sif")) (ex_sender "sif") 5.
Proof.
  split. exists (EthBridge.zero_bytes 64), (EthBridge.zero_bytes 31 +:+ byte1 5), (EthBridge.zero_bytes 128), (EthBridge.zero_bytes 22).
  by vm_compute.
Qed.

Lemma ex_unanswered (tr : list EbSender.EthCall) :
  unconnected tr -> eth_trace (CosmosSub_Replay "meth" EbEvents.ex_address EbEvents.ex_table ex_eth_blocks ex_cosmos_blocks 0 5 0 10
    (EbSender.mkEth 1%nat [])).1 <> tr.
Proof. intros [->| ->]; by vm_compute. Qed.

(** The node answers, and both messages are settled: nothing is done for the one that was
    called, and the other is prepared for and called. *)
Lemma cosmos_replay_witness :
  exists s' calls p, CosmosSub_Replay "meth" EbEvents.ex_address EbEvents.ex_table ex_eth_blocks ex_cosmos_blocks 0 5 0 10 (EbSender.mkEth 1%nat [])
      = (s', Ok tt)
    /\ eth_trace s' = connected ++ calls /\ p (ex_message "sif") = true
    /\ relayed_all EbEvents.ex_address
         (List.filter (fun m => negb (p m)) (messages_in EbEvents.ex_table (fetched ex_cosmos_blocks 0 5))) calls
    /\ ~ called "meth" EbEvents.ex_address ex_eth_blocks 0 10 (ex_message "ak").
Proof.
  assert (String.length "meth" = 4%nat) as Hmeth by done.
  assert (LoadSender = Ok EbEvents.ex_address) as Haddr by by vm_compute.
  destruct (cosmos_replay "meth" EbEvents.ex_address EbEvents.ex_address EbEvents.ex_table ex_eth_blocks ex_cosmos_blocks 0 5 0 10
    (EbSender.mkEth 1%nat []) Hmeth Haddr ex_symbols ex_complete_events) as ((s' & tr & p & Hr & Ht & [(calls & -> & Hrel)|Hno] & _ & Hp) & Hyes & Hnot).
  - exists s', calls, p. split_and!; [exact Hr|exact Ht| |exact Hrel|by apply Hnot].
    apply Hp.
    + apply list_elem_of_omap. exists (ex_lock_of "sif"). split; [|apply ex_relayed]. by vm_compute; left.
    + eapply (Hyes (ex_message "sif") 7);
        [exact ex_layout|by vm_compute|done|reflexivity|lia|reflexivity|apply list_elem_of_here].
  - destruct (ex_unanswered tr Hno). by rewrite Hr.
Defined.

(** Two of the three events are sent again, or all three without the address; of the two
    messages, the one from the address of this chain is relayed again. *)
Example replayed :
  let events address := (EthereumSub_Replay (Ok "alice") no_broadcast EbEvents.ex_table (Ok (1, EbEvents.ex_address)) address
    ex_blocks (FilterLogs_of ex_chain true) 10 12 10 20 (start_ethereum None)).1 in
  let messages := (CosmosSub_Replay "meth" EbEvents.ex_address EbEvents.ex_table ex_eth_blocks ex_cosmos_blocks 0 5 0 10
    (EbSender.mkEth 2%nat [])).1 in
  length (es_sent (events "alice")) = 2%nat /\ length (es_sent (events "")) = 3%nat
  /\ omap (fun c => match c with EbSender.NewProphecyClaimCall call _ => Some (EbSender.Pc_CosmosSender call) | _ => None end)
       (eth_trace messages) = [ex_sender "ak"].
Proof. by vm_compute. Qed.
End Examples.
End EbReplay.
