(* ===== verification/EbMain.v ===== *)
(** * The relayer as a program

    cmd/ebrelayer/main.go, replay.go and relayer/network.go, and the supervision of the two
    subscriptions of relayer/ethereum.go and relayer/cosmos.go.  The commands check their
    arguments and start the loops and replays of [EbRelayer] and [EbReplay].  A running
    relayer is two goroutines that restart themselves, counted by a wait group, each with a
    channel that the runtime sends the signals of the process to; [step] interleaves them. *)

From Stdlib Require Import ZArith Lia Ascii String.
From stdpp Require Import base list gmap strings relations.
From S2P Require Import Prelude SdkMath Sdk TokenRegistry Json Oracle EthBridge GenesisFile Queriers GoUrl EbEvents EbSender EbRelayer EbReplay.

Module EbMain.
Import EbEvents EbRelayer EbReplay.
Import EthBridge (EthCommon, IsHexAddress, HexToAddress, MsgCreateEthBridgeClaim).
Import EbSender (EthClient, Eth, LoadPrivateKey).
Import GenesisFile (FileSystem, ReadFile).
Import Oracle (MapOrder).
Import Queriers (ErrUsage).

(** ** relayer/network.go *)

Definition IsWebsocketURL (rawurl : string) : bool :=
  match GoUrl.Parse rawurl with
  | None => false
  | Some scheme => String.eqb scheme "ws" || String.eqb scheme "wss"
  end.


Section Dial.
Context {Client : Type} (ethclient_Dial : string -> res Client).
Definition SetupRPCEthClient (ethURL : string) : res (option Client) :=
  if String.eqb (TrimSpace ethURL) "" then Ok None
  else let! client := ethclient_Dial ethURL in Ok (Some client).

End Dial.

(** ** The running relayer *)

Inductive Sub := Ethereum | Cosmos.
#[export] Instance Sub_eq_dec : EqDecision Sub.
Proof. solve_decision. Defined.

(** Where the goroutine of [Start] is; a number is the channel it gave to [signal.Notify]. *)
Inductive Phase :=
| Starting
| Registered (quit : nat)
| Following (quit : nat)
| Restarting (quit : option nat)
| Added (quit : option nat)
| Leaving (quit : option nat)
| Closed.

(** A channel is open or closed, and holds a signal or not; its buffer has room for one. *)
Record Channel := mkChannel { ch_open : bool; ch_signal : bool }.

(** The goroutines, the counter of the wait group, all channels that were ever given to
    [signal.Notify] (nothing calls [signal.Stop]), and the number of signals so far. *)
Record Relayer := mkRelayer {
  routines : list (Sub * Phase);
  waitForAll : Z;
  quits : list Channel;
  signals : nat;
}.

(** The process runs, its main function returned, or it ended: by [log.Fatal], by a signal that
    nothing handles, or by a panic. *)
Inductive Process :=
| Running (r : Relayer)
| Returned (r : Relayer)
| Exited
| Killed
| Crashed.

Definition start_relayer : Relayer := mkRelayer [(Ethereum, Starting); (Cosmos, Starting)] 2 [] 0.

Definition close_quit (q : option nat) (chs : list Channel) : list Channel :=
  match q with Some q => alter (fun c => mkChannel false (ch_signal c)) q chs | None => chs end.

(** A signal arrives: the runtime sends it to every channel, and sending to a closed one panics;
    when no channel is registered, the process ends. *)
Definition deliver_signal (r : Relayer) : Process :=
  match quits r with
  | [] => Killed
  | chs =>
      if forallb ch_open chs
      then Running (mkRelayer (routines r) (waitForAll r) ((fun c => mkChannel true true) <$> chs) (S (signals r)))
      else Crashed
  end.

(** One goroutine moves; the others, [l1] and [l2], stay where they are. *)
Inductive step : Process -> Process -> Prop :=
(** The client, its network, or the subscription of the Cosmos side fails. *)
| step_connect_fails l1 k l2 w chs n :
    step (Running (mkRelayer (l1 ++ (k, Starting) :: l2) w chs n)) (Running (mkRelayer (l1 ++ (k, Restarting None) :: l2) w chs n))
| step_notify l1 k l2 w chs n :
    step (Running (mkRelayer (l1 ++ (k, Starting) :: l2) w chs n))
      (Running (mkRelayer (l1 ++ (k, Registered (length chs)) :: l2) w (chs ++ [mkChannel true false]) n))
(** The registry contract does not answer. *)
| step_no_contract l1 q l2 w chs n : step (Running (mkRelayer (l1 ++ (Ethereum, Registered q) :: l2) w chs n)) Exited
(** [SubscribeNewHead] fails: the goroutine returns. *)
| step_subscribe_fails l1 q l2 w chs n :
    step (Running (mkRelayer (l1 ++ (Ethereum, Registered q) :: l2) w chs n))
      (Running (mkRelayer (l1 ++ (Ethereum, Leaving (Some q)) :: l2) w chs n))
| step_follow l1 k q l2 w chs n :
    step (Running (mkRelayer (l1 ++ (k, Registered q) :: l2) w chs n)) (Running (mkRelayer (l1 ++ (k, Following q) :: l2) w chs n))
(** The subscription to the heads breaks. *)
| step_subscription_error l1 q l2 w chs n :
    step (Running (mkRelayer (l1 ++ (Ethereum, Following q) :: l2) w chs n))
      (Running (mkRelayer (l1 ++ (Ethereum, Restarting (Some q)) :: l2) w chs n))
(** The database cannot be written. *)
| step_no_database l1 k q l2 w chs n : step (Running (mkRelayer (l1 ++ (k, Following q) :: l2) w chs n)) Exited
(** A message of the subscription that is no block, and what the handlers panic at. *)
| step_handler_panics l1 k q l2 w chs n : step (Running (mkRelayer (l1 ++ (k, Following q) :: l2) w chs n)) Crashed
| step_quit l1 k q l2 w chs n o :
    chs !! q = Some (mkChannel o true) ->
    step (Running (mkRelayer (l1 ++ (k, Following q) :: l2) w chs n))
      (Running (mkRelayer (l1 ++ (k, Leaving (Some q)) :: l2) w (<[q := mkChannel o false]> chs) n))
(** [completionEvent.Add(1)], [go sub.Start(...)], and the return. *)
| step_add l1 k q l2 w chs n :
    step (Running (mkRelayer (l1 ++ (k, Restarting q) :: l2) w chs n)) (Running (mkRelayer (l1 ++ (k, Added q) :: l2) (w + 1) chs n))
| step_go l1 k q l2 w chs n :
    step (Running (mkRelayer (l1 ++ (k, Added q) :: l2) w chs n))
      (Running (mkRelayer ((l1 ++ (k, Leaving q) :: l2) ++ [(k, Starting)]) w chs n))
(** The deferred [close(quit)] and [completionEvent.Done()]. *)
| step_close l1 k q l2 w chs n :
    step (Running (mkRelayer (l1 ++ (k, Leaving q) :: l2) w chs n)) (Running (mkRelayer (l1 ++ (k, Closed) :: l2) w (close_quit q chs) n))
| step_done l1 k l2 w chs n : 0 <= w - 1 ->
    step (Running (mkRelayer (l1 ++ (k, Closed) :: l2) w chs n)) (Running (mkRelayer (l1 ++ l2) (w - 1) chs n))
| step_done_negative l1 k l2 w chs n : w - 1 < 0 ->
    step (Running (mkRelayer (l1 ++ (k, Closed) :: l2) w chs n)) Crashed
(** [waitForAll.Wait()] returns. *)
| step_main r : waitForAll r = 0 -> step (Running r) (Returned r)
| step_signal r : step (Running r) (deliver_signal r).

(** ** The commands of main.go and replay.go *)

(** The subscriptions; a validator's address or a database may be nil. *)
Record EthereumSub (Ctx Db : Type) := mkEthereumSub {
  Es_EthProvider : string;
  Es_TmProvider : string;
  Es_RegistryContractAddress : string;
  Es_ValidatorName : string;
  Es_ValidatorAddress : string;
  Es_CliCtx : Ctx;
  Es_DB : option Db;
}.
Arguments mkEthereumSub {_ _}. Arguments Es_EthProvider {_ _}. Arguments Es_TmProvider {_ _}. Arguments Es_RegistryContractAddress {_ _}.
Arguments Es_ValidatorName {_ _}. Arguments Es_ValidatorAddress {_ _}. Arguments Es_CliCtx {_ _}. Arguments Es_DB {_ _}.

Record CosmosSub (Key Db : Type) := mkCosmosSub {
  Cs_TmProvider : string;
  Cs_EthProvider : string;
  Cs_RegistryContractAddress : string;
  Cs_PrivateKey : Key;
  Cs_DB : option Db;
}.
Arguments mkCosmosSub {_ _}. Arguments Cs_TmProvider {_ _}. Arguments Cs_EthProvider {_ _}. Arguments Cs_RegistryContractAddress {_ _}.
Arguments Cs_PrivateKey {_ _}. Arguments Cs_DB {_ _}.

(** The flags of a command line, as the getters return them, and the client's context. *)
Record Flags (Ctx : Type) := mkFlags {
  GetClientTxContext : res Ctx;
  FlagRelayerDbPath : res string;
  FlagNode : res string;
  FlagSymbolTranslatorFile : res string;
}.
Arguments mkFlags {_}. Arguments GetClientTxContext {_}. Arguments FlagRelayerDbPath {_}. Arguments FlagNode {_}.
Arguments FlagSymbolTranslatorFile {_}.

Definition ErrArgument : GoError := PlainErr "invalid argument".

Section Commands.
Context {T N Key Ctx Db : Type} `{SdkMath, SdkAddress, EthCommon, FileSystem, MapOrder, !BiMap T, BridgeAbi, !EthClient N Key}.
(** The level db, and what the two nodes answer at their endpoints. *)
Context (OpenFile : string -> res Db) (GetValAddressFromKeyring : string -> res string)
  (BroadcastTx : Ctx -> list MsgCreateEthBridgeClaim -> res unit) (connected : string -> string -> res (Z * string))
  (BlockResults : string -> Z -> option (list (list AbciEvent))) (FilterLogs : string -> Z -> Z -> res (list EthLog))
  (BlockByNumber : string -> Z -> option (list EthTx)) (heights : string -> string -> Z * Z) (methodID : string).

Definition NewSymbolTranslatorFromJSONFile (filename : string) : res T :=
  let! contents := ReadFile filename in NewSymbolTranslatorFromJSONBytes contents.
Definition buildSymbolTranslator (flags : Flags Ctx) : res T :=
  match FlagSymbolTranslatorFile flags with
  | Ok filename => if String.eqb filename "" then Ok NewSymbolTranslator else NewSymbolTranslatorFromJSONFile filename
  | _ => Ok NewSymbolTranslator
  end.

(** [strings.Trim(s, s')] removes nothing when [s'] is empty: only the empty argument is refused. *)
Definition not_empty (arg : string) : res string := if String.eqb arg "" then Err ErrArgument else Ok arg.
Definition web3 (arg : string) : res string := if IsWebsocketURL arg then Ok arg else Err ErrArgument.
Definition hex_address (arg : string) : res string := if IsHexAddress arg then Ok (HexToAddress arg) else Err ErrArgument.
Definition block_number (arg : string) : res Z := match Atoi arg with Ok n => Ok n | _ => Err ErrArgument end.

(** The mnemonic is not looked at.  [log.Fatal] ends the process. *)
Definition RunInitRelayerCmd (flags : Flags Ctx) (args : list string) : res (EthereumSub Ctx Db * CosmosSub Key Db * T * Process) :=
  match args with
  | [tendermintNode; web3Provider; contractAddress; validatorMoniker; _] =>
      let! cliContext := GetClientTxContext flags in
      let! levelDbFile := FlagRelayerDbPath flags in
      let! db := panicOnErr (OpenFile levelDbFile) in
      let! nodeURL := FlagNode flags in
      let! _ := fail_if (negb (String.eqb nodeURL "") && bool_decide (GoUrl.Parse nodeURL = None)) ErrArgument in
      let! tendermintNode := not_empty tendermintNode in
      let! web3Provider := web3 web3Provider in
      let! contractAddress := hex_address contractAddress in
      let! validatorMoniker := not_empty validatorMoniker in
      let! symbolTranslator := buildSymbolTranslator flags in
      let! key := panicOnErr LoadPrivateKey in
      Ok (mkEthereumSub web3Provider nodeURL contractAddress validatorMoniker "" cliContext (Some db),
          mkCosmosSub tendermintNode web3Provider contractAddress key (Some db), symbolTranslator, Running start_relayer)
  | _ => Err ErrUsage
  end.

(** The provider is not checked, and the validator's address stays nil. *)
Definition RunReplayEthereumCmd (flags : Flags Ctx) (args : list string) : M EthState unit :=
  match args with
  | [tendermintNode; web3Provider; contractAddress; validatorMoniker; _; fromBlock; toBlock; cosmosFromBlock; cosmosToBlock] =>
      do! cliContext <- mlift (GetClientTxContext flags);
      do! contractAddress <- mlift (hex_address contractAddress);
      do! validatorMoniker <- mlift (not_empty validatorMoniker);
      do! fromBlock <- mlift (block_number fromBlock);
      do! toBlock <- mlift (block_number toBlock);
      do! cosmosFromBlock <- mlift (block_number cosmosFromBlock);
      do! cosmosToBlock <- mlift (block_number cosmosToBlock);
      do! symbolTranslator <- mlift (buildSymbolTranslator flags);
      EthereumSub_Replay (GetValAddressFromKeyring validatorMoniker) (BroadcastTx cliContext) symbolTranslator
        (connected web3Provider contractAddress) "" (BlockResults tendermintNode) (FilterLogs web3Provider)
        fromBlock toBlock cosmosFromBlock cosmosToBlock
  | _ => mthrow ErrUsage
  end.

Definition RunReplayCosmosCmd (flags : Flags Ctx) (args : list string) : M (Eth N) unit :=
  match args with
  | [tendermintNode; web3Provider; contractAddress; fromBlock; toBlock; ethFromBlock; ethToBlock] =>
      do! tendermintNode <- mlift (not_empty tendermintNode);
      do! web3Provider <- mlift (web3 web3Provider);
      do! contractAddress <- mlift (hex_address contractAddress);
      do! fromBlock <- mlift (block_number fromBlock);
      do! toBlock <- mlift (block_number toBlock);
      do! ethFromBlock <- mlift (block_number ethFromBlock);
      do! ethToBlock <- mlift (block_number ethToBlock);
      do! symbolTranslator <- mlift (buildSymbolTranslator flags);
      do! _ <- mlift (panicOnErr LoadPrivateKey);
      CosmosSub_Replay methodID contractAddress symbolTranslator (BlockByNumber web3Provider) (BlockResults tendermintNode)
        fromBlock toBlock ethFromBlock ethToBlock
  | _ => mthrow ErrUsage
  end.

Definition RunListMissedCosmosEventCmd (flags : Flags Ctx) (args : list string) : res (list CosmosMsg) :=
  match args with
  | [tendermintNode; web3Provider; contractAddress; relayerEthereumAddress; days] =>
      let! tendermintNode := not_empty tendermintNode in
      let! web3Provider := web3 web3Provider in
      let! _ := hex_address contractAddress in
      let! relayerEthereumAddress := hex_address relayerEthereumAddress in
      let! days := block_number days in
      let! symbolTranslator := buildSymbolTranslator flags in
      let '(currentEthHeight, currentCosmosHeight) := heights web3Provider tendermintNode in
      ListMissedCosmosEvent methodID symbolTranslator (BlockByNumber web3Provider) (BlockResults tendermintNode)
        relayerEthereumAddress days currentEthHeight currentCosmosHeight
  | _ => Err ErrUsage
  end.
End Commands.

(** ** The supervision *)























(** *** Leaving after a signal *)

(** The steps of a routine that has its signal, and of [main]: the branch of [quit], the two
    deferred calls, and [Wait]. *)
Inductive leave : Process -> Process -> Prop :=
| leave_quit l1 k q l2 w chs n o :
    chs !! q = Some (mkChannel o true) ->
    leave (Running (mkRelayer (l1 ++ (k, Following q) :: l2) w chs n))
      (Running (mkRelayer (l1 ++ (k, Leaving (Some q)) :: l2) w (<[q := mkChannel o false]> chs) n))
| leave_close l1 k q l2 w chs n :
    leave (Running (mkRelayer (l1 ++ (k, Leaving q) :: l2) w chs n)) (Running (mkRelayer (l1 ++ (k, Closed) :: l2) w (close_quit q chs) n))
| leave_done l1 k l2 w chs n : 0 <= w - 1 ->
    leave (Running (mkRelayer (l1 ++ (k, Closed) :: l2) w chs n)) (Running (mkRelayer (l1 ++ l2) (w - 1) chs n))
| leave_main r : waitForAll r = 0 -> leave (Running r) (Returned r).

Lemma leave_step p p' : leave p p' -> step p p'.
Proof. intros []; by constructor. Qed.


















(** ** Runs *)

Section Examples.






#[local] Existing Instances EthBridge.RefEth RefTable Oracle.RefOrder EbRelayer.RefClient.
#[local] Instance ex_files : FileSystem := {|
  GenesisFile.Abs := fun s => Ok s;
  GenesisFile.ReadFile := fun s => if String.eqb s "symbols.json" then Ok "{}" else Err (PlainErr "no such file") |}.
Definition ex_flags : Flags unit := mkFlags (Ok tt) (Ok "relayerdb") (Ok "tcp://localhost:26657") (Ok "symbols.json").
Definition ex_args (provider : string) : list string :=
  ["tcp://localhost:26657"; provider; EthBridge.ex_address; "validator"; "mnemonic"].
Definition ex_open (path : string) : res string := Ok path.


Lemma ex_init_http : RunInitRelayerCmd ex_open ex_flags (ex_args "http://localhost:7545/") = Err ErrArgument.
Proof. vm_compute. done. Qed.

End Examples.
End EbMain.
