(* ===== verification/GoNet.v ===== *)
(** * The addresses of net and the durations of time

    [net.ParseIP], [IP.To4] and the text of an address of four bytes, as the network
    generator uses them to number its nodes, and [Duration.String].  The functions are those
    of the Go standard library, in their order; a number holds at most 0xFFFFFF. *)

From Stdlib Require Import ZArith Lia Ascii String.
From stdpp Require Import base list strings.
From S2P Require Import Prelude Json.

Module GoNet.

(** ** Numbers inside an address *)

Definition big : Z := 16777215.

(** [dtoi] and [xtoi]: the number in front of a text, how many digits it has, and the rest. *)
Fixpoint scan (val : ascii -> option Z) (base n : Z) (count : nat) (s : string) : option (Z * nat * string) :=
  match s with
  | String c s' =>
      match val c with
      | Some d =>
          let n := n * base + d in
          if big <=? n then None else scan val base n (S count) s'
      | None => if (count =? 0)%nat then None else Some (n, count, s)
      end
  | EmptyString => if (count =? 0)%nat then None else Some (n, count, s)
  end.
Definition dtoi (s : string) : option (Z * nat * string) := scan digit_val 10 0 0 s.
Definition xtoi (s : string) : option (Z * nat * string) := scan (fun c => Z.of_nat <$> hex_val c) 16 0 0 s.

(** ** [parseIPv4] *)

Definition leading_zero (count : nat) (s : string) : bool := (1 <? count)%nat && String.prefix "0" s.
Definition octet (s : string) : option (Z * string) :=
  match dtoi s with
  | Some (n, count, s') => if (255 <? n) || leading_zero count s then None else Some (n, s')
  | None => None
  end.
Definition dot_octet (s : string) : option (Z * string) := match s with String "." s' => octet s' | _ => None end.
Definition parseIPv4 (s : string) : option (list Z) :=
  match octet s with
  | Some (a, s) =>
      match dot_octet s with
      | Some (b, s) =>
          match dot_octet s with
          | Some (c, s) => match dot_octet s with Some (d, EmptyString) => Some [a; b; c; d] | _ => None end
          | None => None
          end
      | None => None
      end
  | None => None
  end.

(** ** [parseIPv6] *)

(** The loop over the groups; [ip] are the bytes so far, and [ellipsis] how many of them stand
    before it.  The result also says what is left of the text.  There are at most eight
    groups. *)
Fixpoint groups (fuel : nat) (ip : list Z) (ellipsis : option nat) (s : string) : option (list Z * option nat * string) :=
  match fuel with
  | O => Some (ip, ellipsis, s)
  | S fuel =>
      match xtoi s with
      | None => None
      | Some (n, _, rest) =>
          if 65535 <? n then None
          else if String.prefix "." rest then
            if match ellipsis with None => negb (length ip =? 12)%nat | Some _ => false end then None
            else if (16 <? length ip + 4)%nat then None
            else match parseIPv4 s with Some ip4 => Some (ip ++ ip4, ellipsis, "") | None => None end
          else
            let ip := ip ++ [n / 256; n mod 256] in
            match rest with
            | EmptyString => Some (ip, ellipsis, "")
            | String ":" EmptyString => None
            | String ":" (String ":" rest) =>
                match ellipsis with
                | Some _ => None
                | None => if String.eqb rest "" then Some (ip, Some (length ip), "") else groups fuel ip (Some (length ip)) rest
                end
            | String ":" rest => groups fuel ip ellipsis rest
            | _ => None
            end
      end
  end.

Definition parseIPv6 (s : string) : option (list Z) :=
  let start := match s with String ":" (String ":" s') => (Some O, s') | _ => (None, s) end in
  if match start.1 with Some _ => String.eqb start.2 "" | None => false end then Some (replicate 16 0)
  else
    match groups 8 [] start.1 start.2 with
    | Some (ip, ellipsis, EmptyString) =>
        if (length ip <? 16)%nat then
          match ellipsis with
          | None => None
          | Some e => Some (take e ip ++ replicate (16 - length ip) 0 ++ drop e ip)
          end
        else match ellipsis with Some _ => None | None => Some ip end
    | _ => None
    end.

(** ** [ParseIP], [To4] and the text *)

Definition v4InV6Prefix : list Z := [0; 0; 0; 0; 0; 0; 0; 0; 0; 0; 255; 255].

(** The first dot or colon decides; an address has sixteen bytes. *)
Fixpoint ip_version (s : string) : option bool :=
  match s with
  | EmptyString => None
  | String "." _ => Some true
  | String ":" _ => Some false
  | String _ s' => ip_version s'
  end.
Definition ParseIP (s : string) : option (list Z) :=
  match ip_version s with
  | None => None
  | Some true => match parseIPv4 s with Some ip => Some (v4InV6Prefix ++ ip) | None => None end
  | Some false => parseIPv6 s
  end.

Definition To4 (ip : list Z) : option (list Z) :=
  if (length ip =? 4)%nat then Some ip
  else if (length ip =? 16)%nat && bool_decide (take 12 ip = v4InV6Prefix) then Some (drop 12 ip)
  else None.

Definition dotted (a b c d : Z) : string :=
  big_String a +:+ "." +:+ big_String b +:+ "." +:+ big_String c +:+ "." +:+ big_String d.

(** ** [Duration.String] *)

(** The last [prec] digits of [v] behind a point, without the zeros at their end. *)
Fixpoint fmtFrac (prec : nat) (v : Z) (acc : string) : string * Z :=
  match prec with
  | O => ((if String.eqb acc "" then "" else "." +:+ acc), v)
  | S prec =>
      let d := v mod 10 in
      fmtFrac prec (v / 10) (if (d =? 0) && String.eqb acc "" then "" else String (digit d) acc)
  end.

Definition microsecond : string := String "194" (String "181" "s").
Definition Duration_String (d : Z) : string :=
  let u := Z.abs d in
  let text :=
    if u =? 0 then "0s"
    else if u <? 10 ^ 3 then big_String u +:+ "ns"
    else if u <? 10 ^ 6 then let '(f, n) := fmtFrac 3 u "" in big_String n +:+ f +:+ microsecond
    else if u <? 10 ^ 9 then let '(f, n) := fmtFrac 6 u "" in big_String n +:+ f +:+ "ms"
    else
      let '(f, n) := fmtFrac 9 u "" in
      (if 3600 <=? n then big_String (n / 3600) +:+ "h" else "")
        +:+ (if 60 <=? n then big_String (n / 60 mod 60) +:+ "m" else "") +:+ big_String (n mod 60) +:+ f +:+ "s" in
  if d <? 0 then "-" +:+ text else text.

(** ** Lemmas *)

(** The text does not start with a digit. *)
Definition ends_number (rest : string) : bool := match rest with String c _ => negb (is_digit c) | EmptyString => true end.

Lemma digit_val_range c d : digit_val c = Some d -> 0 <= d <= 9.
Proof. unfold digit_val. case_match eqn:Ec; [|done]. apply andb_true_iff in Ec as [? ?]. intros [= <-]. lia. Qed.

Lemma parse_digits_le s n v : parse_digits s n = Some v -> 0 <= n -> n <= v.
Proof.
  revert n. induction s as [|c s IH]; intros n Hp Hn; simpl in Hp; [injection Hp; lia|].
  destruct (digit_val c) as [d|] eqn:Ed; [|done]. pose proof (digit_val_range c d Ed). apply IH in Hp; lia.
Qed.

Lemma scan_digits s n count v rest :
  parse_digits s n = Some v -> 0 <= n -> v < big -> ends_number rest = true -> (count + String.length s <> 0)%nat ->
  scan digit_val 10 n count (s +:+ rest) = Some (v, (count + String.length s)%nat, rest).
Proof.
  revert n count. induction s as [|c s IH]; intros n count Hp Hn Hv Hr Hc.
  - simpl in Hp. injection Hp as <-. rewrite Nat.add_0_r in *. change ("" +:+ rest) with rest.
    destruct rest as [|c rest]; simpl.
    + by rewrite (proj2 (Nat.eqb_neq count 0) Hc).
    + simpl in Hr. unfold is_digit in Hr. destruct (digit_val c); [done|]. by rewrite (proj2 (Nat.eqb_neq count 0) Hc).
  - rewrite app_cons. simpl in Hp |- *. destruct (digit_val c) as [d|] eqn:Ed; [|done]. pose proof (digit_val_range c d Ed).
    pose proof (parse_digits_le _ _ _ Hp ltac:(lia)). rewrite (proj2 (Z.leb_gt big (n * 10 + d))) by lia.
    rewrite (Z.mul_comm n 10), IH by (done || lia). do 2 f_equal. f_equal. lia.
Qed.

(** The text of an address is read back. *)
Lemma octet_String n rest : 0 <= n <= 255 -> ends_number rest = true -> octet (big_String n +:+ rest) = Some (n, rest).
Proof.
  intros Hn Hr. assert (big_String n = nonneg_String n) as -> by (unfold big_String; by rewrite (proj2 (Z.ltb_ge n 0)) by lia).
  pose proof (parse_nonneg_String n ltac:(lia)) as Hp.
  destruct (nonneg_String n) as [|c t] eqn:Et; [done|]. unfold parse_nonneg in Hp.
  unfold octet, dtoi. rewrite (scan_digits (String c t) 0 0 n) by (done || (unfold big; lia) || (simpl; lia)).
  rewrite (proj2 (Z.ltb_ge 255 n)) by lia. unfold leading_zero.
  destruct (nonneg_String_shape n ltac:(lia)) as [E|(d & ds & E & Hd & _)]; rewrite Et in E; injection E as -> ->; [done|].
  rewrite app_cons. destruct (digit_cases d Hd) as [->|[->|[->|[->|[->|[->|[->|[->| ->]]]]]]]]; by rewrite andb_false_r.
Qed.

Lemma octet_byte_end n : 0 <= n <= 255 -> octet (big_String n) = Some (n, "").
Proof. intros Hn. rewrite <- (append_nil_r (big_String n)). by apply octet_String. Qed.

Definition byte (n : Z) : Prop := 0 <= n <= 255.

Lemma ip_version_dotted n rest : byte n -> ip_version (big_String n +:+ String "." rest) = Some true.
Proof.
  intros [Hn _]. pose proof (all_digits_String n Hn) as Hd. induction (big_String n) as [|c t IH]; [done|].
  simpl in Hd. apply andb_true_iff in Hd as [Hc Hd]. rewrite app_cons.
  destruct c as [[] [] [] [] [] [] [] []]; try done; by apply IH.
Qed.

Lemma app_nil_s (s : string) : "" +:+ s = s.
Proof. done. Qed.

Lemma ParseIP_dotted a b c d : byte a -> byte b -> byte c -> byte d -> ParseIP (dotted a b c d) = Some (v4InV6Prefix ++ [a; b; c; d]).
Proof.
  unfold byte. intros Ha Hb Hc Hd. unfold ParseIP, dotted. rewrite !(app_cons "."), !app_nil_s.
  rewrite ip_version_dotted by done. unfold parseIPv4, dot_octet. rewrite !octet_String by done. by rewrite octet_byte_end.
Qed.

Lemma dotted_inj a b c d a' b' c' d' : byte a -> byte b -> byte c -> byte d -> byte a' -> byte b' -> byte c' -> byte d' ->
  dotted a b c d = dotted a' b' c' d' -> [a; b; c; d] = [a'; b'; c'; d'].
Proof.
  intros Ha Hb Hc Hd Ha' Hb' Hc' Hd' E. pose proof (ParseIP_dotted a b c d Ha Hb Hc Hd) as Hp.
  rewrite E, ParseIP_dotted in Hp by done. by injection Hp as -> -> -> ->.
Qed.

Example ParseIP_examples :
  ParseIP "192.168.1.2" = Some (v4InV6Prefix ++ [192; 168; 1; 2]) /\ ParseIP "192.168.01.2" = None /\ ParseIP "192.168.1" = None
  /\ ParseIP "::ffff:10.0.0.255" = Some (v4InV6Prefix ++ [10; 0; 0; 255])
  /\ ParseIP "2001:db8::1" = Some [32; 1; 13; 184; 0; 0; 0; 0; 0; 0; 0; 0; 0; 0; 0; 1] /\ ParseIP "::" = Some (replicate 16 0)
  /\ ParseIP "1:2:3:4:5:6:7:8" = Some [0; 1; 0; 2; 0; 3; 0; 4; 0; 5; 0; 6; 0; 7; 0; 8] /\ ParseIP "1:2:3:4:5:6:7" = None
  /\ ParseIP "1::2::3" = None /\ ParseIP "localhost" = None.
Proof. vm_compute. done. Qed.

Example Duration_examples :
  Duration_String 900000000000 = "15m0s" /\ Duration_String 0 = "0s" /\ Duration_String 1500000 = "1.5ms"
  /\ Duration_String 5445123000000 = "1h30m45.123s" /\ Duration_String (-1) = "-1ns" /\ Duration_String 60000000000 = "1m0s".
Proof. vm_compute. done. Qed.
End GoNet.
