(* ===== verification/AkhgenTypes.v ===== *)
(** * The files the network generator reads and writes

    The structs of tools/akhgen/common/types, with the names their tags give the fields, and
    the reading of a JSON text into a struct by [json.Unmarshal].  A value of a struct is the
    tree of its fields in the order of their declaration; reading drops every field of the
    text that the struct does not declare. *)

From Stdlib Require Import ZArith Lia Ascii String.
From stdpp Require Import base list strings.
From S2P Require Import Prelude Json.

Module AkhgenTypes.

(** ** Types and their values *)

(** [TAny] is [interface{}], [TNumber] is [json.Number], a number as it was written. *)
#[warnings="-register-all"]
Inductive GoType :=
| TString
| TBool
| TInt
| TNumber
| TTime
| TAny
| TSlice (t : GoType)
| TStruct (fields : list (string * GoType)).

(** The text of a time in UTC, if it is one, and the zero time. *)
Class TimeText := { time_text : string -> option string }.

Definition zero_time : string := "0001-01-01T00:00:00Z".

(** A nil slice and a nil interface are [JNull]; a zero number prints as zero. *)
Fixpoint zero (t : GoType) : Json :=
  match t with
  | TString => JString ""
  | TBool => JBool false
  | TInt | TNumber => JNumber "0"
  | TTime => JString zero_time
  | TAny | TSlice _ => JNull
  | TStruct fs => JObject (map (fun f => (f.1, zero f.2)) fs)
  end.

Fixpoint has_type `{TimeText} (t : GoType) (v : Json) : bool :=
  match t, v with
  | TTime, JString s => bool_decide (time_text s = Some s)
  | TString, JString _ | TBool, JBool _ | TNumber, JNumber _ | TAny, _ | TSlice _, JNull => true
  | TInt, JNumber s => is_ok (Atoi s)
  | TSlice t', JArray l => forallb (has_type t') l
  | TStruct fs, JObject vs =>
      (fix go (fs : list (string * GoType)) (vs : list (string * Json)) : bool :=
         match fs, vs with
         | [], [] => true
         | (k, t') :: fs', (k', v') :: vs' => String.eqb k k' && has_type t' v' && go fs' vs'
         | _, _ => false
         end) fs vs
  | _, _ => false
  end.

(** ** [json.Unmarshal] *)

Definition number_ok (s : string) : bool := match parse_number s with Some (_, EmptyString) => true | _ => false end.

(** The field a key of the text belongs to: the one of this name, or else the first one whose
    name differs only in case. *)
Definition field_of (names : list string) (key : string) : option string :=
  match find (String.eqb key) names with
  | Some k => Some k
  | None => find (EqualFold key) names
  end.
Definition given (names : list string) (k : string) (kvs : list (string * Json)) : list Json :=
  snd <$> List.filter (fun kv => bool_decide (field_of names kv.1 = Some k)) kvs.

(** The value [v] is read over [cur]; [null] leaves what is there, but for slices and
    interfaces, which become nil. *)
Fixpoint unmarshal `{TimeText} (t : GoType) (cur v : Json) : res Json :=
  match t, v with
  | TAny, _ => Ok v
  | TSlice _, JNull => Ok JNull
  | TSlice t', JArray l => let! l' := rmap (unmarshal t' (zero t')) l in Ok (JArray l')
  | _, JNull => Ok cur
  | TString, JString _ | TBool, JBool _ | TNumber, JNumber _ => Ok v
  | TNumber, JString s => if number_ok s then Ok (JNumber s) else Err json_error
  | TInt, JNumber s => match Atoi s with Ok _ => Ok v | _ => Err json_error end
  | TTime, JString s => match time_text s with Some s' => Ok (JString s') | None => Err json_error end
  | TStruct fs, JObject kvs =>
      let names := map fst fs in
      match cur with
      | JObject curs =>
          let! vs :=
            (fix go (fs : list (string * GoType)) (curs : list (string * Json)) : res (list (string * Json)) :=
               match fs, curs with
               | (k, t') :: fs', (_, c) :: curs' =>
                   let! c := (fix over (c : Json) (l : list Json) : res Json :=
                                match l with [] => Ok c | x :: l' => let! c' := unmarshal t' c x in over c' l' end) c (given names k kvs) in
                   let! rest := go fs' curs' in
                   Ok ((k, c) :: rest)
               | _, _ => Ok []
               end) fs curs in
          Ok (JObject vs)
      | _ => Err json_error
      end
  | _, _ => Err json_error
  end.

Definition Unmarshal `{TimeText} (t : GoType) (body : string) : res Json :=
  match json_parse body with Some v => unmarshal t (zero t) v | None => Err json_error end.

(** ** Fields of a value *)

Definition field (k : string) (v : Json) : option Json :=
  match v with JObject vs => snd <$> find (fun kv => String.eqb kv.1 k) vs | _ => None end.
Fixpoint get (path : list string) (v : Json) : option Json :=
  match path with [] => Some v | k :: path' => match field k v with Some v' => get path' v' | None => None end end.
(** [v.a.b.c = x]. *)
Fixpoint put (path : list string) (x v : Json) : Json :=
  match path with
  | [] => x
  | k :: path' =>
      match v with
      | JObject vs => JObject (map (fun kv => if String.eqb kv.1 k then (kv.1, put path' x kv.2) else kv) vs)
      | _ => v
      end
  end.
Definition field_type (k : string) (t : GoType) : option GoType :=
  match t with TStruct fs => snd <$> find (fun f => String.eqb f.1 k) fs | _ => None end.
Fixpoint type_at (path : list string) (t : GoType) : option GoType :=
  match path with [] => Some t | k :: path' => match field_type k t with Some t' => type_at path' t' | None => None end end.

(** No struct has two fields of one name. *)
Fixpoint fields_ok (t : GoType) : bool :=
  match t with
  | TStruct fs => bool_decide (NoDup (map fst fs)) && forallb (fun f => fields_ok f.2) fs
  | TSlice t' => fields_ok t'
  | _ => true
  end.

(** ** common/types/genesis.go *)

Definition Block : GoType := TStruct [("max_bytes", TString); ("max_gas", TString); ("time_iota_ms", TString)].
Definition Evidence : GoType := TStruct [("max_age_num_blocks", TString); ("max_age_duration", TString); ("max_bytes", TString)].
Definition Validator : GoType := TStruct [("pub_key_types", TSlice TString)].
Definition Version : GoType := TStruct [].
Definition ConsensusParams : GoType := TStruct [("version", Version); ("block", Block); ("evidence", Evidence); ("validator", Validator)].
Definition Params : GoType := TStruct [
  ("max_memo_characters", TString); ("tx_sig_limit", TString); ("tx_size_cost_per_byte", TString);
  ("sig_verify_cost_ed25519", TString); ("sig_verify_cost_secp256k1", TString)].
Definition Accounts : GoType := TSlice (TStruct [("@type", TString); ("address", TString); ("pub_key", TAny); ("account_number", TString); ("sequence", TString)]).
Definition Auth : GoType := TStruct [("params", Params); ("accounts", Accounts)].
Definition AuthZ : GoType := TStruct [("authorization", TSlice TString)].
Definition ConstantFee : GoType := TStruct [("amount", TString); ("denom", TString)].
Definition Crisis : GoType := TStruct [("constant_fee", ConstantFee)].
Definition BankParams : GoType := TStruct [("send_enabled", TSlice TAny); ("default_send_enabled", TBool)].
Definition Coins : GoType := TSlice (TStruct [("denom", TString); ("amount", TString)]).
Definition Balances : GoType := TSlice (TStruct [("address", TString); ("coins", Coins)]).
Definition Supply : GoType := TSlice (TStruct [("denom", TString); ("amount", TString)]).
Definition Bank : GoType := TStruct [("params", BankParams); ("balances", Balances); ("supply", Supply); ("denom_metadata", TSlice TAny)].
Definition Capability : GoType := TStruct [("index", TString); ("owners", TSlice TAny)].
Definition CLPParams : GoType := TStruct [("min_create_pool_threshold", TNumber)].
Definition CLP : GoType := TStruct [
  ("params", CLPParams); ("address_whitelist", TSlice TString); ("pool_list", TSlice TAny);
  ("liquidity_providers", TSlice TAny)].
Definition Dispensation : GoType := TStruct [("distribution_records", TAny); ("distributions", TAny)].
Definition DistributionParams : GoType := TStruct [
  ("community_tax", TString); ("base_proposer_reward", TString); ("bonus_proposer_reward", TString);
  ("withdraw_addr_enabled", TBool)].
Definition FeePool : GoType := TStruct [("community_pool", TSlice TAny)].
Definition Distribution : GoType := TStruct [
  ("params", DistributionParams); ("fee_pool", FeePool); ("delegator_withdraw_infos", TSlice TAny);
  ("previous_proposer", TString); ("outstanding_rewards", TSlice TAny); ("validator_accumulated_commissions", TSlice TAny);
  ("validator_historical_rewards", TSlice TAny); ("validator_current_rewards", TSlice TAny);
  ("delegator_starting_infos", TSlice TAny); ("validator_slash_events", TSlice TAny)].
Definition EvidenceState : GoType := TStruct [("evidence", TSlice TAny)].
Definition Description : GoType := TStruct [("moniker", TString); ("identity", TString); ("website", TString); ("security_contact", TString); ("details", TString)].
Definition Commission : GoType := TStruct [("rate", TString); ("max_rate", TString); ("max_change_rate", TString)].
Definition Pubkey : GoType := TStruct [("@type", TString); ("key", TString)].
Definition Value : GoType := TStruct [("denom", TString); ("amount", TString)].
Definition GenTxsBodyMessages : GoType := TSlice (TStruct [
  ("@type", TString); ("description", Description); ("commission", Commission); ("min_self_delegation", TString);
  ("delegator_address", TString); ("validator_address", TString); ("pubkey", Pubkey); ("value", Value)]).
Definition GenTxsBody : GoType := TStruct [
  ("messages", GenTxsBodyMessages); ("memo", TString); ("timeout_height", TString); ("extension_options", TSlice TAny);
  ("non_critical_extension_options", TSlice TAny)].
Definition PublicKey : GoType := TStruct [("@type", TString); ("key", TString)].
Definition Single : GoType := TStruct [("mode", TString)].
Definition ModeInfo : GoType := TStruct [("single", Single)].
Definition SignerInfos : GoType := TSlice (TStruct [("public_key", PublicKey); ("mode_info", ModeInfo); ("sequence", TString)]).
Definition Fee : GoType := TStruct [("amount", TSlice TAny); ("gas_limit", TString); ("payer", TString); ("granter", TString)].
Definition GenTxsAuthInfo : GoType := TStruct [("signer_infos", SignerInfos); ("fee", Fee)].
Definition GenTxs : GoType := TSlice (TStruct [("body", GenTxsBody); ("auth_info", GenTxsAuthInfo); ("signatures", TSlice TString)]).
Definition Genutil : GoType := TStruct [("gen_txs", GenTxs)].
Definition GovMinDeposit : GoType := TSlice (TStruct [("denom", TString); ("amount", TString)]).
Definition GovDepositParams : GoType := TStruct [("min_deposit", GovMinDeposit); ("max_deposit_period", TString)].
Definition GovVotingParams : GoType := TStruct [("voting_period", TString)].
Definition GovTallyParams : GoType := TStruct [("quorum", TString); ("threshold", TString); ("veto_threshold", TString)].
Definition Gov : GoType := TStruct [
  ("starting_proposal_id", TString); ("deposits", TSlice TAny); ("votes", TSlice TAny); ("proposals", TSlice TAny);
  ("deposit_params", GovDepositParams); ("voting_params", GovVotingParams); ("tally_params", GovTallyParams)].
Definition Minter : GoType := TStruct [("inflation", TString); ("annual_provisions", TString)].
Definition MintParams : GoType := TStruct [
  ("mint_denom", TString); ("inflation_rate_change", TString); ("inflation_max", TString); ("inflation_min", TString);
  ("goal_bonded", TString); ("blocks_per_year", TString)].
Definition Mint : GoType := TStruct [("minter", Minter); ("params", MintParams)].
Definition ClientGenesisParams : GoType := TStruct [("allowed_clients", TSlice TString)].
Definition ConnectionGenesisParams : GoType := TStruct [("max_expected_time_per_block", TString)].
Definition ClientGenesis : GoType := TStruct [
  ("clients", TSlice TAny); ("clients_consensus", TSlice TAny); ("clients_metadata", TSlice TAny);
  ("params", ClientGenesisParams); ("create_localhost", TBool); ("next_client_sequence", TString)].
Definition ConnectionGenesis : GoType := TStruct [
  ("connections", TSlice TAny); ("client_connection_paths", TSlice TAny); ("next_connection_sequence", TString);
  ("params", ConnectionGenesisParams)].
Definition ChannelGenesis : GoType := TStruct [
  ("channels", TSlice TAny); ("acknowledgements", TSlice TAny); ("commitments", TSlice TAny); ("receipts", TSlice TAny);
  ("send_sequences", TSlice TAny); ("recv_sequences", TSlice TAny); ("ack_sequences", TSlice TAny);
  ("next_channel_sequence", TString)].
Definition Ibc : GoType := TStruct [("client_genesis", ClientGenesis); ("connection_genesis", ConnectionGenesis); ("channel_genesis", ChannelGenesis)].
Definition Oracle : GoType := TStruct [("address_whitelist", TSlice TAny); ("admin_address", TString)].
Definition SlashingParams : GoType := TStruct [
  ("signed_blocks_window", TString); ("min_signed_per_window", TString); ("downtime_jail_duration", TString);
  ("slash_fraction_double_sign", TString); ("slash_fraction_downtime", TString)].
Definition Slashing : GoType := TStruct [("params", SlashingParams); ("signing_infos", TSlice TAny); ("missed_blocks", TSlice TAny)].
Definition StakingParams : GoType := TStruct [
  ("unbonding_time", TString); ("max_validators", TNumber); ("max_entries", TNumber); ("historical_entries", TNumber);
  ("bond_denom", TString)].
Definition Staking : GoType := TStruct [
  ("params", StakingParams); ("last_total_power", TString); ("last_validator_powers", TSlice TAny);
  ("validators", TSlice TAny); ("delegations", TSlice TAny); ("unbonding_delegations", TSlice TAny);
  ("redelegations", TSlice TAny); ("exported", TBool)].
Definition TransferParams : GoType := TStruct [("send_enabled", TBool); ("receive_enabled", TBool)].
Definition Transfer : GoType := TStruct [("port_id", TString); ("denom_traces", TSlice TAny); ("params", TransferParams)].
Definition AppState : GoType := TStruct [
  ("upgrade", TStruct []); ("ethbridge", TStruct []); ("params", TAny); ("ibc", Ibc); ("distribution", Distribution);
  ("staking", Staking); ("gov", Gov); ("mint", Mint); ("slashing", Slashing); ("auth", Auth); ("authz", AuthZ);
  ("bank", Bank); ("clp", CLP); ("transfer", Transfer); ("capability", Capability); ("dispensation", Dispensation);
  ("oracle", Oracle); ("evidence", EvidenceState); ("genutil", Genutil); ("crisis", Crisis)].
Definition Genesis : GoType := TStruct [
  ("genesis_time", TTime); ("chain_id", TString); ("initial_height", TString); ("consensus_params", ConsensusParams);
  ("app_hash", TString); ("app_state", AppState)].

(** ** common/types/config.go *)

Definition Fastsync : GoType := TStruct [("version", TString)].
Definition P2P : GoType := TStruct [
  ("upnp", TBool); ("addr_book_strict", TBool); ("pex", TBool); ("seed_mode", TBool); ("allow_duplicate_ip", TBool);
  ("max_num_inbound_peers", TInt); ("max_num_outbound_peers", TInt); ("max_packet_msg_payload_size", TInt);
  ("send_rate", TInt); ("recv_rate", TInt); ("laddr", TString); ("external_address", TString); ("seeds", TString);
  ("persistent_peers", TString); ("addr_book_file", TString); ("unconditional_peer_ids", TString);
  ("persistent_peers_max_dial_period", TString); ("flush_throttle_timeout", TString); ("private_peer_ids", TString);
  ("handshake_timeout", TString); ("dial_timeout", TString)].
Definition RPC : GoType := TStruct [
  ("unsafe", TBool); ("grpc_max_open_connections", TInt); ("max_open_connections", TInt); ("max_subscription_clients", TInt);
  ("max_subscriptions_per_client", TInt); ("max_body_bytes", TInt); ("max_header_bytes", TInt);
  ("timeout_broadcast_tx_commit", TString); ("laddr", TString); ("grpc_laddr", TString); ("tls_cert_file", TString);
  ("tls_key_file", TString); ("cors_allowed_origins", TSlice TString); ("cors_allowed_methods", TSlice TString);
  ("cors_allowed_headers", TSlice TString)].
Definition Consensus : GoType := TStruct [
  ("wal_file", TString); ("timeout_propose", TString); ("timeout_propose_delta", TString); ("timeout_prevote", TString);
  ("timeout_prevote_delta", TString); ("timeout_precommit", TString); ("timeout_precommit_delta", TString);
  ("timeout_commit", TString); ("double_sign_check_height", TInt); ("skip_timeout_commit", TBool);
  ("create_empty_blocks", TBool); ("create_empty_blocks_interval", TString); ("peer_gossip_sleep_duration", TString);
  ("peer_query_maj23_sleep_duration", TString)].
Definition Mempool : GoType := TStruct [
  ("recheck", TBool); ("broadcast", TBool); ("keep-invalid-txs-in-cache", TBool); ("size", TInt); ("max_txs_bytes", TInt);
  ("cache_size", TInt); ("max_tx_bytes", TInt); ("max_batch_bytes", TInt); ("wal_dir", TString)].
Definition Instrumentation : GoType := TStruct [("prometheus", TBool); ("prometheus_listen_addr", TString); ("max_open_connections", TInt); ("namespace", TString)].
Definition TxIndex : GoType := TStruct [("index_all_keys", TBool); ("indexer", TString); ("index_keys", TString)].
Definition NodeConfig : GoType := TStruct [
  ("filter_peers", TBool); ("fast_sync", TBool); ("proxy_app", TString); ("moniker", TString); ("db_backend", TString);
  ("db_dir", TString); ("log_level", TString); ("log_format", TString); ("genesis_file", TString);
  ("priv_validator_key_file", TString); ("priv_validator_state_file", TString); ("priv_validator_laddr", TString);
  ("node_key_file", TString); ("abci", TString); ("prof_laddr", TString); ("fastsync", Fastsync); ("p2p", P2P); ("rpc", RPC);
  ("consensus", Consensus); ("mempool", Mempool); ("instrumentation", Instrumentation); ("tx_index", TxIndex)].
Definition Statesync : GoType := TStruct [
  ("enable", TBool); ("rpc_servers", TString); ("trust_height", TInt); ("trust_hash", TString); ("trust_period", TString);
  ("discovery_time", TString); ("temp_dir", TString)].
Definition ConfigTOML : GoType := TStruct [
  ("fast_sync", TBool); ("filter_peers", TBool); ("proxy_app", TString); ("moniker", TString); ("db_backend", TString);
  ("db_dir", TString); ("log_level", TString); ("log_format", TString); ("genesis_file", TString);
  ("priv_validator_key_file", TString); ("priv_validator_state_file", TString); ("priv_validator_laddr", TString);
  ("node_key_file", TString); ("abci", TString); ("rpc", RPC); ("p2p", P2P); ("mempool", Mempool); ("statesync", Statesync);
  ("fastsync", Fastsync); ("consensus", Consensus); ("tx_index", TxIndex); ("instrumentation", Instrumentation)].

(** ** common/types/app.go *)

Definition Telemetry : GoType := TStruct [
  ("service-name", TString); ("enabled", TBool); ("enable-hostname", TBool); ("enable-hostname-label", TBool);
  ("enable-service-label", TBool); ("prometheus-retention-time", TInt); ("global-labels", TSlice TAny)].
Definition API : GoType := TStruct [
  ("enable", TBool); ("swagger", TBool); ("enabled-unsafe-cors", TBool); ("max-open-connections", TInt);
  ("rpc-read-timeout", TInt); ("rpc-write-timeout", TInt); ("rpc-max-body-bytes", TInt); ("address", TString)].
Definition Grpc : GoType := TStruct [("enable", TBool); ("address", TString)].
Definition StateSync : GoType := TStruct [("snapshot-interval", TInt); ("snapshot-keep-recent", TInt)].
Definition AppTOML : GoType := TStruct [
  ("minimum-gas-prices", TString); ("pruning", TString); ("pruning-keep-recent", TString); ("pruning-keep-every", TString);
  ("pruning-interval", TString); ("halt-height", TInt); ("halt-time", TInt); ("min-retain-blocks", TInt);
  ("inter-block-cache", TBool); ("index-events", TSlice TAny); ("telemetry", Telemetry); ("api", API); ("grpc", Grpc);
  ("state-sync", StateSync)].

(** ** Lemmas *)

Class TimeTextLaws `{TimeText} : Prop := {
  time_text_again s s' : time_text s = Some s' -> time_text s' = Some s';
  time_text_zero : time_text zero_time = Some zero_time;
}.

Section TypeInduction.
Variable P : GoType -> Prop.
Hypothesis P_base : forall t, match t with TSlice _ | TStruct _ => False | _ => True end -> P t.
Hypothesis P_slice : forall t, P t -> P (TSlice t).
Hypothesis P_struct : forall fs, Forall (fun f => P f.2) fs -> P (TStruct fs).
Lemma GoType_nested_ind : forall t, P t.
Proof.
  fix rec 1. intros t. destruct t as [| | | | | |t|fs]; try (by apply P_base); [apply P_slice, rec|apply P_struct].
  induction fs as [|[k t] fs IH]; constructor; [apply rec|exact IH].
Qed.
End TypeInduction.

Section Values.
Context `{TimeTextLaws}.

Abbreviation typed_field := (fun (f : string * GoType) (kv : string * Json) => f.1 = kv.1 /\ has_type f.2 kv.2 = true).

Lemma has_type_struct fs v : has_type (TStruct fs) v = true <-> exists vs, v = JObject vs /\ Forall2 typed_field fs vs.
Proof.
  split.
  - destruct v as [| | | | |vs]; try done. intros Hv. exists vs. split; [done|]. revert vs Hv.
    induction fs as [|[k t] fs IH]; intros [|[k' v] vs] Hv; try done. simpl in Hv.
    apply andb_true_iff in Hv as [[->%String.eqb_eq Ht]%andb_true_iff Hv]. constructor; [done|by apply IH].
  - intros (vs & -> & Hvs). induction Hvs as [|[k t] [k' v] fs vs [Hk Ht] Hvs IH]; [done|]. simpl in *. subst k'.
    by rewrite String.eqb_refl, Ht.
Qed.

Lemma has_type_zero t : has_type t (zero t) = true.
Proof.
  induction t as [t Ht|t IH|fs IH] using GoType_nested_ind; [|done|].
  - destruct t; try done. simpl. apply bool_decide_eq_true, time_text_zero.
  - apply has_type_struct. exists (map (fun f => (f.1, zero f.2)) fs). split; [done|].
    induction IH as [|f fs Hf IH IH']; constructor; done.
Qed.
(** The reading of a struct, field by field. *)
Fixpoint read_over (t : GoType) (c : Json) (l : list Json) : res Json :=
  match l with [] => Ok c | x :: l' => let! c' := unmarshal t c x in read_over t c' l' end.
Fixpoint read_fields (names : list string) (kvs : list (string * Json)) (fs : list (string * GoType)) (curs : list (string * Json)) :
    res (list (string * Json)) :=
  match fs, curs with
  | (k, t) :: fs', (_, c) :: curs' =>
      let! c := read_over t c (given names k kvs) in let! rest := read_fields names kvs fs' curs' in Ok ((k, c) :: rest)
  | _, _ => Ok []
  end.

Lemma unmarshal_struct fs curs kvs :
  unmarshal (TStruct fs) (JObject curs) (JObject kvs) = let! vs := read_fields (map fst fs) kvs fs curs in Ok (JObject vs).
Proof.
  simpl. f_equal. generalize (map fst fs). intros names. revert curs.
  induction fs as [|[k t] fs IH]; intros [|[k' c] curs]; try done. simpl.
  replace (read_over t c (given names k kvs)) with
    ((fix over (c0 : Json) (l : list Json) : res Json :=
        match l with [] => Ok c0 | x :: l' => let! c' := unmarshal t c0 x in over c' l' end) c (given names k kvs)).
  - destruct (_ c (given names k kvs)); [|done..]. simpl. by rewrite IH.
  - generalize (given names k kvs). intros l. revert c. induction l as [|x l IHl]; intros c; [done|]. simpl.
    destruct (unmarshal t c x); [apply IHl|done..].
Qed.

Lemma has_type_over t c l v : (forall c x v, has_type t c = true -> unmarshal t c x = Ok v -> has_type t v = true) ->
  has_type t c = true -> read_over t c l = Ok v -> has_type t v = true.
Proof.
  intros Hu. revert c. induction l as [|x l IH]; intros c Hc Hr; simpl in Hr; [by injection Hr as <-|].
  apply rbind_ok_inv in Hr as (c' & Hc' & Hr). eapply IH; [|exact Hr]. by eapply Hu.
Qed.

Lemma has_type_unmarshal t : forall cur v v', has_type t cur = true -> unmarshal t cur v = Ok v' -> has_type t v' = true.
Proof.
  induction t as [t Ht|t IH|fs IH] using GoType_nested_ind; intros cur v v' Hc Hu.
  - destruct t; try done; destruct v; simpl in Hu; simplify_eq; try done; repeat case_match; simplify_eq; try done.
    + simpl. by match goal with E : Atoi _ = _ |- _ => rewrite E end.
    + simpl. apply bool_decide_eq_true. by eapply time_text_again.
  - destruct v as [| | | |l|]; simpl in Hu; try done; [by injection Hu as <-|]. apply rbind_ok_inv in Hu as (l' & Hl & [= <-]).
    simpl. apply List.forallb_forall. revert l' Hl. induction l as [|x l IHl]; intros l' Hl; simpl in Hl; [by injection Hl as <-|].
    apply rbind_ok_inv in Hl as (y & Hy & (ys & Hys & [= <-])%rbind_ok_inv). intros z [<-|Hz]; [|by eapply IHl].
    eapply IH; [apply has_type_zero|exact Hy].
  - apply has_type_struct in Hc as (curs & -> & Hcurs).
    destruct v as [| | | | |kvs]; try done; [injection Hu as <-; apply has_type_struct; eauto|].
    rewrite unmarshal_struct in Hu. apply rbind_ok_inv in Hu as (vs & Hvs & [= <-]). apply has_type_struct. exists vs. split; [done|].
    revert vs Hvs. generalize (map fst fs). intros names.
    induction Hcurs as [|[k t] [k' c] fs curs [Hk Ht] Hcurs IHc]; intros vs Hvs; simpl in Hvs; [by injection Hvs as <-|].
    apply Forall_cons in IH as [IHt IH]. apply rbind_ok_inv in Hvs as (x & Hx & (rest & Hrest & [= <-])%rbind_ok_inv).
    constructor; [|by apply IHc]. split; [done|]. eapply has_type_over; [exact IHt|exact Ht|exact Hx].
Qed.
Lemma field_of_name names k : k ∈ names -> field_of names k = Some k.
Proof.
  intros Hk. unfold field_of. destruct (find (String.eqb k) names) as [k'|] eqn:E.
  - apply find_some in E as [_ ->%String.eqb_eq]. done.
  - apply list_elem_of_In in Hk. pose proof (find_none _ _ E k Hk) as Hne. by rewrite String.eqb_refl in Hne.
Qed.

Lemma given_single names l1 k v l2 : NoDup names -> names = map fst (l1 ++ (k, v) :: l2) -> given names k (l1 ++ (k, v) :: l2) = [v].
Proof.
  intros Hn En. unfold given.
  assert (forall kv, kv ∈ l1 ++ (k, v) :: l2 -> field_of names kv.1 = Some kv.1) as Hf.
  { intros kv Hkv. apply field_of_name. rewrite En. by apply list_elem_of_fmap_2. }
  assert (field_of names k = Some k) as Hfk by (apply (Hf (k, v)); apply elem_of_app; right; left).
  rewrite List.filter_app. simpl. rewrite Hfk, bool_decide_eq_true_2 by done.
  rewrite En, map_app in Hn. simpl in Hn. apply NoDup_app in Hn as (_ & Hl1 & [Hl2 _]%NoDup_cons).
  assert (forall l : list (string * Json), (forall kv, kv ∈ l -> kv ∈ l1 ++ (k, v) :: l2) -> k ∉ map fst l ->
    List.filter (fun kv => bool_decide (field_of names kv.1 = Some k)) l = []) as Hnone.
  { intros l Hsub Hk. induction l as [|kv l IH]; [done|]. simpl. rewrite Hf by (apply Hsub; left).
    rewrite bool_decide_eq_false_2; [|intros [= <-]; apply Hk; left].
    apply IH; [intros kv' ?; apply Hsub; by right|]. intros ?. apply Hk. by right. }
  rewrite !Hnone; [done|..].
  - intros kv ?. apply elem_of_app. right. by right.
  - done.
  - intros kv ?. apply elem_of_app. by left.
  - intros Hk. apply (Hl1 k Hk). left.
Qed.

(** A value that was written is read back as it is. *)
Lemma unmarshal_again t : forall cur v, fields_ok t = true -> has_type t cur = true -> has_type t v = true -> unmarshal t cur v = Ok v.
Proof.
  induction t as [t Ht|t IH|fs IH] using GoType_nested_ind; intros cur v Hok Hc Hv.
  - destruct t; try done; destruct v; try done; simpl in Hv |- *.
    + by destruct (Atoi lit).
    + apply bool_decide_eq_true in Hv. by rewrite Hv.
  - destruct v as [| | | |l|]; try done. simpl in Hv |- *.
    assert (rmap (unmarshal t (zero t)) l = Ok l) as ->; [|done].
    induction l as [|x l IHl]; [done|]. simpl in Hv |- *. apply andb_true_iff in Hv as [Hx Hv].
    rewrite (IH _ _ Hok (has_type_zero t) Hx). simpl. by rewrite (IHl Hv).
  - apply has_type_struct in Hc as (curs & -> & Hcurs). apply has_type_struct in Hv as (vs & -> & Hvs).
    rewrite unmarshal_struct. simpl in Hok. apply andb_true_iff in Hok as [Hnd%bool_decide_eq_true Hok].
    assert (map fst fs = map fst vs) as En by (clear -Hvs; induction Hvs as [|? ? ? ? [E _] _ IHv]; [done|]; simpl; by rewrite E, IHv).
    assert (forall l, vs = l ++ drop (length l) vs -> forall fs' curs', Forall2 typed_field fs' (drop (length l) vs) ->
      Forall2 typed_field fs' curs' -> Forall (fun f => forall cur v, fields_ok f.2 = true -> has_type f.2 cur = true ->
        has_type f.2 v = true -> unmarshal f.2 cur v = Ok v) fs' -> forallb (fun f => fields_ok f.2) fs' = true ->
      read_fields (map fst fs) vs fs' curs' = Ok (drop (length l) vs)) as Hgo.
    { intros l El fs'. remember (drop (length l) vs) as rest eqn:Er. revert l El Er.
      intros l El _ curs' Hr Hcs HI Ho. revert l El curs' Hcs HI Ho.
      induction Hr as [|[k t] [k' v] fs' rest [Hk Ht] Hr IHr]; intros l El curs' Hcs HI Ho; [by destruct curs'|].
      destruct curs' as [|[k'' c] curs']; [by inversion Hcs|]. apply Forall2_cons in Hcs as [[_ Hc] Hcs].
      apply Forall_cons in HI as [HIk HI]. simpl in Ho. apply andb_true_iff in Ho as [Ho1 Ho]. simpl in *. subst k'.
      rewrite El at 1. rewrite (given_single _ l k v rest) by (done || by rewrite En, El). simpl. rewrite (HIk _ _ Ho1 Hc Ht). simpl.
      rewrite (IHr (l ++ [(k, v)])); [done|by rewrite El, <- app_assoc|done..]. }
    rewrite (Hgo [] eq_refl fs curs) by done. done.
Qed.
Lemma unmarshal_field t v k : has_type t v = true -> field_type k t = None -> (exists fs, t = TStruct fs) -> field k v = None.
Proof.
  intros Hv Hk [fs ->]. apply has_type_struct in Hv as (vs & -> & Hvs). simpl in *.
  induction Hvs as [|[k1 t] [k2 v] fs vs [E _] Hvs IH]; [done|]. simpl in *. subst k2. by destruct (String.eqb k1 k); [|apply IH].
Qed.

Lemma has_type_get p : forall t v u, has_type t v = true -> type_at p t = Some u -> exists x, get p v = Some x /\ has_type u x = true.
Proof.
  induction p as [|k p IH]; intros t v u Hv Hu; simpl in Hu; [injection Hu as <-; by exists v|].
  destruct (field_type k t) as [t'|] eqn:Ek; [|done]. destruct t as [| | | | | | |fs]; try done.
  apply has_type_struct in Hv as (vs & -> & Hvs). simpl in Ek |- *.
  assert (exists x, snd <$> find (fun kv => String.eqb kv.1 k) vs = Some x /\ has_type t' x = true) as (x & Ex & Hx).
  { clear Hu. induction Hvs as [|[k1 t1] [k2 v2] fs vs [E Ht] Hvs IHv]; [done|]. simpl in *. subst k2.
    destruct (String.eqb k1 k); [injection Ek as <-; by exists v2|by apply IHv]. }
  rewrite Ex. by apply (IH t').
Qed.

Lemma get_app p q v : get (p ++ q) v = match get p v with Some x => get q x | None => None end.
Proof. revert v. induction p as [|k p IH]; intros v; [done|]. cbn [app get]. destruct (field k v); [apply IH|done]. Qed.

(** A typed value has no field that its struct does not declare. *)
Lemma lost_field p t0 t k v : has_type t0 v = true -> type_at p t0 = Some t -> field_type k t = None -> (exists fs, t = TStruct fs) ->
  get (p ++ [k]) v = None.
Proof.
  intros Hv Hat Hk Hs. destruct (has_type_get _ _ _ _ Hv Hat) as (x & Hx & Htx). rewrite get_app, Hx. cbn [get].
  by rewrite (unmarshal_field _ _ _ Htx Hk Hs).
Qed.

Lemma has_type_put p x : forall t v u, fields_ok t = true -> has_type t v = true -> type_at p t = Some u -> has_type u x = true ->
  has_type t (put p x v) = true.
Proof.
  induction p as [|k p IH]; intros t v u Hok Hv Hu Hx; simpl in Hu; [by injection Hu as <-|].
  destruct (field_type k t) as [t'|] eqn:Ek; [|done]. destruct t as [| | | | | | |fs]; try done.
  apply has_type_struct in Hv as (vs & -> & Hvs). apply has_type_struct. eexists. split; [simpl; done|].
  simpl in Ek, Hok. apply andb_true_iff in Hok as [Hnd%bool_decide_eq_true Hok].
  induction Hvs as [|[k1 t1] [k2 v2] fs vs [E Ht] Hvs IHv]; [done|]. simpl in *. subst k2. apply andb_true_iff in Hok as [Hok1 Hok].
  apply NoDup_cons in Hnd as [Hk1 Hnd]. destruct (String.eqb_spec k1 k) as [->|Hne].
  - injection Ek as ->. constructor; [split; [done|by eapply IH]|]. clear -Hvs Hk1.
    induction Hvs as [|[k1 t1] [k2 v2] fs vs [E Ht] Hvs IHv]; [done|]. simpl in *. subst k2.
    apply not_elem_of_cons in Hk1 as [Hne Hk1]. rewrite (proj2 (String.eqb_neq k1 k)) by done. constructor; [done|by apply IHv].
  - constructor; [done|by apply IHv].
Qed.

Lemma field_put k p x v : field k (put (k :: p) x v) = put p x <$> field k v.
Proof.
  destruct v as [| | | | |vs]; try done. simpl. induction vs as [|[k1 v1] vs IH]; [done|]. simpl.
  destruct (String.eqb k1 k) eqn:E; simpl; by rewrite E.
Qed.

Lemma field_put_ne k k' p x v : k <> k' -> field k' (put (k :: p) x v) = field k' v.
Proof.
  intros Hne. destruct v as [| | | | |vs]; try done. simpl. induction vs as [|[k1 v1] vs IH]; [done|]. simpl.
  destruct (String.eqb_spec k1 k) as [->|]; simpl; [rewrite (proj2 (String.eqb_neq k k')) by done; exact IH|].
  by destruct (String.eqb k1 k').
Qed.

Lemma get_put p x : forall v y, get p v = Some y -> get p (put p x v) = Some x.
Proof.
  induction p as [|k p IH]; intros v y Hy; [done|]. cbn [get] in *. rewrite field_put. destruct (field k v); [|done]. simpl. by eapply IH.
Qed.

(** Two paths that part. *)
Fixpoint diverge (p q : list string) : bool :=
  match p, q with a :: p', b :: q' => if String.eqb a b then diverge p' q' else true | _, _ => false end.

Lemma get_put_ne p q x : forall v, diverge p q = true -> get q (put p x v) = get q v.
Proof.
  revert q. induction p as [|a p IH]; intros [|b q] v Hd; try done. cbn [get diverge] in *.
  destruct (String.eqb_spec a b) as [->|Hne]; [|by rewrite field_put_ne].
  rewrite field_put. destruct (field b v); [|done]. simpl. by apply IH.
Qed.
End Values.
End AkhgenTypes.
