(* ===== verification/AkhgenCli.v ===== *)
(** * What the network generator runs and edits

    tools/akhgen/utils/cli.go, genesis/genesis.go and key/key.go.  The operating system, the
    programs that are started, the random numbers and the codecs of third parties are
    parameters; the state is theirs, with the list of the commands that were started. *)

From Stdlib Require Import ZArith Lia Ascii String.
From stdpp Require Import base list strings.
From S2P Require Import Prelude Sdk Json GoNet AkhgenTypes EthBridge.

Module AkhgenCli.
Import GoNet AkhgenTypes.

(** ** Texts and paths *)

Definition newline : string := String "010" "".
Definition ends_with (suffix s : string) : bool :=
  (String.length suffix <=? String.length s)%nat && String.eqb (str_drop (String.length s - String.length suffix) s) suffix.
(** [strings.TrimSuffix] and [strings.Join]. *)
Definition TrimSuffix (s suffix : string) : string :=
  if ends_with suffix s then substring 0 (String.length s - String.length suffix) s else s.
Definition Join (l : list string) (sep : string) : string :=
  match l with [] => "" | x :: l' => fold_left (fun acc y => acc +:+ sep +:+ y) l' x end.
(** [fmt.Sprintf("%s/%s", a, b)]. *)
Definition slash (a b : string) : string := a +:+ "/" +:+ b.

(** [path.Clean] on the parts between slashes, and [path.Join] of two parts. *)
Fixpoint split_slash (s : string) : list string :=
  match s with
  | EmptyString => [""]
  | String "/" s' => "" :: split_slash s'
  | String c s' => match split_slash s' with x :: l => String c x :: l | [] => [String c ""] end
  end.
Definition clean_part (rooted : bool) (stack : list string) (part : string) : list string :=
  if String.eqb part "" || String.eqb part "." then stack
  else if String.eqb part ".." then
    match stack with
    | top :: stack' => if String.eqb top ".." then ".." :: stack else stack'
    | [] => if rooted then [] else [".."]
    end
  else part :: stack.
Definition path_Clean (p : string) : string :=
  let rooted := String.prefix "/" p in
  let text := Join (rev (fold_left (clean_part rooted) (split_slash p) [])) "/" in
  if rooted then "/" +:+ text else if String.eqb text "" then "." else text.
Definition path_Join (a b : string) : string :=
  match a, b with
  | EmptyString, EmptyString => ""
  | EmptyString, _ => path_Clean b
  | _, EmptyString => path_Clean a
  | _, _ => path_Clean (slash a b)
  end.

(** ** The operating system *)

(** [ReadDir] gives the entries it could read, and whether it failed.  A program that cannot be
    started makes [RunInput] panic. *)
Class OS (W : Type) := {
  ReadFile : string -> W -> res string;
  WriteFile : string -> string -> M W unit;
  MkdirAll : string -> M W unit;
  ReadDir : string -> W -> list string * option GoError;
  RemoveAll : string -> M W unit;
  Stat : string -> W -> bool;
  TempDir : string -> M W string;
  Getenv : string -> W -> string;
  Setenv : string -> string -> M W unit;
  Run : string -> list string -> M W string;
  RunInput : string -> list string -> list string -> M W string;
  http_Get : string -> M W string;
  password_Generate : M W string;
  bip39_NewEntropy : M W string;
  bip39_NewMnemonic : string -> res string;
  Haikunate : M W string;
}.

(** A command that was started: the program, its arguments, and what it was given to read. *)
Record Command := mkCommand { cmd_Program : string; cmd_Args : list string; cmd_Input : list string }.
Record System (W : Type) := mkSystem { sys_World : W; sys_Commands : list Command }.
Arguments mkSystem {_} _ _.
Arguments sys_World {_} _.
Arguments sys_Commands {_} _.

Section Cli.
Context {W : Type} `{OS W}.

Definition on_world {A} (m : M W A) : M (System W) A := fun s => let '(w, r) := m (sys_World s) in (mkSystem w (sys_Commands s), r).
Definition read_file (path : string) : M (System W) string := do! r <- mgets (fun s => ReadFile path (sys_World s)); mlift r.
Definition write_file (path content : string) : M (System W) unit := on_world (WriteFile path content).
Definition start (c : Command) : M (System W) unit := mmodify (fun s => mkSystem (sys_World s) (sys_Commands s ++ [c])).

(** ** utils/cli.go *)

Definition GenesisFile : string := "genesis.json".
Definition ConfigTOMLFile : string := "config.toml".
Definition AppTOMLFile : string := "app.toml".

(** The values of [keyring.BackendFile] and [keyring.BackendTest]. *)
Definition BackendFile : string := "file".
Definition BackendTest : string := "test".

Record CLI := mkCLI { cli_chainID : string; cli_configPath : string; cli_keyringBackend : string }.
Definition NewCLI (DefaultNodeHome chainID keyringBackend : string) : CLI := mkCLI chainID (slash DefaultNodeHome "config") keyringBackend.

Definition shellExec (cmd : string) (args : list string) : M (System W) string :=
  run! start (mkCommand cmd args []); on_world (Run cmd args).
Definition shellExecInput (cmd : string) (inputs : list string) (args : list string) : M (System W) string :=
  run! start (mkCommand cmd args inputs); on_world (RunInput cmd args inputs).
Definition formatInputs (inputs : list string) : list string := (fun input => input +:+ newline) <$> inputs.

(** Empties directories; a failed removal is ignored, and a directory that cannot be read stops. *)
Definition empty_dir (path : string) : M (System W) unit :=
  do! '(dir, err) <- mgets (fun s => ReadDir path (sys_World s));
  run! mfor dir (fun name => run! mtry (on_world (RemoveAll (path_Join path name))); mret tt);
  match err with Some e => mthrow e | None => mret tt end.
Definition CLI_Reset (paths : list string) : M (System W) unit := mfor paths empty_dir.

Definition daemon : string := "akhiranoded".
Definition DaemonPath : M (System W) string := shellExec "which" [daemon].
Definition ResetState (nodeDir : string) : M (System W) string := shellExec daemon ["unsafe-reset-all"; "--home"; nodeDir].
Definition CreateDir (path : string) : M (System W) unit := on_world (MkdirAll path).
Definition MoveFile (src dest : string) : M (System W) string := shellExec "mv" [src; dest].
Definition NodeID (nodeDir : string) : M (System W) string := shellExec daemon ["tendermint"; "show-node-id"; "--home"; nodeDir].
Definition ValidatorAddress (nodeDir : string) : M (System W) string :=
  shellExec daemon ["tendermint"; "show-validator"; "--home"; nodeDir].
Definition ValidatorConsensusAddress (nodeDir : string) : M (System W) string :=
  shellExec daemon ["tendermint"; "show-address"; "--home"; nodeDir].
Definition InitChain (chainID moniker nodeDir : string) : M (System W) string :=
  shellExec daemon ["init"; moniker; "--chain-id"; chainID; "--home"; nodeDir].
Definition AddKey (c : CLI) (name mnemonic keyPassword cliDir : string) : M (System W) string :=
  if String.eqb (cli_keyringBackend c) BackendFile then mthrow (PlainErr "not implemented")
  else
    shellExecInput daemon (formatInputs [mnemonic; ""])
      ["keys"; "add"; name; "--home"; cliDir; "-i"; "--keyring-backend"; cli_keyringBackend c].
Definition AddGenesisAccount (address nodeDir : string) (coins : list string) : M (System W) string :=
  shellExec daemon ["add-genesis-account"; address; Join coins ","; "--home"; nodeDir].
Definition AddGenesisCLPAdmin (c : CLI) (address nodeDir : string) : M (System W) string :=
  shellExec daemon ["add-genesis-clp-admin"; address; "--home"; nodeDir; "--keyring-backend"; cli_keyringBackend c].
Definition SetGenesisOracleAdmin (c : CLI) (address nodeDir : string) : M (System W) string :=
  shellExec daemon ["set-genesis-oracle-admin"; address; "--home"; nodeDir; "--keyring-backend"; cli_keyringBackend c].
(** A keyring in a file asks for its password. *)
Definition passwords (c : CLI) (n : nat) (keyPassword : string) : list string :=
  if String.eqb (cli_keyringBackend c) BackendFile then formatInputs (replicate n keyPassword) else [].
Definition GenerateGenesisTxn (c : CLI) (name keyPassword bondAmount nodeDir outputFile nodeID pubKey ipV4Addr chainID : string) :
    M (System W) string :=
  shellExecInput daemon (passwords c 3 keyPassword)
    ["gentx"; name; bondAmount; "--details"; name; "--keyring-backend"; cli_keyringBackend c; "--home"; nodeDir;
     "--output-document"; outputFile; "--node-id"; nodeID; "--pubkey"; pubKey; "--ip"; ipV4Addr; "--chain-id"; chainID].
Definition CollectGenesisTxns (gentxDir nodeDir : string) : M (System W) string :=
  shellExec daemon ["collect-gentxs"; "--gentx-dir"; gentxDir; "--home"; nodeDir].
Definition ExportGenesis : M (System W) string := shellExec daemon ["export"].
Definition GenesisFilePath (c : CLI) : string := slash (cli_configPath c) GenesisFile.
Definition ConfigFilePath (c : CLI) : string := slash (cli_configPath c) ConfigTOMLFile.
Definition AppFilePath (c : CLI) : string := slash (cli_configPath c) AppTOMLFile.
Definition TransferFunds (c : CLI) (keyPassword fromAddress toAddress coins : string) : M (System W) string :=
  shellExecInput daemon (passwords c 2 keyPassword) ["tx"; "send"; fromAddress; toAddress; coins; "-y"].
Definition ValidatorPublicKeyAddress : M (System W) string := shellExec daemon ["tendermint"; "show-validator"].
Definition CreateValidator (c : CLI) (moniker validatorPublicKey keyPassword bondAmount : string) : M (System W) string :=
  shellExecInput daemon (passwords c 2 keyPassword)
    ["tx"; "staking"; "create-validator"; "--commission-max-change-rate"; "0.1"; "--commission-max-rate"; "0.1";
     "--commission-rate"; "0.1"; "--amount"; bondAmount; "--pubkey"; validatorPublicKey; "--moniker"; moniker;
     "--chain-id"; cli_chainID c; "--min-self-delegation"; "1"; "--gas"; "auto"; "--from"; moniker;
     "--keyring-backend"; cli_keyringBackend c; "-y"].

(** ** genesis/genesis.go *)

Definition StakeTokenDenom : string := "aku".
End Cli.

(** [tmjson.Marshal] of a genesis file. *)
Class TmJson := { tm_Marshal : Json -> res string }.

Section Genesis.
Context {W : Type} `{OS W, TimeText, TmJson}.

Definition genesis_path (nodeHomeDir : string) : string := nodeHomeDir +:+ "/config/" +:+ GenesisFile.
Definition readGenesis (nodeHomeDir : string) : M (System W) Json :=
  do! body <- read_file (genesis_path nodeHomeDir);
  mlift (Unmarshal Genesis body).
Definition writeGenesis (nodeHomeDir content : string) : M (System W) unit := write_file (genesis_path nodeHomeDir) content.

(** The functions of the file set one field each. *)
Definition replace (nodeHomeDir : string) (edit : Json -> res Json) : M (System W) unit :=
  do! genesis <- readGenesis nodeHomeDir;
  do! genesis <- mlift (edit genesis);
  do! content <- mlift (tm_Marshal genesis);
  writeGenesis nodeHomeDir content.
Definition set_field (path : list string) (x : Json) (genesis : Json) : res Json := Ok (put path x genesis).

Definition bond_denom : list string := ["app_state"; "staking"; "params"; "bond_denom"].
Definition mint_denom : list string := ["app_state"; "mint"; "params"; "mint_denom"].
Definition min_threshold : list string := ["app_state"; "clp"; "params"; "min_create_pool_threshold"].
Definition min_deposit : list string := ["app_state"; "gov"; "deposit_params"; "min_deposit"].
Definition max_deposit_period : list string := ["app_state"; "gov"; "deposit_params"; "max_deposit_period"].
Definition voting_period : list string := ["app_state"; "gov"; "voting_params"; "voting_period"].

Definition ReplaceStakingBondDenom (nodeHomeDir : string) : M (System W) unit :=
  replace nodeHomeDir (set_field bond_denom (JString StakeTokenDenom)).
Definition ReplaceMintBondDenom (nodeHomeDir : string) : M (System W) unit :=
  replace nodeHomeDir (set_field mint_denom (JString StakeTokenDenom)).
Definition ReplaceCLPMinCreatePoolThreshold (nodeHomeDir : string) (minCreatePoolThreshold : Z) : M (System W) unit :=
  replace nodeHomeDir (set_field min_threshold (JNumber (big_String minCreatePoolThreshold))).
(** [MinDeposit[0].Denom = tokenDenom] panics when there is no coin. *)
Definition set_first_denom (tokenDenom : string) (genesis : Json) : res Json :=
  match get min_deposit genesis with
  | Some (JArray (coin :: coins)) => Ok (put min_deposit (JArray (put ["denom"] (JString tokenDenom) coin :: coins)) genesis)
  | _ => Panic
  end.
Definition ReplaceGovDepositParamsMinDeposit (nodeHomeDir tokenDenom : string) : M (System W) unit :=
  replace nodeHomeDir (set_first_denom tokenDenom).
Definition ReplaceGovDepositParamsMaxDepositPeriod (nodeHomeDir : string) (period : Z) : M (System W) unit :=
  replace nodeHomeDir (set_field max_deposit_period (JString (Duration_String period))).
Definition ReplaceGovVotingParamsVotingPeriod (nodeHomeDir : string) (period : Z) : M (System W) unit :=
  replace nodeHomeDir (set_field voting_period (JString (Duration_String period))).
End Genesis.

(** ** key/key.go *)

(** The keyring in memory gives the address of an account and that of its public key. *)
Class Keyring := { NewAccount : string -> string -> string -> res (string * string); ConsAddress_String : string -> string }.

Record Key := mkKey {
  k_Name : string;
  k_Mnemonic : string;
  k_Password : string;
  k_Address : string;
  k_ValidatorAddress : string;
  k_ConsensusAddress : string;
}.
Definition NewKey (name password : string) : Key := mkKey name "" password "" "" "".

Section Keys.
Context {W : Type} `{OS W, SdkAddress, Keyring}.

(** The errors of both calls are ignored. *)
Definition generate_mnemonic : M (System W) string :=
  do! entropy <- mtry (on_world bip39_NewEntropy);
  do! mnemonic <- mtry (mlift (bip39_NewMnemonic (match entropy with inl e => e | inr _ => "" end)));
  mret (match mnemonic with inl m => m | inr _ => "" end).
Definition GenerateMnemonic (k : Key) : M (System W) Key :=
  do! mnemonic <- generate_mnemonic;
  mret (mkKey (k_Name k) mnemonic (k_Password k) (k_Address k) (k_ValidatorAddress k) (k_ConsensusAddress k)).

Definition RecoverFromMnemonic (k : Key) (mnemonic : string) : res Key :=
  let! '(address, pubKeyAddress) := NewAccount (k_Name k) mnemonic (k_Password k) in
  Ok (mkKey (k_Name k) mnemonic (k_Password k) (AccAddress_String address) (ValAddress_String pubKeyAddress)
        (ConsAddress_String pubKeyAddress)).
End Keys.
End AkhgenCli.
