(* ===== verification/Akhgen.v ===== *)
(** * The network generator

    tools/akhgen: network/network.go and validator.go, node/node.go, akhgen.go, and the
    commands of cmd/akhgen/main.go.  It starts the node's program to initialise chains, add
    keys and accounts and collect genesis transactions, and edits the files in between. *)

From Stdlib Require Import ZArith Lia Ascii String.
From stdpp Require Import base list gmap strings.
From S2P Require Import Prelude Sdk Json Sha256 GoNet AkhgenTypes AkhgenCli EthBridge.

Module Akhgen.
Import GoNet AkhgenTypes AkhgenCli.

(** ** The data *)

(** network/validator.go *)
Record Validator := mkValidator {
  v_ChainID : string;
  v_NodeID : string;
  v_IPv4Address : string;
  v_HomeDir : string;
  v_NodeHomeDir : string;
  v_Moniker : string;
  v_Password : string;
  v_Address : string;
  v_PubKey : string;
  v_Mnemonic : string;
  v_ValidatorAddress : string;
  v_ValidatorConsensusAddress : string;
  v_Seed : bool;
}.
Definition with_key (v : Validator) (address pubKey : string) : Validator :=
  mkValidator (v_ChainID v) (v_NodeID v) (v_IPv4Address v) (v_HomeDir v) (v_NodeHomeDir v) (v_Moniker v) (v_Password v) address pubKey
    (v_Mnemonic v) (v_ValidatorAddress v) (v_ValidatorConsensusAddress v) (v_Seed v).
Definition with_validator_address (v : Validator) (a : string) : Validator :=
  mkValidator (v_ChainID v) (v_NodeID v) (v_IPv4Address v) (v_HomeDir v) (v_NodeHomeDir v) (v_Moniker v) (v_Password v) (v_Address v)
    (v_PubKey v) (v_Mnemonic v) a (v_ValidatorConsensusAddress v) (v_Seed v).
Definition with_consensus_address (v : Validator) (a : string) : Validator :=
  mkValidator (v_ChainID v) (v_NodeID v) (v_IPv4Address v) (v_HomeDir v) (v_NodeHomeDir v) (v_Moniker v) (v_Password v) (v_Address v)
    (v_PubKey v) (v_Mnemonic v) (v_ValidatorAddress v) a (v_Seed v).
Definition with_node_id (v : Validator) (id : string) : Validator :=
  mkValidator (v_ChainID v) id (v_IPv4Address v) (v_HomeDir v) (v_NodeHomeDir v) (v_Moniker v) (v_Password v) (v_Address v)
    (v_PubKey v) (v_Mnemonic v) (v_ValidatorAddress v) (v_ValidatorConsensusAddress v) (v_Seed v).
Definition no_validator : Validator := mkValidator "" "" "" "" "" "" "" "" "" "" "" "" false.

(** common/types/keys.go and network/types/config.go, as far as they are read. *)
Record KeyOutput := mkKeyOutput { ko_Address : string; ko_PubKey : string }.
Record NodeEntry := mkNodeEntry { ne_Moniker : string }.

Record Network := mkNetwork { n_ChainID : string; n_CLI : CLI; n_BondAmount : string; n_MintAmount : string }.

(** node/node.go *)
Record Node := mkNode {
  d_CLI : CLI;
  d_AdminCLPAddresses : list string;
  d_ChainID : string;
  d_Moniker : string;
  d_Mnemonic : string;
  d_AdminOracleAddress : string;
  d_IPAddr : string;
  d_Address : string;
  d_Password : string;
  d_BondAmount : string;
  d_MintAmount : string;
  d_MinCLPCreatePoolThreshold : Z;
  d_GovMaxDepositPeriod : Z;
  d_GovVotingPeriod : Z;
  d_PeerAddress : string;
  d_GenesisURL : string;
  d_Standalone : bool;
  d_WithCosmovisor : bool;
  d_EnableGrpc : bool;
  d_EnableAPI : bool;
}.
Definition with_password (n : Node) (password : string) : Node :=
  mkNode (d_CLI n) (d_AdminCLPAddresses n) (d_ChainID n) (d_Moniker n) (d_Mnemonic n) (d_AdminOracleAddress n) (d_IPAddr n) (d_Address n)
    password (d_BondAmount n) (d_MintAmount n) (d_MinCLPCreatePoolThreshold n) (d_GovMaxDepositPeriod n) (d_GovVotingPeriod n)
    (d_PeerAddress n) (d_GenesisURL n) (d_Standalone n) (d_WithCosmovisor n) (d_EnableGrpc n) (d_EnableAPI n).
Definition with_address (n : Node) (address : string) : Node :=
  mkNode (d_CLI n) (d_AdminCLPAddresses n) (d_ChainID n) (d_Moniker n) (d_Mnemonic n) (d_AdminOracleAddress n) (d_IPAddr n) address
    (d_Password n) (d_BondAmount n) (d_MintAmount n) (d_MinCLPCreatePoolThreshold n) (d_GovMaxDepositPeriod n) (d_GovVotingPeriod n)
    (d_PeerAddress n) (d_GenesisURL n) (d_Standalone n) (d_WithCosmovisor n) (d_EnableGrpc n) (d_EnableAPI n).

(** The YAML and TOML codecs; the tags leave parts of a validator and of a node out. *)
Class Codecs := {
  yaml_Keys : string -> res (list KeyOutput);
  yaml_Nodes : string -> res (list NodeEntry);
  yaml_Validators : list Validator -> string;
  yaml_Node : Node -> string;
  toml_Decode : GoType -> string -> res Json;
  toml_Encode : GoType -> Json -> res string;
}.

(** ** network/validator.go *)

Definition NodeHomeDir : string := ".akhiranoded".
Definition ConfigDir : string := "config".
Definition GentxsDir : string := "gentxs".
Definition ValidatorsDir : string := "validators".

(** Only an IPv4 address has a last byte to count up, modulo 256. *)
Definition nextIP (lastIPv4Addr : string) : res string :=
  match ParseIP lastIPv4Addr with
  | None => Panic
  | Some ip => match To4 ip with Some [a; b; c; d] => Ok (dotted a b c ((d + 1) mod 256)) | _ => Panic end
  end.

Section Model.
Context {W : Type} `{OS W, TimeText, TmJson, Codecs, SdkAddress, Keyring} (DefaultNodeHome : string).
Abbreviation St := (System W).

Definition generatePassword : M St string :=
  do! r <- mtry (on_world password_Generate); mret (match r with inl p => p | inr _ => "" end).
(** The fields are computed in the order in which they are written. *)
Definition NewValidator (rootDir chainID : string) (seed : bool) (lastIPv4Addr : string) : M St Validator :=
  do! moniker <- on_world Haikunate;
  let homeDir := slash (slash (slash rootDir ValidatorsDir) chainID) moniker in
  do! ip <- mlift (nextIP lastIPv4Addr);
  do! password <- generatePassword;
  do! mnemonic <- generate_mnemonic;
  mret (mkValidator chainID "" ip homeDir (slash homeDir NodeHomeDir) moniker password "" "" mnemonic "" "" seed).

(** ** network/network.go *)

Definition NewNetwork (chainID : string) : Network := mkNetwork chainID (NewCLI DefaultNodeHome chainID BackendTest) "" "".

Definition network_file (networkDir chainID : string) : string := slash networkDir (EthBridge.to_hex (Sha256.Sum256 chainID) +:+ ".yml").
Definition network_Reset (chainID networkDir : string) : M St unit :=
  do! data <- read_file (network_file networkDir chainID);
  do! nodes <- mlift (yaml_Nodes data);
  mfor nodes (fun node =>
    run! ResetState (networkDir +:+ "/validators/" +:+ chainID +:+ "/" +:+ ne_Moniker node +:+ "/.akhiranoded");
    mret tt).

(** The first validator is the seed; each address is the one after that of the validator before. *)
Fixpoint initValidators (count : nat) (outputDir chainID : string) (seed : bool) (lastIPv4Addr : string) : M St (list Validator) :=
  match count with
  | O => mret []
  | S count =>
      do! validator <- NewValidator outputDir chainID seed lastIPv4Addr;
      do! validators <- initValidators count outputDir chainID false (v_IPv4Address validator);
      mret (validator :: validators)
  end.

Definition createDirs (toCreate : list string) : M St unit := mfor toCreate CreateDir.

(** [keys[0]] panics when the output lists no key. *)
Definition first_key (output : string) : res KeyOutput :=
  let! keys := yaml_Keys output in
  match keys with key :: _ => Ok key | [] => Panic end.
Definition generateKey (n : Network) (v : Validator) : M St Validator :=
  do! output <- AddKey (n_CLI n) (v_Moniker v) (v_Mnemonic v) (v_Password v) (slash (v_HomeDir v) ".akhiranoded");
  do! key <- mlift (first_key output);
  mret (with_key v (ko_Address key) (ko_PubKey key)).
Definition addValidatorKeyToSeed (n : Network) (v seed : Validator) : M St unit :=
  run! AddKey (n_CLI n) (v_Moniker v) (v_Mnemonic v) (v_Password seed) (slash (v_HomeDir seed) ".akhiranoded"); mret tt.
Definition initChain (v : Validator) : M St unit := run! InitChain (v_ChainID v) (v_Moniker v) (v_NodeHomeDir v); mret tt.
Definition setValidatorAddress (v : Validator) : M St Validator :=
  do! output <- ValidatorAddress (v_NodeHomeDir v); mret (with_validator_address v (TrimSuffix output newline)).
Definition setValidatorConsensusAddress (v : Validator) : M St Validator :=
  do! output <- ValidatorConsensusAddress (v_NodeHomeDir v); mret (with_consensus_address v (TrimSuffix output newline)).
Definition setValidatorID (v : Validator) : M St Validator :=
  do! output <- NodeID (v_NodeHomeDir v); mret (with_node_id v (TrimSuffix output newline)).
Definition getSeedValidator (validators : list Validator) : Validator := default no_validator (find v_Seed validators).
Definition addGenesis (n : Network) (address validatorHomeDir : string) : M St unit :=
  run! AddGenesisAccount address validatorHomeDir [n_MintAmount n]; mret tt.
Definition setGenesisOracleAdmin (n : Network) (address validatorHomeDir : string) : M St unit :=
  run! SetGenesisOracleAdmin (n_CLI n) address validatorHomeDir; mret tt.
Definition generateTx (n : Network) (v : Validator) (validatorDir outputDir : string) : M St unit :=
  run! GenerateGenesisTxn (n_CLI n) (v_Moniker v) (v_Password v) (n_BondAmount n) validatorDir
    (slash outputDir (v_Moniker v +:+ ".json")) (v_NodeID v) (v_ValidatorAddress v) (v_IPv4Address v) (n_ChainID n);
  mret tt.
Definition collectGenTxs (gentxDir validatorDir : string) : M St unit := run! CollectGenesisTxns gentxDir validatorDir; mret tt.

Definition peer (v : Validator) : string := v_NodeID v +:+ "@" +:+ v_IPv4Address v +:+ ":26656".
Fixpoint generatePeerList (i : nat) (validators : list Validator) (idx : nat) : list string :=
  match validators with
  | [] => []
  | v :: l => if (i =? idx)%nat then generatePeerList (S i) l idx else peer v :: generatePeerList (S i) l idx
  end.

Definition config_file (v : Validator) : string := slash (slash (v_NodeHomeDir v) ConfigDir) ConfigTOMLFile.
Definition genesis_file (v : Validator) : string := slash (slash (v_NodeHomeDir v) ConfigDir) GenesisFile.
Definition persistent_peers : list string := ["p2p"; "persistent_peers"].
(** [os.Create] empties the file; it is written again. *)
Definition write_toml (t : GoType) (path : string) (config : Json) : M St unit :=
  do! content <- mlift (toml_Encode t config); write_file path content.
Definition set_peers_of (validators : list Validator) (i : nat) (v : Validator) : M St unit :=
  do! content <- read_file (config_file v);
  do! config <- mlift (toml_Decode ConfigTOML content);
  run! write_file (config_file v) "";
  write_toml ConfigTOML (config_file v) (put persistent_peers (JString (Join (generatePeerList 0 validators i) ",")) config).
Fixpoint setPeers_from (all : list Validator) (i : nat) (l : list Validator) : M St unit :=
  match l with
  | [] => mret tt
  | v :: l => run! set_peers_of all i v; setPeers_from all (S i) l
  end.
Definition setPeers (validators : list Validator) : M St unit := setPeers_from validators 0 validators.

Definition copyGenesis (validators : list Validator) : M St unit :=
  let srcFile := genesis_file (getSeedValidator validators) in
  mfor validators (fun v =>
    if v_Seed v then mret tt
    else do! input <- read_file srcFile; write_file (genesis_file v) input).

(** One turn of the loop of [Build]; [done] are the validators before it, [rest] those after. *)
Definition build_validator (n : Network) (gentxDir : string) (done : list Validator) (v : Validator) (rest : list Validator) : M St Validator :=
  run! createDirs [v_NodeHomeDir v];
  do! v <- generateKey n v;
  run! initChain v;
  do! v <- setValidatorAddress v;
  do! v <- setValidatorConsensusAddress v;
  run! ReplaceStakingBondDenom (v_NodeHomeDir v);
  run! ReplaceMintBondDenom (v_NodeHomeDir v);
  do! v <- setValidatorID v;
  if negb (v_Seed v) then
    let seed := getSeedValidator (done ++ v :: rest) in
    run! addValidatorKeyToSeed n v seed;
    run! addGenesis n (v_Address v) (v_NodeHomeDir seed);
    run! generateTx n v (v_NodeHomeDir seed) gentxDir;
    mret v
  else
    run! addGenesis n (v_Address v) (v_NodeHomeDir v);
    run! setGenesisOracleAdmin n (v_Address v) (v_NodeHomeDir v);
    run! generateTx n v (v_NodeHomeDir v) gentxDir;
    mret v.
Fixpoint build_validators (n : Network) (gentxDir : string) (done rest : list Validator) : M St (list Validator) :=
  match rest with
  | [] => mret done
  | v :: rest => do! v <- build_validator n gentxDir done v rest; build_validators n gentxDir (done ++ [v]) rest
  end.

(** [Build] up to its summary. *)
Definition build_network (n : Network) (count : Z) (outputDir seedIPv4Addr : string) : M St (list Validator) :=
  run! CLI_Reset [outputDir];
  run! createDirs [slash outputDir ValidatorsDir; slash outputDir GentxsDir];
  let gentxDir := slash outputDir GentxsDir in
  do! validators <- initValidators (Z.to_nat count) outputDir (n_ChainID n) true seedIPv4Addr;
  do! validators <- build_validators n gentxDir [] validators;
  run! collectGenTxs gentxDir (v_NodeHomeDir (getSeedValidator validators));
  run! setPeers validators;
  run! copyGenesis validators;
  mret validators.
Definition Build (n : Network) (count : Z) (outputDir seedIPv4Addr : string) : M St string :=
  do! validators <- build_network n count outputDir seedIPv4Addr;
  mret (yaml_Validators validators).

(** ** node/node.go *)

Definition node_Reset (nodeDir : option string) : M St unit := run! ResetState (default DefaultNodeHome nodeDir); mret tt.

Definition node_generatePassword (n : Node) : M St Node := do! password <- on_world password_Generate; mret (with_password n password).
Definition generateNodeKeyAddress (n : Node) : M St Node :=
  if d_Standalone n then
    do! output <- AddKey (d_CLI n) (d_Moniker n) (d_Mnemonic n) (d_Password n) DefaultNodeHome;
    do! key <- mlift (first_key output);
    mret (with_address n (ko_Address key))
  else
    do! tmpKeyring <- mlift (RecoverFromMnemonic (NewKey (d_Moniker n) (d_Password n)) (d_Mnemonic n));
    mret (with_address n (k_Address tmpKeyring)).
Definition setup (n : Node) : M St Node :=
  run! InitChain (d_ChainID n) (d_Moniker n) DefaultNodeHome;
  do! n <- node_generatePassword n;
  generateNodeKeyAddress n.

(** The text of a member of an object, as it stands ([json.RawMessage]); the last one of the
    name counts, as for [Unmarshal]. *)
Fixpoint raw_members (fuel : nat) (key s : string) (found : option string) : option string :=
  match fuel with
  | O => found
  | S fuel =>
      match skip_ws s with
      | String q s =>
          if Ascii.eqb q quote then
            match parse_chars s with
            | Some (k, s) =>
                match skip_ws s with
                | String ":" s =>
                    let v := skip_ws s in
                    match parse_value (2 * String.length v + 2) v with
                    | Some (j, s) =>
                        let text := substring 0 (String.length v - String.length s) v in
                        let found := if EqualFold k key then (match j with JNull => None | _ => Some text end) else found in
                        match skip_ws s with String "," s => raw_members fuel key s found | _ => found end
                    | None => found
                    end
                | _ => found
                end
            | None => found
            end
          else found
      | EmptyString => found
      end
  end.
Definition raw_member (key s : string) : option string :=
  match skip_ws s with String "{" s => raw_members (String.length s) key s None | _ => None end.
(** [genesis.Result.Genesis] of node/types/genesis.go; a text of another form is an error, and
    without the member the pointer is nil. *)
Definition parse_answer (body : string) : res (option string) :=
  match json_parse body with
  | Some JNull => Ok None
  | Some (JObject kvs) =>
      if forallb (fun v => match v with JObject _ | JNull => true | _ => false end) (given ["result"] "result" kvs)
      then Ok (match raw_member "result" body with Some result => raw_member "genesis" result | None => None end)
      else Err json_error
  | _ => Err json_error
  end.
Definition downloadGenesis (n : Node) : M St (option string) :=
  do! body <- on_world (http_Get (d_GenesisURL n)); mlift (parse_answer body).
Definition saveGenesis (n : Node) (genesis : option string) : M St unit :=
  match genesis with Some text => write_file (GenesisFilePath (d_CLI n)) text | None => mpanic end.

Definition P2PPort : Z := 26656.
Definition MaxNumInboundPeers : Z := 1000.
Definition MaxNumOutboundPeers : Z := 1000.
Definition AllowDuplicateIP : bool := true.
Definition edit_config (n : Node) (config : Json) : Json :=
  let config := if d_Standalone n then config else put persistent_peers (JString (d_PeerAddress n)) config in
  let config := if String.eqb (d_IPAddr n) "" then config
                else put ["p2p"; "external_address"] (JString (d_IPAddr n +:+ ":" +:+ big_String P2PPort)) config in
  let config := put ["rpc"; "cors_allowed_origins"] (JArray [JString "*"]) config in
  let config := put ["rpc"; "cors_allowed_headers"] (JArray [JString "*"]) config in
  let config := put ["p2p"; "max_num_inbound_peers"] (JNumber (big_String MaxNumInboundPeers)) config in
  let config := put ["p2p"; "max_num_outbound_peers"] (JNumber (big_String MaxNumOutboundPeers)) config in
  put ["p2p"; "allow_duplicate_ip"] (JBool AllowDuplicateIP) config.
Definition edit_app (n : Node) (config : Json) : Json :=
  let config := put ["api"; "enable"] (JBool (d_EnableAPI n)) config in
  let config := put ["api"; "enabled-unsafe-cors"] (JBool true) config in
  put ["grpc"; "enable"] (JBool (d_EnableGrpc n)) config.
Definition replace_toml (t : GoType) (path : string) (edit : Json -> Json) : M St unit :=
  do! content <- read_file path;
  do! config <- mlift (toml_Decode t content);
  run! write_file path "";
  write_toml t path (edit config).
Definition replaceConfigTOML (n : Node) : M St unit := replace_toml ConfigTOML (ConfigFilePath (d_CLI n)) (edit_config n).
Definition replaceAppTOML (n : Node) : M St unit := replace_toml AppTOML (AppFilePath (d_CLI n)) (edit_app n).

Definition networkGenesis (n : Node) : M St unit :=
  do! genesis <- downloadGenesis n;
  run! saveGenesis n genesis;
  run! replaceConfigTOML n;
  replaceAppTOML n.

(** The error of [NodeID] is ignored, and its nil result dereferenced. *)
Definition seedGenesis (n : Node) : M St unit :=
  run! AddGenesisAccount (d_Address n) DefaultNodeHome [d_MintAmount n];
  run! mfor (d_AdminCLPAddresses n) (fun adminAddress => run! AddGenesisCLPAdmin (d_CLI n) adminAddress DefaultNodeHome; mret tt);
  run! (if String.eqb (d_AdminOracleAddress n) "" then mret tt
        else run! SetGenesisOracleAdmin (d_CLI n) (d_AdminOracleAddress n) DefaultNodeHome; mret tt);
  do! gentxDir <- on_world (TempDir "gentx");
  do! nodeID <- mtry (NodeID DefaultNodeHome);
  do! pubKey <- ValidatorAddress DefaultNodeHome;
  do! nodeID <- match nodeID with inl id => mret id | inr _ => mpanic end;
  run! GenerateGenesisTxn (d_CLI n) (d_Moniker n) (d_Password n) (d_BondAmount n) DefaultNodeHome (slash gentxDir "gentx.json")
    (TrimSuffix nodeID newline) (TrimSuffix pubKey newline) (d_IPAddr n) (d_ChainID n);
  run! CollectGenesisTxns gentxDir DefaultNodeHome;
  run! ReplaceStakingBondDenom DefaultNodeHome;
  run! ReplaceCLPMinCreatePoolThreshold DefaultNodeHome (d_MinCLPCreatePoolThreshold n);
  run! ReplaceGovDepositParamsMinDeposit DefaultNodeHome StakeTokenDenom;
  run! ReplaceGovDepositParamsMaxDepositPeriod DefaultNodeHome (d_GovMaxDepositPeriod n);
  run! ReplaceGovVotingParamsVotingPeriod DefaultNodeHome (d_GovVotingPeriod n);
  run! replaceConfigTOML n;
  replaceAppTOML n.

Definition node_genesis (n : Node) : M St unit := if d_Standalone n then seedGenesis n else networkGenesis n.

Definition setupCosmovisor (n : Node) : M St unit :=
  if negb (d_WithCosmovisor n) then mret tt
  else
    let bin := DefaultNodeHome +:+ "/cosmovisor/genesis/bin" in
    run! CreateDir bin;
    run! CreateDir (DefaultNodeHome +:+ "/cosmovisor/upgrades");
    do! PATH <- mgets (fun s => Getenv "PATH" (sys_World s));
    run! on_world (Setenv "PATH" (PATH +:+ ":" +:+ bin));
    do! path <- DaemonPath;
    run! MoveFile (TrimSuffix path newline) (bin +:+ "/");
    mret tt.

Definition cleanup (n : Node) : M St unit := if d_Standalone n then empty_dir (slash DefaultNodeHome "keyring-test") else mret tt.

(** Nothing is done when there is a genesis file already. *)
Definition node_Build (n : Node) : M St (option string) :=
  do! found <- mgets (fun s => Stat (slash DefaultNodeHome "config/genesis.json") (sys_World s));
  if found : bool then mret None
  else
    do! n <- setup n;
    run! node_genesis n;
    run! setupCosmovisor n;
    run! cleanup n;
    mret (Some (yaml_Node n)).

(** ** akhgen.go and the commands *)

(** [strconv.Atoi] without its error: zero for no number, the nearest one when it does not fit. *)
Definition Atoi_value (s : string) : Z :=
  match big_SetString s with Some z => Z.max (- 2 ^ 63) (Z.min z (2 ^ 63 - 1)) | None => 0 end.

(** [log.Fatal] ends the process, as a panic does. *)
Definition networkCreateCmd (bondAmount mintAmount keyringBackend : string) (args : list string) : M St unit :=
  match args with
  | chainID :: count :: outputDir :: seedIP :: more =>
      let network := mkNetwork chainID (NewCLI DefaultNodeHome chainID keyringBackend) bondAmount mintAmount in
      do! summary <- mmust (Build network (Atoi_value count) outputDir seedIP);
      match more with
      | outputFile :: _ => mmust (write_file outputFile summary)
      | [] => mpanic
      end
  | _ => mthrow (PlainErr "requires at least 4 arg(s)")
  end.
Definition networkResetCmd (args : list string) : M St unit :=
  match args with
  | chainID :: networkDir :: _ => mmust (network_Reset chainID networkDir)
  | _ => mthrow (PlainErr "requires at least 2 arg(s)")
  end.
(** [Akhgen.NetworkCreate], which no command calls: the amounts are empty. *)
Definition NetworkCreate (chainID : string) (count : Z) (outputDir startingIPAddress outputFile : string) : M St unit :=
  do! summary <- mmust (Build (NewNetwork chainID) count outputDir startingIPAddress);
  mmust (write_file outputFile summary).

(** [strings.Split(s, "|")]. *)
Fixpoint split_bar (s : string) : list string :=
  match s with
  | EmptyString => [""]
  | String "|" s' => "" :: split_bar s'
  | String c s' => match split_bar s' with x :: l => String c x :: l | [] => [String c ""] end
  end.

Record NodeFlags := mkNodeFlags {
  f_standalone : bool;
  f_adminCLPAddresses : string;
  f_adminOracleAddress : string;
  f_bindIPAddress : string;
  f_peerAddress : string;
  f_genesisURL : string;
  f_bondAmount : string;
  f_mintAmount : string;
  f_minCLPCreatePoolThreshold : Z;
  f_govMaxDepositPeriod : Z;
  f_govVotingPeriod : Z;
  f_withCosmovisor : bool;
  f_enableGrpc : bool;
  f_enableAPI : bool;
  f_keyringBackend : string;
}.
Definition node_of_flags (f : NodeFlags) (chainID moniker mnemonic : string) : Node :=
  let cli := NewCLI DefaultNodeHome chainID (f_keyringBackend f) in
  if f_standalone f then
    mkNode cli (if String.eqb (f_adminCLPAddresses f) "" then [] else split_bar (f_adminCLPAddresses f)) chainID moniker mnemonic
      (f_adminOracleAddress f) (f_bindIPAddress f) "" "" (f_bondAmount f) (f_mintAmount f) (f_minCLPCreatePoolThreshold f)
      (f_govMaxDepositPeriod f) (f_govVotingPeriod f) "" "" true (f_withCosmovisor f) (f_enableGrpc f) (f_enableAPI f)
  else
    mkNode cli [] chainID moniker mnemonic "" (f_bindIPAddress f) "" "" "" "" 0 0 0 (f_peerAddress f) (f_genesisURL f) false
      (f_withCosmovisor f) (f_enableGrpc f) (f_enableAPI f).
(** The summary is printed, if details are asked for. *)
Definition nodeCreateCmd (f : NodeFlags) (args : list string) : M St (option string) :=
  match args with
  | chainID :: moniker :: mnemonic :: _ => mmust (node_Build (node_of_flags f chainID moniker mnemonic))
  | _ => mthrow (PlainErr "requires at least 3 arg(s)")
  end.
Definition nodeResetStateCmd (args : list string) : M St unit :=
  match args with
  | [] => mthrow (PlainErr "requires at least 1 arg(s)")
  | [_] => mmust (node_Reset None)
  | _ :: nodeDir :: _ => mmust (node_Reset (Some nodeDir))
  end.
Definition KeyGenerateMnemonic (name password : string) : M St string :=
  do! newKey <- GenerateMnemonic (NewKey name password); mret (k_Mnemonic newKey).
Definition KeyRecoverFromMnemonic (mnemonic : string) : res Key := panicOnErr (RecoverFromMnemonic (NewKey "" "") mnemonic).
End Model.

(** ** Laws of the parameters *)

(** A written file holds what was written, and other files what they held. *)
Class OSLaws (W : Type) `{OS W} := {
  same_file : string -> string -> Prop;
  read_written p c w w' : WriteFile p c w = (w', Ok tt) -> ReadFile p w' = Ok c;
  read_other p q c w w' r : WriteFile p c w = (w', r) -> ~ same_file p q -> ReadFile q w' = ReadFile q w;
}.

(** TOML text is decoded into the struct it was encoded from. *)
Class CodecsLaws `{TimeText, Codecs} : Prop := {
  toml_typed t s v : toml_Decode t s = Ok v -> has_type t v = true;
  toml_roundtrip t s v : has_type t v = true -> toml_Encode t v = Ok s -> toml_Decode t s = Ok v;
}.

(** JSON text of tendermint is that of the value. *)
Class TmJsonLaws `{TimeText, TmJson} : Prop := {
  tm_Marshal_text v s : has_type Genesis v = true -> tm_Marshal v = Ok s -> json_parse s = Some v;
}.

(** ** What a network is *)

(** The commands of one validator; the accounts and transactions go to the seed. *)
Definition validator_commands (n : Network) (gentxDir : string) (seed v : Validator) : list Command :=
  let c := n_CLI n in
  let add home :=
    mkCommand daemon ["keys"; "add"; v_Moniker v; "--home"; slash home ".akhiranoded"; "-i"; "--keyring-backend"; cli_keyringBackend c]
      (formatInputs [v_Mnemonic v; ""]) in
  let run args := mkCommand daemon args [] in
  let account := run ["add-genesis-account"; v_Address v; n_MintAmount n; "--home"; v_NodeHomeDir seed] in
  let gentx :=
    mkCommand daemon
      ["gentx"; v_Moniker v; n_BondAmount n; "--details"; v_Moniker v; "--keyring-backend"; cli_keyringBackend c; "--home"; v_NodeHomeDir seed;
       "--output-document"; slash gentxDir (v_Moniker v +:+ ".json"); "--node-id"; v_NodeID v; "--pubkey"; v_ValidatorAddress v;
       "--ip"; v_IPv4Address v; "--chain-id"; n_ChainID n] (passwords c 3 (v_Password v)) in
  [add (v_HomeDir v);
   run ["init"; v_Moniker v; "--chain-id"; v_ChainID v; "--home"; v_NodeHomeDir v];
   run ["tendermint"; "show-validator"; "--home"; v_NodeHomeDir v];
   run ["tendermint"; "show-address"; "--home"; v_NodeHomeDir v];
   run ["tendermint"; "show-node-id"; "--home"; v_NodeHomeDir v]]
  ++ (if v_Seed v then
        [account; run ["set-genesis-oracle-admin"; v_Address v; "--home"; v_NodeHomeDir v; "--keyring-backend"; cli_keyringBackend c]; gentx]
      else [add (v_HomeDir seed); account; gentx]).

Definition distinct_files {W} `{OSLaws W} (vs : list Validator) : Prop :=
  forall i j v w, vs !! i = Some v -> vs !! j = Some w ->
    ~ same_file (config_file v) (genesis_file w) /\ ~ same_file (genesis_file v) (config_file w) /\
    (i <> j -> ~ same_file (config_file v) (config_file w) /\ ~ same_file (genesis_file v) (genesis_file w)).

Section Proofs.
Context {W : Type} `{OSLaws W, TimeTextLaws, !TmJson, !TmJsonLaws, Codecs, !CodecsLaws, SdkAddress, Keyring} (DefaultNodeHome : string).
Abbreviation St := (System W).

Lemma on_world_commands {A} (m : M W A) (s s' : St) r : on_world m s = (s', r) -> sys_Commands s' = sys_Commands s.
Proof. unfold on_world. destruct (m (sys_World s)). by intros [= <- _]. Qed.
Lemma shellExec_commands cmd args (s s' : St) a :
  shellExec cmd args s = (s', Ok a) -> sys_Commands s' = sys_Commands s ++ [mkCommand cmd args []].
Proof. unfold shellExec. intros Hr. run_step Hr as u s1 Hs. apply mmodify_ok_inv in Hs as ->. by apply on_world_commands in Hr. Qed.
Lemma shellExecInput_commands cmd inputs args (s s' : St) a :
  shellExecInput cmd inputs args s = (s', Ok a) -> sys_Commands s' = sys_Commands s ++ [mkCommand cmd args inputs].
Proof. unfold shellExecInput. intros Hr. run_step Hr as u s1 Hs. apply mmodify_ok_inv in Hs as ->. by apply on_world_commands in Hr. Qed.
Lemma AddKey_commands c name mnemonic password dir (s s' : St) a :
  AddKey c name mnemonic password dir s = (s', Ok a) ->
  sys_Commands s' = sys_Commands s ++
    [mkCommand daemon ["keys"; "add"; name; "--home"; dir; "-i"; "--keyring-backend"; cli_keyringBackend c] (formatInputs [mnemonic; ""])].
Proof. unfold AddKey. destruct (String.eqb _ _); [done|]. apply shellExecInput_commands. Qed.

Lemma read_file_ok path (s s' : St) text : read_file path s = (s', Ok text) -> s' = s /\ ReadFile path (sys_World s) = Ok text.
Proof. unfold read_file. intros Hr. go_inv. done. Qed.
Lemma write_file_commands p c (s s' : St) r : write_file p c s = (s', r) -> sys_Commands s' = sys_Commands s.
Proof. apply on_world_commands. Qed.
Lemma write_file_read p c (s s' : St) : write_file p c s = (s', Ok tt) -> ReadFile p (sys_World s') = Ok c.
Proof.
  unfold write_file, on_world. destruct (WriteFile p c (sys_World s)) as [w r] eqn:E. intros [= <- ->]. by eapply read_written.
Qed.
Lemma write_file_other p q c (s s' : St) r : write_file p c s = (s', r) -> ~ same_file p q ->
  ReadFile q (sys_World s') = ReadFile q (sys_World s).
Proof.
  unfold write_file, on_world. destruct (WriteFile p c (sys_World s)) as [w r'] eqn:E. intros [= <- <-]. by eapply read_other.
Qed.

Lemma replace_commands home edit (s s' : St) u : replace home edit s = (s', Ok u) -> sys_Commands s' = sys_Commands s.
Proof.
  unfold replace, readGenesis, writeGenesis. intros Hr. run_step Hr as g s1 Hg. run_step Hg as body s2 Hb.
  apply read_file_ok in Hb as [-> _]. lift_step Hr as g' Hg'. lift_step Hr as content Hc. apply mlift_ok_inv in Hg as [-> _].
  by apply write_file_commands in Hr.
Qed.
Lemma createDirs_commands l (s s' : St) u : createDirs l s = (s', Ok u) -> sys_Commands s' = sys_Commands s.
Proof.
  unfold createDirs, CreateDir. revert s. induction l as [|x l IH]; intros s Hr; simpl in Hr; [by apply mret_ok_inv in Hr as [-> _]|].
  run_step Hr as u1 s1 Hx. apply on_world_commands in Hx. rewrite <- Hx. by apply IH.
Qed.
Lemma empty_dir_commands p (s s' : St) u : empty_dir p s = (s', Ok u) -> sys_Commands s' = sys_Commands s.
Proof.
  unfold empty_dir. intros Hr. get_step Hr. destruct (ReadDir p (sys_World s)) as [dir err]. run_step Hr as u1 s1 Hd.
  assert (sys_Commands s1 = sys_Commands s) as <-; [|destruct err; [done|by apply mret_ok_inv in Hr as [-> _]]].
  clear Hr. revert s Hd. induction dir as [|x dir IH]; intros s Hd; simpl in Hd; [by apply mret_ok_inv in Hd as [-> _]|].
  run_step Hd as u2 s2 Hx. run_step Hx as r s3 Ht. apply mret_ok_inv in Hx as [-> _].
  assert (sys_Commands s3 = sys_Commands s) as <- by (apply mtry_ok_inv in Ht as [(a & _ & Ht)|(e & _ & Ht)]; by apply on_world_commands in Ht).
  by apply IH.
Qed.

(** ** The validators *)

Lemma generate_mnemonic_commands (s s' : St) m : generate_mnemonic s = (s', Ok m) -> sys_Commands s' = sys_Commands s.
Proof.
  unfold generate_mnemonic. intros Hr. run_step Hr as e s1 He. run_step Hr as r s2 Hm. apply mret_ok_inv in Hr as [-> _].
  assert (sys_Commands s1 = sys_Commands s) as <- by (apply mtry_ok_inv in He as [(a & _ & He)|(x & _ & He)]; by apply on_world_commands in He).
  by apply mtry_ok_inv in Hm as [(a & _ & Hm)|(x & _ & Hm)]; injection Hm as <- _.
Qed.

(** What [NewValidator] makes of a name. *)
Definition located (outputDir chainID : string) (v : Validator) : Prop :=
  v_ChainID v = chainID /\ v_HomeDir v = outputDir +:+ "/validators/" +:+ chainID +:+ "/" +:+ v_Moniker v
  /\ v_NodeHomeDir v = slash (v_HomeDir v) NodeHomeDir.

Lemma NewValidator_ok root chainID seed last (s s' : St) v : NewValidator root chainID seed last s = (s', Ok v) ->
  sys_Commands s' = sys_Commands s /\ nextIP last = Ok (v_IPv4Address v) /\ v_Seed v = seed /\ located root chainID v.
Proof.
  unfold NewValidator. intros Hr. run_step Hr as moniker s1 Hm. lift_step Hr as ip Hip. run_step Hr as pw s2 Hp. run_step Hr as m s3 Hg.
  apply mret_ok_inv in Hr as [-> ->]. apply on_world_commands in Hm. apply generate_mnemonic_commands in Hg.
  assert (sys_Commands s2 = sys_Commands s1) as Hp'.
  { unfold generatePassword in Hp. run_step Hp as r s4 Ht. apply mret_ok_inv in Hp as [-> _].
    by apply mtry_ok_inv in Ht as [(a & _ & Ht)|(x & _ & Ht)]; apply on_world_commands in Ht. }
  unfold located, slash. simpl. split_and!; try done; [congruence|]. by rewrite !string_app_assoc.
Qed.

Fixpoint numbered (last : string) (vs : list Validator) : Prop :=
  match vs with [] => True | v :: l => nextIP last = Ok (v_IPv4Address v) /\ numbered (v_IPv4Address v) l end.

Lemma initValidators_ok count root chainID seed last (s s' : St) vs : initValidators count root chainID seed last s = (s', Ok vs) ->
  sys_Commands s' = sys_Commands s /\ length vs = count /\ numbered last vs /\ Forall (located root chainID) vs
  /\ forall i v, vs !! i = Some v -> v_Seed v = seed && (i =? 0)%nat.
Proof.
  revert seed last s vs. induction count as [|count IH]; intros seed last s vs Hr; cbn [initValidators] in Hr.
  { by apply mret_ok_inv in Hr as [-> ->]. }
  run_step Hr as v s1 Hv. run_step Hr as l s2 Hl. apply mret_ok_inv in Hr as [-> ->].
  apply NewValidator_ok in Hv as (Hc & Hip & Hs & Hloc). apply IH in Hl as (Hc' & Hlen & Hnum & Hall & Hseed).
  split_and!; [congruence|simpl; lia|done|by constructor|]. intros [|i] w Hi; simpl in Hi.
  - injection Hi as <-. by rewrite Hs, andb_true_r.
  - rewrite (Hseed i w Hi). by rewrite andb_false_r.
Qed.

Lemma nextIP_dotted a b c d : byte a -> byte b -> byte c -> byte d -> nextIP (dotted a b c d) = Ok (dotted a b c ((d + 1) mod 256)).
Proof. intros. unfold nextIP. by rewrite ParseIP_dotted. Qed.

Lemma byte_mod z : byte (z mod 256).
Proof. unfold byte. pose proof (Z.mod_pos_bound z 256 ltac:(lia)). lia. Qed.

Lemma numbered_address a b c d vs i v : byte a -> byte b -> byte c -> byte d -> numbered (dotted a b c d) vs -> vs !! i = Some v ->
  v_IPv4Address v = dotted a b c ((d + 1 + Z.of_nat i) mod 256).
Proof.
  intros Ha Hb Hc. revert d i. induction vs as [|w vs IH]; intros d i Hd Hn Hi; [done|]. destruct Hn as [Hip Hn].
  rewrite nextIP_dotted in Hip by done. injection Hip as Hip. rewrite <- Hip in Hn.
  destruct i as [|i]; simpl in Hi; [injection Hi as <-; rewrite <- Hip, Z.add_0_r; done|].
  rewrite (IH _ i (byte_mod _) Hn Hi). f_equal. rewrite Nat2Z.inj_succ, <- Z.add_assoc, Z.add_mod_idemp_l by lia. f_equal. lia.
Qed.

Lemma numbered_distinct a b c d vs : byte a -> byte b -> byte c -> byte d -> numbered (dotted a b c d) vs -> (length vs <= 256)%nat ->
  NoDup (v_IPv4Address <$> vs).
Proof.
  intros Ha Hb Hc Hd Hn Hlen. apply NoDup_alt. intros i j x Hi Hj.
  apply list_lookup_fmap_Some in Hi as (v & -> & Hv). apply list_lookup_fmap_Some in Hj as (w & E & Hw).
  pose proof (lookup_lt_Some _ _ _ Hv). pose proof (lookup_lt_Some _ _ _ Hw).
  rewrite (numbered_address a b c d vs i v), (numbered_address a b c d vs j w) in E by done.
  apply dotted_inj in E; [|done || apply byte_mod..]. injection E as E.
  pose proof (Z.div_mod (d + 1 + Z.of_nat i) 256 ltac:(lia)). pose proof (Z.div_mod (d + 1 + Z.of_nat j) 256 ltac:(lia)). nia.
Qed.

(** ** The loop of [Build] *)

(** What the loop does not change of a validator. *)
Definition kept (v v' : Validator) : Prop :=
  v_ChainID v' = v_ChainID v /\ v_IPv4Address v' = v_IPv4Address v /\ v_HomeDir v' = v_HomeDir v /\ v_NodeHomeDir v' = v_NodeHomeDir v
  /\ v_Moniker v' = v_Moniker v /\ v_Password v' = v_Password v /\ v_Mnemonic v' = v_Mnemonic v /\ v_Seed v' = v_Seed v.

Lemma kept_trans a b c : kept a b -> kept b c -> kept a c.
Proof. unfold kept. intuition congruence. Qed.

Lemma generateKey_ok n v (s s' : St) v' : generateKey n v s = (s', Ok v') ->
  kept v v' /\ sys_Commands s' = sys_Commands s ++
    [mkCommand daemon ["keys"; "add"; v_Moniker v; "--home"; slash (v_HomeDir v) ".akhiranoded"; "-i"; "--keyring-backend";
       cli_keyringBackend (n_CLI n)] (formatInputs [v_Mnemonic v; ""])].
Proof.
  unfold generateKey. intros Hr. run_step Hr as out s1 Ho. lift_step Hr as key Hk. apply mret_ok_inv in Hr as [-> ->].
  by apply AddKey_commands in Ho.
Qed.

(** A step that shows something of the validator and stores the answer. *)
Lemma set_ok (show : M St string) (f : string -> Validator) args (s s' : St) v' :
  (do! output <- show; mret (f (TrimSuffix output newline))) s = (s', Ok v') ->
  (forall s s' a, show s = (s', Ok a) -> sys_Commands s' = sys_Commands s ++ [mkCommand daemon args []]) ->
  sys_Commands s' = sys_Commands s ++ [mkCommand daemon args []] /\ exists a, v' = f a.
Proof. intros Hr Hshow. run_step Hr as a s1 Ha. apply mret_ok_inv in Hr as [-> ->]. split; [by eapply Hshow|eauto]. Qed.

(** A step starts these commands, whatever it returns. *)
Definition emits {A} (m : M St A) (l : list Command) : Prop :=
  forall s s' a, m s = (s', Ok a) -> sys_Commands s' = sys_Commands s ++ l.

Lemma emits_unit {A} (m : M St A) l : emits m l -> emits (run! m; mret tt) l.
Proof. intros Hm s s' u Hr. run_step Hr as a s1 Ha. apply mret_ok_inv in Hr as [-> _]. by eapply Hm. Qed.

Lemma initChain_emits v : emits (initChain v) [mkCommand daemon ["init"; v_Moniker v; "--chain-id"; v_ChainID v; "--home"; v_NodeHomeDir v] []].
Proof. apply emits_unit. intros s s' a. apply shellExec_commands. Qed.
Lemma addGenesis_emits n a home : emits (addGenesis n a home) [mkCommand daemon ["add-genesis-account"; a; n_MintAmount n; "--home"; home] []].
Proof. apply emits_unit. intros s s' r. apply shellExec_commands. Qed.
Lemma setGenesisOracleAdmin_emits n a home : emits (setGenesisOracleAdmin n a home)
  [mkCommand daemon ["set-genesis-oracle-admin"; a; "--home"; home; "--keyring-backend"; cli_keyringBackend (n_CLI n)] []].
Proof. apply emits_unit. intros s s' r. apply shellExec_commands. Qed.
Lemma addValidatorKeyToSeed_emits n v seed : emits (addValidatorKeyToSeed n v seed)
  [mkCommand daemon ["keys"; "add"; v_Moniker v; "--home"; slash (v_HomeDir seed) ".akhiranoded"; "-i"; "--keyring-backend";
     cli_keyringBackend (n_CLI n)] (formatInputs [v_Mnemonic v; ""])].
Proof. apply emits_unit. intros s s' r. apply AddKey_commands. Qed.
Lemma generateTx_emits n v home gentxDir : emits (generateTx n v home gentxDir)
  [mkCommand daemon
     ["gentx"; v_Moniker v; n_BondAmount n; "--details"; v_Moniker v; "--keyring-backend"; cli_keyringBackend (n_CLI n); "--home"; home;
      "--output-document"; slash gentxDir (v_Moniker v +:+ ".json"); "--node-id"; v_NodeID v; "--pubkey"; v_ValidatorAddress v;
      "--ip"; v_IPv4Address v; "--chain-id"; n_ChainID n] (passwords (n_CLI n) 3 (v_Password v))].
Proof. apply emits_unit. intros s s' r. apply shellExecInput_commands. Qed.
Lemma collectGenTxs_emits gentxDir home :
  emits (collectGenTxs gentxDir home) [mkCommand daemon ["collect-gentxs"; "--gentx-dir"; gentxDir; "--home"; home] []].
Proof. apply emits_unit. intros s s' r. apply shellExec_commands. Qed.

(** The seed among the validators keeps what the commands name of it. *)
Definition same_seed (a b : Validator) : Prop := v_NodeHomeDir a = v_NodeHomeDir b /\ v_HomeDir a = v_HomeDir b /\ v_Password a = v_Password b.

Lemma build_validator_ok n gentxDir done v rest seed (s s' : St) v' :
  build_validator n gentxDir done v rest s = (s', Ok v') ->
  (forall v1, kept v v1 -> same_seed (getSeedValidator (done ++ v1 :: rest)) seed) -> (v_Seed v = true -> same_seed v seed) ->
  kept v v' /\ sys_Commands s' = sys_Commands s ++ validator_commands n gentxDir seed v'.
Proof.
  unfold build_validator. intros Hr Hseed Hself. run_step Hr as u0 s0 H0'. apply createDirs_commands in H0'.
  run_step Hr as v1 s1 H1'. apply generateKey_ok in H1' as [K1 H1'].
  run_step Hr as u2 s2 H2'. apply initChain_emits in H2'.
  run_step Hr as v3 s3 H3'. apply set_ok with (args := ["tendermint"; "show-validator"; "--home"; v_NodeHomeDir v1]) in H3' as [H3' [a3 ->]];
    [|intros ? ? ?; apply shellExec_commands].
  run_step Hr as v4 s4 H4'. apply set_ok with (args := ["tendermint"; "show-address"; "--home"; v_NodeHomeDir v1]) in H4' as [H4' [a4 ->]];
    [|intros ? ? ?; apply shellExec_commands].
  run_step Hr as u5 s5 H5'. apply replace_commands in H5'. run_step Hr as u6 s6 H6'. apply replace_commands in H6'.
  run_step Hr as v7 s7 H7'. apply set_ok with (args := ["tendermint"; "show-node-id"; "--home"; v_NodeHomeDir v1]) in H7' as [H7' [a7 ->]];
    [|intros ? ? ?; apply shellExec_commands].
  set (v2 := with_node_id _ _) in Hr. assert (kept v v2) as K2 by exact K1.
  assert (sys_Commands s7 = sys_Commands s ++ take 5 (validator_commands n gentxDir seed v2)) as Hc.
  { destruct K1 as (E1 & E2 & E3 & E4 & E5 & E6 & E7 & E8). rewrite H7', H6', H5', H4', H3', H2', H1', H0', <- !app_assoc.
    unfold v2. simpl. by rewrite E1, E3, E4, E5, E7. }
  clear H0' H1' H2' H3' H4' H5' H6' H7'. specialize (Hseed v2 K2). clearbody v2.
  assert (v_Seed v2 = v_Seed v) as Es2 by apply K2. destruct (v_Seed v2) eqn:Es; simpl in Hr.
  - destruct (Hself (eq_sym Es2)) as (Eh & _). replace (v_NodeHomeDir v2) with (v_NodeHomeDir seed) in Hr
      by (destruct K2 as (_ & _ & _ & -> & _); congruence).
    run_step Hr as u8 s8 H8'. apply addGenesis_emits in H8'. run_step Hr as u9 s9 H9'. apply setGenesisOracleAdmin_emits in H9'.
    run_step Hr as u10 s10 H10'. apply generateTx_emits in H10'. apply mret_ok_inv in Hr as [-> ->]. split; [done|].
    rewrite H10', H9', H8', Hc, <- !app_assoc. unfold validator_commands. rewrite Es. simpl. do 7 f_equal.
    destruct K2 as (_ & _ & _ & -> & _). by rewrite Eh.
  - destruct Hseed as (Eh & Eh' & Ep). rewrite Eh in Hr.
    run_step Hr as u8 s8 H8'. apply addValidatorKeyToSeed_emits in H8'. run_step Hr as u9 s9 H9'. apply addGenesis_emits in H9'.
    run_step Hr as u10 s10 H10'. apply generateTx_emits in H10'. apply mret_ok_inv in Hr as [-> ->]. split; [done|].
    rewrite H10', H9', H8', Hc, <- !app_assoc. unfold validator_commands. rewrite Es. simpl. by rewrite Eh'.
Qed.

Lemma build_validators_ok n gentxDir seed : forall rest done (s s' : St) vs,
  build_validators n gentxDir done rest s = (s', Ok vs) ->
  (forall x, head (done ++ rest) = Some x -> v_Seed x = true /\ same_seed x seed) ->
  (forall x, x ∈ tail (done ++ rest) -> v_Seed x = false) ->
  exists built, vs = done ++ built /\ Forall2 kept rest built
    /\ sys_Commands s' = sys_Commands s ++ mjoin (validator_commands n gentxDir seed <$> built).
Proof.
  assert (forall v v1, kept v v1 -> same_seed v seed -> same_seed v1 seed) as Hkept.
  { intros v v1 (_ & _ & E3 & E4 & _ & E6 & _) (? & ? & ?). unfold same_seed. by rewrite E3, E4, E6. }
  induction rest as [|v rest IH]; intros done s s' vs Hr Hhead Htail; cbn [build_validators] in Hr.
  { apply mret_ok_inv in Hr as [-> ->]. exists []. by rewrite !app_nil_r. }
  run_step Hr as v' s1 Hv. apply build_validator_ok with (seed := seed) in Hv as [K Hc].
  - destruct (IH (done ++ [v']) _ _ _ Hr) as (built & -> & HK & Hc').
    + intros x. destruct done as [|w done]; simpl in *; [|apply Hhead]. intros [= <-]. destruct (Hhead v eq_refl) as [E Hs].
      split; [|by eapply Hkept]. destruct K as (_ & _ & _ & _ & _ & _ & _ & ->). done.
    + intros x Hx. destruct done as [|w done]; simpl in *; [by apply Htail|]. rewrite <- app_assoc in Hx.
      apply elem_of_app in Hx as [Hx|[->|Hx]%elem_of_cons]; [apply Htail, elem_of_app; by left| |apply Htail, elem_of_app; right; by right].
      destruct K as (_ & _ & _ & _ & _ & _ & _ & ->). apply Htail, elem_of_app. right. left.
    + exists (v' :: built). rewrite <- app_assoc. split_and!; [done|by constructor|]. rewrite Hc', Hc, <- app_assoc. done.
  - intros v1 K. unfold getSeedValidator. destruct done as [|w done]; simpl.
    + destruct (Hhead v eq_refl) as [E Hs]. assert (v_Seed v1 = true) as -> by (destruct K as (_ & _ & _ & _ & _ & _ & _ & ->); done).
      by eapply Hkept.
    + destruct (Hhead w eq_refl) as [-> Hs]. done.
  - intros E. destruct done as [|w done]; simpl in *; [by apply Hhead|]. rewrite Htail in E; [done|]. apply elem_of_app. right. left.
Qed.

(** ** The peers *)

Lemma generatePeerList_skip l i idx : (idx < i)%nat -> generatePeerList i l idx = peer <$> l.
Proof.
  revert i. induction l as [|v l IH]; intros i Hi; [done|]. cbn [generatePeerList].
  rewrite (proj2 (Nat.eqb_neq i idx)) by lia. simpl. by rewrite IH by lia.
Qed.
Lemma generatePeerList_others l i idx : generatePeerList i l (i + idx) = peer <$> take idx l ++ drop (S idx) l.
Proof.
  revert i idx. induction l as [|v l IH]; intros i idx; [by destruct idx|]. cbn [generatePeerList]. destruct idx as [|idx].
  - rewrite Nat.add_0_r, Nat.eqb_refl. apply generatePeerList_skip. lia.
  - rewrite (proj2 (Nat.eqb_neq i (i + S idx))) by lia.
    replace (i + S idx)%nat with (S i + idx)%nat by lia. by rewrite IH.
Qed.

Lemma ConfigTOML_peers : fields_ok ConfigTOML = true /\ type_at persistent_peers ConfigTOML = Some TString.
Proof. vm_compute. done. Qed.

(** The file of the [i]-th validator names the others. *)
Definition has_peers (vs : list Validator) (i : nat) (v : Validator) (w : W) : Prop :=
  exists text config, ReadFile (config_file v) w = Ok text /\ toml_Decode ConfigTOML text = Ok config
    /\ get persistent_peers config = Some (JString (Join (peer <$> take i vs ++ drop (S i) vs) ",")).

Lemma set_peers_of_ok vs i v (s s' : St) u : set_peers_of vs i v s = (s', Ok u) ->
  has_peers vs i v (sys_World s') /\ sys_Commands s' = sys_Commands s
  /\ forall q, ~ same_file (config_file v) q -> ReadFile q (sys_World s') = ReadFile q (sys_World s).
Proof.
  unfold set_peers_of, write_toml. intros Hr. run_step Hr as content s1 Hc. apply read_file_ok in Hc as [-> _].
  lift_step Hr as config Hd. run_step Hr as u1 s2 Hw. lift_step Hr as text Ht. destruct u.
  pose proof (toml_typed _ _ _ Hd) as Hty. destruct ConfigTOML_peers as [Hok Hat].
  destruct (has_type_get _ _ _ _ Hty Hat) as (old & Hold & _). split_and!.
  - exists text. eexists. split; [by eapply write_file_read|]. split; [eapply toml_roundtrip; [|exact Ht]; by eapply has_type_put|].
    rewrite (get_put _ _ _ _ Hold). do 3 f_equal. apply (generatePeerList_others vs 0 i).
  - apply write_file_commands in Hw, Hr. congruence.
  - intros q Hq. by rewrite (write_file_other _ q _ _ _ _ Hr Hq), (write_file_other _ q _ _ _ _ Hw Hq).
Qed.

Lemma setPeers_commands vs : forall l i (s s' : St) u, setPeers_from vs i l s = (s', Ok u) -> sys_Commands s' = sys_Commands s.
Proof.
  induction l as [|v l IH]; intros i s s' u Hr; cbn [setPeers_from] in Hr; [by apply mret_ok_inv in Hr as [-> _]|].
  run_step Hr as u1 s1 Hv. apply set_peers_of_ok in Hv as (_ & <- & _). by apply IH in Hr.
Qed.

Definition apart (f : Validator -> string) (vs : list Validator) : Prop :=
  forall i j v w, vs !! i = Some v -> vs !! j = Some w -> i <> j -> ~ same_file (f v) (f w).
Lemma apart_cons f v vs : apart f (v :: vs) -> apart f vs /\ forall w, w ∈ vs -> ~ same_file (f v) (f w) /\ ~ same_file (f w) (f v).
Proof.
  intros Ha. split; [intros i j x y Hi Hj Hne; apply (Ha (S i) (S j)); [done..|lia]|].
  intros w [i Hi]%list_elem_of_lookup. split; [by apply (Ha O (S i) v w eq_refl Hi)|by apply (Ha (S i) O w v Hi eq_refl)].
Qed.

Lemma setPeers_from_ok vs : forall l i (s s' : St) u, setPeers_from vs i l s = (s', Ok u) -> apart config_file l ->
  (forall j v, l !! j = Some v -> has_peers vs (i + j) v (sys_World s'))
  /\ forall q, (forall v, v ∈ l -> ~ same_file (config_file v) q) -> ReadFile q (sys_World s') = ReadFile q (sys_World s).
Proof.
  induction l as [|v l IH]; intros i s s' u Hr Ha; cbn [setPeers_from] in Hr; [by apply mret_ok_inv in Hr as [-> _]|].
  run_step Hr as u1 s1 Hv. apply set_peers_of_ok in Hv as (Hp & _ & Hf). apply apart_cons in Ha as [Ha Hva].
  destruct (IH _ _ _ _ Hr Ha) as (Hp' & Hf'). split.
  - intros [|j] w Hw; simpl in Hw; [|rewrite <- Nat.add_succ_comm; by apply Hp']. injection Hw as <-. rewrite Nat.add_0_r.
    destruct Hp as (text & config & Ht & Hrest). exists text, config. split; [|done]. rewrite <- Ht. apply Hf'. intros w Hw. by apply Hva.
  - intros q Hq. rewrite Hf' by (intros w Hw; apply Hq; by right). apply Hf, Hq. left.
Qed.

(** ** The copies of the genesis file *)

Lemma copyGenesis_commands vs (s s' : St) u : copyGenesis vs s = (s', Ok u) -> sys_Commands s' = sys_Commands s.
Proof.
  unfold copyGenesis. generalize (genesis_file (getSeedValidator vs)). intros src. revert s.
  induction vs as [|v vs IH]; intros s Hr; cbn [mfor] in Hr; [by apply mret_ok_inv in Hr as [-> _]|]. run_step Hr as u1 s1 Hv.
  assert (sys_Commands s1 = sys_Commands s) as <-; [|by apply IH]. destruct (v_Seed v); [by apply mret_ok_inv in Hv as [-> _]|].
  run_step Hv as input s2 Hi. apply read_file_ok in Hi as [-> _]. by apply write_file_commands in Hv.
Qed.

Lemma copyGenesis_ok src : forall vs (s s' : St) u,
  mfor vs (fun v => if v_Seed v then mret tt else do! input <- read_file src; write_file (genesis_file v) input) s = (s', Ok u) ->
  apart genesis_file vs -> (forall v, v ∈ vs -> v_Seed v = false -> ~ same_file (genesis_file v) src) ->
  (forall v, v ∈ vs -> v_Seed v = false -> ReadFile (genesis_file v) (sys_World s') = ReadFile src (sys_World s'))
  /\ forall q, (forall v, v ∈ vs -> v_Seed v = false -> ~ same_file (genesis_file v) q) -> ReadFile q (sys_World s') = ReadFile q (sys_World s).
Proof.
  induction vs as [|v vs IH]; intros s s' u Hr Ha Hsrc; cbn [mfor] in Hr.
  { apply mret_ok_inv in Hr as [-> _]. split; [by intros ? ?%elem_of_nil|done]. }
  run_step Hr as u1 s1 Hv. apply apart_cons in Ha as [Ha Hva].
  destruct (IH _ _ _ Hr Ha) as (Hg & Hf); [intros w Hw; apply Hsrc; by right|].
  assert (ReadFile src (sys_World s') = ReadFile src (sys_World s1)) as Es by (apply Hf; intros w Hw; apply Hsrc; by right).
  destruct (v_Seed v) eqn:Ev.
  - apply mret_ok_inv in Hv as [-> _]. split.
    + intros w [->|Hw]%elem_of_cons Hse; [congruence|by apply Hg].
    + intros q Hq. apply Hf. intros w Hw. apply Hq. by right.
  - run_step Hv as input s2 Hi. apply read_file_ok in Hi as [-> Hi]. destruct u1. split.
    + intros w [->|Hw]%elem_of_cons Hse; [|by apply Hg]. rewrite Es, Hf by (intros x Hx _; by apply Hva).
      rewrite (write_file_read _ _ _ _ Hv), (write_file_other _ src _ _ _ _ Hv) by (apply Hsrc; [left|done]). done.
    + intros q Hq. rewrite Hf by (intros w Hw; apply Hq; by right). apply (write_file_other _ _ _ _ _ _ Hv). apply Hq; [left|done].
Qed.

Lemma distinct_apart vs : distinct_files vs ->
  apart config_file vs /\ apart genesis_file vs /\ (forall v w, v ∈ vs -> w ∈ vs -> ~ same_file (genesis_file v) (config_file w)).
Proof.
  intros Hd. split_and!; [intros i j v w Hi Hj Hne; by apply (Hd i j v w Hi Hj)..|].
  intros v w [i Hi]%list_elem_of_lookup [j Hj]%list_elem_of_lookup. by apply (Hd i j v w).
Qed.

Lemma getSeed_in v vs : v_Seed v = true -> getSeedValidator (v :: vs) = v.
Proof. unfold getSeedValidator. simpl. by intros ->. Qed.

(** The validators, from their numbering to the last of their commands. *)
Lemma validators_ok n count outputDir gentxDir seedIP (s1 s2 s3 : St) vs0 vs :
  initValidators count outputDir (n_ChainID n) true seedIP s1 = (s2, Ok vs0) ->
  build_validators n gentxDir [] vs0 s2 = (s3, Ok vs) ->
  length vs = count /\ numbered seedIP vs /\ Forall (located outputDir (n_ChainID n)) vs
  /\ (forall i v, vs !! i = Some v -> v_Seed v = (i =? 0)%nat)
  /\ sys_Commands s3 = sys_Commands s1 ++ mjoin (validator_commands n gentxDir (getSeedValidator vs) <$> vs).
Proof.
  intros Hi Hb. apply initValidators_ok in Hi as (Hc & Hlen & Hnum & Hloc & Hseed).
  destruct (build_validators_ok n gentxDir (getSeedValidator vs0) vs0 [] s2 s3 vs Hb) as (built & -> & HK & Hc').
  { intros x Hx. destruct vs0 as [|v vs0]; [done|]. injection Hx as <-. pose proof (Hseed O v eq_refl) as E. by rewrite getSeed_in. }
  { intros x Hx. destruct vs0 as [|v vs0]; [by apply elem_of_nil in Hx|]. apply list_elem_of_lookup in Hx as [i Hi]. by apply (Hseed (S i)). }
  simpl in *. split_and!.
  - rewrite <- Hlen. symmetry. by eapply Forall2_length.
  - clear -Hnum HK. revert seedIP Hnum. induction HK as [|v v' vs vs' (_ & E & _) HK IH]; intros last Hn; [done|].
    destruct Hn as [Hip Hn]. rewrite <- E in *. split; [done|by apply IH].
  - clear -Hloc HK. induction HK as [|v v' vs vs' K HK IH]; [done|]. apply Forall_cons in Hloc as [Hv Hloc]. constructor; [|by apply IH].
    destruct K as (E1 & _ & E3 & E4 & E5 & _). unfold located in *. by rewrite E1, E3, E4, E5.
  - intros i v' Hv'. destruct (Forall2_lookup_r _ _ _ _ _ HK Hv') as (v & Hv & K). rewrite <- (Hseed i v Hv). apply K.
  - rewrite Hc', Hc. f_equal. f_equal. apply list_fmap_ext. intros i v _. unfold validator_commands.
    destruct HK as [|v0 v0' vs0 built K HK]; [done|]. assert (v_Seed v0 = true) as E0 by exact (Hseed O v0 eq_refl). rewrite (getSeed_in v0) by done.
    destruct K as (_ & _ & E3 & E4 & _ & _ & _ & E8). rewrite (getSeed_in v0') by congruence. by rewrite E3, E4.
Qed.

(** C39: A network that was built has the validators that were asked for, the first of them the seed: they are numbered from the
    address after the given one, differently for up to 256 of them, and live in directories named after the chain and
    themselves.  Exactly the listed commands were started, in order: every validator has its key, its chain, its account in the
    seed's genesis and its transaction, the seed makes itself the oracle's admin, and the transactions are collected once, at the
    end.  When no two of the files are one, every validator has the seed's genesis file, and a configuration that names exactly
    the others as its peers. *)
Theorem network_build n count outputDir seedIP (s s' : St) vs :
  build_network n count outputDir seedIP s = (s', Ok vs) ->
  Build n count outputDir seedIP s = (s', Ok (yaml_Validators vs)) /\ length vs = Z.to_nat count
  /\ (forall i v, vs !! i = Some v -> v_Seed v = (i =? 0)%nat /\ located outputDir (n_ChainID n) v)
  /\ (forall a b c d, byte a -> byte b -> byte c -> byte d -> seedIP = dotted a b c d ->
        (forall i v, vs !! i = Some v -> v_IPv4Address v = dotted a b c ((d + 1 + Z.of_nat i) mod 256))
        /\ (count <= 256 -> NoDup (v_IPv4Address <$> vs)))
  /\ sys_Commands s' = sys_Commands s
       ++ mjoin (validator_commands n (slash outputDir GentxsDir) (getSeedValidator vs) <$> vs)
       ++ [mkCommand daemon ["collect-gentxs"; "--gentx-dir"; slash outputDir GentxsDir; "--home"; v_NodeHomeDir (getSeedValidator vs)] []]
  /\ (distinct_files vs ->
        (forall v, v ∈ vs -> ReadFile (genesis_file v) (sys_World s') = ReadFile (genesis_file (getSeedValidator vs)) (sys_World s'))
        /\ forall i v, vs !! i = Some v -> has_peers vs i v (sys_World s')).
Proof.
  intros Hr. assert (Build n count outputDir seedIP s = (s', Ok (yaml_Validators vs))) as HB by (unfold Build; by rewrite (mbnd_run _ _ _ _ _ Hr)).
  split; [done|]. clear HB. unfold build_network in Hr. run_step Hr as u1 s1 H1'. simpl in H1'. run_step H1' as u1' s1' H1''.
  apply mret_ok_inv in H1' as [-> _]. apply empty_dir_commands in H1''. run_step Hr as u2 s2 H2'. apply createDirs_commands in H2'.
  run_step Hr as vs0 s3 H3'. run_step Hr as vs1 s4 H4'. destruct (validators_ok _ _ _ _ _ _ _ _ _ _ H3' H4') as (Hlen & Hnum & Hloc & Hseed & Hc).
  run_step Hr as u5 s5 H5'. apply collectGenTxs_emits in H5'. run_step Hr as u6 s6 H6'. run_step Hr as u7 s7 H7'.
  apply mret_ok_inv in Hr as [-> ->]. split_and!; [done|..].
  - intros i v Hv. split; [by apply Hseed|]. by apply (Forall_lookup_1 _ _ _ _ Hloc Hv).
  - intros a b c d Ha Hb Hcb Hd ->. split; [intros i v Hv; by eapply numbered_address|]. intros Hle. eapply numbered_distinct; [..|exact Hnum|]; try done. lia.
  - rewrite <- H1'', <- H2', app_assoc, <- Hc, <- H5'. apply setPeers_commands in H6' as <-. by apply copyGenesis_commands in H7'.
  - intros (Hac & Hag & Hgc)%distinct_apart. destruct (setPeers_from_ok _ _ _ _ _ _ H6' Hac) as (Hp & _).
    assert (forall v, v ∈ vs1 -> v_Seed v = false -> ~ same_file (genesis_file v) (genesis_file (getSeedValidator vs1))) as Hsrc.
    { intros v Hv Hs. destruct vs1 as [|w l]; [by apply elem_of_nil in Hv|]. assert (v_Seed w = true) as Hw by exact (Hseed O w eq_refl).
      rewrite getSeed_in by done. apply elem_of_cons in Hv as [->|Hv]; [congruence|]. by apply (apart_cons _ _ _ Hag). }
    destruct (copyGenesis_ok _ _ _ _ _ H7' Hag Hsrc) as (Hg & Hf). split.
    + intros v Hv. destruct (v_Seed v) eqn:Ev; [|by apply Hg]. apply list_elem_of_lookup in Hv as [i Hi].
      pose proof (Hseed i v Hi) as E. rewrite Ev in E. symmetry in E. apply Nat.eqb_eq in E as ->.
      destruct vs1 as [|w l]; [done|]. injection Hi as ->. by rewrite getSeed_in.
    + intros i v Hv. destruct (Hp i v Hv) as (text & config & Ht & Hrest). exists text, config. split; [|done]. rewrite <- Ht. apply Hf.
      intros w Hw _. apply Hgc; [done|]. by eapply list_elem_of_lookup_2.
Qed.

(** A reset goes to the directories of the validators, when their names are read from the file. *)
Lemma network_Reset_homes n outputDir vs data (s s' : St) u :
  Forall (located outputDir (n_ChainID n)) vs -> ReadFile (network_file outputDir (n_ChainID n)) (sys_World s) = Ok data ->
  yaml_Nodes data = Ok ((fun v => mkNodeEntry (v_Moniker v)) <$> vs) -> network_Reset (n_ChainID n) outputDir s = (s', Ok u) ->
  sys_Commands s' = sys_Commands s ++ ((fun v => mkCommand daemon ["unsafe-reset-all"; "--home"; v_NodeHomeDir v] []) <$> vs).
Proof.
  intros Hloc Hd Hy Hr. unfold network_Reset in Hr. run_step Hr as data' s1 Hf. apply read_file_ok in Hf as [-> Hf].
  rewrite Hd in Hf. injection Hf as <-. lift_step Hr as nodes Hn. rewrite Hy in Hn. injection Hn as <-. clear Hd Hy.
  revert s Hr. induction Hloc as [|v vs (_ & Eh & En) Hloc IH]; intros s Hr; cbn in Hr; [apply mret_ok_inv in Hr as [-> _]; by rewrite app_nil_r|].
  run_step Hr as u1 s1 Hv. apply emits_unit with (l := [mkCommand daemon ["unsafe-reset-all"; "--home"; v_NodeHomeDir v] []]) in Hv.
  - rewrite (IH _ Hr), Hv, <- app_assoc. done.
  - intros t t' a Ht. apply shellExec_commands in Ht. rewrite Ht, En, Eh. unfold slash. by rewrite !string_app_assoc.
Qed.

(** ** The genesis file of a node of its own *)

(** The file holds the JSON text of the value. *)
Definition holds (home : string) (v : Json) (w : W) : Prop :=
  exists text, ReadFile (genesis_path home) w = Ok text /\ json_parse text = Some v /\ has_type Genesis v = true.

Lemma Genesis_ok : fields_ok Genesis = true.
Proof. vm_compute. done. Qed.

Lemma Unmarshal_typed t text v : Unmarshal t text = Ok v -> has_type t v = true.
Proof. unfold Unmarshal. destruct (json_parse text); [|done]. apply has_type_unmarshal, has_type_zero. Qed.

Lemma replace_ok home edit (s s' : St) u : replace home edit s = (s', Ok u) -> exists text v v',
  ReadFile (genesis_path home) (sys_World s) = Ok text /\ Unmarshal Genesis text = Ok v /\ edit v = Ok v'
  /\ (has_type Genesis v' = true -> holds home v' (sys_World s'))
  /\ forall q, ~ same_file (genesis_path home) q -> ReadFile q (sys_World s') = ReadFile q (sys_World s).
Proof.
  unfold replace, readGenesis, writeGenesis. intros Hr. run_step Hr as v s1 Hg. run_step Hg as text s2 Ht.
  apply read_file_ok in Ht as [-> Ht]. apply mlift_ok_inv in Hg as [-> Hg]. lift_step Hr as v' Hv'. lift_step Hr as content Hc. destruct u.
  exists text, v, v'. split_and!; [done..| |intros q; by apply (write_file_other _ _ _ _ _ _ Hr)].
  intros Hty. exists content. split_and!; [by eapply write_file_read|by apply tm_Marshal_text|done].
Qed.

Lemma holds_replace home edit v (s s' : St) u : holds home v (sys_World s) -> replace home edit s = (s', Ok u) ->
  exists v', edit v = Ok v' /\ (has_type Genesis v' = true -> holds home v' (sys_World s')).
Proof.
  intros (text & Ht & Hp & Hty) Hr. apply replace_ok in Hr as (text' & v0 & v' & Ht' & Hu & He & Hh & _). rewrite Ht in Ht'. injection Ht' as <-.
  unfold Unmarshal in Hu. rewrite Hp, (unmarshal_again _ _ _ Genesis_ok (has_type_zero _) Hty) in Hu. injection Hu as <-. eauto.
Qed.

Lemma holds_set_field home path u x v (s s' : St) r : type_at path Genesis = Some u -> has_type u x = true ->
  holds home v (sys_World s) -> replace home (set_field path x) s = (s', Ok r) -> holds home (put path x v) (sys_World s').
Proof.
  intros Hat Hx Hh Hr. destruct (holds_replace _ _ _ _ _ _ Hh Hr) as (v' & [= <-] & Hh'). apply Hh'.
  destruct Hh as (text & _ & _ & Hty). by apply (has_type_put path x Genesis v u Genesis_ok).
Qed.

Lemma holds_first_denom home denom v (s s' : St) u : holds home v (sys_World s) -> replace home (set_first_denom denom) s = (s', Ok u) ->
  exists coin coins, get min_deposit v = Some (JArray (coin :: coins))
    /\ holds home (put min_deposit (JArray (put ["denom"] (JString denom) coin :: coins)) v) (sys_World s').
Proof.
  intros Hh Hr. destruct (holds_replace _ _ _ _ _ _ Hh Hr) as (v' & Hv' & Hh'). unfold set_first_denom in Hv'.
  destruct (get min_deposit v) as [[| | | |[|coin coins]|]|] eqn:Eg; try done. injection Hv' as <-. exists coin, coins. split; [done|].
  apply Hh'. destruct Hh as (_ & _ & _ & Hty). assert (type_at min_deposit Genesis = Some GovMinDeposit) as Hat by done.
  destruct (has_type_get _ _ _ _ Hty Hat) as (x & Hx & Htx). rewrite Eg in Hx. injection Hx as <-.
  apply (has_type_put _ _ _ _ _ Genesis_ok Hty Hat). simpl in Htx |- *. apply andb_true_iff in Htx as [Hc Hcs]. rewrite Hcs, andb_true_r.
  by apply (has_type_put ["denom"] (JString denom) (TStruct [("denom", TString); ("amount", TString)]) coin TString).
Qed.

(** A TOML file that was edited; only it is written. *)
Lemma replace_toml_ok t path edit (s s' : St) u : replace_toml t path edit s = (s', Ok u) ->
  (forall config, has_type t config = true -> has_type t (edit config) = true) ->
  (exists text config, ReadFile path (sys_World s') = Ok text /\ toml_Decode t text = Ok (edit config) /\ has_type t config = true)
  /\ forall q, ~ same_file path q -> ReadFile q (sys_World s') = ReadFile q (sys_World s).
Proof.
  unfold replace_toml, write_toml. intros Hr Hedit. run_step Hr as content s1 Hc. apply read_file_ok in Hc as [-> _].
  lift_step Hr as config Hd. run_step Hr as u1 s2 Hw. lift_step Hr as text Ht. destruct u. apply toml_typed in Hd. split.
  - exists text, config. split_and!; [by eapply write_file_read| |done]. eapply toml_roundtrip; [by apply Hedit|exact Ht].
  - intros q Hq. by rewrite (write_file_other _ q _ _ _ _ Hr Hq), (write_file_other _ q _ _ _ _ Hw Hq).
Qed.

Lemma edit_config_typed n config : has_type ConfigTOML config = true -> has_type ConfigTOML (edit_config n config) = true.
Proof.
  destruct ConfigTOML_peers as [Hok _]. intros Hc. unfold edit_config.
  repeat (eapply (has_type_put _ _ ConfigTOML); [exact Hok| |reflexivity|vm_compute; reflexivity]).
  assert (has_type ConfigTOML (if d_Standalone n then config else put persistent_peers (JString (d_PeerAddress n)) config) = true) as Hp.
  { destruct (d_Standalone n); [done|]. by eapply (has_type_put _ _ ConfigTOML). }
  destruct (String.eqb _ _); [done|]. by eapply (has_type_put _ _ ConfigTOML).
Qed.
Lemma edit_app_typed n config : has_type AppTOML config = true -> has_type AppTOML (edit_app n config) = true.
Proof.
  intros Hc. assert (fields_ok AppTOML = true) as Hok by (vm_compute; done). unfold edit_app.
  eapply (has_type_put _ _ AppTOML); [exact Hok| |reflexivity|done]. eapply (has_type_put _ _ AppTOML); [exact Hok| |reflexivity|done].
  by eapply (has_type_put _ _ AppTOML).
Qed.

(** The five edits, in their order. *)
Definition standalone_edits (n : Node) (coins : list Json) (v : Json) : Json :=
  put voting_period (JString (Duration_String (d_GovVotingPeriod n)))
    (put max_deposit_period (JString (Duration_String (d_GovMaxDepositPeriod n)))
       (put min_deposit (JArray coins)
          (put min_threshold (JNumber (big_String (d_MinCLPCreatePoolThreshold n))) (put bond_denom (JString StakeTokenDenom) v)))).

Lemma edits_ok n (s1 s2 s3 s4 s5 s6 : St) u1 u2 u3 u4 u5 :
  ReplaceStakingBondDenom DefaultNodeHome s1 = (s2, Ok u1) ->
  ReplaceCLPMinCreatePoolThreshold DefaultNodeHome (d_MinCLPCreatePoolThreshold n) s2 = (s3, Ok u2) ->
  ReplaceGovDepositParamsMinDeposit DefaultNodeHome StakeTokenDenom s3 = (s4, Ok u3) ->
  ReplaceGovDepositParamsMaxDepositPeriod DefaultNodeHome (d_GovMaxDepositPeriod n) s4 = (s5, Ok u4) ->
  ReplaceGovVotingParamsVotingPeriod DefaultNodeHome (d_GovVotingPeriod n) s5 = (s6, Ok u5) ->
  exists text v coin coins, ReadFile (genesis_path DefaultNodeHome) (sys_World s1) = Ok text /\ Unmarshal Genesis text = Ok v
    /\ get min_deposit v = Some (JArray (coin :: coins))
    /\ holds DefaultNodeHome (standalone_edits n (put ["denom"] (JString StakeTokenDenom) coin :: coins) v) (sys_World s6).
Proof.
  intros R1 R2 R3 R4 R5. apply replace_ok in R1 as (text & v & v1 & Ht & Hu & Hv1 & Hh & _).
  assert (v1 = put bond_denom (JString StakeTokenDenom) v) as -> by (by injection Hv1).
  assert (holds DefaultNodeHome (put bond_denom (JString StakeTokenDenom) v) (sys_World s2)) as Hh1.
  { apply Hh. by apply (has_type_put bond_denom _ Genesis v TString Genesis_ok (Unmarshal_typed _ _ _ Hu)). }
  apply (holds_set_field _ min_threshold TNumber (JNumber _) _ _ _ _ eq_refl eq_refl Hh1) in R2.
  destruct (holds_first_denom _ _ _ _ _ _ R2 R3) as (coin & coins & Hget & Hh3).
  apply (holds_set_field _ max_deposit_period TString (JString _) _ _ _ _ eq_refl eq_refl Hh3) in R4.
  apply (holds_set_field _ voting_period TString (JString _) _ _ _ _ eq_refl eq_refl R4) in R5.
  exists text, v, coin, coins. split_and!; [done..| |exact R5]. by rewrite !get_put_ne in Hget by reflexivity.
Qed.

(** ** The commands of a node of its own *)

Definition genesis_commands_of (n : Node) (gentxDir nodeID pubKey : string) : list Command :=
  let run args := mkCommand daemon args [] in
  let backend := cli_keyringBackend (d_CLI n) in
  [run ["add-genesis-account"; d_Address n; d_MintAmount n; "--home"; DefaultNodeHome]]
  ++ ((fun a => run ["add-genesis-clp-admin"; a; "--home"; DefaultNodeHome; "--keyring-backend"; backend]) <$> d_AdminCLPAddresses n)
  ++ (if String.eqb (d_AdminOracleAddress n) "" then []
      else [run ["set-genesis-oracle-admin"; d_AdminOracleAddress n; "--home"; DefaultNodeHome; "--keyring-backend"; backend]])
  ++ [run ["tendermint"; "show-node-id"; "--home"; DefaultNodeHome]; run ["tendermint"; "show-validator"; "--home"; DefaultNodeHome];
      mkCommand daemon
        ["gentx"; d_Moniker n; d_BondAmount n; "--details"; d_Moniker n; "--keyring-backend"; backend; "--home"; DefaultNodeHome;
         "--output-document"; slash gentxDir "gentx.json"; "--node-id"; nodeID; "--pubkey"; pubKey; "--ip"; d_IPAddr n;
         "--chain-id"; d_ChainID n] (passwords (d_CLI n) 3 (d_Password n));
      run ["collect-gentxs"; "--gentx-dir"; gentxDir; "--home"; DefaultNodeHome]].

Lemma admins_commands c l (s s' : St) u :
  mfor l (fun a => run! AddGenesisCLPAdmin c a DefaultNodeHome; mret tt) s = (s', Ok u) ->
  sys_Commands s' = sys_Commands s ++
    ((fun a => mkCommand daemon ["add-genesis-clp-admin"; a; "--home"; DefaultNodeHome; "--keyring-backend"; cli_keyringBackend c] []) <$> l).
Proof.
  revert s. induction l as [|a l IH]; intros s Hr; cbn [mfor] in Hr; [apply mret_ok_inv in Hr as [-> _]; by rewrite app_nil_r|].
  run_step Hr as u1 s1 Ha. run_step Ha as out t1 Ha'. apply mret_ok_inv in Ha as [-> _]. apply shellExec_commands in Ha'.
  rewrite (IH _ Hr), Ha', <- app_assoc. done.
Qed.

Lemma oracle_admin_commands c a (s s' : St) u :
  (if String.eqb a "" then mret tt else run! SetGenesisOracleAdmin c a DefaultNodeHome; mret tt) s = (s', Ok u) ->
  sys_Commands s' = sys_Commands s ++ (if String.eqb a "" then []
    else [mkCommand daemon ["set-genesis-oracle-admin"; a; "--home"; DefaultNodeHome; "--keyring-backend"; cli_keyringBackend c] []]).
Proof.
  destruct (String.eqb a ""); intros Hr; [apply mret_ok_inv in Hr as [-> _]; by rewrite app_nil_r|].
  run_step Hr as out s1 Ha. apply mret_ok_inv in Hr as [-> _]. by apply shellExec_commands in Ha.
Qed.

Lemma seed_start n (s s' : St) u : seedGenesis DefaultNodeHome n s = (s', Ok u) -> exists gentxDir nodeID pubKey s1,
  sys_Commands s1 = sys_Commands s ++ genesis_commands_of n gentxDir nodeID pubKey /\
  (run! ReplaceStakingBondDenom DefaultNodeHome;
   run! ReplaceCLPMinCreatePoolThreshold DefaultNodeHome (d_MinCLPCreatePoolThreshold n);
   run! ReplaceGovDepositParamsMinDeposit DefaultNodeHome StakeTokenDenom;
   run! ReplaceGovDepositParamsMaxDepositPeriod DefaultNodeHome (d_GovMaxDepositPeriod n);
   run! ReplaceGovVotingParamsVotingPeriod DefaultNodeHome (d_GovVotingPeriod n);
   run! replaceConfigTOML n;
   replaceAppTOML n) s1 = (s', Ok u).
Proof.
  unfold seedGenesis. intros Hr. run_step Hr as o1 s1 C1. apply shellExec_commands in C1. run_step Hr as o2 s2 C2. apply admins_commands in C2.
  run_step Hr as o3 s3 C3. apply oracle_admin_commands in C3. run_step Hr as dir s4 C4. apply on_world_commands in C4.
  run_step Hr as id s5 C5. run_step Hr as key s6 C6. apply shellExec_commands in C6. run_step Hr as id' s7 C7.
  destruct id as [id|e]; [|done]. apply mret_ok_inv in C7 as [-> ->]. apply mtry_ok_inv in C5 as [(a & [= <-] & C5)|(e & ? & _)]; [|done].
  apply shellExec_commands in C5. run_step Hr as o8 s8 C8. apply shellExecInput_commands in C8. run_step Hr as o9 s9 C9. apply shellExec_commands in C9.
  exists dir, (TrimSuffix id newline), (TrimSuffix key newline), s9. split; [|exact Hr].
  rewrite C9, C8, C6, C5, C4, C3, C2, C1. unfold genesis_commands_of. by rewrite <- !app_assoc.
Qed.

(** The five fields that are set. *)
Definition edited : list (list string) := [bond_denom; min_threshold; min_deposit; max_deposit_period; voting_period].

Lemma standalone_edits_get n coins v : has_type Genesis v = true ->
  let v' := standalone_edits n coins v in
  get bond_denom v' = Some (JString "aku") /\ get min_threshold v' = Some (JNumber (big_String (d_MinCLPCreatePoolThreshold n)))
  /\ get min_deposit v' = Some (JArray coins) /\ get max_deposit_period v' = Some (JString (Duration_String (d_GovMaxDepositPeriod n)))
  /\ get voting_period v' = Some (JString (Duration_String (d_GovVotingPeriod n)))
  /\ forall p, forallb (fun e => diverge e p) edited = true -> get p v' = get p v.
Proof.
  intros Hty. assert (forall p u, type_at p Genesis = Some u -> exists y, get p v = Some y) as Hex
    by (intros p u Hat; destruct (has_type_get _ _ _ _ Hty Hat) as (y & Hy & _); eauto).
  destruct (Hex bond_denom TString eq_refl) as [y1 E1]. destruct (Hex min_threshold TNumber eq_refl) as [y2 E2].
  destruct (Hex min_deposit GovMinDeposit eq_refl) as [y3 E3]. destruct (Hex max_deposit_period TString eq_refl) as [y4 E4].
  destruct (Hex voting_period TString eq_refl) as [y5 E5]. unfold standalone_edits. cbv zeta. split_and!.
  - rewrite !(get_put_ne _ bond_denom) by reflexivity. by rewrite (get_put _ _ _ _ E1).
  - rewrite !(get_put_ne _ min_threshold) by reflexivity. rewrite (get_put _ _ _ y2); [done|]. by rewrite get_put_ne by reflexivity.
  - rewrite !(get_put_ne _ min_deposit) by reflexivity. rewrite (get_put _ _ _ y3); [done|]. by rewrite !get_put_ne by reflexivity.
  - rewrite !(get_put_ne _ max_deposit_period) by reflexivity. rewrite (get_put _ _ _ y4); [done|]. by rewrite !get_put_ne by reflexivity.
  - rewrite (get_put _ _ _ y5); [done|]. by rewrite !get_put_ne by reflexivity.
  - intros p Hp. unfold edited in Hp. cbn [forallb] in Hp. rewrite !andb_true_iff in Hp. destruct Hp as (D1 & D2 & D3 & D4 & D5 & _).
    rewrite (get_put_ne voting_period p _ _ D5), (get_put_ne max_deposit_period p _ _ D4), (get_put_ne min_deposit p _ _ D3),
      (get_put_ne min_threshold p _ _ D2). apply (get_put_ne bond_denom p _ _ D1).
Qed.

(** C40: The genesis of a node of its own is made by exactly the listed commands, and then edited: the bond and the first coin of the
    minimal deposit are aku, the threshold of a pool and the two periods are those of the node, and every other declared field is
    what collect-gentxs left.  What the struct of the generator does not declare is lost: the file has no registry of denominations,
    no claims of distributions, and nothing of the bridge, whatever it had before.  The configuration is the one before with the
    node's edits. *)
Theorem standalone_genesis n (s s' : St) u :
  seedGenesis DefaultNodeHome n s = (s', Ok u) ->
  ~ same_file (ConfigFilePath (d_CLI n)) (genesis_path DefaultNodeHome) -> ~ same_file (AppFilePath (d_CLI n)) (genesis_path DefaultNodeHome) ->
  ~ same_file (AppFilePath (d_CLI n)) (ConfigFilePath (d_CLI n)) ->
  exists gentxDir nodeID pubKey s1 text v coin coins text' v',
    sys_Commands s1 = sys_Commands s ++ genesis_commands_of n gentxDir nodeID pubKey
    /\ ReadFile (genesis_path DefaultNodeHome) (sys_World s1) = Ok text /\ Unmarshal Genesis text = Ok v
    /\ ReadFile (genesis_path DefaultNodeHome) (sys_World s') = Ok text' /\ json_parse text' = Some v'
    /\ get bond_denom v' = Some (JString "aku") /\ get min_threshold v' = Some (JNumber (big_String (d_MinCLPCreatePoolThreshold n)))
    /\ get min_deposit v = Some (JArray (coin :: coins))
    /\ get min_deposit v' = Some (JArray (put ["denom"] (JString "aku") coin :: coins))
    /\ get max_deposit_period v' = Some (JString (Duration_String (d_GovMaxDepositPeriod n)))
    /\ get voting_period v' = Some (JString (Duration_String (d_GovVotingPeriod n)))
    /\ (forall p, forallb (fun e => diverge e p) edited = true -> get p v' = get p v)
    /\ (forall m, field_type m AppState = None -> get ["app_state"; m] v' = None)
    /\ get ["app_state"; "tokenregistry"] v' = None /\ get ["app_state"; "dispensation"; "claims"] v' = None
    /\ get ["app_state"; "ethbridge"] v' = Some (JObject [])
    /\ exists text_c text_a config app, ReadFile (ConfigFilePath (d_CLI n)) (sys_World s') = Ok text_c
         /\ toml_Decode ConfigTOML text_c = Ok (edit_config n config)
         /\ ReadFile (AppFilePath (d_CLI n)) (sys_World s') = Ok text_a /\ toml_Decode AppTOML text_a = Ok (edit_app n app).
Proof.
  intros Hr Hcg Hag Hac. apply seed_start in Hr as (dir & id & key & s1 & Hc & Hr). run_step Hr as u1 s2 R1. run_step Hr as u2 s3 R2.
  run_step Hr as u3 s4 R3. run_step Hr as u4 s5 R4. run_step Hr as u5 s6 R5. run_step Hr as u6 s7 R6.
  destruct (edits_ok _ _ _ _ _ _ _ _ _ _ _ _ R1 R2 R3 R4 R5) as (text & v & coin & coins & Ht & Hu & Hcoin & text' & Ht' & Hp' & Hty').
  destruct (standalone_edits_get n (put ["denom"] (JString StakeTokenDenom) coin :: coins) v (Unmarshal_typed _ _ _ Hu))
    as (G1 & G2 & G3 & G4 & G5 & G6).
  destruct (replace_toml_ok _ _ _ _ _ _ R6 (edit_config_typed n)) as ((text_c & config & Hc1 & Hc2 & _) & Fc).
  destruct (replace_toml_ok _ _ _ _ _ _ Hr (edit_app_typed n)) as ((text_a & app & Ha1 & Ha2 & _) & Fa).
  set (v' := standalone_edits _ _ _) in *. clearbody v'. exists dir, id, key, s1, text, v, coin, coins, text', v'.
  assert (forall p t k, type_at p Genesis = Some t -> field_type k t = None -> (exists fs, t = TStruct fs) -> get (p ++ [k]) v' = None) as Hlost
    by (intros p t k; by apply lost_field).
  split_and!; try assumption.
  - by rewrite Fa, Fc.
  - intros m Hm. apply (Hlost ["app_state"] AppState m eq_refl Hm). by eexists.
  - apply (Hlost ["app_state"] AppState "tokenregistry" eq_refl eq_refl). by eexists.
  - apply (Hlost ["app_state"; "dispensation"] Dispensation "claims" eq_refl eq_refl). by eexists.
  - destruct (has_type_get ["app_state"; "ethbridge"] _ _ (TStruct []) Hty' eq_refl) as (x & -> & Hx).
    apply has_type_struct in Hx as (vs & -> & Hvs). by inversion Hvs.
  - exists text_c, text_a, config, app. split_and!; [|done..]. by rewrite Fa.
Qed.
End Proofs.

(** ** A system of files, and runs *)

Section Examples.
#[local] Existing Instances RefAddress.

Fixpoint json_eqb (a b : Json) : bool :=
  match a, b with
  | JNull, JNull => true
  | JBool x, JBool y => Bool.eqb x y
  | JNumber x, JNumber y | JString x, JString y => String.eqb x y
  | JArray l, JArray l' =>
      (fix go l l' := match l, l' with [], [] => true | x :: l, y :: l' => json_eqb x y && go l l' | _, _ => false end) l l'
  | JObject l, JObject l' =>
      (fix go (l l' : list (string * Json)) :=
         match l, l' with
         | [], [] => true
         | (k, x) :: l, (k', y) :: l' => String.eqb k k' && json_eqb x y && go l l'
         | _, _ => false
         end) l l'
  | _, _ => false
  end.
Lemma json_eqb_eq a : forall b, json_eqb a b = true -> a = b.
Proof.
  induction a as [|x|x|x|l IH|l IH] using Json_nested_ind; intros b Hb; destruct b as [|y|y|y|l'|l']; try done; simpl in Hb.
  - by apply Bool.eqb_prop in Hb as ->.
  - by apply String.eqb_eq in Hb as ->.
  - by apply String.eqb_eq in Hb as ->.
  - f_equal. revert l' Hb. induction IH as [|x l Hx _ IHl]; intros [|y l'] Hb; try done. apply andb_true_iff in Hb as [Hy Hb].
    by rewrite (Hx _ Hy), (IHl _ Hb).
  - f_equal. revert l' Hb. induction IH as [|[k x] l Hx _ IHl]; intros [|[k' y] l'] Hb; try done.
    apply andb_true_iff in Hb as [[->%String.eqb_eq Hy]%andb_true_iff Hb]. simpl in Hx.
    rewrite (Hx _ Hy). by rewrite (IHl _ Hb).
Qed.

(** Text that is read back, or an error. *)
Definition ref_print (v : Json) : res string :=
  match json_parse (json_print v) with
  | Some v' => if json_eqb v v' then Ok (json_print v) else Err json_error
  | None => Err json_error
  end.
Lemma ref_print_parse v s : ref_print v = Ok s -> json_parse s = Some v.
Proof.
  unfold ref_print. destruct (json_parse _) as [v'|] eqn:E; [|done]. destruct (json_eqb v v') eqn:Ev; [|done].
  intros [= <-]. by apply json_eqb_eq in Ev as ->.
Qed.

#[local] Instance RefTime : TimeText := {| time_text s := Some s |}.
#[local] Instance RefTime_laws : TimeTextLaws.
Proof. split; [by intros s s' [= <-]|done]. Qed.
#[local] Instance RefTm : TmJson := {| tm_Marshal := ref_print |}.
#[local] Instance RefTm_laws : TmJsonLaws.
Proof. split. intros v s _. apply ref_print_parse. Qed.
#[local] Instance RefCodecs : Codecs := {|
  yaml_Keys s := Ok [mkKeyOutput s "pub"];
  yaml_Nodes _ := Ok [];
  yaml_Validators vs := Join (v_Moniker <$> vs) ",";
  yaml_Node n := d_Moniker n;
  toml_Decode t s := match json_parse s with Some v => if has_type t v then Ok v else Err json_error | None => Err json_error end;
  toml_Encode t v := ref_print v;
|}.
#[local] Instance RefCodecs_laws : CodecsLaws.
Proof.
  split; simpl.
  - intros t s v Hv. destruct (json_parse s) as [v'|]; [|done]. destruct (has_type t v') eqn:E; [|done]. by injection Hv as <-.
  - intros t s v Ht Hs%ref_print_parse. by rewrite Hs, Ht.
Qed.
#[local] Instance RefKeys : Keyring := {| NewAccount _ m _ := Ok (m, m); ConsAddress_String s := s |}.

Record RefWorld := mkRefWorld { files : gmap string string; next : nat }.
Definition ex_genesis : Json :=
  JObject [("chain_id", JString "ex");
    ("app_state", JObject
      [("tokenregistry", JObject [("registry", JObject [("entries", JArray [JObject [("denom", JString "aku")]])])]);
       ("dispensation", JObject [("distributions", JNull); ("claims", JNull)]);
       ("gov", JObject [("deposit_params", JObject [("min_deposit", JArray [JObject [("denom", JString "stake"); ("amount", JString "10")]])])])])].
Definition ex_init (home : string) (w : RefWorld) : RefWorld :=
  mkRefWorld (<[home +:+ "/config/genesis.json" := json_print ex_genesis]> (<[home +:+ "/config/config.toml" := json_print (zero ConfigTOML)]>
    (<[home +:+ "/config/app.toml" := json_print (zero AppTOML)]> (files w)))) (next w).
Definition ex_fresh (prefix suffix : string) (w : RefWorld) : RefWorld * res string :=
  (mkRefWorld (files w) (S (next w)), Ok (prefix +:+ big_String (Z.of_nat (next w)) +:+ suffix)).
#[local] Instance RefOS : OS RefWorld := {|
  ReadFile p w := match files w !! p with Some c => Ok c | None => Err (PlainErr "no such file") end;
  WriteFile p c w := (mkRefWorld (<[p := c]> (files w)) (next w), Ok tt);
  MkdirAll _ w := (w, Ok tt);
  ReadDir _ _ := ([], None);
  RemoveAll p w := (mkRefWorld (delete p (files w)) (next w), Ok tt);
  Stat p w := bool_decide (is_Some (files w !! p));
  TempDir p w := (w, Ok ("/tmp/" +:+ p));
  Getenv _ _ := "/bin";
  Setenv _ _ w := (w, Ok tt);
  Run _ args w := match args with
                  | ["init"; _; _; _; _; home] => (ex_init home w, Ok "")
                  | "tendermint" :: _ => ex_fresh "shown" newline w
                  | _ => (w, Ok "")
                  end;
  RunInput _ _ _ w := ex_fresh "key" "" w;
  http_Get _ w := (w, Err (PlainErr "no answer"));
  password_Generate := ex_fresh "password" "";
  bip39_NewEntropy := ex_fresh "entropy" "";
  bip39_NewMnemonic := fun e => Ok e;
  Haikunate := ex_fresh "node-" "";
|}.
#[local] Instance RefOS_laws : OSLaws RefWorld.
Proof.
  refine {| same_file := eq |}.
  - intros p c w w' [= <-]. simpl. by rewrite lookup_insert_eq.
  - intros p q c w w' r [= <- <-] Hne. simpl. by rewrite lookup_insert_ne.
Defined.

Definition ex_start : System RefWorld := mkSystem (mkRefWorld ∅ 0) [].
Definition ex_network : Network := mkNetwork "ex" (NewCLI "/root/.akhiranoded" "ex" "test") "10aku" "99aku".
Lemma ex_network_ok :
  match (build_network ex_network 2 "/net" "10.0.0.255" ex_start).2 with
  | Ok vs => bool_decide (v_Moniker <$> vs = ["node-0"; "node-3"])
  | _ => false
  end = true.
Proof. vm_compute. reflexivity. Qed.

Lemma ex_distinct (vs : list Validator) : v_Moniker <$> vs = ["node-0"; "node-3"] ->
  (forall i v, vs !! i = Some v -> v_Seed v = (i =? 0)%nat /\ located "/net" "ex" v) -> distinct_files vs.
Proof.
  intros Hm Hl. destruct vs as [|v [|w [|x vs]]]; try done. injection Hm as Ev Ew.
  destruct (Hl O v eq_refl) as (_ & _ & Hh & Hn). destruct (Hl 1%nat w eq_refl) as (_ & _ & Hh' & Hn').
  rewrite Ev in Hh. rewrite Ew in Hh'.
  intros i j a b Ha Hb. unfold config_file, genesis_file.
  destruct i as [|[|i]]; simpl in Ha; [..|done]; destruct j as [|[|j]]; simpl in Hb; [..|done| | |done]; simplify_eq;
    rewrite ?Hn, ?Hn', ?Hh, ?Hh'; (split_and!; [by vm_compute..|intros ?; try done; split; by vm_compute]).
Qed.

Lemma ex_seed_ip : byte 10 /\ byte 0 /\ byte 0 /\ byte 255 /\ "10.0.0.255" = dotted 10 0 0 255.
Proof. unfold byte. split_and!; [lia..|vm_compute; reflexivity]. Qed.
Lemma ex_next_ips : dotted 10 0 0 ((255 + 1 + Z.of_nat 0) mod 256) = "10.0.0.0" /\ dotted 10 0 0 ((255 + 1 + Z.of_nat 1) mod 256) = "10.0.0.1".
Proof. vm_compute. done. Qed.

Lemma network_build_witness : exists s' vs,
  build_network ex_network 2 "/net" "10.0.0.255" ex_start = (s', Ok vs) /\ length vs = 2%nat
  /\ (exists v w, vs = [v; w] /\ v_IPv4Address v = "10.0.0.0" /\ v_IPv4Address w = "10.0.0.1" /\ has_peers vs 0 v (sys_World s')
        /\ ReadFile (genesis_file w) (sys_World s') = ReadFile (genesis_file v) (sys_World s')).
Proof.
  pose proof ex_network_ok as Hok.
  destruct (build_network ex_network 2 "/net" "10.0.0.255" ex_start) as [s' [vs| |]] eqn:E; [|discriminate Hok..].
  apply bool_decide_eq_true in Hok.
  destruct (network_build ex_network 2 "/net" "10.0.0.255" ex_start s' vs E) as (_ & Hlen & Hl & Hip & _ & Hf).
  destruct ex_seed_ip as (B1 & B2 & B3 & B4 & Es). destruct (Hip 10 0 0 255 B1 B2 B3 B4 Es) as [Ha _].
  destruct (Hf (ex_distinct vs Hok Hl)) as [Hg Hp]. exists s', vs. split_and!; [done..|].
  destruct vs as [|v [|w [|x vs]]]; try discriminate Hok. exists v, w. destruct ex_next_ips as [<- <-].
  split_and!; [done|exact (Ha 0%nat v eq_refl)|exact (Ha 1%nat w eq_refl)|exact (Hp 0%nat v eq_refl)|].
  rewrite (Hg w) by (right; left). f_equal. f_equal. apply getSeed_in. by apply (Hl 0%nat).
Defined.
(** A node of its own. *)
Definition ex_home : string := "/root/.akhiranoded".
Definition ex_node : Node :=
  node_of_flags ex_home
    (mkNodeFlags true "admin1|admin2" "admin3" "127.0.0.1" "" "" "10aku" "99aku" 100 900000000000 60000000000 false true true "test")
    "ex" "me" "words".
Definition ex_initialised : System RefWorld := mkSystem (ex_init ex_home (mkRefWorld ∅ 0)) [].

Lemma ex_seed_ok : is_ok (seedGenesis ex_home ex_node ex_initialised).2 = true.
Proof. vm_compute. reflexivity. Qed.
Lemma ex_paths :
  ~ same_file (ConfigFilePath (d_CLI ex_node)) (genesis_path ex_home) /\ ~ same_file (AppFilePath (d_CLI ex_node)) (genesis_path ex_home)
  /\ ~ same_file (AppFilePath (d_CLI ex_node)) (ConfigFilePath (d_CLI ex_node)).
Proof. split_and!; by vm_compute. Qed.
(** The file had a registry. *)
Lemma ex_registry : get ["app_state"; "tokenregistry"; "registry"; "entries"] ex_genesis = Some (JArray [JObject [("denom", JString "aku")]]).
Proof. vm_compute. reflexivity. Qed.

Lemma standalone_genesis_witness : exists s' text' v',
  seedGenesis ex_home ex_node ex_initialised = (s', Ok tt)
  /\ ReadFile (genesis_path ex_home) (sys_World s') = Ok text' /\ json_parse text' = Some v'
  /\ get bond_denom v' = Some (JString "aku") /\ get ["app_state"; "tokenregistry"] v' = None.
Proof.
  pose proof ex_seed_ok as Hok. destruct (seedGenesis ex_home ex_node ex_initialised) as [s' [[]| |]] eqn:E; [|discriminate Hok..].
  destruct ex_paths as (P1 & P2 & P3).
  destruct (standalone_genesis ex_home ex_node ex_initialised s' tt E P1 P2 P3)
    as (dir & id & key & s1 & text & v & coin & coins & text' & v' & _ & _ & _ & Ht & Hp & Hb & _ & _ & _ & _ & _ & _ & _ & Hlost & _).
  exists s', text', v'. split_and!; assumption || reflexivity.
Defined.

Example akhgen_texts :
  path_Join "/net/" "a/../b" = "/net/b" /\ TrimSuffix ("id" +:+ newline) newline = "id" /\ Join ["a"; "b"; "c"] "," = "a,b,c"
  /\ split_bar "x|y" = ["x"; "y"] /\ Atoi_value "many" = 0 /\ nextIP "::1" = Panic.
Proof. vm_compute. done. Qed.
End Examples.
End Akhgen.
