(* ===== verification/Legacy.v ===== *)
(** * Genesis files of release 39

    The command [migrate-data] turns the genesis file of a chain of release 39 into one of
    the current release, module by module (cmd/akhiranoded/cmd/migrate.go and the packages
    legacy/v39 and legacy/v42 of the modules).  Addresses are bytes in the old types and
    text in the new ones; the JSON codecs are the identity, apart from the texts of the
    oracle's old statuses. *)

From Stdlib Require Import ZArith Lia Ascii String.
From stdpp Require Import base list gmap strings.
From S2P Require Import Prelude SdkMath Sdk TokenRegistry ClpTypes ClpCalc ClpKeeper ClpGenesis Json Oracle EthBridge Dispensation.

Module Legacy.
Import Oracle (StatusText, STATUS_TEXT_UNSPECIFIED, STATUS_TEXT_PENDING, STATUS_TEXT_SUCCESS, STATUS_TEXT_FAILED).
Import Dispensation (GogoTypes, TimestampProto, Timestamp).

(** ** x/clp *)

Record ClpPool39 := mkClpPool39 { P39_Symbol : string; P39_Native : Z; P39_External : Z; P39_Units : Z }.
Record ClpProvider39 := mkClpProvider39 { L39_Symbol : string; L39_Units : Z; L39_Address : string }.
Record ClpGenesis39 := mkClpGenesis39 {
  C39_MinCreatePoolThreshold : Z;
  C39_AddressWhitelist : list string;
  C39_PoolList : list ClpPool39;
  C39_LiquidityProviderList : list ClpProvider39;
}.

Section Clp.
Context `{SdkAddress}.

Definition clp_pool (pool : ClpPool39) : Pool :=
  mkPool (Some (mkAsset (P39_Symbol pool))) (P39_Native pool) (P39_External pool) (P39_Units pool).
Definition clp_provider (lp : ClpProvider39) : LiquidityProvider :=
  mkLiquidityProvider (Some (mkAsset (L39_Symbol lp))) (L39_Units lp) (AccAddress_String (L39_Address lp)).
Definition ClpMigrate (genesis : ClpGenesis39) : GenesisState :=
  mkGenesisState (mkParams (u64 (C39_MinCreatePoolThreshold genesis))) (AccAddress_String <$> C39_AddressWhitelist genesis)
    ((fun pool => Some (clp_pool pool)) <$> C39_PoolList genesis)
    ((fun lp => Some (clp_provider lp)) <$> C39_LiquidityProviderList genesis).
End Clp.

(** ** x/ethbridge *)

Record EthbridgeGenesis39 := mkEthbridgeGenesis39 { E39_PeggyTokens : list string; E39_CethReceiverAccount : string }.

Definition EthbridgeMigrate `{SdkAddress} (state : EthbridgeGenesis39) : EthBridge.GenesisState :=
  EthBridge.mkGenesisState (AccAddress_String (E39_CethReceiverAccount state)) (E39_PeggyTokens state).

(** ** x/oracle *)

Inductive StatusText39 := PendingStatusText | SuccessStatusText | FailedStatusText.

Definition StatusText39_String (text : StatusText39) : string :=
  match text with PendingStatusText => "pending" | SuccessStatusText => "success" | FailedStatusText => "failed" end.
(** A text that is none of the three is the zero value. *)
Definition StatusText39_Unmarshal (stringKey : string) : StatusText39 :=
  if String.eqb stringKey "pending" then PendingStatusText
  else if String.eqb stringKey "success" then SuccessStatusText
  else if String.eqb stringKey "failed" then FailedStatusText
  else PendingStatusText.

Record DBProphecy39 := mkDBProphecy39 {
  DB39_ID : string;
  DB39_Text : StatusText39;
  DB39_FinalClaim : string;
  DB39_ClaimValidators : string;
  DB39_ValidatorClaims : string;
}.
Record OracleGenesis39 := mkOracleGenesis39 {
  O39_AddressWhitelist : list string;
  O39_AdminAddress : string;
  O39_Prophecies : list DBProphecy39;
}.

Definition oracle_status (text : StatusText39) : StatusText :=
  match text with
  | PendingStatusText => STATUS_TEXT_PENDING
  | FailedStatusText => STATUS_TEXT_FAILED
  | SuccessStatusText => STATUS_TEXT_SUCCESS
  end.
Definition oracle_prophecy (legacy : DBProphecy39) : Oracle.DBProphecy :=
  Oracle.mkDBProphecy (DB39_ID legacy) (Oracle.mkStatus (oracle_status (DB39_Text legacy)) (DB39_FinalClaim legacy))
    (DB39_ClaimValidators legacy) (DB39_ValidatorClaims legacy).
Definition OracleMigrate `{SdkAddress} (genesis : OracleGenesis39) : Oracle.GenesisState :=
  Oracle.mkGenesisState (Some (ValAddress_String <$> O39_AddressWhitelist genesis))
    (AccAddress_String (O39_AdminAddress genesis)) (oracle_prophecy <$> O39_Prophecies genesis).

(** ** x/dispensation *)

Definition Pending39 : Z := 1.
Definition Completed39 : Z := 2.
Definition Airdrop39 : Z := 1.
Definition LiquidityMining39 : Z := 2.
Definition ValidatorSubsidy39 : Z := 3.

Record Record39 := mkRecord39 {
  R39_Status : Z;
  R39_Name : string;
  R39_Type : Z;
  R39_Recipient : string;
  R39_Coins : list Coin;
  R39_StartHeight : Z;
  R39_CompletedHeight : Z;
  R39_Runner : string;
}.
Record Distribution39 := mkDistribution39 { D39_Type : Z; D39_Name : string; D39_Runner : string }.
Record UserClaim39 := mkUserClaim39 { U39_Address : string; U39_Type : Z; U39_Time : Timestamp }.
Record DispensationGenesis39 := mkDispensationGenesis39 {
  G39_DistributionRecords : list Record39;
  G39_Distributions : list Distribution39;
  G39_Claims : list UserClaim39;
}.

Definition migrateDistributionRecordStatus (status : Z) : Dispensation.DistributionStatus :=
  if status =? Pending39 then Dispensation.DISTRIBUTION_STATUS_PENDING
  else if status =? Completed39 then Dispensation.DISTRIBUTION_STATUS_COMPLETED
  else Dispensation.DISTRIBUTION_STATUS_UNSPECIFIED.
Definition migrateDistributionType (t : Z) : Dispensation.DistributionType :=
  if t =? Airdrop39 then Dispensation.DISTRIBUTION_TYPE_AIRDROP
  else if t =? LiquidityMining39 then Dispensation.DISTRIBUTION_TYPE_LIQUIDITY_MINING
  else if t =? ValidatorSubsidy39 then Dispensation.DISTRIBUTION_TYPE_VALIDATOR_SUBSIDY
  else Dispensation.DISTRIBUTION_TYPE_UNSPECIFIED.

Section Disp.
Context `{SdkAddress, GogoTypes}.

Definition disp_record (d : Record39) : Dispensation.DistributionRecord :=
  Dispensation.mkDistributionRecord (migrateDistributionRecordStatus (R39_Status d)) (migrateDistributionType (R39_Type d))
    (R39_Name d) (AccAddress_String (R39_Recipient d)) (R39_Coins d) (R39_StartHeight d) (R39_CompletedHeight d)
    (AccAddress_String (R39_Runner d)).
Definition disp_distribution (d : Distribution39) : Dispensation.Distribution :=
  Dispensation.mkDistribution (migrateDistributionType (D39_Type d)) (D39_Name d) (AccAddress_String (D39_Runner d)).
Definition disp_claim (c : UserClaim39) : res Dispensation.UserClaim :=
  let! t := panicOnErr (TimestampProto (U39_Time c)) in
  Ok (Dispensation.mkUserClaim (AccAddress_String (U39_Address c)) (migrateDistributionType (U39_Type c)) (Some t)).
Definition DispensationMigrate (state : DispensationGenesis39) : res Dispensation.GenesisState :=
  let! claims := rmap disp_claim (G39_Claims state) in
  Ok (Dispensation.mkGenesisState (Some (disp_record <$> G39_DistributionRecords state))
        (Some (disp_distribution <$> G39_Distributions state)) (Some claims)).

(** ** The whole file *)

(** The modules' parts of a genesis file; [None] is a part that is missing.  The evidence
    module of the SDK gets its default part when it has none. *)
Record AppState39 (E : Type) := mkAppState39 {
  A39_clp : option ClpGenesis39;
  A39_ethbridge : option EthbridgeGenesis39;
  A39_oracle : option OracleGenesis39;
  A39_dispensation : option DispensationGenesis39;
  A39_evidence : option E;
}.
Record AppState (E : Type) := mkAppState {
  A_clp : option GenesisState;
  A_ethbridge : option EthBridge.GenesisState;
  A_oracle : option Oracle.GenesisState;
  A_dispensation : option Dispensation.GenesisState;
  A_evidence : option E;
}.
Arguments mkAppState39 {_} _ _ _ _ _.
Arguments mkAppState {_} _ _ _ _ _.

Definition Migrate {E} (DefaultEvidence : E) (appState : AppState39 E) : res (AppState E) :=
  let! dispensation := (match A39_dispensation E appState with
                        | None => Ok None
                        | Some genesis => let! newGenesis := DispensationMigrate genesis in Ok (Some newGenesis)
                        end) in
  Ok (mkAppState (ClpMigrate <$> A39_clp E appState) (EthbridgeMigrate <$> A39_ethbridge E appState)
        (OracleMigrate <$> A39_oracle E appState) dispensation (Some (default DefaultEvidence (A39_evidence E appState)))).
End Disp.

(** ** The command migrate-data *)

(** Tendermint's genesis documents [D], whose application state is JSON: the parts of the
    chain's own modules, and of x/evidence, with the other parts [O].  [None] is the map that
    the text [null] is read into. *)
Class GenesisDocs (D E O : Type) := {
  GenesisDocFromFile : string -> res D;
  UnmarshalAppState : D -> res (option (AppState39 E * O));
  MarshalAppState : AppState E -> O -> res string;
  with_AppState : string -> D -> D;
  tmjson_Marshal : D -> res string;
  SortJSON : string -> res string;
}.

Definition ErrUnmarshalState : GoError := PlainErr "failed to JSON unmarshal initial genesis state".
Definition ErrUnknownMigration (target : string) : GoError :=
  PlainErr ("unknown migration function for version: " +:+ target).

Section Command.
Context {D E O : Type} `{SdkAddress, GogoTypes, !GenesisDocs D E O}.
Variable DefaultEvidence : E.

(** A write to a map that is not there panics: with no part of x/evidence, one is installed. *)
Definition MigrateMap (appState : option (AppState39 E * O)) : res (AppState E * O) :=
  match appState with
  | None => Panic
  | Some (state, others) => let! newGenState := Migrate DefaultEvidence state in Ok (newGenState, others)
  end.

Definition migrationMap : list (string * (option (AppState39 E * O) -> res (AppState E * O))) := [("v0.9", MigrateMap)].
Definition GetMigrationCallback (version : string) : option (option (AppState39 E * O) -> res (AppState E * O)) :=
  snd <$> List.find (fun kv => String.eqb kv.1 version) migrationMap.
(** One version: sorted as it is. *)
Definition GetMigrationVersions : list string := migrationMap.*1.

(** What the command prints. *)
Definition MigrateGenesisDataCmd (target importGenesis : string) : res string :=
  let! genDoc := GenesisDocFromFile importGenesis in
  let! initialState := rwrap ErrUnmarshalState (UnmarshalAppState genDoc) in
  match GetMigrationCallback target with
  | None => Err (ErrUnknownMigration target)
  | Some migrationFunc =>
      let! newGenState := migrationFunc initialState in
      let! appState := rwrap (PlainErr "failed to JSON marshal migrated genesis state") (MarshalAppState newGenState.1 newGenState.2) in
      let! bz := rwrap (PlainErr "failed to marshal genesis doc") (tmjson_Marshal (with_AppState appState genDoc)) in
      rwrap (PlainErr "failed to sort JSON genesis doc") (SortJSON bz)
  end.

(** The command knows one version; it refuses every other one without migrating anything, and
    fails on a file whose state is the JSON text [null] with a panic and not with an error. *)
Theorem migrate_data_command target importGenesis genDoc :
  GenesisDocFromFile importGenesis = Ok genDoc ->
  (target <> "v0.9" -> forall state, UnmarshalAppState genDoc = Ok state ->
     MigrateGenesisDataCmd target importGenesis = Err (ErrUnknownMigration target))
  /\ (UnmarshalAppState genDoc = Ok None -> MigrateGenesisDataCmd "v0.9" importGenesis = Panic)
  /\ (forall out, MigrateGenesisDataCmd target importGenesis = Ok out ->
       target = "v0.9" /\ exists state others new appState bz,
         UnmarshalAppState genDoc = Ok (Some (state, others)) /\ Migrate DefaultEvidence state = Ok new
         /\ MarshalAppState new others = Ok appState /\ tmjson_Marshal (with_AppState appState genDoc) = Ok bz /\ SortJSON bz = Ok out).
Proof.
  intros Hdoc. unfold MigrateGenesisDataCmd. rewrite Hdoc. cbn [rbind].
  assert (GetMigrationCallback target = if String.eqb "v0.9" target then Some MigrateMap else None) as Hcb
    by (unfold GetMigrationCallback; cbn [migrationMap List.find fst]; by destruct (String.eqb "v0.9" target)).
  split_and!.
  - intros Hne state Hs. rewrite Hs, Hcb. cbn [rwrap rbind]. by destruct (String.eqb_spec "v0.9" target); [subst|].
  - intros Hs. by rewrite Hs.
  - intros out Hr. apply rbind_ok_inv in Hr as (st & Hst%rwrap_ok_inv & Hr). rewrite Hcb in Hr.
    destruct (String.eqb_spec "v0.9" target) as [<-|]; [|done]. split; [done|].
    apply rbind_ok_inv in Hr as ([new others'] & Hm & Hr). apply rbind_ok_inv in Hr as (appState & Ha%rwrap_ok_inv & Hr).
    apply rbind_ok_inv in Hr as (bz & Hb%rwrap_ok_inv & Hr%rwrap_ok_inv). destruct st as [[state others]|]; [|done]. cbn [MigrateMap] in Hm.
    apply rbind_ok_inv in Hm as (new' & Hm & [= -> ->]). by exists state, others', new, appState, bz.
Qed.
End Command.

(** ** Lemmas *)

Lemma StatusText39_roundtrip text : StatusText39_Unmarshal (StatusText39_String text) = text.
Proof. by destruct text. Qed.

(** Only a type or a status that release 39 did not define becomes unspecified. *)
Lemma migrateDistributionType_defined t :
  migrateDistributionType t = Dispensation.DISTRIBUTION_TYPE_UNSPECIFIED <-> ~ (1 <= t <= 3).
Proof.
  unfold migrateDistributionType, Airdrop39, LiquidityMining39, ValidatorSubsidy39.
  destruct (Z.eqb_spec t 1), (Z.eqb_spec t 2), (Z.eqb_spec t 3); split; (done || lia).
Qed.
Lemma migrateStatus_defined s :
  migrateDistributionRecordStatus s = Dispensation.DISTRIBUTION_STATUS_UNSPECIFIED <-> ~ (1 <= s <= 2).
Proof.
  unfold migrateDistributionRecordStatus, Pending39, Completed39. destruct (Z.eqb_spec s 1), (Z.eqb_spec s 2); split; (done || lia).
Qed.

Section Imports.
Context {B R : Type} `{SdkMath, SdkCoins, SdkAddressLaws, SdkQueryLaws, BankKeeper B}.

Definition pool_entry (p : ClpPool39) : string * Pool := (native_key (P39_Symbol p), clp_pool p).
Definition provider_entry (l : ClpProvider39) : string * LiquidityProvider :=
  (GetLiquidityProviderKey (L39_Symbol l) (AccAddress_String (L39_Address l)), clp_provider l).
Definition valid_symbol (s : string) : Prop := Asset_Validate (mkAsset s) = Ok true.

Lemma insert_entries_map {V} (l : list (string * V)) : NoDup l.*1 -> insert_entries l ∅ = list_to_map l.
Proof. intros Hnd. apply insert_listing; [done|]. intros k v. by apply elem_of_list_to_map. Qed.

(** A chain that starts from a migrated file has exactly the pools and providers of the old
    one, each under its key, with the old admins and threshold. *)
Theorem clp_migration_imports g (w0 : World B R) :
  u64 (C39_MinCreatePoolThreshold g) <> 0 -> C39_AddressWhitelist g <> [] -> Forall (fun a => a <> "") (C39_AddressWhitelist g) ->
  Forall (fun p => valid_symbol (P39_Symbol p)) (C39_PoolList g) ->
  Forall (fun l => valid_symbol (L39_Symbol l)) (C39_LiquidityProviderList g) ->
  NoDup (pool_entry <$> C39_PoolList g).*1 -> NoDup (provider_entry <$> C39_LiquidityProviderList g).*1 ->
  clp_pools (w_clp w0) = ∅ -> clp_lps (w_clp w0) = ∅ ->
  InitGenesis (ClpMigrate g) w0
  = (mkWorld (mkClpStore (list_to_map (pool_entry <$> C39_PoolList g)) (list_to_map (provider_entry <$> C39_LiquidityProviderList g))
                (Some (AccAddress_String <$> C39_AddressWhitelist g)) (mkParams (u64 (C39_MinCreatePoolThreshold g))))
       (w_bank w0) (w_registry w0), Ok tt).
Proof.
  intros Ht Hne Ha Hp Hl Hpd Hld Hp0 Hl0. unfold ClpMigrate.
  rewrite <- (insert_entries_map _ Hpd), <- (insert_entries_map _ Hld), <- Hp0, <- Hl0, <- InitGenesis_run; try done.
  - by rewrite <- !list_fmap_compose.
  - apply Forall_fmap. eapply Forall_impl; [exact Hp|]. intros p Hv. by exists (mkAsset (P39_Symbol p)).
  - apply Forall_fmap. eapply Forall_impl; [exact Hl|]. intros l Hv. by exists (mkAsset (L39_Symbol l)).
Qed.
End Imports.

(** A pool and its provider, imported. *)
Section Examples.
#[local] Existing Instances RefMath RefCoins RefAddress RefQuery RefAddress_laws RefQuery_laws RefBank.

Definition ex_genesis39 : ClpGenesis39 :=
  mkClpGenesis39 100 ["root"] [mkClpPool39 "ceth" 900 70 900] [mkClpProvider39 "ceth" 900 "alice"].
Lemma clp_migration_imports_witness :
  InitGenesis (ClpMigrate ex_genesis39) (mkWorld (mkClpStore ∅ ∅ None DefaultParams) (∅ : RefB) tt)
  = (mkWorld ex_genesis_store (∅ : RefB) tt, Ok tt).
Proof.
  rewrite (clp_migration_imports ex_genesis39); [done|done|done|..|done|done].
  - by repeat constructor.
  - constructor; [by vm_compute|done].
  - constructor; [by vm_compute|done].
  - apply NoDup_singleton.
  - apply NoDup_singleton.
Qed.
End Examples.
End Legacy.
