(* ===== verification/RegScript.v ===== *)
(** * scripts/ibc/tokenregistration/main.go: the migration of registry files

    The files that register tokens on a chain are migrated by a script, and the registry of a
    running chain by [TokenRegistry.MigrateToVer2]; both are to give the tokens of the
    exchange that can be sent over IBC, with more than nine decimals, the permission to come
    back.  The script works on texts ([RegistryEntryParser]).  Its loop over six files, which
    reads them with [encoding/json] into one variable and writes them in place, is not
    modelled. *)

From Stdlib Require Import ZArith Lia Ascii String.
From stdpp Require Import base list strings.
From S2P Require Import Prelude Json TokenRegistry.

Module RegScript.
Import TokenRegistry.

Record RegistryEntryParser := mkParser {
  Ps_Decimals : string;
  Ps_Denom : string;
  Ps_BaseDenom : string;
  Ps_Path : string;
  Ps_IbcChannelId : string;
  Ps_IbcCounterpartyChannelId : string;
  Ps_DisplayName : string;
  Ps_DisplaySymbol : string;
  Ps_Network : string;
  Ps_Address : string;
  Ps_ExternalSymbol : string;
  Ps_TransferLimit : string;
  Ps_Permissions : list string;
  Ps_UnitDenom : string;
  Ps_IbcCounterpartyDenom : string;
  Ps_IbcCounterpartyChainId : string;
}.

(** Two permissions, each of which is one of the two: the counter reaches zero. *)
Definition count_permission (requiredPermission : Z) (permission : string) : Z :=
  if String.eqb permission "IBCEXPORT" || String.eqb permission "CLP" then requiredPermission - 1 else requiredPermission.
Definition CheckEntryPermissions (entry : RegistryEntryParser) : bool :=
  if negb (length (Ps_Permissions entry) =? 2)%nat then false
  else fold_left count_permission (Ps_Permissions entry) 2 =? 0.

Definition migrate_parser (entry : RegistryEntryParser) : res RegistryEntryParser :=
  let! dec := panicOnErr (Atoi (Ps_Decimals entry)) in
  if (9 <? dec) && CheckEntryPermissions entry then
    Ok (mkParser (Ps_Decimals entry) (Ps_Denom entry) (Ps_BaseDenom entry) (Ps_Path entry) (Ps_IbcChannelId entry)
          (Ps_IbcCounterpartyChannelId entry) (Ps_DisplayName entry) (Ps_DisplaySymbol entry) (Ps_Network entry)
          (Ps_Address entry) (Ps_ExternalSymbol entry) (Ps_TransferLimit entry)
          (Ps_Permissions entry ++ ["IBCIMPORT"]) (Ps_UnitDenom entry) "" (Ps_IbcCounterpartyChainId entry))
  else Ok entry.
Definition Migration (entries : list RegistryEntryParser) : res (list RegistryEntryParser) := rmap migrate_parser entries.

(** ** The entry of the chain and its text *)

Definition Permission_text (p : Permission) : string :=
  match p with
  | Permission_UNSPECIFIED => "UNSPECIFIED"
  | Permission_CLP => "CLP"
  | Permission_IBCEXPORT => "IBCEXPORT"
  | Permission_IBCIMPORT => "IBCIMPORT"
  | Permission_other n => big_String n
  end.
Definition entry_text (e : RegistryEntry) : RegistryEntryParser :=
  mkParser (big_String (Decimals e)) (Denom e) (BaseDenom e) (Path e) (IbcChannelId e) (IbcCounterpartyChannelId e)
    (DisplayName e) (DisplaySymbol e) (Network e) (Address e) (ExternalSymbol e) (TransferLimit e)
    (Permission_text <$> Permissions e) (UnitDenom e) (IbcCounterpartyDenom e) (IbcCounterpartyChainId e).

(** ** Properties *)

Lemma CheckEntryPermissions_two entry :
  CheckEntryPermissions entry = true
  <-> exists p q, Ps_Permissions entry = [p; q] /\ (p = "IBCEXPORT" \/ p = "CLP") /\ (q = "IBCEXPORT" \/ q = "CLP").
Proof.
  unfold CheckEntryPermissions. destruct (Ps_Permissions entry) as [|p [|q [|r l]]]; cbn [length Nat.eqb negb];
    try (split; [done|by intros (? & ? & ? & _)]).
  cbn [fold_left]. unfold count_permission.
  destruct (String.eqb_spec p "IBCEXPORT"), (String.eqb_spec p "CLP"), (String.eqb_spec q "IBCEXPORT"), (String.eqb_spec q "CLP");
    cbn; (split; [intros Hc; try done; by exists p, q; auto|intros (p' & q' & [= <- <-] & [?|?] & [?|?]); first [done|congruence]]).
Qed.

(** The script can be run again on its own files. *)
Theorem script_idempotent entries entries' : Migration entries = Ok entries' -> Migration entries' = Ok entries'.
Proof.
  unfold Migration. revert entries'. induction entries as [|e entries IH]; intros entries' Hm; cbn [rmap] in *; [by injection Hm as <-|].
  apply rbind_ok_inv in Hm as (e' & He & Hm). apply rbind_ok_inv in Hm as (l' & Hl & [= <-]). cbn [rmap].
  rewrite (IH _ Hl). enough (migrate_parser e' = Ok e') as -> by done.
  unfold migrate_parser in He. apply rbind_ok_inv in He as (dec & Hd & He). destruct ((9 <? dec) && CheckEntryPermissions e) eqn:Hc.
  - apply andb_true_iff in Hc as [_ (p & q & Hpq & _)%CheckEntryPermissions_two]. injection He as <-.
    unfold migrate_parser, CheckEntryPermissions. cbn [Ps_Decimals Ps_Permissions]. rewrite Hd, Hpq. cbn. by rewrite andb_false_r.
  - injection He as <-. unfold migrate_parser. rewrite Hd. cbn [rbind]. by rewrite Hc.
Qed.

(** On an entry that lists each of the two permissions at most once, and no other, the script
    does what the migration of the chain does. *)
Theorem script_matches_chain e :
  - 2 ^ 63 <= Decimals e < 2 ^ 63 -> NoDup (Permissions e) ->
  Forall (fun p => p = Permission_CLP \/ p = Permission_IBCEXPORT) (Permissions e) ->
  migrate_parser (entry_text e) = Ok (entry_text (migrate_entry e)).
Proof.
  intros Hd Hnd Hp. unfold migrate_parser. cbn [entry_text Ps_Decimals]. rewrite (Atoi_String _ Hd). cbn [panicOnErr rbind].
  assert (CheckEntryPermissions (entry_text e)
          = TokenRegistry.CheckEntryPermissions e [Permission_CLP; Permission_IBCEXPORT]) as ->.
  { unfold CheckEntryPermissions, TokenRegistry.CheckEntryPermissions, entry_text. cbn [Ps_Permissions].
    destruct (Permissions e) as [|p [|q [|r l]]]; [done|..].
    - apply Forall_cons in Hp as [[->| ->] _]; reflexivity.
    - apply Forall_cons in Hp as [Hp [Hq _]%Forall_cons]. apply NoDup_cons in Hnd as [Hnd _].
      destruct Hp as [->| ->], Hq as [->| ->]; try reflexivity; by destruct Hnd; left.
    - exfalso. apply Forall_cons in Hp as [Hp [Hq [Hr _]%Forall_cons]%Forall_cons].
      apply NoDup_cons in Hnd as [Hn1 [Hn2 _]%NoDup_cons]. rewrite elem_of_cons, elem_of_cons in Hn1. rewrite elem_of_cons in Hn2.
      destruct Hp as [->| ->], Hq as [->| ->], Hr as [->| ->]; tauto. }
  unfold migrate_entry. destruct (_ && _); [|done]. unfold entry_text; cbn. by rewrite fmap_app.
Qed.

Lemma migrate_entry_adds e :
  9 < Decimals e -> TokenRegistry.CheckEntryPermissions e [Permission_CLP; Permission_IBCEXPORT] = true ->
  Permissions (migrate_entry e) = Permissions e ++ [Permission_IBCIMPORT] /\ Decimals (migrate_entry e) = Decimals e.
Proof. intros Hd%Z.ltb_lt Hc. unfold migrate_entry. by rewrite Hd, Hc. Qed.

(** On others the two differ: an entry that may already come back gets the permission once
    more from the chain, each time it is migrated, and nothing from the script. *)
Theorem migrations_differ e :
  9 < Decimals e < 2 ^ 63 -> Permissions e = [Permission_CLP; Permission_IBCEXPORT; Permission_IBCIMPORT] ->
  Permissions (migrate_entry e) = Permissions e ++ [Permission_IBCIMPORT]
  /\ Permissions (migrate_entry (migrate_entry e)) = Permissions e ++ [Permission_IBCIMPORT; Permission_IBCIMPORT]
  /\ migrate_parser (entry_text e) = Ok (entry_text e).
Proof.
  intros [Hd Hu] Hp.
  assert (forall l x, Permissions x = Permissions e ++ l ->
    TokenRegistry.CheckEntryPermissions x [Permission_CLP; Permission_IBCEXPORT] = true) as Hc.
  { intros l x Hx. unfold TokenRegistry.CheckEntryPermissions. by rewrite Hx, Hp. }
  destruct (migrate_entry_adds e Hd (Hc [] e ltac:(by rewrite app_nil_r))) as [Hp1 Hd1].
  destruct (migrate_entry_adds (migrate_entry e) ltac:(lia) (Hc _ _ Hp1)) as [Hp2 _].
  split; [exact Hp1|]. split; [by rewrite Hp2, Hp1, <- app_assoc|].
  unfold migrate_parser, CheckEntryPermissions, entry_text. cbn [Ps_Decimals Ps_Permissions].
  rewrite Atoi_String by lia. rewrite Hp. cbn. by rewrite andb_false_r.
Qed.
End RegScript.
